(* ===== verification/_CoqProject ===== *)
-Q . S2P
Prelude.v
GoStrings.v
GoTime.v
GoFloat.v
Domain.v
Sql.v
Schedule.v
Pipeline.v
JobStore.v
Download.v
Query.v
Transfer.v
RaftStorage.v
Fsm.v
Cluster.v
Challenge.v
RateLimit.v
Rbac.v
BreakGlass.v
EmergencyDb.v
Shamir.v
AuditLog.v
Alerts.v
GoRegexp.v
Redact.v
Syslog.v
AuditExport.v
AuditLogger.v
Accounts.v
Blob.v
BlobTiers.v
BlobIngest.v
Certs.v
Trust.v
CertManager.v
Modes.v
Wire.v
Topics.v
Bootstrap.v
PeerStore.v
PeerAccess.v
ProtoWire.v
Keys.v
GrpcErrors.v
GrpcServer.v
UserService.v
AuthServer.v
Datasets.v
BreakGlassServer.v
QueryServer.v
Backup.v
Credentials.v
DbRoles.v
StorageOpen.v
AtRest.v
Migrations.v
Discovery.v
GrpcClient.v
Config.v
SetupState.v
Wizard.v
GoNumbers.v
PgLifecycle.v
Daemon.v
Health.v
PubSub.v
