(* ===== verification/Prelude.v ===== *)
(** * A verification library for bib

    bib is a distributed data node written in Go.  Nodes hold topics and
    datasets, split the data of a dataset into content-addressed chunks, find
    and fetch chunks from peers, run jobs and pipelines of jobs over the data,
    replicate a catalog and a job queue through a small cluster, and serve a
    gRPC interface behind access control.  This library translates the program's
    core logic from [internal/] into definitions and proves what makes it
    correct.  Where the code does something other than it says, a theorem states
    what it does.

    ** How the parts interact

    The types of [internal/domain] are shared by everything else.  The transfer
    manager ([internal/p2p/transfer.go]) drives a [Download] of the domain layer
    and verifies each chunk by its hash.  The cluster manager
    ([internal/cluster/cluster.go]) owns a Raft node ([raft.go]), whose commands
    go to the replicated state machine ([fsm.go]), which writes to the node's
    tables ([storage.go]).  A client answers an authentication challenge
    ([internal/auth/challenge.go]) and gets the token of a session.  The interceptor of
    [internal/grpc/middleware/rbac.go], which reads the roles of the domain layer, would
    check that token, but no chain of the server has this interceptor: each RPC passes
    the chain of [internal/grpc/middleware/interceptors.go] and is handled as the call of
    nobody.  The authentication service ([internal/auth/service.go]) keeps accounts
    and sessions; the topic service ([internal/grpc/services/topic]) decides who
    joins, sees and leaves a topic.  Under the gRPC layer the audit logger
    ([internal/storage/audit]) puts every operation through redaction, the rate
    limiter and the alert detector, chains it by its hash, and hands it to the
    repository, to subscribers and to exporters; emergency access is handed out by
    [internal/storage/breakglass], and database keys are shared by
    [internal/storage/postgres/encryption/shamir.go].  Chunks live in blob stores
    ([internal/storage/blob]): ingestion writes them, a collector removes what no
    row refers to, and a hybrid store moves them between two tiers.  Nodes trust
    each other by certificates ([internal/certs]), ask each other for catalogs and
    chunks over length-prefixed JSON ([internal/p2p/protocol.go]), and run in one of
    three modes ([internal/p2p/mode.go]) that decide what they copy; a node finds
    its peers by the bootstrapper and keeps them in a scored store, and the
    authorizer ([internal/p2p/grpc_auth.go]) decides which of them may connect: it is
    asked once for each connection the server ([grpc_server.go]) accepts, and not for
    the calls on it.  The
    services of [internal/grpc/services] run behind the chain of interceptors and
    call the components above.  A client ([internal/grpc/client]) reaches them over a
    pool of connections to the nodes that discovery found, signs in with its key and
    keeps the token.  Opening storage ([internal/storage/open.go]) checks
    the mode against the backend, and the database is backed up, entered with
    rotated credentials and encrypted by packages of its own.

    ** Files

    - [Prelude]: results and guards of Go, machine integers and their wrap-around,
      binary64, lemmas on lists and maps, the tactics and hint databases.
    - [GoStrings]: the functions of [strings], [encoding/hex] and [regexp] that the
      sources call, on byte strings.
    - [Domain]: the entities of [internal/domain] with their [Validate], [IsValid]
      and owner methods ([topic.go], [dataset.go], [user.go], [catalog.go], ...).
    - [Schedule]: [schedule.go], when a job runs and how a run is recorded.
    - [Pipeline]: [job.go], jobs, pipelines and the search for cycles.
    - [Download]: [sync.go], the chunk bitmap of a download.
    - [Query]: [query.go], query requests and the SELECT filter.
    - [Transfer]: [internal/p2p/transfer.go].  The record [TransferManager] is the manager with
      the heap of shared downloads; one definition per method
      ([StartDownload], [PauseDownload], ...), and the goroutines as the step
      relation [tm_step], in which a worker reads, writes and counts the shared bitmap
      in steps of its own.
    - [RaftStorage]: [internal/cluster/storage.go].  The record [Storage] has one
      field per table, one definition per method; the writes of a batch
      ([StoreLogs], with its [Rollback] and [Commit]) and of replicated data may fail.
    - [Fsm]: [internal/cluster/fsm.go].  [FSM_Apply] with one definition per
      command, [FSM_Snapshot] and [FSM_Restore].
    - [Cluster]: [internal/cluster/raft.go] and [cluster.go]: the node, its loops
      and the manager, with the step relation [cluster_step].
    - [Challenge]: [internal/auth/challenge.go].
    - [RateLimit]: [internal/storage/audit/ratelimit.go].
    - [Rbac]: [internal/grpc/middleware/rbac.go]: the permission table entry by
      entry and the decision of both interceptors.
    - [BreakGlass]: [manager.go] and [types.go] of [internal/storage/breakglass];
      [EmergencyDb]: [postgres.go], [audit.go] and [recording.go] there, the login of a
      session, its rows in the audit log and its recording.
    - [Shamir]: [internal/storage/postgres/encryption/shamir.go].
    - [GoTime]: dates, and times as RFC 3339 text with its order.
    - [AuditLog]: entries, the hash chain and the table ([audit/types.go],
      [sqlite/audit.go]); [Alerts]: [audit/alerts.go]; [GoRegexp] and [Redact]: a
      matcher for the patterns of [audit/redact.go] and that file; [AuditExport]:
      [stream.go], [file.go] and [s3.go]; [AuditLogger]: [logger.go], over any
      repository that keeps the laws of the class [RepositoryLaws].
    - [Accounts]: [internal/auth/service.go] over the tables of users and sessions.
    - [Blob]: the stores of [internal/storage/blob] ([local.go], [s3.go]) as
      instances of the class [BlobStore] with its laws; [BlobTiers]: [hybrid.go]
      over any two stores that keep the laws and check what is put ([CheckedStore]);
      [BlobIngest]: [ingestion.go] and
      [gc.go] over any store that keeps them, with the chunk rows.
    - [Certs]: [certs.go] and [encryption.go] of [internal/certs]; [Trust]:
      [revocation.go], [tofu.go] and [tofu_verifier.go]; [CertManager]: [manager.go].
    - [Modes]: [internal/p2p/mode*.go], the three handlers and their manager.
    - [Wire]: [protocol.go] and [protocol_client.go] of [internal/p2p], and
      [internal/cluster/transport.go]: framing over a stream of pieces.
    - [Topics]: [internal/grpc/services/topic] over the tables of topics, members
      and invitations; [service_step] is one call of any kind.
    - [Sql], [GoFloat]: statements and [LIKE] patterns, and [float64] as it is used.
    - [JobStore]: [internal/storage/sqlite/jobs.go], on connections that enforce foreign
      keys or do not.
    - [Bootstrap], [PeerStore], [PeerAccess]: [bootstrap.go], [peerstore.go],
      [grpc_auth.go], [grpc_server.go] and [manager.go] of [internal/p2p] with the tables
      of allowed and banned peers; [ProtoWire]: [proto_convert.go] and [protocol_proto.go].
    - [Keys]: [internal/auth/keys.go]; [GrpcErrors]: [internal/grpc/errors] and
      [domain/errors.go]; [GrpcServer]: the chain of interceptors, the life cycle of
      the server and its registration ([internal/grpc]).
    - [UserService], [AuthServer], [Datasets], [BreakGlassServer], [QueryServer]: the
      services of [internal/grpc/services], a function per handler, over [Accounts],
      [Challenge], the tables of datasets, [BreakGlass] and [Query].
    - [Backup]: [internal/storage/backup]; [Credentials] and [DbRoles]: the database
      credentials and roles of [internal/storage/postgres].
    - [StorageOpen]: [mode.go], [open.go] and [context.go] of [internal/storage];
      [Migrations]: [migrations.go] and [internal/storage/migrate]; [AtRest]: the rest of [internal/storage/postgres/encryption].
    - [Discovery]: [internal/discovery], which looks for nodes by several methods;
      [GrpcClient]: [internal/grpc/client], the connections of a client and its session,
      over any server that answers like [AuthServer].
    - [Syslog]: [internal/storage/audit/syslog.go], messages, escapes and attempts;
      [Config]: [internal/config], the structures, their defaults and settings, loading
      and secrets; [SetupState]: [internal/setup], what an interrupted setup leaves;
      [Wizard]: [internal/tui/wizard.go].
    - [PgLifecycle]: [internal/storage/postgres/lifecycle/manager.go], the managed
      database over a map of files; [Daemon] (with [GoNumbers] for [strconv.Atoi]):
      [cmd/bibd/daemon.go], which opens and closes all of the above in order; [Health]:
      [internal/grpc/services/health]; [PubSub]: [internal/p2p/pubsub.go].

    ** What the theorems show

    - Jobs: the cycle search ends, and is exact when all dependencies are known
      ([validateDAG_terminates] and what follows it); an accepted pipeline never
      gets stuck.  A schedule runs as often as it may and not before its interval.
    - Downloads: the bitmap, its counter and the list of missing chunks agree;
      in every reachable state of the transfer manager, whatever its workers overwrite
      of each other, a download that is marked completed misses nothing, and one whose
      workers are done is completed or failed; with one worker each missing chunk is
      accounted for, with more a chunk that arrived can be lost.
    - Queries: the SELECT filter accepts exactly the texts described by a
      declarative predicate on words.
    - Cluster: a batch of log entries is stored whole or not at all, whatever call
      fails; pruning keeps the newest snapshots, a join token is accepted once, and what
      the state machine caches is in its tables as long as no write of an assignment or
      of a restore fails (for a job all but its type and its expression).  The Raft node is a placeholder in the source:
      what is proposed is never applied, which is a theorem about its step relation.
    - Access: a challenge is handed out once and in time; the decision of the access
      control is exactly that of the four lists of its table, for the token a request
      carries; the limiter lets at most its limit through in a window; the database has
      the temporary user of the current session and those it refused to drop, and why
      PostgreSQL would refuse.
    - Audit: a chain verifies as long as every call succeeds and no two overlap, two
      chains with the same last hash whose fields have no bars agree in every hashed
      field unless SHA-256 collides, alerts are
      raised exactly at their threshold, an alert blocks its actor, secrets in
      metadata are hidden, exported files read back as written.
    - Blobs: the hybrid store refines one map under any run of its operations, over any
      two tiers that keep the laws of the interface, which both stores are shown to keep,
      if what is put under a hash is always the same; every verified
      chunk survives any sequence of ingestions, deletions and collections.
    - Trust: a node once trusted stays bound to its certificate until it is removed or
      added by hand, exchanging revocation lists makes them agree, a restart finds the
      same authority and keys, and the server certificate until it is due.
    - Accounts and topics: sessions belong to active accounts, except those whose end
      the user service failed to store; a topic that has an owner keeps one, roles change
      only by those who may, an invitation is used once, private topics stay hidden.
    - Nodes: messages arrive as they were sent however the bytes are cut, the first one
      on an accepted connection apart, which is taken for a handshake; an
      exchange of states gives what the server computed, a forwarded query is the
      union of the answers, a cache never serves what is too old, and a node's mode
      and handler always agree.
    - Key sharing: the shape of the shares and the round trip of an exported share,
      and how far the arithmetic is from GF(256).
    - Peers: who is pruned is worst, a removed peer gets no new connection while those
      it has stay open and are served, bans
      agree with their table, a message survives its conversion to protobuf and back.
    - Services: a session token is given for a challenge signed with its key, the
      data of accounts stay consistent under any calls, datasets change for those who
      may change them, emergency sessions belong to configured users and need their
      keys; and no handler finds a user, since nothing puts one into the context.
    - Database: the tables of jobs keep their checks, and their references on connections
      that enforce them; a restore puts back the main file that was copied, without the
      write-ahead log; retention removes exactly what it says; a rotation of
      credentials leaves a file that decrypts to the current ones wherever it
      breaks off; an opening that fails closes what it opened; a migration that
      failed is skipped at the next start; fields come back from
      their encryption, and a mounting leaves no key behind.
    - Clients: discovery gives the fastest node of every address, whatever order its
      methods finish in; attempts to connect are bounded, a service keeps the
      connection it started with; client and server put together agree on the session,
      which a client keeps even after the server ended it.
    - Configuration: what is written is loaded again, in any format, and which fields are
      lost on the way; a saved setup comes back with its steps and its data; an audit
      message is read back by the rules of its standard, and delivered once or not.
    - Emergencies: what a temporary login may do, that it could neither be created nor
      dropped as the code asks for it, what of a session is logged, and that its
      recording plays back.
    - Daemon: a start opens what the configuration names, one that fails closes it
      again if that does not fail, a stop tries to close everything once and in order,
      whatever fails; a managed database keeps its
      passwords and data over a restart, if the passwords were stored; health is served
      exactly when every enabled part is there; an announcement is signed and checked.

    ** Conventions

    Identifiers keep their names; a method [T.M] is [T_M] where [M] alone would be
    ambiguous.  A function that returns [(T, error)] is a [result], one that
    returns [error] an [option] with [None] for [nil]; the texts of wrapped errors
    are left out except where a property speaks of them.  Times are integers of
    nanoseconds.  A call of [time.Now()], of [rand.Read], of a callback or of the
    network is an argument of the definition that makes it, so a theorem holds
    for all answers.  Code outside the repository is a class with its documented
    behaviour as laws, used by sections over that class: [Crypto] (hashes and
    signatures), [UnicodeTables], [FsmCodec] (JSON of the state machine),
    [RandSource], [SecretBox], [ShareCodec], [Codecs] (compression and AES-GCM),
    [CertLibrary] (X.509 and PEM), [EntryJSON], [TrustJSON], [SubsJSON], [FieldJSON],
    [MetaJSON], [CredJSON] and [JSON] (encodings), [ProtoCodec] (protobuf), [KeyLib]
    with [KeyLibLaws] (SSH and PEM keys), [CredCrypto] and [AtRestLib] (ciphers and key
    derivation), [PeerLib] (addresses and identifiers), [ClientCrypto] (a client's signatures), [RateLib] (token buckets),
    [CEL] (queries), [TimeBinding] and [DriverErrors] (what the SQL driver does),
    [JobColumns] and [OrderClause] (columns a listing may be ordered by), [PgTools]
    ([pg_dump] and [pg_restore]), [PgServer] (logins) and [Migrator]
    (golang-migrate), [ViperLib] (viper and its formats), [PartialJSON], [PgCredJSON],
    [GossipLib] and [SignLib] (GossipSub and the keys of libp2p), [EmServer] and [RecFormat]
    (roles of PostgreSQL; JSON and gzip of a recording), [SessionOrder] and [OrderBy] (a
    database's order of rows).  The interfaces
    between components are classes too: [BlobStore] with [BlobStoreLaws], and
    [Repository] with [RepositoryLaws].  Every class with laws has an
    instance, at which the theorems that need the laws are applied once.  Methods
    that hold their receiver's lock are atomic; where code runs without a lock the
    steps are split ([tm_step], the calls of [checkKey] in [Check]).  A statement or
    write that may fail is a boolean or an outcome among the arguments ([io], [fails],
    [ends], [TxIO], [BackupIO]), so theorems hold whichever fail, unless they say
    otherwise.

    ** Fuel and bounds

    [hasCycle] recurses over job identifiers with fuel; one more than the number of
    jobs is proved to suffice.  [gfMulNoTable] runs its loop eight times, once per
    bit of its second operand, as in the source where the operand is zero after
    that.  The attempts of [downloadChunk] are counted by the configured number of
    retries.  [skip_loop] has a round more than there are steps.  [handle_messages]
    reads messages with fuel; one more than the number of bytes suffices, since a message takes at least four.  [hex_digits] has the binary
    logarithm.  The matcher of [GoRegexp] has fuel for repetition, the length of the
    text.  All other recursion is structural.  [int] and [uint64] are integers
    with the wrap-around written where it can happen; bytes are kept below 256.

    ** Not modelled, and what comes next

    Outside the model are network and disk I/O (libp2p hosts and discovery, TLS
    sockets, gRPC connections, SQL drivers), the statements of the PostgreSQL
    repositories, which repeat those of SQLite, generated protobuf code, the command
    line, the forms of the setup, the deployment to containers and the terminal
    interface.  SQLite's statements are modelled where a component
    depends on them, over rows as lists.  Calls on tables happen one after the other,
    except where a theorem or example takes two calls apart to show what an
    interleaving does.  Of the program's own logic what is left are the administration
    and node services and the objects of a PostgreSQL server in Kubernetes: mostly calls
    of other programs and of the network. *)
From stdpp Require Import base gmap strings list.
From Stdlib Require Import ZArith Lia.
#[export] Set Warnings "-clear-no-such-hyp".

(** ** Notations for Go control flow

    [let!] binds the value of a call that may fail; [fail_if b with e ;; k] is
    the guard [if b { return e }; k] of a method returning [error], where
    [None] is Go's [nil] error. *)

Inductive result (E A : Type) : Type :=
| Ok (a : A)
| Err (e : E).
Arguments Ok {E A} a.
Arguments Err {E A} e.

Declare Scope go_scope.
Delimit Scope go_scope with go.
Open Scope go_scope.

Notation "'let!' x ':=' c 'in' k" :=
  (match c with Ok x => k | Err e => Err e end)
  (at level 10, x pattern, c at level 100, k at level 200) : go_scope.
Notation "'fail_if' b 'with' e ';;' k" :=
  (if b then Some e else k)
  (at level 10, b at level 99, e at level 99, k at level 200) : go_scope.
Notation "'try' c ';;' k" :=
  (match c with Some e => Some e | None => k end)
  (at level 10, c at level 99, k at level 200) : go_scope.

(** Go's [==] on comparable values. *)
Notation "x '=?=' y" := (bool_decide (x = y)) (at level 70, no associativity) : go_scope.
Notation "x '<>?' y" := (negb (bool_decide (x = y))) (at level 70, no associativity) : go_scope.

Create HintDb go.

(** ** Tactics *)

(** Case analysis on every guard of a computation, with the boolean
    comparisons turned into propositions. *)
Ltac bool_props :=
  repeat match goal with
  | H : negb _ = true |- _ => apply negb_true_iff in H
  | H : negb _ = false |- _ => apply negb_false_iff in H
  | H : bool_decide _ = true |- _ => apply bool_decide_eq_true in H
  | H : bool_decide _ = false |- _ => apply bool_decide_eq_false in H
  | H : _ && _ = true |- _ => apply andb_true_iff in H; destruct H
  | H : _ || _ = false |- _ => apply orb_false_iff in H; destruct H
  | H : (_ <? _)%Z = true |- _ => apply Z.ltb_lt in H
  | H : (_ <? _)%Z = false |- _ => apply Z.ltb_ge in H
  | H : (_ <=? _)%Z = true |- _ => apply Z.leb_le in H
  | H : (_ <=? _)%Z = false |- _ => apply Z.leb_gt in H
  | H : (_ =? _)%Z = true |- _ => apply Z.eqb_eq in H
  | H : (_ =? _)%Z = false |- _ => apply Z.eqb_neq in H
  end.

Ltac go_cases := repeat (case_match; simplify_eq/=); bool_props.

(** ** Machine integers

    Go's [int] and [int64] are 64-bit two's complement, [uint64] and [byte] are
    unsigned; arithmetic wraps around. *)

Section ints.
Local Open Scope Z_scope.

Definition i64 (z : Z) : Z := (z + 2 ^ 63) `mod` 2 ^ 64 - 2 ^ 63.
Definition int32 (z : Z) : Z := (z + 2 ^ 31) `mod` 2 ^ 32 - 2 ^ 31.
Definition u64 (z : Z) : Z := z `mod` 2 ^ 64.
Definition u8 (z : Z) : Z := z `mod` 256.

Definition is_i64 (z : Z) : Prop := - 2 ^ 63 <= z < 2 ^ 63.
Definition is_i32 (z : Z) : Prop := - 2 ^ 31 <= z < 2 ^ 31.
Definition is_u64 (z : Z) : Prop := 0 <= z < 2 ^ 64.
Definition is_u8 (z : Z) : Prop := 0 <= z < 256.

Lemma i64_range z : is_i64 (i64 z).
Proof. unfold is_i64, i64. pose proof (Z.mod_pos_bound (z + 2^63) (2^64)). lia. Qed.

Lemma i64_id z : is_i64 z -> i64 z = z.
Proof. unfold is_i64, i64. intros. rewrite Z.mod_small; lia. Qed.

Lemma int32_range z : is_i32 (int32 z).
Proof. unfold is_i32, int32. pose proof (Z.mod_pos_bound (z + 2 ^ 31) (2 ^ 32) ltac:(lia)). lia. Qed.

Lemma int32_id z : is_i32 z -> int32 z = z.
Proof. unfold is_i32, int32. intros. rewrite Z.mod_small by lia. lia. Qed.

Lemma u64_range z : is_u64 (u64 z).
Proof. unfold is_u64, u64. apply Z.mod_pos_bound. lia. Qed.

Lemma u64_id z : is_u64 z -> u64 z = z.
Proof. unfold is_u64, u64. intros. by apply Z.mod_small. Qed.

Lemma u8_range z : is_u8 (u8 z).
Proof. unfold is_u8, u8. apply Z.mod_pos_bound. lia. Qed.

Lemma u8_id z : is_u8 z -> u8 z = z.
Proof. unfold is_u8, u8. intros. by apply Z.mod_small. Qed.

(** The bits of a byte above the seventh are zero, and xor of bytes is a byte. *)
Lemma u8_bits_high z n : is_u8 z -> 8 <= n -> Z.testbit z n = false.
Proof.
  unfold is_u8. intros Hz Hn. destruct (decide (z = 0)) as [->|Hz0]; [apply Z.bits_0|].
  apply Z.bits_above_log2; [lia|]. apply Z.log2_lt_pow2; [lia|].
  apply Z.lt_le_trans with (2 ^ 8); [lia|]. apply Z.pow_le_mono_r; lia.
Qed.

Lemma u8_of_bits z :
  0 <= z -> (forall n, 8 <= n -> Z.testbit z n = false) -> is_u8 z.
Proof.
  intros Hz Hbits. unfold is_u8. split; [done|].
  destruct (decide (z = 0)) as [->|Hz0]; [lia|].
  destruct (decide (z < 256)) as [|Hge]; [done|exfalso].
  assert (8 <= Z.log2 z) by (apply Z.log2_le_pow2; lia).
  specialize (Hbits (Z.log2 z)). rewrite Z.bit_log2 in Hbits by lia.
  specialize (Hbits ltac:(lia)). discriminate.
Qed.

Lemma u8_lxor a b : is_u8 a -> is_u8 b -> is_u8 (Z.lxor a b).
Proof.
  intros Ha Hb. apply u8_of_bits.
  - apply Z.lxor_nonneg. unfold is_u8 in *. lia.
  - intros n Hn. by rewrite Z.lxor_spec, !u8_bits_high.
Qed.

Lemma u8_lor a b : is_u8 a -> is_u8 b -> is_u8 (Z.lor a b).
Proof.
  intros Ha Hb. apply u8_of_bits.
  - apply Z.lor_nonneg. unfold is_u8 in *. lia.
  - intros n Hn. by rewrite Z.lor_spec, !u8_bits_high.
Qed.

(** A decidable fact about a bounded integer holds if it holds of each of them. *)
Lemma forall_below (k : Z) (p : Z -> bool) :
  forallb p (seqZ 0 k) = true -> forall n, 0 <= n < k -> p n = true.
Proof.
  intros H n Hn. rewrite forallb_forall in H. apply H, list_elem_of_In, elem_of_seqZ. lia.
Qed.
End ints.

#[export] Hint Resolve i64_range u64_range u8_range u8_lxor u8_lor : go.

(** ** Lengths in four bytes *)

Section lengths.
Local Open Scope Z_scope.

(** The four bytes of a length, and the length of four bytes. *)
Definition lenBuf (n : Z) : list Z := [u8 (Z.shiftr n 24); u8 (Z.shiftr n 16); u8 (Z.shiftr n 8); u8 n].
Definition length_of (b : list Z) : Z :=
  match b with
  | [b0; b1; b2; b3] => Z.lor (Z.lor (Z.lor (Z.shiftl b0 24) (Z.shiftl b1 16)) (Z.shiftl b2 8)) b3
  | _ => 0
  end.

Lemma lor_shiftl_add hi lo k : 0 <= k -> 0 <= lo < 2 ^ k -> Z.lor (Z.shiftl hi k) lo = hi * 2 ^ k + lo.
Proof.
  intros Hk Hlo. set (x := Z.lor (Z.shiftl hi k) lo).
  assert (Z.shiftr x k = hi) as Hhi.
  { subst x. rewrite Z.shiftr_lor, Z.shiftr_shiftl_l, Z.sub_diag, Z.shiftl_0_r by lia.
    rewrite (Z.shiftr_div_pow2 lo), (Z.div_small lo) by lia. apply Z.lor_0_r. }
  assert (Z.land x (Z.ones k) = lo) as Hl.
  { subst x. rewrite Z.land_lor_distr_l, !Z.land_ones by lia. rewrite (Z.mod_small lo), Z.shiftl_mul_pow2 by lia.
    by rewrite Z.mod_mul by lia. }
  rewrite Z.land_ones in Hl by lia. rewrite Z.shiftr_div_pow2 in Hhi by lia.
  rewrite (Z.div_mod x (2 ^ k)) by lia. rewrite Hhi, Hl. lia.
Qed.

Lemma length_of_lenBuf n : 0 <= n < 2 ^ 32 -> length_of (lenBuf n) = n.
Proof.
  intros Hn. unfold length_of, lenBuf. set (b0 := u8 (Z.shiftr n 24)). set (b1 := u8 (Z.shiftr n 16)).
  set (b2 := u8 (Z.shiftr n 8)). set (b3 := u8 n).
  assert (is_u8 b0 /\ is_u8 b1 /\ is_u8 b2 /\ is_u8 b3) as (H0 & H1 & H2 & H3) by (split_and!; apply u8_range).
  unfold is_u8 in *.
  assert (Z.lor (Z.lor (Z.lor (Z.shiftl b0 24) (Z.shiftl b1 16)) (Z.shiftl b2 8)) b3 =
          ((b0 * 2 ^ 8 + b1) * 2 ^ 8 + b2) * 2 ^ 8 + b3) as ->.
  { rewrite <- !lor_shiftl_add by lia. rewrite !Z.shiftl_lor, !Z.shiftl_shiftl by lia. done. }
  subst b0 b1 b2 b3. unfold u8. rewrite !Z.shiftr_div_pow2 by lia. Z.div_mod_to_equations. lia.
Qed.
End lengths.

(** ** Time

    A [time.Time] is the number of nanoseconds since Go's zero time (January 1,
    year 1, UTC); a [time.Duration] is a number of nanoseconds.  A call of
    [time.Now()] is an argument of the operation that makes it, one argument
    per call.  [Time.Sub] saturates at the bounds of [int64]. *)

Abbreviation Time := Z (only parsing).
Abbreviation Duration := Z (only parsing).

Section time.
Local Open Scope Z_scope.
Definition zero_time : Time := 0.
Definition IsZero (t : Time) : bool := t =? zero_time.
Definition After (t u : Time) : bool := u <? t.
Definition Before (t u : Time) : bool := t <? u.
Definition Add (t : Time) (d : Duration) : Time := t + d.
Definition Sub (t u : Time) : Duration := Z.max (- 2 ^ 63) (Z.min (2 ^ 63 - 1) (t - u)).
Definition Nanosecond : Duration := 1.
Definition Millisecond : Duration := 1000000.
Definition Second : Duration := 1000 * Millisecond.
Definition Minute : Duration := 60 * Second.
Definition Hour : Duration := 60 * Minute.

(** Times before the year 10000, which JSON can carry. *)
Definition json_time (t : Time) : bool := (0 <=? t) && (t <? 315537897600 * Second).
End time.

(** ** Loops over slices

    The shapes of loop the sources repeat, with the lemmas that describe them. *)

Section loops.
Context {A : Type}.

(** [for _, x := range l { if err := f(x); err != nil { return err } }] *)
Fixpoint first_error {E} (f : A -> option E) (l : list A) : option E :=
  match l with
  | [] => None
  | x :: l' => match f x with Some e => Some e | None => first_error f l' end
  end.

Lemma first_error_None {E} (f : A -> option E) l :
  first_error f l = None <-> forall x, x ∈ l -> f x = None.
Proof.
  induction l as [|x l IH]; simpl; [set_solver|].
  destruct (f x) eqn:Hx; split; intros H; try done.
  - specialize (H x ltac:(set_solver)). congruence.
  - intros y [->|Hy]%elem_of_cons; [done|]. by apply IH.
  - apply IH. set_solver.
Qed.

Lemma first_error_Some {E} (f : A -> option E) l e :
  first_error f l = Some e ->
  exists l1 x l2, l = l1 ++ x :: l2 /\ f x = Some e /\ forall y, y ∈ l1 -> f y = None.
Proof.
  induction l as [|x l IH]; simpl; [done|].
  destruct (f x) eqn:Hx; intros H; simplify_eq.
  - exists [], x, l. set_solver.
  - destruct (IH H) as (l1 & y & l2 & -> & ? & ?).
    exists (x :: l1), y, l2. set_solver.
Qed.

(** [for i, x := range l { if p(x) { l = append(l[:i], l[i+1:]...); break } }] :
    [None] when no element satisfies [p]. *)
Fixpoint remove_first (p : A -> bool) (l : list A) : option (list A) :=
  match l with
  | [] => None
  | x :: l' => if p x then Some l' else cons x <$> remove_first p l'
  end.

Lemma remove_first_Some p l l' :
  remove_first p l = Some l' ->
  exists l1 x l2, l = l1 ++ x :: l2 /\ l' = l1 ++ l2 /\ p x = true /\
    forall y, y ∈ l1 -> p y = false.
Proof.
  revert l'. induction l as [|x l IH]; intros l'; simpl; [done|].
  destruct (p x) eqn:Hx; intros H; simplify_eq.
  - exists [], x, l'. set_solver.
  - destruct (remove_first p l) as [l''|] eqn:Hr; simplify_eq/=.
    destruct (IH _ eq_refl) as (l1 & y & l2 & -> & -> & ? & ?).
    exists (x :: l1), y, l2. split_and!; try done. set_solver.
Qed.

Lemma remove_first_None p l :
  remove_first p l = None <-> forall y, y ∈ l -> p y = false.
Proof.
  induction l as [|x l IH]; simpl; [set_solver|].
  destruct (p x) eqn:Hx.
  - split; [done|]. intros H. specialize (H x ltac:(set_solver)). congruence.
  - rewrite fmap_None, IH. set_solver.
Qed.

Lemma remove_first_length p l l' :
  remove_first p l = Some l' -> length l = S (length l').
Proof.
  intros (l1 & x & l2 & -> & -> & _)%remove_first_Some. rewrite !length_app. simpl. lia.
Qed.

(** [for _, x := range l { if p(x) { return x } }] *)
Lemma find_None (p : A -> bool) l : List.find p l = None <-> forall y, y ∈ l -> p y = false.
Proof.
  induction l as [|x l IH]; simpl; [set_solver|].
  destruct (p x) eqn:Hx; [|rewrite IH; set_solver].
  split; [done|]. intros H. specialize (H x ltac:(set_solver)). congruence.
Qed.

Lemma find_Some_split (p : A -> bool) l x :
  List.find p l = Some x ->
  p x = true /\ exists l1 l2, l = l1 ++ x :: l2 /\ forall y, y ∈ l1 -> p y = false.
Proof.
  induction l as [|y l IH]; simpl; [done|].
  destruct (p y) eqn:Hy; intros H; simplify_eq.
  - split; [done|]. exists [], l. set_solver.
  - destruct (IH H) as (? & l1 & l2 & -> & ?). split; [done|].
    exists (y :: l1), l2. set_solver.
Qed.

Lemma find_app (p : A -> bool) l1 l2 :
  List.find p (l1 ++ l2) =
  match List.find p l1 with Some x => Some x | None => List.find p l2 end.
Proof. induction l1 as [|x l1 IH]; simpl; [done|]. by destruct (p x). Qed.

Lemma filter_none (p : A -> bool) l : (forall x, x ∈ l -> p x = false) -> List.filter p l = [].
Proof.
  induction l as [|x l IH]; simpl; intros H; [done|].
  rewrite (H x) by set_solver. apply IH. set_solver.
Qed.

(** Values with the same key, in a list without duplicate keys. *)
Lemma same_key {B} (f : A -> B) l x y : NoDup (map f l) -> x ∈ l -> y ∈ l -> f x = f y -> x = y.
Proof.
  intros Hnd [i Hi]%list_elem_of_lookup [j Hj]%list_elem_of_lookup Heq.
  assert (i = j) as ->; [|congruence].
  apply (NoDup_lookup (f <$> l) i j (f x)); [done|..]; rewrite list_lookup_fmap; [by rewrite Hi|by rewrite Hj, Heq].
Qed.

Lemma NoDup_map_filter {B} (f : A -> B) (p : A -> bool) l :
  NoDup (map f l) -> NoDup (map f (List.filter p l)).
Proof.
  induction l as [|x l IH]; simpl; [done|]. intros [Hx Hl]%NoDup_cons.
  destruct (p x); simpl; [|auto]. apply NoDup_cons. split; [|auto].
  intros (y & Hy & Hin)%list_elem_of_fmap. apply Hx. rewrite Hy. apply list_elem_of_fmap_2.
  apply list_elem_of_In, filter_In in Hin as [? _]. by apply list_elem_of_In.
Qed.

Lemma filter_filter (p q : A -> bool) l :
  List.filter p (List.filter q l) = List.filter (fun x => q x && p x) l.
Proof.
  induction l as [|x l IH]; simpl; [done|].
  destruct (q x); simpl; [destruct (p x); by rewrite IH|done].
Qed.

(** The sublist of a list without duplicates that avoids its tail. *)
Lemma filter_avoid_drop {B} `{EqDecision B} (f : A -> B) (avoid : B -> bool) l n :
  NoDup (map f l) -> (forall b, avoid b = true <-> b ∈ map f (drop n l)) ->
  List.filter (fun x => negb (avoid (f x))) l = take n l.
Proof.
  intros Hnd Hav. rewrite <- (take_drop n l) at 1. rewrite List.filter_app.
  rewrite <- (take_drop n l), map_app in Hnd. apply NoDup_app in Hnd as (_ & Hd & _).
  rewrite (forallb_filter_id _ (take n l)), (filter_none _ (drop n l)); [by rewrite app_nil_r|..].
  - intros x Hx. apply negb_false_iff, Hav. by apply list_elem_of_fmap_2.
  - apply forallb_forall. intros x Hx%list_elem_of_In. apply negb_true_iff.
    destruct (avoid (f x)) eqn:E; [|done]. apply Hav in E. exfalso.
    apply (Hd (f x)); [by apply list_elem_of_fmap_2|done].
Qed.
End loops.

Section mem.
Context {A : Type} `{EqDecision A}.

(** [for _, y := range l { if y == x { return true } }; return false] *)
Fixpoint mem (x : A) (l : list A) : bool :=
  match l with
  | [] => false
  | y :: l' => if y =?= x then true else mem x l'
  end.

Lemma mem_true x l : mem x l = true <-> x ∈ l.
Proof.
  induction l as [|y l IH]; simpl; [set_solver|].
  case_bool_decide; set_solver.
Qed.

Lemma mem_false x l : mem x l = false <-> x ∉ l.
Proof. rewrite <- mem_true. by destruct (mem x l). Qed.

(** Appending a value that is not there yet. *)
Definition add_new (x : A) (l : list A) : list A := if mem x l then l else l ++ [x].

Lemma elem_of_add_new x y l : y ∈ add_new x l <-> y = x \/ y ∈ l.
Proof.
  unfold add_new. destruct (mem x l) eqn:Hm; [apply mem_true in Hm|]; set_solver.
Qed.

Lemma NoDup_add_new x l : NoDup l -> NoDup (add_new x l).
Proof.
  unfold add_new. destruct (mem x l) eqn:Hm; [done|]. apply mem_false in Hm.
  intros. apply NoDup_app. split_and!; [done|set_solver|apply NoDup_singleton].
Qed.

Lemma NoDup_remove_first p (l l' : list A) :
  NoDup l -> remove_first p l = Some l' -> NoDup l'.
Proof.
  intros Hl (l1 & x & l2 & -> & -> & _)%remove_first_Some.
  apply NoDup_app in Hl as (? & Hd & [??]%NoDup_cons).
  apply NoDup_app. split_and!; [done|set_solver|done].
Qed.
End mem.

(** ** Files

    A directory as a map from names to contents. *)

Abbreviation Files := (gmap string (list Z)).

(** The outcome of [os.WriteFile]: written, or failed with something else left. *)
Inductive WriteOutcome := Written | WriteFailed (left : option (list Z)).

Definition WriteFile (fs : Files) (path : string) (data : list Z) (o : WriteOutcome) : Files * bool :=
  match o with
  | Written => (<[path := data]> fs, true)
  | WriteFailed (Some d) => (<[path := d]> fs, false)
  | WriteFailed None => (fs, false)
  end.
