(* ===== verification/GoStrings.v ===== *)
(** * The parts of Go's [strings], [encoding/hex] and [regexp] the sources use

    A Go string is a sequence of bytes.  The functions here are defined on lists
    of bytes ([ascii]) and lifted to [string].  Go's case mapping and space
    trimming treat ASCII strings byte by byte and fall back to the Unicode
    tables otherwise; the tables are the fields of [UnicodeTables], so that the
    theorems hold whatever they contain. *)
From stdpp Require Import base gmap strings list.
From Stdlib Require Import ZArith Lia Ascii.
From S2P Require Import Prelude.

Abbreviation bytes_of := String.list_ascii_of_string (only parsing).
Abbreviation str_of := String.string_of_list_ascii (only parsing).

(** ** Cutting, splitting and joining *)

Section lists.
Context {A : Type}.

Fixpoint drop_while (p : A -> bool) (l : list A) : list A :=
  match l with
  | [] => []
  | x :: l' => if p x then drop_while p l' else l
  end.

(** [strings.TrimFunc] *)
Definition trim (p : A -> bool) (l : list A) : list A :=
  reverse (drop_while p (reverse (drop_while p l))).

(** [strings.Split] on a one-byte separator: always at least one segment. *)
Fixpoint split_on (p : A -> bool) (l : list A) : list (list A) :=
  match l with
  | [] => [[]]
  | x :: l' =>
      if p x then [] :: split_on p l'
      else match split_on p l' with
           | [] => [[x]]
           | s :: ss => (x :: s) :: ss
           end
  end.

Fixpoint join_with (sep : list A) (ss : list (list A)) : list A :=
  match ss with
  | [] => []
  | [s] => s
  | s :: ss' => s ++ sep ++ join_with sep ss'
  end.

Lemma drop_while_id p l :
  (forall x, head l = Some x -> p x = false) -> drop_while p l = l.
Proof. destruct l as [|x l]; intros H; simpl; [done|]. by rewrite H. Qed.

Lemma drop_while_head p l x : head (drop_while p l) = Some x -> p x = false.
Proof.
  induction l as [|y l IH]; simpl; [done|]. destruct (p y) eqn:Hy; [done|].
  simpl. intros. by simplify_eq.
Qed.

Lemma drop_while_suffix p l : exists k, l = k ++ drop_while p l /\ Forall (fun x => p x = true) k.
Proof.
  induction l as [|y l IH]; simpl; [by exists []|].
  destruct (p y) eqn:Hy; [|by exists []].
  destruct IH as (k & Hk & ?). exists (y :: k). split; [|by constructor].
  simpl. by rewrite <- Hk.
Qed.

Lemma trim_id p l :
  (forall x, head l = Some x -> p x = false) ->
  (forall x, last l = Some x -> p x = false) ->
  trim p l = l.
Proof.
  intros Hh Hl. unfold trim. rewrite (drop_while_id p l Hh).
  rewrite drop_while_id; [apply reverse_involutive|].
  intros x. rewrite head_reverse. apply Hl.
Qed.

(** What [trim] returns starts and ends with kept bytes. *)
Lemma trim_ends p l :
  (forall x, head (trim p l) = Some x -> p x = false) /\
  (forall x, last (trim p l) = Some x -> p x = false).
Proof.
  unfold trim. split; intros x.
  - rewrite head_reverse.
    pose proof (drop_while_suffix p (reverse (drop_while p l))) as (k & Hk & _).
    intros Hx. apply (drop_while_head p l).
    assert (last (reverse (drop_while p l)) = Some x) as Hlast.
    { rewrite Hk. rewrite last_app. by rewrite Hx. }
    rewrite last_reverse in Hlast. done.
  - rewrite last_reverse. apply drop_while_head.
Qed.

Lemma split_on_ne p l : split_on p l <> [].
Proof. destruct l as [|x l]; simpl; [done|]. destruct (p x); [done|]. by destruct (split_on p l). Qed.

Lemma split_on_app_sep p s c l :
  Forall (fun x => p x = false) s -> p c = true ->
  split_on p (s ++ c :: l) = s :: split_on p l.
Proof.
  induction 1 as [|x s Hx Hs IH]; intros Hc; simpl; [by rewrite Hc|].
  by rewrite Hx, IH.
Qed.

Lemma split_on_none p s : Forall (fun x => p x = false) s -> split_on p s = [s].
Proof. induction 1 as [|x s Hx Hs IH]; simpl; [done|]. by rewrite Hx, IH. Qed.

Lemma split_join p c ss :
  p c = true -> ss <> [] -> Forall (Forall (fun x => p x = false)) ss ->
  split_on p (join_with [c] ss) = ss.
Proof.
  intros Hc. induction ss as [|s ss IH]; [done|]. intros _ [Hs Hss]%Forall_cons.
  destruct ss as [|s' ss']; [by apply split_on_none|].
  change (join_with [c] (s :: s' :: ss')) with (s ++ c :: join_with [c] (s' :: ss')).
  rewrite split_on_app_sep by done. by rewrite IH.
Qed.

Lemma split_on_clean p l : Forall (Forall (fun x => p x = false)) (split_on p l).
Proof.
  induction l as [|x l IH]; simpl; [by repeat constructor|].
  destruct (p x) eqn:Hx; [by constructor|].
  destruct (split_on p l); [by repeat constructor|].
  apply Forall_cons in IH as [??]. by repeat constructor.
Qed.
End lists.

(** Splitting at a single byte loses nothing. *)
Lemma join_split (c : ascii) l : join_with [c] (split_on (fun x => x =?= c) l) = l.
Proof.
  induction l as [|x l IH]; simpl; [done|].
  pose proof (split_on_ne (fun x => x =?= c) l) as Hne.
  case_bool_decide as Hx; destruct (split_on _ l) as [|s ss]; try done; simplify_eq/=.
  - by destruct ss.
  - destruct ss; simpl in *; by subst.
Qed.

(** ** Strings *)

Definition Trim_slash (s : string) : string := str_of (trim (fun c => c =?= "/"%char) (bytes_of s)).
Definition Split_slash (s : string) : list string :=
  map str_of (split_on (fun c => c =?= "/"%char) (bytes_of s)).
Definition Join_slash (ss : list string) : string := str_of (join_with ["/"%char] (map bytes_of ss)).

#[export] Instance bytes_of_inj : Inj (=) (=) String.list_ascii_of_string.
Proof.
  intros s t Heq. apply (f_equal String.string_of_list_ascii) in Heq.
  by rewrite !String.string_of_list_ascii_of_string in Heq.
Qed.

Lemma bytes_of_append s t : bytes_of (s ++ t)%string = (bytes_of s ++ bytes_of t)%list.
Proof. induction s as [|c s IH]; [done|]. simpl. by f_equal. Qed.

(** ** ASCII case and white space *)

Definition in_range (lo hi : N) (c : ascii) : bool :=
  ((lo <=? N_of_ascii c) && (N_of_ascii c <=? hi))%N.

Definition is_ascii_byte (c : ascii) : bool := (N_of_ascii c <? 128)%N.
Definition is_lower (c : ascii) : bool := in_range 97 122 c.
Definition is_upper (c : ascii) : bool := in_range 65 90 c.
Definition is_digit (c : ascii) : bool := in_range 48 57 c.
Definition upper_byte (c : ascii) : ascii :=
  if is_lower c then ascii_of_N (N_of_ascii c - 32) else c.
Definition lower_byte (c : ascii) : ascii :=
  if is_upper c then ascii_of_N (N_of_ascii c + 32) else c.
(** The bytes ['\t', '\n', '\v', '\f', '\r', ' ']. *)
Definition is_space (c : ascii) : bool := in_range 9 13 c || (N_of_ascii c =? 32)%N.
(** [\w] of RE2, the bytes around which [\b] looks. *)
Definition is_word (c : ascii) : bool :=
  is_lower c || is_upper c || is_digit c || (c =?= "_"%char).

Definition is_ascii (s : string) : bool := forallb is_ascii_byte (bytes_of s).

(** The Unicode parts of [strings.ToUpper], [strings.ToLower] and
    [strings.TrimSpace], used on strings with a byte above 127 only. *)
Class UnicodeTables := {
  unicode_upper : string -> string;
  unicode_lower : string -> string;
  unicode_trim_space : string -> string
}.

Section unicode.
Context `{UnicodeTables}.
Definition ToUpper (s : string) : string :=
  if is_ascii s then str_of (map upper_byte (bytes_of s)) else unicode_upper s.
Definition ToLower (s : string) : string :=
  if is_ascii s then str_of (map lower_byte (bytes_of s)) else unicode_lower s.
Definition TrimSpace (s : string) : string :=
  if is_ascii s then str_of (trim is_space (bytes_of s)) else unicode_trim_space s.
End unicode.

(** Any tables at all show that the class is inhabited; these leave non-ASCII
    strings alone. *)
Definition identity_tables : UnicodeTables := {|
  unicode_upper := id; unicode_lower := id; unicode_trim_space := id |}.

(** ** [regexp.MatchString] for [\bWORD\b]

    The words of the sources consist of word bytes, so the boundary before the
    word is the start of the text or a non-word byte, and likewise after it. *)

Definition word_boundary_after (l : list ascii) : bool :=
  match l with [] => true | c :: _ => negb (is_word c) end.

Fixpoint is_prefix_of (w l : list ascii) : bool :=
  match w, l with
  | [], _ => true
  | c :: w', d :: l' => (c =?= d) && is_prefix_of w' l'
  | _ :: _, [] => false
  end.

(** [prev] is the byte before the current position. *)
Fixpoint match_word_from (prev : option ascii) (w l : list ascii) : bool :=
  (match prev with None => true | Some c => negb (is_word c) end &&
   (is_prefix_of w l && word_boundary_after (drop (length w) l)))
  || match l with
     | [] => false
     | c :: l' => match_word_from (Some c) w l'
     end.

Definition MatchWord (w s : string) : bool := match_word_from None (bytes_of w) (bytes_of s).

(** [s] contains [w] as a whole word. *)
Definition contains_word (w l : list ascii) : Prop :=
  exists a b, l = a ++ w ++ b /\
    (forall c, last a = Some c -> is_word c = false) /\
    (forall c, head b = Some c -> is_word c = false).

Lemma is_prefix_of_spec w l : is_prefix_of w l = true <-> exists b, l = w ++ b.
Proof.
  revert l. induction w as [|c w IH]; intros l; simpl; [split; eauto|].
  destruct l as [|d l]; [split; [done|by intros [??]]|].
  rewrite andb_true_iff, bool_decide_eq_true, IH. split.
  - intros [-> [b ->]]. by exists b.
  - intros [b ?]. simplify_eq. eauto.
Qed.

(** [strings.HasPrefix] *)
Definition HasPrefix (s pre : string) : bool := is_prefix_of (bytes_of pre) (bytes_of s).

Lemma HasPrefix_spec s pre :
  HasPrefix s pre = true <-> exists b, bytes_of s = bytes_of pre ++ b.
Proof. apply is_prefix_of_spec. Qed.

Lemma word_boundary_after_spec l :
  word_boundary_after l = true <-> forall c, head l = Some c -> is_word c = false.
Proof.
  destruct l as [|c l]; simpl; [split; [by intros|done]|].
  rewrite negb_true_iff. split; [by intros ? ? [= <-]|]. eauto.
Qed.

Lemma match_here_spec w l :
  is_prefix_of w l && word_boundary_after (drop (length w) l) = true <->
  exists b, l = w ++ b /\ (forall c, head b = Some c -> is_word c = false).
Proof.
  rewrite andb_true_iff, is_prefix_of_spec. split.
  - intros [[b ->] Hb]. exists b. split; [done|].
    rewrite drop_app_length in Hb. by apply word_boundary_after_spec.
  - intros (b & -> & Hb). split; [eauto|]. rewrite drop_app_length.
    by apply word_boundary_after_spec.
Qed.

(** The boundary before the word, with [prev] the byte before it. *)
Lemma boundary_before_spec (prev : option ascii) :
  match prev with None => true | Some c => negb (is_word c) end = true <->
  forall c, last (option_list prev) = Some c -> is_word c = false.
Proof.
  destruct prev as [d|]; simpl; [|split; [by intros|done]].
  rewrite negb_true_iff. split; [by intros ? ? [= <-]|]. eauto.
Qed.

Lemma last_shift {A} (prev : option A) d a :
  last (option_list prev ++ d :: a) = last (option_list (Some d) ++ a).
Proof.
  rewrite last_app. change (option_list (Some d) ++ a) with (d :: a).
  destruct (last (d :: a)) eqn:E; [done|]. by apply last_None in E.
Qed.

Lemma match_word_from_spec prev w l :
  match_word_from prev w l = true <->
  exists a b, l = a ++ w ++ b /\
    (forall c, last (option_list prev ++ a) = Some c -> is_word c = false) /\
    (forall c, head b = Some c -> is_word c = false).
Proof.
  revert prev. induction l as [|d l IH]; intros prev; cbn [match_word_from];
    rewrite orb_true_iff, andb_true_iff, match_here_spec, boundary_before_spec.
  - split.
    + intros [(Hp & b & Hb & ?)|[=]]. exists [], b. by rewrite app_nil_r.
    + intros (a & b & Heq & Ha & Hb). left. symmetry in Heq. apply app_nil in Heq as [-> Heq].
      rewrite app_nil_r in Ha. eauto.
  - rewrite IH. split.
    + intros [(Hp & b & Hb & ?)|(a & b & -> & Ha & Hb)].
      * exists [], b. by rewrite app_nil_r.
      * exists (d :: a), b. rewrite last_shift. done.
    + intros (a & b & Heq & Ha & Hb). destruct a as [|d' a]; simpl in Heq.
      * left. rewrite app_nil_r in Ha. eauto.
      * right. simplify_eq. exists a, b. by rewrite last_shift in Ha.
Qed.

Lemma MatchWord_spec w s :
  MatchWord w s = true <-> contains_word (bytes_of w) (bytes_of s).
Proof. unfold MatchWord, contains_word. by rewrite match_word_from_spec. Qed.

(** ** [hex.EncodeToString] *)

Definition hex_digit (n : Z) : ascii :=
  ascii_of_N (if (n <? 10)%Z then Z.to_N (48 + n) else Z.to_N (87 + n)).

Definition hex_byte (b : Z) : list ascii := [hex_digit (b / 16); hex_digit (b `mod` 16)]%Z.

Definition EncodeToString (bs : list Z) : string := str_of (concat (map hex_byte bs)).

(** The digit's value; [hex.DecodeString] reads a lower-case digit like this. *)
Definition unhex_digit (c : ascii) : Z :=
  let n := Z.of_N (N_of_ascii c) in if (n <? 58)%Z then (n - 48)%Z else (n - 87)%Z.

Lemma unhex_hex_digit n : (0 <= n < 16)%Z -> unhex_digit (hex_digit n) = n.
Proof.
  intros Hn. apply Z.eqb_eq, (forall_below 16 (fun n => unhex_digit (hex_digit n) =? n)%Z); [|done].
  by vm_compute.
Qed.

Lemma hex_byte_inj a b : is_u8 a -> is_u8 b -> hex_byte a = hex_byte b -> a = b.
Proof.
  unfold is_u8, hex_byte. intros Ha Hb Heq.
  assert (hex_digit (a / 16) = hex_digit (b / 16) /\
          hex_digit (a `mod` 16) = hex_digit (b `mod` 16))%Z as [Hd Hm].
  { remember hex_digit as h. by simplify_eq. }
  apply (f_equal unhex_digit) in Hd, Hm.
  rewrite !unhex_hex_digit in Hd by (Z.div_mod_to_equations; lia).
  rewrite !unhex_hex_digit in Hm by (Z.div_mod_to_equations; lia).
  Z.div_mod_to_equations; lia.
Qed.

Lemma EncodeToString_bytes bs : bytes_of (EncodeToString bs) = concat (map hex_byte bs).
Proof. apply String.list_ascii_of_string_of_list_ascii. Qed.

Lemma EncodeToString_length bs : length (bytes_of (EncodeToString bs)) = 2 * length bs.
Proof. rewrite EncodeToString_bytes. induction bs as [|b bs IH]; simpl in *; lia. Qed.

Lemma EncodeToString_inj bs bs' :
  Forall is_u8 bs -> Forall is_u8 bs' -> EncodeToString bs = EncodeToString bs' -> bs = bs'.
Proof.
  intros Hbs Hbs' Heq. apply (f_equal String.list_ascii_of_string) in Heq.
  rewrite !EncodeToString_bytes in Heq. revert bs' Hbs' Heq.
  induction Hbs as [|b bs Hb Hbs IH]; intros bs' Hbs' Heq.
  - destruct bs' as [|b' bs']; [done|]. by simplify_eq/=.
  - destruct Hbs' as [|b' bs' Hb' Hbs']; [done|].
    change (hex_byte b ++ concat (map hex_byte bs) = hex_byte b' ++ concat (map hex_byte bs')) in Heq.
    apply app_inj_1 in Heq as [H1 H2]; [|done]. f_equal; [by apply hex_byte_inj|by apply IH].
Qed.

(** ** Scanned numbers

    [fmt.Sscanf(s, "%d", &value)]: blanks, a sign and the digits, as far as they go; a
    value that does not fit leaves the variable as it was. *)
Fixpoint drop_blanks (s : list ascii) : list ascii :=
  match s with c :: s' => if orb (c =?= " "%char) (c =?= "009"%char) then drop_blanks s' else s | [] => [] end.
Fixpoint scan_digits (acc : Z) (s : list ascii) : Z :=
  match s with
  | c :: s' => if is_digit c then scan_digits (acc * 10 + (Z.of_N (N_of_ascii c) - 48))%Z s' else acc
  | [] => acc
  end.
Definition Sscanf_d (s : list ascii) : Z :=
  let s := drop_blanks s in
  let '(neg, s) := match s with "-"%char :: s' => (true, s') | "+"%char :: s' => (false, s') | _ => (false, s) end in
  let n := (if neg then - scan_digits 0 s else scan_digits 0 s)%Z in
  if ((- 2 ^ 63 <=? n) && (n <? 2 ^ 63))%Z then n else 0%Z.

(** The same into a [uint]. *)
Definition Sscanf_uint (s : list ascii) : Z :=
  let n := scan_digits 0 (drop_blanks s) in if (n <? 2 ^ 64)%Z then n else 0%Z.

(** ** Conversions between strings and bytes *)

Definition string_bytes (s : string) : list Z := map (fun c => Z.of_N (N_of_ascii c)) (bytes_of s).
Definition bytes_string (b : list Z) : string := str_of (map (fun z => ascii_of_N (Z.to_N z)) b).

Lemma bytes_string_bytes s : bytes_string (string_bytes s) = s.
Proof.
  unfold bytes_string, string_bytes. rewrite map_map. rewrite <- (String.string_of_list_ascii_of_string s) at 2. f_equal.
  rewrite <- (map_id (bytes_of s)) at 2. apply map_ext. intros a. by rewrite N2Z.id, ascii_N_embedding.
Qed.

(** ** Slash-separated paths ([path.Clean], [path.Join]) *)

Definition path_segments (l : list ascii) : list (list ascii) := split_on (fun c => c =?= "/"%char) l.

(** The stack holds the segments kept so far, the last one first. *)
Definition clean_segment (rooted : bool) (stack : list (list ascii)) (seg : list ascii)
    : list (list ascii) :=
  if mem seg [[]; ["."%char]] then stack
  else if seg =?= ["."; "."]%char then
    match stack with
    | top :: rest => if top =?= ["."; "."]%char then seg :: stack else rest
    | [] => if rooted then [] else [seg]
    end
  else seg :: stack.

Definition is_rooted (l : list ascii) : bool := head l =?= Some "/"%char.

Definition path_Clean (l : list ascii) : list ascii :=
  let segs := rev (fold_left (clean_segment (is_rooted l)) (path_segments l) []) in
  let body := join_with ["/"%char] segs in
  if is_rooted l then "/"%char :: body
  else if body =?= [] then ["."%char] else body.

Fixpoint path_Join (elems : list (list ascii)) : list ascii :=
  match elems with
  | [] => []
  | e :: elems' => if e =?= [] then path_Join elems' else path_Clean (join_with ["/"%char] elems)
  end.
