(* ===== verification/GoTime.v ===== *)
(** * Time as text ([Time.Format(time.RFC3339Nano)] of the Go library)

    The SQLite repositories store a time as the text RFC3339Nano gives in UTC and
    let the database compare and sort these texts byte by byte.  The format is
    here, with what byte order says of time: texts of different seconds are
    ordered like the times, texts of the same second need not be, because the
    format drops trailing zeros of the fraction. *)
From stdpp Require Import base strings list pretty.
From Stdlib Require Import ZArith Lia Ascii.
From S2P Require Import Prelude GoStrings.

Local Open Scope Z_scope.

(** ** Calendar dates

    The day number counts from January 1, year 1; [year_and_day] is the cycle
    arithmetic of [time.absDate]. *)

Definition is_leap (year : Z) : bool :=
  (year `mod` 4 =? 0) && (negb (year `mod` 100 =? 0) || (year `mod` 400 =? 0)).

Definition year_and_day (day : Z) : Z * Z :=
  let n := day / 146097 in
  let y := 400 * n in
  let d := day - 146097 * n in
  let n := d / 36524 in
  let n := n - n / 4 in
  let y := y + 100 * n in
  let d := d - 36524 * n in
  let n := d / 1461 in
  let y := y + 4 * n in
  let d := d - 1461 * n in
  let n := d / 365 in
  let n := n - n / 4 in
  let y := y + n in
  let d := d - 365 * n in
  (y + 1, d).

Definition month_lengths (leap : bool) : list Z :=
  [31; if leap then 29 else 28; 31; 30; 31; 30; 31; 31; 30; 31; 30; 31].

Fixpoint month_and_day (lengths : list Z) (month d : Z) : Z * Z :=
  match lengths with
  | [] => (month, d + 1)
  | n :: lengths' => if d <? n then (month, d + 1) else month_and_day lengths' (month + 1) (d - n)
  end.

(** ** The text *)

Definition dec_digit (n : Z) : ascii := ascii_of_N (Z.to_N (48 + n)).

(** The last [k] decimal digits of [n]. *)
Fixpoint pad (k : nat) (n : Z) : list ascii :=
  match k with
  | O => []
  | S k' => pad k' (n / 10) ++ [dec_digit (n `mod` 10)]
  end.

Definition month_day_text (leap : bool) (yday : Z) : list ascii :=
  let '(m, d) := month_and_day (month_lengths leap) 1 yday in
  ("-"%char :: pad 2 m) ++ ("-"%char :: pad 2 d).

Definition clock_text (s : Z) : list ascii :=
  pad 2 (s / 3600) ++ (":"%char :: pad 2 ((s / 60) `mod` 60)) ++ (":"%char :: pad 2 (s `mod` 60)).

(** Date and time of day, 19 bytes for the years 1 to 9999. *)
Definition second_text (sec : Z) : list ascii :=
  let '(year, yday) := year_and_day (sec / 86400) in
  pad 4 year ++ month_day_text (is_leap year) yday ++ ("T"%char :: clock_text (sec `mod` 86400)).

(** [.999999999]: nothing for a whole second, otherwise the digits up to the last
    one that is not zero. *)
Definition fraction_text (nanos : Z) : list ascii :=
  if nanos =? 0 then []
  else "."%char :: rev (drop_while (fun c => c =?= "0"%char) (rev (pad 9 nanos))).

Definition seconds_of (t : Time) : Z := t / Second.
Definition nanos_of (t : Time) : Z := t `mod` Second.

Definition time_bytes (t : Time) : list ascii :=
  second_text (seconds_of t) ++ fraction_text (nanos_of t) ++ ["Z"%char].

Definition RFC3339Nano (t : Time) : string := str_of (time_bytes t).

(** [time.Duration.String]; the micro sign is two bytes. *)
Definition Duration_String (d : Z) : string :=
  let u := Z.abs d in
  let m := u / Second / 60 in
  let frac n := str_of (fraction_text n) in
  let cat := String.append in
  let text :=
    if u =? 0 then "0s"%string
    else if u <? 1000 then cat (pretty u) "ns"%string
    else if u <? Millisecond then
      cat (cat (pretty (u / 1000)) (frac (u mod 1000 * Millisecond)))
        (String (ascii_of_N 194) (String (ascii_of_N 181) "s"))
    else if u <? Second then cat (cat (pretty (u / Millisecond)) (frac (u mod Millisecond * 1000))) "ms"%string
    else
      cat (cat (if 60 <=? m then cat (pretty (m / 60)) "h"%string else ""%string)
             (if 1 <=? m then cat (pretty (m mod 60)) "m"%string else ""%string))
        (cat (cat (pretty (u / Second mod 60)) (frac (u mod Second))) "s"%string) in
  if d <? 0 then String "-" text else text.

(** The first time after the year 9999. *)
Definition end_of_years : Time := 315537897600 * Second.

(** ** Byte order, SQLite's order of texts *)

Fixpoint bytes_ltb (a b : list ascii) : bool :=
  match a, b with
  | _, [] => false
  | [], _ :: _ => true
  | x :: a', y :: b' => (N_of_ascii x <? N_of_ascii y)%N || ((x =?= y) && bytes_ltb a' b')
  end.

Definition text_ltb (s t : string) : bool := bytes_ltb (bytes_of s) (bytes_of t).
Definition text_leb (s t : string) : bool := negb (text_ltb t s).

(** ** Theorems *)

Lemma bytes_ltb_irrefl a : bytes_ltb a a = false.
Proof.
  induction a as [|x a IH]; [done|]. simpl. rewrite N.ltb_irrefl, IH. by rewrite andb_false_r.
Qed.

Lemma bytes_ltb_cons x a y b :
  bytes_ltb (x :: a) (y :: b) = true <->
  (N_of_ascii x < N_of_ascii y)%N \/ (x = y /\ bytes_ltb a b = true).
Proof.
  simpl. rewrite orb_true_iff, andb_true_iff, N.ltb_lt. by rewrite bool_decide_eq_true.
Qed.

Lemma bytes_ltb_trans a b c :
  bytes_ltb a b = true -> bytes_ltb b c = true -> bytes_ltb a c = true.
Proof.
  revert b c. induction a as [|x a IH]; intros [|y b] [|z c]; try done.
  rewrite !bytes_ltb_cons. intros [?|[-> ?]] [?|[-> ?]]; [left; lia|by left|by left|].
  right. split; [done|]. by eapply IH.
Qed.

(** A difference among the first bytes decides. *)
Lemma bytes_ltb_total a b : bytes_ltb a b = false -> bytes_ltb b a = true \/ a = b.
Proof.
  revert b. induction a as [|x a IH]; intros [|y b] Hn; [by right|done|by left|]. simpl in *.
  apply orb_false_iff in Hn as [Hlt Hn]. apply N.ltb_ge in Hlt.
  destruct (decide (x = y)) as [->|Hne].
  - rewrite bool_decide_true in Hn by done. destruct (IH b Hn) as [Hb| ->]; [left|by right].
    rewrite bool_decide_true by done. by rewrite Hb, orb_true_r.
  - left. apply orb_true_iff. left. apply N.ltb_lt.
    assert (N_of_ascii x <> N_of_ascii y); [|lia].
    intros Heq. apply Hne. by rewrite <- (ascii_N_embedding x), <- (ascii_N_embedding y), Heq.
Qed.

Lemma bytes_ltb_app a b x y :
  length a = length b -> bytes_ltb a b = true -> bytes_ltb (a ++ x) (b ++ y) = true.
Proof.
  revert b. induction a as [|c a IH]; intros [|d b]; try done.
  intros Hlen. rewrite <- !app_comm_cons, !bytes_ltb_cons.
  intros [?|[-> ?]]; [by left|]. right. split; [done|]. apply IH; [|done]. by simplify_eq/=.
Qed.

Lemma bytes_ltb_app_same p x y : bytes_ltb (p ++ x) (p ++ y) = bytes_ltb x y.
Proof.
  induction p as [|c p IH]; [done|]. simpl. rewrite N.ltb_irrefl, bool_decide_true by done. done.
Qed.

Lemma dec_digit_N n : 0 <= n < 10 -> N_of_ascii (dec_digit n) = Z.to_N (48 + n).
Proof.
  intros Hn. apply N.eqb_eq,
    (forall_below 10 (fun n => N_of_ascii (dec_digit n) =? Z.to_N (48 + n))%N); [by vm_compute|done].
Qed.

Lemma pad_length k n : length (pad k n) = k.
Proof. revert n. induction k as [|k IH]; intros n; [done|]. simpl. rewrite length_app, IH. simpl. lia. Qed.

Lemma pad_lt k a b :
  0 <= a < b -> b < 10 ^ Z.of_nat k -> bytes_ltb (pad k a) (pad k b) = true.
Proof.
  revert a b. induction k as [|k IH]; intros a b Hab Hb; [simpl in Hb; lia|].
  rewrite Nat2Z.inj_succ, Z.pow_succ_r in Hb by lia. cbn [pad].
  assert (b / 10 < 10 ^ Z.of_nat k) by (Z.div_mod_to_equations; lia).
  assert (a / 10 < b / 10 \/ (a / 10 = b / 10 /\ a `mod` 10 < b `mod` 10)) as [?|[-> ?]]
    by (Z.div_mod_to_equations; lia).
  - apply bytes_ltb_app; [by rewrite !pad_length|]. apply IH; [|done]. Z.div_mod_to_equations; lia.
  - rewrite bytes_ltb_app_same. apply bytes_ltb_cons. left.
    rewrite !dec_digit_N by (Z.div_mod_to_equations; lia). Z.div_mod_to_equations; lia.
Qed.

(** *** Days *)

(** The days of the first [y] years. *)
Definition days_before (y : Z) : Z := 365 * y + y / 4 - y / 100 + y / 400.

Lemma days_before_cycles a b c e :
  0 <= b <= 3 -> 0 <= c <= 24 -> 0 <= e <= 3 ->
  days_before (400 * a + 100 * b + 4 * c + e) = 146097 * a + 36524 * b + 1461 * c + 365 * e.
Proof. intros. unfold days_before. Z.div_mod_to_equations. lia. Qed.

Lemma is_leap_cycles a b c e :
  0 <= b <= 3 -> 0 <= c <= 24 -> 0 <= e <= 3 ->
  is_leap (400 * a + 100 * b + 4 * c + e + 1) =
    (e =? 3) && (negb (c =? 24) || (b =? 3)).
Proof.
  intros. set (y := 400 * a + 100 * b + 4 * c + e + 1). unfold is_leap.
  replace (y `mod` 4 =? 0) with (e =? 3).
  2: { apply eq_true_iff_eq. rewrite !Z.eqb_eq. subst y. Z.div_mod_to_equations. lia. }
  destruct (Z.eqb_spec e 3); [|done]. simpl.
  replace (y `mod` 100 =? 0) with (c =? 24).
  2: { apply eq_true_iff_eq. rewrite !Z.eqb_eq. subst y. Z.div_mod_to_equations. lia. }
  destruct (Z.eqb_spec c 24); [|done]. simpl.
  apply eq_true_iff_eq. rewrite !Z.eqb_eq. subst y. Z.div_mod_to_equations. lia.
Qed.

Lemma year_and_day_spec day year yday :
  0 <= day -> year_and_day day = (year, yday) ->
  1 <= year /\ day = days_before (year - 1) + yday /\ 0 <= yday < (if is_leap year then 366 else 365).
Proof.
  intros Hday. unfold year_and_day.
  set (a := day / 146097). set (d1 := day - 146097 * a).
  assert (0 <= a /\ 0 <= d1 < 146097) as [Ha Hd1] by (subst d1 a; Z.div_mod_to_equations; lia).
  set (n2 := d1 / 36524). set (b := n2 - n2 / 4). set (d2 := d1 - 36524 * b).
  assert (0 <= b <= 3 /\ 0 <= d2 <= 36524 /\ (b < 3 -> d2 < 36524)) as (Hb & Hd2 & Hd2')
    by (subst d2 b n2; clearbody d1; Z.div_mod_to_equations; lia).
  clearbody n2 b. set (c := d2 / 1461). set (d3 := d2 - 1461 * c).
  assert (0 <= c <= 24 /\ 0 <= d3 < 1461 /\ (c = 24 -> b < 3 -> d3 < 1460)) as (Hc & Hd3 & Hd3')
    by (subst d3 c; clearbody d2; Z.div_mod_to_equations; lia).
  set (n4 := d3 / 365). set (e := n4 - n4 / 4). set (d4 := d3 - 365 * e).
  assert (0 <= e <= 3 /\ 0 <= d4 <= 365 /\ (e < 3 \/ d3 < 1460 -> d4 < 365)) as (He & Hd4 & Hd4')
    by (subst d4 e n4; clearbody d3; Z.div_mod_to_equations; lia).
  intros [= <- <-].
  replace (400 * a + 100 * b + 4 * c + e + 1 - 1) with (400 * a + 100 * b + 4 * c + e) by lia.
  rewrite days_before_cycles, is_leap_cycles by done.
  split; [lia|]. split; [subst d4 d3 d2 d1; lia|].
  destruct (Z.eqb_spec e 3), (Z.eqb_spec c 24), (Z.eqb_spec b 3); simpl; lia.
Qed.

(** A year later is a later day. *)
Lemma days_before_next y : 0 <= y -> days_before (y + 1) =
  days_before y + (if is_leap (y + 1) then 366 else 365).
Proof.
  intros Hy. unfold days_before, is_leap.
  destruct (Z.eqb_spec ((y + 1) `mod` 4) 0), (Z.eqb_spec ((y + 1) `mod` 100) 0),
    (Z.eqb_spec ((y + 1) `mod` 400) 0); simpl; Z.div_mod_to_equations; lia.
Qed.

Lemma days_before_mono y z : 0 <= y <= z -> days_before y <= days_before z.
Proof. intros. unfold days_before. Z.div_mod_to_equations. lia. Qed.

Lemma year_and_day_lt d1 d2 y1 y2 e1 e2 :
  0 <= d1 < d2 -> year_and_day d1 = (y1, e1) -> year_and_day d2 = (y2, e2) ->
  y1 < y2 \/ (y1 = y2 /\ e1 < e2).
Proof.
  intros Hd H1 H2.
  apply year_and_day_spec in H1 as (? & -> & ?); [|lia].
  apply year_and_day_spec in H2 as (? & -> & ?); [|lia].
  destruct (decide (y1 = y2)) as [->|Hne]; [lia|]. left.
  destruct (decide (y1 < y2)); [done|]. exfalso.
  pose proof (days_before_mono y2 (y1 - 1)). pose proof (days_before_next (y2 - 1)).
  replace (y2 - 1 + 1) with y2 in * by lia. lia.
Qed.

Lemma year_bound day year yday :
  0 <= day < 3652059 -> year_and_day day = (year, yday) -> year < 10000.
Proof.
  intros Hd Hy. apply year_and_day_spec in Hy as (? & ? & ?); [|lia].
  destruct (decide (year < 10000)); [done|]. exfalso.
  pose proof (days_before_mono 9999 (year - 1)). change (days_before 9999) with 3652059 in *. lia.
Qed.

(** *** Texts *)

Lemma month_day_text_lt leap a b :
  0 <= a < b -> b < (if leap : bool then 366 else 365) ->
  bytes_ltb (month_day_text leap a) (month_day_text leap b) = true.
Proof.
  intros Ha Hb.
  assert (forall d, 0 <= d < 365 -> d + 1 < (if leap then 366 else 365) ->
    bytes_ltb (month_day_text leap d) (month_day_text leap (d + 1)) = true) as Hstep.
  { intros d Hd Hl.
    apply (forall_below (if leap then 365 else 364)
      (fun d => bytes_ltb (month_day_text leap d) (month_day_text leap (d + 1)))).
    - destruct leap; by vm_compute.
    - destruct leap; lia. }
  assert (forall n, a + 1 + Z.of_nat n < (if leap then 366 else 365) ->
    bytes_ltb (month_day_text leap a) (month_day_text leap (a + 1 + Z.of_nat n)) = true) as Hind.
  { induction n as [|n IH]; intros Hn.
    - rewrite Z.add_0_r in *. apply Hstep; [|done]. destruct leap; lia.
    - eapply bytes_ltb_trans; [apply IH; lia|].
      replace (a + 1 + Z.of_nat (S n)) with (a + 1 + Z.of_nat n + 1) in * by lia.
      apply Hstep; [destruct leap; lia|done]. }
  replace b with (a + 1 + Z.of_nat (Z.to_nat (b - a - 1))) by lia. apply Hind. lia.
Qed.

Lemma month_day_text_length leap d : length (month_day_text leap d) = 6%nat.
Proof. unfold month_day_text. destruct (month_and_day _ _ _). by rewrite length_app; cbn [length]; rewrite !pad_length. Qed.

Lemma clock_text_length s : length (clock_text s) = 8%nat.
Proof. unfold clock_text. rewrite !length_app; cbn [length]. by rewrite !pad_length. Qed.

Lemma clock_text_lt a b : 0 <= a < b -> b < 86400 -> bytes_ltb (clock_text a) (clock_text b) = true.
Proof.
  intros Ha Hb. unfold clock_text.
  assert (a / 3600 < b / 3600 \/ (a / 3600 = b / 3600 /\
    ((a / 60) `mod` 60 < (b / 60) `mod` 60 \/
     ((a / 60) `mod` 60 = (b / 60) `mod` 60 /\ a `mod` 60 < b `mod` 60)))) as [?|[-> [?|[-> ?]]]]
    by (Z.div_mod_to_equations; lia).
  - apply bytes_ltb_app; [by rewrite !pad_length|].
    apply pad_lt; [Z.div_mod_to_equations; lia|]. change (10 ^ Z.of_nat 2) with 100. Z.div_mod_to_equations; lia.
  - rewrite bytes_ltb_app_same. apply bytes_ltb_cons. right. split; [done|].
    apply bytes_ltb_app; [by rewrite !pad_length|].
    apply pad_lt; [Z.div_mod_to_equations; lia|]. change (10 ^ Z.of_nat 2) with 100. Z.div_mod_to_equations; lia.
  - rewrite !bytes_ltb_app_same. apply bytes_ltb_cons. right. split; [done|].
    apply pad_lt; [Z.div_mod_to_equations; lia|]. change (10 ^ Z.of_nat 2) with 100. Z.div_mod_to_equations; lia.
Qed.

Lemma second_text_length s : length (second_text s) = 19%nat.
Proof.
  unfold second_text. destruct (year_and_day _).
  rewrite !length_app, pad_length, month_day_text_length. cbn [length]. by rewrite clock_text_length.
Qed.

Lemma second_text_lt a b :
  0 <= a < b -> b < 315537897600 -> bytes_ltb (second_text a) (second_text b) = true.
Proof.
  intros Ha Hb. unfold second_text.
  destruct (year_and_day (a / 86400)) as [y1 e1] eqn:H1.
  destruct (year_and_day (b / 86400)) as [y2 e2] eqn:H2.
  destruct (decide (a / 86400 = b / 86400)) as [Heq|Hne].
  - rewrite Heq, H2 in H1. simplify_eq. rewrite !bytes_ltb_app_same.
    apply bytes_ltb_cons. right. split; [done|].
    apply clock_text_lt; Z.div_mod_to_equations; lia.
  - assert (0 <= a / 86400 < b / 86400) as Hd by (Z.div_mod_to_equations; lia).
    destruct (year_and_day_lt _ _ _ _ _ _ Hd H1 H2) as [?|[-> ?]].
    + apply bytes_ltb_app; [by rewrite !pad_length|].
      apply year_and_day_spec in H1 as (? & _ & _); [|lia].
      apply pad_lt; [lia|]. change (10 ^ Z.of_nat 4) with 10000.
      eapply year_bound, H2. Z.div_mod_to_equations; lia.
    + rewrite bytes_ltb_app_same. apply bytes_ltb_app; [by rewrite !month_day_text_length|].
      apply year_and_day_spec in H1 as (_ & _ & ?); [|lia].
      apply year_and_day_spec in H2 as (_ & _ & ?); [|lia].
      apply month_day_text_lt; lia.
Qed.

(** Texts of different seconds are ordered like the times. *)
Theorem text_order_of_seconds (t u : Time) :
  0 <= t -> u < end_of_years -> seconds_of t < seconds_of u ->
  text_ltb (RFC3339Nano t) (RFC3339Nano u) = true.
Proof.
  intros Ht Hu Hs. unfold text_ltb, RFC3339Nano.
  rewrite !String.list_ascii_of_string_of_list_ascii. unfold time_bytes.
  apply bytes_ltb_app; [by rewrite !second_text_length|]. apply second_text_lt;
    unfold seconds_of, end_of_years, Second, Millisecond in *; Z.div_mod_to_equations; lia.
Qed.

Lemma text_ltb_asym s t : text_ltb s t = true -> text_ltb t s = false.
Proof.
  unfold text_ltb. intros H. apply not_true_is_false. intros H'.
  pose proof (bytes_ltb_trans _ _ _ H H') as Hc. by rewrite bytes_ltb_irrefl in Hc.
Qed.

(** A time at least a second later has a later text. *)
Lemma text_leb_total s t : text_leb s t = true \/ text_leb t s = true.
Proof.
  unfold text_leb. destruct (text_ltb t s) eqn:Hlt; [right|by left]. by rewrite text_ltb_asym.
Qed.

Lemma text_leb_trans s t u : text_leb s t = true -> text_leb t u = true -> text_leb s u = true.
Proof.
  unfold text_leb, text_ltb. rewrite !negb_true_iff. intros Hst Htu.
  destruct (bytes_ltb (bytes_of u) (bytes_of s)) eqn:Hus; [|done].
  destruct (bytes_ltb_total _ _ Htu) as [Hlt|Heq].
  - by rewrite (bytes_ltb_trans _ _ _ Hlt Hus) in Hst.
  - rewrite Heq in Hus. congruence.
Qed.

Lemma text_order_apart t u :
  0 <= t -> u < end_of_years -> t + Second <= u -> text_ltb (RFC3339Nano t) (RFC3339Nano u) = true.
Proof.
  intros Ht Hu Hs. apply text_order_of_seconds; [done|done|].
  unfold seconds_of, Second, Millisecond in *. Z.div_mod_to_equations; lia.
Qed.

(** Within a second the texts can be in the opposite order: half a second after
    midnight sorts before midnight, and 0.55s before 0.5s. *)
Theorem text_order_inverted :
  text_ltb (RFC3339Nano (500 * Millisecond)) (RFC3339Nano 0) = true /\
  text_ltb (RFC3339Nano (550 * Millisecond)) (RFC3339Nano (500 * Millisecond)) = true.
Proof. by vm_compute. Qed.

Example RFC3339Nano_example :
  RFC3339Nano (63838286645 * Second + 120 * Millisecond) = "2023-12-16T01:24:05.12Z"%string.
Proof. by vm_compute. Qed.
