(* ===== verification/GoFloat.v ===== *)
(** * Floating-point numbers of Go

    [float64] is binary64: the operations are those of [SpecFloat] with 53 bits of
    precision, and comparison is [SFcompare], in which nothing compares with NaN.
    The theorems say that on numbers the order is a total preorder, which is what
    sorting by a score needs, and that small integers are subtracted exactly. *)
From S2P Require Import Prelude.
From stdpp Require Import base list.
From Stdlib Require Import ZArith Lia SpecFloat.
Local Open Scope Z_scope.
Local Open Scope bool_scope.

Abbreviation float64 := spec_float (only parsing).

#[export] Instance float64_eq_dec : EqDecision float64.
Proof. solve_decision. Defined.

(** [float64(n)] *)
Definition float_of_int (n : Z) : float64 := binary_normalize 53 1024 n 0 false.

Definition fadd : float64 -> float64 -> float64 := SFadd 53 1024.
Definition fsub : float64 -> float64 -> float64 := SFsub 53 1024.
Definition fmul : float64 -> float64 -> float64 := SFmul 53 1024.
Definition fdiv : float64 -> float64 -> float64 := SFdiv 53 1024.

Definition flt (x y : float64) : bool := SFltb x y.
Definition fle (x y : float64) : bool := SFleb x y.
Abbreviation fgt x y := (flt y x) (only parsing).
Abbreviation fge x y := (fle y x) (only parsing).

Definition is_nan (x : float64) : bool := match x with S754_nan => true | _ => false end.

Definition fzero : float64 := S754_zero false.

(** [math.Pow(2, float64(n))] for an integer [n] that is not negative: a power of
    two, and infinity from [2^1024] on. *)
Definition pow2 (n : Z) : float64 := binary_normalize 53 1024 1 n false.

(** [Duration.Seconds] and [Duration.Hours]. *)
Definition Seconds (d : Duration) : float64 :=
  fadd (float_of_int (Z.quot d Second)) (fdiv (float_of_int (Z.rem d Second)) (float_of_int Second)).
Definition Hours (d : Duration) : float64 :=
  fadd (float_of_int (Z.quot d Hour)) (fdiv (float_of_int (Z.rem d Hour)) (float_of_int Hour)).

(** The integer part of a finite number, [None] for the others. *)
Definition trunc (x : float64) : option Z :=
  match x with
  | S754_zero _ => Some 0
  | S754_finite s m e =>
      let a := if 0 <=? e then Z.pos m * 2 ^ e else Z.quot (Z.pos m) (2 ^ (- e)) in
      Some (if s then - a else a)
  | _ => None
  end.

(** [int64(x)]: the integer part where it fits.  What a conversion out of range
    gives is left to the implementation, so it is an argument. *)
Definition float_to_int64 (out_of_range : float64 -> Z) (x : float64) : Z :=
  match trunc x with
  | Some n => if (- 2 ^ 63 <=? n) && (n <? 2 ^ 63) then n else out_of_range x
  | None => out_of_range x
  end.

(** ** The order *)

(** Where a number stands: its sign, and then exponent and mantissa. *)
Definition rank (x : float64) : Z * (Z * Z) :=
  match x with
  | S754_zero _ | S754_nan => (0, (0, 0))
  | S754_infinity false => (2, (0, 0))
  | S754_infinity true => (-2, (0, 0))
  | S754_finite false m e => (1, (e, Z.pos m))
  | S754_finite true m e => (-1, (- e, Z.neg m))
  end.

Definition rank_lt (a b : Z * (Z * Z)) : Prop :=
  a.1 < b.1 \/ (a.1 = b.1 /\ (a.2.1 < b.2.1 \/ (a.2.1 = b.2.1 /\ a.2.2 < b.2.2))).

(** ** Theorems *)

Lemma SFcompare_rank x y :
  is_nan x = false -> is_nan y = false ->
  match SFcompare x y with
  | Some Lt => rank_lt (rank x) (rank y)
  | Some Eq => rank x = rank y
  | Some Gt => rank_lt (rank y) (rank x)
  | None => False
  end.
Proof.
  unfold rank_lt.
  destruct x as [?|[]| |[] m e], y as [?|[]| |[] m' e']; try done; intros _ _; cbn; try lia;
    (destruct (Z.compare_spec e e'); cbn; [|lia|lia]; subst;
     destruct (Pos.compare_cont_spec m m' Eq); cbn || idtac).
  all: change (Pos.compare_cont Eq m m') with (Pos.compare m m') in *;
       destruct (Pos.compare_spec m m'); cbn; subst; try done; lia.
Qed.

Lemma rank_lt_trans a b c : rank_lt a b -> rank_lt b c -> rank_lt a c.
Proof. unfold rank_lt. lia. Qed.

Lemma rank_lt_irrefl a : ~ rank_lt a a.
Proof. unfold rank_lt. lia. Qed.

(** [x < y] is the order of the ranks. *)
Lemma flt_rank x y :
  is_nan x = false -> is_nan y = false -> flt x y = true <-> rank_lt (rank x) (rank y).
Proof.
  intros Hx Hy. pose proof (SFcompare_rank x y Hx Hy) as H. unfold flt, SFltb.
  destruct (SFcompare x y) as [[]|]; [| |split; [done|]|done]; [| done|].
  - rewrite H. split; [done|]. by intros ?%rank_lt_irrefl.
  - intros H'. by destruct (rank_lt_irrefl _ (rank_lt_trans _ _ _ H H')).
Qed.

Lemma flt_irrefl x : flt x x = false.
Proof.
  destruct (is_nan x) eqn:Hx; [by destruct x|].
  apply not_true_is_false. rewrite flt_rank by done. apply rank_lt_irrefl.
Qed.

Lemma flt_trans x y z : flt x y = true -> flt y z = true -> flt x z = true.
Proof.
  destruct (is_nan x) eqn:Hx; [by destruct x|]. destruct (is_nan y) eqn:Hy; [by destruct y|].
  destruct (is_nan z) eqn:Hz.
  { destruct z; try done. intros _. by destruct y as [?|[]| |[] ? ?]. }
  rewrite !flt_rank by done. apply rank_lt_trans.
Qed.

(** Of two numbers that are not less than one another the third is between both
    or neither: what is left of a sort is still sorted. *)
Lemma fge_trans x y z :
  is_nan x = false -> is_nan y = false -> is_nan z = false ->
  flt y x = false -> flt z y = false -> flt z x = false.
Proof.
  intros Hx Hy Hz. rewrite <- !not_true_iff_false, !flt_rank by done. unfold rank_lt. lia.
Qed.

(** Two numbers the order does not separate have the same rank. *)
Lemma flt_total x y :
  is_nan x = false -> is_nan y = false -> flt x y = true \/ rank x = rank y \/ flt y x = true.
Proof.
  intros Hx Hy. rewrite !flt_rank by done. unfold rank_lt.
  destruct (rank x) as [a [b c]], (rank y) as [a' [b' c']]. cbn.
  destruct (Z.lt_trichotomy a a') as [|[->|]], (Z.lt_trichotomy b b') as [|[->|]],
    (Z.lt_trichotomy c c') as [|[->|]]; auto; lia.
Qed.

Lemma fle_flt x y : is_nan x = false -> is_nan y = false -> fle x y = negb (flt y x).
Proof.
  intros Hx Hy. unfold fle, flt, SFleb, SFltb.
  pose proof (SFcompare_rank x y Hx Hy) as H1. pose proof (SFcompare_rank y x Hy Hx) as H2.
  destruct (SFcompare x y) as [[]|], (SFcompare y x) as [[]|]; try done; exfalso;
    repeat match goal with H : rank _ = rank _ |- _ => rewrite H in * end;
    first [by eapply rank_lt_irrefl|by eapply rank_lt_irrefl, rank_lt_trans].
Qed.

(** Taking one from an integer is exact, here for the integers up to 4096. *)
Lemma fsub_one n : 1 <= n <= 4096 -> fsub (float_of_int n) (float_of_int 1) = float_of_int (n - 1).
Proof.
  intros Hn.
  pose proof (forall_below 4097 (fun n =>
    (n =? 0) || bool_decide (fsub (float_of_int n) (float_of_int 1) = float_of_int (n - 1)))) as H.
  specialize (H ltac:(by vm_compute) n ltac:(lia)). bool_props.
  apply orb_true_iff in H as [H|H]; bool_props; [lia|done].
Qed.

Lemma fadd_zero_int n : 0 <= n <= 4096 -> fadd (float_of_int n) fzero = float_of_int n.
Proof.
  intros Hn.
  pose proof (forall_below 4097 (fun n =>
    bool_decide (fadd (float_of_int n) fzero = float_of_int n))) as H.
  specialize (H ltac:(by vm_compute) n ltac:(lia)). cbv beta in H. by bool_props.
Qed.

(** Whole numbers compare like their values. *)
Lemma float_of_int_ge_one n : 0 <= n <= 4096 -> fle (float_of_int 1) (float_of_int n) = (1 <=? n).
Proof.
  intros Hn.
  pose proof (forall_below 4097 (fun n =>
    bool_decide (fle (float_of_int 1) (float_of_int n) = (1 <=? n)))) as H.
  specialize (H ltac:(by vm_compute) n ltac:(lia)). cbv beta in H. by bool_props.
Qed.

Lemma float_of_int_step n : 0 <= n < 4096 -> flt (float_of_int n) (float_of_int (n + 1)) = true.
Proof.
  intros Hn.
  pose proof (forall_below 4096 (fun n => flt (float_of_int n) (float_of_int (n + 1)))) as H.
  by apply (H ltac:(by vm_compute)).
Qed.

Lemma float_of_int_less a b : 0 <= a < b -> b <= 4096 -> flt (float_of_int a) (float_of_int b) = true.
Proof.
  intros Ha Hb. replace b with (a + Z.of_nat (S (Z.to_nat (b - a - 1)))) in * by lia.
  revert Hb. induction (Z.to_nat (b - a - 1)) as [|k IH]; intros Hb; [by apply float_of_int_step; lia|].
  eapply flt_trans; [apply IH; lia|].
  replace (a + Z.of_nat (S (S k))) with (a + Z.of_nat (S k) + 1) by lia. apply float_of_int_step. lia.
Qed.

Lemma float_of_int_not_less a b : 0 <= a <= b -> b <= 4096 -> flt (float_of_int b) (float_of_int a) = false.
Proof.
  intros Ha Hb. apply not_true_is_false. intros Hlt. destruct (decide (a = b)) as [->|Hne].
  - by rewrite flt_irrefl in Hlt.
  - pose proof (flt_trans _ _ _ Hlt (float_of_int_less a b ltac:(lia) Hb)) as Hc. by rewrite flt_irrefl in Hc.
Qed.

Example Seconds_example : Seconds (1500 * Millisecond) = fdiv (float_of_int 3) (float_of_int 2).
Proof. by vm_compute. Qed.
Example Hours_example : flt (Hours (59 * Minute)) (float_of_int 1) = true.
Proof. by vm_compute. Qed.
