(* ===== verification/Domain.v ===== *)
(** * Domain entities ([internal/domain])

    The data types every layer of bib shares, with the methods of each type.
    A Go named string type ([TopicStatus], [UserRole], ...) is a [string]: the
    program can hold any value of it, which is why the types come with an
    [IsValid] method.  A pointer field is an [option], a slice a [list] (Go's
    [nil] slice and an empty slice are told apart by no operation here), a
    [map[string]string] a [gmap].  A [Validate] method returns [None] for Go's
    [nil] error.  The hash and the signature check of the Go library are the
    operations of the class [Crypto]. *)
From stdpp Require Import base gmap strings list.
From Stdlib Require Import ZArith Lia Ascii.
From Stdlib Require Import SpecFloat.
From S2P Require Import Prelude GoStrings.

(** ** Identifiers and dynamic values *)

Abbreviation TopicID := string (only parsing).
Abbreviation DatasetID := string (only parsing).
Abbreviation DatasetVersionID := string (only parsing).
Abbreviation ChunkID := string (only parsing).
Abbreviation UserID := string (only parsing).
Abbreviation TaskID := string (only parsing).
Abbreviation JobID := string (only parsing).
Abbreviation TopicStatus := string (only parsing).
Abbreviation DatasetStatus := string (only parsing).
Abbreviation ChunkStatus := string (only parsing).
Abbreviation ResourceType := string (only parsing).
Abbreviation OwnershipRole := string (only parsing).
Abbreviation InstructionOp := string (only parsing).
Abbreviation ScheduleType := string (only parsing).
Abbreviation UserStatus := string (only parsing).
Abbreviation UserRole := string (only parsing).
Abbreviation KeyType := string (only parsing).
Abbreviation QueryType := string (only parsing).
Abbreviation DownloadStatus := string (only parsing).
Abbreviation JobType := string (only parsing).
Abbreviation JobStatus := string (only parsing).
Abbreviation ExecutionMode := string (only parsing).

#[local] Set Warnings "-register-all".

(** A value of type [any], as [encoding/json] produces it. *)
Inductive GoAny :=
| AnyNil
| AnyBool (b : bool)
| AnyFloat (f : spec_float)
| AnyString (s : string)
| AnyList (l : list GoAny)
| AnyMap (m : list (string * GoAny)).

(** ** errors.go *)

Inductive DomainError :=
| ErrInvalidTopicID | ErrInvalidTopicName | ErrInvalidTopicStatus | ErrTopicNotFound
| ErrTopicArchived | ErrCannotRemoveLastOwner | ErrOwnerNotFound
| ErrInvalidDatasetID | ErrInvalidDatasetName | ErrInvalidDatasetStatus | ErrDatasetNotFound
| ErrInvalidHash | ErrHashMismatch | ErrInvalidSize | ErrInvalidChunkCount | ErrNoOwners
| ErrInvalidVersionID | ErrInvalidVersionString | ErrVersionNotFound | ErrEmptyVersion
| ErrInvalidChunkIndex | ErrChunkNotFound
| ErrInvalidUserID | ErrInvalidUserName | ErrInvalidPublicKey | ErrInvalidKeyType
| ErrInvalidUserStatus | ErrInvalidUserRole | ErrUserNotFound | ErrUserExists
| ErrUserSuspended | ErrUserPending | ErrInvalidSignature | ErrInvalidOperation
| ErrUnauthorized | ErrAutoRegDisabled
| ErrSessionNotFound | ErrSessionExpired
| ErrInvalidResourceType | ErrInvalidResourceID | ErrInvalidOwnershipRole
| ErrOwnershipDenied | ErrSelfTransfer | ErrNotOwner
| ErrInvalidInstruction | ErrNoInstructions
| ErrInvalidTaskID | ErrInvalidTaskName | ErrTaskNotFound | ErrEmptyTask
| ErrInvalidScheduleType | ErrInvalidCronExpr | ErrInvalidRepeatCount | ErrInvalidInterval
| ErrInvalidTimeRange
| ErrInvalidJobID | ErrInvalidJobType | ErrJobNotFound | ErrNoTaskOrInstructions
| ErrInvalidExecutionMode | ErrCyclicDependency
| ErrInvalidPipelineID | ErrInvalidPipelineName | ErrEmptyPipeline
| ErrInvalidQueryID | ErrInvalidQueryType | ErrEmptySQLQuery | ErrNonSelectQuery
| ErrNoTargetDatasets | ErrInvalidLimit | ErrInvalidOffset | ErrQueryTimeout
| ErrDownloadNotFound | ErrDownloadFailed
| ErrCatalogNotFound | ErrEntryNotFound
| ErrUnsupportedProtocol | ErrInvalidMessage | ErrTimeout.

#[export] Instance DomainError_eq_dec : EqDecision DomainError.
Proof. solve_decision. Defined.

(** ** topic.go *)

Definition TopicStatusActive : TopicStatus := "active".
Definition TopicStatusArchived : TopicStatus := "archived".
Definition TopicStatusDeleted : TopicStatus := "deleted".

Definition TopicStatus_IsValid (s : TopicStatus) : bool :=
  mem s [TopicStatusActive; TopicStatusArchived; TopicStatusDeleted].

Record Topic := mkTopic {
  Topic_ID : TopicID;
  Topic_ParentID : TopicID;
  Topic_Name : string;
  Topic_Description : string;
  Topic_TableSchema : string;
  Topic_Status : TopicStatus;
  Topic_Owners : list UserID;
  Topic_CreatedBy : UserID;
  Topic_CreatedAt : Time;
  Topic_UpdatedAt : Time;
  Topic_DatasetCount : Z;
  Topic_Tags : list string;
  Topic_Metadata : gmap string string
}.

Definition Topic_Validate (t : Topic) : option DomainError :=
  fail_if Topic_ID t =?= "" with ErrInvalidTopicID;;
  fail_if Topic_Name t =?= "" with ErrInvalidTopicName;;
  fail_if (Topic_Status t <>? "") && negb (TopicStatus_IsValid (Topic_Status t))
    with ErrInvalidTopicStatus;;
  fail_if (length (Topic_Owners t) =? 0)%nat with ErrNoOwners;;
  None.

Definition Topic_Path (t : Topic) : string := Topic_ID t.
Definition Topic_IsHierarchical (t : Topic) : bool := Topic_ParentID t <>? "".
Definition Topic_IsActive (t : Topic) : bool := Topic_Status t =?= TopicStatusActive.
Definition Topic_IsOwner (t : Topic) (userID : UserID) : bool := mem userID (Topic_Owners t).

(** [t.Owners = owners; t.UpdatedAt = now] *)
Definition Topic_set_owners (t : Topic) (owners : list UserID) (now : Time) : Topic :=
  {| Topic_ID := Topic_ID t; Topic_ParentID := Topic_ParentID t; Topic_Name := Topic_Name t;
     Topic_Description := Topic_Description t; Topic_TableSchema := Topic_TableSchema t;
     Topic_Status := Topic_Status t; Topic_Owners := owners;
     Topic_CreatedBy := Topic_CreatedBy t; Topic_CreatedAt := Topic_CreatedAt t;
     Topic_UpdatedAt := now; Topic_DatasetCount := Topic_DatasetCount t;
     Topic_Tags := Topic_Tags t; Topic_Metadata := Topic_Metadata t |}.

Definition Topic_AddOwner (now : Time) (t : Topic) (userID : UserID) : Topic :=
  if negb (Topic_IsOwner t userID)
  then Topic_set_owners t (Topic_Owners t ++ [userID]) now
  else t.

Definition Topic_RemoveOwner (now : Time) (t : Topic) (userID : UserID) : result DomainError Topic :=
  if (length (Topic_Owners t) <=? 1)%nat then Err ErrCannotRemoveLastOwner
  else match remove_first (fun owner => owner =?= userID) (Topic_Owners t) with
       | Some owners => Ok (Topic_set_owners t owners now)
       | None => Err ErrOwnerNotFound
       end.

Inductive TopicTree := mkTopicTree {
  TopicTree_Topic : option Topic;
  TopicTree_Children : list TopicTree
}.

Definition ParseTopicPath (path : string) : list string :=
  let path := Trim_slash path in
  if path =?= "" then [] else Split_slash path.

(** ** ownership.go *)

Definition ResourceTypeTopic : ResourceType := "topic".
Definition ResourceTypeDataset : ResourceType := "dataset".
Definition ResourceTypeTask : ResourceType := "task".
Definition RoleOwner : OwnershipRole := "owner".
Definition RoleAdmin : OwnershipRole := "admin".
Definition RoleContributor : OwnershipRole := "contributor".
Definition RoleReader : OwnershipRole := "reader".

Record Ownership := mkOwnership {
  Ownership_ResourceType : ResourceType;
  Ownership_ResourceID : string;
  Ownership_UserID : UserID;
  Ownership_Role : OwnershipRole;
  Ownership_GrantedAt : Time;
  Ownership_GrantedBy : UserID;
  Ownership_ExpiresAt : option Time
}.

Definition OwnershipRole_IsValid (r : OwnershipRole) : bool :=
  mem r [RoleOwner; RoleAdmin; RoleContributor; RoleReader].

Definition Ownership_Validate (o : Ownership) : option DomainError :=
  fail_if Ownership_ResourceType o =?= "" with ErrInvalidResourceType;;
  fail_if Ownership_ResourceID o =?= "" with ErrInvalidResourceID;;
  fail_if Ownership_UserID o =?= "" with ErrInvalidUserID;;
  fail_if negb (OwnershipRole_IsValid (Ownership_Role o)) with ErrInvalidOwnershipRole;;
  None.

Definition Ownership_IsExpired (now : Time) (o : Ownership) : bool :=
  match Ownership_ExpiresAt o with
  | None => false
  | Some t => After now t
  end.

Definition CanModify (r : OwnershipRole) : bool := (r =?= RoleOwner) || (r =?= RoleAdmin).
Definition CanContribute (r : OwnershipRole) : bool :=
  (r =?= RoleOwner) || (r =?= RoleAdmin) || (r =?= RoleContributor).
Definition CanTransferOwnership (r : OwnershipRole) : bool := r =?= RoleOwner.
Definition CanDelete (r : OwnershipRole) : bool := r =?= RoleOwner.

Record OwnershipTransfer := mkOwnershipTransfer {
  OwnershipTransfer_ResourceType : ResourceType;
  OwnershipTransfer_ResourceID : string;
  OwnershipTransfer_FromUserID : UserID;
  OwnershipTransfer_ToUserID : UserID;
  OwnershipTransfer_RequestedAt : Time;
  OwnershipTransfer_Signature : list Z
}.

Definition OwnershipTransfer_Validate (t : OwnershipTransfer) : option DomainError :=
  fail_if OwnershipTransfer_ResourceType t =?= "" with ErrInvalidResourceType;;
  fail_if OwnershipTransfer_ResourceID t =?= "" with ErrInvalidResourceID;;
  fail_if (OwnershipTransfer_FromUserID t =?= "") || (OwnershipTransfer_ToUserID t =?= "")
    with ErrInvalidUserID;;
  fail_if OwnershipTransfer_FromUserID t =?= OwnershipTransfer_ToUserID t with ErrSelfTransfer;;
  None.

(** ** instruction.go *)

Definition OpHTTPGet : InstructionOp := "http.get".
Definition OpHTTPPost : InstructionOp := "http.post".
Definition file_ops : list InstructionOp :=
  ["file.unzip"; "file.untar"; "file.read"; "file.write"; "file.delete"; "file.list";
   "file.move"; "file.copy"; "file.hash"; "file.size"; "file.exists"; "file.gunzip";
   "file.bunzip2"].
Definition parse_ops : list InstructionOp := ["csv.parse"; "json.parse"; "xml.parse"].
Definition transform_ops : list InstructionOp :=
  ["transform.map"; "transform.filter"; "transform.reduce"; "transform.flatten";
   "transform.sort"; "transform.unique"; "transform.group"; "transform.join"].
Definition validate_ops : list InstructionOp :=
  ["validate.schema"; "validate.not_null"; "validate.range"; "validate.regex";
   "validate.type"; "validate.checksum"].
Definition string_ops : list InstructionOp :=
  ["string.split"; "string.join"; "string.replace"; "string.trim"; "string.lower";
   "string.upper"].
Definition control_ops : list InstructionOp :=
  ["control.if"; "control.foreach"; "control.retry"; "control.sleep"].
Definition var_ops : list InstructionOp := ["var.set"; "var.get"; "var.delete"].
Definition output_ops : list InstructionOp := ["output.store"; "output.append"].

Definition InstructionOp_IsValid (op : InstructionOp) : bool :=
  mem op ([OpHTTPGet; OpHTTPPost] ++ file_ops ++ parse_ops ++ transform_ops ++ validate_ops
          ++ string_ops ++ control_ops ++ var_ops ++ output_ops).

Definition InstructionOp_IsSafe (op : InstructionOp) : bool := InstructionOp_IsValid op.

Record Instruction := mkInstruction {
  Instruction_ID : string;
  Instruction_Operation : InstructionOp;
  Instruction_Params : gmap string GoAny;
  Instruction_OutputVar : string;
  Instruction_Condition : string;
  Instruction_OnError : string;
  Instruction_RetryCount : Z;
  Instruction_Description : string
}.

Definition Instruction_Validate (i : Instruction) : option DomainError :=
  fail_if negb (InstructionOp_IsValid (Instruction_Operation i)) with ErrInvalidInstruction;;
  None.

Record Task := mkTask {
  Task_ID : TaskID;
  Task_Name : string;
  Task_Description : string;
  Task_Version : string;
  Task_Instructions : list Instruction;
  Task_InputSchema : string;
  Task_OutputSchema : string;
  Task_CreatedBy : UserID;
  Task_CreatedAt : Time;
  Task_UpdatedAt : Time;
  Task_Tags : list string;
  Task_Metadata : gmap string string
}.

Definition Task_Validate (t : Task) : option DomainError :=
  fail_if Task_ID t =?= "" with ErrInvalidTaskID;;
  fail_if Task_Name t =?= "" with ErrInvalidTaskName;;
  fail_if (length (Task_Instructions t) =? 0)%nat with ErrEmptyTask;;
  try first_error Instruction_Validate (Task_Instructions t);;
  None.

(** ** schedule.go: the record; its operations are in [Schedule] *)

Record Schedule := mkSchedule {
  Schedule_Type : ScheduleType;
  Schedule_CronExpr : string;
  Schedule_RepeatCount : Z;
  Schedule_Interval : Duration;
  Schedule_StartAt : option Time;
  Schedule_EndAt : option Time;
  Schedule_Timezone : string;
  Schedule_RunCount : Z;
  Schedule_NextRunAt : option Time;
  Schedule_LastRunAt : option Time;
  Schedule_Enabled : bool
}.

(** ** dataset.go *)

Definition DatasetStatusDraft : DatasetStatus := "draft".
Definition DatasetStatusActive : DatasetStatus := "active".
Definition DatasetStatusArchived : DatasetStatus := "archived".
Definition DatasetStatusDeleted : DatasetStatus := "deleted".
Definition DatasetStatusIngesting : DatasetStatus := "ingesting".
Definition DatasetStatusFailed : DatasetStatus := "failed".

Definition DatasetStatus_IsValid (s : DatasetStatus) : bool :=
  mem s [DatasetStatusDraft; DatasetStatusActive; DatasetStatusArchived;
         DatasetStatusDeleted; DatasetStatusIngesting; DatasetStatusFailed].

Definition ChunkStatusPending : ChunkStatus := "pending".
Definition ChunkStatusDownloading : ChunkStatus := "downloading".
Definition ChunkStatusDownloaded : ChunkStatus := "downloaded".
Definition ChunkStatusVerified : ChunkStatus := "verified".
Definition ChunkStatusFailed : ChunkStatus := "failed".

Definition ChunkStatus_IsValid (s : ChunkStatus) : bool :=
  mem s [ChunkStatusPending; ChunkStatusDownloading; ChunkStatusDownloaded;
         ChunkStatusVerified; ChunkStatusFailed].

Record Dataset := mkDataset {
  Dataset_ID : DatasetID;
  Dataset_TopicID : TopicID;
  Dataset_Name : string;
  Dataset_Description : string;
  Dataset_Status : DatasetStatus;
  Dataset_LatestVersionID : DatasetVersionID;
  Dataset_VersionCount : Z;
  Dataset_HasContent : bool;
  Dataset_HasInstructions : bool;
  Dataset_Owners : list UserID;
  Dataset_CreatedBy : UserID;
  Dataset_CreatedAt : Time;
  Dataset_UpdatedAt : Time;
  Dataset_Tags : list string;
  Dataset_Metadata : gmap string string
}.

Definition Dataset_Validate (d : Dataset) : option DomainError :=
  fail_if Dataset_ID d =?= "" with ErrInvalidDatasetID;;
  fail_if Dataset_TopicID d =?= "" with ErrInvalidTopicID;;
  fail_if Dataset_Name d =?= "" with ErrInvalidDatasetName;;
  fail_if (Dataset_Status d <>? "") && negb (DatasetStatus_IsValid (Dataset_Status d))
    with ErrInvalidDatasetStatus;;
  fail_if (length (Dataset_Owners d) =? 0)%nat with ErrNoOwners;;
  None.

Definition Dataset_IsOwner (d : Dataset) (userID : UserID) : bool := mem userID (Dataset_Owners d).

Record DatasetContent := mkDatasetContent {
  DatasetContent_Hash : string;
  DatasetContent_Size : Z;
  DatasetContent_RowCount : Z;
  DatasetContent_ChunkCount : Z;
  DatasetContent_ChunkSize : Z;
  DatasetContent_Format : string;
  DatasetContent_Checksum : string;
  DatasetContent_StoragePath : string
}.

Definition DatasetContent_Validate (c : DatasetContent) : option DomainError :=
  fail_if DatasetContent_Hash c =?= "" with ErrInvalidHash;;
  fail_if (DatasetContent_Size c <? 0)%Z with ErrInvalidSize;;
  fail_if (DatasetContent_ChunkCount c <? 0)%Z with ErrInvalidChunkCount;;
  None.

Record SourceMetadata := mkSourceMetadata {
  SourceMetadata_Type : string;
  SourceMetadata_URL : string;
  SourceMetadata_Description : string;
  SourceMetadata_License : string;
  SourceMetadata_Attribution : string;
  SourceMetadata_LastChecked : option Time;
  SourceMetadata_OriginalFormat : string;
  SourceMetadata_Metadata : gmap string string
}.

Record DatasetInstructions := mkDatasetInstructions {
  DatasetInstructions_TaskID : TaskID;
  DatasetInstructions_Instructions : list Instruction;
  DatasetInstructions_InputVariables : gmap string string;
  DatasetInstructions_SourceMetadata : option SourceMetadata;
  DatasetInstructions_LastExecutedAt : option Time;
  DatasetInstructions_LastExecutionStatus : string;
  DatasetInstructions_Schedule : option Schedule
}.

Definition DatasetInstructions_Validate (i : DatasetInstructions) : option DomainError :=
  fail_if (DatasetInstructions_TaskID i =?= "") &&
          (length (DatasetInstructions_Instructions i) =? 0)%nat with ErrNoInstructions;;
  try first_error Instruction_Validate (DatasetInstructions_Instructions i);;
  None.

Record DatasetVersion := mkDatasetVersion {
  DatasetVersion_ID : DatasetVersionID;
  DatasetVersion_DatasetID : DatasetID;
  DatasetVersion_Version : string;
  DatasetVersion_PreviousVersionID : DatasetVersionID;
  DatasetVersion_Content : option DatasetContent;
  DatasetVersion_Instructions : option DatasetInstructions;
  DatasetVersion_TableSchema : string;
  DatasetVersion_CreatedBy : UserID;
  DatasetVersion_CreatedAt : Time;
  DatasetVersion_Message : string;
  DatasetVersion_Metadata : gmap string string
}.

Definition DatasetVersion_Validate (v : DatasetVersion) : option DomainError :=
  fail_if DatasetVersion_ID v =?= "" with ErrInvalidVersionID;;
  fail_if DatasetVersion_DatasetID v =?= "" with ErrInvalidDatasetID;;
  fail_if DatasetVersion_Version v =?= "" with ErrInvalidVersionString;;
  match DatasetVersion_Content v, DatasetVersion_Instructions v with
  | None, None => Some ErrEmptyVersion
  | _, _ => None
  end.

Definition DatasetVersion_HasContent (v : DatasetVersion) : bool :=
  match DatasetVersion_Content v with Some _ => true | None => false end.
Definition DatasetVersion_HasInstructions (v : DatasetVersion) : bool :=
  match DatasetVersion_Instructions v with Some _ => true | None => false end.

Record Chunk := mkChunk {
  Chunk_ID : ChunkID;
  Chunk_DatasetID : DatasetID;
  Chunk_VersionID : DatasetVersionID;
  Chunk_Index : Z;
  Chunk_Hash : string;
  Chunk_Size : Z;
  Chunk_Status : ChunkStatus;
  Chunk_StoragePath : string;
  Chunk_Data : list Z
}.

Definition Chunk_Validate (c : Chunk) : option DomainError :=
  fail_if Chunk_DatasetID c =?= "" with ErrInvalidDatasetID;;
  fail_if (Chunk_Index c <? 0)%Z with ErrInvalidChunkIndex;;
  fail_if Chunk_Hash c =?= "" with ErrInvalidHash;;
  None.

(** ** user.go *)

Definition UserStatusActive : UserStatus := "active".
Definition UserStatusPending : UserStatus := "pending".
Definition UserStatusSuspended : UserStatus := "suspended".
Definition UserStatusDeleted : UserStatus := "deleted".

Definition UserStatus_IsValid (s : UserStatus) : bool :=
  mem s [UserStatusActive; UserStatusPending; UserStatusSuspended; UserStatusDeleted].

Definition UserRoleAdmin : UserRole := "admin".
Definition UserRoleUser : UserRole := "user".
Definition UserRoleReadonly : UserRole := "readonly".

Definition UserRole_IsValid (r : UserRole) : bool :=
  mem r [UserRoleAdmin; UserRoleUser; UserRoleReadonly].

Definition KeyTypeEd25519 : KeyType := "ed25519".
Definition KeyTypeRSA : KeyType := "rsa".

(** [ed25519.PublicKeySize] and [ed25519.SignatureSize]. *)
Definition ed25519_PublicKeySize : nat := 32.
Definition ed25519_SignatureSize : nat := 64.

Record User := mkUser {
  User_ID : UserID;
  User_PublicKey : list Z;
  User_KeyType : KeyType;
  User_PublicKeyFingerprint : string;
  User_Name : string;
  User_Email : string;
  User_Status : UserStatus;
  User_Role : UserRole;
  User_Locale : string;
  User_CreatedAt : Time;
  User_UpdatedAt : Time;
  User_LastLoginAt : option Time;
  User_Metadata : gmap string string
}.

Definition User_Validate (u : User) : option DomainError :=
  fail_if User_ID u =?= "" with ErrInvalidUserID;;
  fail_if (length (User_PublicKey u) =? 0)%nat with ErrInvalidPublicKey;;
  try (if User_KeyType u =?= KeyTypeEd25519 then
         fail_if negb (length (User_PublicKey u) =? ed25519_PublicKeySize)%nat
           with ErrInvalidPublicKey;; None
       else if User_KeyType u =?= KeyTypeRSA then
         fail_if (length (User_PublicKey u) <? 64)%nat with ErrInvalidPublicKey;; None
       else Some ErrInvalidKeyType);;
  fail_if User_Name u =?= "" with ErrInvalidUserName;;
  fail_if negb (UserStatus_IsValid (User_Status u)) with ErrInvalidUserStatus;;
  fail_if negb (UserRole_IsValid (User_Role u)) with ErrInvalidUserRole;;
  None.

(** [crypto/sha256] and [crypto/ed25519]: a SHA-256 digest is 32 bytes. *)
Class Crypto := {
  sha256_Sum256 : list Z -> list Z;
  ed25519_Verify : list Z -> list Z -> list Z -> bool;
  sha256_length : forall bs, length (sha256_Sum256 bs) = 32;
  sha256_is_bytes : forall bs, Forall is_u8 (sha256_Sum256 bs)
}.

Section crypto.
Context `{Crypto}.

Definition User_VerifySignature (u : User) (message signature : list Z) : bool :=
  if User_KeyType u <>? KeyTypeEd25519 then false
  else if negb (length (User_PublicKey u) =? ed25519_PublicKeySize)%nat then false
  else ed25519_Verify (User_PublicKey u) message signature.

Definition UserIDFromPublicKey (pubKey : list Z) : UserID :=
  if (length pubKey =? 0)%nat then ""
  else EncodeToString (take 20 (sha256_Sum256 pubKey)).

Definition PublicKeyFingerprint (pubKey : list Z) : string :=
  if (length pubKey =? 0)%nat then "" else EncodeToString (sha256_Sum256 pubKey).

Definition NewUser (now : Time) (publicKey : list Z) (keyType : KeyType)
    (name email : string) (isFirstUser : bool) : User :=
  {| User_ID := UserIDFromPublicKey publicKey;
     User_PublicKey := publicKey;
     User_KeyType := keyType;
     User_PublicKeyFingerprint := PublicKeyFingerprint publicKey;
     User_Name := name;
     User_Email := email;
     User_Status := UserStatusActive;
     User_Role := if isFirstUser then UserRoleAdmin else UserRoleUser;
     User_Locale := "";
     User_CreatedAt := now;
     User_UpdatedAt := now;
     User_LastLoginAt := None;
     User_Metadata := ∅ |}.
End crypto.

Definition User_IsAdmin (u : User) : bool := User_Role u =?= UserRoleAdmin.
Definition User_CanWrite (u : User) : bool :=
  (User_Role u =?= UserRoleAdmin) || (User_Role u =?= UserRoleUser).
Definition User_IsActive (u : User) : bool := User_Status u =?= UserStatusActive.

Record SignedOperation := mkSignedOperation {
  SignedOperation_UserID : UserID;
  SignedOperation_Operation : string;
  SignedOperation_Payload : list Z;
  SignedOperation_Timestamp : Time;
  SignedOperation_Signature : list Z
}.

Definition SignedOperation_Validate (s : SignedOperation) : option DomainError :=
  fail_if SignedOperation_UserID s =?= "" with ErrInvalidUserID;;
  fail_if SignedOperation_Operation s =?= "" with ErrInvalidOperation;;
  fail_if negb (length (SignedOperation_Signature s) =? ed25519_SignatureSize)%nat
    with ErrInvalidSignature;;
  None.

(** ** catalog.go *)

Record CatalogEntry := mkCatalogEntry {
  CatalogEntry_TopicID : TopicID;
  CatalogEntry_TopicName : string;
  CatalogEntry_DatasetID : DatasetID;
  CatalogEntry_DatasetName : string;
  CatalogEntry_VersionID : DatasetVersionID;
  CatalogEntry_Version : string;
  CatalogEntry_Hash : string;
  CatalogEntry_Size : Z;
  CatalogEntry_ChunkCount : Z;
  CatalogEntry_HasContent : bool;
  CatalogEntry_HasInstructions : bool;
  CatalogEntry_Owners : list UserID;
  CatalogEntry_UpdatedAt : Time
}.

Record Catalog := mkCatalog {
  Catalog_PeerID : string;
  Catalog_Entries : list CatalogEntry;
  Catalog_LastUpdated : Time;
  Catalog_Version : Z
}.

Definition Catalog_HasEntry (c : Catalog) (hash : string) : bool :=
  existsb (fun e => CatalogEntry_Hash e =?= hash) (Catalog_Entries c).

Definition Catalog_GetEntry (c : Catalog) (datasetID : DatasetID) : option CatalogEntry :=
  List.find (fun e => CatalogEntry_DatasetID e =?= datasetID) (Catalog_Entries c).

(** ** query.go: the records; the request check is in [Query] *)

Definition QueryTypeMetadata : QueryType := "metadata".
Definition QueryTypeSQL : QueryType := "sql".

Record DatasetTarget := mkDatasetTarget {
  DatasetTarget_DatasetID : DatasetID;
  DatasetTarget_VersionID : DatasetVersionID;
  DatasetTarget_Alias : string
}.

Record QueryRequest := mkQueryRequest {
  QueryRequest_ID : string;
  QueryRequest_Type : QueryType;
  QueryRequest_TopicID : TopicID;
  QueryRequest_DatasetID : DatasetID;
  QueryRequest_TargetDatasets : list DatasetTarget;
  QueryRequest_SQL : string;
  QueryRequest_NamePattern : string;
  QueryRequest_Expression : string;
  QueryRequest_Limit : Z;
  QueryRequest_Offset : Z;
  QueryRequest_StreamResults : bool;
  QueryRequest_Timeout : Duration;
  QueryRequest_RequestedBy : UserID;
  QueryRequest_RequestedAt : Time
}.

Record QueryColumn := mkQueryColumn {
  QueryColumn_Name : string;
  QueryColumn_Type : string;
  QueryColumn_Nullable : bool
}.

Record QueryResult := mkQueryResult {
  QueryResult_QueryID : string;
  QueryResult_Type : QueryType;
  QueryResult_Entries : list CatalogEntry;
  QueryResult_Columns : list QueryColumn;
  QueryResult_Rows : list (list GoAny);
  QueryResult_TotalCount : Z;
  QueryResult_FromCache : bool;
  QueryResult_SourcePeer : string;
  QueryResult_ExecutionTimeMs : Z;
  QueryResult_Truncated : bool;
  QueryResult_Error : string
}.

Record QueryResultRow := mkQueryResultRow {
  QueryResultRow_Values : list GoAny
}.

Record StreamedQueryResult := mkStreamedQueryResult {
  StreamedQueryResult_QueryID : string;
  StreamedQueryResult_ChunkIndex : Z;
  StreamedQueryResult_Columns : list QueryColumn;
  StreamedQueryResult_Rows : list (list GoAny);
  StreamedQueryResult_IsLast : bool;
  StreamedQueryResult_TotalRows : Z;
  StreamedQueryResult_Error : string
}.

(** ** sync.go: the records; the chunk bitmap is in [Download] *)

Record SyncStatus := mkSyncStatus {
  SyncStatus_InProgress : bool;
  SyncStatus_LastSyncTime : Time;
  SyncStatus_LastSyncError : string;
  SyncStatus_PendingEntries : Z;
  SyncStatus_SyncedEntries : Z
}.

Record Subscription := mkSubscription {
  Subscription_TopicPattern : string;
  Subscription_CreatedAt : Time;
  Subscription_LastSync : Time
}.

Definition DownloadStatusActive : DownloadStatus := "active".
Definition DownloadStatusPaused : DownloadStatus := "paused".
Definition DownloadStatusCompleted : DownloadStatus := "completed".
Definition DownloadStatusFailed : DownloadStatus := "failed".

Record Download := mkDownload {
  Download_ID : string;
  Download_DatasetID : DatasetID;
  Download_DatasetHash : string;
  Download_PeerID : string;
  Download_TotalChunks : Z;
  Download_CompletedChunks : Z;
  Download_ChunkBitmap : list Z;
  Download_Status : DownloadStatus;
  Download_StartedAt : Time;
  Download_UpdatedAt : Time;
  Download_Error : string
}.

(** ** job.go: the records; pipelines are in [Pipeline] *)

Record ResourceLimits := mkResourceLimits {
  ResourceLimits_MaxMemoryMB : Z;
  ResourceLimits_MaxCPUCores : spec_float;
  ResourceLimits_TimeoutSeconds : Z;
  ResourceLimits_MaxRetries : Z;
  ResourceLimits_MaxOutputSizeMB : Z
}.

Record JobInput := mkJobInput {
  JobInput_Name : string;
  JobInput_DatasetID : DatasetID;
  JobInput_VersionID : DatasetVersionID;
  JobInput_Value : GoAny
}.

Record JobOutput := mkJobOutput {
  JobOutput_Name : string;
  JobOutput_DatasetID : DatasetID;
  JobOutput_CreateNewVersion : bool;
  JobOutput_VersionMessage : string
}.

Record Job := mkJob {
  Job_ID : JobID;
  Job_Type : JobType;
  Job_Status : JobStatus;
  Job_TaskID : TaskID;
  Job_InlineInstructions : list Instruction;
  Job_ExecutionMode : ExecutionMode;
  Job_Schedule : option Schedule;
  Job_Inputs : list JobInput;
  Job_Outputs : list JobOutput;
  Job_Dependencies : list JobID;
  Job_TopicID : TopicID;
  Job_DatasetID : DatasetID;
  Job_Priority : Z;
  Job_ResourceLimits : option ResourceLimits;
  Job_CreatedBy : UserID;
  Job_CreatedAt : Time;
  Job_StartedAt : option Time;
  Job_CompletedAt : option Time;
  Job_Error : string;
  Job_Result : string;
  Job_Progress : Z;
  Job_CurrentInstruction : Z;
  Job_NodeID : string;
  Job_RetryCount : Z;
  Job_Metadata : gmap string string
}.

Record JobRequest := mkJobRequest {
  JobRequest_Job : option Job;
  JobRequest_RequestID : string;
  JobRequest_RequesterPeerID : string;
  JobRequest_RequesterUserID : UserID
}.

Record JobResponse := mkJobResponse {
  JobResponse_RequestID : string;
  JobResponse_Accepted : bool;
  JobResponse_JobID : JobID;
  JobResponse_Error : string
}.

Record JobResult := mkJobResult {
  JobResult_ID : string;
  JobResult_JobID : JobID;
  JobResult_NodeID : string;
  JobResult_Status : JobStatus;
  JobResult_Result : string;
  JobResult_Error : string;
  JobResult_StartedAt : option Time;
  JobResult_CompletedAt : Time;
  JobResult_DurationMS : Z;
  JobResult_Metadata : gmap string GoAny
}.


(** * Theorems *)

(** ** Topic ownership *)

(** The requests that change the owners of a topic; a failed removal leaves it alone. *)
Inductive topic_op :=
| OpAddOwner (userID : UserID)
| OpRemoveOwner (userID : UserID).

Definition topic_step (t : Topic) (op : Time * topic_op) : Topic :=
  match op with
  | (now, OpAddOwner u) => Topic_AddOwner now t u
  | (now, OpRemoveOwner u) =>
      match Topic_RemoveOwner now t u with Ok t' => t' | Err _ => t end
  end.

Definition owners_ok (t : Topic) : Prop := Topic_Owners t <> [] /\ NoDup (Topic_Owners t).

Lemma Topic_AddOwner_owners now t u :
  Topic_Owners (Topic_AddOwner now t u) = add_new u (Topic_Owners t).
Proof.
  unfold Topic_AddOwner, add_new, Topic_IsOwner. by destruct (mem u (Topic_Owners t)).
Qed.

Lemma Topic_RemoveOwner_Ok now t u t' :
  Topic_RemoveOwner now t u = Ok t' ->
  1 < length (Topic_Owners t) /\
  remove_first (fun owner => owner =?= u) (Topic_Owners t) = Some (Topic_Owners t') /\
  t' = Topic_set_owners t (Topic_Owners t') now.
Proof.
  unfold Topic_RemoveOwner. destruct (_ <=? 1)%nat eqn:Hl; [done|].
  apply Nat.leb_gt in Hl. destruct (remove_first _ _) eqn:Hr; [|done].
  by intros [= <-].
Qed.

Lemma topic_step_owners_ok t op : owners_ok t -> owners_ok (topic_step t op).
Proof.
  intros [Hne Hnd]. destruct op as [now [u|u]]; simpl.
  - unfold owners_ok. rewrite Topic_AddOwner_owners. split; [|by apply NoDup_add_new].
    unfold add_new. case_match; [done|]. by intros [??]%app_nil.
  - destruct (Topic_RemoveOwner now t u) as [t'|] eqn:Hr; [|done].
    apply Topic_RemoveOwner_Ok in Hr as (Hl & Hr & _). split.
    + apply remove_first_length in Hr. intros Hnil. rewrite Hnil in Hr. simpl in Hr. lia.
    + by eapply NoDup_remove_first.
Qed.

Lemma topic_step_same_validity t op :
  Topic_Owners t <> [] -> Topic_Owners (topic_step t op) <> [] ->
  Topic_Validate (topic_step t op) = Topic_Validate t.
Proof.
  intros H1 H2. unfold Topic_Validate.
  assert ((length (Topic_Owners (topic_step t op)) =? 0)%nat = false) as ->
    by (apply Nat.eqb_neq; by destruct (Topic_Owners (topic_step t op))).
  assert ((length (Topic_Owners t) =? 0)%nat = false) as ->
    by (apply Nat.eqb_neq; by destruct (Topic_Owners t)).
  destruct op as [now [u|u]]; simpl; unfold Topic_AddOwner, Topic_RemoveOwner.
  - by destruct (negb (Topic_IsOwner t u)).
  - destruct (_ <=? 1)%nat; [done|]. by destruct (remove_first _ _).
Qed.

(** Whatever the sequence of additions and removals, a topic that starts with an
    owner and no duplicate owner keeps both properties, and stays as valid as it
    was: the last owner is never removed. *)
Theorem topic_owners_invariant (t : Topic) (ops : list (Time * topic_op)) :
  owners_ok t ->
  owners_ok (fold_left topic_step ops t) /\
  Topic_Validate (fold_left topic_step ops t) = Topic_Validate t.
Proof.
  revert t. induction ops as [|op ops IH]; intros t Hok; simpl; [done|].
  pose proof (topic_step_owners_ok t op Hok) as Hok'.
  destruct (IH _ Hok') as [? ->]. split; [done|].
  apply topic_step_same_validity; [apply Hok|apply Hok'].
Qed.

Lemma topic_owners_invariant_witness :
  let t := mkTopic "t" "" "T" "" "" "active" ["alice"] "alice" 0 0 0 [] ∅ in
  let ops := [(1%Z, OpAddOwner "bob"); (2%Z, OpRemoveOwner "alice"); (3%Z, OpRemoveOwner "bob")] in
  owners_ok (fold_left topic_step ops t) /\ Topic_Validate (fold_left topic_step ops t) = None.
Proof.
  intros t ops.
  apply (topic_owners_invariant t ops). split; [done|apply NoDup_singleton].
Defined.

(** [RemoveOwner] on every branch: it refuses the last owner first, then an
    unknown owner; otherwise exactly the first occurrence of the user goes, and
    only the owners and the modification time change. *)
Theorem Topic_RemoveOwner_spec (now : Time) (t : Topic) (u : UserID) :
  match Topic_RemoveOwner now t u with
  | Err ErrCannotRemoveLastOwner => length (Topic_Owners t) <= 1
  | Err ErrOwnerNotFound => 1 < length (Topic_Owners t) /\ Topic_IsOwner t u = false
  | Err _ => False
  | Ok t' =>
      1 < length (Topic_Owners t) /\
      (exists l1 l2, Topic_Owners t = l1 ++ u :: l2 /\ (u ∉ l1) /\
                     t' = Topic_set_owners t (l1 ++ l2) now) /\
      (NoDup (Topic_Owners t) -> Topic_IsOwner t' u = false)
  end.
Proof.
  unfold Topic_RemoveOwner. destruct (_ <=? 1)%nat eqn:Hl; [by apply Nat.leb_le|].
  apply Nat.leb_gt in Hl. destruct (remove_first _ _) as [l'|] eqn:Hr.
  - apply remove_first_Some in Hr as (l1 & x & l2 & Ho & -> & Hx & Hl1).
    apply bool_decide_eq_true in Hx as ->.
    assert (u ∉ l1) as Hu.
    { intros Hu. specialize (Hl1 _ Hu). by rewrite bool_decide_true in Hl1. }
    split_and!; [done|by exists l1, l2|].
    rewrite Ho. intros (_ & ? & [? _]%NoDup_cons)%NoDup_app.
    apply mem_false. simpl. set_solver.
  - split; [done|]. apply mem_false. intros Hu.
    rewrite remove_first_None in Hr. specialize (Hr _ Hu). by rewrite bool_decide_true in Hr.
Qed.

(** ** Topic paths *)

Definition slash : ascii := "/"%char.

(** A path segment: not empty and without a slash. *)
Definition is_segment (s : string) : Prop :=
  s <> "" /\ Forall (fun c => (c =?= slash) = false) (bytes_of s).

Lemma str_bytes s : str_of (bytes_of s) = s.
Proof. apply String.string_of_list_ascii_of_string. Qed.
Lemma bytes_str l : bytes_of (str_of l) = l.
Proof. apply String.list_ascii_of_string_of_list_ascii. Qed.

Lemma bytes_ne s : s <> "" -> bytes_of s <> [].
Proof. by destruct s. Qed.

Lemma segment_bytes s : is_segment s ->
  bytes_of s <> [] /\ Forall (fun c => (c =?= slash) = false) (bytes_of s).
Proof. intros [? ?]. split; [by apply bytes_ne|done]. Qed.

Lemma join_with_head (ss : list (list ascii)) s sep :
  s <> [] -> head (join_with sep (s :: ss)) = head s.
Proof. destruct s; [done|]. by destruct ss. Qed.

Lemma join_with_last (ss : list (list ascii)) sep x :
  Forall (fun s => s <> []) ss -> last (join_with sep ss) = Some x ->
  exists s, s ∈ ss /\ last s = Some x.
Proof.
  induction 1 as [|s ss Hs Hss IH]; simpl; [done|].
  destruct ss as [|s' ss']; [set_solver|]. rewrite !last_app.
  destruct (last (join_with sep (s' :: ss'))) as [y|] eqn:Hl.
  - intros [= ->]. destruct (IH eq_refl) as (s0 & ? & ?). set_solver.
  - apply last_None in Hl. apply Forall_cons in Hss as [Hs' _].
    destruct s' as [|c s']; [done|]. simpl in Hl. by destruct ss'.
Qed.

(** Parsing the path that joins non-empty, slash-free segments gives the
    segments back, also with any number of slashes around the path. *)
Theorem ParseTopicPath_join (ss : list string) (n m : nat) :
  ss <> [] -> Forall is_segment ss ->
  ParseTopicPath (str_of (replicate n slash ++ bytes_of (Join_slash ss) ++ replicate m slash)) = ss.
Proof.
  intros Hne Hss. unfold ParseTopicPath, Trim_slash, Split_slash, Join_slash.
  rewrite !bytes_str. set (p := fun c => c =?= "/"%char).
  assert (forall k l, drop_while p (replicate k slash ++ l) = drop_while p l) as Hdrop.
  { induction k as [|k IH]; intros l; [done|]. apply IH. }
  assert (Forall (Forall (fun c => p c = false)) (map bytes_of ss) /\
          Forall (fun s => s <> []) (map bytes_of ss)) as [Hclean Hnonempty].
  { split; apply Forall_map; eapply Forall_impl; try done; intros s Hs%segment_bytes; apply Hs. }
  set (l := join_with ["/"%char] (map bytes_of ss)).
  assert (forall x, head l = Some x -> p x = false) as Hhead.
  { destruct ss as [|s ss]; [done|]. simpl in Hnonempty, Hclean.
    apply Forall_cons in Hnonempty as [Hs _]. apply Forall_cons in Hclean as [Hc _].
    unfold l. simpl map. rewrite join_with_head by done. intros x Hx.
    destruct (bytes_of s); simplify_eq/=. by apply Forall_cons in Hc as [? _]. }
  assert (forall x, last l = Some x -> p x = false) as Hlast.
  { intros x Hx. apply join_with_last in Hx as (s & Hs & Hx); [|done].
    rewrite Forall_forall in Hclean. specialize (Hclean s Hs). rewrite Forall_forall in Hclean.
    apply Hclean. apply last_Some in Hx as [s' ->]. set_solver. }
  assert (l <> []) as Hl.
  { destruct ss as [|s ss]; [done|]. apply Forall_cons in Hnonempty as [Hs _].
    intros Hl. apply (f_equal head) in Hl. unfold l in Hl. simpl map in Hl.
    rewrite join_with_head in Hl by done. by destruct (bytes_of s). }
  assert (trim p (replicate n slash ++ l ++ replicate m slash) = l) as Htrim.
  { unfold trim. rewrite Hdrop. rewrite (drop_while_id p (l ++ _)).
    - rewrite reverse_app, reverse_replicate, Hdrop, drop_while_id; [apply reverse_involutive|].
      intros x. rewrite head_reverse. apply Hlast.
    - intros x Hx. apply Hhead. by destruct l. }
  rewrite Htrim, bool_decide_false.
  - unfold l. rewrite split_join; [|done|by destruct ss|done].
    rewrite map_map. rewrite <- (map_id ss) at 2. apply map_ext. intros s. apply str_bytes.
  - intros Heq. apply (f_equal String.list_ascii_of_string) in Heq. by rewrite bytes_str in Heq.
Qed.

Lemma ParseTopicPath_join_witness :
  ParseTopicPath (str_of (replicate 1 slash ++ bytes_of (Join_slash ["weather"; "rain"]) ++ replicate 2 slash))
  = ["weather"; "rain"].
Proof.
  apply (ParseTopicPath_join ["weather"; "rain"] 1 2); [done|].
  repeat constructor; done.
Defined.

(** ** Roles *)

(** The permissions of the ownership roles are ordered: whoever may delete may
    transfer, modify and contribute, whoever may modify may contribute, an
    unknown role may do nothing, and a reader neither modifies nor adds data. *)
Theorem ownership_permissions_ordered (r : OwnershipRole) :
  CanDelete r = CanTransferOwnership r /\
  (CanDelete r = true -> CanModify r = true) /\
  (CanModify r = true -> CanContribute r = true) /\
  (CanContribute r = true -> OwnershipRole_IsValid r = true /\ r <> RoleReader) /\
  (OwnershipRole_IsValid r = true -> r = RoleReader \/ CanContribute r = true).
Proof.
  unfold CanDelete, CanTransferOwnership, CanModify, CanContribute.
  unfold OwnershipRole_IsValid. rewrite mem_true.
  split_and!; [done| | | |].
  - intros ->. done.
  - intros ->. done.
  - rewrite !orb_true_iff, !bool_decide_eq_true. intros [[->| ->]| ->];
      (split; [set_solver|done]).
  - rewrite !orb_true_iff, !bool_decide_eq_true. set_solver.
Qed.

(** ** Users *)

Section user_theorems.
Context `{Crypto}.

(** A user made by [NewUser] is valid exactly when the key has the size of its
    type and the name is not empty, and only the first user is an admin. *)
Theorem NewUser_valid (now : Time) (key : list Z) (kt : KeyType) (name email : string)
    (first : bool) :
  let u := NewUser now key kt name email first in
  (User_Validate u = None <->
   ((kt = KeyTypeEd25519 /\ length key = 32) \/ (kt = KeyTypeRSA /\ 64 <= length key)) /\
   name <> "") /\
  User_IsActive u = true /\ User_CanWrite u = true /\ User_IsAdmin u = first.
Proof.
  intros u. split; [|by destruct first].
  unfold User_Validate, u. simpl. unfold UserIDFromPublicKey.
  destruct (length key) as [|n] eqn:Hlen; simpl.
  { split; [done|]. intros [[[_ ?]|[_ ?]] _]; lia. }
  rewrite bool_decide_false; cycle 1.
  { intros Heq. apply (f_equal (fun s => length (bytes_of s))) in Heq.
    rewrite EncodeToString_length, length_take, sha256_length in Heq. done. }
  replace (UserStatus_IsValid UserStatusActive) with true by done.
  replace (UserRole_IsValid (if first then UserRoleAdmin else UserRoleUser)) with true
    by (by destruct first). simpl.
  destruct (decide (kt = KeyTypeEd25519)) as [->|Hk1].
  - rewrite bool_decide_true by done.
    destruct (Nat.eqb_spec n 31) as [->|Hn]; simpl.
    + case_bool_decide; naive_solver.
    + split; [done|]. intros [[[_ ?]|[? _]] _]; [lia|done].
  - rewrite (bool_decide_false (kt = KeyTypeEd25519)) by done.
    destruct (decide (kt = KeyTypeRSA)) as [->|Hk2].
    + rewrite bool_decide_true by done.
      destruct (Nat.ltb_spec (S n) 64) as [Hn|Hn].
      * split; [done|]. intros [[[? _]|[_ ?]] _]; [done|lia].
      * case_bool_decide; naive_solver.
    + rewrite bool_decide_false by done. naive_solver.
Qed.

(** The identity of a user depends on the key through the first twenty bytes of
    its digest only: two non-empty keys get the same [UserID] exactly when
    those bytes agree, and equal fingerprints imply equal identities. *)
Theorem UserID_determined (k k' : list Z) :
  k <> [] -> k' <> [] ->
  (UserIDFromPublicKey k = UserIDFromPublicKey k' <->
   take 20 (sha256_Sum256 k) = take 20 (sha256_Sum256 k')) /\
  (PublicKeyFingerprint k = PublicKeyFingerprint k' <-> sha256_Sum256 k = sha256_Sum256 k') /\
  length (bytes_of (UserIDFromPublicKey k)) = 40.
Proof.
  intros Hk Hk'. unfold UserIDFromPublicKey, PublicKeyFingerprint.
  destruct k as [|b k]; [done|]. destruct k' as [|b' k']; [done|]. simpl Nat.eqb. cbv iota.
  split_and!.
  - split; [|by intros ->]. intros Heq.
    apply EncodeToString_inj in Heq; [done| |]; apply Forall_take, sha256_is_bytes.
  - split; [|by intros ->]. intros Heq.
    apply EncodeToString_inj in Heq; [done| |]; apply sha256_is_bytes.
  - by rewrite EncodeToString_length, length_take, sha256_length.
Qed.
End user_theorems.

(** A digest function with the documented size, for the witnesses. *)
Definition toy_crypto : Crypto.
Proof.
  refine {| sha256_Sum256 := fun bs => map (fun i => u8 (fold_left Z.add bs i)) (seqZ 0 32);
            ed25519_Verify := fun _ m s => m =?= s |}.
  - intros. by rewrite length_map, length_seqZ.
  - intros. apply Forall_map, Forall_true. intros. apply u8_range.
Defined.

Lemma UserID_determined_witness :
  @UserIDFromPublicKey toy_crypto [1%Z; 2%Z] = @UserIDFromPublicKey toy_crypto [2%Z; 1%Z].
Proof. apply (@UserID_determined toy_crypto [1%Z; 2%Z] [2%Z; 1%Z]); [done|done|reflexivity]. Defined.

(** ** Tasks *)

(** A task is accepted exactly when it is identified, named, not empty, and
    every instruction is one of the known operations; every accepted
    instruction is safe in the sense of [IsSafe]. *)
Theorem Task_Validate_spec (t : Task) :
  Task_Validate t = None <->
  Task_ID t <> "" /\ Task_Name t <> "" /\ Task_Instructions t <> [] /\
  forall i, i ∈ Task_Instructions t -> InstructionOp_IsSafe (Instruction_Operation i) = true.
Proof.
  unfold Task_Validate, InstructionOp_IsSafe.
  case_bool_decide; [naive_solver|]. case_bool_decide; [naive_solver|].
  destruct (Task_Instructions t) as [|i rest] eqn:Hi; simpl length; simpl Nat.eqb; cbv iota.
  { naive_solver. }
  assert (forall j, Instruction_Validate j = None <->
                    InstructionOp_IsValid (Instruction_Operation j) = true) as Hv.
  { intros j. unfold Instruction_Validate. by destruct (InstructionOp_IsValid _). }
  destruct (first_error Instruction_Validate (i :: rest)) eqn:Hf.
  - apply first_error_Some in Hf as (l1 & x & l2 & Heq & Hx & _). split; [done|].
    intros (_ & _ & _ & Hall). rewrite Heq in Hall.
    specialize (Hall x ltac:(set_solver)). apply Hv in Hall. congruence.
  - rewrite first_error_None in Hf. split; [|done]. intros _. split_and!; try done.
    intros j Hj. by apply Hv, Hf.
Qed.
