(* ===== verification/Sql.v ===== *)
(** * Queries of SQLite

    What the repositories rely on beyond filters and updates of rows: [ORDER BY],
    which leaves the order of equal rows open, [LIMIT] and [OFFSET], and the text
    [CURRENT_TIMESTAMP] gives; the columns that hold JSON; the errors of a repository. *)
From stdpp Require Import base countable list sorting strings.
From Stdlib Require Import ZArith Lia Ascii.
From S2P Require Import Prelude GoStrings GoTime Domain.
Local Open Scope Z_scope.
Local Open Scope bool_scope.

(** ** Order *)

(** [ORDER BY]: some arrangement of the rows in which each row may stand before
    those after it. *)
Class OrderBy {A} (before : A -> A -> Prop) := {
  order_by : list A -> list A;
  order_by_perm l : order_by l ≡ₚ l;
  order_by_sorted l : StronglySorted before (order_by l);
}.
Arguments order_by {A} before {_} l.

(** Every total order that can be decided has such an arrangement. *)
Definition sort_order {A} (before : A -> A -> Prop) `{forall x y, Decision (before x y)}
    `{!Transitive before} `{!Total before} : OrderBy before := {|
  order_by := merge_sort before;
  order_by_perm := merge_sort_Permutation before;
  order_by_sorted := StronglySorted_merge_sort before;
|}.

(** [LIMIT n]: a negative number is no limit. *)
Definition sql_limit {A} (n : Z) (l : list A) : list A := if n <? 0 then l else take (Z.to_nat n) l.
(** [OFFSET n]: a negative number is zero. *)
Definition sql_offset {A} (n : Z) (l : list A) : list A := drop (Z.to_nat n) l.

(** ** Rows with a primary key *)

Section keyed.
Context {A : Type} (key : A -> string).

Definition has_key (k : string) (r : A) : bool := key r =?= k.

(** [WHERE key = k] *)
Definition row_of (k : string) (rows : list A) : option A := List.find (has_key k) rows.

(** [INSERT ... ON CONFLICT(key) DO UPDATE]: [f] is the update of the row there. *)
Definition upsert (k : string) (f : A -> A) (new : A) (rows : list A) : list A :=
  if existsb (has_key k) rows then map (fun r => if has_key k r then f r else r) rows else rows ++ [new].

(** [UPDATE ... WHERE key = k] and [DELETE ... WHERE key = k] *)
Definition update_row (k : string) (f : A -> A) (rows : list A) : list A :=
  map (fun r => if has_key k r then f r else r) rows.
Definition delete_row (k : string) (rows : list A) : list A := List.filter (fun r => negb (has_key k r)) rows.

(** ** Theorems on keyed rows *)

Lemma has_key_true k r : has_key k r = true <-> key r = k.
Proof. unfold has_key. apply bool_decide_eq_true. Qed.

Lemma row_of_Some k rows r : row_of k rows = Some r -> r ∈ rows /\ key r = k.
Proof. intros [Hin Hk]%find_some. split; [by apply list_elem_of_In|by apply has_key_true]. Qed.

Lemma row_of_None k rows : row_of k rows = None <-> (k ∉ map key rows).
Proof.
  unfold row_of. rewrite find_None. split.
  - intros Hn (r & -> & Hin)%list_elem_of_fmap. specialize (Hn r Hin). unfold has_key in Hn.
    by rewrite bool_decide_true in Hn.
  - intros Hn r Hin. unfold has_key. apply bool_decide_false. intros <-. destruct Hn.
    apply list_elem_of_fmap. eauto.
Qed.

Lemma row_of_In k rows r : NoDup (map key rows) -> r ∈ rows -> key r = k -> row_of k rows = Some r.
Proof.
  intros Hnd Hin Hk. destruct (row_of k rows) as [r'|] eqn:Hf.
  - apply row_of_Some in Hf as [Hin' Hk']. f_equal. eapply same_key; eauto. congruence.
  - apply row_of_None in Hf. destruct Hf. apply list_elem_of_fmap. eauto.
Qed.

Lemma existsb_has_key k rows : existsb (has_key k) rows = true <-> k ∈ map key rows.
Proof.
  rewrite existsb_exists, list_elem_of_fmap. split.
  - intros (r & Hin & Hk). exists r. split; [by symmetry; apply has_key_true|by apply list_elem_of_In].
  - intros (r & -> & Hin). exists r. split; [by apply list_elem_of_In|by apply has_key_true].
Qed.

Lemma row_of_map k (f : A -> A) rows :
  (forall r, key (f r) = key r) -> row_of k (map f rows) = f <$> row_of k rows.
Proof.
  intros Hf. unfold row_of. induction rows as [|r rows IH]; [done|]. cbn. unfold has_key at 1. rewrite Hf.
  fold (has_key k r). by destruct (has_key k r).
Qed.

Lemma map_key (f : A -> A) rows : (forall r, key (f r) = key r) -> map key (map f rows) = map key rows.
Proof. intros Hf. rewrite map_map. by apply map_ext. Qed.

Lemma row_of_update k (f : A -> A) rows k' :
  (forall r, key r = k -> key (f r) = k) ->
  row_of k' (update_row k f rows) = if k' =?= k then f <$> row_of k rows else row_of k' rows.
Proof.
  intros Hf. unfold update_row. rewrite row_of_map.
  - case_bool_decide as Hk; [subst|]; destruct (row_of _ rows) as [r|] eqn:Hr; try done; cbn;
      apply row_of_Some in Hr as [_ Hr]; unfold has_key; rewrite Hr.
    + by rewrite bool_decide_true.
    + by rewrite bool_decide_false.
  - intros r. unfold has_key. case_bool_decide; [|done]. subst. auto.
Qed.

(** Which row a key finds after an upsert. *)
Lemma row_of_upsert k (f : A -> A) new rows k' :
  (forall r, key r = k -> key (f r) = k) -> key new = k ->
  row_of k' (upsert k f new rows) =
  if k' =?= k then Some (match row_of k rows with Some r => f r | None => new end) else row_of k' rows.
Proof.
  intros Hf Hnew. unfold upsert. destruct (existsb (has_key k) rows) eqn:He.
  - fold (update_row k f rows). rewrite (row_of_update k f rows k' Hf). case_bool_decide; [|done].
    apply existsb_has_key in He. destruct (row_of k rows) eqn:Hr; [done|]. by apply row_of_None in Hr.
  - unfold row_of at 1. rewrite find_app. cbn. fold (row_of k' rows). unfold has_key at 1. rewrite Hnew.
    apply not_true_iff_false in He. rewrite existsb_has_key in He.
    rewrite (bool_decide_ext (k = k') (k' = k)) by done.
    case_bool_decide as Hk; [subst k'|by destruct (row_of k' rows)].
    by rewrite (proj2 (row_of_None k rows) He).
Qed.

Lemma upsert_nodup k (f : A -> A) new rows :
  (forall r, key r = k -> key (f r) = k) -> key new = k ->
  NoDup (map key rows) -> NoDup (map key (upsert k f new rows)).
Proof.
  intros Hf Hnew Hnd. unfold upsert. destruct (existsb (has_key k) rows) eqn:He.
  - fold (update_row k f rows). unfold update_row. rewrite map_key; [done|].
    intros r. unfold has_key. case_bool_decide as Hk; [|done]. rewrite Hk. by apply Hf.
  - apply not_true_iff_false in He. rewrite existsb_has_key in He. rewrite map_app. cbn. rewrite Hnew.
    apply NoDup_app. split; [done|]. split; [|apply NoDup_singleton].
    by intros x Hx ->%list_elem_of_singleton.
Qed.

Lemma row_of_delete k rows k' :
  row_of k' (delete_row k rows) = if k' =?= k then None else row_of k' rows.
Proof.
  unfold row_of, delete_row. induction rows as [|r rows IH]; [by case_bool_decide|]. cbn.
  destruct (has_key k r) eqn:Hk; cbn.
  - apply has_key_true in Hk. subst k. rewrite IH. case_bool_decide; [done|].
    unfold has_key. by rewrite bool_decide_false.
  - rewrite IH. case_bool_decide; [|done]. subst k'. by rewrite Hk.
Qed.

Lemma elem_of_upsert k (f : A -> A) new rows r :
  r ∈ upsert k f new rows -> r = new \/ r ∈ rows \/ exists r0, r0 ∈ rows /\ key r0 = k /\ r = f r0.
Proof.
  unfold upsert. destruct (existsb _ rows).
  - intros (r0 & -> & Hin)%list_elem_of_fmap. destruct (has_key k r0) eqn:Hk; [|auto].
    apply has_key_true in Hk. eauto 6.
  - rewrite elem_of_app, list_elem_of_singleton. tauto.
Qed.
End keyed.

(** ** LIKE *)

(** Letters of ASCII compare without their case. *)
Definition same_letter (a b : ascii) : bool := lower_byte a =?= lower_byte b.

(** [text LIKE pattern], for texts of ASCII: a percent sign stands for anything, an
    underscore for one character. *)
Fixpoint like (pattern text : list ascii) : bool :=
  match pattern with
  | [] => text =?= []
  | c :: p =>
      if c =?= "%"%char then
        (fix skip (t : list ascii) : bool := like p t || match t with [] => false | _ :: t' => skip t' end) text
      else match text with
           | [] => false
           | d :: t => ((c =?= "_"%char) || same_letter c d) && like p t
           end
  end.

(** ["%" + w + "%"] *)
Definition containing (w : string) : list ascii := "%"%char :: bytes_of w ++ ["%"%char].

(** A word without the two signs. *)
Definition plain (w : list ascii) : Prop := Forall (fun c => c <> "%"%char /\ c <> "_"%char) w.

(** ** Time stamps *)

(** A second as [2006-01-02 15:04:05]. *)
Definition stamp (sec : Z) : list ascii :=
  let s := second_text sec in take 10 s ++ " "%char :: drop 11 s.

(** The value [CURRENT_TIMESTAMP] has at [now]. *)
Definition CURRENT_TIMESTAMP (now : Time) : list ascii := stamp (seconds_of now).

(** ** Theorems *)

Section order.
Context {A : Type} {before : A -> A -> Prop} `{!OrderBy before}.

Lemma elem_of_order_by x l : x ∈ order_by before l <-> x ∈ l.
Proof. by rewrite order_by_perm. Qed.

Lemma length_order_by l : length (order_by before l) = length l.
Proof. apply Permutation_length, order_by_perm. Qed.

Lemma StronglySorted_take_drop (l : list A) n x y :
  StronglySorted before l -> x ∈ take n l -> y ∈ drop n l -> before x y.
Proof.
  intros Hs. rewrite <- (take_drop n l) in Hs at 1. revert Hs.
  generalize (take n l) as a, (drop n l) as b. induction a as [|z a IH]; intros b Hs Hx Hy.
  - by apply elem_of_nil in Hx.
  - cbn in Hs. apply StronglySorted_inv in Hs as [Hs Hz]. apply elem_of_cons in Hx as [->|Hx]; [|by eapply IH].
    rewrite Forall_forall in Hz. apply Hz. apply elem_of_app. by right.
Qed.

(** What a limit keeps stands before what it cuts off. *)
Lemma sql_limit_best n l x y :
  x ∈ sql_limit n (order_by before l) -> y ∈ l -> (y ∉ sql_limit n (order_by before l)) -> before x y.
Proof.
  unfold sql_limit. destruct (n <? 0).
  - intros _ Hy Hn. destruct Hn. by apply elem_of_order_by.
  - intros Hx Hy Hn. eapply StronglySorted_take_drop; [apply order_by_sorted|done|].
    rewrite <- elem_of_order_by, <- (take_drop (Z.to_nat n) (order_by before l)) in Hy.
    by apply elem_of_app in Hy as [?|?].
Qed.

Lemma sql_limit_subset n (l : list A) x : x ∈ sql_limit n l -> x ∈ l.
Proof.
  unfold sql_limit. destruct (n <? 0); [done|]. intros Hx. rewrite <- (take_drop (Z.to_nat n) l).
  apply elem_of_app. by left.
Qed.

Lemma sql_limit_NoDup n (l : list A) : NoDup l -> NoDup (sql_limit n l).
Proof.
  unfold sql_limit. destruct (n <? 0); [done|]. intros Hnd.
  eapply sublist_NoDup; [done|apply sublist_take].
Qed.
End order.

(** The two halves of a date with time around the byte between them. *)
Lemma second_text_parts sec :
  exists d c, second_text sec = d ++ "T"%char :: c /\ length d = 10%nat /\ stamp sec = d ++ " "%char :: c /\
              length c = 8%nat.
Proof.
  unfold stamp. unfold second_text. destruct (year_and_day (sec / 86400)) as [y d].
  exists (pad 4 y ++ month_day_text (is_leap y) d), (clock_text (sec `mod` 86400)).
  assert (length (pad 4 y ++ month_day_text (is_leap y) d) = 10%nat) as Hl
    by (by rewrite length_app, pad_length, month_day_text_length).
  split; [by rewrite <- app_assoc|]. split; [done|]. split; [|apply clock_text_length].
  rewrite (app_assoc (pad 4 y)). rewrite take_app_length' by done. f_equal. f_equal.
  rewrite drop_app_ge by lia. by rewrite Hl.
Qed.

Lemma bytes_ltb_swap d1 d2 x y c1 c2 :
  length d1 = length d2 -> bytes_ltb (d1 ++ x :: c1) (d2 ++ x :: c2) = bytes_ltb (d1 ++ y :: c1) (d2 ++ y :: c2).
Proof.
  revert d2. induction d1 as [|a d1 IH]; intros [|b d2] Hl; try done; cbn.
  - rewrite !N.ltb_irrefl. by rewrite !bool_decide_true.
  - rewrite (IH d2); [done|]. by injection Hl.
Qed.

Lemma stamp_length sec : length (stamp sec) = 19%nat.
Proof.
  destruct (second_text_parts sec) as (d & c & _ & Hd & -> & Hc). rewrite length_app. cbn. lia.
Qed.

Lemma stamp_lt a b : 0 <= a < b -> b < 315537897600 -> bytes_ltb (stamp a) (stamp b) = true.
Proof.
  intros Ha Hb. pose proof (second_text_lt a b Ha Hb) as Hlt.
  destruct (second_text_parts a) as (d & c & Hs & Hd & -> & _).
  destruct (second_text_parts b) as (d' & c' & Hs' & Hd' & -> & _).
  rewrite Hs, Hs' in Hlt. by rewrite (bytes_ltb_swap _ _ _ "T"%char) by lia.
Qed.

Lemma bytes_ltb_prefix a x : x <> [] -> bytes_ltb a (a ++ x) = true.
Proof.
  intros Hx. induction a as [|c a IH]; [by destruct x|]. cbn. rewrite IH, bool_decide_true by done.
  by rewrite orb_true_r.
Qed.

(** A stamp compared with a stamp that goes on: less or the same second. *)
Lemma stamp_before a b rest :
  0 <= a < 315537897600 -> 0 <= b < 315537897600 -> rest <> [] ->
  bytes_ltb (stamp a) (stamp b ++ rest) = (a <=? b).
Proof.
  intros Ha Hb Hr. destruct (Z.lt_trichotomy a b) as [Hab|[->|Hab]].
  - rewrite <- (app_nil_r (stamp a)). rewrite bytes_ltb_app; [lia|by rewrite !stamp_length|].
    apply stamp_lt; lia.
  - rewrite bytes_ltb_prefix by done. lia.
  - assert (bytes_ltb (stamp b ++ rest) (stamp a) = true) as Hgt.
    { rewrite <- (app_nil_r (stamp a)). apply bytes_ltb_app; [by rewrite !stamp_length|]. apply stamp_lt; lia. }
    destruct (bytes_ltb (stamp a) (stamp b ++ rest)) eqn:Hlt; [|lia].
    pose proof (bytes_ltb_trans _ _ _ Hlt Hgt) as Hc. by rewrite bytes_ltb_irrefl in Hc.
Qed.

Lemma like_any p t : like ("%"%char :: p) t = true <-> exists a b, t = a ++ b /\ like p b = true.
Proof.
  cbn [like]. rewrite bool_decide_true by done. induction t as [|d t IH].
  - rewrite orb_false_r. split; [by exists [], []|]. by intros ([|] & [|] & [=] & ?).
  - rewrite orb_true_iff, IH. split.
    + intros [?|(a & b & -> & ?)]; [by exists [], (d :: t)|by exists (d :: a), b].
    + intros ([|x a] & b & Heq & Hl); cbn in Heq; [subst; by left|]. injection Heq as -> ->. right. eauto.
Qed.

Lemma like_word w p t :
  plain w -> like (w ++ p) t = true <-> exists m b, t = m ++ b /\ Forall2 (fun c d => same_letter c d = true) w m /\ like p b = true.
Proof.
  intros Hw. revert t. induction Hw as [|c w [Hp Hu] _ IH]; intros t.
  - cbn [app]. split; [by exists [], t|]. by intros (m & b & -> & ->%Forall2_nil_inv_l & ?).
  - cbn [app like]. rewrite (bool_decide_false (c = "%"%char)), (bool_decide_false (c = "_"%char)) by done.
    cbn [orb]. destruct t as [|d t].
    + split; [done|]. intros ([|x m] & b & Heq & Hf & _); [by apply Forall2_cons_nil_inv in Hf|done].
    + rewrite andb_true_iff, IH. split.
      * intros (Hc & m & b & -> & Hf & Hb). exists (d :: m), b. by repeat constructor.
      * intros ([|x m] & b & Heq & Hf & Hb); [by apply Forall2_cons_nil_inv in Hf|].
        injection Heq as -> ->. apply Forall2_cons in Hf as [? ?]. eauto 6.
Qed.

(** Containing a plain word: the word stands in the text, whatever the case of its
    letters. *)
Lemma like_containing w t :
  plain (bytes_of w) ->
  like (containing w) t = true <->
  exists a m b, t = a ++ m ++ b /\ Forall2 (fun c d => same_letter c d = true) (bytes_of w) m.
Proof.
  intros Hw. unfold containing. rewrite like_any. split.
  - intros (a & b & -> & (m & b' & -> & Hf & _)%like_word); [|done]. eauto.
  - intros (a & m & b & -> & Hf). exists a, (m ++ b). split; [done|]. apply like_word; [done|].
    exists m, b. split; [done|]. split; [done|]. apply like_any. exists b, []. by rewrite app_nil_r.
Qed.

Example CURRENT_TIMESTAMP_example :
  str_of (CURRENT_TIMESTAMP (63838286645 * Second + 120 * Millisecond)) = "2023-12-16 01:24:05"%string.
Proof. by vm_compute. Qed.

(** ** Errors of a repository

    A record that does not validate, the two errors of [internal/storage/errors.go]
    the repositories return, and the error of a statement that failed. *)
Inductive StoreError :=
| EInvalid (e : DomainError)
| ErrAlreadyExists
| ErrNotFound
| EFailed.

(** ** JSON columns *)

Class FieldJSON (A : Type) := {
  json_text : A -> option string;
  json_value : string -> option A;
  json_zero : A;
  json_round a s : json_text a = Some s -> json_value s = Some a /\ s <> ""%string;
  json_null a : json_text a = Some "null"%string -> a = json_zero;
}.

(** [x, _ := json.Marshal(a)] and [string(x)] *)
Definition column {A} `{FieldJSON A} (a : A) : string := default ""%string (json_text a).
Definition field {A} `{FieldJSON A} (s : string) : A :=
  if (s =?= "") || (s =?= "null") then json_zero else default json_zero (json_value s).

Lemma field_column {A} `{FieldJSON A} (a : A) :
  field (column a) = match json_text a with Some _ => a | None => json_zero end.
Proof.
  unfold column, field. destruct (json_text a) as [s|] eqn:Ha; cbn [default]; unfold id; [|done].
  destruct (json_round a s Ha) as [Hv Hne]. rewrite (bool_decide_false (s = _)) by done. cbn [orb].
  case_bool_decide as Hs; [subst; symmetry; by apply json_null|]. by rewrite Hv.
Qed.

(** A codec that knows the absent value only, and one for any countable type: the
    binary digits of its number, after a sign. *)
Definition null_codec {A} (zero : A) (is_zero : A -> bool) (Hz : forall a, is_zero a = true -> a = zero) : FieldJSON A.
Proof.
  refine {| json_text a := if is_zero a then Some "null"%string else None; json_value _ := Some zero; json_zero := zero |}.
  - intros a s. destruct (is_zero a) eqn:Ha; [|done]. intros [= <-]. by rewrite (Hz a Ha).
  - intros a. destruct (is_zero a) eqn:Ha; [|done]. intros _. by apply Hz.
Defined.


Fixpoint digits (p : positive) : string :=
  match p with xH => "" | xO p => String "0" (digits p) | xI p => String "1" (digits p) end.
Fixpoint of_digits (s : string) : positive :=
  match s with EmptyString => xH | String c s => if c =?= "0"%char then xO (of_digits s) else xI (of_digits s) end.

Lemma of_digits_digits p : of_digits (digits p) = p.
Proof. induction p as [p IH|p IH|]; cbn; by rewrite ?IH. Qed.

Definition digit_codec {A} `{Countable A} (zero : A) : FieldJSON A.
Proof.
  refine {| json_text a := Some (String "+" (digits (encode a)));
            json_value s := match s with String _ s => decode (of_digits s) | EmptyString => None end; json_zero := zero |}.
  - intros a s [= <-]. by rewrite of_digits_digits, decode_encode.
  - intros a [=].
Defined.

(** ** A clause put together from the caller's text

    [fmt.Sprintf(" ORDER BY %s %s", column, direction)]: what the text makes of the
    rows, [None] if it is no clause.  For a column of the table it orders the rows. *)
Class OrderClause (Row : Type) := {
  order_columns : list string;
  order_clause : string -> list Row -> option (list Row);
  order_clause_plain c dir l : c ∈ order_columns -> dir ∈ ["ASC"; "DESC"]%string ->
    exists l', order_clause (c ++ " " ++ dir)%string l = Some l' /\ l' ≡ₚ l;
}.

(** The clause of a list request with its default column. *)
Definition sort_clause (default_column field : string) (descending : bool) : string :=
  ((if field =?= "" then default_column else field) ++ " " ++ (if descending then "DESC" else "ASC"))%string.

(** [LIMIT] and [OFFSET] as the repositories append them; an offset without a limit
    does not parse. *)
Definition limited {A} (limit offset : Z) (rows : list A) : option (list A) :=
  if 0 <? limit then Some (sql_limit limit (if 0 <? offset then sql_offset offset rows else rows))
  else if 0 <? offset then None else Some rows.

Lemma limited_take {A} limit offset (rows : list A) :
  0 < limit -> limited limit offset rows = Some (take (Z.to_nat limit) (drop (Z.to_nat offset) rows)).
Proof.
  intros Hl. unfold limited, sql_limit, sql_offset. rewrite (proj2 (Z.ltb_lt _ _)) by done.
  rewrite (proj2 (Z.ltb_ge _ _)) by lia. destruct (Z.ltb_spec 0 offset) as [?|Ho]; [done|].
  by replace (Z.to_nat offset) with 0%nat by lia.
Qed.
