(* ===== verification/Schedule.v ===== *)
(** * Job schedules ([internal/domain/schedule.go])

    The record [Schedule] is in [Domain]; here are its methods.  [ShouldRun]
    reads the clock up to three times: once in [IsExpired], once against
    [StartAt], once against [NextRunAt]. *)
From stdpp Require Import base gmap strings list.
From Stdlib Require Import ZArith Lia.
From S2P Require Import Prelude GoStrings Domain.
Local Open Scope Z_scope.

Definition ScheduleOnce : ScheduleType := "once".
Definition ScheduleCron : ScheduleType := "cron".
Definition ScheduleRepeat : ScheduleType := "repeat".
Definition ScheduleInterval : ScheduleType := "interval".

Definition ScheduleType_IsValid (s : ScheduleType) : bool :=
  mem s [ScheduleOnce; ScheduleCron; ScheduleRepeat; ScheduleInterval].

Definition Schedule_Validate (s : Schedule) : option DomainError :=
  fail_if negb (ScheduleType_IsValid (Schedule_Type s)) with ErrInvalidScheduleType;;
  try (if Schedule_Type s =?= ScheduleCron then
         fail_if Schedule_CronExpr s =?= "" with ErrInvalidCronExpr;; None
       else if Schedule_Type s =?= ScheduleRepeat then
         fail_if Schedule_RepeatCount s <? 0 with ErrInvalidRepeatCount;; None
       else if Schedule_Type s =?= ScheduleInterval then
         fail_if Schedule_Interval s <=? 0 with ErrInvalidInterval;; None
       else None);;
  match Schedule_StartAt s, Schedule_EndAt s with
  | Some start, Some stop => fail_if Before stop start with ErrInvalidTimeRange;; None
  | _, _ => None
  end.

Definition Schedule_IsExpired (now : Time) (s : Schedule) : bool :=
  if match Schedule_EndAt s with Some stop => After now stop | None => false end then true
  else if (Schedule_Type s =?= ScheduleRepeat) && (0 <? Schedule_RepeatCount s)
          && (Schedule_RepeatCount s <=? Schedule_RunCount s) then true
  else if (Schedule_Type s =?= ScheduleOnce) && (0 <? Schedule_RunCount s) then true
  else false.

Definition Schedule_ShouldRun (now1 now2 now3 : Time) (s : Schedule) : bool :=
  if negb (Schedule_Enabled s) then false
  else if Schedule_IsExpired now1 s then false
  else if match Schedule_StartAt s with Some t => Before now2 t | None => false end then false
  else if match Schedule_NextRunAt s with Some t => Before now3 t | None => false end then false
  else true.

Definition Schedule_with_run (s : Schedule) (next last : option Time) (count : Z)
    (enabled : bool) : Schedule :=
  {| Schedule_Type := Schedule_Type s; Schedule_CronExpr := Schedule_CronExpr s;
     Schedule_RepeatCount := Schedule_RepeatCount s; Schedule_Interval := Schedule_Interval s;
     Schedule_StartAt := Schedule_StartAt s; Schedule_EndAt := Schedule_EndAt s;
     Schedule_Timezone := Schedule_Timezone s; Schedule_RunCount := count;
     Schedule_NextRunAt := next; Schedule_LastRunAt := last; Schedule_Enabled := enabled |}.

Definition Schedule_IncrementRun (now : Time) (s : Schedule) : Schedule :=
  let count := i64 (Schedule_RunCount s + 1) in
  let upd next enabled := Schedule_with_run s next (Some now) count enabled in
  if Schedule_Type s =?= ScheduleOnce then upd None false
  else if Schedule_Type s =?= ScheduleRepeat then
    if (0 <? Schedule_RepeatCount s) && (Schedule_RepeatCount s <=? count)
    then upd None false
    else upd (Schedule_NextRunAt s) (Schedule_Enabled s)
  else if Schedule_Type s =?= ScheduleInterval then
    upd (Some (Add now (Schedule_Interval s))) (Schedule_Enabled s)
  else upd (Schedule_NextRunAt s) (Schedule_Enabled s).

(** * Theorems *)

(** One poll of a schedule: the caller asks [ShouldRun] and, when the answer is
    yes, runs the job and calls [IncrementRun].  The four readings of the clock
    are arguments. *)
Record poll := mkPoll { poll_expired : Time; poll_start : Time; poll_next : Time; poll_done : Time }.

Definition poll_step (st : Schedule * nat) (p : poll) : Schedule * nat :=
  let '(s, runs) := st in
  if Schedule_ShouldRun (poll_expired p) (poll_start p) (poll_next p) s
  then (Schedule_IncrementRun (poll_done p) s, S runs)
  else (s, runs).

Lemma IncrementRun_type now s : Schedule_Type (Schedule_IncrementRun now s) = Schedule_Type s.
Proof. unfold Schedule_IncrementRun. repeat case_match; done. Qed.

Lemma IncrementRun_repeat now s :
  Schedule_RepeatCount (Schedule_IncrementRun now s) = Schedule_RepeatCount s.
Proof. unfold Schedule_IncrementRun. repeat case_match; done. Qed.

Lemma IncrementRun_count now s :
  Schedule_RunCount (Schedule_IncrementRun now s) = i64 (Schedule_RunCount s + 1).
Proof. unfold Schedule_IncrementRun. repeat case_match; done. Qed.

Lemma ShouldRun_not_expired n1 n2 n3 s :
  Schedule_ShouldRun n1 n2 n3 s = true -> Schedule_IsExpired n1 s = false.
Proof. unfold Schedule_ShouldRun. by repeat case_match. Qed.

(** The number of runs a schedule allows: one for [once], [RepeatCount] for a
    [repeat] schedule with a positive count. *)
Definition run_limit (s : Schedule) : option Z :=
  if Schedule_Type s =?= ScheduleOnce then Some 1
  else if (Schedule_Type s =?= ScheduleRepeat) && (0 <? Schedule_RepeatCount s)
       then Some (Schedule_RepeatCount s) else None.

Lemma ShouldRun_below_limit n1 n2 n3 s limit :
  run_limit s = Some limit -> Schedule_ShouldRun n1 n2 n3 s = true ->
  Schedule_RunCount s < limit.
Proof.
  unfold run_limit. intros Hl Hs%ShouldRun_not_expired. revert Hs. unfold Schedule_IsExpired.
  destruct (match Schedule_EndAt s with Some _ => _ | None => _ end); [done|].
  case_bool_decide as Ho.
  - simplify_eq. rewrite Ho. simpl.
    destruct (0 <? Schedule_RunCount s) eqn:Hc; [done|]. intros _. bool_props. lia.
  - destruct (_ && _) eqn:Hr; simplify_eq. simpl.
    destruct (_ <=? _) eqn:Hc; [done|]. intros _. bool_props. lia.
Qed.

Lemma poll_step_limit s runs p limit :
  run_limit s = Some limit -> is_i64 limit -> 0 <= Schedule_RunCount s ->
  let '(s', runs') := poll_step (s, runs) p in
  run_limit s' = Some limit /\ 0 <= Schedule_RunCount s' /\
  Schedule_RunCount s' - Schedule_RunCount s = Z.of_nat runs' - Z.of_nat runs /\
  (Schedule_RunCount s <= limit -> Schedule_RunCount s' <= limit).
Proof.
  intros Hl Hb Hc. unfold poll_step. destruct (Schedule_ShouldRun _ _ _ _) eqn:Hs; [|split; [done|lia]].
  pose proof (ShouldRun_below_limit _ _ _ _ _ Hl Hs) as Hlt.
  unfold run_limit in *. rewrite IncrementRun_type, IncrementRun_repeat, IncrementRun_count.
  rewrite i64_id by (unfold is_i64 in *; lia). split; [done|]. lia.
Qed.

(** A [once] schedule runs at most once and a [repeat] schedule with count [n > 0]
    at most [n] times, however often and at whatever times it is polled: the
    runs performed are counted exactly and never pass the limit. *)
Theorem schedule_run_limit (s : Schedule) (ps : list poll) (limit : Z) :
  run_limit s = Some limit -> is_i64 limit -> 0 <= Schedule_RunCount s <= limit ->
  let '(s', runs) := fold_left poll_step ps (s, 0%nat) in
  Schedule_RunCount s' = Schedule_RunCount s + Z.of_nat runs /\ Schedule_RunCount s' <= limit.
Proof.
  intros Hl Hb Hc.
  assert (forall s runs0, run_limit s = Some limit -> 0 <= Schedule_RunCount s <= limit ->
    let '(s', runs) := fold_left poll_step ps (s, runs0) in
    Schedule_RunCount s' - Schedule_RunCount s = Z.of_nat runs - Z.of_nat runs0 /\
    Schedule_RunCount s' <= limit) as Hgen.
  { clear s Hl Hc. induction ps as [|p ps IH]; intros s runs0 Hl Hc; cbn [fold_left]; [lia|].
    pose proof (poll_step_limit s runs0 p limit Hl Hb ltac:(lia)) as Hp.
    destruct (poll_step (s, runs0) p) as [s1 r1]. destruct Hp as (Hl1 & ? & ? & ?).
    specialize (IH s1 r1 Hl1 ltac:(lia)).
    destruct (fold_left poll_step ps (s1, r1)) as [s2 r2]. lia. }
  specialize (Hgen s 0%nat Hl Hc).
  destruct (fold_left poll_step ps (s, 0%nat)). lia.
Qed.

Definition example_repeat : Schedule :=
  mkSchedule ScheduleRepeat "" 2 0 None None "" 0 None None true.

Lemma schedule_run_limit_witness :
  let '(s', runs) := fold_left poll_step (replicate 5 (mkPoll 1 1 1 1)) (example_repeat, 0%nat) in
  Schedule_RunCount s' = 0 + Z.of_nat runs /\ Schedule_RunCount s' <= 2.
Proof.
  apply (schedule_run_limit example_repeat (replicate 5 (mkPoll 1 1 1 1)) 2);
    [reflexivity|unfold is_i64; lia|simpl; lia].
Defined.

(** After a run at [now] an interval schedule stays quiet for the whole interval
    and is due again once it has passed, unless it is disabled, expired or not
    started. *)
Theorem schedule_interval_spacing (s : Schedule) (now n1 n2 n3 : Time) :
  Schedule_Type s = ScheduleInterval ->
  let s' := Schedule_IncrementRun now s in
  (n3 < now + Schedule_Interval s -> Schedule_ShouldRun n1 n2 n3 s' = false) /\
  (now + Schedule_Interval s <= n3 ->
   Schedule_ShouldRun n1 n2 n3 s' =
     Schedule_Enabled s
     && match Schedule_EndAt s with Some stop => n1 <=? stop | None => true end
     && match Schedule_StartAt s with Some start => start <=? n2 | None => true end).
Proof.
  intros Ht s'. unfold s', Schedule_IncrementRun. rewrite Ht. simpl.
  unfold Schedule_ShouldRun, Schedule_IsExpired. simpl. rewrite Ht. simpl. unfold Before, After, Add.
  split; intros Hn.
  - rewrite (proj2 (Z.ltb_lt _ _) Hn). by repeat case_match.
  - rewrite (proj2 (Z.ltb_ge n3 _) Hn).
    destruct (Schedule_Enabled s); simpl; [|done].
    destruct (Schedule_EndAt s) as [e|]; destruct (Schedule_StartAt s) as [b|]; simpl;
      rewrite ?Z.leb_antisym; repeat (destruct (_ <? _); simpl; try done); done.
Qed.

Lemma schedule_interval_spacing_witness :
  let s := mkSchedule ScheduleInterval "" 0 (10 * Minute) None None "" 0 None None true in
  Schedule_ShouldRun 5 5 (5 * Minute) (Schedule_IncrementRun 0 s) = false.
Proof.
  intros s. apply (schedule_interval_spacing s 0 5 5 (5 * Minute)); [reflexivity|].
  simpl. unfold Minute, Second, Millisecond. lia.
Defined.

(** [IncrementRun] does not move the next run of a cron schedule: one that was due
    is due again at once, at the same readings of the clock. *)
Theorem cron_stays_due (s : Schedule) (now n1 n2 n3 : Time) :
  Schedule_Type s = ScheduleCron ->
  Schedule_ShouldRun n1 n2 n3 (Schedule_IncrementRun now s) = Schedule_ShouldRun n1 n2 n3 s.
Proof.
  intros Ht. unfold Schedule_IncrementRun. rewrite Ht. simpl.
  unfold Schedule_ShouldRun, Schedule_IsExpired. simpl. by rewrite Ht.
Qed.

Lemma cron_stays_due_witness :
  let s := mkSchedule ScheduleCron "0 * * * *" 0 0 None None "" 0 (Some 7) None true in
  Schedule_ShouldRun 8 8 8 (Schedule_IncrementRun 8 s) = true.
Proof. intros s. rewrite (cron_stays_due s 8 8 8 8); reflexivity. Defined.
