(* ===== verification/Pipeline.v ===== *)
(** * Jobs and pipelines ([internal/domain/job.go])

    The records of a job are in [Domain].  [validateDAG] is a depth-first search
    whose closure mutates the maps [visited] and [recStack]; here the two maps
    are the state [dfs] that [hasCycle] threads.  The recursion has no structural
    argument: [hasCycle] takes fuel and returns [None] when it runs out, and
    [validateDAG_terminates] shows that one more than the number of job identifiers is
    enough.  A [nil] job would make [Validate] panic before the search, so the
    jobs of a pipeline are values. *)
From stdpp Require Import base gmap strings list relations.
From Stdlib Require Import ZArith Lia.
From S2P Require Import Prelude GoStrings Domain.

(** ** Jobs *)

Definition JobTypeScrape : JobType := "scrape".
Definition JobTypeTransform : JobType := "transform".
Definition JobTypeClean : JobType := "clean".
Definition JobTypeAnalyze : JobType := "analyze".
Definition JobTypeML : JobType := "ml".
Definition JobTypeETL : JobType := "etl".
Definition JobTypeIngest : JobType := "ingest".
Definition JobTypeExport : JobType := "export".
Definition JobTypeCustom : JobType := "custom".

Definition JobType_IsValid (t : JobType) : bool :=
  mem t [JobTypeScrape; JobTypeTransform; JobTypeClean; JobTypeAnalyze; JobTypeML;
         JobTypeETL; JobTypeIngest; JobTypeExport; JobTypeCustom].

Definition JobStatusPending : JobStatus := "pending".
Definition JobStatusQueued : JobStatus := "queued".
Definition JobStatusRunning : JobStatus := "running".
Definition JobStatusCompleted : JobStatus := "completed".
Definition JobStatusFailed : JobStatus := "failed".
Definition JobStatusCancelled : JobStatus := "cancelled".
Definition JobStatusWaiting : JobStatus := "waiting".
Definition JobStatusRetrying : JobStatus := "retrying".

Definition JobStatus_IsTerminal (s : JobStatus) : bool :=
  (s =?= JobStatusCompleted) || (s =?= JobStatusFailed) || (s =?= JobStatusCancelled).

Definition ExecutionModeGoroutine : ExecutionMode := "goroutine".
Definition ExecutionModeContainer : ExecutionMode := "container".
Definition ExecutionModePod : ExecutionMode := "pod".

Definition ExecutionMode_IsValid (m : ExecutionMode) : bool :=
  mem m [ExecutionModeGoroutine; ExecutionModeContainer; ExecutionModePod].

Definition Job_Validate (j : Job) : option DomainError :=
  fail_if Job_ID j =?= "" with ErrInvalidJobID;;
  fail_if negb (JobType_IsValid (Job_Type j)) with ErrInvalidJobType;;
  fail_if (Job_TaskID j =?= "") && (length (Job_InlineInstructions j) =? 0)%nat
    with ErrNoTaskOrInstructions;;
  fail_if (Job_ExecutionMode j <>? "") && negb (ExecutionMode_IsValid (Job_ExecutionMode j))
    with ErrInvalidExecutionMode;;
  None.

Definition Job_IsComplete (j : Job) : bool := JobStatus_IsTerminal (Job_Status j).

(** A missing key of a Go map reads as [false]. *)
Definition get_bool (m : gmap JobID bool) (k : JobID) : bool := default false (m !! k).

Definition Job_CanRun (j : Job) (completedJobs : gmap JobID bool) : bool :=
  if (Job_Status j <>? JobStatusPending) && (Job_Status j <>? JobStatusQueued)
     && (Job_Status j <>? JobStatusWaiting) then false
  else forallb (get_bool completedJobs) (Job_Dependencies j).

(** [time.Since(t)] is [time.Now().Sub(t)]. *)
Definition Job_Duration (now : Time) (j : Job) : Duration :=
  match Job_StartedAt j with
  | None => 0%Z
  | Some started =>
      match Job_CompletedAt j with
      | Some completed => Sub completed started
      | None => Sub now started
      end
  end.

(** ** Pipelines *)

Record Pipeline := mkPipeline {
  Pipeline_ID : string;
  Pipeline_Name : string;
  Pipeline_Description : string;
  Pipeline_Jobs : list Job;
  Pipeline_CreatedBy : UserID;
  Pipeline_CreatedAt : Time;
  Pipeline_Status : JobStatus
}.

(** [for _, job := range p.Jobs { jobMap[job.ID] = job }] *)
Definition build_job_map (jobs : list Job) : gmap JobID Job :=
  fold_left (fun m job => <[Job_ID job := job]> m) jobs ∅.

Record dfs := mkDfs { visited : gmap JobID bool; recStack : gmap JobID bool }.

(** The loop over the dependencies of one job; [rec] is the recursive call. *)
Fixpoint check_deps (rec : dfs -> JobID -> option (bool * dfs)) (deps : list JobID) (st : dfs)
    : option (bool * dfs) :=
  match deps with
  | [] => Some (false, st)
  | depID :: deps' =>
      if negb (get_bool (visited st) depID) then
        match rec st depID with
        | None => None
        | Some (true, st') => Some (true, st')
        | Some (false, st') => check_deps rec deps' st'
        end
      else if get_bool (recStack st) depID then Some (true, st)
      else check_deps rec deps' st
  end.

Fixpoint hasCycle (fuel : nat) (jobMap : gmap JobID Job) (st : dfs) (jobID : JobID)
    : option (bool * dfs) :=
  match fuel with
  | O => None
  | S fuel' =>
      let st1 := mkDfs (<[jobID := true]> (visited st)) (<[jobID := true]> (recStack st)) in
      match jobMap !! jobID with
      | None => Some (false, st1)
      | Some job =>
          match check_deps (hasCycle fuel' jobMap) (Job_Dependencies job) st1 with
          | None => None
          | Some (true, st2) => Some (true, st2)
          | Some (false, st2) =>
              Some (false, mkDfs (visited st2) (<[jobID := false]> (recStack st2)))
          end
      end
  end.

(** [for _, job := range p.Jobs { if !visited[job.ID] { if hasCycle(job.ID) ... } }] *)
Fixpoint check_roots (fuel : nat) (jobMap : gmap JobID Job) (jobs : list Job) (st : dfs)
    : option (option DomainError) :=
  match jobs with
  | [] => Some None
  | job :: jobs' =>
      if negb (get_bool (visited st) (Job_ID job)) then
        match hasCycle fuel jobMap st (Job_ID job) with
        | None => None
        | Some (true, _) => Some (Some ErrCyclicDependency)
        | Some (false, st') => check_roots fuel jobMap jobs' st'
        end
      else check_roots fuel jobMap jobs' st
  end.

Definition validateDAG (p : Pipeline) : option (option DomainError) :=
  let jobMap := build_job_map (Pipeline_Jobs p) in
  check_roots (S (size jobMap)) jobMap (Pipeline_Jobs p) (mkDfs ∅ ∅).

Definition Pipeline_Validate (p : Pipeline) : option (option DomainError) :=
  if Pipeline_ID p =?= "" then Some (Some ErrInvalidPipelineID)
  else if Pipeline_Name p =?= "" then Some (Some ErrInvalidPipelineName)
  else if (length (Pipeline_Jobs p) =? 0)%nat then Some (Some ErrEmptyPipeline)
  else match first_error Job_Validate (Pipeline_Jobs p) with
       | Some err => Some (Some err)
       | None => validateDAG p
       end.

(** * Theorems *)

(** ** The dependency graph *)

Section graph.
Context (jobMap : gmap JobID Job).

(** [x] depends on [y]. *)
Definition depends (x y : JobID) : Prop :=
  exists job, jobMap !! x = Some job /\ y ∈ Job_Dependencies job.

Definition known (x : JobID) : Prop := is_Some (jobMap !! x).
Definition vis (st : dfs) (x : JobID) : bool := get_bool (visited st) x.
Definition onstk (st : dfs) (x : JobID) : bool := get_bool (recStack st) x.

(** A finished node: visited and, when it has a job, off the recursion stack. *)
Definition black (st : dfs) (x : JobID) : Prop :=
  vis st x = true /\ (known x -> onstk st x = false).

(** The search invariant: finished nodes depend on finished nodes only and lie
    on no cycle. *)
Record dfs_inv (st : dfs) : Prop := {
  inv_closed : forall x y, black st x -> depends x y -> black st y;
  inv_acyclic : forall x, black st x -> ~ tc depends x x;
  inv_stack : forall x, onstk st x = true -> vis st x = true
}.

(** What a call that finds no cycle may change. *)
Record dfs_ext (st st' : dfs) : Prop := {
  ext_vis : forall x, vis st x = true -> vis st' x = true;
  ext_stk : forall x, known x -> onstk st' x = onstk st x
}.

Lemma depends_known x y : depends x y -> known x.
Proof. intros (job & Hj & _). by exists job. Qed.

Lemma get_bool_insert m (k x : JobID) b :
  get_bool (<[k := b]> m) x = if decide (k = x) then b else get_bool m x.
Proof. unfold get_bool. rewrite lookup_insert. by case_decide. Qed.

Lemma dfs_ext_refl st : dfs_ext st st.
Proof. done. Qed.

Lemma dfs_ext_trans st1 st2 st3 : dfs_ext st1 st2 -> dfs_ext st2 st3 -> dfs_ext st1 st3.
Proof.
  intros [V1 S1] [V2 S2]. split; [eauto|]. intros x Hx. by rewrite S2, S1.
Qed.

Lemma black_mono st st' x : dfs_ext st st' -> black st x -> black st' x.
Proof.
  intros [V S] [Hv Hs]. split; [by apply V|]. intros Hk. rewrite S by done. by apply Hs.
Qed.

(** Closed sets of finished nodes cannot reach a node outside. *)
Lemma black_rtc st x y : dfs_inv st -> black st x -> rtc depends x y -> black st y.
Proof. intros [Hc _ _] Hx Hr. induction Hr; eauto. Qed.

Definition call_post (st : dfs) (v : JobID) (st' : dfs) : Prop :=
  dfs_inv st' /\ dfs_ext st st' /\ black st' v.

Lemma check_deps_false rec deps st st' :
  (forall st v st', dfs_inv st -> vis st v = false -> rec st v = Some (false, st') ->
     call_post st v st') ->
  dfs_inv st -> check_deps rec deps st = Some (false, st') ->
  dfs_inv st' /\ dfs_ext st st' /\ forall d, d ∈ deps -> black st' d.
Proof.
  intros Hrec. revert st. induction deps as [|d deps IH]; intros st Hinv; cbn [check_deps].
  { intros [= <-]. split_and!; [done|apply dfs_ext_refl|set_solver]. }
  destruct (get_bool (visited st) d) eqn:Hv; cbn [negb].
  - destruct (get_bool (recStack st) d) eqn:Hs; [done|]. intros Hd.
    destruct (IH st Hinv Hd) as (Hi & He & Hb). split_and!; [done|done|].
    intros x [->|Hx]%elem_of_cons; [|by apply Hb].
    apply (black_mono st); [done|]. by split.
  - destruct (rec st d) as [[[] st1]|] eqn:Hr; try done. intros Hd.
    destruct (Hrec _ _ _ Hinv Hv Hr) as (Hi1 & He1 & Hb1).
    destruct (IH st1 Hi1 Hd) as (Hi & He & Hb).
    split_and!; [done|by eapply dfs_ext_trans|].
    intros x [->|Hx]%elem_of_cons; [by apply (black_mono st1)|by apply Hb].
Qed.

(** Marking an unvisited job: it is on the stack, so not finished. *)
Lemma mark_inv st v :
  dfs_inv st -> vis st v = false -> known v ->
  dfs_inv (mkDfs (<[v := true]> (visited st)) (<[v := true]> (recStack st))).
Proof.
  intros [Hc Ha Hs] Hv Hk. set (st1 := mkDfs _ _).
  assert (forall x, black st1 x <-> black st x) as Hb.
  { intros x. unfold black, vis, onstk, st1. simpl. rewrite !get_bool_insert.
    case_decide; [subst|done]. unfold vis in Hv. split; [|by intros [? _]; congruence].
    intros [_ H]. specialize (H Hk). done. }
  split; intros x.
  - intros y. rewrite !Hb. apply Hc.
  - rewrite Hb. apply Ha.
  - unfold vis, onstk, st1. simpl. rewrite !get_bool_insert. case_decide; [done|apply Hs].
Qed.

(** Leaving a job whose dependencies are finished: it is finished too. *)
Lemma leave_inv st v :
  dfs_inv st -> vis st v = true -> known v -> onstk st v = true ->
  (forall d, depends v d -> black st d) ->
  dfs_inv (mkDfs (visited st) (<[v := false]> (recStack st))).
Proof.
  intros Hinv Hv Hk Hon Hdeps. set (st1 := mkDfs _ _).
  assert (forall x, black st1 x <-> black st x \/ x = v) as Hb.
  { intros x. unfold black, vis, onstk, st1. simpl. rewrite !get_bool_insert.
    case_decide; [subst; unfold vis in Hv; naive_solver|naive_solver]. }
  split; intros x.
  - intros y. rewrite !Hb. intros [Hx| ->] Hd; left; [by eapply inv_closed|by apply Hdeps].
  - rewrite Hb. intros [Hx| ->]; [by apply (inv_acyclic st)|].
    intros Hcyc. assert (exists d, depends v d /\ rtc depends d v) as (d & Hd & Hr).
    { inversion Hcyc; subst; [exists v; split; [done|apply rtc_refl]|].
      eexists; split; [done|]. by apply tc_rtc. }
    apply Hdeps in Hd. pose proof (black_rtc _ _ _ Hinv Hd Hr) as [_ Hoff].
    specialize (Hoff Hk). congruence.
  - unfold vis, onstk, st1. simpl. rewrite get_bool_insert. case_decide; [done|].
    apply (inv_stack st Hinv).
Qed.

(** A call on an identifier without a job only marks it. *)
Lemma unknown_inv st v :
  dfs_inv st -> jobMap !! v = None ->
  call_post st v (mkDfs (<[v := true]> (visited st)) (<[v := true]> (recStack st))).
Proof.
  intros [Hc Ha Hs] Hn. set (st1 := mkDfs _ _).
  assert (~ known v) as Hnk by (unfold known; rewrite Hn; by intros [??]).
  assert (forall x, black st1 x <-> black st x \/ x = v) as Hb.
  { intros x. unfold black, vis, onstk, st1. simpl. rewrite !get_bool_insert.
    case_decide; naive_solver. }
  assert (dfs_ext st st1) as Hext.
  { split; intros x; unfold vis, onstk, st1; simpl; rewrite get_bool_insert.
    - by case_decide.
    - intros Hk. case_decide; [by subst|done]. }
  split_and!; [|done|rewrite Hb; eauto]. split; intros x.
  - intros y. rewrite !Hb. intros [Hx| ->] Hd; [eauto|]. by apply depends_known in Hd.
  - rewrite Hb. intros [Hx| ->]; [by apply Ha|].
    intros Ht. inversion Ht; subst; by eapply Hnk, depends_known.
  - unfold vis, onstk, st1. simpl. rewrite !get_bool_insert. case_decide; [done|apply Hs].
Qed.

(** A call that reports no cycle finishes its node and keeps the invariant. *)
Lemma hasCycle_false fuel st v st' :
  dfs_inv st -> vis st v = false -> hasCycle fuel jobMap st v = Some (false, st') ->
  call_post st v st'.
Proof.
  revert st v st'. induction fuel as [|fuel IH]; intros st v st' Hinv Hv; cbn [hasCycle]; [done|].
  destruct (jobMap !! v) as [job|] eqn:Hj; [|intros [= <-]; by apply unknown_inv].
  assert (known v) as Hk by (by exists job).
  set (st1 := mkDfs _ _). pose proof (mark_inv st v Hinv Hv Hk) as Hinv1. fold st1 in Hinv1.
  destruct (check_deps _ _ st1) as [[[] st2]|] eqn:Hc; try done. intros [= <-].
  destruct (check_deps_false _ _ _ _ IH Hinv1 Hc) as (Hinv2 & Hext & Hdeps).
  assert (onstk st2 v = true) as Hon2.
  { rewrite (ext_stk _ _ Hext) by done. unfold onstk, st1. simpl. rewrite get_bool_insert.
    by rewrite decide_True. }
  assert (vis st2 v = true) as Hvis2 by (by apply (inv_stack st2)).
  assert (onstk st v = false) as Hoff.
  { destruct (onstk st v) eqn:Ho; [|done]. apply (inv_stack _ Hinv) in Ho. congruence. }
  split_and!.
  - apply leave_inv; [done..|]. intros d (job' & Hj' & Hd). simplify_eq. by apply Hdeps.
  - split; intros x.
    + intros Hx. apply (ext_vis _ _ Hext). unfold vis, st1. simpl.
      rewrite get_bool_insert. by case_decide.
    + intros Hkx. unfold onstk. simpl. rewrite get_bool_insert.
      case_decide; [subst; done|]. fold (onstk st2 x). rewrite (ext_stk _ _ Hext) by done.
      unfold onstk, st1. simpl. rewrite get_bool_insert. by case_decide.
  - split; [done|]. intros _. unfold onstk. simpl. rewrite get_bool_insert.
    by rewrite decide_True.
Qed.

(** *** Termination *)

(** The identifiers with a job that the search has not visited. *)
Definition unvisited (st : dfs) : gset JobID := filter (fun k => vis st k = false) (dom jobMap).

Definition vis_grows (st st' : dfs) : Prop := forall x, vis st x = true -> vis st' x = true.

Lemma unvisited_mono st st' : vis_grows st st' -> size (unvisited st') <= size (unvisited st).
Proof.
  intros Hg. apply subseteq_size. intros x. unfold unvisited. rewrite !elem_of_filter.
  intros [Hx ?]. split; [|done]. destruct (vis st x) eqn:Hv; [|done].
  apply Hg in Hv. congruence.
Qed.

Lemma unvisited_mark st v :
  vis st v = false -> known v ->
  size (unvisited (mkDfs (<[v := true]> (visited st)) (<[v := true]> (recStack st))))
  < size (unvisited st).
Proof.
  intros Hv Hk. apply subset_size. split.
  - intros x. unfold unvisited. rewrite !elem_of_filter. unfold vis. simpl.
    rewrite get_bool_insert. case_decide; naive_solver.
  - intros Hsub. specialize (Hsub v). unfold unvisited in Hsub. rewrite !elem_of_filter in Hsub.
    unfold vis in *. simpl in Hsub. rewrite get_bool_insert, decide_True in Hsub by done.
    apply elem_of_dom in Hk. naive_solver.
Qed.

Lemma check_deps_total rec n deps st :
  (forall st v, vis st v = false -> size (unvisited st) <= n ->
     exists b st', rec st v = Some (b, st') /\ vis_grows st st') ->
  size (unvisited st) <= n ->
  exists b st', check_deps rec deps st = Some (b, st') /\ vis_grows st st'.
Proof.
  intros Hrec. revert st. induction deps as [|d deps IH]; intros st Hn; cbn [check_deps].
  { eexists _, _. split; [done|]. by intros x. }
  destruct (get_bool (visited st) d) eqn:Hv; cbn [negb].
  - destruct (get_bool (recStack st) d); [|by apply IH].
    eexists _, _. split; [done|]. by intros x.
  - destruct (Hrec st d Hv Hn) as ([] & st1 & -> & Hg1); [by eexists _, _|].
    pose proof (unvisited_mono _ _ Hg1). destruct (IH st1 ltac:(lia)) as (b & st2 & -> & Hg2).
    eexists _, _. split; [done|]. intros x Hx. by apply Hg2, Hg1.
Qed.

Lemma hasCycle_total fuel st v :
  vis st v = false -> size (unvisited st) < fuel ->
  exists b st', hasCycle fuel jobMap st v = Some (b, st') /\ vis_grows st st'.
Proof.
  revert st v. induction fuel as [|fuel IH]; intros st v Hv Hf; [lia|]. cbn [hasCycle].
  set (st1 := mkDfs _ _).
  assert (vis_grows st st1) as Hg.
  { intros x. unfold vis, st1. simpl. rewrite get_bool_insert. by case_decide. }
  destruct (jobMap !! v) as [job|] eqn:Hj; [|by eexists _, _].
  assert (size (unvisited st1) < size (unvisited st)) as Hlt by (apply unvisited_mark; [done|by exists job]).
  destruct (check_deps_total (hasCycle fuel jobMap) (size (unvisited st1)) (Job_Dependencies job) st1)
    as ([] & st2 & -> & Hg2); [|done| |].
  - intros st0 v0 Hv0 Hs0. apply IH; [done|lia].
  - eexists _, _. split; [done|]. intros x Hx. by apply Hg2, Hg.
  - eexists _, _. split; [done|]. intros x Hx. apply Hg in Hx. by apply Hg2 in Hx.
Qed.

Lemma check_roots_total fuel jobs st :
  size (unvisited st) < fuel -> exists r, check_roots fuel jobMap jobs st = Some r.
Proof.
  revert st. induction jobs as [|j jobs IH]; intros st Hf; cbn [check_roots]; [eauto|].
  destruct (get_bool _ _) eqn:Hv; cbn [negb]; [by apply IH|].
  destruct (hasCycle_total fuel st (Job_ID j) Hv Hf) as ([] & st' & -> & Hg); [eauto|].
  apply IH. pose proof (unvisited_mono _ _ Hg). lia.
Qed.

(** *** No cycle reported: there is none *)

Lemma check_roots_None fuel jobs st :
  dfs_inv st -> check_roots fuel jobMap jobs st = Some None ->
  (forall x, vis st x = true -> black st x) ->
  forall j, j ∈ jobs -> ~ tc depends (Job_ID j) (Job_ID j).
Proof.
  revert st. induction jobs as [|j jobs IH]; intros st Hinv Hc Hall; [set_solver|].
  cbn [check_roots] in Hc.
  intros j' [->|Hj']%elem_of_cons; destruct (get_bool (visited st) (Job_ID j)) eqn:Hv;
    cbn [negb] in Hc.
  - by apply (inv_acyclic st), Hall.
  - destruct (hasCycle _ _ _ _) as [[[] st']|] eqn:Hh; try done.
    apply hasCycle_false in Hh as (Hi & _ & Hb); [|done..]. by apply (inv_acyclic st').
  - by apply (IH st).
  - destruct (hasCycle _ _ _ _) as [[[] st']|] eqn:Hh; try done.
    apply hasCycle_false in Hh as (Hi & He & Hb); [|done..].
    apply (IH st'); [done|done| |done].
    intros x Hx. split; [done|]. intros Hk. rewrite (ext_stk _ _ He) by done.
    destruct (onstk st x) eqn:Ho; [|done]. exfalso.
    apply (inv_stack _ Hinv) in Ho as Hvx. destruct (Hall x Hvx) as [_ Hoff].
    rewrite Hoff in Ho by done. done.
Qed.

(** *** A cycle reported: there is one, when every dependency has a job *)

Definition deps_known : Prop := forall x y, depends x y -> known y.

Definition only_known (st : dfs) : Prop := forall x, vis st x = true -> known x.

Lemma check_deps_only_known rec deps st b st' :
  (forall st v b st', known v -> only_known st -> rec st v = Some (b, st') -> only_known st') ->
  (forall d, d ∈ deps -> known d) ->
  only_known st -> check_deps rec deps st = Some (b, st') -> only_known st'.
Proof.
  intros Hrec Hd. revert st. induction deps as [|d deps IH]; intros st Hst; cbn [check_deps].
  { by intros [= _ <-]. }
  destruct (get_bool (visited st) d); cbn [negb].
  - destruct (get_bool (recStack st) d); [by intros [= _ <-]|]. apply IH; [set_solver|done].
  - destruct (rec st d) as [[[] st1]|] eqn:Hr; try done.
    + intros [= _ <-]. eapply Hrec; [|done..]. set_solver.
    + apply IH; [set_solver|]. eapply Hrec; [|done..]. set_solver.
Qed.

Lemma hasCycle_only_known fuel st v b st' :
  deps_known -> known v -> only_known st -> hasCycle fuel jobMap st v = Some (b, st') ->
  only_known st'.
Proof.
  intros Hdk. revert st v b st'. induction fuel as [|fuel IH]; intros st v b st' Hk Hst;
    cbn [hasCycle]; [done|]. set (st1 := mkDfs _ _).
  assert (only_known st1) as Hst1.
  { intros x. unfold vis, st1. simpl. rewrite get_bool_insert. case_decide; [by subst|apply Hst]. }
  destruct (jobMap !! v) as [job|] eqn:Hj; [|by intros [= _ <-]].
  destruct (check_deps _ _ _) as [[[] st2]|] eqn:Hc; try done;
    (eapply check_deps_only_known in Hc;
      [|exact IH|intros d Hd; eapply Hdk; by exists job|done]);
    intros [= _ <-]; [done|]. intros x Hx. by apply Hc.
Qed.

(** Everything on the stack leads to the node being searched. *)
Definition stack_path (st : dfs) (v : JobID) : Prop :=
  forall x, onstk st x = true -> tc depends x v.

Lemma check_deps_true fuel deps st v st' :
  deps_known ->
  (forall st w st', dfs_inv st -> only_known st -> vis st w = false -> known w ->
     stack_path st w -> hasCycle fuel jobMap st w = Some (true, st') ->
     exists x, tc depends x x) ->
  (forall d, d ∈ deps -> depends v d) ->
  dfs_inv st -> only_known st -> (forall x, onstk st x = true -> rtc depends x v) ->
  check_deps (hasCycle fuel jobMap) deps st = Some (true, st') ->
  exists x, tc depends x x.
Proof.
  intros Hdk IHf. revert st. induction deps as [|d deps IH]; intros st Hdeps Hinv Hok Hstk;
    cbn [check_deps]; [done|].
  assert (depends v d) as Hvd by set_solver.
  assert (stack_path st d) as Hpath.
  { intros x Hx. eapply tc_rtc_l; [by apply Hstk|]. by apply tc_once. }
  destruct (get_bool (visited st) d) eqn:Hv; cbn [negb].
  - destruct (get_bool (recStack st) d) eqn:Hs.
    + intros _. exists d. by apply Hpath.
    + apply IH; [set_solver|done..].
  - destruct (hasCycle fuel jobMap st d) as [[[] st1]|] eqn:Hr; try done.
    + intros _. eapply IHf; [done..| |done|exact Hr]. by eapply Hdk.
    + pose proof (hasCycle_only_known _ _ _ _ _ Hdk (Hdk _ _ Hvd) Hok Hr) as Hok1.
      apply hasCycle_false in Hr as (Hi1 & He1 & _); [|done..].
      apply IH; [set_solver|done|done|]. intros x Hx. apply Hstk.
      rewrite <- (ext_stk _ _ He1); [done|]. by apply Hok1, (inv_stack _ Hi1).
Qed.

Lemma hasCycle_true fuel st v st' :
  deps_known -> dfs_inv st -> only_known st -> vis st v = false -> known v ->
  stack_path st v -> hasCycle fuel jobMap st v = Some (true, st') ->
  exists x, tc depends x x.
Proof.
  intros Hdk. revert st v st'. induction fuel as [|fuel IH]; intros st v st' Hinv Hok Hv Hk Hp;
    cbn [hasCycle]; [done|]. set (st1 := mkDfs _ _).
  destruct (jobMap !! v) as [job|] eqn:Hj; [|done].
  destruct (check_deps _ _ st1) as [[[] st2]|] eqn:Hc; try done. intros _.
  eapply (check_deps_true fuel (Job_Dependencies job) st1 v); [done|exact IH| | | | |exact Hc].
  - intros d Hd. by exists job.
  - by apply mark_inv.
  - intros x. unfold vis, st1. simpl. rewrite get_bool_insert. case_decide; [by subst|apply Hok].
  - intros x. unfold onstk, st1. simpl. rewrite get_bool_insert. case_decide; [by subst|].
    intros Hx. by apply tc_rtc, Hp.
Qed.

Lemma check_roots_Some fuel jobs st e :
  deps_known -> (forall j, j ∈ jobs -> known (Job_ID j)) ->
  dfs_inv st -> only_known st -> (forall x, onstk st x = false) ->
  check_roots fuel jobMap jobs st = Some (Some e) ->
  e = ErrCyclicDependency /\ exists x, tc depends x x.
Proof.
  intros Hdk. revert st. induction jobs as [|j jobs IH]; intros st Hj Hinv Hok Hoff;
    cbn [check_roots]; [done|].
  assert (known (Job_ID j)) as Hk by set_solver.
  destruct (get_bool (visited st) (Job_ID j)) eqn:Hv; cbn [negb]; [apply IH; set_solver|].
  destruct (hasCycle _ _ _ _) as [[[] st']|] eqn:Hh; try done.
  - intros [= <-]. split; [done|]. eapply hasCycle_true; [done..| |exact Hh].
    intros x Hx. by rewrite Hoff in Hx.
  - pose proof (hasCycle_only_known _ _ _ _ _ Hdk Hk Hok Hh) as Hok'.
    apply hasCycle_false in Hh as (Hi & He & _); [|done..].
    apply IH; [set_solver|done|done|]. intros x. destruct (onstk st' x) eqn:Ho; [|done].
    rewrite <- Ho, (ext_stk _ _ He); [done|]. by apply Hok', (inv_stack _ Hi).
Qed.
End graph.

(** ** Pipelines *)

Lemma build_job_map_lookup_aux jobs (m : gmap JobID Job) x :
  is_Some (fold_left (fun (m : gmap JobID Job) job => <[Job_ID job := job]> m) jobs m !! x) <->
  is_Some (m !! x) \/ exists j, j ∈ jobs /\ Job_ID j = x.
Proof.
  revert m. induction jobs as [|j jobs IH]; intros m; simpl; [set_solver|].
  rewrite IH, lookup_insert_is_Some'. set_solver.
Qed.

(** The identifiers of the map are those of the jobs. *)
Lemma build_job_map_known jobs x :
  known (build_job_map jobs) x <-> exists j, j ∈ jobs /\ Job_ID j = x.
Proof.
  unfold known, build_job_map. rewrite build_job_map_lookup_aux, lookup_empty.
  split; [intros [[? ?]|?]; done|eauto].
Qed.

Lemma empty_dfs_inv jobMap : dfs_inv jobMap (mkDfs ∅ ∅).
Proof. split; unfold black, vis, onstk, get_bool; simpl; intros *; rewrite lookup_empty; naive_solver. Qed.

(** The graph a pipeline is checked for. *)
Definition pipeline_depends (p : Pipeline) : JobID -> JobID -> Prop :=
  depends (build_job_map (Pipeline_Jobs p)).

(** Every dependency names a job of the pipeline. *)
Definition deps_in_pipeline (p : Pipeline) : Prop :=
  forall j d, j ∈ Pipeline_Jobs p -> d ∈ Job_Dependencies j ->
    exists j', j' ∈ Pipeline_Jobs p /\ Job_ID j' = d.

Definition deps_in_pipelineb (p : Pipeline) : bool :=
  forallb (fun j => forallb (fun d => existsb (fun j' => Job_ID j' =?= d) (Pipeline_Jobs p))
                      (Job_Dependencies j)) (Pipeline_Jobs p).

Lemma deps_in_pipelineb_true p : deps_in_pipelineb p = true -> deps_in_pipeline p.
Proof.
  unfold deps_in_pipelineb. rewrite forallb_forall. intros H j d Hj Hd.
  specialize (H j (proj1 (list_elem_of_In _ _) Hj)). rewrite forallb_forall in H.
  specialize (H d (proj1 (list_elem_of_In _ _) Hd)). apply existsb_exists in H as (j' & Hj' & He).
  bool_props. exists j'. split; [by apply list_elem_of_In|done].
Qed.

Lemma build_job_map_elem_aux jobs (m : gmap JobID Job) x job :
  fold_left (fun (m : gmap JobID Job) job => <[Job_ID job := job]> m) jobs m !! x = Some job ->
  m !! x = Some job \/ (job ∈ jobs /\ Job_ID job = x).
Proof.
  revert m. induction jobs as [|j jobs IH]; intros m; simpl; [eauto|].
  intros [H|H]%IH; [|set_solver]. rewrite lookup_insert in H. case_decide; [|eauto].
  simplify_eq. set_solver.
Qed.

Lemma build_job_map_elem jobs x job :
  build_job_map jobs !! x = Some job -> job ∈ jobs /\ Job_ID job = x.
Proof. intros [H|H]%build_job_map_elem_aux; [by rewrite lookup_empty in H|done]. Qed.

(** With distinct identifiers the map holds every job. *)
Lemma build_job_map_NoDup jobs j :
  NoDup (map Job_ID jobs) -> j ∈ jobs -> build_job_map jobs !! Job_ID j = Some j.
Proof.
  intros Hnd Hj. destruct (proj2 (build_job_map_known jobs (Job_ID j))) as [j' Hj']; [eauto|].
  rewrite Hj'. f_equal. apply build_job_map_elem in Hj' as [Hin Hid].
  apply list_elem_of_lookup in Hj as [i Hi], Hin as [i' Hi'].
  assert (i = i') as <-; [|congruence].
  eapply NoDup_lookup; [exact Hnd| |]; rewrite list_lookup_fmap; [by rewrite Hi|].
  rewrite Hi'. simpl. by rewrite Hid.
Qed.

Lemma deps_in_pipeline_known p :
  deps_in_pipeline p -> deps_known (build_job_map (Pipeline_Jobs p)).
Proof.
  intros Hp x y (job & Hj & Hd). apply build_job_map_elem in Hj as [Hin _].
  apply build_job_map_known. by eapply Hp.
Qed.

Lemma validateDAG_terminates (p : Pipeline) : exists r, validateDAG p = Some r.
Proof.
  apply check_roots_total. rewrite <- size_dom. apply Nat.lt_succ_r, subseteq_size.
  unfold unvisited. set_solver.
Qed.

Lemma check_roots_error fuel jm js st e :
  check_roots fuel jm js st = Some (Some e) -> e = ErrCyclicDependency.
Proof.
  revert st. induction js as [|j js IH]; intros st; simpl; [done|].
  destruct (negb _); [|apply IH]. destruct (hasCycle _ _ _ _) as [[[] st']|]; [|apply IH|done].
  by intros [= <-].
Qed.

(** C37: the search for cycles always ends: the fuel, one more than the number of
    job identifiers, is never used up, whatever the dependencies; and the only
    error it reports is [ErrCyclicDependency]. *)
Theorem validateDAG_total (p : Pipeline) :
  validateDAG p = Some None \/ validateDAG p = Some (Some ErrCyclicDependency).
Proof.
  destruct (validateDAG_terminates p) as [[e|] Hr]; [right|by left].
  rewrite Hr. do 2 f_equal. by eapply check_roots_error.
Qed.

(** If [validateDAG] accepts a pipeline then no job depends on itself, directly or
    through other jobs, even when some dependencies name no job. *)
Lemma validateDAG_sound (p : Pipeline) (x : JobID) :
  validateDAG p = Some None -> ~ tc (pipeline_depends p) x x.
Proof.
  intros Hv Hx. assert (known (build_job_map (Pipeline_Jobs p)) x) as Hk.
  { inversion Hx; subst; by eapply depends_known. }
  apply build_job_map_known in Hk as (j & Hj & <-).
  eapply (check_roots_None _ _ _ (mkDfs ∅ ∅)); [apply empty_dfs_inv|exact Hv| |exact Hj|exact Hx].
  intros y. unfold vis, get_bool. simpl. by rewrite lookup_empty.
Qed.

(** C2: when every dependency is a job of the pipeline, [ErrCyclicDependency] is
    reported exactly for the pipelines with a cycle. *)
Theorem validateDAG_exact (p : Pipeline) :
  deps_in_pipeline p ->
  (validateDAG p = Some (Some ErrCyclicDependency) <-> exists x, tc (pipeline_depends p) x x) /\
  (validateDAG p = Some None <-> forall x, ~ tc (pipeline_depends p) x x).
Proof.
  intros Hp. destruct (validateDAG_terminates p) as [[e|] Hr].
  - assert (e = ErrCyclicDependency /\ exists x, tc (pipeline_depends p) x x) as [-> [x Hx]].
    { eapply check_roots_Some; [by apply deps_in_pipeline_known| |apply empty_dfs_inv| | |exact Hr].
      - intros j Hj. apply build_job_map_known. eauto.
      - intros y. unfold vis, get_bool. simpl. by rewrite lookup_empty.
      - intros y. unfold onstk, get_bool. simpl. by rewrite lookup_empty. }
    rewrite Hr. split; split; try done; [by exists x|]. intros H. by apply H in Hx.
  - rewrite Hr. split; split; try done.
    + intros [x Hx]. by apply (validateDAG_sound p x) in Hr.
    + intros _ x. by apply validateDAG_sound.
Qed.

Definition example_job (id : JobID) (deps : list JobID) : Job :=
  mkJob id JobTypeCustom JobStatusPending "task" [] "" None [] [] deps "" "" 0 None "u" 0 None None
    "" "" 0 0 "" 0 ∅.
Definition example_pipeline (jobs : list Job) : Pipeline :=
  mkPipeline "p" "P" "" jobs "u" 0 JobStatusPending.

Definition diamond : Pipeline :=
  example_pipeline [example_job "a" ["b"; "c"]; example_job "b" ["d"]; example_job "c" ["d"];
                    example_job "d" []].

Lemma diamond_closed : deps_in_pipeline diamond.
Proof. apply deps_in_pipelineb_true. by vm_compute. Qed.

Lemma validateDAG_sound_witness : ~ tc (pipeline_depends diamond) "a" "a".
Proof. apply (validateDAG_sound diamond "a"). vm_compute. reflexivity. Defined.

Lemma validateDAG_exact_witness :
  validateDAG diamond = Some None <-> forall x, ~ tc (pipeline_depends diamond) x x.
Proof. apply (validateDAG_exact diamond). apply diamond_closed. Defined.

(** A pipeline without any cycle is refused as cyclic when two of its jobs depend
    on the same identifier that names no job: the search leaves that identifier
    on the recursion stack. *)
Theorem validateDAG_false_alarm :
  let p := example_pipeline [example_job "a" ["x"]; example_job "b" ["x"]] in
  validateDAG p = Some (Some ErrCyclicDependency) /\
  (forall y, ~ tc (pipeline_depends p) y y).
Proof.
  split; [by vm_compute|]. intros y Hy.
  assert (forall u v, pipeline_depends
    (example_pipeline [example_job "a" ["x"]; example_job "b" ["x"]]) u v -> v = "x" /\ u <> "x") as Hd.
  { intros u v (job & Hj & Hv). apply build_job_map_elem in Hj as [Hin <-].
    simpl in Hin. repeat (apply elem_of_cons in Hin as [->|Hin];
      [by apply list_elem_of_singleton in Hv as ->|]). by apply not_elem_of_nil in Hin. }
  inversion Hy as [? ? H|? ? ? H H']; subst; apply Hd in H as [? ?]; [congruence|].
  subst. inversion H' as [? ? H2|? ? ? H2 ?]; subst; by apply Hd in H2 as [_ ?].
Qed.

(** C13: a pipeline that passed the check never gets stuck, if its jobs have distinct
    identifiers, every dependency names a job of the pipeline, and every job that is not
    completed is pending, queued or waiting: while some job is not completed, one of those
    that are not has all its dependencies completed, so that [CanRun] accepts it.
    (With a dependency that names no job an accepted pipeline can stick:
    [unknown_dependency_sticks].) *)
Theorem pipeline_progress (p : Pipeline) (completed : gmap JobID bool) (j0 : Job) :
  validateDAG p = Some None -> deps_in_pipeline p -> NoDup (map Job_ID (Pipeline_Jobs p)) ->
  (forall j, j ∈ Pipeline_Jobs p -> get_bool completed (Job_ID j) = false ->
     Job_Status j = JobStatusPending \/ Job_Status j = JobStatusQueued \/
     Job_Status j = JobStatusWaiting) ->
  j0 ∈ Pipeline_Jobs p -> get_bool completed (Job_ID j0) = false ->
  exists j, j ∈ Pipeline_Jobs p /\ get_bool completed (Job_ID j) = false /\
            Job_CanRun j completed = true.
Proof.
  intros Hv Hp Hnd Hstat Hj0 Hc0. set (R := pipeline_depends p).
  assert (sn R (Job_ID j0)) as Hsn.
  { apply tc_finite_sn; [intros x; by apply validateDAG_sound|].
    exists (map Job_ID (Pipeline_Jobs p)). intros x Hx.
    assert (known (build_job_map (Pipeline_Jobs p)) x) as (j & Hj & <-)%build_job_map_known.
    { assert (exists y, R y x) as [y Hy] by (clear -Hx; induction Hx; eauto).
      by eapply deps_in_pipeline_known. }
    apply list_elem_of_fmap. eauto. }
  remember (Job_ID j0) as x0 eqn:Hx0. revert j0 Hx0 Hj0 Hc0.
  induction Hsn as [x0 _ IH]. intros j0 -> Hj0 Hc0.
  destruct (forallb (get_bool completed) (Job_Dependencies j0)) eqn:Hall.
  - exists j0. split_and!; [done..|]. unfold Job_CanRun. rewrite Hall.
    destruct (Hstat j0 Hj0 Hc0) as [-> | [-> | ->]]; done.
  - assert (exists d, d ∈ Job_Dependencies j0 /\ get_bool completed d = false) as (d & Hd & Hcd).
    { clear -Hall. induction (Job_Dependencies j0) as [|d ds IH]; simpl in Hall; [done|].
      apply andb_false_iff in Hall as [?|?]; [exists d; set_solver|]. naive_solver set_solver. }
    destruct (Hp j0 d Hj0 Hd) as (j1 & Hj1 & <-).
    eapply (IH (Job_ID j1)); [|done..]. exists j0. split; [|done]. by apply build_job_map_NoDup.
Qed.

Lemma pipeline_progress_witness :
  exists j, j ∈ Pipeline_Jobs diamond /\ get_bool {["d" := true]} (Job_ID j) = false /\
            Job_CanRun j {["d" := true]} = true.
Proof.
  apply (pipeline_progress diamond {["d" := true]} (example_job "a" ["b"; "c"])).
  - vm_compute. reflexivity.
  - apply diamond_closed.
  - apply (bool_decide_unpack _). vm_compute. done.
  - intros j Hj _. left. simpl in Hj.
    repeat (apply elem_of_cons in Hj as [->|Hj]; [done|]). by apply not_elem_of_nil in Hj.
  - apply elem_of_cons. by left.
  - vm_compute. reflexivity.
Defined.

(** The check accepts a dependency on a job that is not there, which nothing completes. *)
Example unknown_dependency_sticks :
  let a := example_job "a" ["x"] in
  validateDAG (example_pipeline [a]) = Some None /\
  forall completed, get_bool completed "x" = false -> Job_CanRun a completed = false.
Proof.
  split; [by vm_compute|]. intros completed Hx. unfold Job_CanRun. simpl. rewrite Hx. reflexivity.
Qed.
