(* ===== verification/JobStore.v ===== *)
(** * The table of jobs ([internal/storage/sqlite/jobs.go])

    A row keeps a job with its lists, schedule, limits and metadata as JSON text; the
    constraints are those of [migrate/migrations/sqlite/000001_initial_schema.up.sql].
    An error of [json.Marshal] is ignored by the code and leaves an empty text, from
    which the field is read as absent.  JSON is the class [FieldJSON].  Times are
    those of the years 1 to 9999, which their text keeps.  [store.go] turns the
    enforcement of foreign keys on for one connection of the pool; [fk] tells
    whether the connection a statement runs on is such a one. *)
From stdpp Require Import base gmap strings list sorting.
From Stdlib Require Import ZArith Lia Ascii SpecFloat.
From S2P Require Import Prelude GoStrings GoTime Sql Domain Pipeline.
Local Open Scope Z_scope.
Local Open Scope bool_scope.

(** ** Rows *)

(** The seven JSON columns are beside the others; the fields of [jr_job] they stand
    for are not read. *)
Record JobRow := mkJobRow {
  jr_job : Job;
  jr_inline : string;
  jr_schedule : string;
  jr_inputs : string;
  jr_outputs : string;
  jr_dependencies : string;
  jr_limits : string;
  jr_metadata : string;
}.

Record JobDB := mkJobDB {
  jd_topics : list TopicID;
  jd_datasets : list DatasetID;
  jd_jobs : list JobRow;
  jd_results : list JobResult;
}.

Definition set_jobs (db : JobDB) (l : list JobRow) : JobDB := mkJobDB (jd_topics db) (jd_datasets db) l (jd_results db).

Definition jr_id (r : JobRow) : string := Job_ID (jr_job r).

(** The CHECKs of the table. *)
Definition job_row_ok (j : Job) : bool :=
  JobType_IsValid (Job_Type j) &&
  mem (Job_Status j) [JobStatusPending; JobStatusQueued; JobStatusRunning; JobStatusCompleted; JobStatusFailed;
                      JobStatusCancelled; JobStatusWaiting; JobStatusRetrying] &&
  ExecutionMode_IsValid (Job_ExecutionMode j) &&
  (0 <=? Job_Progress j) && (Job_Progress j <=? 100) && (0 <=? Job_CurrentInstruction j) && (0 <=? Job_RetryCount j).

(** A foreign key that may be NULL, which an empty text is stored as. *)
Definition refers (id : string) (l : list string) : bool := (id =?= "") || mem id l.

(** The references of a job to its topic and dataset. *)
Definition job_keys_ok (db : JobDB) (j : Job) : bool :=
  refers (Job_TopicID j) (jd_topics db) && refers (Job_DatasetID j) (jd_datasets db).

Definition with_times (j : Job) (status : JobStatus) (started completed : option Time) : Job :=
  mkJob (Job_ID j) (Job_Type j) status (Job_TaskID j) (Job_InlineInstructions j) (Job_ExecutionMode j)
    (Job_Schedule j) (Job_Inputs j) (Job_Outputs j) (Job_Dependencies j) (Job_TopicID j) (Job_DatasetID j)
    (Job_Priority j) (Job_ResourceLimits j) (Job_CreatedBy j) (Job_CreatedAt j) started completed
    (Job_Error j) (Job_Result j) (Job_Progress j) (Job_CurrentInstruction j) (Job_NodeID j) (Job_RetryCount j)
    (Job_Metadata j).

(** The columns an UPDATE of the whole job leaves alone. *)
Definition with_creation (j : Job) (by_ : UserID) (at_ : Time) : Job :=
  mkJob (Job_ID j) (Job_Type j) (Job_Status j) (Job_TaskID j) (Job_InlineInstructions j) (Job_ExecutionMode j)
    (Job_Schedule j) (Job_Inputs j) (Job_Outputs j) (Job_Dependencies j) (Job_TopicID j) (Job_DatasetID j)
    (Job_Priority j) (Job_ResourceLimits j) by_ at_ (Job_StartedAt j) (Job_CompletedAt j)
    (Job_Error j) (Job_Result j) (Job_Progress j) (Job_CurrentInstruction j) (Job_NodeID j) (Job_RetryCount j)
    (Job_Metadata j).

Record JobFilter := mkJobFilter {
  JF_Type : JobType;
  JF_Status : JobStatus;
  JF_CreatedBy : string;
  JF_TopicID : option TopicID;
  JF_DatasetID : option DatasetID;
  JF_MinPriority : option Z;
  JF_CreatedAfter : option Time;
  JF_CreatedBefore : option Time;
  JF_Limit : Z;
  JF_Offset : Z;
  JF_OrderBy : string;
  JF_OrderDesc : bool;
}.

(** The WHERE clause of [List]; a column that is NULL equals nothing. *)
Definition opt_test {A} (o : option A) (p : A -> bool) : bool := match o with None => true | Some a => p a end.
Definition nullable_eq (v : string) (arg : string) : bool := (v <>? "") && (v =?= arg).
Definition job_matches (f : JobFilter) (j : Job) : bool :=
  ((JF_Type f =?= "") || (Job_Type j =?= JF_Type f)) &&
  ((JF_Status f =?= "") || (Job_Status j =?= JF_Status f)) &&
  ((JF_CreatedBy f =?= "") || (Job_CreatedBy j =?= JF_CreatedBy f)) &&
  opt_test (JF_TopicID f) (nullable_eq (Job_TopicID j)) &&
  opt_test (JF_DatasetID f) (nullable_eq (Job_DatasetID j)) &&
  opt_test (JF_MinPriority f) (fun p => p <=? Job_Priority j) &&
  opt_test (JF_CreatedAfter f) (fun t => text_leb (RFC3339Nano t) (RFC3339Nano (Job_CreatedAt j))) &&
  opt_test (JF_CreatedBefore f) (fun t => text_leb (RFC3339Nano (Job_CreatedAt j)) (RFC3339Nano t)).

(** [priority DESC, created_at ASC] *)
Definition due_before (a b : JobRow) : Prop :=
  Job_Priority (jr_job b) < Job_Priority (jr_job a) \/
  (Job_Priority (jr_job a) = Job_Priority (jr_job b) /\
   text_leb (RFC3339Nano (Job_CreatedAt (jr_job a))) (RFC3339Nano (Job_CreatedAt (jr_job b))) = true).

(** [completed_at DESC] *)
Definition completed_later (a b : JobResult) : Prop :=
  text_leb (RFC3339Nano (JobResult_CompletedAt b)) (RFC3339Nano (JobResult_CompletedAt a)) = true.

(** What the spliced text [column direction] makes of the rows; [None] if it is no
    ORDER BY clause. *)
Class JobColumns := { order_jobs : string -> list JobRow -> option (list JobRow) }.

Section store.
Context `{FieldJSON (list Instruction)} `{FieldJSON (option Schedule)} `{FieldJSON (list JobInput)}
  `{FieldJSON (list JobOutput)} `{FieldJSON (list JobID)} `{FieldJSON (option ResourceLimits)}
  `{FieldJSON (gmap string string)}.

Definition job_row (j : Job) : JobRow :=
  mkJobRow j (column (Job_InlineInstructions j)) (column (Job_Schedule j)) (column (Job_Inputs j))
    (column (Job_Outputs j)) (column (Job_Dependencies j)) (column (Job_ResourceLimits j)) (column (Job_Metadata j)).

Definition scanJob (r : JobRow) : Job :=
  let j := jr_job r in
  mkJob (Job_ID j) (Job_Type j) (Job_Status j) (Job_TaskID j) (field (jr_inline r)) (Job_ExecutionMode j)
    (field (jr_schedule r)) (field (jr_inputs r)) (field (jr_outputs r)) (field (jr_dependencies r))
    (Job_TopicID j) (Job_DatasetID j) (Job_Priority j) (field (jr_limits r)) (Job_CreatedBy j) (Job_CreatedAt j)
    (Job_StartedAt j) (Job_CompletedAt j) (Job_Error j) (Job_Result j) (Job_Progress j) (Job_CurrentInstruction j)
    (Job_NodeID j) (Job_RetryCount j) (field (jr_metadata r)).

(** ** Operations *)

Definition Jobs_Create (fk : bool) (db : JobDB) (j : Job) : JobDB * option StoreError :=
  match Job_Validate j with
  | Some e => (db, Some (EInvalid e))
  | None =>
      if negb (job_row_ok j) then (db, Some EFailed)
      else if mem (Job_ID j) (map jr_id (jd_jobs db)) || (fk && negb (job_keys_ok db j)) then (db, Some ErrAlreadyExists)
      else (set_jobs db (jd_jobs db ++ [job_row j]), None)
  end.

Definition Jobs_Get (db : JobDB) (id : JobID) : result StoreError Job :=
  match row_of jr_id id (jd_jobs db) with Some r => Ok (scanJob r) | None => Err ErrNotFound end.

(** An offset without a limit is no SQL. *)
Definition Jobs_List `{JobColumns} (db : JobDB) (f : JobFilter) : result StoreError (list Job) :=
  let clause := ((if JF_OrderBy f =?= "" then "created_at" else JF_OrderBy f) ++
                 (if JF_OrderDesc f then " DESC" else " ASC"))%string in
  match order_jobs clause (List.filter (fun r => job_matches f (jr_job r)) (jd_jobs db)) with
  | None => Err EFailed
  | Some rows =>
      if 0 <? JF_Limit f
      then Ok (map scanJob (sql_limit (JF_Limit f) (if 0 <? JF_Offset f then sql_offset (JF_Offset f) rows else rows)))
      else if 0 <? JF_Offset f then Err EFailed else Ok (map scanJob rows)
  end.

Definition Jobs_Update (fk : bool) (db : JobDB) (j : Job) : JobDB * option StoreError :=
  match Job_Validate j with
  | Some e => (db, Some (EInvalid e))
  | None =>
      match row_of jr_id (Job_ID j) (jd_jobs db) with
      | None => (db, Some ErrNotFound)
      | Some old =>
          if negb (job_row_ok j && (negb fk || job_keys_ok db j)) then (db, Some EFailed)
          else let j' := with_creation j (Job_CreatedBy (jr_job old)) (Job_CreatedAt (jr_job old)) in
               (set_jobs db (update_row jr_id (Job_ID j) (fun _ => job_row j') (jd_jobs db)), None)
      end
  end.

Definition status_times (status : JobStatus) (now : Time) (j : Job) : Job :=
  if status =?= JobStatusRunning then with_times j status (Some now) (Job_CompletedAt j)
  else if JobStatus_IsTerminal status then with_times j status (Job_StartedAt j) (Some now)
  else with_times j status (Job_StartedAt j) (Job_CompletedAt j).

Definition set_row_job (r : JobRow) (j : Job) : JobRow :=
  mkJobRow j (jr_inline r) (jr_schedule r) (jr_inputs r) (jr_outputs r) (jr_dependencies r) (jr_limits r) (jr_metadata r).

Definition Jobs_UpdateStatus (db : JobDB) (id : JobID) (status : JobStatus) (now : Time) : JobDB * option StoreError :=
  match row_of jr_id id (jd_jobs db) with
  | None => (db, Some ErrNotFound)
  | Some old =>
      if negb (job_row_ok (status_times status now (jr_job old))) then (db, Some EFailed)
      else (set_jobs db (update_row jr_id id (fun r => set_row_job r (status_times status now (jr_job r))) (jd_jobs db)), None)
  end.

(** The results of a job go with it by the cascade of their foreign key. *)
Definition Jobs_Delete (fk : bool) (db : JobDB) (id : JobID) : JobDB * option StoreError :=
  match row_of jr_id id (jd_jobs db) with
  | None => (db, Some ErrNotFound)
  | Some _ => (mkJobDB (jd_topics db) (jd_datasets db) (delete_row jr_id id (jd_jobs db))
                 (if fk then List.filter (fun r => negb (JobResult_JobID r =?= id)) (jd_results db)
                  else jd_results db), None)
  end.

Definition Jobs_Count (db : JobDB) (f : JobFilter) : Z :=
  Z.of_nat (length (List.filter (fun r => ((JF_Type f =?= "") || (Job_Type (jr_job r) =?= JF_Type f)) &&
                                          ((JF_Status f =?= "") || (Job_Status (jr_job r) =?= JF_Status f))) (jd_jobs db))).

Definition pending_rows `{!OrderBy due_before} (db : JobDB) (limit : Z) : list JobRow :=
  let rows := order_by due_before (List.filter (fun r => Job_Status (jr_job r) =?= JobStatusPending) (jd_jobs db)) in
  if 0 <? limit then sql_limit limit rows else rows.
Definition Jobs_GetPending `{!OrderBy due_before} (db : JobDB) (limit : Z) : list Job := map scanJob (pending_rows db limit).

Definition result_row_ok (r : JobResult) : bool :=
  mem (JobResult_Status r) [JobStatusPending; JobStatusQueued; JobStatusRunning; JobStatusCompleted; JobStatusFailed;
                            JobStatusCancelled] && (0 <=? JobResult_DurationMS r).
Definition Jobs_CreateResult (fk : bool) (db : JobDB) (r : JobResult) : JobDB * option StoreError :=
  if negb (result_row_ok r) then (db, Some EFailed)
  else if mem (JobResult_ID r) (map JobResult_ID (jd_results db)) ||
          (fk && negb (mem (JobResult_JobID r) (map jr_id (jd_jobs db))))
  then (db, Some ErrAlreadyExists)
  else (mkJobDB (jd_topics db) (jd_datasets db) (jd_jobs db) (jd_results db ++ [r]), None).
Definition Jobs_GetResult (db : JobDB) (id : string) : result StoreError JobResult :=
  match row_of JobResult_ID id (jd_results db) with Some r => Ok r | None => Err ErrNotFound end.
Definition Jobs_ListResults `{!OrderBy completed_later} (db : JobDB) (job : JobID) : list JobResult :=
  order_by completed_later (List.filter (fun r => JobResult_JobID r =?= job) (jd_results db)).

Inductive job_op :=
| JCreate (j : Job)
| JUpdate (j : Job)
| JStatus (id : JobID) (status : JobStatus) (now : Time)
| JDelete (id : JobID)
| JResult (r : JobResult).

Definition job_step (fk : bool) (db : JobDB) (o : job_op) : JobDB * option StoreError :=
  match o with
  | JCreate j => Jobs_Create fk db j
  | JUpdate j => Jobs_Update fk db j
  | JStatus id st now => Jobs_UpdateStatus db id st now
  | JDelete id => Jobs_Delete fk db id
  | JResult r => Jobs_CreateResult fk db r
  end.

(** ** Theorems *)

(** All that [json.Marshal] is given can be marshalled. *)
Definition marshallable (j : Job) : Prop :=
  json_text (Job_InlineInstructions j) <> None /\ json_text (Job_Schedule j) <> None /\
  json_text (Job_Inputs j) <> None /\ json_text (Job_Outputs j) <> None /\ json_text (Job_Dependencies j) <> None /\
  json_text (Job_ResourceLimits j) <> None /\ json_text (Job_Metadata j) <> None.

Lemma scan_row (j : Job) : marshallable j -> scanJob (job_row j) = j.
Proof.
  intros (H1' & H2' & H3' & H4' & H5' & H6' & H7'). unfold scanJob, job_row. cbn.
  rewrite !field_column. repeat (case_match; [|congruence]). by destruct j.
Qed.

(** *** The tables *)

(** With [refs] the references hold as well. *)
Record jobs_ok (refs : bool) (db : JobDB) : Prop := {
  jo_ids : NoDup (map jr_id (jd_jobs db));
  jo_checks r : r ∈ jd_jobs db ->
    job_row_ok (jr_job r) = true /\ (refs = true -> job_keys_ok db (jr_job r) = true);
  jo_result_ids : NoDup (map JobResult_ID (jd_results db));
  jo_results r : r ∈ jd_results db ->
    result_row_ok r = true /\ (refs = true -> JobResult_JobID r ∈ map jr_id (jd_jobs db));
}.

Lemma update_row_ids id (f : JobRow -> JobRow) rows :
  (forall r, jr_id r = id -> jr_id (f r) = id) -> map jr_id (update_row jr_id id f rows) = map jr_id rows.
Proof.
  intros Hf. unfold update_row. apply map_key. intros r. unfold has_key. case_bool_decide as Hk; [|done].
  rewrite Hk. by apply Hf.
Qed.

Lemma elem_of_update_row id (f : JobRow -> JobRow) rows r :
  r ∈ update_row jr_id id f rows -> r ∈ rows \/ exists r0, r0 ∈ rows /\ jr_id r0 = id /\ r = f r0.
Proof.
  intros (r0 & -> & Hin)%list_elem_of_fmap. destruct (has_key jr_id id r0) eqn:Hk; [|by left].
  apply has_key_true in Hk. eauto.
Qed.

(** Replacing the row of a key by one that passes the checks. *)
Lemma update_ok refs db id f :
  jobs_ok refs db -> (forall r, jr_id r = id -> jr_id (f r) = id) ->
  (forall r, r ∈ jd_jobs db -> jr_id r = id ->
     job_row_ok (jr_job (f r)) = true /\ (refs = true -> job_keys_ok db (jr_job (f r)) = true)) ->
  jobs_ok refs (set_jobs db (update_row jr_id id f (jd_jobs db))).
Proof.
  intros [Hi Hc Hri Hr] Hf Hnew. split; cbn; rewrite ?update_row_ids by done; [done| |done|done].
  intros r [Hin|(r0 & Hin & Hid & ->)]%elem_of_update_row; [by apply Hc|by apply Hnew].
Qed.

Lemma create_ok refs fk db j :
  (refs = true -> fk = true) -> jobs_ok refs db -> jobs_ok refs (Jobs_Create fk db j).1.
Proof.
  intros Hfk [Hi Hc Hri Hr]. unfold Jobs_Create. destruct (Job_Validate j); [done|].
  destruct (job_row_ok j) eqn:Hj; cbn; [|done].
  destruct (mem _ _ || _) eqn:Hm; [done|]. apply orb_false_iff in Hm as [Hm Hk].
  apply mem_false in Hm. split; cbn; [| |done|].
  - rewrite map_app. apply NoDup_app. split; [done|]. split; [|apply NoDup_singleton].
    by intros x Hx ->%list_elem_of_singleton.
  - intros r [Hin| ->%list_elem_of_singleton]%elem_of_app; [by apply Hc|]. split; [done|]. intros Href.
    rewrite (Hfk Href) in Hk. by apply negb_false_iff in Hk.
  - intros r Hin. destruct (Hr r Hin) as [? Hj']. split; [done|]. intros Href. rewrite map_app.
    apply elem_of_app. left. by apply Hj'.
Qed.

Lemma delete_ok refs fk db id :
  (refs = true -> fk = true) -> jobs_ok refs db -> jobs_ok refs (Jobs_Delete fk db id).1.
Proof.
  intros Hfk [Hi Hc Hri Hr]. unfold Jobs_Delete. destruct (row_of jr_id id (jd_jobs db)); [|done]. split; cbn.
  - by apply NoDup_map_filter.
  - intros r Hin. apply list_elem_of_In, filter_In in Hin as [Hin _]. apply Hc. by apply list_elem_of_In.
  - destruct fk; [by apply NoDup_map_filter|done].
  - intros r Hin. assert (r ∈ jd_results db) as Hin'.
    { destruct fk; [|done]. apply list_elem_of_In, filter_In in Hin as [Hin _]. by apply list_elem_of_In. }
    destruct (Hr r Hin') as [? Hj]. split; [done|]. intros Href. rewrite (Hfk Href) in Hin.
    apply list_elem_of_In, filter_In in Hin as [_ Hne]. bool_props.
    destruct (proj1 (list_elem_of_fmap _ _ _) (Hj Href)) as (r0 & Hid0 & Hin0).
    apply list_elem_of_fmap. exists r0. split; [done|]. apply list_elem_of_In, filter_In.
    split; [by apply list_elem_of_In|]. apply negb_true_iff. unfold has_key. apply bool_decide_false. congruence.
Qed.

Lemma result_ok refs fk db r :
  (refs = true -> fk = true) -> jobs_ok refs db -> jobs_ok refs (Jobs_CreateResult fk db r).1.
Proof.
  intros Hfk [Hi Hc Hri Hr]. unfold Jobs_CreateResult. destruct (result_row_ok r) eqn:Hro; cbn; [|done].
  destruct (mem _ _ || _) eqn:Hm; [done|]. apply orb_false_iff in Hm as [Hm Hk].
  apply mem_false in Hm. split; cbn; [done|done| |].
  - rewrite map_app. apply NoDup_app. split; [done|]. split; [|apply NoDup_singleton].
    by intros x Hx ->%list_elem_of_singleton.
  - intros r' [Hin| ->%list_elem_of_singleton]%elem_of_app; [by apply Hr|]. split; [done|]. intros Href.
    rewrite (Hfk Href) in Hk. by apply negb_false_iff, mem_true in Hk.
Qed.

Lemma job_step_ok refs fk db o :
  (refs = true -> fk = true) -> jobs_ok refs db -> jobs_ok refs (job_step fk db o).1.
Proof.
  intros Hfk Hok. destruct o as [j|j|id st now|id|r]; cbn;
    [by apply create_ok| | |by apply delete_ok|by apply result_ok]; pose proof Hok as [Hi Hc Hri Hr].
  - unfold Jobs_Update. destruct (Job_Validate j); [done|].
    destruct (row_of jr_id (Job_ID j) (jd_jobs db)) as [old|]; [|done].
    destruct (job_row_ok j && _) eqn:Hj; cbn; [|done]. apply andb_true_iff in Hj as [Hj Hk].
    apply update_ok; [done|done|]. intros _ _ _. split; [done|]. intros Href. rewrite (Hfk Href) in Hk. done.
  - unfold Jobs_UpdateStatus. destruct (row_of jr_id id (jd_jobs db)) as [old|] eqn:Ho; [|done].
    destruct (job_row_ok (status_times st now (jr_job old))) eqn:Hj; cbn; [|done].
    apply row_of_Some in Ho as [Hin Hid]. apply update_ok; [done| |].
    + intros r. unfold jr_id, set_row_job, status_times. cbn. by repeat case_match.
    + intros r Hr' Hid'. assert (r = old) as -> by (eapply same_key; eauto; congruence).
      split; [done|]. destruct (Hc old Hin) as [_ Hk]. cbn. unfold status_times. by repeat case_match.
Qed.

Definition job_run (db : JobDB) (ops : list (bool * job_op)) : JobDB :=
  fold_left (fun d fo => (job_step fo.1 d fo.2).1) ops db.

Lemma job_run_ok refs ops : forall db,
  (refs = true -> Forall (fun fo => fo.1 = true) ops) -> jobs_ok refs db -> jobs_ok refs (job_run db ops).
Proof.
  induction ops as [|[fk o] ops IH]; intros db Hfk Hok; [done|]. cbn. apply IH.
  - intros Href. by destruct (proj1 (Forall_cons _ _ _) (Hfk Href)).
  - apply job_step_ok; [|done]. intros Href. by destruct (proj1 (Forall_cons _ _ _) (Hfk Href)).
Qed.


(** A job that was created is read back as it was, if its fields can be
    marshalled, and so is one that was updated, but for its creator and the time
    of its creation, which stay. *)
Theorem job_round_trip fk db j db' :
  marshallable j -> NoDup (map jr_id (jd_jobs db)) ->
  (Jobs_Create fk db j = (db', None) -> Jobs_Get db' (Job_ID j) = Ok j) /\
  (Jobs_Update fk db j = (db', None) -> exists old, Jobs_Get db (Job_ID j) = Ok old /\
     Jobs_Get db' (Job_ID j) = Ok (with_creation j (Job_CreatedBy old) (Job_CreatedAt old))).
Proof.
  intros Hm Hnd. split.
  - unfold Jobs_Create. destruct (Job_Validate j); [done|]. destruct (negb _); [done|].
    destruct (mem _ _ || _) eqn:Hmem; [done|]. intros [= <-]. unfold Jobs_Get. cbn.
    apply orb_false_iff in Hmem as [Hmem _]. apply mem_false in Hmem.
    unfold row_of. rewrite find_app. fold (row_of jr_id (Job_ID j) (jd_jobs db)).
    rewrite (proj2 (row_of_None jr_id _ _) Hmem). cbn. unfold has_key. cbn.
    rewrite bool_decide_true by done. by rewrite scan_row.
  - unfold Jobs_Update. destruct (Job_Validate j); [done|].
    destruct (row_of jr_id (Job_ID j) (jd_jobs db)) as [old|] eqn:Ho; [|done].
    destruct (negb _); [done|]. intros [= <-]. exists (scanJob old). unfold Jobs_Get. rewrite Ho. split; [done|].
    cbn [set_jobs jd_jobs]. rewrite row_of_update by (intros; done). rewrite bool_decide_true, Ho by done. cbn.
    by rewrite scan_row.
Qed.

(** The pending jobs handed out are pending jobs of the table, and every pending
    job left out has no higher priority than one handed out, nor, with the same
    priority, an earlier text of its creation. *)
Theorem GetPending_best `{!OrderBy due_before} db limit :
  (forall r, r ∈ pending_rows db limit -> r ∈ jd_jobs db /\ Job_Status (jr_job r) = JobStatusPending) /\
  (forall r r', r ∈ pending_rows db limit -> r' ∈ jd_jobs db -> Job_Status (jr_job r') = JobStatusPending ->
     (r' ∉ pending_rows db limit) -> 0 < limit /\ due_before r r') /\
  (0 < limit -> Z.of_nat (length (pending_rows db limit)) <= limit).
Proof.
  assert (forall r, r ∈ order_by due_before (List.filter (fun r => Job_Status (jr_job r) =?= JobStatusPending) (jd_jobs db)) <->
            r ∈ jd_jobs db /\ Job_Status (jr_job r) = JobStatusPending) as Hall.
  { intros r. rewrite elem_of_order_by, list_elem_of_In, filter_In, <- list_elem_of_In. by rewrite bool_decide_eq_true. }
  unfold pending_rows. split; [|split].
  - intros r. destruct (0 <? limit); rewrite <- Hall; [|done]. apply sql_limit_subset.
  - intros r r' Hr Hr' Hp Hout. destruct (0 <? limit) eqn:Hl.
    + split; [lia|]. eapply sql_limit_best; [done| |done].  by apply (elem_of_order_by r'), Hall.
    + destruct Hout. by apply Hall.
  - intros Hl. rewrite (proj2 (Z.ltb_lt _ _)) by done. unfold sql_limit. rewrite (proj2 (Z.ltb_ge _ _)) by lia.
    rewrite length_take. lia.
Qed.

(** A job may leave its execution mode empty, but such a job is never stored. *)
Theorem empty_mode_not_stored fk db j :
  Job_Validate j = None -> Job_ExecutionMode j = ""%string -> Jobs_Create fk db j = (db, Some EFailed).
Proof.
  intros Hv He. unfold Jobs_Create. rewrite Hv.
  assert (job_row_ok j = false) as ->; [|done]. unfold job_row_ok. rewrite He.
  change (ExecutionMode_IsValid "") with false. by rewrite andb_false_r.
Qed.

End store.

(** ** Witnesses *)

#[local] Instance null_list {A} : FieldJSON (list A).
Proof. by refine (null_codec [] (fun l => match l with [] => true | _ => false end) _); intros []. Defined.
#[local] Instance null_option {A} : FieldJSON (option A).
Proof. by refine (null_codec None (fun o => match o with None => true | _ => false end) _); intros []. Defined.
#[local] Instance null_map : FieldJSON (gmap string string).
Proof. refine (null_codec ∅ (fun m => bool_decide (m = ∅)) _). intros m. apply bool_decide_eq_true. Defined.

#[export] Instance due_before_dec a b : Decision (due_before a b).
Proof. unfold due_before. apply _. Defined.

Lemma due_before_total : Total due_before.
Proof.
  intros a b. unfold due_before.
  destruct (Z.lt_trichotomy (Job_Priority (jr_job a)) (Job_Priority (jr_job b))) as [|[Heq|]]; [by right; left| |by left; left].
  destruct (text_leb_total (RFC3339Nano (Job_CreatedAt (jr_job a))) (RFC3339Nano (Job_CreatedAt (jr_job b)))); auto.
Qed.

Lemma due_before_trans : Transitive due_before.
Proof.
  intros a b c [?|[? ?]] [?|[? ?]]; [left; lia|left; lia|left; lia|right]. split; [lia|]. by eapply text_leb_trans.
Qed.

#[export] Instance due_order : OrderBy due_before := @sort_order _ due_before _ due_before_trans due_before_total.

Definition pending_job (id : string) (priority : Z) (created : Time) : Job :=
  mkJob id "etl" "pending" "task" [] "goroutine" None [] [] [] "t1" "" priority None "u" created None None "" "" 0 0 "n" 0 ∅.
Definition three_calls : list (bool * job_op) :=
  [(true, JCreate (pending_job "a" 1 (5 * Second))); (true, JCreate (pending_job "b" 7 (6 * Second)));
   (true, JCreate (pending_job "c" 7 (4 * Second))); (true, JStatus "x" "running" 0);
   (true, JResult (mkJobResult "r" "a" "n" "running" "" "" None 9 0 ∅))].
Definition three_jobs : JobDB := job_run (mkJobDB ["t1"%string] [] [] []) three_calls.

Example three_jobs_due : map Job_ID (Jobs_GetPending three_jobs 2) = ["c"; "b"]%string.
Proof. by vm_compute. Qed.


(** On a connection that does not enforce foreign keys the result of a deleted job
    stays, and a job may name a topic that does not exist. *)
Example dangling_rows :
  let db := job_run three_jobs [(false, JDelete "a"); (false, JCreate (pending_job "d" 1 7))] in
  map JobResult_JobID (jd_results db) = ["a"%string] /\ map jr_id (jd_jobs db) = ["b"; "c"; "d"]%string /\
  jd_topics (job_run (mkJobDB [] [] [] []) [(false, JCreate (pending_job "d" 1 7))]) = [] /\
  length (jd_jobs (job_run (mkJobDB [] [] [] []) [(false, JCreate (pending_job "d" 1 7))])) = 1%nat.
Proof. by vm_compute. Qed.

Lemma job_round_trip_witness :
  Jobs_Get (Jobs_Create true three_jobs (pending_job "d" 2 9)).1 "d" = Ok (pending_job "d" 2 9).
Proof.
  apply (job_round_trip true three_jobs (pending_job "d" 2 9)).
  - by vm_compute.
  - apply (bool_decide_unpack _). by vm_compute.
  - by vm_compute.
Defined.

Lemma GetPending_best_witness :
  forall r, r ∈ pending_rows three_jobs 2 -> due_before r (job_row (pending_job "a" 1 (5 * Second))).
Proof.
  intros r Hr. refine (proj2 (proj1 (proj2 (GetPending_best three_jobs 2)) r _ Hr _ _ _)).
  - vm_compute. apply elem_of_cons. by left.
  - done.
  - intros Hin. assert ("a"%string ∈ map jr_id (pending_rows three_jobs 2)) as Ha
      by (apply list_elem_of_fmap; by exists (job_row (pending_job "a" 1 (5 * Second)))).
    revert Ha. apply (bool_decide_unpack _). by vm_compute.
Defined.

Definition no_mode : Job :=
  mkJob "e" "etl" "pending" "task" [] "" None [] [] [] "" "" 0 None "u" 0 None None "" "" 0 0 "n" 0 ∅.
Lemma empty_mode_not_stored_witness : Jobs_Create true three_jobs no_mode = (three_jobs, Some EFailed).
Proof. by apply empty_mode_not_stored. Defined.
