(* ===== verification/Download.v ===== *)
(** * Download bookkeeping ([internal/domain/sync.go])

    A download remembers the chunks it has in a bitmap, bit [i mod 8] of byte
    [i / 8] for chunk [i], and caches their number in [CompletedChunks].  The
    record [Download] is in [Domain]; [float64] arithmetic is that of
    [SpecFloat], with 53 bits of precision. *)
From stdpp Require Import base gmap strings list.
From Stdlib Require Import ZArith Lia SpecFloat.
From S2P Require Import Prelude GoStrings GoFloat Domain.

(** [1 << k] as a [byte]. *)
Definition bit_mask (k : Z) : Z := u8 (Z.shiftl 1 k).

Definition IsChunkCompleted (d : Download) (index : Z) : bool :=
  if (index <? 0)%Z then false
  else
    let byteIndex := (index `quot` 8)%Z in
    let bitIndex := (index `rem` 8)%Z in
    match Download_ChunkBitmap d !! Z.to_nat byteIndex with
    | None => false
    | Some b => negb (Z.land b (bit_mask bitIndex) =? 0)%Z
    end.

(** [for i := 0; i < 8; i++ { if (b & (1 << uint(i))) != 0 { count++ } }] *)
Definition count_byte (b : Z) (count : Z) : Z :=
  fold_left (fun count i => if negb (Z.land b (bit_mask i) =? 0)%Z then (count + 1)%Z else count)
    (seqZ 0 8) count.

Definition countCompletedChunks (d : Download) : Z :=
  let count := fold_left (fun count b => count_byte b count) (Download_ChunkBitmap d) 0%Z in
  if (Download_TotalChunks d <? count)%Z then Download_TotalChunks d else count.

Definition set_bitmap (d : Download) (bitmap : list Z) (completed : Z) : Download :=
  {| Download_ID := Download_ID d; Download_DatasetID := Download_DatasetID d;
     Download_DatasetHash := Download_DatasetHash d; Download_PeerID := Download_PeerID d;
     Download_TotalChunks := Download_TotalChunks d; Download_CompletedChunks := completed;
     Download_ChunkBitmap := bitmap; Download_Status := Download_Status d;
     Download_StartedAt := Download_StartedAt d; Download_UpdatedAt := Download_UpdatedAt d;
     Download_Error := Download_Error d |}.

(** [for byteIndex >= len(bitmap) { bitmap = append(bitmap, 0) }] appends the zero
    bytes that are missing. *)
Definition expand_bitmap (bitmap : list Z) (byteIndex : nat) : list Z :=
  bitmap ++ replicate (S byteIndex - length bitmap) 0%Z.

Definition SetChunkCompleted (d : Download) (index : Z) : Download :=
  if (index <? 0)%Z then d
  else
    let byteIndex := Z.to_nat (index `quot` 8) in
    let bitIndex := (index `rem` 8)%Z in
    let bitmap := alter (fun b => Z.lor b (bit_mask bitIndex)) byteIndex
                    (expand_bitmap (Download_ChunkBitmap d) byteIndex) in
    let d1 := set_bitmap d bitmap (Download_CompletedChunks d) in
    set_bitmap d bitmap (countCompletedChunks d1).

Definition Download_Progress (d : Download) : spec_float :=
  if (Download_TotalChunks d =? 0)%Z then S754_zero false
  else SFmul 53 1024
         (SFdiv 53 1024 (float_of_int (Download_CompletedChunks d))
                        (float_of_int (Download_TotalChunks d)))
         (float_of_int 100).

Definition Download_IsComplete (d : Download) : bool :=
  (Download_TotalChunks d <=? Download_CompletedChunks d)%Z && (0 <? Download_TotalChunks d)%Z.

(** [for i := 0; i < d.TotalChunks; i++ { if !d.IsChunkCompleted(i) { ... } }] *)
Definition MissingChunks (d : Download) : list Z :=
  List.filter (fun i => negb (IsChunkCompleted d i)) (seqZ 0 (Download_TotalChunks d)).

(** * Theorems *)

(** ** The bitmap as a set of chunks *)

(** Bit [j] of the bitmap. *)
Definition chunk_bit (bm : list Z) (j : nat) : bool :=
  match bm !! (j / 8)%nat with
  | Some b => Z.testbit b (Z.of_nat (j mod 8))
  | None => false
  end.

Lemma bit_mask_pow k : (0 <= k < 8)%Z -> bit_mask k = (2 ^ k)%Z.
Proof.
  intros Hk. unfold bit_mask. rewrite Z.shiftl_1_l. apply u8_id. unfold is_u8.
  pose proof (Z.pow_pos_nonneg 2 k). pose proof (Z.pow_lt_mono_r 2 k 8). lia.
Qed.

Lemma test_mask b k : (0 <= k < 8)%Z -> negb (Z.land b (bit_mask k) =? 0)%Z = Z.testbit b k.
Proof.
  intros Hk. rewrite bit_mask_pow by done.
  assert (Z.land b (2 ^ k) = if Z.testbit b k then 2 ^ k else 0)%Z as ->.
  { apply Z.bits_inj'. intros n Hn. rewrite Z.land_spec, Z.pow2_bits_eqb by lia.
    destruct (Z.eqb_spec k n) as [->|Hne].
    - destruct (Z.testbit b n) eqn:Hb; rewrite ?andb_true_r; [|by rewrite Z.bits_0].
      by rewrite Z.pow2_bits_true.
    - rewrite andb_false_r. destruct (Z.testbit b k); [|by rewrite Z.bits_0].
      by rewrite Z.pow2_bits_false. }
  destruct (Z.testbit b k); [|done]. pose proof (Z.pow_pos_nonneg 2 k).
  destruct (Z.eqb_spec (2 ^ k) 0); [lia|done].
Qed.

Lemma IsChunkCompleted_bit d i :
  IsChunkCompleted d i =
  if (i <? 0)%Z then false else chunk_bit (Download_ChunkBitmap d) (Z.to_nat i).
Proof.
  unfold IsChunkCompleted, chunk_bit. destruct (Z.ltb_spec i 0); [done|].
  rewrite Z.quot_div_nonneg, Z.rem_mod_nonneg by lia.
  rewrite (Z2Nat.inj_div i 8) by lia. change (Z.to_nat 8) with 8.
  destruct (Download_ChunkBitmap d !! (Z.to_nat i / 8)); [|done].
  rewrite test_mask by (apply Z.mod_pos_bound; lia).
  by rewrite Nat2Z.inj_mod, Z2Nat.id by lia.
Qed.

(** Setting a bit in an expanded bitmap. *)
Definition set_bit (bm : list Z) (j : nat) : list Z :=
  alter (fun b => Z.lor b (2 ^ Z.of_nat (j mod 8))%Z) (j / 8) (expand_bitmap bm (j / 8)).

Lemma expand_bit bm n j : chunk_bit (expand_bitmap bm n) j = chunk_bit bm j.
Proof.
  unfold chunk_bit, expand_bitmap.
  destruct (decide (j / 8 < length bm)) as [Hlt|Hge]; [by rewrite lookup_app_l|].
  rewrite lookup_app_r by lia. rewrite (lookup_ge_None_2 bm) by lia.
  destruct (replicate _ _ !! _) eqn:Hr; [|done].
  apply lookup_replicate in Hr as [-> _]. apply Z.bits_0.
Qed.

Lemma set_bit_spec bm i j : chunk_bit (set_bit bm i) j = bool_decide (j = i) || chunk_bit bm j.
Proof.
  rewrite <- (expand_bit bm (i / 8) j). unfold set_bit, chunk_bit.
  set (bm' := expand_bitmap bm (i / 8)).
  assert (i / 8 < length bm') as Hlen.
  { unfold bm', expand_bitmap. rewrite length_app, length_replicate. lia. }
  destruct (decide (j / 8 = i / 8)) as [Heq|Hne].
  - rewrite Heq. rewrite list_lookup_alter, decide_True by done.
    destruct (lookup_lt_is_Some_2 _ _ Hlen) as [b ->]. cbn [fmap option_fmap option_map].
    rewrite Z.lor_spec, Z.pow2_bits_eqb by lia. rewrite orb_comm. f_equal.
    pose proof (Nat.div_mod_eq i 8). pose proof (Nat.div_mod_eq j 8).
    case_bool_decide; [subst; by apply Z.eqb_eq|]. apply Z.eqb_neq. lia.
  - rewrite list_lookup_alter, decide_False by congruence.
    rewrite bool_decide_false by congruence. done.
Qed.

Lemma SetChunkCompleted_bitmap d i :
  (0 <= i)%Z ->
  Download_ChunkBitmap (SetChunkCompleted d i) = set_bit (Download_ChunkBitmap d) (Z.to_nat i).
Proof.
  intros Hi. unfold SetChunkCompleted. destruct (Z.ltb_spec i 0); [lia|]. simpl. unfold set_bit.
  rewrite Z.quot_div_nonneg, Z.rem_mod_nonneg by lia.
  rewrite (Z2Nat.inj_div i 8) by lia. change (Z.to_nat 8) with 8.
  rewrite bit_mask_pow by (apply Z.mod_pos_bound; lia).
  by rewrite Nat2Z.inj_mod, Z2Nat.id by lia.
Qed.

Lemma SetChunkCompleted_chunks (d : Download) (i j : Z) :
  IsChunkCompleted (SetChunkCompleted d i) j =
  ((0 <=? i)%Z && (j =? i)%Z) || IsChunkCompleted d j.
Proof.
  destruct (Z.leb_spec 0 i) as [Hi|Hi]; cycle 1.
  { unfold SetChunkCompleted. destruct (Z.ltb_spec i 0); [done|lia]. }
  rewrite !IsChunkCompleted_bit. destruct (Z.ltb_spec j 0) as [Hj|Hj].
  { destruct (Z.eqb_spec j i); [lia|done]. }
  rewrite SetChunkCompleted_bitmap, set_bit_spec by done. f_equal. simpl.
  destruct (Z.eqb_spec j i); [by rewrite bool_decide_true by congruence|].
  rewrite bool_decide_false; [done|]. lia.
Qed.

(** Marking chunk [i] makes exactly [i] completed in addition, keeps the
    number of chunks, and a negative index changes nothing. *)
Theorem SetChunkCompleted_spec (d : Download) (i j : Z) :
  IsChunkCompleted (SetChunkCompleted d i) j =
    ((0 <=? i)%Z && (j =? i)%Z) || IsChunkCompleted d j /\
  Download_TotalChunks (SetChunkCompleted d i) = Download_TotalChunks d /\
  ((i < 0)%Z -> SetChunkCompleted d i = d).
Proof.
  split_and!.
  - apply SetChunkCompleted_chunks.
  - unfold SetChunkCompleted. by case_match.
  - intros Hi. unfold SetChunkCompleted. by rewrite (proj2 (Z.ltb_lt _ _) Hi).
Qed.

Lemma SetChunkCompleted_spec_witness :
  let d := mkDownload "id" "ds" "hash" "" 9 0 [] DownloadStatusActive 0 0 "" in
  IsChunkCompleted (SetChunkCompleted d 8) 8 = true /\ SetChunkCompleted d (-1) = d.
Proof.
  intros d. split.
  - rewrite (proj1 (SetChunkCompleted_spec d 8 8)). reflexivity.
  - apply (SetChunkCompleted_spec d (-1) 0). lia.
Defined.

(** ** Counting *)

(** The chunks a bitmap of [n] bytes can speak of, and those that are set. *)
Definition set_chunks (bm : list Z) : list nat :=
  List.filter (chunk_bit bm) (seq 0 (8 * length bm)).

Lemma fold_count (p : Z -> bool) l c :
  fold_left (fun count i => if p i then (count + 1)%Z else count) l c =
  (c + Z.of_nat (length (List.filter p l)))%Z.
Proof. revert c. induction l as [|x l IH]; intros c; simpl; [lia|]. rewrite IH. destruct (p x); simpl; lia. Qed.

Lemma filter_ext_length {A B} (f : A -> B) (p : A -> bool) (q : B -> bool) l :
  (forall x, x ∈ l -> p x = q (f x)) ->
  length (List.filter p l) = length (List.filter q (map f l)).
Proof.
  induction l as [|x l IH]; intros H; simpl; [done|].
  rewrite (H x) by set_solver. destruct (q (f x)); simpl; rewrite IH by set_solver; done.
Qed.

Lemma count_byte_spec b c :
  count_byte b c = (c + Z.of_nat (length (List.filter (chunk_bit [b]) (seq 0 8))))%Z.
Proof.
  unfold count_byte. rewrite fold_count. do 2 f_equal.
  rewrite (filter_ext_length Z.to_nat _ (chunk_bit [b])); [done|].
  intros i Hi. apply elem_of_seqZ in Hi. rewrite test_mask by lia. unfold chunk_bit.
  rewrite Nat.div_small, Nat.mod_small by lia. simpl. by rewrite Z2Nat.id by lia.
Qed.

Lemma set_chunks_cons b bm :
  length (set_chunks (b :: bm)) =
  length (List.filter (chunk_bit [b]) (seq 0 8)) + length (set_chunks bm).
Proof.
  unfold set_chunks. replace (8 * length (b :: bm)) with (8 + 8 * length bm) by (simpl; lia).
  rewrite List.seq_app, List.filter_app, length_app. f_equal.
  change (seq (0 + 8) (8 * length bm)) with (seq (8 + 0) (8 * length bm)).
  rewrite <- fmap_add_seq. symmetry. apply filter_ext_length. intros j _. unfold chunk_bit.
  replace (8 + j) with (j + 1 * 8) by lia. rewrite Nat.div_add, Nat.Div0.mod_add by lia.
  by rewrite Nat.add_1_r.
Qed.

Lemma count_bitmap bm c :
  fold_left (fun count b => count_byte b count) bm c = (c + Z.of_nat (length (set_chunks bm)))%Z.
Proof.
  revert c. induction bm as [|b bm IH]; intros c; [simpl; lia|].
  cbn [fold_left]. rewrite IH, count_byte_spec, set_chunks_cons. lia.
Qed.

Lemma countCompletedChunks_spec d :
  countCompletedChunks d =
  Z.min (Download_TotalChunks d) (Z.of_nat (length (set_chunks (Download_ChunkBitmap d)))).
Proof. unfold countCompletedChunks. rewrite count_bitmap. destruct (Z.ltb_spec (Download_TotalChunks d) (0 + Z.of_nat (length (set_chunks (Download_ChunkBitmap d))))); lia. Qed.

Lemma elem_of_set_chunks bm j : j ∈ set_chunks bm <-> chunk_bit bm j = true.
Proof.
  unfold set_chunks. rewrite list_elem_of_In, filter_In, in_seq. split; [tauto|].
  intros H. split; [|done]. split; [lia|]. simpl. unfold chunk_bit in H.
  destruct (bm !! (j / 8)) eqn:Hb; [|done]. apply lookup_lt_Some in Hb.
  pose proof (Nat.div_mod_eq j 8). pose proof (Nat.mod_upper_bound j 8). lia.
Qed.

Lemma NoDup_set_chunks bm : NoDup (set_chunks bm).
Proof. apply NoDup_ListNoDup, List.NoDup_filter, seq_NoDup. Qed.

(** ** Completion *)

(** What the download code maintains: no bit beyond the last chunk is set, and
    the cached number of chunks is that of the bitmap. *)
Record download_ok (d : Download) : Prop := {
  ok_total : (0 <= Download_TotalChunks d)%Z;
  ok_range : forall j, chunk_bit (Download_ChunkBitmap d) j = true ->
                       (Z.of_nat j < Download_TotalChunks d)%Z;
  ok_count : Download_CompletedChunks d = countCompletedChunks d
}.

Lemma elem_of_MissingChunks d i :
  i ∈ MissingChunks d <->
  (0 <= i < Download_TotalChunks d)%Z /\ IsChunkCompleted d i = false.
Proof.
  unfold MissingChunks. rewrite list_elem_of_In, filter_In, <- list_elem_of_In, elem_of_seqZ.
  rewrite negb_true_iff. intuition lia.
Qed.

Lemma SetChunkCompleted_total d i :
  Download_TotalChunks (SetChunkCompleted d i) = Download_TotalChunks d.
Proof. unfold SetChunkCompleted. by case_match. Qed.

(** Marking an existing chunk keeps the invariant. *)
Lemma SetChunkCompleted_ok d i :
  download_ok d -> (0 <= i < Download_TotalChunks d)%Z -> download_ok (SetChunkCompleted d i).
Proof.
  intros [Ht Hr Hc] Hi. split; rewrite ?SetChunkCompleted_total; [done| |].
  - intros j. rewrite SetChunkCompleted_bitmap, set_bit_spec by lia. rewrite orb_true_iff.
    intros [->%bool_decide_eq_true|Hj]; [lia|by apply Hr].
  - unfold SetChunkCompleted. destruct (Z.ltb_spec i 0); [lia|]. done.
Qed.

Lemma set_chunks_in_range d :
  download_ok d ->
  incl (set_chunks (Download_ChunkBitmap d)) (seq 0 (Z.to_nat (Download_TotalChunks d))).
Proof.
  intros Hok j Hj%list_elem_of_In. apply in_seq.
  apply elem_of_set_chunks, (ok_range d Hok) in Hj. lia.
Qed.

Lemma IsComplete_iff (d : Download) :
  download_ok d ->
  (Download_IsComplete d = true <-> (0 < Download_TotalChunks d)%Z /\ MissingChunks d = []).
Proof.
  intros Hok. pose proof (set_chunks_in_range d Hok) as Hincl.
  pose proof (NoDup_set_chunks (Download_ChunkBitmap d)) as Hnd%NoDup_ListNoDup.
  pose proof (NoDup_incl_length Hnd Hincl) as Hlen. rewrite length_seq in Hlen.
  unfold Download_IsComplete. rewrite andb_true_iff, Z.leb_le, Z.ltb_lt.
  rewrite (ok_count d Hok), countCompletedChunks_spec. pose proof (ok_total d Hok) as Ht.
  assert (MissingChunks d = [] <->
          incl (seq 0 (Z.to_nat (Download_TotalChunks d))) (set_chunks (Download_ChunkBitmap d))) as ->.
  { split.
    - intros Hm j Hj%in_seq. apply list_elem_of_In, elem_of_set_chunks.
      destruct (chunk_bit _ j) eqn:Hb; [done|].
      assert (Z.of_nat j ∈ MissingChunks d) as Hj'; [|by rewrite Hm in Hj'; set_solver].
      apply elem_of_MissingChunks. split; [lia|].
      rewrite IsChunkCompleted_bit, Nat2Z.id. destruct (Z.ltb_spec (Z.of_nat j) 0); done.
    - intros Hi. destruct (MissingChunks d) as [|i l] eqn:Hm; [done|].
      assert (i ∈ MissingChunks d) as [Hr Hb]%elem_of_MissingChunks by (rewrite Hm; set_solver).
      assert (In (Z.to_nat i) (seq 0 (Z.to_nat (Download_TotalChunks d)))) as Hin by (apply in_seq; lia).
      apply Hi, list_elem_of_In, elem_of_set_chunks in Hin.
      rewrite IsChunkCompleted_bit, Hin in Hb. destruct (Z.ltb_spec i 0); [lia|done]. }
  split; intros [H1 H2]; split; [done| | |done].
  - apply NoDup_length_incl; [done|rewrite length_seq; lia|done].
  - apply NoDup_incl_length in H2; [|apply seq_NoDup]. rewrite length_seq in H2. lia.
Qed.

(** A download is complete exactly when it has chunks and none is missing. *)
Theorem download_complete_iff (d : Download) (Hok : download_ok d) :
  Download_IsComplete d = true <-> (0 < Download_TotalChunks d)%Z /\ MissingChunks d = [].
Proof. by apply IsComplete_iff. Qed.

(** A download of [n] chunks that has none yet, as [StartDownload] makes it. *)
Definition fresh_download (n : Z) : Download :=
  mkDownload "id" "ds" "hash" "" n 0 (replicate (Z.to_nat ((n + 7) `quot` 8)) 0%Z)
    DownloadStatusActive 0 0 "".

Lemma zero_bitmap_bit k j : chunk_bit (replicate k 0%Z) j = false.
Proof.
  unfold chunk_bit. destruct (_ !! _) eqn:Hr; [|done].
  apply lookup_replicate in Hr as [-> _]. apply Z.bits_0.
Qed.

Lemma zero_bitmap_count k : set_chunks (replicate k 0%Z) = [].
Proof.
  destruct (set_chunks _) as [|j l] eqn:Hs; [done|].
  assert (j ∈ set_chunks (replicate k 0%Z)) as Hj by (rewrite Hs; set_solver).
  rewrite elem_of_set_chunks, zero_bitmap_bit in Hj. done.
Qed.

(** An empty bitmap with nothing counted satisfies the invariant. *)
Lemma zero_bitmap_ok d k :
  (0 <= Download_TotalChunks d)%Z -> Download_ChunkBitmap d = replicate k 0%Z ->
  Download_CompletedChunks d = 0%Z -> download_ok d.
Proof.
  intros Ht Hb Hc. split; [done| |].
  - intros j. by rewrite Hb, zero_bitmap_bit.
  - rewrite countCompletedChunks_spec, Hb, zero_bitmap_count, Hc. simpl. lia.
Qed.

Lemma fresh_download_ok n : (0 <= n)%Z -> download_ok (fresh_download n).
Proof. intros Hn. by eapply zero_bitmap_ok. Qed.

Lemma download_complete_iff_witness :
  let d := SetChunkCompleted (SetChunkCompleted (fresh_download 2) 0) 1 in
  Download_IsComplete d = true <-> (0 < Download_TotalChunks d)%Z /\ MissingChunks d = [].
Proof.
  intros d. apply (download_complete_iff d).
  apply SetChunkCompleted_ok; [|simpl; lia].
  apply SetChunkCompleted_ok; [by apply fresh_download_ok|simpl; lia].
Defined.

Lemma fold_set_ok l d :
  download_ok d -> Forall (fun i => (0 <= i < Download_TotalChunks d)%Z) l ->
  download_ok (fold_left SetChunkCompleted l d) /\
  Download_TotalChunks (fold_left SetChunkCompleted l d) = Download_TotalChunks d /\
  (forall j, IsChunkCompleted d j = true \/ j ∈ l ->
             IsChunkCompleted (fold_left SetChunkCompleted l d) j = true).
Proof.
  revert d. induction l as [|i l IH]; intros d Hok Hl; simpl; [set_solver|].
  apply Forall_cons in Hl as [Hi Hl].
  destruct (IH (SetChunkCompleted d i)) as (H1 & H2 & H3).
  - by apply SetChunkCompleted_ok.
  - by rewrite SetChunkCompleted_total.
  - split_and!; [done|by rewrite H2, SetChunkCompleted_total|].
    intros j Hj. apply H3. rewrite SetChunkCompleted_chunks, orb_true_iff, andb_true_iff.
    rewrite Z.leb_le, Z.eqb_eq. destruct Hj as [Hj|[->|Hj]%elem_of_cons]; auto with lia.
Qed.

(** Fetching what [MissingChunks] lists finishes the download: marking each of
    those chunks, from any valid state of a download with chunks, leaves nothing
    missing and makes [IsComplete] true. *)
Theorem missing_chunks_finish (d : Download) :
  download_ok d -> (0 < Download_TotalChunks d)%Z ->
  let d' := fold_left SetChunkCompleted (MissingChunks d) d in
  MissingChunks d' = [] /\ Download_IsComplete d' = true /\
  Download_CompletedChunks d' = Download_TotalChunks d.
Proof.
  intros Hok Ht d'. destruct (fold_set_ok (MissingChunks d) d Hok) as (Hok' & Ht' & Hall).
  { apply Forall_forall. intros i Hi. by apply elem_of_MissingChunks in Hi as [? _]. }
  fold d' in Hok', Ht', Hall.
  assert (MissingChunks d' = []) as Hm.
  { destruct (MissingChunks d') as [|i l] eqn:Hm; [done|].
    assert (i ∈ MissingChunks d') as [Hr Hb]%elem_of_MissingChunks by (rewrite Hm; set_solver).
    rewrite Ht' in Hr. rewrite Hall in Hb; [done|].
    destruct (IsChunkCompleted d i) eqn:Hd; [by left|right]. by apply elem_of_MissingChunks. }
  assert (Download_IsComplete d' = true) as Hc.
  { apply IsComplete_iff; [done|]. by rewrite Ht'. }
  split_and!; [done..|]. unfold Download_IsComplete in Hc. bool_props.
  rewrite Ht' in *. rewrite (ok_count d' Hok'), countCompletedChunks_spec in *. lia.
Qed.

Lemma missing_chunks_finish_witness :
  let d := SetChunkCompleted (fresh_download 10) 3 in
  Download_IsComplete (fold_left SetChunkCompleted (MissingChunks d) d) = true.
Proof.
  intros d. apply (missing_chunks_finish d); [|simpl; lia].
  apply SetChunkCompleted_ok; [by apply fresh_download_ok|simpl; lia].
Defined.

(** Marking a chunk that does not exist counts towards completion: a download of
    one chunk reports itself complete with its only chunk missing. *)
Theorem out_of_range_chunk_counts :
  let d := SetChunkCompleted (fresh_download 1) 5 in
  Download_IsComplete d = true /\ MissingChunks d = [0%Z].
Proof. split; by vm_compute. Qed.

(** The progress of an empty download is [0], not an undefined quotient, and
    [50] when half of two chunks are there. *)
Example Progress_zero d :
  Download_TotalChunks d = 0%Z -> Download_Progress d = S754_zero false.
Proof. unfold Download_Progress. by intros ->. Qed.

Example Progress_half :
  Download_Progress (SetChunkCompleted (fresh_download 2) 0) = float_of_int 50.
Proof. by vm_compute. Qed.
