(* ===== verification/Query.v ===== *)
(** * Query requests ([internal/domain/query.go])

    [QueryRequest.Validate] and the filter that lets only reading SQL through,
    [validateSelectOnly].  The record [QueryRequest] is in [Domain]; the string
    functions are those of [GoStrings], over any Unicode tables. *)
From stdpp Require Import base gmap strings list.
From Stdlib Require Import ZArith Lia Ascii.
From S2P Require Import Prelude GoStrings Domain.

(** The words of [dangerousPatterns]. *)
Definition dangerousPatterns : list string :=
  ["INSERT"; "UPDATE"; "DELETE"; "DROP"; "CREATE"; "ALTER"; "TRUNCATE"; "GRANT"; "REVOKE";
   "EXEC"; "EXECUTE"; "INTO"]%string.

Section query.
Context `{UnicodeTables}.

Definition normalize_sql (sql : string) : string := TrimSpace (ToUpper sql).

Definition validateSelectOnly (sql : string) : option DomainError :=
  let normalized := normalize_sql sql in
  fail_if negb (HasPrefix normalized "SELECT") && negb (HasPrefix normalized "WITH")
    with ErrNonSelectQuery;;
  first_error (fun pattern => if MatchWord pattern normalized then Some ErrNonSelectQuery else None)
    dangerousPatterns.

Definition QueryRequest_Validate (q : QueryRequest) : option DomainError :=
  fail_if QueryRequest_ID q =?= ""%string with ErrInvalidQueryID;;
  try (if QueryRequest_Type q =?= QueryTypeSQL then
         fail_if QueryRequest_SQL q =?= ""%string with ErrEmptySQLQuery;;
         try validateSelectOnly (QueryRequest_SQL q);;
         fail_if (length (QueryRequest_TargetDatasets q) =? 0)%nat with ErrNoTargetDatasets;;
         None
       else if (QueryRequest_Type q =?= QueryTypeMetadata) || (QueryRequest_Type q =?= ""%string)
       then None
       else Some ErrInvalidQueryType);;
  fail_if (QueryRequest_Limit q <? 0)%Z with ErrInvalidLimit;;
  fail_if (QueryRequest_Offset q <? 0)%Z with ErrInvalidOffset;;
  None.

(** ** What the filter accepts *)

Lemma validateSelectOnly_None sql :
  validateSelectOnly sql = None <->
  (HasPrefix (normalize_sql sql) "SELECT" = true \/ HasPrefix (normalize_sql sql) "WITH" = true) /\
  forall w, w ∈ dangerousPatterns -> MatchWord w (normalize_sql sql) = false.
Proof.
  unfold validateSelectOnly.
  destruct (HasPrefix _ "SELECT") eqn:Hs, (HasPrefix _ "WITH") eqn:Hw; simpl negb; cbn [andb];
    rewrite ?first_error_None; try (split; [done|by intros [[?|?] _]]);
    (split; [intros Hf; split; [tauto|]; intros w Hin; specialize (Hf w Hin); cbv beta in Hf;
             by destruct (MatchWord w _)
            |intros [_ Hf] w Hin; cbv beta; by rewrite Hf]).
Qed.

(** C33: the filter accepts a text exactly if, in upper case and then without white space
    around it, it starts with SELECT or with WITH and has none of the twelve words INSERT,
    UPDATE, DELETE, DROP, CREATE, ALTER, TRUNCATE, GRANT, REVOKE, EXEC, EXECUTE and INTO as
    a whole word; any other text is refused with [ErrNonSelectQuery].  That is not "SELECT
    only", as the comment over the function has it: [non_select_accepted]. *)
Theorem validateSelectOnly_exact (sql : string) :
  let normalized := bytes_of (TrimSpace (ToUpper sql)) in
  (validateSelectOnly sql = None <->
     ((exists rest, normalized = bytes_of "SELECT" ++ rest) \/
      (exists rest, normalized = bytes_of "WITH" ++ rest)) /\
     Forall (fun w => ~ contains_word (bytes_of w) normalized)
       ["INSERT"; "UPDATE"; "DELETE"; "DROP"; "CREATE"; "ALTER"; "TRUNCATE"; "GRANT"; "REVOKE";
        "EXEC"; "EXECUTE"; "INTO"]%string) /\
  (validateSelectOnly sql <> None -> validateSelectOnly sql = Some ErrNonSelectQuery).
Proof.
  cbv zeta. split.
  - rewrite validateSelectOnly_None, !HasPrefix_spec. apply and_iff_compat_l.
    rewrite Forall_forall. fold dangerousPatterns. fold (normalize_sql sql).
    split; intros Hw w Hin; specialize (Hw w Hin).
    + by rewrite <- MatchWord_spec, Hw.
    + rewrite <- MatchWord_spec in Hw. by destruct (MatchWord w _).
  - unfold validateSelectOnly. case_match; [done|].
    destruct (first_error _ _) as [e|] eqn:He; [|done].
    apply first_error_Some in He as (? & ? & ? & _ & He & _). by case_match; simplify_eq.
Qed.

(** A request that validates has an identifier, non-negative paging, one
    of the two types (or none), and if it is SQL, a statement the filter
    accepts and at least one dataset to run on. *)
Theorem QueryRequest_Validate_sound (q : QueryRequest) :
  QueryRequest_Validate q = None <->
  QueryRequest_ID q <> ""%string /\
  (0 <= QueryRequest_Limit q)%Z /\ (0 <= QueryRequest_Offset q)%Z /\
  ((QueryRequest_Type q = QueryTypeSQL /\ QueryRequest_SQL q <> ""%string /\
    validateSelectOnly (QueryRequest_SQL q) = None /\ QueryRequest_TargetDatasets q <> [])
   \/ QueryRequest_Type q = QueryTypeMetadata \/ QueryRequest_Type q = ""%string).
Proof.
  unfold QueryRequest_Validate.
  assert (QueryTypeSQL <> QueryTypeMetadata /\ QueryTypeSQL <> ""%string) as [Hd1 Hd2] by done.
  assert (forall l : list DatasetTarget, (length l =? 0)%nat = (l =?= [])) as Hl.
  { intros [|x l]; [by rewrite bool_decide_true|by rewrite bool_decide_false]. }
  rewrite Hl. repeat case_bool_decide; simpl; go_cases; try (intuition congruence);
    intuition (congruence || lia).
Qed.
End query.

(** ** Letter case *)

Lemma upper_lower_check :
  forallb (fun n => let c := ascii_of_nat n in
             (upper_byte (lower_byte c) =?= upper_byte c) &&
             Bool.eqb (is_ascii_byte (lower_byte c)) (is_ascii_byte c)) (seq 0 256) = true.
Proof. vm_compute. reflexivity. Qed.

Lemma upper_lower_byte c :
  upper_byte (lower_byte c) = upper_byte c /\ is_ascii_byte (lower_byte c) = is_ascii_byte c.
Proof.
  pose proof upper_lower_check as H. rewrite forallb_forall in H.
  specialize (H (nat_of_ascii c)). rewrite in_seq, ascii_nat_embedding in H.
  pose proof (nat_ascii_bounded c). specialize (H ltac:(lia)).
  apply andb_true_iff in H as [H1 H2]. apply bool_decide_eq_true in H1.
  by apply Bool.eqb_prop in H2.
Qed.

Lemma ToUpper_ToLower `{UnicodeTables} s : is_ascii s = true -> ToUpper (ToLower s) = ToUpper s.
Proof.
  intros Hs. unfold ToLower. rewrite Hs. unfold ToUpper, is_ascii in *.
  rewrite String.list_ascii_of_string_of_list_ascii, Hs.
  assert (forallb is_ascii_byte (map lower_byte (bytes_of s)) = true) as ->.
  { rewrite forallb_forall in Hs |- *. intros c (d & <- & Hd)%in_map_iff.
    destruct (upper_lower_byte d) as [_ ->]. auto. }
  rewrite map_map. f_equal. apply map_ext. intros c. apply upper_lower_byte.
Qed.

(** The filter does not depend on the letter case of ASCII SQL. *)
Theorem validateSelectOnly_case_insensitive `{UnicodeTables} (sql : string)
    (Hascii : is_ascii sql = true) :
  validateSelectOnly (ToLower sql) = validateSelectOnly sql.
Proof. unfold validateSelectOnly, normalize_sql. by rewrite ToUpper_ToLower. Qed.

Lemma validateSelectOnly_case_insensitive_witness :
  @validateSelectOnly identity_tables (@ToLower identity_tables " Select 1; Drop TABLE t") =
  Some ErrNonSelectQuery.
Proof.
  rewrite (@validateSelectOnly_case_insensitive identity_tables); vm_compute; reflexivity.
Defined.

(** SELECT is not all that passes: statements after a semicolon that start
    with a word that is not in the list are accepted, e.g. [MERGE], [COPY],
    [CALL] and [VACUUM]. *)
Theorem non_select_accepted `{UnicodeTables} :
  Forall (fun sql => validateSelectOnly sql = None)
    ["SELECT 1; VACUUM"; "SELECT 1; CALL purge()"; "SELECT 1; COPY t FROM '/etc/passwd'";
     "WITH x AS (SELECT 1) MERGE t USING x ON true WHEN MATCHED THEN DO NOTHING"]%string.
Proof. repeat constructor; vm_compute; reflexivity. Qed.
