(* ===== verification/Transfer.v ===== *)
(** * Chunk transfers ([internal/p2p/transfer.go])

    The transfer manager keeps one [activeDownload] per running download; a
    goroutine per download fills a channel with the missing chunks, starts
    workers that take chunk numbers from it, and ends by marking the download
    completed or failed.  Downloads are shared pointers: the caller, the manager
    and the goroutine hold the same object, so the state has a heap of
    [Download]s and a location is an index into it.

    Each method is a function on the state; the goroutines are the step relation
    [tm_step], one step per point where another goroutine may run.  Workers
    update the shared bitmap and its counter without a lock, so the update is
    three kinds of steps: reading the chunk's byte, writing it back, and
    counting the bitmap byte by byte up to the write of the counter.
    [GetChunk] of the protocol client is the argument [fetch] of the first of
    these steps: the answer to each attempt. *)
From stdpp Require Import base gmap strings list pretty relations.
From Stdlib Require Import ZArith Lia.
From S2P Require Import Prelude GoStrings Domain Download.

Record TransferConfig := mkTransferConfig {
  TransferConfig_ChunkSize : Z;
  TransferConfig_MaxConcurrentChunks : Z;
  TransferConfig_ChunkTimeout : Duration;
  TransferConfig_MaxRetries : Z;
  TransferConfig_ParallelPeers : bool
}.

Definition DefaultTransferConfig : TransferConfig :=
  mkTransferConfig (1024 * 1024) 4 (30 * Second) 3 true.

Inductive TransferError :=
| ErrNoPeersAvailable
| ErrFetch (text : string)
| ErrChunkHashMismatch
| ErrNilEntry
| ErrNoPeersProvided
| ErrTransferDownloadNotFound
| PanicMakeSlice.

(** The text of an error of a chunk ([%v]). *)
Definition error_text (e : TransferError) : string :=
  match e with
  | ErrNoPeersAvailable => "no peers available"
  | ErrFetch text => text
  | ErrChunkHashMismatch => "hash mismatch"
  | ErrNilEntry => "nil catalog entry"
  | ErrNoPeersProvided => "no peers provided"
  | ErrTransferDownloadNotFound => "download not found"
  | PanicMakeSlice => "makeslice: len out of range"
  end.

(** A byte of the bitmap as a worker is about to write it back. *)
Record register := mkReg { reg_byte : nat; reg_value : Z }.

(** Where a worker is with its chunk: fetching it, between the read and the
    write of [d.ChunkBitmap[byteIndex] |= 1 << bitIndex], or counting the
    bitmap with the bytes before [b] done. *)
Inductive task :=
| Fetching (i : Z)
| Storing (i : Z) (c : Chunk) (r : register)
| Counting (i : Z) (c : Chunk) (b : nat) (count : Z).

(** Where the goroutine of a download is: [runDownload] not entered yet, waiting
    for its workers ([work] is what is left in the channel, [idle] the workers at
    the head of their loop, [busy] those with a chunk), or returned. *)
Inductive phase :=
| Starting
| Working (work : list Z) (idle : nat) (busy : list task)
| Finished.

Record activeDownload := mkActive {
  ad_download : nat;
  ad_peers : list string;
  ad_cancelled : bool;
  ad_chunkErrors : gmap Z TransferError;
  ad_phase : phase
}.

(** The calls of the three callbacks. *)
Inductive event :=
| OnChunkReceived (download : nat) (index : Z) (chunk : Chunk)
| OnComplete (download : nat)
| OnError (download : nat) (text : string).

Record TransferManager := mkTM {
  tm_cfg : TransferConfig;
  tm_stopped : bool;
  tm_downloads : gmap string nat;
  tm_ads : list activeDownload;
  tm_heap : list Download;
  tm_events : list event
}.

Definition NewTransferManager (cfg : TransferConfig) : TransferManager :=
  mkTM cfg false ∅ [] [] [].

(** ** Updates *)

Definition set_status (d : Download) (status : DownloadStatus) (now : Time) (error : string)
    : Download :=
  {| Download_ID := Download_ID d; Download_DatasetID := Download_DatasetID d;
     Download_DatasetHash := Download_DatasetHash d; Download_PeerID := Download_PeerID d;
     Download_TotalChunks := Download_TotalChunks d;
     Download_CompletedChunks := Download_CompletedChunks d;
     Download_ChunkBitmap := Download_ChunkBitmap d; Download_Status := status;
     Download_StartedAt := Download_StartedAt d; Download_UpdatedAt := now;
     Download_Error := error |}.

Definition touch (d : Download) (now : Time) : Download :=
  set_status d (Download_Status d) now (Download_Error d).

Definition upd_heap (tm : TransferManager) (l : nat) (d : Download) : TransferManager :=
  mkTM (tm_cfg tm) (tm_stopped tm) (tm_downloads tm) (tm_ads tm) (<[l := d]> (tm_heap tm))
    (tm_events tm).
Definition upd_ad (tm : TransferManager) (k : nat) (ad : activeDownload) : TransferManager :=
  mkTM (tm_cfg tm) (tm_stopped tm) (tm_downloads tm) (<[k := ad]> (tm_ads tm)) (tm_heap tm)
    (tm_events tm).
Definition upd_downloads (tm : TransferManager) (m : gmap string nat) : TransferManager :=
  mkTM (tm_cfg tm) (tm_stopped tm) m (tm_ads tm) (tm_heap tm) (tm_events tm).
Definition emit (tm : TransferManager) (e : event) : TransferManager :=
  mkTM (tm_cfg tm) (tm_stopped tm) (tm_downloads tm) (tm_ads tm) (tm_heap tm)
    (tm_events tm ++ [e]).
Definition set_phase (ad : activeDownload) (p : phase) : activeDownload :=
  mkActive (ad_download ad) (ad_peers ad) (ad_cancelled ad) (ad_chunkErrors ad) p.
Definition set_errors (ad : activeDownload) (errs : gmap Z TransferError) : activeDownload :=
  mkActive (ad_download ad) (ad_peers ad) (ad_cancelled ad) errs (ad_phase ad).
Definition set_cancelled (ad : activeDownload) : activeDownload :=
  mkActive (ad_download ad) (ad_peers ad) true (ad_chunkErrors ad) (ad_phase ad).

(** Registering a new [activeDownload] on location [l] and starting its goroutine. *)
Definition launch (tm : TransferManager) (id : string) (l : nat) (peers : list string)
    : TransferManager :=
  mkTM (tm_cfg tm) (tm_stopped tm) (<[id := length (tm_ads tm)]> (tm_downloads tm))
    (tm_ads tm ++ [mkActive l peers false ∅ Starting]) (tm_heap tm) (tm_events tm).

(** The download an entry of the table points to. *)
Definition entry_download (tm : TransferManager) (k : nat) : option (nat * Download) :=
  ad ← tm_ads tm !! k; d ← tm_heap tm !! ad_download ad; Some (ad_download ad, d).

(** ** The manager's methods *)

(** The range over the table: which of several downloads of the same content is
    returned does not matter to the state, which is unchanged. *)
Definition find_by_hash (tm : TransferManager) (hash : string) : option nat :=
  list_find (fun kd : nat * Download => Download_DatasetHash (snd kd) = hash)
    (omap (fun ik : string * nat => entry_download tm (snd ik)) (map_to_list (tm_downloads tm)))
    ≫= fun r => Some (fst (snd r)).

Definition new_download (id : string) (datasetID : DatasetID) (hash : string) (totalChunks : Z)
    (nbytes : nat) (peers : list string) (now1 now2 : Time) : Download :=
  {| Download_ID := id; Download_DatasetID := datasetID; Download_DatasetHash := hash;
     Download_PeerID := match peers with p :: _ => p | [] => "" end;
     Download_TotalChunks := totalChunks; Download_CompletedChunks := 0;
     Download_ChunkBitmap := replicate nbytes 0%Z; Download_Status := DownloadStatusActive;
     Download_StartedAt := now1; Download_UpdatedAt := now2; Download_Error := "" |}.

(** [uuid] is the fresh identifier; the result is the location of the download. *)
Definition StartDownload (tm : TransferManager) (uuid : string) (now1 now2 : Time)
    (datasetID : DatasetID) (hash : string) (totalChunks : Z) (peers : list string)
    : result TransferError (nat * TransferManager) :=
  match find_by_hash tm hash with
  | Some l => Ok (l, tm)
  | None =>
      let nbytes := (i64 (totalChunks + 7) `quot` 8)%Z in
      if (nbytes <? 0)%Z then Err PanicMakeSlice
      else
        let d := new_download uuid datasetID hash totalChunks (Z.to_nat nbytes) peers now1 now2 in
        let l := length (tm_heap tm) in
        let tm := mkTM (tm_cfg tm) (tm_stopped tm) (tm_downloads tm) (tm_ads tm)
                    (tm_heap tm ++ [d]) (tm_events tm) in
        Ok (l, launch tm uuid l peers)
  end.

Definition ResumeDownload (tm : TransferManager) (l : nat) (d : Download) (peers : list string)
    (now : Time) : TransferManager :=
  match tm_downloads tm !! Download_ID d with
  | Some _ => tm
  | None => launch (upd_heap tm l (set_status d DownloadStatusActive now "")) (Download_ID d) l peers
  end.

Definition PauseDownload (tm : TransferManager) (downloadID : string) (now : Time)
    : result TransferError TransferManager :=
  match tm_downloads tm !! downloadID with
  | None => Err ErrTransferDownloadNotFound
  | Some k =>
      match tm_ads tm !! k with
      | None => Ok tm
      | Some ad =>
          let tm := upd_ad tm k (set_cancelled ad) in
          match tm_heap tm !! ad_download ad with
          | None => Ok tm
          | Some d => Ok (upd_heap tm (ad_download ad)
                            (set_status d DownloadStatusPaused now (Download_Error d)))
          end
      end
  end.

(** The wait for the workers is in the steps: see [tm_step]. *)
Definition CancelDownload (tm : TransferManager) (downloadID : string) : TransferManager :=
  match tm_downloads tm !! downloadID with
  | None => tm
  | Some k =>
      match tm_ads tm !! k with
      | None => tm
      | Some ad => upd_downloads (upd_ad tm k (set_cancelled ad)) (delete downloadID (tm_downloads tm))
      end
  end.

Definition GetDownload (tm : TransferManager) (downloadID : string) : option Download :=
  k ← tm_downloads tm !! downloadID; snd <$> entry_download tm k.

Definition ListDownloads (tm : TransferManager) : list Download :=
  omap (fun ik : string * nat => snd <$> entry_download tm (snd ik)) (map_to_list (tm_downloads tm)).

Definition Stop (tm : TransferManager) : TransferManager :=
  mkTM (tm_cfg tm) true (tm_downloads tm) (tm_ads tm) (tm_heap tm) (tm_events tm).

Definition DownloadDataset (tm : TransferManager) (uuid : string) (now1 now2 : Time)
    (entry : option CatalogEntry) (peers : list string)
    : result TransferError (nat * TransferManager) :=
  match entry with
  | None => Err ErrNilEntry
  | Some e =>
      if (length peers =? 0)%nat then Err ErrNoPeersProvided
      else StartDownload tm uuid now1 now2 (CatalogEntry_DatasetID e) (CatalogEntry_Hash e)
             (CatalogEntry_ChunkCount e) peers
  end.

(** ** One chunk *)

(** [""] when there is none; the index is never negative. *)
Definition selectPeer (cfg : TransferConfig) (ad : activeDownload) (chunkIndex : Z) : string :=
  if (length (ad_peers ad) =? 0)%nat then ""
  else if TransferConfig_ParallelPeers cfg && (1 <? length (ad_peers ad))%nat then
    nth (Z.to_nat (chunkIndex `rem` Z.of_nat (length (ad_peers ad)))) (ad_peers ad) ""
  else nth 0 (ad_peers ad) "".

Section chunk.
Context `{Crypto}.

Definition verifyChunk (chunk : option Chunk) : bool :=
  match chunk with
  | None => false
  | Some c =>
      if (length (Chunk_Data c) =? 0)%nat then false
      else EncodeToString (sha256_Sum256 (Chunk_Data c)) =?= Chunk_Hash c
  end.

(** What [fetchChunk] returns for the attempt [retry] at peer [peer]. *)
Definition fetcher := nat -> string -> result TransferError (option Chunk).

(** The loop of [downloadChunk]: [n] attempts are left. *)
Fixpoint download_attempts (cfg : TransferConfig) (ad : activeDownload) (chunkIndex : Z)
    (fetch : fetcher) (n retry : nat) (lastErr : option TransferError)
    : result (option TransferError) Chunk :=
  match n with
  | O => Err lastErr
  | S n' =>
      let peerID := selectPeer cfg ad chunkIndex in
      if peerID =?= ""%string then Err (Some ErrNoPeersAvailable)
      else match fetch retry peerID with
           | Err e => download_attempts cfg ad chunkIndex fetch n' (S retry) (Some e)
           | Ok chunk =>
               match chunk, verifyChunk chunk with
               | Some c, true => Ok c
               | _, _ => download_attempts cfg ad chunkIndex fetch n' (S retry)
                           (Some ErrChunkHashMismatch)
               end
           end
  end.

(** [downloadChunk] as it runs when nobody interferes: the new state, and the
    error ([None] for [nil]). *)
Definition downloadChunk (tm : TransferManager) (ad : activeDownload) (chunkIndex : Z)
    (fetch : fetcher) (now : Time) : TransferManager * option TransferError :=
  match download_attempts (tm_cfg tm) ad chunkIndex fetch
          (Z.to_nat (TransferConfig_MaxRetries (tm_cfg tm))) 0 None with
  | Err lastErr => (tm, lastErr)
  | Ok c =>
      match tm_heap tm !! ad_download ad with
      | None => (tm, None)
      | Some d =>
          (emit (upd_heap tm (ad_download ad) (touch (SetChunkCompleted d chunkIndex) now))
             (OnChunkReceived (ad_download ad) chunkIndex c), None)
      end
  end.

(** *** The same, one access to the shared download at a time

    [k] is the run's number, [d] its download as it is now; the worker's task
    stands between [busy1] and [busy2]. *)

(** The read half of the bitmap's update, with the bit set in the value read. *)
Definition load_chunk_byte (d : Download) (index : Z) : register :=
  let b := Z.to_nat (index `quot` 8) in
  mkReg b (Z.lor (nth b (Download_ChunkBitmap d) 0%Z) (bit_mask (index `rem` 8))).

(** The write half. *)
Definition store_chunk_byte (d : Download) (r : register) : Download :=
  set_bitmap d (<[reg_byte r := reg_value r]> (Download_ChunkBitmap d))
    (Download_CompletedChunks d).

(** The write of the counter. *)
Definition store_count (d : Download) (count : Z) : Download :=
  set_bitmap d (Download_ChunkBitmap d)
    (if (Download_TotalChunks d <? count)%Z then Download_TotalChunks d else count).

(** From the receipt of the chunk number to the read of its byte; an error is
    recorded and the worker goes on. *)
Definition worker_fetch (tm : TransferManager) (k : nat) (ad : activeDownload) (d : Download)
    (i : Z) (fetch : fetcher) (work : list Z) (idle : nat) (busy1 busy2 : list task)
    : TransferManager :=
  match download_attempts (tm_cfg tm) ad i fetch
          (Z.to_nat (TransferConfig_MaxRetries (tm_cfg tm))) 0 None with
  | Err lastErr =>
      let ad := match lastErr with
                | Some e => set_errors ad (<[i := e]> (ad_chunkErrors ad))
                | None => ad
                end in
      upd_ad tm k (set_phase ad (Working work (S idle) (busy1 ++ busy2)))
  | Ok c =>
      upd_ad tm k (set_phase ad
        (Working work idle (busy1 ++ Storing i c (load_chunk_byte d i) :: busy2)))
  end.

Definition worker_store (tm : TransferManager) (k : nat) (ad : activeDownload) (d : Download)
    (i : Z) (c : Chunk) (r : register) (work : list Z) (idle : nat) (busy1 busy2 : list task)
    : TransferManager :=
  upd_ad (upd_heap tm (ad_download ad) (store_chunk_byte d r)) k
    (set_phase ad (Working work idle (busy1 ++ Counting i c 0 0 :: busy2))).

(** One byte is counted; after the last one the counter is written, and the
    worker calls back and is done with the chunk. *)
Definition worker_count (tm : TransferManager) (k : nat) (ad : activeDownload) (d : Download)
    (i : Z) (c : Chunk) (b : nat) (count : Z) (now : Time) (work : list Z) (idle : nat)
    (busy1 busy2 : list task) : TransferManager :=
  match Download_ChunkBitmap d !! b with
  | Some v =>
      upd_ad tm k (set_phase ad
        (Working work idle (busy1 ++ Counting i c (S b) (count_byte v count) :: busy2)))
  | None =>
      upd_ad (emit (upd_heap tm (ad_download ad) (touch (store_count d count) now))
                (OnChunkReceived (ad_download ad) i c)) k
        (set_phase ad (Working work (S idle) (busy1 ++ busy2)))
  end.
End chunk.

(** ** The goroutine of a download *)

Definition completeDownload (tm : TransferManager) (ad : activeDownload) (d : Download) (now : Time)
    : TransferManager :=
  emit (upd_heap tm (ad_download ad) (set_status d DownloadStatusCompleted now (Download_Error d)))
    (OnComplete (ad_download ad)).

(** [workerCount]: at most one worker per missing chunk. *)
Definition workerCount (cfg : TransferConfig) (missing : nat) : nat :=
  if (Z.of_nat missing <? TransferConfig_MaxConcurrentChunks cfg)%Z then missing
  else Z.to_nat (TransferConfig_MaxConcurrentChunks cfg).

(** [runDownload] up to the start of the workers; with nothing missing it
    completes the download and returns at once. *)
Definition run_start (tm : TransferManager) (k : nat) (ad : activeDownload) (d : Download)
    (now : Time) : TransferManager :=
  match MissingChunks d with
  | [] => upd_ad (completeDownload tm ad d now) k (set_phase ad Finished)
  | missing => upd_ad tm k (set_phase ad (Working missing (workerCount (tm_cfg tm) (length missing)) []))
  end.

Definition ctx_done (tm : TransferManager) (ad : activeDownload) : bool :=
  tm_stopped tm || ad_cancelled ad.

(** The text of the error of a failed download: that of one entry of the table
    of errors, if there is one. *)
Definition failure_text (d : Download) (err : option (Z * TransferError)) : string :=
  match err with
  | None => Download_Error d
  | Some (idx, e) => ("chunk " +:+ pretty idx +:+ ": " +:+ error_text e)%string
  end.

(** [runDownload] after the workers have returned; [err] is the entry the range
    over [chunkErrors] comes to first. *)
Definition run_finish (tm : TransferManager) (k : nat) (ad : activeDownload) (d : Download)
    (now : Time) (err : option (Z * TransferError)) : TransferManager :=
  let tm :=
    if Download_IsComplete d then completeDownload tm ad d now
    else if negb (ctx_done tm ad) then
      let d := set_status d DownloadStatusFailed now (failure_text d err) in
      emit (upd_heap tm (ad_download ad) d) (OnError (ad_download ad) (Download_Error d))
    else tm in
  upd_downloads (upd_ad tm k (set_phase ad Finished)) (delete (Download_ID d) (tm_downloads tm)).

(** The entry a range over the map of errors may start with. *)
Definition first_entry (errs : gmap Z TransferError) (err : option (Z * TransferError)) : Prop :=
  match err with
  | None => errs = ∅
  | Some (idx, e) => errs !! idx = Some e
  end.

(** ** The steps of the system

    The caller's methods, the objects the rest of the program brings in (a
    download that was stored satisfies [download_ok] and has its whole bitmap),
    and the goroutines.  A download is resumed when no run of it is left: the
    caller waits for [CancelDownload], and a paused one stays in the table
    until its run has ended. *)

(** The bitmap has a bit for every chunk. *)
Definition full_bitmap (d : Download) : Prop :=
  (Download_TotalChunks d <= 8 * Z.of_nat (length (Download_ChunkBitmap d)))%Z.

Definition unfinished (ad : activeDownload) : Prop := ad_phase ad <> Finished.

(** No goroutine is left that works on the download at [l]. *)
Definition no_run (tm : TransferManager) (l : nat) : Prop :=
  forall k ad, tm_ads tm !! k = Some ad -> ad_download ad = l -> ~ unfinished ad.

Section steps.
Context `{Crypto}.

Inductive tm_step : TransferManager -> TransferManager -> Prop :=
| step_load tm d :
    download_ok d -> full_bitmap d ->
    tm_step tm (mkTM (tm_cfg tm) (tm_stopped tm) (tm_downloads tm) (tm_ads tm)
                  (tm_heap tm ++ [d]) (tm_events tm))
| step_start tm uuid now1 now2 ds hash total peers l tm' :
    is_i64 total ->
    StartDownload tm uuid now1 now2 ds hash total peers = Ok (l, tm') -> tm_step tm tm'
| step_resume tm l d peers now :
    tm_heap tm !! l = Some d -> no_run tm l -> tm_step tm (ResumeDownload tm l d peers now)
| step_pause tm id now tm' :
    PauseDownload tm id now = Ok tm' -> tm_step tm tm'
| step_cancel tm id : tm_step tm (CancelDownload tm id)
| step_stop tm : tm_step tm (Stop tm)
(* the goroutine [runDownload] *)
| step_run_start tm k ad d now :
    tm_ads tm !! k = Some ad -> ad_phase ad = Starting ->
    tm_heap tm !! ad_download ad = Some d ->
    tm_step tm (run_start tm k ad d now)
(* a worker receives a chunk number and sees the context cancelled *)
| step_worker_quits tm k ad i work idle busy :
    tm_ads tm !! k = Some ad -> ad_phase ad = Working (i :: work) (S idle) busy ->
    ctx_done tm ad = true ->
    tm_step tm (upd_ad tm k (set_phase ad (Working work idle busy)))
(* a worker receives a chunk number and goes to work *)
| step_worker_takes tm k ad i work idle busy :
    tm_ads tm !! k = Some ad -> ad_phase ad = Working (i :: work) (S idle) busy ->
    ctx_done tm ad = false ->
    tm_step tm (upd_ad tm k (set_phase ad (Working work idle (Fetching i :: busy))))
(* the channel is closed and empty *)
| step_worker_ends tm k ad idle busy :
    tm_ads tm !! k = Some ad -> ad_phase ad = Working [] (S idle) busy ->
    tm_step tm (upd_ad tm k (set_phase ad (Working [] idle busy)))
(* a worker has its chunk, or has given up on it *)
| step_worker_fetch tm k ad d work idle busy1 i busy2 fetch :
    tm_ads tm !! k = Some ad -> ad_phase ad = Working work idle (busy1 ++ Fetching i :: busy2) ->
    tm_heap tm !! ad_download ad = Some d ->
    tm_step tm (worker_fetch tm k ad d i fetch work idle busy1 busy2)
(* a worker writes its byte back *)
| step_worker_store tm k ad d work idle busy1 i c r busy2 :
    tm_ads tm !! k = Some ad -> ad_phase ad = Working work idle (busy1 ++ Storing i c r :: busy2) ->
    tm_heap tm !! ad_download ad = Some d ->
    tm_step tm (worker_store tm k ad d i c r work idle busy1 busy2)
(* a worker counts a byte, or is through with its chunk *)
| step_worker_count tm k ad d work idle busy1 i c b count busy2 now :
    tm_ads tm !! k = Some ad ->
    ad_phase ad = Working work idle (busy1 ++ Counting i c b count :: busy2) ->
    tm_heap tm !! ad_download ad = Some d ->
    tm_step tm (worker_count tm k ad d i c b count now work idle busy1 busy2)
(* all workers have returned *)
| step_run_finish tm k ad d work now err :
    tm_ads tm !! k = Some ad -> ad_phase ad = Working work 0 [] ->
    tm_heap tm !! ad_download ad = Some d -> first_entry (ad_chunkErrors ad) err ->
    tm_step tm (run_finish tm k ad d now err).

Definition reachable (cfg : TransferConfig) : TransferManager -> Prop :=
  rtc tm_step (NewTransferManager cfg).

(** ** One chunk *)

Lemma download_attempts_Ok cfg ad i fetch n retry err c :
  download_attempts cfg ad i fetch n retry err = Ok c ->
  verifyChunk (Some c) = true /\
  exists k, fetch k (selectPeer cfg ad i) = Ok (Some c) /\ retry <= k < retry + n.
Proof.
  revert retry err. induction n as [|n IH]; intros retry err Ha; cbn [download_attempts] in Ha; [done|].
  case_bool_decide; [done|]. destruct (fetch retry _) as [[c'|]|e] eqn:Hf.
  - destruct (verifyChunk (Some c')) eqn:Hv; simplify_eq.
    + split; [done|]. exists retry. split; [done|lia].
    + apply IH in Ha as (? & k & ? & ?). split; [done|]. exists k. split; [done|lia].
  - apply IH in Ha as (? & k & ? & ?). split; [done|]. exists k. split; [done|lia].
  - apply IH in Ha as (? & k & ? & ?). split; [done|]. exists k. split; [done|lia].
Qed.

Lemma download_attempts_Err cfg ad i fetch n retry err e :
  0 < n \/ err <> None ->
  download_attempts cfg ad i fetch n retry err = Err e -> e <> None.
Proof.
  revert retry err. induction n as [|n IH]; intros retry err Hn Ha; cbn [download_attempts] in Ha.
  - destruct Hn as [?|?]; [lia|]. by simplify_eq.
  - case_bool_decide; [by simplify_eq|]. destruct (fetch retry _) as [[c'|]|e'].
    + destruct (verifyChunk _); [done|]. eapply IH; [|done]. by right.
    + eapply IH; [|done]. by right.
    + eapply IH; [|done]. by right.
Qed.

(** An attempt that brings a good chunk ends the loop. *)
Lemma download_attempts_good cfg ad i fetch n retry err k c :
  selectPeer cfg ad i <> ""%string -> retry <= k < retry + n ->
  fetch k (selectPeer cfg ad i) = Ok (Some c) -> verifyChunk (Some c) = true ->
  exists c', download_attempts cfg ad i fetch n retry err = Ok c'.
Proof.
  intros Hp Hk Hf Hv. revert retry err Hk. induction n as [|n IH]; intros retry err Hk; [lia|].
  cbn [download_attempts]. rewrite bool_decide_false by done. destruct (decide (retry = k)) as [->|Hne].
  - rewrite Hf, Hv. eauto.
  - destruct (fetch retry _) as [[c'|]|e].
    + destruct (verifyChunk (Some c')); [eauto|]. apply IH. lia.
    + apply IH. lia.
    + apply IH. lia.
Qed.

(** ** The bitmap under unsynchronised updates *)

(** Whether a register has the bit of chunk [j], a chunk of its byte. *)
Definition reg_bit (r : register) (j : nat) : bool :=
  Z.testbit (reg_value r) (Z.of_nat (j mod 8)).

Definition all_below (d : Download) (m : Z) : Prop :=
  forall j, (Z.of_nat j < m)%Z -> chunk_bit (Download_ChunkBitmap d) j = true.

Definition bits_in_range (d : Download) : Prop :=
  forall j, chunk_bit (Download_ChunkBitmap d) j = true ->
            (Z.of_nat j < Download_TotalChunks d)%Z.

(** A count of the bytes before [b] that is as large as it can be has seen
    every chunk of these bytes. *)
Definition counted (d : Download) (b : nat) (n : Z) : Prop :=
  let m := Z.min (Download_TotalChunks d) (8 * Z.of_nat b) in
  (n <= m)%Z /\ (n = m -> all_below d m).

Lemma chunk_completed_bit d i :
  (0 <= i)%Z -> IsChunkCompleted d i = chunk_bit (Download_ChunkBitmap d) (Z.to_nat i).
Proof. intros. rewrite IsChunkCompleted_bit. by destruct (Z.ltb_spec i 0); [lia|]. Qed.

Lemma store_bit d r j :
  reg_byte r < length (Download_ChunkBitmap d) ->
  chunk_bit (Download_ChunkBitmap (store_chunk_byte d r)) j =
  if decide (j / 8 = reg_byte r) then reg_bit r j else chunk_bit (Download_ChunkBitmap d) j.
Proof.
  intros Hlen. unfold chunk_bit, reg_bit. simpl. case_decide as Hj.
  - by rewrite Hj, list_lookup_insert_eq.
  - by rewrite list_lookup_insert_ne.
Qed.

(** Run without interruption the two halves set the chunk's bit. *)
Lemma load_store d i :
  (0 <= i)%Z -> Z.to_nat i / 8 < length (Download_ChunkBitmap d) ->
  Download_ChunkBitmap (store_chunk_byte d (load_chunk_byte d i)) =
  Download_ChunkBitmap (SetChunkCompleted d i).
Proof.
  intros Hi Hlen. unfold store_chunk_byte, load_chunk_byte, SetChunkCompleted, expand_bitmap.
  destruct (Z.ltb_spec i 0); [lia|]. simpl.
  rewrite Z.quot_div_nonneg, (Z2Nat.inj_div i 8) by lia. change (Z.to_nat 8) with 8.
  set (b := Z.to_nat i / 8) in *.
  replace (S b - length (Download_ChunkBitmap d)) with 0 by lia. rewrite app_nil_r.
  destruct (lookup_lt_is_Some_2 _ _ Hlen) as [v Hv]. rewrite (nth_lookup_Some _ _ _ _ Hv).
  apply list_eq. intros j. destruct (decide (j = b)) as [->|Hne].
  - rewrite list_lookup_insert_eq by done. by rewrite list_lookup_alter_eq, Hv.
  - by rewrite list_lookup_insert_ne, list_lookup_alter_ne.
Qed.

Lemma load_byte d i : (0 <= i)%Z -> reg_byte (load_chunk_byte d i) = Z.to_nat i / 8.
Proof.
  intros Hi. simpl. rewrite Z.quot_div_nonneg, (Z2Nat.inj_div i 8) by lia. done.
Qed.

Lemma load_bit d i j :
  (0 <= i)%Z -> Z.to_nat i / 8 < length (Download_ChunkBitmap d) -> j / 8 = Z.to_nat i / 8 ->
  reg_bit (load_chunk_byte d i) j =
  bool_decide (j = Z.to_nat i) || chunk_bit (Download_ChunkBitmap d) j.
Proof.
  intros Hi Hlen Hj. rewrite <- set_bit_spec, <- SetChunkCompleted_bitmap, <- load_store by done.
  rewrite store_bit by (by rewrite load_byte). by rewrite decide_True by (by rewrite load_byte).
Qed.

(** A predicate that holds at most below [q] has at most [q] hits, and [q] only
    if it holds everywhere below. *)
Lemma filter_below (p : nat -> bool) n q :
  q <= n -> (forall k, p k = true -> k < q) ->
  length (List.filter p (seq 0 n)) <= q /\
  (length (List.filter p (seq 0 n)) = q -> forall k, k < q -> p k = true).
Proof.
  intros Hq Hp. set (l := List.filter p (seq 0 n)).
  assert (List.NoDup l) as Hnd by apply List.NoDup_filter, List.seq_NoDup.
  assert (incl l (seq 0 q)) as Hincl.
  { intros k [_ Hk]%filter_In. apply in_seq. apply Hp in Hk. lia. }
  pose proof (NoDup_incl_length Hnd Hincl) as Hlen. rewrite length_seq in Hlen. split; [done|].
  intros Heq k Hk. eapply (filter_In p k (seq 0 n)).
  apply (NoDup_length_incl (l' := seq 0 q) Hnd); [rewrite length_seq; lia|done|]. apply in_seq. lia.
Qed.

Lemma counted_step d b v n :
  bits_in_range d -> (0 < Download_TotalChunks d)%Z ->
  Download_ChunkBitmap d !! b = Some v -> counted d b n -> counted d (S b) (count_byte v n).
Proof.
  intros Hr Ht Hb [Hn Hfull]. unfold counted. rewrite count_byte_spec.
  set (total := Download_TotalChunks d) in *.
  assert (forall k, k < 8 -> chunk_bit (Download_ChunkBitmap d) (8 * b + k) = chunk_bit [v] k) as Hbit.
  { intros k Hk. unfold chunk_bit.
    replace ((8 * b + k) / 8) with b
      by (rewrite (Nat.mul_comm 8 b), Nat.div_add_l, Nat.div_small by lia; lia).
    replace ((8 * b + k) mod 8) with k
      by (rewrite Nat.add_comm, Nat.mul_comm, Nat.Div0.mod_add, Nat.mod_small by lia; lia).
    by rewrite Hb, Nat.div_small, Nat.mod_small by done. }
  assert (forall k, chunk_bit [v] k = true -> k < 8) as Hk8.
  { intros k Hk. destruct (decide (k < 8)) as [|Hge]; [done|]. unfold chunk_bit in Hk.
    rewrite (lookup_ge_None_2 [v]) in Hk; [done|]. simpl.
    apply (Nat.div_le_lower_bound k 8 1); lia. }
  set (q := Z.to_nat (Z.min total (8 * Z.of_nat (S b)) - Z.min total (8 * Z.of_nat b))).
  destruct (filter_below (chunk_bit [v]) 8 q) as [Hle Hall]; [lia|..].
  { intros k Hk. pose proof (Hk8 k Hk). rewrite <- Hbit in Hk by done. apply Hr in Hk.
    fold total in Hk. lia. }
  split; [lia|]. intros Heq j Hj.
  destruct (decide (j < 8 * b)); [apply Hfull; lia|].
  replace j with (8 * b + (j - 8 * b)) by lia. rewrite Hbit by lia. apply Hall; lia.
Qed.

(** ** What the goroutines maintain *)

(** A download whose counter reaches its size has every chunk. *)
Record chunks_ok (d : Download) : Prop := {
  ch_bitmap : full_bitmap d;
  ch_bits : bits_in_range d;
  ch_complete : (Download_TotalChunks d <= Download_CompletedChunks d)%Z ->
    all_below d (Download_TotalChunks d)
}.

Definition one_worker (cfg : TransferConfig) : Prop := TransferConfig_MaxConcurrentChunks cfg = 1%Z.

(** A download nobody works on.  With one worker per download the counter is
    that of the bitmap. *)
Record rest_ok (cfg : TransferConfig) (d : Download) : Prop := {
  rest_chunks : chunks_ok d;
  rest_count : one_worker cfg -> (0 <= Download_TotalChunks d)%Z ->
    Download_CompletedChunks d = countCompletedChunks d
}.

(** The chunk a worker has not marked yet. *)
Definition unmarked (t : task) : option Z :=
  match t with
  | Fetching i | Storing i _ _ => Some i
  | Counting _ _ _ _ => None
  end.

Definition todo (work : list Z) (busy : list task) : list Z := work ++ omap unmarked busy.

(** A register holds no chunk that another worker has still to mark, and a
    full count means full bytes. *)
Definition task_ok (d : Download) (rest : list Z) (t : task) : Prop :=
  match t with
  | Fetching _ => True
  | Storing i _ r => reg_byte r = Z.to_nat i / 8 /\
      forall j, j / 8 = reg_byte r -> reg_bit r j = true ->
        (Z.of_nat j < Download_TotalChunks d)%Z /\ (j = Z.to_nat i \/ Z.of_nat j ∉ rest)
  | Counting _ _ b n => counted d b n
  end.

Definition count_bytes (bytes : list Z) : Z :=
  fold_left (fun count v => count_byte v count) bytes 0%Z.

(** The worker of a download that has only one. *)
Definition alone (d : Download) (busy : list task) : Prop :=
  match busy with
  | [] | [Fetching _] => Download_CompletedChunks d = countCompletedChunks d
  | [Storing i _ r] => Download_CompletedChunks d = countCompletedChunks d /\
      r = load_chunk_byte d i
  | [Counting _ _ b n] => n = count_bytes (take b (Download_ChunkBitmap d))
  | _ => False
  end.

(** A running download, [done] telling whether its context is. *)
Record work_inv (cfg : TransferConfig) (done : bool) (errs : gmap Z TransferError) (d : Download)
    (work : list Z) (idle : nat) (busy : list task) : Prop := {
  w_chunks : chunks_ok d;
  w_total : (0 < Download_TotalChunks d)%Z;
  w_nodup : NoDup (todo work busy);
  w_range : forall i, i ∈ todo work busy ->
    (0 <= i < Download_TotalChunks d)%Z /\ IsChunkCompleted d i = false;
  w_tasks : forall t, t ∈ busy -> task_ok d (todo work busy) t;
  w_workers : done = false -> (0 < TransferConfig_MaxConcurrentChunks cfg)%Z ->
    work <> [] -> 0 < idle + length busy;
  w_alone : one_worker cfg -> idle + length busy <= 1 /\ alone d busy;
  w_missing : one_worker cfg -> done = false -> (0 < TransferConfig_MaxRetries cfg)%Z ->
    forall i, i ∈ MissingChunks d -> i ∈ todo work busy \/ is_Some (errs !! i)
}.

Lemma task_ok_mono d rest rest' t : rest' ⊆ rest -> task_ok d rest t -> task_ok d rest' t.
Proof.
  intros Hsub. destruct t as [i|i c r|i c b n]; try done. intros [Hr Hj]. split; [done|].
  intros j Hb Hbit. destruct (Hj j Hb Hbit) as [? [?|?]]; split; auto.
Qed.

Lemma todo_middle work busy1 t busy2 :
  todo work (busy1 ++ t :: busy2) ≡ₚ option_list (unmarked t) ++ todo work (busy1 ++ busy2).
Proof.
  unfold todo. rewrite !omap_app. simpl. destruct (unmarked t) as [i|]; simpl; [|done].
  by rewrite <- !Permutation_middle.
Qed.

Lemma elem_busy (busy1 : list task) t busy2 u :
  u ∈ busy1 ++ busy2 -> u ∈ busy1 ++ t :: busy2.
Proof. rewrite !elem_of_app, elem_of_cons. tauto. Qed.

Lemma elem_busy_inv (busy1 : list task) t t' busy2 u :
  u ∈ busy1 ++ t' :: busy2 -> u = t' \/ u ∈ busy1 ++ t :: busy2.
Proof. rewrite !elem_of_app, !elem_of_cons. tauto. Qed.

Lemma length_middle {A} (l1 : list A) x l2 : length (l1 ++ x :: l2) = S (length (l1 ++ l2)).
Proof. rewrite !length_app. simpl. lia. Qed.

(** With one worker a task is the only one. *)
Lemma alone_middle cfg done errs d work idle busy1 t busy2 :
  work_inv cfg done errs d work idle (busy1 ++ t :: busy2) -> one_worker cfg ->
  idle = 0 /\ busy1 = [] /\ busy2 = [] /\ alone d [t].
Proof.
  intros Hw Hone. destruct (w_alone _ _ _ _ _ _ _ Hw Hone) as [Hlen Ha].
  rewrite length_middle in Hlen.
  assert (busy1 ++ busy2 = []) as [-> ->]%app_eq_nil by (apply length_zero_iff_nil; lia).
  split_and!; [lia|done..].
Qed.

Section work.
Variables (cfg : TransferConfig) (done : bool) (errs : gmap Z TransferError) (d : Download).

Lemma work_quit i work idle busy :
  done = true -> work_inv cfg done errs d (i :: work) (S idle) busy ->
  work_inv cfg done errs d work idle busy.
Proof.
  intros Hd [Hc Ht Hn Hr Hk Hw Ha Hm].
  assert (todo work busy ⊆ todo (i :: work) busy) as Hsub by (unfold todo; set_solver).
  split; try done.
  - by apply NoDup_cons in Hn as [_ ?].
  - auto.
  - intros t Hin. eapply task_ok_mono; [exact Hsub|auto].
  - congruence.
  - intros Hone. destruct (Ha Hone). split; [lia|done].
  - congruence.
Qed.

Lemma work_take i work idle busy :
  work_inv cfg done errs d (i :: work) (S idle) busy ->
  work_inv cfg done errs d work idle (Fetching i :: busy).
Proof.
  intros [Hc Ht Hn Hr Hk Hw Ha Hm].
  assert (todo work (Fetching i :: busy) ≡ₚ todo (i :: work) busy) as Hp.
  { unfold todo. simpl. by rewrite <- Permutation_middle. }
  split; try done.
  - by rewrite Hp.
  - intros j. rewrite Hp. auto.
  - intros t [->|Hin]%elem_of_cons; [done|]. eapply task_ok_mono; [|by apply Hk]. by rewrite Hp.
  - intros. simpl. lia.
  - intros Hone. destruct (Ha Hone) as [Hlen Hal]. simpl. split; [lia|].
    assert (busy = []) as -> by (apply length_zero_iff_nil; lia). done.
  - intros Hone Hd Hret j Hj. rewrite Hp. auto.
Qed.

Lemma work_end idle busy :
  work_inv cfg done errs d [] (S idle) busy -> work_inv cfg done errs d [] idle busy.
Proof.
  intros [Hc Ht Hn Hr Hk Hw Ha Hm]. split; try done.
  intros Hone. destruct (Ha Hone). split; [lia|done].
Qed.

(** A chunk nobody could deliver has an error. *)
Lemma work_err i errs' work idle busy1 busy2 :
  (forall j, is_Some (errs !! j) -> is_Some (errs' !! j)) ->
  ((0 < TransferConfig_MaxRetries cfg)%Z -> is_Some (errs' !! i)) ->
  work_inv cfg done errs d work idle (busy1 ++ Fetching i :: busy2) ->
  work_inv cfg done errs' d work (S idle) (busy1 ++ busy2).
Proof.
  intros Hsub Hi Hwi. pose proof Hwi as [Hc Ht Hn Hr Hk Hw Ha Hm].
  pose proof (todo_middle work busy1 (Fetching i) busy2) as Hp. simpl in Hp.
  assert (todo work (busy1 ++ busy2) ⊆ todo work (busy1 ++ Fetching i :: busy2)) as Hs
    by (rewrite Hp; set_solver).
  split; try done.
  - rewrite Hp in Hn. by apply NoDup_cons in Hn as [_ ?].
  - auto.
  - intros t Hin. eapply task_ok_mono; [exact Hs|]. by apply Hk, elem_busy.
  - intros. lia.
  - intros Hone. destruct (alone_middle _ _ _ _ _ _ _ _ _ Hwi Hone) as (-> & -> & -> & Hal).
    by simpl.
  - intros Hone Hd Hret j Hj. destruct (Hm Hone Hd Hret j Hj) as [Hin|?]; [|auto].
    rewrite Hp in Hin. apply elem_of_cons in Hin as [->|?]; auto.
Qed.

Lemma chunk_byte i : chunks_ok d -> (0 <= i < Download_TotalChunks d)%Z ->
  Z.to_nat i / 8 < length (Download_ChunkBitmap d).
Proof. intros [Hb _ _] Hi. unfold full_bitmap in Hb. apply Nat.Div0.div_lt_upper_bound. lia. Qed.

Lemma work_load i c work idle busy1 busy2 :
  work_inv cfg done errs d work idle (busy1 ++ Fetching i :: busy2) ->
  work_inv cfg done errs d work idle (busy1 ++ Storing i c (load_chunk_byte d i) :: busy2).
Proof.
  intros Hwi. pose proof Hwi as [Hc Ht Hn Hr Hk Hw Ha Hm].
  assert (todo work (busy1 ++ Storing i c (load_chunk_byte d i) :: busy2) =
          todo work (busy1 ++ Fetching i :: busy2)) as Hp by (unfold todo; by rewrite !omap_app).
  assert (i ∈ todo work (busy1 ++ Fetching i :: busy2)) as Hin
    by (rewrite todo_middle; simpl; set_solver).
  destruct (Hr i Hin) as [Hir _]. pose proof (chunk_byte i Hc Hir) as Hlen.
  split; rewrite ?Hp; try done.
  - intros u [->|Hu]%(elem_busy_inv _ (Fetching i)); [|by apply Hk]. split; [apply load_byte; lia|].
    intros j Hj Hbit. rewrite load_byte in Hj by lia. rewrite load_bit in Hbit by (done || lia).
    apply orb_true_iff in Hbit as [->%bool_decide_eq_true|Hbit].
    + split; [lia|by left].
    + split; [by apply (ch_bits d Hc)|right]. intros [_ Hf]%Hr.
      rewrite chunk_completed_bit, Nat2Z.id in Hf by lia. congruence.
  - intros Hd Hcon Hne. specialize (Hw Hd Hcon Hne). rewrite length_middle in *. done.
  - intros Hone. destruct (alone_middle _ _ _ _ _ _ _ _ _ Hwi Hone) as (-> & -> & -> & Hal).
    simpl. split; [lia|done].
Qed.

(** A write back loses chunks of its byte only, and none that was counted. *)
Lemma store_counted i c r b n rest :
  task_ok d rest (Storing i c r) -> (0 <= i < Download_TotalChunks d)%Z ->
  IsChunkCompleted d i = false -> Z.to_nat i / 8 < length (Download_ChunkBitmap d) ->
  counted d b n -> counted (store_chunk_byte d r) b n.
Proof.
  intros [Hbyte _] Hir Hi Hlen [Hn Hfull]. split; [done|]. intros Heq j Hj. simpl in Hj.
  specialize (Hfull Heq). rewrite chunk_completed_bit in Hi by lia.
  assert (8 * Z.of_nat b <= i)%Z as Hib.
  { destruct (Z.le_gt_cases (8 * Z.of_nat b) i) as [|Hlt]; [done|].
    rewrite (Hfull (Z.to_nat i)) in Hi by lia. done. }
  rewrite store_bit by (by rewrite Hbyte). rewrite decide_False; [apply Hfull; simpl in Hj; lia|].
  rewrite Hbyte. assert (j / 8 < b) by (apply Nat.Div0.div_lt_upper_bound; lia).
  assert (b <= Z.to_nat i / 8) by (apply Nat.div_le_lower_bound; lia). lia.
Qed.

Lemma store_chunks_ok i c r rest :
  chunks_ok d -> task_ok d rest (Storing i c r) -> (0 <= i < Download_TotalChunks d)%Z ->
  IsChunkCompleted d i = false -> chunks_ok (store_chunk_byte d r).
Proof.
  intros Hc [Hbyte Hreg] Hir Hi. pose proof (chunk_byte i Hc Hir) as Hlen.
  destruct Hc as [Hb Hbits Hcomp]. split.
  - unfold full_bitmap in *. simpl. by rewrite length_insert.
  - intros j. rewrite store_bit by (by rewrite Hbyte). case_decide as Hj; [|apply Hbits].
    intros Hbit. by destruct (Hreg j Hj Hbit).
  - intros Hle. simpl in Hle. specialize (Hcomp Hle (Z.to_nat i)).
    rewrite chunk_completed_bit in Hi by lia. rewrite Hcomp in Hi by lia. done.
Qed.

Lemma work_store i c r work idle busy1 busy2 :
  work_inv cfg done errs d work idle (busy1 ++ Storing i c r :: busy2) ->
  work_inv cfg done errs (store_chunk_byte d r) work idle (busy1 ++ Counting i c 0 0 :: busy2).
Proof.
  intros Hwi. pose proof Hwi as [Hc Ht Hn Hr Hk Hw Ha Hm].
  pose proof (todo_middle work busy1 (Storing i c r) busy2) as Hp. simpl in Hp.
  pose proof (todo_middle work busy1 (Counting i c 0 0) busy2) as Hp'. simpl in Hp'.
  rewrite Hp in Hn. apply NoDup_cons in Hn as [Hni Hnd].
  assert (i ∈ todo work (busy1 ++ Storing i c r :: busy2)) as Hin by (rewrite Hp; set_solver).
  destruct (Hr i Hin) as [Hir Hif]. pose proof (chunk_byte i Hc Hir) as Hlen.
  pose proof (Hk (Storing i c r) ltac:(set_solver)) as Htask. pose proof Htask as [Hbyte Hreg].
  split.
  - by eapply store_chunks_ok.
  - done.
  - by rewrite Hp'.
  - intros j Hj. rewrite Hp' in Hj. destruct (Hr j) as [Hjr Hjf]; [rewrite Hp; set_solver|].
    split; [done|]. rewrite chunk_completed_bit in * by lia. rewrite store_bit by (by rewrite Hbyte).
    case_decide as Hjb; [|done]. destruct (reg_bit r (Z.to_nat j)) eqn:Hbit; [|done]. exfalso.
    destruct (Hreg _ Hjb Hbit) as [_ [Heq|Hnot]].
    + assert (j = i) as -> by lia. done.
    + rewrite Z2Nat.id in Hnot by lia. apply Hnot. rewrite Hp. set_solver.
  - intros u [->|Hu]%(elem_busy_inv _ (Storing i c r)); [split; simpl; [lia|intros _ j; lia]|].
    apply Hk in Hu. destruct u as [i'|i' c' r'|i' c' b n]; [done|..|by eapply store_counted].
    eapply task_ok_mono; [|exact Hu]. rewrite Hp, Hp'. set_solver.
  - intros. rewrite length_middle. lia.
  - intros Hone. destruct (alone_middle _ _ _ _ _ _ _ _ _ Hwi Hone) as (-> & -> & -> & Hal).
    simpl. split; [lia|done].
  - intros Hone Hd Hret j Hj. rewrite Hp'.
    destruct (alone_middle _ _ _ _ _ _ _ _ _ Hwi Hone) as (-> & -> & -> & [_ Hld]).
    apply elem_of_MissingChunks in Hj as [Hjr Hjf]. simpl in Hjr.
    rewrite chunk_completed_bit, Hld, load_store, <- chunk_completed_bit, SetChunkCompleted_chunks
      in Hjf by (done || lia).
    apply orb_false_iff in Hjf as [Hne Hjf].
    destruct (Hm Hone Hd Hret j) as [Hj|?]; [by apply elem_of_MissingChunks| |by right].
    rewrite Hp in Hj. apply elem_of_cons in Hj as [->|?]; [|by left].
    destruct (Z.leb_spec 0 i); [|lia]. by rewrite Z.eqb_refl in Hne.
Qed.

Lemma work_count i c b v n work idle busy1 busy2 :
  Download_ChunkBitmap d !! b = Some v ->
  work_inv cfg done errs d work idle (busy1 ++ Counting i c b n :: busy2) ->
  work_inv cfg done errs d work idle (busy1 ++ Counting i c (S b) (count_byte v n) :: busy2).
Proof.
  intros Hb Hwi. pose proof Hwi as [Hc Ht Hn Hr Hk Hw Ha Hm].
  assert (todo work (busy1 ++ Counting i c (S b) (count_byte v n) :: busy2) =
          todo work (busy1 ++ Counting i c b n :: busy2)) as Hp by (unfold todo; by rewrite !omap_app).
  split; rewrite ?Hp; try done.
  - intros u [->|Hu]%(elem_busy_inv _ (Counting i c b n)); [|by apply Hk].
    apply counted_step; [apply Hc|done|done|]. apply (Hk (Counting i c b n)). set_solver.
  - intros Hd Hcon Hne. specialize (Hw Hd Hcon Hne). rewrite length_middle in *. done.
  - intros Hone. destruct (alone_middle _ _ _ _ _ _ _ _ _ Hwi Hone) as (-> & -> & -> & Hal).
    simpl in *. split; [lia|]. rewrite (take_S_r _ _ v) by done. unfold count_bytes in *.
    rewrite fold_left_app. simpl. by rewrite Hal.
Qed.

Lemma work_write i c b n now work idle busy1 busy2 :
  Download_ChunkBitmap d !! b = None ->
  work_inv cfg done errs d work idle (busy1 ++ Counting i c b n :: busy2) ->
  work_inv cfg done errs (touch (store_count d n) now) work (S idle) (busy1 ++ busy2).
Proof.
  intros Hb Hwi. pose proof Hwi as [Hc Ht Hn Hr Hk Hw Ha Hm].
  pose proof (todo_middle work busy1 (Counting i c b n) busy2) as Hp. simpl in Hp.
  apply lookup_ge_None in Hb. pose proof (ch_bitmap d Hc) as Hfb. unfold full_bitmap in Hfb.
  destruct (Hk (Counting i c b n) ltac:(set_solver)) as [Hle Hfull].
  split; rewrite <- ?Hp; try done.
  - split; [done|apply Hc|]. simpl. intros Hcomp j Hj. apply Hfull; [|simpl in Hj; lia].
    destruct (Z.ltb_spec (Download_TotalChunks d) n); lia.
  - intros j. rewrite <- Hp. exact (Hr j).
  - intros u Hu%(elem_busy _ (Counting i c b n)). apply Hk in Hu. eapply task_ok_mono; [|exact Hu].
    by rewrite Hp.
  - intros. lia.
  - intros Hone. destruct (alone_middle _ _ _ _ _ _ _ _ _ Hwi Hone) as (-> & -> & -> & Hal).
    simpl in *. split; [lia|]. unfold countCompletedChunks, count_bytes in *. simpl.
    by rewrite Hal, take_ge.
  - intros Hone Hd Hret j Hj. rewrite <- Hp. by apply Hm.
Qed.

Lemma work_same d' work idle busy :
  Download_TotalChunks d' = Download_TotalChunks d ->
  Download_CompletedChunks d' = Download_CompletedChunks d ->
  Download_ChunkBitmap d' = Download_ChunkBitmap d ->
  work_inv cfg done errs d work idle busy -> work_inv cfg done errs d' work idle busy.
Proof.
  destruct d, d'. simpl. intros -> -> -> [[Hc1 Hc2 Hc3] Ht Hn Hr Hk Hw Ha Hm].
  split; try done.
Qed.
End work.

(** ** The whole system *)

Definition working (ad : activeDownload) : bool :=
  match ad_phase ad with Working _ _ _ => true | _ => false end.

Definition ad_inv (tm : TransferManager) (ad : activeDownload) : Prop :=
  exists d, tm_heap tm !! ad_download ad = Some d /\
  match ad_phase ad with
  | Working work idle busy =>
      work_inv (tm_cfg tm) (ctx_done tm ad) (ad_chunkErrors ad) d work idle busy
  | _ => True
  end.

Record tm_inv (tm : TransferManager) : Prop := {
  inv_ads : forall k ad, tm_ads tm !! k = Some ad -> ad_inv tm ad;
  inv_rest : forall l d, tm_heap tm !! l = Some d ->
    (forall k ad, tm_ads tm !! k = Some ad -> ad_download ad = l -> working ad = false) ->
    rest_ok (tm_cfg tm) d;
  inv_once : forall k1 k2 ad1 ad2, tm_ads tm !! k1 = Some ad1 -> tm_ads tm !! k2 = Some ad2 ->
    unfinished ad1 -> unfinished ad2 -> ad_download ad1 = ad_download ad2 -> k1 = k2
}.

(** Equal but for status, times and error text. *)
Definition same_chunks (d d' : Download) : Prop :=
  Download_TotalChunks d' = Download_TotalChunks d /\
  Download_CompletedChunks d' = Download_CompletedChunks d /\
  Download_ChunkBitmap d' = Download_ChunkBitmap d.

Lemma same_chunks_refl d : same_chunks d d.
Proof. done. Qed.

Lemma rest_same cfg d d' : same_chunks d d' -> rest_ok cfg d -> rest_ok cfg d'.
Proof.
  destruct d, d'. unfold same_chunks. simpl. intros (-> & -> & ->) [[Hb Hr Hf] Hc].
  split; [by split|exact Hc].
Qed.

Lemma working_unfinished ad : working ad = true -> unfinished ad.
Proof. unfold working, unfinished. by destruct (ad_phase ad). Qed.

(** Work on another download than the one a step changes. *)
Lemma ad_inv_frame tm tm' ad :
  ad_inv tm ad -> tm_cfg tm' = tm_cfg tm -> (tm_stopped tm = true -> tm_stopped tm' = true) ->
  (forall d, tm_heap tm !! ad_download ad = Some d ->
     exists d', tm_heap tm' !! ad_download ad = Some d' /\ same_chunks d d') ->
  ad_inv tm' ad.
Proof.
  intros (d0 & Hd0 & Hp) Hc Hs Hh. destruct (Hh _ Hd0) as (d' & Hd' & Hsame).
  exists d'. split; [done|]. destruct (ad_phase ad) as [|work idle busy|]; try done. rewrite Hc.
  assert (ctx_done tm' ad = false -> ctx_done tm ad = false) as Hctx.
  { unfold ctx_done. destruct (tm_stopped tm); [by rewrite Hs|]. by intros [_ ?]%orb_false_iff. }
  destruct Hsame as (H1 & H2 & H3). eapply work_same in Hp; [|exact H1..|exact H2|exact H3].
  destruct Hp. split; auto.
Qed.

(** A goroutine's step keeps the invariant if the run and its download do. *)
Lemma run_inv tm tm' k ad ad' d d' :
  tm_inv tm -> tm_ads tm !! k = Some ad -> unfinished ad ->
  tm_heap tm !! ad_download ad = Some d -> tm_ads tm' = <[k := ad']> (tm_ads tm) ->
  ad_download ad' = ad_download ad ->
  tm_cfg tm' = tm_cfg tm -> tm_stopped tm' = tm_stopped tm -> tm_heap tm' = <[ad_download ad := d']> (tm_heap tm) ->
  match ad_phase ad' with
  | Starting => False
  | Working work idle busy =>
      work_inv (tm_cfg tm) (ctx_done tm ad') (ad_chunkErrors ad') d' work idle busy
  | Finished => rest_ok (tm_cfg tm) d'
  end -> tm_inv tm'.
Proof.
  intros [Ha Hr Ho] Hk Hu Hd Has Hl Hc Hs Hh Hp.
  assert (tm_heap tm' !! ad_download ad = Some d') as Hd'.
  { rewrite Hh. apply list_lookup_insert_eq. by eapply lookup_lt_Some. }
  assert (<[k := ad']> (tm_ads tm) !! k = Some ad') as Hk'.
  { apply list_lookup_insert_eq. by eapply lookup_lt_Some. }
  split; rewrite ?Has.
  - intros k2 ad2 [(<- & <- & _)|[Hne Hk2]]%list_lookup_insert_Some.
    + exists d'. rewrite Hl. split; [done|]. destruct (ad_phase ad') as [|work idle busy|]; try done.
      unfold ctx_done in *. by rewrite Hc, Hs.
    + destruct (decide (ad_download ad2 = ad_download ad)) as [Heq|Hneq].
      * exists d'. rewrite Heq. split; [done|]. destruct (ad_phase ad2) eqn:E; try done.
        exfalso. apply Hne. eapply Ho; eauto. unfold unfinished. by rewrite E.
      * eapply ad_inv_frame; [by eapply Ha|done|by rewrite Hs|].
        intros d2 Hd2. exists d2. by rewrite Hh, list_lookup_insert_ne.
  - intros l d2 Hl2 Hno. rewrite Hc. destruct (decide (l = ad_download ad)) as [->|Hneq].
    + assert (d2 = d') as -> by congruence.
      specialize (Hno k ad' Hk' Hl).
      unfold working in Hno. by destruct (ad_phase ad').
    + rewrite Hh, list_lookup_insert_ne in Hl2 by done. eapply Hr; [exact Hl2|].
      intros k2 ad2 Hk2 Hl3. eapply (Hno k2); [|exact Hl3].
      rewrite list_lookup_insert_ne; [done|]. intros ->. congruence.
  - intros k1 k2 ad1 ad2 Hk1 Hk2 Hu1 Hu2 Heq.
    apply list_lookup_insert_Some in Hk1 as [(<- & <- & _)|[Hne1 Hk1]];
      apply list_lookup_insert_Some in Hk2 as [(<- & <- & _)|[Hne2 Hk2]]; try done.
    + eapply Ho; eauto. congruence.
    + eapply Ho; eauto. congruence.
    + by eapply Ho.
Qed.

(** A caller's step that starts no goroutine. *)
Lemma caller_inv tm tm' :
  tm_inv tm -> tm_cfg tm' = tm_cfg tm -> (tm_stopped tm = true -> tm_stopped tm' = true) ->
  (forall l d, tm_heap tm !! l = Some d -> exists d', tm_heap tm' !! l = Some d' /\ same_chunks d d') ->
  (forall l d', tm_heap tm' !! l = Some d' -> tm_heap tm !! l = None -> rest_ok (tm_cfg tm) d') ->
  Forall2 (fun ad ad' => ad' = ad \/ ad' = set_cancelled ad) (tm_ads tm) (tm_ads tm') ->
  tm_inv tm'.
Proof.
  intros [Ha Hr Ho] Hc Hs Hh Hnew Has.
  assert (forall k ad', tm_ads tm' !! k = Some ad' -> exists ad, tm_ads tm !! k = Some ad /\
            (ad' = ad \/ ad' = set_cancelled ad)) as Hback.
  { intros k ad' Hk. eapply Forall2_lookup_r in Has as (ad & ? & ?); [|exact Hk]. by exists ad. }
  split.
  - intros k ad' Hk. destruct (Hback k ad' Hk) as (ad & Hk' & Hcase).
    assert (ad_inv tm' ad) as Hinv by (eapply ad_inv_frame; eauto).
    destruct Hcase as [->| ->]; [done|]. destruct Hinv as (d & Hd & Hp).
    exists d. split; [done|]. simpl. destruct (ad_phase ad); try done.
    destruct Hp. split; try done; unfold ctx_done; simpl; by rewrite orb_true_r.
  - intros l d' Hl Hno. rewrite Hc. destruct (tm_heap tm !! l) as [d|] eqn:Hd; [|by eapply Hnew].
    destruct (Hh l d Hd) as (d2 & Hd2 & Hsame). assert (d2 = d') as -> by congruence.
    eapply rest_same; [exact Hsame|]. eapply Hr; [exact Hd|]. intros k ad Hk Hdl.
    eapply Forall2_lookup_l in Has as (ad' & Hk' & [->| ->]); [| |exact Hk].
    + by eapply Hno.
    + by apply (Hno k (set_cancelled ad)).
  - intros k1 k2 ad1 ad2 Hk1 Hk2 Hu1 Hu2 Heq.
    destruct (Hback k1 ad1 Hk1) as (a1 & H1 & [->| ->]);
      destruct (Hback k2 ad2 Hk2) as (a2 & H2 & [->| ->]); by eapply Ho.
Qed.

Lemma Forall2_same {A} (R : A -> A -> Prop) (l : list A) : (forall x, R x x) -> Forall2 R l l.
Proof. intros HR. by induction l; constructor. Qed.

Lemma launch_inv tm id l peers :
  tm_inv tm -> is_Some (tm_heap tm !! l) -> no_run tm l -> tm_inv (launch tm id l peers).
Proof.
  intros [Ha Hr Ho] [d Hd] Hno.
  assert (forall k ad, tm_ads (launch tm id l peers) !! k = Some ad ->
            tm_ads tm !! k = Some ad \/
            (k = length (tm_ads tm) /\ ad = mkActive l peers false ∅ Starting)) as Hcase.
  { simpl. intros k ad [?|(Hk & Hs)]%lookup_app_Some; [by left|right].
    apply list_lookup_singleton_Some in Hs as [Hs <-]. split; [lia|done]. }
  split.
  - intros k ad [Hk|[_ ->]]%Hcase; [by eapply Ha|]. by exists d.
  - intros l' d' Hl Hw. eapply Hr; [exact Hl|]. intros k ad Hk Hdl. eapply Hw; [|exact Hdl].
    simpl. by apply lookup_app_l_Some.
  - intros k1 k2 ad1 ad2 [Hk1|[-> ->]]%Hcase [Hk2|[-> ->]]%Hcase Hu1 Hu2 Heq; try done.
    + by eapply Ho.
    + by destruct (Hno k1 ad1 Hk1 Heq).
    + by destruct (Hno k2 ad2 Hk2 (eq_sym Heq)).
Qed.

Lemma MissingChunks_nil d :
  MissingChunks d = [] <-> all_below d (Download_TotalChunks d).
Proof.
  split.
  - intros Hm j Hj. destruct (IsChunkCompleted d (Z.of_nat j)) eqn:E.
    + by rewrite chunk_completed_bit, Nat2Z.id in E by lia.
    + assert (Z.of_nat j ∈ MissingChunks d) as Hin by (apply elem_of_MissingChunks; split; [lia|done]).
      rewrite Hm in Hin. by apply elem_of_nil in Hin.
  - intros Hall. destruct (MissingChunks d) as [|i l] eqn:Hm; [done|].
    assert (i ∈ MissingChunks d) as [Hi Hf]%elem_of_MissingChunks by (rewrite Hm; set_solver).
    rewrite chunk_completed_bit, Hall in Hf by lia. done.
Qed.

Lemma rest_download_ok cfg d : download_ok d -> full_bitmap d -> rest_ok cfg d.
Proof.
  intros Hok Hb. split; [|intros; by apply ok_count]. split; [done|exact (ok_range d Hok)|].
  intros Hle j Hj. destruct (proj1 (IsComplete_iff d Hok)) as [_ Hm].
  { unfold Download_IsComplete. apply andb_true_iff. split; [by apply Z.leb_le|]. apply Z.ltb_lt. lia. }
  by apply MissingChunks_nil.
Qed.

(** [make] panics before the size of the bitmap can be wrong. *)
Lemma quot_roundup total :
  is_i64 total -> (0 <= i64 (total + 7) `quot` 8)%Z -> (total <= 8 * (i64 (total + 7) `quot` 8))%Z.
Proof.
  intros [Hlo Hhi] Hn. destruct (Z.lt_ge_cases (total + 7) (2 ^ 63)) as [Hlt|Hge].
  - rewrite i64_id in * by (unfold is_i64; lia).
    pose proof (Z.quot_rem' (total + 7) 8). pose proof (Z.rem_bound_abs (total + 7) 8). lia.
  - assert (i64 (total + 7) = total + 7 - 2 ^ 64)%Z as Hw.
    { unfold i64. rewrite <- (Z.mod_unique_pos _ (2 ^ 64) 1 (total + 7 - 2 ^ 63)); lia. }
    rewrite Hw in Hn. pose proof (Z.quot_rem' (total + 7 - 2 ^ 64) 8).
    pose proof (Z.rem_bound_abs (total + 7 - 2 ^ 64) 8). lia.
Qed.

Lemma rest_new cfg uuid ds hash total peers now1 now2 :
  is_i64 total -> (0 <= i64 (total + 7) `quot` 8)%Z ->
  rest_ok cfg (new_download uuid ds hash total (Z.to_nat (i64 (total + 7) `quot` 8)) peers now1 now2).
Proof.
  intros Hi Hn. set (d := new_download _ _ _ _ _ _ _ _).
  assert (full_bitmap d) as Hb.
  { unfold full_bitmap, d. simpl. rewrite length_replicate, Z2Nat.id by done.
    pose proof (quot_roundup total Hi). destruct (Z.le_gt_cases 0 total); lia. }
  destruct (Z.le_gt_cases 0 total) as [Ht|Ht].
  - apply rest_download_ok; [by eapply zero_bitmap_ok|done].
  - split; [|simpl; lia]. split; [done|..].
    + intros j. simpl. by rewrite zero_bitmap_bit.
    + intros _ j. simpl. lia.
Qed.

Lemma same_status d s now e : same_chunks d (set_status d s now e).
Proof. done. Qed.

Lemma upd_status_inv tm l d s now e :
  tm_inv tm -> tm_heap tm !! l = Some d -> tm_inv (upd_heap tm l (set_status d s now e)).
Proof.
  intros Hi Hl. apply (caller_inv tm); try done.
  - intros l' d0 Hl'. simpl. destruct (decide (l = l')) as [<-|Hne].
    + simplify_eq. eexists. split; [apply list_lookup_insert_eq; by eapply lookup_lt_Some|done].
    + exists d0. by rewrite list_lookup_insert_ne.
  - intros l' d' Hl' Hn. simpl in Hl'. apply lookup_lt_Some in Hl'. rewrite length_insert in Hl'.
    apply lookup_ge_None in Hn. lia.
  - apply Forall2_same. by left.
Qed.

Lemma new_object_inv tm d :
  tm_inv tm -> rest_ok (tm_cfg tm) d ->
  let tm' := mkTM (tm_cfg tm) (tm_stopped tm) (tm_downloads tm) (tm_ads tm) (tm_heap tm ++ [d])
               (tm_events tm) in
  tm_inv tm' /\ tm_heap tm' !! length (tm_heap tm) = Some d /\ no_run tm' (length (tm_heap tm)).
Proof.
  intros Hi Hd tm'. split_and!.
  - apply (caller_inv tm); try done.
    + intros l d0 Hl. exists d0. split; [by apply lookup_app_l_Some|done].
    + intros l d' [?|[_ Hs]]%lookup_app_Some Hn; [congruence|].
      by apply list_lookup_singleton_Some in Hs as [_ <-].
    + apply Forall2_same. by left.
  - by apply list_lookup_middle.
  - intros k ad Hk Hl. destruct (inv_ads _ Hi k ad Hk) as (d0 & Hd0 & _).
    rewrite Hl in Hd0. apply lookup_lt_Some in Hd0. lia.
Qed.

Lemma cancelled_inv tm tm' k ad :
  tm_inv tm -> tm_ads tm !! k = Some ad -> tm_cfg tm' = tm_cfg tm ->
  tm_stopped tm' = tm_stopped tm -> tm_heap tm' = tm_heap tm ->
  tm_ads tm' = <[k := set_cancelled ad]> (tm_ads tm) -> tm_inv tm'.
Proof.
  intros Hi Hk Hc Hs Hh Ha. apply (caller_inv tm); try done.
  - by rewrite Hs.
  - intros l d Hl. exists d. by rewrite Hh.
  - intros l d Hl Hn. congruence.
  - rewrite Ha. apply Forall2_same_length_lookup_2; [by rewrite length_insert|].
    intros i x y Hx [(<- & <- & _)|[_ Hy]]%list_lookup_insert_Some.
    + right. congruence.
    + left. congruence.
Qed.

(** ** The steps keep it *)

Lemma run_start_inv tm k ad d now :
  tm_inv tm -> tm_ads tm !! k = Some ad -> ad_phase ad = Starting ->
  tm_heap tm !! ad_download ad = Some d -> tm_inv (run_start tm k ad d now).
Proof.
  intros Hi Hk Hp Hd.
  assert (unfinished ad) as Hu by (unfold unfinished; by rewrite Hp).
  assert (rest_ok (tm_cfg tm) d) as Hrest.
  { eapply (inv_rest _ Hi); [exact Hd|]. intros k' ad' Hk' Hl. destruct (working ad') eqn:E; [|done].
    assert (k' = k) as -> by (eapply (inv_once _ Hi); eauto using working_unfinished).
    rewrite Hk in Hk'. simplify_eq. unfold working in E. by rewrite Hp in E. }
  unfold run_start. destruct (MissingChunks d) as [|i missing] eqn:Hm.
  - eapply (run_inv tm _ k ad (set_phase ad Finished) d
      (set_status d DownloadStatusCompleted now (Download_Error d))); try done.
    by apply (rest_same _ d).
  - eapply (run_inv tm _ k ad (set_phase ad _) d d); try done.
    { simpl. symmetry. by apply list_insert_id. }
    simpl. rewrite <- Hm in *.
    assert (forall j, j ∈ todo (MissingChunks d) [] <-> j ∈ MissingChunks d) as Htodo
      by (intros j; unfold todo; by rewrite app_nil_r).
    assert (0 < Download_TotalChunks d)%Z as Ht.
    { assert (i ∈ MissingChunks d) as Hin by (rewrite Hm; set_solver).
      apply elem_of_MissingChunks in Hin. lia. }
    split; try done.
    + apply Hrest.
    + unfold todo. rewrite app_nil_r. apply NoDup_ListNoDup, List.NoDup_filter, NoDup_ListNoDup, NoDup_seqZ.
    + intros j Hj%Htodo. by apply elem_of_MissingChunks.
    + by intros t ?%elem_of_nil.
    + intros _ Hc Hne. simpl. unfold workerCount. destruct (length (MissingChunks d)) eqn:El.
      * by apply length_zero_iff_nil in El.
      * case_match; lia.
    + intros Hone. unfold one_worker in Hone. simpl. split.
      * unfold workerCount. rewrite Hone. case_match; [|lia].
        match goal with E : (_ <? _)%Z = true |- _ => apply Z.ltb_lt in E end. lia.
      * apply (rest_count _ _ Hrest); [done|lia].
    + intros _ _ _ j Hj. left. by apply Htodo.
Qed.

Lemma run_finish_inv tm k ad d work now err :
  tm_inv tm -> tm_ads tm !! k = Some ad -> ad_phase ad = Working work 0 [] ->
  tm_heap tm !! ad_download ad = Some d -> tm_inv (run_finish tm k ad d now err).
Proof.
  intros Hi Hk Hp Hd.
  assert (unfinished ad) as Hu by (unfold unfinished; by rewrite Hp).
  assert (rest_ok (tm_cfg tm) d) as Hrest.
  { destruct (inv_ads _ Hi k ad Hk) as (d0 & Hd0 & Hw). rewrite Hp in Hw. simplify_eq.
    split; [apply Hw|]. intros Hone _. apply (w_alone _ _ _ _ _ _ _ Hw Hone). }
  set (d' := if Download_IsComplete d then set_status d DownloadStatusCompleted now (Download_Error d)
             else if ctx_done tm ad then d
             else set_status d DownloadStatusFailed now (failure_text d err)).
  assert (same_chunks d d') as Hsame by (unfold d'; by repeat case_match).
  eapply (run_inv tm _ k ad (set_phase ad Finished) d d'); try done;
    try (unfold run_finish; by repeat case_match).
  - unfold run_finish, d'. destruct (Download_IsComplete d); [done|].
    destruct (ctx_done tm ad); [|done]. simpl. symmetry. by apply list_insert_id.
  - by apply (rest_same _ d).
Qed.

Lemma fetch_inv tm k ad d i fetch work idle busy1 busy2 :
  tm_inv tm -> tm_ads tm !! k = Some ad ->
  ad_phase ad = Working work idle (busy1 ++ Fetching i :: busy2) ->
  tm_heap tm !! ad_download ad = Some d ->
  work_inv (tm_cfg tm) (ctx_done tm ad) (ad_chunkErrors ad) d work idle
    (busy1 ++ Fetching i :: busy2) ->
  tm_inv (worker_fetch tm k ad d i fetch work idle busy1 busy2).
Proof.
  intros Hi Hk Hp Hd Hw.
  assert (unfinished ad) as Hu by (unfold unfinished; by rewrite Hp).
  assert (tm_heap tm = <[ad_download ad:=d]> (tm_heap tm)) as Hid by (symmetry; by apply list_insert_id).
  unfold worker_fetch. destruct (download_attempts _ _ _ _ _ _ _) as [c|e] eqn:Ha.
  - eapply (run_inv tm _ k ad); try done. by apply work_load.
  - eapply (run_inv tm _ k ad); try done; [by destruct e|]. simpl.
    eapply (work_err _ _ (ad_chunkErrors ad) _ i); [..|by destruct e].
    + intros j Hj. destruct e as [e|]; [|done]. simpl.
      destruct (decide (i = j)) as [->|]; [rewrite lookup_insert_eq; by eexists|].
      by rewrite lookup_insert_ne.
    + intros Hret. apply download_attempts_Err in Ha; [|left; lia]. destruct e as [e|]; [|done].
      simpl. rewrite lookup_insert_eq. by eexists.
Qed.

Lemma tm_step_inv tm tm' : tm_step tm tm' -> tm_inv tm -> tm_inv tm'.
Proof.
  intros Hstep Hi. destruct Hstep as [tm d Hd Hb|tm uuid now1 now2 ds hash total peers l tm' Ht Hs
    |tm l d peers now Hl Hn|tm id now tm' Hp|tm id|tm|tm k ad d now Hk Hp Hd
    |tm k ad i work idle busy Hk Hp Hc|tm k ad i work idle busy Hk Hp Hc|tm k ad idle busy Hk Hp
    |tm k ad d work idle busy1 i busy2 fetch Hk Hp Hd|tm k ad d work idle busy1 i c r busy2 Hk Hp Hd
    |tm k ad d work idle busy1 i c b count busy2 now Hk Hp Hd|tm k ad d work now err Hk Hp Hd He].
  all: try (destruct (inv_ads _ Hi k ad Hk) as (d' & Hd' & Hw); rewrite Hp in Hw; simplify_eq).
  all: try (assert (unfinished ad) as Hu by (unfold unfinished; by rewrite Hp)).
  - by apply new_object_inv, rest_download_ok.
  - unfold StartDownload in Hs. go_cases; [done|].
    destruct (new_object_inv tm (new_download uuid ds hash total
      (Z.to_nat (i64 (total + 7) `quot` 8)) peers now1 now2) Hi) as (Hi' & Hl & Hno).
    { apply rest_new; [done|]. lia. }
    by apply launch_inv.
  - unfold ResumeDownload. case_match; [done|]. apply launch_inv; [by apply upd_status_inv| |done].
    simpl. apply lookup_lt_is_Some. rewrite length_insert. by eapply lookup_lt_Some.
  - unfold PauseDownload in Hp. destruct (tm_downloads tm !! id) as [k|]; [|done].
    destruct (tm_ads tm !! k) as [ad|] eqn:Hk; simplify_eq; [|done].
    assert (tm_inv (upd_ad tm k (set_cancelled ad))) as Hi' by by eapply cancelled_inv.
    case_match; simplify_eq; [|done]. by apply upd_status_inv.
  - unfold CancelDownload. repeat case_match; try done. by eapply cancelled_inv.
  - apply (caller_inv tm); try done.
    + intros l d Hl. by exists d.
    + intros l d Hl Hn. simpl in Hl. congruence.
    + apply Forall2_same. by left.
  - by apply run_start_inv.
  - eapply (run_inv tm _ k ad _ d' d'); try done; [simpl; symmetry; by apply list_insert_id|].
    simpl. by eapply work_quit.
  - eapply (run_inv tm _ k ad _ d' d'); try done; [simpl; symmetry; by apply list_insert_id|].
    simpl. by apply work_take.
  - eapply (run_inv tm _ k ad _ d' d'); try done; [simpl; symmetry; by apply list_insert_id|].
    simpl. by apply work_end.
  - by eapply fetch_inv.
  - eapply (run_inv tm _ k ad); try done. by eapply work_store.
  - unfold worker_count. destruct (Download_ChunkBitmap _ !! b) eqn:Eb.
    + eapply (run_inv tm _ k ad); try done; [simpl; symmetry; by apply list_insert_id|].
      by apply work_count.
    + eapply (run_inv tm _ k ad); try done. by eapply work_write.
  - by eapply run_finish_inv.
Qed.

Lemma NewTransferManager_inv cfg : tm_inv (NewTransferManager cfg).
Proof. split; simpl; intros; by try rewrite lookup_nil in *. Qed.

Lemma reachable_inv cfg tm : reachable cfg tm -> tm_inv tm /\ tm_cfg tm = cfg.
Proof.
  assert (forall tm tm', tm_step tm tm' -> tm_cfg tm' = tm_cfg tm) as Hcfg.
  { intros s s' Hs. destruct Hs; try done.
    - unfold StartDownload in *. by go_cases.
    - unfold ResumeDownload. by case_match.
    - unfold PauseDownload in *. by go_cases.
    - unfold CancelDownload. by repeat case_match.
    - unfold run_start. by case_match.
    - unfold worker_fetch. by repeat case_match; simplify_eq.
    - unfold worker_count. by repeat case_match.
    - unfold run_finish. by repeat case_match. }
  intros Hr. unfold reachable in Hr.
  apply (rtc_ind_r (R := tm_step) (fun s => tm_inv s /\ tm_cfg s = cfg) (NewTransferManager cfg)); [|..|exact Hr].
  - split; [apply NewTransferManager_inv|done].
  - intros s s' _ Hs [Hi Hc]. split; [by eapply tm_step_inv|]. by rewrite (Hcfg _ _ Hs).
Qed.

(** ** Theorems *)

Lemma reachable_chunks_ok cfg tm l d :
  reachable cfg tm -> tm_heap tm !! l = Some d -> chunks_ok d.
Proof.
  intros Hr Hl. destruct (reachable_inv _ _ Hr) as [Hi _].
  destruct (decide (Exists (fun ad => ad_download ad = l /\ working ad = true) (tm_ads tm))) as [He|Hne].
  - apply Exists_exists in He as (ad & Hin & Heq & Hw). apply list_elem_of_lookup in Hin as [k Hk].
    destruct (inv_ads _ Hi k ad Hk) as (d0 & Hd0 & Hp). unfold working in Hw.
    destruct (ad_phase ad); try done. assert (d0 = d) as -> by congruence. apply Hp.
  - eapply rest_chunks, (inv_rest _ Hi); [exact Hl|]. intros k ad Hk Heq.
    destruct (working ad) eqn:E; [|done]. destruct Hne. apply Exists_exists. exists ad.
    split; [by eapply list_elem_of_lookup_2|done].
Qed.

Lemma transfer_complete cfg tm l d (Hr : reachable cfg tm)
    (Hl : tm_heap tm !! l = Some d) :
  (Download_IsComplete d = true -> MissingChunks d = []) /\
  (forall i, IsChunkCompleted d i = true -> (0 <= i < Download_TotalChunks d)%Z).
Proof.
  destruct (reachable_chunks_ok _ _ _ _ Hr Hl) as [_ Hb Hc]. split.
  - unfold Download_IsComplete. rewrite andb_true_iff, Z.leb_le. intros [Hle _].
    by apply MissingChunks_nil, Hc.
  - intros i. rewrite IsChunkCompleted_bit. destruct (Z.ltb_spec i 0); [done|].
    intros Hi%Hb. lia.
Qed.

(** At any moment, also while workers are in the middle of their unsynchronised
    updates, a download that reports itself complete has all its chunks, and
    its bitmap has no bit beyond the last one. *)
Theorem transfer_objects_ok cfg tm l d (Hr : reachable cfg tm)
    (Hl : tm_heap tm !! l = Some d) :
  (Download_IsComplete d = true -> MissingChunks d = []) /\
  (forall i, IsChunkCompleted d i = true -> (0 <= i < Download_TotalChunks d)%Z).
Proof. by eapply transfer_complete. Qed.

Lemma finish_heap tm k ad d now err :
  tm_heap tm !! ad_download ad = Some d -> ctx_done tm ad = false ->
  tm_heap (run_finish tm k ad d now err) !! ad_download ad =
  Some (if Download_IsComplete d then set_status d DownloadStatusCompleted now (Download_Error d)
        else set_status d DownloadStatusFailed now (failure_text d err)).
Proof.
  intros Hd Hc. apply lookup_lt_Some in Hd. unfold run_finish. rewrite Hc.
  destruct (Download_IsComplete d); simpl; by apply list_lookup_insert_eq.
Qed.

(** With one worker the counter is right, and a chunk that is still missing has
    an error. *)
Lemma finished_run cfg tm k ad d work :
  reachable cfg tm -> tm_ads tm !! k = Some ad -> ad_phase ad = Working work 0 [] ->
  tm_heap tm !! ad_download ad = Some d -> ctx_done tm ad = false ->
  TransferConfig_MaxConcurrentChunks cfg = 1%Z -> (0 < TransferConfig_MaxRetries cfg)%Z ->
  (MissingChunks d = [] -> Download_IsComplete d = true) /\
  (forall i, i ∈ MissingChunks d -> is_Some (ad_chunkErrors ad !! i)).
Proof.
  intros Hr Hk Hp Hd Hc Hone Hret. destruct (reachable_inv _ _ Hr) as [Hi Hcfg].
  destruct (inv_ads _ Hi k ad Hk) as (d0 & Hd0 & Hw). rewrite Hp, Hcfg, Hc in Hw. simplify_eq.
  destruct Hw as [Hch Ht _ _ _ Hwk Ha Hm]. destruct (Ha Hone) as [_ Hcount]. simpl in Hcount.
  assert (work = []) as ->.
  { destruct work; [done|]. specialize (Hwk eq_refl ltac:(unfold one_worker in *; lia) ltac:(done)).
    simpl in Hwk. lia. }
  split.
  - intros Hnil. eapply IsComplete_iff; [|done]. split; [lia|apply Hch|done].
  - intros i Hin. by destruct (Hm Hone eq_refl Hret i Hin) as [[]%elem_of_nil|?].
Qed.

(** C1: when the workers of a download that nobody cancelled have returned,
    [runDownload] takes it out of the table of active ones and marks it
    completed or failed.  Completed is marked only if no chunk is missing, in
    whatever order the workers read and wrote the shared bitmap and counter;
    a failed download has the text of one of the recorded errors, or its old
    text if there are none.  With one worker per download and at least one
    attempt per chunk a failed download does miss a chunk, every missing chunk
    has its error recorded, and the text is that of one of them.  Downloads
    brought in from outside are consistent and have their whole bitmap, and
    none is resumed while a run of it is still ending. *)
Theorem runDownload_outcome cfg tm k ad d work now err
    (Hr : reachable cfg tm)
    (Hk : tm_ads tm !! k = Some ad) (Hp : ad_phase ad = Working work 0 [])
    (Hd : tm_heap tm !! ad_download ad = Some d) (Hc : ctx_done tm ad = false)
    (He : first_entry (ad_chunkErrors ad) err) :
  let tm' := run_finish tm k ad d now err in
  let text i e := ("chunk " +:+ pretty i +:+ ": " +:+ error_text e)%string in
  tm_downloads tm' !! Download_ID d = None /\
  exists d', tm_heap tm' !! ad_download ad = Some d' /\
    ((Download_Status d' = DownloadStatusCompleted /\ MissingChunks d' = []) \/
     (Download_Status d' = DownloadStatusFailed /\
      ((exists i e, ad_chunkErrors ad !! i = Some e /\ Download_Error d' = text i e) \/
       (ad_chunkErrors ad = ∅ /\ Download_Error d' = Download_Error d)))) /\
    (TransferConfig_MaxConcurrentChunks cfg = 1%Z -> (0 < TransferConfig_MaxRetries cfg)%Z ->
     Download_Status d' = DownloadStatusFailed ->
     MissingChunks d' <> [] /\
     (forall i, i ∈ MissingChunks d' -> is_Some (ad_chunkErrors ad !! i)) /\
     exists i e, ad_chunkErrors ad !! i = Some e /\ Download_Error d' = text i e).
Proof.
  cbv zeta. split.
  { unfold run_finish. simpl. rewrite Hc. apply lookup_delete_eq. }
  rewrite finish_heap by done. eexists. split; [done|].
  destruct (transfer_complete _ _ _ _ Hr Hd) as [Hcomp _].
  destruct (Download_IsComplete d) eqn:Hic; [split; [left; by split; [|apply Hcomp]|done]|].
  split.
  - right. split; [done|]. destruct err as [[i e]|]; simpl in *; [left; by exists i, e|by right].
  - intros Hone Hret _. destruct (finished_run _ _ _ _ _ _ Hr Hk Hp Hd Hc Hone Hret) as [Hcm Hall].
    assert (MissingChunks d <> []) as Hne by (intros Hnil; specialize (Hcm Hnil); congruence).
    split; [done|]. split; [done|]. destruct err as [[i e]|]; simpl in *; [by exists i, e|].
    exfalso. destruct (MissingChunks d) as [|i l]; [done|].
    destruct (Hall i ltac:(set_solver)) as [e Hie]. rewrite He in Hie. by rewrite lookup_empty in Hie.
Qed.

(** [downloadChunk] succeeds exactly when it has a peer to ask and one of
    its [MaxRetries] attempts brings a chunk whose content has the hash the
    chunk states; it then marks the chunk in the shared download and calls
    back with a verified chunk.  Otherwise nothing is marked.  This is the call on its
    own: the next theorem relates it to the steps. *)
Theorem downloadChunk_spec tm ad d i fetch now
    (Hret : (0 < TransferConfig_MaxRetries (tm_cfg tm))%Z)
    (Hd : tm_heap tm !! ad_download ad = Some d) :
  let peerID := selectPeer (tm_cfg tm) ad i in
  ((downloadChunk tm ad i fetch now).2 = None <->
     peerID <> ""%string /\
     exists k c, k < Z.to_nat (TransferConfig_MaxRetries (tm_cfg tm)) /\
       fetch k peerID = Ok (Some c) /\ verifyChunk (Some c) = true) /\
  match (downloadChunk tm ad i fetch now).2 with
  | Some _ => (downloadChunk tm ad i fetch now).1 = tm
  | None => exists c, verifyChunk (Some c) = true /\
      (downloadChunk tm ad i fetch now).1 =
      emit (upd_heap tm (ad_download ad) (touch (SetChunkCompleted d i) now))
        (OnChunkReceived (ad_download ad) i c)
  end.
Proof.
  cbv zeta. unfold downloadChunk. destruct (download_attempts _ _ _ _ _ _ _) as [c|e] eqn:Ha.
  - rewrite Hd. simpl. pose proof (download_attempts_Ok _ _ _ _ _ _ _ _ Ha) as (Hv & k & Hf & Hk).
    split; [|by exists c]. split; [|done]. intros _. split; [|exists k, c; split_and!; [lia|done..]].
    destruct (Z.to_nat _) as [|n]; [done|]. cbn [download_attempts] in Ha.
    by case_bool_decide.
  - simpl. assert (e <> None) as He by (eapply download_attempts_Err; [|exact Ha]; left; lia).
    destruct e as [e|]; [|done]. split; [|done]. split; [done|].
    intros (Hp & k & c & Hk & Hf & Hv).
    destruct (download_attempts_good _ _ _ _ (Z.to_nat (TransferConfig_MaxRetries (tm_cfg tm)))
                0 None _ _ Hp (conj (Nat.le_0_l k) Hk) Hf Hv) as [c' Hc']. congruence.
Qed.

(** A download that is still in the table cannot be resumed: right after a
    pause [ResumeDownload] reports success and does nothing, while the
    workers go on stopping. *)
Theorem resume_after_pause_is_lost tm id now tm' l d peers now'
    (Hp : PauseDownload tm id now = Ok tm') (Hid : Download_ID d = id) :
  ResumeDownload tm' l d peers now' = tm' /\
  (forall k ad, tm_downloads tm' !! id = Some k -> tm_ads tm' !! k = Some ad ->
     ad_cancelled ad = true).
Proof.
  unfold PauseDownload in Hp. destruct (tm_downloads tm !! id) as [k|] eqn:Hk; [|done].
  assert (tm_downloads tm' = tm_downloads tm) as Hdl by by go_cases.
  split; [unfold ResumeDownload; by rewrite Hid, Hdl, Hk|].
  intros k' ad' Hk' Had'. rewrite Hdl, Hk in Hk'. simplify_eq.
  destruct (tm_ads tm !! k') as [ad|] eqn:Had; simplify_eq.
  assert (tm_ads tm' !! k' = Some (set_cancelled ad)) as Heq; [|by rewrite Heq in Had'; simplify_eq].
  apply lookup_lt_Some in Had. go_cases; simpl; by apply list_lookup_insert_eq.
Qed.
(** Counting the rest of the bitmap, without interruption. *)
Lemma count_alone n tm k ad d i c count now work idle busy1 busy2 b :
  length (Download_ChunkBitmap d) = b + n ->
  tm_ads tm !! k = Some (set_phase ad (Working work idle (busy1 ++ Counting i c b count :: busy2))) ->
  tm_heap tm !! ad_download ad = Some d ->
  rtc tm_step tm
    (upd_ad (emit (upd_heap tm (ad_download ad)
       (touch (store_count d (fold_left (fun count v => count_byte v count)
                 (drop b (Download_ChunkBitmap d)) count)) now))
       (OnChunkReceived (ad_download ad) i c)) k
       (set_phase ad (Working work (S idle) (busy1 ++ busy2)))).
Proof.
  revert tm b count. induction n as [|n IH]; intros tm b count Hlen Hk Hd.
  - apply rtc_once. pose proof (step_worker_count tm k _ d work idle busy1 i c b count busy2 now
      Hk eq_refl Hd) as Hs.
    unfold worker_count in Hs. rewrite lookup_ge_None_2 in Hs by lia. by rewrite drop_ge by lia.
  - destruct (lookup_lt_is_Some_2 (Download_ChunkBitmap d) b) as [v Hv]; [lia|].
    pose proof (step_worker_count tm k _ d work idle busy1 i c b count busy2 now Hk eq_refl Hd) as Hs.
    unfold worker_count in Hs. rewrite Hv in Hs. eapply rtc_l; [exact Hs|].
    rewrite (drop_S _ v) by done. cbn [fold_left].
    match goal with
    | |- rtc _ ?tm1 _ => pose proof (IH tm1 (S b) (count_byte v count) ltac:(lia)) as Hrest
    end.
    simpl in Hrest. rewrite list_lookup_insert_eq in Hrest by by eapply lookup_lt_Some.
    specialize (Hrest eq_refl Hd). unfold upd_ad, emit, upd_heap in *. simpl in Hrest.
    by rewrite list_insert_insert_eq in Hrest.
Qed.

Lemma marked_alone d i :
  (0 <= i)%Z -> Z.to_nat i / 8 < length (Download_ChunkBitmap d) ->
  let d1 := store_chunk_byte d (load_chunk_byte d i) in
  store_count d1 (count_bytes (Download_ChunkBitmap d1)) = SetChunkCompleted d i.
Proof.
  intros Hi Hlen d1. pose proof (load_store d i Hi Hlen) as Hb. fold d1 in Hb.
  unfold store_count. rewrite Hb. unfold SetChunkCompleted.
  destruct (Z.ltb_spec i 0); [lia|]. reflexivity.
Qed.

(** A worker nobody interferes with takes its chunk through the steps of
    [tm_step] to the state that [downloadChunk] computes in one go, with the
    error recorded if there is one. *)
Theorem worker_alone_downloads tm k ad d i fetch now work idle busy1 busy2
    (Hk : tm_ads tm !! k = Some ad)
    (Hp : ad_phase ad = Working work idle (busy1 ++ Fetching i :: busy2))
    (Hd : tm_heap tm !! ad_download ad = Some d)
    (Hi : (0 <= i < Download_TotalChunks d)%Z) (Hb : full_bitmap d) :
  let res := downloadChunk tm ad i fetch now in
  rtc tm_step tm
    (upd_ad res.1 k (set_phase
       match res.2 with
       | Some e => set_errors ad (<[i := e]> (ad_chunkErrors ad))
       | None => ad
       end (Working work (S idle) (busy1 ++ busy2)))).
Proof.
  cbv zeta. pose proof (step_worker_fetch tm k ad d work idle busy1 i busy2 fetch Hk Hp Hd) as Hs.
  assert (Z.to_nat i / 8 < length (Download_ChunkBitmap d)) as Hlen.
  { unfold full_bitmap in Hb. apply Nat.Div0.div_lt_upper_bound. lia. }
  pose proof (lookup_lt_Some _ _ _ Hk) as Hkl. pose proof (lookup_lt_Some _ _ _ Hd) as Hdl.
  unfold worker_fetch, downloadChunk in *.
  destruct (download_attempts _ _ _ _ _ _ _) as [c|e]; [|by apply rtc_once].
  rewrite Hd. eapply rtc_l; [exact Hs|]. set (r := load_chunk_byte d i).
  set (ad1 := set_phase ad _). set (tm1 := upd_ad tm k ad1).
  assert (tm_ads tm1 !! k = Some ad1) as Hk1 by by apply list_lookup_insert_eq.
  pose proof (step_worker_store tm1 k ad1 d work idle busy1 i c r busy2 Hk1 eq_refl Hd) as Hst.
  eapply rtc_l; [exact Hst|]. set (tm2 := worker_store _ _ _ _ _ _ _ _ _ _ _).
  pose proof (count_alone (length (Download_ChunkBitmap (store_chunk_byte d r))) tm2 k ad1
    (store_chunk_byte d r) i c 0 now work idle busy1 busy2 0 eq_refl) as Hcount.
  rewrite drop_0 in Hcount. change (fold_left _ ?l 0%Z) with (count_bytes l) in Hcount.
  pose proof (marked_alone d i ltac:(lia) Hlen) as Hm. cbv zeta in Hm. fold r in Hm.
  rewrite Hm in Hcount.
  unfold tm2, worker_store, tm1, upd_ad, emit, upd_heap in *. simpl in *.
  rewrite !list_insert_insert_eq in *. apply Hcount; apply list_lookup_insert_eq; done.
Qed.

End steps.

(** ** A run: one chunk, one worker, a peer that fails *)

Definition run_cfg : TransferConfig := mkTransferConfig 1024 1 Second 2 true.
Definition run_fetch : fetcher := fun _ _ => Err (ErrFetch "timeout").
Definition run_ad (errs : gmap Z TransferError) (p : phase) : activeDownload :=
  mkActive 0 ["peer"%string] false errs p.
Definition run_obj : Download := new_download "id" "ds" "h" 1 1 ["peer"%string] 7 8.
Definition run_errs : gmap Z TransferError := {[ 0%Z := ErrFetch "timeout" ]}.
Definition run_tm (errs : gmap Z TransferError) (p : phase) : TransferManager :=
  mkTM run_cfg false {[ "id"%string := 0 ]} [run_ad errs p] [run_obj] [].

Section run.
Existing Instance toy_crypto.

Lemma run_reachable : reachable run_cfg (run_tm run_errs (Working [] 0 [])).
Proof.
  unfold reachable. transitivity (run_tm ∅ Starting).
  { apply rtc_once.
    apply (step_start (NewTransferManager run_cfg) "id" 7 8 "ds" "h" 1 ["peer"%string] 0);
      [unfold is_i64; lia|reflexivity]. }
  eapply rtc_l; [eapply (step_run_start (run_tm ∅ Starting) 0 (run_ad ∅ Starting) run_obj 9); done|].
  eapply rtc_l; [eapply (step_worker_takes (run_tm ∅ (Working [0%Z] 1 [])) 0); done|].
  eapply rtc_l;
    [eapply (step_worker_fetch (run_tm ∅ (Working [] 0 [Fetching 0])) 0 _ run_obj [] 0 [] 0%Z []
               run_fetch); done|].
  eapply rtc_l; [eapply (step_worker_ends (run_tm run_errs (Working [] 1 [])) 0); done|].
  apply rtc_refl.
Qed.

Lemma transfer_objects_ok_witness : Download_IsComplete run_obj = true -> MissingChunks run_obj = [].
Proof.
  apply (transfer_objects_ok run_cfg (run_tm run_errs (Working [] 0 [])) 0);
    [exact run_reachable|reflexivity].
Defined.

Lemma runDownload_outcome_witness :
  exists d', tm_heap (run_finish (run_tm run_errs (Working [] 0 [])) 0
               (run_ad run_errs (Working [] 0 [])) run_obj 11
               (Some (0%Z, ErrFetch "timeout"))) !! 0 = Some d' /\
    Download_Status d' = DownloadStatusFailed /\ Download_Error d' = "chunk 0: timeout"%string /\
    is_Some (run_errs !! 0%Z).
Proof.
  pose proof (runDownload_outcome run_cfg (run_tm run_errs (Working [] 0 [])) 0
    (run_ad run_errs (Working [] 0 [])) run_obj [] 11 (Some (0%Z, ErrFetch "timeout"))
    run_reachable eq_refl eq_refl eq_refl eq_refl eq_refl) as (_ & d' & Hd' & _ & Hone).
  exists d'. split; [exact Hd'|]. simpl in Hd'. simplify_eq.
  destruct (Hone eq_refl ltac:(simpl; lia) eq_refl) as (_ & Herr & _).
  split; [done|]. split; [done|]. apply Herr. vm_compute. left.
Defined.

Lemma downloadChunk_spec_witness :
  (downloadChunk (run_tm ∅ (Working [] 0 [Fetching 0])) (run_ad ∅ (Working [] 0 [Fetching 0])) 0 run_fetch 3).1 =
  run_tm ∅ (Working [] 0 [Fetching 0]).
Proof.
  exact (proj2 (downloadChunk_spec (run_tm ∅ (Working [] 0 [Fetching 0])) (run_ad ∅ (Working [] 0 [Fetching 0]))
           run_obj 0 run_fetch 3 ltac:(simpl; lia) eq_refl)).
Defined.

Lemma resume_after_pause_is_lost_witness :
  exists tm', PauseDownload (run_tm ∅ (Working [] 0 [Fetching 0])) "id" 4 = Ok tm' /\
    ResumeDownload tm' 0 run_obj ["peer"%string] 5 = tm'.
Proof.
  eexists. split; [reflexivity|].
  apply (resume_after_pause_is_lost (run_tm ∅ (Working [] 0 [Fetching 0])) "id" 4); reflexivity.
Defined.

Lemma worker_alone_downloads_witness :
  rtc tm_step (run_tm ∅ (Working [] 0 [Fetching 0])) (run_tm run_errs (Working [] 1 [])).
Proof.
  exact (worker_alone_downloads (run_tm ∅ (Working [] 0 [Fetching 0])) 0
    (run_ad ∅ (Working [] 0 [Fetching 0])) run_obj 0 run_fetch 10 [] 0 [] []
    eq_refl eq_refl eq_refl ltac:(simpl; lia) ltac:(unfold full_bitmap; simpl; lia)).
Defined.

(** A download with nothing to fetch (here one of no chunks) is completed
    without leaving the table of active downloads: the finished download is
    returned to every later request for the same content, and it can be
    neither resumed nor fetched again. *)
Theorem nothing_missing_stays_active :
  exists tm k ad d, reachable run_cfg tm /\
    tm_downloads tm !! Download_ID d = Some k /\ tm_ads tm !! k = Some ad /\
    ad_phase ad = Finished /\ tm_heap tm !! ad_download ad = Some d /\
    Download_Status d = DownloadStatusCompleted /\ Download_IsComplete d = false /\
    (forall uuid now1 now2 ds total peers,
       StartDownload tm uuid now1 now2 ds (Download_DatasetHash d) total peers =
       Ok (ad_download ad, tm)) /\
    (forall peers now, ResumeDownload tm (ad_download ad) d peers now = tm).
Proof.
  set (d0 := new_download "id" "ds" "h" 0 0 ["peer"%string] 7 8).
  set (ad0 := run_ad ∅ Starting).
  set (tm0 := mkTM run_cfg false {[ "id"%string := 0 ]} [ad0] [d0] []).
  exists (run_start tm0 0 ad0 d0 9), 0, (run_ad ∅ Finished),
    (set_status d0 DownloadStatusCompleted 9 "").
  split_and!; try reflexivity.
  unfold reachable. transitivity tm0.
  - apply rtc_once.
    apply (step_start (NewTransferManager run_cfg) "id" 7 8 "ds" "h" 0 ["peer"%string] 0);
      [unfold is_i64; lia|reflexivity].
  - apply rtc_once. apply step_run_start; reflexivity.
Qed.

(** *** Two chunks of one byte, two workers *)

Definition race_cfg : TransferConfig := mkTransferConfig 1024 2 Second 2 true.
Definition race_chunk : Chunk :=
  mkChunk "c" "ds" "" 0 (EncodeToString (sha256_Sum256 [97%Z])) 1 ChunkStatusVerified "" [97%Z].
Definition race_fetch : fetcher := fun _ _ => Ok (Some race_chunk).

(** Both workers read the byte before either writes it back: both chunks
    arrive and are called back, no error is recorded, and chunk 0 is missing.
    The download is marked failed without a text. *)
Theorem parallel_chunks_lost_update :
  exists tm ad d, reachable race_cfg tm /\
    tm_ads tm !! 0 = Some ad /\ ad_phase ad = Working [] 0 [] /\ ad_chunkErrors ad = ∅ /\
    tm_events tm = [OnChunkReceived 0 0 race_chunk; OnChunkReceived 0 1 race_chunk] /\
    tm_heap tm !! 0 = Some d /\ MissingChunks d = [0%Z] /\
    (exists d', tm_heap (run_finish tm 0 ad d 30 None) !! 0 = Some d' /\
       Download_Status d' = DownloadStatusFailed /\ Download_Error d' = ""%string).
Proof.
  eexists _, _, _. split.
  { unfold reachable. eapply rtc_l.
    { apply (step_start (NewTransferManager race_cfg) "id" 7 8 "ds" "h" 2 ["peer"%string] 0);
        [unfold is_i64; lia|reflexivity]. }
    eapply rtc_l; [eapply (step_run_start _ 0 _ _ 9); reflexivity|].
    eapply rtc_l; [eapply (step_worker_takes _ 0); reflexivity|].
    eapply rtc_l; [eapply (step_worker_takes _ 0); reflexivity|].
    eapply rtc_l; [eapply (step_worker_fetch _ 0 _ _ [] 0 [] 1 [Fetching 0] race_fetch); reflexivity|].
    eapply rtc_l; [eapply (step_worker_fetch _ 0 _ _ [] 0 [Storing 1 _ _] 0 [] race_fetch); reflexivity|].
    eapply rtc_l; [eapply (step_worker_store _ 0 _ _ [] 0 [Storing 1 _ _] 0 _ _ []); reflexivity|].
    eapply rtc_l; [eapply (step_worker_store _ 0 _ _ [] 0 [] 1 _ _ [Counting 0 _ _ _]); reflexivity|].
    eapply rtc_l; [eapply (step_worker_count _ 0 _ _ [] 0 [Counting 1 _ _ _] 0 _ _ _ [] 20); reflexivity|].
    eapply rtc_l; [eapply (step_worker_count _ 0 _ _ [] 0 [Counting 1 _ _ _] 0 _ _ _ [] 20); reflexivity|].
    eapply rtc_l; [eapply (step_worker_count _ 0 _ _ [] 1 [] 1 _ _ _ [] 21); reflexivity|].
    eapply rtc_l; [eapply (step_worker_count _ 0 _ _ [] 1 [] 1 _ _ _ [] 21); reflexivity|].
    eapply rtc_l; [eapply (step_worker_ends _ 0); reflexivity|].
    eapply rtc_l; [eapply (step_worker_ends _ 0); reflexivity|]. apply rtc_refl. }
  split_and!; try reflexivity. eexists. split_and!; reflexivity.
Qed.
End run.
