(* ===== verification/RaftStorage.v ===== *)
(** * Persistent cluster state ([internal/cluster/storage.go])

    The SQLite tables behind a cluster node, one field of [Storage] per table: a
    table with a primary key is a map, the snapshots keep the order in which
    their rows were inserted.  An [INSERT ... ON CONFLICT DO UPDATE] changes
    exactly the columns its [SET] lists.  Integers bound to a statement go
    through [database/sql]'s parameter converter, which refuses a [uint64] with
    its high bit set.  A statement may also fail in the database itself: the
    writes of the log and of the replicated data, on whose outcome others rely,
    take that outcome as an argument [io]; elsewhere such failures are left out. *)
From stdpp Require Import base gmap strings list sorting pretty.
From Stdlib Require Import ZArith Lia.
From S2P Require Import Prelude GoStrings.

Abbreviation NodeRole := string (only parsing).
Abbreviation NodeState := string (only parsing).

Definition RoleVoter : NodeRole := "voter".
Definition RoleNonVoter : NodeRole := "non-voter".
Definition StateFollower : NodeState := "follower".
Definition StateCandidate : NodeState := "candidate".
Definition StateLeader : NodeState := "leader".

Record ClusterMember := mkClusterMember {
  ClusterMember_NodeID : string;
  ClusterMember_Address : string;
  ClusterMember_Role : NodeRole;
  ClusterMember_State : NodeState;
  ClusterMember_LastContact : Time;
  ClusterMember_IsHealthy : bool;
  ClusterMember_RaftIndex : Z;
  ClusterMember_PeerID : string
}.

Record JoinToken := mkJoinToken {
  JoinToken_ClusterName : string;
  JoinToken_LeaderAddr : string;
  JoinToken_Token : string;
  JoinToken_ExpiresAt : Time
}.

Record LogEntry := mkLogEntry {
  LogEntry_Index : Z;
  LogEntry_Term : Z;
  LogEntry_Type : Z;
  LogEntry_Data : list Z
}.

Record SnapshotMeta := mkSnapshotMeta {
  SnapshotMeta_ID : string;
  SnapshotMeta_Index : Z;
  SnapshotMeta_Term : Z;
  SnapshotMeta_Configuration : list Z;
  SnapshotMeta_Size : Z;
  SnapshotMeta_CreatedAt : Time
}.

Record HardState := mkHardState {
  HardState_Term : Z;
  HardState_Vote : string;
  HardState_Commit : Z
}.

Record ReplicatedCatalogEntry := mkRCE {
  RCE_TopicID : string;
  RCE_DatasetID : string;
  RCE_Hash : string;
  RCE_Size : Z;
  RCE_ChunkCount : Z;
  RCE_OwnerPeerID : string;
  RCE_UpdatedAt : Time
}.

Record ReplicatedJob := mkRJ {
  RJ_JobID : string;
  RJ_JobType : string;
  RJ_AssignedNode : string;
  RJ_Status : string;
  RJ_Priority : Z;
  RJ_CELExpression : string;
  RJ_Metadata : list Z
}.

Inductive StorageError :=
| ErrHighBit               (* uint64 values with high bit set are not supported *)
| ErrUniqueConstraint
| ErrInvalidJoinToken
| ErrJoinTokenUsed
| ErrJoinTokenExpired
| ErrFileNotFound
| ErrDatabase.           (* what the driver reports: disk, lock, closed *)

(** The tables, and the snapshot files by identifier. *)
Record Storage := mkStorage {
  raft_log : gmap Z LogEntry;
  raft_state : HardState;
  snapshots : list SnapshotMeta;
  snapshot_files : gmap string (list Z);
  cluster_members : gmap string (string * NodeRole * string);
  join_tokens : gmap string (JoinToken * bool);
  replicated_catalog : gmap (string * string) ReplicatedCatalogEntry;
  replicated_jobs : gmap string (ReplicatedJob * Time);
  replicated_config : gmap string (list Z * Z);
  cfg_RetainCount : Z
}.

(** [init]: empty tables and the single row of [raft_state]. *)
Definition init_storage (retainCount : Z) : Storage :=
  mkStorage ∅ (mkHardState 0 "" 0) [] ∅ ∅ ∅ ∅ ∅ ∅ retainCount.

Definition upd_log (s : Storage) (l : gmap Z LogEntry) : Storage :=
  mkStorage l (raft_state s) (snapshots s) (snapshot_files s) (cluster_members s) (join_tokens s)
    (replicated_catalog s) (replicated_jobs s) (replicated_config s) (cfg_RetainCount s).
Definition upd_state (s : Storage) (h : HardState) : Storage :=
  mkStorage (raft_log s) h (snapshots s) (snapshot_files s) (cluster_members s) (join_tokens s)
    (replicated_catalog s) (replicated_jobs s) (replicated_config s) (cfg_RetainCount s).
Definition upd_snapshots (s : Storage) (l : list SnapshotMeta) (f : gmap string (list Z)) : Storage :=
  mkStorage (raft_log s) (raft_state s) l f (cluster_members s) (join_tokens s)
    (replicated_catalog s) (replicated_jobs s) (replicated_config s) (cfg_RetainCount s).
Definition upd_members (s : Storage) (m : gmap string (string * NodeRole * string)) : Storage :=
  mkStorage (raft_log s) (raft_state s) (snapshots s) (snapshot_files s) m (join_tokens s)
    (replicated_catalog s) (replicated_jobs s) (replicated_config s) (cfg_RetainCount s).
Definition upd_tokens (s : Storage) (m : gmap string (JoinToken * bool)) : Storage :=
  mkStorage (raft_log s) (raft_state s) (snapshots s) (snapshot_files s) (cluster_members s) m
    (replicated_catalog s) (replicated_jobs s) (replicated_config s) (cfg_RetainCount s).
Definition upd_catalog (s : Storage) (m : gmap (string * string) ReplicatedCatalogEntry) : Storage :=
  mkStorage (raft_log s) (raft_state s) (snapshots s) (snapshot_files s) (cluster_members s)
    (join_tokens s) m (replicated_jobs s) (replicated_config s) (cfg_RetainCount s).
Definition upd_jobs (s : Storage) (m : gmap string (ReplicatedJob * Time)) : Storage :=
  mkStorage (raft_log s) (raft_state s) (snapshots s) (snapshot_files s) (cluster_members s)
    (join_tokens s) (replicated_catalog s) m (replicated_config s) (cfg_RetainCount s).
Definition upd_config (s : Storage) (m : gmap string (list Z * Z)) : Storage :=
  mkStorage (raft_log s) (raft_state s) (snapshots s) (snapshot_files s) (cluster_members s)
    (join_tokens s) (replicated_catalog s) (replicated_jobs s) m (cfg_RetainCount s).

(** [database/sql/driver.DefaultParameterConverter] on a [uint64]. *)
Definition bind_uint64 (n : Z) : result StorageError Z :=
  if (2 ^ 63 <=? n)%Z then Err ErrHighBit else Ok n.

(** ** Log *)

Definition log_indices (s : Storage) : list Z := map fst (map_to_list (raft_log s)).

(** [SELECT MIN(log_index)] and [MAX(log_index)]; NULL on an empty table. *)
Definition FirstIndex (s : Storage) : Z :=
  match log_indices s with [] => 0%Z | i :: l => fold_left Z.min l i end.
Definition LastIndex (s : Storage) : Z :=
  match log_indices s with [] => 0%Z | i :: l => fold_left Z.max l i end.

Definition GetLog (s : Storage) (index : Z) : result StorageError (option LogEntry) :=
  let! i := bind_uint64 index in Ok (raft_log s !! i).

(** [INSERT OR REPLACE]: the table after the statement, or its error. *)
Definition exec_log (io : bool) (l : gmap Z LogEntry) (entry : LogEntry) : result StorageError (gmap Z LogEntry) :=
  let! i := bind_uint64 (LogEntry_Index entry) in
  let! _ := bind_uint64 (LogEntry_Term entry) in
  if negb io then Err ErrDatabase else Ok (<[i := entry]> l).

Definition StoreLog (io : bool) (s : Storage) (entry : LogEntry) : Storage * option StorageError :=
  match exec_log io (raft_log s) entry with
  | Ok l => (upd_log s l, None)
  | Err e => (s, Some e)
  end.

(** What the calls of a transaction come to: [Begin], [Prepare], the statement for
    the n-th entry, [Commit]. *)
Record TxIO := mkTxIO { tx_begin : bool; tx_prepare : bool; tx_exec : nat -> bool; tx_commit : bool }.

(** The loop over the entries: the rows the transaction sees when it stops, and why. *)
Fixpoint exec_logs (io : nat -> bool) (n : nat) (l : gmap Z LogEntry) (entries : list LogEntry)
    : gmap Z LogEntry * option StorageError :=
  match entries with
  | [] => (l, None)
  | entry :: entries' =>
      match exec_log (io n) l entry with
      | Ok l' => exec_logs io (S n) l' entries'
      | Err e => (l, Some e)
      end
  end.

(** The rows of a transaction: those of the table, and its own. *)
Record Tx := mkTx { tx_before : gmap Z LogEntry; tx_rows : gmap Z LogEntry }.
Definition Rollback (s : Storage) (t : Tx) : Storage := upd_log s (tx_before t).
Definition Commit (s : Storage) (t : Tx) : Storage := upd_log s (tx_rows t).

(** The deferred [Rollback] runs on every return; after [Commit] it does nothing. *)
Definition StoreLogs (io : TxIO) (s : Storage) (entries : list LogEntry) : Storage * option StorageError :=
  if negb (tx_begin io) then (s, Some ErrDatabase)
  else
    let tx := mkTx (raft_log s) (raft_log s) in
    if negb (tx_prepare io) then (Rollback s tx, Some ErrDatabase)
    else
      let '(rows, err) := exec_logs (tx_exec io) 0 (tx_rows tx) entries in
      let tx := mkTx (tx_before tx) rows in
      match err with
      | Some e => (Rollback s tx, Some e)
      | None => if tx_commit io then (Commit s tx, None) else (Rollback s tx, Some ErrDatabase)
      end.

Definition DeleteRange (s : Storage) (min max : Z) : result StorageError Storage :=
  let! lo := bind_uint64 min in
  let! hi := bind_uint64 max in
  Ok (upd_log s (filter (fun p : Z * LogEntry => ~ (lo <= p.1 <= hi)%Z) (raft_log s))).

(** ** Hard state *)

Definition GetHardState (s : Storage) : HardState := raft_state s.

Definition SetHardState (s : Storage) (state : HardState) : result StorageError Storage :=
  let! _ := bind_uint64 (HardState_Term state) in
  let! _ := bind_uint64 (HardState_Commit state) in
  Ok (upd_state s state).

(** ** Snapshots *)

(** [fmt.Sprintf("%d-%d-%d", term, index, now)] *)
Definition snapshot_id (term index : Z) (now : Time) : string :=
  (pretty term +:+ "-" +:+ pretty index +:+ "-" +:+ pretty now)%string.

(** The row the INSERT adds, if its parameters and its key are accepted. *)
Definition insert_snapshot (s : Storage) (id : string) (index term : Z) (configuration : list Z)
    (size : Z) (now : Time) : result StorageError (list SnapshotMeta) :=
  let! i := bind_uint64 index in
  let! t := bind_uint64 term in
  if mem id (map SnapshotMeta_ID (snapshots s)) then Err ErrUniqueConstraint
  else Ok (snapshots s ++ [mkSnapshotMeta id i t configuration size now]).

(** The file is written first; when the row is refused the file is removed and
    the call returns the error of the removal, which is [nil]: [(nil, nil)].
    The old snapshots are removed by a goroutine, [cleanupSnapshots]. *)
Definition CreateSnapshot (s : Storage) (index term : Z) (configuration data : list Z)
    (now1 now2 : Time) : result StorageError (option SnapshotMeta) * Storage :=
  let id := snapshot_id term index now1 in
  let files := <[id := data]> (snapshot_files s) in
  match insert_snapshot s id index term configuration (Z.of_nat (length data)) now1 with
  | Err _ => (Ok None, upd_snapshots s (snapshots s) (delete id files))
  | Ok rows =>
      (Ok (Some (mkSnapshotMeta id index term configuration (Z.of_nat (length data)) now2)),
       upd_snapshots s rows files)
  end.

(** [ORDER BY log_index DESC], rows of equal index in the order of the table. *)
Definition by_index_desc (a b : SnapshotMeta) : Prop :=
  (SnapshotMeta_Index b <= SnapshotMeta_Index a)%Z.
#[export] Instance by_index_desc_dec a b : Decision (by_index_desc a b).
Proof. unfold by_index_desc. apply _. Defined.

Fixpoint insert_desc (m : SnapshotMeta) (l : list SnapshotMeta) : list SnapshotMeta :=
  match l with
  | [] => [m]
  | m' :: l' => if decide (by_index_desc m m') then m :: m' :: l' else m' :: insert_desc m l'
  end.

Definition ListSnapshots (s : Storage) : list SnapshotMeta := foldr insert_desc [] (snapshots s).

Definition GetLatestSnapshot (s : Storage) : option SnapshotMeta := head (ListSnapshots s).

Definition ReadSnapshot (s : Storage) (id : string) : result StorageError (list Z) :=
  match snapshot_files s !! id with Some data => Ok data | None => Err ErrFileNotFound end.

(** Remove the files and rows listed, stopping at a file that is not there. *)
Fixpoint remove_snapshots (s : Storage) (ids : list string) : Storage :=
  match ids with
  | [] => s
  | id :: ids' =>
      match snapshot_files s !! id with
      | None => s
      | Some _ =>
          remove_snapshots
            (upd_snapshots s (List.filter (fun m => SnapshotMeta_ID m <>? id) (snapshots s))
               (delete id (snapshot_files s))) ids'
      end
  end.

Definition retain_count (s : Storage) : Z :=
  if (cfg_RetainCount s <=? 0)%Z then 3%Z else cfg_RetainCount s.

Definition cleanupSnapshots (s : Storage) : Storage :=
  remove_snapshots s
    (map SnapshotMeta_ID (drop (Z.to_nat (retain_count s)) (ListSnapshots s))).

(** ** Members *)

Definition AddMember (s : Storage) (member : ClusterMember) : Storage :=
  upd_members s (<[ClusterMember_NodeID member :=
    (ClusterMember_Address member, ClusterMember_Role member, ClusterMember_PeerID member)]>
    (cluster_members s)).

Definition RemoveMember (s : Storage) (nodeID : string) : Storage :=
  upd_members s (delete nodeID (cluster_members s)).

Definition GetMembers (s : Storage) : list ClusterMember :=
  map (fun r : string * (string * NodeRole * string) =>
         let '(id, (addr, role, peer)) := r in
         mkClusterMember id addr role "" zero_time false 0 peer)
    (map_to_list (cluster_members s)).

(** ** Join tokens *)

Definition Storage_StoreJoinToken (s : Storage) (token : JoinToken) : result StorageError Storage :=
  match join_tokens s !! JoinToken_Token token with
  | Some _ => Err ErrUniqueConstraint
  | None => Ok (upd_tokens s (<[JoinToken_Token token := (token, false)]> (join_tokens s)))
  end.

Definition ValidateJoinToken (s : Storage) (token : string) (now : Time)
    : result StorageError (JoinToken * Storage) :=
  match (join_tokens s !! token : option (JoinToken * bool)) with
  | None => Err ErrInvalidJoinToken
  | Some (jt, used) =>
      if used then Err ErrJoinTokenUsed
      else if After now (JoinToken_ExpiresAt jt) then Err ErrJoinTokenExpired
      else Ok (jt, upd_tokens s (<[token := (jt, true)]> (join_tokens s)))
  end.

Definition CleanupExpiredTokens (s : Storage) (now : Time) : Storage :=
  upd_tokens s (filter (fun p : string * (JoinToken * bool) =>
                          Before (JoinToken_ExpiresAt p.2.1) now = false) (join_tokens s)).

(** ** Replicated data *)

(** Each write is one statement: its effect on the table, and the method. *)
Definition put_catalog_row (s : Storage) (entry : ReplicatedCatalogEntry) : Storage :=
  upd_catalog s (<[(RCE_TopicID entry, RCE_DatasetID entry) := entry]> (replicated_catalog s)).

Definition StoreCatalogEntry (io : bool) (s : Storage) (entry : ReplicatedCatalogEntry) : Storage * option StorageError :=
  if io then (put_catalog_row s entry, None) else (s, Some ErrDatabase).

Definition GetCatalogEntries (s : Storage) : list ReplicatedCatalogEntry :=
  map snd (map_to_list (replicated_catalog s)).

(** The conflict clause sets neither [job_type] nor [cel_expression]. *)
Definition merge_job (old new : ReplicatedJob) : ReplicatedJob :=
  {| RJ_JobID := RJ_JobID old; RJ_JobType := RJ_JobType old;
     RJ_AssignedNode := RJ_AssignedNode new; RJ_Status := RJ_Status new;
     RJ_Priority := RJ_Priority new; RJ_CELExpression := RJ_CELExpression old;
     RJ_Metadata := RJ_Metadata new |}.

Definition put_job_row (s : Storage) (job : ReplicatedJob) (now : Time) : Storage :=
  upd_jobs s (match replicated_jobs s !! RJ_JobID job with
              | None => <[RJ_JobID job := (job, now)]> (replicated_jobs s)
              | Some (old, created) =>
                  <[RJ_JobID job := (merge_job old job, created)]> (replicated_jobs s)
              end).

Definition StoreJob (io : bool) (s : Storage) (job : ReplicatedJob) (now : Time) : Storage * option StorageError :=
  if io then (put_job_row s job now, None) else (s, Some ErrDatabase).

(** [ORDER BY priority DESC, created_at ASC] *)
Definition job_before (a b : ReplicatedJob * Time) : Prop :=
  (RJ_Priority b.1 < RJ_Priority a.1)%Z \/
  (RJ_Priority b.1 = RJ_Priority a.1 /\ (a.2 <= b.2)%Z).
#[export] Instance job_before_dec a b : Decision (job_before a b).
Proof. unfold job_before. apply _. Defined.

Definition GetUnassignedJobs (s : Storage) : list ReplicatedJob :=
  map fst (merge_sort job_before
    (List.filter (fun j : ReplicatedJob * Time =>
                    (RJ_Status j.1 =?= "pending"%string) && (RJ_AssignedNode j.1 =?= ""%string))
       (map snd (map_to_list (replicated_jobs s))))).

Definition put_config_row (s : Storage) (key : string) (value : list Z) : Storage :=
  upd_config s (match replicated_config s !! key with
                | None => <[key := (value, 1%Z)]> (replicated_config s)
                | Some (_, version) => <[key := (value, (version + 1)%Z)]> (replicated_config s)
                end).

Definition StoreConfig (io : bool) (s : Storage) (key : string) (value : list Z) : Storage * option StorageError :=
  if io then (put_config_row s key value, None) else (s, Some ErrDatabase).

Definition Storage_GetConfig (s : Storage) (key : string) : option (list Z) :=
  fst <$> replicated_config s !! key.

(** * Theorems *)

(** ** The log *)

Lemma bind_uint64_Ok n m : bind_uint64 n = Ok m <-> m = n /\ (n < 2 ^ 63)%Z.
Proof.
  unfold bind_uint64. destruct (Z.leb_spec (2 ^ 63) n); split; intros Hx; simplify_eq.
  - destruct Hx. lia.
  - done.
  - by destruct Hx as [-> _].
Qed.

Definition storable (e : LogEntry) : Prop :=
  (LogEntry_Index e < 2 ^ 63)%Z /\ (LogEntry_Term e < 2 ^ 63)%Z.

Lemma exec_log_Ok io l e l' :
  exec_log io l e = Ok l' <-> storable e /\ io = true /\ l' = <[LogEntry_Index e := e]> l.
Proof.
  unfold exec_log, storable, bind_uint64.
  destruct (Z.leb_spec (2 ^ 63) (LogEntry_Index e)); [split; [done|lia]|].
  destruct (Z.leb_spec (2 ^ 63) (LogEntry_Term e)); [split; [done|lia]|].
  destruct io; cbn [negb]; split; [by intros [= <-]|by intros (_ & _ & ->)|done|by intros (_ & ? & _)].
Qed.

Lemma exec_log_Err io l e err :
  exec_log io l e = Err err -> (err = ErrHighBit /\ ~ storable e) \/ (err = ErrDatabase /\ io = false).
Proof.
  unfold exec_log, storable, bind_uint64.
  destruct (Z.leb_spec (2 ^ 63) (LogEntry_Index e)); [intros [= <-]; left; split; [done|lia]|].
  destruct (Z.leb_spec (2 ^ 63) (LogEntry_Term e)); [intros [= <-]; left; split; [done|lia]|].
  destruct io; cbn [negb]; [done|]. intros [= <-]. by right.
Qed.

(** The rows of a loop that came to its end. *)
Lemma exec_logs_done io n l entries rows :
  exec_logs io n l entries = (rows, None) ->
  Forall storable entries /\
  forall i, rows !! i =
    match List.find (fun e => LogEntry_Index e =? i)%Z (rev entries) with Some e => Some e | None => l !! i end.
Proof.
  revert n l. induction entries as [|e entries IH]; intros n l; cbn [exec_logs]; [by intros [= <-]|].
  destruct (exec_log (io n) l e) as [l'|err] eqn:He; [|done]. apply exec_log_Ok in He as (Hse & _ & ->).
  intros [Hall Hrows]%IH. split; [by constructor|]. intros i. rewrite Hrows. cbn [rev]. rewrite find_app.
  destruct (List.find _ (rev entries)); [done|]. simpl.
  destruct (Z.eqb_spec (LogEntry_Index e) i) as [->|Hne]; [by rewrite lookup_insert_eq|by rewrite lookup_insert_ne].
Qed.

Lemma exec_logs_total io n l entries :
  Forall storable entries -> (forall k, io k = true) -> (exec_logs io n l entries).2 = None.
Proof.
  intros Hall Hio. revert n l. induction Hall as [|e entries He _ IH]; intros n l; [done|]. cbn [exec_logs].
  rewrite (proj2 (exec_log_Ok (io n) l e (<[LogEntry_Index e := e]> l))); [apply IH|]. by rewrite Hio.
Qed.

(** C38: a batch of log entries is stored whole or not at all: whatever call of its
    transaction fails, and at whichever entry, an error leaves the storage as it was;
    without one every index and term fits 63 bits, and the log has, for each index, the
    last entry of the batch with that index, or what it had.  A batch that fits, none of
    whose calls fails in the database, is stored. *)
Theorem StoreLogs_atomic (io : TxIO) (s : Storage) (entries : list LogEntry) :
  match StoreLogs io s entries with
  | (s', Some _) => s' = s
  | (s', None) => Forall storable entries /\ s' = upd_log s (raft_log s') /\
      forall i, raft_log s' !! i =
        match List.find (fun e => LogEntry_Index e =? i)%Z (rev entries) with
        | Some e => Some e
        | None => raft_log s !! i
        end
  end /\
  (Forall storable entries -> tx_begin io && tx_prepare io && tx_commit io = true -> (forall n, tx_exec io n = true) ->
   (StoreLogs io s entries).2 = None).
Proof.
  assert (Hback : forall rows, Rollback s (mkTx (raft_log s) rows) = s) by (intros rows; by destruct s).
  split.
  - unfold StoreLogs. destruct (tx_begin io); [|done]. cbn [negb tx_rows tx_before].
    destruct (tx_prepare io); [|apply Hback]. cbn [negb].
    destruct (exec_logs _ _ _ entries) as [rows [e|]] eqn:Hx; [apply Hback|].
    destruct (tx_commit io); [|apply Hback]. apply exec_logs_done in Hx as [Hall Hrows].
    split; [done|]. split; [done|exact Hrows].
  - intros Hall [[Hb Hp]%andb_true_iff Hc]%andb_true_iff Hx. unfold StoreLogs. rewrite Hb, Hp. cbn [negb tx_rows tx_before].
    pose proof (exec_logs_total (tx_exec io) 0 (raft_log s) entries Hall Hx) as Hn.
    destruct (exec_logs _ _ _ entries) as [rows err]. cbn in Hn. by rewrite Hn, Hc.
Qed.

(** The second statement fails after the first has run. *)
Lemma StoreLogs_atomic_witness :
  let io := mkTxIO true true (fun n => (n =? 0)%nat) true in
  let one := mkTxIO true true (fun _ => true) true in
  StoreLogs io (init_storage 3) [mkLogEntry 1 1 0 []; mkLogEntry 2 1 0 []] = (init_storage 3, Some ErrDatabase) /\
  (StoreLogs one (init_storage 3) [mkLogEntry 1 1 0 []; mkLogEntry 2 1 0 []]).2 = None.
Proof.
  intros io one. split.
  - pose proof (proj1 (StoreLogs_atomic io (init_storage 3) [mkLogEntry 1 1 0 []; mkLogEntry 2 1 0 []])) as H.
    exact (f_equal (fun s' => (s', Some ErrDatabase)) H).
  - apply (StoreLogs_atomic one (init_storage 3) [mkLogEntry 1 1 0 []; mkLogEntry 2 1 0 []]); [|reflexivity|reflexivity].
    repeat constructor.
Defined.

(** ** Join tokens *)

Inductive token_op :=
| OpStoreToken (t : JoinToken)
| OpValidateToken (token : string) (now : Time)
| OpCleanupTokens (now : Time).

(** The tokens accepted by a sequence of operations. *)
Fixpoint run_tokens (s : Storage) (ops : list token_op) : list string :=
  match ops with
  | [] => []
  | OpStoreToken t :: ops' =>
      match Storage_StoreJoinToken s t with Ok s' => run_tokens s' ops' | Err _ => run_tokens s ops' end
  | OpValidateToken token now :: ops' =>
      match ValidateJoinToken s token now with
      | Ok (_, s') => token :: run_tokens s' ops'
      | Err _ => run_tokens s ops'
      end
  | OpCleanupTokens now :: ops' => run_tokens (CleanupExpiredTokens s now) ops'
  end.

Definition stored_tokens (ops : list token_op) : list string :=
  omap (fun op => match op with OpStoreToken t => Some (JoinToken_Token t) | _ => None end) ops.

(** The token can still be accepted: it is in the table, unused. *)
Definition unused (s : Storage) (token : string) : Prop :=
  exists jt, join_tokens s !! token = Some (jt, false).

Lemma run_tokens_accepted s ops token :
  token ∈ run_tokens s ops -> unused s token \/ token ∈ stored_tokens ops.
Proof.
  unfold unused. revert s. induction ops as [|[t|tok now|now] ops IH]; intros s; cbn; [set_solver|..].
  - unfold Storage_StoreJoinToken. destruct (join_tokens s !! JoinToken_Token t) eqn:Ht.
    + intros [?|?]%IH; set_solver.
    + intros [[jt Hjt]|?]%IH; [|set_solver]. simpl in Hjt.
      destruct (decide (JoinToken_Token t = token)) as [->|Hne]; [set_solver|].
      rewrite lookup_insert_ne in Hjt by done. left. by exists jt.
  - unfold ValidateJoinToken. destruct (join_tokens s !! tok) as [[jt []]|] eqn:Ht; [apply IH| |apply IH].
    destruct (After now _); [apply IH|]. intros [->|Hin]%elem_of_cons; [left; by exists jt|].
    apply IH in Hin as [[jt' Hjt']|?]; [|by right]. simpl in Hjt'.
    destruct (decide (tok = token)) as [->|Hne]; [by rewrite lookup_insert_eq in Hjt'|].
    rewrite lookup_insert_ne in Hjt' by done. left. by exists jt'.
  - intros [[jt Hjt]|?]%IH; [|by right]. left. simpl in Hjt.
    apply map_lookup_filter_Some in Hjt as [? _]. by exists jt.
Qed.

(** C14: a join token is good for one join.  However validations, clean-ups and
    the creation of new tokens are interleaved, no token is accepted twice
    (token strings are 32 random bytes: a new one is not one seen before). *)
Theorem join_token_single_use (s : Storage) (ops : list token_op)
    (Hfresh : NoDup (stored_tokens ops))
    (Hnew : forall t, t ∈ stored_tokens ops -> join_tokens s !! t = None) :
  NoDup (run_tokens s ops).
Proof.
  revert s Hnew. induction ops as [|[t|tok now|now] ops IH]; intros s Hnew; cbn in *; [constructor|..].
  - apply NoDup_cons in Hfresh as [Hni Hfresh]. specialize (IH Hfresh).
    unfold Storage_StoreJoinToken. rewrite Hnew by set_solver. apply IH. intros t' Ht'. simpl.
    rewrite lookup_insert_ne; [apply Hnew; set_solver|]. set_solver.
  - specialize (IH Hfresh). unfold ValidateJoinToken.
    destruct (join_tokens s !! tok) as [[jt []]|] eqn:Ht; [by apply IH| |by apply IH].
    destruct (After now _); [by apply IH|].
    assert (tok ∉ stored_tokens ops) as Hns by (intros Hin; by rewrite Hnew in Ht).
    apply NoDup_cons. split.
    + intros [[jt' Hjt']|?]%run_tokens_accepted; [|done]. simpl in Hjt'.
      by rewrite lookup_insert_eq in Hjt'.
    + apply IH. intros t' Ht'. simpl. rewrite lookup_insert_ne; [by apply Hnew|]. set_solver.
  - apply IH; [done|]. intros t' Ht'. simpl. apply map_lookup_filter_None. left. by apply Hnew.
Qed.

Lemma join_token_single_use_witness :
  let t := mkJoinToken "c" "addr" "tok" 100 in
  NoDup (run_tokens (init_storage 3)
    [OpStoreToken t; OpValidateToken "tok" 5; OpCleanupTokens 6; OpValidateToken "tok" 7]).
Proof.
  intros t. apply join_token_single_use; [|done]. apply NoDup_singleton.
Defined.

(** ** Snapshots *)

Lemma by_index_desc_total a b : ~ by_index_desc a b -> by_index_desc b a.
Proof. unfold by_index_desc. lia. Qed.

Lemma by_index_desc_trans a b c : by_index_desc a b -> by_index_desc b c -> by_index_desc a c.
Proof. unfold by_index_desc. lia. Qed.

Lemma insert_desc_perm m l : insert_desc m l ≡ₚ m :: l.
Proof.
  induction l as [|m' l IH]; simpl; [done|]. destruct (decide _); [done|].
  rewrite IH. by constructor.
Qed.

Lemma ListSnapshots_perm s : ListSnapshots s ≡ₚ snapshots s.
Proof.
  unfold ListSnapshots. induction (snapshots s) as [|m l IH]; simpl; [done|].
  by rewrite insert_desc_perm, IH.
Qed.

Lemma insert_desc_front m l : Forall (by_index_desc m) l -> insert_desc m l = m :: l.
Proof. intros Hl. destruct Hl as [|m' l Hm _]; simpl; [done|]. by rewrite decide_True. Qed.

Lemma insert_desc_sorted m l :
  StronglySorted by_index_desc l -> StronglySorted by_index_desc (insert_desc m l).
Proof.
  intros Hl. induction Hl as [|m' l Hl IH Hall]; simpl; [by repeat constructor|].
  destruct (decide _) as [Hm|Hm%by_index_desc_total].
  - constructor; [by constructor|]. constructor; [done|].
    eapply Forall_impl; [exact Hall|]. intros m'' ?. by eapply by_index_desc_trans.
  - constructor; [done|]. rewrite insert_desc_perm. by constructor.
Qed.

Lemma ListSnapshots_sorted s : StronglySorted by_index_desc (ListSnapshots s).
Proof.
  unfold ListSnapshots. induction (snapshots s) as [|m l IH]; simpl; [constructor|].
  by apply insert_desc_sorted.
Qed.

Lemma filter_insert_desc p m l :
  StronglySorted by_index_desc l ->
  List.filter p (insert_desc m l) =
  if p m then insert_desc m (List.filter p l) else List.filter p l.
Proof.
  intros Hl. induction Hl as [|m' l Hl IH Hall]; simpl; [by destruct (p m)|].
  destruct (decide (by_index_desc m m')) as [Hm|Hm].
  - cbn [List.filter]. destruct (p m); [|done]. rewrite insert_desc_front; [done|].
    assert (Forall (by_index_desc m) l) as Hml.
    { eapply Forall_impl; [exact Hall|]. intros m'' ?. by eapply by_index_desc_trans. }
    assert (Forall (by_index_desc m) (List.filter p l)) as Hmf.
    { apply Forall_forall. intros x Hx. apply list_elem_of_In, filter_In in Hx as [Hx _].
      rewrite Forall_forall in Hml. by apply Hml, list_elem_of_In. }
    destruct (p m'); [by constructor|done].
  - cbn [List.filter]. rewrite IH. destruct (p m), (p m'); try done. simpl.
    by rewrite decide_False.
Qed.

Lemma sort_filter p l :
  foldr insert_desc [] (List.filter p l) = List.filter p (foldr insert_desc [] l).
Proof.
  induction l as [|m l IH]; simpl; [done|].
  assert (StronglySorted by_index_desc (foldr insert_desc [] l)) as Hs.
  { clear. induction l; simpl; [constructor|]. by apply insert_desc_sorted. }
  rewrite filter_insert_desc by done. rewrite <- IH. by destruct (p m).
Qed.

(** Every row has its file and no identifier occurs twice. *)
Record snap_ok (s : Storage) : Prop := {
  snap_ids : NoDup (map SnapshotMeta_ID (snapshots s));
  snap_files : forall m, m ∈ snapshots s -> is_Some (snapshot_files s !! SnapshotMeta_ID m)
}.

Lemma remove_snapshots_rows s ids :
  NoDup ids -> (forall id, id ∈ ids -> is_Some (snapshot_files s !! id)) ->
  snapshots (remove_snapshots s ids) =
    List.filter (fun m => negb (mem (SnapshotMeta_ID m) ids)) (snapshots s) /\
  forall id, snapshot_files (remove_snapshots s ids) !! id =
    if mem id ids then None else snapshot_files s !! id.
Proof.
  intros Hnd. revert s. induction Hnd as [|id ids Hni Hnd IH]; intros s Hf; simpl.
  - split; [|done]. by rewrite List.filter_true.
  - destruct (Hf id ltac:(set_solver)) as [data Hd]. rewrite Hd.
    destruct (IH (upd_snapshots s (List.filter (fun m => SnapshotMeta_ID m <>? id) (snapshots s))
                    (delete id (snapshot_files s)))) as [IH1 IH2].
    { intros id' Hid'. simpl. rewrite lookup_delete_ne; [apply Hf; set_solver|]. set_solver. }
    rewrite IH1. split.
    + simpl. rewrite filter_filter. apply filter_ext. intros m.
      rewrite (bool_decide_ext (SnapshotMeta_ID m = id) (id = SnapshotMeta_ID m)) by done.
      by case_bool_decide.
    + intros id'. rewrite IH2. simpl. case_bool_decide as Hid.
      * subst. rewrite lookup_delete_eq. by destruct (mem id' ids).
      * by rewrite lookup_delete_ne.
Qed.

Lemma ListSnapshots_ids s : snap_ok s -> NoDup (map SnapshotMeta_ID (ListSnapshots s)).
Proof.
  intros [Hn _]. by rewrite (Permutation_map SnapshotMeta_ID (ListSnapshots_perm s)).
Qed.

Lemma cleanup_ids s :
  snap_ok s ->
  let ids := map SnapshotMeta_ID (drop (Z.to_nat (retain_count s)) (ListSnapshots s)) in
  NoDup ids /\ forall id, id ∈ ids -> is_Some (snapshot_files s !! id).
Proof.
  intros Hok ids. unfold ids. rewrite <- skipn_map. split.
  - apply ListSnapshots_ids in Hok. rewrite <- (take_drop (Z.to_nat (retain_count s))) in Hok.
    by apply NoDup_app in Hok as (_ & _ & ?).
  - intros id Hid. assert (id ∈ map SnapshotMeta_ID (ListSnapshots s)) as Hin.
    { rewrite <- (take_drop (Z.to_nat (retain_count s)) (map _ _)). set_solver. }
    apply list_elem_of_fmap in Hin as (m & -> & Hm). rewrite ListSnapshots_perm in Hm.
    by apply (snap_files s Hok).
Qed.

Lemma cleanup_list s :
  snap_ok s ->
  ListSnapshots (cleanupSnapshots s) = take (Z.to_nat (retain_count s)) (ListSnapshots s).
Proof.
  intros Hok. destruct (cleanup_ids s Hok) as [Hnd Hf].
  destruct (remove_snapshots_rows s _ Hnd Hf) as [Hrows _].
  unfold cleanupSnapshots, ListSnapshots at 1. rewrite Hrows, sort_filter.
  apply (filter_avoid_drop SnapshotMeta_ID (fun id => mem id (map SnapshotMeta_ID
    (drop (Z.to_nat (retain_count s)) (ListSnapshots s))))).
  - by apply ListSnapshots_ids.
  - intros id. apply mem_true.
Qed.

Lemma cleanup_ok s : snap_ok s -> snap_ok (cleanupSnapshots s).
Proof.
  intros Hok. destruct (cleanup_ids s Hok) as [Hnd Hf].
  destruct (remove_snapshots_rows s _ Hnd Hf) as [Hrows Hfiles]. split.
  - unfold cleanupSnapshots. rewrite Hrows. apply (NoDup_map_filter SnapshotMeta_ID), Hok.
  - intros m Hm. unfold cleanupSnapshots in *. rewrite Hrows in Hm. rewrite Hfiles.
    apply list_elem_of_In, filter_In in Hm as [Hm Hn]. apply negb_true_iff in Hn. rewrite Hn.
    apply (snap_files s Hok). by apply list_elem_of_In.
Qed.

Lemma init_snap_ok n : snap_ok (init_storage n).
Proof. split; [constructor|]. intros m Hm. by apply elem_of_nil in Hm. Qed.

Lemma insert_snapshot_Ok s id i t c size now rows :
  insert_snapshot s id i t c size now = Ok rows ->
  (i < 2 ^ 63)%Z /\ (t < 2 ^ 63)%Z /\ (id ∉ map SnapshotMeta_ID (snapshots s)) /\
  rows = snapshots s ++ [mkSnapshotMeta id i t c size now].
Proof.
  unfold insert_snapshot. destruct (bind_uint64 i) as [i'|] eqn:Hi; [|done].
  apply bind_uint64_Ok in Hi as [-> ?]. destruct (bind_uint64 t) as [t'|] eqn:Ht; [|done].
  apply bind_uint64_Ok in Ht as [-> ?]. destruct (mem _ _) eqn:Hm; [done|].
  apply mem_false in Hm. intros. by simplify_eq.
Qed.

Lemma CreateSnapshot_ok s i t c data now1 now2 :
  snap_ok s -> snapshot_files s !! snapshot_id t i now1 = None ->
  snap_ok (CreateSnapshot s i t c data now1 now2).2.
Proof.
  intros [Hn Hf] Hfresh. unfold CreateSnapshot.
  destruct (insert_snapshot _ _ _ _ _ _ _) as [rows|] eqn:Hi; simpl.
  - apply insert_snapshot_Ok in Hi as (_ & _ & Hni & ->). split; simpl.
    + rewrite map_app. apply NoDup_app. split; [done|]. split; [set_solver|apply NoDup_singleton].
    + intros m [Hm|Hm]%elem_of_app.
      * destruct (decide (snapshot_id t i now1 = SnapshotMeta_ID m)) as [->|];
          [rewrite lookup_insert_eq; by eexists|]. rewrite lookup_insert_ne by done. auto.
      * apply list_elem_of_singleton in Hm as ->. simpl. rewrite lookup_insert_eq. by eexists.
  - split; [done|]. intros m Hm. simpl. rewrite delete_insert_eq.
    rewrite lookup_delete_ne; [auto|]. intros Heq. destruct (Hf m Hm). simpl in *. congruence.
Qed.

(** Pruning keeps the newest snapshots: what is left is the first
    [retainCount] (three when not configured) of the list by descending index,
    rows and files still agree, and the latest snapshot is still the latest. *)
Theorem cleanup_keeps_newest (s : Storage) (Hok : snap_ok s) :
  let s' := cleanupSnapshots s in
  ListSnapshots s' = take (Z.to_nat (retain_count s)) (ListSnapshots s) /\
  StronglySorted by_index_desc (ListSnapshots s) /\
  snap_ok s' /\ GetLatestSnapshot s' = GetLatestSnapshot s.
Proof.
  intros s'. split; [by apply cleanup_list|]. split; [apply ListSnapshots_sorted|].
  split; [by apply cleanup_ok|]. unfold GetLatestSnapshot, s'. rewrite cleanup_list by done.
  assert (exists n, Z.to_nat (retain_count s) = S n) as [n ->].
  { exists (Z.to_nat (retain_count s) - 1). unfold retain_count. case_match; bool_props; lia. }
  by destruct (ListSnapshots s).
Qed.

(** A snapshot that was created can be read back, and the latest one has the
    greatest index; but when its row is refused (the index or the term needs 64
    bits, or the identifier is taken) the call reports success without a
    snapshot: the error of the INSERT is lost. *)
Theorem CreateSnapshot_result (s : Storage) (index term : Z) (configuration data : list Z)
    (now1 now2 : Time) :
  let '(r, s') := CreateSnapshot s index term configuration data now1 now2 in
  match insert_snapshot s (snapshot_id term index now1) index term configuration
          (Z.of_nat (length data)) now1 with
  | Ok _ => exists meta, r = Ok (Some meta) /\
      ReadSnapshot s' (SnapshotMeta_ID meta) = Ok data /\
      SnapshotMeta_ID meta ∈ map SnapshotMeta_ID (ListSnapshots s')
  | Err _ => r = Ok None /\ snapshots s' = snapshots s /\
      ReadSnapshot s' (snapshot_id term index now1) = Err ErrFileNotFound
  end.
Proof.
  unfold CreateSnapshot. destruct (insert_snapshot _ _ _ _ _ _ _) as [rows|] eqn:Hi.
  - eexists. split; [done|]. split.
    + unfold ReadSnapshot. simpl. by rewrite lookup_insert_eq.
    + apply insert_snapshot_Ok in Hi as (_ & _ & _ & ->).
      rewrite (Permutation_map SnapshotMeta_ID (ListSnapshots_perm _)). simpl.
      rewrite map_app. apply elem_of_app. right. simpl. by apply list_elem_of_singleton.
  - split; [done|]. split; [done|]. unfold ReadSnapshot. simpl. by rewrite lookup_delete_eq.
Qed.

Definition three_snapshots : Storage :=
  fold_left (fun s i => (CreateSnapshot s i 1 [] [i] i i).2) [5; 9; 7; 8]%Z (init_storage 0).

Lemma cleanup_keeps_newest_witness :
  map SnapshotMeta_Index (ListSnapshots (cleanupSnapshots three_snapshots)) = [9; 8; 7]%Z.
Proof.
  destruct (cleanup_keeps_newest three_snapshots) as [-> _]; [|vm_compute; reflexivity].
  repeat (apply CreateSnapshot_ok; [|vm_compute; reflexivity]). apply init_snap_ok.
Defined.

(** ** Jobs *)

#[export] Instance job_before_trans : Transitive job_before.
Proof. intros a b c. unfold job_before. lia. Qed.
#[export] Instance job_before_total : Total job_before.
Proof. intros a b. unfold job_before. lia. Qed.

(** The jobs waiting for a node are exactly the stored ones that are pending
    and unassigned, higher priorities first and older ones first among equals. *)
Theorem GetUnassignedJobs_spec (s : Storage) :
  exists rows, GetUnassignedJobs s = map fst rows /\ StronglySorted job_before rows /\
  forall j created, (j, created) ∈ rows <->
    (exists id, replicated_jobs s !! id = Some (j, created)) /\
    RJ_Status j = "pending"%string /\ RJ_AssignedNode j = ""%string.
Proof.
  eexists. split; [reflexivity|]. split; [apply StronglySorted_merge_sort; apply _|].
  intros j created. rewrite (merge_sort_Permutation job_before).
  rewrite list_elem_of_In, filter_In, <- list_elem_of_In, andb_true_iff, !bool_decide_eq_true.
  simpl. apply and_iff_compat_r. rewrite list_elem_of_fmap. split.
  - intros ([id r] & -> & Hin). apply elem_of_map_to_list in Hin. by exists id.
  - intros [id Hid]. exists (id, (j, created)). split; [done|]. by apply elem_of_map_to_list.
Qed.

(** Storing a job again updates its node, status, priority and metadata but
    neither its type nor its expression: those of the first version stay. *)
Theorem StoreJob_keeps_type (s : Storage) (job job' : ReplicatedJob) (now now' : Time)
    (Hsame : RJ_JobID job' = RJ_JobID job) (Hnew : replicated_jobs s !! RJ_JobID job = None) :
  replicated_jobs (put_job_row (put_job_row s job now) job' now') !! RJ_JobID job =
  Some (mkRJ (RJ_JobID job) (RJ_JobType job) (RJ_AssignedNode job') (RJ_Status job')
          (RJ_Priority job') (RJ_CELExpression job) (RJ_Metadata job'), now).
Proof.
  unfold put_job_row at 1. rewrite Hsame. unfold put_job_row. rewrite Hnew. simpl.
  by rewrite !lookup_insert_eq.
Qed.

Lemma StoreJob_keeps_type_witness :
  exists j, replicated_jobs (put_job_row (put_job_row (init_storage 3) (mkRJ "j" "etl" "" "pending" 1 "x" []) 1)
              (mkRJ "j" "sql" "n1" "assigned" 2 "y" []) 2) !! "j"%string = Some (j, 1%Z) /\
    RJ_JobType j = "etl"%string.
Proof.
  eexists. split.
  - apply (StoreJob_keeps_type (init_storage 3) (mkRJ "j" "etl" "" "pending" 1 "x" [])
             (mkRJ "j" "sql" "n1" "assigned" 2 "y" [])); reflexivity.
  - reflexivity.
Defined.
