(* ===== verification/Fsm.v ===== *)
(** * The replicated state machine ([internal/cluster/fsm.go])

    The machine keeps a catalog, jobs and configuration values in memory and
    writes what it applies to the node's [Storage]; whether a write fails in the
    database is the argument [io] of a call.  A Go map is [None] when it
    is nil: reading it finds nothing, writing to it panics.  The JSON texts of
    commands and snapshots are those of [encoding/json], the class [FsmCodec];
    strings that are not UTF-8 do not survive it, so its laws speak of faithful
    values. *)
From stdpp Require Import base gmap strings list pretty relations.
From Stdlib Require Import ZArith Lia Ascii.
From S2P Require Import Prelude GoStrings RaftStorage.
#[local] Arguments put_job_row : simpl never.
#[local] Arguments put_config_row : simpl never.
#[local] Arguments put_catalog_row : simpl never.

Definition CmdCatalogUpdate : Z := 1.
Definition CmdCatalogDelete : Z := 2.
Definition CmdJobCreate : Z := 3.
Definition CmdJobUpdate : Z := 4.
Definition CmdJobAssign : Z := 5.
Definition CmdConfigSet : Z := 6.
Definition CmdConfigDelete : Z := 7.
Definition CmdJoinTokenCreate : Z := 8.

Record Command := mkCommand { Command_Type : Z; Command_Data : list Z }.

Record Snapshot := mkSnapshot {
  Snapshot_Catalog : option (gmap string ReplicatedCatalogEntry);
  Snapshot_Jobs : option (gmap string ReplicatedJob);
  Snapshot_Config : option (gmap string (list Z))
}.

Class FsmCodec := {
  decode_command : list Z -> option Command;
  decode_entry : list Z -> option ReplicatedCatalogEntry;
  decode_catalog_delete : list Z -> option (string * string);
  decode_job : list Z -> option ReplicatedJob;
  decode_job_assign : list Z -> option (string * string);
  decode_config_set : list Z -> option (string * list Z);
  decode_config_delete : list Z -> option string;
  decode_token : list Z -> option JoinToken;
  decode_snapshot : list Z -> option Snapshot;
  encode_command : Command -> option (list Z);
  encode_token : JoinToken -> option (list Z);
  encode_snapshot : Snapshot -> option (list Z);
  encode_members : gmap string string -> option (list Z);
  faithful_token : JoinToken -> Prop;
  faithful_snapshot : Snapshot -> Prop;
  command_roundtrip : forall c bs, encode_command c = Some bs -> decode_command bs = Some c;
  token_roundtrip : forall t bs, faithful_token t -> encode_token t = Some bs ->
    decode_token bs = Some t;
  snapshot_roundtrip : forall s bs, faithful_snapshot s -> encode_snapshot s = Some bs ->
    decode_snapshot bs = Some s
}.

Record FSM := mkFSM {
  fsm_storage : Storage;
  fsm_catalog : option (gmap string ReplicatedCatalogEntry);
  fsm_jobs : option (gmap string ReplicatedJob);
  fsm_config : option (gmap string (list Z))
}.

Inductive FsmError :=
| ErrUnmarshal
| ErrMarshal
| ErrUnknownCommand (t : Z)
| ErrStorage (e : StorageError)
| PanicNilMap.

Definition NewFSM (storage : Storage) : FSM := mkFSM storage (Some ∅) (Some ∅) (Some ∅).

Definition set_storage (f : FSM) (s : Storage) : FSM :=
  mkFSM s (fsm_catalog f) (fsm_jobs f) (fsm_config f).

(** [fmt.Sprintf("%s/%s", topicID, datasetID)] *)
Definition catalog_key (topicID datasetID : string) : string := (topicID +:+ "/" +:+ datasetID)%string.

(** Reading a map that may be nil, and deleting from it. *)
Definition map_get {A} (m : option (gmap string A)) (k : string) : option A := m ≫= (.!! k).
Definition map_delete {A} (m : option (gmap string A)) (k : string) : option (gmap string A) :=
  delete k <$> m.

(** [if err := f.storage.Store...; err != nil { return err }; k] *)
Definition stored (f : FSM) (r : Storage * option StorageError) (k : FSM -> FSM * option FsmError)
    : FSM * option FsmError :=
  let f := set_storage f r.1 in
  match r.2 with Some e => (f, Some (ErrStorage e)) | None => k f end.

(** ** The commands *)

Definition fsm_catalog_update (io : bool) (f : FSM) (entry : ReplicatedCatalogEntry) : FSM * option FsmError :=
  stored f (StoreCatalogEntry io (fsm_storage f) entry) (fun f =>
    match fsm_catalog f with
    | None => (f, Some PanicNilMap)
    | Some m =>
        (mkFSM (fsm_storage f) (Some (<[catalog_key (RCE_TopicID entry) (RCE_DatasetID entry) := entry]> m))
           (fsm_jobs f) (fsm_config f), None)
    end).

Definition fsm_catalog_delete (f : FSM) (req : string * string) : FSM * option FsmError :=
  (mkFSM (fsm_storage f) (map_delete (fsm_catalog f) (catalog_key req.1 req.2)) (fsm_jobs f)
     (fsm_config f), None).

Definition fsm_job_update (io : bool) (f : FSM) (job : ReplicatedJob) (now : Time) : FSM * option FsmError :=
  stored f (StoreJob io (fsm_storage f) job now) (fun f =>
    match fsm_jobs f with
    | None => (f, Some PanicNilMap)
    | Some m => (mkFSM (fsm_storage f) (fsm_catalog f) (Some (<[RJ_JobID job := job]> m)) (fsm_config f), None)
    end).

Definition assign_job (job : ReplicatedJob) (node : string) : ReplicatedJob :=
  mkRJ (RJ_JobID job) (RJ_JobType job) node "assigned" (RJ_Priority job) (RJ_CELExpression job)
    (RJ_Metadata job).

(** The job in the map is changed in place, and then written. *)
Definition fsm_job_assign (io : bool) (f : FSM) (req : string * string) (now : Time) : FSM * option FsmError :=
  match map_get (fsm_jobs f) req.1 with
  | None => (f, None)
  | Some job =>
      let job := assign_job job req.2 in
      let f := mkFSM (fsm_storage f) (fsm_catalog f) (<[req.1 := job]> <$> fsm_jobs f) (fsm_config f) in
      stored f (StoreJob io (fsm_storage f) job now) (fun f => (f, None))
  end.

Definition fsm_config_set (io : bool) (f : FSM) (req : string * list Z) : FSM * option FsmError :=
  stored f (StoreConfig io (fsm_storage f) req.1 req.2) (fun f =>
    match fsm_config f with
    | None => (f, Some PanicNilMap)
    | Some m => (mkFSM (fsm_storage f) (fsm_catalog f) (fsm_jobs f) (Some (<[req.1 := req.2]> m)), None)
    end).

Definition fsm_config_delete (f : FSM) (key : string) : FSM * option FsmError :=
  (mkFSM (fsm_storage f) (fsm_catalog f) (fsm_jobs f) (map_delete (fsm_config f) key), None).

Definition fsm_token_create (io : bool) (f : FSM) (token : JoinToken) : FSM * option FsmError :=
  if io then
    match Storage_StoreJoinToken (fsm_storage f) token with
    | Err e => (f, Some (ErrStorage e))
    | Ok s => (set_storage f s, None)
    end
  else (f, Some (ErrStorage ErrDatabase)).

(** [if err := json.Unmarshal(data, &v); err != nil { return err }; k(v)] *)
Definition unmarshal {A} (f : FSM) (v : option A) (k : A -> FSM * option FsmError)
    : FSM * option FsmError :=
  match v with None => (f, Some ErrUnmarshal) | Some a => k a end.

Section fsm.
Context `{FsmCodec}.

Definition applyCatalogUpdate (io : bool) (f : FSM) (data : list Z) :=
  unmarshal f (decode_entry data) (fsm_catalog_update io f).
Definition applyCatalogDelete (f : FSM) (data : list Z) :=
  unmarshal f (decode_catalog_delete data) (fsm_catalog_delete f).
Definition applyJobUpdate (io : bool) (f : FSM) (data : list Z) (now : Time) :=
  unmarshal f (decode_job data) (fun job => fsm_job_update io f job now).
Definition applyJobAssign (io : bool) (f : FSM) (data : list Z) (now : Time) :=
  unmarshal f (decode_job_assign data) (fun req => fsm_job_assign io f req now).
Definition applyConfigSet (io : bool) (f : FSM) (data : list Z) :=
  unmarshal f (decode_config_set data) (fsm_config_set io f).
Definition applyConfigDelete (f : FSM) (data : list Z) :=
  unmarshal f (decode_config_delete data) (fsm_config_delete f).
Definition applyJoinTokenCreate (io : bool) (f : FSM) (data : list Z) :=
  unmarshal f (decode_token data) (fsm_token_create io f).

(** Every command writes at most once. *)
Definition FSM_Apply (io : bool) (f : FSM) (data : list Z) (now : Time) : FSM * option FsmError :=
  unmarshal f (decode_command data) (fun cmd =>
    let t := Command_Type cmd in
    let d := Command_Data cmd in
    if (t =? CmdCatalogUpdate)%Z then applyCatalogUpdate io f d
    else if (t =? CmdCatalogDelete)%Z then applyCatalogDelete f d
    else if (t =? CmdJobCreate)%Z || (t =? CmdJobUpdate)%Z then applyJobUpdate io f d now
    else if (t =? CmdJobAssign)%Z then applyJobAssign io f d now
    else if (t =? CmdConfigSet)%Z then applyConfigSet io f d
    else if (t =? CmdConfigDelete)%Z then applyConfigDelete f d
    else if (t =? CmdJoinTokenCreate)%Z then applyJoinTokenCreate io f d
    else (f, Some (ErrUnknownCommand t))).

Definition FSM_Snapshot (f : FSM) : option (list Z) :=
  encode_snapshot (mkSnapshot (fsm_catalog f) (fsm_jobs f) (fsm_config f)).

(** The entries of a map that may be nil, in some order. *)
Definition map_values {A} (m : option (gmap string A)) : list (string * A) :=
  default [] (map_to_list <$> m).

(** [for ... { if err := f.storage.Store...; err != nil { return err } }]; the n-th
    write fails in the database unless [io n]. *)
Fixpoint store_each {A} (store : bool -> Storage -> A -> Storage * option StorageError) (io : nat -> bool)
    (n : nat) (l : list A) (s : Storage) : Storage * option StorageError :=
  match l with
  | [] => (s, None)
  | a :: l' =>
      match store (io n) s a with
      | (s', None) => store_each store io (S n) l' s'
      | (s', Some e) => (s', Some e)
      end
  end.

(** The maps are replaced first and then written, one table after the other; [io i n]
    tells of the n-th write of the i-th loop. *)
Definition FSM_Restore (io : nat -> nat -> bool) (f : FSM) (data : list Z) (now : Time) : FSM * option FsmError :=
  unmarshal f (decode_snapshot data) (fun snapshot =>
    let f := mkFSM (fsm_storage f) (Snapshot_Catalog snapshot) (Snapshot_Jobs snapshot) (Snapshot_Config snapshot) in
    let entries := store_each (fun io s (ke : string * ReplicatedCatalogEntry) => StoreCatalogEntry io s ke.2) (io 0) 0 in
    let jobs := store_each (fun io s (kj : string * ReplicatedJob) => StoreJob io s kj.2 now) (io 1) 0 in
    let values := store_each (fun io s (kv : string * list Z) => StoreConfig io s kv.1 kv.2) (io 2) 0 in
    stored f (entries (map_values (fsm_catalog f)) (fsm_storage f)) (fun f =>
    stored f (jobs (map_values (fsm_jobs f)) (fsm_storage f)) (fun f =>
    stored f (values (map_values (fsm_config f)) (fsm_storage f)) (fun f => (f, None))))).

(** Applied directly, not through the log. *)
Definition FSM_StoreJoinToken (io : bool) (f : FSM) (token : JoinToken) (now : Time) : FSM * option FsmError :=
  match encode_token token with
  | None => (f, Some ErrMarshal)
  | Some data =>
      match encode_command (mkCommand CmdJoinTokenCreate data) with
      | None => (f, Some ErrMarshal)
      | Some cmdData => FSM_Apply io f cmdData now
      end
  end.

Definition FSM_GetCatalog (f : FSM) : gmap string ReplicatedCatalogEntry :=
  default ∅ (fsm_catalog f).
Definition FSM_GetJob (f : FSM) (jobID : string) : option ReplicatedJob := map_get (fsm_jobs f) jobID.
Definition FSM_GetConfig (f : FSM) (key : string) : option (list Z) := map_get (fsm_config f) key.

(** [data] is the JSON of the request. *)
Definition CreateCommand (cmdType : Z) (data : option (list Z)) : option (list Z) :=
  data ≫= fun jsonData => encode_command (mkCommand cmdType jsonData).
End fsm.

(** * Theorems *)

(** ** Caches and storage *)

(** What is in memory is in the tables; of a job, the columns an update sets. *)
Definition catalog_agrees (m : gmap string ReplicatedCatalogEntry) (s : Storage) : Prop :=
  forall k e, m !! k = Some e ->
    k = catalog_key (RCE_TopicID e) (RCE_DatasetID e) /\
    replicated_catalog s !! (RCE_TopicID e, RCE_DatasetID e) = Some e.

Definition job_agrees (j r : ReplicatedJob) : Prop :=
  RJ_JobID r = RJ_JobID j /\ RJ_AssignedNode r = RJ_AssignedNode j /\ RJ_Status r = RJ_Status j /\
  RJ_Priority r = RJ_Priority j /\ RJ_Metadata r = RJ_Metadata j.

Definition jobs_agree (m : gmap string ReplicatedJob) (s : Storage) : Prop :=
  forall k j, m !! k = Some j ->
    k = RJ_JobID j /\ exists r created, replicated_jobs s !! k = Some (r, created) /\ job_agrees j r.

Definition config_agrees (m : gmap string (list Z)) (s : Storage) : Prop :=
  forall k v, m !! k = Some v -> Storage_GetConfig s k = Some v.

Record fsm_inv (f : FSM) : Prop := {
  inv_catalog : exists m, fsm_catalog f = Some m /\ catalog_agrees m (fsm_storage f);
  inv_jobs : exists m, fsm_jobs f = Some m /\ jobs_agree m (fsm_storage f);
  inv_config : exists m, fsm_config f = Some m /\ config_agrees m (fsm_storage f);
  inv_rows : forall k r c, replicated_jobs (fsm_storage f) !! k = Some (r, c) -> RJ_JobID r = k
}.

(** The tables a write leaves alone. *)
Definition same_catalog (s s' : Storage) := replicated_catalog s' = replicated_catalog s.
Definition same_jobs (s s' : Storage) := replicated_jobs s' = replicated_jobs s.
Definition same_config (s s' : Storage) := replicated_config s' = replicated_config s.

Lemma catalog_agrees_same m s s' : same_catalog s s' -> catalog_agrees m s -> catalog_agrees m s'.
Proof. unfold same_catalog, catalog_agrees. by intros ->. Qed.
Lemma jobs_agree_same m s s' : same_jobs s s' -> jobs_agree m s -> jobs_agree m s'.
Proof. unfold same_jobs, jobs_agree. by intros ->. Qed.
Lemma config_agrees_same m s s' : same_config s s' -> config_agrees m s -> config_agrees m s'.
Proof. unfold same_config, config_agrees, Storage_GetConfig. by intros ->. Qed.

Lemma put_job_row_job s job now :
  exists r c, replicated_jobs (put_job_row s job now) !! RJ_JobID job = Some (r, c) /\
    ((forall k r c, replicated_jobs s !! k = Some (r, c) -> RJ_JobID r = k) -> job_agrees job r).
Proof.
  unfold put_job_row. destruct (replicated_jobs s !! RJ_JobID job) as [[old c]|] eqn:Ho; simpl.
  - exists (merge_job old job), c. rewrite lookup_insert_eq. split; [done|].
    intros Hk. by repeat split; try apply (Hk _ _ _ Ho).
  - exists job, now. rewrite lookup_insert_eq. split; [done|]. by repeat split.
Qed.

Lemma put_job_row_other s job now k :
  k <> RJ_JobID job -> replicated_jobs (put_job_row s job now) !! k = replicated_jobs s !! k.
Proof.
  intros Hk. unfold put_job_row. destruct (replicated_jobs s !! RJ_JobID job) as [[old c]|]; simpl;
    by rewrite lookup_insert_ne.
Qed.

Lemma put_job_row_rows s job now :
  (forall k r c, replicated_jobs s !! k = Some (r, c) -> RJ_JobID r = k) ->
  forall k r c, replicated_jobs (put_job_row s job now) !! k = Some (r, c) -> RJ_JobID r = k.
Proof.
  intros Hrows k r c Hk. destruct (decide (k = RJ_JobID job)) as [->|Hne].
  - destruct (put_job_row_job s job now) as (r' & c' & Hr' & Hag).
    rewrite Hr' in Hk. simplify_eq. by apply Hag.
  - rewrite put_job_row_other in Hk by done. eauto.
Qed.

Lemma put_config_row_lookup s k v k' :
  Storage_GetConfig (put_config_row s k v) k' = if decide (k = k') then Some v else Storage_GetConfig s k'.
Proof.
  unfold Storage_GetConfig, put_config_row. destruct (replicated_config s !! k) as [[old ver]|]; simpl;
    (destruct (decide (k = k')) as [->|]; [by rewrite lookup_insert_eq|by rewrite lookup_insert_ne]).
Qed.

Lemma insert_catalog_agrees m s e :
  catalog_agrees m s ->
  catalog_agrees (<[catalog_key (RCE_TopicID e) (RCE_DatasetID e) := e]> m) (put_catalog_row s e).
Proof.
  intros Hm k e' [[<- <-]|[Hne He']]%lookup_insert_Some; simpl.
  - by rewrite lookup_insert_eq.
  - destruct (Hm k e' He') as [-> Hs]. split; [done|]. rewrite lookup_insert_ne; [done|].
    intros [= Ht Hd]. apply Hne. by rewrite Ht, Hd.
Qed.

Lemma insert_jobs_agree m s j now :
  jobs_agree m s -> (forall k r c, replicated_jobs s !! k = Some (r, c) -> RJ_JobID r = k) ->
  jobs_agree (<[RJ_JobID j := j]> m) (put_job_row s j now).
Proof.
  intros Hm Hrows k j' [[<- <-]|[Hne Hj']]%lookup_insert_Some.
  - split; [done|]. destruct (put_job_row_job s j now) as (r & c & ? & Hag). eauto.
  - destruct (Hm k j' Hj') as [-> Hs]. split; [done|]. by rewrite put_job_row_other.
Qed.

Lemma insert_config_agrees m s k v :
  config_agrees m s -> config_agrees (<[k := v]> m) (put_config_row s k v).
Proof.
  intros Hm k' v' [[<- <-]|[Hne Hv']]%lookup_insert_Some; rewrite put_config_row_lookup.
  - by rewrite decide_True.
  - rewrite decide_False by done. auto.
Qed.

Lemma StoreJoinToken_same s t s' :
  Storage_StoreJoinToken s t = Ok s' -> same_catalog s s' /\ same_jobs s s' /\ same_config s s'.
Proof. unfold Storage_StoreJoinToken. case_match; intros; by simplify_eq. Qed.

Section inv.
Context `{FsmCodec}.

Lemma NewFSM_inv n : fsm_inv (NewFSM (init_storage n)).
Proof. split; try (eexists; split; [reflexivity|]); try done; intros ? ?; by rewrite lookup_empty. Qed.

Lemma unmarshal_inv {A} f (v : option A) k :
  fsm_inv f -> (forall a, v = Some a -> fsm_inv (k a).1) -> fsm_inv (unmarshal f v k).1.
Proof. intros Hf Hk. destruct v; [by apply Hk|done]. Qed.

Lemma set_storage_same f : set_storage f (fsm_storage f) = f.
Proof. by destruct f. Qed.

Lemma catalog_delete_inv f req : fsm_inv f -> fsm_inv (fsm_catalog_delete f req).1.
Proof.
  intros [(mc & Hc & Hca) Hj Hg Hrows]. split; simpl; [|done..]. rewrite Hc. eexists. split; [done|].
  intros k e [? ?]%lookup_delete_Some. auto.
Qed.

Lemma config_delete_inv f key : fsm_inv f -> fsm_inv (fsm_config_delete f key).1.
Proof.
  intros [Hc Hj (mg & Hg & Hga) Hrows]. split; simpl; [done|done| |done]. rewrite Hg.
  eexists. split; [done|]. intros k v [? ?]%lookup_delete_Some. auto.
Qed.

Lemma token_create_inv io f t : fsm_inv f -> fsm_inv (fsm_token_create io f t).1.
Proof.
  intros Hf. pose proof Hf as [(mc & Hc & Hca) (mj & Hj & Hja) (mg & Hg & Hga) Hrows].
  unfold fsm_token_create. destruct io; [|done].
  destruct (Storage_StoreJoinToken _ t) as [s'|] eqn:Hs; [|done].
  destruct (StoreJoinToken_same _ _ _ Hs) as (Hs1 & Hs2 & Hs3). split; simpl.
  - eexists. split; [done|]. by eapply catalog_agrees_same.
  - eexists. split; [done|]. by eapply jobs_agree_same.
  - eexists. split; [done|]. by eapply config_agrees_same.
  - by rewrite Hs2.
Qed.

Lemma job_assign_inv f req now : fsm_inv f -> fsm_inv (fsm_job_assign true f req now).1.
Proof.
  intros Hf. pose proof Hf as [Hc (mj & Hj & Hja) Hg Hrows]. unfold fsm_job_assign. rewrite Hj. simpl.
  destruct (mj !! req.1) as [job|] eqn:Hjob; [|done]. destruct (Hja _ _ Hjob) as [Hid _].
  split; simpl; [done| |done|].
  - eexists. split; [done|]. rewrite Hid.
    exact (insert_jobs_agree mj (fsm_storage f) (assign_job job req.2) now Hja Hrows).
  - exact (put_job_row_rows (fsm_storage f) (assign_job job req.2) now Hrows).
Qed.

(** The three writes that fail before the map is touched. *)
Lemma catalog_update_inv io f e : fsm_inv f -> fsm_inv (fsm_catalog_update io f e).1.
Proof.
  intros Hf. unfold fsm_catalog_update, stored. destruct io; simpl; [|by rewrite set_storage_same].
  destruct Hf as [(mc & Hc & Hca) Hj Hg Hrows]. rewrite Hc. split; simpl; [|done..].
  eexists. split; [done|]. by apply insert_catalog_agrees.
Qed.

Lemma job_update_inv io f j now : fsm_inv f -> fsm_inv (fsm_job_update io f j now).1.
Proof.
  intros Hf. unfold fsm_job_update, stored. destruct io; simpl; [|by rewrite set_storage_same].
  destruct Hf as [Hc (mj & Hj & Hja) Hg Hrows]. rewrite Hj. split; simpl; [done| |done|].
  - eexists. split; [done|]. by apply insert_jobs_agree.
  - by apply put_job_row_rows.
Qed.

Lemma config_set_inv io f req : fsm_inv f -> fsm_inv (fsm_config_set io f req).1.
Proof.
  intros Hf. unfold fsm_config_set, stored. destruct io; simpl; [|by rewrite set_storage_same].
  destruct Hf as [Hc Hj (mg & Hg & Hga) Hrows]. rewrite Hg. split; simpl; [done|done| |done].
  eexists. split; [done|]. by apply insert_config_agrees.
Qed.

(** The one command that runs ahead of its table when its write fails. *)
Definition assigns (data : list Z) : Prop :=
  exists cmd, decode_command data = Some cmd /\ Command_Type cmd = CmdJobAssign.

Lemma FSM_Apply_inv io f data now :
  fsm_inv f -> (assigns data -> io = true) -> fsm_inv (FSM_Apply io f data now).1.
Proof.
  intros Hf Hio. unfold FSM_Apply. apply unmarshal_inv; [done|]. intros cmd Hcmd. cbv zeta.
  repeat (case_match; [apply unmarshal_inv; [done|]; intros a _|]); [..|done].
  - by apply catalog_update_inv.
  - by apply catalog_delete_inv.
  - by apply job_update_inv.
  - rewrite Hio by (exists cmd; split; [done|]; by apply Z.eqb_eq). by apply job_assign_inv.
  - by apply config_set_inv.
  - by apply config_delete_inv.
  - by apply token_create_inv.
Qed.

(** ** Restoring *)

Lemma store_entries_agree (l : list (string * ReplicatedCatalogEntry)) s :
  (forall k e, (k, e) ∈ l -> k = catalog_key (RCE_TopicID e) (RCE_DatasetID e)) -> NoDup l.*1 ->
  forall k e, (k, e) ∈ l ->
    replicated_catalog (foldr (fun ke s => put_catalog_row s ke.2) s l)
      !! (RCE_TopicID e, RCE_DatasetID e) = Some e.
Proof.
  induction l as [|[k0 e0] l IH]; intros Hkey Hnd k e Hin; [set_solver|].
  apply NoDup_cons in Hnd as [Hni Hnd]. simpl.
  apply elem_of_cons in Hin as [[= <- <-]|Hin]; [by rewrite lookup_insert_eq|].
  rewrite lookup_insert_ne.
  - apply (IH ltac:(set_solver) Hnd k). done.
  - intros [= Ht Hd]. apply Hni. apply list_elem_of_fmap. exists (k, e). split; [|done].
    rewrite (Hkey k0 e0) by set_solver. rewrite (Hkey k e) by set_solver. by rewrite Ht, Hd.
Qed.

Lemma store_jobs_rows (l : list (string * ReplicatedJob)) s now :
  (forall k r c, replicated_jobs s !! k = Some (r, c) -> RJ_JobID r = k) ->
  forall k r c, replicated_jobs (foldr (fun kj s => put_job_row s kj.2 now) s l) !! k = Some (r, c) ->
    RJ_JobID r = k.
Proof. intros Hs. induction l as [|kj l IH]; [done|]. simpl. by apply put_job_row_rows. Qed.

Lemma store_jobs_agree (l : list (string * ReplicatedJob)) s now :
  (forall k j, (k, j) ∈ l -> k = RJ_JobID j) -> NoDup l.*1 ->
  (forall k r c, replicated_jobs s !! k = Some (r, c) -> RJ_JobID r = k) ->
  forall k j, (k, j) ∈ l ->
    exists r c, replicated_jobs (foldr (fun kj s => put_job_row s kj.2 now) s l) !! k = Some (r, c) /\
      job_agrees j r.
Proof.
  induction l as [|[k0 j0] l IH]; intros Hkey Hnd Hrows k j Hin; [set_solver|].
  apply NoDup_cons in Hnd as [Hni Hnd]. cbn [foldr fst snd].
  apply elem_of_cons in Hin as [[= -> ->]|Hin].
  - rewrite (Hkey k0 j0) by set_solver.
    destruct (put_job_row_job (foldr (fun kj s => put_job_row s kj.2 now) s l) j0 now) as (r & c & Hr & Hag).
    exists r, c. split; [done|]. apply Hag. by apply store_jobs_rows.
  - rewrite put_job_row_other.
    + apply IH; try done. set_solver.
    + intros Heq. apply Hni. apply list_elem_of_fmap. exists (k, j). split; [|done]. simpl.
      rewrite Heq. symmetry. rewrite (Hkey k0 j0) by set_solver. done.
Qed.

Lemma store_config_agrees (l : list (string * list Z)) s :
  NoDup l.*1 -> forall k v, (k, v) ∈ l ->
    Storage_GetConfig (foldr (fun kv s => put_config_row s kv.1 kv.2) s l) k = Some v.
Proof.
  induction l as [|[k0 v0] l IH]; intros Hnd k v Hin; [set_solver|].
  apply NoDup_cons in Hnd as [Hni Hnd]. cbn [foldr fst snd]. rewrite put_config_row_lookup.
  apply elem_of_cons in Hin as [[= -> ->]|Hin]; [by rewrite decide_True|].
  rewrite decide_False; [by apply IH|]. intros ->. apply Hni, list_elem_of_fmap. by exists (k, v).
Qed.

Lemma foldr_same {A B} (tbl : Storage -> B) (op : A -> Storage -> Storage) s l :
  (forall a s, tbl (op a s) = tbl s) -> tbl (foldr op s l) = tbl s.
Proof. intros Hop. induction l as [|a l IH]; [done|]. simpl. by rewrite Hop. Qed.

(** A loop that comes to its end has made every write, the last entry last. *)
Lemma store_each_done {A} store (put : Storage -> A -> Storage) io n l s s' :
  (forall io s a, store io s a = if io : bool then (put s a, None) else (s, Some ErrDatabase)) ->
  store_each store io n l s = (s', None) -> s' = foldr (fun a s => put s a) s (rev l).
Proof.
  intros Hst. revert n s. induction l as [|a l IH]; intros n s; cbn [store_each]; [by intros [= <-]|].
  rewrite Hst. destruct (io n); [|done]. intros Hs%IH. cbn [rev]. by rewrite foldr_app.
Qed.

Lemma store_each_total {A} store (put : Storage -> A -> Storage) io n l s :
  (forall io s a, store io s a = if io : bool then (put s a, None) else (s, Some ErrDatabase)) ->
  (forall k, io k = true) -> (store_each store io n l s).2 = None.
Proof.
  intros Hst Hio. revert n s. induction l as [|a l IH]; intros n s; [done|]. cbn [store_each]. by rewrite Hst, Hio.
Qed.

Lemma stored_done f r k f' : stored f r k = (f', None) -> r.2 = None /\ k (set_storage f r.1) = (f', None).
Proof. unfold stored. by destruct r as [s [e|]]. Qed.

(** The maps of a snapshot a machine writes: entries under their own keys. *)
Definition well_keyed (sn : Snapshot) : Prop :=
  exists mc mj mg, sn = mkSnapshot (Some mc) (Some mj) (Some mg) /\
    (forall k e, mc !! k = Some e -> k = catalog_key (RCE_TopicID e) (RCE_DatasetID e)) /\
    (forall k j, mj !! k = Some j -> k = RJ_JobID j).

(** The tables after a restore whose writes went through. *)
Definition restored_storage (s : Storage) mc mj mg (now : Time) : Storage :=
  let s := foldr (fun (ke : string * ReplicatedCatalogEntry) s => put_catalog_row s ke.2) s (rev (map_to_list mc)) in
  let s := foldr (fun (kj : string * ReplicatedJob) s => put_job_row s kj.2 now) s (rev (map_to_list mj)) in
  foldr (fun (kv : string * list Z) s => put_config_row s kv.1 kv.2) s (rev (map_to_list mg)).

Lemma FSM_Restore_done io f data now mc mj mg :
  decode_snapshot data = Some (mkSnapshot (Some mc) (Some mj) (Some mg)) ->
  (FSM_Restore io f data now).2 = None ->
  (FSM_Restore io f data now).1 =
    mkFSM (restored_storage (fsm_storage f) mc mj mg now) (Some mc) (Some mj) (Some mg).
Proof.
  intros Hdec Hok. destruct (FSM_Restore io f data now) as [f' err] eqn:Hr. simpl in Hok. subst err.
  unfold FSM_Restore in Hr. rewrite Hdec in Hr. cbn [unmarshal Snapshot_Catalog Snapshot_Jobs Snapshot_Config] in Hr.
  apply stored_done in Hr as [H1 Hr]. apply stored_done in Hr as [H2 Hr]. apply stored_done in Hr as [H3 [= <-]].
  unfold set_storage, map_values in *. cbn [fsm_storage fsm_catalog fsm_jobs fsm_config fmap option_fmap option_map from_option fst snd] in *.
  destruct (store_each _ (io 0) _ _ _) as [s1 e1] eqn:E1. cbn [fst snd] in *. subst e1.
  destruct (store_each _ (io 1) _ _ _) as [s2 e2] eqn:E2. cbn [fst snd] in *. subst e2.
  destruct (store_each _ (io 2) _ _ _) as [s3 e3] eqn:E3. cbn [fst snd] in *. subst e3.
  apply (store_each_done _ (fun s ke => put_catalog_row s ke.2)) in E1; [|done].
  apply (store_each_done _ (fun s kj => put_job_row s kj.2 now)) in E2; [|done].
  apply (store_each_done _ (fun s kv => put_config_row s kv.1 kv.2)) in E3; [|done]. by subst.
Qed.

Lemma elem_of_rev {A} (a : A) l : a ∈ rev l <-> a ∈ l.
Proof. by rewrite !list_elem_of_In, <- in_rev. Qed.

Lemma NoDup_fst_rev {A} (m : gmap string A) : NoDup (rev (map_to_list m)).*1.
Proof. 
  change (NoDup (map fst (rev (map_to_list m)))). rewrite map_rev.
  rewrite <- Permutation_rev. apply NoDup_fst_map_to_list.
 Qed.

Lemma restored_inv s mc mj mg now :
  (forall k e, mc !! k = Some e -> k = catalog_key (RCE_TopicID e) (RCE_DatasetID e)) ->
  (forall k j, mj !! k = Some j -> k = RJ_JobID j) ->
  (forall k r c, replicated_jobs s !! k = Some (r, c) -> RJ_JobID r = k) ->
  fsm_inv (mkFSM (restored_storage s mc mj mg now) (Some mc) (Some mj) (Some mg)).
Proof.
  intros Hkc Hkj Hrows0. unfold restored_storage. cbv zeta.
  set (s1 := foldr _ s _). set (s2 := foldr _ s1 _). set (s3 := foldr _ s2 _).
  assert (replicated_jobs s1 = replicated_jobs s) as H01 by by apply foldr_same.
  assert (replicated_catalog s3 = replicated_catalog s1) as H13.
  { unfold s3, s2. rewrite !foldr_same; done. }
  assert (replicated_jobs s3 = replicated_jobs s2) as H23 by by apply foldr_same.
  assert (forall k r c, replicated_jobs s1 !! k = Some (r, c) -> RJ_JobID r = k) as Hrows by by rewrite H01.
  split; cbn [fsm_storage fsm_catalog fsm_jobs fsm_config].
  - exists mc. split; [done|]. intros k e He. split; [by apply Hkc|]. rewrite H13.
    apply (store_entries_agree (rev (map_to_list mc)) s) with k; [|apply NoDup_fst_rev|by apply elem_of_rev, elem_of_map_to_list].
    intros k' e' Hin%elem_of_rev%elem_of_map_to_list. by apply Hkc.
  - exists mj. split; [done|]. intros k j Hj. split; [by apply Hkj|]. rewrite H23.
    apply (store_jobs_agree (rev (map_to_list mj)) s1); [|apply NoDup_fst_rev|done|by apply elem_of_rev, elem_of_map_to_list].
    intros k' j' Hin%elem_of_rev%elem_of_map_to_list. by apply Hkj.
  - exists mg. split; [done|]. intros k v Hv.
    apply store_config_agrees; [apply NoDup_fst_rev|by apply elem_of_rev, elem_of_map_to_list].
  - rewrite H23. by apply store_jobs_rows.
Qed.

Lemma FSM_Restore_inv io f data now sn :
  fsm_inv f -> decode_snapshot data = Some sn -> well_keyed sn -> (FSM_Restore io f data now).2 = None ->
  fsm_inv (FSM_Restore io f data now).1.
Proof.
  intros Hf Hdec (mc & mj & mg & -> & Hkc & Hkj) Hok. rewrite (FSM_Restore_done io f data now mc mj mg) by done.
  apply restored_inv; [done|done|apply Hf].
Qed.

(** ** Properties *)

(** The steps of a machine: commands of the log, whose writes may fail, and snapshots
    a machine wrote.  Left out are the two calls that change a map before they write:
    an assignment of a job and a restore, when their writes fail. *)
Inductive fsm_step : FSM -> FSM -> Prop :=
| fsm_step_apply io f data now :
    (assigns data -> io = true) -> fsm_step f (FSM_Apply io f data now).1
| fsm_step_restore io f data now sn :
    decode_snapshot data = Some sn -> well_keyed sn -> (FSM_Restore io f data now).2 = None ->
    fsm_step f (FSM_Restore io f data now).1.

Lemma fsm_reachable_inv n f : rtc fsm_step (NewFSM (init_storage n)) f -> fsm_inv f.
Proof.
  intros Hr.
  apply (rtc_ind_r (R := fsm_step) fsm_inv (NewFSM (init_storage n))); [apply NewFSM_inv| |done].
  intros g g' _ Hstep Hg. destruct Hstep; [by apply FSM_Apply_inv|by eapply FSM_Restore_inv].
Qed.

(** C7: a machine starts with empty maps, applies any commands, whose writes fail or
    not, and restores snapshots that hold their entries under their own keys, which are
    those a machine writes.  If no write of a job's assignment and of a restore fails,
    then its three maps are never nil, every catalog entry and every configuration value
    in memory is in its table, and every job in memory has a row with its node, status,
    priority and metadata; and its own snapshot again is such a one. *)
Theorem fsm_cache_in_storage n f (Hr : rtc fsm_step (NewFSM (init_storage n)) f) :
  (exists mc, fsm_catalog f = Some mc /\ forall k e, mc !! k = Some e ->
     replicated_catalog (fsm_storage f) !! (RCE_TopicID e, RCE_DatasetID e) = Some e) /\
  (exists mj, fsm_jobs f = Some mj /\ forall k j, mj !! k = Some j -> exists r created,
     replicated_jobs (fsm_storage f) !! RJ_JobID j = Some (r, created) /\
     RJ_AssignedNode r = RJ_AssignedNode j /\ RJ_Status r = RJ_Status j /\
     RJ_Priority r = RJ_Priority j /\ RJ_Metadata r = RJ_Metadata j) /\
  (exists mg, fsm_config f = Some mg /\ forall k v, mg !! k = Some v ->
     Storage_GetConfig (fsm_storage f) k = Some v) /\
  well_keyed (mkSnapshot (fsm_catalog f) (fsm_jobs f) (fsm_config f)).
Proof.
  apply fsm_reachable_inv in Hr as [(mc & Hc & Hca) (mj & Hj & Hja) (mg & Hg & Hga) _].
  split_and!.
  - exists mc. split; [done|]. intros k e He. by apply (Hca k).
  - exists mj. split; [done|]. intros k j Hk. destruct (Hja k j Hk) as (-> & r & c & Hr & Hag). exists r, c.
    split; [done|]. by destruct Hag as (_ & ? & ? & ? & ?).
  - by exists mg.
  - exists mc, mj, mg. rewrite Hc, Hj, Hg. split; [done|]. split.
    + intros k e He. by apply Hca.
    + intros k j Hk. by apply Hja.
Qed.

(** A restore whose writes go through gives a machine the maps of the snapshot; one whose
    writes fail does so too, and reports an error with the tables left behind. *)
Theorem FSM_Restore_maps io f data now sn
    (Hdec : decode_snapshot data = Some sn) :
  let '(f', err) := FSM_Restore io f data now in
  fsm_catalog f' = Snapshot_Catalog sn /\ fsm_jobs f' = Snapshot_Jobs sn /\ fsm_config f' = Snapshot_Config sn /\
  ((forall i n, io i n = true) -> err = None).
Proof.
  unfold FSM_Restore. rewrite Hdec. cbn [unmarshal]. unfold stored.
  pose proof (store_each_total (fun io s (ke : string * ReplicatedCatalogEntry) => StoreCatalogEntry io s ke.2)
                (fun s ke => put_catalog_row s ke.2) (io 0) 0) as T1.
  pose proof (store_each_total (fun io s (kj : string * ReplicatedJob) => StoreJob io s kj.2 now)
                (fun s kj => put_job_row s kj.2 now) (io 1) 0) as T2.
  pose proof (store_each_total (fun io s (kv : string * list Z) => StoreConfig io s kv.1 kv.2)
                (fun s kv => put_config_row s kv.1 kv.2) (io 2) 0) as T3.
  cbn [fsm_storage fsm_catalog fsm_jobs fsm_config set_storage].
  destruct (store_each _ (io 0) _ _ _) as [s1 [e1|]] eqn:E1; cbn; [|destruct (store_each _ (io 1) _ _ _) as [s2 [e2|]] eqn:E2; cbn;
    [|destruct (store_each _ (io 2) _ _ _) as [s3 [e3|]] eqn:E3; cbn]].
  - split_and!; try done. intros Hio. specialize (T1 (map_values (Snapshot_Catalog sn)) (fsm_storage f) ltac:(done) (Hio 0)).
    by rewrite E1 in T1.
  - split_and!; try done. intros Hio. specialize (T2 (map_values (Snapshot_Jobs sn)) s1 ltac:(done) (Hio 1)).
    by rewrite E2 in T2.
  - split_and!; try done. intros Hio. specialize (T3 (map_values (Snapshot_Config sn)) s2 ltac:(done) (Hio 2)).
    by rewrite E3 in T3.
  - by split_and!.
Qed.

(** Deleting a catalog entry or a configuration value changes memory only:
    the row stays in the table. *)
Theorem deletes_keep_rows (f : FSM) (req : string * string) (key : string) :
  map_get (fsm_catalog (fsm_catalog_delete f req).1) (catalog_key req.1 req.2) = None /\
  fsm_storage (fsm_catalog_delete f req).1 = fsm_storage f /\
  map_get (fsm_config (fsm_config_delete f key).1) key = None /\
  fsm_storage (fsm_config_delete f key).1 = fsm_storage f.
Proof.
  split_and!; try done; unfold map_get, fsm_catalog_delete, fsm_config_delete, map_delete; simpl.
  - destruct (fsm_catalog f); simpl; [apply lookup_delete_eq|done].
  - destruct (fsm_config f); simpl; [apply lookup_delete_eq|done].
Qed.
End inv.

(** The key of an entry in memory does not tell the topic from the dataset
    when their names contain a slash: two entries the table keeps apart share
    one key, and the second replaces the first in memory. *)
Theorem catalog_key_collision :
  let e1 := mkRCE "a/b" "c" "h1" 1 1 "p" 0 in
  let e2 := mkRCE "a" "b/c" "h2" 1 1 "p" 0 in
  let f := (fsm_catalog_update true (fsm_catalog_update true (NewFSM (init_storage 3)) e1).1 e2).1 in
  FSM_GetCatalog f = {[ "a/b/c"%string := e2 ]} /\
  replicated_catalog (fsm_storage f) !! ("a/b", "c")%string = Some e1 /\
  replicated_catalog (fsm_storage f) !! ("a", "b/c")%string = Some e2.
Proof. split_and!; vm_compute; reflexivity. Qed.

(** ** A concrete codec *)

#[export] Instance RCE_eq_dec : EqDecision ReplicatedCatalogEntry.
Proof. solve_decision. Defined.
#[export] Instance RJ_eq_dec : EqDecision ReplicatedJob.
Proof. solve_decision. Defined.
#[export] Instance Snapshot_eq_dec : EqDecision Snapshot.
Proof. solve_decision. Defined.

(** A command is its type followed by its data; the only snapshot with a text is
    the given one; a configuration value is one byte stored under [k]. *)
Program Definition toy_fsm_codec (sn : Snapshot) : FsmCodec := {|
  decode_command bs := match bs with t :: d => Some (mkCommand t d) | [] => None end;
  decode_entry _ := Some (mkRCE "t" "d" "h" 1 1 "p" 0);
  decode_catalog_delete _ := Some ("t", "d")%string;
  decode_job _ := Some (mkRJ "j" "etl" "" "pending" 1 "" []);
  decode_job_assign _ := Some ("j", "n1")%string;
  decode_config_set bs := Some ("k"%string, bs);
  decode_config_delete _ := Some "k"%string;
  decode_token _ := None;
  decode_snapshot _ := Some sn;
  encode_command c := Some (Command_Type c :: Command_Data c);
  encode_token _ := None;
  encode_snapshot s := if decide (s = sn) then Some [] else None;
  encode_members _ := Some [];
  faithful_token _ := True;
  faithful_snapshot _ := True
|}.
Next Obligation. intros sn [t d] bs H. simpl in *. by simplify_eq. Qed.
Next Obligation. intros sn t bs _ H. done. Qed.
Next Obligation. intros sn s bs _ H. simpl in *. case_decide; by simplify_eq. Qed.

Section toy.
Definition toy_snapshot : Snapshot := mkSnapshot (Some ∅) (Some ∅) (Some {[ "k"%string := [42%Z] ]}).
Local Existing Instance toy_fsm_codec.

Definition toy_log : list (list Z) := [[CmdCatalogUpdate]; [CmdConfigSet; 42]; [CmdCatalogDelete]]%Z.
Definition toy_run (f : FSM) (t : list Z -> Time) : FSM :=
  fold_left (fun f d => (@FSM_Apply (toy_fsm_codec toy_snapshot) true f d (t d)).1) toy_log f.

Lemma toy_steps f t : rtc (@fsm_step (toy_fsm_codec toy_snapshot)) f (toy_run f t).
Proof.
  unfold toy_run. generalize toy_log. intros log. revert f.
  induction log as [|d log IH]; intros f; [apply rtc_refl|].
  eapply rtc_l; [by apply fsm_step_apply|apply IH].
Qed.

Lemma fsm_cache_in_storage_witness :
  exists m, fsm_config (toy_run (NewFSM (init_storage 3)) (fun _ => 1%Z)) = Some m /\
    forall k v, m !! k = Some v ->
      Storage_GetConfig (fsm_storage (toy_run (NewFSM (init_storage 3)) (fun _ => 1%Z))) k = Some v.
Proof.
  exact (proj1 (proj2 (proj2 (@fsm_cache_in_storage (toy_fsm_codec toy_snapshot) 3 _
           (toy_steps (NewFSM (init_storage 3)) (fun _ => 1%Z)))))).
Defined.

Lemma FSM_Restore_maps_witness :
  fsm_config (@FSM_Restore (toy_fsm_codec toy_snapshot) (fun _ _ => false) (NewFSM (init_storage 3)) [] 1).1 =
    Some {[ "k"%string := [42%Z] ]}.
Proof.
  pose proof (@FSM_Restore_maps (toy_fsm_codec toy_snapshot) (fun _ _ => false) (NewFSM (init_storage 3)) [] 1
                toy_snapshot eq_refl) as H.
  exact (proj1 (proj2 (proj2 H))).
Defined.

(** Both calls that change memory first leave it ahead of the tables: a job is assigned
    in memory and pending in its table, and a value that was restored is in no table. *)
Example failed_writes_run_ahead :
  let f := (fsm_job_update true (NewFSM (init_storage 3)) (mkRJ "j" "etl" "" "pending" 1 "" []) 1).1 in
  let '(f', err) := fsm_job_assign false f ("j", "n1")%string 2 in
  let '(g, err') := @FSM_Restore (toy_fsm_codec toy_snapshot) (fun _ _ => false) (NewFSM (init_storage 3)) [] 1 in
  (RJ_Status <$> FSM_GetJob f' "j", err) = (Some "assigned"%string, Some (ErrStorage ErrDatabase)) /\
  (fun r : ReplicatedJob * Time => RJ_Status r.1) <$> replicated_jobs (fsm_storage f') !! "j"%string = Some "pending"%string /\
  (FSM_GetConfig g "k", err') = (Some [42%Z], Some (ErrStorage ErrDatabase)) /\
  Storage_GetConfig (fsm_storage g) "k" = None.
Proof. vm_compute. by split_and!. Qed.

(** A write that fails on one of two machines that apply the same log leaves them apart:
    nothing tells the log of it. *)
Example failed_write_parts_replicas :
  let c := @FSM_Apply (toy_fsm_codec toy_snapshot) in
  let f := NewFSM (init_storage 3) in
  FSM_GetConfig (c true f [CmdConfigSet; 42]%Z 1%Z).1 "k" = Some [42%Z] /\
  FSM_GetConfig (c false f [CmdConfigSet; 42]%Z 1%Z).1 "k" = None.
Proof. vm_compute. by split_and!. Qed.
End toy.
