(* ===== verification/Cluster.v ===== *)
(** * The cluster node ([internal/cluster/raft.go], [internal/cluster/cluster.go])

    The Raft node and the cluster manager on top of it.  The node's channels are
    queues with their capacity; the [FSM] holds the storage the node and the
    manager share.  Where Go's [select] has two ready cases the choice is an
    argument.  [etcd/raft] itself is not in the repository: the node is the
    placeholder the source says it is, and the theorems say what that means. *)
From stdpp Require Import base gmap strings list pretty relations.
From Stdlib Require Import ZArith Lia.
From S2P Require Import Prelude GoStrings RaftStorage Fsm.

(** The part of [config.ClusterConfig] the two files read. *)
Record ClusterConfig := mkClusterConfig {
  ClusterConfig_Enabled : bool;
  ClusterConfig_NodeID : string;
  ClusterConfig_ClusterName : string;
  ClusterConfig_ListenAddr : string;
  ClusterConfig_AdvertiseAddr : string;
  ClusterConfig_Bootstrap : bool;
  ClusterConfig_JoinToken : string;
  ClusterConfig_JoinAddrs : list string;
  ClusterConfig_TrailingLogs : Z;
  ClusterConfig_SnapshotInterval : Duration;
  ClusterConfig_SnapshotThreshold : Z;
  ClusterConfig_RetainCount : Z
}.

Definition MinimumVoters : Z := 3.

Inductive ClusterError :=
| ErrNotLeader
| ErrClusterNotReady
| ErrNoQuorum
| ErrNodeNotFound
| ErrAlreadyMember
| ErrMinimumNodes
| ErrAlreadyBootstrapped
| ErrContextCanceled
| ErrProposalChannelFull
| ErrConfChangeChannelFull
| ErrTargetNotVoter
| ErrRandomSource
| ErrMarshalConfig
| ErrClusterStorage (e : StorageError)
| ErrFsm (e : FsmError).

Record confChange := mkConfChange {
  cc_nodeID : string; cc_address : string; cc_isAdd : bool; cc_isVoter : bool
}.

Record commit := mkCommit { commit_index : Z; commit_term : Z; commit_data : list Z }.

Record RaftNode := mkRaftNode {
  rn_cfg : ClusterConfig;
  rn_nodeID : string;
  rn_fsm : FSM;
  rn_state : NodeState;
  rn_leader : string;
  rn_term : Z;
  rn_commitIndex : Z;
  rn_appliedIndex : Z;
  rn_members : gmap string string;
  rn_proposeCh : list (list Z);
  rn_confChangeCh : list confChange;
  rn_commitCh : list commit;
  rn_cancelled : bool
}.

Definition proposeCap : nat := 256.
Definition confChangeCap : nat := 16.

Definition rn_with (rn : RaftNode) (fsm : FSM) (state : NodeState) (leader : string) (term : Z)
    (members : gmap string string) : RaftNode :=
  mkRaftNode (rn_cfg rn) (rn_nodeID rn) fsm state leader term (rn_commitIndex rn)
    (rn_appliedIndex rn) members (rn_proposeCh rn) (rn_confChangeCh rn) (rn_commitCh rn)
    (rn_cancelled rn).
Definition rn_set_fsm (rn : RaftNode) (fsm : FSM) : RaftNode :=
  rn_with rn fsm (rn_state rn) (rn_leader rn) (rn_term rn) (rn_members rn).
Definition rn_set_queues (rn : RaftNode) (p : list (list Z)) (c : list confChange) : RaftNode :=
  mkRaftNode (rn_cfg rn) (rn_nodeID rn) (rn_fsm rn) (rn_state rn) (rn_leader rn) (rn_term rn)
    (rn_commitIndex rn) (rn_appliedIndex rn) (rn_members rn) p c (rn_commitCh rn) (rn_cancelled rn).

(** ** raft.go *)

(** [loadState]: term, commit index and members from the storage. *)
Definition loadState (rn : RaftNode) : RaftNode :=
  let s := fsm_storage (rn_fsm rn) in
  let state := GetHardState s in
  mkRaftNode (rn_cfg rn) (rn_nodeID rn) (rn_fsm rn) (rn_state rn) (rn_leader rn)
    (HardState_Term state) (HardState_Commit state) (rn_appliedIndex rn)
    (fold_left (fun m mem => <[ClusterMember_NodeID mem := ClusterMember_Address mem]> m)
       (GetMembers s) (rn_members rn))
    (rn_proposeCh rn) (rn_confChangeCh rn) (rn_commitCh rn) (rn_cancelled rn).

Definition NewRaftNode (cfg : ClusterConfig) (nodeID : string) (fsm : FSM) : RaftNode :=
  loadState (mkRaftNode cfg nodeID fsm StateFollower "" 0 0 0 ∅ [] [] [] false).

(** The state saved has no vote. *)
Definition Shutdown (rn : RaftNode) : RaftNode * option ClusterError :=
  let f := rn_fsm rn in
  let rn := mkRaftNode (rn_cfg rn) (rn_nodeID rn) f (rn_state rn) (rn_leader rn) (rn_term rn)
              (rn_commitIndex rn) (rn_appliedIndex rn) (rn_members rn) (rn_proposeCh rn)
              (rn_confChangeCh rn) (rn_commitCh rn) true in
  match SetHardState (fsm_storage f) (mkHardState (rn_term rn) "" (rn_commitIndex rn)) with
  | Err e => (rn, Some (ErrClusterStorage e))
  | Ok s => (rn_set_fsm rn (set_storage f s), None)
  end.

Definition Raft_Bootstrap (rn : RaftNode) (nodeID address : string) : RaftNode * option ClusterError :=
  if (0 <? size (rn_members rn))%nat then (rn, Some ErrAlreadyBootstrapped)
  else
    let s := AddMember (fsm_storage (rn_fsm rn))
               (mkClusterMember nodeID address RoleVoter "" zero_time false 0 "") in
    let rn := rn_with rn (set_storage (rn_fsm rn) s) StateLeader nodeID 1
                (<[nodeID := address]> (rn_members rn)) in
    match SetHardState s (mkHardState (rn_term rn) nodeID 0) with
    | Err e => (rn, Some (ErrClusterStorage e))
    | Ok s => (rn_set_fsm rn (set_storage (rn_fsm rn) s), None)
    end.

(** [pick_send] decides when both the channel and the context are ready. *)
Definition Raft_Apply (rn : RaftNode) (cmd : list Z) (pick_send : bool) : RaftNode * option ClusterError :=
  if rn_state rn <>? StateLeader then (rn, Some ErrNotLeader)
  else
    let room := (length (rn_proposeCh rn) <? proposeCap)%nat in
    if room && (negb (rn_cancelled rn) || pick_send)
    then (rn_set_queues rn (rn_proposeCh rn ++ [cmd]) (rn_confChangeCh rn), None)
    else if rn_cancelled rn then (rn, Some ErrContextCanceled)
    else (rn, Some ErrProposalChannelFull).

Definition send_confChange (rn : RaftNode) (c : confChange) (pick_send : bool)
    : RaftNode * option ClusterError :=
  if rn_state rn <>? StateLeader then (rn, Some ErrNotLeader)
  else
    let room := (length (rn_confChangeCh rn) <? confChangeCap)%nat in
    if room && (negb (rn_cancelled rn) || pick_send)
    then (rn_set_queues rn (rn_proposeCh rn) (rn_confChangeCh rn ++ [c]), None)
    else if rn_cancelled rn then (rn, Some ErrContextCanceled)
    else (rn, Some ErrConfChangeChannelFull).

Definition addMember (rn : RaftNode) (nodeID address : string) (isVoter pick_send : bool) :=
  send_confChange rn (mkConfChange nodeID address true isVoter) pick_send.
Definition Raft_AddVoter (rn : RaftNode) (nodeID address : string) := addMember rn nodeID address true.
Definition Raft_AddNonVoter (rn : RaftNode) (nodeID address : string) := addMember rn nodeID address false.
Definition Raft_RemoveNode (rn : RaftNode) (nodeID : string) (pick_send : bool) :=
  send_confChange rn (mkConfChange nodeID "" false false) pick_send.

Section raft.
Context `{FsmCodec}.

(** The error of the compaction is dropped; [index - TrailingLogs] wraps. *)
Definition Raft_TakeSnapshot (rn : RaftNode) (now1 now2 : Time) : RaftNode * option ClusterError :=
  let index := rn_appliedIndex rn in
  let term := rn_term rn in
  match FSM_Snapshot (rn_fsm rn) with
  | None => (rn, Some (ErrFsm ErrMarshal))
  | Some data =>
      match encode_members (rn_members rn) with
      | None => (rn, Some ErrMarshalConfig)
      | Some config =>
          let '(r, s) := CreateSnapshot (fsm_storage (rn_fsm rn)) index term config data now1 now2 in
          let rn := rn_set_fsm rn (set_storage (rn_fsm rn) s) in
          match r with
          | Err e => (rn, Some (ErrClusterStorage e))
          | Ok _ =>
              match DeleteRange s 0 (u64 (index - ClusterConfig_TrailingLogs (rn_cfg rn))) with
              | Err _ => (rn, None)
              | Ok s => (rn_set_fsm rn (set_storage (rn_fsm rn) s), None)
              end
          end
      end
  end.

Definition Raft_Restore (io : nat -> nat -> bool) (rn : RaftNode) (snapshotID : string) (now : Time)
    : RaftNode * option ClusterError :=
  match ReadSnapshot (fsm_storage (rn_fsm rn)) snapshotID with
  | Err e => (rn, Some (ErrClusterStorage e))
  | Ok data =>
      let '(f, err) := FSM_Restore io (rn_fsm rn) data now in
      (rn_set_fsm rn f, ErrFsm <$> err)
  end.

(** One turn of [applyLoop] on the head of [commitCh]. *)
Definition applyLoop_turn (io : bool) (rn : RaftNode) (now : Time) : RaftNode :=
  match rn_commitCh rn with
  | [] => rn
  | c :: rest =>
      let '(f, err) := FSM_Apply io (rn_fsm rn) (commit_data c) now in
      let applied :=
        match err with
        | Some _ => rn_appliedIndex rn
        | None => if (rn_appliedIndex rn <? commit_index c)%Z then commit_index c
                  else rn_appliedIndex rn
        end in
      mkRaftNode (rn_cfg rn) (rn_nodeID rn) f (rn_state rn) (rn_leader rn) (rn_term rn)
        (rn_commitIndex rn) applied (rn_members rn) (rn_proposeCh rn) (rn_confChangeCh rn) rest
        (rn_cancelled rn)
  end.

(** One tick of [snapshotLoop], with the index of its last snapshot. *)
Definition snapshotLoop_tick (rn : RaftNode) (lastSnapshotIndex : Z) (now1 now2 : Time)
    : RaftNode * Z :=
  if (ClusterConfig_SnapshotInterval (rn_cfg rn) <=? 0)%Z then (rn, lastSnapshotIndex)
  else
    let currentIndex := rn_appliedIndex rn in
    if (ClusterConfig_SnapshotThreshold (rn_cfg rn) <=? u64 (currentIndex - lastSnapshotIndex))%Z
    then match Raft_TakeSnapshot rn now1 now2 with
         | (rn, Some _) => (rn, lastSnapshotIndex)
         | (rn, None) => (rn, currentIndex)
         end
    else (rn, lastSnapshotIndex).
End raft.

Definition Raft_TransferLeadership (rn : RaftNode) (target : string) : RaftNode * option ClusterError :=
  if rn_state rn <>? StateLeader then (rn, Some ErrNotLeader)
  else match rn_members rn !! target with
       | None => (rn, Some ErrNodeNotFound)
       | Some _ => (rn_with rn (rn_fsm rn) StateFollower target (rn_term rn) (rn_members rn), None)
       end.

(** ** cluster.go *)

Record Cluster := mkCluster {
  c_cfg : ClusterConfig;
  c_nodeID : string;
  c_state : NodeState;
  c_leader : string;
  c_term : Z;
  c_members : gmap string ClusterMember;
  c_raft : RaftNode
}.

Record ClusterStatus := mkClusterStatus {
  ClusterStatus_ClusterName : string;
  ClusterStatus_State : NodeState;
  ClusterStatus_Leader : string;
  ClusterStatus_Term : Z;
  ClusterStatus_CommitIndex : Z;
  ClusterStatus_AppliedIndex : Z;
  ClusterStatus_Members : list ClusterMember;
  ClusterStatus_VoterCount : Z;
  ClusterStatus_NonVoterCount : Z;
  ClusterStatus_HasQuorum : bool
}.

Definition is_voter (m : ClusterMember) : bool := ClusterMember_Role m =?= RoleVoter.
Definition members_list (c : Cluster) : list ClusterMember := map snd (map_to_list (c_members c)).

(** The loops of [countVoters] and [countHealthyVoters]. *)
Definition countVoters (c : Cluster) : Z :=
  fold_left (fun n m => if is_voter m then (n + 1)%Z else n) (members_list c) 0%Z.
Definition countHealthyVoters (c : Cluster) : Z :=
  fold_left (fun n m => if is_voter m && ClusterMember_IsHealthy m then (n + 1)%Z else n)
    (members_list c) 0%Z.

Definition Cluster_Status (c : Cluster) : ClusterStatus :=
  let '(voterCount, nonVoterCount) :=
    fold_left (fun (n : Z * Z) m => if is_voter m then (n.1 + 1, n.2)%Z else (n.1, n.2 + 1)%Z)
      (members_list c) (0, 0)%Z in
  let hasQuorum := (0 <? voterCount)%Z && (voterCount `quot` 2 <? countHealthyVoters c)%Z in
  mkClusterStatus (ClusterConfig_ClusterName (c_cfg c)) (c_state c) (c_leader c) (c_term c)
    (rn_commitIndex (c_raft c)) (rn_appliedIndex (c_raft c)) (members_list c)
    voterCount nonVoterCount hasQuorum.

Definition IsLeader (c : Cluster) : bool := c_state c =?= StateLeader.

Definition c_set_raft (c : Cluster) (rn : RaftNode) : Cluster :=
  mkCluster (c_cfg c) (c_nodeID c) (c_state c) (c_leader c) (c_term c) (c_members c) rn.

(** Run a method of the node on the node of the manager. *)
Definition on_raft (c : Cluster) (r : RaftNode * option ClusterError) : Cluster * option ClusterError :=
  (c_set_raft c r.1, r.2).

Definition Cluster_AddVoter (c : Cluster) (nodeID address : string) (pick : bool) :=
  if negb (IsLeader c) then (c, Some ErrNotLeader)
  else match c_members c !! nodeID with
       | Some _ => (c, Some ErrAlreadyMember)
       | None => on_raft c (Raft_AddVoter (c_raft c) nodeID address pick)
       end.

Definition Cluster_AddNonVoter (c : Cluster) (nodeID address : string) (pick : bool) :=
  if negb (IsLeader c) then (c, Some ErrNotLeader)
  else match c_members c !! nodeID with
       | Some _ => (c, Some ErrAlreadyMember)
       | None => on_raft c (Raft_AddNonVoter (c_raft c) nodeID address pick)
       end.

Definition Cluster_RemoveNode (c : Cluster) (nodeID : string) (pick : bool) :=
  if negb (IsLeader c) then (c, Some ErrNotLeader)
  else match c_members c !! nodeID with
       | None => (c, Some ErrNodeNotFound)
       | Some member =>
           if is_voter member && (countVoters c <=? MinimumVoters)%Z then (c, Some ErrMinimumNodes)
           else on_raft c (Raft_RemoveNode (c_raft c) nodeID pick)
       end.

Definition Cluster_TransferLeadership (c : Cluster) (target : string) :=
  if negb (IsLeader c) then (c, Some ErrNotLeader)
  else match c_members c !! target with
       | None => (c, Some ErrNodeNotFound)
       | Some m => if negb (is_voter m) then (c, Some ErrTargetNotVoter)
                   else on_raft c (Raft_TransferLeadership (c_raft c) target)
       end.

Definition Cluster_Apply (c : Cluster) (cmd : list Z) (pick : bool) :=
  if negb (IsLeader c) then (c, Some ErrNotLeader)
  else on_raft c (Raft_Apply (c_raft c) cmd pick).

(** The members the Raft node knows are added or refreshed; none is removed. *)
Definition update_member (now : Time) (old : option ClusterMember) (id addr : string) : ClusterMember :=
  match old with
  | Some m => mkClusterMember (ClusterMember_NodeID m) addr (ClusterMember_Role m) (ClusterMember_State m)
                now (ClusterMember_IsHealthy m) (ClusterMember_RaftIndex m) (ClusterMember_PeerID m)
  | None => mkClusterMember id addr RoleVoter StateFollower now true 0 ""
  end.

(** The call of [onLeaderChange], if any, is the second component. *)
Definition updateState (c : Cluster) (now : Time) : Cluster * option string :=
  let rn := c_raft c in
  let members := map_fold (fun id addr m => <[id := update_member now (m !! id) id addr]> m)
                   (c_members c) (rn_members rn) in
  (mkCluster (c_cfg c) (c_nodeID c) (rn_state rn) (rn_leader rn) (rn_term rn) members rn,
   if rn_leader rn <>? c_leader c then Some (rn_leader rn) else None).

Section cluster.
Context `{FsmCodec}.

(** [random] is what [rand.Read] gives, [None] when it fails. *)
Definition GenerateJoinToken (io : bool) (c : Cluster) (ttl : Duration) (random : option (list Z)) (now now2 : Time)
    : Cluster * result ClusterError JoinToken :=
  if negb (IsLeader c) then (c, Err ErrNotLeader)
  else match random with
       | None => (c, Err ErrRandomSource)
       | Some tokenBytes =>
           let token := mkJoinToken (ClusterConfig_ClusterName (c_cfg c))
                          (ClusterConfig_AdvertiseAddr (c_cfg c)) (EncodeToString tokenBytes)
                          (Add now ttl) in
           match FSM_StoreJoinToken io (rn_fsm (c_raft c)) token now2 with
           | (f, Some e) => (c_set_raft c (rn_set_fsm (c_raft c) f), Err (ErrFsm e))
           | (f, None) => (c_set_raft c (rn_set_fsm (c_raft c) f), Ok token)
           end
       end.

Definition Cluster_TakeSnapshot (c : Cluster) (now1 now2 : Time) :=
  on_raft c (Raft_TakeSnapshot (c_raft c) now1 now2).
Definition Cluster_Restore (io : nat -> nat -> bool) (c : Cluster) (snapshotID : string) (now : Time) :=
  on_raft c (Raft_Restore io (c_raft c) snapshotID now).
End cluster.

(** [New] and [Start] on a storage that was opened; [join] has no effect. *)
Definition Cluster_New (cfg : ClusterConfig) (random : option (list Z))
    : result ClusterError (option string) :=
  if negb (ClusterConfig_Enabled cfg) then Ok None
  else if ClusterConfig_NodeID cfg =?= ""%string then
    match random with
    | None => Err ErrRandomSource
    | Some b => Ok (Some (EncodeToString b))
    end
  else Ok (Some (ClusterConfig_NodeID cfg)).

Definition Cluster_Start (cfg : ClusterConfig) (nodeID : string) (storage : Storage)
    : Cluster * option ClusterError :=
  let rn := NewRaftNode cfg nodeID (NewFSM storage) in
  let c := mkCluster cfg nodeID StateFollower "" 0 ∅ rn in
  if ClusterConfig_Bootstrap cfg
  then on_raft c (Raft_Bootstrap rn nodeID (ClusterConfig_ListenAddr cfg))
  else (c, None).

(** * Theorems *)

(** ** Members and quorum *)

Lemma fold_count_Z {A} (p : A -> bool) l n :
  fold_left (fun n x => if p x then (n + 1)%Z else n) l n =
  (n + Z.of_nat (length (List.filter p l)))%Z.
Proof.
  revert n. induction l as [|x l IH]; intros n; simpl; [lia|]. rewrite IH. destruct (p x); simpl; lia.
Qed.

Lemma fold_count_pair {A} (p : A -> bool) l n :
  fold_left (fun (n : Z * Z) x => if p x then (n.1 + 1, n.2)%Z else (n.1, n.2 + 1)%Z) l n =
  (n.1 + Z.of_nat (length (List.filter p l)),
   n.2 + Z.of_nat (length (List.filter (fun x => negb (p x)) l)))%Z.
Proof.
  revert n. induction l as [|x l IH]; intros n; simpl.
  - destruct n; simpl; f_equal; lia.
  - rewrite IH. destruct (p x); simpl; f_equal; lia.
Qed.

Lemma filter_partition_length {A} (p : A -> bool) l :
  length (List.filter p l) + length (List.filter (fun x => negb (p x)) l) = length l.
Proof. induction l as [|x l IH]; simpl; [done|]. destruct (p x); simpl; lia. Qed.

Lemma majority_quot v h : (0 <= v)%Z -> ((v `quot` 2 < h)%Z <-> (v < 2 * h)%Z).
Proof.
  intros Hv. rewrite Z.quot_div_nonneg by lia. pose proof (Z.div_mod v 2).
  pose proof (Z.mod_pos_bound v 2). split; lia.
Qed.

(** The status counts every member once, as a voter or not, and reports a
    quorum exactly when a strict majority of the voters is healthy. *)
Theorem status_quorum (c : Cluster) :
  let st := Cluster_Status c in
  let voters := List.filter is_voter (members_list c) in
  ClusterStatus_VoterCount st = Z.of_nat (length voters) /\
  (ClusterStatus_VoterCount st + ClusterStatus_NonVoterCount st = Z.of_nat (size (c_members c)))%Z /\
  (ClusterStatus_HasQuorum st = true <->
     length voters < 2 * length (List.filter ClusterMember_IsHealthy voters)).
Proof.
  cbv zeta. unfold Cluster_Status, countHealthyVoters. rewrite fold_count_pair, fold_count_Z.
  cbn [ClusterStatus_VoterCount ClusterStatus_NonVoterCount ClusterStatus_HasQuorum fst snd].
  rewrite !Z.add_0_l. split; [done|]. split.
  { rewrite <- Nat2Z.inj_add, filter_partition_length. f_equal. unfold members_list.
    by rewrite length_map, length_map_to_list. }
  rewrite filter_filter, andb_true_iff, !Z.ltb_lt, majority_quot by lia.
  assert (length (List.filter (fun m => is_voter m && ClusterMember_IsHealthy m) (members_list c))
          <= length (List.filter is_voter (members_list c))).
  { rewrite <- (filter_filter ClusterMember_IsHealthy is_voter). apply List.filter_length_le. }
  lia.
Qed.

(** [RemoveNode] is for the leader, on a member, and never takes a voter
    from a cluster of at most three: the request reaches the Raft node exactly
    in the remaining case, and otherwise nothing changes. *)
Theorem RemoveNode_keeps_minimum (c : Cluster) (nodeID : string) (pick : bool) :
  let '(c', err) := Cluster_RemoveNode c nodeID pick in
  (err = None ->
     IsLeader c = true /\
     (exists m, c_members c !! nodeID = Some m /\
        (ClusterMember_Role m = RoleVoter -> (MinimumVoters < countVoters c)%Z)) /\
     rn_confChangeCh (c_raft c') = rn_confChangeCh (c_raft c) ++ [mkConfChange nodeID "" false false]) /\
  (err <> None -> rn_confChangeCh (c_raft c') = rn_confChangeCh (c_raft c)) /\
  c_members c' = c_members c.
Proof.
  unfold Cluster_RemoveNode. destruct (IsLeader c) eqn:Hl; simpl; [|done].
  destruct (c_members c !! nodeID) as [m|] eqn:Hm; [|done].
  destruct (is_voter m && (countVoters c <=? MinimumVoters)%Z) eqn:Hg; [done|].
  unfold on_raft, Raft_RemoveNode, send_confChange.
  assert (ClusterMember_Role m = RoleVoter -> (MinimumVoters < countVoters c)%Z) as Hmin.
  { intros Hv. unfold is_voter in Hg. rewrite Hv, bool_decide_true in Hg by done. simpl in Hg.
    by apply Z.leb_gt in Hg. }
  repeat (case_match; simpl); split_and!; try done; intros _; split_and!; try done; by exists m.
Qed.

Definition two_voters : Cluster :=
  mkCluster (mkClusterConfig true "n1" "c" "" "" false "" [] 0 0 0 0) "n1" StateLeader "n1" 1
    (list_to_map (map (fun id => (id, mkClusterMember id "" RoleVoter StateFollower 0 true 0 ""))
                    ["n1"; "n2"]%string))
    (NewRaftNode (mkClusterConfig true "n1" "c" "" "" false "" [] 0 0 0 0) "n1" (NewFSM (init_storage 3))).

Lemma RemoveNode_keeps_minimum_witness :
  (Cluster_RemoveNode two_voters "n2" true).2 = Some ErrMinimumNodes /\
  c_members (Cluster_RemoveNode two_voters "n2" true).1 = c_members two_voters.
Proof.
  split; [vm_compute; reflexivity|].
  pose proof (RemoveNode_keeps_minimum two_voters "n2" true) as H.
  destruct (Cluster_RemoveNode two_voters "n2" true) as [c' err]. apply H.
Defined.

(** ** Compaction *)

Section compaction.
Context `{FsmCodec}.

Lemma CreateSnapshot_log s i t c data now1 now2 :
  raft_log (CreateSnapshot s i t c data now1 now2).2 = raft_log s.
Proof. unfold CreateSnapshot. by case_match. Qed.

Lemma CreateSnapshot_noerr s i t c data now1 now2 e :
  (CreateSnapshot s i t c data now1 now2).1 <> Err e.
Proof. unfold CreateSnapshot. by case_match. Qed.

(** A snapshot keeps the trailing log: no entry above
    [appliedIndex - TrailingLogs] is removed, every entry up to it is; and
    when fewer entries than that were applied, where the subtraction wraps
    around 64 bits, the log is left alone. *)
Theorem TakeSnapshot_log (rn : RaftNode) (now1 now2 : Time) (rn' : RaftNode)
    (Hidx : (0 <= rn_appliedIndex rn < 2 ^ 63)%Z)
    (Htr : (0 <= ClusterConfig_TrailingLogs (rn_cfg rn) < 2 ^ 63)%Z)
    (Hs : Raft_TakeSnapshot rn now1 now2 = (rn', None)) :
  let log := raft_log (fsm_storage (rn_fsm rn)) in
  let log' := raft_log (fsm_storage (rn_fsm rn')) in
  let keep := (rn_appliedIndex rn - ClusterConfig_TrailingLogs (rn_cfg rn))%Z in
  ((keep < 0)%Z -> log' = log) /\
  ((0 <= keep)%Z -> forall i, log' !! i = if decide (0 <= i <= keep)%Z then None else log !! i).
Proof.
  unfold Raft_TakeSnapshot in Hs. destruct (FSM_Snapshot _) as [data|]; [|done].
  destruct (encode_members _) as [config|]; [|done].
  pose proof (CreateSnapshot_log (fsm_storage (rn_fsm rn)) (rn_appliedIndex rn) (rn_term rn)
                config data now1 now2) as Hlog.
  destruct (CreateSnapshot _ _ _ _ _ _ _) as [r s] eqn:Hc. simpl in Hlog.
  destruct r as [meta|e]; [|done]. cbv zeta in *.
  set (keep := (rn_appliedIndex rn - ClusterConfig_TrailingLogs (rn_cfg rn))%Z) in *.
  unfold DeleteRange in Hs. change (bind_uint64 0) with (@Ok StorageError Z 0%Z) in Hs. cbv iota beta in Hs.
  change (ClusterConfig_TrailingLogs (rn_cfg (rn_set_fsm rn (set_storage (rn_fsm rn) s))))
    with (ClusterConfig_TrailingLogs (rn_cfg rn)) in Hs. fold keep in Hs.
  split; intros Hk.
  - assert (u64 keep = keep + 2 ^ 64)%Z as Hu.
    { unfold u64. rewrite <- (Z.mod_add keep 1 (2 ^ 64)) by lia. apply Z.mod_small. lia. }
    unfold bind_uint64 in Hs. rewrite Hu, (proj2 (Z.leb_le (2 ^ 63) (keep + 2 ^ 64))) in Hs by lia.
    simplify_eq. simpl. exact Hlog.
  - unfold bind_uint64 in Hs. rewrite u64_id in Hs by (unfold is_u64; lia).
    rewrite (proj2 (Z.leb_gt (2 ^ 63) keep)) in Hs by lia. simplify_eq. simpl. intros i.
    rewrite <- Hlog. rewrite map_lookup_filter. destruct (raft_log s !! i) as [e|]; simpl; [|by case_decide].
    destruct (decide (0 <= i <= keep)%Z); repeat case_guard; simpl in *; tauto || done.
Qed.
End compaction.

(** ** Restarting *)

Lemma loaded_members_nonempty l (m : gmap string string) :
  l <> [] \/ m <> ∅ ->
  fold_left (fun m mem => <[ClusterMember_NodeID mem := ClusterMember_Address mem]> m) l m <> ∅.
Proof.
  revert m. induction l as [|x l IH]; intros m Hlm; simpl; [by destruct Hlm|].
  apply IH. right. apply insert_non_empty.
Qed.

(** A node whose storage has a member does not bootstrap. *)
Lemma Bootstrap_refused cfg nodeID s k r :
  cluster_members s !! k = Some r ->
  forall id addr, Raft_Bootstrap (NewRaftNode cfg nodeID (NewFSM s)) id addr =
    (NewRaftNode cfg nodeID (NewFSM s), Some ErrAlreadyBootstrapped).
Proof.
  intros Hk id addr. unfold Raft_Bootstrap.
  assert (0 < size (rn_members (NewRaftNode cfg nodeID (NewFSM s)))) as Hsz.
  { apply Nat.neq_0_lt_0. rewrite map_size_non_empty_iff. apply loaded_members_nonempty. left.
    unfold GetMembers. simpl. intros Hn%map_eq_nil. apply map_to_list_empty_iff in Hn.
    by rewrite Hn, lookup_empty in Hk. }
  by rewrite (proj2 (Nat.ltb_lt _ _) Hsz).
Qed.

(** A node that bootstrapped and shut down has lost its vote, and starting
    it again with the same configuration fails: it stays a follower without a
    leader. *)
Theorem restart_after_bootstrap (cfg : ClusterConfig) (n : Z) (nodeID : string)
    (Hboot : ClusterConfig_Bootstrap cfg = true) :
  let c1 := (Cluster_Start cfg nodeID (init_storage n)).1 in
  let rn := (Shutdown (c_raft c1)).1 in
  let s := fsm_storage (rn_fsm rn) in
  HardState_Vote (raft_state (fsm_storage (rn_fsm (c_raft c1)))) = nodeID /\
  raft_state s = mkHardState 1 "" 0 /\
  (Cluster_Start cfg nodeID s).2 = Some ErrAlreadyBootstrapped /\
  rn_state (c_raft (Cluster_Start cfg nodeID s).1) = StateFollower /\
  rn_leader (c_raft (Cluster_Start cfg nodeID s).1) = ""%string.
Proof.
  cbv zeta. unfold Cluster_Start. rewrite Hboot. split; [reflexivity|]. split; [reflexivity|].
  set (s := fsm_storage _).
  assert (cluster_members s !! nodeID = Some (ClusterConfig_ListenAddr cfg, RoleVoter, ""%string)) as Hm
    by apply lookup_insert_eq.
  unfold on_raft. rewrite (Bootstrap_refused cfg nodeID s nodeID _ Hm). split_and!; reflexivity.
Qed.

Definition boot_cfg : ClusterConfig :=
  mkClusterConfig true "n1" "c" "0.0.0.0:4002" "" true "" [] 10 0 0 3.

Lemma restart_after_bootstrap_witness :
  raft_state (fsm_storage (rn_fsm (Shutdown (c_raft (Cluster_Start boot_cfg "n1" (init_storage 3)).1)).1))
  = mkHardState 1 "" 0.
Proof.
  destruct (restart_after_bootstrap boot_cfg 3 "n1" eq_refl) as (_ & H & _). exact H.
Defined.

(** ** Proposals *)

Section proposals.
Context `{FsmCodec}.

(** Everything a running node does: the methods of the manager, its monitor,
    and the two loops of the Raft node. *)
Inductive cluster_step : Cluster -> Cluster -> Prop :=
| cs_add_voter c id addr pick : cluster_step c (Cluster_AddVoter c id addr pick).1
| cs_add_nonvoter c id addr pick : cluster_step c (Cluster_AddNonVoter c id addr pick).1
| cs_remove c id pick : cluster_step c (Cluster_RemoveNode c id pick).1
| cs_transfer c target : cluster_step c (Cluster_TransferLeadership c target).1
| cs_apply c cmd pick : cluster_step c (Cluster_Apply c cmd pick).1
| cs_token io c ttl random now now2 : cluster_step c (GenerateJoinToken io c ttl random now now2).1
| cs_snapshot c now1 now2 : cluster_step c (Cluster_TakeSnapshot c now1 now2).1
| cs_restore io c id now : cluster_step c (Cluster_Restore io c id now).1
| cs_monitor c now : cluster_step c (updateState c now).1
| cs_apply_loop io c now : cluster_step c (c_set_raft c (applyLoop_turn io (c_raft c) now))
| cs_snapshot_loop c last now1 now2 :
    cluster_step c (c_set_raft c (snapshotLoop_tick (c_raft c) last now1 now2).1)
| cs_shutdown c : cluster_step c (c_set_raft c (Shutdown (c_raft c)).1).

Record raft_idle (rn : RaftNode) : Prop := {
  idle_commits : rn_commitCh rn = [];
  idle_applied : rn_appliedIndex rn = 0%Z;
  idle_proposals : length (rn_proposeCh rn) <= proposeCap;
  idle_changes : length (rn_confChangeCh rn) <= confChangeCap
}.

Lemma idle_fsm rn f : raft_idle rn -> raft_idle (rn_set_fsm rn f).
Proof. by intros [? ? ? ?]. Qed.

Lemma idle_with rn f st l t m : raft_idle rn -> raft_idle (rn_with rn f st l t m).
Proof. by intros [? ? ? ?]. Qed.

Lemma idle_send rn c pick : raft_idle rn -> raft_idle (send_confChange rn c pick).1.
Proof.
  intros [? ? ? ?]. unfold send_confChange. repeat case_match; simpl; try done.
  split; simpl; try done. rewrite length_app. simpl. bool_props. unfold confChangeCap in *.
  match goal with H : (_ <? _)%nat = true |- _ => apply Nat.ltb_lt in H end. lia.
Qed.

Lemma idle_apply rn cmd pick : raft_idle rn -> raft_idle (Raft_Apply rn cmd pick).1.
Proof.
  intros [? ? ? ?]. unfold Raft_Apply. repeat case_match; simpl; try done.
  split; simpl; try done. rewrite length_app. simpl. bool_props. unfold proposeCap in *.
  match goal with H : (_ <? _)%nat = true |- _ => apply Nat.ltb_lt in H end. lia.
Qed.

Lemma idle_snapshot rn now1 now2 : raft_idle rn -> raft_idle (Raft_TakeSnapshot rn now1 now2).1.
Proof.
  intros Hi. unfold Raft_TakeSnapshot. repeat case_match; simpl; try done; by repeat apply idle_fsm.
Qed.

Lemma cluster_step_idle c c' : cluster_step c c' -> raft_idle (c_raft c) -> raft_idle (c_raft c').
Proof.
  intros Hstep Hi. destruct Hstep; simpl.
  - unfold Cluster_AddVoter. repeat case_match; try done. by apply idle_send.
  - unfold Cluster_AddNonVoter. repeat case_match; try done. by apply idle_send.
  - unfold Cluster_RemoveNode. repeat case_match; try done. by apply idle_send.
  - unfold Cluster_TransferLeadership. repeat case_match; try done. simpl.
    unfold Raft_TransferLeadership. repeat case_match; try done. by apply idle_with.
  - unfold Cluster_Apply. case_match; try done. by apply idle_apply.
  - unfold GenerateJoinToken. repeat case_match; try done; simpl; by apply idle_fsm.
  - by apply idle_snapshot.
  - unfold Raft_Restore. repeat case_match; try done; simpl; by apply idle_fsm.
  - done.
  - unfold applyLoop_turn. by rewrite (idle_commits _ Hi).
  - unfold snapshotLoop_tick. case_match; [done|]. case_match; [|done].
    pose proof (idle_snapshot (c_raft c) now1 now2 Hi) as Hs.
    by destruct (Raft_TakeSnapshot _ _ _) as [rn [?|]].
  - unfold Shutdown. case_match; simpl; [apply idle_fsm|]; by destruct Hi.
Qed.

Lemma reachable_idle cfg id s c :
  rtc cluster_step (Cluster_Start cfg id s).1 c -> raft_idle (c_raft c).
Proof.
  intros Hr.
  apply (rtc_ind_r (R := cluster_step) (fun c => raft_idle (c_raft c)) (Cluster_Start cfg id s).1);
    [| |exact Hr].
  - unfold Cluster_Start. case_match; simpl.
    + unfold Raft_Bootstrap. repeat case_match; simpl; split; simpl; unfold proposeCap, confChangeCap; lia || done.
    + split; simpl; unfold proposeCap, confChangeCap; lia || done.
  - intros c1 c2 _ Hs Hi. by eapply cluster_step_idle.
Qed.

(** Accepted proposals are never carried out.  Nothing takes a command from
    the proposal queue or puts one on the commit queue, so in every state a
    node can reach nothing has been applied, and when 256 commands have been
    accepted the 257th is refused, for good. *)
Theorem proposals_never_applied cfg id s c
    (Hr : rtc cluster_step (Cluster_Start cfg id s).1 c) :
  rn_appliedIndex (c_raft c) = 0%Z /\
  (forall io now, applyLoop_turn io (c_raft c) now = c_raft c) /\
  (length (rn_proposeCh (c_raft c)) = proposeCap ->
   forall cmd pick, (Cluster_Apply c cmd pick).2 <> None).
Proof.
  pose proof (reachable_idle _ _ _ _ Hr) as Hi. split; [apply Hi|]. split.
  - intros io now. unfold applyLoop_turn. by rewrite (idle_commits _ Hi).
  - intros Hfull cmd pick. unfold Cluster_Apply. case_match; [done|]. simpl. unfold Raft_Apply.
    rewrite Hfull, Nat.ltb_irrefl. simpl. by repeat case_match.
Qed.
End proposals.

Definition boot_steps : Cluster :=
  (Cluster_Apply (updateState (Cluster_Start boot_cfg "n1" (init_storage 3)).1 5).1 [1%Z] true).1.

Lemma proposals_never_applied_witness :
  rn_proposeCh (c_raft boot_steps) = [[1%Z]] /\ rn_appliedIndex (c_raft boot_steps) = 0%Z.
Proof.
  split; [reflexivity|].
  apply (@proposals_never_applied (toy_fsm_codec toy_snapshot) boot_cfg "n1" (init_storage 3)).
  eapply rtc_l; [apply (cs_monitor _ 5)|]. eapply rtc_l; [apply (cs_apply _ [1%Z] true)|]. apply rtc_refl.
Defined.

(** A node that applied 12 entries with 10 to keep. *)
Definition twelve_applied : RaftNode :=
  mkRaftNode boot_cfg "n1"
    (mkFSM (upd_log (init_storage 3) (list_to_map ((fun i => (i, mkLogEntry i 1 0 [])) <$> seqZ 1 12)))
       (Some ∅) (Some ∅) (Some {[ "k"%string := [42%Z] ]}))
    StateLeader "n1" 1 12 12 ∅ [] [] [] false.

Lemma TakeSnapshot_log_witness :
  exists rn', @Raft_TakeSnapshot (toy_fsm_codec toy_snapshot) twelve_applied 1 2 = (rn', None) /\
    raft_log (fsm_storage (rn_fsm rn')) !! 2%Z = None /\
    raft_log (fsm_storage (rn_fsm rn')) !! 3%Z = Some (mkLogEntry 3 1 0 []).
Proof.
  eexists. split; [reflexivity|].
  assert (forall i, raft_log (fsm_storage (rn_fsm (@Raft_TakeSnapshot (toy_fsm_codec toy_snapshot)
    twelve_applied 1 2).1)) !! i =
    if decide (0 <= i <= 12 - 10)%Z then None
    else raft_log (fsm_storage (rn_fsm twelve_applied)) !! i) as Hl.
  { apply (@TakeSnapshot_log (toy_fsm_codec toy_snapshot) twelve_applied 1 2 _
             ltac:(simpl; lia) ltac:(simpl; lia) eq_refl). simpl. lia. }
  split; [exact (Hl 2%Z)|exact (Hl 3%Z)].
Defined.
