(* ===== verification/Challenge.v ===== *)
(** * Authentication challenges ([internal/auth/challenge.go])

    The store of challenges a client has to sign.  Every method holds the
    store's lock, so a run is a sequence of method calls; the random bytes and
    each reading of the clock are arguments. *)
From stdpp Require Import base gmap strings list.
From Stdlib Require Import ZArith Lia.
From S2P Require Import Prelude GoStrings.

Record Challenge := mkChallenge {
  Challenge_ID : string;
  Challenge_PublicKey : list Z;
  Challenge_KeyType : string;
  Challenge_Nonce : list Z;
  Challenge_CreatedAt : Time;
  Challenge_ExpiresAt : Time;
  Challenge_SignatureAlgorithm : string
}.

Definition Challenge_IsExpired (c : Challenge) (now : Time) : bool := After now (Challenge_ExpiresAt c).

Record ChallengeStore := mkChallengeStore {
  cs_challenges : gmap string Challenge;
  cs_ttl : Duration
}.

Inductive ChallengeError := ErrChallengeID | ErrChallengeNonce.

Definition NewChallengeStore (ttl : Duration) : ChallengeStore :=
  mkChallengeStore ∅ (if (ttl <=? 0)%Z then (30 * Second)%Z else ttl).

(** [idBytes] and [nonce] are the two reads of [rand.Read]. *)
Definition ChallengeStore_Create (cs : ChallengeStore) (idBytes nonce : option (list Z))
    (publicKey : list Z) (keyType : string) (now : Time)
    : result ChallengeError (Challenge * ChallengeStore) :=
  match idBytes, nonce with
  | None, _ => Err ErrChallengeID
  | Some _, None => Err ErrChallengeNonce
  | Some idBytes, Some nonce =>
      let id := EncodeToString idBytes in
      let sigAlgo := (if keyType =?= "rsa" then "rsa-sha2-256" else "ssh-ed25519")%string in
      let challenge := mkChallenge id publicKey keyType nonce now (Add now (cs_ttl cs)) sigAlgo in
      Ok (challenge, mkChallengeStore (<[id := challenge]> (cs_challenges cs)) (cs_ttl cs))
  end.

Definition ChallengeStore_Get (cs : ChallengeStore) (id : string) (now : Time)
    : option Challenge * ChallengeStore :=
  match cs_challenges cs !! id with
  | None => (None, cs)
  | Some challenge =>
      let cs := mkChallengeStore (delete id (cs_challenges cs)) (cs_ttl cs) in
      if Challenge_IsExpired challenge now then (None, cs) else (Some challenge, cs)
  end.

Definition ChallengeStore_Peek (cs : ChallengeStore) (id : string) (now : Time) : option Challenge :=
  match cs_challenges cs !! id with
  | None => None
  | Some challenge => if Challenge_IsExpired challenge now then None else Some challenge
  end.

Definition ChallengeStore_Delete (cs : ChallengeStore) (id : string) : ChallengeStore :=
  mkChallengeStore (delete id (cs_challenges cs)) (cs_ttl cs).

Definition ChallengeStore_Count (cs : ChallengeStore) : Z := Z.of_nat (size (cs_challenges cs)).

Definition ChallengeStore_cleanup (cs : ChallengeStore) (now : Time) : ChallengeStore :=
  mkChallengeStore
    (filter (fun p : string * Challenge => After now (Challenge_ExpiresAt p.2) = false)
       (cs_challenges cs)) (cs_ttl cs).

(** ** Runs *)

Inductive challenge_op :=
| OpCreate (idBytes nonce : option (list Z)) (publicKey : list Z) (keyType : string) (now : Time)
| OpGet (id : string) (now : Time)
| OpDelete (id : string)
| OpCleanup (now : Time).

(** The challenges handed out for verification, with the time of each. *)
Fixpoint run_challenges (cs : ChallengeStore) (ops : list challenge_op) : list (Challenge * Time) :=
  match ops with
  | [] => []
  | OpCreate i n pk kt now :: ops' =>
      match ChallengeStore_Create cs i n pk kt now with
      | Ok (_, cs') => run_challenges cs' ops'
      | Err _ => run_challenges cs ops'
      end
  | OpGet id now :: ops' =>
      match ChallengeStore_Get cs id now with
      | (Some c, cs') => (c, now) :: run_challenges cs' ops'
      | (None, cs') => run_challenges cs' ops'
      end
  | OpDelete id :: ops' => run_challenges (ChallengeStore_Delete cs id) ops'
  | OpCleanup now :: ops' => run_challenges (ChallengeStore_cleanup cs now) ops'
  end.

(** The challenges created. *)
Definition created (ttl : Duration) (ops : list challenge_op) : list Challenge :=
  omap (fun op => match op with
                  | OpCreate (Some i) (Some n) pk kt now =>
                      Some (mkChallenge (EncodeToString i) pk kt n now (Add now ttl)
                              (if kt =?= "rsa" then "rsa-sha2-256" else "ssh-ed25519")%string)
                  | _ => None
                  end) ops.

Definition store_ok (cs : ChallengeStore) : Prop :=
  forall id c, cs_challenges cs !! id = Some c -> Challenge_ID c = id.

Lemma store_ok_delete cs id :
  store_ok cs -> store_ok (mkChallengeStore (delete id (cs_challenges cs)) (cs_ttl cs)).
Proof. intros Hok k c Hk. simpl in Hk. apply lookup_delete_Some in Hk as [_ Hk]. by apply Hok. Qed.

Lemma store_ok_cleanup cs now : store_ok cs -> store_ok (ChallengeStore_cleanup cs now).
Proof. intros Hok k c Hk. simpl in Hk. apply map_lookup_filter_Some in Hk as [Hk _]. by apply Hok. Qed.

(** What is handed out was in the store or created since. *)
Lemma run_challenges_origin cs ops c now :
  (c, now) ∈ run_challenges cs ops ->
  (exists id, cs_challenges cs !! id = Some c) \/ c ∈ created (cs_ttl cs) ops.
Proof.
  revert cs. induction ops as [|op ops IH]; intros cs; [set_solver|].
  destruct op as [i n pk kt t|id t|id|t]; cbn [run_challenges created omap list_omap].
  - destruct i as [i|], n as [n|]; try (intros [?|?]%IH; auto; fail).
    cbn [ChallengeStore_Create]. intros [[id Hid]|?]%IH; [|right; set_solver].
    simpl in Hid. apply lookup_insert_Some in Hid as [[_ <-]|[_ Hid]]; [right; set_solver|eauto].
  - unfold ChallengeStore_Get. destruct (cs_challenges cs !! id) as [c'|] eqn:Hc; [|apply IH].
    assert ((exists id', delete id (cs_challenges cs) !! id' = Some c) -> exists id', cs_challenges cs !! id' = Some c)
      as Hdel by (intros [id' [_ ?]%lookup_delete_Some]; eauto).
    destruct (Challenge_IsExpired c' t).
    + intros [?|?]%IH; auto.
    + intros [[= <- <-]|[?|?]%IH]%elem_of_cons; eauto.
  - intros [[id' Hid]|?]%IH; [|auto]. simpl in Hid. apply lookup_delete_Some in Hid as [_ ?]. eauto.
  - intros [[id' Hid]|?]%IH; [|auto]. simpl in Hid. apply map_lookup_filter_Some in Hid as [? _]. eauto.
Qed.

Lemma run_challenges_fresh cs ops c now :
  (c, now) ∈ run_challenges cs ops -> Challenge_IsExpired c now = false.
Proof.
  revert cs. induction ops as [|op ops IH]; intros cs; [set_solver|].
  destruct op as [i n pk kt t|id t|id|t]; cbn [run_challenges]; try apply IH.
  - destruct (ChallengeStore_Create _ _ _ _ _ _) as [[??]|]; apply IH.
  - unfold ChallengeStore_Get. destruct (cs_challenges cs !! id) as [c'|]; [|apply IH].
    destruct (Challenge_IsExpired c' t) eqn:He; [apply IH|].
    intros [[= -> ->]|?]%elem_of_cons; [done|by eapply IH].
Qed.

Lemma run_challenges_nodup cs ops :
  store_ok cs -> NoDup (map Challenge_ID (created (cs_ttl cs) ops)) ->
  (forall c, c ∈ created (cs_ttl cs) ops -> cs_challenges cs !! Challenge_ID c = None) ->
  NoDup (map (fun ct => Challenge_ID ct.1) (run_challenges cs ops)).
Proof.
  revert cs. induction ops as [|op ops IH]; intros cs Hok Hnd Hnew; [constructor|].
  destruct op as [i n pk kt t|id t|id|t]; cbn [run_challenges created omap list_omap] in *.
  - destruct i as [i|], n as [n|]; try (by apply IH). cbn [ChallengeStore_Create].
    cbn [map] in Hnd. apply NoDup_cons in Hnd as [Hni Hnd]. apply IH; [|done|].
    + intros k c Hk. simpl in Hk. apply lookup_insert_Some in Hk as [[<- <-]|[_ Hk]]; [done|by apply Hok].
    + intros c Hc. simpl. rewrite lookup_insert_ne; [apply Hnew; set_solver|].
      intros Heq. apply Hni, list_elem_of_fmap. by exists c.
  - unfold ChallengeStore_Get. destruct (cs_challenges cs !! id) as [c'|] eqn:Hc; [|by apply IH].
    set (cs' := mkChallengeStore (delete id (cs_challenges cs)) (cs_ttl cs)).
    assert (NoDup (map (fun ct => Challenge_ID ct.1) (run_challenges cs' ops))) as Hrest.
    { apply IH; [by apply store_ok_delete|done|]. intros c Hin. simpl.
      apply lookup_delete_None. right. by apply Hnew. }
    destruct (Challenge_IsExpired c' t); [done|]. cbn [map]. apply NoDup_cons. split; [|done].
    intros ([c now] & Heq & Hin)%list_elem_of_fmap. simpl in Heq. rewrite (Hok _ _ Hc) in Heq.
    apply run_challenges_origin in Hin as [[id' Hid']|Hcr].
    + pose proof (store_ok_delete cs id Hok _ _ Hid') as Hid. simpl in Hid'.
      rewrite Hid in Heq. subst id'. by rewrite lookup_delete_eq in Hid'.
    + simpl in Hcr. apply Hnew in Hcr. rewrite <- Heq in Hcr. congruence.
  - apply IH; [by apply store_ok_delete|done|]. intros c Hin. simpl. apply lookup_delete_None.
    right. by apply Hnew.
  - apply IH; [by apply store_ok_cleanup|done|]. intros c Hin. simpl.
    apply map_lookup_filter_None. left. by apply Hnew.
Qed.

(** C15: in any run of a new store no challenge is handed out twice, and each one
    handed out was created in that run, for the key it names, at most [ttl]
    earlier (16 random bytes name a challenge: no two have the same name). *)
Theorem challenge_one_time (ttl : Duration) (ops : list challenge_op)
    (Hfresh : NoDup (map Challenge_ID (created (cs_ttl (NewChallengeStore ttl)) ops))) :
  let runs := run_challenges (NewChallengeStore ttl) ops in
  NoDup (map (fun ct => Challenge_ID ct.1) runs) /\
  forall c now, (c, now) ∈ runs ->
    c ∈ created (cs_ttl (NewChallengeStore ttl)) ops /\
    (now <= Challenge_CreatedAt c + cs_ttl (NewChallengeStore ttl))%Z.
Proof.
  cbv zeta. split.
  - apply run_challenges_nodup; [|done|done]. intros id c Hc. simpl in Hc. by rewrite lookup_empty in Hc.
  - intros c now Hin. pose proof (run_challenges_fresh _ _ _ _ Hin) as He.
    apply run_challenges_origin in Hin as [[id Hid]|Hcr]; [simpl in Hid; by rewrite lookup_empty in Hid|].
    split; [done|]. apply list_elem_of_omap in Hcr as (op & _ & Hop).
    destruct op as [[i|] [n|] pk kt t| | |]; simplify_eq/=.
    unfold Challenge_IsExpired, After in He. simpl in He. apply Z.ltb_ge in He. exact He.
Qed.

Lemma challenge_one_time_witness :
  length (run_challenges (NewChallengeStore 100)
    [OpCreate (Some [1%Z]) (Some [7%Z]) [9%Z] "rsa" 5; OpGet "01" 50; OpGet "01" 51]) = 1 /\
  NoDup (map (fun ct : Challenge * Time => Challenge_ID ct.1) (run_challenges (NewChallengeStore 100)
    [OpCreate (Some [1%Z]) (Some [7%Z]) [9%Z] "rsa" 5; OpGet "01" 50; OpGet "01" 51])).
Proof.
  split; [vm_compute; reflexivity|].
  apply (challenge_one_time 100
    [OpCreate (Some [1%Z]) (Some [7%Z]) [9%Z] "rsa" 5; OpGet "01" 50; OpGet "01" 51]).
  apply NoDup_singleton.
Defined.
