(* ===== verification/RateLimit.v ===== *)
(** * Rate limiting ([internal/storage/audit/ratelimit.go])

    A sliding-window limiter: per key, the times of the operations allowed in
    the last window, and a block after the limit is reached.  Of an audit entry
    only the four fields the limiter reads are here; a call of [time.Now()] is
    an argument.  [Check] calls [checkKey] once per key, with the lock released
    in between, so its clock readings are a function of the key's position. *)
From stdpp Require Import base gmap strings list.
From Stdlib Require Import ZArith Lia Sorted.
From S2P Require Import Prelude GoStrings.
Local Open Scope Z_scope.

Record Entry := mkEntry {
  Entry_Actor : string;
  Entry_Action : string;
  Entry_TableName : string;
  Entry_RoleUsed : string
}.

Record RateLimitConfig := mkRateLimitConfig {
  RateLimitConfig_Enabled : bool;
  RateLimitConfig_DefaultLimit : Z;
  RateLimitConfig_DefaultWindow : Duration;
  RateLimitConfig_BlockDuration : Duration;
  RateLimitConfig_BypassRoles : list string;
  RateLimitConfig_LimitsByAction : gmap string Z;
  RateLimitConfig_LimitsByTable : gmap string Z
}.

Record limiterState := mkLimiterState {
  ls_counts : list Time;
  ls_blockedAt : option Time;
  ls_blockUntil : option Time;
  ls_limit : Z;
  ls_window : Duration;
  ls_blocked : bool
}.

Record RateLimiter := mkRateLimiter {
  rl_config : RateLimitConfig;
  rl_limiters : gmap string limiterState
}.

Definition DefaultRateLimitConfig : RateLimitConfig :=
  mkRateLimitConfig true 1000 (1 * Minute) (5 * Minute) ["bibd_admin"%string]
    (list_to_map [("SELECT", 500); ("INSERT", 200); ("UPDATE", 100); ("DELETE", 50); ("DDL", 10)]%string)
    (list_to_map [("audit_log"%string, 100)]).

Definition NewRateLimiter (cfg : RateLimitConfig) : RateLimiter := mkRateLimiter cfg ∅.

Definition determineLimit (r : RateLimiter) (key : string) (entry : Entry) : Z :=
  match RateLimitConfig_LimitsByAction (rl_config r) !! Entry_Action entry with
  | Some limit => limit
  | None =>
      match RateLimitConfig_LimitsByTable (rl_config r) !! Entry_TableName entry with
      | Some limit => limit
      | None => RateLimitConfig_DefaultLimit (rl_config r)
      end
  end.

Definition generateKeys (entry : Entry) : list string :=
  ["global"%string]
  ++ (if Entry_Actor entry <>? ""%string then [("actor:" +:+ Entry_Actor entry)%string] else [])
  ++ [("action:" +:+ Entry_Action entry)%string]
  ++ (if Entry_TableName entry <>? ""%string then [("table:" +:+ Entry_TableName entry)%string] else []).

(** [state.blocked && state.blockUntil != nil && p(now, *state.blockUntil)] *)
Definition block_test (p : Time -> Time -> bool) (now : Time) (st : limiterState) : bool :=
  match ls_blockUntil st with
  | None => false
  | Some until => ls_blocked st && p now until
  end.

Definition unblocked (st : limiterState) : limiterState :=
  mkLimiterState [] None None (ls_limit st) (ls_window st) false.

Definition set_counts (st : limiterState) (counts : list Time) : limiterState :=
  mkLimiterState counts (ls_blockedAt st) (ls_blockUntil st) (ls_limit st) (ls_window st) (ls_blocked st).

(** [checkKey] on the state of the key: whether the operation is allowed, and
    the new state. *)
Definition check_state (blockDuration : Duration) (st : limiterState) (now : Time)
    : bool * limiterState :=
  if block_test Before now st then (false, st)
  else
    let st := if block_test After now st then unblocked st else st in
    let cutoff := Add now (- ls_window st) in
    let st := set_counts st (List.filter (fun t => After t cutoff) (ls_counts st)) in
    if ls_limit st <=? Z.of_nat (length (ls_counts st)) then
      (false, mkLimiterState (ls_counts st) (Some now) (Some (Add now blockDuration)) (ls_limit st)
                (ls_window st) true)
    else (true, set_counts st (ls_counts st ++ [now])).

Definition new_state (r : RateLimiter) (key : string) (entry : Entry) : limiterState :=
  mkLimiterState [] None None (determineLimit r key entry)
    (RateLimitConfig_DefaultWindow (rl_config r)) false.

Definition checkKey (r : RateLimiter) (key : string) (entry : Entry) (now : Time)
    : bool * RateLimiter :=
  let st := default (new_state r key entry) (rl_limiters r !! key) in
  let '(allowed, st) := check_state (RateLimitConfig_BlockDuration (rl_config r)) st now in
  (allowed, mkRateLimiter (rl_config r) (<[key := st]> (rl_limiters r))).

(** The loop over the keys, which stops at the first refusal. *)
Fixpoint check_keys (r : RateLimiter) (keys : list string) (entry : Entry) (clock : string -> Time)
    : bool * RateLimiter :=
  match keys with
  | [] => (true, r)
  | key :: keys' =>
      match checkKey r key entry (clock key) with
      | (false, r) => (false, r)
      | (true, r) => check_keys r keys' entry clock
      end
  end.

Definition RateLimiter_Check (r : option RateLimiter) (entry : Entry) (clock : string -> Time)
    : bool * option RateLimiter :=
  match r with
  | None => (true, None)
  | Some r =>
      if negb (RateLimitConfig_Enabled (rl_config r)) then (true, Some r)
      else if mem (Entry_RoleUsed entry) (RateLimitConfig_BypassRoles (rl_config r)) then (true, Some r)
      else let '(b, r) := check_keys r (generateKeys entry) entry clock in (b, Some r)
  end.

Definition TriggerBlock (r : RateLimiter) (key : string) (duration : Duration) (now : Time) : RateLimiter :=
  let st := default (mkLimiterState [] None None (RateLimitConfig_DefaultLimit (rl_config r))
                       (RateLimitConfig_DefaultWindow (rl_config r)) false) (rl_limiters r !! key) in
  mkRateLimiter (rl_config r)
    (<[key := mkLimiterState (ls_counts st) (Some now) (Some (Add now duration)) (ls_limit st)
                (ls_window st) true]> (rl_limiters r)).

Definition IsBlocked (r : RateLimiter) (key : string) (now : Time) : bool :=
  match rl_limiters r !! key with
  | None => false
  | Some st =>
      if negb (ls_blocked st) then false
      else match ls_blockUntil st with
           | Some until => negb (After now until)
           | None => true
           end
  end.

Definition Unblock (r : RateLimiter) (key : string) : RateLimiter :=
  match rl_limiters r !! key with
  | None => r
  | Some st =>
      mkRateLimiter (rl_config r)
        (<[key := mkLimiterState (ls_counts st) None None (ls_limit st) (ls_window st) false]> (rl_limiters r))
  end.

Record RateLimitStats := mkStats { ActiveLimiters : Z; BlockedKeys : list string }.

Definition GetStats (r : RateLimiter) (now : Time) : RateLimitStats :=
  mkStats (Z.of_nat (size (rl_limiters r)))
    (omap (fun kst : string * limiterState => if block_test Before now kst.2 then Some kst.1 else None)
       (map_to_list (rl_limiters r))).

(** The limiters [Cleanup] drops. *)
Definition stale (now : Time) (st : limiterState) : bool :=
  ((length (ls_counts st) =? 0)%nat && negb (ls_blocked st))
  || (block_test After now st &&
      negb (existsb (fun t => After t (Add now (- ls_window st))) (ls_counts st))).

Definition RateLimiter_Cleanup (r : RateLimiter) (now : Time) : RateLimiter :=
  mkRateLimiter (rl_config r)
    (filter (fun p : string * limiterState => stale now p.2 = false) (rl_limiters r)).

(** * Theorems *)

(** ** The sliding window *)

(** The allowed times of a run of [checkKey] on one key's state. *)
Fixpoint run_state (bd : Duration) (st : limiterState) (times : list Time) : list Time :=
  match times with
  | [] => []
  | now :: times' =>
      match check_state bd st now with
      | (true, st') => now :: run_state bd st' times'
      | (false, st') => run_state bd st' times'
      end
  end.

(** The operations of [l] in the window that ends at [t]. *)
Definition in_window (w : Duration) (t : Time) (l : list Time) : list Time :=
  List.filter (fun a => (t - w <? a) && (a <=? t)) l.

(** [allowed] are the times allowed so far, the last check was at [last]: what
    the state remembers is all of them that a later window can see, and while
    the key is blocked none is younger than the block. *)
Record limiter_inv (bd : Duration) (st : limiterState) (allowed : list Time) (last : Time) : Prop := {
  li_old : Forall (fun a => a <= last) allowed;
  li_counts : forall t, last <= t ->
    List.filter (fun a => t - ls_window st <? a) allowed =
    List.filter (fun a => t - ls_window st <? a) (ls_counts st);
  li_block : forall until, ls_blocked st = true -> ls_blockUntil st = Some until ->
    Forall (fun a => a + bd <= until) allowed;
  li_bound : forall t, Z.of_nat (length (in_window (ls_window st) t allowed)) <= Z.max 0 (ls_limit st)
}.

Lemma filter_impl {A} (p q : A -> bool) l :
  (forall x, q x = true -> p x = true) -> List.filter q (List.filter p l) = List.filter q l.
Proof.
  intros Hpq. rewrite filter_filter. apply filter_ext. intros x. specialize (Hpq x).
  destruct (q x); [by rewrite Hpq|by rewrite andb_false_r].
Qed.

Lemma filter_length_impl {A} (p q : A -> bool) l :
  (forall x, x ∈ l -> p x = true -> q x = true) ->
  (length (List.filter p l) <= length (List.filter q l))%nat.
Proof.
  induction l as [|x l IH]; intros H; simpl; [lia|].
  assert (length (List.filter p l) <= length (List.filter q l))%nat by (apply IH; set_solver).
  specialize (H x ltac:(set_solver)). destruct (p x); [rewrite H by done; simpl; lia|].
  destruct (q x); simpl; lia.
Qed.

(** The state the limit is checked on: unblocked if its time has come, and with
    the expired operations dropped. *)
Definition prepared (st : limiterState) (now : Time) : limiterState :=
  let st := if block_test After now st then unblocked st else st in
  set_counts st (List.filter (fun t => After t (Add now (- ls_window st))) (ls_counts st)).

Lemma check_state_prepared bd st now :
  check_state bd st now =
  if block_test Before now st then (false, st)
  else if ls_limit st <=? Z.of_nat (length (ls_counts (prepared st now))) then
    (false, mkLimiterState (ls_counts (prepared st now)) (Some now) (Some (Add now bd)) (ls_limit st)
              (ls_window st) true)
  else (true, set_counts (prepared st now) (ls_counts (prepared st now) ++ [now])).
Proof. unfold check_state, prepared. by destruct (block_test Before now st), (block_test After now st). Qed.

Lemma prepared_fields st now :
  ls_limit (prepared st now) = ls_limit st /\ ls_window (prepared st now) = ls_window st.
Proof. unfold prepared. by destruct (block_test After now st). Qed.

(** With the block lasting at least a window, what an expired block forgets is
    out of sight. *)
Lemma prepared_counts bd st allowed last now :
  limiter_inv bd st allowed last -> last <= now -> ls_window st <= bd ->
  ls_counts (prepared st now) = List.filter (fun a => now - ls_window st <? a) allowed.
Proof.
  intros [_ Hc Hb _] Hln Hbd. unfold prepared. destruct (block_test After now st) eqn:Ha; simpl.
  - unfold block_test, After in Ha. destruct (ls_blockUntil st) as [until|] eqn:Hu; [|done].
    bool_props. specialize (Hb until ltac:(done) ltac:(done)). symmetry. apply filter_none.
    intros a Hin. rewrite Forall_forall in Hb. specialize (Hb a Hin). apply Z.ltb_ge. lia.
  - rewrite Hc by done. apply filter_ext. done.
Qed.

Lemma in_window_snoc w t l a :
  Z.of_nat (length (in_window w t (l ++ [a]))) <= Z.of_nat (length (in_window w t l)) + 1.
Proof. unfold in_window. rewrite List.filter_app, length_app. simpl. destruct (_ && _); simpl; lia. Qed.

Lemma check_state_inv bd st allowed last now :
  limiter_inv bd st allowed last -> last <= now -> ls_window st <= bd -> 0 <= bd ->
  ls_blockUntil st <> Some now ->
  let '(b, st') := check_state bd st now in
  limiter_inv bd st' (if b then allowed ++ [now] else allowed) now /\
  ls_limit st' = ls_limit st /\ ls_window st' = ls_window st.
Proof.
  intros Hinv Hln Hbd Hbd0 Hnb. pose proof (prepared_counts _ _ _ _ _ Hinv Hln Hbd) as Hp.
  destruct (prepared_fields st now) as [Hlim Hwin]. rewrite check_state_prepared.
  destruct Hinv as [Ho Hc Hb Hw].
  assert (Forall (fun a => a <= now) allowed) as Ho'.
  { eapply Forall_impl; [exact Ho|]. intros; cbv beta in *; lia. }
  assert (forall t, now <= t ->
    List.filter (fun a => t - ls_window st <? a) allowed =
    List.filter (fun a => t - ls_window st <? a) (ls_counts (prepared st now))) as Hc'.
  { intros t Ht. rewrite Hp. symmetry. apply filter_impl. intros x Hx. bool_props. apply Z.ltb_lt. lia. }
  destruct (block_test Before now st) eqn:Hbef; [|destruct (Z.leb_spec (ls_limit st)
    (Z.of_nat (length (ls_counts (prepared st now))))) as [Hfull|Hroom]].
  - split; [|done]. split; [done|intros; apply Hc; lia|done|done].
  - split; [|done]. split; simpl; [done|done| |done]. intros u _ [= <-].
    eapply Forall_impl; [exact Ho'|]. intros a Ha. unfold Add. cbv beta in *. lia.
  - split; [|by rewrite <- Hlim, <- Hwin]. split.
    + apply Forall_app. split; [done|]. by apply Forall_singleton.
    + intros t Ht. cbn [set_counts ls_window ls_limit ls_counts ls_blocked ls_blockUntil].
      rewrite Hwin. rewrite !List.filter_app. f_equal. by apply Hc'.
    + cbn [set_counts ls_window ls_limit ls_counts ls_blocked ls_blockUntil]. intros u Hblk Hu. unfold prepared in Hblk, Hu.
      destruct (block_test After now st) eqn:Haft; [done|]. simpl in Hblk, Hu.
      unfold block_test in Hbef, Haft. rewrite Hu, Hblk in Hbef, Haft. simpl in Hbef, Haft.
      unfold Before, After in *. bool_props. exfalso. apply Hnb. rewrite Hu. f_equal. lia.
    + cbn [set_counts ls_window ls_limit ls_counts ls_blocked ls_blockUntil]. rewrite Hlim, Hwin. intros t. destruct (Z.ltb_spec t now) as [Ht|Ht].
      * unfold in_window. rewrite List.filter_app. simpl.
        rewrite (proj2 (Z.leb_gt now t)) by lia. rewrite andb_false_r, app_nil_r. apply Hw.
      * etransitivity; [apply in_window_snoc|].
        assert (length (in_window (ls_window st) t allowed) <= length (ls_counts (prepared st now)))%nat.
        { rewrite Hp. apply filter_length_impl. intros a _ Ha. bool_props. apply Z.ltb_lt. lia. }
        lia.
Qed.

(** No check falls on the very instant a block ends. *)
Fixpoint clear_of_block_end (bd : Duration) (st : limiterState) (times : list Time) : Prop :=
  match times with
  | [] => True
  | now :: times' => ls_blockUntil st <> Some now /\ clear_of_block_end bd (check_state bd st now).2 times'
  end.

Lemma run_state_inv bd st allowed last times :
  limiter_inv bd st allowed last -> ls_window st <= bd -> 0 <= bd ->
  Sorted Z.le (last :: times) -> clear_of_block_end bd st times ->
  forall t, Z.of_nat (length (in_window (ls_window st) t (allowed ++ run_state bd st times)))
            <= Z.max 0 (ls_limit st).
Proof.
  revert st allowed last. induction times as [|now times IH]; intros st allowed last Hinv Hw Hbd Hs Hcl t.
  - simpl. rewrite app_nil_r. apply Hinv.
  - apply Sorted_inv in Hs as [Hs Hhd]. apply HdRel_inv in Hhd. destruct Hcl as [Hnb Hcl].
    pose proof (check_state_inv _ _ _ _ _ Hinv Hhd Hw Hbd Hnb) as Hstep. simpl.
    destruct (check_state bd st now) as [b st'] eqn:Hcs. destruct Hstep as (Hinv' & Hl & Hwin).
    rewrite <- Hl, <- Hwin. rewrite <- Hwin in Hw.
    destruct b; [|by eapply IH]. rewrite cons_middle, app_assoc. by eapply IH.
Qed.

(** A key nothing was counted for. *)
Definition fresh_state (limit : Z) (window : Duration) : limiterState :=
  mkLimiterState [] None None limit window false.

Lemma fresh_state_inv bd limit window last : limiter_inv bd (fresh_state limit window) [] last.
Proof. split; [constructor|done|done|]. intros t. simpl. lia. Qed.

(** C6: the limit is a limit: of any sequence of checks of one key, the number
    allowed in any interval of one window's length is at most the key's limit,
    provided a block lasts at least a window and no check falls on the instant
    a block ends. *)
Theorem sliding_window_limit (limit : Z) (window bd : Duration) (t0 : Time) (times : list Time)
    (Hw : window <= bd) (Hbd : 0 <= bd) (Hs : Sorted Z.le (t0 :: times))
    (Hcl : clear_of_block_end bd (fresh_state limit window) times) (t : Time) :
  Z.of_nat (length (in_window window t (run_state bd (fresh_state limit window) times)))
  <= Z.max 0 limit.
Proof.
  pose proof (run_state_inv bd (fresh_state limit window) [] t0 times) as H.
  simpl in H. apply H; try done. apply fresh_state_inv.
Qed.

Lemma sliding_window_limit_witness :
  Z.of_nat (length (in_window 10 12 (run_state 20 (fresh_state 2 10) [3; 4; 5; 6; 26; 40]))) <= 2.
Proof.
  apply (sliding_window_limit 2 10 20 0 [3; 4; 5; 6; 26; 40]); try lia.
  - repeat constructor; lia.
  - vm_compute. split_and!; discriminate || exact I.
Defined.

(** Both conditions are needed.  A block shorter than the window forgets
    operations the window still sees, and so does a block during whose last
    instant something is allowed: in both runs a limit of two lets four through
    within one window. *)
Theorem limit_exceeded :
  in_window 10 9 (run_state 3 (fresh_state 2 10) [1; 2; 3; 7; 8; 9]) = [1; 2; 7; 8] /\
  in_window 10 30 (run_state 20 (fresh_state 2 10) [1; 2; 3; 23; 23; 24; 25]) = [23; 23; 24; 25].
Proof. split; vm_compute; reflexivity. Qed.

(** ** Keys *)

(** The calls of [checkKey] a caller makes: key, entry, time. *)
Fixpoint run_keys (r : RateLimiter) (calls : list (string * Entry * Time)) : list (string * Time) :=
  match calls with
  | [] => []
  | (key, entry, now) :: calls' =>
      match checkKey r key entry now with
      | (true, r) => (key, now) :: run_keys r calls'
      | (false, r) => run_keys r calls'
      end
  end.

Definition calls_for (k : string) (calls : list (string * Entry * Time)) : list Time :=
  map snd (List.filter (fun c => c.1.1 =?= k) calls).

(** Keys do not disturb each other: what a run of checks of many keys allows
    for one key is what the checks of that key alone allow. *)
Theorem keys_independent (r : RateLimiter) (k : string) (st : limiterState)
    (calls : list (string * Entry * Time)) (Hk : rl_limiters r !! k = Some st) :
  map snd (List.filter (fun p => p.1 =?= k) (run_keys r calls)) =
  run_state (RateLimitConfig_BlockDuration (rl_config r)) st (calls_for k calls).
Proof.
  revert r st Hk. induction calls as [|[[key entry] now] calls IH]; intros r st Hk; [done|].
  unfold calls_for. cbn [List.filter fst]. cbn [run_keys]. unfold checkKey.
  case_bool_decide as Heq; simpl in Heq.
  - subst key. rewrite Hk. cbn [default map snd run_state].
    destruct (check_state _ st now) as [b st'] eqn:Hc.
    specialize (IH (mkRateLimiter (rl_config r) (<[k := st']> (rl_limiters r))) st' (lookup_insert_eq _ _ _)).
    simpl; rewrite Hc; destruct b; simpl; [rewrite bool_decide_true by done; simpl; by f_equal|done].
  - destruct (check_state _ (default _ _) now) as [b st'].
    specialize (IH (mkRateLimiter (rl_config r) (<[key := st']> (rl_limiters r))) st).
    cbn [rl_limiters] in IH. rewrite lookup_insert_ne in IH by done. specialize (IH Hk). simpl in IH.
    destruct b; simpl; [|done]. by rewrite bool_decide_false by done.
Qed.

Lemma keys_independent_witness :
  map snd (List.filter (fun p : string * Time => p.1 =?= "a"%string)
    (run_keys (mkRateLimiter DefaultRateLimitConfig {[ "a"%string := fresh_state 1 10 ]})
       [("a", mkEntry "u" "SELECT" "" "", 1); ("b", mkEntry "u" "SELECT" "" "", 2);
        ("a", mkEntry "u" "SELECT" "" "", 3)]%string)) = [1].
Proof.
  rewrite (keys_independent _ "a" (fresh_state 1 10)); [vm_compute; reflexivity|reflexivity].
Defined.

(** The limit of a key is that of the action that first used it: a first
    DDL statement gives the key shared by all operations a limit of ten, and
    the eleventh SELECT in a minute is refused (500 are configured). *)
Theorem first_action_sets_global_limit :
  let r0 := NewRateLimiter DefaultRateLimitConfig in
  let ddl := mkEntry "u" "DDL" "" "app" in
  let select := mkEntry "u" "SELECT" "" "app" in
  (forall r entry, determineLimit r "global" entry = determineLimit r "action" entry) /\
  length (run_keys r0 (("global"%string, ddl, 1) :: replicate 20 ("global"%string, select, 2))) = 10%nat.
Proof. split; [done|]. vm_compute. reflexivity. Qed.
