(* ===== verification/Rbac.v ===== *)
(** * Role-based access control ([internal/grpc/middleware/rbac.go])

    The table of permissions per RPC and the interceptor that consults it before
    a handler runs.  The unary and the stream interceptor make the same decision
    on the same inputs, [decide_rpc]: to call the handler, with a user in its
    context or without, or to answer with a status.  The lookup of a session
    token ([getUserFromToken]) is an argument. *)
From stdpp Require Import base gmap strings list.
From Stdlib Require Import ZArith Lia Ascii.
From S2P Require Import Prelude GoStrings Domain.

Record RBACConfig := mkRBACConfig {
  RBACConfig_Enabled : bool;
  RBACConfig_BootstrapMode : bool
}.

Record MethodPermission := mkMethodPermission {
  MethodPermission_RequiresAuth : bool;
  MethodPermission_RequiredRole : UserRole;
  MethodPermission_AllowSelf : bool;
  MethodPermission_AllowBootstrap : bool
}.

(** The five combinations the table uses. *)
Definition perm_public : MethodPermission := mkMethodPermission false "" false false.
Definition perm_auth : MethodPermission := mkMethodPermission true "" false false.
Definition perm_self : MethodPermission := mkMethodPermission true "" true false.
Definition perm_self_bootstrap : MethodPermission := mkMethodPermission true "" true true.
Definition perm_admin : MethodPermission := mkMethodPermission true UserRoleAdmin false false.

(** The entries, without the prefix of the package they share. *)
Definition service_permissions : list (string * MethodPermission) :=
  [
   ("HealthService/Check", perm_public);
   ("HealthService/Watch", perm_public);
   ("HealthService/GetStatus", perm_public);
   ("HealthService/Ping", perm_public);
   ("HealthService/GetNodeInfo", perm_public);
   ("AuthService/Challenge", perm_public);
   ("AuthService/VerifyChallenge", perm_public);
   ("AuthService/GetAuthConfig", perm_public);
   ("AuthService/GetPublicKeyInfo", perm_public);
   ("AuthService/Logout", perm_self);
   ("AuthService/GetSession", perm_self);
   ("AuthService/RefreshSession", perm_self);
   ("AuthService/ValidateSession", perm_public);
   ("AuthService/ListMySessions", perm_self);
   ("AuthService/RevokeAllSessions", perm_self);
   ("UserService/GetUser", perm_admin);
   ("UserService/GetUserByPublicKey", perm_admin);
   ("UserService/ListUsers", perm_admin);
   ("UserService/SearchUsers", perm_admin);
   ("UserService/CreateUser", perm_admin);
   ("UserService/UpdateUser", perm_admin);
   ("UserService/DeleteUser", perm_admin);
   ("UserService/SuspendUser", perm_admin);
   ("UserService/ActivateUser", perm_admin);
   ("UserService/SetUserRole", perm_admin);
   ("UserService/GetCurrentUser", perm_self_bootstrap);
   ("UserService/UpdateCurrentUser", perm_self_bootstrap);
   ("UserService/GetUserPreferences", perm_self);
   ("UserService/UpdateUserPreferences", perm_self);
   ("UserService/ListUserSessions", perm_self);
   ("UserService/EndUserSession", perm_self);
   ("UserService/EndAllUserSessions", perm_admin);
   ("NodeService/GetNode", perm_auth);
   ("NodeService/ListNodes", perm_auth);
   ("NodeService/GetSelfNode", perm_auth);
   ("NodeService/ConnectPeer", perm_admin);
   ("NodeService/DisconnectPeer", perm_admin);
   ("NodeService/GetNetworkStats", perm_auth);
   ("NodeService/StreamNodeEvents", perm_auth);
   ("NodeService/GetPeerInfo", perm_auth);
   ("NodeService/ListConnectedPeers", perm_auth);
   ("NodeService/BanPeer", perm_admin);
   ("NodeService/UnbanPeer", perm_admin);
   ("NodeService/ListBannedPeers", perm_admin);
   ("TopicService/CreateTopic", perm_admin);
   ("TopicService/GetTopic", perm_auth);
   ("TopicService/ListTopics", perm_auth);
   ("TopicService/UpdateTopic", perm_auth);
   ("TopicService/DeleteTopic", perm_auth);
   ("TopicService/Subscribe", perm_auth);
   ("TopicService/Unsubscribe", perm_auth);
   ("TopicService/ListSubscriptions", perm_auth);
   ("TopicService/GetSubscription", perm_auth);
   ("TopicService/StreamTopicUpdates", perm_auth);
   ("TopicService/GetTopicStats", perm_auth);
   ("TopicService/SearchTopics", perm_auth);
   ("DatasetService/CreateDataset", perm_auth);
   ("DatasetService/GetDataset", perm_auth);
   ("DatasetService/ListDatasets", perm_auth);
   ("DatasetService/UpdateDataset", perm_auth);
   ("DatasetService/DeleteDataset", perm_auth);
   ("DatasetService/UploadDataset", perm_auth);
   ("DatasetService/DownloadDataset", perm_auth);
   ("DatasetService/GetDatasetVersions", perm_auth);
   ("DatasetService/GetVersion", perm_auth);
   ("DatasetService/GetChunk", perm_auth);
   ("DatasetService/VerifyDataset", perm_auth);
   ("DatasetService/SearchDatasets", perm_auth);
   ("DatasetService/GetDatasetStats", perm_auth);
   ("DatasetService/CopyDataset", perm_auth);
   ("DatasetService/StreamDatasetEvents", perm_auth);
   ("QueryService/Execute", perm_auth);
   ("QueryService/ExecuteStream", perm_auth);
   ("QueryService/ValidateQuery", perm_auth);
   ("QueryService/ExplainQuery", perm_auth);
   ("QueryService/ListFunctions", perm_auth);
   ("QueryService/GetQueryHistory", perm_auth);
   ("QueryService/SaveQuery", perm_auth);
   ("QueryService/ListSavedQueries", perm_auth);
   ("QueryService/DeleteSavedQuery", perm_auth);
   ("AdminService/GetConfig", perm_admin);
   ("AdminService/UpdateConfig", perm_admin);
   ("AdminService/GetMetrics", perm_admin);
   ("AdminService/StreamLogs", perm_admin);
   ("AdminService/GetAuditLogs", perm_admin);
   ("AdminService/TriggerBackup", perm_admin);
   ("AdminService/ListBackups", perm_admin);
   ("AdminService/RestoreBackup", perm_admin);
   ("AdminService/DeleteBackup", perm_admin);
   ("AdminService/GetClusterStatus", perm_admin);
   ("AdminService/TriggerSnapshot", perm_admin);
   ("AdminService/TransferLeadership", perm_admin);
   ("AdminService/Shutdown", perm_admin);
   ("AdminService/GetSystemInfo", perm_admin);
   ("AdminService/RunMaintenance", perm_admin);
   ("JobService/CreateJob", perm_auth);
   ("JobService/GetJob", perm_auth);
   ("JobService/ListJobs", perm_auth);
   ("JobService/CancelJob", perm_auth);
   ("JobService/RetryJob", perm_auth);
   ("JobService/StreamJobUpdates", perm_auth);
   ("BreakGlassService/InitiateBreakGlass", perm_admin);
   ("BreakGlassService/EndBreakGlass", perm_admin);
   ("BreakGlassService/GetBreakGlassStatus", perm_admin)
  ]%string.

Definition services_prefix : string := "/bib.v1.services.".

Definition methodPermissions : list (string * MethodPermission) :=
  map (fun p => ((services_prefix +:+ p.1)%string, p.2)) service_permissions.

Definition find_permission (method : string) : option MethodPermission :=
  snd <$> List.find (fun p => p.1 =?= method) methodPermissions.

(** [roleHierarchy] *)
Definition role_level (r : UserRole) : option Z :=
  if r =?= UserRoleAdmin then Some 3%Z
  else if r =?= UserRoleUser then Some 2%Z
  else if r =?= UserRoleReadonly then Some 1%Z
  else None.

Definition hasMinimumRole (userRole requiredRole : UserRole) : bool :=
  match role_level userRole with
  | None => false
  | Some userLevel =>
      match role_level requiredRole with
      | None => false
      | Some requiredLevel => (requiredLevel <=? userLevel)%Z
      end
  end.

(** The incoming metadata: [None] when the context has none; keys are lower case. *)
Abbreviation Metadata := (option (gmap string (list string))) (only parsing).

(** ** What the decision is to be

    Written out here and not taken from the table: which methods anybody may call, which
    are open while the node is set up, which ask for an account and which for an
    administrator; and where a request carries its token. *)

(** Open to everybody. *)
Definition public_methods : list string :=
  ["HealthService/Check"; "HealthService/Watch"; "HealthService/GetStatus"; "HealthService/Ping";
   "HealthService/GetNodeInfo"; "AuthService/Challenge"; "AuthService/VerifyChallenge";
   "AuthService/GetAuthConfig"; "AuthService/GetPublicKeyInfo"; "AuthService/ValidateSession"]%string.

(** Open to every account, and to everybody in bootstrap mode. *)
Definition bootstrap_methods : list string :=
  ["UserService/GetCurrentUser"; "UserService/UpdateCurrentUser"]%string.

(** Open to every account. *)
Definition account_methods : list string :=
  ["AuthService/Logout"; "AuthService/GetSession"; "AuthService/RefreshSession";
   "AuthService/ListMySessions"; "AuthService/RevokeAllSessions"; "UserService/GetUserPreferences";
   "UserService/UpdateUserPreferences"; "UserService/ListUserSessions"; "UserService/EndUserSession";
   "NodeService/GetNode"; "NodeService/ListNodes"; "NodeService/GetSelfNode"; "NodeService/GetNetworkStats";
   "NodeService/StreamNodeEvents"; "NodeService/GetPeerInfo"; "NodeService/ListConnectedPeers";
   "TopicService/GetTopic"; "TopicService/ListTopics"; "TopicService/UpdateTopic";
   "TopicService/DeleteTopic"; "TopicService/Subscribe"; "TopicService/Unsubscribe";
   "TopicService/ListSubscriptions"; "TopicService/GetSubscription"; "TopicService/StreamTopicUpdates";
   "TopicService/GetTopicStats"; "TopicService/SearchTopics"; "DatasetService/CreateDataset";
   "DatasetService/GetDataset"; "DatasetService/ListDatasets"; "DatasetService/UpdateDataset";
   "DatasetService/DeleteDataset"; "DatasetService/UploadDataset"; "DatasetService/DownloadDataset";
   "DatasetService/GetDatasetVersions"; "DatasetService/GetVersion"; "DatasetService/GetChunk";
   "DatasetService/VerifyDataset"; "DatasetService/SearchDatasets"; "DatasetService/GetDatasetStats";
   "DatasetService/CopyDataset"; "DatasetService/StreamDatasetEvents"; "QueryService/Execute";
   "QueryService/ExecuteStream"; "QueryService/ValidateQuery"; "QueryService/ExplainQuery";
   "QueryService/ListFunctions"; "QueryService/GetQueryHistory"; "QueryService/SaveQuery";
   "QueryService/ListSavedQueries"; "QueryService/DeleteSavedQuery"; "JobService/CreateJob";
   "JobService/GetJob"; "JobService/ListJobs"; "JobService/CancelJob"; "JobService/RetryJob";
   "JobService/StreamJobUpdates"]%string.

(** Open to administrators. *)
Definition admin_methods : list string :=
  ["UserService/GetUser"; "UserService/GetUserByPublicKey"; "UserService/ListUsers";
   "UserService/SearchUsers"; "UserService/CreateUser"; "UserService/UpdateUser"; "UserService/DeleteUser";
   "UserService/SuspendUser"; "UserService/ActivateUser"; "UserService/SetUserRole";
   "UserService/EndAllUserSessions"; "NodeService/ConnectPeer"; "NodeService/DisconnectPeer";
   "NodeService/BanPeer"; "NodeService/UnbanPeer"; "NodeService/ListBannedPeers";
   "TopicService/CreateTopic"; "AdminService/GetConfig"; "AdminService/UpdateConfig";
   "AdminService/GetMetrics"; "AdminService/StreamLogs"; "AdminService/GetAuditLogs";
   "AdminService/TriggerBackup"; "AdminService/ListBackups"; "AdminService/RestoreBackup";
   "AdminService/DeleteBackup"; "AdminService/GetClusterStatus"; "AdminService/TriggerSnapshot";
   "AdminService/TransferLeadership"; "AdminService/Shutdown"; "AdminService/GetSystemInfo";
   "AdminService/RunMaintenance"; "BreakGlassService/InitiateBreakGlass"; "BreakGlassService/EndBreakGlass";
   "BreakGlassService/GetBreakGlassStatus"]%string.

Definition methods (names : list string) : list string :=
  map (fun n => "/bib.v1.services." +:+ n)%string names.

Section rbac.
Context `{UnicodeTables}.

Definition md_get (md : gmap string (list string)) (key : string) : list string :=
  default [] (md !! key).

Definition ExtractToken (md : Metadata) : string :=
  match md with
  | None => ""
  | Some md =>
      match md_get md "x-session-token" with
      | t :: _ => t
      | [] =>
          match md_get md "authorization" with
          | token :: _ =>
              if HasPrefix (ToLower token) "bearer " then str_of (drop 7 (bytes_of token)) else token
          | [] => ""
          end
      end
  end.

Inductive Denial :=
| UnknownMethod
| MissingToken
| InvalidToken (err : string)
| NotActive
| InsufficientRole (required : UserRole).

(** What becomes of a call. *)
Inductive Decision :=
| CallHandler (user : option User)
| Refuse (d : Denial).

Definition extractAndValidateUser (md : Metadata) (getUserFromToken : string -> result string User)
    : result Denial User :=
  let token := ExtractToken md in
  if token =?= ""%string then Err MissingToken
  else match getUserFromToken token with
       | Err e => Err (InvalidToken e)
       | Ok user => Ok user
       end.

Definition decide_rpc (cfg : RBACConfig) (getUserFromToken : string -> result string User)
    (md : Metadata) (fullMethod : string) : Decision :=
  if negb (RBACConfig_Enabled cfg) then CallHandler None
  else match find_permission fullMethod with
       | None => Refuse UnknownMethod
       | Some perm =>
           if negb (MethodPermission_RequiresAuth perm) then CallHandler None
           else if RBACConfig_BootstrapMode cfg && MethodPermission_AllowBootstrap perm
           then CallHandler None
           else match extractAndValidateUser md getUserFromToken with
                | Err d => Refuse d
                | Ok user =>
                    if negb (User_IsActive user) then Refuse NotActive
                    else if (MethodPermission_RequiredRole perm <>? ""%string) &&
                            negb (hasMinimumRole (User_Role user) (MethodPermission_RequiredRole perm))
                    then Refuse (InsufficientRole (MethodPermission_RequiredRole perm))
                    else CallHandler (Some user)
                end
       end.

(** The token of a request: the first value of [x-session-token]; without one, the
    first value of [authorization], less [Bearer ] in whatever case before it. *)
Inductive carries : Metadata -> string -> Prop :=
| carries_session h t rest :
    h !! "x-session-token"%string = Some (t :: rest) -> carries (Some h) t
| carries_bearer h a rest :
    default [] (h !! "x-session-token"%string) = [] ->
    h !! "authorization"%string = Some (a :: rest) ->
    HasPrefix (ToLower a) "bearer " = true -> carries (Some h) (str_of (drop 7 (bytes_of a)))
| carries_plain h a rest :
    default [] (h !! "x-session-token"%string) = [] ->
    h !! "authorization"%string = Some (a :: rest) ->
    HasPrefix (ToLower a) "bearer " = false -> carries (Some h) a.

(** ** Theorems *)

Lemma md_get_cons h k t rest : md_get h k = t :: rest -> h !! k = Some (t :: rest).
Proof. unfold md_get. destruct (h !! k); [by intros <-|done]. Qed.

Lemma decide_rpc_handler cfg get md m u :
  RBACConfig_Enabled cfg = true -> decide_rpc cfg get md m = CallHandler u ->
  exists perm, find_permission m = Some perm /\
    match u with
    | None => MethodPermission_RequiresAuth perm = false \/
              (RBACConfig_BootstrapMode cfg = true /\ MethodPermission_AllowBootstrap perm = true)
    | Some user =>
        MethodPermission_RequiresAuth perm = true /\
        ExtractToken md <> ""%string /\ get (ExtractToken md) = Ok user /\
        User_Status user = UserStatusActive /\
        (MethodPermission_RequiredRole perm = ""%string \/
         hasMinimumRole (User_Role user) (MethodPermission_RequiredRole perm) = true)
    end.
Proof.
  intros He. unfold decide_rpc, extractAndValidateUser. rewrite He. simpl.
  destruct (find_permission m) as [perm|]; [|done].
  destruct (MethodPermission_RequiresAuth perm) eqn:Ha; simpl; [|intros; simplify_eq; eauto].
  destruct (RBACConfig_BootstrapMode cfg && _) eqn:Hb.
  { intros; simplify_eq. bool_props. eauto. }
  case_bool_decide; [done|]. destruct (get (ExtractToken md)) as [user|] eqn:Hg; [|done].
  unfold User_IsActive. case_bool_decide; simpl; [|done].
  destruct (_ && negb (hasMinimumRole _ _)) eqn:Hr; [done|]. intros; simplify_eq.
  exists perm. split_and!; try done. apply andb_false_iff in Hr as [Hr|Hr]; bool_props; auto.
Qed.

Lemma carries_extract md t : carries md t -> ExtractToken md = t.
Proof.
  intros [h t' rest Hs|h a rest Hs Ha Hb|h a rest Hs Ha Hb]; unfold ExtractToken, md_get.
  - by rewrite Hs.
  - rewrite Hs, Ha. cbn [from_option id]. by rewrite Hb.
  - rewrite Hs, Ha. cbn [from_option id]. by rewrite Hb.
Qed.

Lemma extract_carries md : ExtractToken md <> ""%string -> carries md (ExtractToken md).
Proof.
  unfold ExtractToken. destruct md as [h|]; [|done].
  destruct (md_get h "x-session-token") as [|t rest] eqn:Hs.
  - destruct (md_get h "authorization") as [|a rest] eqn:Ha; [done|]. apply md_get_cons in Ha.
    intros _. destruct (HasPrefix (ToLower a) "bearer ") eqn:Hb; [by eapply carries_bearer|by eapply carries_plain].
  - apply md_get_cons in Hs. intros _. by eapply carries_session.
Qed.

(** The table, read as the four lists. *)
Inductive listed (m : string) : MethodPermission -> Prop :=
| listed_public : m ∈ methods public_methods -> listed m perm_public
| listed_bootstrap : m ∈ methods bootstrap_methods -> listed m perm_self_bootstrap
| listed_account perm : m ∈ methods account_methods -> perm = perm_auth \/ perm = perm_self -> listed m perm
| listed_admin : m ∈ methods admin_methods -> listed m perm_admin.

#[local] Instance MethodPermission_eq_dec : EqDecision MethodPermission.
Proof. solve_decision. Defined.

Lemma table_lists_check :
  forallb (fun p =>
    (mem p.1 (methods public_methods) && bool_decide (p.2 = perm_public)) ||
    (mem p.1 (methods bootstrap_methods) && bool_decide (p.2 = perm_self_bootstrap)) ||
    (mem p.1 (methods account_methods) && bool_decide (p.2 = perm_auth \/ p.2 = perm_self)) ||
    (mem p.1 (methods admin_methods) && bool_decide (p.2 = perm_admin))) methodPermissions = true.
Proof. vm_compute. reflexivity. Qed.

Lemma find_permission_listed m perm : find_permission m = Some perm -> listed m perm.
Proof.
  unfold find_permission. intros ([m' perm'] & Hf & ->)%fmap_Some.
  apply List.find_some in Hf as [Hin Heq]. simpl in *. apply bool_decide_eq_true in Heq as ->.
  pose proof table_lists_check as Hall. rewrite forallb_forall in Hall. specialize (Hall _ Hin). cbn [fst snd] in Hall.
  rewrite !orb_true_iff, !andb_true_iff, !bool_decide_eq_true, !mem_true in Hall.
  destruct Hall as [[[[? ->]|[? ->]]|[? ?]]|[? ->]]; by constructor.
Qed.

Definition finds (perms : list MethodPermission) (m : string) : bool :=
  match find_permission m with Some p => bool_decide (p ∈ perms) | None => false end.

Lemma lists_table_check :
  forallb (finds [perm_public]) (methods public_methods) && forallb (finds [perm_self_bootstrap]) (methods bootstrap_methods) &&
  forallb (finds [perm_auth; perm_self]) (methods account_methods) && forallb (finds [perm_admin]) (methods admin_methods) = true.
Proof. vm_compute. reflexivity. Qed.

Lemma finds_in perms l m :
  forallb (finds perms) l = true -> m ∈ l -> exists p, find_permission m = Some p /\ p ∈ perms.
Proof.
  intros Hall Hm. rewrite forallb_forall in Hall. specialize (Hall m (proj1 (list_elem_of_In _ _) Hm)).
  unfold finds in Hall. destruct (find_permission m) as [p|]; [|done]. exists p. split; [done|]. by apply bool_decide_eq_true in Hall.
Qed.

Lemma hasMinimumRole_admin r : hasMinimumRole r UserRoleAdmin = true -> r = UserRoleAdmin.
Proof.
  unfold hasMinimumRole, role_level. repeat (case_bool_decide; simpl); try done;
    intros; by subst.
Qed.

Lemma hasMinimumRole_admin_iff r : hasMinimumRole r UserRoleAdmin = true <-> r = UserRoleAdmin.
Proof. split; [apply hasMinimumRole_admin|]. by intros ->. Qed.

(** C18: the decision of the interceptors, which no chain of the server installs, is
    exactly this, with access control on.  A call is handled without a user just when its
    method is one of the ten anybody may call, or one of the two of a user's own account
    in bootstrap mode; it is handled with a user just when the token the request carries
    is not empty and belongs to that user, the account is active, and the method is one of
    those open to accounts, or one of those open to administrators and the user is one;
    every other call is refused. *)
Theorem rbac_exact (cfg : RBACConfig) (get : string -> result string User) (md : Metadata) (m : string)
    (He : RBACConfig_Enabled cfg = true) :
  (decide_rpc cfg get md m = CallHandler None <->
     m ∈ methods public_methods \/ (RBACConfig_BootstrapMode cfg = true /\ m ∈ methods bootstrap_methods)) /\
  (forall user, decide_rpc cfg get md m = CallHandler (Some user) <->
     (exists token, carries md token /\ token <> ""%string /\ get token = Ok user) /\
     User_Status user = UserStatusActive /\
     (m ∈ methods account_methods \/
      (m ∈ methods bootstrap_methods /\ RBACConfig_BootstrapMode cfg = false) \/
      (m ∈ methods admin_methods /\ User_Role user = UserRoleAdmin))).
Proof.
  split; [split|intros user; split].
  - intros (perm & Hp & Hu)%decide_rpc_handler; [|done].
    apply find_permission_listed in Hp. destruct Hp as [Hm|Hm|? Hm [-> | ->]|Hm]; [by left|right|exfalso..];
      destruct Hu as [Hu|[Hb Hu]]; try discriminate Hu. by split.
  - pose proof lists_table_check as [[[H1 H2]%andb_true_iff _]%andb_true_iff _]%andb_true_iff.
    unfold decide_rpc. rewrite He. intros [Hm|[Hb Hm]].
    + destruct (finds_in _ _ _ H1 Hm) as (p & -> & ->%list_elem_of_singleton). done.
    + destruct (finds_in _ _ _ H2 Hm) as (p & -> & ->%list_elem_of_singleton). cbn. by rewrite Hb.
  - intros Hd. pose proof Hd as (perm & Hp & Ha & Ht & Hg & Hs & Hr)%decide_rpc_handler; [|done].
    split; [exists (ExtractToken md); split_and!; [by apply extract_carries|done|done]|]. split; [done|].
    apply find_permission_listed in Hp. destruct Hp as [Hm|Hm|? Hm Hor|Hm]; [done| |by left|right; right].
    + right. left. split; [done|]. destruct (RBACConfig_BootstrapMode cfg) eqn:Hb; [|done].
      pose proof lists_table_check as [[[_ H2]%andb_true_iff _]%andb_true_iff _]%andb_true_iff.
      destruct (finds_in _ _ _ H2 Hm) as (p & Hp & ->%list_elem_of_singleton).
      unfold decide_rpc in Hd. rewrite He, Hp in Hd. cbn in Hd. by rewrite Hb in Hd.
    + split; [done|]. destruct Hr as [Hr|Hr]; [done|]. by apply hasMinimumRole_admin.
  - intros ((token & Hc & Hne & Hg) & Hs & Hm). apply carries_extract in Hc. subst token.
    unfold decide_rpc, extractAndValidateUser, User_IsActive. rewrite He. cbn [negb].
    rewrite (bool_decide_false _ Hne), Hg, (bool_decide_true _ Hs).
    pose proof lists_table_check as [[[_ H2]%andb_true_iff H3]%andb_true_iff H4]%andb_true_iff.
    destruct Hm as [Hm|[[Hm Hb]|[Hm Ha]]].
    + destruct (finds_in _ _ _ H3 Hm) as (p & -> & Hp). rewrite !elem_of_cons, elem_of_nil in Hp.
      destruct Hp as [->|[->|[]]]; cbn; by rewrite andb_false_r.
    + destruct (finds_in _ _ _ H2 Hm) as (p & -> & ->%list_elem_of_singleton). cbn. by rewrite Hb.
    + destruct (finds_in _ _ _ H4 Hm) as (p & -> & ->%list_elem_of_singleton). cbn. rewrite andb_false_r.
      by rewrite Ha.
Qed.

(** The methods that only administrators may call. *)
Definition admin_service (m : string) : bool :=
  HasPrefix m "/bib.v1.services.AdminService/".

Lemma admin_service_check :
  forallb (fun p => negb (admin_service p.1) ||
             (MethodPermission_RequiresAuth p.2 &&
              (MethodPermission_RequiredRole p.2 =?= UserRoleAdmin) &&
              negb (MethodPermission_AllowBootstrap p.2))) methodPermissions = true.
Proof. vm_compute. reflexivity. Qed.

(** No call of the administration service is handled for anyone but an
    active administrator, in bootstrap mode neither. *)
Theorem admin_service_admin_only (cfg : RBACConfig) (get : string -> result string User)
    (md : Metadata) (m : string) (u : option User)
    (He : RBACConfig_Enabled cfg = true) (Hm : admin_service m = true)
    (Hd : decide_rpc cfg get md m = CallHandler u) :
  exists user, u = Some user /\ User_Role user = UserRoleAdmin /\
    User_Status user = UserStatusActive /\ get (ExtractToken md) = Ok user.
Proof.
  destruct (decide_rpc_handler _ _ _ _ _ He Hd) as (perm & Hp & Hu).
  unfold find_permission in Hp. apply fmap_Some in Hp as ([m' perm'] & Hf & ->).
  apply List.find_some in Hf as [Hin Heq]. simpl in *. apply bool_decide_eq_true in Heq as ->.
  pose proof admin_service_check as Hall. rewrite forallb_forall in Hall. specialize (Hall _ Hin).
  simpl in Hall. rewrite Hm in Hall. simpl in Hall. bool_props.
  destruct u as [user|]; [|destruct Hu as [?|[_ ?]]; congruence].
  destruct Hu as (_ & _ & Hg & Hs & Hr). exists user. split_and!; try done.
  match goal with H : MethodPermission_RequiredRole _ = UserRoleAdmin |- _ => rewrite H in Hr end.
  destruct Hr as [Hr|Hr]; [discriminate|].
  by apply hasMinimumRole_admin.
Qed.

(** The RPCs of the generated services that the table does not name. *)
Definition unlisted_methods : list string :=
  map (fun m => services_prefix +:+ m)%string
  [
   "AuthService/RevokeSession";
   "BreakGlassService/AcknowledgeSession";
   "BreakGlassService/CreateChallenge";
   "BreakGlassService/DisableSession";
   "BreakGlassService/EnableSession";
   "BreakGlassService/GetPendingAcknowledgments";
   "BreakGlassService/GetSessionReport";
   "BreakGlassService/GetStatus";
   "BreakGlassService/ListSessions";
   "JobService/DeleteJob";
   "JobService/GetJobResult";
   "JobService/PauseJob";
   "JobService/ResumeJob";
   "JobService/StreamJobLogs";
   "JobService/StreamJobStatus"
  ]%string.

(** Fifteen RPCs of the generated services can be called by nobody: the
    table has no entry for them, among them all eight of the break-glass
    service (whose three entries name RPCs that do not exist). *)
Theorem unlisted_methods_refused (cfg : RBACConfig) (get : string -> result string User)
    (md : Metadata) (m : string)
    (He : RBACConfig_Enabled cfg = true) (Hm : m ∈ unlisted_methods) :
  decide_rpc cfg get md m = Refuse UnknownMethod.
Proof.
  assert (forallb (fun m => bool_decide (List.find (fun p => p.1 =?= m) methodPermissions = None))
            unlisted_methods = true) as Hall by (vm_compute; reflexivity).
  rewrite forallb_forall in Hall. specialize (Hall m (proj1 (list_elem_of_In _ _) Hm)).
  apply bool_decide_eq_true in Hall. unfold decide_rpc, find_permission. by rewrite He, Hall.
Qed.

(** A readonly user's calls that create, change or delete topics'
    subscriptions, datasets and jobs, and that delete topics, pass: these
    methods ask for any user. *)
Theorem readonly_user_passes (cfg : RBACConfig) (get : string -> result string User)
    (md : Metadata) (user : User) (m : string)
    (Ht : ExtractToken md <> ""%string) (Hg : get (ExtractToken md) = Ok user)
    (Ha : User_Status user = UserStatusActive)
    (Hm : m ∈ map (fun m => services_prefix +:+ m)%string
      ["TopicService/UpdateTopic"; "TopicService/DeleteTopic"; "DatasetService/CreateDataset";
       "DatasetService/UploadDataset"; "DatasetService/DeleteDataset"; "JobService/CreateJob"]%string) :
  exists u, decide_rpc cfg get md m = CallHandler u.
Proof.
  assert (find_permission m = Some perm_auth) as Hp.
  { repeat (apply elem_of_cons in Hm as [->|Hm]; [vm_compute; reflexivity|]).
    by apply elem_of_nil in Hm. }
  unfold decide_rpc, extractAndValidateUser, User_IsActive. rewrite Hp. simpl.
  rewrite andb_false_r, bool_decide_false, Hg by done. simpl.
  rewrite bool_decide_true by done. simpl. destruct (RBACConfig_Enabled cfg); by eexists.
Qed.
End rbac.

(** The roles are ordered: the check is reflexive on the three roles,
    transitive and total, and an unknown role has no rights at all. *)
Theorem role_order (a b c : UserRole) :
  (UserRole_IsValid a = true -> hasMinimumRole a a = true) /\
  (hasMinimumRole a b = true -> hasMinimumRole b c = true -> hasMinimumRole a c = true) /\
  (UserRole_IsValid a = true -> UserRole_IsValid b = true ->
     hasMinimumRole a b = true \/ hasMinimumRole b a = true) /\
  (UserRole_IsValid a = false -> hasMinimumRole a b = false).
Proof.
  assert (forall r, UserRole_IsValid r = true <-> is_Some (role_level r)) as Hv.
  { intros r. unfold UserRole_IsValid, role_level. rewrite mem_true, !elem_of_cons, elem_of_nil.
    repeat case_bool_decide; unfold is_Some; naive_solver. }
  unfold hasMinimumRole. split_and!.
  - intros [l ->]%Hv. apply Z.leb_refl.
  - destruct (role_level a), (role_level b), (role_level c); try done. rewrite !Z.leb_le. lia.
  - intros [l ->]%Hv [l' ->]%Hv. rewrite !Z.leb_le. lia.
  - intros Ha. destruct (role_level a) eqn:E; [|done].
    assert (UserRole_IsValid a = true) by (apply Hv; by eexists). congruence.
Qed.

(** ** Concrete calls *)

Section calls.
Existing Instance identity_tables.

Definition admin_user : User := mkUser "u1" [] KeyTypeEd25519 "fp" "root" "" UserStatusActive UserRoleAdmin
  "" 0 0 None ∅.
Definition reader : User := mkUser "u2" [] KeyTypeEd25519 "fp" "reader" "" UserStatusActive UserRoleReadonly
  "" 0 0 None ∅.
Definition users (token : string) : result string User :=
  if token =?= "t1"%string then Ok admin_user
  else if token =?= "t2"%string then Ok reader else Err "no session"%string.
Definition bearer (t : string) : Metadata := Some {[ "authorization"%string := [("Bearer " +:+ t)%string] ]}.
Definition shutdown : string := "/bib.v1.services.AdminService/Shutdown".

Lemma rbac_exact_witness :
  carries (bearer "t1") "t1" /\
  decide_rpc (mkRBACConfig true true) users (bearer "t1") shutdown = CallHandler (Some admin_user) /\
  decide_rpc (mkRBACConfig true true) users (bearer "t2") shutdown <> CallHandler (Some reader).
Proof.
  assert (Hc : carries (bearer "t1") "t1").
  { exact (carries_bearer {[ "authorization" := ["Bearer t1"] ]}%string "Bearer t1" [] eq_refl eq_refl eq_refl). }
  split; [done|]. split.
  - apply (rbac_exact (mkRBACConfig true true) users (bearer "t1") shutdown); [reflexivity|].
    split; [exists "t1"%string; split; done|]. split; [done|].
    right. right. split; [|done]. apply mem_true. vm_compute. reflexivity.
  - intros (_ & _ & H)%(rbac_exact (mkRBACConfig true true) users (bearer "t2") shutdown); [|reflexivity].
    destruct H as [H|[[H _]|[_ H]]]; [apply mem_true in H; vm_compute in H|apply mem_true in H; vm_compute in H|]; discriminate.
Defined.

Lemma admin_service_admin_only_witness :
  exists user, users (ExtractToken (bearer "t1")) = Ok user /\ User_Role user = UserRoleAdmin.
Proof.
  destruct (admin_service_admin_only (mkRBACConfig true true) users (bearer "t1") shutdown
    (Some admin_user)) as (user & _ & Hr & _ & Hg);
    [reflexivity|vm_compute; reflexivity|vm_compute; reflexivity|].
  exists user. split; assumption.
Defined.

Lemma unlisted_methods_refused_witness :
  decide_rpc (mkRBACConfig true true) users (bearer "t1")
    "/bib.v1.services.BreakGlassService/EnableSession" = Refuse UnknownMethod.
Proof.
  apply unlisted_methods_refused; [reflexivity|]. apply mem_true. vm_compute. reflexivity.
Defined.

Lemma readonly_user_passes_witness :
  exists u, decide_rpc (mkRBACConfig true false) users (bearer "t2")
    "/bib.v1.services.TopicService/DeleteTopic" = CallHandler u.
Proof.
  apply (readonly_user_passes (mkRBACConfig true false) users (bearer "t2") reader);
    [vm_compute; discriminate|vm_compute; reflexivity|reflexivity|].
  apply mem_true. vm_compute. reflexivity.
Defined.

Lemma role_order_witness : hasMinimumRole UserRoleAdmin UserRoleReadonly = true.
Proof. apply (role_order UserRoleAdmin UserRoleUser UserRoleReadonly); reflexivity. Defined.
End calls.
