(* ===== verification/BreakGlass.v ===== *)
(** * Emergency access ([internal/storage/breakglass/manager.go], [types.go])

    The life of a break-glass session: challenge, signature, a temporary
    database user, expiry or manual end, report and acknowledgment.  Every
    method holds the manager's lock, so a run is a sequence of calls; the expiry
    goroutine of a session is the step [monitorExpiry].  The database behind
    [DatabaseCallback] is the set of temporary users that exist in it; what its
    calls answer, the audit statistics, random bytes, UUIDs and the readings of
    the clock are arguments. *)
From stdpp Require Import base gmap strings list sets relations.
From Stdlib Require Import ZArith Lia Ascii.
From S2P Require Import Prelude GoStrings Domain.

Abbreviation AccessLevel := string (only parsing).
Abbreviation SessionState := string (only parsing).

Definition AccessReadOnly : AccessLevel := "readonly".
Definition AccessReadWrite : AccessLevel := "readwrite".
Definition AccessLevel_IsValid (a : AccessLevel) : bool := mem a [AccessReadOnly; AccessReadWrite].

Definition StateInactive : SessionState := "inactive".
Definition StateActive : SessionState := "active".
Definition StateExpired : SessionState := "expired".
Definition StatePendingAck : SessionState := "pending_acknowledgment".

Record BGUser := mkBGUser {
  BGUser_Name : string;
  BGUser_PublicKey : list Z;
  BGUser_PublicKeyString : string;
  BGUser_AccessLevel : AccessLevel
}.

Record Session := mkSession {
  Session_ID : string;
  Session_User : BGUser;
  Session_Reason : string;
  Session_AccessLevel : AccessLevel;
  Session_StartedAt : Time;
  Session_ExpiresAt : Time;
  Session_NodeID : string;
  Session_RequestedBy : string;
  Session_ConnectionString : string;
  Session_DBUsername : string;
  Session_State : SessionState;
  Session_RecordingPath : string
}.

Definition Session_IsActive (s : Session) (now : Time) : bool :=
  (Session_State s =?= StateActive) && Before now (Session_ExpiresAt s).

Definition Session_RemainingDuration (s : Session) (now : Time) : Duration :=
  if Session_State s <>? StateActive then 0%Z
  else let remaining := Sub (Session_ExpiresAt s) now in
       if (remaining <? 0)%Z then 0%Z else remaining.

Record BGChallenge := mkBGChallenge {
  BGChallenge_ID : string;
  BGChallenge_Nonce : list Z;
  BGChallenge_CreatedAt : Time;
  BGChallenge_ExpiresAt : Time;
  BGChallenge_Username : string
}.

Definition BGChallenge_IsExpired (c : BGChallenge) (now : Time) : bool :=
  After now (BGChallenge_ExpiresAt c).

Record SessionReport := mkSessionReport {
  SessionReport_Session : Session;
  SessionReport_EndedAt : Time;
  SessionReport_Duration : Duration;
  SessionReport_QueryCount : Z;
  SessionReport_TablesAccessed : list string;
  SessionReport_OperationCounts : gmap string Z;
  SessionReport_AcknowledgedAt : option Time;
  SessionReport_AcknowledgedBy : string;
  SessionReport_RecordingPath : string
}.

Record BGConfig := mkBGConfig {
  BGConfig_Enabled : bool;
  BGConfig_MaxDuration : Duration;
  BGConfig_DefaultAccessLevel : AccessLevel;
  BGConfig_AllowedUsers : list BGUser;
  BGConfig_RequireAcknowledgment : bool;
  BGConfig_SessionRecording : bool;
  BGConfig_RecordingPath : string
}.

(** The answers of the callbacks; [None] for a callback that is not set. *)
Record Callbacks := mkCallbacks {
  cb_create_user : option (string -> string -> AccessLevel -> option string);
  cb_drop_user : string -> option string;
  cb_connection_string : string -> string -> string;
  cb_query_stats : option (string -> option (Z * list string * gmap string Z))
}.

(** What the audit callback is told. *)
Record audit_event := mkAudit { audit_type : string; audit_session : Session }.

Record Manager := mkManager {
  m_config : BGConfig;
  m_nodeID : string;
  m_session : option Session;
  m_challenges : gmap string BGChallenge;
  m_pendingReports : list SessionReport;
  m_callbacks : Callbacks;
  m_db_users : gset string;
  m_audit : list audit_event
}.

Definition NewManager (config : BGConfig) (nodeID : string) (cb : Callbacks) : Manager :=
  mkManager config nodeID None ∅ [] cb ∅ [].

Inductive BGError :=
| ErrBreakGlassDisabled
| ErrBGUserNotFound
| ErrNonce
| ErrBGChallengeNotFound
| ErrBGChallengeExpired
| ErrBGInvalidSignature
| ErrSessionActive
| ErrDurationExceedsMaximum (duration max : Duration)
| ErrCreateUser (e : string)
| ErrNoActiveSession
| ErrReportNotFound.

Definition set_challenges (m : Manager) (c : gmap string BGChallenge) : Manager :=
  mkManager (m_config m) (m_nodeID m) (m_session m) c (m_pendingReports m) (m_callbacks m)
    (m_db_users m) (m_audit m).

Definition log_event (m : Manager) (eventType : string) (s : Session) : Manager :=
  match cb_query_stats (m_callbacks m) with
  | None => m
  | Some _ => mkManager (m_config m) (m_nodeID m) (m_session m) (m_challenges m) (m_pendingReports m)
                (m_callbacks m) (m_db_users m) (m_audit m ++ [mkAudit eventType s])
  end.

(** ** Authentication *)

Definition findUser (m : Manager) (username : string) : option BGUser :=
  List.find (fun u => BGUser_Name u =?= username) (BGConfig_AllowedUsers (m_config m)).

Definition cleanupChallenges (m : Manager) (now : Time) : Manager :=
  set_challenges m (filter (fun p : string * BGChallenge => BGChallenge_IsExpired p.2 now = false)
                      (m_challenges m)).

Definition BG_CreateChallenge (m : Manager) (username uuid : string) (nonce : option (list Z))
    (now1 now2 now3 : Time) : result BGError (BGChallenge * Manager) :=
  if negb (BGConfig_Enabled (m_config m)) then Err ErrBreakGlassDisabled
  else match findUser m username with
       | None => Err ErrBGUserNotFound
       | Some _ =>
           match nonce with
           | None => Err ErrNonce
           | Some nonce =>
               let challenge := mkBGChallenge uuid nonce now1 (Add now2 (5 * Minute)) username in
               Ok (challenge, cleanupChallenges
                                (set_challenges m (<[uuid := challenge]> (m_challenges m))) now3)
           end
       end.

Section verify.
Context `{Crypto}.

(** The manager is returned with an error too: an expired challenge is removed. *)
Definition BG_VerifyChallenge (m : Manager) (challengeID : string) (signature : list Z) (now : Time)
    : Manager * result BGError BGUser :=
  match m_challenges m !! challengeID with
  | None => (m, Err ErrBGChallengeNotFound)
  | Some challenge =>
      if BGChallenge_IsExpired challenge now
      then (set_challenges m (delete challengeID (m_challenges m)), Err ErrBGChallengeExpired)
      else match findUser m (BGChallenge_Username challenge) with
           | None => (m, Err ErrBGUserNotFound)
           | Some user =>
               if negb (ed25519_Verify (BGUser_PublicKey user) (BGChallenge_Nonce challenge) signature)
               then (m, Err ErrBGInvalidSignature)
               else (set_challenges m (delete challengeID (m_challenges m)), Ok user)
           end
  end.
End verify.

(** ** Sessions *)

(** [strings.ReplaceAll(sessionID[:8], "-", "")]: a UUID has 36 bytes. *)
Definition short_id (sessionID : string) : list ascii := take 8 (bytes_of sessionID).
Definition db_username (sessionID : string) : string :=
  ("breakglass_" +:+ str_of (List.filter (fun c => c <>? "-"%char) (short_id sessionID)))%string.

Definition recording_path (config : BGConfig) (sessionID : string) : string :=
  if BGConfig_SessionRecording config then
    let path := (if BGConfig_RecordingPath config =?= "" then "." else BGConfig_RecordingPath config)%string in
    (path +:+ "/breakglass_" +:+ str_of (short_id sessionID) +:+ ".rec")%string
  else ""%string.

(** [CreateBreakGlassUser], if the callback is set: its error, the connection
    string, and the users that exist afterwards. *)
Definition create_user (m : Manager) (username password : string) (level : AccessLevel)
    : result BGError (string * gset string) :=
  match cb_create_user (m_callbacks m) with
  | None => Ok (""%string, m_db_users m)
  | Some create =>
      match create username password level with
      | Some e => Err (ErrCreateUser e)
      | None => Ok (cb_connection_string (m_callbacks m) username password, {[ username ]} ∪ m_db_users m)
      end
  end.

Definition Enable (m : Manager) (user : BGUser) (reason : string) (duration : Duration)
    (requestedBy sessionID dbPassword : string) (now0 now1 now2 : Time)
    : result BGError (Session * Manager) :=
  let config := m_config m in
  if negb (BGConfig_Enabled config) then Err ErrBreakGlassDisabled
  else if match m_session m with Some s => Session_IsActive s now0 | None => false end
  then Err ErrSessionActive
  else if (BGConfig_MaxDuration config <? duration)%Z
  then Err (ErrDurationExceedsMaximum duration (BGConfig_MaxDuration config))
  else
    let duration := if (duration <=? 0)%Z then BGConfig_MaxDuration config else duration in
    let accessLevel := if AccessLevel_IsValid (BGUser_AccessLevel user) then BGUser_AccessLevel user
                       else BGConfig_DefaultAccessLevel config in
    let dbUsername := db_username sessionID in
    let! created := create_user m dbUsername dbPassword accessLevel in
    let '(conn, db) := created in
    let session :=
      mkSession sessionID user reason accessLevel now1 (Add now2 duration) (m_nodeID m) requestedBy
        conn dbUsername StateActive (recording_path config sessionID) in
    Ok (session, log_event (mkManager config (m_nodeID m) (Some session) (m_challenges m)
                              (m_pendingReports m) (m_callbacks m) db (m_audit m))
                   "session_started" session).

Definition set_state (s : Session) (state : SessionState) : Session :=
  mkSession (Session_ID s) (Session_User s) (Session_Reason s) (Session_AccessLevel s)
    (Session_StartedAt s) (Session_ExpiresAt s) (Session_NodeID s) (Session_RequestedBy s)
    (Session_ConnectionString s) (Session_DBUsername s) state (Session_RecordingPath s).

(** [DropBreakGlassUser], whose error is ignored. *)
Definition drop_user (m : Manager) (username : string) : gset string :=
  match cb_create_user (m_callbacks m) with
  | None => m_db_users m
  | Some _ =>
      if (username <>? ""%string) && (cb_drop_user (m_callbacks m) username =?= None)
      then m_db_users m ∖ {[ username ]} else m_db_users m
  end.

Definition query_stats (m : Manager) (sessionID : string) : Z * list string * gmap string Z :=
  match cb_query_stats (m_callbacks m) with
  | None => (0%Z, [], ∅)
  | Some stats => default (0%Z, [], ∅) (stats sessionID)
  end.

Definition endSession (m : Manager) (expired : bool) (now : Time) : result BGError (SessionReport * Manager) :=
  match m_session m with
  | None => Err ErrNoActiveSession
  | Some session =>
      let config := m_config m in
      let session := set_state session (if expired then StateExpired else StatePendingAck) in
      let db := drop_user m (Session_DBUsername session) in
      let '(queryCount, tables, ops) := query_stats m (Session_ID session) in
      let session := if BGConfig_RequireAcknowledgment config then set_state session StatePendingAck
                     else session in
      let report := mkSessionReport session now (Sub now (Session_StartedAt session)) queryCount tables
                      ops None "" (Session_RecordingPath session) in
      let pending := if BGConfig_RequireAcknowledgment config then m_pendingReports m ++ [report]
                     else m_pendingReports m in
      Ok (report, log_event (mkManager config (m_nodeID m) None (m_challenges m) pending (m_callbacks m)
                               db (m_audit m))
                    (if expired then "session_expired" else "session_disabled") session)
  end.

Definition Disable (m : Manager) (now : Time) : result BGError (SessionReport * Manager) :=
  match m_session m with
  | None => Err ErrNoActiveSession
  | Some _ => endSession m false now
  end.

(** The goroutine of session [sessionID] after its timer has fired. *)
Definition monitorExpiry (m : Manager) (sessionID : string) (now : Time) : Manager :=
  match m_session m with
  | None => m
  | Some s =>
      if (Session_ID s =?= sessionID) && (Session_State s =?= StateActive) then
        match endSession m true now with Ok (_, m') => m' | Err _ => m end
      else m
  end.

Definition Acknowledge (m : Manager) (sessionID acknowledgedBy : string) (now : Time)
    : result BGError (SessionReport * Manager) :=
  match List.find (fun r => Session_ID (SessionReport_Session r) =?= sessionID) (m_pendingReports m),
        remove_first (fun r => Session_ID (SessionReport_Session r) =?= sessionID) (m_pendingReports m) with
  | Some r, Some rest =>
      let report := mkSessionReport (SessionReport_Session r) (SessionReport_EndedAt r)
        (SessionReport_Duration r) (SessionReport_QueryCount r) (SessionReport_TablesAccessed r)
        (SessionReport_OperationCounts r) (Some now) acknowledgedBy (SessionReport_RecordingPath r) in
      Ok (report, log_event (mkManager (m_config m) (m_nodeID m) (m_session m) (m_challenges m) rest
                               (m_callbacks m) (m_db_users m) (m_audit m))
                    "session_acknowledged" (SessionReport_Session r))
  | _, _ => Err ErrReportNotFound
  end.

Definition GetReport (m : Manager) (sessionID : string) : result BGError SessionReport :=
  match List.find (fun r => Session_ID (SessionReport_Session r) =?= sessionID) (m_pendingReports m) with
  | Some r => Ok r
  | None => Err ErrReportNotFound
  end.

Definition HasActiveSession (m : Manager) (now : Time) : bool :=
  match m_session m with Some s => Session_IsActive s now | None => false end.

(** * Theorems *)

(** ** Starting a session *)

(** A database callback is set. *)
Definition has_db (cb : Callbacks) : bool :=
  match cb_create_user cb with Some _ => true | None => false end.

Lemma log_event_eq m t s :
  exists audit, log_event m t s =
    mkManager (m_config m) (m_nodeID m) (m_session m) (m_challenges m) (m_pendingReports m)
      (m_callbacks m) (m_db_users m) audit.
Proof. unfold log_event. case_match; [by eexists|]. exists (m_audit m). by destruct m. Qed.

Ltac logged :=
  match goal with |- context [log_event ?m ?t ?s] => destruct (log_event_eq m t s) as [? ->] end; simpl.

Lemma Enable_inv m user reason d by_ id pw now0 now1 now2 s m' :
  Enable m user reason d by_ id pw now0 now1 now2 = Ok (s, m') ->
  BGConfig_Enabled (m_config m) = true /\ HasActiveSession m now0 = false /\
  (d <= BGConfig_MaxDuration (m_config m))%Z /\
  m_session m' = Some s /\ Session_ID s = id /\ Session_State s = StateActive /\
  Session_DBUsername s = db_username id /\
  Session_ExpiresAt s = (now2 + if (d <=? 0)%Z then BGConfig_MaxDuration (m_config m) else d)%Z /\
  Session_AccessLevel s = (if AccessLevel_IsValid (BGUser_AccessLevel user) then BGUser_AccessLevel user
                           else BGConfig_DefaultAccessLevel (m_config m)) /\
  m_db_users m' = (if has_db (m_callbacks m) then {[ db_username id ]} ∪ m_db_users m
                   else m_db_users m) /\
  m_pendingReports m' = m_pendingReports m /\ m_config m' = m_config m /\
  m_callbacks m' = m_callbacks m /\ m_challenges m' = m_challenges m.
Proof.
  unfold Enable, HasActiveSession. intros He.
  destruct (BGConfig_Enabled (m_config m)); [|done]. simpl in He.
  destruct (match m_session m with Some s => Session_IsActive s now0 | None => false end); [done|].
  destruct (Z.ltb_spec (BGConfig_MaxDuration (m_config m)) d) as [|Hd]; [done|].
  unfold create_user in He. unfold has_db. destruct (cb_create_user (m_callbacks m)) as [create|].
  - destruct (create _ _ _); [done|]. simplify_eq. logged. by split_and!.
  - simplify_eq. logged. by split_and!.
Qed.

(** A session starts only when emergency access is enabled, no session is
    active and the duration asked for is within the maximum; it is then active,
    ends at most [MaxDuration] later, and has the access level configured for
    its user, or the default. *)
Theorem Enable_spec m user reason d by_ id pw now0 now1 now2 s m'
    (He : Enable m user reason d by_ id pw now0 now1 now2 = Ok (s, m')) :
  BGConfig_Enabled (m_config m) = true /\ HasActiveSession m now0 = false /\
  (d <= BGConfig_MaxDuration (m_config m))%Z /\
  m_session m' = Some s /\ Session_State s = StateActive /\
  (Session_ExpiresAt s <= now2 + BGConfig_MaxDuration (m_config m))%Z /\
  ((0 < BGConfig_MaxDuration (m_config m))%Z -> (now2 < Session_ExpiresAt s)%Z) /\
  (Session_AccessLevel s = BGUser_AccessLevel user \/
   Session_AccessLevel s = BGConfig_DefaultAccessLevel (m_config m)).
Proof.
  apply Enable_inv in He as (H1 & H2 & H3 & H4 & _ & H5 & _ & H6 & H7 & _).
  split_and!; try done.
  - rewrite H6. destruct (Z.leb_spec d 0); lia.
  - rewrite H6. destruct (Z.leb_spec d 0); lia.
  - rewrite H7. case_match; auto.
Qed.

(** ** Ending a session *)

Lemma endSession_inv m expired now r m' :
  endSession m expired now = Ok (r, m') ->
  exists s, m_session m = Some s /\ m_session m' = None /\
    Session_ID (SessionReport_Session r) = Session_ID s /\
    Session_State (SessionReport_Session r) =
      (if BGConfig_RequireAcknowledgment (m_config m) then StatePendingAck
       else if expired then StateExpired else StatePendingAck) /\
    m_db_users m' = drop_user m (Session_DBUsername s) /\
    m_pendingReports m' = (if BGConfig_RequireAcknowledgment (m_config m)
                           then m_pendingReports m ++ [r] else m_pendingReports m) /\
    SessionReport_EndedAt r = now /\ SessionReport_Duration r = Sub now (Session_StartedAt s) /\
    m_config m' = m_config m /\ m_callbacks m' = m_callbacks m.
Proof.
  unfold endSession. destruct (m_session m) as [s|]; [|done].
  destruct (query_stats m _) as [[q t] o]. intros Heq. injection Heq as <- <-.
  logged. exists s. destruct (BGConfig_RequireAcknowledgment (m_config m)); simpl; by split_and!.
Qed.

(** Ending a session clears it, reports it and, when reports have to be
    acknowledged, files the report.  The state of the ended session is
    [pending_acknowledgment] if an acknowledgment is required or it was ended
    by hand, and [expired] only when it expired and nobody has to acknowledge
    it: an expired session that waits for acknowledgment is not [expired]. *)
Theorem endSession_spec m expired now r m' (He : endSession m expired now = Ok (r, m')) :
  m_session m' = None /\
  (Session_State (SessionReport_Session r) = StateExpired <->
     expired = true /\ BGConfig_RequireAcknowledgment (m_config m) = false) /\
  (BGConfig_RequireAcknowledgment (m_config m) = true ->
     exists rest, m_pendingReports m' = rest ++ [r]) /\
  (BGConfig_RequireAcknowledgment (m_config m) = false ->
     m_pendingReports m' = m_pendingReports m).
Proof.
  apply endSession_inv in He as (s & _ & H1 & _ & H2 & _ & H3 & _).
  rewrite H2, H3. split; [done|].
  destruct (BGConfig_RequireAcknowledgment (m_config m)), expired; split_and!; try done;
    try (split; [done|by intros [??]]); eauto.
Qed.

(** ** Temporary users *)

(** The users in the database that belong to the session, if there is one. *)
Definition session_users (m : Manager) : gset string :=
  match m_session m with
  | Some s => if has_db (m_callbacks m) then {[ Session_DBUsername s ]} else ∅
  | None => ∅
  end.

(** Those of them the database refuses to drop. *)
Definition refused_users (m : Manager) : gset string :=
  filter (fun u => cb_drop_user (m_callbacks m) u <> None) (session_users m).

(** The timer of session [id] finds it and ends it. *)
Definition expires (m : Manager) (id : string) : bool :=
  match m_session m with Some s => (Session_ID s =?= id) && (Session_State s =?= StateActive) | None => false end.

Section steps.
Context `{Crypto}.

(** The steps of the manager, each with the users it leaves behind: a session that ends
    leaves its user where the database refuses to drop it, and a session that is enabled
    while another is held (one that has run out) leaves that one's. *)
Inductive bg_step : Manager -> gset string -> Manager -> Prop :=
| bg_challenge m user uuid nonce n1 n2 n3 c m' :
    BG_CreateChallenge m user uuid nonce n1 n2 n3 = Ok (c, m') -> bg_step m ∅ m'
| bg_verify m id sig now : bg_step m ∅ (BG_VerifyChallenge m id sig now).1
| bg_enable m user reason d by_ id pw n0 n1 n2 s m' :
    Enable m user reason d by_ id pw n0 n1 n2 = Ok (s, m') -> bg_step m (session_users m) m'
| bg_disable m now r m' : Disable m now = Ok (r, m') -> bg_step m (refused_users m) m'
| bg_expire m id now : bg_step m (if expires m id then refused_users m else ∅) (monitorExpiry m id now)
| bg_ack m id by_ now r m' : Acknowledge m id by_ now = Ok (r, m') -> bg_step m ∅ m'.

(** A run, with all the users it has left behind. *)
Inductive bg_run (m : Manager) : gset string -> Manager -> Prop :=
| bg_run_start : bg_run m ∅ m
| bg_run_step left m' left' m'' : bg_run m left m' -> bg_step m' left' m'' -> bg_run m (left ∪ left') m''.

(** The session's users are there, and besides only those left behind. *)
Definition users_ok (left : gset string) (m : Manager) : Prop :=
  session_users m ⊆ m_db_users m /\ m_db_users m ⊆ session_users m ∪ left /\
  forall s, m_session m = Some s -> Session_DBUsername s <> ""%string.

Lemma db_username_nonempty id : db_username id <> ""%string.
Proof. done. Qed.

Lemma same_users left m m' :
  m_db_users m' = m_db_users m -> m_session m' = m_session m -> m_callbacks m' = m_callbacks m ->
  users_ok left m -> users_ok left m'.
Proof. unfold users_ok, session_users. by intros -> -> ->. Qed.

Lemma log_event_users left m t s : users_ok left m -> users_ok left (log_event m t s).
Proof. intros Hu. logged. by apply (same_users _ m). Qed.

Lemma endSession_users left m expired now r m' :
  users_ok left m -> endSession m expired now = Ok (r, m') -> users_ok (left ∪ refused_users m) m'.
Proof.
  intros (_ & Hu & Hn) (s & Hs & Hs' & _ & _ & Hdb & _ & _ & _ & _ & Hcb)%endSession_inv.
  split_and!; [|..|intros ? Hx; congruence]; unfold session_users at 1; rewrite Hs'; [set_solver|].
  rewrite Hdb. unfold drop_user. unfold session_users in Hu. rewrite Hs in Hu. unfold has_db in Hu.
  destruct (cb_create_user (m_callbacks m)) eqn:Hcu; [|set_solver].
  rewrite (bool_decide_false _ (Hn s Hs)). cbn [negb andb]. case_bool_decide as Hd; [set_solver|].
  assert (Session_DBUsername s ∈ refused_users m); [|set_solver].
  unfold refused_users. apply elem_of_filter. split; [done|]. unfold session_users, has_db. rewrite Hs, Hcu. set_solver.
Qed.

Lemma bg_step_users left m left' m' : bg_step m left' m' -> users_ok left m -> users_ok (left ∪ left') m'.
Proof.
  intros Hstep Hu. destruct Hstep as [m user uuid nonce n1 n2 n3 c m' Hc|m id sig now
    |m user reason d by_ id pw n0 n1 n2 s m' He|m now r m' Hd|m id now|m id by_ now r m' Ha].
  - rewrite union_empty_r_L. unfold BG_CreateChallenge in Hc. go_cases. by apply (same_users _ m).
  - rewrite union_empty_r_L. unfold BG_VerifyChallenge. repeat case_match; simpl; try done; by apply (same_users _ m).
  - apply Enable_inv in He as (_ & _ & _ & Hs & _ & _ & Hname & _ & _ & Hdb & _ & _ & Hcb & _).
    destruct Hu as (Hu1 & Hu2 & _). split_and!; [..|intros s' Hs'; rewrite Hs in Hs'; simplify_eq; by rewrite Hname];
      unfold session_users at 1; rewrite Hs, Hcb, Hdb, Hname; case_match; set_solver.
  - unfold Disable in Hd. case_match; [|done]. by eapply endSession_users.
  - unfold monitorExpiry, expires. destruct (m_session m) as [s|] eqn:Hs; [|by rewrite union_empty_r_L].
    destruct (_ && _); [|by rewrite union_empty_r_L].
    destruct (endSession m true now) as [[r m']|] eqn:He; [by eapply endSession_users|].
    unfold endSession in He. rewrite Hs in He. by destruct (query_stats _ _) as [[? ?] ?].
  - rewrite union_empty_r_L. unfold Acknowledge in Ha. repeat case_match; simplify_eq. apply log_event_users. by apply (same_users _ m).
Qed.

Lemma bg_run_users config node cb left m : bg_run (NewManager config node cb) left m -> users_ok left m.
Proof.
  intros Hr. induction Hr as [|left m left' m' _ IH Hs]; [|by eapply bg_step_users].
  split_and!; [done|set_solver|done].
Qed.

End steps.

(** A session may be enabled over one that has run out but whose expiry has
    not been processed yet.  The old session's database user then stays: its
    expiry finds another session and does nothing, no report is filed for it,
    and ending the new session drops the new user only. *)
Theorem enable_over_expired_leaks_user m old user reason d by_ id pw now0 now1 now2 s m'
    (Hold : m_session m = Some old) (Hexp : (Session_ExpiresAt old <= now0)%Z)
    (Huser : Session_DBUsername old ∈ m_db_users m)
    (Hid : id <> Session_ID old) (Hname : db_username id <> Session_DBUsername old)
    (He : Enable m user reason d by_ id pw now0 now1 now2 = Ok (s, m')) :
  monitorExpiry m' (Session_ID old) now0 = m' /\
  m_pendingReports m' = m_pendingReports m /\
  Session_DBUsername old ∈ m_db_users m' /\
  (forall expired now r m'', endSession m' expired now = Ok (r, m'') ->
     Session_DBUsername old ∈ m_db_users m'').
Proof.
  apply Enable_inv in He as (_ & _ & _ & Hs & Hsid & _ & Hsname & _ & _ & Hdb & Hp & _ & Hcb & _).
  assert (Session_DBUsername old ∈ m_db_users m') as Hin.
  { rewrite Hdb. case_match; set_solver. }
  split_and!; try done.
  - unfold monitorExpiry. rewrite Hs, bool_decide_false; [done|]. congruence.
  - intros expired now r m'' (s' & Hs' & _ & _ & _ & Hdb' & _)%endSession_inv.
    rewrite Hs in Hs'. simplify_eq. rewrite Hdb', Hsname. unfold drop_user.
    destruct (cb_create_user (m_callbacks m')); [|exact Hin].
    destruct (_ && _); [|exact Hin]. apply elem_of_difference. split; [exact Hin|].
    apply not_elem_of_singleton. congruence.
Qed.

(** ** Challenges and reports *)

Section verify_theorems.
Context `{Crypto}.

(** A challenge lets a user in once: success means the signature of the
    nonce verifies under the key configured for the user the challenge was
    made for, before its expiry, and the challenge is gone; an invalid
    signature leaves it to be tried again. *)
Theorem VerifyChallenge_spec m id sig now :
  let '(m', r) := BG_VerifyChallenge m id sig now in
  match r with
  | Ok user =>
      (exists c, m_challenges m !! id = Some c /\ (now <= BGChallenge_ExpiresAt c)%Z /\
         findUser m (BGChallenge_Username c) = Some user /\
         ed25519_Verify (BGUser_PublicKey user) (BGChallenge_Nonce c) sig = true) /\
      forall sig' now', (BG_VerifyChallenge m' id sig' now').2 = Err ErrBGChallengeNotFound
  | Err ErrBGInvalidSignature => m' = m
  | Err _ => m_session m' = m_session m
  end.
Proof.
  unfold BG_VerifyChallenge at 1. destruct (m_challenges m !! id) as [c|] eqn:Hc; [|done].
  destruct (BGChallenge_IsExpired c now) eqn:Hx; [done|].
  destruct (findUser m _) as [user|] eqn:Hu; [|done].
  destruct (ed25519_Verify _ _ sig) eqn:Hv; simpl; [|done]. split.
  - exists c. split_and!; try done. unfold BGChallenge_IsExpired, After in Hx. by apply Z.ltb_ge in Hx.
  - intros sig' now'. unfold BG_VerifyChallenge. simpl. by rewrite lookup_delete_eq.
Qed.
End verify_theorems.

(** Acknowledging a session files away its report and no other: the report
    is marked with who and when, it is no longer pending, and the reports of
    other sessions are still found. *)
Theorem Acknowledge_spec m id by_ now r m'
    (Hnd : NoDup (map (fun r => Session_ID (SessionReport_Session r)) (m_pendingReports m)))
    (Ha : Acknowledge m id by_ now = Ok (r, m')) :
  SessionReport_AcknowledgedBy r = by_ /\ SessionReport_AcknowledgedAt r = Some now /\
  GetReport m' id = Err ErrReportNotFound /\
  (forall id', id' <> id -> GetReport m' id' = GetReport m id').
Proof.
  unfold Acknowledge in Ha.
  destruct (List.find _ _) as [r0|] eqn:Hf; [|done].
  destruct (remove_first _ _) as [rest|] eqn:Hr; [|done]. simplify_eq.
  assert (forall m0, m_pendingReports (log_event m0 "session_acknowledged" (SessionReport_Session r0)) =
                     m_pendingReports m0) as Hlog by (intros; by logged).
  destruct (remove_first_Some _ _ _ Hr) as (l1 & x & l2 & Hl & -> & Hx & Hl1).
  apply bool_decide_eq_true in Hx. rewrite Hl, map_app in Hnd. cbn [map] in Hnd.
  apply NoDup_app in Hnd as (_ & Hd & [Hni _]%NoDup_cons).
  split_and!; try done; unfold GetReport; rewrite Hlog; simpl.
  - replace (List.find _ _) with (@None SessionReport); [done|]. symmetry. apply find_None.
    intros y [Hy|Hy]%elem_of_app; [by apply Hl1|]. apply bool_decide_eq_false. intros Heq.
    apply Hni, list_elem_of_fmap. exists y. split; [congruence|done].
  - intros id' Hne. rewrite Hl, !find_app. cbn [List.find].
    rewrite (bool_decide_false (Session_ID (SessionReport_Session x) = id')) by congruence. done.
Qed.

(** ** A run *)

Definition bg_cb : Callbacks :=
  mkCallbacks (Some (fun _ _ _ => None)) (fun _ => None) (fun u p => (u +:+ ":" +:+ p)%string) None.
Definition bg_alice : BGUser := mkBGUser "alice" [1%Z; 2%Z] "ssh-ed25519 AAAA" AccessReadOnly.
Definition bg_config : BGConfig := mkBGConfig true (60 * Minute) AccessReadWrite [bg_alice] true false "".
Definition bg_start : Manager := NewManager bg_config "node" bg_cb.
Definition bg_enabled (m : Manager) (id : string) (t : Time) : Manager :=
  match Enable m bg_alice "outage" (5 * Minute) "ops" id "pw" t t t with Ok (_, m') => m' | Err _ => m end.

Lemma Enable_spec_witness :
  exists s m', Enable bg_start bg_alice "outage" (5 * Minute) "ops" "11111111-2222" "pw" 0 0 0 = Ok (s, m') /\
    Session_State s = StateActive /\ Session_AccessLevel s = AccessReadOnly.
Proof.
  eexists _, _. split; [reflexivity|].
  destruct (Enable_spec bg_start bg_alice "outage" (5 * Minute) "ops" "11111111-2222" "pw" 0 0 0 _ _
              eq_refl) as (_ & _ & _ & _ & Hs & _). split; [exact Hs|reflexivity].
Defined.

Lemma endSession_spec_witness :
  exists r m', endSession (bg_enabled bg_start "11111111-2222" 0) true 900 = Ok (r, m') /\
    m_session m' = None /\ Session_State (SessionReport_Session r) = StatePendingAck.
Proof.
  eexists _, _. split; [reflexivity|].
  destruct (endSession_spec (bg_enabled bg_start "11111111-2222" 0) true 900 _ _ eq_refl) as (Hs & _).
  split; [exact Hs|reflexivity].
Defined.


Lemma enable_over_expired_leaks_user_witness :
  "breakglass_11111111"%string ∈
    m_db_users (bg_enabled (bg_enabled bg_start "11111111-2222" 0) "33333333-4444" (6 * Minute)).
Proof.
  refine (proj1 (proj2 (proj2 (enable_over_expired_leaks_user (bg_enabled bg_start "11111111-2222" 0)
    (mkSession "11111111-2222" bg_alice "outage" AccessReadOnly 0 (5 * Minute) "node" "ops"
       "breakglass_11111111:pw" "breakglass_11111111" StateActive "")
    bg_alice "outage" (5 * Minute) "ops" "33333333-4444" "pw" (6 * Minute) (6 * Minute) (6 * Minute)
    _ _ eq_refl _ _ _ _ eq_refl)))).
  - vm_compute. discriminate.
  - vm_compute. reflexivity.
  - discriminate.
  - discriminate.
Defined.

Definition bg_ended : Manager :=
  match endSession (bg_enabled bg_start "11111111-2222" 0) false 900 with Ok (_, m) => m | Err _ => bg_start end.

Lemma Acknowledge_spec_witness :
  exists r m', Acknowledge bg_ended "11111111-2222" "root" 950 = Ok (r, m') /\
    GetReport m' "11111111-2222" = Err ErrReportNotFound.
Proof.
  destruct (Acknowledge bg_ended "11111111-2222" "root" 950) as [[r m']|e] eqn:Ha;
    [|vm_compute in Ha; discriminate].
  exists r, m'. split; [reflexivity|].
  refine (proj1 (proj2 (proj2 (Acknowledge_spec bg_ended "11111111-2222" "root" 950 r m' _ Ha)))).
  apply NoDup_singleton.
Defined.
