(* ===== verification/EmergencyDb.v ===== *)
(** * The database of an emergency session ([internal/storage/breakglass])

    The temporary login of a session ([postgres.go]), the rows it writes to the audit log
    ([audit.go]) and its recording ([recording.go]).  PostgreSQL is the class [EmServer]
    with the documented behaviour of roles and privileges; the table of the audit log is
    a list of rows with the columns and checks the two scripts of the repository give it;
    JSON and gzip are the class [RecFormat]. *)
From stdpp Require Import base gmap strings list pretty.
From Stdlib Require Import ZArith Lia Ascii.
From S2P Require Import Prelude GoStrings BreakGlass.
Local Open Scope string_scope.
Local Open Scope bool_scope.

(** ** The login ([postgres.go]) *)

Definition is_alnum (c : ascii) : bool := is_lower c || is_upper c || is_digit c.
Definition isValidUsername (username : string) : bool :=
  if negb (HasPrefix username "breakglass_") then false
  else
    let suffix := drop 11 (bytes_of username) in
    if (length suffix =? 0)%nat || (32 <? length suffix)%nat then false else forallb is_alnum suffix.

Definition escape_bytes (l : list ascii) : list ascii := concat (map (fun c => if c =?= "'"%char then ["'"; "'"]%char else [c]) l).
Definition escapePassword (password : string) : string := str_of (escape_bytes (bytes_of password)).

Definition until_value : string := "(NOW() + INTERVAL '2 hours')".
Definition create_login_text (username password : string) : string :=
  "CREATE ROLE " ++ username ++ " WITH LOGIN PASSWORD '" ++ escapePassword password ++ "' VALID UNTIL " ++ until_value.

Definition GetConnectionString (host : string) (port : Z) (database sslMode username password : string) : string :=
  "postgresql://" ++ username ++ ":" ++ password ++ "@" ++ host ++ ":" ++ pretty port ++ "/" ++ database ++ "?sslmode=" ++ sslMode.

Inductive EmStatement :=
| CreateLogin (username password : string)
| GrantTables (username : string) (privileges : list string)
| RevokeAuditLog (username : string)
| Terminate (username : string)
| DropLogin (username : string).

(** Roles and privileges.  A new role has none; the loop of a grant goes over the tables
    of the schema but [audit_log]; a role with privileges cannot be dropped. *)
Class EmServer := {
  EmDb : Type;
  em_role : EmDb -> string -> bool;
  em_tables : EmDb -> list string;
  em_granted : EmDb -> string -> string -> string -> bool;
  em_exec : EmStatement -> EmDb -> option EmDb;
  granted_role db u t p : em_granted db u t p = true -> em_role db u = true;
  exec_create_login u pw db db' : em_exec (CreateLogin u pw) db = Some db' ->
    em_role db u = false /\ (forall x, em_role db' x = (x =?= u) || em_role db x) /\ em_tables db' = em_tables db /\
    (forall x t p, em_granted db' x t p = em_granted db x t p);
  exec_grant_tables u ps db db' : em_exec (GrantTables u ps) db = Some db' ->
    (forall x, em_role db' x = em_role db x) /\ em_tables db' = em_tables db /\
    (forall x t p, em_granted db' x t p = em_granted db x t p || (x =?= u) && mem t (em_tables db) && (t <>? "audit_log") && mem p ps);
  exec_revoke_audit u db db' : em_exec (RevokeAuditLog u) db = Some db' ->
    (forall x, em_role db' x = em_role db x) /\ em_tables db' = em_tables db /\
    (forall x t p, em_granted db' x t p = em_granted db x t p && negb ((x =?= u) && (t =?= "audit_log")));
  exec_terminate u db db' : em_exec (Terminate u) db = Some db' ->
    (forall x, em_role db' x = em_role db x) /\ em_tables db' = em_tables db /\ (forall x t p, em_granted db' x t p = em_granted db x t p);
  exec_drop_login u db db' : em_exec (DropLogin u) db = Some db' ->
    (forall t p, em_granted db u t p = false) /\ (forall x, em_role db' x = em_role db x && (x <>? u)) /\ em_tables db' = em_tables db /\
    (forall x t p, em_granted db' x t p = em_granted db x t p);
  drop_unprivileged u db : (forall t p, em_granted db u t p = false) -> is_Some (em_exec (DropLogin u) db)
}.

Inductive EmError := InvalidUsername | CreateRefused | GrantRefused | DropRefused.

Section login.
Context {ES : EmServer}.

(** A statement whose error is dropped. *)
Definition try_exec (q : EmStatement) (db : EmDb) : EmDb := default db (em_exec q db).

Definition session_privileges (level : AccessLevel) : list string :=
  if level =?= AccessReadWrite then ["SELECT"; "INSERT"; "UPDATE"; "DELETE"] else ["SELECT"].

Definition CreateBreakGlassUser (username password : string) (level : AccessLevel) (db : EmDb) : EmDb * option EmError :=
  if negb (isValidUsername username) then (db, Some InvalidUsername)
  else match em_exec (CreateLogin username password) db with
  | None => (db, Some CreateRefused)
  | Some db =>
      match em_exec (GrantTables username (session_privileges level)) db with
      | None => (try_exec (DropLogin username) db, Some GrantRefused)
      | Some db => (try_exec (RevokeAuditLog username) db, None)
      end
  end.

Definition DropBreakGlassUser (username : string) (db : EmDb) : EmDb * option EmError :=
  if negb (isValidUsername username) then (db, Some InvalidUsername)
  else
    let db := try_exec (Terminate username) db in
    match em_exec (DropLogin username) db with
    | None => (db, Some DropRefused)
    | Some db => (db, None)
    end.
End login.

(** ** The audit log ([audit.go]) *)

(** A table as a script makes it: its columns, the values its [CHECK] allows as an action,
    and whether the hash of an entry is unique. *)
Record PgAuditTable := mkPgAuditTable {
  pt_columns : list string;
  pt_actions : option (list string);
  pt_unique_hash : bool
}.
(** [000003_audit_log.up.sql] of the migrations, and the script of [lifecycle/config.go]. *)
Definition migrated_audit_table : PgAuditTable :=
  mkPgAuditTable ["id"; "timestamp"; "node_id"; "job_id"; "operation_id"; "role_used"; "action"; "table_name"; "query_hash"; "rows_affected";
                  "duration_ms"; "source_component"; "metadata"; "prev_hash"; "entry_hash"]
    (Some ["SELECT"; "INSERT"; "UPDATE"; "DELETE"; "DDL"; "AUTH"; "ADMIN"]) true.
Definition generated_audit_table : PgAuditTable :=
  mkPgAuditTable ["id"; "timestamp"; "node_id"; "job_id"; "operation_id"; "role_used"; "action"; "table_name"; "query"; "query_hash"; "rows_affected";
                  "duration_ms"; "source_component"; "actor"; "metadata"; "prev_hash"; "entry_hash"; "flag_break_glass"; "flag_rate_limited";
                  "flag_suspicious"; "flag_alert_triggered"] None false.

(** The columns of a row that something is asked of. *)
Record EmRow := mkEmRow {
  er_operation_id : string;
  er_action : string;
  er_table_name : option string;
  er_query_hash : option string;
  er_session : string;
  er_break_glass : bool;
  er_entry_hash : string
}.

Definition event_columns : list string :=
  ["timestamp"; "node_id"; "operation_id"; "role_used"; "action"; "source_component"; "metadata"; "flag_break_glass"; "entry_hash"].
Definition query_columns : list string :=
  ["timestamp"; "node_id"; "operation_id"; "role_used"; "action"; "table_name"; "query_hash"; "rows_affected"; "duration_ms"; "source_component";
   "metadata"; "flag_break_glass"; "entry_hash"].

(** An insertion names columns the table has, and keeps its checks. *)
Definition pg_insert (tb : PgAuditTable) (columns : list string) (row : EmRow) (rows : list EmRow) : option (list EmRow) :=
  if forallb (fun c => mem c (pt_columns tb)) columns &&
     (match pt_actions tb with Some l => mem (er_action row) l | None => true end) &&
     (negb (pt_unique_hash tb) || forallb (fun r => er_entry_hash r <>? er_entry_hash row) rows)
  then Some (rows ++ [row])%list else None.

(** The first 64 bytes. *)
Definition hashQuery (query : string) : string := str_of (take 64 (bytes_of query)).

Definition event_row (eventType : string) (s : Session) : EmRow := mkEmRow (Session_ID s) eventType None None (Session_ID s) true "".
Definition query_row (sessionID query tableName action : string) : EmRow :=
  mkEmRow sessionID action (Some tableName) (Some (hashQuery query)) sessionID true "".

(** The rows, and whether there was no error. *)
Definition logged (tb : PgAuditTable) (columns : list string) (row : EmRow) (rows : list EmRow) : list EmRow * bool :=
  match pg_insert tb columns row rows with Some rows => (rows, true) | None => (rows, false) end.
Definition LogBreakGlassEvent (pool : bool) (tb : PgAuditTable) (eventType : string) (s : Session) (rows : list EmRow) : list EmRow * bool :=
  if negb pool then (rows, true) else logged tb event_columns (event_row eventType s) rows.
Definition LogQuery (pool : bool) (tb : PgAuditTable) (sessionID query tableName action : string) (rows : list EmRow) : list EmRow * bool :=
  if negb pool then (rows, true) else logged tb query_columns (query_row sessionID query tableName action) rows.

Definition session_rows (sessionID : string) (rows : list EmRow) : list EmRow :=
  filter (fun r => er_break_glass r = true /\ er_session r = sessionID) rows.
Fixpoint action_counts (rows : list EmRow) : gmap string Z :=
  match rows with
  | [] => ∅
  | r :: rows => let m := action_counts rows in <[er_action r := (default 0 (m !! er_action r) + 1)%Z]> m
  end.
(** [None] is the error of a statement about a column that is not there. *)
Definition GetSessionQueryStats (pool : bool) (tb : PgAuditTable) (sessionID : string) (rows : list EmRow)
    : option (Z * list string * gmap string Z) :=
  if negb pool then Some (0%Z, [], ∅)
  else if negb (mem "flag_break_glass" (pt_columns tb)) then None
  else
    let mine := session_rows sessionID rows in
    Some (Z.of_nat (length mine), remove_dups (filter (fun t => t <> "") (omap er_table_name mine)), action_counts mine).

(** ** The recording ([recording.go]) *)

Record RecordingEvent {Meta : Type} := mkRecordingEvent {
  RE_Timestamp : Time;
  RE_Type : string;
  RE_Data : string;
  RE_DurationMS : Z;
  RE_Metadata : option Meta
}.
Arguments RecordingEvent : clear implicits.
Arguments mkRecordingEvent {Meta}.
Record RecordingHeader := mkRecordingHeader {
  RH_Version : Z;
  RH_SessionID : string;
  RH_Username : string;
  RH_StartedAt : Time;
  RH_NodeID : string;
  RH_AccessLevel : string;
  RH_Reason : string
}.
Record RecordingFooter := mkRecordingFooter { RF_EndedAt : Time; RF_Duration : Duration; RF_EventCount : Z; RF_QueryCount : Z }.

Inductive RecItem {Meta : Type} := IHeader (h : RecordingHeader) | IEvent (e : RecordingEvent Meta) | IFooter (f : RecordingFooter).
Arguments RecItem : clear implicits.

Definition event_types : list string := ["input"; "output"; "query"; "result"; "error"].

(** The encoder writes one value after the other.  Fields a structure does not have are
    skipped, so a footer read as an event is the zero event. *)
Class RecFormat (Meta : Type) := {
  row_count : Z -> Meta;
  enc_item : RecItem Meta -> option (list Z);
  dec_header : list Z -> option (RecordingHeader * list Z);
  dec_event : list Z -> option (RecordingEvent Meta * list Z);
  shown_header : RecordingHeader -> RecordingHeader;
  shown_event : RecordingEvent Meta -> RecordingEvent Meta;
  gzip : list Z -> list Z;
  gunzip : list Z -> option (list Z);
  dec_enc_header h bs rest : enc_item (IHeader h) = Some bs -> dec_header (bs ++ rest)%list = Some (shown_header h, rest);
  dec_enc_event e bs rest : enc_item (IEvent e) = Some bs -> bs <> [] /\ dec_event (bs ++ rest)%list = Some (shown_event e, rest);
  dec_enc_footer f bs rest : enc_item (IFooter f) = Some bs ->
    bs <> [] /\ dec_event (bs ++ rest)%list = Some (mkRecordingEvent zero_time "" "" 0 None, rest);
  shown_event_type e : RE_Type e ∈ event_types -> RE_Type (shown_event e) = RE_Type e;
  gunzip_gzip l : gunzip (gzip l) = Some l
}.

Inductive RecError := RecCreate | RecEncode | RecClosed.

Section recording.
Context {Meta : Type} {RF : RecFormat Meta}.

(** [SR_file] is the file once the compression is finished. *)
Record SessionRecorder := mkSessionRecorder {
  SR_path : string;
  SR_header : RecordingHeader;
  SR_written : list Z;
  SR_lastEvent : Time;
  SR_eventCount : Z;
  SR_queryCount : Z;
  SR_closed : bool;
  SR_file : option (list Z)
}.

Definition NewSessionRecorder (created : bool) (path : string) (s : Session) (now : Time) : result RecError SessionRecorder :=
  let h := mkRecordingHeader 1 (Session_ID s) (BGUser_Name (Session_User s)) (Session_StartedAt s) (Session_NodeID s) (Session_AccessLevel s) (Session_Reason s) in
  if negb created then Err RecCreate
  else match enc_item (IHeader h) with
  | None => Err RecEncode
  | Some bs => Ok (mkSessionRecorder path h bs now 0 0 false None)
  end.

Definition record_event (now : Time) (eventType data : string) (meta : option Meta) (r : SessionRecorder) : SessionRecorder * option RecError :=
  if SR_closed r then (r, Some RecClosed)
  else
    let event := mkRecordingEvent now eventType data (Z.quot (Sub now (SR_lastEvent r)) 1000000) meta in
    let next bs := mkSessionRecorder (SR_path r) (SR_header r) (SR_written r ++ bs) now (SR_eventCount r + 1) (SR_queryCount r) false (SR_file r) in
    match enc_item (IEvent event) with
    | None => (next [], Some RecEncode)
    | Some bs => (next bs, None)
    end.

Definition count_query (r : SessionRecorder) : SessionRecorder :=
  mkSessionRecorder (SR_path r) (SR_header r) (SR_written r) (SR_lastEvent r) (SR_eventCount r) (SR_queryCount r + 1) (SR_closed r) (SR_file r).

Definition RecordInput (now : Time) (data : string) := record_event now "input" data None.
Definition RecordOutput (now : Time) (data : string) := record_event now "output" data None.
Definition RecordQuery (now : Time) (query : string) (meta : option Meta) (r : SessionRecorder) := record_event now "query" query meta (count_query r).
Definition RecordResult (now : Time) (res : string) (rows : Z) := record_event now "result" res (Some (row_count rows)).
Definition RecordError (now : Time) (msg : string) := record_event now "error" msg None.

(** The footer reads the clock twice. *)
Definition Recorder_Close (now now2 : Time) (r : SessionRecorder) : SessionRecorder * option RecError :=
  if SR_closed r then (r, None)
  else
    let footer := mkRecordingFooter now (Sub now2 (RH_StartedAt (SR_header r))) (SR_eventCount r) (SR_queryCount r) in
    let closed bs := mkSessionRecorder (SR_path r) (SR_header r) (SR_written r) (SR_lastEvent r) (SR_eventCount r) (SR_queryCount r) true
                       (Some (gzip (SR_written r ++ bs)%list)) in
    match enc_item (IFooter footer) with
    | None => (closed [], Some RecEncode)
    | Some bs => (closed bs, None)
    end.

(** *** Reading *)

Definition OpenRecording (file : list Z) : option (RecordingHeader * list Z) :=
  match gunzip file with None => None | Some bs => dec_header bs end.

Inductive NextEventResult := NextEOF | NextBroken | NextIs (e : RecordingEvent Meta) (rest : list Z).
Definition NextEvent (bs : list Z) : NextEventResult :=
  if bs =?= [] then NextEOF
  else match dec_event bs with
  | None => NextBroken
  | Some (event, rest) => if (RE_Type event =?= "") && IsZero (RE_Timestamp event) then NextEOF else NextIs event rest
  end.

(** The events up to the end, with [n] calls; whether the end was reached. *)
Fixpoint play (n : nat) (bs : list Z) : list (RecordingEvent Meta) * bool :=
  match n with
  | O => ([], false)
  | S n =>
      match NextEvent bs with
      | NextEOF => ([], true)
      | NextBroken => ([], false)
      | NextIs e rest => let '(l, ended) := play n rest in (e :: l, ended)
      end
  end.
End recording.
Arguments SessionRecorder : clear implicits.

(** ** Theorems *)

(** *** The login *)

(** A name that passes consists of letters, digits and underscores: it needs no quoting
    wherever it is put, and is no longer than a name may be. *)
Theorem valid_username_plain u : isValidUsername u = true -> forallb is_word (bytes_of u) = true /\ (12 <= length (bytes_of u) <= 43)%nat.
Proof.
  unfold isValidUsername. destruct (HasPrefix u "breakglass_") eqn:Hp; [|done]. cbn [negb].
  apply is_prefix_of_spec in Hp as [b Hb]. rewrite Hb. change (drop 11 (bytes_of "breakglass_" ++ b)%list) with b.
  destruct (Nat.eqb_spec (length b) 0); [done|]. destruct (Nat.ltb_spec 32 (length b)); [done|]. cbn [orb]. intros Ha. split.
  - rewrite forallb_app. apply andb_true_iff. split; [reflexivity|]. rewrite forallb_forall in Ha |- *. intros c Hc.
    specialize (Ha c Hc). unfold is_alnum in Ha. unfold is_word. by rewrite Ha.
  - rewrite length_app. change (length (bytes_of "breakglass_")) with 11%nat. lia.
Qed.

(** The names that the manager makes from a session's identifier pass, whenever its first
    eight bytes are those of a UUID. *)
Theorem manager_names_valid id :
  forallb is_alnum (take 8 (bytes_of id)) = true -> (8 <= length (bytes_of id))%nat -> isValidUsername (db_username id) = true.
Proof.
  intros Ha Hl. unfold db_username, short_id. set (l := take 8 (bytes_of id)) in *.
  assert (Hf : List.filter (fun c => c <>? "-"%char) l = l).
  { clear -Ha. induction l as [|c l IH]; [done|]. cbn in Ha. apply andb_true_iff in Ha as [Hc Ha]. cbn.
    rewrite bool_decide_eq_false_2 by (intros ->; discriminate Hc). cbn. by rewrite IH. }
  rewrite Hf. assert (Hlen : length l = 8%nat) by (unfold l; rewrite length_take; lia).
  unfold isValidUsername, HasPrefix. rewrite bytes_of_append, String.list_ascii_of_string_of_list_ascii.
  rewrite (proj2 (is_prefix_of_spec _ _)) by (by eexists). cbn [negb].
  change (drop 11 (bytes_of "breakglass_" ++ l)%list) with l. by rewrite Hlen.
Qed.

(** A text constant, from after its opening quote: two quotes are one. *)
Fixpoint read_literal (l : list ascii) : option (list ascii * list ascii) :=
  match l with
  | [] => None
  | c :: l' =>
      if c =?= "'"%char then
        match l' with
        | d :: l'' => if d =?= "'"%char then match read_literal l'' with Some (a, r) => Some ("'"%char :: a, r) | None => None end
                      else Some ([], l')
        | [] => Some ([], [])
        end
      else match read_literal l' with Some (a, r) => Some (c :: a, r) | None => None end
  end.

(** Whatever a password holds, the constant it is put in ends where it should and has its
    value. *)
Theorem password_literal password username :
  exists pre, bytes_of (create_login_text username password) = (pre ++ "'"%char :: escape_bytes (bytes_of password) ++ "'"%char :: bytes_of (" VALID UNTIL " ++ until_value))%list /\
  read_literal (escape_bytes (bytes_of password) ++ "'"%char :: bytes_of (" VALID UNTIL " ++ until_value)) =
    Some (bytes_of password, bytes_of (" VALID UNTIL " ++ until_value)).
Proof.
  exists (bytes_of ("CREATE ROLE " ++ username ++ " WITH LOGIN PASSWORD ")). split.
  - unfold create_login_text, escapePassword. rewrite !bytes_of_append, String.list_ascii_of_string_of_list_ascii. rewrite <- !app_assoc. reflexivity.
  - induction (bytes_of password) as [|c l IH]; [reflexivity|]. unfold escape_bytes in *. cbn [map concat].
    case_bool_decide as Hc.
    + subst c. cbn [app read_literal]. rewrite !bool_decide_eq_true_2 by done. by rewrite IH.
    + cbn [app read_literal]. rewrite bool_decide_eq_false_2 by done. by rewrite IH.
Qed.

(** [VALID UNTIL] takes a text constant; what the code writes is none. *)
Definition starts_constant (l : list ascii) : bool := match l with c :: _ => c =?= "'"%char | [] => false end.
Example until_is_no_constant : starts_constant (bytes_of until_value) = false.
Proof. reflexivity. Qed.

Section login_theorems.
Context {ES : EmServer}.

Lemma try_revoke u db :
  (forall x, em_role (try_exec (RevokeAuditLog u) db) x = em_role db x) /\ em_tables (try_exec (RevokeAuditLog u) db) = em_tables db /\
  (forall x t p, t <> "audit_log" \/ em_granted db x t p = false -> em_granted (try_exec (RevokeAuditLog u) db) x t p = em_granted db x t p).
Proof.
  unfold try_exec. destruct (em_exec (RevokeAuditLog u) db) as [db'|] eqn:E; [|done]. apply exec_revoke_audit in E as (Hr & Ht & Hg). cbn.
  split; [exact Hr|]. split; [exact Ht|]. intros x t p [Hn|Hf]; rewrite Hg; [|by rewrite Hf].
  rewrite (bool_decide_eq_false_2 (t = "audit_log")) by done. by rewrite andb_false_r, andb_true_r.
Qed.

(** A login that was created is new, and may do with the tables what its level says, but
    nothing with the audit log; nobody else may do more or less. *)
Theorem created_login u pw level db db' :
  CreateBreakGlassUser u pw level db = (db', None) ->
  em_role db u = false /\ (forall x, em_role db' x = (x =?= u) || em_role db x) /\
  forall x t p, em_granted db' x t p =
    if x =?= u then mem t (em_tables db) && (t <>? "audit_log") && mem p (session_privileges level) else em_granted db x t p.
Proof.
  unfold CreateBreakGlassUser. destruct (isValidUsername u); [|done]. cbn [negb].
  destruct (em_exec (CreateLogin u pw) db) as [db1|] eqn:E1; [|done]. apply exec_create_login in E1 as (Hnew & Hr1 & Ht1 & Hg1).
  destruct (em_exec (GrantTables u _) db1) as [db2|] eqn:E2; [|done]. apply exec_grant_tables in E2 as (Hr2 & Ht2 & Hg2). intros [= <-].
  destruct (try_revoke u db2) as (Hr3 & _ & Hg3). split; [done|]. split; [intros x; by rewrite Hr3, Hr2, Hr1|]. intros x t p.
  assert (Hfresh : em_granted db u t p = false) by (destruct (em_granted db u t p) eqn:Hg; [apply granted_role in Hg; congruence|done]).
  assert (H2 : em_granted db2 x t p = if x =?= u then mem t (em_tables db) && (t <>? "audit_log") && mem p (session_privileges level) else em_granted db x t p).
  { rewrite Hg2, Hg1, Ht1. case_bool_decide as Hx; [subst x; by rewrite Hfresh|]. by rewrite orb_false_r. }
  assert (Hcase : t <> "audit_log" \/ em_granted db2 x t p = false \/ (x <> u /\ t = "audit_log")).
  { destruct (decide (t = "audit_log")) as [->|]; [right|by left]. destruct (decide (x = u)) as [->|]; [left|by right].
    rewrite H2, bool_decide_eq_true_2 by done. rewrite (bool_decide_eq_true_2 ("audit_log" = "audit_log")) by done. cbn. by rewrite andb_false_r. }
  destruct Hcase as [Hc|[Hc|[Hx ->]]]; [rewrite Hg3 by (by left); exact H2|rewrite Hg3 by (by right); exact H2|].
  rewrite <- H2. unfold try_exec. destruct (em_exec (RevokeAuditLog u) db2) as [db3|] eqn:E3; [|done]. apply exec_revoke_audit in E3 as (_ & _ & Hg).
  cbn. rewrite Hg. rewrite (bool_decide_eq_false_2 (x = u)) by done. by rewrite andb_true_r.
Qed.

(** A creation that fails leaves the logins as they were. *)
Theorem failed_login_leaves_none u pw level db db' e :
  CreateBreakGlassUser u pw level db = (db', Some e) -> forall x, em_role db' x = em_role db x.
Proof.
  unfold CreateBreakGlassUser. destruct (isValidUsername u); [|by intros [= <- _]]. cbn [negb].
  destruct (em_exec (CreateLogin u pw) db) as [db1|] eqn:E1; [|by intros [= <- _]]. apply exec_create_login in E1 as (Hnew & Hr1 & Ht1 & Hg1).
  destruct (em_exec (GrantTables u _) db1) as [db2|] eqn:E2; [done|]. intros [= <- _] x. unfold try_exec.
  destruct (drop_unprivileged u db1) as [db3 E3].
  { intros t p. rewrite Hg1. destruct (em_granted db u t p) eqn:Hg; [|done]. apply granted_role in Hg. congruence. }
  rewrite E3. apply exec_drop_login in E3 as (_ & Hr3 & _). cbn. rewrite Hr3, Hr1. case_bool_decide as Hx; [subst x; by rewrite Hnew|].
  by rewrite andb_true_r.
Qed.

(** A login that was created where there is any table cannot be dropped at the end of its
    session: its privileges are never revoked. *)
Theorem created_login_stays u pw level db db' t :
  CreateBreakGlassUser u pw level db = (db', None) -> t ∈ em_tables db -> t <> "audit_log" ->
  let '(db'', err) := DropBreakGlassUser u db' in err = Some DropRefused /\ em_role db'' u = true.
Proof.
  intros Hc Hin Ht. assert (Hv : isValidUsername u = true).
  { revert Hc. unfold CreateBreakGlassUser. by destruct (isValidUsername u). }
  apply created_login in Hc as (_ & Hr & Hg). unfold DropBreakGlassUser. rewrite Hv. cbn [negb].
  set (db1 := try_exec (Terminate u) db').
  assert (H1 : em_role db1 u = em_role db' u /\ em_granted db1 u t "SELECT" = em_granted db' u t "SELECT").
  { unfold db1, try_exec. destruct (em_exec (Terminate u) db') as [d|] eqn:E; [|done]. by apply exec_terminate in E as (-> & _ & ->). }
  destruct H1 as [H1 H2]. rewrite Hr, bool_decide_eq_true_2 in H1 by done.
  assert (Hs : mem "SELECT" (session_privileges level) = true) by (unfold session_privileges; by case_bool_decide).
  rewrite Hg, bool_decide_eq_true_2, Hs, (proj2 (mem_true _ _)), bool_decide_eq_false_2 in H2 by done.
  destruct (em_exec (DropLogin u) db1) as [d|] eqn:E; [|done]. apply exec_drop_login in E as (Hn & _). rewrite Hn in H2. discriminate H2.
Qed.
End login_theorems.

(** *** The audit log *)

(** With the table the migrations make, nothing an emergency session does is written to
    the audit log, and its statistics cannot be read. *)
Theorem no_emergency_event_logged s eventType q tbl action rows :
  LogBreakGlassEvent true migrated_audit_table eventType s rows = (rows, false) /\
  LogQuery true migrated_audit_table (Session_ID s) q tbl action rows = (rows, false) /\
  GetSessionQueryStats true migrated_audit_table (Session_ID s) rows = None.
Proof. by repeat split. Qed.

(** Nor would it be if the columns were there: no event of the manager is among the
    actions the table allows, and the empty hash could be there once. *)
Theorem events_are_no_actions s eventType cols rows : eventType ∈ ["session_started"; "session_disabled"; "session_expired"; "session_acknowledged"] ->
  logged (mkPgAuditTable cols (pt_actions migrated_audit_table) true) event_columns (event_row eventType s) rows = (rows, false).
Proof.
  intros Hin. unfold logged, pg_insert. cbn [pt_actions migrated_audit_table pt_columns er_action event_row].
  rewrite (proj2 (mem_false eventType _)); [by rewrite andb_false_r|]. rewrite !elem_of_cons in Hin.
  destruct Hin as [->|[->|[->|[->|Hin]]]]; [..|by apply elem_of_nil in Hin]; by apply (bool_decide_unpack _); vm_compute.
Qed.

(** What a node writes to the table of the other script, in the order it is written. *)
Inductive EmCall := CallEvent (s : Session) (eventType : string) | CallQuery (sessionID query tableName action : string).
Definition em_call (rows : list EmRow) (c : EmCall) : list EmRow :=
  match c with
  | CallEvent s ty => (LogBreakGlassEvent true generated_audit_table ty s rows).1
  | CallQuery id q tbl action => (LogQuery true generated_audit_table id q tbl action rows).1
  end.
Definition call_session (c : EmCall) : string := match c with CallEvent s _ => Session_ID s | CallQuery id _ _ _ => id end.
Definition call_action (c : EmCall) : string := match c with CallEvent _ ty => ty | CallQuery _ _ _ action => action end.
Definition call_row (c : EmCall) : EmRow :=
  match c with CallEvent s ty => event_row ty s | CallQuery id q tbl action => query_row id q tbl action end.

Lemma em_calls_rows l rows : fold_left em_call l rows = (rows ++ map call_row l)%list.
Proof.
  revert rows. induction l as [|c l IH]; intros rows; [by rewrite app_nil_r|]. cbn [fold_left map]. rewrite IH.
  assert (em_call rows c = (rows ++ [call_row c])%list) as -> by (by destruct c). by rewrite <- app_assoc.
Qed.
Lemma action_count_rows rows a : default 0%Z (action_counts rows !! a) = Z.of_nat (length (filter (fun r => er_action r = a) rows)).
Proof.
  induction rows as [|r rows IH]; [done|]. cbn [action_counts]. rewrite filter_cons. destruct (decide (er_action r = a)) as [<-|Hn].
  - rewrite lookup_insert_eq, IH. cbn. lia.
  - by rewrite lookup_insert_ne.
Qed.
Lemma session_rows_calls id l : session_rows id (map call_row l) = map call_row (filter (fun c => call_session c = id) l).
Proof.
  induction l as [|c l IH]; [done|]. unfold session_rows in *. cbn [map]. rewrite !filter_cons.
  assert (Hc : er_break_glass (call_row c) = true /\ er_session (call_row c) = call_session c) by by destruct c.
  destruct Hc as [Hb Hs]. rewrite Hs, Hb, IH. destruct (decide (call_session c = id)) as [H|H]; repeat case_decide; tauto || done.
Qed.

(** On the other table the statistics of a session are what was logged for it, each action
    with its number; the events of the session itself are counted among the queries. *)
Theorem session_statistics id l :
  exists tables counts, GetSessionQueryStats true generated_audit_table id (fold_left em_call l []) =
    Some (Z.of_nat (length (filter (fun c => call_session c = id) l)), tables, counts) /\
  NoDup tables /\
  (forall t, t ∈ tables <-> t <> "" /\ exists q a, CallQuery id q t a ∈ l) /\
  forall a, default 0%Z (counts !! a) = Z.of_nat (length (filter (fun c => call_session c = id /\ call_action c = a) l)).
Proof.
  rewrite em_calls_rows. cbn [app]. unfold GetSessionQueryStats. cbn [negb pt_columns generated_audit_table]. rewrite session_rows_calls.
  change (mem "flag_break_glass" _) with true. cbn [negb]. set (mine := filter _ l). rewrite length_map. eexists _, _. split; [reflexivity|].
  split; [apply NoDup_remove_dups|]. split.
  - intros t. rewrite elem_of_remove_dups, list_elem_of_filter, list_elem_of_omap. split.
    + intros (Hne & r & Hr & Ht). split; [done|]. apply list_elem_of_fmap in Hr as (c & -> & Hc). apply list_elem_of_filter in Hc as [Hs Hc].
      destruct c as [s ty|i q tbl a]; [done|]. cbn in Hs, Ht. simplify_eq. by exists q, a.
    + intros (Hne & q & a & Hin). split; [done|]. exists (query_row id q t a). split; [|done].
      apply list_elem_of_fmap. exists (CallQuery id q t a). split; [done|]. by apply list_elem_of_filter.
  - intros a. rewrite action_count_rows. f_equal. unfold mine. clear. induction l as [|c l IH]; [done|]. rewrite !filter_cons.
    assert (Ha : er_action (call_row c) = call_action c) by by destruct c.
    destruct (decide (call_session c = id)) as [H|H].
    + cbn [map]. rewrite filter_cons, Ha. repeat case_decide; try tauto; cbn; by rewrite IH.
    + case_decide; [tauto|exact IH].
Qed.

(** Two queries that begin alike have the same hash. *)
Example queries_of_one_hash :
  hashQuery ("SELECT * FROM datasets WHERE name = 'aaaaaaaaaaaaaaaaaaaaaaaaaaaa' AND id = 1") =
  hashQuery ("SELECT * FROM datasets WHERE name = 'aaaaaaaaaaaaaaaaaaaaaaaaaaaa' AND id = 2").
Proof. reflexivity. Qed.

(** *** The recording *)

Section recording_theorems.
Context {Meta : Type} {RF : RecFormat Meta}.

Inductive RecCall := CInput (data : string) | COutput (data : string) | CQuery (q : string) (meta : option Meta) | CResult (res : string) (rows : Z) | CError (msg : string).
Definition rec_call (now : Time) (c : RecCall) (r : SessionRecorder) : SessionRecorder * option RecError :=
  match c with
  | CInput d => RecordInput now d r
  | COutput d => RecordOutput now d r
  | CQuery q m => RecordQuery now q m r
  | CResult res n => RecordResult now res n r
  | CError msg => RecordError now msg r
  end.
Definition rec_run (r : SessionRecorder) (l : list (Time * RecCall)) : SessionRecorder := fold_left (fun r '(now, c) => (rec_call now c r).1) l r.

(** The events of a run that began at [last]. *)
Definition call_event (last now : Time) (c : RecCall) : RecordingEvent Meta :=
  let d := Z.quot (Sub now last) 1000000 in
  match c with
  | CInput data => mkRecordingEvent now "input" data d None
  | COutput data => mkRecordingEvent now "output" data d None
  | CQuery q m => mkRecordingEvent now "query" q d m
  | CResult res n => mkRecordingEvent now "result" res d (Some (row_count n))
  | CError msg => mkRecordingEvent now "error" msg d None
  end.
Fixpoint run_events (last : Time) (l : list (Time * RecCall)) : list (RecordingEvent Meta) :=
  match l with [] => [] | (now, c) :: l => call_event last now c :: run_events now l end.
Definition is_query (c : Time * RecCall) : bool := match c.2 with CQuery _ _ => true | _ => false end.

Lemma rec_call_event now c (r : SessionRecorder) : SR_closed r = false ->
  (rec_call now c r).1 =
  mkSessionRecorder (SR_path r) (SR_header r) (SR_written r ++ default [] (enc_item (IEvent (call_event (SR_lastEvent r) now c)))) now
    (SR_eventCount r + 1) (SR_queryCount r + (if is_query (now, c) then 1 else 0)) false (SR_file r).
Proof.
  intros Hc. destruct c; cbn [rec_call]; unfold RecordInput, RecordOutput, RecordQuery, RecordResult, RecordError, record_event; cbn [count_query SR_closed]; rewrite ?Hc; cbn;
    by (destruct (enc_item _); cbn; rewrite ?Z.add_0_r).
Qed.

Lemma rec_run_spec (r : SessionRecorder) l : SR_closed r = false ->
  rec_run r l = mkSessionRecorder (SR_path r) (SR_header r)
    (SR_written r ++ concat (map (fun e => default [] (enc_item (IEvent e))) (run_events (SR_lastEvent r) l)))
    (match last l with Some (now, _) => now | None => SR_lastEvent r end) (SR_eventCount r + Z.of_nat (length l))
    (SR_queryCount r + Z.of_nat (length (List.filter is_query l))) false (SR_file r).
Proof.
  revert r. induction l as [|[now c] l IH]; intros r Hc.
  - cbn. rewrite app_nil_r, !Z.add_0_r. destruct r. cbn in Hc. by subst.
  - unfold rec_run in *. cbn [fold_left]. rewrite rec_call_event, IH, last_cons by done.
    cbn [run_events map concat length List.filter SR_path SR_header SR_written SR_lastEvent SR_eventCount SR_queryCount SR_file].
    rewrite <- app_assoc. f_equal; [by destruct (last l) as [[? ?]|]|lia|destruct (is_query (now, c)); cbn [length]; lia].
Qed.

Lemma run_event_types last l e : e ∈ run_events last l -> RE_Type e ∈ event_types.
Proof.
  revert last. induction l as [|[now c] l IH]; intros last; cbn [run_events]; [by intros ?%elem_of_nil|].
  intros [->|Hin]%elem_of_cons; [|by eapply IH]. destruct c; cbn; unfold event_types; rewrite !elem_of_cons; tauto.
Qed.

Lemma empty_no_type : "" ∉ event_types.
Proof. apply (bool_decide_unpack _). by vm_compute. Qed.
Lemma play_items es footer bs n : (length es < n)%nat ->
  (forall e, e ∈ es -> RE_Type e ∈ event_types /\ is_Some (enc_item (IEvent e))) -> enc_item (IFooter footer) = Some bs ->
  play n (concat (map (fun e => default [] (enc_item (IEvent e))) es) ++ bs) = (map shown_event es, true).
Proof.
  revert n. induction es as [|e es IH]; intros [|n] Hn He Hf; cbn in Hn; try lia; cbn [map concat play app].
  - destruct (dec_enc_footer footer bs [] Hf) as [Hne Hd]. rewrite app_nil_r in Hd. unfold NextEvent.
    rewrite bool_decide_eq_false_2 by done. by rewrite Hd.
  - destruct (He e) as [Ht [ebs Hebs]]; [left|]. rewrite Hebs. cbn [default from_option id]. rewrite <- app_assoc. unfold NextEvent.
    destruct (dec_enc_event e ebs (concat (map (fun e => default [] (enc_item (IEvent e))) es) ++ bs) Hebs) as [Hne Hd].
    rewrite bool_decide_eq_false_2 by (by destruct ebs). rewrite Hd, (shown_event_type e Ht).
    rewrite bool_decide_eq_false_2 by (by intros H; rewrite H in Ht; apply empty_no_type).
    cbn [andb]. rewrite (IH n); [done|lia| |done]. intros e' He'. apply He. by right.
Qed.

(** A recording that was closed plays back its header and every event that was recorded,
    in their order, and then ends; its footer has their number and that of the queries. *)
Theorem recording_plays_back created path s t0 r0 l t1 t2 r' :
  NewSessionRecorder created path s t0 = Ok r0 ->
  (forall e, e ∈ run_events t0 l -> is_Some (enc_item (IEvent e))) ->
  Recorder_Close t1 t2 (rec_run r0 l) = (r', None) ->
  exists file rest, SR_file r' = Some file /\ OpenRecording file = Some (shown_header (SR_header r0), rest) /\
    play (S (length l)) rest = (map shown_event (run_events t0 l), true) /\
    SR_eventCount r' = Z.of_nat (length l) /\ SR_queryCount r' = Z.of_nat (length (List.filter is_query l)).
Proof.
  intros Hnew Hok. unfold NewSessionRecorder in Hnew. destruct created; [|done]. cbn [negb] in Hnew.
  destruct (enc_item (IHeader _)) as [hbs|] eqn:Hh; [|done]. injection Hnew as <-. rewrite rec_run_spec by done.
  unfold Recorder_Close. cbn [SR_closed SR_header SR_written SR_lastEvent SR_eventCount SR_queryCount SR_path SR_file].
  destruct (enc_item (IFooter _)) as [fbs|] eqn:Hf; [|done]. intros [= <-]. eexists _, _.
  cbn [SR_file SR_eventCount SR_queryCount]. split; [reflexivity|]. unfold OpenRecording. rewrite gunzip_gzip, <- app_assoc.
  split; [by apply dec_enc_header|]. split; [|lia]. apply play_items with (footer := mkRecordingFooter t1 (Sub t2 (Session_StartedAt s)) (0 + Z.of_nat (length l)) (0 + Z.of_nat (length (List.filter is_query l)))); [|..|exact Hf].
  - assert (forall t, length (run_events t l) = length l) as -> ; [|lia]. clear. induction l as [|[? ?] l IH]; intros t; [done|]. cbn. by rewrite IH.
  - intros e He. split; [by eapply run_event_types|by apply Hok].
Qed.

(** Closing a second time does nothing, and nothing is recorded after it; but a query that
    is refused is counted. *)
Theorem closed_recorder now now2 t t' r r' e : Recorder_Close now now2 r = (r', e) ->
  SR_closed r' = true /\ Recorder_Close t t' r' = (r', None) /\ forall c, exists q, rec_call t c r' = (q, Some RecClosed) /\ SR_written q = SR_written r' /\
    SR_queryCount q = (SR_queryCount r' + if is_query (t, c) then 1 else 0)%Z.
Proof.
  intros Hc. assert (Hcl : SR_closed r' = true).
  { revert Hc. unfold Recorder_Close. destruct (SR_closed r) eqn:E; [by intros [= <- _]|]. by destruct (enc_item _); intros [= <- _]. }
  split; [done|]. split; [unfold Recorder_Close; by rewrite Hcl|]. intros c.
  destruct c; cbn [rec_call]; unfold RecordInput, RecordOutput, RecordQuery, RecordResult, RecordError, record_event; cbn [count_query SR_closed];
    rewrite Hcl; eexists; (split; [reflexivity|]); (split; [reflexivity|]); cbn; lia.
Qed.
End recording_theorems.

(** ** Witnesses *)

(** Logins, tables and the privileges that were granted. *)
Record ToyDb := mkToyDb { td_roles : list string; td_tables : list string; td_grants : list (string * string * string) }.
Definition toy_granted (db : ToyDb) (u t p : string) : bool := mem u (td_roles db) && bool_decide ((u, t, p) ∈ td_grants db).
Definition toy_exec (q : EmStatement) (db : ToyDb) : option ToyDb :=
  match q with
  | CreateLogin u _ =>
      if mem u (td_roles db) then None
      else Some (mkToyDb (u :: td_roles db) (td_tables db) (filter (fun g => g.1.1 <> u) (td_grants db)))
  | GrantTables u ps =>
      if mem u (td_roles db)
      then Some (mkToyDb (td_roles db) (td_tables db)
        (td_grants db ++ (t ← filter (fun t => t <> "audit_log") (td_tables db); p ← ps; [(u, t, p)]))%list)
      else None
  | RevokeAuditLog u => Some (mkToyDb (td_roles db) (td_tables db) (filter (fun g => ~ (g.1.1 = u /\ g.1.2 = "audit_log")) (td_grants db)))
  | Terminate _ => Some db
  | DropLogin u =>
      if mem u (td_roles db) && existsb (fun g => g.1.1 =?= u) (td_grants db) then None
      else Some (mkToyDb (filter (fun x => x <> u) (td_roles db)) (td_tables db) (td_grants db))
  end.
Ltac toy_bool := cbn [td_roles td_tables td_grants]; apply eq_true_iff_eq; rewrite ?orb_true_iff, ?andb_true_iff, ?negb_true_iff, ?bool_decide_eq_true, ?bool_decide_eq_false, ?mem_true, ?elem_of_cons, ?elem_of_app, ?list_elem_of_filter; cbn.

#[local] Instance toy_em_server : EmServer.
Proof.
  refine {| EmDb := ToyDb; em_role db u := mem u (td_roles db); em_tables := td_tables; em_granted := toy_granted; em_exec := toy_exec |}.
  - intros db u t p H. by apply andb_true_iff in H as [H _].
  - intros u pw db db' H. unfold toy_exec in H. destruct (mem u (td_roles db)) eqn:Hu; [done|]. injection H as <-. split_and!; [done| |done|].
    + intros x. toy_bool. naive_solver.
    + intros x t p. unfold toy_granted. apply mem_false in Hu. toy_bool. naive_solver.
  - intros u ps db db' H. unfold toy_exec in H. destruct (mem u (td_roles db)) eqn:Hu; [|done]. injection H as <-. split_and!; [done|done|].
    intros x t p. unfold toy_granted. apply mem_true in Hu. toy_bool. rewrite list_elem_of_bind. setoid_rewrite list_elem_of_bind.
    setoid_rewrite list_elem_of_filter. setoid_rewrite list_elem_of_singleton. naive_solver.
  - intros u db db' [= <-]. split_and!; [done|done|]. intros x t p. unfold toy_granted. toy_bool. destruct (decide (x = u)), (decide (t = "audit_log")); repeat case_bool_decide; naive_solver.
  - by intros u db db' [= <-].
  - intros u db db' H. unfold toy_exec in H. destruct (mem u (td_roles db)) eqn:Hu; cbn in H.
    + destruct (existsb _ _) eqn:He; [done|]. injection H as <-. split_and!; [|intros x; toy_bool; naive_solver|done|].
      * intros t p. unfold toy_granted. apply andb_false_iff. right. apply bool_decide_eq_false. intros Hin.
        apply Bool.not_true_iff_false in He. apply He, existsb_exists. exists (u, t, p). split; [by apply list_elem_of_In|]. by apply bool_decide_eq_true.
      * intros x t p. unfold toy_granted. cbn [td_roles td_tables td_grants]. destruct (decide (x = u)) as [->|Hx]; [|toy_bool; naive_solver].
        assert (bool_decide ((u, t, p) ∈ td_grants db) = false) as ->; [|by rewrite !andb_false_r].
        apply bool_decide_eq_false. intros Hin. apply Bool.not_true_iff_false in He. apply He, existsb_exists. exists (u, t, p).
        split; [by apply list_elem_of_In|]. by apply bool_decide_eq_true.
    + injection H as <-. split_and!; [|intros x; toy_bool; naive_solver|done|].
      * intros t p. unfold toy_granted. by rewrite Hu.
      * intros x t p. unfold toy_granted. apply mem_false in Hu. toy_bool. naive_solver.
  - intros u db H. unfold toy_exec. destruct (mem u (td_roles db)) eqn:Hu; cbn; [|by eexists]. destruct (existsb _ _) eqn:He; [|by eexists].
    apply existsb_exists in He as ([[x t] p] & Hin & Hx). apply bool_decide_eq_true in Hx. cbn in Hx. subst x. specialize (H t p).
    unfold toy_granted in H. rewrite Hu, bool_decide_eq_true_2 in H by (by apply list_elem_of_In). discriminate H.
Defined.

(** Values written as numbers; what stands for metadata is a number. *)
Definition item_tuple (i : RecItem Z) : (Z * string * string * Z * string * string * string) + (Z * string * string * Z * option Z) + (Z * Z * Z * Z) :=
  match i with
  | IHeader (mkRecordingHeader a b c d e f g) => inl (inl (a, b, c, d, e, f, g))
  | IEvent (mkRecordingEvent a b c d e) => inl (inr (a, b, c, d, e))
  | IFooter (mkRecordingFooter a b c d) => inr (a, b, c, d)
  end.
Definition tuple_item (t : (Z * string * string * Z * string * string * string) + (Z * string * string * Z * option Z) + (Z * Z * Z * Z)) : RecItem Z :=
  match t with
  | inl (inl (a, b, c, d, e, f, g)) => IHeader (mkRecordingHeader a b c d e f g)
  | inl (inr (a, b, c, d, e)) => IEvent (mkRecordingEvent a b c d e)
  | inr (a, b, c, d) => IFooter (mkRecordingFooter a b c d)
  end.
Definition read_item (bs : list Z) : option (RecItem Z * list Z) :=
  match bs with Zpos p :: rest => match decode p with Some t => Some (tuple_item t, rest) | None => None end | _ => None end.
Definition write_item (i : RecItem Z) : list Z := [Zpos (encode (item_tuple i))].
Lemma read_written i rest : read_item (write_item i ++ rest) = Some (i, rest).
Proof. cbn. rewrite decode_encode. by destruct i as [[]|[]|[]]. Qed.
#[local] Instance number_format : RecFormat Z.
Proof.
  refine {| row_count n := n; enc_item i := Some (write_item i);
            dec_header bs := match read_item bs with Some (IHeader h, rest) => Some (h, rest) | _ => None end;
            dec_event bs := match read_item bs with
                            | Some (IEvent e, rest) => Some (e, rest)
                            | Some (IFooter _, rest) => Some (mkRecordingEvent zero_time "" "" 0 None, rest)
                            | _ => None
                            end;
            shown_header h := h; shown_event e := e; gzip l := 31%Z :: l; gunzip l := match l with 31%Z :: l => Some l | _ => None end |}.
  - intros h bs rest [= <-]. by rewrite read_written.
  - intros e bs rest [= <-]. split; [done|]. by rewrite read_written.
  - intros f bs rest [= <-]. split; [done|]. by rewrite read_written.
  - done.
  - done.
Defined.

Definition two_tables : ToyDb := mkToyDb ["postgres"] ["datasets"; "audit_log"] [].
Definition created_db : ToyDb := (CreateBreakGlassUser "breakglass_1a2b3c4d" "pw" AccessReadWrite two_tables).1.

Lemma valid_username_plain_witness : forallb is_word (bytes_of "breakglass_1a2b3c4d") = true /\ (12 <= length (bytes_of "breakglass_1a2b3c4d") <= 43)%nat.
Proof. apply (valid_username_plain "breakglass_1a2b3c4d"). reflexivity. Defined.
Lemma manager_names_valid_witness : isValidUsername (db_username "1a2b3c4d-0000-0000-0000-000000000000") = true.
Proof. apply (manager_names_valid "1a2b3c4d-0000-0000-0000-000000000000"); [reflexivity|vm_compute; lia]. Defined.
Lemma created_login_witness :
  em_granted created_db "breakglass_1a2b3c4d" "datasets" "DELETE" = true /\ em_granted created_db "breakglass_1a2b3c4d" "audit_log" "SELECT" = false.
Proof.
  assert (H : CreateBreakGlassUser "breakglass_1a2b3c4d" "pw" AccessReadWrite two_tables = (created_db, None)) by reflexivity.
  destruct (created_login (ES := toy_em_server) "breakglass_1a2b3c4d" "pw" AccessReadWrite two_tables created_db H) as (_ & _ & Hg). rewrite !Hg. split; reflexivity.
Defined.
Lemma failed_login_leaves_none_witness :
  em_role (CreateBreakGlassUser "breakglass_1a2b3c4d" "pw" AccessReadOnly created_db).1 "breakglass_1a2b3c4d" = true.
Proof.
  exact (failed_login_leaves_none (ES := toy_em_server) "breakglass_1a2b3c4d" "pw" AccessReadOnly created_db _ CreateRefused eq_refl "breakglass_1a2b3c4d").
Defined.
Lemma created_login_stays_witness : em_role (DropBreakGlassUser "breakglass_1a2b3c4d" created_db).1 "breakglass_1a2b3c4d" = true.
Proof.
  assert (H : CreateBreakGlassUser "breakglass_1a2b3c4d" "pw" AccessReadWrite two_tables = (created_db, None)) by reflexivity.
  pose proof (created_login_stays (ES := toy_em_server) "breakglass_1a2b3c4d" "pw" AccessReadWrite two_tables created_db "datasets" H) as Hs.
  destruct (DropBreakGlassUser (ES := toy_em_server) "breakglass_1a2b3c4d" created_db) as [db err]. destruct Hs as [_ Hs]; [by left|discriminate|exact Hs].
Defined.

Definition em_session : Session :=
  mkSession "1a2b3c4d-0000" (mkBGUser "alice" [] "" AccessReadOnly) "outage" AccessReadOnly (63900000000 * Second) (63900003600 * Second) "node" "ops" "" "breakglass_1a2b3c4d" StateActive "".
Lemma events_are_no_actions_witness :
  logged (mkPgAuditTable event_columns (pt_actions migrated_audit_table) true) event_columns (event_row "session_expired" em_session) [] = ([], false).
Proof. apply (events_are_no_actions em_session "session_expired" event_columns []). apply (bool_decide_unpack _). by vm_compute. Defined.

Definition em_calls : list (Time * RecCall (Meta := Z)) :=
  [(63900000001 * Second, CQuery "SELECT 1" (Some 7)); (63900000002 * Second, CResult "1" 1); (63900000003 * Second, CError "timeout")]%Z.
Definition em_recorder : SessionRecorder := match NewSessionRecorder true "r.rec" em_session (63900000000 * Second) with Ok r => r | Err _ => mkSessionRecorder "" (mkRecordingHeader 0 "" "" 0 "" "" "") [] 0 0 0 false None end.

Lemma recording_plays_back_witness :
  exists file rest, SR_file (Recorder_Close (63900000004 * Second) (63900000005 * Second) (rec_run em_recorder em_calls)).1 = Some file /\ OpenRecording file = Some (SR_header em_recorder, rest) /\
    play 4 rest = (run_events (63900000000 * Second) em_calls, true).
Proof.
  assert (Hn : NewSessionRecorder true "r.rec" em_session (63900000000 * Second) = Ok em_recorder) by reflexivity.
  assert (Hc : Recorder_Close (63900000004 * Second) (63900000005 * Second) (rec_run em_recorder em_calls) = ((Recorder_Close (63900000004 * Second) (63900000005 * Second) (rec_run em_recorder em_calls)).1, None)) by reflexivity.
  destruct (recording_plays_back true "r.rec" em_session (63900000000 * Second) em_recorder em_calls (63900000004 * Second) (63900000005 * Second) _ Hn
    (fun e _ => ltac:(by eexists)) Hc) as (file & rest & H1 & H2 & H3 & _).
  exists file, rest. split; [exact H1|]. split; [exact H2|exact H3].
Defined.
Lemma closed_recorder_witness : Recorder_Close 9 10 (Recorder_Close (63900000004 * Second) (63900000005 * Second) em_recorder).1 = ((Recorder_Close (63900000004 * Second) (63900000005 * Second) em_recorder).1, None).
Proof.
  apply (closed_recorder (63900000004 * Second) (63900000005 * Second) 9 10 em_recorder _ (Recorder_Close (63900000004 * Second) (63900000005 * Second) em_recorder).2). by destruct (Recorder_Close _ _).
Defined.
