(* ===== verification/Shamir.v ===== *)
(** * Key sharing ([internal/storage/postgres/encryption/shamir.go])

    The byte arithmetic, the splitting of a key into shares, the recovery from
    shares, and the sealing of an exported share.  Bytes are integers between 0
    and 255; [int] arithmetic wraps at 64 bits.  The random bytes, the NaCl
    secret box and the share's JSON and base64 text are code outside the
    repository: classes with the documented laws.

    The source says of [SplitKey] and [gfDiv] that they are simplified.  The
    theorems say what is left: the shape of the shares and the errors are as
    documented, the multiplication is that of GF(256) on the powers of two only,
    and the recovered bytes are not the key. *)
From stdpp Require Import base gmap strings list pretty.
From Stdlib Require Import ZArith Lia Ascii.
From S2P Require Import Prelude GoStrings.
Local Open Scope Z_scope.

(** ** GF(256) arithmetic *)

(** One turn of the loop of [gfMulNoTable] on [(a, b, result)]. *)
Definition gfMulNoTable_step (s : Z * Z * Z) : Z * Z * Z :=
  let '(a, b, result) := s in
  let result := if negb (Z.land b 1 =? 0) then Z.lxor result a else result in
  let high := Z.land a 128 in
  let a := u8 (Z.shiftl a 1) in
  let a := if negb (high =? 0) then Z.lxor a 27 else a in
  (a, Z.shiftr b 1, result).

(** [for b > 0 { ... }; return result]; [None] when the fuel is used up. *)
Fixpoint gfMulNoTable_loop (fuel : nat) (s : Z * Z * Z) : option Z :=
  let '(_, b, result) := s in
  if 0 <? b then
    match fuel with
    | O => None
    | S fuel' => gfMulNoTable_loop fuel' (gfMulNoTable_step s)
    end
  else Some result.

(** A byte is zero after eight shifts. *)
Definition gfMulNoTable (a b : Z) : Z := default 0 (gfMulNoTable_loop 8 (a, b, 0)).

(** [gfExp] (512 bytes) and [gfLog] (256 bytes) start as zeros. *)
Record gf_tables := mkTables { gfExp : list Z; gfLog : list Z }.

Definition init_log_step (s : Z * gf_tables) (i : Z) : Z * gf_tables :=
  let '(x, t) := s in
  (gfMulNoTable x 2,
   mkTables (<[Z.to_nat i := x]> (gfExp t)) (<[Z.to_nat x := u8 i]> (gfLog t))).

Definition init_exp_step (t : gf_tables) (i : Z) : gf_tables :=
  mkTables (<[Z.to_nat i := nth (Z.to_nat (i - 255)) (gfExp t) 0]> (gfExp t)) (gfLog t).

Definition init_tables : gf_tables :=
  let '(_, t) := fold_left init_log_step (seqZ 0 255)
                   (1, mkTables (replicate 512 0) (replicate 256 0)) in
  fold_left init_exp_step (seqZ 255 257) t.

(** The tables, computed once. *)
Definition tables : gf_tables := Eval vm_compute in init_tables.

Definition gfMul (a b : Z) : Z :=
  if (a =? 0) || (b =? 0) then 0
  else nth (Z.to_nat (nth (Z.to_nat a) (gfLog tables) 0 + nth (Z.to_nat b) (gfLog tables) 0))
         (gfExp tables) 0.

(** [for r < 0 { r += 256 }]: see [add256_unfold]. *)
Definition add256 (r : Z) : Z := if r <? 0 then r `mod` 256 else r.

Definition gfDiv (num denom : Z) : Z :=
  let result := add256 num in
  let denom := add256 denom in
  if denom =? 0 then 0 else u8 (Z.rem result 256).

(** ** Shares *)

Record Share := mkShare {
  Share_ID : string;
  Share_Index : Z;
  Share_Data : list Z;
  Share_Created : Time;
  Share_Threshold : Z;
  Share_TotalShares : Z
}.

Record ShamirConfig := mkShamirConfig {
  ShamirConfig_TotalShares : Z;
  ShamirConfig_Threshold : Z;
  ShamirConfig_ShareholderIDs : list string
}.

Inductive ShamirError :=
| ErrTotalBelowThreshold (total threshold : Z)
| ErrThresholdTooSmall
| ErrRandom
| ErrInsufficientShares (need got : Z)
| ErrInvalidShare
| ErrShareRecoveryFailed
| ErrInvalidPublicKeyLength
| ErrInvalidPrivateKeyLength
| ErrCiphertextTooShort
| ErrCodec
| IndexOutOfRange.

(** [crypto/rand]: the [n]-th read of [len] bytes, or [None] when it fails. *)
Class RandSource := {
  rand_Read : nat -> nat -> option (list Z);
  rand_length : forall n len bs, rand_Read n len = Some bs -> length bs = len
}.

(** [coefficients[i][k]]: all coefficients have the length of the first. *)
Definition coeff_byte (c : list Z) (k : nat) : Z := nth k c 0.

(** Horner's rule on byte [k], from the highest coefficient down. *)
Definition eval_byte (coefficients : list (list Z)) (x : Z) (k : nat) : Z :=
  fold_left (fun value c => Z.lxor (gfMul value (u8 x)) (coeff_byte c k)) (rev coefficients) 0.

Definition evaluatePolynomial (coefficients : list (list Z)) (x : Z) : list Z :=
  let keyLen := length (nth 0 coefficients []) in
  map (eval_byte coefficients x) (seq 0 keyLen).

Section split.
Context `{RandSource}.

(** [for i := 1; i < threshold; i++ { coeff := ...; rand.Read(coeff) }] *)
Fixpoint random_coefficients (n : nat) (i : nat) (keyLen : nat) : option (list (list Z)) :=
  match n with
  | O => Some []
  | S n' =>
      match rand_Read i keyLen with
      | None => None
      | Some coeff => cons coeff <$> random_coefficients n' (S i) keyLen
      end
  end.

Definition make_share (config : ShamirConfig) (now : Time) (coefficients : list (list Z))
    (i : nat) : Share :=
  let x := Z.of_nat i + 1 in
  {| Share_ID := match ShamirConfig_ShareholderIDs config !! i with
                 | Some id => id
                 | None => ("share-" +:+ pretty x)%string
                 end;
     Share_Index := x;
     Share_Data := evaluatePolynomial coefficients x;
     Share_Created := now;
     Share_Threshold := ShamirConfig_Threshold config;
     Share_TotalShares := ShamirConfig_TotalShares config |}.

Definition SplitKey (config : ShamirConfig) (now : Time) (key : list Z)
    : result ShamirError (list Share) :=
  let total := ShamirConfig_TotalShares config in
  let threshold := ShamirConfig_Threshold config in
  if total <? threshold then Err (ErrTotalBelowThreshold total threshold)
  else if threshold <? 2 then Err ErrThresholdTooSmall
  else match random_coefficients (Z.to_nat threshold - 1) 1 (length key) with
       | None => Err ErrRandom
       | Some coeffs =>
           Ok (map (make_share config now (key :: coeffs)) (seq 0 (Z.to_nat total)))
       end.
End split.

(** [numerator] and [denominator] of the Lagrange coefficient of share [i]. *)
Definition lagrange_step (xi : Z) (nd : Z * Z) (xj : Z) : Z * Z :=
  (i64 (fst nd * i64 (- xj)), i64 (snd nd * i64 (xi - xj))).

Definition lagrange (shares : list Share) (i : nat) (xi : Z) : Z * Z :=
  fold_left (fun nd js => if (fst js =? i)%nat then nd else lagrange_step xi nd (snd js))
    (combine (seq 0 (length shares)) (map Share_Index shares)) (1, 1).

Definition add_share (shares : list Share) (secret : list Z) (ish : nat * Share) : list Z :=
  let '(i, share) := ish in
  let '(numerator, denominator) := lagrange shares i (Share_Index share) in
  let coefficient := gfDiv numerator denominator in
  zip_with (fun s d => Z.lxor s (gfMul d coefficient)) secret (Share_Data share).

Definition RecoverKey (config : ShamirConfig) (shares : list Share)
    : result ShamirError (list Z) :=
  let threshold := ShamirConfig_Threshold config in
  if Z.of_nat (length shares) <? threshold
  then Err (ErrInsufficientShares threshold (Z.of_nat (length shares)))
  else if threshold <? 0 then Err IndexOutOfRange
  else
    let shares := take (Z.to_nat threshold) shares in
    match shares with
    | [] => Err IndexOutOfRange
    | share0 :: _ =>
        let keyLen := length (Share_Data share0) in
        if existsb (fun share => negb (length (Share_Data share) =? keyLen)%nat) shares
        then Err ErrInvalidShare
        else Ok (fold_left (add_share shares) (combine (seq 0 (length shares)) shares)
                   (replicate keyLen 0))
    end.

(** ** Sealing a share for a recipient *)

(** [golang.org/x/crypto/nacl/secretbox]: [Open] undoes [Seal] under the same
    nonce and key, and a box is 16 bytes longer than its message. *)
Class SecretBox := {
  box_seal : list Z -> list Z -> list Z -> list Z;
  box_open : list Z -> list Z -> list Z -> option (list Z);
  box_open_seal : forall m nonce key, box_open (box_seal m nonce key) nonce key = Some m;
  box_length : forall m nonce key, length (box_seal m nonce key) = (length m + 16)%nat
}.

(** [encoding/json] on a [Share] and [encoding/base64]. *)
Class ShareCodec := {
  json_Marshal : Share -> option (list Z);
  json_Unmarshal : list Z -> option Share;
  base64_Encode : list Z -> string;
  base64_Decode : string -> option (list Z);
  json_roundtrip : forall s bs, json_Marshal s = Some bs -> json_Unmarshal bs = Some s;
  base64_roundtrip : forall bs, base64_Decode (base64_Encode bs) = Some bs
}.

(** [sharedKey[i] = a[i] ^ b[i]] for the first 32 bytes. *)
Definition xor_key (a b : list Z) : list Z := zip_with Z.lxor (take 32 a) (take 32 b).

Section seal.
Context `{RandSource} `{SecretBox}.

Definition encryptForRecipient (data publicKey : list Z) : result ShamirError (list Z) :=
  if (length publicKey <? 32)%nat then Err ErrInvalidPublicKeyLength
  else match rand_Read 0 32 with
       | None => Err ErrRandom
       | Some ephemeralKey =>
           let sharedKey := xor_key ephemeralKey publicKey in
           match rand_Read 1 24 with
           | None => Err ErrRandom
           | Some nonce => Ok (ephemeralKey ++ nonce ++ box_seal data nonce sharedKey)
           end
       end.

Definition decryptFromRecipient (data privateKey : list Z) : result ShamirError (list Z) :=
  if (length data <? 32 + 24 + 16)%nat then Err ErrCiphertextTooShort
  else if (length privateKey <? 32)%nat then Err ErrInvalidPrivateKeyLength
  else
    let ephemeralPub := take 32 data in
    let ciphertext := drop 32 data in
    let sharedKey := xor_key ephemeralPub privateKey in
    let nonce := take 24 ciphertext in
    match box_open (drop 24 ciphertext) nonce sharedKey with
    | None => Err ErrShareRecoveryFailed
    | Some plaintext => Ok plaintext
    end.

Context `{ShareCodec}.

Definition Share_Export (s : Share) (recipientPublicKey : list Z) : result ShamirError string :=
  match json_Marshal s with
  | None => Err ErrCodec
  | Some data =>
      if (0 <? length recipientPublicKey)%nat then
        let! encrypted := encryptForRecipient data recipientPublicKey in
        Ok (base64_Encode encrypted)
      else Ok (base64_Encode data)
  end.

Definition ImportShare (encoded : string) (privateKey : list Z) : result ShamirError Share :=
  match base64_Decode encoded with
  | None => Err ErrCodec
  | Some data =>
      let! data := (if (0 <? length privateKey)%nat then decryptFromRecipient data privateKey
                    else Ok data) in
      match json_Unmarshal data with
      | None => Err ErrCodec
      | Some share => Ok share
      end
  end.
End seal.

(** ** The byte arithmetic *)

(** [for r < 0 { r += 256 }; return r] satisfies the loop's equation. *)
Lemma add256_unfold r : add256 r = if r <? 0 then add256 (r + 256) else r.
Proof.
  unfold add256. destruct (r <? 0) eqn:Hr; bool_props; [|done].
  destruct (r + 256 <? 0) eqn:Hr'; bool_props.
  - by rewrite <- (Z.mod_add r 1 256) by lia.
  - rewrite <- (Z.mod_small (r + 256) 256) by lia. by rewrite <- (Z.mod_add r 1 256) by lia.
Qed.

Lemma gfMulNoTable_loop_total fuel a b r :
  0 <= b < 2 ^ Z.of_nat fuel -> is_Some (gfMulNoTable_loop fuel (a, b, r)).
Proof.
  revert a b r. induction fuel as [|fuel IH]; intros a b r Hb.
  - cbn. destruct (0 <? b) eqn:Hb0; bool_props; [simpl in Hb; lia|by eexists].
  - cbn [gfMulNoTable_loop]. destruct (0 <? b) eqn:Hb0; [|by eexists].
    unfold gfMulNoTable_step. apply IH. rewrite Z.shiftr_div_pow2 by lia.
    change (2 ^ 1) with 2. rewrite Nat2Z.inj_succ, Z.pow_succ_r in Hb by lia.
    split; [apply Z.div_pos; lia|apply Z.div_lt_upper_bound; lia].
Qed.

(** The loop on bytes ends: eight turns are enough. *)
Lemma gfMulNoTable_loop_byte a b :
  is_u8 b -> gfMulNoTable_loop 8 (a, b, 0) = Some (gfMulNoTable a b).
Proof.
  intros Hb. unfold gfMulNoTable.
  by destruct (gfMulNoTable_loop_total 8 a b 0 Hb) as [v ->].
Qed.

Lemma tables_init : tables = init_tables.
Proof. vm_compute. reflexivity. Qed.

(** The powers of two in GF(256): they repeat after 51. *)
Definition powers : list Z := Eval vm_compute in take 51 (gfExp init_tables).
Definition is_power (a : Z) : bool := mem a powers.

Lemma powers_all : forallb is_power (gfExp tables) = true.
Proof. vm_compute. reflexivity. Qed.

Definition bytes : list Z := seqZ 0 256.

Lemma bytes_spec (p : Z -> bool) :
  forallb p bytes = true -> forall a, is_u8 a -> p a = true.
Proof. intros H a Ha. by apply (forall_below 256 p). Qed.

Lemma powers_product_check :
  forallb (fun a => forallb (fun b => gfMul a b =? gfMulNoTable a b) powers) powers = true.
Proof. vm_compute. reflexivity. Qed.

(** On the powers of two the table product is the product computed
    bit by bit; on zero too. *)
Theorem gfMul_powers (a b : Z) (Hpa : is_power a = true) (Hpb : is_power b = true) :
  gfMul a b = gfMulNoTable a b.
Proof.
  pose proof powers_product_check as H. rewrite forallb_forall in H.
  apply mem_true, list_elem_of_In in Hpa, Hpb. specialize (H a Hpa).
  rewrite forallb_forall in H. by apply Z.eqb_eq, H.
Qed.

Lemma gfMul_powers_witness : gfMul 128 27 = gfMulNoTable 128 27.
Proof. apply gfMul_powers; vm_compute; reflexivity. Defined.

Lemma outside_log_check :
  forallb (fun a => is_power a || (nth (Z.to_nat a) (gfLog tables) 0 =? 0)) bytes = true.
Proof. vm_compute. reflexivity. Qed.

Lemma times_one_check :
  forallb (fun b => gfMul 1 b =? (if b =? 0 then 0 else
             nth (Z.to_nat (0 + nth (Z.to_nat b) (gfLog tables) 0)) (gfExp tables) 0)) bytes = true.
Proof. vm_compute. reflexivity. Qed.

(** Every byte outside the powers of two multiplies as if it were 1. *)
Lemma gfMul_outside a b :
  is_u8 a -> is_u8 b -> a <> 0 -> is_power a = false -> gfMul a b = gfMul 1 b.
Proof.
  intros Ha Hb Ha0 Hp. pose proof (bytes_spec _ outside_log_check a Ha) as H. cbv beta in H.
  rewrite Hp in H. apply Z.eqb_eq in H.
  pose proof (bytes_spec _ times_one_check b Hb) as H1. apply Z.eqb_eq in H1. rewrite H1.
  unfold gfMul. rewrite H. apply Z.eqb_neq in Ha0. rewrite Ha0. simpl. done.
Qed.

(** The field has 255 non-zero bytes but the tables cover only the 51
    powers of two: any other byte multiplies as if it were 1, so the product of
    [gfMul] forgets which of the 204 others it was given. *)
Theorem gfMul_collapse (a a' b : Z) (Ha : is_u8 a) (Ha' : is_u8 a') (Hb : is_u8 b)
    (Hz : a <> 0) (Hz' : a' <> 0) (Hp : is_power a = false) (Hp' : is_power a' = false) :
  gfMul a b = gfMul a' b /\
  length (filter (fun x => is_power x = false /\ x <> 0) bytes) = 204%nat.
Proof.
  split; [by rewrite (gfMul_outside a), (gfMul_outside a')|]. vm_compute. reflexivity.
Qed.

Lemma gfMul_collapse_witness : gfMul 3 7 = gfMul 5 7 /\ gfMulNoTable 3 7 <> gfMulNoTable 5 7.
Proof.
  split; [|vm_compute; discriminate].
  apply (gfMul_collapse 3 5 7); first [split; lia | lia | vm_compute; reflexivity].
Defined.

Lemma gfMul_0_r a : gfMul a 0 = 0.
Proof. unfold gfMul. by rewrite orb_true_r. Qed.

(** ** Splitting *)

Lemma eval_byte_zero key coeffs x k :
  x `mod` 256 = 0 -> eval_byte (key :: coeffs) x k = coeff_byte key k.
Proof.
  intros Hx. unfold eval_byte. simpl. rewrite fold_left_app. simpl.
  change (u8 x) with (x `mod` 256). rewrite Hx, gfMul_0_r. apply Z.lxor_0_l.
Qed.

Lemma eval_zero key coeffs x : x `mod` 256 = 0 -> evaluatePolynomial (key :: coeffs) x = key.
Proof.
  intros Hx. unfold evaluatePolynomial. cbn [nth]. apply list_eq. intros i.
  rewrite list_lookup_fmap. destruct (decide (i < length key)%nat) as [Hi|Hi].
  - rewrite lookup_seq_lt by done. simpl. rewrite eval_byte_zero by done.
    unfold coeff_byte. destruct (lookup_lt_is_Some_2 key i Hi) as [v Hv].
    by rewrite Hv, (nth_lookup_Some _ _ _ _ Hv).
  - rewrite lookup_seq_ge by lia. by rewrite lookup_ge_None_2 by lia.
Qed.

Lemma evaluatePolynomial_length key coeffs x :
  length (evaluatePolynomial (key :: coeffs) x) = length key.
Proof. unfold evaluatePolynomial. by rewrite length_map, length_seq. Qed.

Section split_theorems.
Context `{RandSource}.

Lemma random_coefficients_spec n i len cs :
  random_coefficients n i len = Some cs ->
  length cs = n /\ forall c, c ∈ cs -> length c = len.
Proof.
  revert i cs. induction n as [|n IH]; intros i cs Hcs; simpl in Hcs; simplify_eq.
  - split; [done|set_solver].
  - destruct (rand_Read i len) as [c|] eqn:Hc; [|done].
    destruct (random_coefficients n (S i) len) as [cs'|] eqn:Hcs'; simplify_eq/=.
    destruct (IH _ _ Hcs') as [Hl Hin]. split; [by rewrite Hl|].
    intros c' [->|Hc']%elem_of_cons; [by apply (rand_length i)|by apply Hin].
Qed.

Lemma SplitKey_inv config now key shares :
  SplitKey config now key = Ok shares ->
  2 <= ShamirConfig_Threshold config <= ShamirConfig_TotalShares config /\
  exists coeffs,
    length coeffs = (Z.to_nat (ShamirConfig_Threshold config) - 1)%nat /\
    shares = map (make_share config now (key :: coeffs))
               (seq 0 (Z.to_nat (ShamirConfig_TotalShares config))).
Proof.
  unfold SplitKey. intros Hs. go_cases. split; [lia|].
  destruct (random_coefficients_spec _ _ _ _ H2) as [Hlen _]. by eexists.
Qed.

Lemma SplitKey_lookup config now key shares i s :
  SplitKey config now key = Ok shares -> shares !! i = Some s ->
  (i < Z.to_nat (ShamirConfig_TotalShares config))%nat /\
  exists coeffs, s = make_share config now (key :: coeffs) i.
Proof.
  intros (_ & coeffs & _ & ->)%SplitKey_inv Hi. rewrite list_lookup_fmap in Hi.
  destruct (seq _ _ !! i) as [j|] eqn:Hj; simplify_eq/=.
  apply lookup_seq in Hj as [-> ?]. split; [lia|]. by exists coeffs.
Qed.

(** [SplitKey] fails when the total is below the threshold or the
    threshold below two; a successful call returns exactly [TotalShares]
    shares, the [i]-th with index [i+1] (so no two share an x-coordinate),
    the length of the key and the configured threshold and total. *)
Theorem SplitKey_shape config now key shares (Hs : SplitKey config now key = Ok shares) :
  2 <= ShamirConfig_Threshold config <= ShamirConfig_TotalShares config /\
  Z.of_nat (length shares) = ShamirConfig_TotalShares config /\
  NoDup (map Share_Index shares) /\
  forall i s, shares !! i = Some s ->
    Share_Index s = Z.of_nat i + 1 /\ length (Share_Data s) = length key /\
    Share_Threshold s = ShamirConfig_Threshold config /\
    Share_TotalShares s = ShamirConfig_TotalShares config /\
    (forall id, ShamirConfig_ShareholderIDs config !! i = Some id -> Share_ID s = id).
Proof.
  pose proof (SplitKey_lookup config now key shares) as Hl.
  destruct (SplitKey_inv _ _ _ _ Hs) as (Hr & coeffs & Hc & Heq).
  split; [done|]. split.
  { rewrite Heq, length_map, length_seq. lia. }
  split.
  { rewrite Heq, map_map. apply NoDup_fmap_2; [|apply NoDup_seq]. intros i j; simpl; lia. }
  intros i s Hi. destruct (Hl i s Hs Hi) as (_ & cs & ->). simpl.
  rewrite evaluatePolynomial_length. split_and!; try done. by intros id ->.
Qed.

(** The x-coordinate is truncated to a byte, so the 256th share (and every
    256th one after it) is evaluated at zero: its data is the key itself. *)
Theorem share_256_is_key config now key shares i s
    (Hs : SplitKey config now key = Ok shares) (Hi : shares !! i = Some s)
    (Hmod : (Z.of_nat i + 1) `mod` 256 = 0) :
  Share_Data s = key.
Proof.
  destruct (SplitKey_lookup _ _ _ _ _ _ Hs Hi) as (_ & cs & ->). by apply eval_zero.
Qed.
End split_theorems.

(** A source of zero bytes, for concrete runs. *)
Program Definition zero_rand : RandSource := {| rand_Read n len := Some (replicate len 0) |}.
Next Obligation. intros n len bs H. simplify_eq/=. apply length_replicate. Qed.

Definition config_2_of_2 : ShamirConfig := mkShamirConfig 2 2 ["alice"%string].
Definition config_2_of_256 : ShamirConfig := mkShamirConfig 256 2 [].

Lemma SplitKey_shape_witness :
  exists shares, @SplitKey zero_rand config_2_of_2 5 [1; 200] = Ok shares /\
    length shares = 2%nat.
Proof.
  eexists. split; [reflexivity|].
  pose proof (@SplitKey_shape zero_rand config_2_of_2 5 [1; 200] _ eq_refl) as (_ & Hlen & _).
  apply Nat2Z.inj. exact Hlen.
Defined.

Lemma share_256_is_key_witness :
  match @SplitKey zero_rand config_2_of_256 5 [7; 9] with
  | Ok shares => exists s, shares !! 255%nat = Some s /\ Share_Data s = [7; 9]
  | Err _ => False
  end.
Proof.
  destruct (@SplitKey zero_rand config_2_of_256 5 [7; 9]) as [shares|e] eqn:Hs;
    [|vm_compute in Hs; discriminate].
  assert (is_Some (shares !! 255%nat)) as [s Hi].
  { vm_compute in Hs. injection Hs as <-. vm_compute. by eexists. }
  exists s. split; [done|].
  exact (@share_256_is_key zero_rand config_2_of_256 5 [7; 9] shares 255 s Hs Hi eq_refl).
Defined.

(** ** Recovery *)

(** Recovery needs [Threshold] shares and reads no more of them: shares
    after the first [Threshold] do not change the result, and fewer are an error. *)
Theorem RecoverKey_first_shares config shares extra
    (Hlen : Z.of_nat (length shares) = ShamirConfig_Threshold config) :
  RecoverKey config (shares ++ extra) = RecoverKey config shares /\
  (forall few, Z.of_nat (length few) < ShamirConfig_Threshold config ->
     RecoverKey config few =
       Err (ErrInsufficientShares (ShamirConfig_Threshold config) (Z.of_nat (length few)))).
Proof.
  split.
  - unfold RecoverKey. rewrite <- Hlen, !Nat2Z.id, take_app_length, take_ge by lia.
    rewrite !(proj2 (Z.ltb_ge _ _)) by (rewrite ?length_app; lia). done.
  - intros few Hfew. unfold RecoverKey. by rewrite (proj2 (Z.ltb_lt _ _) Hfew).
Qed.

Definition share_of (x : Z) (data : list Z) : Share := mkShare "s" x data 0 2 2.

Lemma RecoverKey_first_shares_witness :
  RecoverKey config_2_of_2 [share_of 1 [4]; share_of 2 [4]; share_of 3 [6; 6]] =
  RecoverKey config_2_of_2 [share_of 1 [4]; share_of 2 [4]].
Proof.
  apply (RecoverKey_first_shares config_2_of_2 [share_of 1 [4]; share_of 2 [4]]
           [share_of 3 [6; 6]]). reflexivity.
Defined.

(** Recovery does not return the key that was split.  With two shares, both
    given back in order, the byte 1 (and a zero coefficient) is recovered as 0:
    [gfDiv] ignores its denominator. *)
Theorem recovery_is_wrong :
  exists (R : RandSource) config key shares,
    SplitKey config 0 key = Ok shares /\
    Z.of_nat (length shares) = ShamirConfig_Threshold config /\
    forall key', RecoverKey config shares = Ok key' -> key' <> key.
Proof.
  exists zero_rand, config_2_of_2, [1]. eexists.
  split; [reflexivity|]. split; [reflexivity|]. intros key'. vm_compute.
  intros [= <-]. discriminate.
Qed.

(** The coefficient [gfDiv] computes is the same for every non-zero
    denominator: the result is the numerator modulo 256. *)
Theorem gfDiv_ignores_denominator num denom (Hd : add256 denom <> 0) :
  gfDiv num denom = num `mod` 256.
Proof.
  unfold gfDiv. apply Z.eqb_neq in Hd. rewrite Hd. unfold add256, u8.
  destruct (num <? 0) eqn:Hn; bool_props.
  - rewrite Z.rem_mod_nonneg by (try lia; apply Z.mod_pos_bound; lia). by rewrite !Z.mod_mod by lia.
  - rewrite Z.rem_mod_nonneg by lia. by rewrite Z.mod_mod by lia.
Qed.

Lemma gfDiv_ignores_denominator_witness : gfDiv (-2) (-1) = (-2) `mod` 256.
Proof. apply gfDiv_ignores_denominator. vm_compute. discriminate. Defined.

(** ** Sealed shares *)

Section seal_theorems.
Context `{RandSource} `{SecretBox} `{ShareCodec}.

Lemma xor_key_take a b : xor_key (take 32 a) b = xor_key a b.
Proof. unfold xor_key. by rewrite take_take. Qed.

Lemma decrypt_encrypt data key key' encrypted :
  take 32 key' = take 32 key -> (32 <= length key')%nat ->
  encryptForRecipient data key = Ok encrypted ->
  decryptFromRecipient encrypted key' = Ok data.
Proof.
  intros Hk Hl He. unfold encryptForRecipient in He. go_cases.
  match goal with H1 : rand_Read 0 32 = Some ?e, H2 : rand_Read 1 24 = Some ?n |- _ =>
    apply rand_length in H1; apply rand_length in H2; rename e into eph; rename n into nonce;
    rename H1 into Heph; rename H2 into Hnonce
  end.
  unfold decryptFromRecipient. rewrite !length_app, box_length.
  rewrite (proj2 (Nat.ltb_ge _ _)) by lia. rewrite (proj2 (Nat.ltb_ge _ _)) by lia.
  rewrite (take_app_length' eph), (drop_app_length' eph) by done.
  rewrite (take_app_length' nonce), (drop_app_length' nonce) by done.
  replace (xor_key eph key') with (xor_key eph key) by (unfold xor_key; by rewrite Hk).
  by rewrite box_open_seal.
Qed.

(** An exported share is imported back under any key whose first 32 bytes
    are those of the recipient's public key -- that is, under the public key
    itself: the sealing uses no private information. *)
Theorem export_import (s : Share) (publicKey : list Z) (text : string)
    (Hkey : (32 <= length publicKey)%nat) (Hex : Share_Export s publicKey = Ok text) :
  ImportShare text publicKey = Ok s.
Proof.
  unfold Share_Export in Hex. destruct (json_Marshal s) as [data|] eqn:Hj; [|done].
  rewrite (proj2 (Nat.ltb_lt _ _)) in Hex by lia.
  destruct (encryptForRecipient data publicKey) as [enc|] eqn:He; simplify_eq.
  unfold ImportShare. rewrite base64_roundtrip, (proj2 (Nat.ltb_lt _ _)) by lia.
  by rewrite (decrypt_encrypt _ _ _ _ eq_refl Hkey He), (json_roundtrip _ _ Hj).
Qed.

(** Without a recipient the share is only encoded. *)
Lemma export_import_plain (s : Share) (text : string) :
  Share_Export s [] = Ok text -> ImportShare text [] = Ok s.
Proof.
  unfold Share_Export, ImportShare. intros Hex. destruct (json_Marshal s) eqn:Hj; simplify_eq/=.
  by rewrite base64_roundtrip, (json_roundtrip _ _ Hj).
Qed.
End seal_theorems.

(** Concrete codecs: a number in binary as text, and a box that appends its
    nonce's and key's tag. *)
Fixpoint pos_text (p : positive) : string :=
  match p with
  | xH => EmptyString
  | xO q => String "0"%char (pos_text q)
  | xI q => String "1"%char (pos_text q)
  end.

Fixpoint text_pos (s : string) : positive :=
  match s with
  | EmptyString => xH
  | String c q => if c =?= "0"%char then xO (text_pos q) else xI (text_pos q)
  end.

Lemma text_pos_text p : text_pos (pos_text p) = p.
Proof. induction p; simpl; by f_equal. Qed.

Program Definition toy_box : SecretBox :=
  {| box_seal m _ _ := m ++ replicate 16 0;
     box_open c _ _ := Some (take (length c - 16) c) |}.
Next Obligation.
  intros m nonce key. cbv beta. rewrite length_app, length_replicate, Nat.add_sub.
  by rewrite take_app_length.
Qed.
Next Obligation. intros m nonce key. cbv beta. by rewrite length_app, length_replicate. Qed.

#[global] Instance Share_eq_dec : EqDecision Share.
Proof. solve_decision. Defined.

Program Definition toy_codec (s0 : Share) : ShareCodec :=
  {| json_Marshal s := if s =?= s0 then Some [123; 125] else None;
     json_Unmarshal bs := if bs =?= [123; 125] then Some s0 else None;
     base64_Encode bs := pos_text (encode bs);
     base64_Decode t := decode (text_pos t) |}.
Next Obligation. intros s0 s bs H. simpl in *. case_bool_decide; simplify_eq. done. Qed.
Next Obligation. intros s0 bs. simpl. rewrite text_pos_text. apply decode_encode. Qed.

Lemma export_import_witness :
  exists text,
    @Share_Export zero_rand toy_box (toy_codec (share_of 1 [4])) (share_of 1 [4])
      (replicate 32 9) = Ok text /\
    @ImportShare toy_box (toy_codec (share_of 1 [4])) text (replicate 32 9) = Ok (share_of 1 [4]).
Proof.
  eexists. split; [vm_compute; reflexivity|].
  apply (@export_import zero_rand toy_box (toy_codec (share_of 1 [4])) (share_of 1 [4])
           (replicate 32 9)); [vm_compute; lia | vm_compute; reflexivity].
Defined.
