(* ===== verification/AuditLog.v ===== *)
(** * The audit log ([internal/storage/audit/types.go], [internal/storage/sqlite/audit.go])

    Entries carry the SHA-256 hash of their main fields and of the entry before
    them; the repository appends them to a table that triggers protect against
    changes, and [VerifyChain] recomputes the hashes.  [storage.AuditEntry] and
    [audit.Entry] are the same record, and [calculateEntryHash] of the repository
    is [Entry.CalculateHash].

    The table is the list of its rows in the order of their [AUTOINCREMENT] keys.
    A row is refused when it violates a constraint of the table's schema
    ([migrate/migrations/sqlite/000003_audit_log.up.sql]). *)
From stdpp Require Import base gmap strings list pretty.
From Stdlib Require Import ZArith Lia Ascii.
From S2P Require Import Prelude GoStrings Domain GoTime.

Record AuditEntryFlags := mkFlags {
  Flags_BreakGlass : bool;
  Flags_RateLimited : bool;
  Flags_Suspicious : bool;
  Flags_AlertTriggered : bool
}.
Definition no_flags : AuditEntryFlags := mkFlags false false false false.

Record AuditEntry := mkAuditEntry {
  AuditEntry_ID : Z;
  AuditEntry_Timestamp : Time;
  AuditEntry_NodeID : string;
  AuditEntry_JobID : string;
  AuditEntry_OperationID : string;
  AuditEntry_RoleUsed : string;
  AuditEntry_Action : string;
  AuditEntry_TableName : string;
  AuditEntry_Query : string;
  AuditEntry_QueryHash : string;
  AuditEntry_RowsAffected : Z;
  AuditEntry_DurationMS : Z;
  AuditEntry_SourceComponent : string;
  AuditEntry_Actor : string;
  AuditEntry_Metadata : list (string * GoAny);
  AuditEntry_PrevHash : string;
  AuditEntry_EntryHash : string;
  AuditEntry_Flags : AuditEntryFlags
}.

Definition ActionSelect : string := "SELECT".
Definition ActionInsert : string := "INSERT".
Definition ActionUpdate : string := "UPDATE".
Definition ActionDelete : string := "DELETE".
Definition ActionDDL : string := "DDL".
Definition ActionOther : string := "OTHER".

Definition ParseAction `{UnicodeTables} (query : string) : string :=
  let normalized := ToUpper (TrimSpace query) in
  if HasPrefix normalized "SELECT" then ActionSelect
  else if HasPrefix normalized "INSERT" then ActionInsert
  else if HasPrefix normalized "UPDATE" then ActionUpdate
  else if HasPrefix normalized "DELETE" then ActionDelete
  else if HasPrefix normalized "CREATE" || HasPrefix normalized "ALTER"
          || HasPrefix normalized "DROP" || HasPrefix normalized "TRUNCATE" then ActionDDL
  else ActionOther.

Definition NewEntry (now : Time) (nodeID operationID role source action : string) : AuditEntry :=
  mkAuditEntry 0 now nodeID "" operationID role action "" "" "" 0 0 source "" [] "" "" no_flags.

(** Assignments to fields of an entry. *)
Definition with_hashes (e : AuditEntry) (prev hash : string) : AuditEntry :=
  mkAuditEntry (AuditEntry_ID e) (AuditEntry_Timestamp e) (AuditEntry_NodeID e) (AuditEntry_JobID e)
    (AuditEntry_OperationID e) (AuditEntry_RoleUsed e) (AuditEntry_Action e) (AuditEntry_TableName e)
    (AuditEntry_Query e) (AuditEntry_QueryHash e) (AuditEntry_RowsAffected e) (AuditEntry_DurationMS e)
    (AuditEntry_SourceComponent e) (AuditEntry_Actor e) (AuditEntry_Metadata e) prev hash
    (AuditEntry_Flags e).
Definition with_origin (e : AuditEntry) (ts : Time) (node operation : string) : AuditEntry :=
  mkAuditEntry (AuditEntry_ID e) ts node (AuditEntry_JobID e)
    operation (AuditEntry_RoleUsed e) (AuditEntry_Action e) (AuditEntry_TableName e)
    (AuditEntry_Query e) (AuditEntry_QueryHash e) (AuditEntry_RowsAffected e) (AuditEntry_DurationMS e)
    (AuditEntry_SourceComponent e) (AuditEntry_Actor e) (AuditEntry_Metadata e) (AuditEntry_PrevHash e)
    (AuditEntry_EntryHash e) (AuditEntry_Flags e).
Definition with_id (e : AuditEntry) (id : Z) : AuditEntry :=
  mkAuditEntry id (AuditEntry_Timestamp e) (AuditEntry_NodeID e) (AuditEntry_JobID e)
    (AuditEntry_OperationID e) (AuditEntry_RoleUsed e) (AuditEntry_Action e) (AuditEntry_TableName e)
    (AuditEntry_Query e) (AuditEntry_QueryHash e) (AuditEntry_RowsAffected e) (AuditEntry_DurationMS e)
    (AuditEntry_SourceComponent e) (AuditEntry_Actor e) (AuditEntry_Metadata e) (AuditEntry_PrevHash e)
    (AuditEntry_EntryHash e) (AuditEntry_Flags e).
Definition with_notes (e : AuditEntry) (m : list (string * GoAny)) (f : AuditEntryFlags) : AuditEntry :=
  mkAuditEntry (AuditEntry_ID e) (AuditEntry_Timestamp e) (AuditEntry_NodeID e) (AuditEntry_JobID e)
    (AuditEntry_OperationID e) (AuditEntry_RoleUsed e) (AuditEntry_Action e) (AuditEntry_TableName e)
    (AuditEntry_Query e) (AuditEntry_QueryHash e) (AuditEntry_RowsAffected e) (AuditEntry_DurationMS e)
    (AuditEntry_SourceComponent e) (AuditEntry_Actor e) m (AuditEntry_PrevHash e)
    (AuditEntry_EntryHash e) f.

(** ** The hash chain *)

(** The twelve texts that are joined with a bar and hashed. *)
Definition hashed_fields (e : AuditEntry) : list string :=
  [RFC3339Nano (AuditEntry_Timestamp e); AuditEntry_NodeID e; AuditEntry_OperationID e;
   AuditEntry_RoleUsed e; AuditEntry_Action e; AuditEntry_TableName e;
   AuditEntry_SourceComponent e; pretty (AuditEntry_RowsAffected e);
   pretty (AuditEntry_DurationMS e); AuditEntry_PrevHash e; AuditEntry_JobID e;
   AuditEntry_QueryHash e].

Definition hash_input (e : AuditEntry) : list ascii :=
  join_with ["|"%char] (map (fun s => bytes_of s) (hashed_fields e)).

Definition byte_of (c : ascii) : Z := Z.of_N (N_of_ascii c).

Section chain.
Context `{Crypto}.

Definition CalculateHash (e : AuditEntry) : string :=
  EncodeToString (sha256_Sum256 (map byte_of (hash_input e))).

Definition SetHashChain (e : AuditEntry) (prevHash : string) : AuditEntry :=
  let e := with_hashes e prevHash (AuditEntry_EntryHash e) in
  with_hashes e prevHash (CalculateHash e).
End chain.

(** ** The repository *)

Record AuditRepository := mkAuditRepository {
  ar_nodeID : string;
  ar_hashChain : bool;
  ar_lastHash : string;
  ar_rows : list AuditEntry
}.

Inductive AuditError := ErrConstraint | ErrAppendOnly | ErrSyntax.

(** The repository of a store that was just opened on a database. *)
Definition open_audit (nodeID : string) (rows : list AuditEntry) : AuditRepository :=
  mkAuditRepository nodeID true "" rows.

Definition audit_actions : list string :=
  ["SELECT"; "INSERT"; "UPDATE"; "DELETE"; "DDL"; "AUTH"; "ADMIN"]%string.

(** The CHECK and UNIQUE constraints of [audit_log]. *)
Definition audit_row_ok (rows : list AuditEntry) (e : AuditEntry) : bool :=
  mem (AuditEntry_Action e) audit_actions &&
  (0 <=? AuditEntry_RowsAffected e)%Z && (0 <=? AuditEntry_DurationMS e)%Z &&
  negb (mem (AuditEntry_EntryHash e) (map AuditEntry_EntryHash rows)).

Section repository.
Context `{Crypto}.

(** The repository and the entry, which the call completes, and the error. *)
Definition AuditRepository_Log (r : AuditRepository) (entry : AuditEntry) (now : Time)
    : AuditRepository * AuditEntry * option AuditError :=
  let ts := if IsZero (AuditEntry_Timestamp entry) then now else AuditEntry_Timestamp entry in
  let node := if AuditEntry_NodeID entry =?= ""%string then ar_nodeID r else AuditEntry_NodeID entry in
  let entry := with_origin entry ts node (AuditEntry_OperationID entry) in
  let entry := if ar_hashChain r && (AuditEntry_EntryHash entry =?= ""%string)
               then SetHashChain entry (ar_lastHash r) else entry in
  if audit_row_ok (ar_rows r) entry then
    let entry := with_id entry (Z.of_nat (S (length (ar_rows r)))) in
    (mkAuditRepository (ar_nodeID r) (ar_hashChain r)
       (if ar_hashChain r then AuditEntry_EntryHash entry else ar_lastHash r)
       (ar_rows r ++ [entry]), entry, None)
  else (r, entry, Some ErrConstraint).

(** The loop of [VerifyChain] over the selected rows. *)
Fixpoint verify_rows (prevHash : string) (rows : list AuditEntry) : bool :=
  match rows with
  | [] => true
  | e :: rows' =>
      if AuditEntry_PrevHash e <>? prevHash then false
      else if AuditEntry_EntryHash e <>? CalculateHash e then false
      else verify_rows (AuditEntry_EntryHash e) rows'
  end.

Definition rows_between (r : AuditRepository) (from to : Z) : list AuditEntry :=
  List.filter (fun e => (from <=? AuditEntry_ID e)%Z && (AuditEntry_ID e <=? to)%Z) (ar_rows r).

Definition AuditRepository_VerifyChain (r : AuditRepository) (from to : Z) : bool :=
  verify_rows "" (rows_between r from to).
End repository.

Definition AuditRepository_GetLastHash (r : AuditRepository) : string :=
  match last (ar_rows r) with None => "" | Some e => AuditEntry_EntryHash e end.

(** The delete trigger aborts the statement when a row matches. *)
Definition AuditRepository_Purge (r : AuditRepository) (before : Time) : result AuditError Z :=
  if existsb (fun e => text_ltb (RFC3339Nano (AuditEntry_Timestamp e)) (RFC3339Nano before)) (ar_rows r)
  then Err ErrAppendOnly else Ok 0%Z.

(** *** Queries *)

Record AuditFilter := mkAuditFilter {
  Filter_NodeID : string;
  Filter_JobID : string;
  Filter_OperationID : string;
  Filter_Action : string;
  Filter_TableName : string;
  Filter_RoleUsed : string;
  Filter_Actor : string;
  Filter_After : option Time;
  Filter_Before : option Time;
  Filter_Suspicious : option bool;
  Filter_Limit : Z;
  Filter_Offset : Z
}.

(** [if filter.X != "" { query += " AND x = ?" }]; a null column equals nothing,
    and the empty text is stored as null. *)
Definition eq_clause (wanted column : string) : bool :=
  (wanted =?= ""%string) || (column =?= wanted).
Definition after_clause (wanted : option Time) (t : Time) : bool :=
  match wanted with None => true | Some a => text_leb (RFC3339Nano a) (RFC3339Nano t) end.
Definition before_clause (wanted : option Time) (t : Time) : bool :=
  match wanted with None => true | Some b => text_leb (RFC3339Nano t) (RFC3339Nano b) end.

Definition query_matches (f : AuditFilter) (e : AuditEntry) : bool :=
  eq_clause (Filter_NodeID f) (AuditEntry_NodeID e) &&
  eq_clause (Filter_JobID f) (AuditEntry_JobID e) &&
  eq_clause (Filter_OperationID f) (AuditEntry_OperationID e) &&
  eq_clause (Filter_Action f) (AuditEntry_Action e) &&
  eq_clause (Filter_TableName f) (AuditEntry_TableName e) &&
  eq_clause (Filter_RoleUsed f) (AuditEntry_RoleUsed e) &&
  eq_clause (Filter_Actor f) (AuditEntry_Actor e) &&
  after_clause (Filter_After f) (AuditEntry_Timestamp e) &&
  before_clause (Filter_Before f) (AuditEntry_Timestamp e) &&
  match Filter_Suspicious f with Some true => Flags_Suspicious (AuditEntry_Flags e) | _ => true end.

(** [LIMIT ? OFFSET ?]; an OFFSET without a LIMIT does not parse. *)
Definition limit_offset {A} (limit offset : Z) (l : list A) : result AuditError (list A) :=
  if (0 <? offset)%Z && negb (0 <? limit)%Z then Err ErrSyntax
  else
    let l := if (0 <? offset)%Z then drop (Z.to_nat offset) l else l in
    Ok (if (0 <? limit)%Z then take (Z.to_nat limit) l else l).

Definition AuditRepository_Query (r : AuditRepository) (f : AuditFilter)
    : result AuditError (list AuditEntry) :=
  limit_offset (Filter_Limit f) (Filter_Offset f) (rev (List.filter (query_matches f) (ar_rows r))).

Definition count_matches (f : AuditFilter) (e : AuditEntry) : bool :=
  eq_clause (Filter_NodeID f) (AuditEntry_NodeID e) &&
  eq_clause (Filter_JobID f) (AuditEntry_JobID e) &&
  eq_clause (Filter_Action f) (AuditEntry_Action e) &&
  after_clause (Filter_After f) (AuditEntry_Timestamp e) &&
  before_clause (Filter_Before f) (AuditEntry_Timestamp e).

Definition AuditRepository_Count (r : AuditRepository) (f : AuditFilter) : Z :=
  Z.of_nat (length (List.filter (count_matches f) (ar_rows r))).

Definition only_operation (operationID : string) : AuditFilter :=
  mkAuditFilter "" "" operationID "" "" "" "" None None None 0 0.
Definition only_job (jobID : string) : AuditFilter :=
  mkAuditFilter "" jobID "" "" "" "" "" None None None 0 0.
Definition GetByOperationID (r : AuditRepository) (operationID : string) :=
  AuditRepository_Query r (only_operation operationID).
Definition GetByJobID (r : AuditRepository) (jobID : string) :=
  AuditRepository_Query r (only_job jobID).

(** * Theorems *)

Section chain_theorems.
Context `{Crypto}.

(** The hash the chain has reached after [rows]. *)
Definition end_hash (p : string) (rows : list AuditEntry) : string :=
  match last rows with None => p | Some e => AuditEntry_EntryHash e end.

Lemma end_hash_snoc p rows e : end_hash p (rows ++ [e]) = AuditEntry_EntryHash e.
Proof. unfold end_hash. by rewrite last_snoc. Qed.

Lemma end_hash_cons p e rows : end_hash p (e :: rows) = end_hash (AuditEntry_EntryHash e) rows.
Proof. unfold end_hash. rewrite last_cons. by destruct (last rows). Qed.

Lemma verify_rows_app p a b :
  verify_rows p (a ++ b) = verify_rows p a && verify_rows (end_hash p a) b.
Proof.
  revert p. induction a as [|e a IH]; intros p; [done|]. simpl.
  case_bool_decide; [|done]. case_bool_decide; [|done]. simpl. by rewrite IH, end_hash_cons.
Qed.

Lemma verify_rows_snoc p rows e :
  verify_rows p (rows ++ [e]) = true <->
  verify_rows p rows = true /\ AuditEntry_PrevHash e = end_hash p rows /\
  AuditEntry_EntryHash e = CalculateHash e.
Proof.
  rewrite verify_rows_app, andb_true_iff. simpl.
  case_bool_decide; [|naive_solver]. case_bool_decide; naive_solver.
Qed.

Lemma CalculateHash_ne e : CalculateHash e <> ""%string.
Proof.
  intros Heq. apply (f_equal (fun s => length (bytes_of s))) in Heq. unfold CalculateHash in Heq.
  by rewrite EncodeToString_length, sha256_length in Heq.
Qed.

Lemma SetHashChain_hash e p :
  AuditEntry_PrevHash (SetHashChain e p) = p /\
  AuditEntry_EntryHash (SetHashChain e p) = CalculateHash (SetHashChain e p).
Proof. by destruct e. Qed.

Lemma CalculateHash_with_id e id : CalculateHash (with_id e id) = CalculateHash e.
Proof. by destruct e. Qed.

(** What the calls of one repository keep true. *)
Record chain_inv (r : AuditRepository) : Prop := {
  ci_on : ar_hashChain r = true;
  ci_verified : verify_rows "" (ar_rows r) = true;
  ci_last : ar_lastHash r = end_hash "" (ar_rows r);
  ci_ids : map AuditEntry_ID (ar_rows r) = seqZ 1 (Z.of_nat (length (ar_rows r)))
}.

Lemma open_audit_inv node : chain_inv (open_audit node []).
Proof. by split. Qed.

Lemma Log_rows r e now :
  (AuditRepository_Log r e now).2 = None ->
  exists e', ar_rows (AuditRepository_Log r e now).1.1 = ar_rows r ++ [e'] /\
    AuditEntry_ID e' = Z.of_nat (S (length (ar_rows r))) /\
    (ar_hashChain r = true -> ar_lastHash (AuditRepository_Log r e now).1.1 = AuditEntry_EntryHash e') /\
    (ar_hashChain r = true -> AuditEntry_EntryHash e = ""%string ->
       AuditEntry_PrevHash e' = ar_lastHash r /\ AuditEntry_EntryHash e' = CalculateHash e').
Proof.
  unfold AuditRepository_Log. destruct (audit_row_ok _ _); [|done]. intros _.
  eexists. split_and!; [done|done|by intros ->|]. intros Hon He.
  assert (forall ts node op, AuditEntry_EntryHash (with_origin e ts node op) = ""%string) as He'
    by (by destruct e).
  rewrite Hon, He'. simpl andb. cbv iota. rewrite CalculateHash_with_id.
  destruct (SetHashChain_hash (with_origin e
    (if IsZero (AuditEntry_Timestamp e) then now else AuditEntry_Timestamp e)
    (if AuditEntry_NodeID e =?= ""%string then ar_nodeID r else AuditEntry_NodeID e)
    (AuditEntry_OperationID e)) (ar_lastHash r)) as [H1 H2].
  split; [exact H1|exact H2].
Qed.

Lemma Log_failed r e now :
  (AuditRepository_Log r e now).2 <> None -> (AuditRepository_Log r e now).1.1 = r.
Proof. unfold AuditRepository_Log. by destruct (audit_row_ok _ _). Qed.

Lemma Log_hashChain r e now :
  ar_hashChain (AuditRepository_Log r e now).1.1 = ar_hashChain r.
Proof. unfold AuditRepository_Log. by destruct (audit_row_ok _ _). Qed.

Lemma seqZ_snoc n : seqZ 1 (Z.of_nat (S n)) = seqZ 1 (Z.of_nat n) ++ [Z.of_nat (S n)].
Proof.
  replace (Z.of_nat (S n)) with (Z.of_nat n + 1)%Z at 1 by lia. rewrite seqZ_app by lia.
  f_equal. unfold seqZ. simpl. f_equal. lia.
Qed.

Lemma Log_inv r e now :
  chain_inv r -> AuditEntry_EntryHash e = ""%string -> chain_inv (AuditRepository_Log r e now).1.1.
Proof.
  intros [Hon Hv Hl Hids] He.
  destruct (decide ((AuditRepository_Log r e now).2 = None)) as [Hok|Hno].
  - pose proof (Log_hashChain r e now) as Hon'.
    destruct (Log_rows r e now Hok) as (e' & Hrows & Hid & Hlast & Hh).
    destruct (Hh Hon He) as [Hp Hhash]. split.
    + by rewrite Hon'.
    + rewrite Hrows. apply verify_rows_snoc. by rewrite Hp, Hl.
    + by rewrite Hlast, Hrows, end_hash_snoc.
    + rewrite Hrows, map_app, Hids, length_app. simpl. rewrite Hid, <- seqZ_snoc. f_equal. lia.
  - rewrite Log_failed by done. by split.
Qed.

Lemma verify_rows_take p rows n : verify_rows p rows = true -> verify_rows p (take n rows) = true.
Proof.
  intros Hv. rewrite <- (take_drop n rows), verify_rows_app in Hv. by apply andb_true_iff in Hv as [? _].
Qed.

(** The keys are the positions, counted from one. *)
Lemma id_at rows i e :
  map AuditEntry_ID rows = seqZ 1 (Z.of_nat (length rows)) -> rows !! i = Some e ->
  AuditEntry_ID e = Z.of_nat (S i).
Proof.
  intros Hids Hi. pose proof (lookup_lt_Some _ _ _ Hi).
  assert (map AuditEntry_ID rows !! i = Some (AuditEntry_ID e)) as Hl
    by (change (fmap AuditEntry_ID rows !! i = Some (AuditEntry_ID e)); by rewrite list_lookup_fmap, Hi).
  rewrite Hids, lookup_seqZ in Hl. lia.
Qed.

(** The rows up to a key are a prefix of the table. *)
Lemma rows_up_to rows to k :
  map AuditEntry_ID rows = seqZ (1 + k) (Z.of_nat (length rows)) -> (0 <= k)%Z ->
  List.filter (fun e => (1 <=? AuditEntry_ID e)%Z && (AuditEntry_ID e <=? to)%Z) rows =
  take (Z.to_nat (to - k)) rows.
Proof.
  revert k. induction rows as [|e rows IH]; intros k Hids Hk; [by rewrite take_nil|].
  simpl length in Hids. rewrite seqZ_cons in Hids by lia. simpl in Hids. injection Hids as Hid Hids.
  replace (Z.pred (Z.of_nat (S (length rows)))) with (Z.of_nat (length rows)) in Hids by lia.
  replace (Z.succ (1 + k)) with (1 + (k + 1))%Z in Hids by lia.
  specialize (IH _ Hids ltac:(lia)). simpl. rewrite Hid.
  destruct (Z.leb_spec 1 (1 + k)); [|lia]. destruct (Z.leb_spec (1 + k) to); simpl.
  - replace (Z.to_nat (to - k)) with (S (Z.to_nat (to - (k + 1)))) by lia. simpl. by rewrite IH.
  - rewrite IH. replace (Z.to_nat (to - k)) with O by lia. by replace (Z.to_nat (to - (k + 1))) with O by lia.
Qed.

Definition run_log (r : AuditRepository) (calls : list (AuditEntry * Time)) : AuditRepository :=
  fold_left (fun r c => (AuditRepository_Log r c.1 c.2).1.1) calls r.

Lemma run_log_inv r calls :
  chain_inv r -> Forall (fun c => AuditEntry_EntryHash c.1 = ""%string) calls ->
  chain_inv (run_log r calls).
Proof.
  intros Hr Hc. revert r Hr. induction Hc as [|c calls Hc _ IH]; intros r Hr; [done|].
  apply IH. by apply Log_inv.
Qed.

(** The chain a repository writes verifies: after any calls of [Log] on a new
    database, some of which the constraints of the table may refuse,
    [VerifyChain] accepts the rows from the first up to any other, and the hash
    the repository continues from is that of the last row. *)
Theorem audit_chain_verifies (node : string) (calls : list (AuditEntry * Time))
    (Hnew : Forall (fun c => AuditEntry_EntryHash c.1 = ""%string) calls) (to : Z) :
  let r := run_log (open_audit node []) calls in
  AuditRepository_VerifyChain r 1 to = true /\ ar_lastHash r = AuditRepository_GetLastHash r.
Proof.
  simpl. pose proof (run_log_inv _ _ (open_audit_inv node) Hnew) as [_ Hv Hl Hids]. split; [|done].
  unfold AuditRepository_VerifyChain, rows_between.
  rewrite (rows_up_to _ _ 0); [by apply verify_rows_take|by rewrite Z.add_0_r|done].
Qed.

(** *** What the hashes protect *)

Definition bar_free (e : AuditEntry) : Prop :=
  Forall (fun s => "|"%char ∉ bytes_of s) (hashed_fields e).

Lemma hash_input_inj e e' :
  bar_free e -> bar_free e' -> hash_input e = hash_input e' -> hashed_fields e = hashed_fields e'.
Proof.
  assert (forall e, bar_free e ->
    split_on (fun c => c =?= "|"%char) (hash_input e) = map (fun s => bytes_of s) (hashed_fields e)) as Hsplit.
  { intros f Hf. apply split_join; [by apply bool_decide_true|done|].
    apply Forall_map. eapply Forall_impl; [apply Hf|]. simpl. intros s Hs.
    apply Forall_forall. intros c Hc. apply bool_decide_false. intros ->. done. }
  intros He He' Heq. apply (inj (fmap String.list_ascii_of_string)).
  change (map (fun s => bytes_of s) (hashed_fields e) = map (fun s => bytes_of s) (hashed_fields e')).
  by rewrite <- !Hsplit, Heq.
Qed.

(** Two inputs of SHA-256 with one digest. *)
Definition collision (e e' : AuditEntry) : Prop :=
  hash_input e <> hash_input e' /\
  sha256_Sum256 (map byte_of (hash_input e)) = sha256_Sum256 (map byte_of (hash_input e')).

Lemma same_hash e e' :
  CalculateHash e = CalculateHash e' -> hash_input e = hash_input e' \/ collision e e'.
Proof.
  intros Heq. destruct (decide (hash_input e = hash_input e')) as [?|Hne]; [by left|right].
  split; [done|]. apply EncodeToString_inj in Heq; [done|apply sha256_is_bytes..].
Qed.

Lemma end_hash_empty rows :
  verify_rows "" rows = true -> end_hash "" rows = ""%string -> rows = [].
Proof.
  destruct rows as [|e rows _] using rev_ind; [done|]. rewrite verify_rows_snoc, end_hash_snoc.
  intros (_ & _ & ->) Hne. by apply CalculateHash_ne in Hne.
Qed.

(** C10: the log is tamper evident as far as its fields have no bars: two logs that both
    verify from their first rows, end in the same hash and have no [|] in any hashed field
    of any row, have the same hashed fields in every row, or show a collision of SHA-256.
    (The fields are joined with bars: with one in a field, [audit_fields_shift].) *)
Theorem audit_tamper_evident (rows rows' : list AuditEntry)
    (Hv : verify_rows "" rows = true) (Hv' : verify_rows "" rows' = true)
    (Hbar : Forall bar_free rows) (Hbar' : Forall bar_free rows')
    (Hend : end_hash "" rows = end_hash "" rows') :
  map hashed_fields rows = map hashed_fields rows' \/
  exists e e', e ∈ rows /\ e' ∈ rows' /\ collision e e'.
Proof.
  revert rows' Hv' Hbar' Hend.
  induction rows as [|e rows IH] using rev_ind; intros rows' Hv' Hbar' Hend.
  - left. symmetry in Hend. apply end_hash_empty in Hend; [|done]. by subst.
  - destruct rows' as [|e' rows' _] using rev_ind.
    { exfalso. apply end_hash_empty in Hend; [|done]. by destruct rows. }
    rewrite verify_rows_snoc in Hv, Hv'. destruct Hv as (Hv & Hp & Hh), Hv' as (Hv' & Hp' & Hh').
    apply Forall_app in Hbar as [Hbar [He _]%Forall_cons], Hbar' as [Hbar' [He' _]%Forall_cons].
    rewrite !end_hash_snoc, Hh, Hh' in Hend.
    destruct (same_hash _ _ Hend) as [Hin|Hcol]; [|right; exists e, e'; set_solver].
    apply hash_input_inj in Hin; [|done..].
    assert (end_hash "" rows = end_hash "" rows') as Hprev.
    { rewrite <- Hp, <- Hp'. unfold hashed_fields in Hin. by injection Hin. }
    destruct (IH Hv Hbar rows' Hv' Hbar' Hprev) as [Hmap|(f & f' & ? & ? & ?)].
    + left. by rewrite !map_app, Hmap; simpl; rewrite Hin.
    + right. exists f, f'. set_solver.
Qed.

(** *** What they do not protect *)

(** Metadata and flags of a row can be changed without a trace. *)
Theorem audit_notes_unprotected p a e b m f :
  verify_rows p (a ++ e :: b) = true -> verify_rows p (a ++ with_notes e m f :: b) = true.
Proof. by rewrite !verify_rows_app. Qed.

(** A bar in a field moves the borders: two different entries, one hash. *)
Theorem audit_fields_shift :
  let e node op := mkAuditEntry 0 0 node "" op "r" "SELECT" "" "" "" 0 0 "" "" [] "" "" no_flags in
  CalculateHash (e "a|b" "c")%string = CalculateHash (e "a" "b|c")%string.
Proof. reflexivity. Qed.

(** A range that does not begin with the first row does not verify, and neither
    does a log that a store continued after it was opened again: the repository
    starts from the empty hash. *)
Theorem audit_chain_restarts (r : AuditRepository) (Hr : chain_inv r) (Hne : ar_rows r <> []) :
  (forall from to, (2 <= from <= to)%Z -> (from <= Z.of_nat (length (ar_rows r)))%Z ->
     AuditRepository_VerifyChain r from to = false) /\
  (forall node e now, AuditEntry_EntryHash e = ""%string ->
     let '(r', _, err) := AuditRepository_Log (open_audit node (ar_rows r)) e now in
     err = None ->
     AuditRepository_VerifyChain r' 1 (Z.of_nat (length (ar_rows r'))) = false).
Proof.
  destruct Hr as [_ Hv _ Hids]. split.
  - intros from to Hft Hlen. set (n := Z.to_nat (from - 1)).
    destruct (lookup_lt_is_Some_2 (ar_rows r) n ltac:(lia)) as [e1 He1].
    pose proof (take_drop_middle _ _ _ He1) as Hsplit.
    destruct (exists_last (l := take n (ar_rows r))) as (a & e0 & Ha).
    { intros Hnil. apply (f_equal length) in Hnil. rewrite length_take in Hnil. simpl in Hnil. lia. }
    rewrite <- Hsplit, Ha, verify_rows_app, andb_true_iff, verify_rows_snoc, end_hash_snoc in Hv.
    destruct Hv as [(_ & _ & Hh0) Hv]. simpl in Hv. case_bool_decide as Hp1; [|done].
    unfold AuditRepository_VerifyChain, rows_between. rewrite <- Hsplit, List.filter_app.
    rewrite (filter_none _ (take n (ar_rows r))).
    2: { intros x [i Hi]%list_elem_of_lookup. pose proof (lookup_lt_Some _ _ _ Hi) as Hlt.
         rewrite length_take in Hlt. rewrite lookup_take_lt in Hi by lia.
         pose proof (id_at _ _ _ Hids Hi). destruct (Z.leb_spec from (AuditEntry_ID x)); [lia|done]. }
    simpl. rewrite (id_at _ _ _ Hids He1).
    replace ((from <=? _)%Z && (_ <=? to)%Z) with true; [|symmetry; apply andb_true_iff; split; apply Z.leb_le; lia].
    simpl. rewrite bool_decide_false; [done|]. rewrite Hp1, Hh0. apply CalculateHash_ne.
  - intros node e now He. destruct (AuditRepository_Log _ e now) as [[r' e'] err] eqn:HL. intros ->.
    pose proof (f_equal snd HL) as Hok. pose proof (Log_rows _ _ _ Hok) as (x & Hrows & Hid & _ & Hh).
    rewrite HL in Hrows. simpl in Hrows. destruct (Hh eq_refl He) as [Hp _].
    unfold AuditRepository_VerifyChain, rows_between. rewrite (rows_up_to _ _ 0); [|rewrite Z.add_0_r|done].
    + rewrite Z.sub_0_r, Nat2Z.id, take_ge by done. rewrite Hrows, verify_rows_app. simpl.
      rewrite Hp, bool_decide_false; [apply andb_false_r|]. intros Hend. by apply Hne, end_hash_empty.
    + rewrite Hrows, map_app, Hids, length_app. simpl. rewrite Hid. simpl. rewrite <- seqZ_snoc. f_equal; lia.
Qed.
End chain_theorems.

(** ** Witnesses *)

Definition example_entry (op : string) : AuditEntry := NewEntry 5 "n1" op "bibd_query" "api" "SELECT".
Definition example_log : AuditRepository :=
  @run_log toy_crypto (open_audit "n1" [])
    [(example_entry "op1", 7%Z); (example_entry "op2", 8%Z)].

Lemma example_log_inv : @chain_inv toy_crypto example_log.
Proof. apply run_log_inv; [apply open_audit_inv|by repeat constructor]. Qed.

Lemma audit_chain_verifies_witness :
  length (ar_rows example_log) = 2 /\ @AuditRepository_VerifyChain toy_crypto example_log 1 2 = true.
Proof.
  split; [by vm_compute|].
  apply (@audit_chain_verifies toy_crypto "n1"
    [(example_entry "op1", 7%Z); (example_entry "op2", 8%Z)] ltac:(by repeat constructor) 2).
Defined.

(** Two different logs, under a function that gives every text the same digest: they
    verify, end in the same hash, and what is left is a collision. *)
#[local] Program Instance constant_crypto : Crypto := {|
  sha256_Sum256 _ := repeat 0%Z 32;
  ed25519_Verify _ _ _ := true
|}.
Next Obligation. done. Qed.
Next Obligation. intros bs. apply Forall_forall. intros z Hz%list_elem_of_In%repeat_spec. subst. by vm_compute. Qed.

Definition forged_log (op : string) : AuditRepository :=
  @run_log constant_crypto (open_audit "n1" []) [(example_entry op, 7%Z)].

Lemma audit_tamper_evident_witness :
  map hashed_fields (ar_rows (forged_log "op1")) <> map hashed_fields (ar_rows (forged_log "op2")) /\
  exists e e', e ∈ ar_rows (forged_log "op1") /\ e' ∈ ar_rows (forged_log "op2") /\ @collision constant_crypto e e'.
Proof.
  assert (map hashed_fields (ar_rows (forged_log "op1")) <> map hashed_fields (ar_rows (forged_log "op2"))) as Hne
    by (vm_compute; discriminate).
  split; [exact Hne|].
  assert (forall op, op = "op1"%string \/ op = "op2"%string -> Forall bar_free (ar_rows (forged_log op))) as Hbar.
  { intros op [-> | ->]; apply (bool_decide_unpack (Forall bar_free _)); by vm_compute. }
  destruct (@audit_tamper_evident constant_crypto (ar_rows (forged_log "op1")) (ar_rows (forged_log "op2")))
    as [Heq|Hcol]; [by vm_compute|by vm_compute|apply Hbar; by left|apply Hbar; by right|by vm_compute| |exact Hcol].
  by destruct (Hne Heq).
Defined.

Lemma audit_chain_restarts_witness :
  @AuditRepository_VerifyChain toy_crypto example_log 2 2 = false.
Proof.
  apply (@audit_chain_restarts toy_crypto example_log example_log_inv); [by vm_compute|lia|by vm_compute].
Defined.
