(* ===== verification/Alerts.v ===== *)
(** * Alerts ([internal/storage/audit/alerts.go])

    The detector counts matching entries per rule and group in a sliding window
    and raises an alert when a count reaches the threshold of its rule; CEL rules
    look at one entry.  Callbacks act on some state [S] of their own.  A compiled
    CEL program is third-party code: a function from the entry's fields to the
    boolean it evaluates to, [None] for an error or a value of another type.

    Each rule that matches reads the clock once for its counter and, if it raises
    an alert, once for the alert's time stamp; alert identifiers are random.
    These are functions of the rule's position. *)
From stdpp Require Import base gmap strings list pretty sorting.
From Stdlib Require Import ZArith Lia Ascii.
From S2P Require Import Prelude GoStrings Domain RateLimit AuditLog.
Local Open Scope Z_scope.

Definition AlertSeverityLow : string := "low".
Definition AlertSeverityMedium : string := "medium".
Definition AlertSeverityHigh : string := "high".
Definition AlertSeverityCritical : string := "critical".

Record ThresholdRule := mkThresholdRule {
  Rule_Name : string;
  Rule_Description : string;
  Rule_Enabled : bool;
  Rule_Action : string;
  Rule_Table : string;
  Rule_Role : string;
  Rule_Threshold : Z;
  Rule_Window : Duration;
  Rule_GroupBy : string;
  Rule_Severity : string;
  Rule_TriggerRateLimit : bool
}.

Record CELRuleConfig := mkCELRuleConfig {
  CEL_Name : string;
  CEL_Description : string;
  CEL_Enabled : bool;
  CEL_Expression : string;
  CEL_Severity : string;
  CEL_TriggerRateLimit : bool
}.

Inductive cel_value := CelString (s : string) | CelInt (z : Z) | CelBool (b : bool).

Record CELRule := mkCELRule {
  CELRule_Config : CELRuleConfig;
  CELRule_Program : list (string * cel_value) -> option bool
}.

Record AlertConfig := mkAlertConfig {
  AlertConfig_Enabled : bool;
  AlertConfig_ThresholdRules : list ThresholdRule;
  AlertConfig_CELRules : list CELRuleConfig;
  AlertConfig_WindowDuration : Duration;
  AlertConfig_CleanupInterval : Duration
}.

(** A value of an alert's metadata; the text of a duration is left as the duration. *)
Inductive alert_note := NoteText (s : string) | NoteDuration (d : Duration).

Record Alert := mkAlert {
  Alert_ID : string;
  Alert_RuleName : string;
  Alert_Description : string;
  Alert_Severity : string;
  Alert_Timestamp : Time;
  Alert_Entry : AuditEntry;
  Alert_Count : Z;
  Alert_Threshold : Z;
  Alert_TriggerRateLimit : bool;
  Alert_Metadata : list (string * alert_note)
}.

Record alertCounter := mkAlertCounter {
  counter_counts : list Time;
  counter_threshold : Z;
  counter_window : Duration
}.

Record AlertDetector (S : Type) := mkAlertDetector {
  d_config : AlertConfig;
  d_thresholdRules : list ThresholdRule;
  d_celRules : list CELRule;
  d_counters : gmap string alertCounter;
  d_callbacks : list (Alert -> S -> S)
}.
Arguments mkAlertDetector {S}.
Arguments d_config {S}.
Arguments d_thresholdRules {S}.
Arguments d_celRules {S}.
Arguments d_counters {S}.
Arguments d_callbacks {S}.

Definition threshold_rule (name desc action table : string) (threshold : Z) (window : Duration)
    (group severity : string) : ThresholdRule :=
  mkThresholdRule name desc true action table "" threshold window group severity true.

(** CEL takes either kind of quotation mark. *)
Definition DefaultAlertConfig : AlertConfig :=
  mkAlertConfig true
    [threshold_rule "bulk_select" "Large number of SELECT queries in short time" ActionSelect ""
       100 (5 * Minute) "actor" AlertSeverityMedium;
     threshold_rule "bulk_delete" "Large number of DELETE queries in short time" ActionDelete ""
       50 (5 * Minute) "actor" AlertSeverityHigh;
     threshold_rule "ddl_operations" "Schema modification attempts" ActionDDL ""
       5 (1 * Minute) "role" AlertSeverityCritical;
     threshold_rule "auth_failures" "Multiple failed authentication attempts" "" "audit_log"
       10 (5 * Minute) "actor" AlertSeverityHigh]
    [mkCELRuleConfig "unusual_role_access" "Admin role used for normal operations" true
       "entry.role_used == 'bibd_admin' && entry.action == 'SELECT'" AlertSeverityMedium false;
     mkCELRuleConfig "large_result_set" "Query returned unusually large number of rows" true
       "entry.rows_affected > 10000" AlertSeverityMedium true;
     mkCELRuleConfig "slow_query" "Query took unusually long to execute" true
       "entry.duration_ms > 30000" AlertSeverityLow false]
    (5 * Minute) (1 * Minute).

(** [compile] is [compileCELRule], the CEL library; [None] when it fails. *)
Fixpoint compile_rules (compile : CELRuleConfig -> option CELRule) (cfgs : list CELRuleConfig)
    : option (list CELRule) :=
  match cfgs with
  | [] => Some []
  | c :: cfgs' =>
      if negb (CEL_Enabled c) then compile_rules compile cfgs'
      else match compile c with
           | None => None
           | Some rule => (fun rules => rule :: rules) <$> compile_rules compile cfgs'
           end
  end.

Definition NewAlertDetector {S} (compile : CELRuleConfig -> option CELRule) (cfg : AlertConfig)
    : option (AlertDetector S) :=
  match compile_rules compile (AlertConfig_CELRules cfg) with
  | None => None
  | Some rules => Some (mkAlertDetector cfg (AlertConfig_ThresholdRules cfg) rules ∅ [])
  end.

Definition OnAlert {S} (d : AlertDetector S) (callback : Alert -> S -> S) : AlertDetector S :=
  mkAlertDetector (d_config d) (d_thresholdRules d) (d_celRules d) (d_counters d)
    (d_callbacks d ++ [callback]).

Definition getGroupValue (entry : AuditEntry) (groupBy : string) : string :=
  if groupBy =?= "actor"%string then AuditEntry_Actor entry
  else if groupBy =?= "node_id"%string then AuditEntry_NodeID entry
  else if groupBy =?= "role"%string then AuditEntry_RoleUsed entry
  else if groupBy =?= "table"%string then AuditEntry_TableName entry
  else if groupBy =?= "action"%string then AuditEntry_Action entry
  else if groupBy =?= "source"%string then AuditEntry_SourceComponent entry
  else "global".

(** The guards of [checkThresholdRule], with the one of its caller. *)
Definition rule_matches (rule : ThresholdRule) (entry : AuditEntry) : bool :=
  Rule_Enabled rule &&
  negb ((Rule_Action rule <>? ""%string) && (Rule_Action rule <>? AuditEntry_Action entry)) &&
  negb ((Rule_Table rule <>? ""%string) && (Rule_Table rule <>? AuditEntry_TableName entry)) &&
  negb ((Rule_Role rule <>? ""%string) && (Rule_Role rule <>? AuditEntry_RoleUsed entry)).

Definition counterKey (rule : ThresholdRule) (entry : AuditEntry) : string :=
  (Rule_Name rule +:+ ":" +:+ Rule_GroupBy rule +:+ ":" +:+ getGroupValue entry (Rule_GroupBy rule))%string.

Definition recent (cutoff : Time) (counts : list Time) : list Time :=
  List.filter (fun t => After t cutoff) counts.

(** The new counters and the count. *)
Definition incrementCounter (counters : gmap string alertCounter) (key : string) (threshold : Z)
    (window : Duration) (now : Time) : gmap string alertCounter * Z :=
  let counter := default (mkAlertCounter [] threshold window) (counters !! key) in
  let counts := recent (Add now (- window)) (counter_counts counter) ++ [now] in
  (<[key := mkAlertCounter counts (counter_threshold counter) (counter_window counter)]> counters,
   Z.of_nat (length counts)).

Definition threshold_alert (rule : ThresholdRule) (entry : AuditEntry) (count : Z) (id : string)
    (stamp : Time) : Alert :=
  mkAlert id (Rule_Name rule) (Rule_Description rule) (Rule_Severity rule) stamp entry count
    (Rule_Threshold rule) (Rule_TriggerRateLimit rule)
    [("group_by", NoteText (Rule_GroupBy rule));
     ("group_value", NoteText (getGroupValue entry (Rule_GroupBy rule)));
     ("window", NoteDuration (Rule_Window rule))]%string.

Definition checkThresholdRule (counters : gmap string alertCounter) (entry : AuditEntry)
    (rule : ThresholdRule) (now stamp : Time) (id : string)
    : gmap string alertCounter * option Alert :=
  if negb (rule_matches rule entry) then (counters, None)
  else
    let '(counters, count) :=
      incrementCounter counters (counterKey rule entry) (Rule_Threshold rule) (Rule_Window rule) now in
    (counters, if Rule_Threshold rule <=? count then Some (threshold_alert rule entry count id stamp)
               else None).

(** The readings of one call of [Check]. *)
Record readings := mkReadings {
  rd_counter : nat -> Time;
  rd_stamp : nat -> Time;
  rd_id : nat -> string
}.

Fixpoint check_thresholds (counters : gmap string alertCounter) (entry : AuditEntry)
    (rules : list ThresholdRule) (i : nat) (rd : readings) : gmap string alertCounter * list Alert :=
  match rules with
  | [] => (counters, [])
  | rule :: rules' =>
      let '(counters, alert) := checkThresholdRule counters entry rule (rd_counter rd i) (rd_stamp rd i) (rd_id rd i) in
      let '(counters, alerts) := check_thresholds counters entry rules' (S i) rd in
      (counters, match alert with Some a => a :: alerts | None => alerts end)
  end.

Definition entry_map (entry : AuditEntry) : list (string * cel_value) :=
  [("node_id", CelString (AuditEntry_NodeID entry)); ("job_id", CelString (AuditEntry_JobID entry));
   ("operation_id", CelString (AuditEntry_OperationID entry));
   ("role_used", CelString (AuditEntry_RoleUsed entry)); ("action", CelString (AuditEntry_Action entry));
   ("table_name", CelString (AuditEntry_TableName entry));
   ("rows_affected", CelInt (AuditEntry_RowsAffected entry));
   ("duration_ms", CelInt (AuditEntry_DurationMS entry));
   ("source_component", CelString (AuditEntry_SourceComponent entry));
   ("actor", CelString (AuditEntry_Actor entry));
   ("suspicious", CelBool (Flags_Suspicious (AuditEntry_Flags entry)));
   ("break_glass", CelBool (Flags_BreakGlass (AuditEntry_Flags entry)))]%string.

Definition checkCELRule (entry : AuditEntry) (rule : CELRule) (stamp : Time) (id : string) : option Alert :=
  match CELRule_Program rule (entry_map entry) with
  | Some true =>
      let c := CELRule_Config rule in
      Some (mkAlert id (CEL_Name c) (CEL_Description c) (CEL_Severity c) stamp entry 0 0
              (CEL_TriggerRateLimit c) [("expression", NoteText (CEL_Expression c))]%string)
  | _ => None
  end.

Fixpoint check_cel (entry : AuditEntry) (rules : list CELRule) (i : nat) (rd : readings) : list Alert :=
  match rules with
  | [] => []
  | rule :: rules' =>
      let alerts := check_cel entry rules' (S i) rd in
      match checkCELRule entry rule (rd_stamp rd i) (rd_id rd i) with
      | Some a => a :: alerts
      | None => alerts
      end
  end.

Definition triggerCallbacks {S} (d : AlertDetector S) (alert : Alert) (s : S) : S :=
  fold_left (fun s callback => callback alert s) (d_callbacks d) s.

(** The alerts, the detector and the state of the callbacks. *)
Definition AlertDetector_Check {S} (d : AlertDetector S) (entry : AuditEntry) (rd : readings) (s : S)
    : list Alert * AlertDetector S * S :=
  if negb (AlertConfig_Enabled (d_config d)) then ([], d, s)
  else
    let '(counters, alerts) := check_thresholds (d_counters d) entry (d_thresholdRules d) 0 rd in
    let alerts := alerts ++ check_cel entry (d_celRules d) (length (d_thresholdRules d)) rd in
    (alerts,
     mkAlertDetector (d_config d) (d_thresholdRules d) (d_celRules d) counters (d_callbacks d),
     fold_left (fun s alert => triggerCallbacks d alert s) alerts s).

Definition has_valid (now : Time) (counter : alertCounter) : bool :=
  existsb (fun t => After t (Add now (- counter_window counter))) (counter_counts counter).

Definition AlertDetector_cleanup {S} (d : AlertDetector S) (now : Time) : AlertDetector S :=
  mkAlertDetector (d_config d) (d_thresholdRules d) (d_celRules d)
    (filter (fun p : string * alertCounter => has_valid now p.2 = true) (d_counters d)) (d_callbacks d).

Record AlertStats := mkAlertStats {
  ThresholdRulesCount : Z; CELRulesCount : Z; ActiveCounters : Z; CallbackCount : Z
}.
Definition AlertDetector_GetStats {S} (d : AlertDetector S) : AlertStats :=
  mkAlertStats (Z.of_nat (length (d_thresholdRules d))) (Z.of_nat (length (d_celRules d)))
    (Z.of_nat (size (d_counters d))) (Z.of_nat (length (d_callbacks d))).

(** * Theorems *)

(** ** What a counter remembers *)

Definition counts_of (counters : gmap string alertCounter) (key : string) : list Time :=
  default [] (counter_counts <$> counters !! key).

Lemma recent_recent c c' l : c <= c' -> recent c' (recent c l) = recent c' l.
Proof.
  intros Hc. unfold recent. rewrite filter_filter. apply List.filter_ext. intros t.
  unfold After. destruct (Z.ltb_spec c t), (Z.ltb_spec c' t); simpl; lia.
Qed.

Lemma recent_app c l l' : recent c (l ++ l') = recent c l ++ recent c l'.
Proof. apply List.filter_app. Qed.

Lemma recent_nil c c' l : c <= c' -> recent c l = [] -> recent c' l = [].
Proof. intros Hc Hn. by rewrite <- (recent_recent c c'), Hn. Qed.

(** The counter of a key after one more event. *)
Definition counted (rule : ThresholdRule) (o : option alertCounter) (now : Time) : alertCounter :=
  let counter := default (mkAlertCounter [] (Rule_Threshold rule) (Rule_Window rule)) o in
  mkAlertCounter (recent (Add now (- Rule_Window rule)) (counter_counts counter) ++ [now])
    (counter_threshold counter) (counter_window counter).

Definition count_after (counters : gmap string alertCounter) (key : string) (window now : Time) : Z :=
  1 + Z.of_nat (length (recent (Add now (- window)) (counts_of counters key))).

Lemma checkThresholdRule_eq counters entry rule now stamp id :
  checkThresholdRule counters entry rule now stamp id =
  if rule_matches rule entry then
    let key := counterKey rule entry in
    let count := count_after counters key (Rule_Window rule) now in
    (<[key := counted rule (counters !! key) now]> counters,
     if Rule_Threshold rule <=? count then Some (threshold_alert rule entry count id stamp) else None)
  else (counters, None).
Proof.
  unfold checkThresholdRule, incrementCounter, count_after, counts_of, counted.
  destruct (rule_matches rule entry); [|done]. simpl.
  replace (Z.of_nat (length _)) with (1 + Z.of_nat (length (recent (Add now (- Rule_Window rule)) (counter_counts (default (mkAlertCounter [] (Rule_Threshold rule) (Rule_Window rule)) (counters !! counterKey rule entry))))))
    by (rewrite length_app; simpl; lia).
  by destruct (counters !! _).
Qed.

(** ** Rules do not share counters *)

Fixpoint no_colon (s : string) : bool :=
  match s with
  | EmptyString => true
  | String c s' => (c <>? ":"%char) && no_colon s'
  end.

Lemma colon_split a b x y :
  no_colon a = true -> no_colon b = true ->
  (a +:+ String ":" x)%string = (b +:+ String ":" y)%string -> a = b /\ x = y.
Proof.
  revert b. induction a as [|c a IH]; intros [|d b] Ha Hb Heq; simplify_eq/=; try done.
  apply andb_true_iff in Ha as [_ Ha], Hb as [_ Hb]. destruct (IH b Ha Hb H) as [-> ->]. done.
Qed.

Definition key_of (rule : ThresholdRule) (value : string) : string :=
  (Rule_Name rule +:+ ":" +:+ Rule_GroupBy rule +:+ ":" +:+ value)%string.

Record rules_ok (rules : list ThresholdRule) : Prop := {
  ro_names : NoDup (map Rule_Name rules);
  ro_colons : Forall (fun r => no_colon (Rule_Name r) = true) rules
}.

Lemma key_of_inj rules i j r r' v v' :
  rules_ok rules -> rules !! i = Some r -> rules !! j = Some r' ->
  key_of r v = key_of r' v' -> i = j /\ r = r' /\ v = v'.
Proof.
  intros [Hnd Hc] Hi Hj Heq.
  assert (no_colon (Rule_Name r) = true /\ no_colon (Rule_Name r') = true) as [H1 H2].
  { rewrite Forall_lookup in Hc. split; by eapply Hc. }
  apply colon_split in Heq as [Hname Heq]; [|done..].
  assert (i = j) as ->.
  { apply (NoDup_lookup (Rule_Name <$> rules) i j (Rule_Name r)); [done|..]; rewrite list_lookup_fmap.
    - by rewrite Hi.
    - by rewrite Hj, Hname. }
  assert (r = r') as -> by congruence. split_and!; try done.
  change (":" +:+ v)%string with (String ":" v) in Heq. change (":" +:+ v')%string with (String ":" v') in Heq.
  clear -Heq. induction (Rule_GroupBy r') as [|c g IH]; simplify_eq/=; [done|]. by apply IH.
Qed.

(** ** One call of [Check] *)

Definition after_rule (counters : gmap string alertCounter) (entry : AuditEntry) (rule : ThresholdRule)
    (now : Time) : gmap string alertCounter :=
  if rule_matches rule entry
  then <[counterKey rule entry := counted rule (counters !! counterKey rule entry) now]> counters
  else counters.

(** The alert of a rule when its count is [count]. *)
Definition rule_alert (entry : AuditEntry) (rd : readings) (count : nat -> ThresholdRule -> Z) (i : nat)
    (rule : ThresholdRule) : list Alert :=
  if rule_matches rule entry && (Rule_Threshold rule <=? count i rule)
  then [threshold_alert rule entry (count i rule) (rd_id rd i) (rd_stamp rd i)] else [].

Definition counter_value (counters : gmap string alertCounter) (entry : AuditEntry) (rd : readings)
    (i : nat) (rule : ThresholdRule) : Z :=
  count_after counters (counterKey rule entry) (Rule_Window rule) (rd_counter rd i).

Lemma check_thresholds_cons counters entry r rules k rd :
  check_thresholds counters entry (r :: rules) k rd =
  ((check_thresholds (after_rule counters entry r (rd_counter rd k)) entry rules (S k) rd).1,
   rule_alert entry rd (counter_value counters entry rd) k r ++
   (check_thresholds (after_rule counters entry r (rd_counter rd k)) entry rules (S k) rd).2).
Proof.
  cbn [check_thresholds]. rewrite checkThresholdRule_eq. unfold after_rule, rule_alert, counter_value.
  destruct (rule_matches r entry); simpl; destruct (check_thresholds _ _ rules _ _); simpl; [|done].
  by destruct (_ <=? _).
Qed.

Lemma after_rule_other counters entry r now key :
  counterKey r entry <> key -> after_rule counters entry r now !! key = counters !! key.
Proof. intros. unfold after_rule. destruct (rule_matches r entry); [|done]. by rewrite lookup_insert_ne. Qed.

Lemma check_thresholds_other counters entry rules k rd key :
  (forall r, r ∈ rules -> counterKey r entry <> key) ->
  (check_thresholds counters entry rules k rd).1 !! key = counters !! key.
Proof.
  revert counters k. induction rules as [|r rules IH]; intros counters k Hne; [done|].
  rewrite check_thresholds_cons. simpl. rewrite IH by (intros; apply Hne; set_solver).
  apply after_rule_other, Hne. set_solver.
Qed.

(** No two rules count an entry under the same key. *)
Definition keys_apart (entry : AuditEntry) (rules : list ThresholdRule) : Prop :=
  NoDup (map (fun r => counterKey r entry) rules).

Lemma keys_apart_cons entry r rules :
  keys_apart entry (r :: rules) ->
  (forall r', r' ∈ rules -> counterKey r' entry <> counterKey r entry) /\ keys_apart entry rules.
Proof.
  unfold keys_apart. simpl. intros [Hn Hnd]%NoDup_cons. split; [|done].
  intros r' Hr' Heq. apply Hn. rewrite <- Heq. by apply (list_elem_of_fmap_2 (fun r => counterKey r entry)).
Qed.

Lemma check_thresholds_own counters entry rules k rd i rule :
  keys_apart entry rules -> rules !! i = Some rule -> rule_matches rule entry = true ->
  (check_thresholds counters entry rules k rd).1 !! counterKey rule entry =
  Some (counted rule (counters !! counterKey rule entry) (rd_counter rd (k + i)%nat)).
Proof.
  revert counters k i. induction rules as [|r rules IH]; intros counters k i Hap Hi Hm; [done|].
  apply keys_apart_cons in Hap as [Hne Hap]. rewrite check_thresholds_cons. simpl.
  destruct i as [|i]; simplify_eq/=.
  - rewrite check_thresholds_other by done. unfold after_rule.
    by rewrite Hm, lookup_insert_eq, Nat.add_0_r.
  - rewrite (IH _ _ i) by done. rewrite after_rule_other by (apply not_eq_sym, Hne; by eapply list_elem_of_lookup_2).
    by replace (S k + i)%nat with (k + S i)%nat by lia.
Qed.

Lemma check_thresholds_unmatched counters entry rules k rd i rule :
  keys_apart entry rules -> rules !! i = Some rule -> rule_matches rule entry = false ->
  (check_thresholds counters entry rules k rd).1 !! counterKey rule entry = counters !! counterKey rule entry.
Proof.
  revert counters k i. induction rules as [|r rules IH]; intros counters k i Hap Hi Hm; [done|].
  apply keys_apart_cons in Hap as [Hne Hap]. rewrite check_thresholds_cons. simpl.
  destruct i as [|i]; simplify_eq/=.
  - rewrite check_thresholds_other by done. unfold after_rule. by rewrite Hm.
  - rewrite (IH _ _ i) by done. apply after_rule_other, not_eq_sym, Hne. by eapply list_elem_of_lookup_2.
Qed.

Lemma counter_value_other counters entry r rd now i rule :
  counterKey rule entry <> counterKey r entry ->
  counter_value (after_rule counters entry r now) entry rd i rule = counter_value counters entry rd i rule.
Proof.
  intros Hne. unfold counter_value, count_after, counts_of. by rewrite after_rule_other.
Qed.

Lemma check_thresholds_alerts counters entry rules k rd :
  keys_apart entry rules ->
  (check_thresholds counters entry rules k rd).2 =
  concat (imap (fun j => rule_alert entry rd (counter_value counters entry rd) (k + j)%nat) rules).
Proof.
  revert counters k. induction rules as [|r rules IH]; intros counters k Hap; [done|].
  apply keys_apart_cons in Hap as [Hne Hap]. rewrite check_thresholds_cons. simpl.
  rewrite IH by done. rewrite Nat.add_0_r. f_equal. f_equal. apply imap_ext. intros j r' Hr'. simpl.
  replace (k + S j)%nat with (S (k + j)) by lia. unfold rule_alert. simpl.
  rewrite counter_value_other; [done|]. apply Hne. by eapply list_elem_of_lookup_2.
Qed.

(** ** Runs of a detector *)

Inductive detector_op :=
| OpCheck (entry : AuditEntry) (rd : readings)
| OpCleanup (now : Time).

Section run.
Context {S : Type} (cfg : AlertConfig) (Henabled : AlertConfig_Enabled cfg = true).
Context (Hrules : rules_ok (AlertConfig_ThresholdRules cfg)).
Local Abbreviation rules := (AlertConfig_ThresholdRules cfg).

Definition detector_step (d : AlertDetector S * S) (op : detector_op) : AlertDetector S * S :=
  match op with
  | OpCheck entry rd => let '(_, d', s') := AlertDetector_Check d.1 entry rd d.2 in (d', s')
  | OpCleanup now => (AlertDetector_cleanup d.1 now, d.2)
  end.

(** The times a rule read for the entries of a group it has seen. *)
Definition rule_times (i : nat) (rule : ThresholdRule) (value : string) (ops : list detector_op) : list Time :=
  omap (fun op => match op with
    | OpCheck entry rd =>
        if rule_matches rule entry && (getGroupValue entry (Rule_GroupBy rule) =?= value)
        then Some (rd_counter rd i) else None
    | OpCleanup _ => None
    end) ops.

(** The readings of an operation lie between two instants. *)
Definition reads_between (lo hi : Time) (op : detector_op) : Prop :=
  match op with
  | OpCheck _ rd => forall i, lo <= rd_counter rd i <= hi
  | OpCleanup now => lo <= now <= hi
  end.

(** The clock does not go back from one operation to the next. *)
Fixpoint clock_ok (last : Time) (ops : list detector_op) : Prop :=
  match ops with
  | [] => True
  | op :: ops' => exists next, last <= next /\ reads_between last next op /\ clock_ok next ops'
  end.

(** What the counters remember of the past is what a later window can see. *)
Definition counters_inv (counters : gmap string alertCounter) (ops : list detector_op) (last : Time) : Prop :=
  forall i rule value, rules !! i = Some rule ->
    (forall cutoff, last - Rule_Window rule <= cutoff ->
       recent cutoff (counts_of counters (key_of rule value)) =
       recent cutoff (rule_times i rule value ops)) /\
    (forall counter, counters !! key_of rule value = Some counter ->
       counter_window counter = Rule_Window rule).

Lemma rules_apart entry : keys_apart entry rules.
Proof.
  apply NoDup_alt. intros i j key Hi Hj.
  change (map _ rules) with ((fun r => counterKey r entry) <$> rules) in Hi, Hj.
  rewrite list_lookup_fmap in Hi, Hj.
  destruct (rules !! i) as [r|] eqn:Hri, (rules !! j) as [r'|] eqn:Hrj; simpl in *; try done.
  assert (counterKey r entry = counterKey r' entry) as Hk by congruence.
  by destruct (key_of_inj rules i j r r' _ _ Hrules Hri Hrj Hk) as [-> _].
Qed.

Lemma counts_of_own counters entry k rd i rule :
  rules !! i = Some rule -> rule_matches rule entry = true ->
  counts_of (check_thresholds counters entry rules k rd).1 (counterKey rule entry) =
  recent (Add (rd_counter rd (k + i)%nat) (- Rule_Window rule)) (counts_of counters (counterKey rule entry))
  ++ [rd_counter rd (k + i)%nat].
Proof.
  intros Hi Hm. unfold counts_of at 1. rewrite (check_thresholds_own _ _ _ _ _ i) by (done || apply rules_apart).
  simpl. unfold counted, counts_of. by destruct (counters !! _).
Qed.

(** A rule that does not count the entry under a key leaves the key alone. *)
Lemma lookup_not_own counters entry k rd i rule value :
  rules !! i = Some rule ->
  rule_matches rule entry && (getGroupValue entry (Rule_GroupBy rule) =?= value) = false ->
  (check_thresholds counters entry rules k rd).1 !! key_of rule value = counters !! key_of rule value.
Proof.
  intros Hi Hm. destruct (decide (getGroupValue entry (Rule_GroupBy rule) = value)) as [<-|Hv].
  - rewrite bool_decide_true, andb_true_r in Hm by done.
    by apply (check_thresholds_unmatched _ _ _ _ _ i), Hm; [apply rules_apart|].
  - apply check_thresholds_other. intros r [j Hj]%list_elem_of_lookup Hk.
    by destruct (key_of_inj rules j i r rule _ _ Hrules Hj Hi Hk) as (_ & -> & ?).
Qed.

Lemma rule_times_snoc i rule value ops op :
  rule_times i rule value (ops ++ [op]) = rule_times i rule value ops ++ rule_times i rule value [op].
Proof. unfold rule_times. by rewrite omap_app. Qed.

Lemma check_inv counters ops entry rd last next :
  counters_inv counters ops last -> reads_between last next (OpCheck entry rd) -> last <= next ->
  counters_inv (check_thresholds counters entry rules 0 rd).1 (ops ++ [OpCheck entry rd]) next.
Proof.
  intros Hinv Hrd Hln i rule value Hi. destruct (Hinv i rule value Hi) as [Hc Hw]. simpl in Hrd.
  specialize (Hrd i). rewrite rule_times_snoc. unfold rule_times at 2. simpl.
  destruct (rule_matches rule entry && _) eqn:Hm.
  - apply andb_true_iff in Hm as [Hm Hv]. apply bool_decide_eq_true in Hv as <-. split.
    + intros cutoff Hcut. change (key_of rule _) with (counterKey rule entry).
      rewrite (counts_of_own _ _ _ _ i), !recent_app by done. cbn [Nat.add]. f_equal.
      rewrite recent_recent by (unfold Add; lia). apply Hc. lia.
    + intros counter Hl. change (key_of rule _) with (counterKey rule entry) in *.
      rewrite (check_thresholds_own _ _ _ _ _ i) in Hl by (done || apply rules_apart). simplify_eq/=.
      destruct (counters !! counterKey rule entry) eqn:Hl; [|done]. simpl. by apply Hw.
  - rewrite app_nil_r. unfold counts_of. rewrite (lookup_not_own _ _ _ _ i) by done. split; [|done].
    intros cutoff Hcut. apply Hc. lia.
Qed.

Lemma cleanup_inv counters ops now last next :
  counters_inv counters ops last -> last <= now <= next ->
  counters_inv (filter (fun p : string * alertCounter => has_valid now p.2 = true) counters)
    (ops ++ [OpCleanup now]) next.
Proof.
  intros Hinv Hn i rule value Hi. destruct (Hinv i rule value Hi) as [Hc Hw].
  rewrite rule_times_snoc. unfold rule_times at 2. simpl. rewrite app_nil_r. split.
  - intros cutoff Hcut. rewrite <- Hc by lia. unfold counts_of.
    destruct (filter _ counters !! key_of rule value) as [counter|] eqn:Hf.
    + apply map_lookup_filter_Some in Hf as [-> _]. done.
    + apply map_lookup_filter_None in Hf as [->|Hf]; [done|].
      destruct (counters !! key_of rule value) as [counter|] eqn:Hl; [|done]. simpl.
      specialize (Hf counter eq_refl). symmetry. apply (recent_nil (Add now (- Rule_Window rule))); [unfold Add; lia|].
      apply filter_none. intros t Ht. apply not_true_is_false. intros Ha. apply Hf. simpl.
      unfold has_valid. apply existsb_exists. exists t. rewrite (Hw counter) by done. by rewrite <- list_elem_of_In.
  - intros counter [Hl _]%map_lookup_filter_Some. by apply Hw.
Qed.

Definition detector_ok (d : AlertDetector S) (ops : list detector_op) (last : Time) : Prop :=
  d_config d = cfg /\ d_thresholdRules d = rules /\ counters_inv (d_counters d) ops last.

Lemma detector_step_ok d s ops op last next :
  detector_ok d ops last -> last <= next -> reads_between last next op ->
  detector_ok (detector_step (d, s) op).1 (ops ++ [op]) next.
Proof.
  intros (Hcfg & Hr & Hinv) Hln Hrd. destruct op as [entry rd|now]; simpl.
  - unfold AlertDetector_Check. rewrite Hcfg, Henabled. simpl.
    destruct (check_thresholds (d_counters d) entry (d_thresholdRules d) 0 rd) as [c al] eqn:Hc. simpl.
    split_and!; [done|done|]. simpl. replace c with (check_thresholds (d_counters d) entry rules 0 rd).1
      by (by rewrite <- Hr, Hc). by eapply check_inv.
  - split_and!; [done|done|]. by eapply cleanup_inv.
Qed.

(** A run leaves a state whose counters describe it, at any instant after it. *)
Lemma run_ok ops later d s past last :
  detector_ok d past last -> clock_ok last (ops ++ later) ->
  exists last', detector_ok (fold_left detector_step ops (d, s)).1 (past ++ ops) last' /\
    clock_ok last' later.
Proof.
  revert d s past last. induction ops as [|op ops IH]; intros d s past last Hd Hclock.
  - exists last. by rewrite app_nil_r.
  - destruct Hclock as (next & Hln & Hrd & Hclock). simpl.
    pose proof (detector_step_ok d s past op last next Hd Hln Hrd) as Hd'.
    destruct (detector_step (d, s) op) as [d' s'].
    destruct (IH d' s' _ next Hd' Hclock) as (last' & Hok & Hl). exists last'.
    by rewrite <- app_assoc in Hok.
Qed.

Lemma new_detector_ok compile d last :
  NewAlertDetector compile cfg = Some d -> detector_ok d [] last.
Proof.
  unfold NewAlertDetector. destruct (compile_rules _ _); [|done]. intros [= <-].
  split_and!; [done|done|]. intros i rule value _. unfold counts_of. simpl. rewrite lookup_empty. done.
Qed.

(** The number of entries of the rule's group in the window that ends now. *)
Definition window_count (ops : list detector_op) (entry : AuditEntry) (rd : readings) (i : nat)
    (rule : ThresholdRule) : Z :=
  1 + Z.of_nat (length (recent (Add (rd_counter rd i) (- Rule_Window rule))
                          (rule_times i rule (getGroupValue entry (Rule_GroupBy rule)) ops))).

End run.

(** ** Witnesses and limits *)

Definition still (t : Time) : readings := mkReadings (fun _ => t) (fun _ => t) (fun _ => ""%string).
Definition ddl (t : Time) : AuditEntry := mkAuditEntry 0 t "n" "" "o" "r" "DDL" "" "" "" 0 0 "" "a" [] "" "" no_flags.

Lemma DefaultAlertConfig_ok : rules_ok (AlertConfig_ThresholdRules DefaultAlertConfig).
Proof. split; [|by repeat constructor]. apply (bool_decide_unpack (NoDup _)). by vm_compute. Qed.

Definition no_cel : CELRuleConfig -> option CELRule := fun c => Some (mkCELRule c (fun _ => None)).

