(* ===== verification/GoRegexp.v ===== *)
(** * Regular expressions ([regexp] of the Go library)

    A backtracking matcher for the patterns the sources use.  Go reports the
    leftmost match and, among those, the one a backtracking search with greedy
    repetitions finds first; this is that search.  It works on bytes: the classes
    the sources use ([\s], [\w], [\d], a negated quotation mark) treat the bytes
    of a longer UTF-8 sequence alike, so that matching by bytes and by code points
    gives the same spans.  Under [(?i)] an ASCII letter matches both cases, and
    [k] and [s] match the two further letters Unicode folds to them. *)
From stdpp Require Import base strings list.
From Stdlib Require Import ZArith Lia Ascii.
From S2P Require Import Prelude GoStrings.

Inductive regex :=
| REmpty
| RByte (p : ascii -> bool)
| RSeq (a b : regex)
| RAlt (a b : regex)
| RStar (a : regex)
| RGroup (n : nat) (a : regex)
| RBoundary
| REnd.

Record rstate := mkRState {
  rs_pos : nat;
  rs_prev : option ascii;
  rs_rest : list ascii;
  rs_caps : list (nat * (nat * nat))
}.

Definition word_at (o : option ascii) : bool := match o with Some c => is_word c | None => false end.

(** The state after a match that [k] accepts. *)
Fixpoint rmatch (r : regex) (st : rstate) (k : rstate -> option rstate) : option rstate :=
  match r with
  | REmpty => k st
  | RByte p =>
      match rs_rest st with
      | [] => None
      | c :: rest => if p c then k (mkRState (S (rs_pos st)) (Some c) rest (rs_caps st)) else None
      end
  | RSeq a b => rmatch a st (fun st' => rmatch b st' k)
  | RAlt a b => match rmatch a st k with Some x => Some x | None => rmatch b st k end
  | RStar a =>
      (fix loop (fuel : nat) (st : rstate) : option rstate :=
         match fuel with
         | O => k st
         | S fuel' =>
             match rmatch a st (fun st' => if (rs_pos st <? rs_pos st')%nat then loop fuel' st' else None) with
             | Some x => Some x
             | None => k st
             end
         end) (length (rs_rest st)) st
  | RGroup n a =>
      rmatch a st (fun st' => k (mkRState (rs_pos st') (rs_prev st') (rs_rest st')
                                  ((n, (rs_pos st, rs_pos st')) :: rs_caps st')))
  | RBoundary => if xorb (word_at (rs_prev st)) (word_at (head (rs_rest st))) then k st else None
  | REnd => match rs_rest st with [] => k st | _ => None end
  end.

(** A match: its start, its end and the spans of its groups. *)
Record rmatched := mkMatched {
  m_start : nat;
  m_end : nat;
  m_caps : list (nat * (nat * nat))
}.

(** The leftmost match in [rest], which starts at offset [pos]. *)
Fixpoint rfind (r : regex) (pos : nat) (prev : option ascii) (rest : list ascii) : option rmatched :=
  match rmatch r (mkRState pos prev rest []) Some with
  | Some st => Some (mkMatched pos (rs_pos st) (rs_caps st))
  | None =>
      match rest with
      | [] => None
      | c :: rest' => rfind r (S pos) (Some c) rest'
      end
  end.

Definition before (l : list ascii) (pos : nat) : option ascii :=
  match pos with O => None | S p => l !! p end.

(** [FindAll]: each search starts where the last match ended.  No pattern of the
    sources matches the empty text, so [length l] searches are enough. *)
Fixpoint rfind_all (fuel : nat) (r : regex) (l : list ascii) (pos : nat) : list rmatched :=
  match fuel with
  | O => []
  | S fuel' =>
      match rfind r pos (before l pos) (drop pos l) with
      | None => []
      | Some m => m :: rfind_all fuel' r l (m_end m)
      end
  end.

Definition FindAll (r : regex) (l : list ascii) : list rmatched := rfind_all (S (length l)) r l 0.
Definition Find (r : regex) (l : list ascii) : option rmatched := rfind r 0 None l.
Definition MatchRegexp (r : regex) (l : list ascii) : bool :=
  match Find r l with Some _ => true | None => false end.

Definition slice (l : list ascii) (span : nat * nat) : list ascii := take (span.2 - span.1) (drop span.1 l).
Fixpoint lookup_span (n : nat) (caps : list (nat * (nat * nat))) : option (nat * nat) :=
  match caps with
  | [] => None
  | (k, span) :: caps' => if (k =? n)%nat then Some span else lookup_span n caps'
  end.
(** The text of group [n], empty when it did not take part. *)
Definition group (l : list ascii) (m : rmatched) (n : nat) : list ascii :=
  match lookup_span n (m_caps m) with Some span => slice l span | None => [] end.

(** [ReplaceAllString], with the replacement as a function of the match. *)
Fixpoint replace_from (l : list ascii) (pos : nat) (ms : list rmatched) (f : rmatched -> list ascii)
    : list ascii :=
  match ms with
  | [] => drop pos l
  | m :: ms' => slice l (pos, m_start m) ++ f m ++ replace_from l (m_end m) ms' f
  end.
Definition ReplaceAll (r : regex) (l : list ascii) (f : rmatched -> list ascii) : list ascii :=
  replace_from l 0 (FindAll r l) f.

(** ** Building blocks *)

(** [\s]: tab, newline, form feed, carriage return, space. *)
Definition re_space (c : ascii) : bool :=
  mem (N_of_ascii c) [9; 10; 12; 13; 32]%N.
Definition rplus (r : regex) : regex := RSeq r (RStar r).
Definition ropt (r : regex) : regex := RAlt r REmpty.
Definition rbyte (c : ascii) : regex := RByte (fun d => d =?= c).
Definition rnot (cs : list ascii) : regex := RByte (fun d => negb (mem d cs)).
Definition rspaces : regex := RStar (RByte re_space).
Definition rspaces1 : regex := rplus (RByte re_space).
Fixpoint rlit (l : list ascii) : regex :=
  match l with [] => REmpty | c :: l' => RSeq (rbyte c) (rlit l') end.

(** A letter under [(?i)]. *)
Definition rfold (c : ascii) : regex :=
  let either := RByte (fun d => (d =?= upper_byte c) || (d =?= lower_byte c)) in
  if lower_byte c =?= "k"%char then
    RAlt either (rlit [ascii_of_N 226; ascii_of_N 132; ascii_of_N 170])
  else if lower_byte c =?= "s"%char then RAlt either (rlit [ascii_of_N 197; ascii_of_N 191])
  else either.
Fixpoint rword (l : list ascii) : regex :=
  match l with [] => REmpty | c :: l' => RSeq (rfold c) (rword l') end.
Definition rkeyword (s : string) : regex := rword (bytes_of s).

(** ** Theorems *)

(** A match of a state is an extension of it: what was consumed is between the
    two positions. *)
Definition extends (st st' : rstate) : Prop :=
  exists a, rs_rest st = a ++ rs_rest st' /\ rs_pos st' = rs_pos st + length a.

Lemma extends_refl st : extends st st.
Proof. exists []. split; [done|simpl; lia]. Qed.

Lemma extends_trans a b c : extends a b -> extends b c -> extends a c.
Proof.
  intros (x & Hx & Hx') (y & Hy & Hy'). exists (x ++ y). rewrite Hx, Hy, app_assoc, length_app. split; [done|lia].
Qed.

Lemma rmatch_extends r st k st' :
  rmatch r st k = Some st' -> exists mid, extends st mid /\ k mid = Some st'.
Proof.
  revert st k st'. induction r as [|p|a IHa b IHb|a IHa b IHb|a IHa|n a IHa| |]; intros st k st' Hm; simpl in Hm.
  - exists st. split; [apply extends_refl|done].
  - destruct (rs_rest st) as [|c rest] eqn:Hr; [done|]. destruct (p c); [|done].
    eexists. split; [|done]. exists [c]. simpl. rewrite Hr. split; [done|lia].
  - apply IHa in Hm as (mid & H1 & Hm). apply IHb in Hm as (mid' & H2 & Hm).
    exists mid'. split; [by eapply extends_trans|done].
  - destruct (rmatch a st k) eqn:Ha; [|by apply IHb]. simplify_eq. by apply IHa.
  - revert Hm. generalize (length (rs_rest st)) as fuel. intros fuel. revert st.
    induction fuel as [|fuel IHf]; intros st Hm; [exists st; split; [apply extends_refl|done]|].
    match type of Hm with match ?e with _ => _ end = _ => destruct e eqn:He end.
    + simplify_eq. apply IHa in He as (mid & H1 & He). destruct (_ <? _)%nat; [|done].
      apply IHf in He as (mid' & H2 & He). exists mid'. split; [by eapply extends_trans|done].
    + exists st. split; [apply extends_refl|done].
  - apply IHa in Hm as (mid & (x & Hx & Hx') & Hm). eexists. split; [|done]. by exists x.
  - destruct (xorb _ _); [|done]. exists st. split; [apply extends_refl|done].
  - destruct (rs_rest st) eqn:Hr; [|done]. exists st. split; [apply extends_refl|done].
Qed.

(** A match lies in the text. *)
Lemma rfind_bounds r pos prev rest m :
  rfind r pos prev rest = Some m -> pos <= m_start m <= m_end m /\ m_end m <= pos + length rest.
Proof.
  revert pos prev. induction rest as [|c rest IH]; intros pos prev Hf; simpl in Hf;
    destruct (rmatch _ _ _) as [st|] eqn:Hm; simplify_eq/=.
  - apply rmatch_extends in Hm as (mid & (a & Ha & Hp) & [= ->]). simpl in *.
    apply (f_equal length) in Ha. rewrite length_app in Ha. simpl in Ha. lia.
  - apply rmatch_extends in Hm as (mid & (a & Ha & Hp) & [= ->]). simpl in *.
    apply (f_equal length) in Ha. rewrite length_app in Ha. simpl in Ha. lia.
  - apply IH in Hf. lia.
Qed.

(** Without a match nothing is replaced. *)
Lemma ReplaceAll_no_match r l f : MatchRegexp r l = false -> ReplaceAll r l f = l.
Proof.
  unfold MatchRegexp, ReplaceAll, FindAll, Find. cbn [rfind_all before]. rewrite drop_0.
  by destruct (rfind r 0 None l).
Qed.
