(* ===== verification/Redact.v ===== *)
(** * Redaction ([internal/storage/audit/redact.go], [ExtractTableName] of [types.go])

    What an audit entry shows of a query: its text with inline secrets replaced,
    its arguments with those of sensitive columns replaced, a hash of its shape,
    and the table it touches.

    The set of sensitive fields is a Go map: the list here is one order of its
    keys.  The configured patterns are regular expressions; one that does not
    compile is [None].  A placeholder stands for itself in a replacement, which
    is so when it has no dollar sign. *)
From stdpp Require Import base gmap strings list.
From Stdlib Require Import ZArith Lia Ascii.
From S2P Require Import Prelude GoStrings GoRegexp Domain.

Definition Contains (l sub : list ascii) : bool :=
  existsb (fun i => is_prefix_of sub (drop i l)) (seq 0 (S (length l))).

(** [strings.Count] of a single byte. *)
Definition Count (c : ascii) (l : list ascii) : Z := Z.of_nat (length (List.filter (fun d => d =?= c) l)).

(** The two quotation marks. *)
Definition dquote : ascii := ascii_of_N 34.
Definition squote : ascii := ascii_of_N 39.
Definition Trim_quotes (l : list ascii) : list ascii := trim (fun c => (c =?= dquote) || (c =?= squote)) l.

Record RedactorConfig := mkRedactorConfig {
  RedactorConfig_SensitiveFields : list string;
  RedactorConfig_AdditionalPatterns : list (option regex);
  RedactorConfig_ParameterPlaceholder : string
}.

Record Redactor := mkRedactor {
  sensitiveFields : list string;
  sensitivePatterns : list regex;
  parameterPlaceholder : string
}.

(** [(?i)_xyz$] *)
Definition suffix_pattern (s : string) : option regex := Some (RSeq (rkeyword s) REnd).

Definition DefaultRedactorConfig : RedactorConfig :=
  mkRedactorConfig
    ["password"; "token"; "key"; "secret"; "credential"; "auth"; "api_key"; "apikey"; "access_token";
     "refresh_token"; "private_key"; "encryption_key"; "session"; "cookie"; "bearer"]%string
    (map suffix_pattern ["_key"; "_token"; "_secret"; "_password"; "_credential"]%string)
    "[REDACTED]".

(** *** Patterns *)

(** [(?i)FROM\s+([^\s,()]+)] and its relatives. *)
Definition after_keyword (kw : string) (optional : regex) (stop : ascii -> bool) : regex :=
  RSeq (rkeyword kw) (RSeq rspaces1 (RSeq optional
    (RGroup 1 (rplus (RByte (fun c => negb (re_space c || stop c))))))).
Definition nothing_else (c : ascii) : bool := false.
Definition paren_only (c : ascii) : bool := c =?= "("%char.
Definition list_marks (c : ascii) : bool := mem c [","; "("; ")"]%char.
Definition if_not_exists : regex :=
  ropt (RSeq (rkeyword "IF") (RSeq rspaces1 (RSeq (rkeyword "NOT") (RSeq rspaces1
    (RSeq (rkeyword "EXISTS") rspaces1))))).
Definition if_exists : regex :=
  ropt (RSeq (rkeyword "IF") (RSeq rspaces1 (RSeq (rkeyword "EXISTS") rspaces1))).

Definition table_patterns : list (string * regex) :=
  [("SELECT", after_keyword "FROM" REmpty list_marks);
   ("INSERT", after_keyword "INTO" REmpty paren_only);
   ("UPDATE", after_keyword "UPDATE" REmpty nothing_else);
   ("DELETE", after_keyword "FROM" REmpty nothing_else);
   ("CREATE", after_keyword "TABLE" if_not_exists paren_only);
   ("ALTER", after_keyword "TABLE" REmpty nothing_else);
   ("DROP", after_keyword "TABLE" if_exists nothing_else);
   ("TRUNCATE", after_keyword "TABLE" REmpty nothing_else)]%string.

(** [(\w+)\s*=\s*] *)
Definition assignment : regex :=
  RSeq (RGroup 1 (rplus (RByte is_word))) (RSeq rspaces (RSeq (rbyte "=") rspaces)).
Definition pgPattern : regex := RSeq assignment (RSeq (rbyte "$") (RGroup 2 (rplus (RByte is_digit)))).
Definition questionPattern : regex := RSeq assignment (rbyte "?").
Definition in_parens (n : nat) : regex :=
  RSeq (rbyte "(") (RSeq (RGroup n (rplus (rnot [")"%char]))) (rbyte ")")).
Definition insertPattern : regex :=
  RSeq (rkeyword "INSERT") (RSeq rspaces1 (RSeq (rkeyword "INTO") (RSeq rspaces1
    (RSeq (rplus (RByte is_word)) (RSeq rspaces (RSeq (in_parens 1) (RSeq rspaces
      (RSeq (rkeyword "VALUES") (RSeq rspaces (in_parens 2)))))))))).
Definition quoted (q : ascii) : regex := RSeq (rbyte q) (RSeq (RStar (rnot [q])) (rbyte q)).
Definition inline_pattern (field : string) : regex :=
  RSeq (RGroup 1 (RSeq RBoundary (RSeq (rkeyword field) (RSeq rspaces (RSeq (rbyte "=") rspaces)))))
    (RGroup 2 (RAlt (quoted squote) (quoted dquote))).

Section redact.
Context `{UnicodeTables}.

Definition NewRedactor (cfg : RedactorConfig) : Redactor :=
  mkRedactor (remove_dups (map ToLower (RedactorConfig_SensitiveFields cfg)))
    (omap (fun p => p) (RedactorConfig_AdditionalPatterns cfg))
    (if RedactorConfig_ParameterPlaceholder cfg =?= ""%string then "[REDACTED]"%string
     else RedactorConfig_ParameterPlaceholder cfg).

Definition IsSensitiveField (r : Redactor) (fieldName : string) : bool :=
  let lower := ToLower fieldName in
  mem lower (sensitiveFields r)
  || existsb (fun field => Contains (bytes_of lower) (bytes_of field)) (sensitiveFields r)
  || existsb (fun p => MatchRegexp p (bytes_of fieldName)) (sensitivePatterns r).

(** *** Query text *)

Definition redact_field (r : Redactor) (result : list ascii) (field : string) : list ascii :=
  ReplaceAll (inline_pattern field) result
    (fun m => group result m 1 ++ [squote] ++ bytes_of (parameterPlaceholder r) ++ [squote]).

Definition redactQueryText (r : Redactor) (query : string) : string :=
  str_of (fold_left (redact_field r) (sensitiveFields r) (bytes_of query)).

Fixpoint extract_table (query : list ascii) (normalized : string) (ps : list (string * regex)) : string :=
  match ps with
  | [] => ""
  | (prefix, pattern) :: ps' =>
      if HasPrefix normalized prefix then
        match Find pattern query with
        | Some m => str_of (Trim_quotes (group query m 1))
        | None => extract_table query normalized ps'
        end
      else extract_table query normalized ps'
  end.
Definition ExtractTableName (query : string) : string :=
  extract_table (bytes_of query) (ToUpper (TrimSpace query)) table_patterns.

(** *** Arguments *)

(** The value left in [*result], which starts as zero; the error is always nil. *)
Definition parsePositiveInt (s : list ascii) : Z :=
  if forallb is_digit s
  then fold_left (fun n c => i64 (n * 10 + (Z.of_N (N_of_ascii c) - 48))) s 0%Z
  else 0%Z.

Definition split_comma (l : list ascii) : list string :=
  map str_of (split_on (fun c => c =?= ","%char) l).
Definition parseColumnList (l : list ascii) : list string :=
  List.filter (fun s => s <>? ""%string)
    (map (fun p => str_of (Trim_quotes (bytes_of (TrimSpace p)))) (split_comma l)).
Definition parseValueList (l : list ascii) : list string :=
  List.filter (fun s => s <>? ""%string) (map TrimSpace (split_comma l)).

Definition extractParamPosition (s : string) : Z :=
  match bytes_of (TrimSpace s) with
  | c :: rest => if c =?= "$"%char then parsePositiveInt rest - 1 else -1
  | [] => -1
  end%Z.

Definition pg_positions (r : Redactor) (q : list ascii) : list Z :=
  omap (fun m => if IsSensitiveField r (str_of (group q m 1))
                 then Some (parsePositiveInt (group q m 2) - 1)%Z else None) (FindAll pgPattern q).

Definition insert_positions (r : Redactor) (q : list ascii) : list Z :=
  match Find insertPattern q with
  | None => []
  | Some m =>
      let columns := parseColumnList (group q m 1) in
      let values := parseValueList (group q m 2) in
      omap (fun cv : string * string =>
        if IsSensitiveField r cv.1 && (0 <=? extractParamPosition cv.2)%Z
        then Some (extractParamPosition cv.2) else None) (zip columns values)
  end.

Fixpoint question_positions (r : Redactor) (q : list ascii) (pos : Z) (lastEnd : nat) (ms : list rmatched)
    : list Z :=
  match ms with
  | [] => []
  | m :: ms' =>
      let pos := (pos + Count "?" (slice q (lastEnd, m_start m)))%Z in
      (if IsSensitiveField r (str_of (group q m 1)) then [pos] else [])
      ++ question_positions r q (pos + 1) (m_end m) ms'
  end.

Definition findSensitivePositions (r : Redactor) (query : string) : list Z :=
  let q := bytes_of query in
  pg_positions r q ++ insert_positions r q ++
  (if negb (mem "$"%char q) && mem "?"%char q then question_positions r q 0 0 (FindAll questionPattern q)
   else []).

Definition redactArgs (r : Redactor) (query : string) (args : list GoAny) : list GoAny :=
  match args with
  | [] => args
  | _ =>
      fold_left (fun redacted pos =>
        if (0 <=? pos)%Z && (pos <? Z.of_nat (length redacted))%Z
        then <[Z.to_nat pos := AnyString (parameterPlaceholder r)]> redacted else redacted)
        (findSensitivePositions r query) args
  end.

Definition RedactQuery (r : Redactor) (query : string) (args : list GoAny) : string * list GoAny :=
  (redactQueryText r query, redactArgs r query args).

(** *** The shape of a query *)

Definition normalize_query (query : string) : list ascii :=
  let l := ReplaceAll rspaces1 (bytes_of query) (fun _ => [" "%char]) in
  let l := bytes_of (ToUpper (TrimSpace (str_of l))) in
  let l := ReplaceAll (quoted squote) l (fun _ => [squote; "?"%char; squote]) in
  let l := ReplaceAll (quoted dquote) l (fun _ => [dquote; "?"%char; dquote]) in
  let l := ReplaceAll (RSeq RBoundary (RSeq (rplus (RByte is_digit)) RBoundary)) l (fun _ => ["?"%char]) in
  ReplaceAll (RSeq (rbyte "$") (rplus (RByte is_digit))) l (fun _ => ["$"; "?"]%char).

Definition HashQuery `{Crypto} (query : string) : string :=
  EncodeToString (take 8 (sha256_Sum256 (map (fun c => Z.of_N (N_of_ascii c)) (normalize_query query)))).

(** *** Metadata *)

Fixpoint redact_value (r : Redactor) (v : GoAny) : GoAny :=
  match v with
  | AnyMap m =>
      AnyMap (map (fun kv : string * GoAny =>
        let '(k, v) := kv in
        (k, if IsSensitiveField r k then AnyString (parameterPlaceholder r) else redact_value r v)) m)
  | _ => v
  end.

Definition RedactMetadata (r : Redactor) (metadata : list (string * GoAny)) : list (string * GoAny) :=
  map (fun kv : string * GoAny =>
    let '(k, v) := kv in
    (k, if IsSensitiveField r k then AnyString (parameterPlaceholder r) else redact_value r v)) metadata.
End redact.

(** * Theorems *)

Section theorems.
Context `{UnicodeTables}.

(** ** Arguments *)

Definition redact_at (p : GoAny) (l : list GoAny) (pos : Z) : list GoAny :=
  if (0 <=? pos)%Z && (pos <? Z.of_nat (length l))%Z then <[Z.to_nat pos := p]> l else l.

Lemma redact_at_lookup p l pos i :
  redact_at p l pos !! i = if pos =?= Z.of_nat i then (fun _ => p) <$> l !! i else l !! i.
Proof.
  unfold redact_at. case_bool_decide as Hp.
  - subst. destruct (l !! i) as [x|] eqn:Hi.
    + apply lookup_lt_Some in Hi as Hlt.
      rewrite (proj2 (Z.leb_le _ _)), (proj2 (Z.ltb_lt _ _)) by lia. simpl.
      rewrite Nat2Z.id. by apply list_lookup_insert_eq.
    + apply lookup_ge_None in Hi as Hge. rewrite (proj2 (Z.ltb_ge _ _)) by lia.
      by rewrite andb_false_r.
  - destruct ((0 <=? pos)%Z && _) eqn:Hb; [|done]. apply andb_true_iff in Hb as [Hb _].
    apply Z.leb_le in Hb. apply list_lookup_insert_ne. lia.
Qed.

Lemma redact_all_lookup p ps l i :
  fold_left (redact_at p) ps l !! i =
  if mem (Z.of_nat i) ps then (fun _ => p) <$> l !! i else l !! i.
Proof.
  revert l. induction ps as [|pos ps IH]; intros l; [done|]. simpl. rewrite IH, redact_at_lookup.
  rewrite (bool_decide_ext (pos = Z.of_nat i) (Z.of_nat i = pos)) by done.
  destruct (l !! i); repeat (case_match || case_bool_decide); simplify_option_eq; set_solver.
Qed.

Lemma redact_all_length p ps l : length (fold_left (redact_at p) ps l) = length l.
Proof.
  revert l. induction ps as [|pos ps IH]; intros l; [done|]. simpl. rewrite IH. unfold redact_at.
  case_match; [by rewrite length_insert|done].
Qed.

Lemma redactArgs_lookup r query args i :
  redactArgs r query args !! i =
  if mem (Z.of_nat i) (findSensitivePositions r query)
  then (fun _ => AnyString (parameterPlaceholder r)) <$> args !! i else args !! i.
Proof.
  unfold redactArgs. destruct args as [|a args].
  - by destruct (mem _ _).
  - exact (redact_all_lookup (AnyString (parameterPlaceholder r)) _ (a :: args) i).
Qed.

(** ** Metadata *)

Fixpoint assoc (k : string) (m : list (string * GoAny)) : option GoAny :=
  match m with
  | [] => None
  | (k', v) :: m' => if k' =?= k then Some v else assoc k m'
  end.

(** The value at the end of a path of keys through nested maps. *)
Fixpoint at_path (v : GoAny) (path : list string) : option GoAny :=
  match path with
  | [] => Some v
  | k :: path' =>
      match v with
      | AnyMap m => match assoc k m with Some v' => at_path v' path' | None => None end
      | _ => None
      end
  end.

Lemma assoc_redacted r k m :
  assoc k (RedactMetadata r m) =
  (if IsSensitiveField r k then (fun _ => AnyString (parameterPlaceholder r)) <$> assoc k m
   else redact_value r <$> assoc k m).
Proof.
  induction m as [|[k' v] m IH]; simpl.
  - by destruct (IsSensitiveField r k).
  - case_bool_decide as Hk; [|exact IH]. subst. simpl. by destruct (IsSensitiveField r k).
Qed.

Lemma redact_value_map r m : redact_value r (AnyMap m) = AnyMap (RedactMetadata r m).
Proof. done. Qed.

Definition is_map (v : GoAny) : bool := match v with AnyMap _ => true | _ => false end.

Lemma redact_value_not_map r v : is_map v = false -> redact_value r v = v.
Proof. by destruct v. Qed.

Lemma at_path_not_map v k path : is_map v = false -> at_path v (k :: path) = None.
Proof. by destruct v. Qed.

Lemma at_path_cons m k path :
  at_path (AnyMap m) (k :: path) = assoc k m ≫= fun v => at_path v path.
Proof. simpl. by destruct (assoc k m). Qed.

(** A path with no sensitive key leads to the redacted form of the same value. *)
Lemma redacted_open_path r path v :
  existsb (IsSensitiveField r) path = false ->
  at_path (redact_value r v) path = redact_value r <$> at_path v path.
Proof.
  revert v. induction path as [|k path IH]; intros v Hs; [done|].
  simpl in Hs. apply orb_false_iff in Hs as [Hk Hs]. destruct (is_map v) eqn:Hv.
  - destruct v as [| | | | |m]; try done. rewrite redact_value_map, !at_path_cons, assoc_redacted, Hk.
    destruct (assoc k m) as [v|]; [|done]. simpl. by apply IH.
  - by rewrite redact_value_not_map, !at_path_not_map by done.
Qed.

(** A path with a sensitive key leads to the placeholder or nowhere. *)
Lemma redacted_secret_path r path v w :
  existsb (IsSensitiveField r) path = true ->
  at_path (redact_value r v) path = Some w -> w = AnyString (parameterPlaceholder r).
Proof.
  revert v. induction path as [|k path IH]; intros v Hs Hw; [done|].
  destruct (is_map v) eqn:Hv; [|by rewrite redact_value_not_map, at_path_not_map in Hw].
  destruct v as [| | | | |m]; try done. rewrite redact_value_map, at_path_cons, assoc_redacted in Hw.
  simpl in Hs. destruct (IsSensitiveField r k) eqn:Hk.
  - destruct (assoc k m) as [v|]; [|done]. simpl in Hw. destruct path as [|k' path]; by simplify_eq/=.
  - destruct (assoc k m) as [v|]; [|done]. simpl in Hw. by apply (IH v).
Qed.

(** Redaction of metadata: in nested maps, whatever a path through a
    sensitive key leads to is the placeholder, and a path that meets no sensitive
    key leads to what it led to before, redacted in turn. *)
Theorem RedactMetadata_hides r m path :
  match at_path (AnyMap (RedactMetadata r m)) path with
  | Some w =>
      if existsb (IsSensitiveField r) path then w = AnyString (parameterPlaceholder r)
      else exists v, at_path (AnyMap m) path = Some v /\ w = redact_value r v
  | None => existsb (IsSensitiveField r) path = true \/ at_path (AnyMap m) path = None
  end.
Proof.
  rewrite <- redact_value_map. destruct (existsb (IsSensitiveField r) path) eqn:Hs.
  - destruct (at_path _ path) as [w|] eqn:Hw; [|by left]. by apply (redacted_secret_path r path (AnyMap m)).
  - rewrite redacted_open_path by done. destruct (at_path (AnyMap m) path) as [v|]; simpl; [by exists v|by right].
Qed.

(** The arguments an entry shows keep their number and order, and exactly
    those at a position [findSensitivePositions] reports are replaced. *)
Theorem redactArgs_spec r query args :
  length (redactArgs r query args) = length args /\
  forall i a, args !! i = Some a ->
    redactArgs r query args !! i =
      Some (if mem (Z.of_nat i) (findSensitivePositions r query)
            then AnyString (parameterPlaceholder r) else a).
Proof.
  split.
  - unfold redactArgs. destruct args as [|a args]; [done|].
    exact (redact_all_length (AnyString (parameterPlaceholder r)) _ (a :: args)).
  - intros i a Ha. rewrite redactArgs_lookup, Ha. by destruct (mem _ _).
Qed.
End theorems.

(** ** Queries of the test suite *)

Section examples.
Existing Instance identity_tables.
Local Abbreviation redactor := (NewRedactor DefaultRedactorConfig).
Local Open Scope string_scope.

Lemma IsSensitiveField_examples :
  map (IsSensitiveField redactor) ["Password"; "user_password"; "password_hash"; "auth_token"; "apikey";
                                   "encryption_key"; "name"; "email"; "user_id"; "created_at"; "status"] =
  [true; true; true; true; true; true; false; false; false; false; false].
Proof. vm_compute. reflexivity. Qed.

Lemma redactArgs_examples :
  redactArgs redactor "INSERT INTO credentials (name, password, api_key) VALUES ($1, $2, $3)"
    (map AnyString ["service"; "pass"; "key123"]) =
    map AnyString ["service"; "[REDACTED]"; "[REDACTED]"] /\
  redactArgs redactor "UPDATE users SET token = $1 WHERE id = $2" (map AnyString ["abc123token"; "1"]) =
    map AnyString ["[REDACTED]"; "1"] /\
  redactArgs redactor "UPDATE t SET name = ?, secret = ? WHERE id = ?" (map AnyString ["n"; "s"; "1"]) =
    map AnyString ["n"; "[REDACTED]"; "1"].
Proof. vm_compute. done. Qed.

Lemma redactQueryText_example :
  redactQueryText redactor "UPDATE users SET password = 'hunter2', name = 'bob'" =
  "UPDATE users SET password = '[REDACTED]', name = 'bob'".
Proof. vm_compute. reflexivity. Qed.

Lemma ExtractTableName_examples :
  map ExtractTableName
    ["SELECT * FROM users WHERE id = 1"; "INSERT INTO users (name) VALUES ('x')"; "update users set a = 1";
     "DELETE FROM users"; "CREATE TABLE IF NOT EXISTS users (id INT)"; "DROP TABLE IF EXISTS users"; "BEGIN"] =
  ["users"; "users"; "users"; "users"; "users"; "users"; ""].
Proof. vm_compute. reflexivity. Qed.

(** An [INSERT] with question marks, the form the SQLite store uses, is not
    recognised: its secret arguments stay. *)
Lemma insert_question_marks_leak :
  redactArgs redactor "INSERT INTO users (name, password) VALUES (?, ?)" (map AnyString ["john"; "secret123"]) =
  map AnyString ["john"; "secret123"].
Proof. vm_compute. reflexivity. Qed.

(** Maps inside a list are not searched. *)
Lemma metadata_lists_leak :
  RedactMetadata redactor [("users", AnyList [AnyMap [("password", AnyString "secret123")]])] =
  [("users", AnyList [AnyMap [("password", AnyString "secret123")]])].
Proof. vm_compute. reflexivity. Qed.
End examples.
