(* ===== verification/Syslog.v ===== *)
(** * Audit entries sent to a syslog server ([internal/storage/audit/syslog.go])

    The text of a message with its structured data and its escapes, the connection with
    its attempts, and batches.  Messages are byte strings.  What the network answers to a
    dial, a write or a close depends on what was done before: it is a function of the
    list of events so far.  An exporter that is switched off is [None]. *)
From stdpp Require Import base gmap strings list pretty.
From Stdlib Require Import ZArith Lia Ascii.
From S2P Require Import Prelude GoStrings GoTime Domain AuditLog.
Local Open Scope Z_scope.
Local Open Scope bool_scope.

(** ** Configuration *)

Definition FacilityKern : Z := 0.
Definition FacilityUser : Z := 1.
Definition FacilityMail : Z := 2.
Definition FacilityDaemon : Z := 3.
Definition FacilityAuth : Z := 4.
Definition FacilitySyslog : Z := 5.
Definition FacilityLPR : Z := 6.
Definition FacilityNews : Z := 7.
Definition FacilityUUCP : Z := 8.
Definition FacilityCron : Z := 9.
Definition FacilityAuthPriv : Z := 10.
Definition FacilityFTP : Z := 11.
Definition FacilityLocal0 : Z := 16.
Definition FacilityLocal1 : Z := 17.
Definition FacilityLocal2 : Z := 18.
Definition FacilityLocal3 : Z := 19.
Definition FacilityLocal4 : Z := 20.
Definition FacilityLocal5 : Z := 21.
Definition FacilityLocal6 : Z := 22.
Definition FacilityLocal7 : Z := 23.

Definition SeverityEmergency : Z := 0.
Definition SeverityAlert : Z := 1.
Definition SeverityCritical : Z := 2.
Definition SeverityError : Z := 3.
Definition SeverityWarning : Z := 4.
Definition SeverityNotice : Z := 5.
Definition SeverityInfo : Z := 6.
Definition SeverityDebug : Z := 7.

(** The settings of TLS are [None] when they are [nil]; what is in them is the
    library's. *)
Record SyslogConfig {TLSConfig : Type} := mkSyslogConfig {
  SC_Enabled : bool;
  SC_Network : string;
  SC_Address : string;
  SC_TLS : bool;
  SC_TLSConfig : option TLSConfig;
  SC_Facility : Z;
  SC_Tag : string;
  SC_Hostname : string;
  SC_ReconnectInterval : Duration;
  SC_MaxRetries : Z
}.
Arguments SyslogConfig : clear implicits.
Arguments mkSyslogConfig {TLSConfig}.

Definition DefaultSyslogConfig {TLSConfig} : SyslogConfig TLSConfig :=
  mkSyslogConfig false "udp" "localhost:514" false None FacilityLocal0 "bibd" "" (30 * Second) 3.

(** ** Escapes *)

Definition quote : ascii := ascii_of_N 34.
Definition backslash : ascii := ascii_of_N 92.
Definition bracket : ascii := "]"%char.

(** [string(s[i])] of a byte is the character with that number, in UTF-8. *)
Definition char_of_byte (c : ascii) : list ascii :=
  if is_ascii_byte c then [c]
  else [ascii_of_N (192 + N_of_ascii c / 64); ascii_of_N (128 + N_of_ascii c `mod` 64)].

(** The bytes of an occurrence after its first are skipped.  It is never called with an
    empty [old], for which the loop of the source does not end. *)
Fixpoint replace_bytes (old new s : list ascii) (skip : nat) : list ascii :=
  match s with
  | [] => []
  | c :: s' =>
      match skip with
      | S k => replace_bytes old new s' k
      | O => if is_prefix_of old s then new ++ replace_bytes old new s' (length old - 1)
             else char_of_byte c ++ replace_bytes old new s' 0
      end
  end.
Definition replaceAll (s old new : list ascii) : list ascii := replace_bytes old new s 0.

Definition escapeSDValue (s : list ascii) : list ascii :=
  let result := s in
  let result := replaceAll result [backslash] [backslash; backslash] in
  let result := replaceAll result [quote] [backslash; quote] in
  replaceAll result [bracket] [backslash; bracket].

(** ** The text of a message *)

Definition sd_param (name : string) (value : list ascii) : list ascii :=
  " "%char :: bytes_of name ++ "="%char :: quote :: value ++ [quote].
Definition escaped (name value : string) : list ascii := sd_param name (escapeSDValue (bytes_of value)).
Definition sd_flag (b : bool) (name : string) : list ascii :=
  if b then sd_param name (bytes_of "true") else [].

Definition formatStructuredData (entry : AuditEntry) : list ascii :=
  let sd := bytes_of "[bibd@0" ++ escaped "node_id" (AuditEntry_NodeID entry)
              ++ escaped "op_id" (AuditEntry_OperationID entry)
              ++ escaped "action" (AuditEntry_Action entry)
              ++ escaped "role" (AuditEntry_RoleUsed entry) in
  let sd := if AuditEntry_JobID entry <>? "" then sd ++ escaped "job_id" (AuditEntry_JobID entry) else sd in
  let sd := if AuditEntry_TableName entry <>? "" then sd ++ escaped "table" (AuditEntry_TableName entry) else sd in
  let sd := if AuditEntry_Actor entry <>? "" then sd ++ escaped "actor" (AuditEntry_Actor entry) else sd in
  let sd := sd ++ sd_flag (Flags_Suspicious (AuditEntry_Flags entry)) "suspicious" in
  let sd := sd ++ sd_flag (Flags_RateLimited (AuditEntry_Flags entry)) "rate_limited" in
  let sd := sd ++ sd_flag (Flags_BreakGlass (AuditEntry_Flags entry)) "break_glass" in
  sd ++ [bracket].

Definition determineSeverity (entry : AuditEntry) : Z :=
  let flags := AuditEntry_Flags entry in
  if Flags_Suspicious flags || Flags_AlertTriggered flags then SeverityWarning
  else if Flags_BreakGlass flags then SeverityNotice
  else if AuditEntry_Action entry =?= ActionDDL then SeverityNotice
  else SeverityInfo.

Definition message_text (entry : AuditEntry) : list ascii :=
  bytes_of "action=" ++ bytes_of (AuditEntry_Action entry) ++
  bytes_of " table=" ++ bytes_of (AuditEntry_TableName entry) ++
  bytes_of " role=" ++ bytes_of (AuditEntry_RoleUsed entry) ++
  bytes_of " rows=" ++ bytes_of (pretty (AuditEntry_RowsAffected entry)) ++
  bytes_of " duration=" ++ bytes_of (pretty (AuditEntry_DurationMS entry)) ++ bytes_of "ms".

Definition syslog_line_end : ascii := ascii_of_N 10.

Section exporter.
Context {TLSConfig : Type}.

(** The severity of the record is set once and not used. *)
Record SyslogExporter := mkSyslogExporter {
  SE_config : SyslogConfig TLSConfig;
  SE_conn : bool;
  SE_closed : bool;
  SE_facility : Z;
  SE_severity : Z
}.

Definition set_conn (e : SyslogExporter) (b : bool) : SyslogExporter :=
  mkSyslogExporter (SE_config e) b (SE_closed e) (SE_facility e) (SE_severity e).

Definition formatMessage (e : SyslogExporter) (entry : AuditEntry) : list ascii :=
  let pri := i64 (i64 (SE_facility e * 8) + determineSeverity entry) in
  let version := 1 in
  let hostname := if SC_Hostname (SE_config e) =?= "" then "-"%string else SC_Hostname (SE_config e) in
  "<"%char :: bytes_of (pretty pri) ++ ">"%char :: bytes_of (pretty version) ++
  " "%char :: time_bytes (AuditEntry_Timestamp entry) ++
  " "%char :: bytes_of hostname ++
  " "%char :: bytes_of (SC_Tag (SE_config e)) ++
  " "%char :: "-"%char ::
  " "%char :: bytes_of (AuditEntry_OperationID entry) ++
  " "%char :: formatStructuredData entry ++
  " "%char :: message_text entry ++ [syslog_line_end].

(** ** The connection *)

(** A dial names the kind of connection and the settings of TLS it uses. *)
Inductive dial_kind : Type :=
| DialTLS (cfg : option TLSConfig)
| DialPlain (network : string).

Inductive SyslogEvent : Type :=
| Dial (kind : dial_kind) (address : string) (ok : bool)
| Write (message : list ascii) (ok : bool)
| CloseConn (ok : bool).

Inductive SyslogError : Type :=
| SEUnsupported (network : string)
| SEDial
| SEWrite
| SEClose
| SEExporterClosed
| SEFailed (retries : Z) (last : option SyslogError)
| SEConnect (cause : SyslogError).

(** Whether the network lets a call succeed, after the events so far. *)
Variable net : list SyslogEvent -> bool.

Definition dial_of (cfg : SyslogConfig TLSConfig) : option dial_kind :=
  if SC_Network cfg =?= "tcp" then
    Some (if SC_TLS cfg then DialTLS (SC_TLSConfig cfg) else DialPlain "tcp")
  else if SC_Network cfg =?= "udp" then Some (DialPlain "udp")
  else if SC_Network cfg =?= "unix" then Some (DialPlain "unix")
  else None.

Definition connectLocked (e : SyslogExporter) (tr : list SyslogEvent) : SyslogExporter * list SyslogEvent * option SyslogError :=
  match dial_of (SE_config e) with
  | None => (e, tr, Some (SEUnsupported (SC_Network (SE_config e))))
  | Some kind =>
      let ok := net tr in
      let tr := tr ++ [Dial kind (SC_Address (SE_config e)) ok] in
      if ok then (set_conn e true, tr, None) else (e, tr, Some SEDial)
  end.

(** A connection that is there is closed first; it stays in its field. *)
Definition connect (e : SyslogExporter) (tr : list SyslogEvent) : SyslogExporter * list SyslogEvent * option SyslogError :=
  let tr := if SE_conn e then tr ++ [CloseConn (net tr)] else tr in
  connectLocked e tr.

Definition NewSyslogExporter (cfg : SyslogConfig TLSConfig) (tr : list SyslogEvent)
    : list SyslogEvent * result SyslogError (option SyslogExporter) :=
  if negb (SC_Enabled cfg) then (tr, Ok None)
  else
    let exporter := mkSyslogExporter cfg false false (SC_Facility cfg) SeverityInfo in
    let '(exporter, tr, err) := connect exporter tr in
    match err with
    | Some err => (tr, Err (SEConnect err))
    | None => (tr, Ok (Some exporter))
    end.

(** One round of the loop after the connection is there. *)
Definition write_once (e : SyslogExporter) (message : list ascii) (tr : list SyslogEvent)
    : SyslogExporter * list SyslogEvent * option SyslogError :=
  let ok := net tr in
  let tr := tr ++ [Write message ok] in
  if ok then (e, tr, None)
  else (set_conn e false, tr ++ [CloseConn (net tr)], Some SEWrite).

(** [n] rounds are left. *)
Fixpoint send_loop (n : nat) (e : SyslogExporter) (message : list ascii) (lastErr : option SyslogError) (tr : list SyslogEvent)
    : SyslogExporter * list SyslogEvent * option SyslogError :=
  match n with
  | O => (e, tr, Some (SEFailed (SC_MaxRetries (SE_config e)) lastErr))
  | S n' =>
      let '(e, tr, err) := if SE_conn e then (e, tr, None) else connectLocked e tr in
      match err with
      | Some err => send_loop n' e message (Some err) tr
      | None =>
          let '(e, tr, err) := write_once e message tr in
          match err with
          | None => (e, tr, None)
          | Some err => send_loop n' e message (Some err) tr
          end
      end
  end.

Definition send (e : SyslogExporter) (message : list ascii) (tr : list SyslogEvent)
    : SyslogExporter * list SyslogEvent * option SyslogError :=
  if SE_closed e then (e, tr, Some SEExporterClosed)
  else send_loop (Z.to_nat (SC_MaxRetries (SE_config e) + 1)) e message None tr.

(** ** Export *)

Definition SyslogExporter_Export (e : option SyslogExporter) (entry : AuditEntry) (tr : list SyslogEvent)
    : option SyslogExporter * list SyslogEvent * option SyslogError :=
  match e with
  | None => (e, tr, None)
  | Some x =>
      if SE_closed x then (e, tr, None)
      else
        let message := formatMessage x entry in
        let '(x, tr, err) := send x message tr in
        (Some x, tr, err)
  end.

Fixpoint export_entries (e : option SyslogExporter) (entries : list AuditEntry) (tr : list SyslogEvent)
    : option SyslogExporter * list SyslogEvent * option SyslogError :=
  match entries with
  | [] => (e, tr, None)
  | entry :: entries' =>
      let '(e, tr, err) := SyslogExporter_Export e entry tr in
      match err with
      | Some err => (e, tr, Some err)
      | None => export_entries e entries' tr
      end
  end.

Definition ExportBatch (e : option SyslogExporter) (entries : list AuditEntry) (tr : list SyslogEvent)
    : option SyslogExporter * list SyslogEvent * option SyslogError :=
  match e with
  | None => (e, tr, None)
  | Some x => if SE_closed x then (e, tr, None) else export_entries e entries tr
  end.

Definition SyslogExporter_Close (e : option SyslogExporter) (tr : list SyslogEvent)
    : option SyslogExporter * list SyslogEvent * option SyslogError :=
  match e with
  | None => (e, tr, None)
  | Some x =>
      let x := mkSyslogExporter (SE_config x) (SE_conn x) true (SE_facility x) (SE_severity x) in
      if SE_conn x then
        let ok := net tr in
        (Some x, tr ++ [CloseConn ok], if ok then None else Some SEClose)
      else (Some x, tr, None)
  end.
End exporter.

(** ** A reader of messages, by RFC 5424

    The reader is the reference: within a value a backslash, a quote and a closing
    bracket are escaped by a backslash, and nothing else is. *)

Inductive sd_state : Type :=
| Between
| InName (name : list ascii)
| Opening (name : list ascii)
| InValue (name value : list ascii)
| Escaped (name value : list ascii).

Definition special (c : ascii) : bool := (c =?= backslash) || (c =?= quote) || (c =?= bracket).

Fixpoint read_params (st : sd_state) (params : list (list ascii * list ascii)) (l : list ascii)
    : option (list (list ascii * list ascii) * list ascii) :=
  match l with
  | [] => None
  | c :: l' =>
      match st with
      | Between => if c =?= bracket then Some (params, l')
                   else if c =?= " "%char then read_params (InName []) params l' else None
      | InName n => if c =?= "="%char then read_params (Opening n) params l'
                    else read_params (InName (n ++ [c])) params l'
      | Opening n => if c =?= quote then read_params (InValue n []) params l' else None
      | InValue n v => if c =?= quote then read_params Between (params ++ [(n, v)]) l'
                       else if c =?= backslash then read_params (Escaped n v) params l'
                       else if c =?= bracket then None
                       else read_params (InValue n (v ++ [c])) params l'
      | Escaped n v => read_params (InValue n (v ++ if special c then [c] else [backslash; c])) params l'
      end
  end.

Fixpoint until (stop : ascii) (l : list ascii) : option (list ascii * list ascii) :=
  match l with
  | [] => None
  | c :: l' => if c =?= stop then Some ([], l')
               else match until stop l' with Some (t, rest) => Some (c :: t, rest) | None => None end
  end.

(** The tokens before the structured data, the parameters, and the message. *)
Record syslog_message := mkMessage {
  sm_priority : list ascii;
  sm_version : list ascii;
  sm_header : list (list ascii);
  sm_sd_id : list ascii;
  sm_params : list (list ascii * list ascii);
  sm_text : list ascii
}.

Fixpoint read_tokens (n : nat) (l : list ascii) : option (list (list ascii) * list ascii) :=
  match n with
  | O => Some ([], l)
  | S n' => match until " "%char l with
            | Some (t, l') => match read_tokens n' l' with Some (ts, rest) => Some (t :: ts, rest) | None => None end
            | None => None
            end
  end.

Definition sd_id_length : nat := length (bytes_of "bibd@0").

Definition read_message (l : list ascii) : option syslog_message :=
  match l with
  | c :: l1 =>
      if negb (c =?= "<"%char) then None
      else match until ">"%char l1 with
      | None => None
      | Some (pri, l2) =>
          match until " "%char l2 with
          | None => None
          | Some (version, l3) =>
              match read_tokens 5 l3 with
              | Some (header, c :: l4) =>
                  if negb (c =?= "["%char) then None
                  else match read_params Between [] (drop sd_id_length l4) with
                  | Some (params, c :: l5) =>
                      if (c =?= " "%char) && (last l5 =?= Some syslog_line_end)
                      then Some (mkMessage pri version header (take sd_id_length l4) params (removelast l5)) else None
                  | _ => None
                  end
              | _ => None
              end
          end
      end
  | [] => None
  end.

(** What arrives of a value: a byte that is not ASCII is taken for a character three
    times, once by every replacement. *)
Definition mangled_byte (c : ascii) : list ascii := concat (map char_of_byte (concat (map char_of_byte (char_of_byte c)))).
Definition mangled (s : string) : list ascii := concat (map mangled_byte (bytes_of s)).

Definition optional_param (present : bool) (name : string) (value : list ascii) : list (list ascii * list ascii) :=
  if present then [(bytes_of name, value)] else [].

Definition sent_params (entry : AuditEntry) : list (list ascii * list ascii) :=
  [(bytes_of "node_id", mangled (AuditEntry_NodeID entry)); (bytes_of "op_id", mangled (AuditEntry_OperationID entry));
   (bytes_of "action", mangled (AuditEntry_Action entry)); (bytes_of "role", mangled (AuditEntry_RoleUsed entry))] ++
  optional_param (AuditEntry_JobID entry <>? "") "job_id" (mangled (AuditEntry_JobID entry)) ++
  optional_param (AuditEntry_TableName entry <>? "") "table" (mangled (AuditEntry_TableName entry)) ++
  optional_param (AuditEntry_Actor entry <>? "") "actor" (mangled (AuditEntry_Actor entry)) ++
  optional_param (Flags_Suspicious (AuditEntry_Flags entry)) "suspicious" (bytes_of "true") ++
  optional_param (Flags_RateLimited (AuditEntry_Flags entry)) "rate_limited" (bytes_of "true") ++
  optional_param (Flags_BreakGlass (AuditEntry_Flags entry)) "break_glass" (bytes_of "true").

(** ** Theorems *)

Lemma replaceAll_bytes o new s :
  replaceAll s [o] new = concat (map (fun c => if c =?= o then new else char_of_byte c) s).
Proof.
  unfold replaceAll. induction s as [|c s IH]; [done|]. cbn. rewrite IH, andb_true_r.
  rewrite (bool_decide_ext (o = c) (c = o)) by done. by case_bool_decide.
Qed.

(** The escape of one byte. *)
Definition escape_byte (c : ascii) : list ascii := if special c then [backslash; c] else mangled_byte c.

Lemma concat_map_concat {A B} (f : A -> list B) (ls : list (list A)) :
  concat (map f (concat ls)) = concat (map (fun l => concat (map f l)) ls).
Proof. induction ls as [|l ls IH]; [done|]. cbn. by rewrite map_app, concat_app, IH. Qed.

Definition all_bytes : list ascii := map (fun n => ascii_of_N (N.of_nat n)) (seq 0 256).
Lemma all_bytes_in c : c ∈ all_bytes.
Proof.
  apply list_elem_of_fmap. exists (N.to_nat (N_of_ascii c)). rewrite N2Nat.id, ascii_N_embedding. split; [done|].
  apply elem_of_seq. pose proof (N_ascii_bounded c). lia.
Qed.
Lemma bytes_forall (p : ascii -> bool) : forallb p all_bytes = true -> forall c, p c = true.
Proof. intros H c. rewrite forallb_forall in H. apply H, list_elem_of_In, all_bytes_in. Qed.

Definition three_passes (c : ascii) : list ascii :=
  concat (map (fun c => if c =?= bracket then [backslash; bracket] else char_of_byte c)
    (concat (map (fun c => if c =?= quote then [backslash; quote] else char_of_byte c)
      (if c =?= backslash then [backslash; backslash] else char_of_byte c)))).

Lemma three_passes_escape c : three_passes c = escape_byte c.
Proof.
  assert (H : forallb (fun c => three_passes c =?= escape_byte c) all_bytes = true) by (vm_compute; reflexivity).
  apply (bytes_forall _ ) with (c := c) in H. cbv beta in H. by apply bool_decide_eq_true in H.
Qed.

Lemma escapeSDValue_bytes s : escapeSDValue s = concat (map escape_byte s).
Proof.
  unfold escapeSDValue. cbv zeta. rewrite !replaceAll_bytes. induction s as [|c s IH]; [done|].
  cbn [map concat]. rewrite !map_app, !concat_app, !map_app, !concat_app, IH. f_equal. apply three_passes_escape.
Qed.

Lemma mangled_byte_plain c : Forall (fun c => special c = false) (mangled_byte c) \/ special c = true.
Proof.
  assert (H : forallb (fun c => special c || forallb (fun c => negb (special c)) (mangled_byte c)) all_bytes = true) by (vm_compute; reflexivity).
  apply (bytes_forall _ ) with (c := c) in H. cbv beta in H. apply orb_true_iff in H as [H|H]; [by right|left].
  apply Forall_forall. intros x Hx. apply list_elem_of_In in Hx. rewrite forallb_forall in H. apply H in Hx. by destruct (special x).
Qed.

(** *** Reading parameters *)

Lemma read_plain n v ps w l : Forall (fun c => special c = false) w ->
  read_params (InValue n v) ps (w ++ l) = read_params (InValue n (v ++ w)) ps l.
Proof.
  intros Hw. revert v. induction Hw as [|c w Hc Hw IH]; intros v; [by rewrite app_nil_r|].
  unfold special in Hc. apply orb_false_iff in Hc as [[Hb Hq]%orb_false_iff Hk]. cbn [app read_params]. rewrite Hq, Hb, Hk, IH.
  by rewrite <- app_assoc.
Qed.

Lemma read_escaped n v ps c l :
  read_params (InValue n v) ps (escape_byte c ++ l) = read_params (InValue n (v ++ if special c then [c] else mangled_byte c)) ps l.
Proof.
  unfold escape_byte. destruct (special c) eqn:Hs.
  - cbn. by rewrite Hs.
  - apply read_plain. destruct (mangled_byte_plain c) as [H|H]; [done|congruence].
Qed.

(** The bytes that are escaped are ASCII, and are not mangled. *)
Lemma special_unmangled c : (if special c then [c] else mangled_byte c) = mangled_byte c.
Proof.
  assert (H : forallb (fun c => (if special c then [c] else mangled_byte c) =?= mangled_byte c) all_bytes = true) by (vm_compute; reflexivity).
  apply (bytes_forall _ ) with (c := c) in H. cbv beta in H. by apply bool_decide_eq_true in H.
Qed.

Lemma read_value n v ps w l :
  read_params (InValue n v) ps (concat (map escape_byte w) ++ quote :: l) = read_params Between (ps ++ [(n, v ++ concat (map mangled_byte w))]) l.
Proof.
  revert v. induction w as [|c w IH]; intros v; cbn [map concat app].
  - by rewrite app_nil_r.
  - rewrite <- app_assoc, read_escaped, special_unmangled, IH. by rewrite <- app_assoc.
Qed.

Lemma read_name n n' ps l : "="%char ∉ n' -> read_params (InName n) ps (n' ++ "="%char :: l) = read_params (Opening (n ++ n')) ps l.
Proof.
  revert n. induction n' as [|c n' IH]; intros n Hn; cbn; [by rewrite app_nil_r|].
  rewrite bool_decide_eq_false_2 by set_solver. rewrite IH by set_solver. by rewrite <- app_assoc.
Qed.

Lemma read_param name w ps l : "="%char ∉ bytes_of name ->
  read_params Between ps (sd_param name (concat (map escape_byte w)) ++ l) =
  read_params Between (ps ++ [(bytes_of name, concat (map mangled_byte w))]) l.
Proof.
  intros Hn. unfold sd_param. cbn [app]. cbn [read_params]. rewrite bool_decide_eq_false_2 by done. rewrite bool_decide_eq_true_2 by done.
  rewrite <- app_assoc. cbn [app]. rewrite read_name by done. cbn [app read_params]. rewrite bool_decide_eq_true_2 by done.
  rewrite <- app_assoc. cbn [app]. by rewrite read_value.
Qed.

Lemma read_escaped_param name value ps l : "="%char ∉ bytes_of name ->
  read_params Between ps (escaped name value ++ l) = read_params Between (ps ++ [(bytes_of name, mangled value)]) l.
Proof. intros Hn. unfold escaped. rewrite escapeSDValue_bytes. by apply read_param. Qed.

Lemma read_optional (present : bool) name value ps l : "="%char ∉ bytes_of name ->
  read_params Between ps ((if present then escaped name value else []) ++ l) =
  read_params Between (ps ++ optional_param present name (mangled value)) l.
Proof. intros Hn. destruct present; [by apply read_escaped_param|]. cbn [optional_param app]. by rewrite app_nil_r. Qed.

Lemma read_flag b name ps l : "="%char ∉ bytes_of name ->
  read_params Between ps (sd_flag b name ++ l) = read_params Between (ps ++ optional_param b name (bytes_of "true")) l.
Proof.
  intros Hn. destruct b; cbn [sd_flag optional_param app]; [|by rewrite app_nil_r].
  by apply (read_param name (bytes_of "true")).
Qed.

Lemma sd_if (b : bool) (sd x : list ascii) : (if b then sd ++ x else sd) = sd ++ (if b then x else []).
Proof. destruct b; [done|]. by rewrite app_nil_r. Qed.

Ltac no_equals := vm_compute; set_solver.

(** A reader of the structured data gets every parameter in its order with its value,
    with bytes that are not ASCII mangled, and what follows it. *)
Lemma structured_data_reads entry l :
  exists body, formatStructuredData entry ++ l = bytes_of "[bibd@0" ++ body /\
    read_params Between [] body = Some (sent_params entry, l).
Proof.
  unfold formatStructuredData. rewrite !sd_if, <- !app_assoc. eexists. split; [reflexivity|].
  rewrite 4!read_escaped_param by no_equals. rewrite 3!read_optional by no_equals. rewrite 3!read_flag by no_equals.
  cbn [app]. cbn [read_params]. rewrite bool_decide_eq_true_2 by done. f_equal. f_equal.
  unfold sent_params. rewrite <- !app_assoc. reflexivity.
Qed.

(** *** Reading a message *)

Definition graphic (c : ascii) : bool := is_digit c || (c =?= "-"%char) || (c =?= ":"%char) || (c =?= "."%char) || (c =?= "T"%char) || (c =?= "Z"%char).

Lemma pretty_N_go_graphic n s : Forall (fun c => graphic c = true) (bytes_of s) -> Forall (fun c => graphic c = true) (bytes_of (pretty_N_go n s)).
Proof.
  revert s. induction (N.lt_wf_0 n) as [n _ IH]. intros s Hs. destruct (decide (0 < n)%N) as [Hn|Hn].
  - rewrite pretty_N_go_step by done. apply IH; [by apply N.div_lt|]. cbn. constructor; [|done].
    unfold pretty_N_char. by repeat case_match.
  - assert (n = 0)%N as -> by lia. by rewrite pretty_N_go_0.
Qed.
Lemma pretty_N_graphic (n : N) : Forall (fun c => graphic c = true) (bytes_of (pretty n)).
Proof. unfold pretty, pretty_N. case_decide; [by repeat constructor|]. by apply pretty_N_go_graphic. Qed.
Lemma pretty_Z_graphic (z : Z) : Forall (fun c => graphic c = true) (bytes_of (pretty z)).
Proof.
  destruct z; cbn -[pretty_N_go]; unfold pretty, pretty_Z; [by repeat constructor|apply pretty_N_graphic|].
  constructor; [done|apply pretty_N_graphic].
Qed.

Lemma dec_digit_graphic n : graphic (dec_digit (n `mod` 10)) = true.
Proof.
  assert (Hb : n `mod` 10 < 10) by (apply Z.mod_pos_bound; lia).
  assert (Hall : forall m, 0 <= m < 10 -> graphic (dec_digit m) = true).
  { apply (forall_below 10 (fun m => graphic (dec_digit m))). vm_compute. reflexivity. }
  apply Hall. split; [apply Z.mod_pos_bound; lia|done].
Qed.
Lemma pad_graphic k n : Forall (fun c => graphic c = true) (pad k n).
Proof.
  revert n. induction k as [|k IH]; intros n; cbn; [constructor|]. apply Forall_app. split; [apply IH|].
  constructor; [apply dec_digit_graphic|constructor].
Qed.
Lemma drop_while_Forall {A} (P : A -> Prop) p (l : list A) : Forall P l -> Forall P (drop_while p l).
Proof. intros H. destruct (drop_while_suffix p l) as (k & Hk & _). rewrite Hk in H. by apply Forall_app in H as [_ ?]. Qed.
Lemma fraction_graphic n : Forall (fun c => graphic c = true) (fraction_text n).
Proof. unfold fraction_text. case_match; [constructor|]. constructor; [done|]. apply Forall_rev, drop_while_Forall, Forall_rev, pad_graphic. Qed.
Lemma time_bytes_graphic t : Forall (fun c => graphic c = true) (time_bytes t).
Proof.
  unfold time_bytes, second_text. case_match. rewrite !Forall_app, Forall_cons. repeat split; try apply pad_graphic.
  - unfold month_day_text. case_match. rewrite Forall_app, !Forall_cons. repeat split; apply pad_graphic.
  - unfold clock_text. rewrite !Forall_app, !Forall_cons. repeat split; apply pad_graphic.
  - apply fraction_graphic.
  - by repeat constructor.
Qed.

Lemma graphic_avoids (c : ascii) l : graphic c = false -> Forall (fun c => graphic c = true) l -> c ∉ l.
Proof. intros Hc Hl Hin. rewrite Forall_forall in Hl. apply Hl in Hin. congruence. Qed.

Lemma until_app c t l : c ∉ t -> until c (t ++ c :: l) = Some (t, l).
Proof.
  induction t as [|x t IH]; intros Hc; cbn; [by rewrite bool_decide_eq_true_2|].
  rewrite bool_decide_eq_false_2 by set_solver. by rewrite IH by set_solver.
Qed.

Lemma read_tokens_cons n t l :
  " "%char ∉ t -> read_tokens (S n) (t ++ " "%char :: l) = match read_tokens n l with Some (ts, rest) => Some (t :: ts, rest) | None => None end.
Proof. intros Ht. cbn [read_tokens]. by rewrite until_app. Qed.

Definition no_blank (s : string) : Prop := " "%char ∉ bytes_of s.

Definition reported_hostname {T} (e : SyslogExporter (TLSConfig := T)) : string :=
  if SC_Hostname (SE_config e) =?= "" then "-"%string else SC_Hostname (SE_config e).

(** A message of an exporter whose name, tag and operation have no blanks is read back
    field by field: the priority is the facility and the severity, and the parameters
    are those of the entry. *)
Lemma message_reads {T} (e : SyslogExporter (TLSConfig := T)) entry :
  no_blank (reported_hostname e) -> no_blank (SC_Tag (SE_config e)) -> no_blank (AuditEntry_OperationID entry) ->
  read_message (formatMessage e entry) =
    Some (mkMessage (bytes_of (pretty (i64 (i64 (SE_facility e * 8) + determineSeverity entry)))) (bytes_of "1")
      [time_bytes (AuditEntry_Timestamp entry); bytes_of (reported_hostname e); bytes_of (SC_Tag (SE_config e)); bytes_of "-";
       bytes_of (AuditEntry_OperationID entry)]
      (bytes_of "bibd@0") (sent_params entry) (message_text entry)).
Proof.
  intros Hh Ht Ho. unfold formatMessage. fold (reported_hostname e). cbv zeta. unfold read_message. cbn [app].
  rewrite bool_decide_eq_true_2 by done. cbn [negb].
  rewrite until_app by (apply graphic_avoids; [done|apply pretty_Z_graphic]).
  rewrite (until_app " "%char (bytes_of (pretty 1))) by (apply graphic_avoids; [done|apply pretty_Z_graphic]).
  rewrite read_tokens_cons by (apply graphic_avoids; [done|apply time_bytes_graphic]).
  rewrite read_tokens_cons by done. rewrite read_tokens_cons by done.
  match goal with |- context [read_tokens 2 (?d :: ?b :: ?r)] => change (d :: b :: r) with ([d] ++ b :: r) end.
  rewrite read_tokens_cons by set_solver. rewrite read_tokens_cons by done. cbn [read_tokens].
  destruct (structured_data_reads entry (" "%char :: message_text entry ++ [syslog_line_end])) as (body & -> & Hb).
  cbn [bytes_of app String.list_ascii_of_string]. rewrite bool_decide_eq_true_2 by done. cbn [negb].
  change (drop sd_id_length _) with body. rewrite Hb. rewrite bool_decide_eq_true_2 by done.
  rewrite last_snoc, bool_decide_eq_true_2 by done. cbn [andb]. rewrite removelast_last. reflexivity.
Qed.

Lemma mangled_byte_id c : mangled_byte c = [c] <-> is_ascii_byte c = true.
Proof.
  assert (H : forallb (fun c => Bool.eqb (mangled_byte c =?= [c]) (is_ascii_byte c)) all_bytes = true) by (vm_compute; reflexivity).
  apply (bytes_forall _) with (c := c) in H. cbv beta in H. apply Bool.eqb_prop in H.
  rewrite <- H. symmetry. apply bool_decide_eq_true.
Qed.
Lemma mangled_byte_grows c : (length (mangled_byte c) = 1 \/ length (mangled_byte c) = 8)%nat.
Proof.
  assert (H : forallb (fun c => Nat.eqb (length (mangled_byte c)) 1 || Nat.eqb (length (mangled_byte c)) 8) all_bytes = true)
    by (vm_compute; reflexivity).
  apply (bytes_forall _) with (c := c) in H. cbv beta in H. apply orb_true_iff in H. by rewrite !Nat.eqb_eq in H.
Qed.
Lemma concat_mangled_length l : (length l <= length (concat (map mangled_byte l)))%nat.
Proof. induction l as [|c l IH]; [done|]. cbn. rewrite length_app. destruct (mangled_byte_grows c); lia. Qed.

(** A value arrives as it is exactly when it is ASCII. *)
Lemma mangled_ascii s : mangled s = bytes_of s <-> is_ascii s = true.
Proof.
  unfold mangled, is_ascii. generalize (bytes_of s). clear s. intros l. split.
  - induction l as [|c l IH]; [done|]. cbn. intros H.
    pose proof (concat_mangled_length l) as Hl. pose proof (f_equal length H) as Hlen. cbn in Hlen. rewrite length_app in Hlen.
    destruct (mangled_byte_grows c) as [Hc|Hc]; [|lia].
    destruct (mangled_byte c) as [|x [|??]] eqn:Hm; [done| |done]. injection H as -> H.
    rewrite (proj1 (mangled_byte_id c)) by done. by apply IH.
  - induction l as [|c l IH]; [done|]. cbn. intros [Hc Hl]%andb_true_iff. rewrite (proj2 (mangled_byte_id c)) by done.
    cbn. by rewrite IH.
Qed.

(** A message of an exporter whose host name, tag and operation have no blanks is read back
    by the rules of RFC 5424: the priority gives facility and severity, and the parameters have
    the values of the entry, however they are quoted, bracketed or escaped, if these are
    ASCII, and others if they are not. *)
Theorem syslog_reads_back {T} (e : SyslogExporter (TLSConfig := T)) entry m :
  0 <= SE_facility e < 24 ->
  no_blank (reported_hostname e) -> no_blank (SC_Tag (SE_config e)) -> no_blank (AuditEntry_OperationID entry) ->
  read_message (formatMessage e entry) = Some m ->
  (exists pri, sm_priority m = bytes_of (pretty pri) /\ pri / 8 = SE_facility e /\ pri `mod` 8 = determineSeverity entry) /\
  sm_sd_id m = bytes_of "bibd@0" /\ sm_text m = message_text entry /\
  forall name value, (name, value) ∈ [("node_id", AuditEntry_NodeID entry); ("op_id", AuditEntry_OperationID entry);
      ("action", AuditEntry_Action entry); ("role", AuditEntry_RoleUsed entry)]%string ->
    (exists read, (bytes_of name, read) ∈ sm_params m /\ (read = bytes_of value <-> is_ascii value = true)).
Proof.
  intros Hf Hh Ht Ho Hr. rewrite message_reads in Hr by done. injection Hr as <-. cbn [sm_priority sm_sd_id sm_text sm_params].
  split; [|split; [done|split; [done|]]].
  - eexists. split; [reflexivity|]. assert (Hs : 0 <= determineSeverity entry < 8) by (unfold determineSeverity, SeverityWarning, SeverityNotice, SeverityInfo; repeat case_match; lia).
    rewrite !i64_id by (unfold is_i64; rewrite ?i64_id by (unfold is_i64; lia); lia).
    split; [rewrite Z.add_comm, Z.div_add by lia; rewrite Z.div_small by lia; lia|].
    rewrite Z.add_comm, Z.mod_add by lia. by apply Z.mod_small.
  - intros name value Hin. exists (mangled value). split; [|apply mangled_ascii].
    unfold sent_params. apply elem_of_app. left. set_solver.
Qed.

(** *** Delivery *)

Definition delivered {T} (tr : list (SyslogEvent (TLSConfig := T))) : list (list ascii) :=
  omap (fun ev => match ev with Write m true => Some m | _ => None end) tr.
Definition failures {T} (tr : list (SyslogEvent (TLSConfig := T))) : nat :=
  length (List.filter (fun ev => match ev with Write _ ok | Dial _ _ ok => negb ok | CloseConn _ => false end) tr).

Lemma delivered_app {T} (a b : list (SyslogEvent (TLSConfig := T))) : delivered (a ++ b) = delivered a ++ delivered b.
Proof. apply omap_app. Qed.
Lemma failures_app {T} (a b : list (SyslogEvent (TLSConfig := T))) : failures (a ++ b) = (failures a + failures b)%nat.
Proof. unfold failures. by rewrite List.filter_app, length_app. Qed.

Section delivery.
Context {T : Type} (net : list (SyslogEvent (TLSConfig := T)) -> bool).
Implicit Types (e : SyslogExporter (TLSConfig := T)) (tr new : list (SyslogEvent (TLSConfig := T))).

(** What an exporter keeps when it connects and sends. *)
Definition same_exporter e e' : Prop :=
  SE_config e' = SE_config e /\ SE_closed e' = SE_closed e /\ SE_facility e' = SE_facility e.

(** The part of a round that gets a connection. *)
Lemma connected_events e tr :
  exists new, let '(e', tr', err) := if SE_conn e then (e, tr, None) else connectLocked net e tr in
    tr' = tr ++ new /\ delivered new = [] /\ same_exporter e e' /\ (failures new <= 1)%nat /\
    match err with
    | None => failures new = 0%nat
    | Some _ => dial_of (SE_config e) <> None -> failures new = 1%nat
    end.
Proof.
  destruct (SE_conn e); [exists []; rewrite app_nil_r; repeat split; auto|]. unfold connectLocked.
  destruct (dial_of (SE_config e)) as [k|]; [|exists []; rewrite app_nil_r; repeat split; auto; done].
  destruct (net tr); eexists; (split; [reflexivity|]); repeat split; auto.
Qed.

Definition failed_write m tr : list (SyslogEvent (TLSConfig := T)) := [Write m false; CloseConn (net (tr ++ [Write m false]))].

Lemma write_once_events e m tr :
  write_once net e m tr = if net tr then (e, tr ++ [Write m true], None) else (set_conn e false, tr ++ failed_write m tr, Some SEWrite).
Proof. unfold write_once, failed_write. destruct (net tr); [done|]. by rewrite <- app_assoc. Qed.

Lemma send_loop_events n e m last tr :
  exists new, let '(e', tr', err) := send_loop net n e m last tr in
    tr' = tr ++ new /\ same_exporter e e' /\ delivered new = match err with None => [m] | Some _ => [] end /\
    (failures new <= n)%nat /\ (err <> None -> dial_of (SE_config e) <> None -> failures new = n).
Proof.
  revert e last tr. induction n as [|n IH]; intros e last tr; cbn [send_loop].
  { exists []. rewrite app_nil_r. repeat split; auto. }
  destruct (connected_events e tr) as [c Hc]. destruct (if SE_conn e then _ else _) as [[e1 tr1] [err|]];
    destruct Hc as (-> & Hd & (Hcf & Hcl & Hfa) & Hf1 & Hf).
  - destruct (IH e1 (Some err) (tr ++ c)) as [new Hnew].
    exists (c ++ new). destruct (send_loop net n e1 m (Some err) (tr ++ c)) as [[e2 tr2] err2].
    destruct Hnew as (-> & (Hcf2 & Hcl2 & Hfa2) & Hd2 & Hle & Heq). rewrite <- app_assoc, delivered_app, failures_app, Hd.
    repeat split; try congruence; [done|lia|]. intros H1 H2. rewrite Hf, Heq by congruence. done.
  - rewrite write_once_events. destruct (net (tr ++ c)).
    + exists (c ++ [Write m true]). rewrite app_assoc, delivered_app, failures_app, Hd, Hf. repeat split; auto; [cbn; lia|done].
    + destruct (IH (set_conn e1 false) (Some SEWrite) ((tr ++ c) ++ failed_write m (tr ++ c))) as [new Hnew].
      exists (c ++ failed_write m (tr ++ c) ++ new). destruct (send_loop net n _ m _ _) as [[e2 tr2] err2].
      destruct Hnew as (-> & (Hcf2 & Hcl2 & Hfa2) & Hd2 & Hle & Heq). cbn in Hcf2, Hcl2, Hfa2, Heq.
      rewrite !delivered_app, !failures_app, Hd, Hf. rewrite <- !app_assoc. repeat split; try congruence; [done|cbn; lia|].
      intros H1 H2. rewrite Heq by congruence. done.
Qed.

(** A message is delivered once or not at all, and the caller is told which; it is not
    only if as many calls of the network failed as there are attempts. *)
Theorem sent_once e m tr :
  exists new, let '(e', tr', err) := send net e m tr in
    tr' = tr ++ new /\ same_exporter e e' /\ delivered new = match err with None => [m] | Some _ => [] end /\
    (err <> None -> SE_closed e = false -> dial_of (SE_config e) <> None -> Z.of_nat (failures new) = Z.max 0 (SC_MaxRetries (SE_config e) + 1)).
Proof.
  unfold send. destruct (SE_closed e); [exists []; rewrite app_nil_r; repeat split; auto; done|].
  destruct (send_loop_events (Z.to_nat (SC_MaxRetries (SE_config e) + 1)) e m None tr) as [new Hnew]. exists new.
  destruct (send_loop _ _ _ _ _ _) as [[e' tr'] err]. destruct Hnew as (-> & Hs & Hd & _ & Heq). split; [done|].
  split; [done|]. split; [done|]. intros He _ Hk. rewrite Heq by done. lia.
Qed.

Lemma same_message e e' entry : same_exporter e e' -> formatMessage e' entry = formatMessage e entry.
Proof. intros (Hc & _ & Hf). unfold formatMessage. by rewrite Hc, Hf. Qed.

Lemma export_entries_events e entries tr : SE_closed e = false ->
  exists k new, let '(e', tr', err) := export_entries net (Some e) entries tr in
    tr' = tr ++ new /\ delivered new = map (formatMessage e) (take k entries) /\
    match err with None => k = length entries | Some _ => (k < length entries)%nat end.
Proof.
  revert e tr. induction entries as [|entry entries IH]; intros e tr Hcl; cbn [export_entries].
  { exists 0%nat, []. by rewrite app_nil_r. }
  unfold SyslogExporter_Export. rewrite Hcl. destruct (sent_once e (formatMessage e entry) tr) as [n1 Hn1].
  destruct (send net e (formatMessage e entry) tr) as [[e1 tr1] [err|]]; destruct Hn1 as (-> & Hs & Hd & _).
  - exists 0%nat, n1. cbn. repeat split; auto; lia.
  - destruct (IH e1 (tr ++ n1)) as (k & new & Hnew); [destruct Hs as (_ & -> & _); done|].
    exists (S k), (n1 ++ new). destruct (export_entries net (Some e1) entries (tr ++ n1)) as [[e2 tr2] err2].
    destruct Hnew as (-> & Hd2 & Hk). rewrite <- app_assoc, delivered_app, Hd, Hd2. cbn [take map app].
    repeat split; [|destruct err2; cbn; lia].
    f_equal. apply map_ext. intros x. by apply same_message.
Qed.

(** A batch is delivered in its order up to the first entry that fails, each entry
    once; the caller gets no error exactly when all of it was delivered. *)
Theorem batch_delivers_prefix e entries tr : SE_closed e = false ->
  exists k new, let '(e', tr', err) := ExportBatch net (Some e) entries tr in
    tr' = tr ++ new /\ delivered new = map (formatMessage e) (take k entries) /\
    (err = None <-> (length entries <= k)%nat).
Proof.
  intros Hcl. unfold ExportBatch. rewrite Hcl. destruct (export_entries_events e entries tr Hcl) as (k & new & Hnew).
  exists k, new. destruct (export_entries _ _ _ _) as [[e' tr'] [err|]]; destruct Hnew as (-> & Hd & Hk); repeat split; auto; done || lia.
Qed.
End delivery.

(** ** Witnesses and examples *)

Definition sample_entry : AuditEntry :=
  mkAuditEntry 1 (63838286645 * Second) "node-1]" "" "op-7" "bibd_admin" ActionDDL "topics" "" "" 3 12 "cli" "" [] "" "" (mkFlags true false false false).
Definition sample_exporter : SyslogExporter (TLSConfig := unit) :=
  mkSyslogExporter (mkSyslogConfig true "udp" "localhost:514" false None FacilityLocal0 "bibd" "" (30 * Second) 3) true false FacilityLocal0 SeverityInfo.
Definition sample_message : syslog_message := Eval vm_compute in
  default (mkMessage [] [] [] [] [] []) (read_message (formatMessage sample_exporter sample_entry)).

Lemma syslog_reads_back_witness : exists pri, sm_priority sample_message = bytes_of (pretty pri) /\ pri / 8 = 16 /\ pri `mod` 8 = 5.
Proof.
  destruct (syslog_reads_back sample_exporter sample_entry sample_message) as [Hp _];
    [split; [apply Z.leb_le; reflexivity|reflexivity]|vm_compute; set_solver|vm_compute; set_solver|vm_compute; set_solver|vm_compute; reflexivity|].
  exact Hp.
Defined.

Definition third_call_fails {T} (tr : list (SyslogEvent (TLSConfig := T))) : bool := negb (length tr =? 2)%nat.

Lemma batch_delivers_prefix_witness :
  exists k new, let '(e', tr', err) := ExportBatch third_call_fails (Some sample_exporter) [sample_entry; sample_entry; sample_entry] [] in
    tr' = [] ++ new /\ delivered new = map (formatMessage sample_exporter) (take k [sample_entry; sample_entry; sample_entry]) /\
    (err = None <-> (3 <= k)%nat).
Proof. apply (batch_delivers_prefix third_call_fails sample_exporter [sample_entry; sample_entry; sample_entry] []). reflexivity. Defined.

(** The letter e with an accent is two bytes, and arrives as 16. *)
Example accent_mangled : length (escapeSDValue [ascii_of_N 195; ascii_of_N 169]) = 16%nat.
Proof. reflexivity. Qed.

(** With a negative number of retries nothing is tried. *)
Example negative_retries :
  let cfg := mkSyslogConfig (TLSConfig := unit) true "udp" "localhost:514" false None FacilityLocal0 "bibd" "" 0 (-1) in
  send (fun _ => true) (mkSyslogExporter cfg true false FacilityLocal0 SeverityInfo) [syslog_line_end] [] =
    (mkSyslogExporter cfg true false FacilityLocal0 SeverityInfo, [], Some (SEFailed (-1) None)).
Proof. reflexivity. Qed.

(** A line end in the name of a table ends the line of the message. *)
Example table_ends_line :
  syslog_line_end ∈ message_text (mkAuditEntry 1 0 "n" "" "o" "r" ActionSelect (String syslog_line_end EmptyString) "" "" 0 0 "" "" [] "" "" no_flags).
Proof. vm_compute. set_solver. Qed.
