(* ===== verification/AuditExport.v ===== *)
(** * Where audit entries go ([internal/storage/audit/stream.go], [file.go], [s3.go])

    The streamer keeps the most recent entries and hands each entry to its
    subscribers; batches, files and object storage take them from there.

    An entry's metadata may hold, under [alerts], the alerts it raised, and each
    of them points back to the entry: the list [lg_alerts] stands for that value.
    Encoding such an entry as JSON fails, because it contains itself.  JSON is the
    class [EntryJSON]: an encoded entry is one line.  A file is the text written to
    it, with buffered text counted and compression undone.  Input and output
    succeed, except that an upload may fail, which is an argument. *)
From stdpp Require Import base gmap strings list sorting.
From Stdlib Require Import ZArith Lia Ascii.
From S2P Require Import Prelude GoStrings GoTime AuditLog Alerts.
Local Open Scope Z_scope.

Record Logged := mkLogged {
  lg_entry : AuditEntry;
  lg_alerts : list Alert
}.

Definition newline : ascii := ascii_of_N 10.

Class EntryJSON := {
  marshal_entry : AuditEntry -> option (list ascii);
  unmarshal_entry : list ascii -> option AuditEntry;
  marshal_one_line e d : marshal_entry e = Some d -> (newline ∉ d) /\ last d = Some "}"%char
}.

Definition marshal `{EntryJSON} (e : Logged) : option (list ascii) :=
  match lg_alerts e with [] => marshal_entry (lg_entry e) | _ => None end.

(** ** Streaming *)

Record channel := mkChannel {
  ch_cap : Z;
  ch_queue : list Logged;
  ch_closed : bool
}.

(** The channels are numbered in the order of their creation. *)
Record Streamer := mkStreamer {
  st_subscribers : gmap string nat;
  st_channels : list channel;
  st_buffer : list Logged;
  st_bufferSize : Z;
  st_closed : bool
}.

Record StreamerConfig := mkStreamerConfig {
  StreamerConfig_BufferSize : Z;
  StreamerConfig_ChannelSize : Z
}.
Definition DefaultStreamerConfig : StreamerConfig := mkStreamerConfig 1000 100.

Definition NewStreamer (cfg : StreamerConfig) : Streamer :=
  mkStreamer ∅ [] []
    (if StreamerConfig_BufferSize cfg <=? 0 then 1000 else StreamerConfig_BufferSize cfg) false.

Definition subscribed (s : Streamer) (i : nat) : bool :=
  mem i (map snd (map_to_list (st_subscribers s))).

(** A send that does not block: dropped when the channel is full. *)
Definition offer (entry : Logged) (ch : channel) : channel :=
  if Z.of_nat (length (ch_queue ch)) <? ch_cap ch
  then mkChannel (ch_cap ch) (ch_queue ch ++ [entry]) (ch_closed ch) else ch.

Definition ring_add (size : Z) (buffer : list Logged) (entry : Logged) : list Logged :=
  (if size <=? Z.of_nat (length buffer) then tail buffer else buffer) ++ [entry].

(** A send on a closed channel panics, [None]. *)
Definition Publish (s : Streamer) (entry : Logged) : option Streamer :=
  if st_closed s then Some s
  else if existsb (fun i => match st_channels s !! i with Some ch => ch_closed ch | None => true end)
            (map snd (map_to_list (st_subscribers s))) then None
  else Some (mkStreamer (st_subscribers s)
               (imap (fun i ch => if subscribed s i then offer entry ch else ch) (st_channels s))
               (ring_add (st_bufferSize s) (st_buffer s) entry) (st_bufferSize s) (st_closed s)).

(** The channel's number and the streamer. *)
Definition Subscribe (s : Streamer) (id : string) (channelSize : Z) : nat * Streamer :=
  let size := if channelSize <=? 0 then 100 else channelSize in
  (length (st_channels s),
   mkStreamer (<[id := length (st_channels s)]> (st_subscribers s))
     (st_channels s ++ [mkChannel size [] false]) (st_buffer s) (st_bufferSize s) (st_closed s)).

Definition close_channel (chs : list channel) (i : nat) : list channel :=
  alter (fun ch => mkChannel (ch_cap ch) (ch_queue ch) true) i chs.

(** The function [Subscribe] returns. *)
Definition unsubscribe (s : Streamer) (id : string) : Streamer :=
  match st_subscribers s !! id with
  | Some i => mkStreamer (delete id (st_subscribers s)) (close_channel (st_channels s) i)
                (st_buffer s) (st_bufferSize s) (st_closed s)
  | None => s
  end.

(** A subscriber takes the oldest entry of its channel. *)
Definition receive (s : Streamer) (i : nat) : Streamer :=
  mkStreamer (st_subscribers s)
    (alter (fun ch => mkChannel (ch_cap ch) (tail (ch_queue ch)) (ch_closed ch)) i (st_channels s))
    (st_buffer s) (st_bufferSize s) (st_closed s).

Definition SubscriberCount (s : Streamer) : Z := Z.of_nat (size (st_subscribers s)).

Definition RecentEntries (s : Streamer) (limit : Z) : list Logged :=
  let n := Z.of_nat (length (st_buffer s)) in
  let limit := if (limit <=? 0) || (n <? limit) then n else limit in
  drop (Z.to_nat (n - limit)) (st_buffer s).

Definition Streamer_Close (s : Streamer) : Streamer :=
  if st_closed s then s
  else mkStreamer ∅ (foldr (fun i chs => close_channel chs i) (st_channels s)
                       (map snd (map_to_list (st_subscribers s))))
         (st_buffer s) (st_bufferSize s) true.

(** ** Batches ([BatchedStreamer]) *)

(** [bs_handled] holds the batches the handler was given, the first one first. *)
Record BatchedStreamer := mkBatchedStreamer {
  bs_batchSize : Z;
  bs_batch : list Logged;
  bs_handled : list (list Logged)
}.

Definition NewBatchedStreamer (batchSize : Z) : BatchedStreamer :=
  mkBatchedStreamer (if batchSize <=? 0 then 100 else batchSize) [] [].

Definition flush (b : BatchedStreamer) : BatchedStreamer :=
  match bs_batch b with
  | [] => b
  | batch => mkBatchedStreamer (bs_batchSize b) [] (bs_handled b ++ [batch])
  end.

Definition addToBatch (b : BatchedStreamer) (entry : Logged) : BatchedStreamer :=
  let b := mkBatchedStreamer (bs_batchSize b) (bs_batch b ++ [entry]) (bs_handled b) in
  if bs_batchSize b <=? Z.of_nat (length (bs_batch b)) then flush b else b.

(** What the loop of [Start] selects: an entry, the timer, or the end. *)
Inductive batch_event := EvEntry (e : Logged) | EvTimer.
Definition batch_step (b : BatchedStreamer) (ev : batch_event) : BatchedStreamer :=
  match ev with EvEntry e => addToBatch b e | EvTimer => flush b end.
Definition batch_loop (b : BatchedStreamer) (evs : list batch_event) : BatchedStreamer :=
  flush (fold_left batch_step evs b).

(** ** Object storage ([S3Exporter]) *)

Record S3ExportConfig := mkS3ExportConfig {
  S3_Enabled : bool;
  S3_Bucket : string;
  S3_Prefix : string;
  S3_BatchSize : Z;
  S3_FlushInterval : Duration;
  S3_Compress : bool;
  S3_PartitionBy : string
}.
Definition DefaultS3ExportConfig : S3ExportConfig :=
  mkS3ExportConfig false "" "audit/" 1000 (5 * Minute) true "hour".

(** The bucket's objects, each the lines of a batch. *)
Record S3Exporter := mkS3Exporter {
  s3_config : S3ExportConfig;
  s3_objects : gmap string (list (list ascii));
  s3_buffer : list Logged;
  s3_closed : bool;
  s3_lastSync : Time
}.

Definition NewS3Exporter (cfg : S3ExportConfig) (objects : gmap string (list (list ascii))) (now : Time)
    : option S3Exporter :=
  if negb (S3_Enabled cfg) then None else Some (mkS3Exporter cfg objects [] false now).

(** Year, month, day and seconds of the day. *)
Definition civil (t : Time) : Z * Z * Z * Z :=
  let '(year, yday) := year_and_day (seconds_of t / 86400) in
  let '(m, d) := month_and_day (month_lengths (is_leap year)) 1 yday in
  (year, m, d, seconds_of t `mod` 86400).

Definition partition_text (by_ : string) (t : Time) : list ascii :=
  let '(y, m, d, s) := civil t in
  let month := pad 4 y ++ ["/"%char] ++ pad 2 m in
  if by_ =?= "day"%string then month ++ ["/"%char] ++ pad 2 d
  else if by_ =?= "month"%string then month
  else month ++ ["/"%char] ++ pad 2 d ++ ["/"%char] ++ pad 2 (s / 3600).

Definition stamp_text (t : Time) : list ascii :=
  let '(y, m, d, s) := civil t in
  pad 4 y ++ pad 2 m ++ pad 2 d ++ ["T"%char] ++ pad 2 (s / 3600) ++ pad 2 ((s / 60) `mod` 60)
    ++ pad 2 (s `mod` 60) ++ ["Z"%char].

Definition generateKey (cfg : S3ExportConfig) (t : Time) : string :=
  str_of (path_Join [bytes_of (S3_Prefix cfg); partition_text (S3_PartitionBy cfg) t;
                     bytes_of "audit-" ++ stamp_text t
                       ++ bytes_of (if S3_Compress cfg then ".jsonl.gz" else ".jsonl")]).

Fixpoint marshal_all `{EntryJSON} (entries : list Logged) : option (list (list ascii)) :=
  match entries with
  | [] => Some []
  | e :: entries' =>
      match marshal e with
      | None => None
      | Some d => cons d <$> marshal_all entries'
      end
  end.

Inductive ExportError := ErrMarshal | ErrUpload.

Section exporters.
Context `{EntryJSON}.

Definition flushLocked (x : S3Exporter) (now : Time) (put_ok : bool) : S3Exporter * option ExportError :=
  match s3_buffer x with
  | [] => (x, None)
  | e :: _ =>
      let key := generateKey (s3_config x) (AuditEntry_Timestamp (lg_entry e)) in
      match marshal_all (s3_buffer x) with
      | None => (mkS3Exporter (s3_config x) (s3_objects x) [] (s3_closed x) now, Some ErrMarshal)
      | Some lines =>
          if put_ok then
            (mkS3Exporter (s3_config x) (<[key := lines]> (s3_objects x)) [] (s3_closed x) now, None)
          else (mkS3Exporter (s3_config x) (s3_objects x) (s3_buffer x) (s3_closed x) now, Some ErrUpload)
      end
  end.

Definition S3_Export (x : S3Exporter) (entry : Logged) (now : Time) (put_ok : bool)
    : S3Exporter * option ExportError :=
  if s3_closed x then (x, None)
  else
    let x := mkS3Exporter (s3_config x) (s3_objects x) (s3_buffer x ++ [entry]) (s3_closed x) (s3_lastSync x) in
    if S3_BatchSize (s3_config x) <=? Z.of_nat (length (s3_buffer x)) then flushLocked x now put_ok
    else (x, None).

Definition S3_Flush (x : S3Exporter) (now : Time) (put_ok : bool) : S3Exporter * option ExportError :=
  if s3_closed x then (x, None) else flushLocked x now put_ok.

Definition S3_Close (x : S3Exporter) (now : Time) (put_ok : bool) : S3Exporter * option ExportError :=
  if s3_closed x then (x, None)
  else S3_Flush (mkS3Exporter (s3_config x) (s3_objects x) (s3_buffer x) true (s3_lastSync x)) now put_ok.

(** [ExportBatch] stops at the first error. *)
Fixpoint S3_ExportBatch (x : S3Exporter) (entries : list (Logged * Time * bool))
    : S3Exporter * option ExportError :=
  match entries with
  | [] => (x, None)
  | (e, now, ok) :: entries' =>
      match S3_Export x e now ok with
      | (x, None) => S3_ExportBatch x entries'
      | (x, Some err) => (x, Some err)
      end
  end.
End exporters.

Definition ReadBatch `{EntryJSON} (x : S3Exporter) (key : string) : option (list AuditEntry) :=
  match s3_objects x !! key with
  | None => None
  | Some lines => mapM unmarshal_entry lines
  end.

(** ** Files ([FileExporter]) *)

Record FileExportConfig := mkFileExportConfig {
  File_Enabled : bool;
  File_Directory : string;
  File_Prefix : string;
  File_MaxFileSize : Z;
  File_MaxAge : Duration;
  File_Compress : bool;
  File_RotationInterval : Duration;
  File_BufferSize : Z
}.
Definition DefaultFileExportConfig : FileExportConfig :=
  mkFileExportConfig false "./audit-logs" "audit" (100 * 1024 * 1024) (90 * 24 * Hour) true (24 * Hour)
    (64 * 1024).

(** The files of the directory: their text and the time of the last change. *)
Record FileExporter := mkFileExporter {
  fx_config : FileExportConfig;
  fx_files : gmap string (list ascii * Time);
  fx_current : string;
  fx_closed : bool;
  fx_count : Z;
  fx_size : Z
}.

Definition file_stamp (t : Time) : list ascii :=
  let '(y, m, d, s) := civil t in
  pad 4 y ++ ["-"%char] ++ pad 2 m ++ ["-"%char] ++ pad 2 d ++ ["T"%char] ++ pad 2 (s / 3600) ++ ["-"%char]
    ++ pad 2 ((s / 60) `mod` 60) ++ ["-"%char] ++ pad 2 (s `mod` 60).

Definition file_name (cfg : FileExportConfig) (now : Time) : string :=
  str_of (bytes_of (File_Prefix cfg) ++ ["-"%char] ++ file_stamp now
          ++ bytes_of (if File_Compress cfg then ".jsonl.gz" else ".jsonl")).

(** The file is opened for appending. *)
Definition openNewFile (x : FileExporter) (now : Time) : FileExporter :=
  let name := file_name (fx_config x) now in
  mkFileExporter (fx_config x) (<[name := default ([], now) (fx_files x !! name)]> (fx_files x))
    name (fx_closed x) 0 0.

Definition NewFileExporter (cfg : FileExportConfig) (files : gmap string (list ascii * Time)) (now : Time)
    : option FileExporter :=
  if negb (File_Enabled cfg) then None
  else Some (openNewFile (mkFileExporter cfg files "" false 0 0) now).

Section files.
Context `{EntryJSON}.

Definition append_line (x : FileExporter) (data : list ascii) (now : Time) : FileExporter :=
  let text := (default ([], now) (fx_files x !! fx_current x)).1 in
  mkFileExporter (fx_config x) (<[fx_current x := (text ++ data ++ [newline], now)]> (fx_files x))
    (fx_current x) (fx_closed x) (fx_count x + 1) (fx_size x + Z.of_nat (length data) + 1).

Definition FileExporter_Export (x : FileExporter) (entry : Logged) (now : Time)
    : FileExporter * option ExportError :=
  if fx_closed x then (x, None)
  else match marshal entry with
       | None => (x, Some ErrMarshal)
       | Some data =>
           let x := if File_MaxFileSize (fx_config x) <? fx_size x + (Z.of_nat (length data) + 1)
                    then openNewFile x now else x in
           (append_line x data now, None)
       end.

Definition FileExporter_Close (x : FileExporter) : FileExporter :=
  mkFileExporter (fx_config x) (fx_files x) (fx_current x) true (fx_count x) (fx_size x).

(** Every file of the directory that is old enough. *)
Definition FileExporter_Cleanup (x : FileExporter) (now : Time) : FileExporter :=
  if File_MaxAge (fx_config x) <=? 0 then x
  else mkFileExporter (fx_config x)
         (filter (fun p : string * (list ascii * Time) =>
            Before p.2.2 (Add now (- File_MaxAge (fx_config x))) = false) (fx_files x))
         (fx_current x) (fx_closed x) (fx_count x) (fx_size x).

(** [bufio.ScanLines]: the lines, without a carriage return at their end; nothing
    after the last newline is no line. *)
Definition drop_cr (l : list ascii) : list ascii :=
  match last l with
  | Some c => if c =?= ascii_of_N 13 then removelast l else l
  | None => l
  end.
Definition scan_lines (text : list ascii) : list (list ascii) :=
  let parts := split_on (fun c => c =?= newline) text in
  map drop_cr (match last parts with Some [] => removelast parts | _ => parts end).

Inductive read_error := ErrTooLong | ErrUnmarshal.

(** [Next] until the end of the file or an error. *)
Fixpoint read_entries (max : Z) (lines : list (list ascii)) : list AuditEntry * option read_error :=
  match lines with
  | [] => ([], None)
  | l :: lines' =>
      if max <? Z.of_nat (length l) + 1 then ([], Some ErrTooLong)
      else match unmarshal_entry l with
           | None => ([], Some ErrUnmarshal)
           | Some e => let '(es, err) := read_entries max lines' in (e :: es, err)
           end
  end.
Definition read_file (text : list ascii) : list AuditEntry * option read_error :=
  read_entries (10 * 1024 * 1024) (scan_lines text).
End files.

(** * Theorems *)

(** ** The streamer *)

Definition lastn {A} (n : nat) (l : list A) : list A := drop (length l - n) l.

Lemma lastn_length {A} n (l : list A) : length (lastn n l) = Nat.min n (length l).
Proof. unfold lastn. rewrite length_drop. lia. Qed.

Lemma lastn_lastn {A} n m (l : list A) : lastn n (lastn m l) = lastn (Nat.min n m) l.
Proof. unfold lastn. rewrite drop_drop, length_drop. f_equal. lia. Qed.

Lemma tail_drop {A} (l : list A) : tail l = drop 1 l.
Proof. by destruct l. Qed.

Lemma ring_add_lastn size l e :
  0 < size -> ring_add size (lastn (Z.to_nat size) l) e = lastn (Z.to_nat size) (l ++ [e]).
Proof.
  intros Hs. unfold ring_add. rewrite lastn_length, tail_drop. unfold lastn.
  rewrite length_app, drop_drop. simpl.
  destruct (Z.leb_spec size (Z.of_nat (Nat.min (Z.to_nat size) (length l)))).
  - rewrite drop_app_le by lia. do 2 f_equal. lia.
  - rewrite drop_app_le by lia. do 2 f_equal. lia.
Qed.

Inductive stream_op :=
| OpPublish (e : Logged)
| OpSubscribe (id : string) (size : Z)
| OpUnsubscribe (id : string)
| OpReceive (i : nat)
| OpClose.

Definition stream_step (s : Streamer) (op : stream_op) : option Streamer :=
  match op with
  | OpPublish e => Publish s e
  | OpSubscribe id size => Some (Subscribe s id size).2
  | OpUnsubscribe id => Some (unsubscribe s id)
  | OpReceive i => Some (receive s i)
  | OpClose => Some (Streamer_Close s)
  end.

Definition stream_run (s : Streamer) (ops : list stream_op) : option Streamer :=
  fold_left (fun o op => o ≫= fun s => stream_step s op) ops (Some s).

(** What was published before the first [Close]. *)
Fixpoint published (ops : list stream_op) : list Logged :=
  match ops with
  | [] => []
  | OpPublish e :: ops' => e :: published ops'
  | OpClose :: _ => []
  | _ :: ops' => published ops'
  end.

(** No two subscriptions share a channel, and theirs are open. *)
Record stream_inv (s : Streamer) : Prop := {
  si_open id i : st_subscribers s !! id = Some i ->
    exists ch, st_channels s !! i = Some ch /\ ch_closed ch = false;
  si_apart id id' i : st_subscribers s !! id = Some i -> st_subscribers s !! id' = Some i -> id = id';
  si_bounds i ch : st_channels s !! i = Some ch -> Z.of_nat (length (ch_queue ch)) <= ch_cap ch
}.

Lemma Publish_ok s e : stream_inv s -> exists s', Publish s e = Some s'.
Proof.
  intros [Ho _ _]. unfold Publish. destruct (st_closed s); [by eexists|].
  destruct (existsb _ _) eqn:Hb; [|by eexists]. exfalso.
  apply existsb_exists in Hb as (i & Hi & Hb). apply list_elem_of_In, list_elem_of_fmap in Hi as ([id i'] & -> & Hi).
  apply elem_of_map_to_list in Hi. destruct (Ho _ _ Hi) as (ch & Hch & Hc). simpl in Hb.
  by rewrite Hch, Hc in Hb.
Qed.

Lemma offer_inv e ch :
  Z.of_nat (length (ch_queue ch)) <= ch_cap ch ->
  ch_closed (offer e ch) = ch_closed ch /\
  Z.of_nat (length (ch_queue (offer e ch))) <= ch_cap (offer e ch).
Proof.
  unfold offer. destruct (Z.ltb_spec (Z.of_nat (length (ch_queue ch))) (ch_cap ch)); [|done].
  intros _. simpl. rewrite length_app. simpl. split; [done|lia].
Qed.

Lemma Publish_inv s e s' : stream_inv s -> Publish s e = Some s' -> stream_inv s'.
Proof.
  intros [Ho Ha Hb] Hp. unfold Publish in Hp. destruct (st_closed s); [by simplify_eq|].
  destruct (existsb _ _); simplify_eq. split; simpl; [|exact Ha|].
  - intros id i Hi. destruct (Ho _ _ Hi) as (ch & Hch & Hc). rewrite list_lookup_imap, Hch. simpl.
    eexists. split; [done|]. destruct (subscribed s i); [|done].
    destruct (offer_inv e ch) as [-> _]; [by eapply Hb|done].
  - intros i ch. rewrite list_lookup_imap. destruct (st_channels s !! i) as [ch'|] eqn:Hi; [|done].
    simpl. intros [= <-]. destruct (subscribed s i); [|by eapply Hb].
    apply offer_inv. by eapply Hb.
Qed.

Lemma Subscribe_inv s id size : stream_inv s -> stream_inv (Subscribe s id size).2.
Proof.
  intros [Ho Ha Hb].
  assert (forall id i, st_subscribers s !! id = Some i -> i < length (st_channels s))%nat as Hlt.
  { intros id' i Hi. destruct (Ho _ _ Hi) as (ch & Hch & _). by eapply lookup_lt_Some. }
  split; simpl.
  - intros id' i. rewrite lookup_insert. case_decide; intros Hi; simplify_eq.
    + rewrite list_lookup_middle by done. by eexists.
    + rewrite lookup_app_l by eauto. eauto.
  - intros id1 id2 i. rewrite !lookup_insert. do 2 case_decide; intros H1 H2; simplify_eq; eauto.
    + apply Hlt in H2. lia.
    + apply Hlt in H1. lia.
  - intros i ch Hi. apply lookup_app_Some in Hi as [Hi|[_ Hi]]; [by eapply Hb|].
    apply list_lookup_singleton_Some in Hi as [_ <-]. simpl.
    destruct (Z.leb_spec size 0); lia.
Qed.

Lemma unsubscribe_inv s id : stream_inv s -> stream_inv (unsubscribe s id).
Proof.
  intros [Ho Ha Hb]. unfold unsubscribe. destruct (st_subscribers s !! id) as [j|] eqn:Hj; [|by split].
  split; simpl.
  - intros id' i [Hne Hi]%lookup_delete_Some. destruct (Ho _ _ Hi) as (ch & Hch & Hc).
    unfold close_channel. assert (i <> j) by (intros ->; apply Hne; by eapply Ha). rewrite list_lookup_alter_ne by done. eauto.
  - intros id1 id2 i [_ H1]%lookup_delete_Some [_ H2]%lookup_delete_Some. eauto.
  - intros i ch. unfold close_channel. destruct (decide (i = j)) as [->|].
    + rewrite list_lookup_alter_eq. intros (ch' & Hch & ->)%fmap_Some. simpl. by eapply Hb.
    + rewrite list_lookup_alter_ne by done. apply Hb.
Qed.

Lemma receive_inv s i : stream_inv s -> stream_inv (receive s i).
Proof.
  intros [Ho Ha Hb]. split; simpl; [|exact Ha|].
  - intros id j Hj. destruct (Ho _ _ Hj) as (ch & Hch & Hc). destruct (decide (j = i)) as [->|].
    + rewrite list_lookup_alter_eq, Hch. by eexists.
    + rewrite list_lookup_alter_ne by done. eauto.
  - intros j ch. destruct (decide (j = i)) as [->|].
    + rewrite list_lookup_alter_eq. intros (ch' & Hch & ->)%fmap_Some. apply Hb in Hch. simpl.
      destruct (ch_queue ch'); simpl in *; lia.
    + rewrite list_lookup_alter_ne by done. apply Hb.
Qed.

Lemma close_channels_bounds chs js :
  (forall i ch, chs !! i = Some ch -> Z.of_nat (length (ch_queue ch)) <= ch_cap ch) ->
  forall i ch, foldr (fun i chs => close_channel chs i) chs js !! i = Some ch ->
    Z.of_nat (length (ch_queue ch)) <= ch_cap ch.
Proof.
  intros Hb. induction js as [|j js IH]; [exact Hb|]. intros i ch. simpl. unfold close_channel at 1.
  destruct (decide (i = j)) as [->|].
  - rewrite list_lookup_alter_eq. intros (ch' & Hch & ->)%fmap_Some. simpl. by apply (IH j).
  - rewrite list_lookup_alter_ne by done. apply IH.
Qed.

Lemma Streamer_Close_inv s : stream_inv s -> stream_inv (Streamer_Close s).
Proof.
  intros [Ho Ha Hb]. unfold Streamer_Close. destruct (st_closed s); [by split|]. split; simpl.
  - intros id i. by rewrite lookup_empty.
  - intros id id' i. by rewrite lookup_empty.
  - by apply close_channels_bounds.
Qed.

Lemma stream_step_inv s op s' : stream_inv s -> stream_step s op = Some s' -> stream_inv s'.
Proof.
  intros Hi Hs. destruct op; simpl in Hs; simplify_eq.
  - by eapply Publish_inv.
  - by apply Subscribe_inv.
  - by apply unsubscribe_inv.
  - by apply receive_inv.
  - by apply Streamer_Close_inv.
Qed.

Lemma stream_step_ok s op : stream_inv s -> exists s', stream_step s op = Some s'.
Proof. intros Hi. destruct op; simpl; [by apply Publish_ok|by eexists..]. Qed.

Lemma stream_step_buffer s op s' :
  stream_step s op = Some s' ->
  st_bufferSize s' = st_bufferSize s /\
  st_closed s' = (match op with OpClose => true | _ => st_closed s end) /\
  st_buffer s' = match op with
                 | OpPublish e => if st_closed s then st_buffer s
                                  else ring_add (st_bufferSize s) (st_buffer s) e
                 | _ => st_buffer s
                 end.
Proof.
  intros Hs. destruct op as [e| | |i|]; simpl in Hs.
  - unfold Publish in Hs. destruct (st_closed s) eqn:Hc; [by simplify_eq|]. destruct (existsb _ _); by simplify_eq.
  - by simplify_eq.
  - unfold unsubscribe in Hs. by destruct (_ !! id); simplify_eq.
  - by simplify_eq.
  - unfold Streamer_Close in Hs. destruct (st_closed s) eqn:Hc; by simplify_eq.
Qed.

Lemma stream_run_closed s ops :
  stream_inv s -> st_closed s = true ->
  exists s', stream_run s ops = Some s' /\ stream_inv s' /\ st_buffer s' = st_buffer s.
Proof.
  revert s. induction ops as [|op ops IH]; intros s Hi Hc; [by exists s|].
  destruct (stream_step_ok s op Hi) as [s1 Hs1]. unfold stream_run. simpl. rewrite Hs1.
  destruct (stream_step_buffer _ _ _ Hs1) as (_ & Hc1 & Hb1).
  destruct (IH s1) as (s' & Hr & Hi' & Hb').
  - by eapply stream_step_inv.
  - rewrite Hc1. by destruct op.
  - exists s'. split_and!; [done|done|]. rewrite Hb', Hb1, Hc. by destruct op.
Qed.

Lemma stream_run_buffer s ops seen :
  stream_inv s -> st_closed s = false -> 0 < st_bufferSize s ->
  st_buffer s = lastn (Z.to_nat (st_bufferSize s)) seen ->
  exists s', stream_run s ops = Some s' /\ stream_inv s' /\
    st_buffer s' = lastn (Z.to_nat (st_bufferSize s)) (seen ++ published ops).
Proof.
  revert s seen. induction ops as [|op ops IH]; intros s seen Hi Hc Hz Hb.
  { exists s. simpl. by rewrite app_nil_r. }
  destruct (stream_step_ok s op Hi) as [s1 Hs1]. unfold stream_run. simpl. rewrite Hs1.
  destruct (stream_step_buffer _ _ _ Hs1) as (Hz1 & Hc1 & Hb1).
  apply stream_step_inv in Hs1 as Hi1; [|done]. rewrite Hc in Hb1, Hc1. rewrite <- Hz1 in *.
  assert (op <> OpClose ->
    exists s', stream_run s1 ops = Some s' /\ stream_inv s' /\
      st_buffer s' = lastn (Z.to_nat (st_bufferSize s1))
        ((match op with OpPublish e => seen ++ [e] | _ => seen end) ++ published ops)) as Hgo.
  { intros Hop. apply IH; [done|by destruct op|lia|]. destruct op; try done; [|congruence..].
    rewrite Hb1, Hb. apply ring_add_lastn. lia. }
  destruct op as [e| | |i|]; try (by apply Hgo).
  - destruct Hgo as (s' & ? & ? & Hs'); [done|]. exists s'. split_and!; [done..|].
    rewrite Hs', <- app_assoc. done.
  - destruct (stream_run_closed s1 ops) as (s' & ? & ? & Hs'); [done..|]. exists s'.
    split_and!; [done..|]. simpl. rewrite app_nil_r. congruence.
Qed.

Lemma RecentEntries_lastn s limit :
  RecentEntries s limit =
  (if limit <=? 0 then st_buffer s else lastn (Z.to_nat limit) (st_buffer s)).
Proof.
  unfold RecentEntries, lastn. destruct (Z.leb_spec limit 0); simpl.
  - by rewrite Z.sub_diag.
  - destruct (Z.ltb_spec (Z.of_nat (length (st_buffer s))) limit).
    + rewrite Z.sub_diag. by replace (_ - _)%nat with O by lia.
    + f_equal. lia.
Qed.

(** Whatever subscribers come, go or lag behind, publishing never panics, no
    channel holds more than its capacity, and [RecentEntries] returns the newest
    of the entries published before the streamer was closed, in their order, up to
    the limit and the buffer's size. *)
Theorem streamer_recent cfg ops limit :
  let size := Z.to_nat (st_bufferSize (NewStreamer cfg)) in
  exists s, stream_run (NewStreamer cfg) ops = Some s /\
    (forall i ch, st_channels s !! i = Some ch -> Z.of_nat (length (ch_queue ch)) <= ch_cap ch) /\
    RecentEntries s limit =
      lastn (if limit <=? 0 then size else Nat.min (Z.to_nat limit) size) (published ops).
Proof.
  intros size. destruct (stream_run_buffer (NewStreamer cfg) ops []) as (s & Hr & Hi & Hb).
  - split; simpl; intros *; by rewrite ?lookup_empty, ?lookup_nil.
  - done.
  - simpl. destruct (Z.leb_spec (StreamerConfig_BufferSize cfg) 0); lia.
  - done.
  - exists s. split_and!; [done|apply Hi|]. rewrite RecentEntries_lastn, Hb. simpl app.
    destruct (limit <=? 0); [done|]. by rewrite lastn_lastn.
Qed.

(** A second subscription under the same name orphans the first one's channel:
    it is never closed, and no entry reaches it any more. *)
Lemma Subscribe_orphans :
  let s := NewStreamer DefaultStreamerConfig in
  let s := (Subscribe s "a" 10).2 in
  let s := (Subscribe s "a" 10).2 in
  let s := Streamer_Close s in
  map ch_closed (st_channels s) = [false; true].
Proof. vm_compute. reflexivity. Qed.

(** ** Batches *)

Lemma flush_batches b :
  concat (bs_handled (flush b)) ++ bs_batch (flush b) = concat (bs_handled b) ++ bs_batch b /\
  bs_batch (flush b) = [] /\ bs_batchSize (flush b) = bs_batchSize b.
Proof.
  unfold flush. destruct (bs_batch b) as [|e l] eqn:Hb; [by rewrite Hb|]. simpl.
  rewrite concat_app. simpl. by rewrite !app_nil_r.
Qed.

Record batch_inv (b : BatchedStreamer) : Prop := {
  bi_size : 0 < bs_batchSize b;
  bi_pending : Z.of_nat (length (bs_batch b)) < bs_batchSize b;
  bi_handled : Forall (fun l => 0 < Z.of_nat (length l) <= bs_batchSize b) (bs_handled b)
}.

Lemma flush_inv b :
  0 < bs_batchSize b -> Z.of_nat (length (bs_batch b)) <= bs_batchSize b ->
  Forall (fun l => 0 < Z.of_nat (length l) <= bs_batchSize b) (bs_handled b) -> batch_inv (flush b).
Proof.
  intros Hz Hp Hh. unfold flush. destruct (bs_batch b) as [|e l] eqn:Hb.
  - split; [done|rewrite Hb; simpl; lia|done].
  - split; simpl in *; [done|lia|]. apply Forall_app. split; [done|]. constructor; [simpl; lia|done].
Qed.

Lemma batch_step_inv b ev : batch_inv b -> batch_inv (batch_step b ev).
Proof.
  intros [Hz Hp Hh]. destruct ev as [e|]; simpl.
  - unfold addToBatch. simpl. rewrite length_app. simpl.
    destruct (Z.leb_spec (bs_batchSize b) (Z.of_nat (length (bs_batch b) + 1))).
    + apply flush_inv; simpl; [done| |done]. rewrite length_app. simpl. lia.
    + split; simpl; [done| |done]. rewrite length_app. simpl. lia.
  - apply flush_inv; [done|lia|done].
Qed.

Definition batch_entries (evs : list batch_event) : list Logged :=
  omap (fun ev => match ev with EvEntry e => Some e | EvTimer => None end) evs.

Lemma batch_steps_all b evs :
  concat (bs_handled (fold_left batch_step evs b)) ++ bs_batch (fold_left batch_step evs b) =
  (concat (bs_handled b) ++ bs_batch b) ++ batch_entries evs.
Proof.
  revert b. induction evs as [|ev evs IH]; intros b; simpl; [by rewrite app_nil_r|]. rewrite IH.
  destruct ev as [e|]; simpl.
  - unfold addToBatch. case_match.
    + destruct (flush_batches (mkBatchedStreamer (bs_batchSize b) (bs_batch b ++ [e]) (bs_handled b))) as [-> _].
      simpl. by rewrite <- !app_assoc.
    + simpl. by rewrite <- !app_assoc.
  - by destruct (flush_batches b) as [-> _].
Qed.

(** The loop of a batched stream hands every entry it received to the handler
    exactly once and in order, in batches that are not empty and not larger than
    the batch size, whenever the timer fires; the last batch goes out at the end. *)
Theorem batches_partition batchSize evs :
  let b := batch_loop (NewBatchedStreamer batchSize) evs in
  concat (bs_handled b) = batch_entries evs /\
  Forall (fun l => 0 < Z.of_nat (length l) <= bs_batchSize b) (bs_handled b).
Proof.
  intros b. unfold b, batch_loop.
  assert (batch_inv (fold_left batch_step evs (NewBatchedStreamer batchSize))) as [Hz Hp Hh].
  { assert (batch_inv (NewBatchedStreamer batchSize)) as Hn.
    { split; simpl; [destruct (Z.leb_spec batchSize 0); lia..|done]. }
    revert Hn. generalize (NewBatchedStreamer batchSize). induction evs as [|ev evs IH]; intros b0 Hb; [done|].
    by apply IH, batch_step_inv. }
  set (b0 := fold_left _ _ _) in *. destruct (flush_batches b0) as (Hc & Hn & Hsz). split.
  - pose proof (batch_steps_all (NewBatchedStreamer batchSize) evs) as Hall. fold b0 in Hall.
    rewrite <- Hc, Hn, app_nil_r in Hall. done.
  - apply flush_inv; [done|lia|done].
Qed.

(** ** Object storage *)

Section s3_theorems.
Context `{EntryJSON}.

Lemma marshal_all_Some entries lines :
  marshal_all entries = Some lines <-> map marshal entries = map Some lines.
Proof.
  revert lines. induction entries as [|e entries IH]; intros [|d0 lines]; simpl; try done.
  - destruct (marshal e); [|done]. by destruct (marshal_all entries).
  - destruct (marshal e) as [d|]; [|done]. rewrite fmap_Some. split.
    + intros (ls & Hls & [= <- <-]). by rewrite (proj1 (IH _) Hls).
    + intros [= -> Hm]. exists lines. split; [by apply IH|done].
Qed.

(** The name of the object a flush writes. *)
Definition uploads_of (x : S3Exporter) : list string :=
  match s3_buffer x with
  | [] => []
  | e :: _ => [generateKey (s3_config x) (AuditEntry_Timestamp (lg_entry e))]
  end.

(** A flush of an open exporter either uploads the whole buffer, in order, as
    one object and empties it, or keeps every entry when the upload fails; when an
    entry cannot be encoded the buffered entries are gone and nothing was uploaded. *)
Theorem S3_Flush_spec x now put_ok :
  s3_closed x = false ->
  match S3_Flush x now put_ok with
  | (x', None) =>
      s3_buffer x' = [] /\
      (s3_buffer x = [] /\ s3_objects x' = s3_objects x \/
       exists key lines, uploads_of x = [key] /\ map marshal (s3_buffer x) = map Some lines /\
         s3_objects x' = <[key := lines]> (s3_objects x))
  | (x', Some ErrUpload) => s3_buffer x' = s3_buffer x /\ s3_objects x' = s3_objects x
  | (x', Some ErrMarshal) =>
      (exists e, e ∈ s3_buffer x /\ marshal e = None) /\ s3_buffer x' = [] /\ s3_objects x' = s3_objects x
  end.
Proof.
  intros Hc. unfold S3_Flush, flushLocked, uploads_of. rewrite Hc.
  destruct (s3_buffer x) as [|e l] eqn:Hb; [by split; [|left]|]. rewrite <- Hb.
  destruct (marshal_all (s3_buffer x)) as [lines|] eqn:Hm.
  - apply marshal_all_Some in Hm. destruct put_ok; [|done]. simpl. split; [done|]. right. eauto.
  - simpl. split; [|done]. clear Hc Hb e l. induction (s3_buffer x) as [|e l IH]; [done|].
    simpl in Hm. destruct (marshal e) as [d|] eqn:He; [|exists e; set_solver].
    destruct (marshal_all l); [done|]. destruct (IH eq_refl) as (e' & ? & ?). exists e'. set_solver.
Qed.

(** [Close] marks the exporter closed before it flushes, so nothing is uploaded. *)
Lemma S3_Close_drops x now put_ok :
  s3_closed x = false ->
  s3_objects (S3_Close x now put_ok).1 = s3_objects x /\
  s3_buffer (S3_Close x now put_ok).1 = s3_buffer x /\ (S3_Close x now put_ok).2 = None.
Proof. intros Hc. unfold S3_Close, S3_Flush. by rewrite Hc. Qed.
End s3_theorems.

(** An encoder, for examples: the operation's name, without newlines, in braces. *)
Definition toy_marshal (e : AuditEntry) : option (list ascii) :=
  Some (List.filter (fun c => c <>? newline) (bytes_of (AuditEntry_OperationID e)) ++ ["}"%char]).

Lemma toy_one_line e d : toy_marshal e = Some d -> (newline ∉ d) /\ last d = Some "}"%char.
Proof.
  unfold toy_marshal. intros [= <-]. split; [|apply last_snoc]. rewrite elem_of_app, list_elem_of_In, filter_In.
  case_bool_decide; set_solver.
Qed.

Definition toy_json : EntryJSON := {|
  marshal_entry := toy_marshal;
  unmarshal_entry := fun l => Some (NewEntry 1 "n" (str_of l) "" "" "");
  marshal_one_line := toy_one_line
|}.

Definition toy_entry (t : Time) (op : string) : Logged :=
  mkLogged (NewEntry t "n" op "role" "storage" ActionSelect) [].

Lemma S3_Flush_spec_witness :
  let x := mkS3Exporter DefaultS3ExportConfig ∅ [toy_entry 1 "a"] false 0 in
  s3_closed x = false /\
  match @S3_Flush toy_json x 5 true with
  | (x', None) =>
      s3_buffer x' = [] /\
      (s3_buffer x = [] /\ s3_objects x' = s3_objects x \/
       exists key lines, uploads_of x = [key] /\ map (@marshal toy_json) (s3_buffer x) = map Some lines /\
         s3_objects x' = <[key := lines]> (s3_objects x))
  | (x', Some ErrUpload) => s3_buffer x' = s3_buffer x /\ s3_objects x' = s3_objects x
  | (x', Some ErrMarshal) =>
      (exists e, e ∈ s3_buffer x /\ @marshal toy_json e = None) /\ s3_buffer x' = [] /\
      s3_objects x' = s3_objects x
  end.
Proof. intros x. split; [reflexivity|]. apply (@S3_Flush_spec toy_json x 5 true). reflexivity. Defined.

(** A batch is named by the second of its first entry: two batches of one second
    get the same name, and the second upload replaces the first. *)
Lemma S3_same_second_overwrites :
  let cfg := mkS3ExportConfig true "b" "audit/" 1 0 false "hour" in
  let x := mkS3Exporter cfg ∅ [] false 0 in
  let x := (@S3_Export toy_json x (toy_entry 1 "a") 2 true).1 in
  let x := (@S3_Export toy_json x (toy_entry 2 "b") 3 true).1 in
  map_to_list (s3_objects x) =
    [("audit/0001/01/01/00/audit-00010101T000000Z.jsonl"%string, [["b"; "}"]%char])].
Proof. vm_compute. reflexivity. Qed.

(** ** Files *)

Section file_theorems.
Context `{EntryJSON}.

Definition not_newline (c : ascii) : Prop := (c =?= newline) = false.

Lemma one_line e d : marshal e = Some d -> Forall not_newline d /\ drop_cr d = d /\ d <> [].
Proof.
  unfold marshal. destruct (lg_alerts e); [|done]. intros [Hn Hl]%marshal_one_line. split_and!.
  - apply Forall_forall. intros c Hc. unfold not_newline. apply bool_decide_eq_false_2. naive_solver.
  - unfold drop_cr. by rewrite Hl.
  - by intros ->.
Qed.

Definition text_of (ds : list (list ascii)) : list ascii := concat (map (fun d => d ++ [newline]) ds).

Lemma split_text ds :
  Forall (Forall not_newline) ds ->
  split_on (fun c => c =?= newline) (text_of ds) = ds ++ [[]].
Proof.
  induction 1 as [|d ds Hd Hds IH]; [done|]. unfold text_of in *. simpl. rewrite <- app_assoc. simpl.
  rewrite split_on_app_sep; [by rewrite IH|exact Hd|by apply bool_decide_eq_true_2].
Qed.

Lemma scan_text ds :
  Forall (fun d => Forall not_newline d /\ drop_cr d = d) ds -> scan_lines (text_of ds) = ds.
Proof.
  intros Hds. unfold scan_lines. rewrite split_text by (eapply Forall_impl; [exact Hds|naive_solver]).
  rewrite last_snoc, removelast_last. clear -Hds. induction Hds as [|d ds [_ Hd] _ IH]; [done|].
  simpl. by rewrite Hd, IH.
Qed.

(** The lines written to each file, the newest last. *)
Definition lines_at (files : gmap string (list ascii * Time)) (name : string) (ds : list (list ascii)) : Prop :=
  (default ([], 0) (files !! name)).1 = text_of ds.

(** One export: the file it goes to and the line. *)
Definition export_trace (x : FileExporter) (entry : Logged) (now : Time) : list (string * list ascii) :=
  if fx_closed x then []
  else match marshal entry with
       | None => []
       | Some d => [(fx_current (FileExporter_Export x entry now).1, d)]
       end.

Fixpoint export_all (x : FileExporter) (es : list (Logged * Time)) : FileExporter * list (string * list ascii) :=
  match es with
  | [] => (x, [])
  | (e, now) :: es' =>
      let tr := export_trace x e now in
      let '(x', tr') := export_all (FileExporter_Export x e now).1 es' in
      (x', tr ++ tr')
  end.

Definition lines_for (name : string) (tr : list (string * list ascii)) : list (list ascii) :=
  omap (fun p : string * list ascii => if p.1 =?= name then Some p.2 else None) tr.

Lemma text_of_app a b : text_of (a ++ b) = text_of a ++ text_of b.
Proof. unfold text_of. by rewrite map_app, concat_app. Qed.

Lemma openNewFile_text x now name :
  (default ([], 0) (fx_files (openNewFile x now) !! name)).1 = (default ([], 0) (fx_files x !! name)).1.
Proof.
  simpl. destruct (decide (file_name (fx_config x) now = name)) as [->|].
  - rewrite lookup_insert_eq. by destruct (fx_files x !! name).
  - by rewrite lookup_insert_ne.
Qed.

Lemma append_line_text x d now name :
  (default ([], 0) (fx_files (append_line x d now) !! name)).1 =
  (default ([], 0) (fx_files x !! name)).1 ++ text_of (if fx_current x =?= name then [d] else []).
Proof.
  simpl. case_bool_decide as Hn.
  - subst name. rewrite lookup_insert_eq. simpl. unfold text_of. simpl. rewrite app_nil_r.
    by destruct (fx_files x !! fx_current x).
  - rewrite lookup_insert_ne by done. unfold text_of. simpl. by rewrite app_nil_r.
Qed.

Lemma Export_text x e now name :
  (default ([], 0) (fx_files (FileExporter_Export x e now).1 !! name)).1 =
  (default ([], 0) (fx_files x !! name)).1 ++ text_of (lines_for name (export_trace x e now)).
Proof.
  unfold export_trace, FileExporter_Export. destruct (fx_closed x); [by rewrite app_nil_r|].
  destruct (marshal e) as [d|]; [|by rewrite app_nil_r]. cbn [fst]. unfold lines_for.
  cbn [omap list_omap fst snd fx_current append_line]. rewrite append_line_text.
  set (x' := if _ <? _ then _ else _).
  assert ((default ([], 0) (fx_files x' !! name)).1 = (default ([], 0) (fx_files x !! name)).1) as ->.
  { unfold x'. case_match; [apply openNewFile_text|done]. }
  by case_bool_decide.
Qed.

Lemma export_all_text x es name :
  (default ([], 0) (fx_files (export_all x es).1 !! name)).1 =
  (default ([], 0) (fx_files x !! name)).1 ++ text_of (lines_for name (export_all x es).2).
Proof.
  revert x. induction es as [|[e now] es IH]; intros x; simpl; [by rewrite app_nil_r|].
  specialize (IH (FileExporter_Export x e now).1). destruct (export_all _ es) as [x' tr'] eqn:He. simpl in *.
  rewrite IH, Export_text, <- app_assoc, <- text_of_app. unfold lines_for. by rewrite omap_app.
Qed.

Lemma export_trace_lines x e now name d :
  (name, d) ∈ export_trace x e now -> Forall not_newline d /\ drop_cr d = d.
Proof.
  unfold export_trace. destruct (fx_closed x); [set_solver|]. destruct (marshal e) as [d'|] eqn:Hm; [|set_solver].
  intros [= -> ->]%list_elem_of_singleton. apply one_line in Hm. naive_solver.
Qed.

Lemma export_all_lines x es name d :
  (name, d) ∈ (export_all x es).2 -> Forall not_newline d /\ drop_cr d = d.
Proof.
  revert x. induction es as [|[e now] es IH]; intros x; simpl; [set_solver|].
  specialize (IH (FileExporter_Export x e now).1). destruct (export_all _ es) as [x' tr']. simpl in *.
  intros [Ht|Ht]%elem_of_app; [by eapply export_trace_lines|by apply IH].
Qed.

(** Reading the exported files back: whatever is exported and however often
    the exporter rotates, the lines of each file are the encodings of the entries
    that were written to it, in order. *)
Theorem exported_lines cfg now es x name :
  NewFileExporter cfg ∅ now = Some x ->
  scan_lines (default ([], 0) (fx_files (export_all x es).1 !! name)).1 =
    lines_for name (export_all x es).2.
Proof.
  unfold NewFileExporter. destruct (File_Enabled cfg); [|done]. intros [= <-].
  rewrite export_all_text, openNewFile_text. simpl. rewrite lookup_empty. simpl. apply scan_text.
  apply Forall_forall. intros d Hd. unfold lines_for in Hd.
  apply list_elem_of_omap in Hd as ([name' d'] & Hin & Hd). simpl in Hd. case_bool_decide; [|done].
  simplify_eq. by eapply export_all_lines.
Qed.

(** The current file never grows past the limit, unless its only entry does. *)
Lemma Export_size x e now d :
  fx_closed x = false -> marshal e = Some d ->
  fx_size x <= File_MaxFileSize (fx_config x) \/ fx_count x = 1 ->
  let x' := (FileExporter_Export x e now).1 in
  fx_size x' <= File_MaxFileSize (fx_config x') \/ fx_count x' = 1.
Proof.
  intros Hc Hm Hx. unfold FileExporter_Export. rewrite Hc, Hm. simpl.
  destruct (Z.ltb_spec (File_MaxFileSize (fx_config x)) (fx_size x + (Z.of_nat (length d) + 1))); simpl; lia.
Qed.
End file_theorems.

Definition toy_files : FileExportConfig := mkFileExportConfig true "d" "audit" 5 0 false 0 0.

(** The second entry does not fit into the first file. *)
Lemma exported_lines_witness :
  let x := openNewFile (mkFileExporter toy_files ∅ "" false 0 0) 0 in
  let es := [(toy_entry 1 "abc", 1); (toy_entry 2 "de", 2 * Second)] in
  NewFileExporter toy_files ∅ 0 = Some x /\
  scan_lines (default ([], 0) (fx_files (@export_all toy_json x es).1 !! "audit-0001-01-01T00-00-02.jsonl"%string)).1 =
    lines_for "audit-0001-01-01T00-00-02.jsonl" (@export_all toy_json x es).2 /\
  lines_for "audit-0001-01-01T00-00-02.jsonl" (@export_all toy_json x es).2 = [["d"; "e"; "}"]%char].
Proof.
  intros x es. split; [reflexivity|]. split; [|vm_compute; reflexivity].
  apply (@exported_lines toy_json toy_files 0 es x). reflexivity.
Defined.
