(* ===== verification/AuditLogger.v ===== *)
(** * The audit logger ([internal/storage/audit/logger.go], [middleware.go])

    [Logger.Log] ties the parts of the audit trail together: it redacts a query
    into an entry, asks the rate limiter and the alert detector, extends the hash
    chain, persists the entry through the [Repository] interface and hands it to
    the streamer and the exporters.  The chain is extended under the logger's lock,
    the rest happens after the lock was released, so that a call is two steps,
    [log_chain] and [log_deliver], which calls of other goroutines may separate.

    What a call reads from outside (clocks, a fresh operation identifier, the
    outcome of an upload) is the record [LogReadings].  The syslog exporter, whose
    errors are ignored, is left out. *)
From stdpp Require Import base gmap strings list.
From Stdlib Require Import ZArith Lia Ascii.
From S2P Require Import Prelude GoStrings GoTime Domain RateLimit AuditLog Alerts Redact AuditExport.
Local Open Scope Z_scope.

(** ** The repository interface *)

Class Repository (R : Type) := {
  repo_Log : R -> Logged -> Time -> R * option AuditError;
  repo_Query : R -> AuditFilter -> result AuditError (list AuditEntry);
  repo_Count : R -> AuditFilter -> Z;
  repo_Purge : R -> Time -> result AuditError Z;
  repo_VerifyChain : R -> Z -> Z -> bool;
  repo_GetLastHash : R -> bool -> option string  (* [None] when the query fails *)
}.

(** What the logger's theorems rely on: a call that succeeds appends the entry
    with its hashed fields and hashes as they are, one that fails changes nothing,
    and a query for the last hash that succeeds gives that of the last row. *)
Class RepositoryLaws (R : Type) `{Repository R} := {
  repo_rows : R -> list AuditEntry;
  repo_Log_ok r e now :
    (repo_Log r e now).2 = None -> AuditEntry_EntryHash (lg_entry e) <> ""%string ->
    AuditEntry_NodeID (lg_entry e) <> ""%string -> IsZero (AuditEntry_Timestamp (lg_entry e)) = false ->
    exists e', repo_rows (repo_Log r e now).1 = repo_rows r ++ [e'] /\
      hashed_fields e' = hashed_fields (lg_entry e) /\
      AuditEntry_PrevHash e' = AuditEntry_PrevHash (lg_entry e) /\
      AuditEntry_EntryHash e' = AuditEntry_EntryHash (lg_entry e);
  repo_Log_err r e now :
    (repo_Log r e now).2 <> None -> repo_rows (repo_Log r e now).1 = repo_rows r;
  repo_GetLastHash_eq r io h : repo_GetLastHash r io = Some h -> h = end_hash "" (repo_rows r)
}.

(** ** The logger *)

Record LoggerConfig := mkLoggerConfig {
  Logger_Enabled : bool;
  Logger_HashChain : bool;
  Logger_RetentionDays : Z;
  Logger_Redact : RedactorConfig;
  Logger_Streaming : StreamerConfig;
  Logger_Alerts : AlertConfig;
  Logger_RateLimit : RateLimitConfig;
  Logger_File : FileExportConfig;
  Logger_S3 : S3ExportConfig
}.
Definition DefaultLoggerConfig : LoggerConfig :=
  mkLoggerConfig true true 90 DefaultRedactorConfig DefaultStreamerConfig DefaultAlertConfig
    DefaultRateLimitConfig DefaultFileExportConfig DefaultS3ExportConfig.

(** What the alert callback acts on: the limiter, and the clock it reads. *)
Record CallbackState := mkCallbackState {
  cb_limiter : option RateLimiter;
  cb_clock : nat -> Time;
  cb_reads : nat
}.

Record Logger (R : Type) := mkLogger {
  l_config : LoggerConfig;
  l_nodeID : string;
  l_redactor : Redactor;
  l_streamer : option Streamer;
  l_detector : option (AlertDetector CallbackState);
  l_rateLimiter : option RateLimiter;
  l_fileExporter : option FileExporter;
  l_s3Exporter : option S3Exporter;
  l_repository : option R;
  l_hashChain : bool;
  l_lastHash : string;
  l_closed : bool;
  l_entryCount : Z
}.
Arguments mkLogger {R}.
Arguments l_config {R}.
Arguments l_nodeID {R}.
Arguments l_redactor {R}.
Arguments l_streamer {R}.
Arguments l_detector {R}.
Arguments l_rateLimiter {R}.
Arguments l_fileExporter {R}.
Arguments l_s3Exporter {R}.
Arguments l_repository {R}.
Arguments l_hashChain {R}.
Arguments l_lastHash {R}.
Arguments l_closed {R}.
Arguments l_entryCount {R}.

(** The callback [NewLogger] registers. *)
Definition block_actor (blockDuration : Duration) (alert : Alert) (s : CallbackState) : CallbackState :=
  if Alert_TriggerRateLimit alert then
    mkCallbackState
      ((fun r => TriggerBlock r ("actor:" +:+ AuditEntry_Actor (Alert_Entry alert)) blockDuration
                   (cb_clock s (cb_reads s))) <$> cb_limiter s)
      (cb_clock s) (S (cb_reads s))
  else s.

Definition limiter_entry (e : AuditEntry) : Entry :=
  mkEntry (AuditEntry_Actor e) (AuditEntry_Action e) (AuditEntry_TableName e) (AuditEntry_RoleUsed e).

Record QueryInfo := mkQueryInfo {
  Info_Query : string;
  Info_Args : list GoAny;
  Info_StartTime : Time;
  Info_Duration : Duration;
  Info_RowsAffected : Z;
  Info_Error : option string
}.

Record LogReadings := mkLogReadings {
  lr_operationID : string;
  lr_limiter_clock : string -> Time;
  lr_reason : string;
  lr_alerts : readings;
  lr_callback_clock : nat -> Time;
  lr_persist : Time;
  lr_export : Time;
  lr_put_ok : bool
}.

(** [m[k] = v] on a list of key-value pairs. *)
Fixpoint set_key (m : list (string * GoAny)) (k : string) (v : GoAny) : list (string * GoAny) :=
  match m with
  | [] => [(k, v)]
  | (k', v') :: m' => if k' =?= k then (k, v) :: m' else (k', v') :: set_key m' k v
  end.

Section logger.
Context `{UnicodeTables} `{Crypto} `{EntryJSON} {R : Type} `{Repository R}.

(** [None] when a CEL rule does not compile.  [io] tells whether the query for the last
    hash succeeds; its error is dropped and the chain starts anew.  Of a logger that is not enabled only
    [closed] and [config.Enabled] are ever read. *)
Definition NewLogger (compile : CELRuleConfig -> option CELRule) (cfg : LoggerConfig) (nodeID : string)
    (repo : option R) (files : gmap string (list ascii * Time))
    (objects : option (gmap string (list (list ascii)))) (now : Time) (io : bool) : option (Logger R) :=
  let redactor := NewRedactor (Logger_Redact cfg) in
  let lastHash := match repo with
                  | Some r => if Logger_HashChain cfg then default ""%string (repo_GetLastHash r io) else ""%string
                  | None => ""%string
                  end in
  let s3 := match objects with Some o => NewS3Exporter (Logger_S3 cfg) o now | None => None end in
  let build detector limiter :=
    mkLogger cfg nodeID redactor (Some (NewStreamer (Logger_Streaming cfg))) detector limiter
      (NewFileExporter (Logger_File cfg) files now) s3 repo (Logger_HashChain cfg) lastHash false 0 in
  if negb (Logger_Enabled cfg) then
    Some (mkLogger cfg nodeID redactor None None None None None None false "" true 0)
  else if AlertConfig_Enabled (Logger_Alerts cfg) then
    match NewAlertDetector compile (Logger_Alerts cfg) with
    | None => None
    | Some d =>
        if RateLimitConfig_Enabled (Logger_RateLimit cfg) then
          Some (build (Some (OnAlert d (block_actor (RateLimitConfig_BlockDuration (Logger_RateLimit cfg)))))
                  (Some (NewRateLimiter (Logger_RateLimit cfg))))
        else Some (build (Some d) None)
    end
  else Some (build None None).

Definition createEntry (l : Logger R) (info : QueryInfo) (role source actor operationID : string) : AuditEntry :=
  let '(redactedQuery, redactedArgs) := RedactQuery (l_redactor l) (Info_Query info) (Info_Args info) in
  let m := match redactedArgs with [] => [] | _ => [("args"%string, AnyList redactedArgs)] end in
  let m := match Info_Error info with None => m | Some err => set_key m "error" (AnyString err) end in
  mkAuditEntry 0 (Info_StartTime info) (l_nodeID l) "" operationID role (ParseAction (Info_Query info))
    (ExtractTableName (Info_Query info)) redactedQuery (HashQuery (Info_Query info))
    (i64 (Info_RowsAffected info)) (Z.quot (Info_Duration info) 1000000) source actor m "" "" no_flags.

(** The entry after the rate limiter: its flag and its note. *)
Definition log_limit (l : Logger R) (entry : AuditEntry) (rd : LogReadings) : AuditEntry * option RateLimiter :=
  match l_rateLimiter l with
  | None => (entry, None)
  | Some _ =>
      let '(allowed, limiter) := RateLimiter_Check (l_rateLimiter l) (limiter_entry entry) (lr_limiter_clock rd) in
      (if allowed then entry
       else with_notes entry (set_key (AuditEntry_Metadata entry) "rate_limit_reason" (AnyString (lr_reason rd)))
              (mkFlags (Flags_BreakGlass (AuditEntry_Flags entry)) true (Flags_Suspicious (AuditEntry_Flags entry))
                 (Flags_AlertTriggered (AuditEntry_Flags entry))), limiter)
  end.

(** The entry with its alerts, the detector and the limiter. *)
Definition log_alerts (l : Logger R) (limiter : option RateLimiter) (entry : AuditEntry) (rd : LogReadings)
    : Logged * option (AlertDetector CallbackState) * option RateLimiter :=
  match l_detector l with
  | None => (mkLogged entry [], None, limiter)
  | Some d =>
      let '(alerts, d, s) :=
        AlertDetector_Check d entry (lr_alerts rd) (mkCallbackState limiter (lr_callback_clock rd) 0) in
      let entry := match alerts with
                   | [] => entry
                   | _ => with_notes entry (AuditEntry_Metadata entry)
                            (mkFlags (Flags_BreakGlass (AuditEntry_Flags entry))
                               (Flags_RateLimited (AuditEntry_Flags entry)) true true)
                   end in
      (mkLogged entry alerts, Some d, cb_limiter s)
  end.

Definition set_audit (l : Logger R) (d : option (AlertDetector CallbackState)) (limiter : option RateLimiter)
    (lastHash : string) : Logger R :=
  mkLogger (l_config l) (l_nodeID l) (l_redactor l) (l_streamer l) d limiter (l_fileExporter l) (l_s3Exporter l)
    (l_repository l) (l_hashChain l) lastHash (l_closed l) (l_entryCount l + 1).

(** The part of [Log] and [LogEntry] under the lock. *)
Definition chain_entry (hashChain : bool) (lastHash : string) (entry : AuditEntry) : AuditEntry * string :=
  if hashChain then
    let entry := SetHashChain entry lastHash in (entry, AuditEntry_EntryHash entry)
  else (with_hashes entry (AuditEntry_PrevHash entry) (CalculateHash entry), lastHash).

Definition log_chain (l : Logger R) (info : QueryInfo) (role source actor : string) (rd : LogReadings)
    : Logger R * Logged :=
  let entry := createEntry l info role source actor (lr_operationID rd) in
  let '(entry, limiter) := log_limit l entry rd in
  let '(e, d, limiter) := log_alerts l limiter entry rd in
  let '(entry, lastHash) := chain_entry (l_hashChain l) (l_lastHash l) (lg_entry e) in
  (set_audit l d limiter lastHash, mkLogged entry (lg_alerts e)).

Definition set_outputs (l : Logger R) (repo : option R) (streamer : option Streamer) (file : option FileExporter)
    (s3 : option S3Exporter) : Logger R :=
  mkLogger (l_config l) (l_nodeID l) (l_redactor l) streamer (l_detector l) (l_rateLimiter l) file s3
    repo (l_hashChain l) (l_lastHash l) (l_closed l) (l_entryCount l).

(** The part after the lock; [None] for the panic of a send on a closed channel. *)
Definition log_deliver (l : Logger R) (e : Logged) (rd : LogReadings) : option (Logger R) * option AuditError :=
  let '(repo, err) := match l_repository l with
                      | None => (None, None)
                      | Some r => let '(r, err) := repo_Log r e (lr_persist rd) in (Some r, err)
                      end in
  match err with
  | Some _ => (Some (set_outputs l repo (l_streamer l) (l_fileExporter l) (l_s3Exporter l)), err)
  | None =>
      let file := (fun f => (FileExporter_Export f e (lr_export rd)).1) <$> l_fileExporter l in
      let s3 := (fun x => (S3_Export x e (lr_export rd) (lr_put_ok rd)).1) <$> l_s3Exporter l in
      (match l_streamer l with
       | None => Some (set_outputs l repo None file s3)
       | Some s => (fun s => set_outputs l repo (Some s) file s3) <$> Publish s e
       end, None)
  end.

Definition inactive (l : Logger R) : bool := l_closed l || negb (Logger_Enabled (l_config l)).

Definition Logger_Log (l : Logger R) (info : QueryInfo) (role source actor : string) (rd : LogReadings)
    : option (Logger R) * option AuditError :=
  if inactive l then (Some l, None)
  else let '(l, e) := log_chain l info role source actor rd in log_deliver l e rd.

(** [LogEntry]: an entry that was built elsewhere; neither limiter nor detector
    see it. *)
Definition complete_entry (l : Logger R) (entry : AuditEntry) (now : Time) (operationID : string) : AuditEntry :=
  let entry := with_origin entry
    (if IsZero (AuditEntry_Timestamp entry) then now else AuditEntry_Timestamp entry)
    (if AuditEntry_NodeID entry =?= ""%string then l_nodeID l else AuditEntry_NodeID entry)
    (if AuditEntry_OperationID entry =?= ""%string then operationID else AuditEntry_OperationID entry) in
  with_notes entry (RedactMetadata (l_redactor l) (AuditEntry_Metadata entry)) (AuditEntry_Flags entry).

Definition Logger_LogEntry (l : Logger R) (entry : AuditEntry) (now : Time) (rd : LogReadings)
    : option (Logger R) * option AuditError :=
  if inactive l then (Some l, None)
  else
    let entry := complete_entry l entry now (lr_operationID rd) in
    let '(entry, lastHash) := chain_entry (l_hashChain l) (l_lastHash l) entry in
    log_deliver (set_audit l (l_detector l) (l_rateLimiter l) lastHash) (mkLogged entry []) rd.

Definition Logger_VerifyChain (l : Logger R) (from to : Z) : bool :=
  match l_repository l with None => true | Some r => repo_VerifyChain r from to end.
Definition Logger_Query (l : Logger R) (f : AuditFilter) : result AuditError (list AuditEntry) :=
  match l_repository l with None => Ok [] | Some r => repo_Query r f end.
Definition Logger_Count (l : Logger R) (f : AuditFilter) : Z :=
  match l_repository l with None => 0 | Some r => repo_Count r f end.
(** [AddDate(0, 0, -days)] in a zone without clock changes. *)
Definition Logger_Purge (l : Logger R) (now : Time) : result AuditError Z :=
  match l_repository l with
  | None => Ok 0
  | Some r => repo_Purge r (Add now (- (Logger_RetentionDays (l_config l) * 24 * Hour)))
  end.
Definition IsRateLimited (l : Logger R) (entry : AuditEntry) (clock : string -> Time)
    : bool * option RateLimiter :=
  match l_rateLimiter l with
  | None => (false, None)
  | Some _ => let '(allowed, r) := RateLimiter_Check (l_rateLimiter l) (limiter_entry entry) clock in (negb allowed, r)
  end.

(** [Close] flushes before it closes the exporters. *)
Definition Logger_Close (l : Logger R) (now : Time) (put_ok : bool) : Logger R * option ExportError :=
  if l_closed l then (l, None)
  else
    let closed streamer file s3 :=
      mkLogger (l_config l) (l_nodeID l) (l_redactor l) streamer (l_detector l) (l_rateLimiter l) file s3
        (l_repository l) (l_hashChain l) (l_lastHash l) true (l_entryCount l) in
    let flushed := match l_s3Exporter l with None => None | Some x => Some (S3_Flush x now put_ok) end in
    match flushed with
    | Some (x, Some err) => (closed (l_streamer l) (l_fileExporter l) (Some x), Some err)
    | _ =>
        (closed (Streamer_Close <$> l_streamer l) (FileExporter_Close <$> l_fileExporter l)
           ((fun p => (S3_Close p.1 now put_ok).1) <$> flushed), None)
    end.
End logger.

(** * Theorems *)

(** ** The SQLite repository behind the interface *)

Section sqlite.
Context `{Crypto}.

#[export] Instance sqlite_repository : Repository AuditRepository := {|
  repo_Log r e now := let '(r, _, err) := AuditRepository_Log r (lg_entry e) now in (r, err);
  repo_Query := AuditRepository_Query;
  repo_Count := AuditRepository_Count;
  repo_Purge := AuditRepository_Purge;
  repo_VerifyChain := AuditRepository_VerifyChain;
  repo_GetLastHash r io := if io : bool then Some (AuditRepository_GetLastHash r) else None
|}.

Lemma sqlite_Log_ok r e now :
  (repo_Log r e now).2 = None -> AuditEntry_EntryHash (lg_entry e) <> ""%string ->
  AuditEntry_NodeID (lg_entry e) <> ""%string -> IsZero (AuditEntry_Timestamp (lg_entry e)) = false ->
  exists e', ar_rows (repo_Log r e now).1 = ar_rows r ++ [e'] /\
    hashed_fields e' = hashed_fields (lg_entry e) /\
    AuditEntry_PrevHash e' = AuditEntry_PrevHash (lg_entry e) /\
    AuditEntry_EntryHash e' = AuditEntry_EntryHash (lg_entry e).
Proof.
  destruct e as [e alerts]. simpl. intros Hok Hh Hn Ht. unfold AuditRepository_Log in *.
  rewrite Ht, (bool_decide_eq_false_2 _ Hn) in *. destruct e. simpl in *.
  rewrite (bool_decide_eq_false_2 _ Hh), andb_false_r in *. destruct (audit_row_ok _ _); [|done].
  simpl in *. by eexists.
Qed.

#[export] Instance sqlite_laws : RepositoryLaws AuditRepository.
Proof.
  refine {| repo_rows := ar_rows |}.
  - apply sqlite_Log_ok.
  - intros r e now. simpl. pose proof (Log_failed r (lg_entry e) now) as Hf.
    destruct (AuditRepository_Log r (lg_entry e) now) as [[r' e'] err]. simpl in *.
    intros Hne. by rewrite Hf.
  - intros r [] h; [by intros [= <-]|done].
Defined.
End sqlite.

(** ** The chain through the logger *)

Section chain_theorems.
Context `{UnicodeTables} `{Crypto} `{EntryJSON} {R : Type} `{RepositoryLaws R}.

Lemma CalculateHash_fields e e' : hashed_fields e = hashed_fields e' -> CalculateHash e = CalculateHash e'.
Proof. unfold CalculateHash, hash_input. by intros ->. Qed.

(** The logger continues the chain its repository holds. *)
Definition chained (l : Logger R) (r : R) : Prop :=
  l_hashChain l = true /\ l_repository l = Some r /\
  verify_rows "" (repo_rows r) = true /\ l_lastHash l = end_hash "" (repo_rows r).

(** What [chain_entry] makes of an entry that has its origin. *)
Definition sealed (l l' : Logger R) (e : Logged) : Prop :=
  AuditEntry_PrevHash (lg_entry e) = l_lastHash l /\
  AuditEntry_EntryHash (lg_entry e) = CalculateHash (lg_entry e) /\
  AuditEntry_NodeID (lg_entry e) <> ""%string /\ IsZero (AuditEntry_Timestamp (lg_entry e)) = false /\
  l_lastHash l' = AuditEntry_EntryHash (lg_entry e) /\
  l_repository l' = l_repository l /\ l_hashChain l' = l_hashChain l /\ l_nodeID l' = l_nodeID l.

Lemma SetHashChain_origin e p :
  AuditEntry_NodeID (SetHashChain e p) = AuditEntry_NodeID e /\
  AuditEntry_Timestamp (SetHashChain e p) = AuditEntry_Timestamp e.
Proof. by destruct e. Qed.

Lemma with_notes_origin e m f :
  AuditEntry_NodeID (with_notes e m f) = AuditEntry_NodeID e /\
  AuditEntry_Timestamp (with_notes e m f) = AuditEntry_Timestamp e.
Proof. done. Qed.

Lemma log_limit_origin (l : Logger R) entry rd :
  AuditEntry_NodeID (log_limit l entry rd).1 = AuditEntry_NodeID entry /\
  AuditEntry_Timestamp (log_limit l entry rd).1 = AuditEntry_Timestamp entry.
Proof.
  unfold log_limit. destruct (l_rateLimiter l); [|done].
  destruct (RateLimiter_Check _ _ _) as [[] ?]; by destruct entry.
Qed.

Lemma log_alerts_origin (l : Logger R) limiter entry rd :
  AuditEntry_NodeID (lg_entry (log_alerts l limiter entry rd).1.1) = AuditEntry_NodeID entry /\
  AuditEntry_Timestamp (lg_entry (log_alerts l limiter entry rd).1.1) = AuditEntry_Timestamp entry.
Proof.
  unfold log_alerts. destruct (l_detector l) as [d|]; [|done].
  destruct (AlertDetector_Check _ _ _ _) as [[[|a alerts] d'] s]; by destruct entry.
Qed.

Lemma log_chain_sealed (l : Logger R) info role source actor rd :
  l_hashChain l = true -> l_nodeID l <> ""%string -> IsZero (Info_StartTime info) = false ->
  sealed l (log_chain l info role source actor rd).1 (log_chain l info role source actor rd).2.
Proof.
  intros Hc Hn Ht. unfold log_chain.
  set (entry := createEntry _ _ _ _ _ _).
  assert (AuditEntry_NodeID entry = l_nodeID l /\ AuditEntry_Timestamp entry = Info_StartTime info) as [Hn0 Ht0]
    by (unfold entry, createEntry; by destruct (RedactQuery _ _ _)).
  pose proof (log_limit_origin l entry rd) as [Hn1 Ht1]. destruct (log_limit l entry rd) as [entry1 lim].
  pose proof (log_alerts_origin l lim entry1 rd) as [Hn2 Ht2].
  destruct (log_alerts l lim entry1 rd) as [[e d] lim']. simpl in *. unfold chain_entry. rewrite Hc. simpl.
  destruct (SetHashChain_origin (lg_entry e) (l_lastHash l)) as [Hn3 Ht3].
  destruct (SetHashChain_hash (lg_entry e) (l_lastHash l)) as [Hp Hh].
  unfold sealed. split_and!; [exact Hp|exact Hh|cbn [lg_entry]; congruence|cbn [lg_entry]; congruence|done..].
Qed.

Lemma LogEntry_sealed (l : Logger R) entry now op :
  l_hashChain l = true -> l_nodeID l <> ""%string -> IsZero now = false ->
  let p := chain_entry (l_hashChain l) (l_lastHash l) (complete_entry l entry now op) in
  sealed l (set_audit l (l_detector l) (l_rateLimiter l) p.2) (mkLogged p.1 []).
Proof.
  intros Hc Hn Ht. unfold chain_entry. rewrite Hc. simpl.
  destruct (SetHashChain_origin (complete_entry l entry now op) (l_lastHash l)) as [Hn3 Ht3].
  destruct (SetHashChain_hash (complete_entry l entry now op) (l_lastHash l)) as [Hp Hh].
  unfold sealed. split_and!; [exact Hp|exact Hh| | |done..]; cbn [lg_entry].
  - rewrite Hn3. simpl. case_bool_decide; congruence.
  - rewrite Ht3. simpl. destruct (IsZero (AuditEntry_Timestamp entry)) eqn:Hz; congruence.
Qed.

(** Delivery: the rows after an attempt to persist a sealed entry. *)
Lemma log_deliver_rows (l0 l : Logger R) e rd r l' err :
  sealed l0 l e -> l_repository l = Some r -> log_deliver l e rd = (Some l', err) ->
  l_hashChain l' = l_hashChain l /\ l_lastHash l' = l_lastHash l /\ l_nodeID l' = l_nodeID l /\
  exists r', l_repository l' = Some r' /\
    (err <> None -> repo_rows r' = repo_rows r) /\
    (err = None -> exists e', repo_rows r' = repo_rows r ++ [e'] /\
       AuditEntry_PrevHash e' = l_lastHash l0 /\ AuditEntry_EntryHash e' = CalculateHash e' /\
       AuditEntry_EntryHash e' = l_lastHash l).
Proof.
  intros (Hp & Hh & Hn & Ht & Hl & _) Hr Hd. unfold log_deliver in Hd. rewrite Hr in Hd.
  pose proof (repo_Log_ok r e (lr_persist rd)) as Hok. pose proof (repo_Log_err r e (lr_persist rd)) as Herr.
  destruct (repo_Log r e (lr_persist rd)) as [r' err'] eqn:HL. cbn [fst snd] in *.
  assert (err' = err /\ l_hashChain l' = l_hashChain l /\ l_lastHash l' = l_lastHash l /\
          l_nodeID l' = l_nodeID l /\ l_repository l' = Some r') as (-> & Hc' & Hl' & Hn' & Hr').
  { destruct err' as [x|]; [by injection Hd as <- <-|].
    destruct (l_streamer l) as [s|]; [|by injection Hd as <- <-].
    destruct (Publish s e) as [s'|]; [|done]. by injection Hd as <- <-. }
  split_and!; try done. exists r'. split_and!; [done|by apply Herr|].
  intros ->. assert (AuditEntry_EntryHash (lg_entry e) <> ""%string) as Hne
    by (rewrite Hh; apply CalculateHash_ne).
  destruct (Hok eq_refl Hne Hn Ht) as (e' & Hrows & Hf & Hp' & Hh'). exists e'. split_and!; try done.
  - by rewrite Hp'.
  - by rewrite Hh', Hh, (CalculateHash_fields _ _ Hf).
  - by rewrite Hh', Hl.
Qed.

Lemma log_deliver_chained (l0 l : Logger R) e rd r l' :
  chained l0 r -> sealed l0 l e -> log_deliver l e rd = (Some l', None) ->
  exists r', chained l' r' /\ exists e', repo_rows r' = repo_rows r ++ [e'].
Proof.
  intros (Hc & Hr & Hv & Hl) Hs Hd. pose proof Hs as (_ & _ & _ & _ & _ & Hr1 & Hc1 & _).
  destruct (log_deliver_rows _ _ _ _ r _ _ Hs ltac:(congruence) Hd) as (Hc' & Hl' & _ & r' & Hr' & _ & Hok).
  destruct (Hok eq_refl) as (e' & Hrows & Hp & Hh & Hlast). exists r'. split; [|by eexists].
  split_and!; [congruence|done|..].
  - rewrite Hrows. apply verify_rows_snoc. by rewrite Hp.
  - by rewrite Hl', Hrows, end_hash_snoc, Hlast.
Qed.

(** A run of calls that all succeed. *)
Inductive logs (l : Logger R) : Logger R -> nat -> Prop :=
| logs_none : logs l l 0
| logs_query l1 l2 n info role source actor rd :
    logs l l1 n -> IsZero (Info_StartTime info) = false ->
    Logger_Log l1 info role source actor rd = (Some l2, None) -> logs l l2 (S n)
| logs_entry l1 l2 n entry now rd :
    logs l l1 n -> IsZero now = false ->
    Logger_LogEntry l1 entry now rd = (Some l2, None) -> logs l l2 (S n).

Lemma log_deliver_fixed (l : Logger R) e rd l' err :
  log_deliver l e rd = (Some l', err) ->
  l_nodeID l' = l_nodeID l /\ l_config l' = l_config l /\ l_closed l' = l_closed l.
Proof.
  unfold log_deliver. destruct (match l_repository l with Some _ => _ | None => _ end) as [r [x|]].
  - by intros [= <- <-].
  - destruct (l_streamer l) as [s|]; [destruct (Publish s e); [|done]|]; by intros [= <- <-].
Qed.

Lemma log_chain_fixed (l : Logger R) info role source actor rd :
  let l' := (log_chain l info role source actor rd).1 in
  l_nodeID l' = l_nodeID l /\ l_config l' = l_config l /\ l_closed l' = l_closed l.
Proof.
  unfold log_chain. destruct (log_limit _ _ _) as [entry lim]. destruct (log_alerts _ _ _ _) as [[e d] lim'].
  by destruct (chain_entry _ _ _).
Qed.

Lemma Logger_Log_chained (l l' : Logger R) r info role source actor rd :
  chained l r -> inactive l = false -> l_nodeID l <> ""%string -> IsZero (Info_StartTime info) = false ->
  Logger_Log l info role source actor rd = (Some l', None) ->
  inactive l' = false /\ l_nodeID l' = l_nodeID l /\
  exists r', chained l' r' /\ exists e', repo_rows r' = repo_rows r ++ [e'].
Proof.
  intros Hc Hi Hn Ht HL. unfold Logger_Log in HL. rewrite Hi in HL.
  pose proof (log_chain_sealed l info role source actor rd (proj1 Hc) Hn Ht) as Hs.
  pose proof (log_chain_fixed l info role source actor rd) as (Hn1 & Hc1 & Hcl1).
  destruct (log_chain l info role source actor rd) as [l1 e]. simpl in *.
  destruct (log_deliver_fixed _ _ _ _ _ HL) as (Hn2 & Hc2 & Hcl2). split_and!.
  - unfold inactive in *. by rewrite Hcl2, Hc2, Hcl1, Hc1.
  - congruence.
  - by eapply log_deliver_chained.
Qed.

Lemma Logger_LogEntry_chained (l l' : Logger R) r entry now rd :
  chained l r -> inactive l = false -> l_nodeID l <> ""%string -> IsZero now = false ->
  Logger_LogEntry l entry now rd = (Some l', None) ->
  inactive l' = false /\ l_nodeID l' = l_nodeID l /\
  exists r', chained l' r' /\ exists e', repo_rows r' = repo_rows r ++ [e'].
Proof.
  intros Hc Hi Hn Ht HL. unfold Logger_LogEntry in HL. rewrite Hi in HL.
  pose proof (LogEntry_sealed l entry now (lr_operationID rd) (proj1 Hc) Hn Ht) as Hs. simpl in Hs.
  destruct (chain_entry _ _ _) as [e h]. simpl in *.
  destruct (log_deliver_fixed _ _ _ _ _ HL) as (Hn2 & Hc2 & Hcl2). split_and!.
  - unfold inactive in *. by rewrite Hcl2, Hc2.
  - done.
  - by eapply log_deliver_chained.
Qed.

Lemma logs_chained (l l' : Logger R) n r :
  logs l l' n -> chained l r -> inactive l = false -> l_nodeID l <> ""%string ->
  inactive l' = false /\ l_nodeID l' = l_nodeID l /\
  exists r', chained l' r' /\ length (repo_rows r') = (length (repo_rows r) + n)%nat.
Proof.
  intros Hlog Hc Hi Hn.
  assert (forall l1 l2 n,
    inactive l1 = false /\ l_nodeID l1 = l_nodeID l /\
      (exists r1, chained l1 r1 /\ length (repo_rows r1) = (length (repo_rows r) + n)%nat) ->
    (forall r1, chained l1 r1 -> inactive l1 = false -> l_nodeID l1 <> ""%string ->
       inactive l2 = false /\ l_nodeID l2 = l_nodeID l1 /\
       exists r2, chained l2 r2 /\ exists e, repo_rows r2 = repo_rows r1 ++ [e]) ->
    inactive l2 = false /\ l_nodeID l2 = l_nodeID l /\
      exists r2, chained l2 r2 /\ length (repo_rows r2) = (length (repo_rows r) + S n)%nat) as Hstep.
  { intros l1 l2 k (Hi1 & Hn1 & r1 & Hc1 & Hlen) Hgo.
    destruct (Hgo r1) as (? & ? & r2 & Hc2 & e & He); [done|done|congruence|].
    split_and!; [done|congruence|]. exists r2. split; [done|]. rewrite He, length_app. simpl. lia. }
  induction Hlog as [|l1 l2 n info role source actor rd _ IH Ht HL|l1 l2 n entry now rd _ IH Ht HL].
  - split_and!; [done|done|]. exists r. split; [done|lia].
  - apply (Hstep l1); [done|]. intros r1 ???. by eapply Logger_Log_chained.
  - apply (Hstep l1); [done|]. intros r1 ???. by eapply Logger_LogEntry_chained.
Qed.

Lemma NewLogger_chained compile cfg node r files objects now io l :
  Logger_Enabled cfg = true -> Logger_HashChain cfg = true ->
  verify_rows "" (repo_rows r) = true -> is_Some (repo_GetLastHash r io) ->
  NewLogger compile cfg node (Some r) files objects now io = Some l ->
  chained l r /\ inactive l = false /\ l_nodeID l = node.
Proof.
  intros He Hh Hv [h Hr]. unfold NewLogger. rewrite He, Hh, Hr. pose proof (repo_GetLastHash_eq _ _ _ Hr) as ->.
  simpl. unfold chained, inactive.
  destruct (AlertConfig_Enabled (Logger_Alerts cfg)); [destruct (NewAlertDetector compile _); [|done]|].
  - destruct (RateLimitConfig_Enabled (Logger_RateLimit cfg)); intros [= <-]; simpl; by rewrite He.
  - intros [= <-]; simpl; by rewrite He.
Qed.

(** C9: the chain through the logger.  A logger that is switched on with its hash chain
    and a node name that is not empty, opened on a repository whose log verifies and whose
    last hash could be read, continues that chain: after any run of calls of [Log] and
    [LogEntry], made one after the other with clocks that have been set and all of them
    successful, the log has one more row per call and verifies from its first row to its
    last, whatever redaction, rate limits and alerts make of the entries.  (Where a call
    fails, two calls overlap or the last hash could not be read the chain breaks:
    [failed_persist_breaks_chain], [interleaved_calls_break_chain] and
    [unread_hash_breaks_chain].) *)
Theorem logger_chain_verifies compile cfg node r files objects now io l l' n
    (He : Logger_Enabled cfg = true) (Hh : Logger_HashChain cfg = true) (Hnode : node <> ""%string)
    (Hv : verify_rows "" (repo_rows r) = true) (Hread : is_Some (repo_GetLastHash r io))
    (Hnew : NewLogger compile cfg node (Some r) files objects now io = Some l)
    (Hlogs : logs l l' n) :
  exists r', l_repository l' = Some r' /\ length (repo_rows r') = (length (repo_rows r) + n)%nat /\
    verify_rows "" (repo_rows r') = true.
Proof.
  destruct (NewLogger_chained compile cfg node r files objects now io l He Hh Hv Hread Hnew) as (Hc & Hi & Hn).
  destruct (logs_chained l l' n r Hlogs Hc Hi ltac:(congruence)) as (_ & _ & r' & (_ & Hr' & Hv' & _) & Hlen).
  by exists r'.
Qed.

(** *** Where it breaks *)

Lemma broken_link rows e :
  AuditEntry_PrevHash e <> end_hash "" rows -> forall rest, verify_rows "" (rows ++ e :: rest) = false.
Proof.
  intros Hne rest. rewrite verify_rows_app. simpl. rewrite (bool_decide_eq_false_2 _ Hne).
  apply andb_false_r.
Qed.

(** The logger moves on to an entry's hash before the entry is persisted: when
    a call fails, the entry that the next successful call appends refers to a hash
    that is not in the log, and the log does not verify from then on, whatever is
    appended later. *)
Theorem failed_persist_breaks_chain (l l1 l2 : Logger R) r r2 info1 role1 source1 actor1 rd1 info2 role2
    source2 actor2 rd2 err
    (Hc : chained l r) (Hi : inactive l = false) (Hn : l_nodeID l <> ""%string)
    (Ht1 : IsZero (Info_StartTime info1) = false) (Ht2 : IsZero (Info_StartTime info2) = false)
    (Hfail : Logger_Log l info1 role1 source1 actor1 rd1 = (Some l1, Some err))
    (Hok : Logger_Log l1 info2 role2 source2 actor2 rd2 = (Some l2, None))
    (Hnew : l_lastHash l1 <> l_lastHash l) (Hr2 : l_repository l2 = Some r2) rest :
  verify_rows "" (repo_rows r2 ++ rest) = false.
Proof.
  unfold Logger_Log in Hfail, Hok. rewrite Hi in Hfail. pose proof Hc as (Hch & Hr & Hv & Hl).
  pose proof (log_chain_sealed l info1 role1 source1 actor1 rd1 Hch Hn Ht1) as Hs.
  pose proof (log_chain_fixed l info1 role1 source1 actor1 rd1) as (Hn1 & Hc1 & Hcl1).
  destruct (log_chain l info1 role1 source1 actor1 rd1) as [l0 e0]. simpl in *.
  pose proof Hs as (_ & _ & _ & _ & _ & Hr0 & Hch0 & _).
  destruct (log_deliver_rows _ _ _ _ r _ _ Hs ltac:(congruence) Hfail) as (Hch1 & Hl1 & Hn1' & r1 & Hr1 & Hrows1 & _).
  destruct (log_deliver_fixed _ _ _ _ _ Hfail) as (_ & Hcf1 & Hcl1').
  assert (inactive l1 = false) as Hi1 by (unfold inactive in *; by rewrite Hcl1', Hcf1, Hcl1, Hc1).
  rewrite Hi1 in Hok.
  pose proof (log_chain_sealed l1 info2 role2 source2 actor2 rd2 ltac:(congruence) ltac:(congruence) Ht2) as Hs2.
  destruct (log_chain l1 info2 role2 source2 actor2 rd2) as [l3 e3]. simpl in *.
  pose proof Hs2 as (_ & _ & _ & _ & _ & Hr3 & _).
  destruct (log_deliver_rows _ _ _ _ r1 _ _ Hs2 ltac:(congruence) Hok) as (_ & _ & _ & r2' & Hr2' & _ & Hrows2).
  destruct (Hrows2 eq_refl) as (e' & He' & Hp & _). simplify_eq.
  rewrite He', Hrows1, <- app_assoc by done. apply broken_link. congruence.
Qed.

Lemma NewLogger_unread compile cfg node r files objects now io l :
  Logger_Enabled cfg = true -> Logger_HashChain cfg = true -> repo_GetLastHash r io = None ->
  NewLogger compile cfg node (Some r) files objects now io = Some l ->
  l_hashChain l = true /\ l_repository l = Some r /\ l_lastHash l = ""%string /\
  inactive l = false /\ l_nodeID l = node.
Proof.
  intros He Hh Hr. unfold NewLogger. rewrite He, Hh, Hr. simpl. unfold inactive.
  destruct (AlertConfig_Enabled (Logger_Alerts cfg)); [destruct (NewAlertDetector compile _); [|done]|].
  - destruct (RateLimitConfig_Enabled (Logger_RateLimit cfg)); intros [= <-]; simpl; by rewrite He.
  - intros [= <-]; simpl; by rewrite He.
Qed.

(** A logger that could not read the last hash of a log with entries starts a new chain
    in the middle of it: from its first entry on the log does not verify. *)
Theorem unread_hash_breaks_chain compile cfg node r files objects now io l l2 info role source actor rd r2
    (He : Logger_Enabled cfg = true) (Hh : Logger_HashChain cfg = true) (Hnode : node <> ""%string)
    (Hunread : repo_GetLastHash r io = None) (Hnonempty : end_hash "" (repo_rows r) <> ""%string)
    (Hnew : NewLogger compile cfg node (Some r) files objects now io = Some l)
    (Ht : IsZero (Info_StartTime info) = false)
    (Hok : Logger_Log l info role source actor rd = (Some l2, None)) (Hr2 : l_repository l2 = Some r2) rest :
  verify_rows "" (repo_rows r2 ++ rest) = false.
Proof.
  destruct (NewLogger_unread compile cfg node r files objects now io l He Hh Hunread Hnew) as (Hc & Hr & Hl & Hi & Hn).
  unfold Logger_Log in Hok. rewrite Hi in Hok.
  pose proof (log_chain_sealed l info role source actor rd Hc ltac:(congruence) Ht) as Hs.
  destruct (log_chain l info role source actor rd) as [l1 e]. simpl in *. pose proof Hs as (_ & _ & _ & _ & _ & Hr1 & _).
  destruct (log_deliver_rows _ _ _ _ r _ _ Hs ltac:(congruence) Hok) as (_ & _ & _ & r' & Hr' & _ & Hrows).
  destruct (Hrows eq_refl) as (e' & He' & Hp & _). simplify_eq.
  rewrite He', <- app_assoc. apply broken_link. congruence.
Qed.

(** Two calls that run at the same time break the chain: when the second one
    to take the lock persists its entry first, the log does not verify any more,
    although both calls succeed and nothing was tampered with. *)
Theorem interleaved_calls_break_chain (l l1 : Logger R) r r1 infoA roleA sourceA actorA rdA infoB roleB
    sourceB actorB rdB
    (Hc : chained l r) (Hn : l_nodeID l <> ""%string)
    (HtA : IsZero (Info_StartTime infoA) = false) (HtB : IsZero (Info_StartTime infoB) = false)
    (la := (log_chain l infoA roleA sourceA actorA rdA).1)
    (eb := log_chain la infoB roleB sourceB actorB rdB)
    (Hdeliver : log_deliver eb.1 eb.2 rdB = (Some l1, None))
    (Hnew : l_lastHash la <> l_lastHash l) (Hr1 : l_repository l1 = Some r1) rest :
  verify_rows "" (repo_rows r1 ++ rest) = false.
Proof.
  pose proof Hc as (Hch & Hr & Hv & Hl).
  pose proof (log_chain_sealed l infoA roleA sourceA actorA rdA Hch Hn HtA) as (_ & _ & _ & _ & _ & Hra & Hca & Hna).
  fold la in Hra, Hca, Hna.
  pose proof (log_chain_sealed la infoB roleB sourceB actorB rdB ltac:(congruence) ltac:(congruence) HtB) as Hs.
  fold eb in Hs. pose proof Hs as (_ & _ & _ & _ & _ & Hrb & _).
  destruct (log_deliver_rows _ _ _ _ r _ _ Hs ltac:(congruence) Hdeliver) as (_ & _ & _ & r' & Hr' & _ & Hrows).
  destruct (Hrows eq_refl) as (e' & He' & Hp & _). simplify_eq.
  rewrite He', <- app_assoc. apply broken_link. congruence.
Qed.

(** ** Alerts and rate limits *)

(** The wiring of [NewLogger]. *)
Definition wired (l : Logger R) : Prop :=
  exists d lim, l_detector l = Some d /\ l_rateLimiter l = Some lim /\
    d_callbacks d = [block_actor (RateLimitConfig_BlockDuration (Logger_RateLimit (l_config l)))] /\
    RateLimitConfig_Enabled (rl_config lim) = true /\
    RateLimitConfig_BypassRoles (rl_config lim) = RateLimitConfig_BypassRoles (Logger_RateLimit (l_config l)).

Lemma NewLogger_wired compile cfg node r files objects now io l :
  Logger_Enabled cfg = true -> AlertConfig_Enabled (Logger_Alerts cfg) = true ->
  RateLimitConfig_Enabled (Logger_RateLimit cfg) = true ->
  NewLogger compile cfg node r files objects now io = Some l -> wired l.
Proof.
  intros He Ha Hr. unfold NewLogger, NewAlertDetector. rewrite He, Ha, Hr. simpl.
  destruct (compile_rules _ _); [|done]. intros [= <-]. repeat eexists. done.
Qed.

Lemma alerts_entry {S} (d : AlertDetector S) entry rd s :
  Forall (fun a => Alert_Entry a = entry) (AlertDetector_Check d entry rd s).1.1.
Proof.
  unfold AlertDetector_Check. destruct (negb _); [constructor|].
  destruct (check_thresholds _ _ _ _ _) as [counters alerts] eqn:Hc. simpl. apply Forall_app. split.
  - assert (alerts = (check_thresholds (d_counters d) entry (d_thresholdRules d) 0 rd).2) as -> by (by rewrite Hc).
    generalize (d_counters d), 0%nat. clear. induction (d_thresholdRules d) as [|rule rules IH]; intros cs i; [constructor|].
    rewrite check_thresholds_cons. simpl. apply Forall_app. split; [|apply IH].
    unfold rule_alert. case_match; by repeat constructor.
  - generalize (length (d_thresholdRules d)). induction (d_celRules d) as [|rule rules IH]; intros i; [constructor|].
    simpl. unfold checkCELRule. destruct (CELRule_Program _ _) as [[]|]; [constructor; [done|apply IH]|apply IH..].
Qed.

(** A limiter that refuses a key at a time. *)
Definition blocks (lim : RateLimiter) (key : string) (now : Time) : Prop :=
  exists st, rl_limiters lim !! key = Some st /\ block_test Before now st = true.

Definition actor_key (actor : string) : string := ("actor:" +:+ actor)%string.

(** The state of the callbacks after some alerts of one entry. *)
Definition still_configured (cfg : RateLimitConfig) (s : CallbackState) : Prop :=
  exists lim, cb_limiter s = Some lim /\ rl_config lim = cfg.

Lemma callbacks_block entry dur alerts s cfg now :
  Forall (fun a => Alert_Entry a = entry) alerts -> still_configured cfg s ->
  (forall k, now < cb_clock s k + dur) ->
  let s' := fold_left (fun s a => fold_left (fun s callback => callback a s) [block_actor dur] s) alerts s in
  still_configured cfg s' /\
  ((exists a, a ∈ alerts /\ Alert_TriggerRateLimit a = true) \/
     (exists lim, cb_limiter s = Some lim /\ blocks lim (actor_key (AuditEntry_Actor entry)) now) ->
   exists lim, cb_limiter s' = Some lim /\ blocks lim (actor_key (AuditEntry_Actor entry)) now).
Proof.
  intros Ha. revert s. induction Ha as [|a alerts Ha _ IH]; intros s Hs Hnow.
  { split; [done|]. intros [(a & Hin & _)|?]; [set_solver|done]. }
  cbn [fold_left]. set (s1 := block_actor dur a s).
  assert (cb_clock s1 = cb_clock s) as Hclock by (unfold s1, block_actor; by case_match).
  assert (still_configured cfg s1) as Hs1.
  { unfold s1, block_actor. destruct Hs as (lim & Hlim & Hcfg). case_match; [|by exists lim].
    rewrite Hlim. simpl. by eexists. }
  destruct (IH s1 Hs1) as [Hcfg Hblk]; [intros k; by rewrite Hclock|]. split; [done|]. intros Hb. apply Hblk.
  destruct (Alert_TriggerRateLimit a) eqn:Ht.
  - right. unfold s1, block_actor. rewrite Ht, Ha. destruct Hs as (lim & -> & _). simpl. eexists. split; [done|].
    unfold blocks, actor_key. simpl. rewrite lookup_insert_eq. eexists. split; [done|].
    unfold block_test. simpl. apply Z.ltb_lt. apply Hnow.
  - assert (s1 = s) as -> by (unfold s1, block_actor; by rewrite Ht).
    destruct Hb as [(a' & [->|Hin]%elem_of_cons & Ht')|?]; [congruence|left; eauto|by right].
Qed.

Lemma blocked_check lim key now : blocks lim key now -> forall entry, (checkKey lim key entry now).1 = false.
Proof.
  intros (st & Hst & Hb) entry. unfold checkKey. rewrite Hst. simpl. unfold check_state. by rewrite Hb.
Qed.

Lemma checkKey_other lim key key' entry now t :
  key <> key' -> blocks lim key now -> blocks (checkKey lim key' entry t).2 key now.
Proof.
  intros Hne (st & Hst & Hb). unfold checkKey. destruct (check_state _ _ _) as [b st']. simpl.
  exists st. simpl. by rewrite lookup_insert_ne.
Qed.

Lemma blocked_actor_refused lim entry clock :
  RateLimitConfig_Enabled (rl_config lim) = true ->
  Entry_RoleUsed entry ∉ RateLimitConfig_BypassRoles (rl_config lim) ->
  Entry_Actor entry <> ""%string ->
  blocks lim (actor_key (Entry_Actor entry)) (clock (actor_key (Entry_Actor entry))) ->
  (RateLimiter_Check (Some lim) entry clock).1 = false.
Proof.
  intros He Hr Ha Hb. unfold RateLimiter_Check. rewrite He, (proj2 (mem_false _ _) Hr). simpl negb. cbv iota.
  unfold generateKeys. rewrite (bool_decide_eq_false_2 _ Ha). cbn [negb app check_keys].
  apply (checkKey_other _ _ "global" entry _ (clock "global"%string)) in Hb; [|done].
  destruct (checkKey lim "global" entry _) as [[] lim1]; [|done]. simpl in Hb.
  apply (fun H => blocked_check _ _ _ H entry) in Hb. unfold actor_key in Hb.
  destruct (checkKey lim1 _ entry _) as [b lim2]. simpl in Hb. by subst.
Qed.

Lemma check_keys_config lim keys entry clock : rl_config (check_keys lim keys entry clock).2 = rl_config lim.
Proof.
  revert lim. induction keys as [|key keys IH]; intros lim; [done|]. simpl. unfold checkKey.
  destruct (check_state _ _ _) as [[] st]; simpl; [by rewrite IH|done].
Qed.

Lemma RateLimiter_Check_config lim entry clock :
  exists lim', (RateLimiter_Check (Some lim) entry clock).2 = Some lim' /\ rl_config lim' = rl_config lim.
Proof.
  unfold RateLimiter_Check. destruct (negb _); [by eexists|]. destruct (mem _ _); [by eexists|].
  pose proof (check_keys_config lim (generateKeys entry) entry clock) as Hc.
  destruct (check_keys _ _ _ _) as [b lim']. by eexists.
Qed.

Lemma log_limit_actor (l : Logger R) entry rd :
  AuditEntry_Actor (log_limit l entry rd).1 = AuditEntry_Actor entry.
Proof.
  unfold log_limit. destruct (l_rateLimiter l); [|done]. by destruct (RateLimiter_Check _ _ _) as [[] ?].
Qed.

Lemma log_limit_config (l : Logger R) entry rd lim :
  l_rateLimiter l = Some lim ->
  exists lim', (log_limit l entry rd).2 = Some lim' /\ rl_config lim' = rl_config lim.
Proof.
  intros Hl. unfold log_limit. rewrite Hl.
  destruct (RateLimiter_Check_config lim (limiter_entry entry) (lr_limiter_clock rd)) as (lim' & H' & Hc).
  destruct (RateLimiter_Check _ _ _) as [b o]. by exists lim'.
Qed.

(** The limiter after a call that raised an alert. *)
Lemma log_chain_blocks (l : Logger R) info role source actor rd now :
  wired l ->
  (forall k, now < lr_callback_clock rd k + RateLimitConfig_BlockDuration (Logger_RateLimit (l_config l))) ->
  (exists a, a ∈ lg_alerts (log_chain l info role source actor rd).2 /\ Alert_TriggerRateLimit a = true) ->
  exists lim, l_rateLimiter (log_chain l info role source actor rd).1 = Some lim /\
    RateLimitConfig_Enabled (rl_config lim) = true /\
    RateLimitConfig_BypassRoles (rl_config lim) = RateLimitConfig_BypassRoles (Logger_RateLimit (l_config l)) /\
    blocks lim (actor_key actor) now.
Proof.
  intros (d & lim & Hd & Hlim & Hcb & Hen & Hby) Hnow. unfold log_chain.
  set (entry := createEntry _ _ _ _ _ _).
  assert (AuditEntry_Actor entry = actor) as Hactor
    by (unfold entry, createEntry; by destruct (RedactQuery _ _ _)).
  pose proof (log_limit_actor l entry rd) as Hactor1.
  destruct (log_limit_config l entry rd lim Hlim) as (lim1 & Hlim1 & Hcfg1).
  destruct (log_limit l entry rd) as [entry1 o1]. simpl in *. subst o1.
  unfold log_alerts. rewrite Hd.
  set (s := mkCallbackState (Some lim1) (lr_callback_clock rd) 0).
  pose proof (alerts_entry d entry1 (lr_alerts rd) s) as Hae.
  assert ((AlertDetector_Check d entry1 (lr_alerts rd) s).2 =
          fold_left (fun s a => triggerCallbacks d a s) (AlertDetector_Check d entry1 (lr_alerts rd) s).1.1 s) as Hs.
  { unfold AlertDetector_Check. destruct (negb _); [done|]. by destruct (check_thresholds _ _ _ _ _). }
  destruct (AlertDetector_Check d entry1 (lr_alerts rd) s) as [[alerts d'] s']. simpl in *. subst s'.
  destruct (chain_entry _ _ _) as [e h]. simpl. intros Ha. unfold triggerCallbacks. rewrite Hcb.
  destruct (callbacks_block entry1 (RateLimitConfig_BlockDuration (Logger_RateLimit (l_config l))) alerts s
    (rl_config lim1) now Hae) as [(lim2 & Hl2 & Hc2) Hb]; [by eexists|done|].
  destruct Hb as (lim3 & Hl3 & Hb3); [by left|]. exists lim3. split_and!; [done|..].
  - replace (rl_config lim3) with (rl_config lim) by congruence. done.
  - replace (rl_config lim3) with (rl_config lim) by congruence. done.
  - assert (AuditEntry_Actor entry1 = actor) as Heq by congruence. by rewrite Heq in Hb3.
Qed.

Lemma log_chain_limited (l : Logger R) info role source actor rd lim :
  l_rateLimiter l = Some lim ->
  (forall entry, AuditEntry_Actor entry = actor -> AuditEntry_RoleUsed entry = role ->
     (RateLimiter_Check (Some lim) (limiter_entry entry) (lr_limiter_clock rd)).1 = false) ->
  Flags_RateLimited (AuditEntry_Flags (lg_entry (log_chain l info role source actor rd).2)) = true.
Proof.
  intros Hl Hno. unfold log_chain. set (entry := createEntry _ _ _ _ _ _).
  specialize (Hno entry). unfold log_limit. rewrite Hl.
  destruct (RateLimiter_Check _ (limiter_entry entry) _) as [b o]. simpl in Hno. rewrite Hno by done.
  unfold log_alerts. destruct (l_detector l) as [d|].
  - destruct (AlertDetector_Check _ _ _ _) as [[[|a alerts] d'] s]; simpl; unfold chain_entry;
      by destruct (l_hashChain l).
  - simpl. unfold chain_entry. by destruct (l_hashChain l).
Qed.

(** An alert blocks its actor: after a call raised an alert that asks for it,
    every entry of the same actor is flagged as rate limited until the block
    expires, unless the role bypasses the limiter, whichever entry it is. *)
Theorem alert_blocks_actor (l l2 : Logger R) info role source actor rd info2 role2 source2 rd2
    (Hw : wired l) (Hactor : actor <> ""%string)
    (Halert : exists a, a ∈ lg_alerts (log_chain l info role source actor rd).2 /\
                Alert_TriggerRateLimit a = true)
    (Hnext : l_rateLimiter l2 = l_rateLimiter (log_chain l info role source actor rd).1)
    (Hrole : role2 ∉ RateLimitConfig_BypassRoles (Logger_RateLimit (l_config l)))
    (Htime : forall k, lr_limiter_clock rd2 (actor_key actor) <
       lr_callback_clock rd k + RateLimitConfig_BlockDuration (Logger_RateLimit (l_config l))) :
  Flags_RateLimited (AuditEntry_Flags (lg_entry (log_chain l2 info2 role2 source2 actor rd2).2)) = true.
Proof.
  destruct (log_chain_blocks l info role source actor rd _ Hw Htime Halert) as (lim & Hl & He & Hby & Hb).
  apply (log_chain_limited _ _ _ _ _ _ lim); [congruence|]. intros entry Ha Hr.
  apply blocked_actor_refused; simpl; rewrite ?Ha, ?Hr, ?Hby; done.
Qed.
End chain_theorems.

(** ** Witnesses *)

Section witnesses.
#[local] Existing Instance identity_tables.
#[local] Existing Instance toy_crypto.
#[local] Existing Instance toy_json.
Local Open Scope string_scope.

(** One threshold rule: any SELECT raises an alert. *)
Definition toy_alerts : AlertConfig :=
  mkAlertConfig true [threshold_rule "any" "" ActionSelect "" 1 Minute "actor" AlertSeverityLow] [] Minute Minute.
Definition toy_config : LoggerConfig :=
  mkLoggerConfig true true 90 DefaultRedactorConfig DefaultStreamerConfig toy_alerts DefaultRateLimitConfig
    DefaultFileExportConfig DefaultS3ExportConfig.
Definition toy_info (q : string) : QueryInfo := mkQueryInfo q [] 5 0 1 None.
Definition toy_readings (op : string) (t : Time) : LogReadings :=
  mkLogReadings op (fun _ => t) "limited" (mkReadings (fun _ => t) (fun _ => t) (fun _ => "alert"))
    (fun _ => t) t t true.
Definition toy_repo : AuditRepository := open_audit "n1" [].
Definition toy_logger : Logger AuditRepository :=
  mkLogger toy_config "n1" (NewRedactor DefaultRedactorConfig) (Some (NewStreamer DefaultStreamerConfig))
    (Some (mkAlertDetector toy_alerts (AlertConfig_ThresholdRules toy_alerts) [] ∅ [block_actor (5 * Minute)]))
    (Some (NewRateLimiter DefaultRateLimitConfig)) None None (Some toy_repo) true "" false 0.

Definition after (p : option (Logger AuditRepository) * option AuditError) : Logger AuditRepository :=
  default toy_logger p.1.
Local Abbreviation toy_log l q op t :=
  (Logger_Log l (toy_info q) "app" "api" "bob" (toy_readings op t)) (only parsing).
Definition logger1 : Logger AuditRepository := Eval vm_compute in after (toy_log toy_logger "SELECT 1" "op1" 10).
Definition logger_failed : Logger AuditRepository := Eval vm_compute in after (toy_log toy_logger "BEGIN" "op1" 10).
Definition logger2 : Logger AuditRepository := Eval vm_compute in after (toy_log logger_failed "SELECT 1" "op2" 20).

Lemma toy_logger_new :
  NewLogger (fun _ => None) toy_config "n1" (Some toy_repo) ∅ None 1 true = Some toy_logger.
Proof. reflexivity. Qed.

Lemma toy_chained : chained toy_logger toy_repo.
Proof. by split_and!. Qed.

Lemma toy_log_ok : toy_log toy_logger "SELECT 1" "op1" 10 = (Some logger1, None).
Proof. vm_compute. reflexivity. Qed.

Lemma logger_chain_verifies_witness :
  exists r', l_repository logger1 = Some r' /\ length (repo_rows r') = (length (repo_rows toy_repo) + 1)%nat /\
    verify_rows "" (repo_rows r') = true.
Proof.
  apply (logger_chain_verifies (fun _ => None) toy_config "n1" toy_repo ∅ None 1 true toy_logger logger1 1);
    [reflexivity|reflexivity|done|reflexivity|by eexists|exact toy_logger_new|].
  apply (logs_query _ toy_logger _ 0 (toy_info "SELECT 1") "app" "api" "bob" (toy_readings "op1" 10));
    [constructor|reflexivity|exact toy_log_ok].
Defined.

(** The log of the first call, read again when the query for its last hash fails. *)
Definition repo1 : AuditRepository := Eval vm_compute in default toy_repo (l_repository logger1).
Definition logger_unread : Logger AuditRepository := Eval vm_compute in
  default toy_logger (NewLogger (fun _ => None) toy_config "n1" (Some repo1) ∅ None 1 false).
Definition logger_restarted : Logger AuditRepository := Eval vm_compute in
  after (toy_log logger_unread "SELECT 1" "op2" 20).

Lemma unread_hash_breaks_chain_witness :
  exists r2, l_repository logger_restarted = Some r2 /\ verify_rows "" (repo_rows r2 ++ []) = false.
Proof.
  eexists. split; [reflexivity|].
  apply (unread_hash_breaks_chain (fun _ => None) toy_config "n1" repo1 ∅ None 1 false logger_unread logger_restarted
           (toy_info "SELECT 1") "app" "api" "bob" (toy_readings "op2" 20));
    [reflexivity|reflexivity|done|reflexivity|by vm_compute|reflexivity|reflexivity|vm_compute; reflexivity|reflexivity].
Defined.

Lemma toy_log_failed : toy_log toy_logger "BEGIN" "op1" 10 = (Some logger_failed, Some ErrConstraint).
Proof. vm_compute. reflexivity. Qed.
Lemma toy_log_next : toy_log logger_failed "SELECT 1" "op2" 20 = (Some logger2, None).
Proof. vm_compute. reflexivity. Qed.

(** A statement the table's CHECK refuses: [BEGIN] is an [OTHER] action. *)
Lemma failed_persist_breaks_chain_witness :
  exists r2, l_repository logger2 = Some r2 /\ verify_rows "" (repo_rows r2 ++ []) = false.
Proof.
  eexists. split; [reflexivity|].
  apply (failed_persist_breaks_chain toy_logger logger_failed logger2 toy_repo _ (toy_info "BEGIN") "app" "api"
    "bob" (toy_readings "op1" 10) (toy_info "SELECT 1") "app" "api" "bob" (toy_readings "op2" 20) ErrConstraint);
    [exact toy_chained|reflexivity|done|reflexivity|reflexivity|exact toy_log_failed|exact toy_log_next| |reflexivity].
  vm_compute. done.
Defined.

Definition logger_b : Logger AuditRepository := Eval vm_compute in
  let la := (log_chain toy_logger (toy_info "SELECT 1") "app" "api" "bob" (toy_readings "op1" 10)).1 in
  let eb := log_chain la (toy_info "SELECT 2") "app" "api" "eve" (toy_readings "op2" 11) in
  after (log_deliver eb.1 eb.2 (toy_readings "op2" 11)).

Lemma interleaved_calls_break_chain_witness :
  exists r1, l_repository logger_b = Some r1 /\ verify_rows "" (repo_rows r1 ++ []) = false.
Proof.
  eexists. split; [reflexivity|].
  apply (interleaved_calls_break_chain toy_logger logger_b toy_repo _ (toy_info "SELECT 1") "app" "api" "bob"
    (toy_readings "op1" 10) (toy_info "SELECT 2") "app" "api" "eve" (toy_readings "op2" 11));
    [exact toy_chained|done|reflexivity|reflexivity| | |reflexivity].
  - vm_compute. reflexivity.
  - vm_compute. done.
Defined.

Lemma alert_blocks_actor_witness :
  Flags_RateLimited (AuditEntry_Flags (lg_entry
    (log_chain logger1 (toy_info "DELETE FROM t") "app" "api" "bob" (toy_readings "op2" 60)).2)) = true.
Proof.
  apply (alert_blocks_actor toy_logger logger1 (toy_info "SELECT 1") "app" "api" "bob" (toy_readings "op1" 10)).
  - by repeat eexists.
  - done.
  - eexists. split; [vm_compute; left|reflexivity].
  - vm_compute. reflexivity.
  - vm_compute. set_solver.
  - intros k. vm_compute. reflexivity.
Defined.
End witnesses.
