(* ===== verification/Accounts.v ===== *)
(** * Users, sessions and the authentication service
    ([internal/auth/service.go], [internal/storage/sqlite/users.go], [sessions.go])

    The two tables are lists of rows in the order of insertion; the constraints of
    [migrate/migrations/sqlite/000004_users.up.sql] decide which statements fail.
    A column that holds a time keeps the time and is compared as text, which is
    what SQLite does.  The order of [ORDER BY started_at DESC] among equal keys is
    not specified, so it is the class [SessionOrder].

    [auth.Service] works on the two repositories; each reading of the clock is an
    argument, and so is the random identifier of a new session. *)
From stdpp Require Import base gmap strings list sorting.
From Stdlib Require Import ZArith Lia Ascii.
From S2P Require Import Prelude GoStrings GoTime Domain.
Local Open Scope Z_scope.

Inductive AccountError :=
| EDomain (e : DomainError)
| EEmailRequired
| EConstraint.

(** ** Users *)

Definition set_login (u : User) (t : Time) : User :=
  mkUser (User_ID u) (User_PublicKey u) (User_KeyType u) (User_PublicKeyFingerprint u) (User_Name u)
    (User_Email u) (User_Status u) (User_Role u) (User_Locale u) (User_CreatedAt u) (User_UpdatedAt u)
    (Some t) (User_Metadata u).
Definition set_user_status (u : User) (s : UserStatus) : User :=
  mkUser (User_ID u) (User_PublicKey u) (User_KeyType u) (User_PublicKeyFingerprint u) (User_Name u)
    (User_Email u) s (User_Role u) (User_Locale u) (User_CreatedAt u) (User_UpdatedAt u)
    (User_LastLoginAt u) (User_Metadata u).
Definition set_role (u : User) (r : UserRole) : User :=
  mkUser (User_ID u) (User_PublicKey u) (User_KeyType u) (User_PublicKeyFingerprint u) (User_Name u)
    (User_Email u) (User_Status u) r (User_Locale u) (User_CreatedAt u) (User_UpdatedAt u)
    (User_LastLoginAt u) (User_Metadata u).
Definition set_locale (u : User) (l : string) : User :=
  mkUser (User_ID u) (User_PublicKey u) (User_KeyType u) (User_PublicKeyFingerprint u) (User_Name u)
    (User_Email u) (User_Status u) (User_Role u) l (User_CreatedAt u) (User_UpdatedAt u)
    (User_LastLoginAt u) (User_Metadata u).
Definition set_updated (u : User) (t : Time) : User :=
  mkUser (User_ID u) (User_PublicKey u) (User_KeyType u) (User_PublicKeyFingerprint u) (User_Name u)
    (User_Email u) (User_Status u) (User_Role u) (User_Locale u) (User_CreatedAt u) t
    (User_LastLoginAt u) (User_Metadata u).

Definition not_deleted (u : User) : bool := User_Status u <>? UserStatusDeleted.

(** A null email is not compared. *)
Definition email_taken (rows : list User) (id : UserID) (email : string) : bool :=
  (email <>? ""%string) && existsb (fun v => (User_Email v =?= email) && (User_ID v <>? id)) rows.

Definition user_unique (rows : list User) (u : User) : bool :=
  negb (mem (User_ID u) (map User_ID rows)) && negb (mem (User_PublicKey u) (map User_PublicKey rows)) &&
  negb (mem (User_PublicKeyFingerprint u) (map User_PublicKeyFingerprint rows)) &&
  negb ((User_Email u <>? ""%string) && mem (User_Email u) (map User_Email rows)).

Definition Users_Create (rows : list User) (u : User) : list User * option AccountError :=
  match User_Validate u with
  | Some e => (rows, Some (EDomain e))
  | None => if user_unique rows u then (rows ++ [u], None) else (rows, Some (EDomain ErrUserExists))
  end.

Definition first_user (p : User -> bool) (rows : list User) : result AccountError User :=
  match List.find p rows with Some u => Ok u | None => Err (EDomain ErrUserNotFound) end.

Definition Users_Get (rows : list User) (id : UserID) : result AccountError User :=
  first_user (fun u => (User_ID u =?= id) && not_deleted u) rows.
Definition Users_GetByPublicKey (rows : list User) (key : list Z) : result AccountError User :=
  first_user (fun u => (User_PublicKey u =?= key) && not_deleted u) rows.
(** The empty text is stored as null, which equals nothing. *)
Definition Users_GetByEmail (rows : list User) (email : string) : result AccountError User :=
  first_user (fun u => (User_Email u =?= email) && (User_Email u <>? ""%string) && not_deleted u) rows.

(** The columns [Update] writes. *)
Definition updated_row (u row : User) (now : Time) : User :=
  mkUser (User_ID row) (User_PublicKey row) (User_KeyType row) (User_PublicKeyFingerprint row) (User_Name u)
    (User_Email u) (User_Status u) (User_Role u) (User_Locale u) (User_CreatedAt row) now
    (User_LastLoginAt u) (User_Metadata u).

Definition Users_Update (rows : list User) (u : User) (now : Time) : list User * option AccountError :=
  match User_Validate u with
  | Some e => (rows, Some (EDomain e))
  | None =>
      if negb (mem (User_ID u) (map User_ID rows)) then (rows, Some (EDomain ErrUserNotFound))
      else if email_taken rows (User_ID u) (User_Email u) then (rows, Some EConstraint)
      else (map (fun row => if User_ID row =?= User_ID u then updated_row u row now else row) rows, None)
  end.

Definition Users_Delete (rows : list User) (id : UserID) (now : Time) : list User * option AccountError :=
  if mem id (map User_ID rows)
  then (map (fun u => if User_ID u =?= id then set_updated (set_user_status u UserStatusDeleted) now else u) rows, None)
  else (rows, Some (EDomain ErrUserNotFound)).

Definition Users_Exists (rows : list User) (key : list Z) : bool :=
  existsb (fun u => (User_PublicKey u =?= key) && not_deleted u) rows.
Definition IsFirstUser (rows : list User) : bool := negb (existsb not_deleted rows).

(** [LIKE]: a percent sign for any text, an underscore for any character, letters
    in either case (for ASCII texts). *)
Fixpoint sql_like (pattern text : list ascii) : bool :=
  match pattern with
  | [] => match text with [] => true | _ => false end
  | p :: pattern' =>
      if p =?= "%"%char then
        (fix any (t : list ascii) : bool :=
           sql_like pattern' t || match t with [] => false | _ :: t' => any t' end) text
      else match text with
           | [] => false
           | c :: text' => ((p =?= "_"%char) || (lower_byte p =?= lower_byte c)) && sql_like pattern' text'
           end
  end.

Record UserFilter := mkUserFilter {
  UserFilter_Status : UserStatus;
  UserFilter_Role : UserRole;
  UserFilter_Search : string
}.
Definition user_matches (f : UserFilter) (u : User) : bool :=
  not_deleted u &&
  ((UserFilter_Status f =?= ""%string) || (User_Status u =?= UserFilter_Status f)) &&
  ((UserFilter_Role f =?= ""%string) || (User_Role u =?= UserFilter_Role f)) &&
  ((UserFilter_Search f =?= ""%string) ||
   let pattern := ["%"%char] ++ bytes_of (UserFilter_Search f) ++ ["%"%char] in
   sql_like pattern (bytes_of (User_Name u)) ||
   ((User_Email u <>? ""%string) && sql_like pattern (bytes_of (User_Email u)))).
Definition Users_Count (rows : list User) (f : UserFilter) : Z :=
  Z.of_nat (length (List.filter (user_matches f) rows)).

(** ** Sessions *)

Definition SessionTypeSSH : string := "ssh".
Definition SessionTypeGRPC : string := "grpc".
Definition SessionTypeAPI : string := "api".

Record Session := mkSession {
  Session_ID : string;
  Session_UserID : UserID;
  Session_Type : string;
  Session_ClientIP : string;
  Session_ClientAgent : string;
  Session_PublicKeyFingerprint : string;
  Session_NodeID : string;
  Session_StartedAt : Time;
  Session_EndedAt : option Time;
  Session_LastActivityAt : Time;
  Session_Metadata : gmap string string
}.

Definition is_active (s : Session) : bool := match Session_EndedAt s with None => true | Some _ => false end.

(** The columns [Update] and [End] write. *)
Definition set_activity (s : Session) (ended : option Time) (last : Time) (m : gmap string string) : Session :=
  mkSession (Session_ID s) (Session_UserID s) (Session_Type s) (Session_ClientIP s) (Session_ClientAgent s)
    (Session_PublicKeyFingerprint s) (Session_NodeID s) (Session_StartedAt s) ended last m.
Definition ended_at (now : Time) (s : Session) : Session := set_activity s (Some now) now (Session_Metadata s).

(** Newest text first. *)
Class SessionOrder := {
  order_started_desc : list Session -> list Session;
  order_started_perm l : order_started_desc l ≡ₚ l;
  order_started_sorted l :
    Sorted.StronglySorted
      (fun a b => text_leb (RFC3339Nano (Session_StartedAt b)) (RFC3339Nano (Session_StartedAt a)) = true)
      (order_started_desc l)
}.

(** The primary key, the CHECK and the foreign key of the table. *)
Definition Sessions_Create (users : list User) (rows : list Session) (s : Session)
    : list Session * option AccountError :=
  if negb (mem (Session_ID s) (map Session_ID rows)) &&
     mem (Session_Type s) [SessionTypeSSH; SessionTypeGRPC; SessionTypeAPI] &&
     mem (Session_UserID s) (map User_ID users)
  then (rows ++ [s], None) else (rows, Some EConstraint).

Definition Sessions_Get (rows : list Session) (id : string) : result AccountError Session :=
  match List.find (fun s => Session_ID s =?= id) rows with
  | Some s => Ok s
  | None => Err (EDomain ErrSessionNotFound)
  end.

Definition active_of (rows : list Session) (user : UserID) : list Session :=
  List.filter (fun s => (Session_UserID s =?= user) && is_active s) rows.

Definition Sessions_GetByUser `{SessionOrder} (rows : list Session) (user : UserID) : list Session :=
  order_started_desc (active_of rows user).

Definition Sessions_Update (rows : list Session) (s : Session) : list Session * option AccountError :=
  if mem (Session_ID s) (map Session_ID rows) then
    (map (fun row => if Session_ID row =?= Session_ID s
                     then set_activity row (Session_EndedAt s) (Session_LastActivityAt s) (Session_Metadata s)
                     else row) rows, None)
  else (rows, Some (EDomain ErrSessionNotFound)).

Definition Sessions_End (rows : list Session) (id : string) (now : Time) : list Session * option AccountError :=
  if existsb (fun s => (Session_ID s =?= id) && is_active s) rows
  then (map (fun s => if (Session_ID s =?= id) && is_active s then ended_at now s else s) rows, None)
  else (rows, Some (EDomain ErrSessionNotFound)).

Definition Sessions_EndAllForUser (rows : list Session) (user : UserID) (now : Time) : list Session :=
  map (fun s => if (Session_UserID s =?= user) && is_active s then ended_at now s else s) rows.

Definition cleanup_row (before : Time) (s : Session) : bool :=
  match Session_EndedAt s with
  | None => false
  | Some t => text_ltb (RFC3339Nano t) (RFC3339Nano before)
  end.
Definition Sessions_Cleanup (rows : list Session) (before : Time) : list Session * Z :=
  (List.filter (fun s => negb (cleanup_row before s)) rows,
   Z.of_nat (length (List.filter (cleanup_row before) rows))).

(** ** The service *)

Record AuthConfig := mkAuthConfig {
  AllowAutoRegistration : bool;
  RequireEmail : bool;
  DefaultRole : string;
  SessionTimeout : Duration;
  MaxSessionsPerUser : Z
}.

Record Service := mkService {
  sv_cfg : AuthConfig;
  sv_nodeID : string;
  sv_users : list User;
  sv_sessions : list Session
}.

Record AuthenticateRequest := mkAuthenticateRequest {
  req_PublicKey : list Z;
  req_KeyType : KeyType;
  req_Name : string;
  req_Email : string;
  req_Locale : string;
  req_SessionType : string;
  req_ClientIP : string;
  req_ClientAgent : string;
  req_Metadata : gmap string string
}.

Record AuthenticateResult := mkAuthenticateResult {
  res_User : User;
  res_Session : Session;
  res_IsNew : bool
}.

(** What one call reads: the clock where it creates the user, where it logs the
    user in, where it updates the row, where it ends a session; a session name. *)
Record AuthReadings := mkAuthReadings {
  rd_created : Time;
  rd_login : Time;
  rd_update : Time;
  rd_end : Time;
  rd_session : string
}.

Definition set_users (s : Service) (users : list User) : Service :=
  mkService (sv_cfg s) (sv_nodeID s) users (sv_sessions s).
Definition set_sessions (s : Service) (sessions : list Session) : Service :=
  mkService (sv_cfg s) (sv_nodeID s) (sv_users s) sessions.

Definition checkUserStatus (u : User) : option AccountError :=
  if User_Status u =?= UserStatusActive then None
  else if User_Status u =?= UserStatusPending then Some (EDomain ErrUserPending)
  else if User_Status u =?= UserStatusSuspended then Some (EDomain ErrUserSuspended)
  else if User_Status u =?= UserStatusDeleted then Some (EDomain ErrUserNotFound)
  else Some (EDomain ErrUnauthorized).

Section service.
Context `{Crypto} `{SessionOrder}.

(** The user that auto-registration creates. *)
Definition registered (cfg : AuthConfig) (req : AuthenticateRequest) (first : bool) (now : Time) : User :=
  let u := NewUser now (req_PublicKey req) (req_KeyType req) (req_Name req) (req_Email req) first in
  let u := if negb first && (DefaultRole cfg <>? ""%string) && UserRole_IsValid (DefaultRole cfg)
           then set_role u (DefaultRole cfg) else u in
  if req_Locale req <>? ""%string then set_locale u (req_Locale req) else u.

(** The user of a request, found or created, and the users. *)
Definition find_or_register (s : Service) (req : AuthenticateRequest) (now : Time)
    : list User * result AccountError (User * bool) :=
  match Users_GetByPublicKey (sv_users s) (req_PublicKey req) with
  | Ok u => (sv_users s, Ok (u, false))
  | Err _ =>
      if negb (AllowAutoRegistration (sv_cfg s)) then (sv_users s, Err (EDomain ErrAutoRegDisabled))
      else if RequireEmail (sv_cfg s) && (req_Email req =?= ""%string) then (sv_users s, Err EEmailRequired)
      else
        let u := registered (sv_cfg s) req (IsFirstUser (sv_users s)) now in
        match Users_Create (sv_users s) u with
        | (users, None) => (users, Ok (u, true))
        | (users, Some e) => (users, Err e)
        end
  end.

(** The session limit: the last of the active sessions, by their start, ends. *)
Definition make_room (max : Z) (sessions : list Session) (user : UserID) (now : Time) : list Session :=
  if 0 <? max then
    let active := Sessions_GetByUser sessions user in
    if max <=? Z.of_nat (length active) then
      match last active with
      | Some oldest => (Sessions_End sessions (Session_ID oldest) now).1
      | None => sessions
      end
    else sessions
  else sessions.

Definition new_session (s : Service) (req : AuthenticateRequest) (u : User) (rd : AuthReadings) : Session :=
  mkSession (rd_session rd) (User_ID u) (req_SessionType req) (req_ClientIP req) (req_ClientAgent req)
    (User_PublicKeyFingerprint u) (sv_nodeID s) (rd_login rd) None (rd_login rd) (req_Metadata req).

Definition Authenticate (s : Service) (req : AuthenticateRequest) (rd : AuthReadings)
    : Service * result AccountError AuthenticateResult :=
  let '(users, found) := find_or_register s req (rd_created rd) in
  let s := set_users s users in
  match found with
  | Err e => (s, Err e)
  | Ok (u, isNew) =>
      match checkUserStatus u with
      | Some e => (s, Err e)
      | None =>
          let u := set_login u (rd_login rd) in
          let '(users, err) := Users_Update (sv_users s) u (rd_update rd) in
          let u := match User_Validate u with None => set_updated u (rd_update rd) | Some _ => u end in
          let s := set_users s users in
          let s := set_sessions s (make_room (MaxSessionsPerUser (sv_cfg s)) (sv_sessions s) (User_ID u) (rd_end rd)) in
          let session := new_session s req u rd in
          match Sessions_Create (sv_users s) (sv_sessions s) session with
          | (sessions, None) => (set_sessions s sessions, Ok (mkAuthenticateResult u session isNew))
          | (sessions, Some e) => (set_sessions s sessions, Err e)
          end
      end
  end.

Definition EndSession (s : Service) (id : string) (now : Time) : Service * option AccountError :=
  let '(rows, err) := Sessions_End (sv_sessions s) id now in (set_sessions s rows, err).
Definition EndAllSessions (s : Service) (user : UserID) (now : Time) : Service :=
  set_sessions s (Sessions_EndAllForUser (sv_sessions s) user now).
Definition ListUserSessions (s : Service) (user : UserID) : list Session :=
  Sessions_GetByUser (sv_sessions s) user.

Definition GetSession (s : Service) (id : string) (now end_now : Time) : Service * result AccountError Session :=
  match Sessions_Get (sv_sessions s) id with
  | Err e => (s, Err e)
  | Ok session =>
      if negb (is_active session) then (s, Err (EDomain ErrSessionNotFound))
      else if (0 <? SessionTimeout (sv_cfg s)) &&
              (SessionTimeout (sv_cfg s) <? now - Session_LastActivityAt session)
      then ((EndSession s id end_now).1, Err (EDomain ErrSessionExpired))
      else (s, Ok session)
  end.

(** The two statements of [UpdateSessionActivity]. *)
Definition touched (session : Session) (now : Time) : Session :=
  set_activity session (Session_EndedAt session) now (Session_Metadata session).
Definition UpdateSessionActivity (s : Service) (id : string) (now : Time) : Service * option AccountError :=
  match Sessions_Get (sv_sessions s) id with
  | Err e => (s, Some e)
  | Ok session =>
      let '(rows, err) := Sessions_Update (sv_sessions s) (touched session now) in (set_sessions s rows, err)
  end.

Definition UpdateUser (s : Service) (u : User) (now : Time) : Service * option AccountError :=
  let '(users, err) := Users_Update (sv_users s) u now in (set_users s users, err).

(** [Get], an assignment, [Update]. *)
Definition change_user (s : Service) (id : UserID) (f : User -> User) (now : Time) : Service * option AccountError :=
  match Users_Get (sv_users s) id with
  | Err e => (s, Some e)
  | Ok u => UpdateUser s (f u) now
  end.

(** [ends] tells whether the statement that ends the sessions succeeds: if not,
    the account is suspended with its sessions open. *)
Definition SuspendUser (s : Service) (id : UserID) (now end_now : Time) (ends : bool) : Service * option AccountError :=
  match change_user s id (fun u => set_user_status u UserStatusSuspended) now with
  | (s, Some e) => (s, Some e)
  | (s, None) => if ends then (EndAllSessions s id end_now, None) else (s, Some EConstraint)
  end.
Definition ActivateUser (s : Service) (id : UserID) (now : Time) : Service * option AccountError :=
  change_user s id (fun u => set_user_status u UserStatusActive) now.
Definition SetUserRole (s : Service) (id : UserID) (role : UserRole) (now : Time) : Service * option AccountError :=
  if negb (UserRole_IsValid role) then (s, Some (EDomain ErrInvalidUserRole))
  else change_user s id (fun u => set_role u role) now.

Definition DeleteUser (s : Service) (id : UserID) (end_now now : Time) : Service * option AccountError :=
  let s := EndAllSessions s id end_now in
  let '(users, err) := Users_Delete (sv_users s) id now in (set_users s users, err).

Definition completed_user (u : User) (first : bool) (now : Time) : User :=
  mkUser (if User_ID u =?= ""%string then UserIDFromPublicKey (User_PublicKey u) else User_ID u)
    (User_PublicKey u) (User_KeyType u)
    (if User_PublicKeyFingerprint u =?= ""%string then PublicKeyFingerprint (User_PublicKey u)
     else User_PublicKeyFingerprint u)
    (User_Name u) (User_Email u)
    (if User_Status u =?= ""%string then UserStatusActive else User_Status u)
    (if first then UserRoleAdmin else if User_Role u =?= ""%string then UserRoleUser else User_Role u)
    (User_Locale u) (if IsZero (User_CreatedAt u) then now else User_CreatedAt u) now
    (User_LastLoginAt u) (User_Metadata u).

Definition CreateUser (s : Service) (u : User) (now : Time) : Service * option AccountError :=
  let '(users, err) := Users_Create (sv_users s) (completed_user u (IsFirstUser (sv_users s)) now) in
  (set_users s users, err).

Definition CleanupExpiredSessions (s : Service) (now : Time) : Service * Z :=
  if SessionTimeout (sv_cfg s) =? 0 then (s, 0)
  else let '(rows, n) := Sessions_Cleanup (sv_sessions s) (Add now (- SessionTimeout (sv_cfg s) * 2)) in
       (set_sessions s rows, n).
End service.

(** * Theorems *)

(** ** Rows *)

Definition row_at (rows : list User) (id : UserID) (status : UserStatus) : Prop :=
  exists u, u ∈ rows /\ User_ID u = id /\ User_Status u = status.

Lemma map_id_on {A} (f : A -> A) l : (forall x, x ∈ l -> f x = x) -> map f l = l.
Proof.
  induction l as [|x l IH]; intros Hf; [done|]. simpl. rewrite Hf by set_solver. f_equal. apply IH. set_solver.
Qed.

Lemma first_user_Ok p rows u : first_user p rows = Ok u -> u ∈ rows /\ p u = true.
Proof.
  unfold first_user. destruct (List.find p rows) as [v|] eqn:Hf; [|done]. intros [= ->].
  apply find_some in Hf as [Hin Hp]. by rewrite <- list_elem_of_In in Hin.
Qed.

Lemma Users_Get_Ok rows id u :
  Users_Get rows id = Ok u -> u ∈ rows /\ User_ID u = id /\ User_Status u <> UserStatusDeleted.
Proof.
  intros [Hin Hp]%first_user_Ok. apply andb_true_iff in Hp as [Hid Hn]. apply bool_decide_eq_true in Hid.
  unfold not_deleted in Hn. apply negb_true_iff, bool_decide_eq_false in Hn. done.
Qed.

Lemma GetByPublicKey_Ok rows key u :
  Users_GetByPublicKey rows key = Ok u ->
  u ∈ rows /\ User_PublicKey u = key /\ User_Status u <> UserStatusDeleted.
Proof.
  intros [Hin Hp]%first_user_Ok. apply andb_true_iff in Hp as [Hid Hn]. apply bool_decide_eq_true in Hid.
  unfold not_deleted in Hn. apply negb_true_iff, bool_decide_eq_false in Hn. done.
Qed.

(** The identifiers and the public keys of the table are unique. *)
Definition user_keys (u : User) : UserID * list Z := (User_ID u, User_PublicKey u).
Definition unique_users (rows : list User) : Prop :=
  NoDup (map User_ID rows) /\ NoDup (map User_PublicKey rows).

Lemma unique_users_same a b : map user_keys a = map user_keys b -> unique_users b -> unique_users a.
Proof.
  intros Heq [H1 H2]. unfold unique_users.
  replace (map User_ID a) with (map User_ID b); [replace (map User_PublicKey a) with (map User_PublicKey b); [done|]|].
  - apply (f_equal (map snd)) in Heq. by rewrite !map_map in Heq.
  - apply (f_equal (map fst)) in Heq. by rewrite !map_map in Heq.
Qed.

Lemma Users_Create_unique rows u : unique_users rows -> unique_users (Users_Create rows u).1.
Proof.
  intros [H1 H2]. unfold Users_Create. destruct (User_Validate u); [done|].
  destruct (user_unique rows u) eqn:Hu; [|done].
  unfold user_unique in Hu. repeat setoid_rewrite andb_true_iff in Hu. destruct Hu as [[[Hid Hkey] _] _].
  apply negb_true_iff, mem_false in Hid, Hkey. unfold unique_users. simpl. rewrite !map_app.
  split; apply NoDup_app; (split_and!; [done| |apply NoDup_singleton]); simpl; set_solver.
Qed.

Lemma Users_Create_keeps rows u v : v ∈ rows -> v ∈ (Users_Create rows u).1.
Proof.
  intros Hv. unfold Users_Create. destruct (User_Validate u); [done|]. destruct (user_unique rows u); [|done].
  simpl. set_solver.
Qed.

Lemma Users_Create_new rows u : (Users_Create rows u).2 = None -> u ∈ (Users_Create rows u).1.
Proof.
  unfold Users_Create. destruct (User_Validate u); [done|]. destruct (user_unique rows u); [|done].
  simpl. set_solver.
Qed.

Lemma Users_Update_keys rows u now : map user_keys (Users_Update rows u now).1 = map user_keys rows.
Proof.
  unfold Users_Update. destruct (User_Validate u); [done|]. destruct (negb _); [done|]. destruct (email_taken _ _ _); [done|].
  simpl. rewrite map_map. apply map_ext. intros v. by case_bool_decide.
Qed.

Lemma Users_Update_unique rows u now : unique_users rows -> unique_users (Users_Update rows u now).1.
Proof. apply unique_users_same, Users_Update_keys. Qed.

(** A row of another user stays, and a row of this one gets the new status. *)
Lemma Users_Update_status rows u now id status :
  row_at rows id status -> (id = User_ID u -> status = User_Status u) ->
  row_at (Users_Update rows u now).1 id status.
Proof.
  intros (v & Hv & Hid & Hst) Hsame. unfold Users_Update. destruct (User_Validate u); [by exists v|].
  destruct (negb _); [by exists v|]. destruct (email_taken _ _ _); [by exists v|]. simpl.
  exists (if User_ID v =?= User_ID u then updated_row u v now else v). split.
  - rewrite list_elem_of_In. apply in_map_iff. exists v. by rewrite <- list_elem_of_In.
  - case_bool_decide as Heq; [|done]. simpl. split; [done|]. symmetry. apply Hsame. congruence.
Qed.

(** ** Sessions *)

Lemma active_of_map f rows user :
  (forall s, s ∈ rows -> Session_UserID (f s) = Session_UserID s /\ (is_active (f s) = true -> is_active s = true)) ->
  (length (active_of (map f rows) user) <= length (active_of rows user))%nat.
Proof.
  unfold active_of. induction rows as [|s rows IH]; intros Hf; [done|]. simpl.
  destruct (Hf s) as [Hu Ha]; [set_solver|]. rewrite Hu.
  assert (forall s, s ∈ rows -> Session_UserID (f s) = Session_UserID s /\ (is_active (f s) = true -> is_active s = true))
    as Hf' by (intros; apply Hf; set_solver).
  specialize (IH Hf'). destruct (_ =?= user); [|done]. simpl.
  destruct (is_active (f s)); [rewrite Ha by done|destruct (is_active s)]; simpl; lia.
Qed.

Lemma ended_not_active now s : is_active (ended_at now s) = false.
Proof. done. Qed.

Lemma Sessions_End_map rows id now :
  (Sessions_End rows id now).1 =
  map (fun s => if (Session_ID s =?= id) && is_active s then ended_at now s else s) rows.
Proof.
  unfold Sessions_End. destruct (existsb _ _) eqn:He; [done|]. simpl. symmetry.
  apply map_id_on. intros s Hs%list_elem_of_In.
  destruct ((Session_ID s =?= id) && is_active s) eqn:Hb; [|done].
  exfalso. assert (existsb (fun s => (Session_ID s =?= id) && is_active s) rows = true) as Ht
    by (apply existsb_exists; eauto). congruence.
Qed.

Lemma ids_kept f rows :
  (forall s, Session_ID (f s) = Session_ID s) -> map Session_ID (map f rows) = map Session_ID rows.
Proof. intros Hf. rewrite map_map. by apply map_ext. Qed.

Lemma active_of_cons s rows user :
  active_of (s :: rows) user =
  (if (Session_UserID s =?= user) && is_active s then [s] else []) ++ active_of rows user.
Proof. unfold active_of. simpl. by destruct (_ && _). Qed.

Lemma active_of_app a b user : active_of (a ++ b) user = active_of a user ++ active_of b user.
Proof. apply List.filter_app. Qed.

(** Ending one active session lowers the count of its user by one. *)
Lemma End_active rows x now :
  NoDup (map Session_ID rows) -> x ∈ rows -> is_active x = true ->
  (S (length (active_of (Sessions_End rows (Session_ID x) now).1 (Session_UserID x)))
   = length (active_of rows (Session_UserID x)))%nat.
Proof.
  rewrite Sessions_End_map. intros Hnd Hx Ha. induction rows as [|s rows IH]; [set_solver|].
  simpl in Hnd. apply NoDup_cons in Hnd as [Hn Hnd]. apply elem_of_cons in Hx as [<-|Hx].
  - rewrite map_cons, !active_of_cons, Ha, (bool_decide_true (Session_ID x = Session_ID x)) by done. simpl.
    rewrite bool_decide_true by done. simpl. rewrite map_id_on; [done|]. intros s Hs.
    rewrite bool_decide_false; [done|].
    intros Heq. apply Hn. rewrite <- Heq. by apply list_elem_of_In, in_map, list_elem_of_In.
  - specialize (IH Hnd Hx). rewrite map_cons, !active_of_cons.
    rewrite (bool_decide_false (Session_ID s = Session_ID x)).
    2: { intros Heq. apply Hn. rewrite Heq. by apply list_elem_of_In, in_map, list_elem_of_In. }
    rewrite !length_app. simpl andb. cbv iota. lia.
Qed.

Lemma find_session rows x :
  NoDup (map Session_ID rows) -> x ∈ rows -> List.find (fun s => Session_ID s =?= Session_ID x) rows = Some x.
Proof.
  intros Hnd Hx. destruct (List.find _ rows) as [y|] eqn:Hf.
  - apply find_some in Hf as [Hy%list_elem_of_In Hid%bool_decide_eq_true]. f_equal. by apply (same_key Session_ID rows).
  - apply find_none with (x := x) in Hf; [|by apply list_elem_of_In]. by rewrite bool_decide_true in Hf.
Qed.

Lemma find_session_map f rows id :
  (forall r, Session_ID (f r) = Session_ID r) ->
  List.find (fun s => Session_ID s =?= id) (map f rows) = f <$> List.find (fun s => Session_ID s =?= id) rows.
Proof. intros Hf. induction rows as [|r rows IH]; [done|]. simpl. rewrite Hf. by case_bool_decide. Qed.

(** ** The invariant of the service *)

(** [left] names the users of whom the ending of sessions has failed. *)
Record accounts_inv_but (left : list UserID) (s : Service) : Prop := {
  ai_users : unique_users (sv_users s);
  ai_sessions : NoDup (map Session_ID (sv_sessions s));
  ai_owner x : x ∈ sv_sessions s -> is_active x = true -> Session_UserID x ∉ left ->
    row_at (sv_users s) (Session_UserID x) UserStatusActive;
  ai_limit user : 0 < MaxSessionsPerUser (sv_cfg s) ->
    Z.of_nat (length (active_of (sv_sessions s) user)) <= MaxSessionsPerUser (sv_cfg s)
}.

Arguments ai_users {left} s _.
Arguments ai_sessions {left} s _.
Arguments ai_owner {left} s _.
Arguments ai_limit {left} s _.
Abbreviation accounts_inv := (accounts_inv_but []).

Section invariant.
Context {left : list UserID}.

(** Rewriting sessions without reviving any. *)
Lemma map_sessions_inv s f :
  accounts_inv_but left s ->
  (forall x, x ∈ sv_sessions s -> Session_ID (f x) = Session_ID x /\ Session_UserID (f x) = Session_UserID x /\
     (is_active (f x) = true -> is_active x = true)) ->
  accounts_inv_but left (set_sessions s (map f (sv_sessions s))).
Proof.
  intros [Hu Hs Ho Hl] Hf. split; simpl; [done|..].
  - rewrite map_map, (map_ext_in _ Session_ID); [done|]. intros x Hx. by apply Hf, list_elem_of_In.
  - intros x Hx Ha. apply list_elem_of_In, in_map_iff in Hx as (y & <- & Hy%list_elem_of_In).
    destruct (Hf y Hy) as (_ & -> & Hact). auto.
  - intros user Hmax. specialize (Hl user Hmax).
    pose proof (active_of_map f (sv_sessions s) user) as Hle. specialize (Hle ltac:(intros; split; by apply Hf)).
    lia.
Qed.

Lemma filter_filter_length {A} (p q : A -> bool) l :
  (length (List.filter p (List.filter q l)) <= length (List.filter p l))%nat.
Proof. induction l as [|x l IH]; simpl; [done|]. destruct (q x), (p x) eqn:Hx; simpl; rewrite ?Hx; simpl; lia. Qed.

Lemma filter_sessions_inv s p :
  accounts_inv_but left s -> accounts_inv_but left (set_sessions s (List.filter p (sv_sessions s))).
Proof.
  intros [Hu Hs Ho Hl]. split; simpl; [done|..].
  - by apply NoDup_map_filter.
  - intros x Hx Ha. apply list_elem_of_In, filter_In in Hx as [Hx _]. apply Ho; [by apply list_elem_of_In|done].
  - intros user Hmax. specialize (Hl user Hmax). unfold active_of in *.
    pose proof (filter_filter_length (fun s => (Session_UserID s =?= user) && is_active s) p (sv_sessions s)). lia.
Qed.

(** Rewriting users without taking an active row from a session. *)
Lemma set_users_inv s users :
  accounts_inv_but left s -> unique_users users ->
  (forall x, x ∈ sv_sessions s -> is_active x = true ->
     row_at (sv_users s) (Session_UserID x) UserStatusActive -> row_at users (Session_UserID x) UserStatusActive) ->
  accounts_inv_but left (set_users s users).
Proof. intros [Hu Hs Ho Hl] Hnd Hk. split; simpl; eauto. Qed.

Lemma EndSession_inv s id now : accounts_inv_but left s -> accounts_inv_but left (EndSession s id now).1.
Proof.
  intros Hi. unfold EndSession. pose proof (Sessions_End_map (sv_sessions s) id now) as Hm.
  destruct (Sessions_End _ _ _) as [rows err]. simpl in *. subst rows. apply map_sessions_inv; [done|].
  intros x _. by destruct (_ && _).
Qed.

Lemma EndAllSessions_inv s user now : accounts_inv_but left s -> accounts_inv_but left (EndAllSessions s user now).
Proof. intros Hi. apply map_sessions_inv; [done|]. intros x _. by destruct (_ && _). Qed.

Lemma EndAllSessions_none s user now x :
  x ∈ sv_sessions (EndAllSessions s user now) -> Session_UserID x = user -> is_active x = false.
Proof.
  intros Hx Hu. apply list_elem_of_In, in_map_iff in Hx as (y & <- & _).
  destruct ((Session_UserID y =?= user) && is_active y) eqn:Hb; [done|].
  apply andb_false_iff in Hb as [Hb|Hb]; [|done]. by apply bool_decide_eq_false in Hb.
Qed.

Lemma Sessions_Get_Ok rows id x : Sessions_Get rows id = Ok x -> x ∈ rows /\ Session_ID x = id.
Proof.
  unfold Sessions_Get. destruct (List.find _ rows) as [y|] eqn:Hf; [|done]. intros [= ->].
  apply find_some in Hf as [Hin Hid%bool_decide_eq_true]. by rewrite <- list_elem_of_In in Hin.
Qed.

Lemma UpdateSessionActivity_inv s id now : accounts_inv_but left s -> accounts_inv_but left (UpdateSessionActivity s id now).1.
Proof.
  intros Hi. unfold UpdateSessionActivity. destruct (Sessions_Get (sv_sessions s) id) as [x|e] eqn:Hg; [|done].
  apply Sessions_Get_Ok in Hg as [Hx Hid]. unfold Sessions_Update.
  destruct (mem _ _); [|by destruct s, Hi; split]. simpl. apply map_sessions_inv; [done|]. intros y Hy.
  case_bool_decide as Heq; [|done]. split_and!; [done|done|]. simpl in Heq.
  assert (y = x) as -> by (by eapply (same_key Session_ID); [apply Hi|..]). done.
Qed.

Lemma GetSession_inv s id now end_now : accounts_inv_but left s -> accounts_inv_but left (GetSession s id now end_now).1.
Proof.
  intros Hi. unfold GetSession. destruct (Sessions_Get _ _); [|done]. destruct (negb _); [done|].
  destruct (_ && _); [by apply EndSession_inv|done].
Qed.

(** A change of a user that leaves active users active. *)
Lemma UpdateUser_inv s u now :
  accounts_inv_but left s ->
  (row_at (sv_users s) (User_ID u) UserStatusActive -> User_Status u = UserStatusActive) ->
  accounts_inv_but left (UpdateUser s u now).1.
Proof.
  intros Hi Hst. unfold UpdateUser. pose proof (Users_Update_unique (sv_users s) u now (ai_users _ Hi)) as Huniq.
  pose proof (Users_Update_status (sv_users s) u now) as Hkeep.
  destruct (Users_Update _ _ _) as [users err]. simpl in *. apply set_users_inv; [done|done|].
  intros x _ _ Hrow. apply Hkeep; [done|]. intros Heq. symmetry. apply Hst. by rewrite <- Heq.
Qed.

Lemma change_user_inv s id f now :
  accounts_inv_but left s -> (forall u, User_ID (f u) = User_ID u) ->
  (forall u, User_Status u = UserStatusActive -> User_Status (f u) = UserStatusActive) ->
  accounts_inv_but left (change_user s id f now).1.
Proof.
  intros Hi Hid Hst. unfold change_user. destruct (Users_Get (sv_users s) id) as [u|e] eqn:Hg; [|done].
  apply Users_Get_Ok in Hg as (Hin & _ & _). apply UpdateUser_inv; [done|]. rewrite Hid.
  intros (v & Hv & Heq & Hact). apply Hst. by rewrite <- (same_key User_ID _ v u (proj1 (ai_users _ Hi)) Hv Hin Heq).
Qed.

(** A user whose sessions all ended may change in any way. *)
Lemma set_users_ended_inv s users id :
  accounts_inv_but left s -> unique_users users ->
  (forall x, x ∈ sv_sessions s -> Session_UserID x = id -> is_active x = false) ->
  (forall id', id' <> id -> row_at (sv_users s) id' UserStatusActive -> row_at users id' UserStatusActive) ->
  accounts_inv_but left (set_users s users).
Proof.
  intros Hi Hnd Hend Hk. apply set_users_inv; [done|done|]. intros x Hx Ha. apply Hk.
  intros Heq. by rewrite (Hend x Hx Heq) in Ha.
Qed.

Lemma set_users_sessions s a b : set_users (set_sessions s b) a = set_sessions (set_users s a) b.
Proof. done. Qed.

Lemma inv_but_more s id : accounts_inv_but left s -> accounts_inv_but (id :: left) s.
Proof. intros [Hu Hs Ho Hl]. split; [done|done| |done]. intros x Hx Ha Hn. apply Ho; set_solver. Qed.

(** A user whose sessions were to end and did not. *)
Lemma set_users_left_inv s users id :
  accounts_inv_but left s -> unique_users users ->
  (forall id', id' <> id -> row_at (sv_users s) id' UserStatusActive -> row_at users id' UserStatusActive) ->
  accounts_inv_but (id :: left) (set_users s users).
Proof.
  intros [Hu Hs Ho Hl] Hnd Hk. split; simpl; [done|done| |done]. intros x Hx Ha Hn. apply Hk; [set_solver|].
  apply Ho; set_solver.
Qed.

(** What the row of a suspended user leaves of the other rows. *)
Lemma suspend_row s id now :
  accounts_inv_but left s ->
  match change_user s id (fun u => set_user_status u UserStatusSuspended) now with
  | (s', Some _) => s' = s
  | (s', None) => exists users, s' = set_users s users /\ unique_users users /\
      forall id', id' <> id -> row_at (sv_users s) id' UserStatusActive -> row_at users id' UserStatusActive
  end.
Proof.
  intros Hi. unfold change_user. destruct (Users_Get (sv_users s) id) as [u|e] eqn:Hg; [|done].
  apply Users_Get_Ok in Hg as (Hin & Hid & _). unfold UpdateUser.
  set (u' := set_user_status u UserStatusSuspended).
  pose proof (Users_Update_unique (sv_users s) u' now (ai_users _ Hi)) as Huniq.
  pose proof (Users_Update_status (sv_users s) u' now) as Hkeep.
  assert ((Users_Update (sv_users s) u' now).2 <> None -> (Users_Update (sv_users s) u' now).1 = sv_users s) as Hfail.
  { unfold Users_Update. repeat case_match; done. }
  destruct (Users_Update _ _ _) as [users err]. simpl in *. destruct err as [e|].
  - rewrite Hfail by done. by destruct s.
  - exists users. split_and!; [done|done|]. intros id' Hne Hrow. apply Hkeep; [done|]. simpl. congruence.
Qed.

Lemma SuspendUser_inv s id now end_now (ends : bool) :
  accounts_inv_but left s ->
  accounts_inv_but (if ends then left else id :: left) (SuspendUser s id now end_now ends).1.
Proof.
  intros Hi. unfold SuspendUser. pose proof (suspend_row s id now Hi) as Hrow.
  destruct (change_user _ _ _ _) as [s' [e|]].
  { subst s'. destruct ends; [done|by apply inv_but_more]. }
  destruct Hrow as (users & -> & Huniq & Hkeep). destruct ends; simpl; [|by apply set_users_left_inv].
  apply (EndAllSessions_inv s id end_now) in Hi as Hi'.
  change (EndAllSessions (set_users s users) id end_now) with (set_users (EndAllSessions s id end_now) users).
  apply (set_users_ended_inv _ _ id); [done|done|apply EndAllSessions_none|done].
Qed.

Lemma Users_Delete_unique rows id now : unique_users rows -> unique_users (Users_Delete rows id now).1.
Proof.
  apply unique_users_same. unfold Users_Delete. destruct (mem _ _); [|done]. simpl. rewrite map_map. apply map_ext.
  intros u. by case_bool_decide.
Qed.

Lemma Users_Delete_keeps rows id now id' st :
  id' <> id -> row_at rows id' st -> row_at (Users_Delete rows id now).1 id' st.
Proof.
  intros Hne (u & Hu & Hid & Hst). unfold Users_Delete. destruct (mem _ _); [|by exists u]. exists u. split; [|done].
  apply list_elem_of_In, in_map_iff. exists u. rewrite bool_decide_false by congruence. by rewrite <- list_elem_of_In.
Qed.

Lemma DeleteUser_inv s id end_now now : accounts_inv_but left s -> accounts_inv_but left (DeleteUser s id end_now now).1.
Proof.
  intros Hi. apply (EndAllSessions_inv s id end_now) in Hi as Hi'. unfold DeleteUser.
  pose proof (Users_Delete_unique (sv_users s) id now (ai_users _ Hi)) as Huniq.
  pose proof (fun (id' : UserID) (Hne : id' <> id) Hr => Users_Delete_keeps (sv_users s) id now id' UserStatusActive Hne Hr) as Hkeep.
  simpl in *. destruct (Users_Delete _ _ _) as [users err]. simpl in *.
  apply (set_users_ended_inv _ _ id); [done|done|apply EndAllSessions_none|done].
Qed.

Lemma row_at_Create rows u id st : row_at rows id st -> row_at (Users_Create rows u).1 id st.
Proof. intros (v & Hv & Hr). exists v. split; [by apply Users_Create_keeps|done]. Qed.

End invariant.

Section service_theorems.
Context `{Crypto} `{SessionOrder} {left : list UserID}.

Lemma CreateUser_inv s u now : accounts_inv_but left s -> accounts_inv_but left (CreateUser s u now).1.
Proof.
  intros Hi. unfold CreateUser. set (u' := completed_user _ _ _).
  pose proof (Users_Create_unique (sv_users s) u' (ai_users _ Hi)) as Huniq.
  pose proof (row_at_Create (sv_users s) u') as Hkeep.
  destruct (Users_Create _ _) as [users err]. simpl in *. apply set_users_inv; eauto.
Qed.

Lemma CleanupExpiredSessions_inv s now : accounts_inv_but left s -> accounts_inv_but left (CleanupExpiredSessions s now).1.
Proof. intros Hi. unfold CleanupExpiredSessions. destruct (_ =? 0); [done|]. by apply filter_sessions_inv. Qed.

(** The user of a request is in the table, and no row is lost. *)
Lemma find_or_register_spec s req now u b :
  unique_users (sv_users s) ->
  let users := (find_or_register s req now).1 in
  unique_users users /\
  (forall id st, row_at (sv_users s) id st -> row_at users id st) /\
  ((find_or_register s req now).2 = Ok (u, b) -> u ∈ users).
Proof.
  intros Hnd. unfold find_or_register. destruct (Users_GetByPublicKey _ _) as [v|e] eqn:Hg.
  { apply GetByPublicKey_Ok in Hg as [Hin _]. split_and!; [done|done|]. by intros [= -> ->]. }
  destruct (negb _); [done|]. destruct (_ && _); [done|].
  set (u' := registered _ _ _ _). pose proof (Users_Create_unique (sv_users s) u' Hnd) as Huniq.
  pose proof (row_at_Create (sv_users s) u') as Hkeep. pose proof (Users_Create_new (sv_users s) u') as Hnew.
  destruct (Users_Create _ _) as [users [e'|]]; simpl in *; [done|]. split_and!; [done|done|].
  intros Heq. injection Heq as <- <-. by apply Hnew.
Qed.

Lemma make_room_inv s user now :
  accounts_inv_but left s -> accounts_inv_but left (set_sessions s (make_room (MaxSessionsPerUser (sv_cfg s)) (sv_sessions s) user now)).
Proof.
  intros Hi. unfold make_room. assert (accounts_inv_but left (set_sessions s (sv_sessions s))) as Hs by (by destruct s).
  destruct (0 <? _); [|done]. destruct (_ <=? _); [|done]. destruct (last _) as [x|]; [|done].
  pose proof (EndSession_inv s (Session_ID x) now Hi) as He. unfold EndSession in He.
  by destruct (Sessions_End _ _ _).
Qed.

(** After making room there is a place for one more session. *)
Lemma make_room_count s user now :
  accounts_inv_but left s -> 0 < MaxSessionsPerUser (sv_cfg s) ->
  Z.of_nat (length (active_of (make_room (MaxSessionsPerUser (sv_cfg s)) (sv_sessions s) user now) user))
    < MaxSessionsPerUser (sv_cfg s).
Proof.
  intros Hi Hmax. unfold make_room. rewrite (proj2 (Z.ltb_lt _ _) Hmax). unfold Sessions_GetByUser.
  pose proof (order_started_perm (active_of (sv_sessions s) user)) as Hperm.
  pose proof (Permutation_length Hperm) as Hlen. pose proof (ai_limit _ Hi user Hmax) as Hl. rewrite Hlen.
  destruct (Z.leb_spec (MaxSessionsPerUser (sv_cfg s)) (Z.of_nat (length (active_of (sv_sessions s) user)))); [|lia].
  destruct (last (order_started_desc _)) as [x|] eqn:Hlast.
  - assert (x ∈ active_of (sv_sessions s) user) as Hx.
    { rewrite <- Hperm. rewrite last_lookup in Hlast. by eapply list_elem_of_lookup_2. }
    apply list_elem_of_In, filter_In in Hx as [Hx%list_elem_of_In [Hu%bool_decide_eq_true Ha]%andb_true_iff].
    subst user. pose proof (End_active (sv_sessions s) x now (ai_sessions _ Hi) Hx Ha). lia.
  - apply last_None in Hlast. rewrite Hlast in Hlen. simpl in Hlen. lia.
Qed.

Lemma Sessions_Create_inv s x :
  accounts_inv_but left s -> row_at (sv_users s) (Session_UserID x) UserStatusActive ->
  (0 < MaxSessionsPerUser (sv_cfg s) ->
     Z.of_nat (length (active_of (sv_sessions s) (Session_UserID x))) < MaxSessionsPerUser (sv_cfg s)) ->
  accounts_inv_but left (set_sessions s (Sessions_Create (sv_users s) (sv_sessions s) x).1).
Proof.
  intros [Hu Hs Ho Hl] Hrow Hroom. unfold Sessions_Create. destruct (_ && _ && _) eqn:Hc; simpl; [|by split].
  apply andb_true_iff in Hc as [[Hid _]%andb_true_iff _]. apply negb_true_iff, mem_false in Hid. split; simpl; [done|..].
  - rewrite map_app. apply NoDup_app. split_and!; [done| |apply NoDup_singleton]. simpl. set_solver.
  - intros y [Hy|Hy]%elem_of_app Ha; [eauto|]. apply list_elem_of_singleton in Hy as ->. done.
  - intros user Hmax. rewrite active_of_app, length_app, active_of_cons. simpl.
    destruct (decide (Session_UserID x = user)) as [<-|Hne].
    + specialize (Hroom Hmax). destruct (_ && _); simpl; lia.
    + rewrite bool_decide_false by done. simpl. specialize (Hl user Hmax). lia.
Qed.

Lemma checkUserStatus_None u : checkUserStatus u = None -> User_Status u = UserStatusActive.
Proof. unfold checkUserStatus. repeat case_bool_decide; done. Qed.

Lemma Authenticate_inv s req rd : accounts_inv_but left s -> accounts_inv_but left (Authenticate s req rd).1.
Proof.
  intros Hi. unfold Authenticate.
  assert (forall u b, unique_users (find_or_register s req (rd_created rd)).1 /\
    (forall id st, row_at (sv_users s) id st -> row_at (find_or_register s req (rd_created rd)).1 id st) /\
    ((find_or_register s req (rd_created rd)).2 = Ok (u, b) -> u ∈ (find_or_register s req (rd_created rd)).1)) as Hfind
    by (intros; apply find_or_register_spec, Hi).
  destruct (find_or_register s req (rd_created rd)) as [users found]. simpl in Hfind.
  assert (accounts_inv_but left (set_users s users)) as Hi1.
  { destruct (Hfind (NewUser 0 [] "" "" "" false) true) as (Hnd & Hk & _). apply set_users_inv; eauto. }
  destruct found as [[u b]|e]; [|done]. destruct (Hfind u b) as (_ & _ & Hin). specialize (Hin eq_refl).
  destruct (checkUserStatus u) as [e|] eqn:Hcs; [done|]. apply checkUserStatus_None in Hcs.
  assert (row_at users (User_ID u) UserStatusActive) as Hrow by (by exists u).
  pose proof (UpdateUser_inv (set_users s users) (set_login u (rd_login rd)) (rd_update rd) Hi1 (fun _ => Hcs)) as Hi2.
  pose proof (Users_Update_status users (set_login u (rd_login rd)) (rd_update rd) _ _ Hrow) as Hrow2.
  specialize (Hrow2 ltac:(intros _; by symmetry)). unfold UpdateUser in Hi2.
  change (sv_users (set_users s users)) with users in *.
  destruct (Users_Update users _ _) as [users2 err]. cbn [fst] in *.
  set (u2 := match User_Validate _ with Some _ => _ | None => _ end).
  assert (User_ID u2 = User_ID u) as Hid2 by (unfold u2; by case_match).
  set (s2 := set_users (set_users s users) users2) in *.
  pose proof (make_room_inv s2 (User_ID u2) (rd_end rd) Hi2) as Hi3.
  pose proof (make_room_count s2 (User_ID u2) (rd_end rd) Hi2) as Hroom.
  set (s3 := set_sessions s2 _) in *.
  rewrite <- Hid2 in Hrow2.
  pose proof (Sessions_Create_inv s3 (new_session s3 req u2 rd) Hi3 Hrow2 Hroom) as Hi4.
  destruct (Sessions_Create (sv_users s3) (sv_sessions s3) (new_session s3 req u2 rd)) as [rows [e|]]; exact Hi4.
Qed.

(** ** Histories *)

Inductive account_op :=
| OpAuthenticate (req : AuthenticateRequest) (rd : AuthReadings)
| OpEndSession (id : string) (now : Time)
| OpEndAll (user : UserID) (now : Time)
| OpGetSession (id : string) (now end_now : Time)
| OpActivity (id : string) (now : Time)
| OpSuspend (id : UserID) (now end_now : Time) (ends : bool)
| OpActivate (id : UserID) (now : Time)
| OpSetRole (id : UserID) (role : UserRole) (now : Time)
| OpDelete (id : UserID) (end_now now : Time)
| OpCreate (u : User) (now : Time)
| OpCleanup (now : Time).

Definition account_step (s : Service) (op : account_op) : Service :=
  match op with
  | OpAuthenticate req rd => (Authenticate s req rd).1
  | OpEndSession id now => (EndSession s id now).1
  | OpEndAll user now => EndAllSessions s user now
  | OpGetSession id now end_now => (GetSession s id now end_now).1
  | OpActivity id now => (UpdateSessionActivity s id now).1
  | OpSuspend id now end_now ends => (SuspendUser s id now end_now ends).1
  | OpActivate id now => (ActivateUser s id now).1
  | OpSetRole id role now => (SetUserRole s id role now).1
  | OpDelete id end_now now => (DeleteUser s id end_now now).1
  | OpCreate u now => (CreateUser s u now).1
  | OpCleanup now => (CleanupExpiredSessions s now).1
  end.

(** The user a call leaves with sessions it meant to end. *)
Definition account_left (op : account_op) : list UserID :=
  match op with
  | OpSuspend id _ _ false => [id]
  | _ => []
  end.

Lemma account_step_inv s op :
  accounts_inv_but left s -> accounts_inv_but (account_left op ++ left)%list (account_step s op).
Proof.
  intros Hi. destruct op as [| | | | |id now end_now ends| | | | |]; simpl.
  - by apply Authenticate_inv.
  - by apply EndSession_inv.
  - by apply EndAllSessions_inv.
  - by apply GetSession_inv.
  - by apply UpdateSessionActivity_inv.
  - apply (SuspendUser_inv s id now end_now ends) in Hi. by destruct ends.
  - by apply change_user_inv.
  - unfold SetUserRole. destruct (negb _); [done|]. by apply change_user_inv.
  - by apply DeleteUser_inv.
  - by apply CreateUser_inv.
  - by apply CleanupExpiredSessions_inv.
Qed.

Lemma account_step_cfg s op : sv_cfg (account_step s op) = sv_cfg s.
Proof.
  destruct op; simpl; try done.
  - unfold Authenticate. destruct (find_or_register _ _ _) as [users [[u b]|e]]; [|done].
    destruct (checkUserStatus u); [done|]. destruct (Users_Update _ _ _) as [users' err].
    by destruct (Sessions_Create _ _ _) as [rows [e|]].
  - unfold EndSession. by destruct (Sessions_End _ _ _).
  - unfold GetSession, EndSession. destruct (Sessions_Get _ _); [|done]. destruct (negb _); [done|].
    destruct (_ && _); [|done]. by destruct (Sessions_End _ _ _).
  - unfold UpdateSessionActivity. destruct (Sessions_Get _ _); [|done]. by destruct (Sessions_Update _ _).
  - unfold SuspendUser, change_user, UpdateUser. destruct (Users_Get _ _); [|done].
    destruct (Users_Update _ _ _) as [? []]; [done|]. by destruct ends.
  - unfold ActivateUser, change_user, UpdateUser. destruct (Users_Get _ _); [|done]. by destruct (Users_Update _ _ _).
  - unfold SetUserRole, change_user, UpdateUser. destruct (negb _); [done|]. destruct (Users_Get _ _); [|done].
    by destruct (Users_Update _ _ _).
  - unfold DeleteUser. by destruct (Users_Delete _ _ _).
  - unfold CreateUser. by destruct (Users_Create _ _).
  - unfold CleanupExpiredSessions. destruct (_ =? 0); [done|]. by destruct (Sessions_Cleanup _ _).
Qed.

End service_theorems.

Section account_theorems.
Context `{Crypto} `{SessionOrder}.

Lemma account_steps_inv ops : forall left s,
  accounts_inv_but left s ->
  exists left', accounts_inv_but left' (fold_left account_step ops s) /\
    (forall id, id ∈ left' -> id ∈ left \/ exists op, op ∈ ops /\ id ∈ account_left op).
Proof.
  induction ops as [|op ops IH]; intros left s Hi; [exists left; auto|].
  destruct (IH _ _ (account_step_inv s op Hi)) as (left' & Hi' & Hleft). exists left'. split; [done|].
  intros id Hid. destruct (Hleft id Hid) as [[Hop|?]%elem_of_app|(op' & Hin & ?)]; [right|by left|right].
  - exists op. split; [left|done].
  - exists op'. split; [by right|done].
Qed.

(** The invariant of accounts: from an empty database, after any calls of the
    service, no two users share an identifier or a public key, no user has more
    active sessions than the configured limit, and every active session belongs to
    a user whose account is active, or of whom a suspension failed to end the
    sessions. *)
Theorem accounts_invariant cfg node ops :
  let s := fold_left account_step ops (mkService cfg node [] []) in
  unique_users (sv_users s) /\
  (0 < MaxSessionsPerUser cfg -> forall user,
     Z.of_nat (length (ListUserSessions s user)) <= MaxSessionsPerUser cfg) /\
  forall x, x ∈ sv_sessions s -> is_active x = true ->
    (exists u, u ∈ sv_users s /\ User_ID u = Session_UserID x /\ User_Status u = UserStatusActive) \/
    exists now end_now, OpSuspend (Session_UserID x) now end_now false ∈ ops.
Proof.
  intros s.
  assert (sv_cfg s = cfg) as Hc.
  { unfold s. change cfg with (sv_cfg (mkService cfg node [] [])) at 2. generalize (mkService cfg node [] []).
    induction ops as [|op ops IH]; intros s0; [done|]. simpl. by rewrite IH, account_step_cfg. }
  destruct (account_steps_inv ops [] (mkService cfg node [] [])) as (left & [Hu Hs Ho Hl] & Hleft).
  { split; simpl; [split; constructor|constructor|set_solver|lia]. }
  fold s in Hu, Hs, Ho, Hl. split_and!; [done|..].
  - intros Hmax user. unfold ListUserSessions, Sessions_GetByUser.
    rewrite order_started_perm, <- Hc. apply Hl. by rewrite Hc.
  - intros x Hx Ha. destruct (decide (Session_UserID x ∈ left)) as [Hin|Hn]; [right|left; by apply Ho].
    destruct (Hleft _ Hin) as [[]%elem_of_nil|(op & Hop & Hid)].
    destruct op as [| | | | |id now end_now []| | | | |]; try (by apply elem_of_nil in Hid).
    apply list_elem_of_singleton in Hid as ->. by exists now, end_now.
Qed.

(** ** One call *)

Lemma make_room_active max rows user now x :
  x ∈ make_room max rows user now -> is_active x = true -> x ∈ rows.
Proof.
  unfold make_room. destruct (0 <? max); [|done]. destruct (max <=? _); [|done]. destruct (last _) as [y|]; [|done].
  rewrite Sessions_End_map. intros Hx Ha. apply list_elem_of_In, in_map_iff in Hx as (z & Hz & Hin%list_elem_of_In).
  destruct (_ && _) in Hz; [|congruence]. by subst.
Qed.

(** The role of a user that registers. *)
Definition new_role (cfg : AuthConfig) (first : bool) : UserRole :=
  if first then UserRoleAdmin
  else if UserRole_IsValid (DefaultRole cfg) then DefaultRole cfg else UserRoleUser.

Lemma registered_fields cfg req first now :
  let u := registered cfg req first now in
  User_PublicKey u = req_PublicKey req /\ User_Status u = UserStatusActive /\ User_Role u = new_role cfg first.
Proof.
  unfold registered, new_role. destruct first; simpl.
  - by destruct (req_Locale req <>? ""%string).
  - destruct (UserRole_IsValid (DefaultRole cfg)) eqn:Hv.
    + rewrite (bool_decide_false (DefaultRole cfg = ""%string)) by (intros Heq; by rewrite Heq in Hv). simpl. by case_match.
    + rewrite andb_false_r. by case_match.
Qed.

Lemma find_or_register_Ok s req now u b :
  (find_or_register s req now).2 = Ok (u, b) ->
  User_PublicKey u = req_PublicKey req /\ User_Status u <> UserStatusDeleted /\
  if b then AllowAutoRegistration (sv_cfg s) = true /\
            (RequireEmail (sv_cfg s) = true -> req_Email req <> ""%string) /\
            User_Role u = new_role (sv_cfg s) (IsFirstUser (sv_users s))
  else u ∈ sv_users s.
Proof.
  unfold find_or_register. destruct (Users_GetByPublicKey _ _) as [v|e] eqn:Hg.
  { intros [= -> <-]. by apply GetByPublicKey_Ok in Hg as (? & ? & ?). }
  destruct (AllowAutoRegistration (sv_cfg s)); [|done]. simpl.
  destruct (RequireEmail (sv_cfg s) && (req_Email req =?= ""%string)) eqn:Hem; [done|].
  pose proof (registered_fields (sv_cfg s) req (IsFirstUser (sv_users s)) now) as (Hk & Hst & Hr).
  destruct (Users_Create _ _) as [users [e'|]]; [done|]. simpl. intros Heq. injection Heq as <- <-.
  split_and!; [done|by rewrite Hst|done| |done].
  intros Hre He. rewrite Hre, He, bool_decide_true in Hem; done.
Qed.

(** What [Authenticate] guarantees: on success the user owns the requested
    public key and is active, the returned session is stored, open and theirs, and
    a user created by the call got the administrator role exactly when no account
    existed, otherwise the configured role; on an error no session was opened. *)
Theorem Authenticate_spec s req rd :
  match Authenticate s req rd with
  | (s', Ok r) =>
      User_PublicKey (res_User r) = req_PublicKey req /\ User_Status (res_User r) = UserStatusActive /\
      res_Session r ∈ sv_sessions s' /\ is_active (res_Session r) = true /\
      Session_UserID (res_Session r) = User_ID (res_User r) /\
      if res_IsNew r
      then AllowAutoRegistration (sv_cfg s) = true /\
           (RequireEmail (sv_cfg s) = true -> req_Email req <> ""%string) /\
           User_Role (res_User r) = new_role (sv_cfg s) (IsFirstUser (sv_users s))
      else exists u, u ∈ sv_users s /\ User_ID u = User_ID (res_User r) /\ User_Role u = User_Role (res_User r)
  | (s', Err e) => forall x, x ∈ sv_sessions s' -> is_active x = true -> x ∈ sv_sessions s
  end.
Proof.
  unfold Authenticate.
  assert (forall u b, (find_or_register s req (rd_created rd)).2 = Ok (u, b) -> _) as Hfind
    by exact (fun u b H => find_or_register_Ok s req (rd_created rd) u b H).
  destruct (find_or_register s req (rd_created rd)) as [users [[u b]|e]]; [|done].
  destruct (Hfind u b eq_refl) as (Hk & _ & Hb). destruct (checkUserStatus u) as [e|] eqn:Hcs; [done|].
  apply checkUserStatus_None in Hcs. destruct (Users_Update _ _ _) as [users2 err].
  set (u2 := match User_Validate _ with Some _ => _ | None => _ end).
  assert (User_ID u2 = User_ID u /\ User_PublicKey u2 = User_PublicKey u /\ User_Status u2 = User_Status u /\
          User_Role u2 = User_Role u) as (Hi & Hk2 & Hst & Hr) by (unfold u2; by destruct (User_Validate (set_login u (rd_login rd)))).
  unfold Sessions_Create. destruct (_ && _ && _); simpl.
  - split_and!; try congruence; [set_solver|done|]. destruct b.
    + by rewrite Hr.
    + exists u. by rewrite Hi, Hr.
  - intros x. apply make_room_active.
Qed.

(** Suspending an account, if the sessions are ended, locks its owner out: none of
    its sessions is accepted any more, and a new authentication with its key is
    refused. *)
Theorem suspended_locked_out s id now end_now s' u
    (Hi : accounts_inv s) (Hs : SuspendUser s id now end_now true = (s', None))
    (Hu : u ∈ sv_users s) (Hid : User_ID u = id) :
  (forall x t t', x ∈ sv_sessions s' -> Session_UserID x = id ->
     (GetSession s' (Session_ID x) t t').2 = Err (EDomain ErrSessionNotFound)) /\
  (forall req rd, req_PublicKey req = User_PublicKey u ->
     (Authenticate s' req rd).2 = Err (EDomain ErrUserSuspended)).
Proof.
  pose proof (SuspendUser_inv s id now end_now true Hi) as Hi'. rewrite Hs in Hi'. simpl in Hi'.
  unfold SuspendUser, change_user in Hs. destruct (Users_Get (sv_users s) id) as [v|e] eqn:Hg; [|done].
  apply Users_Get_Ok in Hg as (Hv & Hvid & Hnd).
  assert (v = u) as -> by (eapply (same_key User_ID); [apply Hi|done|done|congruence]).
  unfold UpdateUser in Hs. destruct (Users_Update _ _ _) as [users [e|]] eqn:Hup; [done|]. injection Hs as <-. split.
  - intros x t t' Hx Hxu. unfold GetSession. destruct (Sessions_Get _ _) as [y|e] eqn:Hget.
    + apply Sessions_Get_Ok in Hget as [Hy Hyid].
      assert (y = x) as -> by (eapply (same_key Session_ID); [apply Hi'|done|done|done]).
      by rewrite (EndAllSessions_none _ _ _ _ Hx Hxu).
    + unfold Sessions_Get in Hget. destruct (List.find _ _); by simplify_eq.
  - intros req rd Hk.
    set (row := updated_row (set_user_status u UserStatusSuspended) u now).
    assert (row ∈ users) as Hrow.
    { unfold Users_Update in Hup. repeat case_match; simplify_eq. apply list_elem_of_In, in_map_iff. exists u.
      split; [by rewrite bool_decide_true|by apply list_elem_of_In]. }
    destruct (Users_GetByPublicKey users (User_PublicKey u)) as [w|e] eqn:Hw.
    + apply GetByPublicKey_Ok in Hw as Hw'. destruct Hw' as (Hwin & Hwk & _).
      assert (w = row) as -> by (eapply (same_key User_PublicKey); [apply Hi'|done|done|done]).
      unfold Authenticate, find_or_register. simpl. by rewrite Hk, Hw.
    + exfalso. unfold Users_GetByPublicKey, first_user in Hw. destruct (List.find _ users) eqn:Hf; [done|].
      apply find_None with (y := row) in Hf; [|done]. simpl in Hf. rewrite bool_decide_true in Hf by done. done.
Qed.

(** ** Two statements are not one *)

(** [UpdateSessionActivity] reads the session and writes it back, its end
    included: a session that is ended between the two statements is open again
    afterwards. *)
Theorem activity_revives_session s id x end_now now
    (Hi : accounts_inv s) (Hget : Sessions_Get (sv_sessions s) id = Ok x) (Ha : is_active x = true) :
  let ended := (EndSession s id end_now).1 in
  let rows := (Sessions_Update (sv_sessions ended) (touched x now)).1 in
  (exists y, Sessions_Get (sv_sessions ended) id = Ok y /\ is_active y = false) /\
  exists y, Sessions_Get rows id = Ok y /\ is_active y = true.
Proof.
  apply Sessions_Get_Ok in Hget as Hx. destruct Hx as [Hx Hid].
  assert (List.find (fun s => Session_ID s =?= id) (sv_sessions s) = Some x) as Hfx.
  { unfold Sessions_Get in Hget. by destruct (List.find _ _); simplify_eq. }
  intros ended rows. assert (sv_sessions ended =
    map (fun s => if (Session_ID s =?= id) && is_active s then ended_at end_now s else s) (sv_sessions s)) as He.
  { unfold ended, EndSession. rewrite <- Sessions_End_map. by destruct (Sessions_End _ _ _). }
  assert (List.find (fun s => Session_ID s =?= id) (sv_sessions ended) = Some (ended_at end_now x)) as Hfe.
  { rewrite He, find_session_map, Hfx by (intros; by destruct (_ && _)). simpl. by rewrite bool_decide_true, Ha. }
  split.
  - exists (ended_at end_now x). unfold Sessions_Get. by rewrite Hfe.
  - unfold rows, Sessions_Update.
    assert (mem (Session_ID (touched x now)) (map Session_ID (sv_sessions ended)) = true) as ->.
    { apply mem_true. simpl. rewrite Hid. apply find_some in Hfe as [Hin Heq%bool_decide_eq_true].
      rewrite <- Heq. by apply list_elem_of_In, in_map. }
    eexists. split.
    + unfold Sessions_Get. simpl. rewrite find_session_map, Hfe by (intros; by case_bool_decide). done.
    + simpl. by rewrite bool_decide_true.
Qed.

(** A deleted account keeps its unique public key: the key cannot register again. *)
Lemma deleted_key_refused s req rd u :
  unique_users (sv_users s) -> u ∈ sv_users s -> User_Status u = UserStatusDeleted ->
  req_PublicKey req = User_PublicKey u -> exists e, (Authenticate s req rd).2 = Err e.
Proof.
  intros [_ Hnd] Hu Hst Hk. unfold Authenticate, find_or_register.
  destruct (Users_GetByPublicKey _ _) as [v|e] eqn:Hg.
  { exfalso. apply GetByPublicKey_Ok in Hg as (Hv & Hvk & Hvs).
    assert (v = u) as -> by (eapply (same_key User_PublicKey); eauto; congruence). done. }
  destruct (negb _); [by eexists|]. destruct (_ && _); [by eexists|].
  pose proof (registered_fields (sv_cfg s) req (IsFirstUser (sv_users s)) (rd_created rd)) as (Hkey & _).
  unfold Users_Create. destruct (User_Validate _); [by eexists|].
  assert (user_unique (sv_users s) (registered (sv_cfg s) req (IsFirstUser (sv_users s)) (rd_created rd)) = false) as ->.
  { unfold user_unique. rewrite Hkey, Hk.
    assert (mem (User_PublicKey u) (map User_PublicKey (sv_users s)) = true) as ->
      by (apply mem_true, list_elem_of_In, in_map; by apply list_elem_of_In).
    by rewrite andb_false_r. }
  by eexists.
Qed.

(** Once every account is deleted, whoever registers next is an administrator. *)
Lemma admin_after_deletion s req now :
  Forall (fun u => User_Status u = UserStatusDeleted) (sv_users s) ->
  User_Role (registered (sv_cfg s) req (IsFirstUser (sv_users s)) now) = UserRoleAdmin.
Proof.
  intros Hall. destruct (registered_fields (sv_cfg s) req (IsFirstUser (sv_users s)) now) as (_ & _ & ->).
  assert (IsFirstUser (sv_users s) = true) as ->; [|done]. unfold IsFirstUser. apply negb_true_iff.
  induction Hall as [|u us Hu _ IH]; [done|]. simpl. rewrite IH. unfold not_deleted. by rewrite Hu.
Qed.

(** [UpdateUser] can suspend an account and leaves its sessions open. *)
Lemma UpdateUser_keeps_sessions s u now : sv_sessions (UpdateUser s u now).1 = sv_sessions s.
Proof. unfold UpdateUser. by destruct (Users_Update _ _ _). Qed.
End account_theorems.

(** ** Witnesses *)

Definition started_after (a b : Session) : Prop :=
  text_leb (RFC3339Nano (Session_StartedAt b)) (RFC3339Nano (Session_StartedAt a)) = true.

#[local] Instance started_after_dec a b : Decision (started_after a b).
Proof. unfold started_after. apply _. Defined.
#[local] Instance started_after_trans : Transitive started_after.
Proof. intros a b c Hab Hbc. by eapply text_leb_trans. Qed.
#[local] Instance started_after_total : Total started_after.
Proof. intros a b. unfold started_after. apply text_leb_total. Qed.

Definition merge_order : SessionOrder := {|
  order_started_desc := merge_sort started_after;
  order_started_perm := merge_sort_Permutation started_after;
  order_started_sorted := StronglySorted_merge_sort started_after
|}.

Section witnesses.
#[local] Existing Instance toy_crypto.
#[local] Existing Instance merge_order.
Local Open Scope string_scope.

Definition bob_request : AuthenticateRequest :=
  mkAuthenticateRequest (replicate 32 7) KeyTypeEd25519 "bob" "" "" SessionTypeAPI "10.0.0.1" "" ∅.
Definition bob_service : Service := Eval vm_compute in
  (Authenticate (mkService (mkAuthConfig true false "user" Hour 2) "n1" [] []) bob_request
     (mkAuthReadings 1 2 3 4 "s1")).1.
Definition bob_id : UserID := Eval vm_compute in UserIDFromPublicKey (replicate 32 7).

Lemma bob_inv : accounts_inv bob_service.
Proof.
  change (accounts_inv (account_step (mkService (mkAuthConfig true false "user" Hour 2) "n1" [] [])
    (OpAuthenticate bob_request (mkAuthReadings 1 2 3 4 "s1")))).
  apply (account_step_inv (left := []) _ (OpAuthenticate bob_request (mkAuthReadings 1 2 3 4 "s1"))).
  split; simpl; [split; constructor|constructor|set_solver|lia].
Qed.

Lemma suspended_locked_out_witness :
  let s' := (SuspendUser bob_service bob_id 5 6 true).1 in
  (exists u, u ∈ sv_users bob_service) /\
    (Authenticate s' bob_request (mkAuthReadings 7 8 9 10 "s2")).2 = Err (EDomain ErrUserSuspended).
Proof.
  intros s'. split; [eexists; left|].
  unshelve eapply (suspended_locked_out bob_service bob_id 5 6 s' _ bob_inv); [|vm_compute; reflexivity|left|..];
    vm_compute; reflexivity.
Defined.

Lemma activity_revives_session_witness :
  let ended := (EndSession bob_service "s1" 20).1 in
  exists y, Sessions_Get (Sessions_Update (sv_sessions ended)
    (touched (default (new_session bob_service bob_request (registered (sv_cfg bob_service) bob_request true 1)
       (mkAuthReadings 1 2 3 4 "s1")) (head (sv_sessions bob_service))) 21)).1 "s1" = Ok y /\ is_active y = true.
Proof.
  intros ended. apply (activity_revives_session bob_service "s1" _ 20 21 bob_inv); reflexivity.
Defined.
End witnesses.
