(* ===== verification/Blob.v ===== *)
(** * Blob stores ([internal/storage/blob/types.go], [local.go], [s3.go], [compression.go])

    A store keeps blobs under the hash of their content, with metadata beside
    them, and moves deleted ones to a trash.  [BlobStore] is the interface [Store]
    of the sources; [BlobStoreLaws] says what a store promises in terms of the
    contents it holds, and the local and the S3 store are instances.

    A store's files are a map from hashes to what was written and when; hashes and
    paths correspond one to one.  Compression and AES-GCM are the class [Codecs].
    Input and output succeed; an object store is a map. *)
From stdpp Require Import base gmap strings list sorting fin_maps.
From Stdlib Require Import ZArith Lia Ascii.
From S2P Require Import Prelude GoStrings GoTime Domain.
Local Open Scope Z_scope.

(** ** Data ([types.go]) *)

Record Reference := mkReference {
  Ref_DatasetID : string;
  Ref_VersionID : string;
  Ref_ChunkIndex : Z
}.
#[export] Instance Reference_eq_dec : EqDecision Reference.
Proof. solve_decision. Defined.

Record Metadata := mkMetadata {
  Meta_Hash : string;
  Meta_Size : Z;
  Meta_CreatedAt : Time;
  Meta_LastAccessed : Time;
  Meta_AccessCount : Z;
  Meta_References : list Reference;
  Meta_Compression : string;
  Meta_Encryption : string;
  Meta_Tags : list string;
  Meta_OriginalHash : string
}.
Definition empty_metadata : Metadata := mkMetadata "" 0 0 0 0 [] "" "" [] "".

Record BlobInfo := mkBlobInfo {
  Info_Hash : string;
  Info_Size : Z;
  Info_CreatedAt : Time;
  Info_LastAccessed : Time;
  Info_Tags : list string
}.
Definition info_of (hash : string) (m : Metadata) : BlobInfo :=
  mkBlobInfo hash (Meta_Size m) (Meta_CreatedAt m) (Meta_LastAccessed m) (Meta_Tags m).

Record BlobStats := mkBlobStats {
  Stats_TotalBlobs : Z;
  Stats_TotalSize : Z;
  Stats_OldestBlob : Time;
  Stats_NewestBlob : Time
}.
Definition no_stats : BlobStats := mkBlobStats 0 0 0 0.

Definition CompressionNone : string := "none".
Definition CompressionGzip : string := "gzip".
Definition CompressionZstd : string := "zstd".
Definition EncryptionNone : string := "none".
Definition EncryptionAES256GCM : string := "aes256-gcm".

Inductive BlobError :=
| ErrInvalidHashFormat | ErrBlobExists | ErrBlobNotFound | ErrMetadataNotFound
| ErrCompression | ErrEncryption | ErrDecode | ErrTier | ErrChunkHash | ErrChunkRow | ErrPolicy.

(** [hex.DecodeString] takes both cases. *)
Definition is_hex (c : ascii) : bool :=
  mem c (bytes_of "0123456789abcdefABCDEF").
Definition isValidHash (hash : string) : bool :=
  (length (bytes_of hash) =? 64)%nat && forallb is_hex (bytes_of hash).

(** What a call of [Put] reads: the clock, and a random nonce of 12 bytes. *)
Record PutReadings := mkPutReadings {
  pr_now : Time;
  pr_nonce : list Z
}.

Class BlobStore (S : Type) := {
  Store_Put : S -> string -> list Z -> Metadata -> PutReadings -> S * option BlobError;
  Store_Get : S -> string -> result BlobError (list Z);
  Store_Delete : S -> string -> Time -> S * option BlobError;
  Store_Exists : S -> string -> result BlobError bool;
  Store_List : S -> string -> list BlobInfo;
  Store_Touch : S -> string -> Time -> S * option BlobError;
  Store_GetMetadata : S -> string -> result BlobError Metadata;
  Store_UpdateMetadata : S -> string -> Metadata -> S * option BlobError;
  Store_Stats : S -> BlobStats
}.

Definition Store_Size {S} `{BlobStore S} (s : S) (hash : string) : result BlobError Z :=
  let! m := Store_GetMetadata s hash in Ok (Meta_Size m).

(** [Copy] reads the blob and its metadata and puts both into the other store. *)
Definition Store_Copy {S T} `{BlobStore S} `{BlobStore T} (s : S) (hash : string) (to : T) (rd : PutReadings)
    : T * option BlobError :=
  match Store_Get s hash with
  | Err e => (to, Some e)
  | Ok data =>
      match Store_GetMetadata s hash with
      | Err e => (to, Some e)
      | Ok m => Store_Put to hash data m rd
      end
  end.
Definition Store_Move {S T} `{BlobStore S} `{BlobStore T} (s : S) (hash : string) (to : T) (rd : PutReadings)
    (now : Time) : S * T * option BlobError :=
  match Store_Copy s hash to rd with
  | (to, Some e) => (s, to, Some e)
  | (to, None) => let '(s, err) := Store_Delete s hash now in (s, to, err)
  end.

(** ** Encoding ([compression.go], [encryptData]) *)

(** The compression libraries and AES-GCM: what was written can be read. *)
Class Codecs := {
  gzip_write : Z -> list Z -> list Z;
  gzip_read : list Z -> option (list Z);
  gzip_read_write level d : gzip_read (gzip_write level d) = Some d;
  zstd_write : Z -> list Z -> list Z;
  zstd_read : list Z -> option (list Z);
  zstd_read_write level d : zstd_read (zstd_write level d) = Some d;
  gcm_Seal : list Z -> list Z -> list Z -> list Z;
  gcm_Open : list Z -> list Z -> list Z -> option (list Z);
  gcm_Open_Seal key nonce d : gcm_Open key nonce (gcm_Seal key nonce d) = Some d
}.

Definition gcm_NonceSize : nat := 12.

Record CodecConfig := mkCodecConfig {
  cc_Compression : bool;
  cc_Algorithm : string;
  cc_Level : Z;
  cc_Encryption : bool
}.

Section codecs.
Context `{Codecs}.

Definition gzip_level (level : Z) : Z := if (level <? -1) || (9 <? level) then -1 else level.
(** [SpeedFastest] to [SpeedBestCompression]. *)
Definition zstd_level (level : Z) : Z :=
  if level <=? 3 then 1 else if level <=? 7 then 2 else if level <=? 15 then 3 else 4.

Definition newCompressionWriter (algorithm : string) (level : Z) (d : list Z) : option (list Z) :=
  if algorithm =?= CompressionGzip then Some (gzip_write (gzip_level level) d)
  else if algorithm =?= CompressionZstd then Some (zstd_write (zstd_level level) d)
  else if algorithm =?= CompressionNone then Some d
  else None.
Definition newDecompressionReader (algorithm : string) (d : list Z) : option (list Z) :=
  if algorithm =?= CompressionGzip then gzip_read d
  else if algorithm =?= CompressionZstd then zstd_read d
  else if algorithm =?= CompressionNone then Some d
  else None.

(** [aes.NewCipher] takes keys of 16, 24 or 32 bytes. *)
Definition key_ok (key : list Z) : bool := mem (length key) [16%nat; 24%nat; 32%nat].
Definition encryptData (key nonce d : list Z) : option (list Z) :=
  if key_ok key then Some (nonce ++ gcm_Seal key nonce d) else None.
Definition decryptData (key c : list Z) : option (list Z) :=
  if negb (key_ok key) then None
  else if (length c <? gcm_NonceSize)%nat then None
  else gcm_Open key (take gcm_NonceSize c) (drop gcm_NonceSize c).

(** What [Put] writes. *)
Definition encode_blob (cfg : CodecConfig) (key nonce d : list Z) : result BlobError (list Z) :=
  match (if cc_Compression cfg then newCompressionWriter (cc_Algorithm cfg) (cc_Level cfg) d else Some d) with
  | None => Err ErrCompression
  | Some d => if cc_Encryption cfg
              then match encryptData key nonce d with Some c => Ok c | None => Err ErrEncryption end
              else Ok d
  end.
(** What [Get] makes of it, by the store's configuration. *)
Definition decode_blob (cfg : CodecConfig) (key c : list Z) : result BlobError (list Z) :=
  match (if cc_Encryption cfg then decryptData key c else Some c) with
  | None => Err ErrEncryption
  | Some d =>
      match (if cc_Compression cfg then newDecompressionReader (cc_Algorithm cfg) d else Some d) with
      | None => Err ErrDecode
      | Some d => Ok d
      end
  end.
End codecs.

(** ** Files *)

(** A store's blobs, metadata and trash; a blob's time is that of its last write. *)
Record Tier := mkTier {
  t_blobs : gmap string (list Z * Time);
  t_meta : gmap string Metadata;
  t_trash : gmap string (list Z * Time);
  t_trash_meta : gmap string Metadata;
  t_stats : BlobStats
}.

(** The assignments of [Put] to the caller's metadata. *)
Definition stamp_metadata (cfg : CodecConfig) (hash : string) (size : Z) (now : Time) (m : Metadata) : Metadata :=
  mkMetadata hash size now now 0 (Meta_References m)
    (if cc_Compression cfg then cc_Algorithm cfg else CompressionNone)
    (if cc_Encryption cfg then EncryptionAES256GCM else EncryptionNone)
    (Meta_Tags m) (Meta_OriginalHash m).

Definition tier_GetMetadata (t : Tier) (hash : string) : result BlobError Metadata :=
  if negb (isValidHash hash) then Err ErrInvalidHashFormat
  else match t_meta t !! hash with Some m => Ok m | None => Err ErrMetadataNotFound end.

Definition tier_UpdateMetadata (t : Tier) (hash : string) (m : Metadata) : Tier :=
  mkTier (t_blobs t) (<[hash := m]> (t_meta t)) (t_trash t) (t_trash_meta t) (t_stats t).

Definition tier_Touch (t : Tier) (hash : string) (now : Time) : Tier * option BlobError :=
  match tier_GetMetadata t hash with
  | Err e => (t, Some e)
  | Ok m =>
      (tier_UpdateMetadata t hash
         (mkMetadata (Meta_Hash m) (Meta_Size m) (Meta_CreatedAt m) now (i64 (Meta_AccessCount m + 1))
            (Meta_References m) (Meta_Compression m) (Meta_Encryption m) (Meta_Tags m) (Meta_OriginalHash m)), None)
  end.

Section tier.
Context `{Codecs}.

Definition tier_Put (cfg : CodecConfig) (key : list Z) (t : Tier) (hash : string) (data : list Z) (m : Metadata)
    (rd : PutReadings) : Tier * option BlobError :=
  if negb (isValidHash hash) then (t, Some ErrInvalidHashFormat)
  else match t_blobs t !! hash with
       | Some _ => (t, Some ErrBlobExists)
       | None =>
           match encode_blob cfg key (pr_nonce rd) data with
           | Err e => (t, Some e)
           | Ok c =>
               let size := Z.of_nat (length data) in
               (mkTier (<[hash := (c, pr_now rd)]> (t_blobs t))
                  (<[hash := stamp_metadata cfg hash size (pr_now rd) m]> (t_meta t))
                  (t_trash t) (t_trash_meta t)
                  (mkBlobStats (i64 (Stats_TotalBlobs (t_stats t) + 1)) (i64 (Stats_TotalSize (t_stats t) + size))
                     (Stats_OldestBlob (t_stats t)) (Stats_NewestBlob (t_stats t))), None)
           end
       end.

Definition tier_Get (cfg : CodecConfig) (key : list Z) (t : Tier) (hash : string) : result BlobError (list Z) :=
  if negb (isValidHash hash) then Err ErrInvalidHashFormat
  else match t_blobs t !! hash with
       | None => Err ErrBlobNotFound
       | Some (c, _) => decode_blob cfg key c
       end.
End tier.

Definition tier_Exists (t : Tier) (hash : string) : result BlobError bool :=
  if negb (isValidHash hash) then Err ErrInvalidHashFormat
  else Ok (match t_blobs t !! hash with Some _ => true | None => false end).

(** The blob goes to the trash with the time [trash_time] gives, then its
    metadata; the statistics change if metadata is found after that. *)
Definition tier_Delete (trash_time : Time -> Time) (t : Tier) (hash : string) : Tier * option BlobError :=
  if negb (isValidHash hash) then (t, Some ErrInvalidHashFormat)
  else match t_blobs t !! hash with
       | None => (t, Some ErrBlobNotFound)
       | Some (c, written) =>
           let t := mkTier (delete hash (t_blobs t)) (delete hash (t_meta t))
                      (<[hash := (c, trash_time written)]> (t_trash t))
                      (match t_meta t !! hash with
                       | Some m => <[hash := m]> (t_trash_meta t)
                       | None => t_trash_meta t
                       end) (t_stats t) in
           (match tier_GetMetadata t hash with
            | Ok m => mkTier (t_blobs t) (t_meta t) (t_trash t) (t_trash_meta t)
                        (mkBlobStats (i64 (Stats_TotalBlobs (t_stats t) - 1))
                           (i64 (Stats_TotalSize (t_stats t) - Meta_Size m))
                           (Stats_OldestBlob (t_stats t)) (Stats_NewestBlob (t_stats t)))
            | Err _ => t
            end, None)
       end.

(** The hashes in the order of their paths. *)
Definition hash_le (a b : string) : Prop := text_leb a b = true.
#[export] Instance hash_le_dec a b : Decision (hash_le a b).
Proof. unfold hash_le. apply _. Defined.
Definition stored_hashes (t : Tier) : list string := merge_sort hash_le (map fst (map_to_list (t_blobs t))).

(** [filepath.Walk] and [ListObjects] in order; a blob without metadata is skipped
    ([local]) or listed with what the object store knows. *)
Definition tier_List (fallback : list Z * Time -> option (Z * Time)) (t : Tier) (prefix : string) : list BlobInfo :=
  omap (fun hash =>
    if HasPrefix hash prefix then
      match tier_GetMetadata t hash with
      | Ok m => Some (info_of hash m)
      | Err _ => match t_blobs t !! hash with
                 | Some b => (fun p : Z * Time => mkBlobInfo hash p.1 p.2 p.2 []) <$> fallback b
                 | None => None
                 end
      end
    else None) (stored_hashes t).

(** ** The local store *)

Record LocalConfig := mkLocalConfig {
  Local_Enabled : bool;
  Local_MaxSizeGB : Z;
  Local_Codec : CodecConfig
}.

Record LocalStore := mkLocalStore {
  ls_cfg : LocalConfig;
  ls_encKey : list Z;
  ls_tier : Tier
}.

Definition set_tier (s : LocalStore) (t : Tier) : LocalStore := mkLocalStore (ls_cfg s) (ls_encKey s) t.

(** [computeStats]: the files' own sizes and times. *)
Definition computeStats (blobs : gmap string (list Z * Time)) : BlobStats :=
  let files := map snd (map_to_list blobs) in
  let times := map snd files in
  mkBlobStats (Z.of_nat (length files)) (fold_right (fun f n => Z.of_nat (length f.1) + n) 0 files)
    (match times with [] => 0 | t :: ts => fold_left Z.min ts t end)
    (match times with [] => 0 | t :: ts => fold_left Z.max ts t end).

(** On a directory that holds [t]. *)
Definition NewLocalStore (cfg : LocalConfig) (encKey : list Z) (t : Tier) : option LocalStore :=
  if cc_Encryption (Local_Codec cfg) && negb (length encKey =? 32)%nat then None
  else Some (mkLocalStore cfg encKey
               (mkTier (t_blobs t) (t_meta t) (t_trash t) (t_trash_meta t) (computeStats (t_blobs t)))).

(** ** The S3 store *)

Record S3Config := mkS3Config {
  S3C_Enabled : bool;
  S3C_Codec : CodecConfig
}.

Record S3Store := mkS3Store {
  s3_cfg : S3Config;
  s3_encKey : list Z;
  s3_tier : Tier
}.

Definition set_s3_tier (s : S3Store) (t : Tier) : S3Store := mkS3Store (s3_cfg s) (s3_encKey s) t.

(** On a bucket that holds [t]; the statistics start at zero. *)
Definition NewS3Store (cfg : S3Config) (encKey : list Z) (t : Tier) : option S3Store :=
  if cc_Encryption (S3C_Codec cfg) && negb (length encKey =? 32)%nat then None
  else Some (mkS3Store cfg encKey (mkTier (t_blobs t) (t_meta t) (t_trash t) (t_trash_meta t) no_stats)).

Section stores.
Context `{Codecs}.

(** A file moved by [os.Rename] keeps its time. *)
#[export] Instance local_store : BlobStore LocalStore := {|
  Store_Put s hash data m rd :=
    let '(t, err) := tier_Put (Local_Codec (ls_cfg s)) (ls_encKey s) (ls_tier s) hash data m rd in (set_tier s t, err);
  Store_Get s hash := tier_Get (Local_Codec (ls_cfg s)) (ls_encKey s) (ls_tier s) hash;
  Store_Delete s hash now :=
    let '(t, err) := tier_Delete (fun written => written) (ls_tier s) hash in (set_tier s t, err);
  Store_Exists s hash := tier_Exists (ls_tier s) hash;
  Store_List s prefix := tier_List (fun _ => None) (ls_tier s) prefix;
  Store_Touch s hash now := let '(t, err) := tier_Touch (ls_tier s) hash now in (set_tier s t, err);
  Store_GetMetadata s hash := tier_GetMetadata (ls_tier s) hash;
  Store_UpdateMetadata s hash m := (set_tier s (tier_UpdateMetadata (ls_tier s) hash m), None);
  Store_Stats s := t_stats (ls_tier s)
|}.

(** A blob uploaded to the trash gets the time of the upload. *)
#[export] Instance s3_store : BlobStore S3Store := {|
  Store_Put s hash data m rd :=
    let '(t, err) := tier_Put (S3C_Codec (s3_cfg s)) (s3_encKey s) (s3_tier s) hash data m rd in (set_s3_tier s t, err);
  Store_Get s hash := tier_Get (S3C_Codec (s3_cfg s)) (s3_encKey s) (s3_tier s) hash;
  Store_Delete s hash now :=
    let '(t, err) := tier_Delete (fun _ => now) (s3_tier s) hash in (set_s3_tier s t, err);
  Store_Exists s hash := tier_Exists (s3_tier s) hash;
  Store_List s prefix := tier_List (fun b => Some (Z.of_nat (length b.1), b.2)) (s3_tier s) prefix;
  Store_Touch s hash now := let '(t, err) := tier_Touch (s3_tier s) hash now in (set_s3_tier s t, err);
  Store_GetMetadata s hash := tier_GetMetadata (s3_tier s) hash;
  Store_UpdateMetadata s hash m := (set_s3_tier s (tier_UpdateMetadata (s3_tier s) hash m), None);
  Store_Stats s := t_stats (s3_tier s)
|}.
End stores.

(** * What a store promises *)

Definition readings_ok (rd : PutReadings) : Prop := length (pr_nonce rd) = gcm_NonceSize.

(** In terms of the contents a store holds and the references it records:
    [Put] and [Delete] are insertion and deletion, the other operations look at the
    contents or change references only. *)
Class BlobStoreLaws (S : Type) `{BlobStore S} := {
  store_inv : S -> Prop;
  contents : S -> gmap string (list Z);
  refs : S -> gmap string (list Reference);
  law_valid s h : store_inv s -> is_Some (contents s !! h) -> isValidHash h = true;
  law_refs s h : store_inv s -> (is_Some (refs s !! h) <-> is_Some (contents s !! h));
  law_Put s h d m rd :
    store_inv s -> readings_ok rd -> contents s !! h = None ->
    match Store_Put s h d m rd with
    | (s', None) =>
        store_inv s' /\ contents s' = <[h := d]> (contents s) /\ refs s' = <[h := Meta_References m]> (refs s)
    | (s', Some _) => store_inv s' /\ contents s' = contents s /\ refs s' = refs s
    end;
  law_Get s h :
    store_inv s -> isValidHash h = true ->
    match Store_Get s h with Ok d => contents s !! h = Some d | Err _ => contents s !! h = None end;
  law_Exists s h :
    store_inv s -> isValidHash h = true -> Store_Exists s h = Ok (bool_decide (is_Some (contents s !! h)));
  law_Delete s h now :
    store_inv s -> isValidHash h = true ->
    match Store_Delete s h now with
    | (s', None) =>
        is_Some (contents s !! h) /\ store_inv s' /\ contents s' = delete h (contents s) /\ refs s' = delete h (refs s)
    | (s', Some _) => contents s !! h = None /\ store_inv s' /\ contents s' = contents s /\ refs s' = refs s
    end;
  law_GetMetadata s h :
    store_inv s -> isValidHash h = true ->
    match Store_GetMetadata s h with
    | Ok m => refs s !! h = Some (Meta_References m)
    | Err _ => refs s !! h = None
    end;
  law_UpdateMetadata s h m :
    store_inv s -> is_Some (contents s !! h) ->
    match Store_UpdateMetadata s h m with
    | (s', None) => store_inv s' /\ contents s' = contents s /\ refs s' = <[h := Meta_References m]> (refs s)
    | (s', Some _) => False
    end;
  law_Touch s h now :
    store_inv s ->
    let s' := (Store_Touch s h now).1 in store_inv s' /\ contents s' = contents s /\ refs s' = refs s;
  law_List s h :
    store_inv s -> (h ∈ map Info_Hash (Store_List s "") <-> is_Some (contents s !! h))
}.

(** ** Encoding *)

Section codec_theorems.
Context `{Codecs}.

Lemma decompress_compress alg level d c :
  newCompressionWriter alg level d = Some c -> newDecompressionReader alg c = Some d.
Proof.
  unfold newCompressionWriter, newDecompressionReader.
  repeat case_bool_decide; intros [= <-]; [apply gzip_read_write|apply zstd_read_write|done].
Qed.

Lemma decryptData_encryptData key nonce d c :
  length nonce = gcm_NonceSize -> encryptData key nonce d = Some c -> decryptData key c = Some d.
Proof.
  intros Hn. unfold encryptData, decryptData. destruct (key_ok key); [|done]. intros [= <-]. simpl.
  rewrite length_app, Hn. destruct (Nat.ltb_spec (gcm_NonceSize + length (gcm_Seal key nonce d)) gcm_NonceSize); [lia|].
  rewrite take_app_length', drop_app_length' by done. apply gcm_Open_Seal.
Qed.

Lemma decode_encode cfg key nonce d c :
  length nonce = gcm_NonceSize -> encode_blob cfg key nonce d = Ok c -> decode_blob cfg key c = Ok d.
Proof.
  intros Hn. unfold encode_blob, decode_blob.
  destruct (cc_Compression cfg).
  - destruct (newCompressionWriter _ _ d) as [d1|] eqn:Hc; [|done]. apply decompress_compress in Hc.
    destruct (cc_Encryption cfg).
    + destruct (encryptData key nonce d1) as [c1|] eqn:He; [|done]. intros [= <-].
      by rewrite (decryptData_encryptData _ _ _ _ Hn He), Hc.
    + intros [= <-]. by rewrite Hc.
  - destruct (cc_Encryption cfg); [|by intros [= <-]].
    destruct (encryptData key nonce d) as [c1|] eqn:He; [|done]. intros [= <-].
    by rewrite (decryptData_encryptData _ _ _ _ Hn He).
Qed.

(** ** Tiers *)

Definition decoded (cfg : CodecConfig) (key : list Z) (b : list Z * Time) : option (list Z) :=
  match decode_blob cfg key b.1 with Ok d => Some d | Err _ => None end.
Definition tier_contents (cfg : CodecConfig) (key : list Z) (t : Tier) : gmap string (list Z) :=
  omap (decoded cfg key) (t_blobs t).
Definition tier_refs (t : Tier) : gmap string (list Reference) := Meta_References <$> t_meta t.

(** Every blob can be decoded, has a valid name, and has metadata; nothing else has. *)
Record tier_inv (cfg : CodecConfig) (key : list Z) (t : Tier) : Prop := {
  ti_blob h b : t_blobs t !! h = Some b -> isValidHash h = true /\ is_Some (decoded cfg key b);
  ti_meta h : is_Some (t_meta t !! h) <-> is_Some (t_blobs t !! h)
}.

Lemma tier_contents_is_Some cfg key t h :
  tier_inv cfg key t -> (is_Some (tier_contents cfg key t !! h) <-> is_Some (t_blobs t !! h)).
Proof.
  intros [Hb _]. unfold tier_contents. rewrite lookup_omap. destruct (t_blobs t !! h) as [b|] eqn:Hh; simpl.
  - destruct (Hb _ _ Hh) as [_ [d ->]]. split; by eexists.
  - split; by intros [].
Qed.

Lemma tier_contents_None cfg key t h :
  tier_inv cfg key t -> (tier_contents cfg key t !! h = None <-> t_blobs t !! h = None).
Proof. intros Hi. rewrite !eq_None_not_Some. by rewrite tier_contents_is_Some. Qed.

Lemma tier_refs_is_Some cfg key t h :
  tier_inv cfg key t -> (is_Some (tier_refs t !! h) <-> is_Some (tier_contents cfg key t !! h)).
Proof.
  intros Hi. rewrite (tier_contents_is_Some _ _ _ _ Hi). unfold tier_refs.
  rewrite lookup_fmap, fmap_is_Some. apply Hi.
Qed.

Lemma tier_valid cfg key t h :
  tier_inv cfg key t -> is_Some (tier_contents cfg key t !! h) -> isValidHash h = true.
Proof. intros Hi Hs. apply (tier_contents_is_Some _ _ _ _ Hi) in Hs as [b Hb]. by eapply Hi. Qed.

Lemma tier_Put_law cfg key t h d m rd :
  tier_inv cfg key t -> readings_ok rd -> tier_contents cfg key t !! h = None ->
  match tier_Put cfg key t h d m rd with
  | (t', None) =>
      tier_inv cfg key t' /\ tier_contents cfg key t' = <[h := d]> (tier_contents cfg key t) /\
      tier_refs t' = <[h := Meta_References m]> (tier_refs t)
  | (t', Some _) => t' = t
  end.
Proof.
  intros Hi Hrd Hn. apply (tier_contents_None _ _ _ _ Hi) in Hn. unfold tier_Put. rewrite Hn.
  destruct (isValidHash h) eqn:Hv; [|done]. simpl. destruct (encode_blob _ _ _ _) as [c|e] eqn:He; [|done].
  apply decode_encode in He; [|done]. assert (decoded cfg key (c, pr_now rd) = Some d) as Hd
    by (unfold decoded; simpl; by rewrite He).
  split_and!.
  - split; simpl.
    + intros h' b. rewrite lookup_insert. case_decide as Heq; [|apply Hi].
      intros [= <-]. subst. split; [done|by eexists].
    + intros h'. rewrite !lookup_insert. case_decide; [by split; eexists|apply Hi].
  - unfold tier_contents. simpl. by apply omap_insert_Some.
  - unfold tier_refs. simpl. by rewrite fmap_insert.
Qed.

Lemma tier_Get_law cfg key t h :
  tier_inv cfg key t -> isValidHash h = true ->
  match tier_Get cfg key t h with
  | Ok d => tier_contents cfg key t !! h = Some d
  | Err _ => tier_contents cfg key t !! h = None
  end.
Proof.
  intros Hi Hv. unfold tier_Get, tier_contents. rewrite Hv, lookup_omap. simpl.
  destruct (t_blobs t !! h) as [[c w]|]; [|done]. simpl. unfold decoded. simpl. by destruct (decode_blob _ _ _).
Qed.

Lemma tier_Delete_law cfg key f t h :
  tier_inv cfg key t -> isValidHash h = true ->
  match tier_Delete f t h with
  | (t', None) =>
      is_Some (tier_contents cfg key t !! h) /\ tier_inv cfg key t' /\
      tier_contents cfg key t' = delete h (tier_contents cfg key t) /\ tier_refs t' = delete h (tier_refs t)
  | (t', Some _) => tier_contents cfg key t !! h = None /\ t' = t
  end.
Proof.
  intros Hi Hv. unfold tier_Delete. rewrite Hv. simpl.
  destruct (t_blobs t !! h) as [[c w]|] eqn:Hh; [|by rewrite tier_contents_None].
  unfold tier_GetMetadata. rewrite Hv. simpl. rewrite lookup_delete_eq. split_and!.
  - rewrite tier_contents_is_Some by done. by eexists.
  - split; simpl.
    + intros h' b [_ Hb]%lookup_delete_Some. by apply Hi in Hb.
    + intros h'. rewrite !lookup_delete_is_Some. by rewrite (ti_meta _ _ _ Hi).
  - unfold tier_contents. simpl. by rewrite omap_delete.
  - unfold tier_refs. simpl. by rewrite fmap_delete.
Qed.

Lemma tier_GetMetadata_law t h :
  isValidHash h = true ->
  match tier_GetMetadata t h with
  | Ok m => tier_refs t !! h = Some (Meta_References m)
  | Err _ => tier_refs t !! h = None
  end.
Proof.
  intros Hv. unfold tier_GetMetadata, tier_refs. rewrite Hv, lookup_fmap. simpl. by destruct (t_meta t !! h).
Qed.

Lemma tier_UpdateMetadata_law cfg key t h m :
  tier_inv cfg key t -> is_Some (tier_contents cfg key t !! h) ->
  tier_inv cfg key (tier_UpdateMetadata t h m) /\
  tier_contents cfg key (tier_UpdateMetadata t h m) = tier_contents cfg key t /\
  tier_refs (tier_UpdateMetadata t h m) = <[h := Meta_References m]> (tier_refs t).
Proof.
  intros Hi Hh. apply (tier_contents_is_Some _ _ _ _ Hi) in Hh. split_and!; [|done|].
  - split; simpl; [apply Hi|]. intros h'. rewrite lookup_insert. case_decide; [subst; split; [done|by eexists]|apply Hi].
  - unfold tier_refs. simpl. by rewrite fmap_insert.
Qed.

Lemma tier_Touch_law cfg key t h now :
  tier_inv cfg key t ->
  let t' := (tier_Touch t h now).1 in
  tier_inv cfg key t' /\ tier_contents cfg key t' = tier_contents cfg key t /\ tier_refs t' = tier_refs t.
Proof.
  intros Hi. unfold tier_Touch, tier_GetMetadata. destruct (isValidHash h); [|done]. simpl.
  destruct (t_meta t !! h) as [m|] eqn:Hm; [|done]. split_and!; [|done|].
  - apply tier_UpdateMetadata_law; [done|]. rewrite tier_contents_is_Some by done. apply Hi. by eexists.
  - unfold tier_refs. simpl. rewrite fmap_insert. simpl. apply insert_id. by rewrite lookup_fmap, Hm.
Qed.

Lemma stored_hashes_elem t h : h ∈ stored_hashes t <-> is_Some (t_blobs t !! h).
Proof.
  unfold stored_hashes. rewrite merge_sort_Permutation.
  change (h ∈ fst <$> map_to_list (t_blobs t) <-> is_Some (t_blobs t !! h)). rewrite list_elem_of_fmap. split.
  - intros ([h' b] & -> & Hb). apply elem_of_map_to_list in Hb. by eexists.
  - intros [b Hb]. exists (h, b). split; [done|]. by apply elem_of_map_to_list.
Qed.

Lemma tier_List_law cfg key f t h :
  tier_inv cfg key t -> (h ∈ map Info_Hash (tier_List f t "") <-> is_Some (tier_contents cfg key t !! h)).
Proof.
  intros Hi. rewrite (tier_contents_is_Some _ _ _ _ Hi), <- stored_hashes_elem. unfold tier_List.
  assert (forall h, h ∈ stored_hashes t ->
    exists b, (if HasPrefix h "" then
      match tier_GetMetadata t h with
      | Ok m => Some (info_of h m)
      | Err _ => match t_blobs t !! h with
                 | Some b => (fun p : Z * Time => mkBlobInfo h p.1 p.2 p.2 []) <$> f b
                 | None => None
                 end
      end else None) = Some b /\ Info_Hash b = h) as Hall.
  { intros h' Hh%stored_hashes_elem. destruct Hh as [b Hb]. destruct (ti_blob _ _ _ Hi _ _ Hb) as [Hv _].
    unfold tier_GetMetadata. rewrite Hv. simpl. destruct (proj2 (ti_meta _ _ _ Hi h') (ex_intro _ b Hb)) as [m ->].
    by eexists. }
  rewrite list_elem_of_In, in_map_iff. setoid_rewrite <- list_elem_of_In. setoid_rewrite list_elem_of_omap. split.
  - intros (b & <- & h' & Hh & Hb). destruct (Hall _ Hh) as (b' & Hb' & Heq). rewrite Hb in Hb'. by simplify_eq.
  - intros Hh. destruct (Hall _ Hh) as (b & Hb & <-). eauto.
Qed.
End codec_theorems.

(** What the two stores of the repository promise besides: a blob is not overwritten, and
    what is no hash names nothing. *)
Class CheckedStore (S : Type) `{BlobStoreLaws S} := {
  chk_Put_again s h d m rd :
    store_inv s -> is_Some (contents s !! h) -> exists e, Store_Put s h d m rd = (s, Some e);
  chk_Get s h : isValidHash h = false -> exists e, Store_Get s h = Err e;
  chk_Exists s h : isValidHash h = false -> exists e, Store_Exists s h = Err e;
  chk_Delete s h now : isValidHash h = false -> exists e, Store_Delete s h now = (s, Some e)
}.

(** ** The two stores keep the promise *)

Section laws.
Context `{Codecs}.

#[export] Instance local_laws : BlobStoreLaws LocalStore.
Proof.
  refine {| store_inv s := tier_inv (Local_Codec (ls_cfg s)) (ls_encKey s) (ls_tier s);
            contents s := tier_contents (Local_Codec (ls_cfg s)) (ls_encKey s) (ls_tier s);
            refs s := tier_refs (ls_tier s) |}.
  - intros s h. apply tier_valid.
  - intros s h. apply tier_refs_is_Some.
  - intros s h d m rd Hi Hrd Hn. pose proof (tier_Put_law _ _ _ h d m rd Hi Hrd Hn) as Hp. simpl.
    destruct (tier_Put _ _ _ _ _ _ _) as [t [e|]]; simpl; [by subst|done].
  - intros s h. apply tier_Get_law.
  - intros s h Hi Hv. simpl. unfold tier_Exists. rewrite Hv. simpl. f_equal.
    rewrite (bool_decide_ext _ _ (tier_contents_is_Some _ _ _ h Hi)).
    destruct (t_blobs (ls_tier s) !! h); [by rewrite bool_decide_true by (by eexists)|].
    rewrite bool_decide_false; [done|]. by intros [].
  - intros s h now Hi Hv. pose proof (tier_Delete_law _ _ (fun w => w) _ h Hi Hv) as Hd. simpl.
    destruct (tier_Delete _ _ _) as [t [e|]]; simpl; [|done]. destruct Hd as [Hn ->]. done.
  - intros s h _. apply tier_GetMetadata_law.
  - intros s h m. apply tier_UpdateMetadata_law.
  - intros s h now Hi. pose proof (tier_Touch_law _ _ _ h now Hi) as Ht. simpl.
    by destruct (tier_Touch _ _ _).
  - intros s h. apply tier_List_law.
Defined.

#[export] Instance s3_laws : BlobStoreLaws S3Store.
Proof.
  refine {| store_inv s := tier_inv (S3C_Codec (s3_cfg s)) (s3_encKey s) (s3_tier s);
            contents s := tier_contents (S3C_Codec (s3_cfg s)) (s3_encKey s) (s3_tier s);
            refs s := tier_refs (s3_tier s) |}.
  - intros s h. apply tier_valid.
  - intros s h. apply tier_refs_is_Some.
  - intros s h d m rd Hi Hrd Hn. pose proof (tier_Put_law _ _ _ h d m rd Hi Hrd Hn) as Hp. simpl.
    destruct (tier_Put _ _ _ _ _ _ _) as [t [e|]]; simpl; [by subst|done].
  - intros s h. apply tier_Get_law.
  - intros s h Hi Hv. simpl. unfold tier_Exists. rewrite Hv. simpl. f_equal.
    rewrite (bool_decide_ext _ _ (tier_contents_is_Some _ _ _ h Hi)).
    destruct (t_blobs (s3_tier s) !! h); [by rewrite bool_decide_true by (by eexists)|].
    rewrite bool_decide_false; [done|]. by intros [].
  - intros s h now Hi Hv. pose proof (tier_Delete_law _ _ (fun _ => now) _ h Hi Hv) as Hd. simpl.
    destruct (tier_Delete _ _ _) as [t [e|]]; simpl; [|done]. destruct Hd as [Hn ->]. done.
  - intros s h _. apply tier_GetMetadata_law.
  - intros s h m. apply tier_UpdateMetadata_law.
  - intros s h now Hi. pose proof (tier_Touch_law _ _ _ h now Hi) as Ht. simpl.
    by destruct (tier_Touch _ _ _).
  - intros s h. apply tier_List_law.
Defined.

Lemma tier_Put_again cfg key t h d m rd :
  tier_inv cfg key t -> is_Some (tier_contents cfg key t !! h) ->
  tier_Put cfg key t h d m rd = (t, Some ErrBlobExists).
Proof.
  intros Hi Hs. apply (tier_contents_is_Some _ _ _ _ Hi) in Hs as [b Hb]. unfold tier_Put.
  destruct (ti_blob _ _ _ Hi _ _ Hb) as [-> _]. simpl. by rewrite Hb.
Qed.

#[export] Instance local_checked : CheckedStore LocalStore.
Proof.
  split.
  - intros [cfg key t] h d m rd Hi Hs. exists ErrBlobExists. simpl in *. by rewrite (tier_Put_again _ _ _ _ _ _ _ Hi Hs).
  - intros s h Hv. simpl. unfold tier_Get. rewrite Hv. by eexists.
  - intros s h Hv. simpl. unfold tier_Exists. rewrite Hv. by eexists.
  - intros [cfg key t] h now Hv. simpl. unfold tier_Delete. rewrite Hv. by eexists.
Qed.

#[export] Instance s3_checked : CheckedStore S3Store.
Proof.
  split.
  - intros [cfg key t] h d m rd Hi Hs. exists ErrBlobExists. simpl in *. by rewrite (tier_Put_again _ _ _ _ _ _ _ Hi Hs).
  - intros s h Hv. simpl. unfold tier_Get. rewrite Hv. by eexists.
  - intros s h Hv. simpl. unfold tier_Exists. rewrite Hv. by eexists.
  - intros [cfg key t] h now Hv. simpl. unfold tier_Delete. rewrite Hv. by eexists.
Qed.
End laws.

(** ** One blob *)

Inductive local_op :=
| LPut (h : string) (d : list Z) (m : Metadata) (rd : PutReadings)
| LDelete (h : string) (now : Time)
| LTouch (h : string) (now : Time).

Definition op_deletes (h : string) (op : local_op) : bool :=
  match op with LDelete h' _ => h' =?= h | _ => false end.
Definition op_readings (op : local_op) : Prop :=
  match op with LPut _ _ _ rd => readings_ok rd | _ => True end.

Section round_trip.
Context `{Codecs}.

Definition local_step (s : LocalStore) (op : local_op) : LocalStore :=
  match op with
  | LPut h d m rd => (Store_Put s h d m rd).1
  | LDelete h now => (Store_Delete s h now).1
  | LTouch h now => (Store_Touch s h now).1
  end.

Lemma local_Put_exists (s : LocalStore) h d m rd :
  store_inv s -> is_Some (contents s !! h) -> (Store_Put s h d m rd).1 = s.
Proof.
  intros Hi Hs. apply (tier_contents_is_Some _ _ _ _ Hi) in Hs as [b Hb]. simpl. unfold tier_Put. rewrite Hb.
  destruct (isValidHash h); by destruct s.
Qed.

Lemma local_step_keeps (s : LocalStore) op h :
  store_inv s -> op_readings op -> op_deletes h op = false -> is_Some (contents s !! h) ->
  store_inv (local_step s op) /\ contents (local_step s op) !! h = contents s !! h.
Proof.
  intros Hi Hrd Hdel Hs. destruct op as [h' d m rd|h' now|h' now].
  - destruct (contents s !! h') as [d'|] eqn:Hh'.
    + unfold local_step. by rewrite (local_Put_exists s h' d m rd Hi ltac:(by eexists)).
    + assert (h' <> h) as Hne by (intros ->; rewrite Hh' in Hs; by destruct Hs).
      pose proof (law_Put s h' d m rd Hi Hrd Hh') as Hp. unfold local_step.
      destruct (Store_Put s h' d m rd) as [s' [e|]]; destruct Hp as (Hi' & Hc & _); cbn [fst]; rewrite Hc.
      * done.
      * by rewrite lookup_insert_ne.
  - simpl in Hdel. apply bool_decide_eq_false in Hdel. unfold local_step. destruct (isValidHash h') eqn:Hv.
    + pose proof (law_Delete s h' now Hi Hv) as Hd.
      destruct (Store_Delete s h' now) as [s' [e|]]; destruct Hd as (_ & Hi' & Hc & _); cbn [fst]; rewrite Hc; [done|].
      by rewrite lookup_delete_ne.
    + simpl. unfold tier_Delete. rewrite Hv. by destruct s.
  - pose proof (law_Touch s h' now Hi) as (Hi' & Hc & _). unfold local_step. by rewrite Hc.
Qed.

(** What is put into the local store is what is read from it, through
    compression and encryption in any configuration, whatever else is put, touched
    or deleted afterwards. *)
Theorem local_round_trip (s : LocalStore) h d m rd s1 ops
    (Hi : store_inv s) (Hrd : readings_ok rd) (Hops : Forall op_readings ops)
    (Hnew : contents s !! h = None) (Hput : Store_Put s h d m rd = (s1, None))
    (Hkeep : Forall (fun op => op_deletes h op = false) ops) :
  Store_Get (fold_left local_step ops s1) h = Ok d.
Proof.
  pose proof (law_Put s h d m rd Hi Hrd Hnew) as Hp. rewrite Hput in Hp. destruct Hp as (Hi1 & Hc & _).
  assert (contents s1 !! h = Some d) as Hd by (rewrite Hc; by rewrite lookup_insert_eq). clear Hc Hput Hnew Hi s.
  revert s1 Hi1 Hd. induction ops as [|op ops IH]; intros s1 Hi1 Hd.
  - pose proof (law_valid s1 h Hi1 ltac:(by eexists)) as Hv. pose proof (law_Get s1 h Hi1 Hv) as Hg. simpl fold_left.
    destruct (Store_Get s1 h); congruence.
  - apply Forall_cons in Hops as [Ho Hops], Hkeep as [Hk Hkeep].
    destruct (local_step_keeps s1 op h Hi1 Ho Hk ltac:(by eexists)) as [Hi2 Hd2]. simpl.
    apply IH; [done|done|done|]. by rewrite Hd2.
Qed.

(** [Delete] moves the metadata before it looks the size up, so it never counts
    the blob out: the statistics only grow. *)
Theorem Delete_keeps_stats (s : LocalStore) h now : Store_Stats (Store_Delete s h now).1 = Store_Stats s.
Proof.
  simpl. unfold tier_Delete. destruct (isValidHash h) eqn:Hv; [|done]. simpl.
  destruct (t_blobs (ls_tier s) !! h) as [[c w]|]; [|done]. unfold tier_GetMetadata. rewrite Hv. simpl.
  by rewrite lookup_delete_eq.
Qed.
End round_trip.

(** ** Witness *)

(** A codec that changes nothing. *)
Definition toy_codecs : Codecs.
Proof.
  refine {| gzip_write := fun _ d => d; gzip_read := Some; zstd_write := fun _ d => d; zstd_read := Some;
            gcm_Seal := fun _ _ d => d; gcm_Open := fun _ _ d => Some d |}; done.
Defined.

Definition empty_tier : Tier := mkTier ∅ ∅ ∅ ∅ no_stats.
Definition plain_codec : CodecConfig := mkCodecConfig true "zstd" 3 true.
Definition plain_local : LocalStore := mkLocalStore (mkLocalConfig true 0 plain_codec) (replicate 32 1) empty_tier.
Definition hash_a : string := "aaaaaaaaaaaaaaaaaaaaaaaaaaaaaaaaaaaaaaaaaaaaaaaaaaaaaaaaaaaaaaaa".
Definition hash_b : string := "bbbbbbbbbbbbbbbbbbbbbbbbbbbbbbbbbbbbbbbbbbbbbbbbbbbbbbbbbbbbbbbb".
Definition toy_readings_at (now : Time) : PutReadings := mkPutReadings now (replicate 12 0).

Lemma empty_tier_inv `{Codecs} cfg key : tier_inv cfg key empty_tier.
Proof. split; simpl; intros h; rewrite !lookup_empty; done. Qed.

Lemma local_round_trip_witness :
  @Store_Get _ (@local_store toy_codecs)
    (fold_left (@local_step toy_codecs)
       [LPut hash_b [9] empty_metadata (toy_readings_at 2); LTouch hash_a 3; LDelete hash_b 4]
       (@Store_Put _ (@local_store toy_codecs) plain_local hash_a [1; 2; 3] empty_metadata (toy_readings_at 1)).1)
    hash_a = Ok [1; 2; 3].
Proof.
  apply (@local_round_trip toy_codecs plain_local hash_a [1; 2; 3] empty_metadata (toy_readings_at 1)).
  - apply empty_tier_inv.
  - reflexivity.
  - repeat constructor.
  - reflexivity.
  - vm_compute. reflexivity.
  - repeat constructor.
Defined.
