(* ===== verification/BlobTiers.v ===== *)
(** * Tiered blob storage ([internal/storage/blob/hybrid.go])

    A hybrid store is built from two stores, a hot and a cold one, behind the
    interface of [Blob], and is a store itself.  Its theorems are proved from what
    its tiers promise, whatever they are.  A read of a cold blob starts a warm-up
    of its own accord, which is an operation of its own here. *)
From stdpp Require Import base gmap strings list.
From Stdlib Require Import ZArith Lia.
From S2P Require Import Prelude GoStrings Domain Blob.
Local Open Scope Z_scope.

Record TieringConfig := mkTieringConfig {
  Tiering_Enabled : bool;
  Tiering_Strategy : string;
  Tiering_HotMaxSizeGB : Z;
  Tiering_HotMaxAgeDays : Z
}.

Record HybridStore (A B : Type) := mkHybridStore {
  h_cfg : TieringConfig;
  h_hot : A;
  h_cold : B
}.
Arguments mkHybridStore {A B}.
Arguments h_cfg {A B}.
Arguments h_hot {A B}.
Arguments h_cold {A B}.

(** What moving a blob reads: the clock and a nonce for the copy, and the time of
    the deletion. *)
Record MoveReadings := mkMoveReadings {
  mr_put : PutReadings;
  mr_delete : Time
}.

Section hybrid.
Context {A B : Type} `{BlobStore A} `{BlobStore B}.
Implicit Types s : HybridStore A B.

Definition set_hot s (hot : A) : HybridStore A B := mkHybridStore (h_cfg s) hot (h_cold s).
Definition set_cold s (cold : B) : HybridStore A B := mkHybridStore (h_cfg s) (h_hot s) cold.

(** [exists, _ := store.Exists(hash)] *)
Definition exists_in {S} `{BlobStore S} (s : S) (hash : string) : bool :=
  match Store_Exists s hash with Ok b => b | Err _ => false end.

Definition Hybrid_Put s (hash : string) (data : list Z) (m : Metadata) (rd : PutReadings)
    : HybridStore A B * option BlobError :=
  let '(hot, err) := Store_Put (h_hot s) hash data m rd in (set_hot s hot, err).

Definition Hybrid_Get s (hash : string) : result BlobError (list Z) :=
  match Store_Get (h_hot s) hash with
  | Ok d => Ok d
  | Err _ => match Store_Get (h_cold s) hash with Ok d => Ok d | Err _ => Err ErrBlobNotFound end
  end.

Definition Hybrid_Delete s (hash : string) (now : Time) : HybridStore A B * option BlobError :=
  let '(hot, hotErr) := Store_Delete (h_hot s) hash now in
  let '(cold, coldErr) := Store_Delete (h_cold s) hash now in
  (mkHybridStore (h_cfg s) hot cold,
   match hotErr, coldErr with Some e, Some _ => Some ErrTier | _, _ => None end).

Definition Hybrid_Exists s (hash : string) : result BlobError bool :=
  match Store_Exists (h_hot s) hash with
  | Ok true => Ok true
  | _ => Store_Exists (h_cold s) hash
  end.

Definition Hybrid_Size s (hash : string) : result BlobError Z :=
  match Store_Size (h_hot s) hash with Ok n => Ok n | Err _ => Store_Size (h_cold s) hash end.

(** The loop over one tier, with the hashes seen before. *)
Fixpoint add_unseen (seen : list string) (blobs : list BlobInfo) : list BlobInfo :=
  match blobs with
  | [] => []
  | b :: blobs' =>
      if mem (Info_Hash b) seen then add_unseen seen blobs'
      else b :: add_unseen (Info_Hash b :: seen) blobs'
  end.
Definition Hybrid_List s (prefix : string) : list BlobInfo :=
  add_unseen [] (Store_List (h_hot s) prefix ++ Store_List (h_cold s) prefix).

Definition Hybrid_Touch s (hash : string) (now : Time) : HybridStore A B * option BlobError :=
  if exists_in (h_hot s) hash then let '(hot, err) := Store_Touch (h_hot s) hash now in (set_hot s hot, err)
  else if exists_in (h_cold s) hash then let '(cold, err) := Store_Touch (h_cold s) hash now in (set_cold s cold, err)
  else (s, Some ErrBlobNotFound).

Definition Hybrid_GetMetadata s (hash : string) : result BlobError Metadata :=
  match Store_GetMetadata (h_hot s) hash with Ok m => Ok m | Err _ => Store_GetMetadata (h_cold s) hash end.

Definition Hybrid_UpdateMetadata s (hash : string) (m : Metadata) : HybridStore A B * option BlobError :=
  let '(hot, hotErr) := if exists_in (h_hot s) hash then Store_UpdateMetadata (h_hot s) hash m else (h_hot s, None) in
  let '(cold, coldErr) := if exists_in (h_cold s) hash then Store_UpdateMetadata (h_cold s) hash m
                          else (h_cold s, None) in
  (mkHybridStore (h_cfg s) hot cold, match hotErr, coldErr with Some e, Some _ => Some ErrTier | _, _ => None end).

Definition Hybrid_Stats s : BlobStats :=
  let hot := Store_Stats (h_hot s) in
  let cold := Store_Stats (h_cold s) in
  mkBlobStats (i64 (Stats_TotalBlobs hot + Stats_TotalBlobs cold)) (i64 (Stats_TotalSize hot + Stats_TotalSize cold))
    (if negb (IsZero (Stats_OldestBlob hot)) &&
        (IsZero (Stats_OldestBlob cold) || Before (Stats_OldestBlob hot) (Stats_OldestBlob cold))
     then Stats_OldestBlob hot else Stats_OldestBlob cold)
    (if After (Stats_NewestBlob hot) (Stats_NewestBlob cold) then Stats_NewestBlob hot else Stats_NewestBlob cold).

#[export] Instance hybrid_store : BlobStore (HybridStore A B) := {|
  Store_Put := Hybrid_Put;
  Store_Get := Hybrid_Get;
  Store_Delete := Hybrid_Delete;
  Store_Exists := Hybrid_Exists;
  Store_List := Hybrid_List;
  Store_Touch := Hybrid_Touch;
  Store_GetMetadata := Hybrid_GetMetadata;
  Store_UpdateMetadata := Hybrid_UpdateMetadata;
  Store_Stats := Hybrid_Stats
|}.

(** ** Moving between the tiers *)

Definition CoolDown s (hash : string) (rd : MoveReadings) : HybridStore A B * option BlobError :=
  if negb (exists_in (h_hot s) hash) then (s, Some ErrTier)
  else
    let '(cold, err) := if exists_in (h_cold s) hash then (h_cold s, None)
                        else Store_Copy (h_hot s) hash (h_cold s) (mr_put rd) in
    match err with
    | Some e => (set_cold s cold, Some e)
    | None => let '(hot, err) := Store_Delete (h_hot s) hash (mr_delete rd) in
              (mkHybridStore (h_cfg s) hot cold, err)
    end.

Definition WarmUp s (hash : string) (rd : PutReadings) : HybridStore A B * option BlobError :=
  if negb (exists_in (h_cold s) hash) then (s, Some ErrTier)
  else if exists_in (h_hot s) hash then (s, None)
  else let '(hot, err) := Store_Copy (h_cold s) hash (h_hot s) rd in (set_hot s hot, err).

(** The loop of the LRU policy over the listed blobs. *)
Fixpoint cool_until s (blobs : list BlobInfo) (bytesToFree freed : Z) (rd : string -> MoveReadings) : HybridStore A B :=
  match blobs with
  | [] => s
  | b :: blobs' =>
      if bytesToFree <=? freed then s
      else match CoolDown s (Info_Hash b) (rd (Info_Hash b)) with
           | (s, Some _) => cool_until s blobs' bytesToFree freed rd
           | (s, None) => cool_until s blobs' bytesToFree (i64 (freed + Info_Size b)) rd
           end
  end.

Definition GB : Z := 1024 * 1024 * 1024.

Definition applyLRUPolicy s (rd : string -> MoveReadings) : HybridStore A B :=
  let total := Stats_TotalSize (Store_Stats (h_hot s)) in
  let max := i64 (Tiering_HotMaxSizeGB (h_cfg s) * GB) in
  if total <? max then s
  else cool_until s (Store_List (h_hot s) "") (i64 (total - max)) 0 rd.

Fixpoint cool_old s (blobs : list BlobInfo) (cutoff : Time) (rd : string -> MoveReadings) : HybridStore A B :=
  match blobs with
  | [] => s
  | b :: blobs' =>
      if Before (Info_CreatedAt b) cutoff
      then cool_old (CoolDown s (Info_Hash b) (rd (Info_Hash b))).1 blobs' cutoff rd
      else cool_old s blobs' cutoff rd
  end.

(** Days of 24 hours: the clock is read in UTC. *)
Definition applyAgePolicy s (now : Time) (rd : string -> MoveReadings) : HybridStore A B :=
  cool_old s (Store_List (h_hot s) "") (Add now (- (Tiering_HotMaxAgeDays (h_cfg s) * 24 * Hour))) rd.

Definition ApplyTieringPolicy s (now : Time) (rd : string -> MoveReadings) : HybridStore A B * option BlobError :=
  if negb (Tiering_Enabled (h_cfg s)) then (s, None)
  else if Tiering_Strategy (h_cfg s) =?= "lru"%string then (applyLRUPolicy s rd, None)
  else if Tiering_Strategy (h_cfg s) =?= "age"%string then (applyAgePolicy s now rd, None)
  else if Tiering_Strategy (h_cfg s) =?= "manual"%string then (s, None)
  else (s, Some ErrPolicy).
End hybrid.

(** * Theorems *)

Section laws.
Context {A B : Type} `{BlobStoreLaws A} `{BlobStoreLaws B}.
Implicit Types s : HybridStore A B.

(** The tiers agree on the blobs they share. *)
Record hybrid_inv s : Prop := {
  hi_hot : store_inv (h_hot s);
  hi_cold : store_inv (h_cold s);
  hi_contents h d d' : contents (h_hot s) !! h = Some d -> contents (h_cold s) !! h = Some d' -> d = d';
  hi_refs h r r' : refs (h_hot s) !! h = Some r -> refs (h_cold s) !! h = Some r' -> r = r'
}.

Definition hybrid_contents s : gmap string (list Z) := contents (h_hot s) ∪ contents (h_cold s).
Definition hybrid_refs s : gmap string (list Reference) := refs (h_hot s) ∪ refs (h_cold s).

Lemma exists_in_spec {S} `{BlobStoreLaws S} (s : S) h :
  store_inv s -> isValidHash h = true -> exists_in s h = bool_decide (is_Some (contents s !! h)).
Proof. intros Hi Hv. unfold exists_in. by rewrite law_Exists. Qed.

Lemma hybrid_valid s h : hybrid_inv s -> is_Some (hybrid_contents s !! h) -> isValidHash h = true.
Proof.
  intros [Hh Hc _ _]. unfold hybrid_contents. rewrite lookup_union_is_Some. intros [Hs|Hs]; [exact (law_valid _ h Hh Hs)|exact (law_valid _ h Hc Hs)].
Qed.

Lemma hybrid_refs_dom s h : hybrid_inv s -> (is_Some (hybrid_refs s !! h) <-> is_Some (hybrid_contents s !! h)).
Proof.
  intros [Hh Hc _ _]. unfold hybrid_refs, hybrid_contents. rewrite !lookup_union_is_Some.
  by rewrite (law_refs _ _ Hh), (law_refs _ _ Hc).
Qed.

Lemma None_refs {S} `{BlobStoreLaws S} (s : S) h : store_inv s -> contents s !! h = None -> refs s !! h = None.
Proof. intros Hi. rewrite !eq_None_not_Some. by rewrite law_refs. Qed.

(** Inserting into one tier a blob the other does not have. *)
Lemma set_hot_new s (hot : A) h d r :
  hybrid_inv s -> store_inv hot -> contents hot = <[h := d]> (contents (h_hot s)) ->
  refs hot = <[h := r]> (refs (h_hot s)) ->
  (forall d', contents (h_cold s) !! h = Some d' -> d' = d) ->
  (forall r', refs (h_cold s) !! h = Some r' -> r' = r) ->
  hybrid_inv (set_hot s hot) /\ hybrid_contents (set_hot s hot) = <[h := d]> (hybrid_contents s) /\
  hybrid_refs (set_hot s hot) = <[h := r]> (hybrid_refs s).
Proof.
  intros [Hh Hc Ha Hr] Hi Hcon Href Hd Hrr. split_and!.
  - split; simpl; [done|done|..].
    + intros h' d1 d2. rewrite Hcon, lookup_insert. case_decide; [|apply Ha]. subst.
      intros [= <-] Hx2. by rewrite (Hd _ Hx2).
    + intros h' r1 r2. rewrite Href, lookup_insert. case_decide; [|apply Hr]. subst.
      intros [= <-] Hx2. by rewrite (Hrr _ Hx2).
  - unfold hybrid_contents. simpl. rewrite Hcon. by rewrite insert_union_l.
  - unfold hybrid_refs. simpl. rewrite Href. by rewrite insert_union_l.
Qed.

Lemma hybrid_Put_law s h d m rd :
  hybrid_inv s -> readings_ok rd -> hybrid_contents s !! h = None ->
  match Hybrid_Put s h d m rd with
  | (s', None) =>
      hybrid_inv s' /\ hybrid_contents s' = <[h := d]> (hybrid_contents s) /\
      hybrid_refs s' = <[h := Meta_References m]> (hybrid_refs s)
  | (s', Some _) => hybrid_inv s' /\ hybrid_contents s' = hybrid_contents s /\ hybrid_refs s' = hybrid_refs s
  end.
Proof.
  intros Hi Hrd Hn. apply lookup_union_None in Hn as [Hn1 Hn2]. unfold Hybrid_Put.
  pose proof (law_Put (h_hot s) h d m rd (hi_hot _ Hi) Hrd Hn1) as Hp.
  pose proof (None_refs _ _ (hi_cold _ Hi) Hn2) as Hn3.
  destruct (Store_Put (h_hot s) h d m rd) as [hot [e|]]; destruct Hp as (Hi' & Hc & Hr).
  - unfold hybrid_contents, hybrid_refs. simpl. rewrite Hc, Hr. split_and!; try done.
    destruct Hi as [_ Hc0 Ha0 Hr0]. split; simpl; rewrite ?Hc, ?Hr; done.
  - apply set_hot_new; try done; intros x Hx; congruence.
Qed.

Lemma hybrid_Get_law s h :
  hybrid_inv s -> isValidHash h = true ->
  match Hybrid_Get s h with
  | Ok d => hybrid_contents s !! h = Some d
  | Err _ => hybrid_contents s !! h = None
  end.
Proof.
  intros [Hh Hc _ _] Hv. unfold Hybrid_Get, hybrid_contents.
  pose proof (law_Get _ h Hh Hv) as Hg. destruct (Store_Get (h_hot s) h) as [d|e].
  - by apply lookup_union_Some_l.
  - pose proof (law_Get _ h Hc Hv) as Hg'. rewrite lookup_union_r by done. by destruct (Store_Get (h_cold s) h).
Qed.

Lemma hybrid_Exists_law s h :
  hybrid_inv s -> isValidHash h = true -> Hybrid_Exists s h = Ok (bool_decide (is_Some (hybrid_contents s !! h))).
Proof.
  intros [Hh Hc _ _] Hv. unfold Hybrid_Exists, hybrid_contents. rewrite !law_Exists by done.
  destruct (contents (h_hot s) !! h) as [d|] eqn:Hd.
  - rewrite bool_decide_true by (by eexists). f_equal. symmetry. apply bool_decide_true.
    exists d. by apply lookup_union_Some_l.
  - rewrite bool_decide_false by (by intros []). by rewrite lookup_union_r.
Qed.

(** [Delete] of a tier, whether the blob was there or not. *)
Lemma Delete_total {S} `{BlobStoreLaws S} (s : S) h now :
  store_inv s -> isValidHash h = true ->
  store_inv (Store_Delete s h now).1 /\ contents (Store_Delete s h now).1 = delete h (contents s) /\
  refs (Store_Delete s h now).1 = delete h (refs s) /\
  ((Store_Delete s h now).2 = None <-> is_Some (contents s !! h)).
Proof.
  intros Hi Hv. pose proof (law_Delete s h now Hi Hv) as Hd. destruct (Store_Delete s h now) as [s' [e|]]; simpl.
  - destruct Hd as (Hn & Hi' & Hc & Hr). rewrite Hc, Hr, Hn.
    rewrite (delete_id (contents s)), (delete_id (refs s)) by (done || by apply None_refs). split_and!; try done.
  - by destruct Hd as (? & ? & ? & ?).
Qed.

Lemma hybrid_Delete_law s h now :
  hybrid_inv s -> isValidHash h = true ->
  match Hybrid_Delete s h now with
  | (s', None) =>
      is_Some (hybrid_contents s !! h) /\ hybrid_inv s' /\ hybrid_contents s' = delete h (hybrid_contents s) /\
      hybrid_refs s' = delete h (hybrid_refs s)
  | (s', Some _) =>
      hybrid_contents s !! h = None /\ hybrid_inv s' /\ hybrid_contents s' = hybrid_contents s /\
      hybrid_refs s' = hybrid_refs s
  end.
Proof.
  intros [Hh Hc Ha Hr] Hv. unfold Hybrid_Delete.
  destruct (Delete_total _ h now Hh Hv) as (Hi1 & Hc1 & Hr1 & He1).
  destruct (Delete_total _ h now Hc Hv) as (Hi2 & Hc2 & Hr2 & He2).
  destruct (Store_Delete (h_hot s) h now) as [hot e1], (Store_Delete (h_cold s) h now) as [cold e2]. simpl in *.
  assert (hybrid_inv (mkHybridStore (h_cfg s) hot cold)) as Hi'.
  { split; simpl; [done|done|..]; intros h'; rewrite ?Hc1, ?Hc2, ?Hr1, ?Hr2, !lookup_delete;
      (case_decide; [done|]); [apply Ha|apply Hr]. }
  assert (hybrid_contents (mkHybridStore (h_cfg s) hot cold) = delete h (hybrid_contents s) /\
          hybrid_refs (mkHybridStore (h_cfg s) hot cold) = delete h (hybrid_refs s)) as [Hcon Href].
  { unfold hybrid_contents, hybrid_refs. simpl. rewrite Hc1, Hc2, Hr1, Hr2. by rewrite !delete_union. }
  assert (is_Some (hybrid_contents s !! h) <-> is_Some (contents (h_hot s) !! h) \/ is_Some (contents (h_cold s) !! h))
    as Hsome by apply lookup_union_is_Some.
  destruct e1 as [e1|], e2 as [e2|]; try (split_and!; [apply Hsome; naive_solver|done..]).
  assert (contents (h_hot s) !! h = None /\ contents (h_cold s) !! h = None) as [Hn1 Hn2]
    by (split; apply eq_None_not_Some; naive_solver).
  assert (hybrid_contents s !! h = None) as Hn by (by apply lookup_union_None).
  assert (hybrid_refs s !! h = None) as Hnr by (apply lookup_union_None; split; by apply None_refs).
  rewrite Hcon, Href, !delete_id by done. done.
Qed.

Lemma hybrid_GetMetadata_law s h :
  hybrid_inv s -> isValidHash h = true ->
  match Hybrid_GetMetadata s h with
  | Ok m => hybrid_refs s !! h = Some (Meta_References m)
  | Err _ => hybrid_refs s !! h = None
  end.
Proof.
  intros [Hh Hc _ _] Hv. unfold Hybrid_GetMetadata, hybrid_refs.
  pose proof (law_GetMetadata _ h Hh Hv) as Hg. destruct (Store_GetMetadata (h_hot s) h) as [m|e].
  - by apply lookup_union_Some_l.
  - pose proof (law_GetMetadata _ h Hc Hv) as Hg'. rewrite lookup_union_r by done.
    by destruct (Store_GetMetadata (h_cold s) h).
Qed.

(** [UpdateMetadata] of a tier, skipped where the blob is not. *)
Lemma Update_if_exists {S} `{BlobStoreLaws S} (s : S) h m :
  store_inv s -> isValidHash h = true ->
  let p := if exists_in s h then Store_UpdateMetadata s h m else (s, None) in
  p.2 = None /\ store_inv p.1 /\ contents p.1 = contents s /\
  (forall h', refs p.1 !! h' =
     if decide (h' = h) then (fun _ => Meta_References m) <$> refs s !! h else refs s !! h').
Proof.
  intros Hi Hv. rewrite exists_in_spec by done. case_bool_decide as Hs.
  - pose proof (law_UpdateMetadata s h m Hi Hs) as Hu. destruct (Store_UpdateMetadata s h m) as [s' [e|]]; [done|].
    destruct Hu as (Hi' & Hc & Hr). simpl. rewrite Hc, Hr. split_and!; try done. intros h'.
    rewrite lookup_insert. apply (law_refs _ _ Hi) in Hs as [r Hr0]. rewrite Hr0.
    destruct (decide (h = h')) as [->|]; [by rewrite decide_True|by rewrite decide_False by congruence].
  - simpl. split_and!; try done. intros h'. case_decide; [subst|done].
    assert (refs s !! h = None) as -> by (apply None_refs; [done|by apply eq_None_not_Some]). done.
Qed.

Lemma hybrid_UpdateMetadata_law s h m :
  hybrid_inv s -> is_Some (hybrid_contents s !! h) ->
  match Hybrid_UpdateMetadata s h m with
  | (s', None) =>
      hybrid_inv s' /\ hybrid_contents s' = hybrid_contents s /\
      hybrid_refs s' = <[h := Meta_References m]> (hybrid_refs s)
  | (s', Some _) => False
  end.
Proof.
  intros Hi Hs. pose proof (hybrid_valid _ _ Hi Hs) as Hv. apply (hybrid_refs_dom _ _ Hi) in Hs.
  destruct Hi as [Hh Hc Ha Hr]. unfold Hybrid_UpdateMetadata.
  destruct (Update_if_exists _ h m Hh Hv) as (He1 & Hi1 & Hc1 & Hr1).
  destruct (Update_if_exists _ h m Hc Hv) as (He2 & Hi2 & Hc2 & Hr2).
  destruct (if exists_in (h_hot s) h then _ else _) as [hot e1], (if exists_in (h_cold s) h then _ else _) as [cold e2].
  simpl in *. subst. split_and!.
  - split; simpl; [done|done|rewrite Hc1, Hc2; exact Ha|]. intros h' r r'. rewrite Hr1, Hr2. case_decide; [|apply Hr].
    destruct (refs (h_hot s) !! h), (refs (h_cold s) !! h); naive_solver.
  - unfold hybrid_contents. simpl. by rewrite Hc1, Hc2.
  - apply map_eq. intros h'. unfold hybrid_refs in *. simpl. rewrite lookup_union, Hr1, Hr2, lookup_insert.
    destruct (decide (h' = h)) as [->|Hne].
    + rewrite decide_True by done. apply lookup_union_is_Some in Hs.
      destruct (refs (h_hot s) !! h), (refs (h_cold s) !! h); try done. destruct Hs as [[]|[]]; done.
    + rewrite decide_False by congruence. by rewrite lookup_union.
Qed.

(** Replacing a tier by one with the same contents and references. *)
Lemma set_hot_same s (hot : A) :
  hybrid_inv s -> store_inv hot -> contents hot = contents (h_hot s) -> refs hot = refs (h_hot s) ->
  hybrid_inv (set_hot s hot) /\ hybrid_contents (set_hot s hot) = hybrid_contents s /\
  hybrid_refs (set_hot s hot) = hybrid_refs s.
Proof.
  intros [Hh Hc Ha Hr] Hi Hcon Href. unfold hybrid_contents, hybrid_refs. simpl. rewrite Hcon, Href.
  split_and!; try done. split; simpl; rewrite ?Hcon, ?Href; done.
Qed.
Lemma set_cold_same s (cold : B) :
  hybrid_inv s -> store_inv cold -> contents cold = contents (h_cold s) -> refs cold = refs (h_cold s) ->
  hybrid_inv (set_cold s cold) /\ hybrid_contents (set_cold s cold) = hybrid_contents s /\
  hybrid_refs (set_cold s cold) = hybrid_refs s.
Proof.
  intros [Hh Hc Ha Hr] Hi Hcon Href. unfold hybrid_contents, hybrid_refs. simpl. rewrite Hcon, Href.
  split_and!; try done. split; simpl; rewrite ?Hcon, ?Href; done.
Qed.

Lemma hybrid_Touch_law s h now :
  hybrid_inv s ->
  let s' := (Hybrid_Touch s h now).1 in
  hybrid_inv s' /\ hybrid_contents s' = hybrid_contents s /\ hybrid_refs s' = hybrid_refs s.
Proof.
  intros Hi. unfold Hybrid_Touch. destruct (exists_in (h_hot s) h); [|destruct (exists_in (h_cold s) h); [|done]].
  - pose proof (law_Touch _ h now (hi_hot _ Hi)) as (? & ? & ?). destruct (Store_Touch (h_hot s) h now).
    by apply set_hot_same.
  - pose proof (law_Touch _ h now (hi_cold _ Hi)) as (? & ? & ?). destruct (Store_Touch (h_cold s) h now).
    by apply set_cold_same.
Qed.

Lemma add_unseen_elem seen blobs h :
  h ∈ map Info_Hash (add_unseen seen blobs) <-> h ∈ map Info_Hash blobs /\ h ∉ seen.
Proof.
  revert seen. induction blobs as [|b blobs IH]; intros seen; simpl; [set_solver|].
  destruct (mem (Info_Hash b) seen) eqn:Hm; [apply mem_true in Hm|apply mem_false in Hm].
  - rewrite IH. set_solver.
  - simpl. rewrite !elem_of_cons, IH, not_elem_of_cons. destruct (decide (h = Info_Hash b)); set_solver.
Qed.

Lemma hybrid_List_law s h :
  hybrid_inv s -> (h ∈ map Info_Hash (Hybrid_List s "") <-> is_Some (hybrid_contents s !! h)).
Proof.
  intros [Hh Hc _ _]. unfold Hybrid_List, hybrid_contents.
  rewrite add_unseen_elem, map_app, elem_of_app, lookup_union_is_Some.
  rewrite (law_List _ _ Hh), (law_List _ _ Hc). set_solver.
Qed.

(** A hybrid store of two stores is a store. *)
#[export] Instance hybrid_laws : BlobStoreLaws (HybridStore A B) := {|
  store_inv := hybrid_inv;
  contents := hybrid_contents;
  refs := hybrid_refs;
  law_valid := hybrid_valid;
  law_refs := hybrid_refs_dom;
  law_Put := hybrid_Put_law;
  law_Get := hybrid_Get_law;
  law_Exists := hybrid_Exists_law;
  law_Delete := hybrid_Delete_law;
  law_GetMetadata := hybrid_GetMetadata_law;
  law_UpdateMetadata := hybrid_UpdateMetadata_law;
  law_Touch := hybrid_Touch_law;
  law_List := hybrid_List_law
|}.

(** ** Moves *)

(** A copy of a blob the other store does not have. *)
Lemma Store_Copy_law {S T} `{BlobStoreLaws S} `{BlobStoreLaws T} (s : S) (to : T) h rd d r :
  store_inv s -> store_inv to -> readings_ok rd -> contents s !! h = Some d -> refs s !! h = Some r ->
  contents to !! h = None ->
  match Store_Copy s h to rd with
  | (to', None) => store_inv to' /\ contents to' = <[h := d]> (contents to) /\ refs to' = <[h := r]> (refs to)
  | (to', Some _) => store_inv to' /\ contents to' = contents to /\ refs to' = refs to
  end.
Proof.
  intros Hi Hi' Hrd Hd Hr Hn. unfold Store_Copy.
  pose proof (law_valid s h Hi ltac:(by eexists)) as Hv.
  pose proof (law_Get s h Hi Hv) as Hg. destruct (Store_Get s h) as [d'|e]; [|congruence].
  pose proof (law_GetMetadata s h Hi Hv) as Hm. destruct (Store_GetMetadata s h) as [m|e]; [|congruence].
  pose proof (law_Put to h d' m rd Hi' Hrd Hn) as Hp. assert (d' = d) as -> by congruence.
  assert (Meta_References m = r) as <- by congruence. done.
Qed.

Lemma exists_in_valid {S} `{BlobStoreLaws S} (s : S) h :
  store_inv s -> isValidHash h = true -> exists_in s h = true -> exists d r, contents s !! h = Some d /\ refs s !! h = Some r.
Proof.
  intros Hi Hv. rewrite exists_in_spec by done. intros Hs%bool_decide_eq_true.
  pose proof (proj2 (law_refs s h Hi) Hs) as [r Hr]. destruct Hs as [d Hd]. eauto.
Qed.

(** ** What a client sees *)

(** The tiers agree on the contents of the blobs they share.  Of what they record about
    them they need not: a blob that is put again after it was cooled down has new
    references in the hot tier and its old ones in the cold tier. *)
Record agree s : Prop := {
  ag_hot : store_inv (h_hot s);
  ag_cold : store_inv (h_cold s);
  ag_contents h d d' : contents (h_hot s) !! h = Some d -> contents (h_cold s) !! h = Some d' -> d = d'
}.

Lemma hybrid_inv_agree s : hybrid_inv s -> agree s.
Proof. by intros [? ? ? _]. Qed.

(** The view of a hybrid store hides where a blob is. *)
Definition same_view s s' : Prop := agree s' /\ hybrid_contents s' = hybrid_contents s.

Lemma same_view_trans s1 s2 s3 : same_view s1 s2 -> same_view s2 s3 -> same_view s1 s3.
Proof. intros (_ & H1') (Hi & H3'). split; congruence || done. Qed.

Lemma agree_hot s (hot : A) h d :
  agree s -> store_inv hot -> contents hot = <[h := d]> (contents (h_hot s)) ->
  (forall d', contents (h_cold s) !! h = Some d' -> d' = d) ->
  agree (set_hot s hot) /\ hybrid_contents (set_hot s hot) = <[h := d]> (hybrid_contents s).
Proof.
  intros [Hh Hc Ha] Hi Hcon Hd. split.
  - split; simpl; [done|done|]. intros h' d1 d2. rewrite Hcon, lookup_insert. case_decide; [|apply Ha]. subst.
    intros [= <-] Hx2. by rewrite (Hd _ Hx2).
  - unfold hybrid_contents. simpl. rewrite Hcon. by rewrite insert_union_l.
Qed.

Lemma view_hot s (hot : A) : agree s -> store_inv hot -> contents hot = contents (h_hot s) -> same_view s (set_hot s hot).
Proof.
  intros [Hh Hc Ha] Hi Hcon. split; [|by unfold hybrid_contents; simpl; rewrite Hcon].
  split; simpl; rewrite ?Hcon; done.
Qed.
Lemma view_cold s (cold : B) : agree s -> store_inv cold -> contents cold = contents (h_cold s) -> same_view s (set_cold s cold).
Proof.
  intros [Hh Hc Ha] Hi Hcon. split; [|by unfold hybrid_contents; simpl; rewrite Hcon].
  split; simpl; rewrite ?Hcon; done.
Qed.

(** Taking a blob out of the hot tier that the cold tier has. *)
Lemma drop_hot s h now :
  agree s -> isValidHash h = true -> is_Some (contents (h_cold s) !! h) ->
  same_view s (mkHybridStore (h_cfg s) (Store_Delete (h_hot s) h now).1 (h_cold s)).
Proof.
  intros [Hh Hc Ha] Hv [d Hd]. destruct (Delete_total _ h now Hh Hv) as (Hi1 & Hc1 & _ & _).
  destruct (Store_Delete (h_hot s) h now) as [hot e]. simpl in *. split.
  - split; simpl; [done|done|]. intros h'; rewrite ?Hc1, lookup_delete; (case_decide; [done|]). apply Ha.
  - apply map_eq. intros h'. unfold hybrid_contents. simpl. rewrite Hc1, !lookup_union, lookup_delete.
    case_decide; [|done]. subst. rewrite Hd. destruct (contents (h_hot s) !! h') as [d'|] eqn:Hd'; [|done].
    by rewrite (Ha _ _ _ Hd' Hd).
Qed.

(** Adding to the cold tier what the hot one has. *)
Lemma add_cold s (cold : B) h d :
  agree s -> store_inv cold -> contents (h_hot s) !! h = Some d ->
  contents cold = <[h := d]> (contents (h_cold s)) -> same_view s (set_cold s cold).
Proof.
  intros [Hh Hc Ha] Hi Hd Hcon. split.
  - split; simpl; [done|done|]. intros h'; rewrite ?Hcon, lookup_insert; (case_decide; [subst; naive_solver|]). apply Ha.
  - apply map_eq. intros h'. unfold hybrid_contents. simpl. rewrite Hcon, !lookup_union, lookup_insert.
    case_decide; [|done]. subst. rewrite Hd. by destruct (contents (h_cold s) !! h').
Qed.

Lemma exists_in_false {S} `{BlobStoreLaws S} (s : S) h :
  store_inv s -> isValidHash h = true -> exists_in s h = false -> contents s !! h = None.
Proof. intros Hi Hv Hh. rewrite exists_in_spec in Hh by done. apply bool_decide_eq_false in Hh. by apply eq_None_not_Some. Qed.

(** What is no hash is nowhere. *)
Lemma exists_in_invalid {S} `{CheckedStore S} (s : S) h : isValidHash h = false -> exists_in s h = false.
Proof. intros Hv. unfold exists_in. by destruct (chk_Exists s h Hv) as [e ->]. Qed.

Lemma contents_invalid s h : agree s -> isValidHash h = false -> hybrid_contents s !! h = None.
Proof.
  intros [Hh Hc _] Hv. apply eq_None_not_Some. unfold hybrid_contents. rewrite lookup_union_is_Some.
  intros [Hs|Hs]; [apply (law_valid _ h Hh) in Hs|apply (law_valid _ h Hc) in Hs]; congruence.
Qed.

Definition moves_ok (rd : MoveReadings) : Prop := readings_ok (mr_put rd).

Section checked.
Context `{!CheckedStore A} `{!CheckedStore B}.

Lemma CoolDown_view s h rd : agree s -> moves_ok rd -> same_view s (CoolDown s h rd).1.
Proof.
  intros Hi Hrd. unfold CoolDown. destruct (exists_in (h_hot s) h) eqn:Hh; [|done]. cbn [negb].
  destruct (isValidHash h) eqn:Hv; [|by rewrite exists_in_invalid in Hh].
  destruct (exists_in_valid _ h (ag_hot _ Hi) Hv Hh) as (d & r & Hd & Hr).
  destruct (exists_in (h_cold s) h) eqn:Hc.
  - destruct (exists_in_valid _ h (ag_cold _ Hi) Hv Hc) as (d' & r' & Hd' & _).
    pose proof (drop_hot s h (mr_delete rd) Hi Hv ltac:(by eexists)) as Hdrop.
    by destruct (Store_Delete (h_hot s) h (mr_delete rd)).
  - pose proof (exists_in_false _ _ (ag_cold _ Hi) Hv Hc) as Hn.
    pose proof (Store_Copy_law (h_hot s) (h_cold s) h (mr_put rd) d r (ag_hot _ Hi) (ag_cold _ Hi) Hrd Hd Hr Hn) as Hcp.
    destruct (Store_Copy _ h _ _) as [cold [e|]]; destruct Hcp as (Hi' & Hcon & _); [by apply view_cold|].
    pose proof (add_cold s cold h d Hi Hi' Hd Hcon) as Hadd.
    pose proof (drop_hot (set_cold s cold) h (mr_delete rd) (proj1 Hadd) Hv) as Hdrop. simpl in Hdrop.
    rewrite Hcon, lookup_insert_eq in Hdrop. specialize (Hdrop ltac:(by eexists)).
    destruct (Store_Delete (h_hot s) h (mr_delete rd)). by eapply same_view_trans.
Qed.

Lemma WarmUp_view s h rd : agree s -> readings_ok rd -> same_view s (WarmUp s h rd).1.
Proof.
  intros Hi Hrd. unfold WarmUp. destruct (exists_in (h_cold s) h) eqn:Hc; [|done]. cbn [negb].
  destruct (exists_in (h_hot s) h) eqn:Hh; [done|].
  destruct (isValidHash h) eqn:Hv; [|by rewrite exists_in_invalid in Hc].
  destruct (exists_in_valid _ h (ag_cold _ Hi) Hv Hc) as (d & r & Hd & Hr).
  pose proof (exists_in_false _ _ (ag_hot _ Hi) Hv Hh) as Hn.
  pose proof (Store_Copy_law (h_cold s) (h_hot s) h rd d r (ag_cold _ Hi) (ag_hot _ Hi) Hrd Hd Hr Hn) as Hcp.
  destruct (Store_Copy _ h _ _) as [hot [e|]]; destruct Hcp as (Hi' & Hcon & _); [by apply view_hot|].
  destruct (agree_hot s hot h d Hi Hi' Hcon) as (Hi2 & Hc2); [congruence|]. split; [done|]. cbn [fst].
  rewrite Hc2. apply insert_id. unfold hybrid_contents. by rewrite lookup_union_r.
Qed.

Lemma listed_valid {S} `{BlobStoreLaws S} (s : S) b : store_inv s -> b ∈ Store_List s "" -> isValidHash (Info_Hash b) = true.
Proof.
  intros Hi Hb. apply (law_valid s _ Hi), (law_List s _ Hi), list_elem_of_In, in_map. by apply list_elem_of_In.
Qed.

Definition all_moves_ok (rd : string -> MoveReadings) : Prop := forall h, moves_ok (rd h).

Lemma cool_until_view s blobs bytes freed rd :
  agree s -> all_moves_ok rd -> Forall (fun b => isValidHash (Info_Hash b) = true) blobs ->
  same_view s (cool_until s blobs bytes freed rd).
Proof.
  intros Hi Hrd Hb. revert s freed Hi. induction Hb as [|b blobs Hv _ IH]; intros s freed Hi; simpl; [done|].
  destruct (bytes <=? freed); [done|]. pose proof (CoolDown_view s (Info_Hash b) (rd (Info_Hash b)) Hi (Hrd _)) as Hc.
  destruct (CoolDown _ _ _) as [s' [e|]]; simpl in Hc; (eapply same_view_trans; [exact Hc|apply IH, Hc]).
Qed.

Lemma cool_old_view s blobs cutoff rd :
  agree s -> all_moves_ok rd -> Forall (fun b => isValidHash (Info_Hash b) = true) blobs ->
  same_view s (cool_old s blobs cutoff rd).
Proof.
  intros Hi Hrd Hb. revert s Hi. induction Hb as [|b blobs Hv _ IH]; intros s Hi; simpl; [done|].
  destruct (Before _ _); [|by apply IH].
  pose proof (CoolDown_view s (Info_Hash b) (rd (Info_Hash b)) Hi (Hrd _)) as Hc.
  eapply same_view_trans; [exact Hc|apply IH, Hc].
Qed.

Lemma ApplyTieringPolicy_view s now rd :
  agree s -> all_moves_ok rd -> same_view s (ApplyTieringPolicy s now rd).1.
Proof.
  intros Hi Hrd. assert (Forall (fun b => isValidHash (Info_Hash b) = true) (Store_List (h_hot s) "")) as Hb.
  { apply Forall_forall. intros b. apply listed_valid, Hi. }
  unfold ApplyTieringPolicy, applyLRUPolicy, applyAgePolicy. destruct (negb _); [done|]. case_bool_decide.
  - destruct (_ <? _); [done|]. by apply cool_until_view.
  - case_bool_decide; [by apply cool_old_view|]. by case_bool_decide.
Qed.

(** ** Refinement *)

(** The abstract store is a map from hashes to contents. *)
Abbreviation AbstractStore := (gmap string (list Z)) (only parsing).

Inductive hybrid_op :=
| HPut (h : string) (d : list Z) (m : Metadata) (rd : PutReadings)
| HGet (h : string)
| HDelete (h : string) (now : Time)
| HUpdate (h : string) (m : Metadata)
| HTouch (h : string) (now : Time)
| HCoolDown (h : string) (rd : MoveReadings)
| HWarmUp (h : string) (rd : PutReadings)
| HPolicy (now : Time) (rd : string -> MoveReadings).

Inductive response := ROk | RErr | RData (d : list Z).
Definition response_of (e : option BlobError) : response := match e with None => ROk | Some _ => RErr end.

Definition hybrid_step s (op : hybrid_op) : HybridStore A B * response :=
  match op with
  | HPut h d m rd => let '(s, e) := Store_Put s h d m rd in (s, response_of e)
  | HGet h => (s, match Store_Get s h with Ok d => RData d | Err _ => RErr end)
  | HDelete h now => let '(s, e) := Store_Delete s h now in (s, response_of e)
  | HUpdate h m => let '(s, e) := Store_UpdateMetadata s h m in (s, response_of e)
  | HTouch h now => let '(s, e) := Store_Touch s h now in (s, response_of e)
  | HCoolDown h rd => let '(s, e) := CoolDown s h rd in (s, response_of e)
  | HWarmUp h rd => let '(s, e) := WarmUp s h rd in (s, response_of e)
  | HPolicy now rd => let '(s, e) := ApplyTieringPolicy s now rd in (s, response_of e)
  end.

(** What a client may see: a map from hashes to contents.  Touching a blob, changing its
    metadata and moving it between tiers do not change what is read. *)
Inductive abs_step (a : AbstractStore) : hybrid_op -> AbstractStore -> response -> Prop :=
| abs_put h d m rd : abs_step a (HPut h d m rd) (<[h := d]> a) ROk
| abs_put_failed h d m rd : abs_step a (HPut h d m rd) a RErr
| abs_get h d : a !! h = Some d -> abs_step a (HGet h) a (RData d)
| abs_get_none h : a !! h = None -> abs_step a (HGet h) a RErr
| abs_delete h now : is_Some (a !! h) -> abs_step a (HDelete h now) (delete h a) ROk
| abs_delete_none h now : a !! h = None -> abs_step a (HDelete h now) a RErr
| abs_update h m : abs_step a (HUpdate h m) a ROk
| abs_touch h now r : abs_step a (HTouch h now) a r
| abs_cool h rd r : abs_step a (HCoolDown h rd) a r
| abs_warm h rd r : abs_step a (HWarmUp h rd) a r
| abs_policy now rd r : abs_step a (HPolicy now rd) a r.

Definition all_readings_ok (op : hybrid_op) : Prop :=
  match op with
  | HPut _ _ _ rd | HWarmUp _ rd => readings_ok rd
  | HCoolDown _ rd => moves_ok rd
  | HPolicy _ rd => all_moves_ok rd
  | HGet _ | HDelete _ _ | HUpdate _ _ | HTouch _ _ => True
  end.

(** A hash names one content: what is put under it again is what is there. *)
Definition one_content (a : AbstractStore) (op : hybrid_op) : Prop :=
  match op with HPut h d _ _ => forall d', a !! h = Some d' -> d' = d | _ => True end.

Lemma Put_refines s h d m rd :
  agree s -> readings_ok rd -> (forall d', hybrid_contents s !! h = Some d' -> d' = d) ->
  let '(s', e) := Hybrid_Put s h d m rd in
  agree s' /\ abs_step (hybrid_contents s) (HPut h d m rd) (hybrid_contents s') (response_of e).
Proof.
  intros Hi Hrd Hd. unfold Hybrid_Put. destruct (contents (h_hot s) !! h) as [d0|] eqn:Hn.
  - destruct (chk_Put_again (h_hot s) h d m rd (ag_hot _ Hi) ltac:(by eexists)) as [e ->].
    replace (set_hot s (h_hot s)) with s by (by destruct s). split; [done|]. apply abs_put_failed.
  - pose proof (law_Put (h_hot s) h d m rd (ag_hot _ Hi) Hrd Hn) as Hp.
    destruct (Store_Put (h_hot s) h d m rd) as [hot [e|]]; destruct Hp as (Hi' & Hc & _); cbn [response_of].
    + destruct (view_hot s hot Hi Hi' Hc) as [Ha ->]. split; [done|]. apply abs_put_failed.
    + destruct (agree_hot s hot h d Hi Hi' Hc) as [Ha ->]; [|split; [done|apply abs_put]].
      intros d' Hd'. apply Hd. unfold hybrid_contents. by rewrite lookup_union_r.
Qed.

Lemma Get_refines s h :
  agree s ->
  abs_step (hybrid_contents s) (HGet h) (hybrid_contents s) (match Hybrid_Get s h with Ok d => RData d | Err _ => RErr end).
Proof.
  intros Hi. destruct (isValidHash h) eqn:Hv.
  - unfold Hybrid_Get. pose proof (law_Get _ h (ag_hot _ Hi) Hv) as Hg. destruct (Store_Get (h_hot s) h) as [d|e].
    { apply abs_get. by apply lookup_union_Some_l. }
    pose proof (law_Get _ h (ag_cold _ Hi) Hv) as Hg'.
    destruct (Store_Get (h_cold s) h) as [d|e']; [apply abs_get|apply abs_get_none];
      unfold hybrid_contents; by rewrite lookup_union_r.
  - unfold Hybrid_Get. destruct (chk_Get (h_hot s) h Hv) as [e ->]. destruct (chk_Get (h_cold s) h Hv) as [e' ->].
    by apply abs_get_none, contents_invalid.
Qed.

Lemma Delete_refines s h now :
  agree s ->
  let '(s', e) := Hybrid_Delete s h now in
  agree s' /\ abs_step (hybrid_contents s) (HDelete h now) (hybrid_contents s') (response_of e).
Proof.
  intros Hi. unfold Hybrid_Delete. destruct (isValidHash h) eqn:Hv.
  - destruct Hi as [Hh Hc Ha]. destruct (Delete_total _ h now Hh Hv) as (Hi1 & Hc1 & _ & He1).
    destruct (Delete_total _ h now Hc Hv) as (Hi2 & Hc2 & _ & He2).
    destruct (Store_Delete (h_hot s) h now) as [hot e1], (Store_Delete (h_cold s) h now) as [cold e2]. cbn [fst snd] in *.
    split.
    { split; cbn; [done|done|]. intros h'. rewrite Hc1, Hc2, !lookup_delete. case_decide; [done|apply Ha]. }
    assert (hybrid_contents (mkHybridStore (h_cfg s) hot cold) = delete h (hybrid_contents s)) as ->.
    { unfold hybrid_contents. cbn. rewrite Hc1, Hc2. by rewrite !delete_union. }
    assert (is_Some (hybrid_contents s !! h) <-> e1 = None \/ e2 = None) as Hs.
    { unfold hybrid_contents. rewrite lookup_union_is_Some. by rewrite He1, He2. }
    assert (hybrid_contents s !! h = None -> abs_step (hybrid_contents s) (HDelete h now) (delete h (hybrid_contents s)) RErr)
      as Hgone by (intros Hn; rewrite delete_id by done; by apply abs_delete_none).
    destruct e1, e2; cbn [response_of]; [apply Hgone, eq_None_not_Some; naive_solver|apply abs_delete, Hs; auto..].
  - destruct (chk_Delete (h_hot s) h now Hv) as [e1 ->]. destruct (chk_Delete (h_cold s) h now Hv) as [e2 ->].
    replace (mkHybridStore (h_cfg s) (h_hot s) (h_cold s)) with s by (by destruct s).
    split; [done|]. by apply abs_delete_none, contents_invalid.
Qed.

Lemma Update_refines s h m :
  agree s -> let '(s', e) := Hybrid_UpdateMetadata s h m in same_view s s' /\ e = None.
Proof.
  intros Hi. unfold Hybrid_UpdateMetadata. destruct (isValidHash h) eqn:Hv.
  - destruct (Update_if_exists _ h m (ag_hot _ Hi) Hv) as (He1 & Hi1 & Hc1 & _).
    destruct (Update_if_exists _ h m (ag_cold _ Hi) Hv) as (He2 & Hi2 & Hc2 & _).
    destruct (if exists_in (h_hot s) h then _ else _) as [hot e1], (if exists_in (h_cold s) h then _ else _) as [cold e2].
    cbn [fst snd] in *. subst. split; [|done]. destruct Hi as [Hh Hc Ha].
    split; [|unfold hybrid_contents; cbn; by rewrite Hc1, Hc2]. split; cbn; [done|done|]. by rewrite Hc1, Hc2.
  - rewrite !exists_in_invalid by done. by destruct s.
Qed.

Lemma Touch_view s h now : agree s -> same_view s (Hybrid_Touch s h now).1.
Proof.
  intros Hi. unfold Hybrid_Touch. destruct (exists_in (h_hot s) h); [|destruct (exists_in (h_cold s) h); [|done]].
  - pose proof (law_Touch _ h now (ag_hot _ Hi)) as (? & ? & _). destruct (Store_Touch (h_hot s) h now). by apply view_hot.
  - pose proof (law_Touch _ h now (ag_cold _ Hi)) as (? & ? & _). destruct (Store_Touch (h_cold s) h now). by apply view_cold.
Qed.

Lemma hybrid_step_refines s op :
  agree s -> all_readings_ok op -> one_content (hybrid_contents s) op ->
  agree (hybrid_step s op).1 /\
  abs_step (hybrid_contents s) op (hybrid_contents (hybrid_step s op).1) (hybrid_step s op).2.
Proof.
  intros Hi Hrd Hone. destruct op as [h d m rd|h|h now|h m|h now|h rd|h rd|now rd]; cbn [all_readings_ok one_content] in *.
  - pose proof (Put_refines s h d m rd Hi Hrd Hone) as Hp. simpl. by destruct (Hybrid_Put s h d m rd).
  - simpl. split; [done|]. by apply Get_refines.
  - pose proof (Delete_refines s h now Hi) as Hd. simpl. by destruct (Hybrid_Delete s h now).
  - pose proof (Update_refines s h m Hi) as Hu. simpl. destruct (Hybrid_UpdateMetadata s h m) as [s' e].
    destruct Hu as [[Ha Hc] ->]. simpl. rewrite Hc. split; [done|constructor].
  - destruct (Touch_view s h now Hi) as [Ha Hc]. simpl. destruct (Hybrid_Touch s h now) as [s' e]. simpl in *.
    rewrite Hc. split; [done|constructor].
  - destruct (CoolDown_view s h rd Hi Hrd) as [Ha Hc]. simpl. destruct (CoolDown s h rd) as [s' e]. simpl in *.
    rewrite Hc. split; [done|constructor].
  - destruct (WarmUp_view s h rd Hi Hrd) as [Ha Hc]. simpl. destruct (WarmUp s h rd) as [s' e]. simpl in *.
    rewrite Hc. split; [done|constructor].
  - destruct (ApplyTieringPolicy_view s now rd Hi Hrd) as [Ha Hc]. simpl.
    destruct (ApplyTieringPolicy s now rd) as [s' e]. simpl in *. rewrite Hc. split; [done|constructor].
Qed.

Fixpoint hybrid_run s (ops : list hybrid_op) : HybridStore A B * list response :=
  match ops with
  | [] => (s, [])
  | op :: ops' =>
      let '(s, r) := hybrid_step s op in
      let '(s, rs) := hybrid_run s ops' in (s, r :: rs)
  end.

Inductive abs_run : AbstractStore -> list hybrid_op -> AbstractStore -> list response -> Prop :=
| abs_run_nil a : abs_run a [] a []
| abs_run_cons a op a' r ops a'' rs :
    abs_step a op a' r -> abs_run a' ops a'' rs -> abs_run a (op :: ops) a'' (r :: rs).

(** Every [Put] of a run that comes upon its hash brings the content that is there. *)
Fixpoint content_addressed s (ops : list hybrid_op) : Prop :=
  match ops with
  | [] => True
  | op :: ops' => one_content (hybrid_contents s) op /\ content_addressed (hybrid_step s op).1 ops'
  end.

(** C3: the hybrid store over any two stores that keep the promises of the interface, as
    the local and the S3 store do, refines one map from hashes to contents: for every run
    of reads, writes, deletions, metadata updates, touches, cool-downs, warm-ups and
    tiering policies, with any names and in any order, its responses are those of the map,
    in which the tier of a blob is not visible: a blob that is there is read, a deletion
    succeeds exactly where a blob is, a write that succeeds puts the blob and one that is
    refused changes nothing.  It is assumed that what is put under a hash that is in
    either tier is the content that is there, that nonces have the 12 bytes the code
    draws, and that the tiers agree on the contents of blobs both have at the start. *)
Theorem hybrid_refines_map s ops
    (Hi : agree s) (Hrd : Forall all_readings_ok ops) (Hone : content_addressed s ops) :
  abs_run (hybrid_contents s) ops (hybrid_contents (hybrid_run s ops).1) (hybrid_run s ops).2.
Proof.
  revert s Hi Hone. induction Hrd as [|op ops Ho _ IH]; intros s Hi Hone; [constructor|].
  destruct Hone as [He Hone]. destruct (hybrid_step_refines s op Hi Ho He) as [Hi' Hs]. simpl.
  destruct (hybrid_step s op) as [s' r]. simpl in *. specialize (IH s' Hi' Hone).
  destruct (hybrid_run s' ops) as [s'' rs]. by econstructor.
Qed.
End checked.
End laws.

(** ** The LRU policy and its statistics *)

Section lru.
Context {B : Type} `{BlobStore B} `{Codecs}.

Lemma CoolDown_hot_stats (s : HybridStore LocalStore B) h rd :
  Store_Stats (h_hot (CoolDown s h rd).1) = Store_Stats (h_hot s).
Proof.
  unfold CoolDown. destruct (negb _); [done|].
  destruct (if exists_in (h_cold s) h then _ else _) as [cold [e|]]; [done|].
  pose proof (Delete_keeps_stats (h_hot s) h (mr_delete rd)) as Hd.
  by destruct (Store_Delete (h_hot s) h (mr_delete rd)).
Qed.

Lemma cool_until_hot_stats (s : HybridStore LocalStore B) blobs bytes freed rd :
  Store_Stats (h_hot (cool_until s blobs bytes freed rd)) = Store_Stats (h_hot s).
Proof.
  revert s freed. induction blobs as [|b blobs IH]; intros s freed; [done|]. cbn [cool_until].
  destruct (bytes <=? freed); [done|].
  pose proof (CoolDown_hot_stats s (Info_Hash b) (rd (Info_Hash b))) as Hc.
  destruct (CoolDown _ _ _) as [s' [e|]]; cbn [fst] in Hc; rewrite IH; exact Hc.
Qed.

(** The policy does not see its own effect: blobs it moved away are still counted,
    so a store that was over its limit once stays over it, and every further run
    moves more blobs. *)
Theorem lru_never_satisfied (s : HybridStore LocalStore B) rd :
  Store_Stats (h_hot (applyLRUPolicy s rd)) = Store_Stats (h_hot s).
Proof. unfold applyLRUPolicy. destruct (_ <? _); [done|]. apply cool_until_hot_stats. Qed.
End lru.

(** ** Witnesses *)

Section witnesses.
#[local] Existing Instance toy_codecs.

Definition toy_moves (now : Time) : MoveReadings := mkMoveReadings (toy_readings_at now) now.
Definition toy_hybrid : HybridStore LocalStore S3Store :=
  mkHybridStore (mkTieringConfig true "lru" 1 0) plain_local
    (mkS3Store (mkS3Config true plain_codec) (replicate 32 1) empty_tier).

Lemma toy_hybrid_inv : hybrid_inv toy_hybrid.
Proof.
  split; [apply empty_tier_inv|apply empty_tier_inv|..]; intros h x y; simpl;
    unfold tier_contents, tier_refs; simpl; by rewrite ?lookup_omap, ?lookup_fmap, lookup_empty.
Qed.

(** The blob is put again after it was cooled down. *)
Definition toy_ops : list hybrid_op :=
  [HPut hash_a [1; 2; 3] empty_metadata (toy_readings_at 1); HCoolDown hash_a (toy_moves 2); HGet hash_a;
   HPut hash_a [1; 2; 3] empty_metadata (toy_readings_at 3); HGet "no hash"; HCoolDown hash_a (toy_moves 4);
   HWarmUp hash_a (toy_readings_at 5); HPut hash_a [1; 2; 3] empty_metadata (toy_readings_at 6); HGet hash_a;
   HDelete hash_a 7; HGet hash_a].

Lemma hybrid_refines_map_witness :
  abs_run (hybrid_contents toy_hybrid) toy_ops (hybrid_contents (hybrid_run toy_hybrid toy_ops).1)
    [ROk; ROk; RData [1; 2; 3]; ROk; RErr; ROk; ROk; RErr; RData [1; 2; 3]; ROk; RErr].
Proof.
  assert ((hybrid_run toy_hybrid toy_ops).2 =
          [ROk; ROk; RData [1; 2; 3]; ROk; RErr; ROk; ROk; RErr; RData [1; 2; 3]; ROk; RErr]) as Hr
    by (vm_compute; reflexivity).
  rewrite <- Hr. apply (hybrid_refines_map toy_hybrid toy_ops).
  - apply hybrid_inv_agree, toy_hybrid_inv.
  - repeat constructor; vm_compute; done.
  - repeat split; vm_compute; congruence.
Defined.

(** What a second [Put] records of a blob that had been cooled down is lost when it is
    cooled down again: the copy in the cold tier is kept, with its old references. *)
Example references_of_second_put_lost :
  let references s := match Store_GetMetadata s hash_a with Ok m => Meta_References m | Err _ => [] end in
  let s := (hybrid_run toy_hybrid (take 2 toy_ops)).1 in
  let m := mkMetadata "" 0 0 0 0 [mkReference "d1" "v1" 0] "" "" [] "" in
  let s1 := (Store_Put s hash_a [1; 2; 3] m (toy_readings_at 3)).1 in
  let s2 := (CoolDown s1 hash_a (toy_moves 4)).1 in
  references s1 = [mkReference "d1" "v1" 0] /\ references s2 = [].
Proof. by vm_compute. Qed.

(** The first run moves enough; the second one empties the hot tier. *)
Lemma lru_empties_hot_tier :
  let hot := (Store_Put (Store_Put plain_local hash_a [1; 2; 3] empty_metadata (toy_readings_at 1)).1
                hash_b [4] empty_metadata (toy_readings_at 2)).1 in
  let t := ls_tier hot in
  let hot := set_tier hot (mkTier (t_blobs t) (t_meta t) (t_trash t) (t_trash_meta t) (mkBlobStats 2 (GB + 2) 0 0)) in
  let s := set_hot toy_hybrid hot in
  let s1 := applyLRUPolicy s (fun _ => toy_moves 3) in
  let s2 := applyLRUPolicy s1 (fun _ => toy_moves 4) in
  map Info_Hash (Store_List (h_hot s1) "") = [hash_b] /\ map Info_Hash (Store_List (h_hot s2) "") = [].
Proof. vm_compute. done. Qed.
End witnesses.
