(* ===== verification/BlobIngest.v ===== *)
(** * Chunks and garbage collection ([internal/storage/blob/ingestion.go], [gc.go],
    the chunk rows of [internal/storage/sqlite/datasets.go])

    Ingestion stores the content of a chunk as a blob, records the chunk as a
    reference of the blob and in the database; the collector deletes blobs nobody
    needs.  Both work on any store of [Blob].  Logging, the audit of single
    operations and the scheduler of the collector are left out. *)
From stdpp Require Import base gmap strings list sorting.
From Stdlib Require Import ZArith Lia Ascii.
From S2P Require Import Prelude GoStrings Domain Blob BlobTiers.
Local Open Scope Z_scope.

(** ** Rows *)

(** The tables [datasets], [dataset_versions] (a version and its dataset) and
    [chunks]. *)
Record ChunkDB := mkChunkDB {
  db_datasets : list DatasetID;
  db_versions : list (DatasetVersionID * DatasetID);
  db_chunks : list Chunk
}.

(** The primary key, the unique pair, the CHECKs and the foreign keys. *)
Definition chunk_row_ok (db : ChunkDB) (c : Chunk) : bool :=
  negb (mem (Chunk_ID c) (map Chunk_ID (db_chunks db))) &&
  negb (mem (Chunk_VersionID c, Chunk_Index c) (map (fun r => (Chunk_VersionID r, Chunk_Index r)) (db_chunks db))) &&
  (0 <=? Chunk_Index c) && (0 <=? Chunk_Size c) && ChunkStatus_IsValid (Chunk_Status c) &&
  mem (Chunk_DatasetID c) (db_datasets db) && mem (Chunk_VersionID c) (map fst (db_versions db)).

Definition CreateChunk (db : ChunkDB) (c : Chunk) : ChunkDB * option BlobError :=
  match Chunk_Validate c with
  | Some _ => (db, Some ErrChunkRow)
  | None => if chunk_row_ok db c
            then (mkChunkDB (db_datasets db) (db_versions db) (db_chunks db ++ [c]), None)
            else (db, Some ErrChunkRow)
  end.

Definition GetChunk (db : ChunkDB) (version : DatasetVersionID) (index : Z) : option Chunk :=
  List.find (fun c => (Chunk_VersionID c =?= version) && (Chunk_Index c =?= index)) (db_chunks db).

Definition index_le (a b : Chunk) : Prop := Chunk_Index a <= Chunk_Index b.
#[local] Instance index_le_dec a b : Decision (index_le a b).
Proof. unfold index_le. apply _. Defined.
Definition ListChunks (db : ChunkDB) (version : DatasetVersionID) : list Chunk :=
  merge_sort index_le (List.filter (fun c => Chunk_VersionID c =?= version) (db_chunks db)).
Definition ListVersions (db : ChunkDB) (dataset : DatasetID) : list DatasetVersionID :=
  omap (fun v : DatasetVersionID * DatasetID => if v.2 =?= dataset then Some v.1 else None) (db_versions db).

#[export] Instance Chunk_eq_dec : EqDecision Chunk.
Proof. solve_decision. Defined.

Definition set_chunk_status (c : Chunk) (st : ChunkStatus) : Chunk :=
  mkChunk (Chunk_ID c) (Chunk_DatasetID c) (Chunk_VersionID c) (Chunk_Index c) (Chunk_Hash c) (Chunk_Size c) st
    (Chunk_StoragePath c) (Chunk_Data c).
Definition set_chunk_size (c : Chunk) (n : Z) : Chunk :=
  mkChunk (Chunk_ID c) (Chunk_DatasetID c) (Chunk_VersionID c) (Chunk_Index c) (Chunk_Hash c) n (Chunk_Status c)
    (Chunk_StoragePath c) (Chunk_Data c).

Definition UpdateChunkStatus (db : ChunkDB) (id : ChunkID) (st : ChunkStatus) : ChunkDB * option BlobError :=
  if mem id (map Chunk_ID (db_chunks db)) then
    (mkChunkDB (db_datasets db) (db_versions db)
       (map (fun c => if Chunk_ID c =?= id then set_chunk_status c st else c) (db_chunks db)), None)
  else (db, Some ErrChunkRow).

(** ** Ingestion *)

Definition ref_of (c : Chunk) : Reference := mkReference (Chunk_DatasetID c) (Chunk_VersionID c) (Chunk_Index c).

Definition with_references (m : Metadata) (l : list Reference) : Metadata :=
  mkMetadata (Meta_Hash m) (Meta_Size m) (Meta_CreatedAt m) (Meta_LastAccessed m) (Meta_AccessCount m) l
    (Meta_Compression m) (Meta_Encryption m) (Meta_Tags m) (Meta_OriginalHash m).

Definition new_metadata (c : Chunk) (size : Z) : Metadata :=
  mkMetadata (Chunk_Hash c) size 0 0 0 [ref_of c] "" "" [] "".

Section ingestion.
Context {S : Type} `{BlobStore S} `{Crypto}.

Definition content_hash (d : list Z) : string := EncodeToString (sha256_Sum256 d).

(** The reference of a chunk whose blob is there. *)
Definition add_reference (s : S) (c : Chunk) : S :=
  match Store_GetMetadata s (Chunk_Hash c) with
  | Err _ => s
  | Ok m =>
      if mem (ref_of c) (Meta_References m) then s
      else (Store_UpdateMetadata s (Chunk_Hash c) (with_references m (Meta_References m ++ [ref_of c]))).1
  end.

(** The blob of a chunk, stored or found. *)
Definition store_chunk (s : S) (c : Chunk) (data : list Z) (rd : PutReadings) : S * option BlobError :=
  match Store_Exists s (Chunk_Hash c) with
  | Err e => (s, Some e)
  | Ok false => Store_Put s (Chunk_Hash c) data (new_metadata c (Z.of_nat (length data))) rd
  | Ok true => (add_reference s c, None)
  end.

Definition IngestChunk (s : S) (db : ChunkDB) (c : Chunk) (data : list Z) (rd : PutReadings)
    : S * ChunkDB * option BlobError :=
  if content_hash data <>? Chunk_Hash c then (s, db, Some ErrChunkHash)
  else match store_chunk s c data rd with
       | (s, Some e) => (s, db, Some e)
       | (s, None) =>
           let c := set_chunk_status (set_chunk_size c (Z.of_nat (length data))) ChunkStatusVerified in
           let '(db, err) := CreateChunk db c in (s, db, err)
       end.

Definition RetrieveChunk (s : S) (c : Chunk) : result BlobError (list Z) := Store_Get s (Chunk_Hash c).

Definition DeleteChunk (s : S) (db : ChunkDB) (c : Chunk) (now : Time) : S * ChunkDB * option BlobError :=
  match Store_GetMetadata s (Chunk_Hash c) with
  | Err e => (s, db, Some e)
  | Ok m =>
      let remaining := List.filter (fun r => r <>? ref_of c) (Meta_References m) in
      match (match remaining with
             | [] => Store_Delete s (Chunk_Hash c) now
             | _ => Store_UpdateMetadata s (Chunk_Hash c) (with_references m remaining)
             end) with
      | (s, Some e) => (s, db, Some e)
      | (s, None) => let '(db, err) := UpdateChunkStatus db (Chunk_ID c) ChunkStatusFailed in (s, db, err)
      end
  end.

(** The chunks in order, each with its data; the first error ends it. *)
Fixpoint ingest_all (s : S) (db : ChunkDB) (chunks : list Chunk) (data : Z -> option (list Z)) (rd : Z -> PutReadings)
    : S * ChunkDB * option BlobError :=
  match chunks with
  | [] => (s, db, None)
  | c :: chunks' =>
      match data (Chunk_Index c) with
      | None => (s, db, Some ErrChunkRow)
      | Some d =>
          match IngestChunk s db c d (rd (Chunk_Index c)) with
          | (s, db, None) => ingest_all s db chunks' data rd
          | (s, db, Some e) => (s, db, Some e)
          end
      end
  end.
Definition IngestDataset (s : S) (db : ChunkDB) (chunks : list Chunk) (data : gmap Z (list Z)) (rd : Z -> PutReadings)
    : S * ChunkDB * option BlobError :=
  if negb (length chunks =? size data)%nat then (s, db, Some ErrChunkRow)
  else ingest_all s db chunks (fun i => data !! i) rd.

(** Missing and invalid blobs of a version. *)
Definition chunk_intact (s : S) (c : Chunk) : bool :=
  match Store_Get s (Chunk_Hash c) with Ok d => content_hash d =?= Chunk_Hash c | Err _ => false end.
Definition VerifyDatasetIntegrity (s : S) (db : ChunkDB) (version : DatasetVersionID) : result BlobError unit :=
  let chunks := ListChunks db version in
  if existsb (fun c => match Store_Exists s (Chunk_Hash c) with Err _ => true | Ok _ => false end) chunks
  then Err ErrInvalidHashFormat
  else if forallb (fun c => exists_in s (Chunk_Hash c) && chunk_intact s c) chunks
  then Ok tt else Err ErrChunkHash.
End ingestion.

(** ** Garbage collection *)

Record GCConfig := mkGCConfig {
  GC_Method : string;
  GC_MinAgeDays : Z;
  GC_TrashRetentionDays : Z
}.

Record GCStats := mkGCStats {
  BlobsScanned : Z;
  BlobsMarked : Z;
  BlobsCollected : Z;
  BytesFreed : Z
}.

Definition days_ago (now : Time) (days : Z) : Time := Add now (- (days * 24 * Hour)).

Definition markReferencedBlobs (db : ChunkDB) : gset string :=
  list_to_set (map Chunk_Hash
    (flat_map (fun d => flat_map (ListChunks db) (ListVersions db d)) (db_datasets db))).

Section gc.
Context {S : Type} `{BlobStore S}.

(** The loop over the listed blobs: [keep] decides, per blob, whether it is left
    alone; a failed deletion is skipped. *)
Fixpoint sweep (keep : S -> BlobInfo -> bool) (s : S) (blobs : list BlobInfo) (now : Time) (n bytes : Z)
    : S * Z * Z :=
  match blobs with
  | [] => (s, n, bytes)
  | b :: blobs' =>
      if keep s b then sweep keep s blobs' now n bytes
      else match Store_Delete s (Info_Hash b) now with
           | (s, Some _) => sweep keep s blobs' now n bytes
           | (s, None) => sweep keep s blobs' now (n + 1) (bytes + Info_Size b)
           end
  end.

Definition marked (referenced : gset string) (minAge : Time) (s : S) (b : BlobInfo) : bool :=
  bool_decide (Info_Hash b ∈ referenced) || After (Info_CreatedAt b) minAge.

Definition runMarkAndSweep (cfg : GCConfig) (s : S) (db : ChunkDB) (now : Time) : S * GCStats :=
  let referenced := markReferencedBlobs db in
  let blobs := Store_List s "" in
  let '(s, n, bytes) := sweep (marked referenced (days_ago now (GC_MinAgeDays cfg))) s blobs now 0 0 in
  (s, mkGCStats (Z.of_nat (length blobs)) (Z.of_nat (size referenced)) n bytes).

Definition has_references (minAge : Time) (s : S) (b : BlobInfo) : bool :=
  match Store_GetMetadata s (Info_Hash b) with
  | Err _ => true
  | Ok m => (0 <? Z.of_nat (length (Meta_References m))) || After (Meta_CreatedAt m) minAge
  end.

Definition count_marked (s : S) (blobs : list BlobInfo) : Z :=
  Z.of_nat (length (List.filter (fun b =>
    match Store_GetMetadata s (Info_Hash b) with
    | Err _ => false
    | Ok m => 0 <? Z.of_nat (length (Meta_References m))
    end) blobs)).

Definition runReferenceCounting (cfg : GCConfig) (s : S) (now : Time) : S * GCStats :=
  let blobs := Store_List s "" in
  let '(s', n, bytes) := sweep (has_references (days_ago now (GC_MinAgeDays cfg))) s blobs now 0 0 in
  (s', mkGCStats (Z.of_nat (length blobs)) (count_marked s blobs) n bytes).

(** [cleanup] is [cleanupTrash]. *)
Definition GC_Run (cleanup : S -> S) (cfg : GCConfig) (s : S) (db : ChunkDB) (now : Time)
    : S * result BlobError GCStats :=
  if GC_Method cfg =?= "mark-and-sweep"%string then
    let '(s, st) := runMarkAndSweep cfg s db now in (cleanup s, Ok st)
  else if GC_Method cfg =?= "reference-counting"%string then
    let '(s, st) := runReferenceCounting cfg s now in (cleanup s, Ok st)
  else (s, Err ErrPolicy).
End gc.

(** Blobs of the trash that were last written before the cutoff; the metadata
    files beside them, which nothing reads, are not looked at. *)
Definition cleanupLocalTrash (cfg : GCConfig) (s : LocalStore) (now : Time) : LocalStore :=
  let t := ls_tier s in
  set_tier s (mkTier (t_blobs t) (t_meta t)
    (filter (fun p : string * (list Z * Time) =>
       Before p.2.2 (days_ago now (GC_TrashRetentionDays cfg)) = false) (t_trash t))
    (t_trash_meta t) (t_stats t)).

Definition EmptyTrash (s : LocalStore) : LocalStore :=
  let t := ls_tier s in set_tier s (mkTier (t_blobs t) (t_meta t) ∅ ∅ (t_stats t)).

(** Percent of the configured size, at most 100. *)
Definition getLocalStoragePressure (s : LocalStore) : Z :=
  if Local_MaxSizeGB (ls_cfg s) =? 0 then 0
  else Z.min 100 (Z.quot (i64 (Stats_TotalSize (t_stats (ls_tier s)) * 100)) (i64 (Local_MaxSizeGB (ls_cfg s) * GB))).

(** * Theorems *)

(** ** Rows *)

Definition row_key (c : Chunk) : DatasetVersionID * Z := (Chunk_VersionID c, Chunk_Index c).

Record db_inv (db : ChunkDB) : Prop := {
  di_ids : NoDup (map Chunk_ID (db_chunks db));
  di_keys : NoDup (map row_key (db_chunks db));
  di_version c : c ∈ db_chunks db -> Chunk_VersionID c ∈ map fst (db_versions db);
  di_dataset v : v ∈ db_versions db -> v.2 ∈ db_datasets db
}.

Lemma CreateChunk_inv db c : db_inv db -> db_inv (CreateChunk db c).1.
Proof.
  intros [Hi Hk Hv Hd]. unfold CreateChunk. destruct (Chunk_Validate c); [done|].
  destruct (chunk_row_ok db c) eqn:Hok; [|done]. unfold chunk_row_ok in Hok. repeat setoid_rewrite andb_true_iff in Hok.
  destruct Hok as [[[[[[Hid Hkey] _] _] _] _] Hver]. apply negb_true_iff, mem_false in Hid, Hkey. apply mem_true in Hver.
  split; simpl; [..|done].
  - rewrite map_app. apply NoDup_app. split_and!; [done| |apply NoDup_singleton]. simpl.
    intros x Hx ->%list_elem_of_singleton. done.
  - rewrite map_app. apply NoDup_app. split_and!; [done| |apply NoDup_singleton]. simpl.
    intros x Hx ->%list_elem_of_singleton. done.
  - intros x [Hx|Hx]%elem_of_app; [by apply Hv|]. apply list_elem_of_singleton in Hx as ->. done.
Qed.

Lemma UpdateChunkStatus_inv db id st : db_inv db -> db_inv (UpdateChunkStatus db id st).1.
Proof.
  intros [Hi Hk Hv Hd]. unfold UpdateChunkStatus. destruct (mem _ _); [|done]. split; simpl; [..|done].
  - rewrite map_map, (map_ext _ Chunk_ID); [done|]. intros c. by case_bool_decide.
  - rewrite map_map, (map_ext _ row_key); [done|]. intros c. by case_bool_decide.
  - intros x Hx. apply list_elem_of_In, in_map_iff in Hx as (c & <- & Hc%list_elem_of_In).
    apply Hv in Hc. by case_bool_decide.
Qed.

(** Every row's hash is marked. *)
Lemma mark_complete db c : db_inv db -> c ∈ db_chunks db -> Chunk_Hash c ∈ markReferencedBlobs db.
Proof.
  intros [_ _ Hv Hd] Hc. unfold markReferencedBlobs. apply elem_of_list_to_set, list_elem_of_In, in_map.
  apply in_flat_map. pose proof (Hv _ Hc) as Hver.
  apply list_elem_of_In, in_map_iff in Hver as ([v d] & Hve & Hin%list_elem_of_In).
  exists d. split; [apply list_elem_of_In; by apply (Hd _ Hin)|].
  apply in_flat_map. exists v. split.
  - apply list_elem_of_In. unfold ListVersions. apply list_elem_of_omap. exists (v, d). simpl.
    by rewrite bool_decide_true.
  - apply list_elem_of_In. unfold ListChunks. rewrite merge_sort_Permutation. apply list_elem_of_In, filter_In.
    split; [by apply list_elem_of_In|]. by apply bool_decide_eq_true.
Qed.

(** ** Hashes are valid names *)

Lemma hex_digit_is_hex n : 0 <= n < 16 -> is_hex (hex_digit n) = true.
Proof. intros Hn. apply (forall_below 16 (fun n => is_hex (hex_digit n))); [by vm_compute|done]. Qed.

Lemma content_hash_valid `{Crypto} d : isValidHash (content_hash d) = true.
Proof.
  unfold isValidHash, content_hash. rewrite EncodeToString_length, sha256_length. simpl.
  rewrite EncodeToString_bytes. pose proof (sha256_is_bytes d) as Hb.
  induction Hb as [|b bs Hb _ IH]; [done|]. simpl. unfold is_u8 in Hb.
  rewrite !hex_digit_is_hex, IH by (Z.div_mod_to_equations; lia). done.
Qed.

(** ** The invariant of ingestion *)

Section ingestion_theorems.
Context {S : Type} `{BlobStoreLaws S} `{Crypto}.

(** Blobs are stored under the hash of their content, and the blob of a verified
    chunk is there and knows the chunk. *)
Record ingest_inv (s : S) (db : ChunkDB) : Prop := {
  gi_store : store_inv s;
  gi_db : db_inv db;
  gi_addressed h d : contents s !! h = Some d -> content_hash d = h;
  gi_verified c : c ∈ db_chunks db -> Chunk_Status c = ChunkStatusVerified ->
    exists l, refs s !! Chunk_Hash c = Some l /\ ref_of c ∈ l
}.

Lemma verified_content s db c :
  ingest_inv s db -> c ∈ db_chunks db -> Chunk_Status c = ChunkStatusVerified ->
  exists d, contents s !! Chunk_Hash c = Some d /\ content_hash d = Chunk_Hash c.
Proof.
  intros Hi Hc Hst. destruct (gi_verified _ _ Hi c Hc Hst) as (l & Hl & _).
  destruct (proj1 (law_refs s _ (gi_store _ _ Hi)) (ex_intro _ l Hl)) as [d Hd]. exists d. split; [done|].
  by eapply gi_addressed.
Qed.

(** What storing a chunk's data does to contents and references. *)
Lemma store_chunk_spec s db c data rd :
  ingest_inv s db -> readings_ok rd -> content_hash data = Chunk_Hash c ->
  let s' := (store_chunk s c data rd).1 in
  ingest_inv s' db /\
  ((store_chunk s c data rd).2 = None -> exists l, refs s' !! Chunk_Hash c = Some l /\ ref_of c ∈ l).
Proof.
  intros [Hst Hdb Had Hve] Hrd Hh. pose proof (content_hash_valid data) as Hv. rewrite Hh in Hv.
  unfold store_chunk. rewrite (law_Exists s _ Hst Hv). case_bool_decide as Hex.
  - unfold add_reference. pose proof (law_GetMetadata s _ Hst Hv) as Hm.
    destruct (Store_GetMetadata s (Chunk_Hash c)) as [m|e].
    2: { exfalso. apply (law_refs s _ Hst) in Hex as [l Hl]. congruence. }
    destruct (mem (ref_of c) (Meta_References m)) eqn:Hmem.
    + apply mem_true in Hmem. split; [by split|]. intros _. eauto.
    + pose proof (law_UpdateMetadata s (Chunk_Hash c) (with_references m (Meta_References m ++ [ref_of c])) Hst Hex) as Hu.
      destruct (Store_UpdateMetadata _ _ _) as [s' [e|]]; [done|]. destruct Hu as (Hst' & Hc & Hr). simpl in *.
      split; [split; try done; rewrite ?Hc; try done|].
      * intros c' Hc' Hs'. rewrite Hr, lookup_insert. destruct (Hve c' Hc' Hs') as (l & Hl & Hin).
        case_decide as Heq; [|by exists l]. eexists. split; [done|]. rewrite <- Heq, Hm in Hl. simplify_eq. set_solver.
      * intros _. rewrite Hr, lookup_insert_eq. eexists. split; [done|]. set_solver.
  - assert (contents s !! Chunk_Hash c = None) as Hn by (by apply eq_None_not_Some).
    pose proof (law_Put s (Chunk_Hash c) data (new_metadata c (Z.of_nat (length data))) rd Hst Hrd Hn) as Hp.
    destruct (Store_Put _ _ _ _ _) as [s' [e|]]; destruct Hp as (Hst' & Hc & Hr); simpl.
    + split; [|done]. split; rewrite ?Hc, ?Hr; done.
    + split.
      * split; [done|done|..].
        -- intros h d. rewrite Hc, lookup_insert. case_decide; [|apply Had]. intros [= <-]. congruence.
        -- intros c' Hc' Hs'. destruct (Hve c' Hc' Hs') as (l & Hl & Hin). exists l. split; [|done].
           rewrite Hr, lookup_insert_ne; [done|]. intros Heq. rewrite <- Heq in Hl.
           by rewrite (None_refs s _ Hst Hn) in Hl.
      * intros _. rewrite Hr, lookup_insert_eq. eexists. split; [done|]. simpl. set_solver.
Qed.

Lemma CreateChunk_chunks db c x :
  x ∈ db_chunks (CreateChunk db c).1 -> x ∈ db_chunks db \/ (x = c /\ (CreateChunk db c).2 = None).
Proof.
  unfold CreateChunk. destruct (Chunk_Validate c); [by left|]. destruct (chunk_row_ok db c); [|by left]. simpl.
  set_solver.
Qed.

Lemma IngestChunk_inv s db c data rd :
  ingest_inv s db -> readings_ok rd -> let '(s', db', _) := IngestChunk s db c data rd in ingest_inv s' db'.
Proof.
  intros Hi Hrd. unfold IngestChunk. case_bool_decide as Hh; [|done]. simpl.
  destruct (store_chunk_spec s db c data rd Hi Hrd Hh) as [Hi' Href].
  destruct (store_chunk s c data rd) as [s' [e|]]; [done|]. simpl in *. specialize (Href eq_refl).
  set (c' := set_chunk_status _ _).
  pose proof (CreateChunk_inv db c' (gi_db _ _ Hi')) as Hdb. pose proof (CreateChunk_chunks db c') as Hch.
  destruct (CreateChunk db c') as [db' err]. simpl in *. destruct Hi' as [Hst _ Had Hve]. split; [done|done|done|].
  intros x Hx Hs'. destruct (Hch x Hx) as [Hin|[-> _]]; [by apply Hve|]. exact Href.
Qed.

Lemma ref_of_key c c' : ref_of c = ref_of c' -> row_key c = row_key c'.
Proof. intros [= _ Hv Hi]. unfold row_key. congruence. Qed.

(** The rows that are still verified after a chunk was marked as failed. *)
Lemma UpdateChunkStatus_verified db id x :
  x ∈ db_chunks (UpdateChunkStatus db id ChunkStatusFailed).1 -> Chunk_Status x = ChunkStatusVerified ->
  x ∈ db_chunks db /\ (id ∈ map Chunk_ID (db_chunks db) -> Chunk_ID x <> id).
Proof.
  unfold UpdateChunkStatus. destruct (mem id (map Chunk_ID (db_chunks db))) eqn:Hm; simpl.
  - intros Hx Hs. apply list_elem_of_In, in_map_iff in Hx as (y & <- & Hy%list_elem_of_In).
    case_bool_decide; [by simpl in Hs|done].
  - intros Hx _. split; [done|]. apply mem_false in Hm. by intros.
Qed.

Lemma DeleteChunk_inv s db c now :
  ingest_inv s db -> c ∈ db_chunks db -> isValidHash (Chunk_Hash c) = true ->
  let '(s', db', _) := DeleteChunk s db c now in ingest_inv s' db'.
Proof.
  intros Hi Hc Hv. pose proof Hi as [Hst Hdb Had Hve]. unfold DeleteChunk.
  pose proof (law_GetMetadata s _ Hst Hv) as Hm. destruct (Store_GetMetadata s (Chunk_Hash c)) as [m|e]; [|done].
  set (remaining := List.filter _ _).
  assert (forall x, x ∈ db_chunks db -> Chunk_Status x = ChunkStatusVerified -> Chunk_ID x <> Chunk_ID c ->
    exists l, refs s !! Chunk_Hash x = Some l /\ ref_of x ∈ l /\ (Chunk_Hash x = Chunk_Hash c -> ref_of x ∈ remaining)) as Hkeep.
  { intros x Hx Hs Hne. destruct (Hve x Hx Hs) as (l & Hl & Hin). exists l. split_and!; [done|done|]. intros Heq.
    rewrite Heq, Hm in Hl. simplify_eq. apply list_elem_of_In, filter_In. split; [by apply list_elem_of_In|].
    apply negb_true_iff, bool_decide_eq_false. intros Hr. apply Hne. apply ref_of_key in Hr.
    by rewrite (same_key row_key _ _ _ (di_keys _ Hdb) Hx Hc Hr). }
  assert (Chunk_ID c ∈ map Chunk_ID (db_chunks db)) as Hcid by (by apply list_elem_of_In, in_map, list_elem_of_In).
  pose proof (UpdateChunkStatus_inv db (Chunk_ID c) ChunkStatusFailed Hdb) as Hdb'.
  pose proof (UpdateChunkStatus_verified db (Chunk_ID c)) as Hver.
  destruct (UpdateChunkStatus db (Chunk_ID c) ChunkStatusFailed) as [db' err]. simpl in *.
  destruct remaining as [|r0 rest] eqn:Hrem.
  - pose proof (law_Delete s _ now Hst Hv) as Hd.
    destruct (Store_Delete s (Chunk_Hash c) now) as [s' [e|]]; destruct Hd as (_ & Hst' & Hcon & Href).
    + split; rewrite ?Hcon, ?Href; done.
    + split; [done|done|..].
      * intros h d. rewrite Hcon, lookup_delete_Some. intros [_ Hd]. by apply Had.
      * intros x Hx Hs. destruct (Hver x Hx Hs) as [Hx' Hne]. destruct (Hkeep x Hx' Hs (Hne Hcid)) as (l & Hl & Hin & Hn).
        exists l. rewrite Href, lookup_delete_ne; [done|]. intros Heq. symmetry in Heq. by apply Hn, elem_of_nil in Heq.
  - assert (is_Some (contents s !! Chunk_Hash c)) as Hex by (apply (law_refs s _ Hst); by eexists).
    pose proof (law_UpdateMetadata s (Chunk_Hash c) (with_references m (r0 :: rest)) Hst Hex) as Hu.
    destruct (Store_UpdateMetadata _ _ _) as [s' [e|]]; [done|]. destruct Hu as (Hst' & Hcon & Href).
    split; [done|done|rewrite Hcon; exact Had|].
    intros x Hx Hs. destruct (Hver x Hx Hs) as [Hx' Hne]. destruct (Hkeep x Hx' Hs (Hne Hcid)) as (l & Hl & Hin & Hn).
    rewrite Href, lookup_insert. case_decide; [|by exists l]. eexists. split; [done|]. simpl. by apply Hn.
Qed.

(** ** Collection *)

(** No verified chunk needs this blob. *)
Definition unneeded (db : ChunkDB) (h : string) : Prop :=
  forall c, c ∈ db_chunks db -> Chunk_Status c = ChunkStatusVerified -> Chunk_Hash c <> h.

Lemma Delete_unneeded s db h now :
  ingest_inv s db -> isValidHash h = true -> unneeded db h -> ingest_inv (Store_Delete s h now).1 db.
Proof.
  intros [Hst Hdb Had Hve] Hv Hun. pose proof (law_Delete s h now Hst Hv) as Hd.
  destruct (Store_Delete s h now) as [s' [e|]]; destruct Hd as (_ & Hst' & Hcon & Href); cbn [fst].
  - split; rewrite ?Hcon, ?Href; done.
  - split; [done|done|..].
    + intros h' d. rewrite Hcon, lookup_delete_Some. intros [_ Hd]. by apply Had.
    + intros x Hx Hs. destruct (Hve x Hx Hs) as (l & Hl & Hin). exists l. split; [|done].
      rewrite Href, lookup_delete_ne; [done|]. intros Heq. by apply (Hun x Hx Hs).
Qed.

Lemma sweep_inv (keep : S -> BlobInfo -> bool) db blobs now :
  (forall s b, ingest_inv s db -> isValidHash (Info_Hash b) = true -> keep s b = false -> unneeded db (Info_Hash b)) ->
  Forall (fun b => isValidHash (Info_Hash b) = true) blobs ->
  forall s n bytes, ingest_inv s db -> ingest_inv (sweep keep s blobs now n bytes).1.1 db.
Proof.
  intros Hkeep Hval. induction Hval as [|b blobs Hb _ IH]; intros s n bytes Hi; [done|]. simpl.
  destruct (keep s b) eqn:Hk; [by apply IH|].
  pose proof (Delete_unneeded s db (Info_Hash b) now Hi Hb (Hkeep s b Hi Hb Hk)) as Hi'.
  destruct (Store_Delete s (Info_Hash b) now) as [s' [e|]]; by apply IH.
Qed.

Lemma swept_valid s : store_inv s -> Forall (fun b => isValidHash (Info_Hash b) = true) (Store_List s "").
Proof.
  intros Hi. apply Forall_forall. intros b Hb. apply (law_valid s _ Hi), (law_List s _ Hi).
  by apply list_elem_of_In, in_map, list_elem_of_In.
Qed.

Lemma marked_unneeded db minAge s b :
  ingest_inv s db -> marked (markReferencedBlobs db) minAge s b = false -> unneeded db (Info_Hash b).
Proof.
  intros Hi Hm c Hc _ Heq. apply orb_false_iff in Hm as [Hm _]. apply bool_decide_eq_false in Hm.
  apply Hm. rewrite <- Heq. by apply mark_complete; [apply (gi_db _ _ Hi)|].
Qed.

Lemma counted_unneeded db minAge s b :
  ingest_inv s db -> isValidHash (Info_Hash b) = true -> has_references minAge s b = false -> unneeded db (Info_Hash b).
Proof.
  intros Hi Hv Hr c Hc Hs Heq. unfold has_references in Hr.
  pose proof (law_GetMetadata s _ (gi_store _ _ Hi) Hv) as Hm. destruct (Store_GetMetadata s (Info_Hash b)) as [m|]; [|done].
  apply orb_false_iff in Hr as [Hr _]. destruct (gi_verified _ _ Hi c Hc Hs) as (l & Hl & Hin).
  rewrite Heq, Hm in Hl. injection Hl as <-. destruct (Meta_References m); [by apply elem_of_nil in Hin|done].
Qed.

Lemma runMarkAndSweep_inv cfg s db now : ingest_inv s db -> ingest_inv (runMarkAndSweep cfg s db now).1 db.
Proof.
  intros Hi. unfold runMarkAndSweep.
  pose proof (sweep_inv (marked (markReferencedBlobs db) (days_ago now (GC_MinAgeDays cfg))) db (Store_List s "") now
    (fun s b Hi _ => marked_unneeded db _ s b Hi) (swept_valid s (gi_store _ _ Hi)) s 0 0 Hi) as Hs.
  by destruct (sweep _ _ _ _ _ _) as [[s' n] bytes].
Qed.

Lemma runReferenceCounting_inv cfg s db now : ingest_inv s db -> ingest_inv (runReferenceCounting cfg s now).1 db.
Proof.
  intros Hi. unfold runReferenceCounting.
  pose proof (sweep_inv (has_references (days_ago now (GC_MinAgeDays cfg))) db (Store_List s "") now
    (counted_unneeded db _) (swept_valid s (gi_store _ _ Hi)) s 0 0 Hi) as Hs.
  by destruct (sweep _ _ _ _ _ _) as [[s' n] bytes].
Qed.

Lemma GC_Run_inv cleanup cfg s db now :
  (forall s, store_inv s -> store_inv (cleanup s) /\ contents (cleanup s) = contents s /\ refs (cleanup s) = refs s) ->
  ingest_inv s db -> ingest_inv (GC_Run cleanup cfg s db now).1 db.
Proof.
  intros Hcl Hi.
  assert (forall s, ingest_inv s db -> ingest_inv (cleanup s) db) as Hc.
  { intros s0 [Hst Hdb Had Hve]. destruct (Hcl s0 Hst) as (Hst' & Hcon & Href). split; rewrite ?Hcon, ?Href; done. }
  unfold GC_Run. case_bool_decide; [|case_bool_decide; [|done]].
  - pose proof (runMarkAndSweep_inv cfg s db now Hi). destruct (runMarkAndSweep cfg s db now). by apply Hc.
  - pose proof (runReferenceCounting_inv cfg s db now Hi). destruct (runReferenceCounting cfg s now). by apply Hc.
Qed.

Lemma Touch_inv s db h now : ingest_inv s db -> ingest_inv (Store_Touch s h now).1 db.
Proof.
  intros [Hst Hdb Had Hve]. destruct (law_Touch s h now Hst) as (Hst' & Hcon & Href).
  split; rewrite ?Hcon, ?Href; done.
Qed.

(** ** Histories *)

(** One call after the other; chunks are deleted by their rows. *)
Inductive ingest_op :=
| OpIngest (c : Chunk) (data : list Z) (rd : PutReadings)
| OpDelete (version : DatasetVersionID) (index : Z) (now : Time)
| OpTouch (h : string) (now : Time)
| OpCollect (cfg : GCConfig) (now : Time).

Variable cleanup : S -> GCConfig -> Time -> S.
Hypothesis cleanup_ok : forall cfg now s,
  store_inv s -> store_inv (cleanup s cfg now) /\ contents (cleanup s cfg now) = contents s /\ refs (cleanup s cfg now) = refs s.

Definition ingest_step (st : S * ChunkDB) (op : ingest_op) : S * ChunkDB :=
  let '(s, db) := st in
  match op with
  | OpIngest c data rd => (IngestChunk s db c data rd).1
  | OpDelete v i now => match GetChunk db v i with Some c => (DeleteChunk s db c now).1 | None => (s, db) end
  | OpTouch h now => ((Store_Touch s h now).1, db)
  | OpCollect cfg now => ((GC_Run (fun s => cleanup s cfg now) cfg s db now).1, db)
  end.
Definition ingest_readings (op : ingest_op) : Prop :=
  match op with OpIngest _ _ rd => readings_ok rd | _ => True end.

(** Rows carry valid hashes: only checked data gets a row. *)
Definition rows_valid (db : ChunkDB) : Prop := Forall (fun c => isValidHash (Chunk_Hash c) = true) (db_chunks db).

Lemma IngestChunk_rows s db c data rd : rows_valid db -> rows_valid (IngestChunk s db c data rd).1.2.
Proof.
  intros Hr. unfold IngestChunk. case_bool_decide as Hh; [|done]. simpl.
  destruct (store_chunk s c data rd) as [s' [e|]]; [done|].
  set (c' := set_chunk_status _ _). pose proof (CreateChunk_chunks db c') as Hch.
  destruct (CreateChunk db c') as [db' err]. simpl in *. apply Forall_forall. intros x Hx.
  destruct (Hch x Hx) as [Hin|[-> _]]; [by eapply Forall_forall in Hr|]. simpl. rewrite <- Hh. apply content_hash_valid.
Qed.

Lemma UpdateChunkStatus_rows db id st : rows_valid db -> rows_valid (UpdateChunkStatus db id st).1.
Proof.
  intros Hr. unfold UpdateChunkStatus. destruct (mem _ _); [|done]. unfold rows_valid. simpl.
  apply Forall_fmap. eapply Forall_impl; [exact Hr|]. intros c Hc. simpl. by case_bool_decide.
Qed.

Lemma DeleteChunk_rows s db c now : rows_valid db -> rows_valid (DeleteChunk s db c now).1.2.
Proof.
  intros Hr. unfold DeleteChunk. destruct (Store_GetMetadata _ _); [|done].
  pose proof (UpdateChunkStatus_rows db (Chunk_ID c) ChunkStatusFailed Hr).
  destruct (UpdateChunkStatus db (Chunk_ID c) ChunkStatusFailed) as [db' err].
  by destruct (match List.filter _ _ with [] => _ | _ => _ end) as [s' [e|]].
Qed.

Lemma GetChunk_elem db v i c : GetChunk db v i = Some c -> c ∈ db_chunks db.
Proof. intros Hf. apply List.find_some in Hf as [Hin _]. by apply list_elem_of_In. Qed.

Lemma ingest_step_inv st op :
  ingest_inv st.1 st.2 -> rows_valid st.2 -> ingest_readings op ->
  ingest_inv (ingest_step st op).1 (ingest_step st op).2 /\ rows_valid (ingest_step st op).2.
Proof.
  destruct st as [s db]. intros Hi Hr Hrd. cbn [fst snd] in Hi, Hr. destruct op as [c data rd|v i now|h now|cfg now]; simpl.
  - pose proof (IngestChunk_inv s db c data rd Hi Hrd) as Hi'. pose proof (IngestChunk_rows s db c data rd Hr).
    by destruct (IngestChunk s db c data rd) as [[s' db'] err].
  - destruct (GetChunk db v i) as [c|] eqn:Hc; [|done]. apply GetChunk_elem in Hc.
    assert (isValidHash (Chunk_Hash c) = true) as Hv by (by eapply Forall_forall in Hr).
    pose proof (DeleteChunk_inv s db c now Hi Hc Hv). pose proof (DeleteChunk_rows s db c now Hr).
    by destruct (DeleteChunk s db c now) as [[s' db'] err].
  - split; [by apply Touch_inv|done].
  - split; [|done]. apply GC_Run_inv; [|done]. intros s0. apply cleanup_ok.
Qed.

Lemma ingest_history ops : forall st,
  ingest_inv st.1 st.2 -> rows_valid st.2 -> Forall ingest_readings ops ->
  ingest_inv (fold_left ingest_step ops st).1 (fold_left ingest_step ops st).2 /\
  rows_valid (fold_left ingest_step ops st).2.
Proof.
  induction ops as [|op ops IH]; intros st Hi Hr Hops; [done|]. apply Forall_cons in Hops as [Ho Hops]. simpl.
  destruct (ingest_step_inv st op Hi Hr Ho). by apply IH.
Qed.

End ingestion_theorems.

(** ** A local store *)

Lemma cleanupLocalTrash_ok `{Codecs} cfg now (s : LocalStore) :
  store_inv s -> store_inv (cleanupLocalTrash cfg s now) /\
  contents (cleanupLocalTrash cfg s now) = contents s /\ refs (cleanupLocalTrash cfg s now) = refs s.
Proof. intros Hi. split; [|done]. destruct Hi as [Hb Hr]. by split. Qed.

Section examples.
#[local] Existing Instance toy_crypto.
#[local] Existing Instance toy_codecs.

Definition small_db : ChunkDB := mkChunkDB ["d"%string] [("v"%string, "d"%string)] [].
Definition small_chunk (id : string) (index : Z) (data : list Z) : Chunk :=
  mkChunk id "d" "v" index (content_hash data) 0 ChunkStatusPending "" [].
Definition collect (method : string) : GCConfig := mkGCConfig method 0 30.
Definition local_cleanup (s : LocalStore) (cfg : GCConfig) (now : Time) : LocalStore := cleanupLocalTrash cfg s now.

(** Two chunks with the same content share a blob, one is deleted, the collector
    runs, and the other is still there. *)
Definition small_history : list ingest_op :=
  [OpIngest (small_chunk "c1" 0 [1; 2]) [1; 2] (toy_readings_at 1);
   OpIngest (small_chunk "c2" 1 [1; 2]) [1; 2] (toy_readings_at 2);
   OpDelete "v" 0 3; OpCollect (collect "reference-counting") 4; OpCollect (collect "mark-and-sweep") 5].
Definition small_state : LocalStore * ChunkDB :=
  fold_left (ingest_step local_cleanup) small_history (plain_local, small_db).

Lemma small_db_inv : db_inv small_db.
Proof.
  split; simpl; try apply NoDup_nil_2; [by intros c ?%elem_of_nil|]. intros v ->%list_elem_of_singleton. simpl. set_solver.
Qed.


(** The mark phase reads the database before the sweep: a chunk that is ingested
    in between, onto an old blob nobody referred to, is recorded as verified and
    loses its blob. *)
Definition orphaned : LocalStore := (Store_Put plain_local (content_hash [7]) [7] empty_metadata (toy_readings_at 1)).1.
Example collection_race :
  let referenced := markReferencedBlobs small_db in
  let '(s, db, err) := IngestChunk orphaned small_db (small_chunk "c1" 0 [7]) [7] (toy_readings_at 2) in
  let s' := (sweep (marked referenced 9) s (Store_List s "") 9 0 0).1.1 in
  err = None /\ RetrieveChunk s (small_chunk "c1" 0 [7]) = Ok [7] /\
  map Chunk_Status (db_chunks db) = [ChunkStatusVerified] /\
  RetrieveChunk s' (small_chunk "c1" 0 [7]) = Err ErrBlobNotFound.
Proof. by vm_compute. Qed.

(** [DeleteChunk] keeps the row: the version fails its integrity check from then
    on, and the chunk cannot be ingested again, although its blob is stored. *)
Example deleted_chunk_stays :
  let c := small_chunk "c1" 0 [1; 2] in
  let '(s, db, e1) := IngestChunk plain_local small_db c [1; 2] (toy_readings_at 1) in
  let '(s, db, e2) := DeleteChunk s db c 2 in
  let '(s', db', e3) := IngestChunk s db c [1; 2] (toy_readings_at 3) in
  e1 = None /\ e2 = None /\ VerifyDatasetIntegrity s db "v" = Err ErrChunkHash /\
  e3 = Some ErrChunkRow /\ RetrieveChunk s c = Err ErrBlobNotFound /\ RetrieveChunk s' c = Ok [1; 2].
Proof. by vm_compute. Qed.

(** The retention of the trash counts from when a blob was written, not from when
    it was deleted: the cycle that collects an old blob also purges it. *)
Example trash_without_retention :
  let now := 100 * 24 * Hour in
  let s := (GC_Run (fun s => cleanupLocalTrash (collect "mark-and-sweep") s now) (collect "mark-and-sweep")
              orphaned small_db now).1 in
  RetrieveChunk s (small_chunk "c1" 0 [7]) = Err ErrBlobNotFound /\ t_trash (ls_tier s) = ∅.
Proof. by vm_compute. Qed.
End examples.
