(* ===== verification/Certs.v ===== *)
(** * Certificates ([internal/certs/certs.go], [encryption.go])

    Issuing, parsing and checking certificates, bundles on disk, and private keys
    encrypted at rest.  The certificate library is a class with what its
    documentation promises; which extended key usages [Verify] accepts is spelled
    out, since the callers leave them to their default.  Files are a map from
    names to contents. *)
From stdpp Require Import base gmap strings list.
From Stdlib Require Import ZArith Lia Ascii.
From S2P Require Import Prelude GoStrings Domain Blob.
Local Open Scope Z_scope.

Inductive CertError :=
| ErrDecodePEM
| ErrParseCertificate
| ErrParseKey
| ErrGenerateKey
| ErrCreateCertificate
| ErrVerify
| ErrRevoked
| ErrUnexpectedPEMType
| ErrDataTooShort
| ErrDecrypt
| ErrReadFile
| ErrWriteFile
| ErrKeyPair
| ErrManagerConfig
| ErrPanic.
#[export] Instance CertError_eq_dec : EqDecision CertError.
Proof. solve_decision. Defined.

(** ** The library *)

Inductive ExtKeyUsage := ExtKeyUsageAny | ExtKeyUsageServerAuth | ExtKeyUsageClientAuth.
#[export] Instance ExtKeyUsage_eq_dec : EqDecision ExtKeyUsage.
Proof. solve_decision. Defined.

(** [pkix.Name] *)
Record Name := mkName {
  CommonName : string;
  Organization : list string;
  OrganizationalUnit : list string;
  SerialNumber : string
}.

(** The fields of [x509.Certificate] the sources fill in, as a template. *)
Record Template := mkTemplate {
  T_SerialNumber : Z;
  T_Subject : Name;
  T_NotBefore : Time;
  T_NotAfter : Time;
  T_IsCA : bool;
  T_ExtKeyUsage : list ExtKeyUsage;
  T_DNSNames : list string;
  T_IPAddresses : list (list Z)
}.

(** The fields they read, of a parsed certificate. *)
Record X509 := mkX509 {
  X_Raw : list Z;
  X_SerialNumber : Z;
  X_Subject : Name;
  X_Issuer : Name;
  X_NotBefore : Time;
  X_NotAfter : Time;
  X_IsCA : bool;
  X_ExtKeyUsage : list ExtKeyUsage;
  X_DNSNames : list string;
  X_IPAddresses : list (list Z)
}.

Definition pem_CERTIFICATE : string := "CERTIFICATE".
Definition pem_EC_PRIVATE_KEY : string := "EC PRIVATE KEY".
Definition encryptedKeyHeader : string := "ENCRYPTED PRIVATE KEY".

Definition pem_types : list string := [pem_CERTIFICATE; pem_EC_PRIVATE_KEY; encryptedKeyHeader].

(** Certificates keep whole seconds. *)
Definition whole_seconds (t : Time) : Time := t / Second * Second.

(** [encoding/pem], [crypto/x509], [crypto/tls] and [golang.org/x/crypto/hkdf].
    Keys are opaque byte strings; a certificate is created for a public key and
    signed with a private one. *)
Class CertLibrary := {
  pem_EncodeToMemory : string -> list Z -> list Z;
  pem_Decode : list Z -> option (string * list Z);
  pem_Decode_Encode t b : t ∈ pem_types -> pem_Decode (pem_EncodeToMemory t b) = Some (t, b);
  Name_String : Name -> string;
  public_key : list Z -> list Z;
  x509_MarshalECPrivateKey : list Z -> list Z;
  x509_ParseECPrivateKey : list Z -> option (list Z);
  x509_Parse_Marshal k : x509_ParseECPrivateKey (x509_MarshalECPrivateKey k) = Some k;
  (** [None] is a certificate that is its own parent. *)
  x509_CreateCertificate : Template -> option X509 -> list Z -> list Z -> option (list Z);
  x509_ParseCertificate : list Z -> option X509;
  x509_Raw der c : x509_ParseCertificate der = Some c -> X_Raw c = der;
  x509_Parse_Create t parent pub priv der :
    x509_CreateCertificate t parent pub priv = Some der ->
    exists c, x509_ParseCertificate der = Some c /\ X_ExtKeyUsage c = T_ExtKeyUsage t /\
              X_NotAfter c = whole_seconds (T_NotAfter t);
  (** Signature, validity, constraints and names: [Verify] but for the usages. *)
  x509_CheckChain : X509 -> X509 -> Time -> bool;
  tls_X509KeyPair : list Z -> list Z -> bool;
  tls_X509KeyPair_spec t parent pub priv der k :
    x509_CreateCertificate t parent pub priv = Some der ->
    tls_X509KeyPair (pem_EncodeToMemory pem_CERTIFICATE der)
      (pem_EncodeToMemory pem_EC_PRIVATE_KEY (x509_MarshalECPrivateKey k)) = (pub =?= public_key k);
  hkdf_SHA256 : list Z -> list Z -> string -> list Z;
  hkdf_SHA256_length secret salt info : length (hkdf_SHA256 secret salt info) = 32%nat
}.

(** [opts.KeyUsages] of [Verify]: none means [ServerAuth], and one of them must be
    allowed by the certificate; a certificate without usages allows all. *)
Definition usage_accepted (keyUsages : list ExtKeyUsage) (cert : X509) : bool :=
  let wanted := match keyUsages with [] => [ExtKeyUsageServerAuth] | _ => keyUsages end in
  mem ExtKeyUsageAny wanted ||
  match X_ExtKeyUsage cert with
  | [] => true
  | us => existsb (fun u => (u =?= ExtKeyUsageAny) || mem u wanted) us
  end.

(** ** Issuing *)

Record GeneratorConfig := mkGeneratorConfig {
  CACommonName : string;
  ServerCommonName : string;
  ClientCommonName : string;
  CAValidDuration : Duration;
  ServerValidDuration : Duration;
  ClientValidDuration : Duration;
  Gen_DNSNames : list string;
  Gen_IPAddresses : list (list Z);
  Gen_Organization : string;
  Gen_PeerID : string;
  SSHKeyFingerprint : string;
  Gen_UserID : string
}.

Definition loopback4 : list Z := [0; 0; 0; 0; 0; 0; 0; 0; 0; 0; 255; 255; 127; 0; 0; 1].
Definition loopback6 : list Z := [0; 0; 0; 0; 0; 0; 0; 0; 0; 0; 0; 0; 0; 0; 0; 1].

Definition DefaultConfig (nodeID : string) : GeneratorConfig :=
  let shortID := str_of (take 8 (bytes_of nodeID)) in
  mkGeneratorConfig ("bibd-ca-" ++ shortID) ("bibd-server-" ++ shortID) ("bibd-client-" ++ shortID)
    (10 * 365 * 24 * Hour) (365 * 24 * Hour) (90 * 24 * Hour) ["localhost"%string] [loopback4; loopback6] "bibd" "" "" "".

(** What issuing reads: a fresh key (if the generator fails, none), a serial number
    below [2 ^ 128] and the clock, twice. *)
Record IssueReadings := mkIssueReadings {
  ir_key : option (list Z);
  ir_serial : Z;
  ir_before : Time;
  ir_now : Time
}.

Definition or_default (d default : Duration) : Duration := if d =? 0 then default else d.

Section certs.
Context `{CertLibrary} `{Crypto}.

Definition parse_pem (certPEM : list Z) : result CertError X509 :=
  match pem_Decode certPEM with
  | None => Err ErrDecodePEM
  | Some (_, bytes) => match x509_ParseCertificate bytes with Some c => Ok c | None => Err ErrParseCertificate end
  end.

Definition parseCABundle (caCertPEM caKeyPEM : list Z) : result CertError (X509 * list Z) :=
  let! caCert := parse_pem caCertPEM in
  match pem_Decode caKeyPEM with
  | None => Err ErrDecodePEM
  | Some (_, bytes) => match x509_ParseECPrivateKey bytes with Some k => Ok (caCert, k) | None => Err ErrParseKey end
  end.

Definition encode_pair (der key : list Z) : list Z * list Z :=
  (pem_EncodeToMemory pem_CERTIFICATE der, pem_EncodeToMemory pem_EC_PRIVATE_KEY (x509_MarshalECPrivateKey key)).

Definition ca_template (cfg : GeneratorConfig) (rd : IssueReadings) : Template :=
  mkTemplate (ir_serial rd) (mkName (CACommonName cfg) [Gen_Organization cfg] [] "") (ir_before rd)
    (Add (ir_now rd) (or_default (CAValidDuration cfg) (10 * 365 * 24 * Hour))) true [] [] [].

Definition GenerateCA (cfg : GeneratorConfig) (rd : IssueReadings) : result CertError (list Z * list Z) :=
  match ir_key rd with
  | None => Err ErrGenerateKey
  | Some key =>
      match x509_CreateCertificate (ca_template cfg rd) None (public_key key) key with
      | None => Err ErrCreateCertificate
      | Some der => Ok (encode_pair der key)
      end
  end.

(** The part the server's and the client's certificates share. *)
Definition issue (caCert caKey : list Z) (t : Template) (rd : IssueReadings) : result CertError (list Z * list Z) :=
  let! (ca, caPriv) := parseCABundle caCert caKey in
  match ir_key rd with
  | None => Err ErrGenerateKey
  | Some key =>
      match x509_CreateCertificate t (Some ca) (public_key key) caPriv with
      | None => Err ErrCreateCertificate
      | Some der => Ok (encode_pair der key)
      end
  end.

Definition server_template (cfg : GeneratorConfig) (rd : IssueReadings) : Template :=
  mkTemplate (ir_serial rd) (mkName (ServerCommonName cfg) [Gen_Organization cfg] [] "") (ir_before rd)
    (Add (ir_now rd) (or_default (ServerValidDuration cfg) (365 * 24 * Hour))) false [ExtKeyUsageServerAuth]
    (if Gen_PeerID cfg <>? "" then Gen_DNSNames cfg ++ [Gen_PeerID cfg] else Gen_DNSNames cfg) (Gen_IPAddresses cfg).

Definition GenerateServerCert (caCert caKey : list Z) (cfg : GeneratorConfig) (rd : IssueReadings)
    : result CertError (list Z * list Z) :=
  issue caCert caKey (server_template cfg rd) rd.

Definition client_template (cfg : GeneratorConfig) (rd : IssueReadings) : Template :=
  mkTemplate (ir_serial rd)
    (mkName (ClientCommonName cfg) [Gen_Organization cfg]
       (if Gen_UserID cfg <>? "" then [("user:" ++ Gen_UserID cfg)%string] else [])
       (if SSHKeyFingerprint cfg <>? "" then "ssh-fp:" ++ SSHKeyFingerprint cfg else ""))
    (ir_before rd) (Add (ir_now rd) (or_default (ClientValidDuration cfg) (90 * 24 * Hour))) false
    [ExtKeyUsageClientAuth] [] [].

Definition GenerateClientCert (caCert caKey : list Z) (cfg : GeneratorConfig) (rd : IssueReadings)
    : result CertError (list Z * list Z) :=
  issue caCert caKey (client_template cfg rd) rd.

(** A field of a bundle is nil or bytes. *)
Record CertBundle := mkCertBundle {
  CACert : option (list Z);
  CAKey : option (list Z);
  ServerCert : option (list Z);
  ServerKey : option (list Z);
  ClientCert : option (list Z);
  ClientKey : option (list Z)
}.

Definition GenerateBundle (cfg : GeneratorConfig) (ca server client : IssueReadings) : result CertError CertBundle :=
  let! (caCert, caKey) := GenerateCA cfg ca in
  let! (serverCert, serverKey) := GenerateServerCert caCert caKey cfg server in
  let! (clientCert, clientKey) := GenerateClientCert caCert caKey cfg client in
  Ok (mkCertBundle (Some caCert) (Some caKey) (Some serverCert) (Some serverKey) (Some clientCert) (Some clientKey)).

(** ** Reading certificates *)

Record Certificate := mkCertificate {
  Cert_Raw : list Z;
  Cert_Cert : X509;
  Cert_Fingerprint : string;
  Cert_ExpiresAt : Time;
  Cert_IsCA : bool;
  Cert_Subject : string;
  Cert_Issuer : string;
  Cert_SerialHex : string;
  Cert_DNSNames : list string;
  Cert_IPAddresses : list (list Z)
}.

(** [fmt.Sprintf("%x", n)] *)
Fixpoint hex_digits (fuel : nat) (n : Z) : list ascii :=
  match fuel with
  | O => []
  | S fuel => if n <? 16 then [hex_digit n] else hex_digits fuel (n / 16) ++ [hex_digit (n `mod` 16)]
  end.
Definition Sprintf_x (n : Z) : string :=
  str_of ((if n <? 0 then ["-"%char] else []) ++ hex_digits (S (Z.to_nat (Z.log2 (Z.abs n)))) (Z.abs n)).

Definition fingerprint_of (c : X509) : string := EncodeToString (sha256_Sum256 (X_Raw c)).

Definition ParseCertificate (certPEM : list Z) : result CertError Certificate :=
  let! cert := parse_pem certPEM in
  Ok (mkCertificate certPEM cert (fingerprint_of cert) (X_NotAfter cert) (X_IsCA cert) (Name_String (X_Subject cert))
        (Name_String (X_Issuer cert)) (Sprintf_x (X_SerialNumber cert)) (X_DNSNames cert) (X_IPAddresses cert)).

Definition Fingerprint (certPEM : list Z) : result CertError string :=
  let! cert := parse_pem certPEM in Ok (fingerprint_of cert).

(** It never fails: what it cannot parse needs renewal. *)
Definition NeedsRenewal (certPEM : list Z) (threshold : Duration) (now : Time) : bool :=
  match parse_pem certPEM with
  | Err _ => true
  | Ok cert => Sub (X_NotAfter cert) now <? threshold
  end.

Definition VerifyChainWithUsage (certPEM caCertPEM : list Z) (keyUsages : list ExtKeyUsage) (now : Time)
    : option CertError :=
  match parse_pem certPEM with
  | Err e => Some e
  | Ok cert =>
      match parse_pem caCertPEM with
      | Err e => Some e
      | Ok caCert => if x509_CheckChain cert caCert now && usage_accepted keyUsages cert then None else Some ErrVerify
      end
  end.
Definition VerifyChain (certPEM caCertPEM : list Z) (now : Time) : option CertError :=
  VerifyChainWithUsage certPEM caCertPEM [] now.
End certs.

(** ** Bundles on disk *)

Definition bundle_files (b : CertBundle) : list (string * option (list Z)) :=
  [("ca.crt", CACert b); ("ca.key", CAKey b); ("server.crt", ServerCert b);
   ("server.key", ServerKey b); ("client.crt", ClientCert b); ("client.key", ClientKey b)]%string.

(** The loop over the files, in the order the map yields them. *)
Fixpoint save_files (files : list (string * option (list Z))) (fs : Files) (o : string -> WriteOutcome)
    : Files * option CertError :=
  match files with
  | [] => (fs, None)
  | (name, None) :: files' => save_files files' fs o
  | (name, Some data) :: files' =>
      match WriteFile fs name data (o name) with
      | (fs, true) => save_files files' fs o
      | (fs, false) => (fs, Some ErrWriteFile)
      end
  end.
Definition SaveToDir (b : CertBundle) (fs : Files)
    (shuffle : list (string * option (list Z)) -> list (string * option (list Z))) (o : string -> WriteOutcome)
    : Files * option CertError :=
  save_files (shuffle (bundle_files b)) fs o.

(** Unreadable files apart: missing ones are optional. *)
Definition LoadFromDir (fs : Files) : CertBundle :=
  mkCertBundle (fs !! "ca.crt") (fs !! "ca.key") (fs !! "server.crt")%string (fs !! "server.key") (fs !! "client.crt")
    (fs !! "client.key").

Definition Certs_Exists (fs : Files) : bool :=
  forallb (fun name : string => match fs !! name with Some _ => true | None => false end)
    ["ca.crt"; "server.crt"; "server.key"]%string.
Definition CAExists (fs : Files) : bool := match fs !! "ca.crt"%string with Some _ => true | None => false end.

(** ** Keys at rest *)

Definition saltSize : nat := 32.
Definition nonceSize : nat := 12.

Section encryption.
Context `{CertLibrary} `{Codecs}.

(** A missing salt is made up, and not returned. *)
Definition DeriveEncryptionKey (secret salt : list Z) (info : string) (random : list Z) : list Z :=
  hkdf_SHA256 secret (match salt with [] => random | _ => salt end) info.

Definition ca_key_info : string := "bibd-ca-key-encryption".

Definition EncryptKey (keyPEM secret salt nonce : list Z) : list Z :=
  let encKey := DeriveEncryptionKey secret salt ca_key_info [] in
  pem_EncodeToMemory encryptedKeyHeader (salt ++ nonce ++ gcm_Seal encKey nonce keyPEM).

Definition DecryptKey (encryptedPEM secret random : list Z) : result CertError (list Z) :=
  match pem_Decode encryptedPEM with
  | None => Err ErrDecodePEM
  | Some (type, data) =>
      if type <>? encryptedKeyHeader then Err ErrUnexpectedPEMType
      else if (length data <? saltSize + nonceSize + 16)%nat then Err ErrDataTooShort
      else
        let salt := take saltSize data in
        let nonce := take nonceSize (drop saltSize data) in
        let ciphertext := drop (saltSize + nonceSize) data in
        match gcm_Open (DeriveEncryptionKey secret salt ca_key_info random) nonce ciphertext with
        | Some plaintext => Ok plaintext
        | None => Err ErrDecrypt
        end
  end.

Definition SaveEncryptedKey (fs : Files) (path : string) (keyPEM secret salt nonce : list Z) (o : WriteOutcome)
    : Files * option CertError :=
  match WriteFile fs path (EncryptKey keyPEM secret salt nonce) o with
  | (fs, true) => (fs, None)
  | (fs, false) => (fs, Some ErrWriteFile)
  end.
Definition LoadEncryptedKey (fs : Files) (path : string) (secret random : list Z) : result CertError (list Z) :=
  match fs !! path with
  | None => Err ErrReadFile
  | Some encrypted => DecryptKey encrypted secret random
  end.

Definition IsEncryptedKey (pemData : list Z) : bool :=
  match pem_Decode pemData with Some (type, _) => type =?= encryptedKeyHeader | None => false end.
End encryption.

(** * Theorems *)

(** ** Usages *)

Section issue_theorems.
Context `{CertLibrary} `{Crypto}.

(** What issuing gives can be parsed, has the template's usages and end, and comes
    with its key. *)
Lemma issue_spec caCert caKey t rd cert key :
  issue caCert caKey t rd = Ok (cert, key) ->
  exists c, parse_pem cert = Ok c /\ X_ExtKeyUsage c = T_ExtKeyUsage t /\ X_NotAfter c = whole_seconds (T_NotAfter t) /\
            tls_X509KeyPair cert key = true.
Proof.
  unfold issue. destruct (parseCABundle caCert caKey) as [[ca caPriv]|]; [|done].
  destruct (ir_key rd) as [k|]; [|done].
  destruct (x509_CreateCertificate _ _ _ _) as [der|] eqn:Hder; [|done]. intros [= <- <-].
  destruct (x509_Parse_Create _ _ _ _ _ Hder) as (c & Hc & Hu & Hn). exists c. unfold parse_pem.
  rewrite pem_Decode_Encode by set_solver. rewrite Hc. split_and!; [done|done|done|].
  rewrite (tls_X509KeyPair_spec _ _ _ _ _ _ Hder). by apply bool_decide_eq_true.
Qed.

(** A server's certificate is not due for renewal until the threshold before
    its end, and from then on it is, up to the second certificates are rounded to. *)
Theorem server_cert_renewal caCert caKey cfg rd cert key threshold now
    (Hgen : GenerateServerCert caCert caKey cfg rd = Ok (cert, key))
    (Hfar : is_i64 (ir_now rd + ServerValidDuration cfg - now - Second) /\
            is_i64 (ir_now rd + ServerValidDuration cfg - now))
    (Hval : ServerValidDuration cfg <> 0) :
  (ir_now rd + ServerValidDuration cfg - now >= threshold + Second -> NeedsRenewal cert threshold now = false) /\
  (ir_now rd + ServerValidDuration cfg - now < threshold -> NeedsRenewal cert threshold now = true).
Proof.
  apply issue_spec in Hgen as (c & Hc & _ & Hn & _). unfold NeedsRenewal. rewrite Hc, Hn. simpl.
  unfold or_default, whole_seconds, Add, Sub. rewrite (proj2 (Z.eqb_neq _ _) Hval).
  set (e := ir_now rd + ServerValidDuration cfg) in *. unfold is_i64 in Hfar.
  assert (e - Second < e / Second * Second <= e) as Hs by (unfold Second, Millisecond; Z.div_mod_to_equations; lia).
  split; intros Hlt; [apply Z.ltb_ge|apply Z.ltb_lt]; lia.
Qed.

(** [VerifyChain] leaves the usages to their default, which is a server's: it
    refuses every client certificate there is, whoever signed it. *)
Theorem VerifyChain_refuses_clients caCert caKey cfg rd cert key ca now
    (Hgen : GenerateClientCert caCert caKey cfg rd = Ok (cert, key)) :
  is_Some (VerifyChain cert ca now).
Proof.
  apply issue_spec in Hgen as (c & Hc & Hu & _ & _). unfold VerifyChain, VerifyChainWithUsage. rewrite Hc.
  destruct (parse_pem ca); [|by eexists]. unfold usage_accepted. rewrite Hu. simpl.
  rewrite andb_false_r. by eexists.
Qed.

(** Asked for a client's usage, it depends on the chain alone. *)
Lemma VerifyChain_client_usage caCert caKey cfg rd cert key ca now cac :
  GenerateClientCert caCert caKey cfg rd = Ok (cert, key) -> parse_pem ca = Ok cac ->
  VerifyChainWithUsage cert ca [ExtKeyUsageClientAuth] now = None <->
  exists c, parse_pem cert = Ok c /\ x509_CheckChain c cac now = true.
Proof.
  intros Hgen Hca. apply issue_spec in Hgen as (c & Hc & Hu & _ & _). unfold VerifyChainWithUsage. rewrite Hc, Hca.
  unfold usage_accepted. rewrite Hu. simpl. rewrite andb_true_r. destruct (x509_CheckChain c cac now) eqn:Hch.
  - split; [|done]. intros _. by exists c.
  - split; [done|]. intros (c' & Hc' & Hch'). injection Hc' as <-. congruence.
Qed.
End issue_theorems.

(** ** Saved bundles *)

Lemma save_files_other files fs o name :
  (forall d, (name, Some d) ∉ files) -> (save_files files fs o).2 = None -> (save_files files fs o).1 !! name = fs !! name.
Proof.
  revert fs. induction files as [|[n [d|]] files IH]; intros fs Hn Hok; [done|..]; simpl in *.
  - destruct (o n) as [|[l|]]; simpl in *; [|done|done]. rewrite IH; [|intros d'; specialize (Hn d'); set_solver|done].
    apply lookup_insert_ne. intros ->. by apply (Hn d); left.
  - apply IH; [|done]. intros d'; specialize (Hn d'); set_solver.
Qed.

Lemma save_files_in files fs o name d :
  NoDup (map fst files) -> (save_files files fs o).2 = None -> (name, Some d) ∈ files ->
  (save_files files fs o).1 !! name = Some d.
Proof.
  revert fs. induction files as [|[n od] files IH]; intros fs Hnd Hok Hin; [by apply elem_of_nil in Hin|].
  apply NoDup_cons in Hnd as [Hn Hnd]. apply elem_of_cons in Hin as [[= <- <-]|Hin]; simpl in *.
  - destruct (o name) as [|[l|]]; simpl in *; [|done|done]. rewrite save_files_other; [by rewrite lookup_insert_eq| |done].
    intros d' Hin. apply Hn. change name with (fst (name, Some d')). by apply list_elem_of_In, in_map, list_elem_of_In.
  - destruct od as [d'|]; [|by apply IH]. destruct (o n) as [|[l|]]; simpl in *; [by apply IH|done|done].
Qed.

(** A bundle saved into an empty directory is the bundle loaded from it, in
    whatever order the files are written; what is nil stays nil. *)
Theorem bundle_round_trip b shuffle o
    (Hsh : forall l, shuffle l ≡ₚ l) (Hok : (SaveToDir b ∅ shuffle o).2 = None) :
  LoadFromDir (SaveToDir b ∅ shuffle o).1 = b.
Proof.
  unfold SaveToDir in *. pose proof (Hsh (bundle_files b)) as Hperm. set (files := shuffle (bundle_files b)) in *.
  assert (NoDup (map fst files)) as Hnd.
  { rewrite (Permutation_map fst Hperm). apply (bool_decide_unpack _). by vm_compute. }
  assert (forall name od, (name, od) ∈ bundle_files b -> (save_files files ∅ o).1 !! name = od) as Hall.
  { intros name [d|] Hin; [apply save_files_in; [done|done|by rewrite Hperm]|].
    rewrite save_files_other; [by rewrite lookup_empty| |done]. intros d Hd.
    assert (name = name /\ Some d = None) as [_ [=]].
    rewrite <- Hperm in Hin. apply (list_elem_of_lookup_1) in Hin as [i Hi], Hd as [j Hj].
    assert (i = j) as ->; [|congruence].
    apply (NoDup_lookup (map fst files) i j name); [done|..].
    - change (map fst files) with (fst <$> files). by rewrite list_lookup_fmap, Hi.
    - change (map fst files) with (fst <$> files). by rewrite list_lookup_fmap, Hj. }
  destruct b as [a1 a2 a3 a4 a5 a6]. unfold LoadFromDir. f_equal; apply Hall; set_solver.
Qed.

(** ** Keys at rest *)

Section encryption_theorems.
Context `{CertLibrary} `{Codecs}.

(** AES-GCM adds a tag of 16 bytes. *)
Hypothesis gcm_overhead : forall key nonce d, length (gcm_Seal key nonce d) = (length d + 16)%nat.

Lemma DecryptKey_EncryptKey key secret salt nonce random :
  length salt = saltSize -> length nonce = nonceSize ->
  DecryptKey (EncryptKey key secret salt nonce) secret random = Ok key.
Proof.
  intros Hs Hn. unfold EncryptKey, DecryptKey. rewrite pem_Decode_Encode by set_solver. rewrite bool_decide_true by done.
  cbn [negb]. rewrite !length_app, Hs, Hn, gcm_overhead.
  rewrite (proj2 (Nat.ltb_ge _ _)) by lia.
  rewrite <- Hs, take_app_length, drop_app_length, <- Hn, take_app_length, <- drop_drop, drop_app_length, drop_app_length.
  unfold DeriveEncryptionKey. destruct salt; [done|]. by rewrite gcm_Open_Seal.
Qed.

(** The key written to a file is the key loaded from it with the same secret. *)
Theorem encrypted_key_round_trip fs path key secret salt nonce random
    (Hs : length salt = saltSize) (Hn : length nonce = nonceSize) :
  LoadEncryptedKey (SaveEncryptedKey fs path key secret salt nonce Written).1 path secret random = Ok key.
Proof.
  unfold SaveEncryptedKey, LoadEncryptedKey. simpl. rewrite lookup_insert_eq. by apply DecryptKey_EncryptKey.
Qed.
End encryption_theorems.

(** ** Witnesses *)

(** A library whose certificates are the numbers of what they say: enough to meet
    the promises.  Any other text is a certificate that says nothing. *)
#[export] Instance ExtKeyUsage_countable : Countable ExtKeyUsage.
Proof.
  apply (inj_countable' (fun u => match u with ExtKeyUsageAny => 0%nat | ExtKeyUsageServerAuth => 1%nat
                                             | ExtKeyUsageClientAuth => 2%nat end)
    (fun n => match n with 0%nat => ExtKeyUsageAny | 1%nat => ExtKeyUsageServerAuth | _ => ExtKeyUsageClientAuth end)).
  by intros [].
Defined.

Definition toy_content : Type := list ExtKeyUsage * Time * list Z.
Definition toy_decode (der : list Z) : option toy_content :=
  match der with [Zpos p] => decode p | _ => None end.
Definition no_name : Name := mkName "" [] [] "".
Definition toy_x509 (der : list Z) : X509 :=
  let '(us, t, _) := default ([], 0, []) (toy_decode der) in mkX509 der 255 no_name no_name 0 t false us [] [].
Definition toy_tag (t : string) : Z :=
  if t =?= pem_CERTIFICATE then 1 else if t =?= pem_EC_PRIVATE_KEY then 2 else 3.
Definition toy_pem_Decode (l : list Z) : option (string * list Z) :=
  match l with
  | 1 :: b => Some (pem_CERTIFICATE, b)
  | 2 :: b => Some (pem_EC_PRIVATE_KEY, b)
  | 3 :: b => Some (encryptedKeyHeader, b)
  | _ => None
  end.

Definition toy_library : CertLibrary.
Proof.
  refine {|
    pem_EncodeToMemory t b := toy_tag t :: b; pem_Decode := toy_pem_Decode; Name_String n := CommonName n;
    public_key k := k; x509_MarshalECPrivateKey k := k; x509_ParseECPrivateKey k := Some k;
    x509_CreateCertificate t _ pub _ := Some [Zpos (encode (T_ExtKeyUsage t, whole_seconds (T_NotAfter t), pub))];
    x509_ParseCertificate der := Some (toy_x509 der); x509_CheckChain _ _ _ := true;
    tls_X509KeyPair cert key :=
      match toy_decode (tail cert) with Some (_, _, pub) => pub =?= tail key | None => false end;
    hkdf_SHA256 _ _ _ := replicate 32 1 |}.
  - intros t b Ht. repeat (apply elem_of_cons in Ht as [->|Ht]; [done|]). by apply elem_of_nil in Ht.
  - done.
  - intros der c [= <-]. unfold toy_x509. by destruct (default _ _) as [[us t] pub].
  - intros t parent pub priv der [= <-]. eexists. split; [done|]. unfold toy_x509, toy_decode. rewrite countable.decode_encode. done.
  - intros t parent pub priv der k [= <-]. unfold toy_decode. cbn [tail]. by rewrite countable.decode_encode.
  - done.
Defined.

(** A cipher that adds a tag and nothing else. *)
Definition toy_gcm : Codecs.
Proof.
  refine {| gzip_write := fun _ d => d; gzip_read := Some; zstd_write := fun _ d => d; zstd_read := Some;
            gcm_Seal := fun _ _ d => d ++ replicate 16 0; gcm_Open := fun _ _ d => Some (take (length d - 16) d) |};
    try done.
  intros key nonce d. rewrite length_app, length_replicate. f_equal.
  replace (length d + 16 - 16)%nat with (length d) by lia. by rewrite take_app_length.
Defined.

Section witnesses.
#[local] Existing Instance toy_library.
#[local] Existing Instance toy_gcm.
#[local] Existing Instance toy_crypto.

Definition toy_issue (key : list Z) (now : Time) : IssueReadings := mkIssueReadings (Some key) 5 now now.
Definition toy_ca : list Z * list Z := ([1; 9], [2; 8]).
Definition toy_server_cert : list Z * list Z :=
  default ([], []) (match GenerateServerCert toy_ca.1 toy_ca.2 (DefaultConfig "node") (toy_issue [4] (100 * Second)) with
                    | Ok p => Some p | Err _ => None end).
Definition toy_client_cert : list Z * list Z :=
  default ([], []) (match GenerateClientCert toy_ca.1 toy_ca.2 (DefaultConfig "node") (toy_issue [5] (100 * Second)) with
                    | Ok p => Some p | Err _ => None end).

Lemma server_cert_renewal_witness :
  NeedsRenewal toy_server_cert.1 (30 * 24 * Hour) (200 * Second) = false.
Proof.
  apply (server_cert_renewal toy_ca.1 toy_ca.2 (DefaultConfig "node") (toy_issue [4] (100 * Second))
    toy_server_cert.1 toy_server_cert.2); [reflexivity| |done|]; vm_compute; [split; split; done|done].
Defined.

Lemma VerifyChain_refuses_clients_witness : is_Some (VerifyChain toy_client_cert.1 toy_ca.1 (200 * Second)).
Proof.
  apply (VerifyChain_refuses_clients toy_ca.1 toy_ca.2 (DefaultConfig "node") (toy_issue [5] (100 * Second))
    toy_client_cert.1 toy_client_cert.2). reflexivity.
Defined.

(** The same certificate with its usage asked for. *)
Example client_cert_accepted :
  VerifyChainWithUsage toy_client_cert.1 toy_ca.1 [ExtKeyUsageClientAuth] (200 * Second) = None.
Proof. by vm_compute. Qed.

Lemma bundle_round_trip_witness :
  let b := mkCertBundle (Some [1]) None (Some [2]) (Some [3]) None (Some []) in
  LoadFromDir (SaveToDir b ∅ (@rev _) (fun _ => Written)).1 = b.
Proof.
  intros b. apply bundle_round_trip; [intros l; symmetry; apply Permutation_rev|by vm_compute].
Defined.

Lemma encrypted_key_round_trip_witness :
  LoadEncryptedKey (SaveEncryptedKey ∅ "ca.key.enc" [7; 8] [9] (replicate 32 1) (replicate 12 2) Written).1
    "ca.key.enc" [9] [] = Ok [7; 8].
Proof.
  apply encrypted_key_round_trip; [intros key nonce d; apply length_app|reflexivity|reflexivity].
Defined.
End witnesses.
