(* ===== verification/Trust.v ===== *)
(** * Revoked certificates and trusted nodes ([internal/certs/revocation.go],
      [tofu.go], [tofu_verifier.go])

    Two stores kept in memory and on disk: certificates revoked by fingerprint,
    which nodes exchange, and the certificates of nodes trusted on first use.
    Printing is left out; what a prompt reads is an argument. *)
From stdpp Require Import base gmap fin_map_dom fin_maps strings list sorting.
From Stdlib Require Import ZArith Lia Ascii.
From S2P Require Import Prelude GoStrings GoTime Domain Certs.
Local Open Scope Z_scope.

(** ** Data *)

Record RevokedCertificate := mkRevokedCertificate {
  Revoked_Fingerprint : string;
  Revoked_SerialHex : string;
  Revoked_Subject : string;
  Revoked_RevokedAt : Time;
  Revoked_Reason : string;
  Revoked_RevokedBy : string;
  Revoked_ExpiresAt : Time;
  Revoked_Notes : string
}.

Record RevocationListData := mkRevocationListData {
  Data_Version : Z;
  Data_UpdatedAt : Time;
  Data_Entries : list RevokedCertificate
}.

Record TrustedNode := mkTrustedNode {
  Node_NodeID : string;
  Node_Fingerprint : string;
  Node_Certificate : list Z;
  Node_FirstSeen : Time;
  Node_LastSeen : Time;
  Node_Alias : string;
  Node_Address : string;
  Node_TrustMethod : string;
  Node_PinnedAt : option Time;
  Node_Verified : bool;
  Node_Notes : string
}.
#[export] Instance RevokedCertificate_eq_dec : EqDecision RevokedCertificate.
Proof. solve_decision. Defined.
#[export] Instance TrustedNode_eq_dec : EqDecision TrustedNode.
Proof. solve_decision. Defined.

Definition TrustMethodTOFU : string := "tofu".
Definition TrustMethodManual : string := "manual".
Definition TrustMethodPinned : string := "pinned".

(** What JSON carries faithfully: ASCII text and times before the year 10000. *)
Definition json_entry (e : RevokedCertificate) : bool :=
  is_ascii (Revoked_Fingerprint e) && is_ascii (Revoked_SerialHex e) && is_ascii (Revoked_Subject e) &&
  is_ascii (Revoked_Reason e) && is_ascii (Revoked_RevokedBy e) && is_ascii (Revoked_Notes e) &&
  json_time (Revoked_RevokedAt e) && json_time (Revoked_ExpiresAt e).
Definition json_data (d : RevocationListData) : bool :=
  forallb json_entry (Data_Entries d) && json_time (Data_UpdatedAt d).
Definition json_node (n : TrustedNode) : bool :=
  is_ascii (Node_NodeID n) && is_ascii (Node_Fingerprint n) && forallb (fun b => (0 <=? b) && (b <? 128)) (Node_Certificate n) &&
  is_ascii (Node_Alias n) && is_ascii (Node_Address n) && is_ascii (Node_TrustMethod n) && is_ascii (Node_Notes n) &&
  json_time (Node_FirstSeen n) && json_time (Node_LastSeen n) &&
  match Node_PinnedAt n with Some t => json_time t | None => true end.

(** [encoding/json] at the two types. *)
Class TrustJSON := {
  data_Marshal : RevocationListData -> option (list Z);
  data_Unmarshal : list Z -> option RevocationListData;
  data_round_trip d : json_data d = true ->
    exists b, data_Marshal d = Some b /\ b <> [] /\ data_Unmarshal b = Some d;
  node_Marshal : TrustedNode -> option (list Z);
  node_Unmarshal : list Z -> option TrustedNode;
  node_round_trip n : json_node n = true ->
    exists b, node_Marshal n = Some b /\ node_Unmarshal b = Some n
}.

(** ** Revocation *)

(** With the file it is kept in. *)
Record RevocationList := mkRevocationList {
  rl_entries : gmap string RevokedCertificate;
  rl_version : Z;
  rl_file : option (list Z)
}.

Definition set_entries (rl : RevocationList) (m : gmap string RevokedCertificate) (v : Z) : RevocationList :=
  mkRevocationList m v (rl_file rl).

Section revocation.
Context `{TrustJSON}.

(** In some order: what the runtime yields for a map. *)
Definition exportLocked (rl : RevocationList) (now : Time) : RevocationListData :=
  mkRevocationListData (rl_version rl) now (map snd (map_to_list (rl_entries rl))).
Definition Export (rl : RevocationList) (now : Time) : RevocationListData := exportLocked rl now.

Definition RevocationList_save (rl : RevocationList) (now : Time) (o : WriteOutcome) : RevocationList * option CertError :=
  match data_Marshal (exportLocked rl now) with
  | None => (rl, Some ErrWriteFile)
  | Some b =>
      match o with
      | Written => (mkRevocationList (rl_entries rl) (rl_version rl) (Some b), None)
      | WriteFailed (Some d) => (mkRevocationList (rl_entries rl) (rl_version rl) (Some d), Some ErrWriteFile)
      | WriteFailed None => (rl, Some ErrWriteFile)
      end
  end.

Definition load_entries (l : list RevokedCertificate) : gmap string RevokedCertificate :=
  fold_left (fun m e => <[Revoked_Fingerprint e := e]> m) l ∅.

(** A missing and an empty file are an empty list. *)
Definition NewRevocationList (file : option (list Z)) : result CertError RevocationList :=
  match file with
  | None | Some [] => Ok (mkRevocationList ∅ 0 file)
  | Some b =>
      match data_Unmarshal b with
      | None => Err ErrReadFile
      | Some d => Ok (mkRevocationList (load_entries (Data_Entries d)) (Data_Version d) file)
      end
  end.

Definition IsRevoked (rl : RevocationList) (fingerprint : string) : bool :=
  match rl_entries rl !! fingerprint with Some _ => true | None => false end.

(** [now] is the time of the revocation, [now'] that of the save. *)
Definition Revoke (rl : RevocationList) (entry : RevokedCertificate) (now now' : Time) (o : WriteOutcome)
    : RevocationList * option CertError :=
  let entry :=
    if IsZero (Revoked_RevokedAt entry) then
      mkRevokedCertificate (Revoked_Fingerprint entry) (Revoked_SerialHex entry) (Revoked_Subject entry) now
        (Revoked_Reason entry) (Revoked_RevokedBy entry) (Revoked_ExpiresAt entry) (Revoked_Notes entry)
    else entry in
  RevocationList_save
    (set_entries rl (<[Revoked_Fingerprint entry := entry]> (rl_entries rl)) (u64 (rl_version rl + 1))) now' o.

Definition RevocationList_Remove (rl : RevocationList) (fingerprint : string) (now : Time) (o : WriteOutcome)
    : RevocationList * option CertError :=
  if IsRevoked rl fingerprint
  then RevocationList_save (set_entries rl (delete fingerprint (rl_entries rl)) (u64 (rl_version rl + 1))) now o
  else (rl, Some ErrReadFile).

Definition RevocationList_List (rl : RevocationList) : list RevokedCertificate := map snd (map_to_list (rl_entries rl)).

Definition Prune (rl : RevocationList) (olderThan : Duration) (now now' : Time) (o : WriteOutcome)
    : RevocationList * (Z * option CertError) :=
  let cutoff := Add now (- olderThan) in
  let kept := filter (fun p : string * RevokedCertificate => Before (Revoked_ExpiresAt p.2) cutoff = false) (rl_entries rl) in
  let pruned := Z.of_nat (size (rl_entries rl)) - Z.of_nat (size kept) in
  if 0 <? pruned then
    let '(rl, err) := RevocationList_save (set_entries rl kept (u64 (rl_version rl + 1))) now' o in (rl, (pruned, err))
  else (rl, (pruned, None)).

(** The loop of [Merge]. *)
Fixpoint merge_entries (m : gmap string RevokedCertificate) (l : list RevokedCertificate) (added : Z)
    : gmap string RevokedCertificate * Z :=
  match l with
  | [] => (m, added)
  | e :: l' =>
      match m !! Revoked_Fingerprint e with
      | Some _ => merge_entries m l' added
      | None => merge_entries (<[Revoked_Fingerprint e := e]> m) l' (added + 1)
      end
  end.
Definition Merge (rl : RevocationList) (data : RevocationListData) (now : Time) (o : WriteOutcome)
    : RevocationList * (Z * option CertError) :=
  let '(m, added) := merge_entries (rl_entries rl) (Data_Entries data) 0 in
  if 0 <? added then
    let '(rl, err) := RevocationList_save (set_entries rl m (u64 (rl_version rl + 1))) now o in (rl, (added, err))
  else (rl, (added, None)).

Section with_library.
Context `{CertLibrary} `{Crypto}.

Definition RevokeCert (rl : RevocationList) (certPEM : list Z) (reason revokedBy notes : string)
    (now now' : Time) (o : WriteOutcome) : RevocationList * option CertError :=
  match ParseCertificate certPEM with
  | Err e => (rl, Some e)
  | Ok cert =>
      Revoke rl (mkRevokedCertificate (Cert_Fingerprint cert) (Cert_SerialHex cert) (Cert_Subject cert) now reason
                   revokedBy (Cert_ExpiresAt cert) notes) now now' o
  end.

(** It hands the DER bytes of the certificate to a parser of PEM. *)
Definition CertFingerprint (cert : X509) : string :=
  match ParseCertificate (X_Raw cert) with Ok info => Cert_Fingerprint info | Err _ => "" end.
Definition IsCertRevoked (rl : RevocationList) (cert : X509) : bool := IsRevoked rl (CertFingerprint cert).
End with_library.
End revocation.

(** ** Trusted nodes *)

Definition safe_byte (c : ascii) : bool :=
  is_lower c || is_upper c || is_digit c || (c =?= "-"%char) || (c =?= "_"%char).
Definition sanitizeFilename (s : string) : string :=
  str_of (map (fun c => if safe_byte c then c else "_"%char) (bytes_of s)).
Definition nodePath (nodeID : string) : string := sanitizeFilename nodeID ++ ".json".

(** With the directory it is kept in. *)
Record TrustStore := mkTrustStore {
  ts_nodes : gmap string TrustedNode;
  ts_files : Files
}.

Section trust.
Context `{TrustJSON}.

Definition TrustStore_save (ts : TrustStore) (node : TrustedNode) (o : WriteOutcome) : TrustStore * option CertError :=
  match node_Marshal node with
  | None => (ts, Some ErrWriteFile)
  | Some b =>
      let '(fs, ok) := WriteFile (ts_files ts) (nodePath (Node_NodeID node)) b o in
      (mkTrustStore (ts_nodes ts) fs, if ok then None else Some ErrWriteFile)
  end.

Definition name_le (a b : string * list Z) : Prop := text_leb a.1 b.1 = true.
#[local] Instance name_le_dec a b : Decision (name_le a b).
Proof. unfold name_le. apply _. Defined.

(** [filepath.Ext(name) == ".json"] *)
Definition is_json (name : string) : bool :=
  let bs := bytes_of name in bytes_of ".json" =?= drop (length bs - 5) bs.

(** Directories list their files by name; what does not parse is skipped. *)
Definition load_file (m : gmap string TrustedNode) (f : string * list Z) : gmap string TrustedNode :=
  if is_json f.1 then
    match node_Unmarshal f.2 with
    | Some node => <[Node_NodeID node := node]> m
    | None => m
    end
  else m.
Definition NewTrustStore (fs : Files) : TrustStore :=
  mkTrustStore (fold_left load_file (merge_sort name_le (map_to_list fs)) ∅) fs.

Definition TrustStore_Get (ts : TrustStore) (nodeID : string) : option TrustedNode := ts_nodes ts !! nodeID.
(** One of them, if several nodes have the certificate. *)
Definition GetByFingerprint (ts : TrustStore) (fingerprint : string) : option TrustedNode :=
  List.find (fun n => Node_Fingerprint n =?= fingerprint) (map snd (map_to_list (ts_nodes ts))).

(** Unknown, trusted, or known with another certificate. *)
Inductive TrustAnswer := NotTrusted | IsTrustedNode | Mismatch.
Definition IsTrusted (ts : TrustStore) (nodeID fingerprint : string) : TrustAnswer :=
  match ts_nodes ts !! nodeID with
  | None => NotTrusted
  | Some node => if Node_Fingerprint node <>? fingerprint then Mismatch else IsTrustedNode
  end.

Definition set_seen (n : TrustedNode) (first last : Time) : TrustedNode :=
  mkTrustedNode (Node_NodeID n) (Node_Fingerprint n) (Node_Certificate n) first last (Node_Alias n) (Node_Address n)
    (Node_TrustMethod n) (Node_PinnedAt n) (Node_Verified n) (Node_Notes n).

Definition TrustStore_Add (ts : TrustStore) (node : TrustedNode) (now now' : Time) (o : WriteOutcome)
    : TrustStore * TrustedNode * option CertError :=
  let first :=
    match ts_nodes ts !! Node_NodeID node with
    | Some existing => Node_FirstSeen existing
    | None => if IsZero (Node_FirstSeen node) then now else Node_FirstSeen node
    end in
  let last := if IsZero (Node_LastSeen node) then now' else Node_LastSeen node in
  let node := set_seen node first last in
  let '(ts, err) := TrustStore_save (mkTrustStore (<[Node_NodeID node := node]> (ts_nodes ts)) (ts_files ts)) node o in
  (ts, node, err).

(** The setters share this: look the node up, change it in place, save it. *)
Definition update_node (ts : TrustStore) (nodeID : string) (f : TrustedNode -> TrustedNode) (o : WriteOutcome)
    : TrustStore * option CertError :=
  match ts_nodes ts !! nodeID with
  | None => (ts, Some ErrReadFile)
  | Some node => TrustStore_save (mkTrustStore (<[nodeID := f node]> (ts_nodes ts)) (ts_files ts)) (f node) o
  end.
Definition UpdateLastSeen (ts : TrustStore) (nodeID : string) (now : Time) (o : WriteOutcome) :=
  update_node ts nodeID (fun n => set_seen n (Node_FirstSeen n) now) o.
Definition Pin (ts : TrustStore) (nodeID : string) (now : Time) (o : WriteOutcome) :=
  update_node ts nodeID (fun n =>
    mkTrustedNode (Node_NodeID n) (Node_Fingerprint n) (Node_Certificate n) (Node_FirstSeen n) (Node_LastSeen n)
      (Node_Alias n) (Node_Address n) TrustMethodPinned (Some now) (Node_Verified n) (Node_Notes n)) o.
Definition TrustStore_Verify (ts : TrustStore) (nodeID : string) (o : WriteOutcome) :=
  update_node ts nodeID (fun n =>
    mkTrustedNode (Node_NodeID n) (Node_Fingerprint n) (Node_Certificate n) (Node_FirstSeen n) (Node_LastSeen n)
      (Node_Alias n) (Node_Address n) (Node_TrustMethod n) (Node_PinnedAt n) true (Node_Notes n)) o.
Definition SetAlias (ts : TrustStore) (nodeID alias : string) (o : WriteOutcome) :=
  update_node ts nodeID (fun n =>
    mkTrustedNode (Node_NodeID n) (Node_Fingerprint n) (Node_Certificate n) (Node_FirstSeen n) (Node_LastSeen n)
      alias (Node_Address n) (Node_TrustMethod n) (Node_PinnedAt n) (Node_Verified n) (Node_Notes n)) o.

(** [removed] is whether [os.Remove] can remove the file. *)
Definition TrustStore_Remove (ts : TrustStore) (nodeID : string) (removed : bool) : TrustStore * option CertError :=
  match ts_nodes ts !! nodeID with
  | None => (ts, Some ErrReadFile)
  | Some _ =>
      let nodes := delete nodeID (ts_nodes ts) in
      match removed, ts_files ts !! nodePath nodeID with
      | true, Some _ => (mkTrustStore nodes (delete (nodePath nodeID) (ts_files ts)), None)
      | _, _ => (mkTrustStore nodes (ts_files ts), Some ErrWriteFile)
      end
  end.
Definition TrustStore_List (ts : TrustStore) : list TrustedNode := map snd (map_to_list (ts_nodes ts)).
End trust.

(** ** Trust on first use *)

Record CertInfo := mkCertInfo {
  CertInfo_Fingerprint : string;
  CertInfo_Subject : string;
  CertInfo_Issuer : string;
  CertInfo_NotBefore : Time;
  CertInfo_NotAfter : Time;
  CertInfo_IsCA : bool;
  CertInfo_PEM : list Z
}.

Record VerifyResult := mkVerifyResult {
  Result_Trusted : bool;
  Result_NewTrust : bool;
  Result_Node : option TrustedNode;
  Result_Error : bool;
  Result_FingerprintMismatch : bool
}.
Definition refused (mismatch : bool) : VerifyResult := mkVerifyResult false false None true mismatch.

Inductive TofuError := TofuCert (e : CertError) | TofuMismatch.

(** The clock and the outcome of writing the file. *)
Record VerifyReadings := mkVerifyReadings {
  vr_now : Time;
  vr_now' : Time;
  vr_write : WriteOutcome
}.

(** Two characters at a time, in upper case, with colons between. *)
Fixpoint pairs_of (l : list ascii) : list (list ascii) :=
  match l with
  | [] => []
  | [a] => [[a]]
  | a :: b :: l' => [a; b] :: pairs_of l'
  end.

Section verifier.
Context `{TrustJSON} `{CertLibrary} `{Crypto} `{UnicodeTables}.

Definition FingerprintFromCert (cert : X509) : string := fingerprint_of cert.

Definition ParseCertInfo (pemData : list Z) : result CertError CertInfo :=
  let! cert := parse_pem pemData in
  Ok (mkCertInfo (fingerprint_of cert) (Name_String (X_Subject cert)) (Name_String (X_Issuer cert)) (X_NotBefore cert)
        (X_NotAfter cert) (X_IsCA cert) pemData).

Definition FormatFingerprint (fingerprint : string) : string :=
  str_of (join_with [":"%char] (map (fun p => bytes_of (ToUpper (str_of p))) (pairs_of (bytes_of fingerprint)))).

(** A line, or none when the input ends before one. *)
Definition promptTrust (line : option string) : bool :=
  match line with
  | None => false
  | Some response => let r := TrimSpace (ToLower response) in (r =?= "y"%string) || (r =?= "yes"%string)
  end.

Definition tofu_node (nodeID address fingerprint : string) (certPEM : list Z) : TrustedNode :=
  mkTrustedNode nodeID fingerprint certPEM 0 0 "" address TrustMethodTOFU None false "".

(** [Verify] and [VerifyWithCallback] up to the decision about a new node. *)
Definition verify_with (ts : TrustStore) (nodeID address : string) (certPEM : list Z) (accept : CertInfo -> bool)
    (rd : VerifyReadings) : TrustStore * VerifyResult * option TofuError :=
  match ParseCertInfo certPEM with
  | Err e => (ts, refused false, Some (TofuCert e))
  | Ok info =>
      let fingerprint := CertInfo_Fingerprint info in
      match IsTrusted ts nodeID fingerprint with
      | Mismatch => (ts, refused true, Some TofuMismatch)
      | IsTrustedNode =>
          let ts := (UpdateLastSeen ts nodeID (vr_now rd) (vr_write rd)).1 in
          (ts, mkVerifyResult true false (TrustStore_Get ts nodeID) false false, None)
      | NotTrusted =>
          if accept info then
            match TrustStore_Add ts (tofu_node nodeID address fingerprint certPEM) (vr_now rd) (vr_now' rd) (vr_write rd) with
            | (ts, node, Some e) => (ts, refused false, Some (TofuCert e))
            | (ts, node, None) => (ts, mkVerifyResult true true (Some node) false false, None)
            end
          else (ts, refused false, None)
      end
  end.

Definition TOFUVerifier_Verify (ts : TrustStore) (AutoTrust : bool) (nodeID address : string) (certPEM : list Z)
    (line : option string) (rd : VerifyReadings) : TrustStore * VerifyResult * option TofuError :=
  verify_with ts nodeID address certPEM (fun _ => if AutoTrust then true else promptTrust line) rd.

Definition VerifyWithCallback (ts : TrustStore) (nodeID address : string) (certPEM : list Z)
    (callback : string -> string -> CertInfo -> bool) (rd : VerifyReadings)
    : TrustStore * VerifyResult * option TofuError :=
  verify_with ts nodeID address certPEM (callback nodeID address) rd.
End verifier.

(** * Theorems *)

(** ** Maps filed by a key of their values *)

Section filed.
Context {A : Type} (key : A -> string).

Definition filed (m : gmap string A) : Prop := map_Forall (fun k a => key a = k) m.

Lemma fold_insert_lookup l : NoDup (map key l) -> forall (m0 : gmap string A) k,
  fold_left (fun m a => <[key a := a]> m) l m0 !! k =
  match List.find (fun a => key a =?= k) l with Some a => Some a | None => m0 !! k end.
Proof.
  induction l as [|a l IH]; intros Hnd m0 k; [done|]. simpl in *. apply NoDup_cons in Hnd as [Ha Hnd]. rewrite IH by done.
  case_bool_decide as Hk.
  - destruct (List.find _ l) as [b|] eqn:Hf; [|by rewrite <- Hk, lookup_insert_eq].
    apply List.find_some in Hf as [Hin Hb]. apply bool_decide_eq_true in Hb. exfalso. apply Ha. rewrite Hk, <- Hb.
    by apply list_elem_of_In, in_map.
  - destruct (List.find _ l); [done|]. by rewrite lookup_insert_ne.
Qed.

(** Loading the values of a map, in any order, gives the map. *)
Lemma fold_insert_values (m : gmap string A) l :
  filed m -> l ≡ₚ map snd (map_to_list m) -> fold_left (fun m a => <[key a := a]> m) l ∅ = m.
Proof.
  intros Hf Hl.
  assert (map key l ≡ₚ map fst (map_to_list m)) as Hk.
  { rewrite (Permutation_map key Hl), map_map. erewrite map_ext_in; [done|]. intros [k a] Hin.
    apply list_elem_of_In, elem_of_map_to_list in Hin. by apply Hf. }
  assert (NoDup (map key l)) as Hnd by (rewrite Hk; apply NoDup_fst_map_to_list).
  apply map_eq. intros k. rewrite fold_insert_lookup, lookup_empty by done.
  destruct (List.find _ l) as [a|] eqn:Hfind.
  - apply List.find_some in Hfind as [Hin Hb]. apply bool_decide_eq_true in Hb. apply list_elem_of_In in Hin.
    rewrite Hl in Hin. apply list_elem_of_In, in_map_iff in Hin as ([k' a'] & Heq & Hin). simpl in Heq. subst a'.
    apply list_elem_of_In, elem_of_map_to_list in Hin. pose proof (Hf _ _ Hin) as Hka. simpl in Hka. congruence.
  - destruct (m !! k) as [a|] eqn:Hm; [|done]. exfalso. apply find_None with (y := a) in Hfind.
    + apply bool_decide_eq_false in Hfind. by apply Hfind, Hf.
    + rewrite Hl. apply list_elem_of_In, in_map_iff. exists (k, a). split; [done|]. by apply list_elem_of_In, elem_of_map_to_list.
Qed.
End filed.

(** ** Revocation *)

Section revocation_theorems.
Context `{TrustJSON}.

Lemma merge_entries_spec l : forall m n m' n', merge_entries m l n = (m', n') ->
  (forall fp, m' !! fp = match m !! fp with Some e => Some e | None => List.find (fun e => Revoked_Fingerprint e =?= fp) l end) /\
  n' = n + Z.of_nat (size m') - Z.of_nat (size m).
Proof.
  induction l as [|e l IH]; intros m n m' n' Hm; simpl in Hm.
  - injection Hm as <- <-. split; [|lia]. intros fp. by destruct (m !! fp).
  - destruct (m !! Revoked_Fingerprint e) as [e0|] eqn:He; apply IH in Hm as [Hl Hn].
    + split; [|done]. intros fp. rewrite Hl. destruct (m !! fp) eqn:Hfp; [done|]. simpl.
      case_bool_decide; [congruence|done].
    + rewrite map_size_insert_None in Hn by done. split; [|lia]. intros fp. rewrite Hl, lookup_insert.
      case_decide as Heq.
      * subst fp. rewrite He. simpl. by rewrite bool_decide_true.
      * destruct (m !! fp); [done|]. simpl. by rewrite bool_decide_false.
Qed.

Lemma merge_entries_lookup m l n fp :
  (merge_entries m l n).1 !! fp =
  match m !! fp with Some e => Some e | None => List.find (fun e => Revoked_Fingerprint e =?= fp) l end.
Proof. destruct (merge_entries m l n) as [m' n'] eqn:Hm. by destruct (merge_entries_spec _ _ _ _ _ Hm) as [Hlk _]. Qed.

Lemma save_entries rl now o :
  rl_entries (RevocationList_save rl now o).1 = rl_entries rl /\ rl_version (RevocationList_save rl now o).1 = rl_version rl.
Proof. unfold RevocationList_save. destruct (data_Marshal _); [|done]. by destruct o as [|[left|]]. Qed.

(** [Merge] is the union that prefers what is here, whatever comes of the save; it
    counts the new entries and moves the version exactly if there are any. *)
Lemma Merge_spec rl data now o :
  let '(rl', (added, _)) := Merge rl data now o in
  (forall fp, rl_entries rl' !! fp =
     match rl_entries rl !! fp with
     | Some e => Some e
     | None => List.find (fun e => Revoked_Fingerprint e =?= fp) (Data_Entries data)
     end) /\
  added = Z.of_nat (size (rl_entries rl')) - Z.of_nat (size (rl_entries rl)) /\ 0 <= added /\
  rl_version rl' = if 0 <? added then u64 (rl_version rl + 1) else rl_version rl.
Proof.
  unfold Merge. destruct (merge_entries (rl_entries rl) (Data_Entries data) 0) as [m added] eqn:Hm.
  pose proof (merge_entries_spec _ _ _ _ _ Hm) as [Hl Hn].
  assert (rl_entries rl ⊆ m) as Hsub by (apply map_subseteq_spec; intros fp e He; by rewrite Hl, He).
  pose proof (map_subseteq_size _ _ Hsub) as Hsz. destruct (0 <? added) eqn:Hpos.
  - pose proof (save_entries (set_entries rl m (u64 (rl_version rl + 1))) now o) as [He Hv].
    destruct (RevocationList_save _ now o) as [rl' err]. simpl in *. rewrite He, Hv, Hpos. split_and!; [done|lia|lia|done].
  - apply Z.ltb_ge in Hpos as Hz. assert (size m = size (rl_entries rl)) as Hs by lia.
    assert (rl_entries rl = m) as <- by (apply map_subseteq_size_eq; [done|lia]). rewrite Hpos. split_and!; [done|lia|lia|done].
Qed.

(** Entries are filed under their fingerprints. *)
Definition entries_filed (rl : RevocationList) : Prop := filed Revoked_Fingerprint (rl_entries rl).

Lemma exported_entry rl now fp :
  entries_filed rl -> List.find (fun e => Revoked_Fingerprint e =?= fp) (Data_Entries (Export rl now)) = rl_entries rl !! fp.
Proof.
  intros Hf. simpl. pose proof (fold_insert_values Revoked_Fingerprint (rl_entries rl) _ Hf (reflexivity _)) as Hm.
  rewrite <- Hm at 2. rewrite fold_insert_lookup, lookup_empty; [by destruct (List.find _ _)|].
  rewrite map_map. erewrite map_ext_in; [apply NoDup_fst_map_to_list|]. intros [k e] Hin.
  apply list_elem_of_In, elem_of_map_to_list in Hin. by apply Hf.
Qed.

(** C19: two nodes that merge each other's exports have revoked the same
    certificates, every one that either had, and exchanging again changes nothing. *)
Theorem revocation_exchange a b t1 t2 t3 o1 o2 o3 (Ha : entries_filed a) (Hb : entries_filed b) :
  let a' := (Merge a (Export b t1) t1 o1).1 in
  let b' := (Merge b (Export a t2) t2 o2).1 in
  (forall fp, IsRevoked a' fp = IsRevoked a fp || IsRevoked b fp) /\
  (forall fp, IsRevoked b' fp = IsRevoked a' fp) /\
  Merge a' (Export b' t3) t3 o3 = (a', (0, None)).
Proof.
  intros a' b'.
  assert (forall x y t o, entries_filed y -> forall fp, rl_entries (Merge x (Export y t) t o).1 !! fp =
    match rl_entries x !! fp with Some e => Some e | None => rl_entries y !! fp end) as Hmerge.
  { intros x y t o Hy fp. pose proof (Merge_spec x (Export y t) t o) as Hs.
    destruct (Merge x (Export y t) t o) as [x' [added err]]. destruct Hs as [Hl _]. cbn [fst]. rewrite Hl.
    by rewrite (exported_entry y t fp Hy). }
  pose proof (Hmerge a b t1 o1 Hb) as Ha'. pose proof (Hmerge b a t2 o2 Ha) as Hb'. fold a' in Ha'. fold b' in Hb'.
  assert (entries_filed b') as Hfb.
  { intros fp e. rewrite Hb'. destruct (rl_entries b !! fp) eqn:E; [intros [= <-]; by apply Hb|by apply Ha]. }
  split_and!.
  - intros fp. unfold IsRevoked. rewrite Ha'. by destruct (rl_entries a !! fp), (rl_entries b !! fp).
  - intros fp. unfold IsRevoked. rewrite Ha', Hb'. by destruct (rl_entries a !! fp), (rl_entries b !! fp).
  - unfold Merge. destruct (merge_entries (rl_entries a') (Data_Entries (Export b' t3)) 0) as [m added] eqn:Hm.
    apply merge_entries_spec in Hm as [Hl Hn]. assert (m = rl_entries a') as ->.
    { apply map_eq. intros fp. rewrite Hl, (exported_entry b' t3 fp Hfb), Ha', Hb'.
      by destruct (rl_entries a !! fp), (rl_entries b !! fp). }
    assert (added = 0) as -> by lia. done.
Qed.

(** ** Restarts *)

Inductive rev_op :=
| RvRevoke (entry : RevokedCertificate) (now now' : Time)
| RvRemove (fingerprint : string) (now : Time)
| RvMerge (data : RevocationListData) (now : Time)
| RvPrune (olderThan : Duration) (now now' : Time).

Definition rev_step (rl : RevocationList) (op : rev_op) : RevocationList :=
  match op with
  | RvRevoke e now now' => (Revoke rl e now now' Written).1
  | RvRemove fp now => (RevocationList_Remove rl fp now Written).1
  | RvMerge data now => (Merge rl data now Written).1
  | RvPrune d now now' => (Prune rl d now now' Written).1
  end.

Definition rev_op_json (op : rev_op) : bool :=
  match op with
  | RvRevoke e now now' => json_entry e && json_time now && json_time now'
  | RvRemove _ now => json_time now
  | RvMerge data now => forallb json_entry (Data_Entries data) && json_time now
  | RvPrune _ _ now' => json_time now'
  end.

Record rev_inv (rl : RevocationList) : Prop := {
  ri_filed : entries_filed rl;
  ri_json : map_Forall (fun _ e => json_entry e = true) (rl_entries rl);
  ri_file : NewRevocationList (rl_file rl) = Ok rl
}.

Lemma save_inv rl now :
  entries_filed rl -> map_Forall (fun _ e => json_entry e = true) (rl_entries rl) -> json_time now = true ->
  rev_inv (RevocationList_save rl now Written).1.
Proof.
  intros Hf Hj Hnow. unfold RevocationList_save. destruct (data_round_trip (exportLocked rl now)) as (b & Hb & Hne & Hu).
  { unfold json_data, exportLocked. cbn [Data_Entries Data_UpdatedAt]. rewrite Hnow, andb_true_r. apply forallb_forall.
    intros e He. apply in_map_iff in He as ([fp e'] & Heq & Hin). simpl in Heq. subst e'.
    by apply list_elem_of_In, elem_of_map_to_list, Hj in Hin. }
  rewrite Hb. split; [exact Hf|exact Hj|]. cbn [fst rl_file]. unfold NewRevocationList. destruct b as [|x b]; [done|].
  rewrite Hu. unfold exportLocked. cbn [Data_Entries Data_Version]. unfold load_entries.
  by rewrite (fold_insert_values Revoked_Fingerprint (rl_entries rl) _ Hf (reflexivity _)).
Qed.

Lemma rev_step_inv rl op : rev_inv rl -> rev_op_json op = true -> rev_inv (rev_step rl op).
Proof.
  intros [Hf Hj Hfile] Hop. destruct op as [e now now'|fp now|data now|d now now']; simpl in Hop |- *.
  - apply andb_true_iff in Hop as [[He Hnow]%andb_true_iff Hnow']. unfold Revoke. set (e' := if IsZero (Revoked_RevokedAt e) then _ else e).
    assert (json_entry e' = true) as He'.
    { subst e'. destruct (IsZero _); [|done]. unfold json_entry in *. simpl. rewrite !andb_true_iff in *. tauto. }
    apply save_inv; [|by apply map_Forall_insert_2|done]. by apply map_Forall_insert_2.
  - unfold RevocationList_Remove. destruct (IsRevoked rl fp); [|done].
    apply save_inv; [by apply map_Forall_delete|by apply map_Forall_delete|done].
  - apply andb_true_iff in Hop as [Hd Hnow]. rewrite forallb_forall in Hd. unfold Merge.
    destruct (merge_entries (rl_entries rl) (Data_Entries data) 0) as [m added] eqn:Hm. destruct (0 <? added); [|done].
    apply merge_entries_spec in Hm as [Hl _].
    assert (forall fp e, m !! fp = Some e -> rl_entries rl !! fp = Some e \/ (e ∈ Data_Entries data /\ Revoked_Fingerprint e = fp)) as Hor.
    { intros fp e. rewrite Hl. destruct (rl_entries rl !! fp); [by left|]. intros Hfind. right.
      apply List.find_some in Hfind as [Hin Hb]. split; [by apply list_elem_of_In|by apply bool_decide_eq_true in Hb]. }
    pose proof (save_inv (set_entries rl m (u64 (rl_version rl + 1))) now) as Hs.
    destruct (RevocationList_save _ now Written) as [rl' err]. apply Hs; [..|done].
    + intros fp e He. destruct (Hor fp e He) as [He'|[_ He']]; [by apply Hf|done].
    + intros fp e He. destruct (Hor fp e He) as [He'|[He' _]]; [by apply (Hj fp)|]. by apply Hd, list_elem_of_In.
  - unfold Prune. set (kept := filter _ _). destruct (0 <? _); [|done].
    pose proof (save_inv (set_entries rl kept (u64 (rl_version rl + 1))) now') as Hs.
    destruct (RevocationList_save _ now' Written) as [rl' err].
    apply Hs; [..|done]; intros fp e He; subst kept; simpl in He; apply map_lookup_filter_Some in He as [He _];
      [by apply Hf|by apply (Hj fp)].
Qed.

(** Whatever was revoked, removed, merged and pruned, the list a restarted node
    reads from its file is the list it had, version included, as long as the writes
    succeed and the entries are plain text. *)
Theorem revocation_restart ops (Hops : forallb rev_op_json ops = true) :
  let rl := fold_left rev_step ops (mkRevocationList ∅ 0 None) in
  NewRevocationList (rl_file rl) = Ok rl.
Proof.
  intros rl. apply ri_file. subst rl. assert (rev_inv (mkRevocationList ∅ 0 None)) as Hi by (split; try apply map_Forall_empty; done).
  revert Hi. generalize (mkRevocationList ∅ 0 None). induction ops as [|op ops IH]; intros rl Hi; [done|].
  simpl in Hops. apply andb_true_iff in Hops as [Ho Hops]. simpl. apply IH; [done|]. by apply rev_step_inv.
Qed.

(** Removing a revocation does not last: the next exchange with a node that still
    has it brings it back. *)
Lemma removed_comes_back a b fp now t o o' :
  entries_filed b -> IsRevoked b fp = true ->
  IsRevoked (Merge (RevocationList_Remove a fp now o).1 (Export b t) t o').1 fp = true.
Proof.
  intros Hb Hfp. pose proof (Merge_spec (RevocationList_Remove a fp now o).1 (Export b t) t o') as Hs.
  destruct (Merge _ _ _ _) as [x [added err]]. destruct Hs as [Hl _]. cbn [fst]. unfold IsRevoked. rewrite Hl.
  destruct (rl_entries (RevocationList_Remove a fp now o).1 !! fp); [done|]. rewrite exported_entry by done. exact Hfp.
Qed.

Section library_theorems.
Context `{CertLibrary} `{Crypto}.

(** A certificate revoked by its PEM text is found by its fingerprint... *)
Lemma RevokeCert_revokes rl pem reason by_ notes now now' o c :
  ParseCertificate pem = Ok c ->
  IsRevoked (RevokeCert rl pem reason by_ notes now now' o).1 (Cert_Fingerprint c) = true.
Proof.
  intros Hc. unfold RevokeCert. rewrite Hc. unfold Revoke, IsRevoked. set (e := if IsZero _ then _ else _).
  rewrite (proj1 (save_entries _ _ _)). simpl. subst e. destruct (IsZero _); simpl; by rewrite lookup_insert_eq.
Qed.

(** ...but not by [IsCertRevoked], which parses DER as PEM and looks up the empty
    fingerprint. *)
Theorem IsCertRevoked_blind rl cert (Hder : pem_Decode (X_Raw cert) = None) (Hnone : IsRevoked rl "" = false) :
  IsCertRevoked rl cert = false.
Proof. unfold IsCertRevoked, CertFingerprint, ParseCertificate, parse_pem. by rewrite Hder. Qed.
End library_theorems.
End revocation_theorems.

(** ** Trust on first use *)

Section tofu_theorems.
Context `{TrustJSON} `{CertLibrary} `{Crypto} `{UnicodeTables}.

Inductive trust_op :=
| TVerify (AutoTrust : bool) (nodeID address : string) (pem : list Z) (line : option string) (rd : VerifyReadings)
| TCallback (nodeID address : string) (pem : list Z) (callback : string -> string -> CertInfo -> bool) (rd : VerifyReadings)
| TSeen (nodeID : string) (now : Time) (o : WriteOutcome)
| TPin (nodeID : string) (now : Time) (o : WriteOutcome)
| TMark (nodeID : string) (o : WriteOutcome)
| TAlias (nodeID alias : string) (o : WriteOutcome)
| TRemove (nodeID : string) (removed : bool)
| TAdd (node : TrustedNode) (now now' : Time) (o : WriteOutcome)
| TReopen.

Definition trust_step (ts : TrustStore) (op : trust_op) : TrustStore :=
  match op with
  | TVerify auto n a pem line rd => (TOFUVerifier_Verify ts auto n a pem line rd).1.1
  | TCallback n a pem cb rd => (VerifyWithCallback ts n a pem cb rd).1.1
  | TSeen n now o => (UpdateLastSeen ts n now o).1
  | TPin n now o => (Pin ts n now o).1
  | TMark n o => (TrustStore_Verify ts n o).1
  | TAlias n alias o => (SetAlias ts n alias o).1
  | TRemove n removed => (TrustStore_Remove ts n removed).1
  | TAdd node now now' o => (TrustStore_Add ts node now now' o).1.1
  | TReopen => NewTrustStore (ts_files ts)
  end.

(** The two calls that change what a node is known by: its removal, and [Add] by hand. *)
Definition replaces (n : string) (op : trust_op) : bool :=
  match op with TRemove m _ => m =?= n | TAdd node _ _ _ => Node_NodeID node =?= n | _ => false end.
Definition reopens (op : trust_op) : bool := match op with TReopen => true | _ => false end.

(** The fingerprint a node is known by. *)
Definition known_as (ts : TrustStore) (n : string) : option string := Node_Fingerprint <$> ts_nodes ts !! n.

Lemma TrustStore_save_nodes ts node o : ts_nodes (TrustStore_save ts node o).1 = ts_nodes ts.
Proof. unfold TrustStore_save. destruct (node_Marshal node); [|done]. by destruct (WriteFile _ _ _ _). Qed.

Lemma update_node_known ts m f o n :
  (forall nd, Node_Fingerprint (f nd) = Node_Fingerprint nd) -> known_as (update_node ts m f o).1 n = known_as ts n.
Proof.
  intros Hf. unfold update_node. destruct (ts_nodes ts !! m) as [nd|] eqn:Hm; [|done]. unfold known_as.
  rewrite TrustStore_save_nodes. simpl. rewrite lookup_insert. case_decide as Heq; [|done]. subst m. rewrite Hm. simpl.
  by rewrite Hf.
Qed.

Lemma TrustStore_Add_known ts node now now' o n :
  known_as (TrustStore_Add ts node now now' o).1.1 n = if Node_NodeID node =?= n then Some (Node_Fingerprint node) else known_as ts n.
Proof.
  unfold TrustStore_Add. set (nd := set_seen _ _ _). pose proof (TrustStore_save_nodes
    (mkTrustStore (<[Node_NodeID nd:=nd]> (ts_nodes ts)) (ts_files ts)) nd o) as Hs.
  destruct (TrustStore_save _ nd o) as [ts' err]. simpl in *. unfold known_as. rewrite Hs, lookup_insert.
  case_decide; case_bool_decide; done.
Qed.

(** Every outcome of a verification, by what the store knew. *)
Lemma verify_with_known ts n a pem accept rd info :
  ParseCertInfo pem = Ok info ->
  let '(ts', r, err) := verify_with ts n a pem accept rd in
  match known_as ts n with
  | Some fp =>
      if fp =?= CertInfo_Fingerprint info
      then Result_Trusted r = true /\ Result_NewTrust r = false /\ err = None /\ forall m, known_as ts' m = known_as ts m
      else ts' = ts /\ r = refused true /\ err = Some TofuMismatch
  | None =>
      if accept info
      then (forall m, known_as ts' m = if n =?= m then Some (CertInfo_Fingerprint info) else known_as ts m) /\
           (Result_Trusted r = true <-> err = None) /\ Result_NewTrust r = Result_Trusted r
      else ts' = ts /\ r = refused false /\ err = None
  end.
Proof.
  intros Hinfo. unfold verify_with. rewrite Hinfo. unfold IsTrusted. destruct (ts_nodes ts !! n) as [nd|] eqn:Hn.
  - assert (known_as ts n = Some (Node_Fingerprint nd)) as -> by (unfold known_as; by rewrite Hn).
    case_bool_decide as Hfp; simpl; [|done]. split_and!; try done. intros m. by apply update_node_known.
  - assert (known_as ts n = None) as -> by (unfold known_as; by rewrite Hn). destruct (accept info); [|done].
    pose proof (TrustStore_Add_known ts (tofu_node n a (CertInfo_Fingerprint info) pem) (vr_now rd) (vr_now' rd) (vr_write rd)) as Hadd.
    destruct (TrustStore_Add _ _ _ _ _) as [[ts' nd'] [e|]]; simpl in *; split_and!; try done; by intros.
Qed.

Lemma verify_with_keeps ts n a pem accept rd m fp :
  known_as ts m = Some fp -> known_as (verify_with ts n a pem accept rd).1.1 m = Some fp.
Proof.
  intros Hm. destruct (ParseCertInfo pem) as [info|e] eqn:Hinfo; [|unfold verify_with; by rewrite Hinfo].
  pose proof (verify_with_known ts n a pem accept rd info Hinfo) as Hk.
  destruct (verify_with ts n a pem accept rd) as [[ts' r] err]. cbn [fst].
  destruct (known_as ts n) as [fp'|] eqn:Hn.
  - case_bool_decide; [|by destruct Hk as (-> & _)]. destruct Hk as (_ & _ & _ & Hk). by rewrite Hk.
  - destruct (accept info); [|by destruct Hk as (-> & _)]. destruct Hk as (Hk & _). rewrite Hk.
    case_bool_decide; [congruence|done].
Qed.

Lemma trust_step_keeps ts op n fp :
  known_as ts n = Some fp -> replaces n op = false -> reopens op = false -> known_as (trust_step ts op) n = Some fp.
Proof.
  intros Hn Hr Ho. destruct op; simpl in *; try (by apply verify_with_keeps);
    try (by unfold UpdateLastSeen, Pin, TrustStore_Verify, SetAlias; rewrite update_node_known); [| |done].
  - bool_props. unfold TrustStore_Remove. destruct (ts_nodes ts !! nodeID) eqn:Hm; [|exact Hn].
    unfold known_as. destruct removed, (ts_files ts !! nodePath nodeID); simpl; by rewrite lookup_delete_ne.
  - rewrite TrustStore_Add_known. by rewrite Hr.
Qed.

(** ** Restarts of the trust store *)

(** Node identifiers that are file names already, as peer identifiers are. *)
Definition plain (n : string) : bool := forallb safe_byte (bytes_of n).

Lemma sanitize_plain n : plain n = true -> sanitizeFilename n = n.
Proof.
  intros Hp. unfold sanitizeFilename. rewrite (map_ext_in _ id), map_id; [apply String.string_of_list_ascii_of_string|].
  intros c Hc. unfold plain in Hp. rewrite forallb_forall in Hp. by rewrite (Hp c Hc).
Qed.

Definition json_name (n : string) : string := n ++ ".json".

Lemma bytes_of_json_name n : bytes_of (json_name n) = bytes_of n ++ bytes_of ".json".
Proof. apply bytes_of_append. Qed.

#[local] Instance json_name_inj : Inj (=) (=) json_name.
Proof.
  intros a b Heq. apply bytes_of_inj. apply (f_equal String.list_ascii_of_string) in Heq.
  rewrite !bytes_of_json_name in Heq. by apply (inj (fun l => l ++ _)) in Heq.
Qed.

Lemma is_json_name n : is_json (json_name n) = true.
Proof.
  unfold is_json. rewrite bytes_of_json_name. apply bool_decide_eq_true. rewrite length_app. simpl length.
  replace (length (bytes_of n) + 5 - 5)%nat with (length (bytes_of n)) by lia. by rewrite drop_app_length.
Qed.

Definition node_bytes (nd : TrustedNode) : list Z := default [] (node_Marshal nd).

(** Memory and directory agree. *)
Record trust_inv (ts : TrustStore) : Prop := {
  ti_filed : filed Node_NodeID (ts_nodes ts);
  ti_nodes : map_Forall (fun _ nd => plain (Node_NodeID nd) = true /\ json_node nd = true) (ts_nodes ts);
  ti_files : ts_files ts = kmap json_name (node_bytes <$> ts_nodes ts)
}.

Lemma save_trust_inv ts nd :
  trust_inv ts -> plain (Node_NodeID nd) = true -> json_node nd = true ->
  trust_inv (TrustStore_save (mkTrustStore (<[Node_NodeID nd := nd]> (ts_nodes ts)) (ts_files ts)) nd Written).1 /\
  (TrustStore_save (mkTrustStore (<[Node_NodeID nd := nd]> (ts_nodes ts)) (ts_files ts)) nd Written).2 = None.
Proof.
  intros [Hf Hn Hfs] Hp Hj. unfold TrustStore_save. destruct (node_round_trip nd Hj) as (b & Hb & _). rewrite Hb. simpl.
  split; [|done]. split; simpl; [by apply map_Forall_insert_2|by apply map_Forall_insert_2|].
  rewrite Hfs, fmap_insert, (kmap_insert json_name). unfold nodePath, node_bytes at 2. by rewrite sanitize_plain, Hb.
Qed.

Lemma load_files_nodes (l : list (string * TrustedNode)) : forall m,
  Forall (fun p => plain p.1 = true /\ json_node p.2 = true) l ->
  fold_left load_file (map (fun p => (json_name p.1, node_bytes p.2)) l) m =
  fold_left (fun m a => <[Node_NodeID a := a]> m) (map snd l) m.
Proof.
  intros m Hl. revert m. induction Hl as [|[n nd] l [_ Hj] _ IH]; intros m; [done|]. simpl in *. rewrite IH. f_equal.
  unfold load_file. simpl. rewrite is_json_name. unfold node_bytes.
  destruct (node_round_trip nd Hj) as (b & -> & Hu). simpl. by rewrite Hu.
Qed.

Lemma trust_inv_reload ts : trust_inv ts -> NewTrustStore (ts_files ts) = ts.
Proof.
  intros [Hf Hn Hfs]. unfold NewTrustStore. set (files := merge_sort _ _).
  assert (files ≡ₚ map (fun p => (json_name p.1, node_bytes p.2)) (map_to_list (ts_nodes ts))) as Hp.
  { unfold files. rewrite merge_sort_Permutation, Hfs, (map_to_list_kmap json_name), map_to_list_fmap.
    change (@map ?A ?B ?f ?l) with (f <$> l). rewrite <- list_fmap_compose. apply reflexive_eq, list_fmap_ext.
    by intros i [n nd] _. }
  apply Permutation_map_inv in Hp as (l & Hl & Hp). rewrite Hl, load_files_nodes.
  - rewrite (fold_insert_values Node_NodeID (ts_nodes ts)); [by destruct ts|done|]. by rewrite Hp.
  - rewrite Forall_forall. intros [n nd] Hin. rewrite <- Hp in Hin. apply elem_of_map_to_list in Hin. simpl.
    destruct (Hn _ _ Hin) as [Hpl Hj]. split; [|done]. by rewrite <- (Hf _ _ Hin).
Qed.

Lemma update_trust_inv ts n f :
  trust_inv ts -> (forall nd, json_node nd = true -> Node_NodeID (f nd) = Node_NodeID nd /\ json_node (f nd) = true) ->
  trust_inv (update_node ts n f Written).1.
Proof.
  intros Hi Hok. unfold update_node. destruct (ts_nodes ts !! n) as [nd|] eqn:Hnd; [|done].
  pose proof (ti_filed _ Hi _ _ Hnd) as Hn. destruct (ti_nodes _ Hi _ _ Hnd) as [Hp Hj]. destruct (Hok nd Hj) as [Hid Hj'].
  simpl in Hn. rewrite <- Hn, <- Hid. apply save_trust_inv; [done|by rewrite Hid|done].
Qed.

Lemma Remove_trust_inv ts n : trust_inv ts -> trust_inv (TrustStore_Remove ts n true).1.
Proof.
  intros [Hf Hn Hfs]. unfold TrustStore_Remove. destruct (ts_nodes ts !! n) as [nd|] eqn:Hnd; [|by split].
  assert (nodePath n = json_name n) as Hpath.
  { unfold nodePath. rewrite sanitize_plain; [done|]. rewrite <- (Hf _ _ Hnd). by apply (Hn _ _ Hnd). }
  rewrite Hpath. rewrite Hfs at 1. rewrite (lookup_kmap json_name), lookup_fmap, Hnd. simpl.
  split; simpl; [by apply map_Forall_delete|by apply map_Forall_delete|].
  by rewrite Hfs, fmap_delete, (kmap_delete json_name).
Qed.

Definition ascii_bytes (l : list Z) : bool := forallb (fun b => (0 <=? b) && (b <? 128)) l.

(** Plain text, times JSON can write, and files that can be written and removed. *)
Definition good_readings (rd : VerifyReadings) : bool :=
  json_time (vr_now rd) && json_time (vr_now' rd) && match vr_write rd with Written => true | _ => false end.
Definition written (o : WriteOutcome) : bool := match o with Written => true | _ => false end.
Definition good_op (op : trust_op) : bool :=
  match op with
  | TVerify _ n a pem _ rd | TCallback n a pem _ rd => plain n && is_ascii a && ascii_bytes pem && good_readings rd
  | TSeen _ now o | TPin _ now o => json_time now && written o
  | TMark _ o => written o
  | TAlias _ alias o => is_ascii alias && written o
  | TRemove _ removed => removed
  | TAdd node now now' o =>
      plain (Node_NodeID node) && json_node node && json_time now && json_time now' && written o
  | TReopen => true
  end.

Lemma hex_is_ascii bs : Forall is_u8 bs -> is_ascii (EncodeToString bs) = true.
Proof.
  intros Hb. unfold is_ascii. rewrite EncodeToString_bytes.
  assert (forall n, 0 <= n < 16 -> is_ascii_byte (hex_digit n) = true) as Hd.
  { intros n Hn. apply (forall_below 16 (fun n => is_ascii_byte (hex_digit n))); [by vm_compute|done]. }
  induction Hb as [|b bs Hb _ IH]; [done|]. simpl. unfold is_u8 in Hb.
  rewrite !Hd, IH by (Z.div_mod_to_equations; lia). done.
Qed.

Lemma plain_ascii n : plain n = true -> is_ascii n = true.
Proof.
  unfold plain, is_ascii. rewrite !forallb_forall. intros Hp c Hc. specialize (Hp c Hc). revert Hp.
  clear. destruct c as [[] [] [] [] [] [] [] []]; vm_compute; congruence.
Qed.

(** The other fields stay as they are. *)
Ltac json_fields := unfold json_node in *; simpl; rewrite !andb_true_iff in *; tauto.

Lemma verify_trust_inv ts n a pem accept rd :
  trust_inv ts -> plain n = true -> is_ascii a = true -> ascii_bytes pem = true -> good_readings rd = true ->
  trust_inv (verify_with ts n a pem accept rd).1.1.
Proof.
  intros Hi Hp Ha Hpem Hrd. unfold good_readings in Hrd. rewrite !andb_true_iff in Hrd. destruct Hrd as [[Ht Ht'] Hw].
  destruct (vr_write rd) eqn:Hw'; [|done]. unfold verify_with. destruct (ParseCertInfo pem) as [info|] eqn:Hinfo; [|done].
  unfold IsTrusted. destruct (ts_nodes ts !! n) as [nd|] eqn:Hnd.
  - case_bool_decide; simpl; [|done]. rewrite Hw'. apply update_trust_inv; [done|]. intros nd' Hj. split; [done|].
    json_fields.
  - destruct (accept info); [|done]. unfold TrustStore_Add. simpl. rewrite Hnd, Hw'. set (node := set_seen _ _ _).
    assert (is_ascii (CertInfo_Fingerprint info) = true) as Hfp.
    { unfold ParseCertInfo in Hinfo. destruct (parse_pem pem); [|done]. injection Hinfo as <-. simpl.
      apply hex_is_ascii, sha256_is_bytes. }
    destruct (save_trust_inv ts node Hi Hp) as [Hs He].
    { unfold json_node. simpl. unfold ascii_bytes in Hpem. rewrite (plain_ascii n Hp), Hfp, Hpem, Ha, Ht, Ht'. done. }
    destruct (TrustStore_save _ node Written) as [ts' err]. simpl in *. by subst err.
Qed.

Lemma Add_trust_inv ts node now now' :
  trust_inv ts -> plain (Node_NodeID node) = true -> json_node node = true ->
  json_time now = true -> json_time now' = true -> trust_inv (TrustStore_Add ts node now now' Written).1.1.
Proof.
  intros Hi Hp Hj Ht Ht'. unfold TrustStore_Add. set (nd := set_seen _ _ _).
  assert (json_time (match ts_nodes ts !! Node_NodeID node with
                     | Some existing => Node_FirstSeen existing
                     | None => if IsZero (Node_FirstSeen node) then now else Node_FirstSeen node
                     end) = true) as Hf.
  { destruct (ts_nodes ts !! Node_NodeID node) as [existing|] eqn:He.
    - destruct (ti_nodes ts Hi _ _ He) as [_ Hje]. json_fields.
    - destruct (IsZero (Node_FirstSeen node)); [done|json_fields]. }
  assert (json_time (if IsZero (Node_LastSeen node) then now' else Node_LastSeen node) = true) as Hl
    by (destruct (IsZero (Node_LastSeen node)); [done|json_fields]).
  destruct (save_trust_inv ts nd Hi Hp) as [Hs _].
  { unfold json_node in *. subst nd. cbn [set_seen Node_NodeID Node_Fingerprint Node_Certificate Node_FirstSeen
      Node_LastSeen Node_Alias Node_Address Node_TrustMethod Node_PinnedAt Node_Verified Node_Notes].
    rewrite Hf, Hl. rewrite !andb_true_iff in Hj |- *. tauto. }
  by destruct (TrustStore_save _ nd Written) as [ts' err].
Qed.

Lemma trust_step_inv ts op : trust_inv ts -> good_op op = true -> trust_inv (trust_step ts op).
Proof.
  intros Hi Hg. destruct op; simpl in Hg; rewrite ?andb_true_iff in Hg.
  - destruct Hg as [[[Hp Ha] Hpem] Hrd]. by apply verify_trust_inv.
  - destruct Hg as [[[Hp Ha] Hpem] Hrd]. by apply verify_trust_inv.
  - destruct Hg as [Ht Hw]. destruct o; [|done]. apply update_trust_inv; [done|]. intros nd Hj. split; [done|].
    json_fields.
  - destruct Hg as [Ht Hw]. destruct o; [|done]. apply update_trust_inv; [done|]. intros nd Hj. split; [done|].
    json_fields.
  - destruct o; [|done]. by apply update_trust_inv.
  - destruct Hg as [Ht Hw]. destruct o; [|done]. apply update_trust_inv; [done|]. intros nd Hj. split; [done|].
    json_fields.
  - subst removed. by apply Remove_trust_inv.
  - destruct Hg as [[[[Hp Hj] Ht] Ht'] Hw]. destruct o; [|done]. by apply Add_trust_inv.
  - simpl. by rewrite trust_inv_reload.
Qed.

(** The trust store a restarted client reads from its directory is the one it
    had: nothing trusted, pinned or renamed is lost and nothing removed returns, for
    nodes named by plain identifiers and files that can be written. *)
Theorem trust_store_restart ops (Hops : forallb good_op ops = true) :
  let ts := fold_left trust_step ops (mkTrustStore ∅ ∅) in NewTrustStore (ts_files ts) = ts.
Proof.
  intros ts. apply trust_inv_reload. subst ts.
  assert (trust_inv (mkTrustStore ∅ ∅)) as Hi.
  { split; simpl; [apply map_Forall_empty|apply map_Forall_empty|]. by rewrite fmap_empty, kmap_empty. }
  revert Hi. generalize (mkTrustStore ∅ ∅). induction ops as [|op ops IH]; intros ts Hi; [done|].
  simpl in Hops. apply andb_true_iff in Hops as [Ho Hops]. simpl. apply IH; [done|]. by apply trust_step_inv.
Qed.

(** ** Trust on first use *)

(** What a node is known by stays, through operations of an open store, and through
    reopening it as well when memory and directory agree. *)
Lemma trust_steps_keep ops ts n fp :
  known_as ts n = Some fp -> Forall (fun op => replaces n op = false) ops ->
  Forall (fun op => reopens op = false) ops \/ (trust_inv ts /\ Forall (fun op => good_op op = true) ops) ->
  known_as (fold_left trust_step ops ts) n = Some fp.
Proof.
  intros Hn Hops. revert ts Hn. induction Hops as [|op ops Hop _ IH]; intros ts Hn Hor; [done|]. simpl. apply IH.
  - destruct Hor as [[Ho _]%Forall_cons|[Hi [Hg _]%Forall_cons]]; [by apply trust_step_keeps|].
    destruct (reopens op) eqn:Ho; [|by apply trust_step_keeps].
    destruct op; try discriminate Ho. simpl. by rewrite trust_inv_reload.
  - destruct Hor as [[_ Ho]%Forall_cons|[Hi [Hg Hgs]%Forall_cons]]; [by left|right].
    split; [|done]. by apply trust_step_inv.
Qed.

(** C12: once a node is trusted with a certificate, every other certificate presented in
    its name is refused as a mismatch and changes nothing, until the node is removed or
    [Add], which [bib trust add] calls, is called for it.  That is so whatever else is
    verified, pinned, renamed, added or removed in the store that is open, with automatic
    trust or not, and whether or not files can be written; and also across reopening the
    store, if its directory holds what it has in memory, nodes have names that are file
    names already, texts are ASCII with times that JSON can write, and files can be
    written and removed.  (Without that a pin can be lost: [pin_lost_by_collision],
    [pin_lost_by_failed_write].) *)
Theorem tofu_pins_certificate ts ops n fp auto a pem line rd info
    (Hknown : known_as ts n = Some fp) (Hops : Forall (fun op => replaces n op = false) ops)
    (Hopen : Forall (fun op => reopens op = false) ops \/ (trust_inv ts /\ Forall (fun op => good_op op = true) ops))
    (Hinfo : ParseCertInfo pem = Ok info) (Hother : CertInfo_Fingerprint info <> fp) :
  let ts' := fold_left trust_step ops ts in
  TOFUVerifier_Verify ts' auto n a pem line rd = (ts', refused true, Some TofuMismatch).
Proof.
  intros ts'. pose proof (trust_steps_keep ops ts n fp Hknown Hops Hopen : known_as ts' n = Some fp) as Hn.
  unfold TOFUVerifier_Verify. set (accept := fun _ => _).
  pose proof (verify_with_known ts' n a pem accept rd info Hinfo) as Hv.
  destruct (verify_with ts' n a pem accept rd) as [[ts2 r] err]. rewrite Hn, bool_decide_false in Hv by congruence.
  by destruct Hv as (-> & -> & ->).
Qed.
End tofu_theorems.

(** ** Witnesses and collisions *)

#[export] Instance RevokedCertificate_countable : Countable RevokedCertificate.
Proof.
  refine (inj_countable'
    (fun e => (Revoked_Fingerprint e, Revoked_SerialHex e, Revoked_Subject e, Revoked_RevokedAt e, Revoked_Reason e,
               Revoked_RevokedBy e, Revoked_ExpiresAt e, Revoked_Notes e))
    (fun '(a, b, c, d, e, f, g, h) => mkRevokedCertificate a b c d e f g h) _).
  by intros [].
Defined.
#[export] Instance RevocationListData_eq_dec : EqDecision RevocationListData.
Proof. solve_decision. Defined.
#[export] Instance TrustedNode_countable : Countable TrustedNode.
Proof.
  refine (inj_countable'
    (fun n => (Node_NodeID n, Node_Fingerprint n, Node_Certificate n, Node_FirstSeen n, Node_LastSeen n, Node_Alias n,
               Node_Address n, Node_TrustMethod n, Node_PinnedAt n, Node_Verified n, Node_Notes n))
    (fun '(a, b, c, d, e, f, g, h, i, j, k) => mkTrustedNode a b c d e f g h i j k) _).
  by intros [].
Defined.

(** Records written as numbers. *)
Definition toy_trust_json : TrustJSON.
Proof.
  refine {|
    data_Marshal d := Some [Zpos (encode (Data_Version d, Data_UpdatedAt d, Data_Entries d))];
    data_Unmarshal b :=
      match b with
      | [Zpos p] => '(v, t, es) ← decode p; Some (mkRevocationListData v t es)
      | _ => None
      end;
    node_Marshal n := Some [Zpos (encode n)];
    node_Unmarshal b := match b with [Zpos p] => decode p | _ => None end |}.
  - intros [v t es] _. eexists. split_and!; [done|done|]. simpl. by rewrite decode_encode.
  - intros n _. eexists. split; [done|]. simpl. by rewrite decode_encode.
Defined.

Section witnesses.
#[local] Existing Instance toy_trust_json.
#[local] Existing Instance toy_library.
#[local] Existing Instance toy_crypto.
#[local] Existing Instance identity_tables.

Definition toy_revoked (fp : string) : RevokedCertificate := mkRevokedCertificate fp "1f" "CN=x" 5 "key_compromise" "admin" 9 "".
Definition list_with (fps : list string) : RevocationList :=
  fold_left (fun rl fp => (Revoke rl (toy_revoked fp) 6 7 Written).1) fps (mkRevocationList ∅ 0 None).

Lemma list_with_filed fps : entries_filed (list_with fps).
Proof.
  unfold list_with. assert (entries_filed (mkRevocationList ∅ 0 None)) as Hi by apply map_Forall_empty.
  revert Hi. generalize (mkRevocationList ∅ 0 None). induction fps as [|fp fps IH]; intros rl Hi; [done|]. simpl.
  apply IH. unfold entries_filed. by apply map_Forall_insert_2.
Qed.

Lemma revocation_exchange_witness :
  IsRevoked (Merge (list_with ["a"; "b"]%string) (Export (list_with ["b"; "c"]%string) 8) 8 Written).1 "c" = true /\
  forall fp, IsRevoked (Merge (list_with ["b"; "c"]%string) (Export (list_with ["a"; "b"]%string) 8) 8 Written).1 fp =
             IsRevoked (Merge (list_with ["a"; "b"]%string) (Export (list_with ["b"; "c"]%string) 8) 8 Written).1 fp.
Proof.
  split; [by vm_compute|].
  apply (revocation_exchange (list_with ["a"; "b"]%string) (list_with ["b"; "c"]%string) 8 8 8 Written Written Written
    (list_with_filed _) (list_with_filed _)).
Defined.

Definition toy_rev_ops : list rev_op :=
  [RvRevoke (toy_revoked "a") 1 2; RvMerge (mkRevocationListData 3 4 [toy_revoked "b"; toy_revoked "c"]) 5;
   RvRemove "b" 6; RvPrune 1 20 21].
Lemma revocation_restart_witness :
  let rl := fold_left rev_step toy_rev_ops (mkRevocationList ∅ 0 None) in
  rl_version rl = 4 /\ NewRevocationList (rl_file rl) = Ok rl.
Proof. split; [by vm_compute|]. apply (revocation_restart toy_rev_ops). by vm_compute. Defined.

(** Three certificates, as PEM. *)
Definition pem_a : list Z := [1; 65].
Definition pem_b : list Z := [1; 66].
Definition pem_c : list Z := [1; 67].
Definition toy_fp (pem : list Z) : string :=
  match ParseCertInfo pem with Ok info => CertInfo_Fingerprint info | Err _ => "" end.
Definition toy_read : VerifyReadings := mkVerifyReadings 3 3 Written.
Definition after_first_use : TrustStore :=
  (TOFUVerifier_Verify (mkTrustStore ∅ ∅) false "n1" "host:1" pem_a (Some "Yes ") toy_read).1.1.

(** In an open store whose files cannot be written, and across reopening one. *)
Lemma tofu_pins_certificate_witness :
  let failing := mkVerifyReadings 3 3 (WriteFailed None) in
  let ts' := fold_left trust_step [TPin "n1" 4 (WriteFailed None); TRemove "n2" false; TVerify true "n2" "h" pem_b None failing]
               after_first_use in
  let ts2 := fold_left trust_step [TPin "n1" 4 Written; TReopen; TVerify true "n2" "h" pem_b None toy_read]
               after_first_use in
  TOFUVerifier_Verify ts' true "n1" "host:1" pem_b None toy_read = (ts', refused true, Some TofuMismatch) /\
  TOFUVerifier_Verify ts2 true "n1" "host:1" pem_b None toy_read = (ts2, refused true, Some TofuMismatch).
Proof.
  split.
  - apply (tofu_pins_certificate after_first_use _ "n1" (toy_fp pem_a) true "host:1" pem_b None toy_read
      (mkCertInfo (toy_fp pem_b) "" "" 0 0 false pem_b)).
    + vm_compute. reflexivity.
    + repeat constructor.
    + left. repeat constructor.
    + vm_compute. reflexivity.
    + vm_compute. discriminate.
  - apply (tofu_pins_certificate after_first_use _ "n1" (toy_fp pem_a) true "host:1" pem_b None toy_read
      (mkCertInfo (toy_fp pem_b) "" "" 0 0 false pem_b)).
    + vm_compute. reflexivity.
    + repeat constructor.
    + right. split; [|repeat constructor].
      apply (trust_step_inv (mkTrustStore ∅ ∅) (TVerify false "n1" "host:1" pem_a (Some "Yes ") toy_read)); [|by vm_compute].
      split; simpl; [apply map_Forall_empty|apply map_Forall_empty|]. by rewrite fmap_empty, kmap_empty.
    + vm_compute. reflexivity.
    + vm_compute. discriminate.
Defined.

Lemma trust_store_restart_witness :
  let ops := [TVerify true "n-1" "host" pem_a None toy_read; TVerify true "n-2" "host" pem_b None toy_read;
              TPin "n-1" 4 Written; TRemove "n-2" true] in
  let ts := fold_left trust_step ops (mkTrustStore ∅ ∅) in
  known_as ts "n-1" = Some (toy_fp pem_a) /\ NewTrustStore (ts_files ts) = ts.
Proof.
  intros ops ts. split; [by vm_compute|]. apply (trust_store_restart ops). vm_compute. reflexivity.
Defined.

Lemma IsCertRevoked_blind_witness :
  let cert := mkX509 [48; 130] 1 no_name no_name 0 0 false [] [] [] in
  IsRevoked (list_with [fingerprint_of cert]) (fingerprint_of cert) = true /\
  IsCertRevoked (list_with [fingerprint_of cert]) cert = false.
Proof. split; [by vm_compute|]. apply IsCertRevoked_blind; by vm_compute. Defined.

(** Identifiers that differ in an unsafe byte share a file: after a restart one of
    the nodes is unknown again, and any certificate is new for it. *)
Example pin_lost_by_collision :
  let ts := fold_left trust_step
              [TVerify true "a/b" "h" pem_a None toy_read; TPin "a/b" 4 Written; TVerify true "a_b" "h" pem_b None toy_read]
              (mkTrustStore ∅ ∅) in
  let ts' := NewTrustStore (ts_files ts) in
  known_as ts "a/b" = Some (toy_fp pem_a) /\ known_as ts' "a/b" = None /\
  Result_Trusted (TOFUVerifier_Verify ts' true "a/b" "h" pem_c None toy_read).1.2 = true.
Proof. by vm_compute. Qed.

(** A pin whose file could not be written is lost when the store is opened again. *)
Example pin_lost_by_failed_write :
  let ts := fold_left trust_step [TVerify true "n1" "h" pem_a None (mkVerifyReadings 3 3 (WriteFailed None))]
              (mkTrustStore ∅ ∅) in
  known_as ts "n1" = Some (toy_fp pem_a) /\
  Result_Trusted (TOFUVerifier_Verify (trust_step ts TReopen) true "n1" "h" pem_c None toy_read).1.2 = true.
Proof. by vm_compute. Qed.

(** A node whose file cannot be written is refused, but trusted the next time. *)
Example trusted_after_failed_write :
  let rd := mkVerifyReadings 3 3 (WriteFailed None) in
  let '(ts, r, err) := TOFUVerifier_Verify (mkTrustStore ∅ ∅) true "n1" "h" pem_a None rd in
  Result_Trusted r = false /\ err = Some (TofuCert ErrWriteFile) /\
  Result_Trusted (TOFUVerifier_Verify ts false "n1" "h" pem_a None rd).1.2 = true.
Proof. by vm_compute. Qed.
End witnesses.
