(* ===== verification/CertManager.v ===== *)
(** * The certificate manager ([internal/certs/manager.go])

    Loads or creates the authority and the server's certificate of a node, renews
    the latter, and checks the certificates of clients.  Files that exist can be
    read; each write has an outcome of its own. *)
From stdpp Require Import base gmap strings list.
From Stdlib Require Import ZArith Lia.
From S2P Require Import Prelude GoStrings Domain Blob Certs Trust.
Local Open Scope Z_scope.

Record ManagerConfig := mkManagerConfig {
  ConfigDir : string;
  MC_NodeID : string;
  MC_PeerID : string;
  P2PIdentityKey : list Z;
  CAValidityYears : Z;
  ServerCertValidityDays : Z;
  ClientCertValidityDays : Z;
  RenewalThresholdDays : Z
}.

Record Manager := mkManager {
  m_cfg : ManagerConfig;
  m_caCert : list Z;
  m_caKey : list Z;
  m_serverCert : list Z;
  m_serverKey : list Z;
  m_tls : bool;
  m_revocationList : RevocationList;
  m_trustStore : TrustStore
}.

Definition ca_crt : string := "certs/ca.crt".
Definition ca_key_enc : string := "secrets/ca.key.enc".
Definition server_crt : string := "certs/server.crt".
Definition server_key : string := "certs/server.key".

(** What [Initialize] and [CheckRenewal] read and how their writes end. *)
Record ManagerReadings := mkManagerReadings {
  mr_ca : IssueReadings;
  mr_salt : list Z;
  mr_nonce : list Z;
  mr_server : IssueReadings;
  mr_now : Time;
  mr_outcome : string -> WriteOutcome
}.

Definition set_ca (m : Manager) (cert key : list Z) : Manager :=
  mkManager (m_cfg m) cert key (m_serverCert m) (m_serverKey m) (m_tls m) (m_revocationList m) (m_trustStore m).
Definition set_server (m : Manager) (cert key : list Z) : Manager :=
  mkManager (m_cfg m) (m_caCert m) (m_caKey m) cert key (m_tls m) (m_revocationList m) (m_trustStore m).

Definition days (n : Z) : Duration := i64 (n * 24 * Hour).

Section manager.
Context `{CertLibrary} `{Codecs} `{Crypto} `{TrustJSON}.

(** [x509.CertPool.AppendCertsFromPEM] *)
Variable AppendCertsFromPEM : list Z -> bool.

Definition NewManager (cfg : ManagerConfig) : result CertError Manager :=
  if ConfigDir cfg =?= "" then Err ErrManagerConfig
  else if MC_NodeID cfg =?= "" then Err ErrManagerConfig
  else if (length (P2PIdentityKey cfg) =? 0)%nat then Err ErrManagerConfig
  else
    let cfg := mkManagerConfig (ConfigDir cfg) (MC_NodeID cfg) (MC_PeerID cfg) (P2PIdentityKey cfg)
      (if CAValidityYears cfg =? 0 then 10 else CAValidityYears cfg)
      (if ServerCertValidityDays cfg =? 0 then 365 else ServerCertValidityDays cfg)
      (if ClientCertValidityDays cfg =? 0 then 90 else ClientCertValidityDays cfg)
      (if RenewalThresholdDays cfg =? 0 then 30 else RenewalThresholdDays cfg) in
    Ok (mkManager cfg [] [] [] [] false (mkRevocationList ∅ 0 None) (mkTrustStore ∅ ∅)).

(** Listen addresses are never parsed ([parseIP] returns nil). *)
Definition generatorConfig (m : Manager) : GeneratorConfig :=
  let d := DefaultConfig (MC_NodeID (m_cfg m)) in
  mkGeneratorConfig (CACommonName d) (ServerCommonName d) (ClientCommonName d)
    (i64 (CAValidityYears (m_cfg m) * 365 * 24 * Hour)) (days (ServerCertValidityDays (m_cfg m)))
    (days (ClientCertValidityDays (m_cfg m))) (Gen_DNSNames d) (Gen_IPAddresses d) (Gen_Organization d)
    (MC_PeerID (m_cfg m)) (SSHKeyFingerprint d) (Gen_UserID d).

(** Slicing the first 16 characters of a fingerprint for the log panics when there
    is none. *)
Definition log_fingerprint (m : Manager) (k : result CertError Manager) : result CertError Manager :=
  match Fingerprint (m_caCert m) with Ok _ => k | Err _ => Err ErrPanic end.

Definition initializeCA (m : Manager) (fs : Files) (rd : ManagerReadings) : Files * result CertError Manager :=
  match fs !! ca_crt with
  | Some caCert =>
      (fs, let! caKey := LoadEncryptedKey fs ca_key_enc (P2PIdentityKey (m_cfg m)) (mr_salt rd) in
           let m := set_ca m caCert caKey in log_fingerprint m (Ok m))
  | None =>
      match GenerateCA (generatorConfig m) (mr_ca rd) with
      | Err e => (fs, Err e)
      | Ok (caCert, caKey) =>
          match WriteFile fs ca_crt caCert (mr_outcome rd ca_crt) with
          | (fs, false) => (fs, Err ErrWriteFile)
          | (fs, true) =>
              match SaveEncryptedKey fs ca_key_enc caKey (P2PIdentityKey (m_cfg m)) (mr_salt rd) (mr_nonce rd)
                      (mr_outcome rd ca_key_enc) with
              | (fs, Some e) => (fs, Err e)
              | (fs, None) => let m := set_ca m caCert caKey in (fs, log_fingerprint m (Ok m))
              end
          end
      end
  end.

Definition generateServerCert (m : Manager) (fs : Files) (rd : ManagerReadings) : Files * result CertError Manager :=
  match GenerateServerCert (m_caCert m) (m_caKey m) (generatorConfig m) (mr_server rd) with
  | Err e => (fs, Err e)
  | Ok (serverCert, serverKey) =>
      match WriteFile fs server_crt serverCert (mr_outcome rd server_crt) with
      | (fs, false) => (fs, Err ErrWriteFile)
      | (fs, true) =>
          match WriteFile fs server_key serverKey (mr_outcome rd server_key) with
          | (fs, false) => (fs, Err ErrWriteFile)
          | (fs, true) => (fs, Ok (set_server m serverCert serverKey))
          end
      end
  end.

Definition initializeServerCert (m : Manager) (fs : Files) (rd : ManagerReadings) : Files * result CertError Manager :=
  match fs !! server_crt with
  | None => generateServerCert m fs rd
  | Some serverCert =>
      if NeedsRenewal serverCert (days (RenewalThresholdDays (m_cfg m))) (mr_now rd) then generateServerCert m fs rd
      else match fs !! server_key with
           | None => (fs, Err ErrReadFile)
           | Some serverKey => (fs, Ok (set_server m serverCert serverKey))
           end
  end.

Definition initializeTLSConfig (m : Manager) : result CertError Manager :=
  if negb (tls_X509KeyPair (m_serverCert m) (m_serverKey m)) then Err ErrKeyPair
  else if negb (AppendCertsFromPEM (m_caCert m)) then Err ErrParseCertificate
  else Ok (mkManager (m_cfg m) (m_caCert m) (m_caKey m) (m_serverCert m) (m_serverKey m) true (m_revocationList m)
             (m_trustStore m)).

(** [revocation] and [trusted] are the file and the directory of the two stores. *)
Definition Initialize (m : Manager) (fs : Files) (revocation : option (list Z)) (trusted : Files) (rd : ManagerReadings)
    : Files * result CertError Manager :=
  match initializeCA m fs rd with
  | (fs, Err e) => (fs, Err e)
  | (fs, Ok m) =>
      match initializeServerCert m fs rd with
      | (fs, Err e) => (fs, Err e)
      | (fs, Ok m) =>
          (fs, let! m := initializeTLSConfig m in
               let! rl := NewRevocationList revocation in
               Ok (mkManager (m_cfg m) (m_caCert m) (m_caKey m) (m_serverCert m) (m_serverKey m) (m_tls m) rl
                     (NewTrustStore trusted)))
      end
  end.

(** A failure to reload the pair leaves the new certificate with the old
    configuration. *)
Definition CheckRenewal (m : Manager) (fs : Files) (rd : ManagerReadings) : Files * Manager * option CertError :=
  if NeedsRenewal (m_serverCert m) (days (RenewalThresholdDays (m_cfg m))) (mr_now rd) then
    match generateServerCert m fs rd with
    | (fs, Err e) => (fs, m, Some e)
    | (fs, Ok m) =>
        match initializeTLSConfig m with
        | Err e => (fs, m, Some e)
        | Ok m => (fs, m, None)
        end
    end
  else (fs, m, None).

Definition Manager_GenerateClientCert (m : Manager) (name userID sshFingerprint : string) (rd : IssueReadings)
    : result CertError (list Z * list Z) :=
  let g := generatorConfig m in
  GenerateClientCert (m_caCert m) (m_caKey m)
    (mkGeneratorConfig (CACommonName g) (ServerCommonName g) name (CAValidDuration g) (ServerValidDuration g)
       (ClientValidDuration g) (Gen_DNSNames g) (Gen_IPAddresses g) (Gen_Organization g) (Gen_PeerID g)
       sshFingerprint userID) rd.

Definition VerifyClientCert (m : Manager) (certPEM : list Z) (now : Time) : option CertError :=
  match VerifyChain certPEM (m_caCert m) now with
  | Some e => Some e
  | None =>
      match ParseCertificate certPEM with
      | Err e => Some e
      | Ok cert => if IsRevoked (m_revocationList m) (Cert_Fingerprint cert) then Some ErrRevoked else None
      end
  end.

(** The key is forgotten; nothing else is. *)
Definition Manager_Close (m : Manager) : Manager := set_ca m (m_caCert m) [].
End manager.

(** * Theorems *)

Section manager_theorems.
Context `{CertLibrary} `{Codecs} `{Crypto} `{TrustJSON}.
Variable AppendCertsFromPEM : list Z -> bool.

(** ** Clients *)

(** A client certificate whose fingerprint is on the revocation list is not
    accepted, whatever else holds of it. *)
Theorem revoked_client_refused m pem now c
    (Hc : ParseCertificate pem = Ok c) (Hr : IsRevoked (m_revocationList m) (Cert_Fingerprint c) = true) :
  is_Some (VerifyClientCert m pem now).
Proof. unfold VerifyClientCert. destruct (VerifyChain _ _ _); [by eexists|]. rewrite Hc, Hr. by eexists. Qed.

(** The manager refuses every client certificate it issues itself: it asks for
    no usage, which stands for a server's, and clients get a client's. *)
Theorem issued_client_refused m name user ssh rd cert key now
    (Hgen : Manager_GenerateClientCert m name user ssh rd = Ok (cert, key)) :
  is_Some (VerifyClientCert m cert now).
Proof.
  apply (VerifyChain_refuses_clients _ _ _ _ _ _ (m_caCert m) now) in Hgen as [e He]. unfold VerifyClientCert.
  rewrite He. by eexists.
Qed.

(** A closed manager issues nothing. *)
Lemma closed_issues_nothing m name user ssh rd :
  pem_Decode [] = None -> exists e, Manager_GenerateClientCert (Manager_Close m) name user ssh rd = Err e.
Proof.
  intros Hnil. unfold Manager_GenerateClientCert, GenerateClientCert, issue, parseCABundle. simpl. rewrite Hnil.
  destruct (parse_pem _); by eexists.
Qed.

(** ** Renewal *)

Lemma generateServerCert_spec m fs rd fs' m' :
  generateServerCert m fs rd = (fs', Ok m') ->
  exists cert key, GenerateServerCert (m_caCert m) (m_caKey m) (generatorConfig m) (mr_server rd) = Ok (cert, key) /\
    m' = set_server m cert key /\ fs' = <[server_key := key]> (<[server_crt := cert]> fs) /\
    tls_X509KeyPair cert key = true.
Proof.
  unfold generateServerCert. destruct (GenerateServerCert _ _ _ _) as [[cert key]|] eqn:Hg; [|done].
  destruct (mr_outcome rd server_crt) as [|[l|]]; simpl; [|done|done].
  destruct (mr_outcome rd server_key) as [|[l|]]; simpl; [|done|done]. intros [= <- <-]. exists cert, key.
  split_and!; [done|done|done|]. by apply issue_spec in Hg as (c & _ & _ & _ & Hp).
Qed.

(** A check that succeeds leaves a certificate that is not due: the old one if
    it was not, else a new one, on disk with its key. *)
Theorem CheckRenewal_not_due m fs rd fs' m'
    (Hcheck : CheckRenewal AppendCertsFromPEM m fs rd = (fs', m', None))
    (Hclock : ir_now (mr_server rd) = mr_now rd)
    (Hlong : days (ServerCertValidityDays (m_cfg m)) >= days (RenewalThresholdDays (m_cfg m)) + Second)
    (Hpos : 0 < days (ServerCertValidityDays (m_cfg m))) :
  NeedsRenewal (m_serverCert m') (days (RenewalThresholdDays (m_cfg m))) (mr_now rd) = false /\
  (fs' = fs /\ m' = m \/ fs' !! server_crt = Some (m_serverCert m') /\ fs' !! server_key = Some (m_serverKey m') /\ m_tls m' = true).
Proof.
  unfold CheckRenewal in Hcheck.
  destruct (NeedsRenewal (m_serverCert m) _ _) eqn:Hdue; [|injection Hcheck as <- <-; by auto].
  destruct (generateServerCert m fs rd) as [fs1 [m1|]] eqn:Hg; [|done].
  apply generateServerCert_spec in Hg as (cert & key & Hgen & -> & -> & Hpair).
  unfold initializeTLSConfig in Hcheck. simpl in Hcheck. rewrite Hpair in Hcheck. simpl in Hcheck.
  destruct (AppendCertsFromPEM (m_caCert m)); [|done]. simpl in Hcheck. injection Hcheck as <- <-. simpl. split.
  - apply issue_spec in Hgen as (c & Hc & _ & Hn & _). unfold NeedsRenewal. rewrite Hc, Hn. simpl.
    unfold or_default, whole_seconds, Add, Sub. rewrite (proj2 (Z.eqb_neq _ _)) by lia. rewrite Hclock.
    set (d := days (ServerCertValidityDays (m_cfg m))) in *. set (now := mr_now rd).
    assert (now + d - Second < (now + d) / Second * Second <= now + d) as Hs
      by (unfold Second, Millisecond; Z.div_mod_to_equations; lia).
    assert (- 2 ^ 63 <= d < 2 ^ 63) as Hd by (apply i64_range). apply Z.ltb_ge. unfold Second, Millisecond in *. lia.
  - right. rewrite lookup_insert_ne, lookup_insert_eq by done. rewrite lookup_insert_eq. done.
Qed.

(** ** Restarts *)

(** What a first start leaves on disk. *)
Lemma first_start m rd fs' m' :
  length (mr_salt rd) = saltSize -> length (mr_nonce rd) = nonceSize ->
  (forall key nonce d, length (gcm_Seal key nonce d) = (length d + 16)%nat) ->
  Initialize AppendCertsFromPEM m ∅ None ∅ rd = (fs', Ok m') ->
  fs' !! server_crt = Some (m_serverCert m') /\ fs' !! server_key = Some (m_serverKey m') /\
  tls_X509KeyPair (m_serverCert m') (m_serverKey m') = true /\ AppendCertsFromPEM (m_caCert m') = true /\
  forall mb rd', P2PIdentityKey (m_cfg mb) = P2PIdentityKey (m_cfg m) ->
    initializeCA mb fs' rd' = (fs', Ok (set_ca mb (m_caCert m') (m_caKey m'))).
Proof.
  intros Hsalt Hnonce Hover Hinit.
  unfold Initialize in Hinit. unfold initializeCA at 1 in Hinit. rewrite lookup_empty in Hinit.
  destruct (GenerateCA _ _) as [[ca cakey]|] eqn:Hca; [|done].
  destruct (mr_outcome rd ca_crt) as [|[l|]]; simpl in Hinit; [|done|done].
  unfold SaveEncryptedKey in Hinit. destruct (mr_outcome rd ca_key_enc) as [|[l|]]; simpl in Hinit; [|done|done].
  unfold log_fingerprint in Hinit. simpl in Hinit. destruct (Fingerprint ca) as [fp|] eqn:Hfp; [|done].
  unfold initializeServerCert in Hinit. rewrite lookup_insert_ne, lookup_insert_ne, lookup_empty in Hinit by done.
  destruct (generateServerCert _ _ rd) as [fs1 [m1|]] eqn:Hg; [|done].
  apply generateServerCert_spec in Hg as (cert & key & _ & -> & -> & Hpair).
  unfold initializeTLSConfig in Hinit. simpl in Hinit. rewrite Hpair in Hinit. simpl in Hinit.
  destruct (AppendCertsFromPEM ca) eqn:Hpool; [|done]. simpl in Hinit. injection Hinit as <- <-. simpl in *.
  split_and!; [by rewrite lookup_insert_ne, lookup_insert_eq|by rewrite lookup_insert_eq|done|done|].
  intros mb rd' Hid. unfold initializeCA. rewrite !(lookup_insert_ne _ _ ca_crt), lookup_insert_eq by done.
  unfold LoadEncryptedKey. rewrite !(lookup_insert_ne _ _ ca_key_enc), lookup_insert_eq by done.
  rewrite Hid, (DecryptKey_EncryptKey Hover) by done. unfold log_fingerprint. simpl. by rewrite Hfp.
Qed.


(** ** Interrupted writes *)

(** A renewal that writes the certificate but not its key leaves a pair that
    does not match: until the certificate is due again, the node does not start. *)
Theorem half_renewed_never_starts m fs rd cert key k0 k1 m2 rd2 revocation trusted
    (Hdue : NeedsRenewal (m_serverCert m) (days (RenewalThresholdDays (m_cfg m))) (mr_now rd) = true)
    (Hgen : GenerateServerCert (m_caCert m) (m_caKey m) (generatorConfig m) (mr_server rd) = Ok (cert, key))
    (Hk1 : ir_key (mr_server rd) = Some k1) (Hne : public_key k1 <> public_key k0)
    (Hold : fs !! server_key = Some (pem_EncodeToMemory pem_EC_PRIVATE_KEY (x509_MarshalECPrivateKey k0)))
    (Hcrt : mr_outcome rd server_crt = Written) (Hkey : mr_outcome rd server_key = WriteFailed None)
    (Hca : is_Some (fs !! ca_crt))
    (Hfresh : NeedsRenewal cert (days (RenewalThresholdDays (m_cfg m2))) (mr_now rd2) = false) :
  let '(fs', _, err) := CheckRenewal AppendCertsFromPEM m fs rd in
  err = Some ErrWriteFile /\ exists e, Initialize AppendCertsFromPEM m2 fs' revocation trusted rd2 = (fs', Err e).
Proof.
  unfold CheckRenewal. rewrite Hdue. unfold generateServerCert. rewrite Hgen, Hcrt. simpl. rewrite Hkey. simpl.
  split; [done|]. destruct Hca as [ca Hca]. unfold Initialize, initializeCA.
  rewrite (lookup_insert_ne _ server_crt ca_crt), Hca by done.
  set (fs' := <[server_crt := cert]> fs).
  destruct (LoadEncryptedKey fs' ca_key_enc _ _) as [cakey|e]; [|by eexists].
  unfold log_fingerprint. simpl. destruct (Fingerprint ca); [|by eexists].
  unfold initializeServerCert, fs'. rewrite lookup_insert_eq. simpl. rewrite Hfresh.
  rewrite (lookup_insert_ne _ server_crt server_key), Hold by done.
  unfold initializeTLSConfig. simpl. unfold GenerateServerCert, issue in Hgen.
  destruct (parseCABundle _ _) as [[cac capriv]|]; [|done]. rewrite Hk1 in Hgen.
  destruct (x509_CreateCertificate _ _ _ _) as [der|] eqn:Hder; [|done]. injection Hgen as <- <-.
  rewrite (tls_X509KeyPair_spec _ _ _ _ _ k0 Hder), bool_decide_false by done. by eexists.
Qed.

(** The same with the authority: its certificate without its key is never
    repaired. *)
Theorem half_created_ca_never_starts m rd ca cakey m2 rd2 revocation trusted
    (Hgen : GenerateCA (generatorConfig m) (mr_ca rd) = Ok (ca, cakey))
    (Hcrt : mr_outcome rd ca_crt = Written) (Hkey : mr_outcome rd ca_key_enc = WriteFailed None) :
  let fs' := (Initialize AppendCertsFromPEM m ∅ None ∅ rd).1 in
  Initialize AppendCertsFromPEM m2 fs' revocation trusted rd2 = (fs', Err ErrReadFile).
Proof.
  intros fs'. assert (fs' = <[ca_crt := ca]> ∅) as ->.
  { subst fs'. unfold Initialize, initializeCA. rewrite lookup_empty, Hgen, Hcrt. simpl.
    unfold SaveEncryptedKey. rewrite Hkey. done. }
  unfold Initialize, initializeCA. rewrite lookup_insert_eq.
  unfold LoadEncryptedKey. by rewrite lookup_insert_ne, lookup_empty.
Qed.
End manager_theorems.

(** ** Witnesses *)

Section witnesses.
#[local] Existing Instance toy_library.
#[local] Existing Instance toy_gcm.
#[local] Existing Instance toy_crypto.
#[local] Existing Instance toy_trust_json.

Definition any_pool (_ : list Z) : bool := true.
Definition toy_manager_config : ManagerConfig := mkManagerConfig "/etc/bib" "node-1234567" "" [1; 2; 3] 0 0 0 0.
Definition new_manager : Manager := Eval vm_compute in
  match NewManager toy_manager_config with
  | Ok m => m
  | Err _ => mkManager toy_manager_config [] [] [] [] false (mkRevocationList ∅ 0 None) (mkTrustStore ∅ ∅)
  end.
Definition read_at (now : Time) (key : Z) (o : string -> WriteOutcome) : ManagerReadings :=
  mkManagerReadings (toy_issue [1] now) (replicate 32 1) (replicate 12 2) (toy_issue [key] now) now o.
Definition all_written (_ : string) : WriteOutcome := Written.
Definition key_fails (name : string) : WriteOutcome :=
  if name =?= server_key then WriteFailed None else if name =?= ca_key_enc then WriteFailed None else Written.
Definition started : Files * result CertError Manager :=
  Eval vm_compute in Initialize any_pool new_manager ∅ None ∅ (read_at Second 7 all_written).
Definition running : Manager := Eval vm_compute in match started.2 with Ok m => m | Err _ => new_manager end.
Definition late : Time := 400 * 24 * Hour.

Lemma revoked_client_refused_witness :
  let rl := list_with [toy_fp pem_a] in
  let m := mkManager toy_manager_config [1; 9] [] [] [] true rl (mkTrustStore ∅ ∅) in
  VerifyChain pem_a [1; 9] 5 = None /\ is_Some (VerifyClientCert m pem_a 5).
Proof.
  split; [by vm_compute|].
  apply (revoked_client_refused _ pem_a 5 (mkCertificate pem_a (toy_x509 [65]) (toy_fp pem_a) 0 false "" "" "ff" [] []));
    vm_compute; reflexivity.
Defined.

Definition issued_client : list Z * list Z := Eval vm_compute in
  default ([], []) (match Manager_GenerateClientCert running "ann" "u1" "" (toy_issue [5] Second) with
                    | Ok p => Some p | Err _ => None end).
Lemma issued_client_refused_witness : is_Some (VerifyClientCert running issued_client.1 (2 * Second)).
Proof.
  apply (issued_client_refused running "ann" "u1" "" (toy_issue [5] Second) issued_client.1 issued_client.2).
  vm_compute. reflexivity.
Defined.

Definition checked : Files * Manager * option CertError := Eval vm_compute in
  CheckRenewal any_pool running started.1 (read_at late 8 all_written).
Lemma CheckRenewal_not_due_witness :
  m_serverCert checked.1.2 <> m_serverCert running /\ NeedsRenewal (m_serverCert checked.1.2) (days 30) late = false.
Proof.
  split; [vm_compute; discriminate|].
  apply (CheckRenewal_not_due any_pool running started.1 (read_at late 8 all_written) checked.1.1 checked.1.2);
    [vm_compute; reflexivity|reflexivity|vm_compute; discriminate|vm_compute; reflexivity].
Defined.


Definition renewed : list Z * list Z := Eval vm_compute in
  default ([], []) (match GenerateServerCert (m_caCert running) (m_caKey running) (generatorConfig running)
                            (mr_server (read_at late 8 key_fails)) with Ok p => Some p | Err _ => None end).
Lemma half_renewed_never_starts_witness :
  let '(fs', _, err) := CheckRenewal any_pool running started.1 (read_at late 8 key_fails) in
  err = Some ErrWriteFile /\
  exists e, Initialize any_pool new_manager fs' None ∅ (read_at (late + Second) 9 all_written) = (fs', Err e).
Proof.
  apply (half_renewed_never_starts any_pool running started.1 (read_at late 8 key_fails) renewed.1 renewed.2 [7] [8]
    new_manager (read_at (late + Second) 9 all_written) None ∅); try (vm_compute; reflexivity).
  - vm_compute. discriminate.
  - vm_compute. by eexists.
Defined.

Lemma half_created_ca_never_starts_witness :
  let fs' := (Initialize any_pool new_manager ∅ None ∅ (read_at Second 7 key_fails)).1 in
  Initialize any_pool new_manager fs' None ∅ (read_at (2 * Second) 7 all_written) = (fs', Err ErrReadFile).
Proof.
  apply (half_created_ca_never_starts any_pool new_manager (read_at Second 7 key_fails)
    [1; Zpos (encode ([] : list ExtKeyUsage, 315360001 * Second, [1]))] [2; 1]); vm_compute; reflexivity.
Defined.
End witnesses.
