(* ===== verification/Modes.v ===== *)
(** * Node modes ([internal/p2p/mode.go], [mode_proxy.go], [mode_selective.go],
      [mode_full.go])

    A node forwards queries and caches answers (proxy), keeps subscriptions
    (selective) or collects the catalogs of its peers (full), and can change its
    mode while it runs.  The network is what it answers: the connected peers and
    what each of them says.  Background loops are the operations they run. *)
From stdpp Require Import base gmap strings list.
From Stdlib Require Import ZArith Lia.
From S2P Require Import Prelude GoStrings Domain.
Local Open Scope Z_scope.

Definition NodeModeProxy : string := "proxy".
Definition NodeModeSelective : string := "selective".
Definition NodeModeFull : string := "full".

Definition ParseNodeMode `{UnicodeTables} (s : string) : option string :=
  let l := ToLower s in
  if (l =?= "proxy"%string) || (l =?= ""%string) then Some NodeModeProxy
  else if l =?= "selective"%string then Some NodeModeSelective
  else if l =?= "full"%string then Some NodeModeFull
  else None.

(** The parts of the configuration the modes read. *)
Record P2PConfig := mkP2PConfig {
  P2P_Mode : string;
  Proxy_CacheTTL : Duration;
  Proxy_MaxCacheSize : Z;
  Proxy_FavoritePeers : list string;
  Selective_Subscriptions : list string;
  Selective_StorePath : string
}.

(** ** Collecting entries *)

(** What asking a peer yields; [Cancelled] when the caller has given up before. *)
Inductive PeerAnswer := Cancelled | Failed | Entries (l : list CatalogEntry).

(** The loop body shared by the modes: entries not seen before, by hash. *)
Fixpoint collect_new (seen : list string) (acc l : list CatalogEntry) : list string * list CatalogEntry :=
  match l with
  | [] => (seen, acc)
  | e :: l' =>
      if mem (CatalogEntry_Hash e) seen then collect_new seen acc l'
      else collect_new (seen ++ [CatalogEntry_Hash e]) (acc ++ [e]) l'
  end.

(** One peer after the other; [source] is the first that had something. *)
Fixpoint ask_peers (answers : list (string * PeerAnswer)) (seen : list string) (acc : list CatalogEntry) (source : string)
    : option (list CatalogEntry * string) :=
  match answers with
  | [] => Some (acc, source)
  | (_, Cancelled) :: _ => None
  | (_, Failed) :: answers' => ask_peers answers' seen acc source
  | (p, Entries l) :: answers' =>
      let source := if (source =?= ""%string) && (0 <? Z.of_nat (length l)) then p else source in
      let '(seen, acc) := collect_new seen acc l in ask_peers answers' seen acc source
  end.

Definition page (req : QueryRequest) (l : list CatalogEntry) : list CatalogEntry :=
  let off := QueryRequest_Offset req in
  let lim := QueryRequest_Limit req in
  let l := if (0 <? off) && (off <? Z.of_nat (length l)) then drop (Z.to_nat off) l else l in
  if (0 <? lim) && (lim <? Z.of_nat (length l)) then take (Z.to_nat lim) l else l.

(** A result with the fields the modes set. *)
Definition entries_result (id : string) (l : list CatalogEntry) (total : Z) (source : string) : QueryResult :=
  mkQueryResult id "" l [] [] total false source 0 false "".

(** ** Proxy *)

Record cacheEntry := mkCacheEntry { ce_result : QueryResult; ce_expiresAt : Time }.

Record ProxyHandler := mkProxyHandler {
  ph_cfg : P2PConfig;
  ph_cache : gmap string cacheEntry;
  ph_favorites : list string
}.

Definition set_cache (h : ProxyHandler) (c : gmap string cacheEntry) : ProxyHandler := mkProxyHandler (ph_cfg h) c (ph_favorites h).
Definition set_favorites (h : ProxyHandler) (l : list string) : ProxyHandler := mkProxyHandler (ph_cfg h) (ph_cache h) l.

Section proxy.
(** [peer.Decode], and the JSON text of a request. *)
Variable peer_Decode : string -> option string.
Variable json_request : QueryRequest -> string.

Definition parseFavorites (addrs : list string) : list string := omap peer_Decode addrs.

Definition NewProxyHandler (cfg : P2PConfig) : ProxyHandler := mkProxyHandler cfg ∅ (parseFavorites (Proxy_FavoritePeers cfg)).
Definition Proxy_OnConfigUpdate (h : ProxyHandler) (cfg : P2PConfig) : ProxyHandler :=
  mkProxyHandler cfg (ph_cache h) (parseFavorites (Proxy_FavoritePeers cfg)).

Definition cacheKey (req : QueryRequest) : string := json_request req.

Definition getFromCache (h : ProxyHandler) (key : string) (now : Time) : option QueryResult :=
  match ph_cache h !! key with
  | None => None
  | Some e =>
      if After now (ce_expiresAt e) then None
      else let r := ce_result e in
           Some (mkQueryResult (QueryResult_QueryID r) (QueryResult_Type r) (QueryResult_Entries r) (QueryResult_Columns r)
                   (QueryResult_Rows r) (QueryResult_TotalCount r) true (QueryResult_SourcePeer r)
                   (QueryResult_ExecutionTimeMs r) (QueryResult_Truncated r) (QueryResult_Error r))
  end.

(** The key and time of the oldest entry so far, in the order the map yields. *)
Definition older (best : string * Time) (p : string * cacheEntry) : string * Time :=
  if (best.1 =?= ""%string) || Before (ce_expiresAt p.2) best.2 then (p.1, ce_expiresAt p.2) else best.
Definition evictOldest (c : gmap string cacheEntry) : gmap string cacheEntry :=
  let '(key, _) := fold_left older (map_to_list c) (""%string, zero_time) in
  if key <>? "" then delete key c else c.

Definition maxCacheSize (cfg : P2PConfig) : Z := if Proxy_MaxCacheSize cfg =? 0 then 1000 else Proxy_MaxCacheSize cfg.
Definition cacheTTL (cfg : P2PConfig) : Duration := if Proxy_CacheTTL cfg =? 0 then 2 * Minute else Proxy_CacheTTL cfg.

Definition putInCache (h : ProxyHandler) (key : string) (r : QueryResult) (now : Time) : ProxyHandler :=
  let c := if maxCacheSize (ph_cfg h) <=? Z.of_nat (size (ph_cache h)) then evictOldest (ph_cache h) else ph_cache h in
  set_cache h (<[key := mkCacheEntry r (Add now (cacheTTL (ph_cfg h)))]> c).

Definition cleanupExpired (h : ProxyHandler) (now : Time) : ProxyHandler :=
  set_cache h (filter (fun p : string * cacheEntry => After now (ce_expiresAt p.2) = false) (ph_cache h)).
Definition ClearCache (h : ProxyHandler) : ProxyHandler := set_cache h ∅.
Definition CacheStats (h : ProxyHandler) : Z * Z := (Z.of_nat (size (ph_cache h)), maxCacheSize (ph_cfg h)).

(** Connected favorites first, then the other connected peers. *)
Definition getPeersForForwarding (h : ProxyHandler) (connected : string -> bool) (peers : list string) : list string :=
  List.filter connected (ph_favorites h) ++ List.filter (fun p => negb (mem p (ph_favorites h))) peers.

Definition forwardQuery (req : QueryRequest) (answers : list (string * PeerAnswer)) : option QueryResult :=
  match answers with
  | [] => Some (entries_result (QueryRequest_ID req) [] 0 "")
  | _ =>
      match ask_peers answers [] [] "" with
      | None => None
      | Some (all, source) =>
          Some (entries_result (QueryRequest_ID req) (page req all) (Z.of_nat (length all)) source)
      end
  end.

(** [now] is when the cache is looked at, [now'] when the result is kept; [answer]
    is what each peer asked says. *)
Definition Proxy_Query (h : ProxyHandler) (req : QueryRequest) (connected : string -> bool) (peers : list string)
    (answer : string -> PeerAnswer) (now now' : Time) : ProxyHandler * option QueryResult :=
  let key := cacheKey req in
  match getFromCache h key now with
  | Some r => (h, Some r)
  | None =>
      match forwardQuery req (map (fun p => (p, answer p)) (getPeersForForwarding h connected peers)) with
      | None => (h, None)
      | Some r => (putInCache h key r now', Some r)
      end
  end.

Definition AddFavorite (h : ProxyHandler) (p : string) : ProxyHandler := set_favorites h (add_new p (ph_favorites h)).
Definition RemoveFavorite (h : ProxyHandler) (p : string) : ProxyHandler :=
  match remove_first (fun q => q =?= p) (ph_favorites h) with Some l => set_favorites h l | None => h end.
End proxy.

(** ** Selective *)

Record SelectiveHandler := mkSelectiveHandler {
  sh_cfg : P2PConfig;
  sh_configDir : string;
  sh_subscriptions : list Subscription;
  sh_catalog : gmap string (list CatalogEntry)
}.

Definition sub_json (s : Subscription) : bool :=
  is_ascii (Subscription_TopicPattern s) && json_time (Subscription_CreatedAt s) && json_time (Subscription_LastSync s).

(** [encoding/json] at the list of subscriptions. *)
Class SubsJSON := {
  subs_Marshal : list Subscription -> option (list Z);
  subs_Unmarshal : list Z -> option (list Subscription);
  subs_round_trip l : forallb sub_json l = true -> exists b, subs_Marshal l = Some b /\ subs_Unmarshal b = Some l
}.

Section selective.
Context `{SubsJSON}.

Definition subscriptionStorePath (cfg : P2PConfig) (configDir : string) : string :=
  if Selective_StorePath cfg <>? "" then Selective_StorePath cfg
  else str_of (path_Join [bytes_of configDir; bytes_of "subscriptions.json"]).

(** A file that cannot be read or parsed is no subscriptions. *)
Definition NewSelectiveHandler (cfg : P2PConfig) (configDir : string) (fs : Files) : SelectiveHandler :=
  mkSelectiveHandler cfg configDir
    (default [] (fs !! subscriptionStorePath cfg configDir ≫= subs_Unmarshal)) ∅.

Definition set_subs (h : SelectiveHandler) (l : list Subscription) : SelectiveHandler :=
  mkSelectiveHandler (sh_cfg h) (sh_configDir h) l (sh_catalog h).

Definition saveSubscriptionsLocked (h : SelectiveHandler) (fs : Files) (o : WriteOutcome) : Files * bool :=
  match subs_Marshal (sh_subscriptions h) with
  | None => (fs, false)
  | Some b => WriteFile fs (subscriptionStorePath (sh_cfg h) (sh_configDir h)) b o
  end.

Definition addSubscriptionLocked (h : SelectiveHandler) (pattern : string) (now : Time) : SelectiveHandler :=
  if mem pattern (map Subscription_TopicPattern (sh_subscriptions h)) then h
  else set_subs h (sh_subscriptions h ++ [mkSubscription pattern now zero_time]).

Definition Selective_OnConfigUpdate (h : SelectiveHandler) (cfg : P2PConfig) (now : Time) : SelectiveHandler :=
  fold_left (fun h p => addSubscriptionLocked h p now) (Selective_Subscriptions cfg)
    (mkSelectiveHandler cfg (sh_configDir h) (sh_subscriptions h) (sh_catalog h)).

Definition Selective_Subscribe (h : SelectiveHandler) (fs : Files) (pattern : string) (now : Time) (o : WriteOutcome)
    : SelectiveHandler * (Files * bool) :=
  let h := addSubscriptionLocked h pattern now in (h, saveSubscriptionsLocked h fs o).

Definition Selective_Unsubscribe (h : SelectiveHandler) (fs : Files) (pattern : string) (o : WriteOutcome)
    : SelectiveHandler * (Files * bool) :=
  let subs := match remove_first (fun s => Subscription_TopicPattern s =?= pattern) (sh_subscriptions h) with
              | Some l => l | None => sh_subscriptions h end in
  let h := mkSelectiveHandler (sh_cfg h) (sh_configDir h) subs (delete pattern (sh_catalog h)) in
  (h, saveSubscriptionsLocked h fs o).

Definition Selective_Stop (h : SelectiveHandler) (fs : Files) (o : WriteOutcome) : Files * bool := saveSubscriptionsLocked h fs o.

Definition Selective_Query (req : QueryRequest) (answers : list (string * PeerAnswer)) : option QueryResult :=
  match ask_peers answers [] [] "" with
  | None => None
  | Some (all, _) => Some (entries_result (QueryRequest_ID req) (page req all) (Z.of_nat (length all)) "")
  end.

(** The first subscription with the pattern. *)
Fixpoint mark_synced (l : list Subscription) (pattern : string) (now : Time) : list Subscription :=
  match l with
  | [] => []
  | s :: l' => if Subscription_TopicPattern s =?= pattern
               then mkSubscription (Subscription_TopicPattern s) (Subscription_CreatedAt s) now :: l'
               else s :: mark_synced l' pattern now
  end.

(** The query names no topic. *)
Definition sync_request (pattern : string) : QueryRequest :=
  mkQueryRequest ("sync-" ++ pattern) "" "" "" [] "" "" "" 0 0 false 0 "" zero_time.
Definition SyncSubscription (h : SelectiveHandler) (pattern : string) (answers : list (string * PeerAnswer)) (now : Time)
    : SelectiveHandler * bool :=
  match Selective_Query (sync_request pattern) answers with
  | None => (h, false)
  | Some r =>
      (mkSelectiveHandler (sh_cfg h) (sh_configDir h) (mark_synced (sh_subscriptions h) pattern now)
         (<[pattern := QueryResult_Entries r]> (sh_catalog h)), true)
  end.
Definition GetCachedEntries (h : SelectiveHandler) (pattern : string) : list CatalogEntry := default [] (sh_catalog h !! pattern).
End selective.

(** ** Full replica *)

Record FullReplicaHandler := mkFullReplicaHandler {
  fh_cfg : P2PConfig;
  fh_catalogs : gmap string Catalog;
  fh_status : SyncStatus
}.

Definition NewFullReplicaHandler (cfg : P2PConfig) : FullReplicaHandler :=
  mkFullReplicaHandler cfg ∅ (mkSyncStatus false zero_time "" 0 0).
Definition Full_OnConfigUpdate (h : FullReplicaHandler) (cfg : P2PConfig) : FullReplicaHandler :=
  mkFullReplicaHandler cfg (fh_catalogs h) (fh_status h).

(** What requesting a catalog yields. *)
Inductive CatalogAnswer := StopSync | CatalogError (msg : string) | GotCatalog (c : Catalog).

Fixpoint sync_peers (catalogs : gmap string Catalog) (err : string) (answers : list (string * CatalogAnswer))
    : gmap string Catalog * string :=
  match answers with
  | [] => (catalogs, err)
  | (_, StopSync) :: _ => (catalogs, err)
  | (_, CatalogError msg) :: answers' => sync_peers catalogs msg answers'
  | (p, GotCatalog c) :: answers' => sync_peers (<[p := c]> catalogs) err answers'
  end.
Definition syncAll (h : FullReplicaHandler) (answers : list (string * CatalogAnswer)) (now : Time) : FullReplicaHandler :=
  let '(catalogs, err) := sync_peers (fh_catalogs h) (SyncStatus_LastSyncError (fh_status h)) answers in
  mkFullReplicaHandler (fh_cfg h) catalogs (mkSyncStatus false now err (SyncStatus_PendingEntries (fh_status h)) (SyncStatus_SyncedEntries (fh_status h))).

(** Catalogs in the order the map yields them. *)
Definition GetAllEntries (h : FullReplicaHandler) : list CatalogEntry :=
  (fold_left (fun '(seen, acc) c => collect_new seen acc (Catalog_Entries c)) (map snd (map_to_list (fh_catalogs h))) ([], [])).2.

(** ** The mode manager *)

(** A handler and whether it runs. *)
Inductive HandlerState :=
| HProxy (h : ProxyHandler)
| HSelective (h : SelectiveHandler)
| HFull (h : FullReplicaHandler).
Definition Handler_Mode (h : HandlerState) : string :=
  match h with HProxy _ => NodeModeProxy | HSelective _ => NodeModeSelective | HFull _ => NodeModeFull end.

Record ModeManager := mkModeManager {
  mm_configDir : string;
  mm_mode : string;
  mm_handler : HandlerState;
  mm_running : bool;
  mm_cfg : P2PConfig
}.

Inductive ModeError := ErrInvalidMode | ErrStopHandler | ErrCreateHandler.

Section manager.
Context `{SubsJSON} `{UnicodeTables}.
Variable peer_Decode : string -> option string.

Definition createHandler (cfg : P2PConfig) (configDir mode : string) (fs : Files) : option HandlerState :=
  if mode =?= NodeModeProxy then Some (HProxy (NewProxyHandler peer_Decode cfg))
  else if mode =?= NodeModeSelective then Some (HSelective (NewSelectiveHandler cfg configDir fs))
  else if mode =?= NodeModeFull then Some (HFull (NewFullReplicaHandler cfg))
  else None.

Definition NewModeManager (cfg : P2PConfig) (configDir : string) (fs : Files) : result ModeError ModeManager :=
  match ParseNodeMode (P2P_Mode cfg) with
  | None => Err ErrInvalidMode
  | Some mode =>
      match createHandler cfg configDir mode fs with
      | None => Err ErrCreateHandler
      | Some h => Ok (mkModeManager configDir mode h false cfg)
      end
  end.

Definition set_running (mm : ModeManager) (b : bool) : ModeManager :=
  mkModeManager (mm_configDir mm) (mm_mode mm) (mm_handler mm) b (mm_cfg mm).
(** The handlers' [Start] cannot fail. *)
Definition ModeManager_Start (mm : ModeManager) : ModeManager := set_running mm true.

(** A stopped handler has ended its loops even when saving its state fails. *)
Definition Handler_Stop (h : HandlerState) (fs : Files) (o : WriteOutcome) : Files * bool :=
  match h with HSelective h => Selective_Stop h fs o | _ => (fs, true) end.
Definition ModeManager_Stop (mm : ModeManager) (fs : Files) (o : WriteOutcome) : ModeManager * (Files * bool) :=
  (set_running mm false, Handler_Stop (mm_handler mm) fs o).

Definition SetMode (mm : ModeManager) (mode : string) (fs : Files) (o : WriteOutcome)
    : ModeManager * Files * option ModeError :=
  if mm_mode mm =?= mode then (mm, fs, None)
  else
    let '(fs, stopped) := Handler_Stop (mm_handler mm) fs o in
    let mm := set_running mm false in
    if negb stopped then (mm, fs, Some ErrStopHandler)
    else match createHandler (mm_cfg mm) (mm_configDir mm) mode fs with
         | None => (mm, fs, Some ErrCreateHandler)
         | Some h => (mkModeManager (mm_configDir mm) mode h true (mm_cfg mm), fs, None)
         end.

Definition Handler_OnConfigUpdate (h : HandlerState) (cfg : P2PConfig) (now : Time) : HandlerState :=
  match h with
  | HProxy h => HProxy (Proxy_OnConfigUpdate peer_Decode h cfg)
  | HSelective h => HSelective (Selective_OnConfigUpdate h cfg now)
  | HFull h => HFull (Full_OnConfigUpdate h cfg)
  end.

Definition ModeManager_UpdateConfig (mm : ModeManager) (cfg : P2PConfig) (fs : Files) (now : Time) (o : WriteOutcome)
    : ModeManager * Files * option ModeError :=
  match ParseNodeMode (P2P_Mode cfg) with
  | None => (mm, fs, Some ErrInvalidMode)
  | Some newMode =>
      let mm := mkModeManager (mm_configDir mm) (mm_mode mm) (mm_handler mm) (mm_running mm) cfg in
      if newMode <>? mm_mode mm then SetMode mm newMode fs o
      else (mkModeManager (mm_configDir mm) (mm_mode mm) (Handler_OnConfigUpdate (mm_handler mm) cfg now) (mm_running mm) cfg,
            fs, None)
  end.
End manager.

(** * Theorems *)

(** ** Collecting entries *)

Definition hashes (l : list CatalogEntry) : list string := map CatalogEntry_Hash l.

(** Unique by hash, nothing lost, nothing made up, and what was there stays in
    front. *)
Lemma collect_new_spec l : forall acc, NoDup (hashes acc) ->
  let '(seen', acc') := collect_new (hashes acc) acc l in
  seen' = hashes acc' /\ NoDup (hashes acc') /\ acc `prefix_of` acc' /\
  (forall h, h ∈ hashes acc' <-> h ∈ hashes acc \/ h ∈ hashes l) /\ (forall e, e ∈ acc' -> e ∈ acc \/ e ∈ l).
Proof.
  induction l as [|e l IH]; intros acc Hnd; simpl.
  - split_and!; [done|done|done|intros h; set_solver|set_solver].
  - destruct (mem (CatalogEntry_Hash e) (hashes acc)) eqn:Hm.
    + apply mem_true in Hm. specialize (IH acc Hnd). destruct (collect_new _ _ l) as [seen' acc'].
      destruct IH as (H1 & H2 & H3 & H4 & H5). split_and!; [done|done|done| |].
      * intros h. rewrite H4. set_solver.
      * intros x Hx. destruct (H5 x Hx); [by left|right; by right].
    + apply mem_false in Hm. specialize (IH (acc ++ [e])). unfold hashes in *. rewrite map_app in IH. simpl in IH.
      assert (NoDup (map CatalogEntry_Hash acc ++ [CatalogEntry_Hash e])) as Hnd'.
      { apply NoDup_app. split_and!; [done| |apply NoDup_singleton]. intros x Hx ->%list_elem_of_singleton. done. }
      specialize (IH Hnd'). destruct (collect_new _ _ l) as [seen' acc']. destruct IH as (H1 & H2 & H3 & H4 & H5).
      split_and!; [done|done|by eapply prefix_app_l| |].
      * intros h. rewrite H4. set_solver.
      * intros x Hx. destruct (H5 x Hx) as [[?| ->%list_elem_of_singleton]%elem_of_app|?]; [by left|right; by left|right; by right].
Qed.

(** A hash some peer answered with. *)
Definition answered (answers : list (string * PeerAnswer)) (h : string) : Prop :=
  exists p l, (p, Entries l) ∈ answers /\ h ∈ hashes l.

Lemma ask_peers_spec answers : forall acc source, NoDup (hashes acc) ->
  match ask_peers answers (hashes acc) acc source with
  | None => exists p, (p, Cancelled) ∈ answers
  | Some (all, _) =>
      NoDup (hashes all) /\ (forall h, h ∈ hashes all <-> h ∈ hashes acc \/ answered answers h)
  end.
Proof.
  induction answers as [|[p [| |l]] answers IH]; intros acc source Hnd; simpl.
  - split; [done|]. intros h. split; [by left|]. intros [?|(p & l & Hin & _)]; [done|by apply elem_of_nil in Hin].
  - exists p. by left.
  - specialize (IH acc source Hnd). destruct (ask_peers _ _ _ _) as [[all s]|].
    + destruct IH as [H1 H2]. split; [done|]. intros h. rewrite H2. split; (intros [?|(q & l & Hin & Hh)]; [by left|right]).
      * exists q, l. split; [by right|done].
      * apply elem_of_cons in Hin as [[=]|Hin]. by exists q, l.
    + destruct IH as [q Hq]. exists q. by right.
  - pose proof (collect_new_spec l acc Hnd) as Hc. destruct (collect_new (hashes acc) acc l) as [seen' acc'].
    destruct Hc as (-> & Hnd' & _ & Hh & _). 
    match goal with |- context [ask_peers answers _ _ ?x] => set (source' := x) end. specialize (IH acc' source' Hnd').
    destruct (ask_peers answers (hashes acc') acc' source') as [[all s]|].
    + destruct IH as [H1 H2]. split; [done|]. intros h. rewrite H2, Hh. split.
      * intros [[?|?]|(q & l' & Hin & Hl)]; [by left|right; exists p, l; split; [by left|done]|].
        right. exists q, l'. split; [by right|done].
      * intros [?|(q & l' & Hin & Hl)]; [by left; left|]. apply elem_of_cons in Hin as [[= -> ->]|Hin]; [by left; right|].
        right. by exists q, l'.
    + destruct IH as [q Hq]. exists q. by right.
Qed.

Lemma page_window req l :
  0 <= QueryRequest_Offset req < Z.of_nat (length l) -> 0 < QueryRequest_Limit req ->
  page req l = take (Z.to_nat (QueryRequest_Limit req)) (drop (Z.to_nat (QueryRequest_Offset req)) l).
Proof.
  intros Hoff Hlim. unfold page. set (off := QueryRequest_Offset req) in *. set (lim := QueryRequest_Limit req) in *.
  assert ((if (0 <? off) && (off <? Z.of_nat (length l)) then drop (Z.to_nat off) l else l) = drop (Z.to_nat off) l) as ->.
  { destruct (0 <? off) eqn:Ho; simpl.
    - by rewrite (proj2 (Z.ltb_lt off _)) by lia.
    - apply Z.ltb_ge in Ho. by replace off with 0 by lia. }
  rewrite (proj2 (Z.ltb_lt 0 lim)) by lia. simpl. destruct (lim <? Z.of_nat (length (drop (Z.to_nat off) l))) eqn:Hl; [done|].
  apply Z.ltb_ge in Hl. rewrite take_ge; [done|lia].
Qed.

(** A forwarded query answers with every dataset that some answering peer has,
    each once, counts them all, and returns the requested window of them; peers that
    fail are left out. *)
Theorem federated_query req answers r
    (Hne : answers <> []) (Hr : forwardQuery req answers = Some r) :
  exists all, NoDup (hashes all) /\ (forall h, h ∈ hashes all <-> answered answers h) /\
    QueryResult_TotalCount r = Z.of_nat (length all) /\ QueryResult_Entries r = page req all /\
    (0 <= QueryRequest_Offset req < Z.of_nat (length all) -> 0 < QueryRequest_Limit req ->
     QueryResult_Entries r = take (Z.to_nat (QueryRequest_Limit req)) (drop (Z.to_nat (QueryRequest_Offset req)) all)).
Proof.
  unfold forwardQuery in Hr. destruct answers as [|a answers]; [done|]. set (as_ := a :: answers) in *.
  pose proof (ask_peers_spec as_ [] "" (NoDup_nil_2)) as Hs. change (hashes []) with (@nil string) in Hs.
  destruct (ask_peers as_ [] [] "") as [[all s]|]; [|done]. injection Hr as <-. destruct Hs as [Hnd Hh]. exists all.
  split_and!; [done| |done|done|].
  - intros h. rewrite Hh. split; [|by right]. intros [[]%elem_of_nil|?]; done.
  - intros Hoff Hlim. by apply page_window.
Qed.

(** An offset past the end is ignored: the first page again, so a client that reads
    pages until an empty one never stops. *)
Theorem page_past_end req l (Hoff : Z.of_nat (length l) <= QueryRequest_Offset req) :
  page req l =
  if (0 <? QueryRequest_Limit req) && (QueryRequest_Limit req <? Z.of_nat (length l))
  then take (Z.to_nat (QueryRequest_Limit req)) l else l.
Proof.
  unfold page. rewrite (proj2 (Z.ltb_ge (QueryRequest_Offset req) _)) by lia. by rewrite andb_false_r.
Qed.

(** ** The cache of the proxy *)

Lemma older_min c : forall best,
  let r := fold_left older c best in
  (r = best \/ exists p, p ∈ c /\ r = (p.1, ce_expiresAt p.2)) /\
  (best.1 <> ""%string -> Forall (fun p => p.1 <> ""%string) c ->
   r.1 <> ""%string /\ r.2 <= best.2 /\ Forall (fun p => r.2 <= ce_expiresAt p.2) c).
Proof.
  induction c as [|p c IH]; intros best; [simpl; split; [by left|]; intros; split_and!; [done|done|constructor]|].
  simpl. destruct (IH (older best p)) as [Hr Hmin]. set (r := fold_left older c (older best p)) in *.
  assert (older best p = best \/ older best p = (p.1, ce_expiresAt p.2)) as Hstep by (unfold older; destruct (_ || _); auto).
  split.
  - destruct Hr as [->|(q & Hq & ->)]; [|right; exists q; split; [by right|done]].
    destruct Hstep as [->| ->]; [by left|right; exists p; split; [by left|done]].
  - intros Hb Hall. apply Forall_cons in Hall as [Hp Hall].
    assert ((older best p).1 <> ""%string /\ (older best p).2 <= best.2 /\ (older best p).2 <= ce_expiresAt p.2) as (H1 & H2 & H3).
    { unfold older. rewrite (bool_decide_false _ Hb). simpl. unfold Before. destruct (_ <? _) eqn:Hlt; simpl; [bool_props|bool_props];
        split_and!; (done || lia). }
    destruct (Hmin H1 Hall) as (H4 & H5 & H6). split_and!; [done|lia|]. constructor; [lia|done].
Qed.

(** Evicting removes one entry, and none that stays expires before it. *)
Lemma evictOldest_spec c : c <> ∅ -> c !! ""%string = None ->
  exists k e, c !! k = Some e /\ evictOldest c = delete k c /\ map_Forall (fun _ e' => ce_expiresAt e <= ce_expiresAt e') c.
Proof.
  intros Hne Hempty. unfold evictOldest. destruct (map_to_list c) as [|[k0 e0] l] eqn:Hl.
  { by apply map_to_list_empty_iff in Hl. }
  assert (Forall (fun p : string * cacheEntry => p.1 <> ""%string) ((k0, e0) :: l)) as Hkeys.
  { rewrite <- Hl. apply Forall_forall. intros [k e] Hin%elem_of_map_to_list. simpl. intros ->. congruence. }
  apply Forall_cons in Hkeys as [Hk0 Hkeys]. simpl in Hk0. simpl. unfold older at 2. simpl.
  destruct (older_min l (k0, ce_expiresAt e0)) as [Hr Hmin]. destruct (Hmin Hk0 Hkeys) as (Hr1 & Hr2 & Hr3).
  set (r := fold_left older l (k0, ce_expiresAt e0)) in *.
  assert (exists e, c !! r.1 = Some e /\ ce_expiresAt e = r.2) as (e & He & Het).
  { destruct Hr as [->|([k e] & Hin & ->)]; [exists e0|exists e]; split; try done; apply elem_of_map_to_list; rewrite Hl;
      [by left|by right]. }
  exists r.1, e. destruct r as [kr tr]. simpl in *. rewrite bool_decide_false by done. split_and!; [done|done|].
  intros k e' Hk. apply elem_of_map_to_list in Hk. rewrite Hl in Hk. rewrite Het.
  apply elem_of_cons in Hk as [[= -> ->]|Hk]; [done|]. rewrite Forall_forall in Hr3. by apply (Hr3 (k, e')).
Qed.

(** Histories of a proxy with one configuration. *)
Inductive proxy_op :=
| PQuery (req : QueryRequest) (connected : string -> bool) (peers : list string) (answer : string -> PeerAnswer) (now now' : Time)
| PCleanup (now : Time)
| PClear
| PAddFavorite (p : string)
| PRemoveFavorite (p : string).

Section cache_theorems.
Variable json_request : QueryRequest -> string.
Hypothesis json_not_empty : forall req, json_request req <> ""%string.

Definition proxy_step (h : ProxyHandler) (op : proxy_op) : ProxyHandler :=
  match op with
  | PQuery req conn peers answer now now' => (Proxy_Query json_request h req conn peers answer now now').1
  | PCleanup now => cleanupExpired h now
  | PClear => ClearCache h
  | PAddFavorite p => AddFavorite h p
  | PRemoveFavorite p => RemoveFavorite h p
  end.

(** Results that were forwarded for a request and kept at a time. *)
Definition forwarded (op : proxy_op) (key : string) (r : QueryResult) (t : Time) : Prop :=
  match op with
  | PQuery req conn peers answer now now' =>
      t = now' /\ key = json_request req /\
      exists favorites, forwardQuery req (map (fun p => (p, answer p))
        (List.filter conn favorites ++ List.filter (fun p => negb (mem p favorites)) peers)) = Some r
  | _ => False
  end.

Record cache_inv (cfg : P2PConfig) (ops : list proxy_op) (h : ProxyHandler) : Prop := {
  ci_cfg : ph_cfg h = cfg;
  ci_size : Z.of_nat (size (ph_cache h)) <= Z.max 1 (maxCacheSize cfg);
  ci_keys : ph_cache h !! ""%string = None;
  ci_origin k e : ph_cache h !! k = Some e ->
    exists op t, op ∈ ops /\ forwarded op k (ce_result e) t /\ ce_expiresAt e = Add t (cacheTTL cfg)
}.

(** Operations that only drop entries keep the invariant. *)
Lemma cache_inv_sub cfg ops op h h' :
  cache_inv cfg ops h -> ph_cfg h' = cfg -> ph_cache h' ⊆ ph_cache h -> cache_inv cfg (ops ++ [op]) h'.
Proof.
  intros [Hc Hs Hk Ho] Hc' Hsub. split; [done|..].
  - apply map_subseteq_size in Hsub. lia.
  - destruct (ph_cache h' !! ""%string) eqn:E; [|done]. by rewrite (lookup_weaken _ _ _ _ E Hsub) in Hk.
  - intros k e He. destruct (Ho k e (lookup_weaken _ _ _ _ He Hsub)) as (op' & t & Hin & Hf & Ht).
    exists op', t. split_and!; [set_solver|done|done].
Qed.

Lemma evicted_size c m : c !! ""%string = None -> Z.of_nat (size c) <= Z.max 1 m -> m <= Z.of_nat (size c) ->
  evictOldest c ⊆ c /\ Z.of_nat (size (evictOldest c)) + 1 <= Z.max 1 m.
Proof.
  intros Hk Hs Hm. destruct (decide (c = ∅)) as [->|Hne].
  - unfold evictOldest. rewrite map_to_list_empty. simpl. rewrite map_size_empty in *. split; [done|lia].
  - destruct (evictOldest_spec c Hne Hk) as (k & e & Hke & -> & _). split; [apply delete_subseteq|].
    rewrite map_size_delete_Some by eauto. assert (size c <> 0%nat) by (apply (map_size_ne_0_lookup_2 _ k); eauto). lia.
Qed.

Lemma proxy_step_inv cfg ops h op : cache_inv cfg ops h -> cache_inv cfg (ops ++ [op]) (proxy_step h op).
Proof.
  intros Hi. pose proof Hi as [Hc Hs Hk Ho]. destruct op as [req conn peers answer now now'|now| |p|p]; simpl.
  - unfold Proxy_Query. destruct (getFromCache h _ now); [by apply cache_inv_sub with h|].
    destruct (forwardQuery req _) as [r|] eqn:Hf; [|by apply cache_inv_sub with h]. unfold putInCache. rewrite Hc.
    match goal with |- context [<[_ := _]> ?x] => set (c := x) end.
    assert (c ⊆ ph_cache h /\ Z.of_nat (size c) + 1 <= Z.max 1 (maxCacheSize cfg)) as [Hsub Hsz].
    { subst c. destruct (_ <=? _) eqn:Hle; bool_props; [by apply evicted_size|]. split; [done|lia]. }
    split; simpl; [done|..].
    + rewrite map_size_insert. destruct (c !! _); unfold id; lia.
    + rewrite lookup_insert_ne by apply json_not_empty. destruct (c !! ""%string) eqn:E; [|done].
      by rewrite (lookup_weaken _ _ _ _ E Hsub) in Hk.
    + intros k e. rewrite lookup_insert. case_decide as Heq.
      * intros [= <-]. exists (PQuery req conn peers answer now now'), now'. split_and!; [set_solver| |done]. simpl.
        split_and!; [done|done|]. by exists (ph_favorites h).
      * intros He. destruct (Ho k e (lookup_weaken _ _ _ _ He Hsub)) as (op' & t & Hin & Hfw & Ht).
        exists op', t. split_and!; [set_solver|done|done].
  - apply cache_inv_sub with h; [done|done|]. apply map_filter_subseteq.
  - apply cache_inv_sub with h; [done|done|]. apply map_empty_subseteq.
  - by apply cache_inv_sub with h.
  - apply cache_inv_sub with h; [done|..]; unfold RemoveFavorite; by destruct (remove_first _ _).
Qed.

(** Whatever a proxy is asked, its cache holds at most the configured number of
    results, and a result served from the cache is the one that was forwarded for a
    request with the same key, no longer ago than the lifetime. *)
Theorem proxy_cache_sound (peer_Decode : string -> option string) cfg ops :
  let h := fold_left proxy_step ops (NewProxyHandler peer_Decode cfg) in
  Z.of_nat (size (ph_cache h)) <= Z.max 1 (maxCacheSize cfg) /\
  forall req now r, getFromCache h (json_request req) now = Some r ->
    exists op t r0, op ∈ ops /\ forwarded op (json_request req) r0 t /\ now <= t + cacheTTL cfg /\
      QueryResult_FromCache r = true /\ QueryResult_Entries r = QueryResult_Entries r0 /\
      QueryResult_TotalCount r = QueryResult_TotalCount r0.
Proof.
  intros h. assert (cache_inv cfg ops h) as [Hc Hs Hk Ho].
  { assert (forall pre h0, cache_inv cfg pre h0 -> cache_inv cfg (pre ++ ops) (fold_left proxy_step ops h0)) as Hgen.
    { subst h. induction ops as [|op ops IH]; intros pre h0 Hi; [by rewrite app_nil_r|]. simpl.
      rewrite (cons_middle op pre), app_assoc. by apply IH, proxy_step_inv. }
    apply (Hgen []). split; simpl; [done|rewrite map_size_empty; lia|done|]. intros k e. by rewrite lookup_empty. }
  split; [done|]. intros req now r. unfold getFromCache. destruct (ph_cache h !! json_request req) as [e|] eqn:He; [|done].
  unfold After. destruct (_ <? _) eqn:Hexp; [done|]. intros [= <-]. bool_props.
  destruct (Ho _ _ He) as (op & t & Hin & Hf & Ht). exists op, t, (ce_result e). rewrite Ht in Hexp. unfold Add in Hexp.
  by split_and!.
Qed.
End cache_theorems.

(** ** Subscriptions *)

Section selective_theorems.
Context `{SubsJSON}.

Definition patterns (h : SelectiveHandler) : list string := map Subscription_TopicPattern (sh_subscriptions h).

Inductive sub_op :=
| SSubscribe (pattern : string) (now : Time)
| SUnsubscribe (pattern : string)
| SSync (pattern : string) (answers : list (string * PeerAnswer)) (now : Time)
| SStop.

Definition sub_step (st : SelectiveHandler * Files) (op : sub_op) : SelectiveHandler * Files :=
  let '(h, fs) := st in
  match op with
  | SSubscribe p now => let '(h, (fs, _)) := Selective_Subscribe h fs p now Written in (h, fs)
  | SUnsubscribe p => let '(h, (fs, _)) := Selective_Unsubscribe h fs p Written in (h, fs)
  | SSync p answers now => ((SyncSubscription h p answers now).1, fs)
  | SStop => (h, (Selective_Stop h fs Written).1)
  end.
Definition sub_op_json (op : sub_op) : bool :=
  match op with
  | SSubscribe p now => is_ascii p && json_time now
  | SSync _ _ now => json_time now
  | _ => true
  end.
(** What a history says about a pattern: subscribed last, or not. *)
Definition wanted (before : list string) (op : sub_op) : list string :=
  match op with
  | SSubscribe p _ => add_new p before
  | SUnsubscribe p => List.filter (fun q => q <>? p) before
  | _ => before
  end.

Lemma addSubscription_patterns h p now : patterns (addSubscriptionLocked h p now) = add_new p (patterns h).
Proof.
  unfold addSubscriptionLocked, add_new, patterns. destruct (mem p _); [done|]. simpl. by rewrite map_app.
Qed.

Lemma remove_first_filter (p : string) (l : list Subscription) :
  NoDup (map Subscription_TopicPattern l) ->
  map Subscription_TopicPattern
    (match remove_first (fun s => Subscription_TopicPattern s =?= p) l with Some l' => l' | None => l end) =
  List.filter (fun q => q <>? p) (map Subscription_TopicPattern l).
Proof.
  induction l as [|s l IH]; intros Hnd; [done|]. simpl in *. apply NoDup_cons in Hnd as [Hs Hnd].
  destruct (bool_decide (Subscription_TopicPattern s = p)) eqn:Hp; simpl; bool_props.
  - subst p. symmetry. clear IH. induction l as [|s' l IH]; [done|]. simpl in *. apply not_elem_of_cons in Hs as [Hne Hs].
    rewrite bool_decide_false by done. simpl. f_equal. apply NoDup_cons in Hnd as [_ Hnd]. by apply IH.
  - specialize (IH Hnd). destruct (remove_first _ l); simpl; by rewrite <- IH.
Qed.

Lemma mark_synced_patterns l p now : map Subscription_TopicPattern (mark_synced l p now) = map Subscription_TopicPattern l.
Proof. induction l as [|s l IH]; [done|]. simpl. case_bool_decide; simpl; [done|by rewrite IH]. Qed.

Lemma sub_step_patterns st op :
  NoDup (patterns st.1) -> patterns (sub_step st op).1 = wanted (patterns st.1) op /\ NoDup (patterns (sub_step st op).1).
Proof.
  destruct st as [h fs]. intros Hnd. cbn [fst] in Hnd. destruct op as [p now|p|p answers now|]; simpl.
  - unfold Selective_Subscribe. pose proof (addSubscription_patterns h p now) as Hp.
    destruct (saveSubscriptionsLocked _ _ _). cbn [fst]. rewrite Hp. split; [done|]. by apply NoDup_add_new.
  - unfold Selective_Unsubscribe. destruct (saveSubscriptionsLocked _ _ _). cbn [fst]. unfold patterns. simpl.
    rewrite remove_first_filter by done. split; [done|]. by apply NoDup_ListNoDup, List.NoDup_filter, NoDup_ListNoDup.
  - unfold SyncSubscription. destruct (Selective_Query _ _); [|done]. unfold patterns. simpl. by rewrite mark_synced_patterns.
  - done.
Qed.

(** The file agrees with memory after everything but a synchronisation, which is
    written by the next change or stop. *)
Definition on_disk (h : SelectiveHandler) (fs : Files) : Prop :=
  sh_subscriptions (NewSelectiveHandler (sh_cfg h) (sh_configDir h) fs) = sh_subscriptions h.

Lemma save_on_disk h fs : forallb sub_json (sh_subscriptions h) = true -> on_disk h (saveSubscriptionsLocked h fs Written).1.
Proof.
  intros Hj. unfold on_disk, saveSubscriptionsLocked. destruct (subs_round_trip _ Hj) as (b & -> & Hu). simpl.
  rewrite lookup_insert_eq. simpl. by rewrite Hu.
Qed.

Definition subs_json (h : SelectiveHandler) : bool := forallb sub_json (sh_subscriptions h).

Lemma sub_step_json st op : subs_json st.1 = true -> sub_op_json op = true -> subs_json (sub_step st op).1 = true.
Proof.
  destruct st as [h fs]. unfold subs_json. cbn [fst]. intros Hj Hop. destruct op as [p now|p|p answers now|]; simpl.
  - apply andb_true_iff in Hop as [Hp Hn]. unfold Selective_Subscribe. destruct (saveSubscriptionsLocked _ _ _). cbn [fst].
    unfold addSubscriptionLocked. destruct (mem _ _); [done|]. simpl. rewrite forallb_app, Hj. simpl.
    unfold sub_json. simpl. by rewrite Hp, Hn.
  - unfold Selective_Unsubscribe. destruct (saveSubscriptionsLocked _ _ _). simpl.
    destruct (remove_first _ _) as [l|] eqn:Hr; [|done]. apply remove_first_Some in Hr as (l1 & x & l2 & Heq & -> & _).
    rewrite Heq, !forallb_app in Hj. simpl in Hj. rewrite forallb_app. bool_props. by apply andb_true_iff.
  - unfold SyncSubscription. destruct (Selective_Query _ _); [|done]. simpl.
    induction (sh_subscriptions h) as [|s l IH]; [done|]. simpl in *. bool_props. case_bool_decide; simpl.
    + apply andb_true_iff. split; [|done]. unfold sub_json in *. simpl in *. rewrite !andb_true_iff in *. tauto.
    + apply andb_true_iff. split; [done|]. by apply IH.
  - done.
Qed.

Lemma sub_step_place st op : sh_cfg (sub_step st op).1 = sh_cfg st.1 /\ sh_configDir (sub_step st op).1 = sh_configDir st.1.
Proof.
  destruct st as [h fs]. destruct op; simpl.
  - unfold Selective_Subscribe, addSubscriptionLocked. destruct (saveSubscriptionsLocked _ _ _). by destruct (mem _ _).
  - unfold Selective_Unsubscribe. by destruct (saveSubscriptionsLocked _ _ _).
  - unfold SyncSubscription. by destruct (Selective_Query _ _).
  - done.
Qed.

(** A node in selective mode is subscribed to exactly the patterns it was asked
    to and not asked to drop since, each once, and once stopped and started again it
    has the same subscriptions with their times. *)
Theorem subscriptions_persist cfg dir ops
    (Hops : forallb sub_op_json ops = true) :
  let '(h, fs) := fold_left sub_step (ops ++ [SStop]) (NewSelectiveHandler cfg dir ∅, ∅) in
  patterns h = fold_left wanted ops [] /\ NoDup (patterns h) /\
  sh_subscriptions (NewSelectiveHandler cfg dir fs) = sh_subscriptions h.
Proof.
  set (st0 := (NewSelectiveHandler cfg dir ∅, ∅) : SelectiveHandler * Files).
  assert (forall st, subs_json st.1 = true -> NoDup (patterns st.1) ->
    let st' := fold_left sub_step ops st in
    patterns st'.1 = fold_left wanted ops (patterns st.1) /\ NoDup (patterns st'.1) /\ subs_json st'.1 = true /\
    sh_cfg st'.1 = sh_cfg st.1 /\ sh_configDir st'.1 = sh_configDir st.1) as Hgen.
  { clear st0. induction ops as [|op ops IH]; intros st Hj Hnd; [done|]. simpl in Hops. apply andb_true_iff in Hops as [Ho Hops].
    destruct (sub_step_patterns st op Hnd) as [Hp Hnd']. destruct (sub_step_place st op) as [Hcfg Hdir].
    simpl. rewrite <- Hp, <- Hcfg, <- Hdir. apply IH; [done|by apply sub_step_json|done]. }
  assert (sh_subscriptions st0.1 = []) as H0 by (simpl; by rewrite lookup_empty).
  destruct (Hgen st0) as (Hp & Hnd & Hj & Hcfg & Hdir).
  { unfold subs_json. by rewrite H0. }
  { unfold patterns. rewrite H0. apply NoDup_nil_2. }
  assert (patterns st0.1 = []) as Hp0 by (unfold patterns; by rewrite H0). rewrite Hp0 in Hp.
  rewrite fold_left_app. destruct (fold_left sub_step ops st0) as [h fs]. simpl in *.
  split_and!; [done|done|].
  pose proof (save_on_disk h fs Hj) as Hd. unfold on_disk in Hd. by rewrite Hcfg, Hdir in Hd.
Qed.

(** Synchronising a subscription asks for everything: what is kept for a pattern
    does not depend on the pattern. *)
Theorem sync_ignores_pattern h p q answers now :
  GetCachedEntries (SyncSubscription h p answers now).1 p = GetCachedEntries (SyncSubscription h q answers now).1 q \/
  (SyncSubscription h p answers now).2 = false.
Proof.
  unfold SyncSubscription, Selective_Query. destruct (ask_peers answers [] [] "") as [[all s]|]; [left|by right].
  unfold GetCachedEntries. simpl. by rewrite !lookup_insert_eq.
Qed.
End selective_theorems.

(** ** Switching modes *)

Section switching.
Context `{SubsJSON} `{UnicodeTables}.
Variable peer_Decode : string -> option string.

Lemma createHandler_mode cfg dir mode fs h :
  createHandler peer_Decode cfg dir mode fs = Some h -> Handler_Mode h = mode.
Proof. unfold createHandler. repeat (case_bool_decide; [intros [= <-]; done|]). done. Qed.

(** The handler is that of the mode. *)
Lemma SetMode_mode mm mode fs o :
  Handler_Mode (mm_handler mm) = mm_mode mm ->
  let mm' := (SetMode peer_Decode mm mode fs o).1.1 in Handler_Mode (mm_handler mm') = mm_mode mm'.
Proof.
  intros Hm. unfold SetMode. case_bool_decide; [done|]. destruct (Handler_Stop _ _ _) as [fs' []]; simpl; [|done].
  destruct (createHandler _ _ _ _ _) eqn:Hc; [|done]. by apply createHandler_mode in Hc.
Qed.

Lemma OnConfigUpdate_mode h cfg now : Handler_Mode (Handler_OnConfigUpdate peer_Decode h cfg now) = Handler_Mode h.
Proof. by destruct h. Qed.

Inductive mode_op :=
| MStart
| MStop (o : WriteOutcome)
| MSet (mode : string) (o : WriteOutcome)
| MUpdate (cfg : P2PConfig) (now : Time) (o : WriteOutcome).
Definition mode_step (st : ModeManager * Files) (op : mode_op) : ModeManager * Files :=
  let '(mm, fs) := st in
  match op with
  | MStart => (ModeManager_Start mm, fs)
  | MStop o => let '(mm, (fs, _)) := ModeManager_Stop mm fs o in (mm, fs)
  | MSet mode o => (SetMode peer_Decode mm mode fs o).1
  | MUpdate cfg now o => (ModeManager_UpdateConfig peer_Decode mm cfg fs now o).1
  end.

(** C20: whatever switches and configurations a node goes through, and whichever of
    them fail, its mode is one of the three and its handler is the one of that mode. *)
Theorem mode_matches_handler cfg dir fs mm ops
    (Hnew : NewModeManager peer_Decode cfg dir fs = Ok mm) :
  let mm' := (fold_left mode_step ops (mm, fs)).1 in
  Handler_Mode (mm_handler mm') = mm_mode mm' /\ mm_mode mm' ∈ [NodeModeProxy; NodeModeSelective; NodeModeFull].
Proof.
  assert (forall mm, Handler_Mode (mm_handler mm) = mm_mode mm -> mm_mode mm ∈ [NodeModeProxy; NodeModeSelective; NodeModeFull]) as Hin.
  { intros m <-. destruct (mm_handler m); set_solver. }
  intros mm'. enough (Handler_Mode (mm_handler mm') = mm_mode mm') by auto.
  assert (Handler_Mode (mm_handler mm) = mm_mode mm) as Hh0.
  { unfold NewModeManager in Hnew. destruct (ParseNodeMode _); [|done]. destruct (createHandler _ _ _ _ _) eqn:Hc; [|done].
    injection Hnew as <-. by apply createHandler_mode in Hc. }
  subst mm'. clear Hnew. revert mm fs Hh0. induction ops as [|op ops IH]; intros mm fs Hh0; [done|]. simpl.
  destruct op as [|o|mode o|cfg' now o]; simpl.
  - by apply IH.
  - destruct (Handler_Stop _ _ _). by apply IH.
  - pose proof (SetMode_mode mm mode fs o Hh0) as Hs. destruct (SetMode _ mm mode fs o) as [[mm1 fs1] e]. by apply IH.
  - unfold ModeManager_UpdateConfig. destruct (ParseNodeMode (P2P_Mode cfg')) as [m|]; [|by apply IH]. simpl.
    case_bool_decide; simpl.
    + apply IH. simpl. by rewrite OnConfigUpdate_mode.
    + set (mm0 := mkModeManager _ _ _ _ cfg'). pose proof (SetMode_mode mm0 m fs o Hh0) as Hs.
      destruct (SetMode _ mm0 m fs o) as [[mm1 fs1] e]. by apply IH.
Qed.

(** A node that is told to switch to a mode that does not exist stops what it
    was doing and keeps claiming its old mode; asking for that mode again reports
    success and starts nothing. *)
Theorem failed_switch_stops_node mm mode fs
    (Hbad : mode ∉ [NodeModeProxy; NodeModeSelective; NodeModeFull])
    (Hold : mm_mode mm ∈ [NodeModeProxy; NodeModeSelective; NodeModeFull])
    (Hstop : (Handler_Stop (mm_handler mm) fs Written).2 = true) :
  let '(mm', fs', err) := SetMode peer_Decode mm mode fs Written in
  err = Some ErrCreateHandler /\ mm_mode mm' = mm_mode mm /\ mm_running mm' = false /\
  SetMode peer_Decode mm' (mm_mode mm) fs' Written = (mm', fs', None).
Proof.
  unfold SetMode at 1. rewrite bool_decide_false by (intros Heq; by rewrite Heq in Hold).
  destruct (Handler_Stop _ _ _) as [fs' stopped]. simpl in Hstop. subst stopped. simpl.
  assert (createHandler peer_Decode (mm_cfg mm) (mm_configDir mm) mode fs' = None) as ->.
  { unfold createHandler. rewrite !bool_decide_false by set_solver. done. }
  split_and!; [done|done|done|]. unfold SetMode. simpl. by rewrite bool_decide_true.
Qed.
End switching.

(** ** Witnesses *)

#[export] Instance Subscription_eq_dec : EqDecision Subscription.
Proof. solve_decision. Defined.
#[export] Instance Subscription_countable : Countable Subscription.
Proof.
  refine (inj_countable' (fun s => (Subscription_TopicPattern s, Subscription_CreatedAt s, Subscription_LastSync s))
    (fun '(a, b, c) => mkSubscription a b c) _).
  by intros [].
Defined.
Definition toy_subs_json : SubsJSON.
Proof.
  refine {| subs_Marshal l := Some [Zpos (encode l)];
            subs_Unmarshal b := match b with [Zpos p] => decode p | _ => None end |}.
  intros l _. eexists. split; [done|]. simpl. by rewrite decode_encode.
Defined.

Section witnesses.
#[local] Existing Instance toy_subs_json.
#[local] Existing Instance identity_tables.

Definition entry (hash : string) : CatalogEntry := mkCatalogEntry "t" "topic" "d" "data" "v" "1.0" hash 10 1 true false [] 0.
Definition toy_req (id : string) (limit offset : Z) : QueryRequest :=
  mkQueryRequest id "metadata" "" "" [] "" "" "" limit offset false 0 "" zero_time.
Definition toy_answers : list (string * PeerAnswer) :=
  [("p1"%string, Entries [entry "a"; entry "b"]); ("p2"%string, Failed); ("p3"%string, Entries [entry "b"; entry "c"])].
Definition toy_json_request (r : QueryRequest) : string := "{" ++ QueryRequest_ID r ++ "}".
Definition toy_p2p : P2PConfig := mkP2PConfig "" 0 2 [] ["news"%string] "".

Lemma federated_query_witness :
  exists all, hashes all = ["a"; "b"; "c"]%string /\ forwardQuery (toy_req "q" 1 1) toy_answers =
    Some (entries_result "q" [entry "b"] 3 "p1") /\ forall h, h ∈ hashes all <-> answered toy_answers h.
Proof.
  destruct (federated_query (toy_req "q" 0 0) toy_answers (entries_result "q" [entry "a"; entry "b"; entry "c"] 3 "p1"))
    as (all & _ & Hh & _ & Hall & _); [done|by vm_compute|]. exists all. vm_compute in Hall. subst all.
  split_and!; [done|by vm_compute|done].
Defined.

Example past_the_end :
  option_map QueryResult_Entries (forwardQuery (toy_req "q" 2 3) toy_answers) = Some [entry "a"; entry "b"] /\
  option_map QueryResult_Entries (forwardQuery (toy_req "q" 2 2) toy_answers) = Some [entry "c"].
Proof. by vm_compute. Qed.

Definition toy_proxy_ops : list proxy_op :=
  [PQuery (toy_req "q1" 0 0) (fun _ => true) ["p1"%string] (fun _ => Entries [entry "a"]) 5 6;
   PQuery (toy_req "q2" 0 0) (fun _ => true) ["p1"%string] (fun _ => Entries [entry "b"]) 7 8;
   PQuery (toy_req "q3" 0 0) (fun _ => true) ["p1"%string] (fun _ => Failed) 9 10; PCleanup 11].
Lemma proxy_cache_sound_witness :
  let h := fold_left (proxy_step toy_json_request) toy_proxy_ops (NewProxyHandler Some toy_p2p) in
  Z.of_nat (size (ph_cache h)) = 2 /\ getFromCache h "{q1}" 12 = None /\
  Z.of_nat (size (ph_cache h)) <= Z.max 1 (maxCacheSize toy_p2p).
Proof.
  split_and!; [by vm_compute|by vm_compute|].
  apply (proxy_cache_sound toy_json_request (fun req Heq => ltac:(discriminate Heq)) Some toy_p2p toy_proxy_ops).
Defined.

Lemma subscriptions_persist_witness :
  let ops := [SSubscribe "a*" 3; SSubscribe "b" 4; SSubscribe "a*" 5; SUnsubscribe "b"] in
  let '(h, fs) := fold_left sub_step (ops ++ [SStop]) (NewSelectiveHandler toy_p2p "/etc" ∅, ∅) in
  patterns h = fold_left wanted ops [] /\ NoDup (patterns h) /\
  sh_subscriptions (NewSelectiveHandler toy_p2p "/etc" fs) = sh_subscriptions h.
Proof. apply subscriptions_persist. by vm_compute. Defined.

(** The patterns of the configuration are used by an update of it only, not at the
    start. *)
Example configured_subscriptions_wait :
  let h := NewSelectiveHandler toy_p2p "/etc" ∅ in
  sh_subscriptions h = [] /\ patterns (Selective_OnConfigUpdate h toy_p2p 3) = ["news"%string].
Proof. by vm_compute. Qed.

Definition toy_mm : ModeManager := mkModeManager "/etc" NodeModeProxy (HProxy (NewProxyHandler Some toy_p2p)) false toy_p2p.
Lemma mode_matches_handler_witness :
  mm_mode (fold_left (mode_step Some) [MStart; MSet "full" Written; MSet "none" Written] (toy_mm, ∅)).1 = NodeModeFull /\
  let mm' := (fold_left (mode_step Some) [MStart; MSet "full" Written; MSet "none" Written] (toy_mm, ∅)).1 in
  Handler_Mode (mm_handler mm') = mm_mode mm' /\ mm_mode mm' ∈ [NodeModeProxy; NodeModeSelective; NodeModeFull].
Proof. split; [by vm_compute|]. apply (mode_matches_handler Some toy_p2p "/etc" ∅ toy_mm). by vm_compute. Defined.

Lemma failed_switch_stops_node_witness :
  let '(mm', fs', err) := SetMode Some (ModeManager_Start toy_mm) "none" ∅ Written in
  err = Some ErrCreateHandler /\ mm_mode mm' = NodeModeProxy /\ mm_running mm' = false /\
  SetMode Some mm' NodeModeProxy fs' Written = (mm', fs', None).
Proof.
  apply (failed_switch_stops_node Some (ModeManager_Start toy_mm) "none" ∅); [set_solver| |done].
  simpl. set_solver.
Defined.
End witnesses.
