(* ===== verification/Wire.v ===== *)
(** * Messages between nodes ([internal/p2p/protocol.go], [protocol_client.go],
      [internal/cluster/transport.go])

    Both protocols send length-prefixed JSON over streams.  A stream is the pieces
    in which its bytes arrive: a single read yields no more than the next piece,
    [io.ReadFull] goes on until it has all it asked for.  JSON is a class of
    encodings with what they preserve.  The texts of errors are shortened; client
    calls with an untyped answer ([GetPeerInfo], [GetSyncStatus], [SubmitJob]) and the
    handlers of status and job requests that answer with a constant are left out
    where nothing depends on them. *)
From stdpp Require Import base gmap strings list.
From Stdlib Require Import ZArith Lia.
From S2P Require Import Prelude GoStrings Domain Download Transfer.
Local Open Scope Z_scope.

(** ** Streams *)

(** No piece is empty; the stream ends after the last. *)
Abbreviation Stream := (list (list Z)).

(** [s.Read(buf)] with a buffer of [n] bytes: what was read and what is left;
    [None] at the end. *)
Definition stream_Read (s : Stream) (n : nat) : option (list Z * Stream) :=
  match n, s with
  | O, _ => Some ([], s)
  | _, [] => None
  | _, p :: s' => if (n <? length p)%nat then Some (take n p, drop n p :: s') else Some (p, s')
  end.

Fixpoint ReadFull (s : Stream) (n : nat) : option (list Z * Stream) :=
  match n, s with
  | O, _ => Some ([], s)
  | _, [] => None
  | _, p :: s' =>
      if (n <? length p)%nat then Some (take n p, drop n p :: s')
      else match ReadFull s' (n - length p) with
           | Some (d, rest) => Some (p ++ d, rest)
           | None => None
           end
  end.

Definition frame (body : list Z) : list Z := lenBuf (Z.of_nat (length body)) ++ body.

Inductive WireError :=
| ErrEOF
| ErrTooLarge (n : Z)
| ErrJSON
| ErrNewStream
| ErrPeer (text : string)
| ErrNotConnected
| ErrDial.

(** The framing both protocols share, with their limits. *)
Definition read_frame (limit : Z) (s : Stream) : result WireError (list Z * Stream) :=
  match ReadFull s 4 with
  | None => Err ErrEOF
  | Some (header, s) =>
      let n := length_of header in
      if limit <? n then Err (ErrTooLarge n)
      else match ReadFull s (Z.to_nat n) with
           | None => Err ErrEOF
           | Some (body, s) => Ok (body, s)
           end
  end.

Definition MaxMessage : Z := 10 * 1024 * 1024.
Definition MaxRaftMessage : Z := 64 * 1024 * 1024.
Definition MaxHandshake : Z := 1024.

(** ** JSON *)

(** [encoding/json] at a type: [shown] is the part of a value that is marshalled,
    [sendable] holds of the values it can carry. *)
Class JSON (A : Type) := {
  Marshal : A -> list Z;
  Unmarshal : list Z -> option A;
  sendable : A -> bool;
  shown : A -> A;
  Unmarshal_Marshal a : sendable a = true -> Unmarshal (Marshal a) = Some (shown a)
}.

(** ** The protocol of the peers *)

Record ErrorPayload := mkErrorPayload { EP_Code : Z; EP_Message : string }.
Record Message := mkMessage {
  Msg_Type : string;
  Msg_RequestID : string;
  Msg_Payload : list Z;
  Msg_Error : option ErrorPayload
}.

Definition MsgGetCatalog : string := "get_catalog".
Definition MsgCatalog : string := "catalog".
Definition MsgQueryCatalog : string := "query_catalog".
Definition MsgQueryResult : string := "query_result".
Definition MsgAnnounce : string := "announce".
Definition MsgAnnounceAck : string := "announce_ack".
Definition MsgGetDatasetInfo : string := "get_dataset_info".
Definition MsgDatasetInfo : string := "dataset_info".
Definition MsgGetChunk : string := "get_chunk".
Definition MsgChunk : string := "chunk".
Definition MsgGetChunks : string := "get_chunks".
Definition MsgChunks : string := "chunks".
Definition MsgSyncState : string := "sync_state".
Definition MsgSyncStateResp : string := "sync_state_response".
Definition MsgSubmitJob : string := "submit_job".
Definition MsgJobAccepted : string := "job_accepted".
Definition MsgGetJobStatus : string := "get_job_status".
Definition MsgError : string := "error".

(** The anonymous structs of the handlers. *)
Record AnnounceReq := mkAnnounceReq { Announce_NewEntries : list CatalogEntry; Announce_RemovedHashes : list string }.
Record DatasetReq := mkDatasetReq { DatasetReq_DatasetID : DatasetID; DatasetReq_Hash : string }.
Record ChunkReq := mkChunkReq { ChunkReq_DatasetID : DatasetID; ChunkReq_ChunkIndex : Z }.
Record ChunksReq := mkChunksReq { ChunksReq_DatasetID : DatasetID; ChunksReq_ChunkIndices : list Z }.
Record SyncReq := mkSyncReq { SyncReq_CatalogVersion : Z; SyncReq_Hashes : list string }.
Record SyncResp := mkSyncResp { SyncResp_Missing : list string; SyncResp_Wanted : list string; SyncResp_Version : Z }.
Record AnnounceAck := mkAnnounceAck { Ack_EntriesReceived : Z }.
Record JobAccepted := mkJobAccepted { JobAccepted_Accepted : bool; JobAccepted_JobID : string; JobAccepted_Error : string }.

(** Callbacks, where they are set; errors by their text. *)
Record ProtocolHandler := mkProtocolHandler {
  ph_catalog : Catalog;
  onGetCatalog : option Catalog;
  onQueryCatalog : option (QueryRequest -> result string QueryResult);
  onGetDataset : option (DatasetID -> result string Dataset);
  onGetChunk : option (DatasetID -> Z -> result string Chunk)
}.

Section protocol.
Context `{JSON Message} `{JSON Catalog} `{JSON QueryRequest} `{JSON QueryResult} `{JSON Dataset} `{JSON Chunk}
  `{JSON (list Chunk)} `{JSON AnnounceReq} `{JSON AnnounceAck} `{JSON DatasetReq} `{JSON ChunkReq} `{JSON ChunksReq}
  `{JSON SyncReq} `{JSON SyncResp} `{JSON JobAccepted}.

Definition reply {A} `{JSON A} (type : string) (a : A) : result string Message := Ok (mkMessage type "" (Marshal a) None).
Definition payload (A : Type) `{JSON A} (msg : Message) : result string A :=
  match Unmarshal (Msg_Payload msg) with Some a => Ok a | None => Err "invalid payload"%string end.

Definition current_catalog (ph : ProtocolHandler) : Catalog := default (ph_catalog ph) (onGetCatalog ph).

Definition handleGetCatalog (ph : ProtocolHandler) (msg : Message) : result string Message :=
  reply MsgCatalog (current_catalog ph).

Definition handleQueryCatalog (ph : ProtocolHandler) (msg : Message) : result string Message :=
  let! req := payload QueryRequest msg in
  let! r := match onQueryCatalog ph with
            | Some f => f req
            | None => Ok (mkQueryResult (QueryRequest_ID req) "" [] [] [] 0 false "" 0 false "")
            end in
  reply MsgQueryResult r.

(** Counted, and nothing else. *)
Definition handleAnnounce (ph : ProtocolHandler) (msg : Message) : result string Message :=
  let! a := payload AnnounceReq msg in
  reply MsgAnnounceAck (mkAnnounceAck (Z.of_nat (length (Announce_NewEntries a)))).

Definition handleGetDatasetInfo (ph : ProtocolHandler) (msg : Message) : result string Message :=
  let! req := payload DatasetReq msg in
  match onGetDataset ph with
  | None => Err "dataset not found"%string
  | Some f => let! d := f (DatasetReq_DatasetID req) in reply MsgDatasetInfo d
  end.

Definition handleGetChunk (ph : ProtocolHandler) (msg : Message) : result string Message :=
  let! req := payload ChunkReq msg in
  match onGetChunk ph with
  | None => Err "chunk not found"%string
  | Some f => let! c := f (ChunkReq_DatasetID req) (ChunkReq_ChunkIndex req) in reply MsgChunk c
  end.

(** Chunks that cannot be had are left out. *)
Definition handleGetChunks (ph : ProtocolHandler) (msg : Message) : result string Message :=
  let! req := payload ChunksReq msg in
  match onGetChunk ph with
  | None => Err "chunk not found"%string
  | Some f =>
      reply MsgChunks (omap (fun i => match f (ChunksReq_DatasetID req) i with Ok c => Some c | Err _ => None end)
                         (ChunksReq_ChunkIndices req))
  end.

Definition sync_state (catalog : Catalog) (req : SyncReq) : SyncResp :=
  let ours := map CatalogEntry_Hash (Catalog_Entries catalog) in
  mkSyncResp (List.filter (fun h => negb (mem h (SyncReq_Hashes req))) ours)
    (List.filter (fun h => negb (mem h ours)) (SyncReq_Hashes req)) (Catalog_Version catalog).
Definition handleSyncState (ph : ProtocolHandler) (msg : Message) : result string Message :=
  let! req := payload SyncReq msg in
  reply MsgSyncStateResp (sync_state (current_catalog ph) req).

Definition handleSubmitJob (ph : ProtocolHandler) (msg : Message) : result string Message :=
  reply MsgJobAccepted (mkJobAccepted false "" "job submission not yet implemented").
Definition handleGetJobStatus (ph : ProtocolHandler) (msg : Message) : result string Message := Err "job not found"%string.

(** [None] for a type without a handler.  [get_peer_info] and [get_sync_status]
    answer with facts about the host and the clock and are left out. *)
Definition dispatch (ph : ProtocolHandler) (msg : Message) : option (result string Message) :=
  let t := Msg_Type msg in
  if t =?= MsgGetCatalog then Some (handleGetCatalog ph msg)
  else if t =?= MsgQueryCatalog then Some (handleQueryCatalog ph msg)
  else if t =?= MsgAnnounce then Some (handleAnnounce ph msg)
  else if t =?= MsgGetDatasetInfo then Some (handleGetDatasetInfo ph msg)
  else if t =?= MsgGetChunk then Some (handleGetChunk ph msg)
  else if t =?= MsgGetChunks then Some (handleGetChunks ph msg)
  else if t =?= MsgSyncState then Some (handleSyncState ph msg)
  else if t =?= MsgSubmitJob then Some (handleSubmitJob ph msg)
  else if t =?= MsgGetJobStatus then Some (handleGetJobStatus ph msg)
  else None.

Definition writeMessage (msg : Message) : list Z := frame (Marshal msg).
Definition writeError (code : Z) (text : string) : list Z :=
  writeMessage (mkMessage MsgError "" [] (Some (mkErrorPayload code text))).

Definition readMessage (s : Stream) : result WireError Message :=
  let! (body, _) := read_frame MaxMessage s in
  match Unmarshal body with Some msg => Ok msg | None => Err ErrJSON end.

(** What a stream with a request is answered. *)
Definition handleStream (ph : ProtocolHandler) (s : Stream) : list Z :=
  match readMessage s with
  | Err _ => writeError 400 "failed to read message"
  | Ok msg =>
      match dispatch ph msg with
      | None => writeError 404 ("unknown message type: " ++ Msg_Type msg)
      | Some (Err text) => writeError 500 text
      | Some (Ok resp) => writeMessage (mkMessage (Msg_Type resp) (Msg_RequestID msg) (Msg_Payload resp) (Msg_Error resp))
      end
  end.

(** ** The client *)

(** A single [Read] into a buffer: what is not filled stays zero. *)
Definition read_once (s : Stream) (n : nat) : option (list Z * Stream) :=
  match stream_Read s n with
  | None => None
  | Some (d, rest) => Some (d ++ replicate (n - length d) 0, rest)
  end.

(** The decoded_answer part of [sendRequest]. *)
Definition read_response (s : Stream) : result WireError Message :=
  match read_once s 4 with
  | None => Err ErrEOF
  | Some (header, s) =>
      let n := length_of header in
      if MaxMessage <? n then Err (ErrTooLarge n)
      else match read_once s (Z.to_nat n) with
           | None => Err ErrEOF
           | Some (body, _) =>
               match Unmarshal body with
               | None => Err ErrJSON
               | Some resp => match Msg_Error resp with Some e => Err (ErrPeer (EP_Message e)) | None => Ok resp end
               end
           end
  end.

(** [respond] is the stream the peer answers with to the bytes of the request, if
    it can be opened; [uuid] is a fresh request id. *)
Definition sendRequest (respond : list Z -> option Stream) (msg : Message) (uuid : string) : result WireError Message :=
  let id := if Msg_RequestID msg =?= "" then uuid else Msg_RequestID msg in
  match respond (frame (Marshal (mkMessage (Msg_Type msg) id (Msg_Payload msg) (Msg_Error msg)))) with
  | None => Err ErrNewStream
  | Some s => read_response s
  end.

Definition request {A} `{JSON A} (type : string) (a : A) : Message := mkMessage type "" (Marshal a) None.
Definition decoded_answer (A : Type) `{JSON A} (r : result WireError Message) : result WireError A :=
  let! resp := r in match Unmarshal (Msg_Payload resp) with Some a => Ok a | None => Err ErrJSON end.

Definition Client_QueryCatalog (respond : list Z -> option Stream) (req : QueryRequest) (uuid : string) : result WireError QueryResult :=
  decoded_answer QueryResult (sendRequest respond (request MsgQueryCatalog req) uuid).
Definition Client_Announce (respond : list Z -> option Stream) (entries : list CatalogEntry) (removed : list string)
    (uuid : string) : option WireError :=
  match sendRequest respond (request MsgAnnounce (mkAnnounceReq entries removed)) uuid with Ok _ => None | Err e => Some e end.
Definition Client_GetDatasetInfo (respond : list Z -> option Stream) (id : DatasetID) (uuid : string) : result WireError Dataset :=
  decoded_answer Dataset (sendRequest respond (request MsgGetDatasetInfo (mkDatasetReq id "")) uuid).
Definition Client_GetChunk (respond : list Z -> option Stream) (id : DatasetID) (index : Z) (uuid : string) : result WireError Chunk :=
  decoded_answer Chunk (sendRequest respond (request MsgGetChunk (mkChunkReq id index)) uuid).
Definition Client_GetChunks (respond : list Z -> option Stream) (id : DatasetID) (indices : list Z) (uuid : string)
    : result WireError (list Chunk) :=
  decoded_answer (list Chunk) (sendRequest respond (request MsgGetChunks (mkChunksReq id indices)) uuid).
Definition Client_SyncState (respond : list Z -> option Stream) (version : Z) (hashes : list string) (uuid : string)
    : result WireError SyncResp :=
  decoded_answer SyncResp (sendRequest respond (request MsgSyncState (mkSyncReq version hashes)) uuid).
End protocol.

(** ** The transport of the cluster *)

Record RaftMessage := mkRaftMessage {
  RaftMessage_Type : Z;
  RaftMessage_From : string;
  RaftMessage_To : string;
  RaftMessage_Term : Z;
  RaftMessage_LogIndex : Z;
  RaftMessage_LogTerm : Z;
  RaftMessage_Commit : Z;
  RaftMessage_Entries : list Z;
  RaftMessage_Success : bool;
  RaftMessage_Reject : bool;
  RaftMessage_Data : list Z
}.

(** Connections by number; [peers] is the table, [handled] the connections whose
    [handleConn] runs, with the name each is known by. *)
Record Transport := mkTransport {
  tr_nodeID : string;
  tr_peers : gmap string nat;
  tr_handled : list (string * nat)
}.

Section transport.
Context `{JSON RaftMessage}.

(** The length is a [uint32]. *)
Definition raft_frame (data : list Z) : list Z := lenBuf (Z.of_nat (length data) `mod` 2 ^ 32) ++ data.

(** The bytes written to the connection of the peer. *)
Definition Transport_Send (t : Transport) (msg : RaftMessage) : result WireError (nat * list Z) :=
  match tr_peers t !! RaftMessage_To msg with
  | None => Err ErrNotConnected
  | Some conn => Ok (conn, raft_frame (Marshal msg))
  end.

Definition Transport_readMessage (s : Stream) : result WireError (RaftMessage * Stream) :=
  let! (data, s) := read_frame MaxRaftMessage s in
  match Unmarshal data with Some msg => Ok (msg, s) | None => Err ErrJSON end.

Definition readHandshake (s : Stream) : result WireError (list Z * Stream) := read_frame MaxHandshake s.

(** The loop of [handleConn] with no shutdown: the messages read before it ends.
    Each message takes four bytes at least, so as many rounds as there are bytes
    are enough. *)
Fixpoint handle_messages (fuel : nat) (s : Stream) : list RaftMessage :=
  match fuel with
  | O => []
  | S fuel =>
      match Transport_readMessage s with
      | Err _ => []
      | Ok (msg, s) => msg :: handle_messages fuel s
      end
  end.
Definition handleConn_messages (s : Stream) : list RaftMessage := handle_messages (S (length (concat s))) s.
End transport.

(** [conn] is the connection dialling gives, if it succeeds. *)
Definition Transport_Connect (t : Transport) (nodeID : string) (conn : option nat) : Transport * option WireError :=
  match tr_peers t !! nodeID with
  | Some _ => (t, None)
  | None =>
      match conn with
      | None => (t, Some ErrDial)
      | Some c => (mkTransport (tr_nodeID t) (<[nodeID := c]> (tr_peers t)) ((nodeID, c) :: tr_handled t), None)
      end
  end.

(** The connection is closed; its handler notices later. *)
Definition Transport_Disconnect (t : Transport) (nodeID : string) : Transport :=
  match tr_peers t !! nodeID with
  | None => t
  | Some _ => mkTransport (tr_nodeID t) (delete nodeID (tr_peers t)) (tr_handled t)
  end.

(** An accepted connection whose handshake named the peer. *)
Definition register_incoming (t : Transport) (nodeID : string) (c : nat) : Transport :=
  mkTransport (tr_nodeID t) (<[nodeID := c]> (tr_peers t)) ((nodeID, c) :: tr_handled t).

(** The accepted connection [c] on which the stream [s] arrives: the table with
    the peer in it and the messages that are read; nothing if the handshake
    fails. *)
Definition handleIncomingConn `{JSON RaftMessage} (t : Transport) (c : nat) (s : Stream)
    : Transport * list RaftMessage :=
  match readHandshake s with
  | Err _ => (t, [])
  | Ok (nodeID, s) => (register_incoming t (bytes_string nodeID) c, handleConn_messages s)
  end.

(** The deferred function of [handleConn] of one connection. *)
Definition handleConn_end (t : Transport) (nodeID : string) (c : nat) : Transport :=
  mkTransport (tr_nodeID t) (delete nodeID (tr_peers t)) (List.filter (fun h => h <>? (nodeID, c)) (tr_handled t)).

(** * Theorems *)

(** ** Framing *)

(** However the bytes are cut into pieces, [ReadFull] takes the first [n]. *)
Lemma ReadFull_spec s : forall n,
  match ReadFull s n with
  | Some (d, rest) => d = take n (concat s) /\ concat rest = drop n (concat s) /\ (n <= length (concat s))%nat
  | None => (length (concat s) < n)%nat
  end.
Proof.
  induction s as [|p s IH]; intros n; (destruct n as [|n]; [by split_and!; try lia|]).
  - simpl. lia.
  - cbn [ReadFull concat]. set (m := S n). destruct (m <? length p)%nat eqn:Hlt.
    + apply Nat.ltb_lt in Hlt. rewrite take_app_le, drop_app_le, length_app by lia. split_and!; [done|done|lia].
    + apply Nat.ltb_ge in Hlt. specialize (IH (m - length p)%nat). destruct (ReadFull s (m - length p)) as [[d rest]|].
      * destruct IH as (-> & -> & Hle). rewrite take_app_ge, drop_app_ge, length_app by lia. split_and!; [done|done|lia].
      * rewrite length_app. lia.
Qed.

Lemma ReadFull_app s d rest : concat s = d ++ rest ->
  exists s', ReadFull s (length d) = Some (d, s') /\ concat s' = rest.
Proof.
  intros Heq. pose proof (ReadFull_spec s (length d)) as Hr. rewrite Heq in Hr.
  destruct (ReadFull s (length d)) as [[d' s']|].
  - rewrite take_app_length, drop_app_length in Hr. destruct Hr as (-> & Hc & _). by exists s'.
  - rewrite length_app in Hr. lia.
Qed.

(** A frame is read whole, whatever it is cut into, unless it is over the limit. *)
Lemma read_frame_app limit s data rest :
  concat s = lenBuf (Z.of_nat (length data)) ++ data ++ rest -> Z.of_nat (length data) < 2 ^ 32 ->
  if limit <? Z.of_nat (length data) then read_frame limit s = Err (ErrTooLarge (Z.of_nat (length data)))
  else exists s', read_frame limit s = Ok (data, s') /\ concat s' = rest.
Proof.
  intros Hs Hlen. unfold read_frame. destruct (ReadFull_app s _ _ Hs) as (s1 & Hh & Hs1). change 4%nat with (length (lenBuf (Z.of_nat (length data)))).
  rewrite Hh, length_of_lenBuf by lia. destruct (limit <? _); [done|].
  destruct (ReadFull_app s1 _ _ Hs1) as (s2 & Hb & Hs2). rewrite Nat2Z.id, Hb. by exists s2.
Qed.

Section raft_theorems.
Context `{JSON RaftMessage}.

(** A message JSON loses nothing of and the reader takes. *)
Definition carried (m : RaftMessage) : Prop :=
  sendable m = true /\ shown m = m /\ Z.of_nat (length (Marshal m)) <= MaxRaftMessage.

(** What [Transport_Send] writes for a sequence of messages. *)
Definition sent (msgs : list RaftMessage) : list Z := concat (map (fun m => raft_frame (Marshal m)) msgs).

Lemma sent_cons m msgs : carried m ->
  sent (m :: msgs) = lenBuf (Z.of_nat (length (Marshal m))) ++ Marshal m ++ sent msgs.
Proof.
  intros (_ & _ & Hsz). unfold MaxRaftMessage in Hsz. unfold sent, raft_frame. cbn [map concat].
  rewrite Z.mod_small by lia. by rewrite <- app_assoc.
Qed.

Lemma handle_messages_spec msgs : forall fuel s,
  Forall carried msgs -> concat s = sent msgs -> (length msgs < fuel)%nat ->
  handle_messages fuel s = msgs.
Proof.
  induction msgs as [|m msgs IH]; intros fuel s Hall Hs Hfuel; (destruct fuel as [|fuel]; [simpl in Hfuel; lia|]).
  - simpl in Hs |- *. unfold Transport_readMessage, read_frame. pose proof (ReadFull_spec s 4) as Hr. rewrite Hs in Hr.
    destruct (ReadFull s 4) as [[d rest]|]; [simpl in Hr; lia|done].
  - apply Forall_cons in Hall as [Hm Hall]. rewrite sent_cons in Hs by done.
    destruct Hm as (Hj & Hsh & Hsz). unfold MaxRaftMessage in Hsz.
    pose proof (read_frame_app MaxRaftMessage s _ _ Hs) as Hr. cbn [handle_messages]. unfold Transport_readMessage.
    rewrite (proj2 (Z.ltb_ge _ _)) in Hr by (unfold MaxRaftMessage; lia). destruct Hr as (s' & -> & Hs'); [lia|].
    rewrite Unmarshal_Marshal, Hsh by done. f_equal. apply IH; [done|done|simpl in Hfuel; lia].
Qed.

Lemma handleConn_messages_spec msgs s :
  Forall carried msgs -> concat s = sent msgs -> handleConn_messages s = msgs.
Proof.
  intros Hall Hs. unfold handleConn_messages. apply handle_messages_spec; [done|done|]. rewrite Hs. clear Hs Hall.
  unfold sent. induction msgs as [|m msgs IH]; simpl; [lia|]. rewrite !length_app. unfold lenBuf. simpl. lia.
Qed.


(** A larger message is written all the same, and ends the connection it is read
    from. *)
Lemma oversized_ends_connection m s rest :
  MaxRaftMessage < Z.of_nat (length (Marshal m)) < 2 ^ 32 -> concat s = raft_frame (Marshal m) ++ rest ->
  handleConn_messages s = [].
Proof.
  intros Hsz Hs. unfold handleConn_messages. simpl. unfold Transport_readMessage, raft_frame in *.
  rewrite Z.mod_small in Hs by lia. rewrite <- app_assoc in Hs. pose proof (read_frame_app MaxRaftMessage s _ _ Hs) as Hr.
  rewrite (proj2 (Z.ltb_lt _ _)) in Hr by lia. by rewrite Hr by lia.
Qed.
End raft_theorems.

(** ** Connections *)

Inductive conn_op :=
| CConnect (nodeID : string) (conn : option nat)
| CDisconnect (nodeID : string)
| CIncoming (nodeID : string) (c : nat)
| CEnd (nodeID : string) (c : nat).
Definition conn_step (t : Transport) (op : conn_op) : Transport :=
  match op with
  | CConnect n c => (Transport_Connect t n c).1
  | CDisconnect n => Transport_Disconnect t n
  | CIncoming n c => register_incoming t n c
  | CEnd n c => handleConn_end t n c
  end.

Definition peers_handled (t : Transport) : Prop := map_Forall (fun n c => (n, c) ∈ tr_handled t) (tr_peers t).

Lemma conn_step_handled t op : peers_handled t -> peers_handled (conn_step t op).
Proof.
  intros Ht. unfold peers_handled in *. destruct op as [n [c|]|n|n c|n c]; simpl.
  - unfold Transport_Connect. destruct (tr_peers t !! n); [done|]. simpl. intros k d. rewrite lookup_insert.
    case_decide; [intros [= <-]; subst; by left|]. intros Hk. right. by apply Ht.
  - unfold Transport_Connect. by destruct (tr_peers t !! n).
  - unfold Transport_Disconnect. destruct (tr_peers t !! n); [|done]. simpl. intros k d [_ Hk]%lookup_delete_Some. by apply Ht.
  - intros k d. rewrite lookup_insert. case_decide; [intros [= <-]; subst; by left|]. intros Hk. right. by apply Ht.
  - intros k d [Hne Hk]%lookup_delete_Some. apply list_elem_of_In, filter_In. split; [by apply list_elem_of_In, Ht|].
    apply negb_true_iff, bool_decide_eq_false. congruence.
Qed.

(** Whatever connects, disconnects and ends, and in whatever order, messages are
    only ever sent on connections that are being read. *)
Theorem sends_on_live_connections nodeID ops msg `{JSON RaftMessage} conn bytes :
  let t := fold_left conn_step ops (mkTransport nodeID ∅ []) in
  Transport_Send t msg = Ok (conn, bytes) -> (RaftMessage_To msg, conn) ∈ tr_handled t.
Proof.
  intros t. assert (peers_handled t) as Ht.
  { subst t. assert (peers_handled (mkTransport nodeID ∅ [])) as H0 by apply map_Forall_empty. revert H0.
    generalize (mkTransport nodeID ∅ []). induction ops as [|op ops IH]; intros t0 H0; [done|]. simpl.
    by apply IH, conn_step_handled. }
  unfold Transport_Send. destruct (tr_peers t !! RaftMessage_To msg) eqn:Hp; [|done]. intros [= <- _]. by apply Ht.
Qed.

(** The end of an old connection removes the entry of a newer one to the same node:
    it stays open and read, and nothing can be sent on it. *)
Theorem stale_end_drops_peer t n c1 c2 (Hne : c1 <> c2) :
  let t' := handleConn_end (register_incoming (register_incoming t n c1) n c2) n c1 in
  tr_peers t' !! n = None /\ (n, c2) ∈ tr_handled t'.
Proof.
  simpl. split; [by rewrite lookup_delete_eq|]. rewrite bool_decide_false by congruence. by left.
Qed.

(** ** Requests and answers *)

Section protocol_theorems.
Context `{JSON Message} `{JSON Catalog} `{JSON QueryRequest} `{JSON QueryResult} `{JSON Dataset} `{JSON Chunk}
  `{JSON (list Chunk)} `{JSON AnnounceReq} `{JSON AnnounceAck} `{JSON DatasetReq} `{JSON ChunkReq} `{JSON ChunksReq}
  `{JSON SyncReq} `{JSON SyncResp} `{JSON JobAccepted}.

(** The server reads a request that arrives in any pieces. *)
Lemma readMessage_frame m s :
  sendable m = true -> Z.of_nat (length (Marshal m)) <= MaxMessage -> concat s = frame (Marshal m) ->
  readMessage s = Ok (shown m).
Proof.
  intros Hj Hsz Hs. unfold MaxMessage in Hsz. unfold readMessage, frame in *. rewrite <- (app_nil_r (Marshal m)) in Hs at 2.
  pose proof (read_frame_app MaxMessage s _ _ Hs ltac:(lia)) as Hr.
  rewrite (proj2 (Z.ltb_ge _ _)) in Hr by (unfold MaxMessage; lia). destruct Hr as (s' & -> & _).
  by rewrite Unmarshal_Marshal.
Qed.

Lemma read_once_exact p s : p <> [] -> read_once (p :: s) (length p) = Some (p, s).
Proof.
  intros Hp. unfold read_once, stream_Read. destruct (length p) as [|n] eqn:Hl; [by apply length_zero_iff_nil in Hl|].
  rewrite <- Hl, Nat.ltb_irrefl, Nat.sub_diag. by rewrite app_nil_r.
Qed.

(** An answer as it is written: the length, then the body, each in one piece. *)
Definition written_pieces (out : list Z) : Stream := [take 4 out; drop 4 out].

Lemma written_pieces_frame body : written_pieces (frame body) = [lenBuf (Z.of_nat (length body)); body].
Proof. done. Qed.

Lemma read_response_pieces m :
  sendable m = true -> Marshal m <> [] -> Z.of_nat (length (Marshal m)) <= MaxMessage ->
  read_response (written_pieces (writeMessage m)) =
  match Msg_Error (shown m) with Some e => Err (ErrPeer (EP_Message e)) | None => Ok (shown m) end.
Proof.
  intros Hj Hne Hsz. unfold MaxMessage in Hsz. unfold writeMessage. rewrite written_pieces_frame. unfold read_response.
  rewrite (read_once_exact (lenBuf _) [Marshal m]) by done. rewrite length_of_lenBuf by lia.
  rewrite (proj2 (Z.ltb_ge _ _)) by (unfold MaxMessage; lia). rewrite Nat2Z.id, read_once_exact by done.
  by rewrite Unmarshal_Marshal.
Qed.

(** A body that arrives in two pieces is decoded from the first, filled up with
    zeros. *)
Lemma short_read header p1 p2 s :
  length header = 4%nat -> p1 <> [] -> length_of header = Z.of_nat (length p1 + length p2) ->
  Z.of_nat (length p1 + length p2) <= MaxMessage ->
  read_response (header :: p1 :: p2 :: s) =
  match Unmarshal (p1 ++ replicate (length p2) 0) with
  | None => Err ErrJSON
  | Some resp => match Msg_Error resp with Some e => Err (ErrPeer (EP_Message e)) | None => Ok resp end
  end.
Proof.
  intros Hh Hp Hlen Hsz. unfold read_response. rewrite <- Hh, read_once_exact by (by intros ->). rewrite Hlen.
  rewrite (proj2 (Z.ltb_ge _ _)) by lia. rewrite Nat2Z.id. unfold read_once, stream_Read.
  destruct (length p1 + length p2)%nat as [|n] eqn:Hn; [destruct p1; done|]. rewrite <- Hn.
  destruct (length p1 + length p2 <? length p1)%nat eqn:Hlt; [apply Nat.ltb_lt in Hlt; lia|].
  by replace (length p1 + length p2 - length p1)%nat with (length p2) by lia.
Qed.

(** ** State exchange *)

(** Comparing catalogs finds exactly the difference: once each side has fetched
    what the answer names, both have the same hashes. *)
Theorem sync_state_reconciles catalog req h :
  let ours := map CatalogEntry_Hash (Catalog_Entries catalog) in
  let r := sync_state catalog req in
  (h ∈ SyncResp_Missing r <-> h ∈ ours /\ h ∉ SyncReq_Hashes req) /\
  (h ∈ SyncResp_Wanted r <-> h ∈ SyncReq_Hashes req /\ h ∉ ours) /\
  (h ∈ SyncReq_Hashes req ++ SyncResp_Missing r <-> h ∈ ours ++ SyncResp_Wanted r).
Proof.
  intros ours r.
  assert (forall (p : list string) l, h ∈ List.filter (fun h => negb (mem h p)) l <-> h ∈ l /\ h ∉ p) as Hf.
  { intros p l. rewrite list_elem_of_In, filter_In, <- list_elem_of_In, negb_true_iff. by rewrite mem_false. }
  assert (h ∈ SyncResp_Missing r <-> h ∈ ours /\ h ∉ SyncReq_Hashes req) as Hm by apply Hf.
  assert (h ∈ SyncResp_Wanted r <-> h ∈ SyncReq_Hashes req /\ h ∉ ours) as Hw by apply Hf.
  split_and!; [done|done|]. rewrite !elem_of_app, Hm, Hw.
  destruct (decide (h ∈ ours)), (decide (h ∈ SyncReq_Hashes req)); tauto.
Qed.

(** A message JSON carries as it is, within the limit. *)
Definition travels (m : Message) : Prop :=
  sendable m = true /\ shown m = m /\ Marshal m <> [] /\ Z.of_nat (length (Marshal m)) <= MaxMessage.

(** A state exchange over the wire gives the client what the server computes
    from its catalog, whatever pieces the request arrives in, if the answer arrives
    as it was written. *)
Theorem SyncState_over_wire ph version hashes uuid cut
    (Hmsg : travels (mkMessage MsgSyncState uuid (Marshal (mkSyncReq version hashes)) None))
    (Hreply : travels (mkMessage MsgSyncStateResp uuid
                         (Marshal (sync_state (current_catalog ph) (mkSyncReq version hashes))) None))
    (Hreq : sendable (mkSyncReq version hashes) = true /\ shown (mkSyncReq version hashes) = mkSyncReq version hashes)
    (Hresp : sendable (sync_state (current_catalog ph) (mkSyncReq version hashes)) = true /\
             shown (sync_state (current_catalog ph) (mkSyncReq version hashes)) =
             sync_state (current_catalog ph) (mkSyncReq version hashes))
    (Hcut : forall b, concat (cut b) = b) :
  Client_SyncState (fun b => Some (written_pieces (handleStream ph (cut b)))) version hashes uuid =
  Ok (sync_state (current_catalog ph) (mkSyncReq version hashes)).
Proof.
  unfold Client_SyncState, decoded_answer, sendRequest. cbn [request Msg_RequestID Msg_Type Msg_Payload Msg_Error].
  rewrite bool_decide_true by done. set (m := mkMessage MsgSyncState uuid (Marshal (mkSyncReq version hashes)) None) in *.
  destruct Hmsg as (Hmj & Hms & Hmn & Hml). unfold handleStream.
  rewrite (readMessage_frame m) by done. rewrite Hms. unfold dispatch. simpl Msg_Type.
  repeat (rewrite bool_decide_false by done). rewrite bool_decide_true by done. unfold handleSyncState, payload. simpl Msg_Payload.
  destruct Hreq as [Hrj Hrs]. rewrite (Unmarshal_Marshal _ Hrj), Hrs. unfold reply.
  cbn [Msg_Type Msg_RequestID Msg_Payload Msg_Error]. subst m. cbn [Msg_RequestID].
  set (m' := mkMessage MsgSyncStateResp _ _ _) in *. destruct Hreply as (Hmj' & Hms' & Hmn' & Hml').
  rewrite (read_response_pieces m') by done. rewrite Hms'. simpl. destruct Hresp as [Hsj Hss].
  by rewrite (Unmarshal_Marshal _ Hsj), Hss.
Qed.

(** ** Chunks *)

(** The content of a chunk is marked to be left out of JSON ([json:"-"]): decoding
    never sets it. *)
Hypothesis chunk_data_hidden : forall b (c : Chunk), Unmarshal b = Some c -> Chunk_Data c = [].

Lemma GetChunk_empty respond id i uuid c : Client_GetChunk respond id i uuid = Ok c -> Chunk_Data c = [].
Proof.
  unfold Client_GetChunk, decoded_answer. destruct (sendRequest _ _ _); [|done].
  destruct (Unmarshal _) as [c'|] eqn:Hu; [|done]. intros [= <-]. by apply chunk_data_hidden in Hu.
Qed.

(** What [fetchChunk] gives the transfer manager. *)
Definition client_fetcher (respond : string -> list Z -> option Stream) (id : DatasetID) (i : Z) (uuid : nat -> string) : fetcher :=
  fun retry peer => match Client_GetChunk (respond peer) id i (uuid retry) with
                    | Ok c => Ok (Some c)
                    | Err _ => Err (ErrFetch "get chunk")
                    end.

(** No chunk is ever downloaded from a peer: whatever the peers answer, every
    attempt fails, since the content does not travel and an empty chunk is not
    accepted. *)
Theorem chunks_never_arrive `{Crypto} tm ad i respond id uuid now :
  exists e, downloadChunk tm ad i (client_fetcher respond id i uuid) now = (tm, e).
Proof.
  unfold downloadChunk. set (f := client_fetcher respond id i uuid).
  assert (forall n retry err, exists e, download_attempts (tm_cfg tm) ad i f n retry err = Err e) as Hall.
  { induction n as [|n IH]; intros retry err; simpl; [by eexists|]. case_bool_decide; [by eexists|].
    subst f. unfold client_fetcher at 1. destruct (Client_GetChunk _ _ _ _) as [c|] eqn:Hc; [|by apply IH].
    apply GetChunk_empty in Hc. unfold verifyChunk. rewrite Hc. simpl. by apply IH. }
  destruct (Hall (Z.to_nat (TransferConfig_MaxRetries (tm_cfg tm))) 0%nat None) as [e ->]. by eexists.
Qed.
End protocol_theorems.

(** ** Witnesses *)

(** Values written as numbers. *)
Definition number_json {A} `{Countable A} : JSON A.
Proof.
  refine {| Marshal a := [Zpos (encode a)]; Unmarshal b := match b with [Zpos p] => decode p | _ => None end;
            sendable _ := true; shown a := a |}.
  intros a _. apply decode_encode.
Defined.
(** Values that are not sent. *)
Definition no_json {A} : JSON A.
Proof. by refine {| Marshal _ := []; Unmarshal _ := None; sendable _ := false; shown a := a |}. Defined.

#[local] Instance RaftMessage_eq_dec : EqDecision RaftMessage.
Proof. solve_decision. Defined.
#[local] Instance RaftMessage_countable : Countable RaftMessage.
Proof.
  refine (inj_countable'
    (fun m => (RaftMessage_Type m, RaftMessage_From m, RaftMessage_To m, RaftMessage_Term m, RaftMessage_LogIndex m,
               RaftMessage_LogTerm m, RaftMessage_Commit m, RaftMessage_Entries m, RaftMessage_Success m,
               RaftMessage_Reject m, RaftMessage_Data m))
    (fun '(a, b, c, d, e, f, g, h, i, j, k) => mkRaftMessage a b c d e f g h i j k) _).
  by intros [].
Defined.
#[local] Instance ErrorPayload_eq_dec : EqDecision ErrorPayload.
Proof. solve_decision. Defined.
#[local] Instance ErrorPayload_countable : Countable ErrorPayload.
Proof. refine (inj_countable' (fun e => (EP_Code e, EP_Message e)) (fun '(a, b) => mkErrorPayload a b) _). by intros []. Defined.
#[local] Instance Message_eq_dec : EqDecision Message.
Proof. solve_decision. Defined.
#[local] Instance Message_countable : Countable Message.
Proof.
  refine (inj_countable' (fun m => (Msg_Type m, Msg_RequestID m, Msg_Payload m, Msg_Error m))
    (fun '(a, b, c, d) => mkMessage a b c d) _).
  by intros [].
Defined.
#[local] Instance SyncReq_eq_dec : EqDecision SyncReq.
Proof. solve_decision. Defined.
#[local] Instance SyncReq_countable : Countable SyncReq.
Proof. refine (inj_countable' (fun r => (SyncReq_CatalogVersion r, SyncReq_Hashes r)) (fun '(a, b) => mkSyncReq a b) _). by intros []. Defined.
#[local] Instance SyncResp_eq_dec : EqDecision SyncResp.
Proof. solve_decision. Defined.
#[local] Instance SyncResp_countable : Countable SyncResp.
Proof.
  refine (inj_countable' (fun r => (SyncResp_Missing r, SyncResp_Wanted r, SyncResp_Version r))
    (fun '(a, b, c) => mkSyncResp a b c) _).
  by intros [].
Defined.

(** One byte at a time. *)
Definition bytewise (b : list Z) : Stream := map (fun x => [x]) b.
Lemma bytewise_ok b : concat (bytewise b) = b.
Proof. induction b as [|x b IH]; [done|]. simpl. by f_equal. Qed.

Section witnesses.
#[local] Existing Instance number_json.

Definition vote (term : Z) : RaftMessage := mkRaftMessage 1 "a" "b" term 0 0 0 [] false false [].


Lemma sends_on_live_connections_witness :
  let ops := [CConnect "b" (Some 1%nat); CIncoming "c" 2; CEnd "c" 2] in
  ("b"%string, 1%nat) ∈ tr_handled (fold_left conn_step ops (mkTransport "a" ∅ [])).
Proof. apply (sends_on_live_connections "a" _ (vote 3) 1 (raft_frame (Marshal (vote 3)))). by vm_compute. Defined.

Lemma stale_end_drops_peer_witness :
  let t' := handleConn_end (register_incoming (register_incoming (mkTransport "a" ∅ []) "b" 1) "b" 2) "b" 1 in
  tr_peers t' !! "b"%string = None /\ ("b"%string, 2%nat) ∈ tr_handled t'.
Proof. apply stale_end_drops_peer. lia. Defined.
End witnesses.

(** Two bytes a message, the second a mark. *)
Definition marked_json : JSON Message.
Proof.
  refine {| Marshal a := [Zpos (encode a); 1]; Unmarshal b := match b with [Zpos p; 1] => decode p | _ => None end;
            sendable _ := true; shown a := a |}.
  intros a _. apply decode_encode.
Defined.

(** An answer whose body arrives in two pieces is lost. *)
Example split_answer_is_lost :
  let m := mkMessage MsgCatalog "id" [] None in
  let out := @writeMessage marked_json m in
  @read_response marked_json (written_pieces out) = Ok m /\
  @read_response marked_json [take 4 out; take 1 (drop 4 out); drop 5 out] = Err ErrJSON.
Proof. by vm_compute. Qed.

Section protocol_witnesses.
#[local] Existing Instance no_json | 5.
#[local] Instance message_json : JSON Message := number_json.
#[local] Instance syncreq_json : JSON SyncReq := number_json.
#[local] Instance syncresp_json : JSON SyncResp := number_json.

Definition toy_handler : ProtocolHandler :=
  mkProtocolHandler (mkCatalog "p" [mkCatalogEntry "t" "" "d" "" "v" "" "h1" 0 0 true false [] 0] 0 7) None None None None.

Lemma SyncState_over_wire_witness :
  Client_SyncState (fun b => Some (written_pieces (handleStream toy_handler (bytewise b)))) 1 ["h2"%string] "id" =
  Ok (mkSyncResp ["h1"%string] ["h2"%string] 7).
Proof.
  apply (SyncState_over_wire toy_handler 1 ["h2"%string] "id" bytewise); try (split_and!; by vm_compute).
  exact bytewise_ok.
Defined.

Lemma chunks_never_arrive_witness :
  exists e, @downloadChunk toy_crypto (NewTransferManager DefaultTransferConfig) (mkActive 0 ["p"%string] false ∅ Starting) 0
    (client_fetcher (fun _ _ => Some []) "d" 0 (fun _ => "u"%string)) 5 = (NewTransferManager DefaultTransferConfig, e).
Proof. apply chunks_never_arrive. done. Defined.
End protocol_witnesses.
