(* ===== verification/Topics.v ===== *)
(** * Topics, members and invitations ([internal/grpc/services/topic],
      [internal/storage/sqlite/topics.go], [topic_members.go], [topic_invitations.go])

    The tables with their constraints, the statements of the repositories, and the
    service on top of them: who may see, join, change and leave a topic.  Text
    columns hold what was written to them; times of members and invitations are
    kept in whole seconds.  Audit calls and the conversion to protobuf are left
    out. *)
From stdpp Require Import base gmap strings list sorting.
From Stdlib Require Import ZArith Lia.
From S2P Require Import Prelude GoStrings GoTime Domain.
Local Open Scope Z_scope.

(** ** Rows *)

Definition TopicMemberRoleOwner : string := "owner".
Definition TopicMemberRoleEditor : string := "editor".
Definition TopicMemberRoleViewer : string := "viewer".

Record TopicMember := mkTopicMember {
  Member_ID : string;
  Member_TopicID : TopicID;
  Member_UserID : UserID;
  Member_Role : string;
  Member_InvitedBy : UserID;
  Member_InvitedAt : Time;
  Member_AcceptedAt : option Time;
  Member_CreatedAt : Time;
  Member_UpdatedAt : Time
}.

Definition InvitationStatusPending : string := "pending".
Definition InvitationStatusAccepted : string := "accepted".
Definition InvitationStatusDeclined : string := "declined".
Definition InvitationStatusExpired : string := "expired".
Definition InvitationStatusCancelled : string := "cancelled".

Record TopicInvitation := mkTopicInvitation {
  Inv_ID : string;
  Inv_TopicID : TopicID;
  Inv_InviterID : UserID;
  Inv_InviteeEmail : string;
  Inv_InviteeUserID : UserID;
  Inv_Role : string;
  Inv_Token : string;
  Inv_Message : string;
  Inv_Status : string;
  Inv_ExpiresAt : Time;
  Inv_CreatedAt : Time;
  Inv_RespondedAt : option Time
}.

(** The identifiers of the table [users], which the foreign keys refer to, and the
    three tables. *)
Record TopicDB := mkTopicDB {
  td_users : list UserID;
  td_topics : list Topic;
  td_members : list TopicMember;
  td_invitations : list TopicInvitation
}.

Definition set_topics (db : TopicDB) l : TopicDB := mkTopicDB (td_users db) l (td_members db) (td_invitations db).
Definition set_members (db : TopicDB) l : TopicDB := mkTopicDB (td_users db) (td_topics db) l (td_invitations db).
Definition set_invitations (db : TopicDB) l : TopicDB := mkTopicDB (td_users db) (td_topics db) (td_members db) l.

Inductive TopicError :=
| ErrConstraint
| ErrTopicMissing
| ErrDomain (e : DomainError)
| ErrValidation
| ErrUnauthenticated
| ErrPermissionDenied
| ErrPrecondition.

#[export] Instance TopicError_eq_dec : EqDecision TopicError.
Proof. solve_decision. Defined.

(** [time.RFC3339] *)
Definition rfc3339 (t : Time) : Time := t / Second * Second.

(** ** Repositories *)

Definition role_ok (role : string) : bool := mem role [TopicMemberRoleOwner; TopicMemberRoleEditor; TopicMemberRoleViewer].
Definition ref_ok (u : UserID) (users : list UserID) : bool := mem u users.

Definition Topics_Create (db : TopicDB) (t : Topic) : TopicDB * option TopicError :=
  match Topic_Validate t with
  | Some e => (db, Some (ErrDomain e))
  | None =>
      if mem (Topic_ID t) (map Topic_ID (td_topics db)) || mem (Topic_Name t) (map Topic_Name (td_topics db)) ||
         negb (TopicStatus_IsValid (Topic_Status t)) || (Topic_DatasetCount t <? 0) ||
         ((Topic_ParentID t <>? "") && negb (mem (Topic_ParentID t) (map Topic_ID (td_topics db))))
      then (db, Some ErrConstraint)
      else (set_topics db (td_topics db ++ [t]), None)
  end.
Definition Topics_Get (db : TopicDB) (id : TopicID) : option Topic :=
  List.find (fun t => Topic_ID t =?= id) (td_topics db).
Definition Topics_GetByName (db : TopicDB) (name : string) : option Topic :=
  List.find (fun t => Topic_Name t =?= name) (td_topics db).

(** Everything but the creator and the time of creation. *)
Definition topic_update (old t : Topic) (now : Time) : Topic :=
  mkTopic (Topic_ID old) (Topic_ParentID t) (Topic_Name t) (Topic_Description t) (Topic_TableSchema t) (Topic_Status t)
    (Topic_Owners t) (Topic_CreatedBy old) (Topic_CreatedAt old) now (Topic_DatasetCount t) (Topic_Tags t) (Topic_Metadata t).
Definition Topics_Update (db : TopicDB) (t : Topic) (now : Time) : TopicDB * option TopicError :=
  match Topic_Validate t with
  | Some e => (db, Some (ErrDomain e))
  | None =>
      if negb (mem (Topic_ID t) (map Topic_ID (td_topics db))) then (db, Some ErrTopicMissing)
      else if existsb (fun r => (Topic_ID r <>? Topic_ID t) && (Topic_Name r =?= Topic_Name t)) (td_topics db) ||
              negb (TopicStatus_IsValid (Topic_Status t)) || (Topic_DatasetCount t <? 0) ||
              ((Topic_ParentID t <>? "") && negb (mem (Topic_ParentID t) (map Topic_ID (td_topics db))))
      then (db, Some ErrConstraint)
      else (set_topics db (map (fun r => if Topic_ID r =?= Topic_ID t then topic_update r t now else r) (td_topics db)), None)
  end.

Definition set_topic_status (t : Topic) (s : string) (now : Time) : Topic :=
  mkTopic (Topic_ID t) (Topic_ParentID t) (Topic_Name t) (Topic_Description t) (Topic_TableSchema t) s
    (Topic_Owners t) (Topic_CreatedBy t) (Topic_CreatedAt t) now (Topic_DatasetCount t) (Topic_Tags t) (Topic_Metadata t).
Definition Topics_Delete (db : TopicDB) (id : TopicID) (now : Time) : TopicDB * option TopicError :=
  if mem id (map Topic_ID (td_topics db)) then
    (set_topics db (map (fun r => if Topic_ID r =?= id then set_topic_status r TopicStatusDeleted now else r) (td_topics db)), None)
  else (db, Some ErrTopicMissing).

(** The text of [List]'s statement; its parameters are bound apart. *)
Record TopicFilter := mkTopicFilter {
  TF_Status : string;
  TF_ParentID : option TopicID;
  TF_OwnerID : option UserID;
  TF_Tags : list string;
  TF_Search : string;
  TF_OrderBy : string;
  TF_OrderDesc : bool;
  TF_Limit : Z;
  TF_Offset : Z
}.
Definition topics_list_query (f : TopicFilter) : string :=
  "SELECT id, parent_id, name, description, table_schema, status, owners, created_by, created_at, updated_at, dataset_count, tags, metadata FROM topics WHERE 1=1" ++
  (if TF_Status f <>? "" then " AND status = ?" else "") ++
  (match TF_ParentID f with None => "" | Some p => if p =?= "" then " AND parent_id IS NULL" else " AND parent_id = ?" end) ++
  (match TF_OwnerID f with None => "" | Some _ => " AND owners LIKE ?" end) ++
  (if TF_Search f <>? "" then " AND (name LIKE ? OR description LIKE ?)" else "") ++
  String.concat "" (map (fun _ => " AND tags LIKE ?"%string) (TF_Tags f)) ++
  " ORDER BY " ++ (if TF_OrderBy f <>? "" then TF_OrderBy f else "name") ++ " " ++ (if TF_OrderDesc f then "DESC" else "ASC") ++
  (if 0 <? TF_Limit f then " LIMIT ?" else "") ++
  (if 0 <? TF_Offset f then " OFFSET ?" else "").

(** Members: one row per topic and user. *)
Definition Members_Create (db : TopicDB) (m : TopicMember) : TopicDB * option TopicError :=
  if mem (Member_ID m) (map Member_ID (td_members db)) ||
     mem (Member_TopicID m, Member_UserID m) (map (fun r => (Member_TopicID r, Member_UserID r)) (td_members db)) ||
     negb (role_ok (Member_Role m)) || negb (mem (Member_TopicID m) (map Topic_ID (td_topics db))) ||
     negb (ref_ok (Member_UserID m) (td_users db)) || negb (ref_ok (Member_InvitedBy m) (td_users db))
  then (db, Some ErrConstraint)
  else (set_members db (td_members db ++
          [mkTopicMember (Member_ID m) (Member_TopicID m) (Member_UserID m) (Member_Role m) (Member_InvitedBy m)
             (rfc3339 (Member_InvitedAt m)) (rfc3339 <$> Member_AcceptedAt m) (rfc3339 (Member_CreatedAt m))
             (rfc3339 (Member_UpdatedAt m))]), None).

Definition is_member_of (topic : TopicID) (user : UserID) (m : TopicMember) : bool :=
  (Member_TopicID m =?= topic) && (Member_UserID m =?= user).
Definition Members_Get (db : TopicDB) (topic : TopicID) (user : UserID) : option TopicMember :=
  List.find (is_member_of topic user) (td_members db).
Definition Members_ListByTopic (db : TopicDB) (topic : TopicID) : list TopicMember :=
  List.filter (fun m => Member_TopicID m =?= topic) (td_members db).
Definition Members_ListByUser (db : TopicDB) (user : UserID) : list TopicMember :=
  List.filter (fun m => Member_UserID m =?= user) (td_members db).
Definition Members_GetRole (db : TopicDB) (topic : TopicID) (user : UserID) : option string :=
  Member_Role <$> Members_Get db topic user.
Definition Members_HasAccess (db : TopicDB) (topic : TopicID) (user : UserID) : bool :=
  0 <? Z.of_nat (length (List.filter (is_member_of topic user) (td_members db))).
Definition owners_of (db : TopicDB) (topic : TopicID) : list TopicMember :=
  List.filter (fun m => (Member_TopicID m =?= topic) && (Member_Role m =?= TopicMemberRoleOwner)) (td_members db).
Definition Members_CountOwners (db : TopicDB) (topic : TopicID) : Z := Z.of_nat (length (owners_of db topic)).

Definition set_member_role (r : TopicMember) (role : string) (accepted : option Time) (now : Time) : TopicMember :=
  mkTopicMember (Member_ID r) (Member_TopicID r) (Member_UserID r) role (Member_InvitedBy r) (Member_InvitedAt r)
    (rfc3339 <$> accepted) (Member_CreatedAt r) (rfc3339 now).
(** A row that does not exist is not updated, which is no error. *)
Definition Members_Update (db : TopicDB) (m : TopicMember) (now : Time) : TopicDB * option TopicError :=
  if negb (role_ok (Member_Role m)) && mem (Member_ID m) (map Member_ID (td_members db)) then (db, Some ErrConstraint)
  else (set_members db (map (fun r => if Member_ID r =?= Member_ID m
                                      then set_member_role r (Member_Role m) (Member_AcceptedAt m) now else r) (td_members db)), None).
Definition Members_Delete (db : TopicDB) (topic : TopicID) (user : UserID) : TopicDB :=
  set_members db (List.filter (fun m => negb (is_member_of topic user m)) (td_members db)).

Definition invitation_ok (db : TopicDB) (i : TopicInvitation) : bool :=
  negb (mem (Inv_ID i) (map Inv_ID (td_invitations db))) && negb (mem (Inv_Token i) (map Inv_Token (td_invitations db))) &&
  role_ok (Inv_Role i) && mem (Inv_TopicID i) (map Topic_ID (td_topics db)) && ref_ok (Inv_InviterID i) (td_users db) &&
  ((Inv_InviteeUserID i =?= "") || ref_ok (Inv_InviteeUserID i) (td_users db)).
Definition Invitations_Create (db : TopicDB) (i : TopicInvitation) : TopicDB * option TopicError :=
  if invitation_ok db i then
    (set_invitations db (td_invitations db ++
       [mkTopicInvitation (Inv_ID i) (Inv_TopicID i) (Inv_InviterID i) (Inv_InviteeEmail i) (Inv_InviteeUserID i) (Inv_Role i)
          (Inv_Token i) (Inv_Message i) (Inv_Status i) (rfc3339 (Inv_ExpiresAt i)) (rfc3339 (Inv_CreatedAt i))
          (rfc3339 <$> Inv_RespondedAt i)]), None)
  else (db, Some ErrConstraint).
Definition Invitations_Get (db : TopicDB) (id : string) : option TopicInvitation :=
  List.find (fun i => Inv_ID i =?= id) (td_invitations db).
Definition Invitations_GetByToken (db : TopicDB) (token : string) : option TopicInvitation :=
  List.find (fun i => Inv_Token i =?= token) (td_invitations db).
Definition respond (i : TopicInvitation) (status : string) (at_ : option Time) : TopicInvitation :=
  mkTopicInvitation (Inv_ID i) (Inv_TopicID i) (Inv_InviterID i) (Inv_InviteeEmail i) (Inv_InviteeUserID i) (Inv_Role i)
    (Inv_Token i) (Inv_Message i) status (Inv_ExpiresAt i) (Inv_CreatedAt i) (rfc3339 <$> at_).
Definition Invitations_Update (db : TopicDB) (id status : string) (at_ : option Time) : TopicDB :=
  set_invitations db (map (fun i => if Inv_ID i =?= id then respond i status at_ else i) (td_invitations db)).
Definition Invitations_Delete (db : TopicDB) (id : string) : TopicDB :=
  set_invitations db (List.filter (fun i => Inv_ID i <>? id) (td_invitations db)).
(** Both times are text of the same width. *)
Definition pending_past (now : Time) (i : TopicInvitation) : bool :=
  (Inv_Status i =?= InvitationStatusPending) && (Inv_ExpiresAt i <? rfc3339 now).
Definition expire_row (now : Time) (i : TopicInvitation) : TopicInvitation :=
  if pending_past now i
  then mkTopicInvitation (Inv_ID i) (Inv_TopicID i) (Inv_InviterID i) (Inv_InviteeEmail i) (Inv_InviteeUserID i) (Inv_Role i)
         (Inv_Token i) (Inv_Message i) InvitationStatusExpired (Inv_ExpiresAt i) (Inv_CreatedAt i) (Inv_RespondedAt i)
  else i.
Definition ExpirePending (db : TopicDB) (now : Time) : TopicDB * Z :=
  (set_invitations db (map (expire_row now) (td_invitations db)),
   Z.of_nat (length (List.filter (pending_past now) (td_invitations db)))).
Definition Invitations_ListByTopic (db : TopicDB) (topic : TopicID) (status : string) : list TopicInvitation :=
  List.filter (fun i => (Inv_TopicID i =?= topic) && ((status =?= "") || (Inv_Status i =?= status))) (td_invitations db).
Definition Invitations_ListByUser (db : TopicDB) (user : UserID) : list TopicInvitation :=
  List.filter (fun i => (Inv_InviteeUserID i =?= user) && (user <>? "")) (td_invitations db).

(** ** The service *)

(** A call's outcome: the tables after it and its answer. *)
Abbreviation Call A := (TopicDB * result TopicError A)%type.

Definition isPublicTopic (t : Topic) : bool :=
  match Topic_Metadata t !! "is_public" with
  | Some v => v =?= "true"
  | None => match Topic_Metadata t !! "public" with
            | Some v => v =?= "true"
            | None => true
            end
  end.

Definition canAccessTopic (db : TopicDB) (t : Topic) (user : option User) : bool :=
  if isPublicTopic t then true
  else match user with
       | None => false
       | Some u => if User_Role u =?= UserRoleAdmin then true
                   else Members_HasAccess db (Topic_ID t) (User_ID u)
       end.

Definition role_is (db : TopicDB) (topic : TopicID) (user : UserID) (role : string) : bool :=
  match Members_GetRole db topic user with Some r => r =?= role | None => false end.

Record CreateTopicRequest := mkCreateTopicRequest {
  CT_Name : string;
  CT_Description : string;
  CT_Schema : string;
  CT_Tags : list string;
  CT_Metadata : gmap string string
}.

(** A member row as [CreateTopic] and [Subscribe] write it. *)
Definition self_member (id : string) (topic : TopicID) (user : UserID) (role : string) (now : Time) : TopicMember :=
  mkTopicMember id topic user role user now (Some now) now now.

(** [topicID] and [memberID] are the fresh identifiers; a failure to write the
    owner's row is ignored. *)
Definition CreateTopic (db : TopicDB) (user : option User) (req : CreateTopicRequest)
    (topicID memberID : string) (now : Time) : Call Topic :=
  if CT_Name req =?= "" then (db, Err ErrValidation)
  else match user with
  | None => (db, Err ErrUnauthenticated)
  | Some u =>
      match Topics_GetByName db (CT_Name req) with
      | Some _ => (db, Err ErrValidation)
      | None =>
          let t := mkTopic topicID "" (CT_Name req) (CT_Description req) (CT_Schema req) TopicStatusActive
                     [User_ID u] (User_ID u) now now 0 (CT_Tags req) (CT_Metadata req) in
          match Topics_Create db t with
          | (db1, Some e) => (db1, Err e)
          | (db1, None) =>
              ((Members_Create db1 (self_member memberID topicID (User_ID u) TopicMemberRoleOwner now)).1, Ok t)
          end
      end
  end.

Definition find_topic (db : TopicDB) (id : TopicID) (name : string) : result TopicError Topic :=
  if id <>? "" then match Topics_Get db id with Some t => Ok t | None => Err ErrTopicMissing end
  else if name <>? "" then match Topics_GetByName db name with Some t => Ok t | None => Err ErrTopicMissing end
  else Err ErrValidation.

(** The topic with the caller's member row. *)
Definition GetTopic (db : TopicDB) (user : option User) (id : TopicID) (name : string) :
    result TopicError (Topic * option TopicMember) :=
  let! t := find_topic db id name in
  if canAccessTopic db t user then Ok (t, user ≫= fun u => Members_Get db (Topic_ID t) (User_ID u))
  else Err ErrPermissionDenied.

Record ListTopicsRequest := mkListTopicsRequest {
  LT_Status : string;
  LT_Tags : list string;
  LT_OwnerId : string;
  LT_Page : option (Z * Z);
  LT_Sort : option (string * bool);
  LT_PublicOnly : bool;
  LT_SubscribedOnly : bool
}.

Definition ListTopics_filter (req : ListTopicsRequest) : TopicFilter :=
  let limit := match LT_Page req with Some (l, _) => l | None => 0 end in
  let limit := if limit <=? 0 then 50 else limit in
  mkTopicFilter (LT_Status req) None (if LT_OwnerId req <>? "" then Some (LT_OwnerId req) else None) (LT_Tags req) ""
    (match LT_Sort req with Some (f, _) => f | None => "" end)
    (match LT_Sort req with Some (_, d) => d | None => false end)
    (if 1000 <? limit then 1000 else limit)
    (match LT_Page req with Some (_, o) => o | None => 0 end).

(** [rows] and [total] are what the database answers to the statements of [List]
    and [Count] for the filter. *)
Definition visible_topics (db : TopicDB) (user : option User) (publicOnly subscribedOnly : bool) (rows : list Topic) : list Topic :=
  List.filter (fun t =>
    negb (publicOnly && negb (isPublicTopic t)) &&
    (if subscribedOnly
     then match user with Some u => bool_decide (is_Some (Members_Get db (Topic_ID t) (User_ID u))) | None => false end
     else true) &&
    canAccessTopic db t user) rows.
Definition ListTopics (db : TopicDB) (user : option User) (req : ListTopicsRequest) (rows : list Topic) (total : Z) :
    list Topic * bool :=
  let visible := visible_topics db user (LT_PublicOnly req) (LT_SubscribedOnly req) rows in
  (visible, TF_Offset (ListTopics_filter req) + Z.of_nat (length visible) <? total).

Definition MinQueryLength : nat := 3.
Definition SearchTopics (db : TopicDB) (user : option User) (query : string) (publicOnly : bool) (rows : list Topic) :
    result TopicError (list Topic) :=
  if (String.length query <? MinQueryLength)%nat then Err ErrValidation
  else Ok (visible_topics db user publicOnly false rows).

(** The fields a request sets. *)
Record UpdateTopicRequest := mkUpdateTopicRequest {
  UT_Id : TopicID;
  UT_Name : option string;
  UT_Description : option string;
  UT_Schema : option string;
  UT_Tags : option (list string);
  UT_Metadata : option (gmap string string)
}.
Definition edit_topic (t : Topic) (req : UpdateTopicRequest) (now : Time) : Topic :=
  mkTopic (Topic_ID t) (Topic_ParentID t) (default (Topic_Name t) (UT_Name req))
    (default (Topic_Description t) (UT_Description req)) (default (Topic_TableSchema t) (UT_Schema req)) (Topic_Status t)
    (Topic_Owners t) (Topic_CreatedBy t) (Topic_CreatedAt t) now (Topic_DatasetCount t)
    (default (Topic_Tags t) (UT_Tags req)) (default (Topic_Metadata t) (UT_Metadata req)).

(** The guard [UpdateTopic] and [DeleteTopic] share. *)
Definition owned_topic (db : TopicDB) (user : option User) (id : TopicID) : result TopicError Topic :=
  if id =?= "" then Err ErrValidation
  else match Topics_Get db id with
  | None => Err ErrTopicMissing
  | Some t =>
      match user with
      | None => Err ErrUnauthenticated
      | Some u => if role_is db (Topic_ID t) (User_ID u) TopicMemberRoleOwner then Ok t else Err ErrPermissionDenied
      end
  end.

Definition UpdateTopic (db : TopicDB) (user : option User) (req : UpdateTopicRequest) (now : Time) : Call Topic :=
  match owned_topic db user (UT_Id req) with
  | Err e => (db, Err e)
  | Ok t =>
      let t' := edit_topic t req now in
      match Topic_Validate t' with
      | Some e => (db, Err (ErrDomain e))
      | None => match Topics_Update db t' now with
                | (db1, Some e) => (db1, Err e)
                | (db1, None) => (db1, Ok t')
                end
      end
  end.

Definition DeleteTopic (db : TopicDB) (user : option User) (id : TopicID) (force : bool) (now : Time) : Call Z :=
  match owned_topic db user id with
  | Err e => (db, Err e)
  | Ok t =>
      if (0 <? Topic_DatasetCount t) && negb force then (db, Err ErrPrecondition)
      else match Topics_Delete db (Topic_ID t) now with
           | (db1, Some e) => (db1, Err e)
           | (db1, None) => (db1, Ok (Topic_DatasetCount t))
           end
  end.

Definition Subscribe (db : TopicDB) (user : option User) (id : TopicID) (name : string) (memberID : string) (now : Time) :
    Call TopicMember :=
  match user with
  | None => (db, Err ErrUnauthenticated)
  | Some u =>
      match find_topic db id name with
      | Err e => (db, Err e)
      | Ok t =>
          if negb (canAccessTopic db t user) then (db, Err ErrPermissionDenied)
          else match Members_Get db (Topic_ID t) (User_ID u) with
          | Some m => (db, Ok m)
          | None =>
              let m := self_member memberID (Topic_ID t) (User_ID u) TopicMemberRoleViewer now in
              match Members_Create db m with
              | (db1, Some e) => (db1, Err e)
              | (db1, None) => (db1, Ok m)
              end
          end
      end
  end.

Definition Unsubscribe (db : TopicDB) (user : option User) (id : TopicID) : Call unit :=
  match user with
  | None => (db, Err ErrUnauthenticated)
  | Some u =>
      if id =?= "" then (db, Err ErrValidation)
      else if role_is db id (User_ID u) TopicMemberRoleOwner && (Members_CountOwners db id <=? 1)
      then (db, Err ErrPrecondition)
      else (Members_Delete db id (User_ID u), Ok tt)
  end.

(** ** MembershipManager *)

Record InviteMemberRequest := mkInviteMemberRequest {
  IM_TopicID : TopicID;
  IM_InviterID : UserID;
  IM_InviteeEmail : string;
  IM_InviteeID : UserID;
  IM_Role : string;
  IM_Message : string;
  IM_ExpiresIn : Duration
}.

(** [id] and [token] are the fresh identifier and the random token. *)
Definition InviteMember (db : TopicDB) (req : InviteMemberRequest) (id token : string) (now : Time) : Call TopicInvitation :=
  if negb (role_is db (IM_TopicID req) (IM_InviterID req) TopicMemberRoleOwner) then (db, Err (ErrDomain ErrNotOwner))
  else if (IM_InviteeEmail req =?= "") && (IM_InviteeID req =?= "") then (db, Err (ErrDomain ErrInvalidOperation))
  else if (IM_InviteeID req <>? "") && bool_decide (is_Some (Members_Get db (IM_TopicID req) (IM_InviteeID req)))
  then (db, Err (ErrDomain ErrUserExists))
  else
    let expires := if IM_ExpiresIn req =? 0 then now + 7 * 24 * Hour else now + IM_ExpiresIn req in
    let i := mkTopicInvitation id (IM_TopicID req) (IM_InviterID req) (IM_InviteeEmail req) (IM_InviteeID req) (IM_Role req)
               token (IM_Message req) InvitationStatusPending expires now None in
    match Invitations_Create db i with
    | (db1, Some e) => (db1, Err e)
    | (db1, None) => (db1, Ok i)
    end.

Definition invited (i : TopicInvitation) (user : UserID) : bool := (Inv_InviteeUserID i =?= "") || (Inv_InviteeUserID i =?= user).
Definition accepted_member (i : TopicInvitation) (user : UserID) (id : string) (now : Time) : TopicMember :=
  mkTopicMember id (Inv_TopicID i) user (Inv_Role i) (Inv_InviterID i) (Inv_CreatedAt i) (Some now) now now.

Definition AcceptInvitation (db : TopicDB) (token : string) (user : UserID) (memberID : string) (now : Time) : Call TopicMember :=
  match Invitations_GetByToken db token with
  | None => (db, Err (ErrDomain ErrOwnerNotFound))
  | Some i =>
      if Inv_Status i <>? InvitationStatusPending then (db, Err (ErrDomain ErrInvalidOperation))
      else if Inv_ExpiresAt i <? now
      then (Invitations_Update db (Inv_ID i) InvitationStatusExpired (Some now), Err (ErrDomain ErrSessionExpired))
      else if negb (invited i user) then (db, Err (ErrDomain ErrUnauthorized))
      else
        let m := accepted_member i user memberID now in
        match Members_Create db m with
        | (db1, Some e) => (db1, Err e)
        | (db1, None) => (Invitations_Update db1 (Inv_ID i) InvitationStatusAccepted (Some now), Ok m)
        end
  end.

Definition DeclineInvitation (db : TopicDB) (token : string) (user : UserID) (now : Time) : Call unit :=
  match Invitations_GetByToken db token with
  | None => (db, Err (ErrDomain ErrOwnerNotFound))
  | Some i =>
      if Inv_Status i <>? InvitationStatusPending then (db, Err (ErrDomain ErrInvalidOperation))
      else if negb (invited i user) then (db, Err (ErrDomain ErrUnauthorized))
      else (Invitations_Update db (Inv_ID i) InvitationStatusDeclined (Some now), Ok tt)
  end.

Definition CancelInvitation (db : TopicDB) (id : string) (canceller : UserID) (now : Time) : Call unit :=
  match Invitations_Get db id with
  | None => (db, Err (ErrDomain ErrOwnerNotFound))
  | Some i =>
      if (Inv_InviterID i <>? canceller) && negb (role_is db (Inv_TopicID i) canceller TopicMemberRoleOwner)
      then (db, Err (ErrDomain ErrNotOwner))
      else if Inv_Status i <>? InvitationStatusPending then (db, Err (ErrDomain ErrInvalidOperation))
      else (Invitations_Update db (Inv_ID i) InvitationStatusCancelled (Some now), Ok tt)
  end.

Definition with_new_role (m : TopicMember) (role : string) (now : Time) : TopicMember :=
  mkTopicMember (Member_ID m) (Member_TopicID m) (Member_UserID m) role (Member_InvitedBy m) (Member_InvitedAt m)
    (Member_AcceptedAt m) (Member_CreatedAt m) now.

Definition UpdateMemberRole (db : TopicDB) (topic : TopicID) (updater member : UserID) (newRole : string) (now : Time) : Call unit :=
  if negb (role_is db topic updater TopicMemberRoleOwner) then (db, Err (ErrDomain ErrNotOwner))
  else match Members_Get db topic member with
  | None => (db, Err (ErrDomain ErrNotOwner))
  | Some m =>
      if (Member_Role m =?= TopicMemberRoleOwner) && (newRole <>? TopicMemberRoleOwner) && (Members_CountOwners db topic <=? 1)
      then (db, Err (ErrDomain ErrCannotRemoveLastOwner))
      else match Members_Update db (with_new_role m newRole now) now with
           | (db1, Some e) => (db1, Err e)
           | (db1, None) => (db1, Ok tt)
           end
  end.

(** What [RemoveMember] checks before its statement. *)
Definition remove_refused (db : TopicDB) (topic : TopicID) (remover member : UserID) : option TopicError :=
  if negb (role_is db topic remover TopicMemberRoleOwner) then Some (ErrDomain ErrNotOwner)
  else match Members_Get db topic member with
  | None => Some (ErrDomain ErrNotOwner)
  | Some m =>
      if (Member_Role m =?= TopicMemberRoleOwner) && (Members_CountOwners db topic <=? 1)
      then Some (ErrDomain ErrCannotRemoveLastOwner) else None
  end.
Definition RemoveMember (db : TopicDB) (topic : TopicID) (remover member : UserID) : Call unit :=
  match remove_refused db topic remover member with
  | Some e => (db, Err e)
  | None => (Members_Delete db topic member, Ok tt)
  end.

Definition ListMembers (db : TopicDB) (topic : TopicID) (requester : UserID) : result TopicError (list TopicMember) :=
  if Members_HasAccess db topic requester then Ok (Members_ListByTopic db topic) else Err (ErrDomain ErrUnauthorized).
Definition ListPendingInvitations (db : TopicDB) (topic : TopicID) (requester : UserID) : result TopicError (list TopicInvitation) :=
  if role_is db topic requester TopicMemberRoleOwner
  then Ok (Invitations_ListByTopic db topic InvitationStatusPending) else Err (ErrDomain ErrNotOwner).

Definition TransferOwnership (db : TopicDB) (topic : TopicID) (from to : UserID) (now : Time) : Call unit :=
  if negb (role_is db topic from TopicMemberRoleOwner) then (db, Err (ErrDomain ErrNotOwner))
  else match Members_Get db topic to with
  | None => (db, Err (ErrDomain ErrOwnerNotFound))
  | Some m => match Members_Update db (with_new_role m TopicMemberRoleOwner now) now with
              | (db1, Some e) => (db1, Err e)
              | (db1, None) => (db1, Ok tt)
              end
  end.

Definition RestoreTopic (db : TopicDB) (topic : TopicID) (owner : UserID) (now : Time) : Call unit :=
  if negb (role_is db topic owner TopicMemberRoleOwner) then (db, Err (ErrDomain ErrNotOwner))
  else match Topics_Get db topic with
  | None => (db, Err ErrTopicMissing)
  | Some t =>
      if Topic_Status t <>? TopicStatusDeleted then (db, Err (ErrDomain ErrInvalidOperation))
      else match Topics_Update db (set_topic_status t TopicStatusActive now) now with
      | (db1, Some e) => (db1, Err e)
      | (db1, None) =>
          (foldl (fun d m => if Member_Role m <>? TopicMemberRoleOwner then Members_Delete d topic (Member_UserID m) else d)
             db1 (Members_ListByTopic db1 topic), Ok tt)
      end
  end.

(** ** Histories *)

Inductive TopicOp :=
| OpCreate (user : option User) (req : CreateTopicRequest) (topicID memberID : string) (now : Time)
| OpUpdate (user : option User) (req : UpdateTopicRequest) (now : Time)
| OpDelete (user : option User) (id : TopicID) (force : bool) (now : Time)
| OpSubscribe (user : option User) (id : TopicID) (name memberID : string) (now : Time)
| OpUnsubscribe (user : option User) (id : TopicID)
| OpInvite (req : InviteMemberRequest) (id token : string) (now : Time)
| OpAccept (token : string) (user : UserID) (memberID : string) (now : Time)
| OpDecline (token : string) (user : UserID) (now : Time)
| OpCancel (id : string) (canceller : UserID) (now : Time)
| OpUpdateRole (topic : TopicID) (updater member : UserID) (newRole : string) (now : Time)
| OpRemove (topic : TopicID) (remover member : UserID)
| OpTransfer (topic : TopicID) (from to : UserID) (now : Time)
| OpRestore (topic : TopicID) (owner : UserID) (now : Time)
| OpExpire (now : Time).

Definition service_step (db : TopicDB) (op : TopicOp) : TopicDB :=
  match op with
  | OpCreate user req tid mid now => (CreateTopic db user req tid mid now).1
  | OpUpdate user req now => (UpdateTopic db user req now).1
  | OpDelete user id force now => (DeleteTopic db user id force now).1
  | OpSubscribe user id name mid now => (Subscribe db user id name mid now).1
  | OpUnsubscribe user id => (Unsubscribe db user id).1
  | OpInvite req id token now => (InviteMember db req id token now).1
  | OpAccept token user mid now => (AcceptInvitation db token user mid now).1
  | OpDecline token user now => (DeclineInvitation db token user now).1
  | OpCancel id c now => (CancelInvitation db id c now).1
  | OpUpdateRole t u m r now => (UpdateMemberRole db t u m r now).1
  | OpRemove t r m => (RemoveMember db t r m).1
  | OpTransfer t f m now => (TransferOwnership db t f m now).1
  | OpRestore t o now => (RestoreTopic db t o now).1
  | OpExpire now => (ExpirePending db now).1
  end.

(** Calls, one after the other. *)
Definition service_run (db : TopicDB) (ops : list TopicOp) : TopicDB := foldl service_step db ops.

Definition member_key (m : TopicMember) : TopicID * UserID := (Member_TopicID m, Member_UserID m).
Definition is_owner_row (topic : TopicID) (m : TopicMember) : Prop :=
  Member_TopicID m = topic /\ Member_Role m = TopicMemberRoleOwner.

(** Rows with their own identifiers, one per topic and user, each with one of the three
    roles. *)
Record MembersOK (db : TopicDB) : Prop := mkMembersOK {
  ok_ids : NoDup (map Member_ID (td_members db));
  ok_keys : NoDup (map member_key (td_members db));
  ok_roles : forall m, m ∈ td_members db -> role_ok (Member_Role m) = true
}.

Definition has_owner (db : TopicDB) (topic : TopicID) : Prop := exists m, m ∈ td_members db /\ is_owner_row topic m.

(** Such rows stay such rows, and a topic that has an owner keeps one. *)
Definition keeps_owners (db db' : TopicDB) : Prop :=
  MembersOK db -> MembersOK db' /\ forall topic, has_owner db topic -> has_owner db' topic.

#[local] Instance keeps_owners_refl : Reflexive keeps_owners.
Proof. by intros db Hok. Qed.
#[local] Instance keeps_owners_trans : Transitive keeps_owners.
Proof. intros a b c Hab Hbc Ha. destruct (Hab Ha) as [Hb Hk]. destruct (Hbc Hb) as [Hc Hk']. auto. Qed.

(** *** What the statements do to the rows *)

Lemma find_member db t u m :
  Members_Get db t u = Some m -> m ∈ td_members db /\ member_key m = (t, u).
Proof.
  intros [Hin Hk]%List.find_some. apply list_elem_of_In in Hin. split; [done|].
  unfold is_member_of in Hk. unfold member_key. bool_props. congruence.
Qed.

Lemma find_member_none db t u m :
  Members_Get db t u = None -> m ∈ td_members db -> member_key m <> (t, u).
Proof.
  intros Hn Hm%list_elem_of_In He. pose proof (List.find_none _ _ Hn _ Hm) as Hf.
  unfold is_member_of in Hf. unfold member_key in He. simplify_eq.
  rewrite !bool_decide_true in Hf by done. done.
Qed.

Lemma get_member db t u m :
  NoDup (map member_key (td_members db)) -> m ∈ td_members db -> member_key m = (t, u) -> Members_Get db t u = Some m.
Proof.
  intros Hnd Hm Hk. destruct (Members_Get db t u) as [m'|] eqn:E.
  - apply find_member in E as [Hm' Hk']. f_equal. by eapply same_key; [exact Hnd|..|congruence].
  - by destruct (find_member_none _ _ _ _ E Hm).
Qed.

Lemma in_members_delete db t u m :
  m ∈ td_members (Members_Delete db t u) <-> m ∈ td_members db /\ member_key m <> (t, u).
Proof.
  unfold Members_Delete, set_members, is_member_of, member_key. simpl.
  rewrite list_elem_of_In, List.filter_In, <- list_elem_of_In.
  rewrite negb_true_iff, andb_false_iff, !bool_decide_eq_false.
  split; intros [H1 H2]; (split; [done|]).
  - intros [=]. destruct H2; congruence.
  - destruct (decide (Member_TopicID m = t)); [right|by left]. congruence.
Qed.

(** With two owners, one of them is not [u]. *)
Lemma other_owner db t u :
  NoDup (map member_key (td_members db)) -> 1 < Members_CountOwners db t ->
  exists m, m ∈ td_members db /\ is_owner_row t m /\ Member_UserID m <> u.
Proof.
  intros Hnd Hc. unfold Members_CountOwners in Hc.
  assert (Hin : forall m, m ∈ owners_of db t -> m ∈ td_members db /\ is_owner_row t m).
  { intros m Hm%list_elem_of_In. apply List.filter_In in Hm as [Hm1 Hm2]. bool_props.
    by apply list_elem_of_In in Hm1. }
  assert (Hk : NoDup (map member_key (owners_of db t))).
  { by apply NoDup_map_filter. }
  destruct (owners_of db t) as [|a [|b l]] eqn:E; simpl in Hc; [lia|lia|].
  destruct (Hin a) as [Ha1 Ha2]; [left|]. destruct (Hin b) as [Hb1 Hb2]; [right; left|].
  destruct (decide (Member_UserID a = u)) as [Ea|]; [|by exists a].
  exists b. split_and!; [done..|]. intros Eb.
  cbn [map] in Hk. apply NoDup_cons in Hk as [Hk _]. apply Hk, elem_of_cons. left.
  unfold member_key. destruct Ha2, Hb2. congruence.
Qed.

(** *** The statements keep owners *)

Lemma keeps_members db db' : td_members db' = td_members db -> keeps_owners db db'.
Proof. intros Hm [H1 H2 H3]. unfold has_owner. split; [constructor|]; by rewrite Hm. Qed.

Lemma topics_update_members db t now :
  td_members (Topics_Update db t now).1 = td_members db /\ td_invitations (Topics_Update db t now).1 = td_invitations db /\
  td_users (Topics_Update db t now).1 = td_users db.
Proof. unfold Topics_Update. by go_cases. Qed.

Lemma keeps_topics_update db t now : keeps_owners db (Topics_Update db t now).1.
Proof. apply keeps_members, topics_update_members. Qed.

Lemma keeps_topics_delete db id now : keeps_owners db (Topics_Delete db id now).1.
Proof. unfold Topics_Delete. case_match; [by apply keeps_members|done]. Qed.

(** What [Members_Create] writes, when it succeeds. *)
Lemma members_create_spec db m db' e :
  Members_Create db m = (db', e) ->
  (e = None /\ exists m', db' = set_members db (td_members db ++ [m']) /\ Member_ID m' = Member_ID m /\
     member_key m' = member_key m /\ Member_Role m' = Member_Role m /\
     (Member_ID m ∉ map Member_ID (td_members db)) /\ (member_key m ∉ map member_key (td_members db)) /\
     role_ok (Member_Role m) = true /\ Member_TopicID m ∈ map Topic_ID (td_topics db)) \/
  (e = Some ErrConstraint /\ db' = db).
Proof.
  unfold Members_Create. destruct (_ || _) eqn:E; intros [= <- <-]; [by right|left]. bool_props.
  split; [done|]. eexists. split_and!; try reflexivity; [by apply mem_false..|done|by apply mem_true].
Qed.

Lemma NoDup_map_snoc {A B} (f : A -> B) l x : NoDup (map f l) -> f x ∉ map f l -> NoDup (map f (l ++ [x])).
Proof.
  intros Hl Hx. rewrite map_app. apply NoDup_app. split_and!; [done| |apply NoDup_singleton].
  intros y Hy ->%list_elem_of_singleton. done.
Qed.

Lemma keeps_members_create db m : keeps_owners db (Members_Create db m).1.
Proof.
  intros [H1 H2 H3]. destruct (Members_Create db m) as [db' e] eqn:E.
  apply members_create_spec in E as [(_ & m' & -> & Hi & Hk & Hr & Ni & Nk & Ro & Rt)|[_ ->]]; [|by split].
  split.
  - constructor; simpl.
    + apply NoDup_map_snoc; [done|by rewrite Hi].
    + apply NoDup_map_snoc; [done|by rewrite Hk].
    + intros x [Hx| ->%list_elem_of_singleton]%elem_of_app; [auto|]. by rewrite Hr.
  - intros t (x & Hx & Ho). exists x. split; [|done]. apply elem_of_app. by left.
Qed.

Lemma keeps_members_delete db t u :
  (MembersOK db -> role_is db t u TopicMemberRoleOwner = true -> 1 < Members_CountOwners db t) ->
  keeps_owners db (Members_Delete db t u).
Proof.
  intros Hc Hok. specialize (Hc Hok). destruct Hok as [H1 H2 H3]. split.
  - constructor; [by apply NoDup_map_filter|by apply NoDup_map_filter|].
    intros m [Hm _]%in_members_delete. auto.
  - intros t' (m & Hm & Ho). destruct (decide (member_key m = (t, u))) as [Hk|Hk].
    + unfold member_key in Hk. destruct Ho as [Ho1 Ho2]. simplify_eq.
      destruct (other_owner db (Member_TopicID m) (Member_UserID m) H2) as (m' & Hm' & Ho' & Hu).
      { apply Hc. unfold role_is, Members_GetRole. rewrite (get_member db _ _ m) by done. simpl. by apply bool_decide_eq_true. }
      exists m'. split; [|done]. apply in_members_delete. split; [done|]. unfold member_key. congruence.
    + exists m. split; [|done]. by apply in_members_delete.
Qed.

(** [UpdateMemberRole] and [TransferOwnership] write one row's role. *)
Definition with_role (db : TopicDB) (id role : string) (at_ : option Time) (now : Time) : list TopicMember :=
  map (fun r => if Member_ID r =?= id then set_member_role r role at_ now else r) (td_members db).

Lemma members_update_spec db m now db' e :
  Members_Update db m now = (db', e) ->
  (e = None /\ db' = set_members db (with_role db (Member_ID m) (Member_Role m) (Member_AcceptedAt m) now) /\
     (Member_ID m ∈ map Member_ID (td_members db) -> role_ok (Member_Role m) = true)) \/
  (e = Some ErrConstraint /\ db' = db).
Proof.
  unfold Members_Update. destruct (_ && _) eqn:E; intros [= <- <-]; [by right|left]. split_and!; [done..|].
  intros Hin%mem_true. rewrite Hin, andb_true_r in E. by apply negb_false_iff.
Qed.

Lemma keeps_members_update db t u m role now :
  Members_Get db t u = Some m ->
  (Member_Role m = TopicMemberRoleOwner -> role <> TopicMemberRoleOwner -> 1 < Members_CountOwners db t) ->
  keeps_owners db (Members_Update db (with_new_role m role now) now).1.
Proof.
  intros Hget Hc [H1 H2 H3]. destruct (Members_Update _ _ _) as [db' e] eqn:E.
  apply members_update_spec in E as [(_ & -> & Hro)|[_ ->]]; [|by split].
  apply find_member in Hget as [Hm Hk].
  assert (Hrow : forall x, x ∈ with_role db (Member_ID m) role (Member_AcceptedAt m) now ->
    exists r, r ∈ td_members db /\ (x = r \/ (Member_ID r = Member_ID m /\ Member_Role x = role))).
  { intros x (r & -> & Hr)%list_elem_of_fmap. exists r. case_bool_decide; split_and!; auto. }
  split; [constructor; simpl|intros t' (o & Ho & Hot)].
  - unfold with_role. rewrite map_map. erewrite map_ext; [exact H1|]. intros r. by case_match.
  - unfold with_role. rewrite map_map. erewrite map_ext; [exact H2|]. intros r. by case_match.
  - intros x (r & Hr & [->|[_ ->]])%Hrow; [auto|]. apply Hro. simpl. by apply list_elem_of_fmap_2.
  - destruct (decide (Member_ID o = Member_ID m)) as [Hid|Hid].
    + assert (o = m) as -> by (eapply same_key; [exact H1|..]; done).
      destruct (decide (role = TopicMemberRoleOwner)) as [->|Hno].
      * exists (set_member_role m TopicMemberRoleOwner (Member_AcceptedAt m) now).
        split; [|destruct Hot; done]. apply list_elem_of_fmap. exists m. by rewrite bool_decide_true.
      * destruct Hot as [<- Hor]. destruct (other_owner db t u H2 (Hc Hor Hno)) as (b & Hb & Hbo & Hbu).
        exists b. split; [|unfold member_key in Hk; destruct Hbo; split; congruence].
        apply list_elem_of_fmap. exists b. rewrite bool_decide_false; [done|].
        intros Hid'. assert (b = m) by (eapply same_key; [exact H1|..]; done). unfold member_key in Hk. congruence.
    + exists o. split; [|done]. apply list_elem_of_fmap. exists o. by rewrite bool_decide_false.
Qed.

Lemma role_is_owner db t u m :
  Members_Get db t u = Some m -> Member_Role m = TopicMemberRoleOwner -> role_is db t u TopicMemberRoleOwner = true.
Proof. intros Hm Hr. unfold role_is, Members_GetRole. rewrite Hm. simpl. by apply bool_decide_eq_true. Qed.

Lemma role_is_get db t u r : role_is db t u r = true -> exists m, Members_Get db t u = Some m /\ Member_Role m = r.
Proof.
  unfold role_is, Members_GetRole. destruct (Members_Get db t u) as [m|]; [|done]. simpl. intros ?%bool_decide_eq_true. eauto.
Qed.

Lemma topics_create_spec db t db' e :
  Topics_Create db t = (db', e) ->
  (e = None /\ db' = set_topics db (td_topics db ++ [t]) /\ Topic_ID t ∉ map Topic_ID (td_topics db)) \/
  (db' = db /\ e <> None).
Proof.
  unfold Topics_Create. destruct (Topic_Validate t); [intros [= <- <-]; by right|].
  destruct (_ || _ || _ || _ || _) eqn:E; intros [= <- <-]; [by right|left]. bool_props.
  split_and!; [done..|by apply mem_false].
Qed.

Lemma keeps_CreateTopic db user req tid mid now : keeps_owners db (CreateTopic db user req tid mid now).1.
Proof.
  unfold CreateTopic. case_match; [done|]. destruct user as [u|]; [|done]. case_match; [done|].
  destruct (Topics_Create _ _) as [db1 e] eqn:E.
  apply topics_create_spec in E as [(-> & -> & _)|[-> He]]; [|by destruct e].
  etrans; [|apply keeps_members_create]. by apply keeps_members.
Qed.

(** Who is dropped by a restore was no owner when the members were listed. *)
Lemma keeps_RestoreTopic db t o now : keeps_owners db (RestoreTopic db t o now).1.
Proof.
  unfold RestoreTopic. case_match; [done|]. case_match; [|done]. case_match; [done|].
  destruct (Topics_Update _ _ _) as [db1 e] eqn:E.
  assert (keeps_owners db db1) as Hok1 by (pose proof (keeps_topics_update db (set_topic_status t0 TopicStatusActive now) now) as Hx; by rewrite E in Hx).
  destruct e; [done|]. cbn [fst]. clear E. etrans; [exact Hok1|]. intros Hdb1.
  assert (Hl : forall m, m ∈ Members_ListByTopic db1 t -> Member_TopicID m = t /\ m ∈ td_members db1).
  { intros m Hm%list_elem_of_In. apply List.filter_In in Hm as [Hin Hm]. apply list_elem_of_In in Hin. by bool_props. }
  revert Hl. generalize (Members_ListByTopic db1 t) as l. intros l.
  assert (Hinv : forall l d, (forall x, x ∈ td_members d -> x ∈ td_members db1) ->
    (forall m, m ∈ l -> Member_TopicID m = t /\ m ∈ td_members db1) ->
    keeps_owners d (foldl (fun d m => if Member_Role m <>? TopicMemberRoleOwner then Members_Delete d t (Member_UserID m) else d) d l)).
  2: { intros Hl. apply Hinv; auto. }
  clear l. induction l as [|m l IH]; intros d Hdb Hl; [done|]. cbn [foldl].
  etrans; [|apply IH; [|intros; apply Hl; by right]]; case_match eqn:Hr; try done.
  - apply keeps_members_delete. intros _ (m' & Hg & Hro)%role_is_get. exfalso. apply find_member in Hg as [Hm' Hk].
    destruct (Hl m) as [Ht Hm]; [by left|]. assert (m' = m) as ->; [|by bool_props].
    apply (same_key member_key (td_members db1)); [apply Hdb1|auto|done|]. rewrite Hk. unfold member_key. by rewrite Ht.
  - intros x [Hx _]%in_members_delete. auto.
Qed.

Ltac members_created :=
  match goal with E : Members_Create ?d ?m = _ |- _ =>
    let Hx := fresh "Hx" in pose proof (keeps_members_create d m) as Hx; rewrite E in Hx end.

Lemma keeps_step db op : keeps_owners db (service_step db op).
Proof.
  destruct op; cbn [service_step].
  - apply keeps_CreateTopic.
  - unfold UpdateTopic. case_match; [|done]. case_match; [done|].
    pose proof (keeps_topics_update db (edit_topic a req now) now). by destruct (Topics_Update _ _ _) as [? []].
  - unfold DeleteTopic. case_match; [|done]. case_match; [done|].
    pose proof (keeps_topics_delete db (Topic_ID a) now). by destruct (Topics_Delete _ _ _) as [? []].
  - unfold Subscribe. repeat (case_match; try done).
    all: by members_created.
  - unfold Unsubscribe. repeat (case_match; try done). apply keeps_members_delete. intros _ Ho.
    rewrite Ho in *. simpl in *. by bool_props.
  - unfold InviteMember. repeat (case_match; try done).
    all: match goal with E : Invitations_Create _ _ = _ |- _ => unfold Invitations_Create in E; case_match; simplify_eq end; try done.
    all: by apply keeps_members.
  - unfold AcceptInvitation. repeat (case_match; try done); try by apply keeps_members.
    all: members_created; first [done|etrans; [exact Hx|by apply keeps_members]].
  - unfold DeclineInvitation. repeat (case_match; try done). by apply keeps_members.
  - unfold CancelInvitation. repeat (case_match; try done). by apply keeps_members.
  - unfold UpdateMemberRole. case_match; [done|]. case_match eqn:Hg; [|done]. case_match eqn:Hc; [done|].
    assert (keeps_owners db (Members_Update db (with_new_role t newRole now) now).1) as Hx.
    { eapply keeps_members_update; [done|]. intros Hr Hn. rewrite bool_decide_true, bool_decide_false in Hc by done.
      simpl in Hc. by bool_props. }
    by destruct (Members_Update _ _ _) as [? []].
  - unfold RemoveMember, remove_refused. case_match eqn:Hg; [done|]. case_match; [done|].
    case_match eqn:Hm; [|done]. case_match eqn:Hc; [done|]. apply keeps_members_delete.
    intros _ (m' & Hm' & Hr)%role_is_get. rewrite Hm in Hm'. simplify_eq. rewrite bool_decide_true in Hc by done. simpl in Hc. by bool_props.
  - unfold TransferOwnership. case_match; [done|]. case_match eqn:Hg; [|done].
    assert (keeps_owners db (Members_Update db (with_new_role t TopicMemberRoleOwner now) now).1) as Hx
      by (by eapply keeps_members_update).
    by destruct (Members_Update _ _ _) as [? []].
  - apply keeps_RestoreTopic.
  - by apply keeps_members.
Qed.

(** The owner's row of a new topic goes in if the caller is in the table of users, the
    row's identifier is new and no row is there for the topic. *)
Lemma CreateTopic_owner db u req tid mid now t :
  (CreateTopic db (Some u) req tid mid now).2 = Ok t ->
  mid ∉ map Member_ID (td_members db) -> User_ID u ∈ td_users db ->
  (tid, User_ID u) ∉ map member_key (td_members db) ->
  Topic_ID t = tid /\ has_owner (CreateTopic db (Some u) req tid mid now).1 tid.
Proof.
  intros Hok Hmid Hu Hkey. unfold CreateTopic in *. case_match; [done|]. case_match; [done|].
  destruct (Topics_Create _ _) as [db1 e] eqn:E.
  apply topics_create_spec in E as [(-> & -> & _)|[-> He]]; [|by destruct e]. simpl in Hok. injection Hok as <-.
  split; [done|]. unfold Members_Create. simpl.
  rewrite (proj2 (mem_false mid _)) by done.
  rewrite (proj2 (mem_false (tid, User_ID u) _)) by exact Hkey.
  rewrite (proj2 (mem_true tid _)) by (rewrite map_app; apply elem_of_app; right; by apply list_elem_of_singleton).
  unfold ref_ok. rewrite (proj2 (mem_true (User_ID u) _)) by done. simpl.
  eexists. split; [apply elem_of_app; right; by apply list_elem_of_singleton|done].
Qed.


(** *** Who changes a membership *)

Abbreviation role_of db t u := (Members_GetRole db t u).

Lemma role_set_topics db l t u : role_of (set_topics db l) t u = role_of db t u.
Proof. done. Qed.

Lemma role_create db m t u db' e :
  Members_Create db m = (db', e) ->
  role_of db' t u <> role_of db t u ->
  member_key m = (t, u) /\ role_of db t u = None /\ role_of db' t u = Some (Member_Role m).
Proof.
  intros [(_ & m' & -> & Hi & Hk & Hr & Ni & Nk & Ro & Rt)|[_ ->]]%members_create_spec; [|done].
  unfold Members_GetRole, Members_Get. simpl. rewrite find_app.
  destruct (List.find _ (td_members db)) as [x|] eqn:E; [done|]. cbn [List.find].
  destruct (is_member_of t u m') eqn:Hb; simpl; [|done]. intros _. unfold is_member_of in Hb. bool_props.
  unfold member_key in *. split_and!; congruence.
Qed.

Lemma role_delete db t0 u0 t u :
  role_of (Members_Delete db t0 u0) t u <> role_of db t u -> (t, u) = (t0, u0) /\ role_of (Members_Delete db t0 u0) t u = None.
Proof.
  intros Hne. destruct (decide ((t, u) = (t0, u0))) as [Heq|Hn].
  - split; [done|]. simplify_eq. unfold Members_GetRole.
    destruct (Members_Get _ t0 u0) as [m|] eqn:E; [|done].
    apply find_member in E as [[_ Hk]%in_members_delete Hk']. done.
  - destruct Hne. unfold Members_GetRole, Members_Get, Members_Delete. simpl. f_equal.
    induction (td_members db) as [|m l IH]; [done|]. cbn [List.filter List.find].
    destruct (is_member_of t0 u0 m) eqn:E0; simpl; destruct (is_member_of t u m) eqn:E1; auto.
    unfold is_member_of in *. bool_props. congruence.
Qed.

Lemma role_update db t0 u0 m role now t u :
  NoDup (map Member_ID (td_members db)) -> Members_Get db t0 u0 = Some m ->
  role_of (Members_Update db (with_new_role m role now) now).1 t u <> role_of db t u -> (t, u) = (t0, u0).
Proof.
  intros Hnd [Hm Hk]%find_member Hne. destruct (decide ((t, u) = (t0, u0))) as [|Hn]; [done|]. destruct Hne.
  destruct (Members_Update _ _ _) as [db' e] eqn:E.
  apply members_update_spec in E as [(_ & -> & _)|[_ ->]]; [|done].
  unfold Members_GetRole, Members_Get, with_role. simpl.
  assert (Hid : forall x, x ∈ td_members db -> Member_ID x = Member_ID m -> is_member_of t u x = false).
  { intros x Hx Hid. assert (x = m) as -> by (by eapply same_key).
    unfold is_member_of. apply andb_false_iff. rewrite !bool_decide_eq_false. unfold member_key in Hk.
    destruct (decide (Member_TopicID m = t)); [right|by left]. congruence. }
  clear Hm Hnd. induction (td_members db) as [|x l IH]; [done|]. cbn [map List.find].
  replace (is_member_of t u (if Member_ID x =?= Member_ID m then _ else x)) with (is_member_of t u x) by (by case_match).
  destruct (is_member_of t u x) eqn:Ex.
  - rewrite bool_decide_false; [done|]. intros He. rewrite (Hid x) in Ex; [done|by left|done].
  - apply IH. intros y Hy. apply Hid. by right.
Qed.

Lemma role_topics_update db t' now t u : role_of (Topics_Update db t' now).1 t u = role_of db t u.
Proof. unfold Members_GetRole, Members_Get. by destruct (topics_update_members db t' now) as [-> _]. Qed.

Lemma role_restore t (l : list TopicMember) d tt u :
  role_of (foldl (fun d m => if Member_Role m <>? TopicMemberRoleOwner then Members_Delete d t (Member_UserID m) else d) d l) tt u
    <> role_of d tt u -> tt = t.
Proof.
  revert d. induction l as [|m l IH]; intros d; [done|]. cbn [foldl]. case_match; [|apply IH]. intros Hne.
  destruct (decide (role_of (Members_Delete d t (Member_UserID m)) tt u = role_of d tt u)) as [He|He].
  - apply (IH (Members_Delete d t (Member_UserID m))). by rewrite He.
  - apply role_delete in He as [? _]. by simplify_eq.
Qed.

(** What a call may do to the role of [u] in [t]. *)
Definition membership_change (db : TopicDB) (op : TopicOp) (t : TopicID) (u : UserID) : Prop :=
  let before := role_of db t u in
  let after := role_of (service_step db op) t u in
  match op with
  | OpCreate user _ tid _ _ =>
      t = tid /\ User_ID <$> user = Some u /\ (t ∉ map Topic_ID (td_topics db)) /\ after = Some TopicMemberRoleOwner
  | OpSubscribe user _ _ _ _ =>
      User_ID <$> user = Some u /\ before = None /\ after = Some TopicMemberRoleViewer /\
      exists tp, tp ∈ td_topics db /\ Topic_ID tp = t /\ canAccessTopic db tp user = true
  | OpUnsubscribe user id => User_ID <$> user = Some u /\ t = id /\ after = None
  | OpAccept token user _ now =>
      u = user /\ before = None /\
      exists i, i ∈ td_invitations db /\ Inv_Token i = token /\ Inv_Status i = InvitationStatusPending /\ now <= Inv_ExpiresAt i /\
        Inv_TopicID i = t /\ after = Some (Inv_Role i) /\ (Inv_InviteeUserID i = "" \/ Inv_InviteeUserID i = u)
  | OpUpdateRole tp actor member _ _ => tp = t /\ u = member /\ role_of db t actor = Some TopicMemberRoleOwner
  | OpRemove tp actor member => tp = t /\ u = member /\ role_of db t actor = Some TopicMemberRoleOwner /\ after = None
  | OpTransfer tp actor member _ => tp = t /\ u = member /\ role_of db t actor = Some TopicMemberRoleOwner
  | OpRestore tp actor _ => tp = t /\ role_of db t actor = Some TopicMemberRoleOwner
  | OpUpdate _ _ _ | OpDelete _ _ _ _ | OpInvite _ _ _ _ | OpDecline _ _ _ | OpCancel _ _ _ | OpExpire _ => False
  end.

Lemma role_is_role db t u r : role_is db t u r = true -> role_of db t u = Some r.
Proof. intros (m & Hm & Hr)%role_is_get. unfold Members_GetRole. by rewrite Hm, <- Hr. Qed.

Lemma find_topic_in db id name t : find_topic db id name = Ok t -> t ∈ td_topics db.
Proof.
  unfold find_topic. intros Hf. repeat case_match; simplify_eq.
  all: match goal with E : _ = Some _ |- _ => apply List.find_some in E as [E _]; by apply list_elem_of_In end.
Qed.

Lemma authority_create db user req tid mid now t u :
  role_of (CreateTopic db user req tid mid now).1 t u <> role_of db t u ->
  membership_change db (OpCreate user req tid mid now) t u.
Proof.
  unfold membership_change. cbn [service_step]. unfold CreateTopic. case_match; [done|]. destruct user as [v|]; [|done].
  case_match; [done|]. destruct (Topics_Create _ _) as [db1 e] eqn:E.
  apply topics_create_spec in E as [(-> & -> & Ht)|[-> He]]; [|by destruct e].
  set (db1 := set_topics _ _). destruct (Members_Create _ _) as [db2 e] eqn:E.
  intros Hne. change (role_of db t u) with (role_of db1 t u) in Hne.
  destruct (role_create _ _ _ _ _ _ E Hne) as ([= <- <-] & _ & Ha). split_and!; [done|done|exact Ht|exact Ha].
Qed.

Lemma authority_subscribe db user id name mid now t u :
  role_of (Subscribe db user id name mid now).1 t u <> role_of db t u ->
  membership_change db (OpSubscribe user id name mid now) t u.
Proof.
  unfold membership_change. cbn [service_step]. unfold Subscribe. destruct user as [v|]; [|done].
  destruct (find_topic db id name) as [tp|] eqn:Hf; [|done].
  destruct (canAccessTopic db tp (Some v)) eqn:Ha; [|done]. simpl.
  destruct (Members_Get _ _ _); [done|]. destruct (Members_Create _ _) as [db2 e] eqn:E. intros Hne.
  assert (Hne' : role_of db2 t u <> role_of db t u) by (by destruct e).
  destruct (role_create _ _ _ _ _ _ E Hne') as (Hk & Hb & Hr). unfold member_key in Hk. simpl in *. simplify_eq.
  split_and!; [done..|by destruct e|]. exists tp. split_and!; [by eapply find_topic_in|done..].
Qed.

Lemma authority_accept db token user mid now t u :
  role_of (AcceptInvitation db token user mid now).1 t u <> role_of db t u ->
  membership_change db (OpAccept token user mid now) t u.
Proof.
  unfold membership_change. cbn [service_step]. unfold AcceptInvitation.
  destruct (Invitations_GetByToken db token) as [i|] eqn:Hi; [|done].
  apply List.find_some in Hi as [Hin%list_elem_of_In Htok].
  destruct (Inv_Status i <>? _) eqn:Hs; [done|]. destruct (Inv_ExpiresAt i <? now) eqn:He; [done|].
  destruct (invited i user) eqn:Hv; [|done]. simpl.
  destruct (Members_Create _ _) as [db2 e] eqn:E. intros Hne.
  assert (Hne' : role_of db2 t u <> role_of db t u) by (by destruct e).
  destruct (role_create _ _ _ _ _ _ E Hne') as (Hk & Hb & Hr). unfold member_key in Hk. simpl in *. simplify_eq.
  bool_props. split_and!; [done..|]. exists i. split_and!; [done..|by destruct e|].
  unfold invited in Hv. apply orb_true_iff in Hv as [?%bool_decide_eq_true|?%bool_decide_eq_true]; auto.
Qed.

(** C11: the role of a user in a topic changes only in the ways the service grants: the
    creator of a new topic becomes its owner; a user who has access joins as a viewer;
    a user accepts a pending, unexpired invitation, for the role it names, addressed to
    this user or to nobody in particular; a member leaves; or an owner of that very topic
    changes, removes, promotes or (on a restore) drops the member.  No other call of the
    service changes a membership. *)
Theorem membership_authority db op t u :
  MembersOK db -> role_of (service_step db op) t u <> role_of db t u -> membership_change db op t u.
Proof.
  intros Hok. destruct op; cbn [service_step].
  - apply authority_create.
  - unfold UpdateTopic. case_match; [|done]. case_match; [done|].
    pose proof (role_topics_update db (edit_topic a req now) now t u) as Hr. by destruct (Topics_Update _ _ _) as [? []].
  - unfold DeleteTopic, Topics_Delete. by repeat (case_match; simplify_eq/=).
  - apply authority_subscribe.
  - unfold membership_change. cbn [service_step]. unfold Unsubscribe. destruct user as [v|]; [|done].
    case_match; [done|]. case_match; [done|]. simpl. intros Hne. destruct (role_delete _ _ _ _ _ Hne) as [? Hr]. by simplify_eq.
  - unfold InviteMember, Invitations_Create. by repeat (case_match; simplify_eq/=).
  - apply authority_accept.
  - unfold DeclineInvitation. by repeat (case_match; simplify_eq/=).
  - unfold CancelInvitation. by repeat (case_match; simplify_eq/=).
  - unfold membership_change, UpdateMemberRole. destruct (role_is _ _ _ _) eqn:Hro; [|done]. simpl.
    case_match eqn:Hg; [|done]. case_match; [done|]. pose proof (role_update db topic member t0 newRole now t u (ok_ids _ Hok) Hg) as Hr.
    destruct (Members_Update _ _ _) as [? []]; simpl in *; intros Hne; specialize (Hr Hne); simplify_eq; by apply role_is_role in Hro.
  - unfold membership_change. cbn [service_step]. unfold RemoveMember, remove_refused.
    destruct (role_is _ _ _ _) eqn:Hro; [|done]. simpl. case_match; case_match; try done.
    all: simpl; intros Hne; destruct (role_delete _ _ _ _ _ Hne) as [? Hr]; simplify_eq; by apply role_is_role in Hro.
  - unfold membership_change, TransferOwnership. destruct (role_is _ _ _ _) eqn:Hro; [|done]. cbn [negb].
    case_match eqn:Hg; [|done]. pose proof (role_update db topic to t0 TopicMemberRoleOwner now t u (ok_ids _ Hok) Hg) as Hr.
    destruct (Members_Update _ _ _) as [? []]; simpl in *; intros Hne; specialize (Hr Hne); simplify_eq; by apply role_is_role in Hro.
  - unfold membership_change, RestoreTopic. destruct (role_is _ _ _ _) eqn:Hro; [|done]. simpl.
    case_match; [|done]. case_match; [done|].
    pose proof (role_topics_update db (set_topic_status t0 TopicStatusActive now) now t u) as Hr.
    destruct (Topics_Update _ _ _) as [db1 []]; simpl in *; [done|]. rewrite <- Hr. intros ->%role_restore. by apply role_is_role in Hro.
  - done.
Qed.

(** *** Invitations *)

(** An answer to invitations keeps their tokens and never reopens one. *)
Definition keeps_answers (f : TopicInvitation -> TopicInvitation) : Prop :=
  forall i, Inv_Token (f i) = Inv_Token i /\ (Inv_Status i <> InvitationStatusPending -> Inv_Status (f i) <> InvitationStatusPending).

Definition invitations_grow (db db' : TopicDB) : Prop :=
  exists f l, keeps_answers f /\ td_invitations db' = map f (td_invitations db) ++ l.

Lemma grow_same db db' : td_invitations db' = td_invitations db -> invitations_grow db db'.
Proof. intros H. exists id, []. rewrite map_id, app_nil_r. by split. Qed.

Lemma grow_respond db db0 id status at_ :
  td_invitations db0 = td_invitations db -> status <> InvitationStatusPending ->
  invitations_grow db (Invitations_Update db0 id status at_).
Proof.
  intros H Hs. exists (fun i => if Inv_ID i =?= id then respond i status at_ else i), [].
  rewrite app_nil_r. simpl. rewrite H. split; [|done]. intros i. by case_bool_decide.
Qed.

Lemma grow_members db m db' e : Members_Create db m = (db', e) -> td_invitations db' = td_invitations db.
Proof. by intros [(_ & m' & -> & _)|[_ ->]]%members_create_spec. Qed.

Lemma grow_restore t (l : list TopicMember) d :
  td_invitations (foldl (fun d m => if Member_Role m <>? TopicMemberRoleOwner then Members_Delete d t (Member_UserID m) else d) d l)
    = td_invitations d.
Proof. revert d. induction l as [|m l IH]; intros d; [done|]. cbn [foldl]. rewrite IH. by case_match. Qed.

Lemma grow_step db op : invitations_grow db (service_step db op).
Proof.
  destruct op; cbn [service_step].
  - apply grow_same. unfold CreateTopic. case_match; [done|]. destruct user; [|done]. case_match; [done|].
    destruct (Topics_Create _ _) as [db1 e] eqn:E. apply topics_create_spec in E as [(-> & -> & _)|[-> ?]]; [|by destruct e].
    destruct (Members_Create _ _) eqn:E. by apply grow_members in E.
  - apply grow_same. unfold UpdateTopic. case_match; [|done]. case_match; [done|].
    pose proof (topics_update_members db (edit_topic a req now) now) as (_ & Hi & _). by destruct (Topics_Update _ _ _) as [? []].
  - apply grow_same. unfold DeleteTopic, Topics_Delete. by repeat (case_match; simplify_eq/=).
  - apply grow_same. unfold Subscribe. repeat (case_match; try done); by eapply grow_members.
  - apply grow_same. unfold Unsubscribe. by repeat (case_match; try done).
  - unfold InviteMember, Invitations_Create. repeat (case_match; simplify_eq/=); try by apply grow_same.
    all: eexists (fun i => i), _; rewrite map_id; by split.
  - unfold AcceptInvitation. repeat (case_match; try by apply grow_same); try by apply grow_respond.
    all: match goal with E : Members_Create _ _ = _ |- _ => apply grow_members in E end; first [by apply grow_same|by apply grow_respond].
  - unfold DeclineInvitation. repeat (case_match; try by apply grow_same). by apply grow_respond.
  - unfold CancelInvitation. repeat (case_match; try by apply grow_same). by apply grow_respond.
  - apply grow_same. unfold UpdateMemberRole, Members_Update. by repeat (case_match; simplify_eq/=).
  - apply grow_same. unfold RemoveMember. by repeat (case_match; simplify_eq/=).
  - apply grow_same. unfold TransferOwnership, Members_Update. by repeat (case_match; simplify_eq/=).
  - apply grow_same. unfold RestoreTopic. repeat (case_match; try done); simplify_eq/=; rewrite ?grow_restore.
    all: match goal with E : Topics_Update ?d ?t ?n = _ |- _ => pose proof (topics_update_members d t n) as (_ & Hi & _); by rewrite E in Hi end.
  - exists (expire_row now), []. rewrite app_nil_r. split; [|done]. intros i. unfold expire_row. by case_match.
Qed.

Definition settled (db : TopicDB) (token : string) : Prop :=
  exists i, Invitations_GetByToken db token = Some i /\ Inv_Status i <> InvitationStatusPending.

Lemma settled_grow db db' token : invitations_grow db db' -> settled db token -> settled db' token.
Proof.
  intros (f & l & Hf & Hi) (i & Hfi & Hs). exists (f i). split; [|by apply Hf].
  unfold Invitations_GetByToken in *. rewrite Hi, find_app. clear Hi.
  replace (List.find _ (map f (td_invitations db))) with (Some (f i)); [done|]. symmetry.
  induction (td_invitations db) as [|x k IH]; [done|]. cbn [map List.find] in *.
  rewrite (proj1 (Hf x)). case_match; [by simplify_eq|auto].
Qed.

Lemma settled_run db ops token : settled db token -> settled (service_run db ops) token.
Proof.
  revert db. induction ops as [|op ops IH]; intros db Hs; [done|]. apply (IH (service_step db op)).
  by eapply settled_grow, Hs; apply grow_step.
Qed.

(** An invitation makes one member: after a call has accepted it, and whatever the
    service does next, every later answer to it, by anybody and at any time, is refused
    as invalid and changes nothing. *)
Theorem invitation_single_use db token user mid now m db1 ops :
  AcceptInvitation db token user mid now = (db1, Ok m) ->
  let db2 := service_run db1 ops in forall user' mid' now',
    AcceptInvitation db2 token user' mid' now' = (db2, Err (ErrDomain ErrInvalidOperation)) /\
    DeclineInvitation db2 token user' now' = (db2, Err (ErrDomain ErrInvalidOperation)).
Proof.
  intros Ha db2 user' mid' now'.
  assert (Hs : settled db1 token).
  { unfold AcceptInvitation in Ha. destruct (Invitations_GetByToken db token) as [i|] eqn:Hi; [|done].
    case_match; [done|]. case_match; [done|]. case_match; [done|].
    destruct (Members_Create _ _) as [db0 [|]] eqn:E; [done|]. simplify_eq. apply grow_members in E.
    exists (respond i InvitationStatusAccepted (Some now)). split; [|done].
    unfold Invitations_GetByToken in *. simpl. rewrite E. clear -Hi.
    induction (td_invitations db) as [|x k IH]; [done|]. cbn [map List.find] in *.
    destruct (Inv_Token x =?= token) eqn:Ex.
    - simplify_eq. rewrite (bool_decide_true (Inv_ID i = Inv_ID i)) by done. simpl. by rewrite Ex.
    - replace (Inv_Token (if Inv_ID x =?= Inv_ID i then _ else x)) with (Inv_Token x) by (by case_match). rewrite Ex. auto. }
  destruct (settled_run _ ops _ Hs : settled db2 token) as (i & Hi & Hns). unfold AcceptInvitation, DeclineInvitation.
  rewrite Hi. by rewrite bool_decide_false.
Qed.

(** *** Visibility *)

(** A topic whose metadata makes it private is shown, by identifier, by name, in a
    listing or in a search, only to its members and to administrators. *)
Theorem private_topics_hidden db user t :
  isPublicTopic t = false ->
  (exists u, user = Some u /\ (User_Role u = UserRoleAdmin \/ is_Some (role_of db (Topic_ID t) (User_ID u)))) \/
  ((forall id name m, GetTopic db user id name <> Ok (t, m)) /\
   (forall req rows total, t ∉ (ListTopics db user req rows total).1) /\
   (forall query pub rows l, SearchTopics db user query pub rows = Ok l -> t ∉ l)).
Proof.
  intros Hp. destruct (canAccessTopic db t user) eqn:Ha.
  - left. unfold canAccessTopic in Ha. rewrite Hp in Ha. destruct user as [u|]; [|done]. exists u. split; [done|].
    case_bool_decide; [by left|right]. unfold Members_HasAccess in Ha. bool_props.
    unfold Members_GetRole, Members_Get. apply fmap_is_Some.
    destruct (List.find _ _) eqn:E; [done|]. rewrite filter_none in Ha; [simpl in Ha; lia|]. by apply find_None.
  - right. assert (Hv : forall p s rows, t ∉ visible_topics db user p s rows).
    { intros p s rows Hin%list_elem_of_In. apply List.filter_In in Hin as [_ Hf]. rewrite Ha in Hf. by rewrite andb_false_r in Hf. }
    split_and!.
    + intros id name m. unfold GetTopic. destruct (find_topic db id name) as [t'|]; [|done].
      destruct (canAccessTopic db t' user) eqn:Ha'; [|done]. intros [= -> _]. congruence.
    + intros req rows total. apply Hv.
    + intros query pub rows l. unfold SearchTopics. case_match; [done|]. intros [= <-]. apply Hv.
Qed.

(** ** Scenarios *)

Definition user_named (id role : string) : User :=
  mkUser id [] "ed25519" "" "" "" "active" role "" 0 0 None ∅.
Definition ann : User := user_named "ann" "user".
Definition ben : User := user_named "ben" "user".
Definition no_topics : TopicDB := mkTopicDB ["ann"; "ben"; "cal"] [] [] [].
Definition open_request : CreateTopicRequest := mkCreateTopicRequest "weather" "" "" [] {[ "is_public" := "false" ]}.

Lemma no_topics_ok : MembersOK no_topics.
Proof. constructor; [apply NoDup_nil; exact I|apply NoDup_nil; exact I|]. by intros ? ?%elem_of_nil. Defined.

Definition weather : Topic :=
  mkTopic "t1" "" "weather" "" "" TopicStatusActive ["ann"] "ann" 0 0 0 [] {[ "is_public" := "false" ]}.

(** [ann] creates a private topic and invites [ben] as an owner, who accepts. *)
Definition created_topic : TopicDB := service_step no_topics (OpCreate (Some ann) open_request "t1" "m1" 0).
Definition invited_ben : TopicDB :=
  service_step created_topic (OpInvite (mkInviteMemberRequest "t1" "ann" "" "ben" "owner" "" 0) "i1" "tok" 0).
Definition two_owners : TopicDB := service_step invited_ben (OpAccept "tok" "ben" "m2" Hour).
Definition sharing : list TopicOp :=
  [OpCreate (Some ann) open_request "t1" "m1" 0;
   OpInvite (mkInviteMemberRequest "t1" "ann" "" "ben" "owner" "" 0) "i1" "tok" 0;
   OpAccept "tok" "ben" "m2" Hour; OpUnsubscribe (Some ann) "t1"; OpUnsubscribe (Some ben) "t1"].


Lemma membership_authority_witness :
  membership_change no_topics (OpCreate (Some ann) open_request "t1" "m1" 0) "t1" "ann".
Proof. apply membership_authority; [exact no_topics_ok|vm_compute; discriminate]. Defined.

Lemma invitation_single_use_witness :
  AcceptInvitation two_owners "tok" "cal" "m3" Hour = (two_owners, Err (ErrDomain ErrInvalidOperation)) /\
  DeclineInvitation two_owners "tok" "cal" Hour = (two_owners, Err (ErrDomain ErrInvalidOperation)).
Proof.
  exact (invitation_single_use invited_ben "tok" "ben" "m2" Hour _ two_owners []
    ltac:(vm_compute; reflexivity) "cal" "m3" Hour).
Defined.

Lemma private_topics_hidden_witness :
  td_topics created_topic = [weather] /\ GetTopic created_topic (Some ben) "t1" "" <> Ok (weather, None).
Proof.
  split; [vm_compute; reflexivity|].
  destruct (private_topics_hidden created_topic (Some ben) weather ltac:(vm_compute; reflexivity)) as [(u & Hu & [Ha|Ha])|[Hg _]].
  - injection Hu as <-. vm_compute in Ha. discriminate.
  - injection Hu as <-. vm_compute in Ha. by destruct Ha.
  - apply Hg.
Defined.

(** A caller who is not in the table of users, or an identifier that is taken: the error
    of the owner's row is dropped and the topic has nobody. *)
Example ownerless_topic :
  let '(db, r) := CreateTopic no_topics (Some (user_named "eve" "user")) open_request "t1" "m1" 0 in
  (exists t, r = Ok t) /\ map Topic_ID (td_topics db) = ["t1"] /\ td_members db = [].
Proof. vm_compute. split_and!; [by eexists|done..]. Qed.

(** Two owners remove each other at the same time: both checks count two owners, and the
    topic is left with none. *)
Example owners_remove_each_other :
  remove_refused two_owners "t1" "ann" "ben" = None /\ remove_refused two_owners "t1" "ben" "ann" = None /\
  owners_of (Members_Delete (Members_Delete two_owners "t1" "ben") "t1" "ann") "t1" = [].
Proof. vm_compute. auto. Qed.

(** An invitation sent to an address can be accepted by any user who has the token. *)
Example email_invitation_is_open :
  let db := service_step created_topic (OpInvite (mkInviteMemberRequest "t1" "ann" "ben@example.org" "" "owner" "" 0) "i1" "tok" 0) in
  role_of (service_step db (OpAccept "tok" "cal" "m2" Hour)) "t1" "cal" = Some "owner"%string.
Proof. vm_compute. reflexivity. Qed.

(** The name of the field to sort by is put into the statement as it is. *)
Example sort_field_is_spliced :
  exists before after,
    topics_list_query (ListTopics_filter (mkListTopicsRequest "" [] "" None (Some ("1; DELETE FROM topics; --"%string, false)) false false)) =
    (before ++ " ORDER BY 1; DELETE FROM topics; -- ASC" ++ after)%string.
Proof. eexists "SELECT id, parent_id, name, description, table_schema, status, owners, created_by, created_at, updated_at, dataset_count, tags, metadata FROM topics WHERE 1=1"%string, " LIMIT ?"%string. vm_compute. reflexivity. Qed.

(** A deleted topic keeps its name, stays readable, and its name cannot be used again. *)
Example deleted_topic_keeps_name :
  let db := service_step created_topic (OpDelete (Some ann) "t1" false Hour) in
  (CreateTopic db (Some ann) open_request "t2" "m2" Hour).2 = Err ErrValidation /\
  (exists t m, GetTopic db (Some ann) "t1" "" = Ok (t, m) /\ Topic_Status t = TopicStatusDeleted).
Proof. vm_compute. split; [reflexivity|]. do 2 eexists. split; reflexivity. Qed.

(** The owner who hands a topic over stays its owner. *)
Example transfer_keeps_owner :
  let db := service_step created_topic (OpInvite (mkInviteMemberRequest "t1" "ann" "" "ben" "viewer" "" 0) "i1" "tok" 0) in
  let db := service_step db (OpAccept "tok" "ben" "m2" Hour) in
  let db := service_step db (OpTransfer "t1" "ann" "ben" Hour) in
  role_of db "t1" "ann" = Some "owner"%string /\ role_of db "t1" "ben" = Some "owner"%string.
Proof. vm_compute. auto. Qed.
