(* ===== verification/Bootstrap.v ===== *)
(** * Connecting to bootstrap peers ([internal/p2p/bootstrap.go])

    A [Bootstrapper] keeps one goroutine per configured peer, which dials it,
    waits longer after each failure, and watches the connection once it stands.
    The goroutines are the loops of the record [Bootstrapper]; [boot_step] lets any
    of them do what its code does next, with the answer of the network as an
    argument.  Multiaddresses and peer identifiers belong to libp2p and are the
    class [PeerLib]. *)
From stdpp Require Import base gmap strings list.
From Stdlib Require Import ZArith Lia Ascii SpecFloat.
From S2P Require Import Prelude GoFloat.
Local Open Scope Z_scope.
Local Open Scope bool_scope.

(** ** Peers of libp2p *)

(** [peer.ID] is a string of bytes; its printed form is another one. *)
Abbreviation PeerID := string (only parsing).

Class PeerLib := {
  Multiaddr : Type;
  ID_String : PeerID -> string;
  peer_Decode : string -> option PeerID;
  Multiaddr_String : Multiaddr -> string;
  NewMultiaddr : string -> option Multiaddr;
  AddrInfoFromP2pAddr : Multiaddr -> option (PeerID * list Multiaddr);
}.

Class PeerLibLaws `(PeerLib) := {
  peer_Decode_String id : peer_Decode (ID_String id) = Some id;
  NewMultiaddr_String a : NewMultiaddr (Multiaddr_String a) = Some a;
}.

Section bootstrap.
Context `{PeerLib}.

Record AddrInfo := mkAddrInfo { AddrInfo_ID : PeerID; AddrInfo_Addrs : list Multiaddr }.

(** ** Parsing the configured addresses *)

(** [peers[i].Addrs = append(peers[i].Addrs, ...)] at the first peer of that identifier. *)
Fixpoint merge_addrs (id : PeerID) (addrs : list Multiaddr) (peers : list AddrInfo) : list AddrInfo :=
  match peers with
  | [] => []
  | p :: rest =>
      if AddrInfo_ID p =?= id then mkAddrInfo (AddrInfo_ID p) (AddrInfo_Addrs p ++ addrs) :: rest
      else p :: merge_addrs id addrs rest
  end.

(** One turn of the loop; [seen] holds the identifiers already met. *)
Definition parse_one (acc : list AddrInfo * list PeerID) (ma : Multiaddr) : list AddrInfo * list PeerID :=
  let '(peers, seen) := acc in
  match AddrInfoFromP2pAddr ma with
  | None => acc
  | Some (id, addrs) =>
      if mem id seen then (merge_addrs id addrs peers, seen)
      else (peers ++ [mkAddrInfo id addrs], id :: seen)
  end.

Fixpoint parse_loop (acc : list AddrInfo * list PeerID) (addrs : list string) : option (list AddrInfo) :=
  match addrs with
  | [] => Some (acc.1)
  | a :: rest => match NewMultiaddr a with None => None | Some ma => parse_loop (parse_one acc ma) rest end
  end.

Definition parseBootstrapPeers (addrs : list string) : option (list AddrInfo) := parse_loop ([], []) addrs.

Definition DefaultBootstrapPeers : list string :=
  ["/dns4/bib.dev/tcp/4001"; "/dns4/bib.dev/udp/4001/quic-v1"]%string.

(** ** The loops *)

Record BootstrapConfig := mkBootstrapConfig {
  Bootstrap_Peers : list string;
  Bootstrap_MinPeers : Z;
  Bootstrap_RetryInterval : Duration;
  Bootstrap_MaxRetryInterval : Duration;
}.

Inductive LoopPhase :=
| Dialing (attempt : Z) (interval : Duration)
| Waiting (attempt : Z) (interval : Duration) (backoff : Duration)
| Monitoring
| Returned.

Record BootLoop := mkBootLoop { loop_peer : AddrInfo; loop_phase : LoopPhase }.

Record Bootstrapper := mkBootstrapper {
  boot_cfg : BootstrapConfig;
  boot_peers : list AddrInfo;
  boot_cancelled : bool;
  boot_connected : gmap PeerID bool;
  boot_loops : list BootLoop;
}.

Definition NewBootstrapper (cfg : BootstrapConfig) : option Bootstrapper :=
  peers ← parseBootstrapPeers (Bootstrap_Peers cfg);
  Some (mkBootstrapper cfg peers false ∅ []).

Definition first_interval (cfg : BootstrapConfig) : Duration :=
  if Bootstrap_RetryInterval cfg =? 0 then 5 * Second else Bootstrap_RetryInterval cfg.
Definition max_interval (cfg : BootstrapConfig) : Duration :=
  if Bootstrap_MaxRetryInterval cfg =? 0 then Hour else Bootstrap_MaxRetryInterval cfg.

(** [time.Duration(float64(retryInterval) * math.Pow(2, float64(attempt-1)))], at most
    [maxInterval].  [oor] is what a conversion out of range gives on the machine. *)
Definition backoff (oor : float64 -> Z) (interval maxInterval : Duration) (attempt : Z) : Duration :=
  let b := float_to_int64 oor (fmul (float_of_int interval) (pow2 (attempt - 1))) in
  if maxInterval <? b then maxInterval else b.

Definition set_connected (b : Bootstrapper) (id : PeerID) (v : bool) : Bootstrapper :=
  mkBootstrapper (boot_cfg b) (boot_peers b) (boot_cancelled b) (<[id := v]> (boot_connected b)) (boot_loops b).
Definition set_loop (b : Bootstrapper) (i : nat) (l : BootLoop) : Bootstrapper :=
  mkBootstrapper (boot_cfg b) (boot_peers b) (boot_cancelled b) (boot_connected b) (<[i := l]> (boot_loops b)).
Definition add_loops (b : Bootstrapper) (ls : list BootLoop) : Bootstrapper :=
  mkBootstrapper (boot_cfg b) (boot_peers b) (boot_cancelled b) (boot_connected b) (boot_loops b ++ ls).
Definition cancel (b : Bootstrapper) : Bootstrapper :=
  mkBootstrapper (boot_cfg b) (boot_peers b) true (boot_connected b) (boot_loops b).

(** The goroutine of [connectWithBackoff] before its first turn. *)
Definition spawn (cfg : BootstrapConfig) (p : AddrInfo) : BootLoop :=
  mkBootLoop p (Dialing 0 (first_interval cfg)).

Definition start_loops (b : Bootstrapper) : Bootstrapper :=
  add_loops b (map (spawn (boot_cfg b)) (boot_peers b)).

(** From the top of the loop to its next wait: [connected] is whether
    [host.Connect] succeeded. *)
Definition dial_turn (oor : float64 -> Z) (b : Bootstrapper) (i : nat) (p : AddrInfo)
    (attempt : Z) (interval : Duration) (connected : bool) : Bootstrapper :=
  if boot_cancelled b then set_loop b i (mkBootLoop p Returned)
  else if connected then
    set_loop (set_connected b (AddrInfo_ID p) true) i (mkBootLoop p Monitoring)
  else
    let attempt := i64 (attempt + 1) in
    set_loop b i (mkBootLoop p (Waiting attempt interval
      (backoff oor interval (max_interval (boot_cfg b)) attempt))).

(** [time.After(backoff)] fires. *)
Definition wait_turn (b : Bootstrapper) (i : nat) (p : AddrInfo) (attempt : Z) (interval : Duration) : Bootstrapper :=
  set_loop b i (mkBootLoop p (Dialing attempt interval)).

(** A tick of [monitorConnection]; [connectedness] is 1 while connected.  After a
    loss the counter and the interval are reset. *)
Definition monitor_turn (b : Bootstrapper) (i : nat) (p : AddrInfo) (connectedness : Z) : Bootstrapper :=
  if connectedness =? 1 then b
  else set_loop (set_connected b (AddrInfo_ID p) false) i
         (mkBootLoop p (Dialing 0 (Bootstrap_RetryInterval (boot_cfg b)))).

Definition ConnectedPeers (b : Bootstrapper) : Z :=
  Z.of_nat (size (filter (fun kv => kv.2 = true) (boot_connected b))).
Definition IsConnected (b : Bootstrapper) : bool := 0 <? ConnectedPeers b.
Definition IsBootstrapPeer (b : Bootstrapper) (id : PeerID) : bool :=
  existsb (fun p => AddrInfo_ID p =?= id) (boot_peers b).

(** Whether a tick of [waitForMinPeers] ends it. *)
Definition min_peers_reached (b : Bootstrapper) : bool :=
  (Bootstrap_MinPeers (boot_cfg b) <=? 0) || (Bootstrap_MinPeers (boot_cfg b) <=? ConnectedPeers b).

(** [Start] before it waits: whether it launched the loops. *)
Definition Start (b : Bootstrapper) : Bootstrapper :=
  match boot_peers b with [] => b | _ => start_loops b end.

Definition Stop_loop (b : Bootstrapper) (i : nat) (p : AddrInfo) : Bootstrapper := set_loop b i (mkBootLoop p Returned).

Inductive boot_step (oor : float64 -> Z) : Bootstrapper -> Bootstrapper -> Prop :=
| step_start b : boot_step oor b (Start b)
| step_dial b i p a v ok : boot_loops b !! i = Some (mkBootLoop p (Dialing a v)) ->
    boot_step oor b (dial_turn oor b i p a v ok)
| step_wait b i p a v w : boot_loops b !! i = Some (mkBootLoop p (Waiting a v w)) ->
    boot_step oor b (wait_turn b i p a v)
| step_monitor b i p c : boot_loops b !! i = Some (mkBootLoop p Monitoring) ->
    boot_step oor b (monitor_turn b i p c)
| step_cancel b : boot_step oor b (cancel b)
| step_return b i l : boot_cancelled b = true -> boot_loops b !! i = Some l ->
    boot_step oor b (Stop_loop b i (loop_peer l)).

(** ** Theorems *)

Definition ids (peers : list AddrInfo) : list PeerID := map AddrInfo_ID peers.

Lemma merge_addrs_ids id addrs peers : ids (merge_addrs id addrs peers) = ids peers.
Proof.
  unfold ids. induction peers as [|p rest IH]; [done|]. simpl. case_bool_decide; simpl; congruence.
Qed.

(** The addresses a peer list gives for an identifier. *)
Definition addrs_of (id : PeerID) (peers : list AddrInfo) : list Multiaddr :=
  flat_map (fun p => if AddrInfo_ID p =?= id then AddrInfo_Addrs p else []) peers.

(** The addresses the configured multiaddresses give for an identifier. *)
Definition configured_addrs (id : PeerID) (mas : list Multiaddr) : list Multiaddr :=
  flat_map (fun ma => match AddrInfoFromP2pAddr ma with
                      | Some (id', addrs) => if id' =?= id then addrs else []
                      | None => [] end) mas.

Lemma addrs_of_absent id peers : (id ∉ ids peers) -> addrs_of id peers = [].
Proof.
  induction peers as [|p rest IH]; [done|]. unfold ids. cbn. rewrite elem_of_cons. intros Hn.
  rewrite bool_decide_false by naive_solver. apply IH. unfold ids. naive_solver.
Qed.

Lemma addrs_of_app id l1 l2 : addrs_of id (l1 ++ l2) = addrs_of id l1 ++ addrs_of id l2.
Proof. unfold addrs_of. apply flat_map_app. Qed.

Lemma addrs_of_merge id id' addrs peers :
  NoDup (ids peers) -> id' ∈ ids peers ->
  addrs_of id (merge_addrs id' addrs peers) = addrs_of id peers ++ (if id' =?= id then addrs else []).
Proof.
  induction peers as [|p rest IH]; [by intros _ ?%elem_of_nil|]. unfold ids in *. cbn.
  rewrite NoDup_cons, elem_of_cons. intros [Hp Hnd] Hin.
  destruct (decide (AddrInfo_ID p = id')) as [<-|Hne].
  - rewrite (bool_decide_true (AddrInfo_ID p = AddrInfo_ID p)) by done. cbn.
    case_bool_decide as Hid; [|by rewrite app_nil_r]. subst.
    fold (addrs_of (AddrInfo_ID p) rest). by rewrite addrs_of_absent, !app_nil_r.
  - rewrite (bool_decide_false (AddrInfo_ID p = id')) by done. destruct Hin as [->|Hin]; [done|].
    cbn. fold (addrs_of id (merge_addrs id' addrs rest)) (addrs_of id rest). by rewrite IH, app_assoc.
Qed.

(** What the loop has read so far. *)
Record parsed (mas : list Multiaddr) (acc : list AddrInfo * list PeerID) : Prop := {
  parsed_nodup : NoDup (ids acc.1);
  parsed_seen id : id ∈ acc.2 <-> id ∈ ids acc.1;
  parsed_addrs id : addrs_of id acc.1 = configured_addrs id mas;
  parsed_ids id : id ∈ ids acc.1 <-> exists ma addrs, ma ∈ mas /\ AddrInfoFromP2pAddr ma = Some (id, addrs);
}.

Lemma parse_one_parsed mas acc ma : parsed mas acc -> parsed (mas ++ [ma]) (parse_one acc ma).
Proof.
  intros [Hnd Hseen Haddr Hid]. destruct acc as [peers seen]. cbn [fst snd] in *. unfold parse_one.
  assert (forall id, configured_addrs id (mas ++ [ma]) = configured_addrs id mas ++ configured_addrs id [ma]) as Happ
    by (intros; apply flat_map_app).
  assert (forall id, (exists m a, m ∈ mas ++ [ma] /\ AddrInfoFromP2pAddr m = Some (id, a)) <->
                     id ∈ ids peers \/ exists a, AddrInfoFromP2pAddr ma = Some (id, a)) as Hids.
  { intros id. rewrite Hid. setoid_rewrite elem_of_app. setoid_rewrite list_elem_of_singleton. naive_solver. }
  destruct (AddrInfoFromP2pAddr ma) as [[id addrs]|] eqn:Hma.
  - destruct (mem id seen) eqn:Hm; [apply mem_true in Hm|apply mem_false in Hm]; rewrite Hseen in Hm.
    + split; cbn [fst snd]; [by rewrite merge_addrs_ids|intros id'; by rewrite merge_addrs_ids| |];
        intros id'; rewrite ?merge_addrs_ids.
      * rewrite addrs_of_merge, Happ, Haddr by done. f_equal. cbn. by rewrite Hma, app_nil_r.
      * rewrite Hids. naive_solver.
    + assert (ids (peers ++ [mkAddrInfo id addrs]) = ids peers ++ [id]) as Hsn
        by (unfold ids; by rewrite map_app).
      split; cbn [fst snd]; rewrite ?Hsn.
      * apply NoDup_app; split; [done|]. split; [set_solver|apply NoDup_singleton].
      * intros id'. rewrite elem_of_cons, elem_of_app, list_elem_of_singleton, Hseen. tauto.
      * intros id'. rewrite addrs_of_app, Happ, Haddr. f_equal. cbn. by rewrite Hma, !app_nil_r.
      * intros id'. rewrite Hids, elem_of_app, list_elem_of_singleton. naive_solver.
  - split; cbn [fst snd]; [done|done| |].
    + intros id. rewrite Happ, Haddr. cbn. by rewrite Hma, !app_nil_r.
    + intros id. rewrite Hids. naive_solver.
Qed.

Lemma parse_loop_spec addrs mas0 acc :
  parsed mas0 acc ->
  match parse_loop acc addrs with
  | Some peers => exists mas seen, Forall2 (fun a m => NewMultiaddr a = Some m) addrs mas /\
                                   parsed (mas0 ++ mas) (peers, seen)
  | None => exists a, a ∈ addrs /\ NewMultiaddr a = None
  end.
Proof.
  revert mas0 acc. induction addrs as [|a rest IH]; intros mas0 acc Hp; cbn.
  - exists [], (acc.2). rewrite app_nil_r. by destruct acc.
  - destruct (NewMultiaddr a) as [m|] eqn:Ha; [|exists a; by rewrite elem_of_cons; auto].
    specialize (IH _ _ (parse_one_parsed _ _ m Hp)). destruct (parse_loop _ rest).
    + destruct IH as (mas & seen & Hf & Hp'). exists (m :: mas), seen.
      split; [by constructor|]. by rewrite <- app_assoc in Hp'.
    + destruct IH as (a' & ? & ?). exists a'. by rewrite elem_of_cons; auto.
Qed.

Lemma parsed_nil : parsed [] ([], []).
Proof.
  split; cbn; [constructor|done|done|]. intros id. rewrite elem_of_nil. split; [done|].
  by intros (? & ? & ?%elem_of_nil & _).
Qed.

(** The configured bootstrap addresses are accepted exactly when each is a
    multiaddress; the result has each peer identifier once, namely those the
    addresses name, with all the addresses given for it in their order. *)
Theorem parseBootstrapPeers_spec addrs :
  match parseBootstrapPeers addrs with
  | Some peers => exists mas, Forall2 (fun a m => NewMultiaddr a = Some m) addrs mas /\
      NoDup (ids peers) /\
      (forall id, addrs_of id peers = configured_addrs id mas) /\
      (forall id, id ∈ ids peers <-> exists ma l, ma ∈ mas /\ AddrInfoFromP2pAddr ma = Some (id, l))
  | None => exists a, a ∈ addrs /\ NewMultiaddr a = None
  end.
Proof.
  unfold parseBootstrapPeers. pose proof (parse_loop_spec addrs [] ([], []) parsed_nil) as H'.
  destruct (parse_loop _ _); [|done]. destruct H' as (mas & seen & Hf & [Hnd _ Ha Hi]). eauto.
Qed.

(** *** Invariant of the loops *)

Record boot_ok (b : Bootstrapper) : Prop := {
  bo_loops l : l ∈ boot_loops b -> loop_peer l ∈ boot_peers b;
  bo_known id v : boot_connected b !! id = Some v -> id ∈ ids (boot_peers b);
  bo_true id : boot_connected b !! id = Some true ->
    exists l, l ∈ boot_loops b /\ AddrInfo_ID (loop_peer l) = id /\
              (loop_phase l = Monitoring \/ loop_phase l = Returned);
}.

Lemma set_loop_peer b i (l l' : BootLoop) x :
  boot_loops b !! i = Some l -> loop_peer l' = loop_peer l ->
  x ∈ boot_loops (set_loop b i l') -> x = l' \/ x ∈ boot_loops b.
Proof.
  intros Hi Hp. cbn. rewrite list_elem_of_lookup. intros [j Hj].
  apply list_lookup_insert_Some in Hj as [(-> & -> & _)|[_ Hj]]; [by left|right].
  by apply list_elem_of_lookup_2 in Hj.
Qed.

(** Replacing a loop by one for the same peer keeps the invariant, if the flags that
    are set are those of loops that are still there. *)
Lemma set_loop_ok b b' i l l' :
  boot_ok b -> boot_loops b !! i = Some l -> loop_peer l' = loop_peer l ->
  boot_peers b' = boot_peers b -> boot_loops b' = <[i := l']> (boot_loops b) ->
  (forall id v, boot_connected b' !! id = Some v ->
     id = AddrInfo_ID (loop_peer l) \/ boot_connected b !! id = Some v) ->
  (forall id, boot_connected b' !! id = Some true ->
     (boot_connected b !! id = Some true /\
        (loop_phase l <> Monitoring /\ loop_phase l <> Returned \/ loop_phase l' = Returned \/
         id <> AddrInfo_ID (loop_peer l))) \/
     (id = AddrInfo_ID (loop_peer l) /\ loop_phase l' = Monitoring)) ->
  boot_ok b'.
Proof.
  intros [Hl Hk Ht] Hi Hp Hps Hls Hkn Htr.
  assert (l ∈ boot_loops b) as Hin by (by eapply list_elem_of_lookup_2).
  assert (l' ∈ boot_loops b') as Hin'.
  { rewrite Hls. apply list_elem_of_lookup. exists i. apply list_lookup_insert_eq.
    by eapply lookup_lt_Some. }
  split; rewrite ?Hps.
  - intros x Hx. rewrite Hls in Hx. apply (set_loop_peer b i l l' x Hi Hp) in Hx as [->|]; [|auto].
    rewrite Hp. auto.
  - intros id v [->|Hc]%Hkn; [|by eapply Hk]. apply list_elem_of_fmap. eauto.
  - intros id [[Hc Hcase]|[-> Hm]]%Htr; [|exists l'; by rewrite Hp; auto].
    destruct (Ht id Hc) as (x & Hx & Hid & Hph).
    apply list_elem_of_lookup in Hx as [j Hj]. destruct (decide (i = j)) as [<-|Hij].
    + rewrite Hj in Hi. simplify_eq. exists l'. rewrite Hp. split; [done|]. split; [done|]. naive_solver.
    + exists x. split; [|done]. rewrite Hls. apply list_elem_of_lookup. exists j.
      by rewrite list_lookup_insert_ne.
Qed.

Lemma Start_ok b : boot_ok b -> boot_ok (Start b).
Proof.
  intros Hok. unfold Start. case_match; [done|]. rename l into ps.
  destruct Hok as [Hl Hk Ht]. split; cbn.
  - intros l [?|Hm]%elem_of_app; [auto|]. apply list_elem_of_fmap in Hm as (p & -> & ?). done.
  - done.
  - intros id (l & ? & ?)%Ht. exists l. by rewrite elem_of_app; auto.
Qed.

Ltac flags := repeat match goal with
  | |- forall _, _ => intro
  | Hx : <[_ := _]> _ !! _ = Some _ |- _ => apply lookup_insert_Some in Hx as [[? ?]|[? ?]]; subst
  end; try done; auto 6.

Lemma boot_step_ok oor b b' : boot_step oor b b' -> boot_ok b -> boot_ok b'.
Proof.
  intros Hs Hok. destruct Hs as [b|b i p a v ok Hi|b i p a v w Hi|b i p c Hi|b|b i l Hc Hi].
  - by apply Start_ok.
  - unfold dial_turn. destruct (boot_cancelled b); [|destruct ok];
      (eapply set_loop_ok; [done|done| |reflexivity|reflexivity| |]; [reflexivity|cbn; flags|cbn; flags]).
  - eapply set_loop_ok; [done|done| |reflexivity|reflexivity| |]; [reflexivity|cbn; flags|cbn; flags].
  - unfold monitor_turn. destruct (c =? 1); [done|].
    eapply set_loop_ok; [done|done| |reflexivity|reflexivity| |]; [reflexivity|cbn; flags|cbn; flags].
  - by destruct Hok.
  - eapply set_loop_ok; [done|done| |reflexivity|reflexivity| |]; [reflexivity|cbn; flags|cbn; flags].
Qed.

Lemma NewBootstrapper_ok cfg b : NewBootstrapper cfg = Some b -> boot_ok b.
Proof.
  unfold NewBootstrapper. intros (peers & _ & [= <-])%bind_Some. split; cbn.
  - by intros l ?%elem_of_nil.
  - intros id v. by rewrite lookup_empty.
  - intros id. by rewrite lookup_empty.
Qed.

Lemma NewBootstrapper_nodup cfg b : NewBootstrapper cfg = Some b -> NoDup (ids (boot_peers b)).
Proof.
  unfold NewBootstrapper. intros (peers & Hp & [= <-])%bind_Some. cbn.
  pose proof (parseBootstrapPeers_spec (Bootstrap_Peers cfg)) as Hs. rewrite Hp in Hs.
  by destruct Hs as (mas & _ & ? & _).
Qed.

Lemma boot_steps_ok oor b b' :
  rtc (boot_step oor) b b' -> boot_ok b ->
  boot_ok b' /\ boot_peers b' = boot_peers b /\ boot_cfg b' = boot_cfg b.
Proof.
  induction 1 as [|b1 b2 b3 Hs _ IH]; [auto|]. intros Hok.
  destruct (IH (boot_step_ok _ _ _ Hs Hok)) as (? & -> & ->). split; [done|].
  destruct Hs; unfold Start, dial_turn, monitor_turn; repeat case_match; done.
Qed.

Lemma ConnectedPeers_bound b : boot_ok b -> ConnectedPeers b <= Z.of_nat (length (boot_peers b)).
Proof.
  intros [_ Hk _]. unfold ConnectedPeers. apply Nat2Z.inj_le.
  rewrite <- (length_map AddrInfo_ID), <- size_dom.
  transitivity (size (list_to_set (ids (boot_peers b)) : gset string)).
  - apply subseteq_size. intros id (v & Hv)%elem_of_dom. apply elem_of_list_to_set.
    apply map_lookup_filter_Some in Hv as [Hv _]. by eapply Hk.
  - unfold ids. induction (map AddrInfo_ID (boot_peers b)) as [|x l IH]; [done|]. cbn.
    rewrite size_union_alt, size_singleton.
    assert (size (list_to_set l ∖ {[x]} : gset string) <= size (list_to_set l : gset string))%nat
      by (apply subseteq_size; set_solver). lia.
Qed.

(** In every state the loops reach, a peer counted as connected is a configured
    one whose loop watches its connection or has returned, and no more peers are
    counted than are configured: waiting for more never ends. *)
Theorem min_peers_bound oor cfg b0 b :
  NewBootstrapper cfg = Some b0 -> rtc (boot_step oor) b0 b ->
  (forall id, boot_connected b !! id = Some true ->
     exists l, l ∈ boot_loops b /\ AddrInfo_ID (loop_peer l) = id /\ loop_peer l ∈ boot_peers b0 /\
               (loop_phase l = Monitoring \/ loop_phase l = Returned)) /\
  ConnectedPeers b <= Z.of_nat (length (boot_peers b0)) /\
  (Z.of_nat (length (boot_peers b0)) < Bootstrap_MinPeers cfg -> min_peers_reached b = false).
Proof.
  intros Hnew Hsteps. pose proof (NewBootstrapper_ok _ _ Hnew) as Hok0.
  destruct (boot_steps_ok _ _ _ Hsteps Hok0) as (Hok & Hp & Hc).
  pose proof (ConnectedPeers_bound _ Hok) as Hb. rewrite Hp in Hb. split; [|split; [done|]].
  - intros id (l & Hl & Hid & Hph)%(bo_true _ Hok). exists l. rewrite <- Hp.
    pose proof (bo_loops _ Hok _ Hl). auto.
  - intros Hmin. unfold min_peers_reached. rewrite Hc.
    assert (boot_cfg b0 = cfg) as ->.
    { unfold NewBootstrapper in Hnew. by apply bind_Some in Hnew as (? & _ & [= <-]). }
    apply orb_false_iff. split; apply Z.leb_gt; lia.
Qed.

End bootstrap.

(** *** How long a loop waits *)

Definition default_retry : Duration := 5 * Second.
Definition default_max_retry : Duration := Hour.

(** With the default intervals the wait doubles from five seconds up to an hour
    for the first 31 attempts.  From the 32nd attempt, up to the 1024th at least,
    the product no longer fits a duration, and the wait is what the machine makes
    of the conversion, if that is below the maximum. *)
Theorem default_backoff oor attempt :
  (1 <= attempt <= 31 ->
     backoff oor default_retry default_max_retry attempt =
     Z.min (default_retry * 2 ^ (attempt - 1)) default_max_retry) /\
  (32 <= attempt <= 1024 ->
     backoff oor default_retry default_max_retry attempt =
     Z.min (oor (fmul (float_of_int default_retry) (pow2 (attempt - 1)))) default_max_retry).
Proof.
  unfold backoff, float_to_int64. split; intros Ha.
  - assert (trunc (fmul (float_of_int default_retry) (pow2 (attempt - 1))) =
            Some (default_retry * 2 ^ (attempt - 1))) as ->.
    { pose proof (forall_below 32 (fun a => (a =? 0) || bool_decide
        (trunc (fmul (float_of_int default_retry) (pow2 (a - 1))) = Some (default_retry * 2 ^ (a - 1))))) as Hc.
      specialize (Hc ltac:(by vm_compute) attempt ltac:(lia)). cbv beta in Hc.
      apply orb_true_iff in Hc as [Hc|Hc]; bool_props; [lia|done]. }
    assert (0 < 2 ^ (attempt - 1) <= 2 ^ 30) as Hpow by (split; [lia|apply Z.pow_le_mono_r; lia]).
    replace ((- 2 ^ 63 <=? _) && _) with true.
    + destruct (Z.ltb_spec default_max_retry (default_retry * 2 ^ (attempt - 1))); lia.
    + symmetry. apply andb_true_iff. unfold default_retry, Second, Millisecond.
      split; [apply Z.leb_le|apply Z.ltb_lt]; lia.
  - assert (match trunc (fmul (float_of_int default_retry) (pow2 (attempt - 1))) with
            | Some n => (- 2 ^ 63 <=? n) && (n <? 2 ^ 63) | None => false end = false) as Hr.
    { pose proof (forall_below 1025 (fun a => (a <? 32) || negb
        (match trunc (fmul (float_of_int default_retry) (pow2 (a - 1))) with
         | Some n => (- 2 ^ 63 <=? n) && (n <? 2 ^ 63) | None => false end))) as Hc.
      specialize (Hc ltac:(by vm_compute) attempt ltac:(lia)). cbv beta in Hc.
      apply orb_true_iff in Hc as [Hc|Hc]; [bool_props; lia|by apply negb_true_iff]. }
    destruct (trunc _) as [n|]; [rewrite Hr|];
      destruct (Z.ltb_spec default_max_retry (oor (fmul (float_of_int default_retry) (pow2 (attempt - 1))))); lia.
Qed.

(** Where such a conversion gives the least integer, as on amd64, the loop does not
    wait at all from then on. *)
Theorem default_backoff_overflows attempt :
  32 <= attempt <= 1024 ->
  backoff (fun _ => - 2 ^ 63) default_retry default_max_retry attempt < 0.
Proof.
  intros Ha. rewrite (proj2 (default_backoff (fun _ => - 2 ^ 63) attempt) Ha).
  unfold default_max_retry, Hour, Minute, Second, Millisecond. lia.
Qed.

(** A configured interval of zero is read as five seconds at the start, but a loop
    that lost its connection dials again and again without a pause. *)
Theorem reconnect_without_pause oor attempt :
  1 <= attempt <= 1024 -> backoff oor 0 default_max_retry attempt = 0.
Proof.
  intros Ha. unfold backoff, float_to_int64.
  assert (trunc (fmul (float_of_int 0) (pow2 (attempt - 1))) = Some 0) as ->; [|done].
  pose proof (forall_below 1024 (fun a =>
    bool_decide (trunc (fmul (float_of_int 0) (pow2 a)) = Some 0))) as Hc.
  specialize (Hc ltac:(by vm_compute) (attempt - 1) ltac:(lia)). cbv beta in Hc. by bool_props.
Qed.

(** ** A library of peers for the examples

    A multiaddress is kept without its first slash; one that names a peer ends in
    [/p2p/] and its name. *)
Fixpoint split_p2p (fuel : nat) (s : string) (pre : string) : option (string * string) :=
  match fuel with
  | O => None
  | S f => if String.prefix "/p2p/" s then Some (pre, String.substring 5 (String.length s) s)
           else match s with
                | EmptyString => None
                | String c rest => split_p2p f rest (pre ++ String c EmptyString)
                end
  end.

#[export] Instance text_peers : PeerLib := {|
  Multiaddr := string;
  ID_String id := id;
  peer_Decode s := Some s;
  Multiaddr_String a := String "/" a;
  NewMultiaddr s := match s with String c a => if Ascii.eqb c "/" then Some a else None | EmptyString => None end;
  AddrInfoFromP2pAddr a :=
    match split_p2p (S (String.length a)) a EmptyString with
    | Some (pre, id) => Some (id, [pre])
    | None => None
    end;
|}.

#[export] Instance text_peers_laws : PeerLibLaws text_peers.
Proof. by split. Qed.

Definition two_addresses : list string :=
  ["/ip4/10.0.0.1/tcp/4001/p2p/QmA"; "/dns4/bib.dev/tcp/4001"; "/ip4/10.0.0.2/tcp/4001/p2p/QmB";
   "/ip4/10.0.0.1/udp/4001/p2p/QmA"]%string.

Example parseBootstrapPeers_example :
  parseBootstrapPeers two_addresses =
  Some [mkAddrInfo "QmA" ["ip4/10.0.0.1/tcp/4001"; "ip4/10.0.0.1/udp/4001"]%string;
        mkAddrInfo "QmB" ["ip4/10.0.0.2/tcp/4001"%string]].
Proof. by vm_compute. Qed.

(** The default addresses name no peer, so nothing is dialled. *)
Example default_peers_are_skipped : parseBootstrapPeers DefaultBootstrapPeers = Some [].
Proof. by vm_compute. Qed.

Definition three_of_two : BootstrapConfig := mkBootstrapConfig two_addresses 3 0 0.
Definition two_started : option Bootstrapper := Start <$> NewBootstrapper three_of_two.

Lemma min_peers_bound_witness :
  match NewBootstrapper three_of_two with
  | Some b0 => min_peers_reached (Start b0) = false
  | None => False
  end.
Proof.
  destruct (NewBootstrapper three_of_two) as [b0|] eqn:Hb; [|by vm_compute in Hb].
  apply (min_peers_bound (fun _ => 0) three_of_two b0 (Start b0) Hb).
  - by apply rtc_once, step_start.
  - vm_compute in Hb. injection Hb as <-. by vm_compute.
Defined.

Lemma default_backoff_overflows_witness : backoff (fun _ => - 2 ^ 63) default_retry default_max_retry 32 < 0.
Proof. apply default_backoff_overflows. lia. Defined.

Lemma reconnect_without_pause_witness : backoff (fun _ => 0) 0 default_max_retry 7 = 0.
Proof. apply reconnect_without_pause. lia. Defined.
