(* ===== verification/PeerStore.v ===== *)
(** * The peer store ([internal/p2p/peerstore.go], [internal/p2p/discovery.go])

    One table of SQLite remembers every peer with its addresses, how often it was
    reached and when last; [Discovery] feeds it, picks whom to disconnect by the
    score of a row, and prunes old rows.  The addresses of a row are one text,
    joined and split by the file's own functions.  A [time.Time] given to a
    statement is bound by the driver as the text of [Time.String], which is the
    class [TimeBinding]. *)
From stdpp Require Import base gmap strings list sorting.
From Stdlib Require Import ZArith Lia Ascii SpecFloat.
From S2P Require Import Prelude GoStrings GoTime GoFloat Sql Bootstrap.
Local Open Scope Z_scope.
Local Open Scope bool_scope.

(** ** [joinStrings] and [splitString] *)

Abbreviation bytes := (list ascii) (only parsing).

Definition joinStrings (strs : list bytes) (sep : bytes) : bytes :=
  match strs with
  | [] => []
  | s :: rest => fold_left (fun result s' => result ++ sep ++ s') rest s
  end.

(** [s[i:j]] *)
Definition slice (s : bytes) (i j : nat) : bytes := take (j - i) (drop i s).

(** The loop of [splitString] from position [i], where a match moves on by
    [i += len(sep) - 1] and [i++]; [None] when the turns run out, which happens for
    an empty separator only. *)
Fixpoint split_turns (fuel : nat) (s sep : bytes) (i start : nat) (result : list bytes) : option (list bytes) :=
  match fuel with
  | O => None
  | S f =>
      if Z.of_nat i <=? Z.of_nat (length s) - Z.of_nat (length sep) then
        if slice s i (i + length sep) =?= sep
        then split_turns f s sep (i + length sep) (i + length sep) (result ++ [slice s start i])
        else split_turns f s sep (i + 1) start result
      else Some (result ++ [drop start s])
  end.

Definition splitString (s sep : bytes) : option (list bytes) :=
  match s with [] => Some [] | _ => split_turns (length s + 1) s sep 0 0 [] end.

(** ** Rows *)

Definition comma : ascii := ","%char.

(** How the driver binds a [time.Time]: [Time.String] in the zone of the machine,
    with the offset from UTC in seconds. *)
Class TimeBinding := {
  zone_offset : Z;
  time_suffix : Time -> list ascii;
  time_suffix_ne t : time_suffix t <> [];
}.
Definition bind_time `{TimeBinding} (t : Time) : list ascii :=
  stamp (seconds_of t + zone_offset) ++ time_suffix t.

Definition boolToInt (b : bool) : Z := if b then 1 else 0.

(** [last_seen] is a second, read and compared as its text. *)
Record PeerRow := mkPeerRow {
  pr_id : string;
  pr_addrs : bytes;
  pr_successes : Z;
  pr_failures : Z;
  pr_latency : float64;
  pr_last_seen : option Z;
  pr_is_bootstrap : Z;
}.

Record PeerScore := mkPeerScore {
  ConnectionSuccesses : Z;
  ConnectionFailures : Z;
  AverageLatencyMs : float64;
  LastSeen : Time;
  IsBootstrap : bool;
}.

(** [PeerScore.Score] at the time [now] of its call to [time.Since]. *)
Definition Score (ps : PeerScore) (now : Time) : float64 :=
  if IsBootstrap ps then float_of_int 1000000 else
  let total := i64 (ConnectionSuccesses ps + ConnectionFailures ps) in
  if total =? 0 then fzero else
  let successRate := fdiv (float_of_int (ConnectionSuccesses ps)) (float_of_int total) in
  let latencyPenalty :=
    if fgt (AverageLatencyMs ps) fzero then fdiv (float_of_int 100) (AverageLatencyMs ps) else fzero in
  let recencyBonus :=
    if negb (IsZero (LastSeen ps)) then
      let hours := Hours (Sub now (LastSeen ps)) in
      if flt hours (float_of_int 1) then float_of_int 100
      else if flt hours (float_of_int 24) then float_of_int 50
      else if flt hours (float_of_int 168) then float_of_int 10 else fzero
    else fzero in
  fadd (fadd (fmul successRate (float_of_int 100)) latencyPenalty) recencyBonus.

(** *** The order of [GetBestPeers] *)

(** A REAL of SQLite is a number; counts of 64 bits never divide to anything else. *)
Definition sql_real (x : float64) : float64 := if is_nan x then fzero else x.

Definition success_ratio (r : PeerRow) : float64 :=
  if 0 <? pr_successes r + pr_failures r
  then sql_real (fdiv (float_of_int (pr_successes r)) (float_of_int (pr_successes r + pr_failures r)))
  else fzero.

(** [last_seen DESC NULLS LAST], by the texts. *)
Definition seen_after (a b : option Z) : bool :=
  match a, b with
  | Some x, Some y => bytes_ltb (stamp y) (stamp x)
  | Some _, None => true
  | _, _ => false
  end.

(** [ORDER BY is_bootstrap DESC, ratio DESC, last_seen DESC NULLS LAST]. *)
Definition better (a b : PeerRow) : Prop :=
  pr_is_bootstrap b < pr_is_bootstrap a \/
  (pr_is_bootstrap a = pr_is_bootstrap b /\
   (flt (success_ratio b) (success_ratio a) = true \/
    (flt (success_ratio a) (success_ratio b) = false /\ flt (success_ratio b) (success_ratio a) = false /\
     seen_after (pr_last_seen b) (pr_last_seen a) = false))).

Section store.
Context `{PeerLib} `{TimeBinding}.

Definition marshalAddrs (addrs : list Multiaddr) : bytes :=
  joinStrings (map (fun a => bytes_of (Multiaddr_String a)) addrs) [comma].

Definition unmarshalAddrs (s : bytes) : list Multiaddr :=
  match s with
  | [] => []
  | _ => omap (fun p => NewMultiaddr (str_of p)) (default [] (splitString s [comma]))
  end.

(** *** Statements *)

Definition upsert_peer (addrs : bytes) (boot : Z) (r : PeerRow) : PeerRow :=
  mkPeerRow (pr_id r) addrs (pr_successes r) (pr_failures r) (pr_latency r) (pr_last_seen r)
    (if boot =? 1 then 1 else pr_is_bootstrap r).

Definition AddPeer (rows : list PeerRow) (info : AddrInfo) (isBootstrap : bool) : list PeerRow :=
  let id := ID_String (AddrInfo_ID info) in
  let addrs := marshalAddrs (AddrInfo_Addrs info) in
  upsert pr_id id (upsert_peer addrs (boolToInt isBootstrap))
    (mkPeerRow id addrs 0 0 fzero None (boolToInt isBootstrap)) rows.

Definition record_success (latencyMs : float64) (now : Time) (r : PeerRow) : PeerRow :=
  mkPeerRow (pr_id r) (pr_addrs r) (pr_successes r + 1) (pr_failures r)
    (fdiv (fadd (fmul (pr_latency r) (float_of_int (pr_successes r))) latencyMs)
          (float_of_int (pr_successes r + 1)))
    (Some (seconds_of now)) (pr_is_bootstrap r).
Definition record_failure (r : PeerRow) : PeerRow :=
  mkPeerRow (pr_id r) (pr_addrs r) (pr_successes r) (pr_failures r + 1) (pr_latency r)
    (pr_last_seen r) (pr_is_bootstrap r).

Definition RecordConnection (rows : list PeerRow) (id : PeerID) (success : bool) (latencyMs : float64)
    (now : Time) : list PeerRow :=
  update_row pr_id (ID_String id)
    (fun r => if success then record_success latencyMs now r else record_failure r) rows.

Definition score_of (r : PeerRow) : PeerScore :=
  mkPeerScore (pr_successes r) (pr_failures r) (pr_latency r)
    (match pr_last_seen r with Some s => s * Second | None => zero_time end)
    (pr_is_bootstrap r =? 1).

Definition GetPeer (rows : list PeerRow) (id : PeerID) : option (AddrInfo * PeerScore) :=
  match row_of pr_id (ID_String id) rows with
  | None => None
  | Some r => Some (mkAddrInfo id (unmarshalAddrs (pr_addrs r)), score_of r)
  end.

(** A row whose identifier does not decode is skipped. *)
Definition read_peer (r : PeerRow) : option AddrInfo :=
  match peer_Decode (pr_id r) with
  | Some id => Some (mkAddrInfo id (unmarshalAddrs (pr_addrs r)))
  | None => None
  end.

Definition best_rows `{!OrderBy better} (rows : list PeerRow) (limit : Z) : list PeerRow :=
  sql_limit limit (order_by better rows).
Definition GetBestPeers `{!OrderBy better} (rows : list PeerRow) (limit : Z) : list AddrInfo :=
  omap read_peer (best_rows rows limit).

Definition GetBootstrapPeers (rows : list PeerRow) : list AddrInfo :=
  omap read_peer (List.filter (fun r => pr_is_bootstrap r =? 1) rows).

(** The rows a clean-up at [now] deletes. *)
Definition prunable (cutoff : Time) (r : PeerRow) : bool :=
  (pr_is_bootstrap r =? 0) &&
  match pr_last_seen r with None => true | Some s => bytes_ltb (stamp s) (bind_time cutoff) end.

Definition PruneOldPeers (rows : list PeerRow) (maxAge : Duration) (now : Time) : list PeerRow * Z :=
  let cutoff := Add now (- maxAge) in
  (List.filter (fun r => negb (prunable cutoff r)) rows,
   Z.of_nat (length (List.filter (prunable cutoff) rows))).

Definition Count (rows : list PeerRow) : Z := Z.of_nat (length rows).

(** ** Discovery *)

Definition onPeerConnected (rows : list PeerRow) (boot : Bootstrapper) (addrs : list Multiaddr) (id : PeerID)
    (now : Time) : list PeerRow :=
  RecordConnection (AddPeer rows (mkAddrInfo id addrs) (IsBootstrapPeer boot id)) id true fzero now.

Definition maintenance (rows : list PeerRow) (now : Time) : list PeerRow :=
  (PruneOldPeers rows (30 * 24 * Hour) now).1.

(** [None] when the peer is not found; [dht] is the answer of the DHT, if there is one. *)
Definition FindPeer (rows : list PeerRow) (dht : option (option AddrInfo)) (id : PeerID) : option AddrInfo :=
  match GetPeer rows id with
  | Some (info, _) => match AddrInfo_Addrs info with _ :: _ => Some info | [] => mjoin dht end
  | None => mjoin dht
  end.

(** *** Choosing peers to disconnect *)

Record scoredPeer := mkScored { sp_id : PeerID; sp_score : float64 }.

Definition score_peer (rows : list PeerRow) (now : Time) (id : PeerID) : scoredPeer :=
  match GetPeer rows id with
  | Some (_, s) => mkScored id (Score s now)
  | None => mkScored id fzero
  end.

(** Each score has its own reading of the clock. *)
Definition score_connected (rows : list PeerRow) (boot : Bootstrapper) (now : PeerID -> Time) (connected : list PeerID)
    : list scoredPeer :=
  map (fun id => score_peer rows (now id) id) (List.filter (fun id => negb (IsBootstrapPeer boot id)) connected).

(** The inner loop with [x] at position [i] and [rest] behind it: what stands at
    [i] afterwards, and what stands behind it. *)
Fixpoint exchange (x : scoredPeer) (rest : list scoredPeer) : scoredPeer * list scoredPeer :=
  match rest with
  | [] => (x, [])
  | y :: r =>
      if fgt (sp_score x) (sp_score y)
      then let '(m, r') := exchange y r in (m, x :: r')
      else let '(m, r') := exchange x r in (m, y :: r')
  end.

(** The outer loop; the number of turns is the length. *)
Fixpoint exchange_sort (turns : nat) (l : list scoredPeer) : list scoredPeer :=
  match turns, l with
  | S n, x :: rest => let '(m, rest') := exchange x rest in m :: exchange_sort n rest'
  | _, _ => l
  end.

(** [None]: [make] panics for a negative capacity. *)
Definition GetPeersForPruning (rows : list PeerRow) (boot : Bootstrapper) (now : PeerID -> Time) (connected : list PeerID)
    (count : Z) : option (list PeerID) :=
  match connected with
  | [] => Some []
  | _ =>
      let scored := score_connected rows boot now connected in
      let sorted := exchange_sort (length scored) scored in
      if count <? 0 then None else Some (map sp_id (take (Z.to_nat count) sorted))
  end.

(** ** Theorems on the texts *)

Lemma joinStrings_single s sep : joinStrings [s] sep = s.
Proof. done. Qed.

Lemma fold_join_app (a b : bytes) rest (sep : bytes) :
  fold_left (fun result s' => result ++ sep ++ s') rest (a ++ b) =
  a ++ fold_left (fun result s' => result ++ sep ++ s') rest b.
Proof.
  revert b. induction rest as [|x rest IH]; intros b; [done|]. cbn. by rewrite <- app_assoc, IH.
Qed.

Lemma joinStrings_cons s s' rest sep : joinStrings (s :: s' :: rest) sep = s ++ sep ++ joinStrings (s' :: rest) sep.
Proof. cbn. by rewrite !fold_join_app. Qed.

Lemma joinStrings_join_with ss c : joinStrings ss [c] = join_with [c] ss.
Proof.
  induction ss as [|s [|s' ss] IH]; [done|done|]. rewrite joinStrings_cons, IH. done.
Qed.

Lemma slice_snoc (s : bytes) (start i : nat) x :
  (start <= i)%nat -> s !! i = Some x -> slice s start (i + 1) = slice s start i ++ [x].
Proof.
  intros Hsi Hx. unfold slice. replace (i + 1 - start)%nat with (S (i - start)) by lia.
  apply take_S_r. rewrite lookup_drop. by replace (start + (i - start))%nat with i by lia.
Qed.

Lemma slice_nil (s : bytes) (i : nat) : slice s i i = [].
Proof. unfold slice. by rewrite Nat.sub_diag. Qed.

(** The loop on a text whose part from [i] is still to be read. *)
Lemma split_turns_one (c : ascii) fuel (s : bytes) (i start : nat) (result : list bytes) :
  (start <= i)%nat -> (i <= length s)%nat -> (length s - i < fuel)%nat ->
  split_turns fuel s [c] i start result =
  Some (result ++ match split_on (fun x => x =?= c) (drop i s) with
                  | p :: ps => (slice s start i ++ p) :: ps | [] => [] end).
Proof.
  revert i start result. induction fuel as [|f IH]; intros i start result Hsi Hi Hf; [lia|]. cbn [split_turns].
  change (length [c]) with 1%nat. destruct (drop i s) as [|x rest] eqn:Hd.
  - assert (length s = i) as Hl by (apply (f_equal length) in Hd; rewrite length_drop in Hd; cbn in Hd; lia).
    rewrite (proj2 (Z.leb_gt _ _)) by lia. cbn. rewrite app_nil_r. unfold slice.
    by rewrite take_ge by (rewrite length_drop; lia).
  - assert (i < length s)%nat as Hlt by (apply (f_equal length) in Hd; rewrite length_drop in Hd; cbn in Hd; lia).
    assert (s !! i = Some x) as Hx by (rewrite <- (Nat.add_0_r i), <- lookup_drop, Hd; done).
    assert (drop (i + 1) s = rest) as Hd' by (rewrite <- drop_drop, Hd; done).
    rewrite (proj2 (Z.leb_le _ _)) by lia.
    rewrite (slice_snoc s i i x) by done. rewrite slice_nil. cbn [app split_on].
    destruct (decide (x = c)) as [->|Hne].
    + rewrite !bool_decide_true by done. replace (i + 1 - 1 + 1)%nat with (i + 1)%nat by lia.
      rewrite IH by lia. rewrite Hd', slice_nil, app_nil_r, <- app_assoc. cbn.
      pose proof (split_on_ne (fun x => x =?= c) rest). by destruct (split_on _ rest).
    + rewrite !bool_decide_false by congruence. rewrite IH by lia. rewrite Hd'.
      pose proof (split_on_ne (fun x => x =?= c) rest). destruct (split_on _ rest); [done|].
      by rewrite (slice_snoc s start i x), <- app_assoc by done.
Qed.

(** With a separator of one byte the loop ends, and splits like [strings.Split],
    except that an empty text has no parts. *)
Lemma splitString_one s c :
  splitString s [c] = Some (match s with [] => [] | _ => split_on (fun x => x =?= c) s end).
Proof.
  unfold splitString. destruct s as [|x s]; [done|]. rewrite split_turns_one by lia. cbn [drop app].
  rewrite slice_nil. pose proof (split_on_ne (fun x => x =?= c) (x :: s)). by destruct (split_on _ _).
Qed.

(** With an empty separator it does not end. *)
Lemma split_turns_empty_sep fuel s start result : split_turns fuel s [] 0 start result = None.
Proof.
  revert start result. induction fuel as [|f IH]; intros start result; [done|]. cbn [split_turns].
  rewrite (proj2 (Z.leb_le _ _)) by (cbn; lia). rewrite slice_nil, bool_decide_true by done. apply IH.
Qed.

(** [splitString] undoes [joinStrings] for parts without the separator, of which
    the first is not empty if it is the only one. *)
Theorem split_join_strings (ss : list bytes) (c : ascii) :
  ss <> [[]] -> Forall (Forall (fun x => x <> c)) ss -> splitString (joinStrings ss [c]) [c] = Some ss.
Proof.
  intros Hne Hc. rewrite splitString_one, joinStrings_join_with. f_equal.
  destruct ss as [|s ss]; [done|]. rewrite split_join; [| |done|].
  - destruct (join_with [c] (s :: ss)) eqn:Hj; [|done].
    destruct ss as [|s' ss]; cbn in Hj; [by subst|]. by destruct s.
  - by apply bool_decide_true.
  - eapply Forall_impl; [done|]. intros s0 Hs0. eapply Forall_impl; [done|]. intros x Hx.
    by apply bool_decide_false.
Qed.

Context `{!PeerLibLaws _}.

(** An address whose text fits into the list. *)
Definition listable (a : Multiaddr) : Prop :=
  Multiaddr_String a <> EmptyString /\ Forall (fun x => x <> comma) (bytes_of (Multiaddr_String a)).

(** The addresses of a row are read back as they were written. *)
Lemma unmarshal_marshal addrs : Forall listable addrs -> unmarshalAddrs (marshalAddrs addrs) = addrs.
Proof.
  intros Ha. unfold unmarshalAddrs, marshalAddrs.
  destruct (joinStrings _ _) as [|x l] eqn:Hj.
  - destruct addrs as [|a addrs]; [done|]. apply Forall_cons in Ha as [[Hne _] _].
    rewrite joinStrings_join_with in Hj. cbn in Hj.
    destruct (Multiaddr_String a); [done|]. by destruct (map _ addrs).
  - rewrite <- Hj. rewrite split_join_strings; cbn [default].
    + clear Hj Ha. induction addrs as [|a addrs IH]; [done|]. cbn.
      rewrite String.string_of_list_ascii_of_string, NewMultiaddr_String. f_equal. apply IH.
    + destruct addrs as [|a [|b addrs]]; try done. cbn. apply Forall_cons in Ha as [[Hne _] _].
      by destruct (Multiaddr_String a).
    + apply Forall_map. eapply Forall_impl; [done|]. by intros a [_ ?].
Qed.

(** ** Theorems on the table *)

Definition row_ids (rows : list PeerRow) : list string := map pr_id rows.

Lemma AddPeer_nodup rows info boot : NoDup (row_ids rows) -> NoDup (row_ids (AddPeer rows info boot)).
Proof. by apply upsert_nodup. Qed.

Lemma RecordConnection_ids rows id ok l now : row_ids (RecordConnection rows id ok l now) = row_ids rows.
Proof. apply map_key. intros r. by destruct (has_key _ _ r), ok. Qed.

Lemma PruneOldPeers_nodup rows age now : NoDup (row_ids rows) -> NoDup (row_ids (PruneOldPeers rows age now).1).
Proof. apply NoDup_map_filter. Qed.

(** After a connection the store knows the peer with the addresses it had, one
    more success and the second of the connection, marks it as a bootstrap peer if
    it is or ever was one, and leaves every other peer as it was. *)
Theorem onPeerConnected_spec rows boot addrs id now id' :
  Forall listable addrs ->
  (forall a b, ID_String a = ID_String b -> a = b) ->
  GetPeer (onPeerConnected rows boot addrs id now) id' =
  if decide (id' = id) then
    let old := match GetPeer rows id with Some (_, s) => s | None => mkPeerScore 0 0 fzero zero_time false end in
    Some (mkAddrInfo id addrs,
          mkPeerScore (ConnectionSuccesses old + 1) (ConnectionFailures old)
            (fdiv (fadd (fmul (AverageLatencyMs old) (float_of_int (ConnectionSuccesses old))) fzero)
                  (float_of_int (ConnectionSuccesses old + 1)))
            (seconds_of now * Second) (IsBootstrapPeer boot id || IsBootstrap old))
  else GetPeer rows id'.
Proof.
  intros Ha Hinj. unfold onPeerConnected, GetPeer, RecordConnection, AddPeer.
  rewrite row_of_update, !row_of_upsert by (intros; done). cbn [AddrInfo_ID AddrInfo_Addrs].
  rewrite (bool_decide_true (ID_String id = ID_String id)) by done.
  destruct (decide (id' = id)) as [->|Hne].
  - rewrite bool_decide_true by done. cbn [fmap option_fmap option_map].
    unfold score_of. destruct (row_of pr_id (ID_String id) rows) as [r|]; cbn;
      rewrite unmarshal_marshal by done; by destruct (IsBootstrapPeer boot id).
  - by rewrite !bool_decide_false by naive_solver.
Qed.

(** Seconds of the years 1 to 9999, in the zone of the machine too. *)
Definition in_years (s : Z) : Prop := 0 <= s < 315537897600.

(** Pruning deletes exactly the rows that are no bootstrap peers and were never
    seen, or last seen no later than the second of the cutoff, moved by the
    machine's offset from UTC; it reports how many those are. *)
Theorem prune_exact rows maxAge now :
  let cutoff := seconds_of (now - maxAge) + zone_offset in
  in_years cutoff -> (forall r s, r ∈ rows -> pr_last_seen r = Some s -> in_years s) ->
  let '(kept, n) := PruneOldPeers rows maxAge now in
  (forall r, r ∈ kept <-> r ∈ rows /\
     (pr_is_bootstrap r <> 0 \/ exists s, pr_last_seen r = Some s /\ cutoff < s)) /\
  n = Count rows - Count kept.
Proof.
  intros cutoff Hcut Hseen. unfold PruneOldPeers. split.
  - intros r. rewrite list_elem_of_In, filter_In, <- list_elem_of_In. split.
    + intros [Hr Hp]. split; [done|]. apply negb_true_iff in Hp. unfold prunable in Hp.
      apply andb_false_iff in Hp as [Hp|Hp]; [left; lia|right].
      destruct (pr_last_seen r) as [s|] eqn:Hs; [|done]. exists s. split; [done|].
      unfold bind_time in Hp. rewrite stamp_before in Hp; [|by eapply Hseen|done|apply time_suffix_ne].
      unfold cutoff. unfold Add in Hp. replace (now - maxAge) with (now + - maxAge) by lia. lia.
    + intros [Hr Hp]. split; [done|]. apply negb_true_iff, andb_false_iff.
      destruct Hp as [Hp|(s & Hs & Hlt)]; [left; lia|right]. rewrite Hs. unfold bind_time.
      rewrite stamp_before; [|by eapply Hseen|done|apply time_suffix_ne].
      unfold cutoff, Add in *. replace (now + - maxAge) with (now - maxAge) by lia. lia.
  - unfold Count. induction rows as [|r rows IH]; [done|]. cbn [List.filter].
    assert (forall r' s, r' ∈ rows -> pr_last_seen r' = Some s -> in_years s) as Hrest
      by (intros r' s' Hr'; apply Hseen; apply elem_of_cons; auto).
    specialize (IH Hrest). destruct (prunable _ r); cbn [negb length]; lia.
Qed.

(** What [GetBestPeers] returns are known peers, and nobody who is left out is
    strictly better than one who is returned: bootstrap peers first, then by the
    share of successes, then by the last success. *)
Theorem GetBestPeers_best `{!OrderBy better} rows limit :
  GetBestPeers rows limit = omap read_peer (best_rows rows limit) /\
  (NoDup (row_ids rows) -> NoDup (row_ids (best_rows rows limit))) /\
  (forall r, r ∈ best_rows rows limit -> r ∈ rows) /\
  (0 <= limit -> length (best_rows rows limit) = min (Z.to_nat limit) (length rows)) /\
  forall a b, a ∈ best_rows rows limit -> b ∈ rows -> (b ∉ best_rows rows limit) -> better a b.
Proof.
  split; [done|]. unfold best_rows. split; [|split; [|split]].
  - intros Hnd. unfold row_ids in *.
    assert (map pr_id (sql_limit limit (order_by better rows)) = sql_limit limit (map pr_id (order_by better rows))) as ->
      by (unfold sql_limit; destruct (limit <? 0); [done|by rewrite firstn_map]).
    apply sql_limit_NoDup. by rewrite order_by_perm.
  - intros r Hr. apply elem_of_order_by. by eapply sql_limit_subset.
  - intros Hl. unfold sql_limit. rewrite (proj2 (Z.ltb_ge _ _)) by lia.
    by rewrite length_take, length_order_by.
  - intros a b. apply sql_limit_best.
Qed.

(** *** Disconnecting *)

Definition numbered (l : list scoredPeer) : Prop := Forall (fun p => is_nan (sp_score p) = false) l.

(** [a] may be pruned before [b]. *)
Definition worse_eq (a b : scoredPeer) : Prop := flt (sp_score b) (sp_score a) = false.

Lemma numbered_perm l l' : l ≡ₚ l' -> numbered l -> numbered l'.
Proof. unfold numbered. by intros ->. Qed.

Lemma exchange_spec x rest m rest' :
  exchange x rest = (m, rest') -> numbered (x :: rest) ->
  m :: rest' ≡ₚ x :: rest /\ Forall (worse_eq m) rest' /\ worse_eq m x.
Proof.
  revert x m rest'. induction rest as [|y r IH]; intros x m rest' He Hn; cbn in He.
  - injection He as <- <-. split; [done|]. split; [constructor|]. apply flt_irrefl.
  - apply Forall_cons in Hn as [Hx Hn]. apply Forall_cons in Hn as [Hy Hn].
    destruct (fgt (sp_score x) (sp_score y)) eqn:Hgt.
    + destruct (exchange y r) as [m0 r'] eqn:Hyr. injection He as <- <-.
      destruct (IH y m0 r' Hyr) as (Hp & Hall & Hm); [by constructor|].
      assert (worse_eq m0 x) as Hmx.
      { unfold worse_eq in *. destruct (flt (sp_score x) (sp_score m0)) eqn:Hc; [|done].
        by rewrite (flt_trans _ _ _ Hgt Hc) in Hm. }
      split; [|by split; [constructor|]]. by rewrite (perm_swap x m0 r'), Hp.
    + destruct (exchange x r) as [m0 r'] eqn:Hxr. injection He as <- <-.
      destruct (IH x m0 r' Hxr) as (Hp & Hall & Hm); [by constructor|].
      assert (numbered (m0 :: r')) as Hn' by (apply (numbered_perm (x :: r)); [done|by constructor]).
      apply Forall_cons in Hn' as [Hm0 _].
      split; [|split; [|done]].
      * rewrite (perm_swap y m0 r'), Hp. apply perm_swap.
      * constructor; [|done]. unfold worse_eq in *. by eapply fge_trans with (sp_score x).
Qed.

Lemma exchange_sort_spec n l :
  (length l <= n)%nat -> numbered l -> exchange_sort n l ≡ₚ l /\ StronglySorted worse_eq (exchange_sort n l).
Proof.
  revert l. induction n as [|n IH]; intros [|x rest] Hlen Hn; cbn in *; try lia; try by split; [|constructor].
  destruct (exchange x rest) as [m rest'] eqn:He.
  destruct (exchange_spec _ _ _ _ He Hn) as (Hp & Hall & _).
  assert (numbered (m :: rest')) as Hn' by by apply (numbered_perm (x :: rest)).
  apply Forall_cons in Hn' as [_ Hn']. apply Permutation_length in Hp as Hl. cbn in Hl.
  destruct (IH rest' ltac:(lia) Hn') as [Hp' Hs]. split; [by rewrite Hp'|].
  constructor; [done|]. by rewrite Hp'.
Qed.

(** At the high-water mark the peers to disconnect are connected and no
    bootstrap peers, as many as asked for if there are so many, and no peer that is
    kept has a lower score than one that is disconnected. *)
Theorem GetPeersForPruning_worst rows boot now connected count :
  numbered (score_connected rows boot now connected) -> 0 <= count ->
  exists pruned, GetPeersForPruning rows boot now connected count = Some pruned /\
    length pruned = min (Z.to_nat count) (length (score_connected rows boot now connected)) /\
    (forall id, id ∈ pruned -> id ∈ connected /\ IsBootstrapPeer boot id = false) /\
    (forall id id', id ∈ pruned -> id' ∈ connected -> IsBootstrapPeer boot id' = false -> (id' ∉ pruned) ->
       flt (sp_score (score_peer rows (now id') id')) (sp_score (score_peer rows (now id) id)) = false).
Proof.
  intros Hn Hc. unfold GetPeersForPruning. destruct connected as [|c0 cs] eqn:Hcon.
  { exists []. cbn. rewrite Nat.min_0_r. split; [done|]. split; [done|].
    split; intros id; [by intros ?%elem_of_nil|]. by intros ? ?%elem_of_nil. }
  rewrite <- Hcon in *. rewrite (proj2 (Z.ltb_ge _ _)) by lia. clear Hcon c0 cs.
  set (scored := score_connected rows boot now connected) in *.
  destruct (exchange_sort_spec (length scored) scored ltac:(lia) Hn) as [Hp Hs].
  set (sorted := exchange_sort (length scored) scored) in *.
  assert (forall p, p ∈ sorted -> p = score_peer rows (now (sp_id p)) (sp_id p) /\ sp_id p ∈ connected /\
            IsBootstrapPeer boot (sp_id p) = false) as Hfrom.
  { intros p. rewrite Hp. intros Hin. apply list_elem_of_fmap in Hin as (id & -> & Hin).
    assert (sp_id (score_peer rows (now id) id) = id) as ->
      by (unfold score_peer; by destruct (GetPeer rows id) as [[? ?]|]).
    apply list_elem_of_In, filter_In in Hin as [Hin Hb]. split; [done|].
    by apply list_elem_of_In in Hin; apply negb_true_iff in Hb. }
  exists (map sp_id (take (Z.to_nat count) sorted)). split; [done|]. split; [|split].
  - by rewrite length_map, length_take, (Permutation_length Hp).
  - intros id (p & -> & Hin)%list_elem_of_fmap. apply (Hfrom p). by eapply subseteq_take.
  - intros id id' (p & -> & Hin)%list_elem_of_fmap Hcon' Hb' Hout.
    assert (score_peer rows (now id') id' ∈ sorted) as Hin'.
    { rewrite Hp. apply list_elem_of_fmap. exists id'. split; [done|]. apply list_elem_of_In, filter_In.
      rewrite Hb'. by split; [apply list_elem_of_In|]. }
    assert (p ∈ sorted) as Hps by by eapply subseteq_take.
    destruct (Hfrom p Hps) as (<- & _).
    refine (StronglySorted_take_drop sorted (Z.to_nat count) p _ Hs Hin _).
    rewrite <- (take_drop (Z.to_nat count) sorted) in Hin'. apply elem_of_app in Hin' as [Hin'|?]; [|done].
    destruct Hout. apply list_elem_of_fmap. exists (score_peer rows (now id') id'). split; [|done].
    unfold score_peer. by destruct (GetPeer rows id') as [[? ?]|].
Qed.

End store.

(** ** The order of the peers is one *)

Lemma success_ratio_number r : is_nan (success_ratio r) = false.
Proof. unfold success_ratio, sql_real. repeat case_match; done. Qed.

Lemma bytes_ge_trans a b c : bytes_ltb b a = false -> bytes_ltb c b = false -> bytes_ltb c a = false.
Proof.
  intros Hab Hbc. destruct (bytes_ltb c a) eqn:Hca; [|done].
  destruct (bytes_ltb_total _ _ Hbc) as [Hlt|Heq]; [|congruence].
  by rewrite (bytes_ltb_trans _ _ _ Hlt Hca) in Hab.
Qed.

Lemma seen_after_trans a b c : seen_after b a = false -> seen_after c b = false -> seen_after c a = false.
Proof.
  destruct a as [x|], b as [y|], c as [z|]; unfold seen_after; try done.
  intros H1 H2. exact (bytes_ge_trans (stamp z) (stamp y) (stamp x) H2 H1).
Qed.

Lemma seen_after_total a b : seen_after b a = false \/ seen_after a b = false.
Proof.
  destruct a as [x|], b as [y|]; unfold seen_after; auto.
  destruct (bytes_ltb (stamp x) (stamp y)) eqn:Hlt; [right|by left].
  destruct (bytes_ltb (stamp y) (stamp x)) eqn:Hgt; [|done].
  pose proof (bytes_ltb_trans _ _ _ Hlt Hgt) as Hc. by rewrite bytes_ltb_irrefl in Hc.
Qed.

#[export] Instance better_dec a b : Decision (better a b).
Proof. unfold better. apply _. Defined.

Lemma better_total : Total better.
Proof.
  intros a b. unfold better.
  destruct (Z.lt_trichotomy (pr_is_bootstrap a) (pr_is_bootstrap b)) as [|[->|]]; [by right; left| |by left; left].
  destruct (flt (success_ratio a) (success_ratio b)) eqn:H1; [by right; right; auto|].
  destruct (flt (success_ratio b) (success_ratio a)) eqn:H2; [by left; right; auto|].
  destruct (seen_after_total (pr_last_seen a) (pr_last_seen b)); [left|right]; auto 8.
Qed.

Lemma better_trans : Transitive better.
Proof.
  intros a b c. unfold better. rewrite <- !not_true_iff_false, !flt_rank by apply success_ratio_number.
  rewrite !not_true_iff_false. intros [H1|(E1 & [H1|(H1 & H1' & S1)])] [H2|(E2 & [H2|(H2 & H2' & S2)])];
    try (left; lia); right; (split; [lia|]); try (left; unfold rank_lt in *; lia).
  right. split; [unfold rank_lt in *; lia|]. split; [unfold rank_lt in *; lia|].
  by eapply seen_after_trans.
Qed.

#[export] Instance better_order : OrderBy better := @sort_order _ better _ better_trans better_total.

(** ** Examples *)

#[export] Instance utc_binding : TimeBinding.
Proof. by refine {| zone_offset := 0; time_suffix _ := bytes_of " +0000 UTC" |}. Defined.

Definition peer_a : string := "QmA".
Definition peer_b : string := "QmB".
Definition boot_a : Bootstrapper := mkBootstrapper three_of_two [mkAddrInfo peer_a ["ip4/10.0.0.1"%string]] false ∅ [].
Definition noon : Time := 63838286645 * Second.

(** Two peers connect, one of them a bootstrap peer and the other 40 days earlier. *)
Definition two_rows : list PeerRow :=
  onPeerConnected (onPeerConnected [] boot_a ["ip4/10.0.0.2/tcp/1"%string] peer_b (noon - 40 * 24 * Hour))
    boot_a ["ip4/10.0.0.1"; "dns4/a"]%string peer_a noon.

Example two_rows_addrs : map (fun r => str_of (pr_addrs r)) two_rows = ["/ip4/10.0.0.2/tcp/1"; "/ip4/10.0.0.1,/dns4/a"]%string.
Proof. by vm_compute. Qed.

Example best_first : map AddrInfo_ID (GetBestPeers two_rows 1) = [peer_a].
Proof. by vm_compute. Qed.

Lemma split_join_strings_witness :
  splitString (joinStrings (map bytes_of ["/ip4/1"; ""; "/dns"]%string) [comma]) [comma] =
  Some (map bytes_of ["/ip4/1"; ""; "/dns"]%string).
Proof.
  apply split_join_strings; [done|]. apply (bool_decide_unpack _). by vm_compute.
Defined.

Lemma onPeerConnected_spec_witness :
  GetPeer (onPeerConnected two_rows boot_a ["ip4/9"%string] peer_b noon) peer_a = GetPeer two_rows peer_a.
Proof.
  rewrite (onPeerConnected_spec two_rows boot_a ["ip4/9"%string] peer_b noon peer_a); [done| |done].
  apply (bool_decide_unpack _). by vm_compute.
Defined.

Lemma prune_exact_witness :
  (forall r, r ∈ (PruneOldPeers two_rows (30 * 24 * Hour) noon).1 <-> r ∈ two_rows /\
     (pr_is_bootstrap r <> 0 \/ exists s, pr_last_seen r = Some s /\ seconds_of (noon - 30 * 24 * Hour) + 0 < s)) /\
  (PruneOldPeers two_rows (30 * 24 * Hour) noon).2 = 1.
Proof.
  split.
  - refine (proj1 (prune_exact two_rows (30 * 24 * Hour) noon _ _)).
    + by vm_compute.
    + intros r s Hr. assert (forallb (fun r => match pr_last_seen r with
        | Some s => (0 <=? s) && (s <? 315537897600) | None => true end) two_rows = true) as Hall by by vm_compute.
      rewrite forallb_forall in Hall. apply list_elem_of_In, Hall in Hr. intros Hs. rewrite Hs in Hr.
      bool_props. by split.
  - by vm_compute.
Defined.

(** The peer that is no bootstrap peer goes first. *)
Lemma GetPeersForPruning_worst_witness :
  exists pruned, GetPeersForPruning two_rows boot_a (fun _ => noon) [peer_a; peer_b] 1 = Some pruned /\
    length pruned = 1%nat.
Proof.
  destruct (GetPeersForPruning_worst two_rows boot_a (fun _ => noon) [peer_a; peer_b] 1) as (pruned & Hp & Hl & _).
  - apply (bool_decide_unpack _). by vm_compute.
  - done.
  - exists pruned. by split.
Defined.
