(* ===== verification/PeerAccess.v ===== *)
(** * Who may talk to the node ([internal/p2p/grpc_auth.go], [grpc_server.go],
      [internal/p2p/manager.go])

    A connection of a peer to the gRPC server passes [PeerAuthorizer.Authorize] when
    it is accepted: the peer is one of the configured bootstrap peers or in the table
    of allowed peers ([internal/storage/sqlite/allowed_peers.go]), and its token
    bucket is not empty.  The calls on an accepted connection are not authorized
    again; the interceptor keeps them from two services only.
    The node manager keeps a list of banned peers in memory and refuses to dial
    them; a table of bans ([banned_peers.go]) is kept beside it.  The tables hold
    times as text of whole seconds and compare these. *)
From stdpp Require Import base gmap strings list sorting.
From Stdlib Require Import ZArith Lia Ascii SpecFloat.
From S2P Require Import Prelude GoStrings GoTime GoFloat Sql Bootstrap.
Local Open Scope Z_scope.
Local Open Scope bool_scope.

(** ** Token buckets *)

Record RateLimitConfig := mkRateLimitConfig {
  RL_Enabled : bool;
  RL_RequestsPerSecond : float64;
  RL_BurstSize : Z;
  RL_CleanupInterval : Duration;
}.

Definition DefaultRateLimitConfig : RateLimitConfig :=
  mkRateLimitConfig true (float_of_int 100) 200 (5 * Minute).

Record rateLimitEntry := mkRateLimitEntry { rl_tokens : float64; rl_lastUpdate : Time }.

(** [entries] is a map from peers to entries; each call on it is one step. *)
Record RateLimiter := mkRateLimiter { rl_cfg : RateLimitConfig; rl_entries : gmap PeerID rateLimitEntry }.

Definition NewRateLimiter (cfg : RateLimitConfig) : RateLimiter := mkRateLimiter cfg ∅.

Definition getOrCreateEntry (rl : RateLimiter) (p : PeerID) (now : Time) : rateLimitEntry :=
  default (mkRateLimitEntry (float_of_int (RL_BurstSize (rl_cfg rl))) now) (rl_entries rl !! p).

(** The tokens after the refill at [now]. *)
Definition refill (cfg : RateLimitConfig) (e : rateLimitEntry) (now : Time) : float64 :=
  let elapsed := Seconds (Sub now (rl_lastUpdate e)) in
  let tokens := fadd (rl_tokens e) (fmul elapsed (RL_RequestsPerSecond cfg)) in
  let burst := float_of_int (RL_BurstSize cfg) in
  if fgt tokens burst then burst else tokens.

Definition put_entry (rl : RateLimiter) (p : PeerID) (e : rateLimitEntry) : RateLimiter :=
  mkRateLimiter (rl_cfg rl) (<[p := e]> (rl_entries rl)).

(** [created] is the clock when a missing entry is made, [now] when it is used. *)
Definition Allow (rl : RateLimiter) (p : PeerID) (created now : Time) : RateLimiter * bool :=
  if negb (RL_Enabled (rl_cfg rl)) then (rl, true) else
  let e := getOrCreateEntry rl p created in
  let tokens := refill (rl_cfg rl) e now in
  if fge tokens (float_of_int 1)
  then (put_entry rl p (mkRateLimitEntry (fsub tokens (float_of_int 1)) now), true)
  else (put_entry rl p (mkRateLimitEntry tokens now), false).

Definition cleanup (rl : RateLimiter) (now : Time) : RateLimiter :=
  let threshold := Add now (i64 (- RL_CleanupInterval (rl_cfg rl) * 2)) in
  mkRateLimiter (rl_cfg rl)
    (filter (fun kv => Before (rl_lastUpdate kv.2) threshold = false) (rl_entries rl)).

(** ** The table of allowed peers *)

Record AllowedPeer := mkAllowedPeer {
  AP_PeerID : string;
  AP_Name : string;
  AP_AddedAt : Time;
  AP_AddedBy : string;
  AP_ExpiresAt : option Time;
  AP_Metadata : option string;
}.

(** [t.UTC().Format(time.RFC3339)] *)
Definition RFC3339 (t : Time) : list ascii := second_text (seconds_of t) ++ ["Z"%char].

(** What is left of a time that was written and read again. *)
Definition to_second (t : Time) : Time := seconds_of t * Second.

(** A row as it is read back; [now] is the clock of a call with no time. *)
Definition allowed_row (p : AllowedPeer) (now : Time) : AllowedPeer :=
  mkAllowedPeer (AP_PeerID p) (AP_Name p)
    (to_second (if IsZero (AP_AddedAt p) then now else AP_AddedAt p)) (AP_AddedBy p)
    (to_second <$> AP_ExpiresAt p) (AP_Metadata p).

Definition Allowed_Add (rows : list AllowedPeer) (p : AllowedPeer) (now : Time) : list AllowedPeer :=
  upsert AP_PeerID (AP_PeerID p) (fun _ => allowed_row p now) (allowed_row p now) rows.

Definition Allowed_Remove (rows : list AllowedPeer) (id : string) : list AllowedPeer :=
  delete_row AP_PeerID id rows.

Definition Allowed_Get (rows : list AllowedPeer) (id : string) : option AllowedPeer := row_of AP_PeerID id rows.

(** [expires_at IS NULL OR expires_at > now], on texts. *)
Definition unexpired (now : Time) (expires : option Time) : bool :=
  match expires with None => true | Some e => bytes_ltb (RFC3339 now) (RFC3339 e) end.

Definition Allowed_IsAllowed (rows : list AllowedPeer) (id : string) (now : Time) : bool :=
  0 <? Z.of_nat (length (List.filter (fun r => has_key AP_PeerID id r && unexpired now (AP_ExpiresAt r)) rows)).

Definition Allowed_Cleanup (rows : list AllowedPeer) (now : Time) : list AllowedPeer :=
  List.filter (fun r => negb (match AP_ExpiresAt r with
                              | Some e => bytes_ltb (RFC3339 e) (RFC3339 now) | None => false end)) rows.

Definition Allowed_Count (rows : list AllowedPeer) (now : Time) : Z :=
  Z.of_nat (length (List.filter (fun r => unexpired now (AP_ExpiresAt r)) rows)).

Definition added_after (a b : AllowedPeer) : Prop := bytes_ltb (RFC3339 (AP_AddedAt a)) (RFC3339 (AP_AddedAt b)) = false.
Definition Allowed_List `{!OrderBy added_after} (rows : list AllowedPeer) : list AllowedPeer := order_by added_after rows.

(** ** The authorizer *)

Inductive authError := ErrUnauthorizedPeer | ErrRateLimited.

Record PeerAuthorizer := mkPeerAuthorizer {
  pa_rows : list AllowedPeer;
  pa_limiter : RateLimiter;
  pa_bootstrap : list string;
}.

Definition NewPeerAuthorizer (rows : list AllowedPeer) (cfg : RateLimitConfig) (bootstrap : list string) : PeerAuthorizer :=
  mkPeerAuthorizer rows (NewRateLimiter cfg) bootstrap.

Section authorizer.
Context `{PeerLib}.

(** [fails] is whether the query of the table fails; [now] is the clock of the
    query, [created] and [used] those of the limiter. *)
Definition Authorize (pa : PeerAuthorizer) (p : PeerID) (fails : bool) (now created used : Time)
    : PeerAuthorizer * option authError :=
  let id := ID_String p in
  let admitted := mem id (pa_bootstrap pa) || (negb fails && Allowed_IsAllowed (pa_rows pa) id now) in
  if negb admitted then (pa, Some ErrUnauthorizedPeer) else
  let '(rl, ok) := Allow (pa_limiter pa) p created used in
  (mkPeerAuthorizer (pa_rows pa) rl (pa_bootstrap pa), if ok then None else Some ErrRateLimited).

Definition AddAllowedPeer (pa : PeerAuthorizer) (p : AllowedPeer) (now : Time) : PeerAuthorizer :=
  mkPeerAuthorizer (Allowed_Add (pa_rows pa) p now) (pa_limiter pa) (pa_bootstrap pa).
Definition RemoveAllowedPeer (pa : PeerAuthorizer) (id : string) : PeerAuthorizer :=
  mkPeerAuthorizer (Allowed_Remove (pa_rows pa) id) (pa_limiter pa) (pa_bootstrap pa).
Definition UpdateBootstrapPeers (pa : PeerAuthorizer) (peers : list string) : PeerAuthorizer :=
  mkPeerAuthorizer (pa_rows pa) (pa_limiter pa) peers.
Definition PeerAuthorizer_IsAllowed (pa : PeerAuthorizer) (id : string) (now : Time) : bool :=
  mem id (pa_bootstrap pa) || Allowed_IsAllowed (pa_rows pa) id now.

(** One call of any kind; a clean-up of the limiter is one too. *)
Inductive auth_op :=
| OpAuthorize (p : PeerID) (fails : bool) (now created used : Time)
| OpAdd (p : AllowedPeer) (now : Time)
| OpRemove (id : string)
| OpBootstrap (peers : list string)
| OpExpire (now : Time)
| OpClean (now : Time).

Definition auth_step (pa : PeerAuthorizer) (o : auth_op) : PeerAuthorizer :=
  match o with
  | OpAuthorize p f n c u => (Authorize pa p f n c u).1
  | OpAdd p n => AddAllowedPeer pa p n
  | OpRemove id => RemoveAllowedPeer pa id
  | OpBootstrap l => UpdateBootstrapPeers pa l
  | OpExpire n => mkPeerAuthorizer (Allowed_Cleanup (pa_rows pa) n) (pa_limiter pa) (pa_bootstrap pa)
  | OpClean n => mkPeerAuthorizer (pa_rows pa) (cleanup (pa_limiter pa) n) (pa_bootstrap pa)
  end.

(** ** The gRPC server *)

Definition isRestrictedService (method : string) : bool :=
  HasPrefix method "/bib.v1.services.AdminService/" ||
  HasPrefix method "/bib.v1.services.BreakGlassService/".

(** A server with an authorizer; the connections that were accepted and are open, by
    number. *)
Record PeerServer := mkPeerServer {
  ps_authorizer : PeerAuthorizer;
  ps_next : nat;
  ps_conns : gmap nat PeerID;
}.

(** One round of [authorizingListener.Accept]: the number of the connection, or
    [None] when it is closed again. *)
Definition Accept (s : PeerServer) (p : PeerID) (fails : bool) (now created used : Time)
    : PeerServer * option nat :=
  match Authorize (ps_authorizer s) p fails now created used with
  | (pa, Some _) => (mkPeerServer pa (ps_next s) (ps_conns s), None)
  | (pa, None) => (mkPeerServer pa (S (ps_next s)) (<[ps_next s := p]> (ps_conns s)), Some (ps_next s))
  end.

(** What becomes of a call: the handler runs, with the peer its context names, or it
    is not reached and there is neither an answer nor an error. *)
Inductive CallOutcome := Handled (caller : option PeerID) | SilentlyRefused.

Definition newAuthUnaryInterceptor (p : PeerID) (method : string) : CallOutcome :=
  let ctx := if p =?= "" then None else Some p in
  if isRestrictedService method then SilentlyRefused else Handled ctx.
Definition newAuthStreamInterceptor (method : string) : CallOutcome :=
  if isRestrictedService method then SilentlyRefused else Handled None.

(** A call of [method] on connection [c]; neither interceptor uses the authorizer.
    [None] if the connection is not open. *)
Definition authInterceptor (s : PeerServer) (stream : bool) (c : nat) (method : string) : option CallOutcome :=
  p ← ps_conns s !! c;
  Some (if stream then newAuthStreamInterceptor method else newAuthUnaryInterceptor p method).

(** What happens to the server: a connection comes or goes, the authorizer is used
    otherwise. *)
Inductive server_op :=
| SAccept (p : PeerID) (fails : bool) (now created used : Time)
| SClose (c : nat)
| SAuth (o : auth_op).

Definition server_step (s : PeerServer) (o : server_op) : PeerServer :=
  match o with
  | SAccept p f n c u => (Accept s p f n c u).1
  | SClose c => mkPeerServer (ps_authorizer s) (ps_next s) (delete c (ps_conns s))
  | SAuth o => mkPeerServer (auth_step (ps_authorizer s) o) (ps_next s) (ps_conns s)
  end.

Definition server_remove (s : PeerServer) (id : string) : PeerServer :=
  mkPeerServer (RemoveAllowedPeer (ps_authorizer s) id) (ps_next s) (ps_conns s).

(** ** Theorems on the table *)

(** Times that have a text of four-digit years. *)
Definition dated (t : Time) : Prop := 0 <= t < end_of_years.

Lemma RFC3339_lt a b : dated a -> dated b -> bytes_ltb (RFC3339 a) (RFC3339 b) = (seconds_of a <? seconds_of b).
Proof.
  intros Ha Hb. unfold RFC3339, dated, end_of_years, seconds_of in *.
  change Second with 1000000000 in *. destruct (Z.lt_trichotomy (a / 1000000000) (b / 1000000000)) as [Hlt|[->|Hlt]].
  - rewrite bytes_ltb_app; [lia|by rewrite !second_text_length|]. apply second_text_lt; Z.div_mod_to_equations; lia.
  - rewrite bytes_ltb_irrefl. lia.
  - destruct (bytes_ltb _ _) eqn:Hc; [|lia].
    assert (bytes_ltb (second_text (b / 1000000000) ++ ["Z"%char]) (second_text (a / 1000000000) ++ ["Z"%char]) = true) as Hgt
      by (apply bytes_ltb_app; [by rewrite !second_text_length|]; apply second_text_lt; Z.div_mod_to_equations; lia).
    pose proof (bytes_ltb_trans _ _ _ Hc Hgt) as Hx. by rewrite bytes_ltb_irrefl in Hx.
Qed.

Lemma seconds_to_second t : seconds_of (to_second t) = seconds_of t.
Proof. unfold seconds_of, to_second, seconds_of. apply Z.div_mul. done. Qed.

Lemma to_second_dated t : dated t -> dated (to_second t).
Proof.
  unfold dated, to_second, seconds_of, end_of_years, Second, Millisecond. intros Ht.
  Z.div_mod_to_equations; lia.
Qed.

(** Whether some row of the peer has not run out. *)
Lemma Allowed_IsAllowed_true rows id now :
  Allowed_IsAllowed rows id now = true <->
  exists r, r ∈ rows /\ AP_PeerID r = id /\ unexpired now (AP_ExpiresAt r) = true.
Proof.
  unfold Allowed_IsAllowed. rewrite Z.ltb_lt. split.
  - intros Hl. destruct (List.filter _ rows) as [|r l] eqn:Hf; [done|].
    pose proof (in_eq r l) as Hin. rewrite <- Hf in Hin. apply filter_In in Hin as [Hin [Hid Hu]%andb_true_iff]. exists r. apply has_key_true in Hid.
    by split; [apply list_elem_of_In|].
  - intros (r & Hr & Hid & Hu).
    assert (In r (List.filter (fun r => has_key AP_PeerID id r && unexpired now (AP_ExpiresAt r)) rows)) as Hin.
    { apply filter_In. split; [by apply list_elem_of_In|]. by rewrite (proj2 (has_key_true _ _ _)), Hu. }
    destruct (List.filter _ rows); [done|]. cbn. lia.
Qed.

Lemma Allowed_Add_find rows p now id :
  Allowed_Get (Allowed_Add rows p now) id =
  if id =?= AP_PeerID p then Some (allowed_row p now) else Allowed_Get rows id.
Proof.
  unfold Allowed_Get, Allowed_Add. rewrite row_of_upsert by done.
  by destruct (row_of AP_PeerID (AP_PeerID p) rows).
Qed.

(** ** Theorems on the authorizer *)

Definition all_dated (rows : list AllowedPeer) : Prop :=
  forall r e, r ∈ rows -> AP_ExpiresAt r = Some e -> dated e.

(** An entry lets its peer in until the second in which it runs out. *)
Lemma unexpired_spec now e : dated now -> dated e -> unexpired now (Some e) = (seconds_of now <? seconds_of e).
Proof. apply RFC3339_lt. Qed.

(** A call goes through only for a configured bootstrap peer or one the table
    holds with no expiry or one in a later second, when the query did not fail, and
    with a token; a call that is refused as unauthorized changes nothing. *)
Theorem Authorize_sound pa p fails now created used pa' err :
  all_dated (pa_rows pa) -> dated now ->
  Authorize pa p fails now created used = (pa', err) ->
  (err = Some ErrUnauthorizedPeer -> pa' = pa) /\
  (err = None \/ err = Some ErrRateLimited ->
     (mem (ID_String p) (pa_bootstrap pa) = true \/
      (fails = false /\ exists r, r ∈ pa_rows pa /\ AP_PeerID r = ID_String p /\
         forall e, AP_ExpiresAt r = Some e -> seconds_of now < seconds_of e)) /\
     (err = None <-> (Allow (pa_limiter pa) p created used).2 = true)).
Proof.
  intros Hd Hnow. unfold Authorize.
  destruct (mem _ _ || _) eqn:Hadm; cbn [negb]; [|by intros [= <- <-]; split; [|intros [?|?]]].
  destruct (Allow _ _ _ _) as [rl ok] eqn:Hal. intros [= <- <-]. split; [by destruct ok|]. intros _.
  split; [|cbn; by destruct ok]. apply orb_true_iff in Hadm as [?|Hadm]; [by left|right].
  apply andb_true_iff in Hadm as [Hf Ha]. split; [by apply negb_true_iff|].
  apply Allowed_IsAllowed_true in Ha as (r & Hr & Hid & Hu). exists r. split; [done|]. split; [done|].
  intros e He. rewrite He, unexpired_spec in Hu; [lia|done|by eapply Hd].
Qed.

(** *** Locked out *)

Definition names (id : string) (o : auth_op) : Prop :=
  match o with OpAdd p _ => AP_PeerID p = id | OpBootstrap l => id ∈ l | _ => False end.

Record locked_out (id : string) (pa : PeerAuthorizer) : Prop := {
  lo_rows : id ∉ map AP_PeerID (pa_rows pa);
  lo_boot : id ∉ pa_bootstrap pa;
}.

Lemma not_in_filter (f : AllowedPeer -> bool) id rows :
  (id ∉ map AP_PeerID rows) -> id ∉ map AP_PeerID (List.filter f rows).
Proof.
  intros Hn (r & -> & Hin)%list_elem_of_fmap. apply list_elem_of_In, filter_In in Hin as [Hin _].
  apply Hn, list_elem_of_fmap. exists r. by split; [|apply list_elem_of_In].
Qed.

Lemma locked_out_step id pa o : locked_out id pa -> ~ names id o -> locked_out id (auth_step pa o).
Proof.
  intros [Hr Hb] Hn. destruct o as [p f n c u|p n|id'|l|n|n]; cbn.
  - unfold Authorize. destruct (negb _); [done|]. by destruct (Allow _ _ _ _).
  - split; [|done]. cbn. intros (r & -> & Hin)%list_elem_of_fmap.
    apply elem_of_upsert in Hin as [->|[Hin|(r0 & _ & _ & ->)]]; [done| |done].
    apply Hr, list_elem_of_fmap. eauto.
  - split; [|done]. by apply not_in_filter.
  - by split.
  - split; [|done]. by apply not_in_filter.
  - by split.
Qed.

Lemma locked_out_refused id pa p fails now created used :
  locked_out id pa -> ID_String p = id ->
  Authorize pa p fails now created used = (pa, Some ErrUnauthorizedPeer).
Proof.
  intros [Hr Hb] <-. unfold Authorize.
  assert (Allowed_IsAllowed (pa_rows pa) (ID_String p) now = false) as ->.
  { apply not_true_iff_false. intros (r & Hin & Hid & _)%Allowed_IsAllowed_true.
    apply Hr, list_elem_of_fmap. eauto. }
  by rewrite (proj2 (mem_false _ _) Hb), andb_false_r.
Qed.

Definition server_names (id : string) (o : server_op) : Prop :=
  match o with SAuth o => names id o | _ => False end.

(** A locked out peer has no connections but those it had before. *)
Record cut_off (id : string) (conns : gmap nat PeerID) (s : PeerServer) : Prop := {
  co_locked : locked_out id (ps_authorizer s);
  co_conns c p : ps_conns s !! c = Some p -> ID_String p = id -> conns !! c = Some p;
}.

Lemma cut_off_step id conns s o :
  cut_off id conns s -> ~ server_names id o -> cut_off id conns (server_step s o).
Proof.
  intros [Hl Hc] Hn. destruct o as [p f n c u|c|o]; cbn.
  - unfold Accept. destruct (decide (ID_String p = id)) as [Hid|Hid].
    + rewrite (locked_out_refused id) by done. by split.
    + pose proof (locked_out_step id (ps_authorizer s) (OpAuthorize p f n c u) Hl ltac:(intros [])) as Hl'. cbn in Hl'.
      destruct (Authorize _ _ _ _ _ _) as [pa [e|]]; cbn in *; split; cbn; try done.
      intros c' p'. rewrite lookup_insert_Some. intros [[_ <-]|[_ Hp]] Hid'; [done|by apply Hc].
  - split; [done|]. cbn. intros c' p'. rewrite lookup_delete_Some. intros [_ Hp]. by apply Hc.
  - split; [|done]. by apply locked_out_step.
Qed.

Lemma cut_off_run id conns ops : forall s,
  cut_off id conns s -> Forall (fun o => ~ server_names id o) ops -> cut_off id conns (fold_left server_step ops s).
Proof.
  induction ops as [|o ops IH]; intros s Hs Hall; [done|]. apply Forall_cons in Hall as [Ho Hall]. cbn.
  apply IH; [by apply cut_off_step|done].
Qed.

(** An open connection stays until it is closed. *)
Lemma conn_stays c p ops : forall s,
  ps_conns s !! c = Some p -> (c < ps_next s)%nat -> (SClose c ∉ ops) ->
  ps_conns (fold_left server_step ops s) !! c = Some p.
Proof.
  induction ops as [|o ops IH]; intros s Hc Hlt Hn; [done|]. apply not_elem_of_cons in Hn as [Hne Hn]. cbn.
  destruct o as [p' f n c' u|c'|o]; cbn; apply IH; cbn; try done.
  - unfold Accept. destruct (Authorize _ _ _ _ _ _) as [pa [e|]]; cbn; [done|]. rewrite lookup_insert_ne by lia. done.
  - unfold Accept. destruct (Authorize _ _ _ _ _ _) as [pa [e|]]; cbn; lia.
  - rewrite lookup_delete_ne; [done|congruence].
Qed.

(** C30: after a peer that is no bootstrap peer was removed, whatever else happens and
    until it is added again or configured, every connection it opens is refused and
    closed without an effect, and each connection of it that is open was open
    before the removal.  Such a connection is not closed by the removal: as long as
    it is not closed otherwise, every call on it is handled, but for those of the
    two restricted services. *)
Theorem removed_peer_refused s id ops p fails now created used
    (Hb : id ∉ pa_bootstrap (ps_authorizer s)) (Hops : Forall (fun o => ~ server_names id o) ops)
    (Hp : ID_String p = id) (Hnext : forall c, is_Some (ps_conns s !! c) -> (c < ps_next s)%nat) :
  let s' := fold_left server_step ops (server_remove s id) in
  Accept s' p fails now created used = (s', None) /\
  (forall c, ps_conns s' !! c = Some p -> ps_conns s !! c = Some p) /\
  (forall c stream method, ps_conns s !! c = Some p -> (SClose c ∉ ops) ->
     authInterceptor s' stream c method =
     Some (if HasPrefix method "/bib.v1.services.AdminService/" ||
              HasPrefix method "/bib.v1.services.BreakGlassService/"
           then SilentlyRefused else Handled (if stream || (p =?= "") then None else Some p))).
Proof.
  intros s'. assert (cut_off id (ps_conns s) s') as [Hl Hc].
  { apply cut_off_run; [|done]. split; [|done]. split; [|done]. cbn. apply row_of_None. unfold Allowed_Remove.
    by rewrite row_of_delete, bool_decide_true. }
  split_and!.
  - unfold Accept. rewrite (locked_out_refused id) by done. by destruct s'.
  - intros c Hs. by apply Hc.
  - intros c stream method Hs Hn. unfold authInterceptor. subst s'.
    rewrite (conn_stays c p ops (server_remove s id)) by eauto. by destruct stream.
Qed.

(** *** The limiter *)

Lemma Allow_other rl p q created now : p <> q -> rl_entries (Allow rl p created now).1 !! q = rl_entries rl !! q.
Proof.
  intros Hne. unfold Allow. repeat case_match; cbn; try done; by rewrite lookup_insert_ne.
Qed.

Lemma Allow_cfg rl p created now : rl_cfg (Allow rl p created now).1 = rl_cfg rl.
Proof. unfold Allow. repeat case_match; done. Qed.

(** The answers to [n] calls of one peer at one instant. *)
Fixpoint calls_at (n : nat) (rl : RateLimiter) (p : PeerID) (now : Time) : list bool :=
  match n with
  | O => []
  | S k => let '(rl', ok) := Allow rl p now now in ok :: calls_at k rl' p now
  end.

Lemma Sub_self t : Sub t t = 0.
Proof. unfold Sub. rewrite Z.sub_diag. done. Qed.

(** With [k] whole tokens and no time passing, a call takes one if there is one. *)
Lemma Allow_whole rl p now k :
  RL_Enabled (rl_cfg rl) = true -> fmul fzero (RL_RequestsPerSecond (rl_cfg rl)) = fzero ->
  0 <= k <= RL_BurstSize (rl_cfg rl) -> RL_BurstSize (rl_cfg rl) <= 4096 ->
  getOrCreateEntry rl p now = mkRateLimitEntry (float_of_int k) now ->
  Allow rl p now now =
  (put_entry rl p (mkRateLimitEntry (float_of_int (Z.max 0 (k - 1))) now), 1 <=? k).
Proof.
  intros Hen Hr Hk Hb He. unfold Allow. rewrite Hen, He. cbn [negb].
  assert (refill (rl_cfg rl) (mkRateLimitEntry (float_of_int k) now) now = float_of_int k) as ->.
  { unfold refill. cbn. rewrite Sub_self. change (Seconds 0) with fzero. rewrite Hr, fadd_zero_int by lia.
    destruct (fgt (float_of_int k) (float_of_int (RL_BurstSize (rl_cfg rl)))) eqn:Hgt; [|done].
    by rewrite float_of_int_not_less in Hgt by lia. }
  rewrite float_of_int_ge_one by lia. destruct (Z.leb_spec 1 k).
  - by rewrite fsub_one, Z.max_r by lia.
  - by replace k with 0 by lia.
Qed.

Lemma calls_at_whole n rl p now k :
  RL_Enabled (rl_cfg rl) = true -> fmul fzero (RL_RequestsPerSecond (rl_cfg rl)) = fzero ->
  0 <= k <= RL_BurstSize (rl_cfg rl) -> RL_BurstSize (rl_cfg rl) <= 4096 ->
  getOrCreateEntry rl p now = mkRateLimitEntry (float_of_int k) now ->
  calls_at n rl p now = map (fun i => Z.of_nat i <? k) (seq 0 n).
Proof.
  revert rl k. induction n as [|n IH]; intros rl k Hen Hr Hk Hb He; [done|]. cbn [calls_at seq map].
  rewrite (Allow_whole rl p now k) by done.
  rewrite (IH _ (Z.max 0 (k - 1))); cbn [put_entry rl_cfg]; [|done|done|lia|done|].
  - assert (forall a b x y, (a <= b <-> x < y) -> (a <=? b) = (x <? y)) as Hb1
      by (intros a b x y Hi; destruct (Z.leb_spec a b), (Z.ltb_spec x y); lia).
    f_equal; [apply Hb1; lia|]. rewrite <- seq_shift, map_map. apply map_ext. intros i.
    destruct (Z.ltb_spec (Z.of_nat i) (Z.max 0 (k - 1))), (Z.ltb_spec (Z.of_nat (S i)) k); lia.
  - unfold getOrCreateEntry. cbn. by rewrite lookup_insert_eq.
Qed.

(** Of any number of calls a new peer makes at one instant exactly the first
    [BurstSize] go through, for every burst size up to 4096. *)
Theorem burst_at_once cfg p now n :
  RL_Enabled cfg = true -> fmul fzero (RL_RequestsPerSecond cfg) = fzero -> 0 <= RL_BurstSize cfg <= 4096 ->
  calls_at n (NewRateLimiter cfg) p now = map (fun i => Z.of_nat i <? RL_BurstSize cfg) (seq 0 n).
Proof.
  intros Hen Hr Hb. apply (calls_at_whole n (NewRateLimiter cfg) p now (RL_BurstSize cfg));
    cbn [NewRateLimiter rl_cfg]; try done; try lia.
Qed.

End authorizer.

(** ** Bans in the database *)

Record BannedPeer := mkBannedPeer {
  BP_PeerID : string;
  BP_Reason : string;
  BP_BannedBy : string;
  BP_BannedAt : Time;
  BP_ExpiresAt : option Time;
  BP_Metadata : option string;
}.

Definition BannedPeer_IsPermanent (b : BannedPeer) : bool := BP_ExpiresAt b =?= None.

(** [t.Format(time.RFC3339)] in a zone [off] minutes east of UTC. *)
Definition RFC3339_in (off : Z) (t : Time) : list ascii :=
  second_text (seconds_of t + off * 60) ++
  (if off =? 0 then ["Z"%char]
   else (if 0 <? off then "+"%char else "-"%char) :: pad 2 (Z.abs off / 60) ++ ":"%char :: pad 2 (Z.abs off `mod` 60)).

(** A row keeps the text of its expiry, which is not converted to UTC: [zone] is
    that of the value the caller passed. *)
Record BanRow := mkBanRow { ban_peer : BannedPeer; ban_expires : option (list ascii) }.

Definition ban_row (b : BannedPeer) (zone : Z) : BanRow :=
  mkBanRow (mkBannedPeer (BP_PeerID b) (BP_Reason b) (BP_BannedBy b) (to_second (BP_BannedAt b))
              (to_second <$> BP_ExpiresAt b) (BP_Metadata b))
    (RFC3339_in zone <$> BP_ExpiresAt b).

Definition ban_id (r : BanRow) : string := BP_PeerID (ban_peer r).

Definition Banned_Create (rows : list BanRow) (b : BannedPeer) (zone : Z) : list BanRow :=
  upsert ban_id (BP_PeerID b) (fun _ => ban_row b zone) (ban_row b zone) rows.

Definition Banned_Get (rows : list BanRow) (id : string) : option BannedPeer := ban_peer <$> row_of ban_id id rows.
Definition Banned_Delete (rows : list BanRow) (id : string) : list BanRow := delete_row ban_id id rows.

Definition ban_runs (now : Time) (r : BanRow) : bool :=
  match ban_expires r with None => true | Some e => bytes_ltb (RFC3339 now) e end.

Definition Banned_IsBanned (rows : list BanRow) (id : string) (now : Time) : bool :=
  0 <? Z.of_nat (length (List.filter (fun r => has_key ban_id id r && ban_runs now r) rows)).

Definition ban_over (now : Time) (r : BanRow) : bool :=
  match ban_expires r with None => false | Some e => bytes_ltb e (RFC3339 now) end.
Definition Banned_CleanupExpired (rows : list BanRow) (now : Time) : list BanRow * Z :=
  (List.filter (fun r => negb (ban_over now r)) rows, Z.of_nat (length (List.filter (ban_over now) rows))).

(** A ban of one hour, given in the time of a zone two hours east, lasts three, and
    one given two hours west is over before it begins. *)
Example ban_in_zone :
  let now := 63838286645 * Second in
  let ban := mkBannedPeer "QmA" "spam" "admin" now (Some (now + Hour)) None in
  Banned_IsBanned (Banned_Create [] ban 120) "QmA" (now + 2 * Hour) = true /\
  Banned_IsBanned (Banned_Create [] ban (-120)) "QmA" now = false.
Proof. by vm_compute. Qed.

(** ** The node manager *)

Record NodeManagerInfo := mkNodeManagerInfo { NM_PeerID : PeerID; NM_Connected : bool }.

Record NetworkStats := mkNetworkStats { ConnectedPeersCount : Z; KnownPeersCount : Z }.

(** What the host of libp2p answers: connectedness is 1 for a connected peer. *)
Record Network := mkNetwork {
  net_self : PeerID;
  net_peers : list PeerID;
  net_known : list PeerID;
  net_connectedness : PeerID -> Z;
}.

Inductive NodeEventType := NodeEventTypeJoin | NodeEventTypeLeave.
Record NodeEvent := mkNodeEvent { Event_Type : NodeEventType; Event_PeerID : PeerID; Event_Timestamp : Time }.

Record BannedPeerInfo := mkBannedPeerInfo {
  Ban_PeerID : PeerID;
  Ban_Reason : string;
  Ban_BannedAt : Time;
  Ban_ExpiresAt : option Time;
}.

(** A subscriber is a channel with its capacity and the events in it. *)
Record NodeManager := mkNodeManager {
  nm_statsInterval : Duration;
  nm_eventBuffer : Z;
  nm_stats : option (NetworkStats * Time);
  nm_subscribers : gmap nat (Z * list NodeEvent);
  nm_banList : gmap PeerID BannedPeerInfo;
}.

Definition set_subscribers (nm : NodeManager) (s : gmap nat (Z * list NodeEvent)) : NodeManager :=
  mkNodeManager (nm_statsInterval nm) (nm_eventBuffer nm) (nm_stats nm) s (nm_banList nm).
Definition set_bans (nm : NodeManager) (b : gmap PeerID BannedPeerInfo) : NodeManager :=
  mkNodeManager (nm_statsInterval nm) (nm_eventBuffer nm) (nm_stats nm) (nm_subscribers nm) b.

Definition NewNodeManager (interval : Duration) (buffer : Z) : NodeManager :=
  mkNodeManager interval buffer None ∅ ∅.

(** The fields of [GetPeerInfo] that the manager computes. *)
Definition GetPeerInfo (net : Network) (p : PeerID) : NodeManagerInfo :=
  mkNodeManagerInfo p (net_connectedness net p =? 2).

Definition ListConnectedPeers (net : Network) : list NodeManagerInfo :=
  List.filter NM_Connected (map (GetPeerInfo net) (net_peers net)).
Definition ListKnownPeers (net : Network) : list NodeManagerInfo :=
  map (GetPeerInfo net) (List.filter (fun p => p <>? net_self net) (net_known net)).

Definition BanPeer (nm : NodeManager) (p : PeerID) (reason : string) (duration : Duration) (now now' : Time) : NodeManager :=
  set_bans nm (<[p := mkBannedPeerInfo p reason now (if 0 <? duration then Some (Add now' duration) else None)]> (nm_banList nm)).
Definition UnbanPeer (nm : NodeManager) (p : PeerID) : NodeManager := set_bans nm (delete p (nm_banList nm)).

Definition ban_expired (b : BannedPeerInfo) (now : Time) : bool :=
  match Ban_ExpiresAt b with Some e => After now e | None => false end.

Definition IsBanned (nm : NodeManager) (p : PeerID) (now : Time) : bool :=
  match nm_banList nm !! p with None => false | Some b => negb (ban_expired b now) end.

Definition ListBannedPeers (nm : NodeManager) (now : PeerID -> Time) : list BannedPeerInfo :=
  map snd (List.filter (fun kv => negb (ban_expired kv.2 (now kv.1))) (map_to_list (nm_banList nm))).

(** A send with [default]: an event for a full channel is dropped. *)
Definition offer (ev : NodeEvent) (ch : Z * list NodeEvent) : Z * list NodeEvent :=
  if Z.of_nat (length ch.2) <? ch.1 then (ch.1, ch.2 ++ [ev]) else ch.
Definition emitEvent (nm : NodeManager) (ev : NodeEvent) : NodeManager :=
  set_subscribers nm (offer ev <$> nm_subscribers nm).

(** [ch] is a new channel. *)
Definition SubscribeNodeEvents (nm : NodeManager) (ch : nat) (bufferSize : Z) : NodeManager :=
  set_subscribers nm (<[ch := (if bufferSize <=? 0 then nm_eventBuffer nm else bufferSize, [])]> (nm_subscribers nm)).
Definition unsubscribe (nm : NodeManager) (ch : nat) : NodeManager :=
  set_subscribers nm (delete ch (nm_subscribers nm)).
Definition receive (nm : NodeManager) (ch : nat) : NodeManager :=
  match nm_subscribers nm !! ch with
  | Some (c, _ :: evs) => set_subscribers nm (<[ch := (c, evs)]> (nm_subscribers nm))
  | _ => nm
  end.

Inductive ConnectResult := BadAddress | PeerBanned | DialFailed | ConnectedTo (info : NodeManagerInfo).

(** [dialled]: whether [h.Connect] succeeds; [net] is the network after it. *)
Definition Connect `{PeerLib} (nm : NodeManager) (addr : Multiaddr) (now now' : Time) (dialled : bool) (net : Network)
    : NodeManager * ConnectResult :=
  match AddrInfoFromP2pAddr addr with
  | None => (nm, BadAddress)
  | Some (p, _) =>
      if IsBanned nm p now then (nm, PeerBanned)
      else if negb dialled then (nm, DialFailed)
      else (emitEvent nm (mkNodeEvent NodeEventTypeJoin p now'), ConnectedTo (GetPeerInfo net p))
  end.

Definition Disconnect (nm : NodeManager) (p : PeerID) (closed : bool) (now : Time) : NodeManager * bool :=
  if negb closed then (nm, false) else (emitEvent nm (mkNodeEvent NodeEventTypeLeave p now), true).

Definition refreshStats (nm : NodeManager) (net : Network) (now : Time) : NodeManager * NetworkStats :=
  let stats := mkNetworkStats (int32 (Z.of_nat (length (net_peers net)))) (int32 (Z.of_nat (length (net_known net)))) in
  (mkNodeManager (nm_statsInterval nm) (nm_eventBuffer nm) (Some (stats, now)) (nm_subscribers nm) (nm_banList nm), stats).

Definition GetNetworkStats (nm : NodeManager) (net : Network) (now now' : Time) : NodeManager * NetworkStats :=
  match nm_stats nm with
  | Some (stats, updated) => if Sub now updated <? nm_statsInterval nm then (nm, stats) else refreshStats nm net now'
  | None => refreshStats nm net now'
  end.

Inductive nm_op :=
| NMBan (p : PeerID) (reason : string) (d : Duration) (now now' : Time)
| NMUnban (p : PeerID)
| NMEvent (ev : NodeEvent)
| NMSubscribe (ch : nat) (size : Z)
| NMUnsubscribe (ch : nat)
| NMReceive (ch : nat)
| NMStats (net : Network) (now now' : Time).

Definition nm_step (nm : NodeManager) (o : nm_op) : NodeManager :=
  match o with
  | NMBan p r d n n' => BanPeer nm p r d n n'
  | NMUnban p => UnbanPeer nm p
  | NMEvent ev => emitEvent nm ev
  | NMSubscribe ch size => SubscribeNodeEvents nm ch size
  | NMUnsubscribe ch => unsubscribe nm ch
  | NMReceive ch => receive nm ch
  | NMStats net n n' => (GetNetworkStats nm net n n').1
  end.

(** *** Theorems *)

Definition about_ban (p : PeerID) (o : nm_op) : Prop :=
  match o with NMBan q _ _ _ _ | NMUnban q => q = p | _ => False end.

Lemma nm_step_ban p nm o : ~ about_ban p o -> nm_banList (nm_step nm o) !! p = nm_banList nm !! p.
Proof.
  intros Hn. destruct o as [q r d n n'|q|ev|ch sz|ch|ch|net n n']; cbn in *; try done.
  - by rewrite lookup_insert_ne.
  - by rewrite lookup_delete_ne.
  - unfold receive. by repeat case_match.
  - unfold GetNetworkStats. by repeat case_match.
Qed.

Lemma nm_steps_ban p ops nm :
  Forall (fun o => ~ about_ban p o) ops -> nm_banList (fold_left nm_step ops nm) !! p = nm_banList nm !! p.
Proof.
  intros Hops. revert nm. induction Hops as [|o ops Ho _ IH]; intros nm; [done|]. cbn.
  by rewrite IH, nm_step_ban.
Qed.

(** A ban holds, whatever else the manager does, for ever if its duration is not
    positive and otherwise up to the instant at which it ends; while it holds the
    manager does not dial the peer, and afterwards it does. *)
Theorem ban_holds `{PeerLib} nm p reason d banned banned' ops now now' addr l dialled net :
  Forall (fun o => ~ about_ban p o) ops -> AddrInfoFromP2pAddr addr = Some (p, l) ->
  let nm' := fold_left nm_step ops (BanPeer nm p reason d banned banned') in
  (IsBanned nm' p now = true <-> d <= 0 \/ now <= banned' + d) /\
  (Connect nm' addr now now' dialled net = (nm', PeerBanned) <-> IsBanned nm' p now = true).
Proof.
  intros Hops Haddr nm'. split.
  - unfold IsBanned, nm'. rewrite nm_steps_ban by done. cbn. rewrite lookup_insert_eq.
    unfold ban_expired. cbn. unfold After, Add. destruct (Z.ltb_spec 0 d); cbn; [|lia].
    rewrite negb_true_iff, Z.ltb_ge. lia.
  - unfold Connect. rewrite Haddr. destruct (IsBanned nm' p now); [done|]. by destruct dialled.
Qed.

(** The manager lists no peer as connected: it compares the connectedness with 2,
    where libp2p reports 1 for a connected peer. *)
Theorem no_peer_connected net :
  (forall p, p ∈ net_peers net -> net_connectedness net p = 1) -> ListConnectedPeers net = [].
Proof.
  intros Hn. unfold ListConnectedPeers. apply filter_none.
  intros i (p & -> & Hin)%list_elem_of_fmap. cbn. by rewrite Hn.
Qed.

(** No channel holds more events than it has room for. *)
Definition channels_fit (nm : NodeManager) : Prop :=
  0 <= nm_eventBuffer nm /\
  forall ch c evs, nm_subscribers nm !! ch = Some (c, evs) -> Z.of_nat (length evs) <= c.

Lemma channels_fit_step nm o : channels_fit nm -> channels_fit (nm_step nm o).
Proof.
  intros [Hb Hc]. destruct o as [q r d n n'|q|ev|ch sz|ch|ch|net n n']; cbn; try by split.
  - split; [done|]. intros ch c evs. cbn. rewrite lookup_fmap. intros ([c' evs'] & Hl & Ho)%fmap_Some.
    apply Hc in Hl. unfold offer in Ho. cbn in Ho. destruct (Z.ltb_spec (Z.of_nat (length evs')) c'); simplify_eq; [|done].
    rewrite length_app. cbn. lia.
  - split; [done|]. intros ch' c evs. cbn. rewrite lookup_insert_Some. intros [[-> Hx]|[_ Hl]]; [|by eapply Hc].
    injection Hx as <- <-. cbn. destruct (Z.leb_spec sz 0); lia.
  - split; [done|]. intros ch' c evs. cbn. rewrite lookup_delete_Some. intros [_ Hl]. by eapply Hc.
  - unfold receive. destruct (nm_subscribers nm !! ch) as [[c [|ev evs]]|] eqn:Hl; try by split.
    split; [done|]. intros ch' c' evs'. cbn. rewrite lookup_insert_Some. intros [[-> Hx]|[_ Hl']]; [|by eapply Hc].
    apply Hc in Hl. simplify_eq. cbn in Hl. lia.
  - unfold GetNetworkStats. by repeat case_match.
Qed.

(** ** Witnesses *)

Definition guest : AllowedPeer := mkAllowedPeer "QmA" "guest" 0 "admin" (Some (63838286645 * Second + 1)) None.
Definition guarded : PeerAuthorizer :=
  AddAllowedPeer (NewPeerAuthorizer [] DefaultRateLimitConfig ["QmBoot"%string]) guest (63838280000 * Second).

Lemma Authorize_sound_witness :
  forall err, err = (Authorize guarded "QmA" false (63838286644 * Second) 0 0).2 -> err = None /\
  (err = None <-> (Allow (pa_limiter guarded) "QmA" 0 0).2 = true).
Proof.
  intros err ->. split; [by vm_compute|].
  refine (proj2 (proj2 (Authorize_sound guarded "QmA" false (63838286644 * Second) 0 0
    (Authorize guarded "QmA" false (63838286644 * Second) 0 0).1 _ _ _ _) _)).
  - intros r e Hr He. apply list_elem_of_singleton in Hr as ->. injection He as <-. by vm_compute.
  - by vm_compute.
  - by destruct (Authorize _ _ _ _ _ _).
  - left. by vm_compute.
Defined.

(** One connection of the guest is open. *)
Definition guest_server : PeerServer := mkPeerServer guarded 1 {[ 0%nat := "QmA"%string ]}.

Lemma removed_peer_refused_witness :
  let s' := fold_left server_step [SAuth (OpClean 5); SAuth (OpAdd (mkAllowedPeer "QmB" "" 0 "admin" None None) 7)]
              (server_remove guest_server "QmA") in
  (Accept s' "QmA" false 9 9 9).2 = None /\
  authInterceptor s' false 0 "/bib.v1.services.DatasetService/GetDataset" = Some (Handled (Some "QmA"%string)).
Proof.
  cbv zeta.
  destruct (removed_peer_refused guest_server "QmA"
    [SAuth (OpClean 5); SAuth (OpAdd (mkAllowedPeer "QmB" "" 0 "admin" None None) 7)] "QmA" false 9 9 9)
    as (Ha & _ & Hc).
  - apply (bool_decide_unpack _). by vm_compute.
  - repeat constructor; cbn; [intros []|done].
  - done.
  - intros c [p Hp]. cbn in *. apply lookup_singleton_Some in Hp as [<- _]. lia.
  - split; [by rewrite Ha|]. rewrite Hc; [reflexivity|by vm_compute|].
    by intros [?|[?|[]%elem_of_nil]%elem_of_cons]%elem_of_cons.
Defined.

Lemma burst_at_once_witness :
  List.filter id (calls_at 203 (NewRateLimiter DefaultRateLimitConfig) "QmA" 77) = repeat true 200.
Proof.
  rewrite (burst_at_once DefaultRateLimitConfig "QmA" 77 203); [by vm_compute|done|by vm_compute|].
  split; by vm_compute.
Defined.

Definition quiet_net : Network := mkNetwork "QmMe" ["QmA"%string] ["QmA"%string] (fun _ => 1).

Lemma ban_holds_witness :
  let nm := BanPeer (NewNodeManager (30 * Second) 100) "QmA" "spam" Hour 10 11 in
  (Connect nm ("ip4/10.0.0.1/p2p/QmA"%string : @Multiaddr text_peers) 12 13 true quiet_net).2 = PeerBanned.
Proof.
  cbv zeta.
  pose proof (ban_holds (NewNodeManager (30 * Second) 100) "QmA" "spam" Hour 10 11 [] 12 13
    ("ip4/10.0.0.1/p2p/QmA"%string : @Multiaddr text_peers) ["ip4/10.0.0.1"%string] true quiet_net
    (List.Forall_nil _) eq_refl) as [Hb Hc].
  cbn [fold_left] in Hb, Hc. rewrite (proj2 Hc); [done|]. apply Hb. right.
  unfold Hour, Minute, Second, Millisecond. lia.
Defined.
