(* ===== verification/ProtoWire.v ===== *)
(** * The protobuf protocol of the peers ([internal/p2p/proto_convert.go], [protocol_proto.go])

    Version 2 of the peer protocol carries protobuf messages in the same frames as
    version 1.  The structs of the generated code are records here, a pointer is an
    [option] with [None] for [nil]; a timestamp holds every [time.Time] exactly, so
    it is the time itself.  Encoding is the class [ProtoCodec].  A handler that
    dereferences a nil pointer panics, which is the result [None]. *)
From stdpp Require Import base gmap strings list.
From Stdlib Require Import ZArith Lia.
From S2P Require Import Prelude GoStrings Domain Wire.
Local Open Scope Z_scope.
Local Open Scope bool_scope.

Abbreviation Timestamp := (option Time).
(** [timestamppb.New], and the reading of a timestamp that may be missing. *)
Definition timestamp (t : Time) : Timestamp := Some t.
Definition AsTime (t : Timestamp) : Time := default zero_time t.

(** ** Messages *)

Record PbCatalogEntry := mkPbCatalogEntry {
  PbEntry_TopicId : string; PbEntry_TopicName : string; PbEntry_DatasetId : string; PbEntry_DatasetName : string;
  PbEntry_Hash : string; PbEntry_Size : Z; PbEntry_ChunkCount : Z; PbEntry_UpdatedAt : Timestamp
}.

Record PbCatalog := mkPbCatalog {
  PbCatalog_PeerId : string; PbCatalog_Entries : list (option PbCatalogEntry);
  PbCatalog_LastUpdated : Timestamp; PbCatalog_Version : Z
}.

Record PbPeerInfo := mkPbPeerInfo {
  PbPeer_PeerId : string; PbPeer_Addresses : list string; PbPeer_NodeMode : string; PbPeer_Version : string;
  PbPeer_LastSeen : Timestamp
}.

Record PbDatasetInfo := mkPbDatasetInfo {
  PbDataset_Id : string; PbDataset_TopicId : string; PbDataset_Name : string; PbDataset_Size : Z;
  PbDataset_Hash : string; PbDataset_ChunkCount : Z; PbDataset_ChunkSize : Z;
  PbDataset_CreatedAt : Timestamp; PbDataset_UpdatedAt : Timestamp; PbDataset_Metadata : gmap string string
}.

Record PbTopicInfo := mkPbTopicInfo {
  PbTopic_Id : string; PbTopic_Name : string; PbTopic_Description : string; PbTopic_Schema : string;
  PbTopic_DatasetCount : Z; PbTopic_CreatedAt : Timestamp; PbTopic_UpdatedAt : Timestamp
}.

Record PbChunkData := mkPbChunkData {
  PbChunk_DatasetId : string; PbChunk_Index : Z; PbChunk_Hash : string; PbChunk_Size : Z; PbChunk_Data : list Z
}.

Record PbError := mkPbError { PbError_Code : Z; PbError_Message : string; PbError_Details : gmap string string }.

(** ** From the domain *)

Definition CatalogEntryToProto (e : CatalogEntry) : PbCatalogEntry :=
  mkPbCatalogEntry (CatalogEntry_TopicID e) (CatalogEntry_TopicName e) (CatalogEntry_DatasetID e)
    (CatalogEntry_DatasetName e) (CatalogEntry_Hash e) (CatalogEntry_Size e) (int32 (CatalogEntry_ChunkCount e))
    (timestamp (CatalogEntry_UpdatedAt e)).

Definition CatalogToProto (c : option Catalog) : option PbCatalog :=
  match c with
  | None => None
  | Some c => Some (mkPbCatalog (Catalog_PeerID c) (map (fun e => Some (CatalogEntryToProto e)) (Catalog_Entries c))
                      (timestamp (Catalog_LastUpdated c)) (Catalog_Version c))
  end.

Definition PeerInfoToProto (peerID : string) (addrs : list string) (mode version : string) (lastSeen : Time) : PbPeerInfo :=
  mkPbPeerInfo peerID addrs mode version (timestamp lastSeen).

Definition DatasetInfoToProto (d : option Dataset) : option PbDatasetInfo :=
  match d with
  | None => None
  | Some d => Some (mkPbDatasetInfo (Dataset_ID d) (Dataset_TopicID d) (Dataset_Name d) 0 "" 0 0
                      (timestamp (Dataset_CreatedAt d)) (timestamp (Dataset_UpdatedAt d)) (Dataset_Metadata d))
  end.

Definition DatasetWithContentToProto (d : option Dataset) (content : option DatasetContent) : option PbDatasetInfo :=
  match d, content with
  | None, _ => None
  | Some _, None => DatasetInfoToProto d
  | Some d, Some c =>
      Some (mkPbDatasetInfo (Dataset_ID d) (Dataset_TopicID d) (Dataset_Name d) (DatasetContent_Size c)
              (DatasetContent_Hash c) (int32 (DatasetContent_ChunkCount c)) (DatasetContent_ChunkSize c)
              (timestamp (Dataset_CreatedAt d)) (timestamp (Dataset_UpdatedAt d)) (Dataset_Metadata d))
  end.

Definition TopicInfoToProto (t : option Topic) : option PbTopicInfo :=
  match t with
  | None => None
  | Some t => Some (mkPbTopicInfo (Topic_ID t) (Topic_Name t) (Topic_Description t) (Topic_TableSchema t)
                      (int32 (Topic_DatasetCount t)) (timestamp (Topic_CreatedAt t)) (timestamp (Topic_UpdatedAt t)))
  end.

Definition ChunkDataToProto (c : option Chunk) : option PbChunkData :=
  match c with
  | None => None
  | Some c => Some (mkPbChunkData (Chunk_DatasetID c) (int32 (Chunk_Index c)) (Chunk_Hash c) (Chunk_Size c) (Chunk_Data c))
  end.

Definition ErrorToProto (code : Z) (message : string) (details : gmap string string) : PbError :=
  mkPbError (int32 code) message details.

(** ** To the domain *)

Definition ProtoToCatalogEntry (e : option PbCatalogEntry) : option CatalogEntry :=
  match e with
  | None => None
  | Some e => Some (mkCatalogEntry (PbEntry_TopicId e) (PbEntry_TopicName e) (PbEntry_DatasetId e) (PbEntry_DatasetName e)
                      "" "" (PbEntry_Hash e) (PbEntry_Size e) (PbEntry_ChunkCount e) false false []
                      (AsTime (PbEntry_UpdatedAt e)))
  end.

(** [*ProtoToCatalogEntry(e)] for each entry: [None] is the panic on a nil entry. *)
Definition deref_entries (l : list (option PbCatalogEntry)) : option (list CatalogEntry) := mapM ProtoToCatalogEntry l.

(** A catalog that is nil gives nil, which is [Some None]. *)
Definition ProtoToCatalog (c : option PbCatalog) : option (option Catalog) :=
  match c with
  | None => Some None
  | Some c => entries ← deref_entries (PbCatalog_Entries c);
              Some (Some (mkCatalog (PbCatalog_PeerId c) entries (AsTime (PbCatalog_LastUpdated c)) (PbCatalog_Version c)))
  end.

Definition ProtoToPeerInfo (p : option PbPeerInfo) : string * list string * string * string * Time :=
  match p with
  | None => (""%string, [], ""%string, ""%string, zero_time)
  | Some p => (PbPeer_PeerId p, PbPeer_Addresses p, PbPeer_NodeMode p, PbPeer_Version p, AsTime (PbPeer_LastSeen p))
  end.

Definition ProtoToDatasetInfo (d : option PbDatasetInfo) : option Dataset :=
  match d with
  | None => None
  | Some d => Some (mkDataset (PbDataset_Id d) (PbDataset_TopicId d) (PbDataset_Name d) "" "" "" 0 false false [] ""
                      (AsTime (PbDataset_CreatedAt d)) (AsTime (PbDataset_UpdatedAt d)) [] (PbDataset_Metadata d))
  end.

Definition ProtoToDatasetContent (d : option PbDatasetInfo) : option DatasetContent :=
  match d with
  | None => None
  | Some d => Some (mkDatasetContent (PbDataset_Hash d) (PbDataset_Size d) 0 (PbDataset_ChunkCount d)
                      (PbDataset_ChunkSize d) "" "" "")
  end.

Definition ProtoToChunkData (c : option PbChunkData) : option Chunk :=
  match c with
  | None => None
  | Some c => Some (mkChunk "" (PbChunk_DatasetId c) "" (PbChunk_Index c) (PbChunk_Hash c) (PbChunk_Size c) "" ""
                      (PbChunk_Data c))
  end.

Definition ProtoToError (e : option PbError) : Z * string * gmap string string :=
  match e with None => (0, ""%string, ∅) | Some e => (PbError_Code e, PbError_Message e, PbError_Details e) end.

(** ** Requests and responses *)

Definition ProtocolDiscoveryV2 : string := "/bib/discovery/2.0.0".
Definition ProtocolDataV2 : string := "/bib/data/2.0.0".
Definition ProtocolJobsV2 : string := "/bib/jobs/2.0.0".
Definition ProtocolSyncV2 : string := "/bib/sync/2.0.0".
Definition SupportedProtocolsV2 : list string := [ProtocolDiscoveryV2; ProtocolDataV2; ProtocolJobsV2; ProtocolSyncV2].

Inductive DiscoveryCall :=
| CallGetCatalog (SinceVersion : Z)
| CallQueryCatalog (TopicId DatasetId NamePattern : string) (Limit Offset : Z)
| CallGetPeerInfo
| CallAnnounce (NewEntries : list (option PbCatalogEntry)) (RemovedHashes : list string).

Inductive DiscoveryAnswer :=
| AnswerGetCatalog (c : option PbCatalog)
| AnswerQueryCatalog (Entries : list (option PbCatalogEntry)) (TotalCount : Z)
| AnswerGetPeerInfo (p : option PbPeerInfo) (SupportedProtocols : list string)
| AnswerAnnounce (EntriesReceived : Z).

Inductive DataCall :=
| CallGetDatasetInfo (DatasetId Hash : string)
| CallGetChunk (DatasetId DatasetHash : string) (ChunkIndex : Z)
| CallGetChunks (DatasetId DatasetHash : string) (ChunkIndices : list Z).

Inductive DataAnswer :=
| AnswerGetDatasetInfo (d : option PbDatasetInfo)
| AnswerGetChunk (c : option PbChunkData)
| AnswerGetChunks (l : list (option PbChunkData)).

Inductive SyncCall := CallGetSyncStatus | CallStartSync | CallSyncState (CatalogVersion : Z) (Hashes : list string).
Inductive SyncAnswer :=
| AnswerSyncStatus (InProgress : bool) (PendingEntries SyncedEntries : Z)
| AnswerSyncState (MissingHashes WantedHashes : list string) (CatalogVersion : Z).

(** A request with its oneof, and a response; [C] is the type of calls and [A] that
    of answers. *)
Record PbRequest (C : Type) := mkPbRequest { Req_RequestId : string; Req_Request : option C }.
Record PbResponse (A : Type) := mkPbResponse {
  Resp_RequestId : string; Resp_Success : bool; Resp_Error : option PbError; Resp_Response : option A
}.
Arguments mkPbRequest {C} _ _.
Arguments Req_RequestId {C} _.
Arguments Req_Request {C} _.
Arguments mkPbResponse {A} _ _ _ _.
Arguments Resp_RequestId {A} _.
Arguments Resp_Success {A} _.
Arguments Resp_Error {A} _.
Arguments Resp_Response {A} _.

Definition success {A} (reqID : string) (a : A) : PbResponse A := mkPbResponse reqID true None (Some a).
Definition failure {A} (reqID : string) (code : Z) (message : string) : PbResponse A :=
  mkPbResponse reqID false (Some (ErrorToProto code message ∅)) None.

(** ** Handlers *)

(** The callbacks, where they are set; errors by their text. *)
Record ProtoProtocolHandler := mkProtoProtocolHandler {
  pp_hostID : string;
  pp_addrs : list string;
  pp_nodeMode : string;
  pp_version : string;
  pp_onGetCatalog : option (option Catalog);
  pp_onQueryCatalog : option (string -> string -> string -> Z -> Z -> result string (list CatalogEntry * Z));
  pp_onGetDataset : option (DatasetID -> result string (option Dataset));
  pp_onGetChunk : option (DatasetID -> Z -> result string (option Chunk));
  pp_onGetChunks : option (DatasetID -> list Z -> result string (list (option Chunk)));
  pp_onAnnounce : option (list CatalogEntry -> list string -> option string);
  pp_onSyncState : option (Z -> list string -> result string (list string * list string * Z));
}.

Definition served_catalog (ph : ProtoProtocolHandler) (now : Time) : Catalog :=
  match mjoin (pp_onGetCatalog ph) with
  | Some c => c
  | None => mkCatalog (pp_hostID ph) [] now 0
  end.

Definition handleGetCatalogProto (ph : ProtoProtocolHandler) (now : Time) (reqID : string) (sinceVersion : Z)
    : PbResponse DiscoveryAnswer :=
  let catalog := served_catalog ph now in
  if (0 <? sinceVersion) && (Catalog_Version catalog <=? sinceVersion)
  then success reqID (AnswerGetCatalog (Some (mkPbCatalog (Catalog_PeerID catalog) [] None (Catalog_Version catalog))))
  else success reqID (AnswerGetCatalog (CatalogToProto (Some catalog))).

Definition handleQueryCatalogProto (ph : ProtoProtocolHandler) (reqID topic dataset pattern : string) (limit offset : Z)
    : PbResponse DiscoveryAnswer :=
  match pp_onQueryCatalog ph with
  | None => failure reqID 501 "query not supported"
  | Some f =>
      match f topic dataset pattern limit offset with
      | Err e => failure reqID 500 e
      | Ok (entries, total) =>
          success reqID (AnswerQueryCatalog (map (fun e => Some (CatalogEntryToProto e)) entries) (int32 total))
      end
  end.

Definition handleGetPeerInfoProto (ph : ProtoProtocolHandler) (now : Time) (reqID : string) : PbResponse DiscoveryAnswer :=
  success reqID (AnswerGetPeerInfo
    (Some (PeerInfoToProto (pp_hostID ph) (pp_addrs ph) (pp_nodeMode ph) (pp_version ph) now))
    [ProtocolDiscoveryV2; ProtocolDataV2; ProtocolSyncV2; ProtocolJobsV2]).

Definition handleAnnounceProto (ph : ProtoProtocolHandler) (reqID : string) (entries : list (option PbCatalogEntry))
    (removed : list string) : option (PbResponse DiscoveryAnswer) :=
  let received := success reqID (AnswerAnnounce (int32 (Z.of_nat (length entries)))) in
  match pp_onAnnounce ph with
  | None => Some received
  | Some f =>
      es ← deref_entries entries;
      Some (match f es removed with Some e => failure reqID 500 e | None => received end)
  end.

Definition handleDiscoveryRequest (ph : ProtoProtocolHandler) (now : Time) (req : PbRequest DiscoveryCall)
    : option (PbResponse DiscoveryAnswer) :=
  let id := Req_RequestId req in
  match Req_Request req with
  | Some (CallGetCatalog v) => Some (handleGetCatalogProto ph now id v)
  | Some (CallQueryCatalog t d p l o) => Some (handleQueryCatalogProto ph id t d p l o)
  | Some CallGetPeerInfo => Some (handleGetPeerInfoProto ph now id)
  | Some (CallAnnounce es rs) => handleAnnounceProto ph id es rs
  | None => Some (failure id 400 "unknown request type")
  end.

Definition or_else (s t : string) : string := if s =?= "" then t else s.

Definition handleGetDatasetInfoProto (ph : ProtoProtocolHandler) (reqID id hash : string) : PbResponse DataAnswer :=
  match pp_onGetDataset ph with
  | None => failure reqID 501 "dataset info not supported"
  | Some f => match f (or_else id hash) with
              | Err e => failure reqID 404 e
              | Ok d => success reqID (AnswerGetDatasetInfo (DatasetInfoToProto d))
              end
  end.

Definition handleGetChunkProto (ph : ProtoProtocolHandler) (reqID id hash : string) (index : Z) : PbResponse DataAnswer :=
  match pp_onGetChunk ph with
  | None => failure reqID 501 "chunk retrieval not supported"
  | Some f => match f (or_else id hash) index with
              | Err e => failure reqID 404 e
              | Ok c => success reqID (AnswerGetChunk (ChunkDataToProto c))
              end
  end.

(** Chunks got one by one: those that cannot be had are left out. *)
Definition each_chunk (f : DatasetID -> Z -> result string (option Chunk)) (id : DatasetID) (indices : list Z)
    : list (option Chunk) :=
  omap (fun i => match f id i with Ok c => Some c | Err _ => None end) indices.

Definition handleGetChunksProto (ph : ProtoProtocolHandler) (reqID id hash : string) (indices : list Z)
    : PbResponse DataAnswer :=
  let datasetID := or_else id hash in
  let answer chunks := success reqID (AnswerGetChunks (map ChunkDataToProto chunks)) in
  match pp_onGetChunks ph, pp_onGetChunk ph with
  | Some f, _ => match f datasetID indices with Err e => failure reqID 404 e | Ok cs => answer cs end
  | None, Some f => answer (each_chunk f datasetID indices)
  | None, None => failure reqID 501 "chunk retrieval not supported"
  end.

Definition handleDataRequest (ph : ProtoProtocolHandler) (req : PbRequest DataCall) : PbResponse DataAnswer :=
  let id := Req_RequestId req in
  match Req_Request req with
  | Some (CallGetDatasetInfo d h) => handleGetDatasetInfoProto ph id d h
  | Some (CallGetChunk d h i) => handleGetChunkProto ph id d h i
  | Some (CallGetChunks d h l) => handleGetChunksProto ph id d h l
  | None => failure id 400 "unknown request type"
  end.

Definition handleJobRequest {C A} (req : PbRequest C) : PbResponse A :=
  failure (Req_RequestId req) 501 "jobs not implemented".

Definition handleSyncStateProto (ph : ProtoProtocolHandler) (reqID : string) (version : Z) (hashes : list string)
    : PbResponse SyncAnswer :=
  match pp_onSyncState ph with
  | None => success reqID (AnswerSyncState [] [] 0)
  | Some f => match f version hashes with
              | Err e => failure reqID 500 e
              | Ok (missing, wanted, v) => success reqID (AnswerSyncState missing wanted v)
              end
  end.

Definition handleSyncRequest (ph : ProtoProtocolHandler) (req : PbRequest SyncCall) : PbResponse SyncAnswer :=
  let id := Req_RequestId req in
  match Req_Request req with
  | Some CallGetSyncStatus => success id (AnswerSyncStatus false 0 0)
  | Some (CallSyncState v hs) => handleSyncStateProto ph id v hs
  | _ => failure id 400 "unknown request type"
  end.

(** ** Messages on a stream *)

(** Protobuf at a type: a message without nil elements that can be encoded is decoded
    to itself, and what is decoded has no nil elements. *)
Class ProtoCodec (A : Type) (complete : A -> Prop) := {
  pb_Marshal : A -> option (list Z);
  pb_Unmarshal : list Z -> option A;
  pb_round a b : complete a -> pb_Marshal a = Some b -> pb_Unmarshal b = Some a;
  pb_complete a b : pb_Unmarshal b = Some a -> complete a;
}.

Definition call_complete (req : PbRequest DiscoveryCall) : Prop :=
  match Req_Request req with Some (CallAnnounce es _) => Forall (fun e => e <> None) es | _ => True end.
Definition answer_complete (resp : PbResponse DiscoveryAnswer) : Prop :=
  match Resp_Response resp with
  | Some (AnswerGetCatalog (Some c)) => Forall (fun e => e <> None) (PbCatalog_Entries c)
  | Some (AnswerQueryCatalog es _) => Forall (fun e => e <> None) es
  | _ => True
  end.
Definition data_complete (resp : PbResponse DataAnswer) : Prop :=
  match Resp_Response resp with Some (AnswerGetChunks l) => Forall (fun c => c <> None) l | _ => True end.
Definition always {A} (_ : A) : Prop := True.

Section streams.
Context `{ProtoCodec (PbRequest DiscoveryCall) call_complete} `{ProtoCodec (PbResponse DiscoveryAnswer) answer_complete}
  `{ProtoCodec (PbRequest DataCall) always} `{ProtoCodec (PbResponse DataAnswer) data_complete}.

Definition readProto {A ok} `{ProtoCodec A ok} (s : Stream) : result WireError A :=
  let! (body, _) := read_frame MaxMessage s in
  match pb_Unmarshal body with Some m => Ok m | None => Err ErrJSON end.

(** [None] when the message cannot be encoded; nothing is written then. *)
Definition writeProto {A ok} `{ProtoCodec A ok} (m : A) : option (list Z) := frame <$> pb_Marshal m.

(** What is written to the stream of a request; [None] is a panic.  An answer that
    cannot be encoded is dropped and the stream closed.  [partial] is the identifier
    a failed decoding left in the request. *)
Definition handleDiscoveryStream (ph : ProtoProtocolHandler) (now : Time) (partial : string) (s : Stream) : option (list Z) :=
  match readProto (A:=PbRequest DiscoveryCall) s with
  | Err _ => Some (default [] (writeProto (A:=PbResponse DiscoveryAnswer) (failure partial 400 "failed to read request")))
  | Ok req => resp ← handleDiscoveryRequest ph now req; Some (default [] (writeProto resp))
  end.

Definition handleDataStream (ph : ProtoProtocolHandler) (partial : string) (s : Stream) : list Z :=
  match readProto (A:=PbRequest DataCall) s with
  | Err _ => default [] (writeProto (A:=PbResponse DataAnswer) (failure partial 400 "failed to read request"))
  | Ok req => default [] (writeProto (handleDataRequest ph req))
  end.

(** ** The client *)

Inductive ClientError := CErrOpen | CErrWrite | CErrRead (e : WireError) | CErrFailed (code : Z) (message : string)
| CErrUnexpected.

(** One exchange: [respond] is what the peer sends for the bytes of the request. *)
Definition exchange {C A okC okA} `{ProtoCodec (PbRequest C) okC} `{ProtoCodec (PbResponse A) okA}
    (respond : list Z -> option Stream) (req : PbRequest C) : result ClientError (option A) :=
  match writeProto req with
  | None => Err CErrWrite
  | Some bytes =>
      match respond bytes with
      | None => Err CErrOpen
      | Some s =>
          match readProto (A:=PbResponse A) s with
          | Err e => Err (CErrRead e)
          | Ok resp =>
              if negb (Resp_Success resp)
              then let '(code, message, _) := ProtoToError (Resp_Error resp) in Err (CErrFailed code message)
              else Ok (Resp_Response resp)
          end
      end
  end.

Definition GetCatalog (respond : list Z -> option Stream) (uuid : string) (sinceVersion : Z)
    : option (result ClientError (option Catalog)) :=
  match exchange (A:=DiscoveryAnswer) respond (mkPbRequest uuid (Some (CallGetCatalog sinceVersion))) with
  | Err e => Some (Err e)
  | Ok (Some (AnswerGetCatalog c)) => r ← ProtoToCatalog c; Some (Ok r)
  | Ok _ => Some (Err CErrUnexpected)
  end.

Definition GetPeerInfo (respond : list Z -> option Stream) (uuid : string)
    : result ClientError (option PbPeerInfo * list string) :=
  match exchange (A:=DiscoveryAnswer) respond (mkPbRequest uuid (Some CallGetPeerInfo)) with
  | Err e => Err e
  | Ok (Some (AnswerGetPeerInfo p l)) => Ok (p, l)
  | Ok _ => Err CErrUnexpected
  end.

Definition GetDatasetInfo (respond : list Z -> option Stream) (uuid datasetID : string) : result ClientError (option Dataset) :=
  match exchange (A:=DataAnswer) respond (mkPbRequest uuid (Some (CallGetDatasetInfo datasetID ""))) with
  | Err e => Err e
  | Ok (Some (AnswerGetDatasetInfo d)) => Ok (ProtoToDatasetInfo d)
  | Ok _ => Err CErrUnexpected
  end.

Definition GetChunk (respond : list Z -> option Stream) (uuid datasetID : string) (index : Z)
    : result ClientError (option Chunk) :=
  match exchange (A:=DataAnswer) respond (mkPbRequest uuid (Some (CallGetChunk datasetID "" (int32 index)))) with
  | Err e => Err e
  | Ok (Some (AnswerGetChunk c)) => Ok (ProtoToChunkData c)
  | Ok _ => Err CErrUnexpected
  end.

Definition GetChunks (respond : list Z -> option Stream) (uuid datasetID : string) (indices : list Z)
    : result ClientError (list (option Chunk)) :=
  match exchange (A:=DataAnswer) respond (mkPbRequest uuid (Some (CallGetChunks datasetID "" (map int32 indices)))) with
  | Err e => Err e
  | Ok (Some (AnswerGetChunks l)) => Ok (map ProtoToChunkData l)
  | Ok _ => Err CErrUnexpected
  end.

(** ** Theorems on conversions *)

(** What of an entry the message holds. *)
Definition entry_shown (e : CatalogEntry) : CatalogEntry :=
  mkCatalogEntry (CatalogEntry_TopicID e) (CatalogEntry_TopicName e) (CatalogEntry_DatasetID e)
    (CatalogEntry_DatasetName e) "" "" (CatalogEntry_Hash e) (CatalogEntry_Size e)
    (int32 (CatalogEntry_ChunkCount e)) false false [] (CatalogEntry_UpdatedAt e).
Definition catalog_shown (c : Catalog) : Catalog :=
  mkCatalog (Catalog_PeerID c) (map entry_shown (Catalog_Entries c)) (Catalog_LastUpdated c) (Catalog_Version c).

(** [*ProtoToCatalogEntry(e)] panics exactly when an entry is nil. *)
Lemma deref_entries_None l : deref_entries l = None <-> None ∈ l.
Proof.
  unfold deref_entries. induction l as [|[e|] l IH]; cbn.
  - by rewrite elem_of_nil.
  - rewrite elem_of_cons. destruct (mapM ProtoToCatalogEntry l); cbn.
    + split; [done|]. intros [?|?%IH]; done.
    + split; [right; by apply IH|done].
  - rewrite elem_of_cons. split; [by left|done].
Qed.

Lemma deref_sent (l : list CatalogEntry) :
  deref_entries (map (fun e => Some (CatalogEntryToProto e)) l) = Some (map entry_shown l).
Proof. unfold deref_entries. induction l as [|e l IH]; [done|]. cbn. by rewrite IH. Qed.

(** A catalog survives the conversion to a message and back up to what a message
    has no field for: version, flags and owners of an entry, and the bits of its
    chunk count above the 32nd. *)
Lemma catalog_conversion (c : Catalog) :
  ProtoToCatalog (CatalogToProto (Some c)) = Some (Some (catalog_shown c)) /\
  catalog_shown (catalog_shown c) = catalog_shown c.
Proof.
  split; [unfold ProtoToCatalog; cbn; by rewrite deref_sent|].
  unfold catalog_shown. cbn. f_equal. rewrite map_map. apply map_ext. intros e. unfold entry_shown. cbn.
  f_equal. apply int32_id, int32_range.
Qed.

(** A dataset keeps its identity, times and metadata, and its content hash, sizes and
    chunk count, if that fits 32 bits. *)
Lemma dataset_conversion d c :
  let m := DatasetWithContentToProto (Some d) (Some c) in
  ProtoToDatasetInfo m = ProtoToDatasetInfo (DatasetInfoToProto (Some d)) /\
  option_map Dataset_ID (ProtoToDatasetInfo m) = Some (Dataset_ID d) /\
  option_map Dataset_Metadata (ProtoToDatasetInfo m) = Some (Dataset_Metadata d) /\
  (is_i32 (DatasetContent_ChunkCount c) ->
   ProtoToDatasetContent m = Some (mkDatasetContent (DatasetContent_Hash c) (DatasetContent_Size c) 0
     (DatasetContent_ChunkCount c) (DatasetContent_ChunkSize c) "" "" "")).
Proof. cbn. split; [done|]. split; [done|]. split; [done|]. intros Hc. by rewrite int32_id. Qed.

(** ** Theorems on handlers *)

(** A well-formed response: it answers its request, and has an error or an answer. *)
Definition answers {C A} (req : PbRequest C) (resp : PbResponse A) : Prop :=
  Resp_RequestId resp = Req_RequestId req /\
  (Resp_Success resp = true -> Resp_Error resp = None /\ Resp_Response resp <> None) /\
  (Resp_Success resp = false -> Resp_Error resp <> None /\ Resp_Response resp = None).

Lemma success_answers {C A} (req : PbRequest C) (a : A) : answers req (success (Req_RequestId req) a).
Proof. by repeat split. Qed.
Lemma failure_answers {C A} (req : PbRequest C) code text : answers req (failure (A:=A) (Req_RequestId req) code text).
Proof. by repeat split. Qed.
#[local] Hint Resolve success_answers failure_answers : core.

Lemma handleDiscoveryRequest_answers ph now req resp :
  handleDiscoveryRequest ph now req = Some resp -> answers req resp.
Proof.
  unfold handleDiscoveryRequest, handleAnnounceProto, handleGetCatalogProto, handleQueryCatalogProto, handleGetPeerInfoProto.
  destruct (Req_Request req) as [[v|t d p l o| |es rs]|]; intros Hr.
  - injection Hr as <-. by case_match.
  - injection Hr as <-. repeat case_match; auto.
  - injection Hr as <-. auto.
  - destruct (pp_onAnnounce ph); [|by injection Hr as <-; auto].
    apply bind_Some in Hr as (? & _ & [= <-]). by case_match.
  - injection Hr as <-. auto.
Qed.

Lemma handleDataRequest_answers ph req : answers req (handleDataRequest ph req).
Proof.
  unfold handleDataRequest, handleGetDatasetInfoProto, handleGetChunkProto, handleGetChunksProto.
  repeat case_match; auto.
Qed.

(** An announcement panics exactly when the callback is set and an entry is nil. *)
Lemma handleDiscoveryRequest_None ph now req :
  handleDiscoveryRequest ph now req = None <->
  exists es rs, Req_Request req = Some (CallAnnounce es rs) /\ pp_onAnnounce ph <> None /\ None ∈ es.
Proof.
  unfold handleDiscoveryRequest. destruct (Req_Request req) as [[v|t d p l o| |es rs]|];
    try (split; [done|intros (? & ? & [=] & _)]).
  unfold handleAnnounceProto. destruct (pp_onAnnounce ph); cbn.
  - rewrite bind_None. split.
    + intros [Hn|(? & _ & [=])]. apply deref_entries_None in Hn. by exists es, rs.
    + intros (es' & rs' & [= <- <-] & _ & Hin). left. by apply deref_entries_None.
  - split; [done|]. by intros (? & ? & _ & [] & _).
Qed.

(** Whatever bytes a peer sends, in whatever pieces, the discovery handler does
    not panic: the messages it decodes have no nil entries. *)
Theorem discovery_never_panics ph now partial s : handleDiscoveryStream ph now partial s <> None.
Proof.
  unfold handleDiscoveryStream. destruct (readProto s) as [req|e] eqn:Hr; [|done].
  intros Hn. apply bind_None in Hn as [Hn|(? & _ & [=])].
  apply handleDiscoveryRequest_None in Hn as (es & rs & Hreq & _ & Hin).
  unfold readProto in Hr. destruct (read_frame MaxMessage s) as [[body s']|]; [|done].
  destruct (pb_Unmarshal body) as [m|] eqn:Hu; [|done]. injection Hr as ->.
  apply pb_complete in Hu. unfold call_complete in Hu. rewrite Hreq in Hu.
  rewrite Forall_forall in Hu. by apply (Hu None Hin).
Qed.

(** ** Theorems on exchanges *)

(** A message arrives whole, in whatever pieces, if it is no larger than 10 MB. *)
Lemma readProto_frame {A ok} `{ProtoCodec A ok} (m : A) b s :
  ok m -> pb_Marshal m = Some b -> concat s = frame b -> Z.of_nat (length b) <= MaxMessage -> readProto s = Ok m.
Proof.
  intros Hok Hb Hs Hl. unfold readProto.
  assert (Z.of_nat (length b) < 2 ^ 32) as Hlt by (unfold MaxMessage in Hl; lia).
  pose proof (read_frame_app MaxMessage s b [] ltac:(by rewrite Hs, app_nil_r) Hlt) as Hr.
  rewrite (proj2 (Z.ltb_ge _ _)) in Hr by done. destruct Hr as (s' & -> & _). by rewrite (pb_round m b).
Qed.

(** Of a size both sides accept. *)
Definition fits {A ok} `{ProtoCodec A ok} (m : A) : Prop :=
  exists b, pb_Marshal m = Some b /\ Z.of_nat (length b) <= MaxMessage.

(** A peer that answers requests with [answer], its bytes cut by [cut]. *)
Definition answering (cut : list Z -> Stream) (answer : list Z -> option (list Z)) (bytes : list Z) : option Stream :=
  cut <$> answer bytes.

(** The client gets what the server computed, whatever pieces the bytes arrive in. *)
Lemma exchange_data ph partial uuid call (cut cut' : list Z -> Stream) :
  (forall b, concat (cut b) = b) -> (forall b, concat (cut' b) = b) ->
  let req := mkPbRequest uuid (Some call) in
  let resp := handleDataRequest ph req in
  fits req -> fits resp -> data_complete resp ->
  exchange (A:=DataAnswer) (answering cut' (fun b => Some (handleDataStream ph partial (cut b)))) req =
  if Resp_Success resp then Ok (Resp_Response resp)
  else let '(code, text, _) := ProtoToError (Resp_Error resp) in Err (CErrFailed code text).
Proof.
  intros Hcut Hcut' req resp (b & Hb & Hl) (b' & Hb' & Hl') Hdc. unfold exchange, writeProto. rewrite Hb. cbn [fmap option_fmap option_map].
  unfold answering. cbn [fmap option_fmap option_map]. unfold handleDataStream.
  rewrite (readProto_frame req b (cut (frame b))) by done.
  fold resp. unfold writeProto. rewrite Hb'. cbn [fmap option_fmap option_map default].
  rewrite (readProto_frame resp b' (cut' (frame b'))) by done. by destruct (Resp_Success resp).
Qed.

(** C31: a chunk fetched over this protocol arrives with its data, hash, size and
    index, whatever pieces the request and the answer arrive in, if the messages fit
    10 MB and the index 32 bits. *)
Theorem GetChunk_over_wire ph partial uuid id index c f (cut cut' : list Z -> Stream) :
  (forall b, concat (cut b) = b) -> (forall b, concat (cut' b) = b) ->
  pp_onGetChunk ph = Some f -> f id index = Ok (Some c) -> id <> ""%string ->
  is_i32 index -> is_i32 (Chunk_Index c) ->
  fits (mkPbRequest uuid (Some (CallGetChunk id "" index))) ->
  fits (handleDataRequest ph (mkPbRequest uuid (Some (CallGetChunk id "" index)))) ->
  GetChunk (answering cut' (fun b => Some (handleDataStream ph partial (cut b)))) uuid id index =
  Ok (Some (mkChunk "" (Chunk_DatasetID c) "" (Chunk_Index c) (Chunk_Hash c) (Chunk_Size c) "" "" (Chunk_Data c))).
Proof.
  intros Hcut Hcut' Hf Hc Hid Hi Hci Hreq Hresp. unfold GetChunk. rewrite (int32_id index) by done.
  assert (handleDataRequest ph (mkPbRequest uuid (Some (CallGetChunk id "" index))) =
          success uuid (AnswerGetChunk (ChunkDataToProto (Some c)))) as Hr.
  { unfold handleDataRequest. cbn. unfold handleGetChunkProto, or_else. rewrite Hf.
    by rewrite bool_decide_false, Hc by done. }
  rewrite (exchange_data ph partial uuid (CallGetChunk id "" index) cut cut' Hcut Hcut') by (try done; by rewrite Hr).
  rewrite Hr. cbn. by rewrite int32_id.
Qed.

(** A catalog asked for over this protocol is the catalog the peer serves, up to
    what a message has no field for, in whatever pieces the bytes arrive; if the
    peer has nothing newer it is the empty catalog of its version. *)
Theorem GetCatalog_over_wire ph now partial uuid since (cut cut' : list Z -> Stream) :
  (forall b, concat (cut b) = b) -> (forall b, concat (cut' b) = b) ->
  let resp := handleGetCatalogProto ph now uuid since in
  fits (mkPbRequest uuid (Some (CallGetCatalog since))) -> fits resp ->
  GetCatalog (fun b => out ← handleDiscoveryStream ph now partial (cut b); Some (cut' out)) uuid since =
  Some (Ok (Some (
    let c := served_catalog ph now in
    if (0 <? since) && (Catalog_Version c <=? since)
    then mkCatalog (Catalog_PeerID c) [] zero_time (Catalog_Version c) else catalog_shown c))).
Proof.
  intros Hcut Hcut' resp (b & Hb & Hl) (b' & Hb' & Hl'). unfold GetCatalog, exchange, writeProto. rewrite Hb.
  cbn [fmap option_fmap option_map]. unfold handleDiscoveryStream.
  rewrite (readProto_frame (mkPbRequest uuid (Some (CallGetCatalog since))) b) by (done || apply Hcut).
  cbn [handleDiscoveryRequest Req_Request Req_RequestId]. cbn [mbind option_bind].
  fold resp. unfold writeProto. rewrite Hb'. cbn [fmap option_fmap option_map default].
  rewrite (readProto_frame resp b' (cut' (frame b'))); [|unfold resp, handleGetCatalogProto|done|done|done].
  - unfold resp, handleGetCatalogProto. destruct (_ && _); [done|]. cbn [success Resp_Success negb Resp_Response].
    by rewrite (proj1 (catalog_conversion (served_catalog ph now))).
  - destruct (_ && _); cbn; [constructor|]. apply Forall_map, Forall_true. done.
Qed.

End streams.

(** ** Witnesses

    A toy codec knows a list of messages and encodes each by its number. *)

#[export] Instance PbCatalogEntry_dec : EqDecision PbCatalogEntry.
Proof. solve_decision. Defined.
#[export] Instance PbCatalog_dec : EqDecision PbCatalog.
Proof. solve_decision. Defined.
#[export] Instance PbPeerInfo_dec : EqDecision PbPeerInfo.
Proof. solve_decision. Defined.
#[export] Instance PbDatasetInfo_dec : EqDecision PbDatasetInfo.
Proof. solve_decision. Defined.
#[export] Instance PbChunkData_dec : EqDecision PbChunkData.
Proof. solve_decision. Defined.
#[export] Instance PbError_dec : EqDecision PbError.
Proof. solve_decision. Defined.
#[export] Instance DiscoveryCall_dec : EqDecision DiscoveryCall.
Proof. solve_decision. Defined.
#[export] Instance DiscoveryAnswer_dec : EqDecision DiscoveryAnswer.
Proof. solve_decision. Defined.
#[export] Instance DataCall_dec : EqDecision DataCall.
Proof. solve_decision. Defined.
#[export] Instance DataAnswer_dec : EqDecision DataAnswer.
Proof. solve_decision. Defined.
#[export] Instance PbRequest_dec {C} `{EqDecision C} : EqDecision (PbRequest C).
Proof. solve_decision. Defined.
#[export] Instance PbResponse_dec {A} `{EqDecision A} : EqDecision (PbResponse A).
Proof. solve_decision. Defined.

Fixpoint position {A} `{EqDecision A} (a : A) (l : list A) : option nat :=
  match l with
  | [] => None
  | x :: l' => if x =?= a then Some O else S <$> position a l'
  end.

Lemma position_lookup {A} `{EqDecision A} (a : A) l n : position a l = Some n -> l !! n = Some a.
Proof.
  revert n. induction l as [|x l IH]; intros n; cbn; [done|]. case_bool_decide as Hx.
  - intros [= <-]. by subst.
  - intros (k & Hk & ->)%fmap_Some. cbn. by apply IH.
Qed.

Definition list_codec {A} `{EqDecision A} (ok : A -> Prop) (l : list A) (Hl : Forall ok l) : ProtoCodec A ok.
Proof.
  refine {| pb_Marshal a := (fun n => [Z.of_nat n]) <$> position a l;
            pb_Unmarshal b := match b with [z] => l !! Z.to_nat z | _ => None end |}.
  - intros a b _ (n & Hn & ->)%fmap_Some. cbn. rewrite Nat2Z.id. by apply position_lookup.
  - intros a b Hb. destruct b as [|z [|]]; try done. rewrite Forall_forall in Hl. apply Hl.
    by eapply list_elem_of_lookup_2.
Defined.

Definition one_chunk : Chunk := mkChunk "c0" "ds" "v1" 0 "h0" 3 "stored" "/p" [1; 2; 3].
Definition one_entry : CatalogEntry := mkCatalogEntry "t" "T" "ds" "D" "v1" "1.0" "h0" 3 1 true false ["u"%string] 77.
Definition serving : ProtoProtocolHandler :=
  mkProtoProtocolHandler "Qm" [] "full" "1" (Some (Some (mkCatalog "Qm" [one_entry] 88 4))) None None
    (Some (fun id i => if (id =?= "ds"%string) && (i =? 0) then Ok (Some one_chunk) else Err "chunk not found"%string))
    None None None.

#[local] Instance toy_data_calls : ProtoCodec (PbRequest DataCall) always :=
  list_codec always [mkPbRequest "r" (Some (CallGetChunk "ds" "" 0))] ltac:(by repeat constructor).
#[local] Instance toy_data_answers : ProtoCodec (PbResponse DataAnswer) data_complete :=
  list_codec data_complete [success "r" (AnswerGetChunk (ChunkDataToProto (Some one_chunk)))] ltac:(by repeat constructor).
#[local] Instance toy_calls : ProtoCodec (PbRequest DiscoveryCall) call_complete :=
  list_codec call_complete [mkPbRequest "r" (Some (CallGetCatalog 3))] ltac:(by repeat constructor).
#[local] Instance toy_answers : ProtoCodec (PbResponse DiscoveryAnswer) answer_complete :=
  list_codec answer_complete [handleGetCatalogProto serving 0 "r" 3] ltac:(by repeat constructor).

Lemma GetChunk_over_wire_witness :
  GetChunk (answering bytewise (fun b => Some (handleDataStream serving "" (bytewise b)))) "r" "ds" 0 =
  Ok (Some (mkChunk "" "ds" "" 0 "h0" 3 "" "" [1; 2; 3])).
Proof.
  apply (GetChunk_over_wire serving "" "r" "ds" 0 one_chunk
    (fun id i => if (id =?= "ds"%string) && (i =? 0) then Ok (Some one_chunk) else Err "chunk not found"%string)
    bytewise bytewise bytewise_ok bytewise_ok); try done.
  - by exists [0].
  - by exists [0].
Defined.

Lemma GetCatalog_over_wire_witness :
  GetCatalog (fun b => out ← handleDiscoveryStream serving 0 "" (bytewise b); Some (bytewise out)) "r" 3 =
  Some (Ok (Some (mkCatalog "Qm" [entry_shown one_entry] 88 4))).
Proof.
  rewrite (GetCatalog_over_wire serving 0 "" "r" 3 bytewise bytewise bytewise_ok bytewise_ok);
    [done|by exists [0]|by exists [0]].
Defined.
