(* ===== verification/Keys.v ===== *)
(** * Public keys ([internal/auth/keys.go])

    Parsing a key in the formats users paste, its canonical bytes, fingerprints, and
    signatures.  [golang.org/x/crypto/ssh], [crypto/x509], [crypto/rsa], [crypto/md5]
    and base64 are the class [KeyLib]; of an SSH key the code sees the key inside,
    or, for formats that have none, its bytes and the name of its type. *)
From stdpp Require Import base gmap strings list.
From Stdlib Require Import ZArith Lia Ascii.
From S2P Require Import Prelude GoStrings Domain.
Local Open Scope string_scope.
Local Open Scope Z_scope.
Local Open Scope bool_scope.

(** What [CryptoPublicKey] may give. *)
Inductive CryptoKey (RSA : Type) := EdKey (bs : list Z) | RSAKey (k : RSA) | OtherKey.
Arguments EdKey {RSA} bs.
Arguments RSAKey {RSA} k.
Arguments OtherKey {RSA}.

(** [ssh.PublicKey]: with a key inside, or with [Marshal] and [Type] only. *)
Inductive SSHKey (RSA : Type) := WithKey (k : CryptoKey RSA) | Opaque (marshalled : list Z) (type_ : string).
Arguments WithKey {RSA} k.
Arguments Opaque {RSA} marshalled type_.

Class KeyLib := {
  RSA : Type;
  MarshalPKIXPublicKey : RSA -> option (list Z);
  ParsePKIXPublicKey : list Z -> option (option RSA);  (** [Some None]: a key that is not RSA *)
  BitLen : RSA -> Z;
  VerifyPKCS1v15 : RSA -> list Z -> list Z -> bool;
  ssh_ParseAuthorizedKey : list Z -> option (SSHKey RSA);
  ssh_ParsePublicKey : list Z -> option (SSHKey RSA);
  ssh_NewPublicKey : CryptoKey RSA -> option (SSHKey RSA);
  ssh_MarshalAuthorizedKey : SSHKey RSA -> list Z;
  ssh_UnmarshalSignature : list Z -> option (string * list Z);
  base64_DecodeString : list Z -> option (list Z);
  md5_Sum : list Z -> list Z;
}.

(** What the libraries document of each other's inverses. *)
Class KeyLibLaws `(KeyLib) := {
  pkix_round k bs : MarshalPKIXPublicKey k = Some bs -> ParsePKIXPublicKey bs = Some (Some k);
  pkix_unique bs k : ParsePKIXPublicKey bs = Some (Some k) -> MarshalPKIXPublicKey k = Some bs;
  new_key_inside k s : ssh_NewPublicKey k = Some s -> s = WithKey k;
  authorized_round s : ssh_ParseAuthorizedKey (ssh_MarshalAuthorizedKey s) = Some s;
  authorized_prefix k : is_prefix_of (String.list_ascii_of_string "ssh-")
    (map (fun b => ascii_of_N (Z.to_N b)) (ssh_MarshalAuthorizedKey (WithKey k))) = true;
}.

Section keys.
Context `{KeyLib} `{Crypto}.

Definition KeyAlgoED25519 : string := "ssh-ed25519".
Definition KeyAlgoRSA : string := "ssh-rsa".

Definition ParseSSHPublicKey (pubKey : SSHKey RSA) : option (list Z * KeyType) :=
  match pubKey with
  | WithKey (EdKey k) => Some (k, KeyTypeEd25519)
  | WithKey (RSAKey k) => (fun bs => (bs, KeyTypeRSA)) <$> MarshalPKIXPublicKey k
  | WithKey OtherKey => None
  | Opaque keyBytes keyType =>
      if keyType =?= KeyAlgoED25519 then
        Some (if (ed25519_PublicKeySize <? length keyBytes)%nat
              then drop (length keyBytes - ed25519_PublicKeySize) keyBytes else keyBytes, KeyTypeEd25519)
      else if keyType =?= KeyAlgoRSA then Some (keyBytes, KeyTypeRSA)
      else None
  end.

Definition ParseAuthorizedKey (keyData : list Z) : option (list Z * KeyType) :=
  k ← ssh_ParseAuthorizedKey keyData; ParseSSHPublicKey k.

Definition MarshalPublicKeyToAuthorizedKey (pubKey : list Z) (keyType : KeyType) : option (list Z) :=
  let key :=
    if keyType =?= KeyTypeEd25519 then
      if (length pubKey =? ed25519_PublicKeySize)%nat then ssh_NewPublicKey (EdKey pubKey) else None
    else if keyType =?= KeyTypeRSA then
      match ParsePKIXPublicKey pubKey with
      | Some (Some k) => ssh_NewPublicKey (RSAKey k)
      | _ => None
      end
    else None in
  ssh_MarshalAuthorizedKey <$> key.

(** [bytes.HasPrefix] *)
Definition starts_with (bs : list Z) (s : string) : bool :=
  is_prefix_of (bytes_of s) (map (fun b => ascii_of_N (Z.to_N b)) bs).

Definition ParsePublicKeyAuto (keyData : list Z) : option (list Z * KeyType) :=
  if starts_with keyData "ssh-" || starts_with keyData "ecdsa-" then ParseAuthorizedKey keyData
  else if (length keyData =? ed25519_PublicKeySize)%nat then Some (keyData, KeyTypeEd25519)
  else match ssh_ParsePublicKey keyData with
       | Some k => ParseSSHPublicKey k
       | None => decoded ← base64_DecodeString keyData; k ← ssh_ParsePublicKey decoded; ParseSSHPublicKey k
       end.

Definition calculateFingerprintSHA256 (keyBytes : list Z) : string := EncodeToString (sha256_Sum256 keyBytes).
Definition calculateFingerprintMD5 (keyBytes : list Z) : string := EncodeToString (md5_Sum keyBytes).

Record PublicKeyInfo := mkPublicKeyInfo {
  PKI_KeyType : KeyType;
  PKI_KeyBytes : list Z;
  PKI_FingerprintSHA256 : string;
  PKI_FingerprintMD5 : string;
  PKI_KeySize : Z;
  PKI_OpenSSHFormat : list Z;
}.

(** [strings.TrimSpace] of the line, which is ASCII. *)
Definition trim_line (bs : list Z) : list Z := trim (fun b => (b =? 10) || (b =? 32) || (b =? 13) || (b =? 9)) bs.

Definition key_size (keyBytes : list Z) (keyType : KeyType) : Z :=
  if keyType =?= KeyTypeEd25519 then 256
  else if keyType =?= KeyTypeRSA
  then match ParsePKIXPublicKey keyBytes with Some (Some k) => BitLen k | _ => 0 end
  else 0.

Definition GetPublicKeyInfo (keyData : list Z) : option PublicKeyInfo :=
  '(keyBytes, keyType) ← ParsePublicKeyAuto keyData;
  Some (mkPublicKeyInfo keyType keyBytes (calculateFingerprintSHA256 keyBytes) (calculateFingerprintMD5 keyBytes)
          (key_size keyBytes keyType) (default [] (trim_line <$> MarshalPublicKeyToAuthorizedKey keyBytes keyType))).

(** ** Signatures *)

Definition VerifySignature (keyBytes : list Z) (keyType : KeyType) (message signature : list Z) : bool :=
  if keyType =?= KeyTypeEd25519 then
    (length keyBytes =? ed25519_PublicKeySize)%nat && ed25519_Verify keyBytes message signature
  else if keyType =?= KeyTypeRSA then
    match ParsePKIXPublicKey keyBytes with
    | Some (Some k) => VerifyPKCS1v15 k (sha256_Sum256 message) signature
    | _ => false
    end
  else false.

Definition VerifySSHSignature (keyBytes : list Z) (keyType : KeyType) (message signature : list Z) : bool :=
  if VerifySignature keyBytes keyType message signature then true
  else match ssh_UnmarshalSignature signature with
       | None => VerifySignature keyBytes keyType message signature
       | Some (_, blob) => VerifySignature keyBytes keyType message blob
       end.

(** ** Theorems *)

(** A signature is accepted bare or in the envelope of SSH, whatever algorithm the
    envelope names, and then the key is well-formed. *)
Lemma VerifySSHSignature_spec keyBytes keyType message signature :
  VerifySSHSignature keyBytes keyType message signature = true <->
  VerifySignature keyBytes keyType message signature = true \/
  exists format blob, ssh_UnmarshalSignature signature = Some (format, blob) /\
    VerifySignature keyBytes keyType message blob = true.
Proof.
  unfold VerifySSHSignature. destruct (VerifySignature _ _ _ signature) eqn:Hv; [naive_solver|].
  destruct (ssh_UnmarshalSignature signature) as [[f b]|]; naive_solver.
Qed.

Lemma VerifySignature_key keyBytes keyType message signature :
  VerifySignature keyBytes keyType message signature = true ->
  (keyType = KeyTypeEd25519 /\ length keyBytes = ed25519_PublicKeySize) \/
  (keyType = KeyTypeRSA /\ exists k, ParsePKIXPublicKey keyBytes = Some (Some k)).
Proof.
  unfold VerifySignature. case_bool_decide.
  - intros [Hl%Nat.eqb_eq _]%andb_true_iff. by left.
  - case_bool_decide; [|done]. destruct (ParsePKIXPublicKey keyBytes) as [[k|]|]; [|done..]. right. eauto.
Qed.

(** A key that was printed in the format of [authorized_keys] and pasted again is
    the same key of the same type. *)
Theorem key_round_trip `{!KeyLibLaws _} keyBytes keyType text :
  MarshalPublicKeyToAuthorizedKey keyBytes keyType = Some text ->
  ParsePublicKeyAuto text = Some (keyBytes, keyType) /\
  exists info, GetPublicKeyInfo text = Some info /\ PKI_KeyBytes info = keyBytes /\ PKI_KeyType info = keyType /\
    (keyBytes <> [] -> PKI_FingerprintSHA256 info = PublicKeyFingerprint keyBytes).
Proof.
  unfold MarshalPublicKeyToAuthorizedKey. intros Hm.
  assert (ParsePublicKeyAuto text = Some (keyBytes, keyType)) as Hp.
  { apply fmap_Some in Hm as (s & Hs & ->).
    assert (exists k, s = WithKey k /\ ParseSSHPublicKey s = Some (keyBytes, keyType)) as (k & -> & Hk).
    { revert Hs. case_bool_decide as Ht; [destruct (length keyBytes =? _)%nat; [|done]|
        case_bool_decide as Ht'; [destruct (ParsePKIXPublicKey keyBytes) as [[k|]|] eqn:Hpk; [|done..]|done]];
        intros Hs; apply new_key_inside in Hs as ->; eexists; (split; [done|]); cbn; [by subst|].
      by rewrite (pkix_unique _ _ Hpk), Ht'. }
    unfold ParsePublicKeyAuto, starts_with. rewrite authorized_prefix. cbn [orb].
    unfold ParseAuthorizedKey. by rewrite authorized_round. }
  split; [done|]. unfold GetPublicKeyInfo. rewrite Hp. cbn. eexists. split; [done|]. split; [done|]. split; [done|].
  intros Hne. unfold PublicKeyFingerprint. by destruct keyBytes.
Qed.
End keys.

(** ** Witnesses

    A library in which an RSA key is a number and every format is its own bytes
    behind a mark. *)
Section witnesses.
#[local] Existing Instance toy_crypto.

Definition ssh_text (s : string) : list Z := map (fun c => Z.of_N (N_of_ascii c)) (String.list_ascii_of_string s).

Definition toy_marshal (k : SSHKey Z) : list Z :=
  (ssh_text "ssh-" ++ match k with
   | WithKey (EdKey bs) => 1 :: bs
   | WithKey (RSAKey n) => [2; n]
   | WithKey OtherKey => [3]
   | Opaque bs t => 4 :: Z.of_nat (String.length t) :: ssh_text t ++ bs
   end)%list.
Definition toy_parse (bs : list Z) : option (SSHKey Z) :=
  match drop 4 bs with
  | 1 :: k => Some (WithKey (EdKey k))
  | [2; n] => Some (WithKey (RSAKey n))
  | [3] => Some (WithKey OtherKey)
  | 4 :: n :: rest =>
      Some (Opaque (drop (Z.to_nat n) rest) (str_of (map (fun b => ascii_of_N (Z.to_N b)) (take (Z.to_nat n) rest))))
  | _ => None
  end.

Definition toy_keys : KeyLib := {|
  RSA := Z;
  MarshalPKIXPublicKey n := Some [n];
  ParsePKIXPublicKey bs := match bs with [n] => Some (Some n) | _ => None end;
  BitLen _ := 2048;
  VerifyPKCS1v15 n h s := s =?= n :: h;
  ssh_ParseAuthorizedKey := toy_parse;
  ssh_ParsePublicKey _ := None;
  ssh_NewPublicKey k := Some (WithKey k);
  ssh_MarshalAuthorizedKey := toy_marshal;
  ssh_UnmarshalSignature s := match s with 0 :: b => Some ("ssh-ed25519", b) | _ => None end;
  base64_DecodeString _ := None;
  md5_Sum _ := replicate 16 0
|}.
#[local] Existing Instance toy_keys.

Lemma ssh_text_back s : map (fun b => ascii_of_N (Z.to_N b)) (ssh_text s) = String.list_ascii_of_string s.
Proof. unfold ssh_text. rewrite map_map. rewrite <- (map_id (String.list_ascii_of_string s)) at 2. apply map_ext. intros c. by rewrite N2Z.id, ascii_N_embedding. Qed.

#[local] Instance toy_keys_laws : KeyLibLaws toy_keys.
Proof.
  split.
  - by intros k bs [= <-].
  - intros [|n []] k; try done. by intros [= ->].
  - by intros k s [= <-].
  - intros [[bs|n|]|bs t]; try done. set (n := Z.to_nat (Z.of_nat (String.length t))).
    change (Some (Opaque (drop n (ssh_text t ++ bs)%list)
      (str_of (map (fun b => ascii_of_N (Z.to_N b)) (take n (ssh_text t ++ bs)%list)))) = Some (Opaque (RSA := Z) bs t)).
    assert (length (ssh_text t) = String.length t) as Hl.
    { unfold ssh_text. rewrite length_map. induction t as [|c t IH]; [done|]. cbn. by rewrite IH. }
    unfold n. rewrite Nat2Z.id, <- Hl, drop_app_length, take_app_length, ssh_text_back.
    by rewrite String.string_of_list_ascii_of_string.
  - by intros [bs|n|].
Qed.

Lemma key_round_trip_witness :
  exists text, ParsePublicKeyAuto text = Some (replicate 32 7, KeyTypeEd25519).
Proof.
  eexists. refine (proj1 (key_round_trip (replicate 32 7) KeyTypeEd25519 (toy_marshal (WithKey (EdKey (replicate 32 7)))) _)).
  reflexivity.
Defined.
End witnesses.
