(* ===== verification/GrpcErrors.v ===== *)
(** * Errors of the gRPC services ([internal/grpc/errors/errors.go])

    A status carries a code, a message and details; [MapDomainError] gives every
    error of the domain and of the repositories its status.  The map it searches has
    pairwise different keys and no error wraps two of them, so that the order of the
    search does not matter.  Adding details does not fail. *)
From stdpp Require Import base gmap strings list pretty.
From Stdlib Require Import ZArith Lia.
From S2P Require Import Prelude GoStrings Domain Sql.
Local Open Scope Z_scope.
Local Open Scope string_scope.

(** ** Statuses ([google.golang.org/grpc/codes], [status], [errdetails]) *)

Inductive Code :=
| OK | Canceled | Unknown | InvalidArgument | DeadlineExceeded | NotFound | AlreadyExists | PermissionDenied
| ResourceExhausted | FailedPrecondition | Aborted | OutOfRange | Unimplemented | Internal | Unavailable | DataLoss
| Unauthenticated.

#[export] Instance Code_eq_dec : EqDecision Code.
Proof. solve_decision. Defined.

Inductive Detail :=
| ErrorInfo (Reason InfoDomain : string) (Metadata : gmap string string)
| BadRequest (FieldViolations : gmap string string)
| ResourceInfo (ResourceType ResourceName Description : string)
| PreconditionFailure (Violations : gmap string string)
| QuotaFailure (Subject Description : string).

Record Status := mkStatus { St_Code : Code; St_Message : string; St_Details : list Detail }.

Definition status_Error (c : Code) (message : string) : Status := mkStatus c message [].

(** An error a handler may meet: a status, an error of the domain, an error of a
    repository, or any other error with its text. *)
Inductive GoErr :=
| GStatus (s : Status)
| GDomain (e : DomainError)
| GStore (e : StoreError)
| GOther (text : string).

(** ** [domain/errors.go] *)

Definition DomainError_Error (e : DomainError) : string :=
  match e with
  | ErrInvalidTopicID => "invalid topic ID"
  | ErrInvalidTopicName => "invalid topic name"
  | ErrInvalidTopicStatus => "invalid topic status"
  | ErrTopicNotFound => "topic not found"
  | ErrTopicArchived => "topic is archived"
  | ErrCannotRemoveLastOwner => "cannot remove last owner"
  | ErrOwnerNotFound => "owner not found"
  | ErrInvalidDatasetID => "invalid dataset ID"
  | ErrInvalidDatasetName => "invalid dataset name"
  | ErrInvalidDatasetStatus => "invalid dataset status"
  | ErrDatasetNotFound => "dataset not found"
  | ErrInvalidHash => "invalid hash"
  | ErrHashMismatch => "hash mismatch"
  | ErrInvalidSize => "invalid size"
  | ErrInvalidChunkCount => "invalid chunk count"
  | ErrNoOwners => "no owners specified"
  | ErrInvalidVersionID => "invalid version ID"
  | ErrInvalidVersionString => "invalid version string"
  | ErrVersionNotFound => "version not found"
  | ErrEmptyVersion => "version must have content or instructions"
  | ErrInvalidChunkIndex => "invalid chunk index"
  | ErrChunkNotFound => "chunk not found"
  | ErrInvalidUserID => "invalid user ID"
  | ErrInvalidUserName => "invalid user name"
  | ErrInvalidPublicKey => "invalid public key"
  | ErrInvalidKeyType => "invalid key type"
  | ErrInvalidUserStatus => "invalid user status"
  | ErrInvalidUserRole => "invalid user role"
  | ErrUserNotFound => "user not found"
  | ErrUserExists => "user already exists"
  | ErrUserSuspended => "user account is suspended"
  | ErrUserPending => "user account is pending approval"
  | ErrInvalidSignature => "invalid signature"
  | ErrInvalidOperation => "invalid operation"
  | ErrUnauthorized => "unauthorized"
  | ErrAutoRegDisabled => "auto-registration is disabled"
  | ErrSessionNotFound => "session not found"
  | ErrSessionExpired => "session has expired"
  | ErrInvalidResourceType => "invalid resource type"
  | ErrInvalidResourceID => "invalid resource ID"
  | ErrInvalidOwnershipRole => "invalid ownership role"
  | ErrOwnershipDenied => "ownership denied"
  | ErrSelfTransfer => "cannot transfer to self"
  | ErrNotOwner => "not an owner"
  | ErrInvalidInstruction => "invalid instruction"
  | ErrNoInstructions => "no instructions provided"
  | ErrInvalidTaskID => "invalid task ID"
  | ErrInvalidTaskName => "invalid task name"
  | ErrTaskNotFound => "task not found"
  | ErrEmptyTask => "task has no instructions"
  | ErrInvalidScheduleType => "invalid schedule type"
  | ErrInvalidCronExpr => "invalid cron expression"
  | ErrInvalidRepeatCount => "invalid repeat count"
  | ErrInvalidInterval => "invalid interval"
  | ErrInvalidTimeRange => "end time before start time"
  | ErrInvalidJobID => "invalid job ID"
  | ErrInvalidJobType => "invalid job type"
  | ErrJobNotFound => "job not found"
  | ErrNoTaskOrInstructions => "job must have task ID or inline instructions"
  | ErrInvalidExecutionMode => "invalid execution mode"
  | ErrCyclicDependency => "cyclic dependency in job pipeline"
  | ErrInvalidPipelineID => "invalid pipeline ID"
  | ErrInvalidPipelineName => "invalid pipeline name"
  | ErrEmptyPipeline => "pipeline has no jobs"
  | ErrInvalidQueryID => "invalid query ID"
  | ErrInvalidQueryType => "invalid query type"
  | ErrEmptySQLQuery => "empty SQL query"
  | ErrNonSelectQuery => "only SELECT queries are allowed"
  | ErrNoTargetDatasets => "no target datasets specified"
  | ErrInvalidLimit => "invalid limit"
  | ErrInvalidOffset => "invalid offset"
  | ErrQueryTimeout => "query timed out"
  | ErrDownloadNotFound => "download not found"
  | ErrDownloadFailed => "download failed"
  | ErrCatalogNotFound => "catalog not found"
  | ErrEntryNotFound => "catalog entry not found"
  | ErrUnsupportedProtocol => "unsupported protocol version"
  | ErrInvalidMessage => "invalid protocol message"
  | ErrTimeout => "operation timed out"
  end.

(** The text of the error of a statement that failed is the driver's. *)
Class DriverErrors := { driver_text : string }.

(** ** The table *)

Definition domain_entry (e : DomainError) : option (Code * string) :=
  match e with
  | ErrInvalidTopicID => Some (InvalidArgument, "Invalid topic ID")
  | ErrInvalidTopicName => Some (InvalidArgument, "Invalid topic name")
  | ErrInvalidTopicStatus => Some (InvalidArgument, "Invalid topic status")
  | ErrTopicNotFound => Some (NotFound, "Topic not found")
  | ErrTopicArchived => Some (FailedPrecondition, "Topic is archived")
  | ErrCannotRemoveLastOwner => Some (FailedPrecondition, "Cannot remove the last owner")
  | ErrOwnerNotFound => Some (NotFound, "Owner not found")
  | ErrInvalidDatasetID => Some (InvalidArgument, "Invalid dataset ID")
  | ErrInvalidDatasetName => Some (InvalidArgument, "Invalid dataset name")
  | ErrInvalidDatasetStatus => Some (InvalidArgument, "Invalid dataset status")
  | ErrDatasetNotFound => Some (NotFound, "Dataset not found")
  | ErrInvalidHash => Some (InvalidArgument, "Invalid hash")
  | ErrHashMismatch => Some (DataLoss, "Hash mismatch - data may be corrupted")
  | ErrInvalidSize => Some (InvalidArgument, "Invalid size")
  | ErrInvalidChunkCount => Some (InvalidArgument, "Invalid chunk count")
  | ErrNoOwners => Some (InvalidArgument, "No owners specified")
  | ErrInvalidVersionID => Some (InvalidArgument, "Invalid version ID")
  | ErrInvalidVersionString => Some (InvalidArgument, "Invalid version string")
  | ErrVersionNotFound => Some (NotFound, "Version not found")
  | ErrEmptyVersion => Some (InvalidArgument, "Version must have content or instructions")
  | ErrInvalidChunkIndex => Some (InvalidArgument, "Invalid chunk index")
  | ErrChunkNotFound => Some (NotFound, "Chunk not found")
  | ErrInvalidUserID => Some (InvalidArgument, "Invalid user ID")
  | ErrInvalidUserName => Some (InvalidArgument, "Invalid user name")
  | ErrInvalidPublicKey => Some (InvalidArgument, "Invalid public key")
  | ErrInvalidKeyType => Some (InvalidArgument, "Invalid key type")
  | ErrInvalidUserStatus => Some (InvalidArgument, "Invalid user status")
  | ErrInvalidUserRole => Some (InvalidArgument, "Invalid user role")
  | ErrUserNotFound => Some (NotFound, "User not found")
  | ErrUserExists => Some (AlreadyExists, "User already exists")
  | ErrUserSuspended => Some (PermissionDenied, "User account is suspended")
  | ErrUserPending => Some (PermissionDenied, "User account is pending approval")
  | ErrInvalidSignature => Some (Unauthenticated, "Invalid signature")
  | ErrInvalidOperation => Some (InvalidArgument, "Invalid operation")
  | ErrUnauthorized => Some (PermissionDenied, "Unauthorized")
  | ErrAutoRegDisabled => Some (PermissionDenied, "Auto-registration is disabled")
  | ErrSessionNotFound => Some (NotFound, "Session not found")
  | ErrSessionExpired => Some (Unauthenticated, "Session has expired")
  | ErrInvalidResourceType => Some (InvalidArgument, "Invalid resource type")
  | ErrInvalidResourceID => Some (InvalidArgument, "Invalid resource ID")
  | ErrInvalidOwnershipRole => Some (InvalidArgument, "Invalid ownership role")
  | ErrOwnershipDenied => Some (PermissionDenied, "Ownership denied")
  | ErrSelfTransfer => Some (InvalidArgument, "Cannot transfer to self")
  | ErrNotOwner => Some (PermissionDenied, "Not an owner of this resource")
  | ErrInvalidInstruction => Some (InvalidArgument, "Invalid instruction")
  | ErrNoInstructions => Some (InvalidArgument, "No instructions provided")
  | ErrInvalidTaskID => Some (InvalidArgument, "Invalid task ID")
  | ErrInvalidTaskName => Some (InvalidArgument, "Invalid task name")
  | ErrTaskNotFound => Some (NotFound, "Task not found")
  | ErrEmptyTask => Some (InvalidArgument, "Task has no instructions")
  | ErrInvalidScheduleType => Some (InvalidArgument, "Invalid schedule type")
  | ErrInvalidCronExpr => Some (InvalidArgument, "Invalid cron expression")
  | ErrInvalidRepeatCount => Some (InvalidArgument, "Invalid repeat count")
  | ErrInvalidInterval => Some (InvalidArgument, "Invalid interval")
  | ErrInvalidTimeRange => Some (InvalidArgument, "End time must be after start time")
  | ErrInvalidJobID => Some (InvalidArgument, "Invalid job ID")
  | ErrJobNotFound => Some (NotFound, "Job not found")
  | _ => None
  end.

Definition domainErrorMapping (e : GoErr) : option (Code * string) :=
  match e with
  | GDomain e | GStore (EInvalid e) => domain_entry e
  | GStore ErrNotFound => Some (NotFound, "Resource not found")
  | GStore ErrAlreadyExists => Some (AlreadyExists, "Resource already exists")
  | GStore EFailed | GStatus _ | GOther _ => None
  end.

Definition codeToReason (code : Code) : string :=
  match code with
  | InvalidArgument => "INVALID_ARGUMENT"
  | NotFound => "NOT_FOUND"
  | AlreadyExists => "ALREADY_EXISTS"
  | PermissionDenied => "PERMISSION_DENIED"
  | Unauthenticated => "UNAUTHENTICATED"
  | ResourceExhausted => "RESOURCE_EXHAUSTED"
  | FailedPrecondition => "FAILED_PRECONDITION"
  | Aborted => "ABORTED"
  | Internal => "INTERNAL"
  | Unavailable => "UNAVAILABLE"
  | DataLoss => "DATA_LOSS"
  | _ => "UNKNOWN"
  end.

Section errors.
Context `{DriverErrors}.

Definition StoreError_Error (e : StoreError) : string :=
  match e with
  | EInvalid e => DomainError_Error e
  | ErrAlreadyExists => "already exists"
  | ErrNotFound => "not found"
  | EFailed => driver_text
  end.

Definition GoErr_Error (e : GoErr) : string :=
  match e with
  | GStatus s => St_Message s
  | GDomain e => DomainError_Error e
  | GStore e => StoreError_Error e
  | GOther text => text
  end.

(** The mapped errors are values of [errors.New], whose type the details name. *)
Definition NewDetailedError (code : Code) (message : string) (cause : GoErr) : Status :=
  let meta := <["error_type" := "*errors.errorString"]> ∅ in
  let meta := if GoErr_Error cause <>? message then <["original_error" := GoErr_Error cause]> meta else meta in
  mkStatus code message [ErrorInfo (codeToReason code) "bib.dev" meta].

Definition MapDomainError (e : GoErr) : Status :=
  match e with
  | GStatus s => s
  | _ =>
      match domainErrorMapping e with
      | Some (code, desc) => NewDetailedError code desc e
      | None => status_Error Internal ("internal error: " ++ GoErr_Error e)
      end
  end.
End errors.

(** ** The other constructors *)

Definition NewValidationError (message : string) (fieldViolations : gmap string string) : Status :=
  mkStatus InvalidArgument message [BadRequest fieldViolations].
Definition NewResourceNotFoundError (resourceType resourceID : string) : Status :=
  mkStatus NotFound (resourceType ++ " not found: " ++ resourceID)
    [ResourceInfo resourceType resourceID ("The requested " ++ resourceType ++ " could not be found")].
Definition NewPreconditionError (message : string) (violations : gmap string string) : Status :=
  mkStatus FailedPrecondition message [PreconditionFailure violations].
Definition NewQuotaExceededError (resourceType subject : string) (limit current : Z) : Status :=
  mkStatus ResourceExhausted (resourceType ++ " quota exceeded")
    [QuotaFailure subject ("Quota for " ++ resourceType ++ " exceeded: limit=" ++ pretty limit ++
                           ", current=" ++ pretty current)].
Definition NewPermissionDeniedError (action resource requiredRole : string) : Status :=
  mkStatus PermissionDenied ("permission denied: cannot " ++ action ++ " " ++ resource)
    [ErrorInfo "PERMISSION_DENIED" "bib.dev"
       (<["action" := action]> (<["resource" := resource]> (<["required_role" := requiredRole]> ∅)))].

(** The refusals several services share. *)
Definition not_initialized : Status := status_Error Unavailable "service not initialized".
Definition not_authenticated : Status := status_Error Unauthenticated "not authenticated".
Definition required (field : string) : Status :=
  NewValidationError (field ++ " is required") {[ field := "must not be empty" ]}.

Definition MinQueryLength : nat := 3.
Definition ValidateSearchQuery (query : string) : option Status :=
  if (String.length query <? MinQueryLength)%nat
  then Some (NewValidationError "query must be at least 3 characters"
               (<["query" := "must be at least 3 characters, got " ++ pretty (Z.of_nat (String.length query))]> ∅))
  else None.

(** ** Theorems *)

(** The errors of the domain that have no entry. *)
Definition unmapped : list DomainError :=
  [ErrInvalidJobType; ErrNoTaskOrInstructions; ErrInvalidExecutionMode; ErrCyclicDependency;
   ErrInvalidPipelineID; ErrInvalidPipelineName; ErrEmptyPipeline; ErrInvalidQueryID; ErrInvalidQueryType;
   ErrEmptySQLQuery; ErrNonSelectQuery; ErrNoTargetDatasets; ErrInvalidLimit; ErrInvalidOffset;
   ErrQueryTimeout; ErrDownloadNotFound; ErrDownloadFailed; ErrCatalogNotFound; ErrEntryNotFound;
   ErrUnsupportedProtocol; ErrInvalidMessage; ErrTimeout].

Lemma domain_entry_None d : domain_entry d = None <-> d ∈ unmapped.
Proof.
  destruct d; split; intros Hd;
    first [done | by apply (bool_decide_eq_true_1 _) | by apply (bool_decide_eq_true_2 (_ ∈ unmapped)) in Hd].
Qed.

Lemma domain_entry_code d c s : domain_entry d = Some (c, s) -> c <> Internal /\ codeToReason c <> "UNKNOWN".
Proof. destruct d; intros Hd; try done; injection Hd as <- _; done. Qed.

Lemma domainErrorMapping_code e c s : domainErrorMapping e = Some (c, s) -> c <> Internal /\ codeToReason c <> "UNKNOWN".
Proof.
  destruct e as [st|d|[d| | |]|t]; cbn; try done; try apply domain_entry_code; by intros [= <- _].
Qed.

Section theorems.
Context `{DriverErrors}.

(** An error that is no status is reported as a failure of the server exactly if it
    is one of these, a failed statement, or not an error of the program at all;
    every other one carries the reason of its code. *)
Theorem internal_errors (e : GoErr) :
  (forall s, e <> GStatus s) ->
  (St_Code (MapDomainError e) = Internal <->
     (exists d, (e = GDomain d \/ e = GStore (EInvalid d)) /\ d ∈ unmapped) \/ e = GStore EFailed \/
     exists text, e = GOther text) /\
  (St_Code (MapDomainError e) <> Internal ->
     exists meta, St_Details (MapDomainError e) =
       [ErrorInfo (codeToReason (St_Code (MapDomainError e))) "bib.dev" meta] /\
     codeToReason (St_Code (MapDomainError e)) <> "UNKNOWN").
Proof.
  intros Hs. assert (forall e', e' = e -> MapDomainError e =
    match domainErrorMapping e' with Some (c, d) => NewDetailedError c d e' | None =>
      status_Error Internal ("internal error: " ++ GoErr_Error e') end) as Hm.
  { intros ? ->. destruct e; [by destruct (Hs s)|done..]. }
  rewrite (Hm e eq_refl). clear Hm. destruct (domainErrorMapping e) as [[c m]|] eqn:He; cbn.
  - destruct (domainErrorMapping_code _ _ _ He) as [Hc Hr]. split; [|intros _; eauto]. split; [done|].
    intros [(d & [-> | ->] & Hd%domain_entry_None)|[->|[t ->]]]; cbn in He; congruence.
  - split; [|done]. split; [|done]. intros _.
    destruct e as [s|d|[d| | |]|t]; cbn in He; try done; [by destruct (Hs s)| | |by right; left|by eauto];
      left; exists d; (split; [auto|by apply domain_entry_None]).
Qed.
End theorems.

Lemma internal_errors_witness :
  let _ := {| driver_text := "disk I/O error" |} in
  St_Code (MapDomainError (GDomain ErrCyclicDependency)) = Internal.
Proof.
  intros D. apply (internal_errors (GDomain ErrCyclicDependency)); [done|]. left. exists ErrCyclicDependency.
  split; [by left|]. by apply (bool_decide_unpack _).
Defined.
