(* ===== verification/GrpcServer.v ===== *)
(** * The gRPC server ([internal/grpc/middleware], [server_lifecycle.go], [service_deps.go])

    A handler is a function of a context and of the world it works on; an interceptor
    is a function of handlers.  The chain is built as [buildUnaryInterceptors] builds
    it; the stream interceptors do the same with the context of the stream.  Metrics
    and printed lines are left out.  The token bucket of [golang.org/x/time/rate] is
    the class [RateLib].

    Services are objects the server refers to: [NewServer] registers the objects of
    the moment, [ConfigureServices] replaces them by new ones. *)
From stdpp Require Import base gmap strings list pretty.
From Stdlib Require Import ZArith Lia Ascii SpecFloat.
From S2P Require Import Prelude GoStrings GoTime GoFloat Sql Domain GrpcErrors AuditLog.
From S2P Require Rbac.
Local Open Scope string_scope.
Local Open Scope Z_scope.
Local Open Scope bool_scope.

(** ** Contexts, handlers, interceptors *)

Record Ctx := mkCtx {
  ctx_md : Rbac.Metadata;
  ctx_peer : option string;
  ctx_user : option User;
  ctx_requestID : string;
}.

Definition WithUser (ctx : Ctx) (u : User) : Ctx := mkCtx (ctx_md ctx) (ctx_peer ctx) (Some u) (ctx_requestID ctx).
Definition WithRequestID (ctx : Ctx) (id : string) : Ctx := mkCtx (ctx_md ctx) (ctx_peer ctx) (ctx_user ctx) id.
Definition UserFromContext (ctx : Ctx) : option User := ctx_user ctx.
Definition RequestIDFromContext (ctx : Ctx) : string := ctx_requestID ctx.

Inductive Outcome (R : Type) :=
| Reply (r : R)
| Failed (s : Status)
| Panicked.
Arguments Reply {R} r.
Arguments Failed {R} s.
Arguments Panicked {R}.

(** What a call reads: a new UUID, the clock at its start, at its end, where the
    limiter and the entry of the log take it, and for the identifier of the entry. *)
Record Readings := mkReadings {
  rd_uuid : string;
  rd_start : Time;
  rd_end : Time;
  rd_limit : Time;
  rd_entry : Time;
  rd_nano : Z;
}.

Class RateLib := {
  Limiter : Type;
  NewLimiter : float64 -> Z -> Limiter;
  Limiter_Allow : Limiter -> Time -> Limiter * bool;
  first_allowed rps burst now : 0 < burst -> (Limiter_Allow (NewLimiter rps burst) now).2 = true;
}.

(** ** The rate limiter *)

Section limiter.
Context `{RateLib}.

Record RateLimiter := mkRateLimiter {
  rl_limiters : gmap string Limiter;
  rl_rps : float64;
  rl_burst : Z;
  rl_lastCleanup : Time;
  rl_cleanupAge : Duration;
}.

Definition NewRateLimiter (requestsPerSecond : float64) (burst : Z) (now : Time) : RateLimiter :=
  mkRateLimiter ∅ requestsPerSecond burst now (10 * Minute).

Definition cleanup (rl : RateLimiter) (now : Time) : RateLimiter :=
  mkRateLimiter (if 10000 <? Z.of_nat (size (rl_limiters rl)) then ∅ else rl_limiters rl)
    (rl_rps rl) (rl_burst rl) now (rl_cleanupAge rl).

Definition Allow (rl : RateLimiter) (key : string) (now : Time) : RateLimiter * bool :=
  let rl := if rl_cleanupAge rl <? now - rl_lastCleanup rl then cleanup rl now else rl in
  let limiter := match rl_limiters rl !! key with Some l => l | None => NewLimiter (rl_rps rl) (rl_burst rl) end in
  let '(limiter, ok) := Limiter_Allow limiter now in
  (mkRateLimiter (<[key := limiter]> (rl_limiters rl)) (rl_rps rl) (rl_burst rl) (rl_lastCleanup rl) (rl_cleanupAge rl), ok).

(** The address of a peer is that of its connection, port included. *)
Definition getRateLimitKey (ctx : Ctx) : string :=
  match UserFromContext ctx with
  | Some u => "user:" ++ User_ID u
  | None => match ctx_peer ctx with Some addr => "ip:" ++ addr | None => "unknown" end
  end.
End limiter.

(** ** The audit middleware *)

Record AuditConfig := mkAuditConfig {
  AC_Enabled : bool;
  AC_LogFailedOperations : bool;
  AC_NodeID : string;
}.

(** The services' prefix of the packages is that of the permission table. *)
Definition service_mutations : list (string * string) :=
  [("UserService/CreateUser", "CREATE"); ("UserService/UpdateUser", "UPDATE"); ("UserService/DeleteUser", "DELETE");
   ("UserService/SuspendUser", "UPDATE"); ("UserService/ActivateUser", "UPDATE"); ("UserService/SetUserRole", "UPDATE");
   ("UserService/UpdateCurrentUser", "UPDATE"); ("UserService/UpdateUserPreferences", "UPDATE");
   ("UserService/EndUserSession", "DELETE"); ("UserService/EndAllUserSessions", "DELETE");
   ("NodeService/ConnectPeer", "CREATE"); ("NodeService/DisconnectPeer", "DELETE"); ("NodeService/BanPeer", "CREATE");
   ("NodeService/UnbanPeer", "DELETE");
   ("TopicService/CreateTopic", "CREATE"); ("TopicService/UpdateTopic", "UPDATE"); ("TopicService/DeleteTopic", "DELETE");
   ("TopicService/Subscribe", "CREATE"); ("TopicService/Unsubscribe", "DELETE");
   ("DatasetService/CreateDataset", "CREATE"); ("DatasetService/UpdateDataset", "UPDATE");
   ("DatasetService/DeleteDataset", "DELETE"); ("DatasetService/UploadDataset", "CREATE");
   ("AdminService/UpdateConfig", "UPDATE"); ("AdminService/TriggerBackup", "CREATE"); ("AdminService/Shutdown", "DDL");
   ("JobService/CreateJob", "CREATE"); ("JobService/CancelJob", "UPDATE"); ("JobService/RetryJob", "UPDATE");
   ("AuthService/Logout", "DELETE");
   ("BreakGlassService/InitiateBreakGlass", "DDL"); ("BreakGlassService/EndBreakGlass", "DDL")].

Definition mutationMethods : gmap string string :=
  list_to_map (map (fun p => (Rbac.services_prefix ++ p.1, p.2)) service_mutations).

Definition TrimSuffix (s suffix : string) : string :=
  let b := bytes_of s in
  let n := (length b - String.length suffix)%nat in
  if (String.length suffix <=? length b)%nat && bool_decide (drop n b = bytes_of suffix) then str_of (take n b) else s.

Definition Code_String (c : Code) : string :=
  match c with
  | OK => "OK" | Canceled => "Canceled" | Unknown => "Unknown" | InvalidArgument => "InvalidArgument"
  | DeadlineExceeded => "DeadlineExceeded" | NotFound => "NotFound" | AlreadyExists => "AlreadyExists"
  | PermissionDenied => "PermissionDenied" | ResourceExhausted => "ResourceExhausted"
  | FailedPrecondition => "FailedPrecondition" | Aborted => "Aborted" | OutOfRange => "OutOfRange"
  | Unimplemented => "Unimplemented" | Internal => "Internal" | Unavailable => "Unavailable" | DataLoss => "DataLoss"
  | Unauthenticated => "Unauthenticated"
  end.

Definition Status_Error (s : Status) : string :=
  "rpc error: code = " ++ Code_String (St_Code s) ++ " desc = " ++ St_Message s.

Section audit.
Context `{UnicodeTables} `{Crypto}.

Definition extractResourceFromMethod (method : string) : string :=
  match Split_slash method with
  | _ :: servicePart :: _ :: _ =>
      match last (split_on (fun c => c =?= "."%char) (bytes_of servicePart)) with
      | Some service => ToLower (TrimSuffix (str_of service) "Service")
      | None => "unknown"
      end
  | _ => "unknown"
  end.

Definition hash_text (s : string) : list Z := sha256_Sum256 (map byte_of (bytes_of s)).
Definition generateOperationID (unixNano : Z) : string := EncodeToString (take 8 (hash_text (pretty unixNano))).
Definition hashString (s : string) : string := EncodeToString (hash_text s).

Definition entry_text (e : AuditEntry) : list ascii :=
  join_with ["|"%char] (map (fun s => bytes_of s)
    [RFC3339Nano (AuditEntry_Timestamp e); AuditEntry_NodeID e; AuditEntry_OperationID e; AuditEntry_Action e;
     AuditEntry_TableName e; AuditEntry_Actor e; AuditEntry_PrevHash e; pretty (AuditEntry_DurationMS e)]).
Definition calculateEntryHash (e : AuditEntry) : string :=
  EncodeToString (sha256_Sum256 (map byte_of (entry_text e))).

(** The actor and the address every entry names. *)
Definition actor_of (ctx : Ctx) : string := match UserFromContext ctx with Some u => User_ID u | None => "anonymous" end.
Definition client_ip (ctx : Ctx) : string := default "" (ctx_peer ctx).

(** An entry with its chain fields filled in; the error of [Log] is ignored. *)
Definition store_entry (repo : AuditRepository) (e : AuditEntry) (now : Time) : AuditRepository * option AuditError :=
  let e := with_hashes e (AuditRepository_GetLastHash repo) "" in
  let '(repo, _, err) := AuditRepository_Log repo (with_hashes e (AuditEntry_PrevHash e) (calculateEntryHash e)) now in
  (repo, err).

Definition suspicious (err : option Status) : bool :=
  match err with
  | Some s => (St_Code s =?= Unauthenticated) || (St_Code s =?= PermissionDenied)
  | None => false
  end.

(** [requestType] is the name of the message, which streams do not have. *)
Definition grpc_entry (cfg : AuditConfig) (ctx : Ctx) (method action : string) (requestType : option string)
    (err : option Status) (rd : Readings) : AuditEntry :=
  mkAuditEntry 0 (rd_entry rd) (AC_NodeID cfg) "" (generateOperationID (rd_nano rd)) "grpc" action
    (extractResourceFromMethod method) method (hashString method) 1 ((rd_end rd - rd_start rd) ÷ Millisecond) "grpc"
    (actor_of ctx)
    ([("method", AnyString method); ("client_ip", AnyString (client_ip ctx))] ++
     match requestType with Some t => [("request_type", AnyString t)] | None => [] end ++
     match err with
     | Some s => [("error", AnyString (Status_Error s)); ("error_code", AnyString (Code_String (St_Code s)))]
     | None => []
     end)%list
    "" "" (mkFlags false false (suspicious err) false).

Definition logAuditEntry (cfg : AuditConfig) (repo : AuditRepository) (ctx : Ctx) (method action : string)
    (requestType : option string) (err : option Status) (rd : Readings) : AuditRepository :=
  (store_entry repo (grpc_entry cfg ctx method action requestType err rd) (rd_entry rd)).1.

(** What a service logs itself; details overwrite the two fields of their names. *)
Definition LogServiceAction (cfg : AuditConfig) (repo : AuditRepository) (ctx : Ctx)
    (action resourceType resourceID : string) (details : list (string * GoAny)) (rd : Readings)
    : AuditRepository * option AuditError :=
  if negb (AC_Enabled cfg) then (repo, None)
  else
    let own := [("resource_id", AnyString resourceID); ("client_ip", AnyString (client_ip ctx))] in
    store_entry repo
      (mkAuditEntry 0 (rd_entry rd) (AC_NodeID cfg) "" (generateOperationID (rd_nano rd)) "grpc" action resourceType
         (action ++ " " ++ resourceType) (hashString (action ++ resourceType)) 1 0 "grpc" (actor_of ctx)
         (List.filter (fun p => negb (mem p.1 (map fst details))) own ++ details)%list "" "" no_flags)
      (rd_entry rd).

Definition LogMutation (cfg : AuditConfig) (repo : AuditRepository) (ctx : Ctx)
    (action resource resourceID description : string) (rd : Readings) : AuditRepository * option AuditError :=
  if negb (AC_Enabled cfg) then (repo, None)
  else
    store_entry repo
      (mkAuditEntry 0 (rd_entry rd) (AC_NodeID cfg) "" (generateOperationID (rd_nano rd)) "grpc" action resource
         description (hashString description) 1 0 "grpc" (actor_of ctx)
         [("resource_id", AnyString resourceID); ("client_ip", AnyString (client_ip ctx))] "" "" no_flags)
      (rd_entry rd).
End audit.

(** ** Interceptors *)

Section chain.
Context `{UnicodeTables} `{Crypto} `{RateLib} {D R : Type}.

Record World := mkWorld { w_limiter : option RateLimiter; w_audit : AuditRepository; w_db : D }.
Definition Handler : Type := Ctx -> World -> World * Outcome R.
Definition Interceptor : Type := Handler -> Handler.

Definition extractOrGenerateRequestID (ctx : Ctx) (rd : Readings) : string :=
  match ctx_md ctx with
  | Some md => match Rbac.md_get md "x-request-id" with
               | id :: _ => if id =?= "" then rd_uuid rd else id
               | [] => rd_uuid rd
               end
  | None => rd_uuid rd
  end.

Definition RequestIDUnaryInterceptor (rd : Readings) : Interceptor :=
  fun handler ctx => handler (WithRequestID ctx (extractOrGenerateRequestID ctx rd)).

(** The deferred function sees the context the interceptor was given. *)
Definition RecoveryUnaryInterceptor : Interceptor :=
  fun handler ctx w =>
    match handler ctx w with
    | (w, Panicked) =>
        (w, Failed (status_Error Internal ("internal server error (request_id: " ++ RequestIDFromContext ctx ++ ")")))
    | answer => answer
    end.

Definition LoggingUnaryInterceptor : Interceptor := fun handler => handler.

Definition set_limiter (w : World) (rl : RateLimiter) : World := mkWorld (Some rl) (w_audit w) (w_db w).
Definition set_audit (w : World) (repo : AuditRepository) : World := mkWorld (w_limiter w) repo (w_db w).

Definition RateLimitUnaryInterceptor (rd : Readings) : Interceptor :=
  fun handler ctx w =>
    match w_limiter w with
    | None => handler ctx w
    | Some rl =>
        let '(rl, ok) := Allow rl (getRateLimitKey ctx) (rd_limit rd) in
        let w := set_limiter w rl in
        if ok then handler ctx w else (w, Failed (status_Error ResourceExhausted "rate limit exceeded"))
    end.

Definition outcome_error (o : Outcome R) : option Status := match o with Failed s => Some s | _ => None end.

(** A panic passes the interceptor before it logs. *)
Definition AuditUnaryInterceptor (cfg : AuditConfig) (method : string) (requestType : option string) (rd : Readings)
    : Interceptor :=
  fun handler ctx w =>
    if negb (AC_Enabled cfg) then handler ctx w
    else match mutationMethods !! method with
         | None => handler ctx w
         | Some action =>
             let '(w, answer) := handler ctx w in
             match answer with
             | Panicked => (w, Panicked)
             | _ =>
                 let err := outcome_error answer in
                 (if bool_decide (err = None) || AC_LogFailedOperations cfg
                  then set_audit w (logAuditEntry cfg (w_audit w) ctx method action requestType err rd) else w, answer)
             end
         end.

(** [RBACInterceptor], which no chain contains. *)
Definition denial_status (d : Rbac.Denial) (method : string) : Status :=
  match d with
  | Rbac.UnknownMethod => status_Error PermissionDenied ("unknown method: " ++ method)
  | Rbac.MissingToken => status_Error Unauthenticated "missing authentication token"
  | Rbac.InvalidToken e => status_Error Unauthenticated ("invalid token: " ++ e)
  | Rbac.NotActive => status_Error PermissionDenied "user account is not active"
  | Rbac.InsufficientRole r => status_Error PermissionDenied ("insufficient permissions: requires " ++ r ++ " role")
  end.
Definition RBACInterceptor (cfg : Rbac.RBACConfig) (getUserFromToken : string -> result string User)
    (method : string) : Interceptor :=
  fun handler ctx w =>
    match Rbac.decide_rpc cfg getUserFromToken (ctx_md ctx) method with
    | Rbac.Refuse d => (w, Failed (denial_status d method))
    | Rbac.CallHandler None => handler ctx w
    | Rbac.CallHandler (Some u) => handler (WithUser ctx u) w
    end.

Record ServerConfig := mkServerConfig {
  Config_RateLimit : bool;
  Config_Audit : option AuditConfig;
  Config_RBAC : Rbac.RBACConfig;
}.

Definition buildUnaryInterceptors (cfg : ServerConfig) (method : string) (requestType : option string) (rd : Readings)
    : list Interceptor :=
  ([RecoveryUnaryInterceptor; RequestIDUnaryInterceptor rd; LoggingUnaryInterceptor] ++
   (if Config_RateLimit cfg then [RateLimitUnaryInterceptor rd] else []) ++
   match Config_Audit cfg with Some a => [AuditUnaryInterceptor a method requestType rd] | None => [] end)%list.

(** [grpc.ChainUnaryInterceptor]: the first one is outermost. *)
Definition chain (ics : list Interceptor) (handler : Handler) : Handler := fold_right (fun i h => i h) handler ics.

Definition serve (cfg : ServerConfig) (method : string) (requestType : option string) (rd : Readings)
    (handler : Handler) : Handler := chain (buildUnaryInterceptors cfg method requestType rd) handler.

(** The handler on the same call with nobody in its context. *)
Definition anonymous (handler : Handler) : Handler :=
  fun ctx => handler (mkCtx (ctx_md ctx) (ctx_peer ctx) None (ctx_requestID ctx)).

(** ** Theorems *)

Lemma anonymous_ctx (handler : Handler) ctx w : ctx_user ctx = None -> handler ctx w = anonymous handler ctx w.
Proof. by destruct ctx as [md p [u|] id]. Qed.

Definition keeps_user (i : Interceptor) : Prop :=
  forall h h' ctx w, ctx_user ctx = None ->
    (forall ctx' w', ctx_user ctx' = None -> h ctx' w' = h' ctx' w') -> i h ctx w = i h' ctx w.

Lemma chain_keeps_user ics h h' ctx w :
  Forall keeps_user ics -> ctx_user ctx = None ->
  (forall ctx' w', ctx_user ctx' = None -> h ctx' w' = h' ctx' w') -> chain ics h ctx w = chain ics h' ctx w.
Proof.
  intros His. revert ctx w. induction His as [|i ics Hi _ IH]; intros ctx w Hc Hh; [by apply Hh|]. cbn.
  apply Hi; [done|]. intros ctx' w' Hc'. by apply IH.
Qed.

Lemma interceptors_keep_user cfg method rt rd : Forall keeps_user (buildUnaryInterceptors cfg method rt rd).
Proof.
  unfold buildUnaryInterceptors. repeat first [apply Forall_app; split | apply Forall_cons; split | apply Forall_nil; done].
  - intros h h' ctx w Hc Hh. unfold RecoveryUnaryInterceptor. by rewrite Hh.
  - intros h h' ctx w Hc Hh. unfold RequestIDUnaryInterceptor. by apply Hh.
  - intros h h' ctx w Hc Hh. by apply Hh.
  - destruct (Config_RateLimit cfg); repeat constructor. intros h h' ctx w Hc Hh. unfold RateLimitUnaryInterceptor.
    destruct (w_limiter w) as [rl|]; [|by apply Hh]. destruct (Allow _ _ _) as [rl' []]; [by apply Hh|done].
  - destruct (Config_Audit cfg) as [a|]; repeat constructor. intros h h' ctx w Hc Hh. unfold AuditUnaryInterceptor.
    destruct (negb _); [by apply Hh|]. destruct (mutationMethods !! method); [|by apply Hh]. by rewrite Hh.
Qed.

(** C27: whatever access control the server is configured with, a call that arrives
    is handled as the call of nobody: the handler never finds a user in its context,
    for no method and no token. *)
Theorem handlers_run_anonymously cfg method rt rd (handler : Handler) ctx w :
  ctx_user ctx = None ->
  serve cfg method rt rd handler ctx w = serve cfg method rt rd (anonymous handler) ctx w.
Proof.
  intros Hc. apply chain_keeps_user; [apply interceptors_keep_user|done|]. intros. by apply anonymous_ctx.
Qed.

(** No panic of a handler leaves the server; the answer names no request, since the
    identifier is put into the context of the interceptors inside. *)
Theorem serve_answers cfg method rt rd (handler : Handler) ctx w :
  (serve cfg method rt rd handler ctx w).2 <> Panicked /\
  (Config_RateLimit cfg = false -> (forall ctx' w', (handler ctx' w').2 = Panicked) ->
   (serve cfg method rt rd handler ctx w).2 =
   Failed (status_Error Internal ("internal server error (request_id: " ++ ctx_requestID ctx ++ ")"))).
Proof.
  unfold serve, buildUnaryInterceptors. cbn [app chain fold_right]. unfold RecoveryUnaryInterceptor.
  set (h := RequestIDUnaryInterceptor _ _). split; [by destruct (h ctx w) as [w' []]|].
  intros Hr Hp. assert ((h ctx w).2 = Panicked) as Hh; [|by destruct (h ctx w) as [w' []]].
  subst h. rewrite Hr. cbn [app]. unfold RequestIDUnaryInterceptor, LoggingUnaryInterceptor.
  destruct (Config_Audit cfg) as [a|]; cbn; [|apply Hp]. unfold AuditUnaryInterceptor.
  destruct (negb _); [apply Hp|]. destruct (mutationMethods !! method); [|apply Hp].
  specialize (Hp (WithRequestID ctx (extractOrGenerateRequestID ctx rd)) w).
  by destruct (handler _ w) as [w' []].
Qed.

(** Without a limit a call reaches its handler, and what the handler answers is sent. *)
Lemma serve_unlimited cfg method rt rd (handler : Handler) ctx w :
  Config_RateLimit cfg = false ->
  let ctx' := WithRequestID ctx (extractOrGenerateRequestID ctx rd) in
  (handler ctx' w).2 <> Panicked ->
  (serve cfg method rt rd handler ctx w).2 = (handler ctx' w).2 /\
  w_db (serve cfg method rt rd handler ctx w).1 = w_db (handler ctx' w).1.
Proof.
  intros Hr ctx' Hp. unfold serve, buildUnaryInterceptors. rewrite Hr. cbn [app chain fold_right].
  unfold RecoveryUnaryInterceptor, RequestIDUnaryInterceptor, LoggingUnaryInterceptor. fold ctx'.
  destruct (Config_Audit cfg) as [a|]; cbn [fold_right].
  - unfold AuditUnaryInterceptor. destruct (negb _); [by destruct (handler ctx' w) as [w' []]|].
    destruct (mutationMethods !! method); [|by destruct (handler ctx' w) as [w' []]].
    destruct (handler ctx' w) as [w' answer]. cbn in Hp |- *. destruct answer; [..|done];
      cbv beta iota zeta; match goal with |- context [if ?b then _ else _] => destruct b end; done.
  - by destruct (handler ctx' w) as [w' []].
Qed.

(** What a handler does to nobody's calls is all that happens to the state. *)
Lemma serve_keeps_db cfg method rt rd (handler : Handler) ctx w :
  ctx_user ctx = None -> (forall ctx' w', ctx_user ctx' = None -> w_db (handler ctx' w').1 = w_db w') ->
  w_db (serve cfg method rt rd handler ctx w).1 = w_db w.
Proof.
  intros Hc Hh. unfold serve.
  assert (Forall (fun i : Interceptor => forall h, (forall ctx w, ctx_user ctx = None -> w_db (h ctx w).1 = w_db w) ->
    forall ctx w, ctx_user ctx = None -> w_db (i h ctx w).1 = w_db w) (buildUnaryInterceptors cfg method rt rd)) as His.
  { unfold buildUnaryInterceptors. repeat first [apply Forall_app; split | apply Forall_cons; split | apply Forall_nil; done].
    - intros h Hi ctx' w' Hc'. unfold RecoveryUnaryInterceptor. specialize (Hi ctx' w' Hc'). by destruct (h ctx' w') as [? []].
    - intros h Hi ctx' w' Hc'. by apply Hi.
    - intros h Hi ctx' w' Hc'. by apply Hi.
    - destruct (Config_RateLimit cfg); repeat constructor. intros h Hi ctx' w' Hc'. unfold RateLimitUnaryInterceptor.
      destruct (w_limiter w') as [rl|]; [|by apply Hi]. destruct (Allow _ _ _) as [rl' []]; [by rewrite Hi|done].
    - destruct (Config_Audit cfg) as [a|]; repeat constructor. intros h Hi ctx' w' Hc'. unfold AuditUnaryInterceptor.
      destruct (negb _); [by apply Hi|]. destruct (mutationMethods !! method); [|by apply Hi].
      specialize (Hi ctx' w' Hc'). destruct (h ctx' w') as [w1 answer]. cbn in Hi.
      destruct answer; cbv beta iota zeta; [..|done]; by match goal with |- context [if ?b then _ else _] => destruct b end. }
  revert ctx w Hc. induction His as [|i ics Hi _ IH]; intros ctx w Hc; [by apply Hh|]. cbn. by apply Hi.
Qed.

(** A peer that connects again gets a new budget: the key holds its port. *)
Theorem reconnect_evades_limit rd (handler : Handler) ctx w rl addr :
  ctx_user ctx = None -> ctx_peer ctx = Some addr -> w_limiter w = Some rl ->
  0 < rl_burst rl -> rl_limiters rl !! ("ip:" ++ addr)%string = None ->
  exists rl', RateLimitUnaryInterceptor rd handler ctx w = handler ctx (set_limiter w rl').
Proof.
  intros Hu Hp Hw Hb Hl. unfold RateLimitUnaryInterceptor. rewrite Hw.
  unfold getRateLimitKey, UserFromContext. rewrite Hu, Hp. unfold Allow.
  set (rl1 := if _ <? _ then _ else rl).
  assert (rl_limiters rl1 !! ("ip:" ++ addr)%string = None /\ rl_burst rl1 = rl_burst rl) as [Hn Hb1].
  { subst rl1. unfold cleanup. repeat case_match; cbn; try rewrite lookup_empty; done. }
  rewrite Hn. pose proof (first_allowed (rl_rps rl1) (rl_burst rl1) (rd_limit rd) ltac:(lia)) as Hf.
  destruct (Limiter_Allow _ _) as [l' ok]. cbn in Hf. subst ok. eauto.
Qed.
End chain.

(** *** The log *)

Section log.
Context `{UnicodeTables} `{Crypto} `{RateLib} {D R : Type}.

Lemma store_entry_refused repo e now : ~ AuditEntry_Action e ∈ audit_actions -> store_entry repo e now = (repo, Some ErrConstraint).
Proof.
  intros Ha. unfold store_entry, AuditRepository_Log. cbn zeta.
  assert (forall rows e', AuditEntry_Action e' = AuditEntry_Action e -> audit_row_ok rows e' = false) as Hno.
  { intros rows e' He. unfold audit_row_ok. by rewrite He, (proj2 (mem_false _ _) Ha). }
  rewrite Hno; [done|]. by destruct (_ && _).
Qed.

Lemma create_no_action : ~ "CREATE" ∈ audit_actions.
Proof. unfold audit_actions. set_solver. Qed.

(** The entry of a creation is refused: the interceptor leaves the log alone. *)
Lemma audit_of_create a method rt rd (handler : Handler (D := D) (R := R)) ctx w :
  mutationMethods !! method = Some "CREATE" -> (forall ctx' w', w_audit (handler ctx' w').1 = w_audit w') ->
  w_audit (AuditUnaryInterceptor a method rt rd handler ctx w).1 = w_audit w.
Proof.
  intros Hm Hh. unfold AuditUnaryInterceptor. destruct (negb _); [apply Hh|]. rewrite Hm.
  specialize (Hh ctx w). destruct (handler ctx w) as [w1 answer]. cbn in Hh.
  cbv beta iota zeta. destruct answer as [r|s|]; [| |exact Hh].
  1,2: match goal with |- context [if ?b then _ else _] => destruct b end; [|exact Hh];
    cbn [set_audit w_audit fst]; unfold logAuditEntry;
    rewrite store_entry_refused; [exact Hh|apply create_no_action].
Qed.

(** Nothing that creates is ever recorded: the table does not allow the action
    the middleware gives it, and the error is dropped.  The log after such a call
    is the one its handler left, and the service's own entry fails too. *)
Theorem creations_unaudited cfg method rt rd (handler : Handler (D := D) (R := R)) ctx w :
  mutationMethods !! method = Some "CREATE" -> (forall ctx' w', w_audit (handler ctx' w').1 = w_audit w') ->
  w_audit (serve cfg method rt rd handler ctx w).1 = w_audit w /\
  (forall a repo resource id details, AC_Enabled a = true ->
     LogServiceAction a repo ctx "CREATE" resource id details rd = (repo, Some ErrConstraint)).
Proof.
  intros Hm Hh. split.
  - unfold serve, buildUnaryInterceptors. cbn [app chain fold_right]. unfold RecoveryUnaryInterceptor.
    assert (forall ctx' w', w_audit (fold_right (fun i h => i h) handler
      match Config_Audit cfg with Some a => [AuditUnaryInterceptor a method rt rd] | None => [] end ctx' w').1 = w_audit w') as Ha.
    { intros ctx' w'. destruct (Config_Audit cfg) as [a|]; [by apply audit_of_create|apply Hh]. }
    unfold RequestIDUnaryInterceptor, LoggingUnaryInterceptor. set (h := fold_right _ _ _).
    assert (forall ctx' w', w_audit (h ctx' w').1 = w_audit w') as Hall.
    { subst h. rewrite fold_right_app. intros ctx' w'. destruct (Config_RateLimit cfg); cbn; [|apply Ha].
      unfold RateLimitUnaryInterceptor. destruct (w_limiter w') as [rl|]; [|apply Ha].
      destruct (Allow _ _ _) as [rl' []]; [|done]. by rewrite Ha. }
    specialize (Hall (WithRequestID ctx (extractOrGenerateRequestID ctx rd)) w). by destruct (h _ w) as [w' []].
  - intros a repo resource id details Ha. unfold LogServiceAction. rewrite Ha. cbn [negb].
    apply store_entry_refused, create_no_action.
Qed.

#[local] Instance byte_of_inj : Inj (=) (=) byte_of.
Proof. intros a b Heq. unfold byte_of in Heq. apply N2Z.inj in Heq. by rewrite <- (ascii_N_embedding a), Heq, ascii_N_embedding. Qed.

Lemma verify_rows_last p rows e : verify_rows p (rows ++ [e])%list = true -> AuditEntry_EntryHash e = CalculateHash e.
Proof. by intros (_ & _ & ?)%verify_rows_snoc. Qed.

(** The two texts of an entry differ after the third bar, where one has the action
    and the other the role. *)
Lemma texts_differ e : head (bytes_of (AuditEntry_Action e)) <> head (bytes_of (AuditEntry_RoleUsed e)) ->
  AuditEntry_Action e <> "" -> AuditEntry_RoleUsed e <> "" -> entry_text e <> hash_input e.
Proof.
  intros Hh Ha Hr Heq. unfold entry_text, hash_input, hashed_fields in Heq. cbn [map join_with] in Heq.
  do 6 apply app_inv_head in Heq. destruct (AuditEntry_Action e) as [|x a], (AuditEntry_RoleUsed e) as [|y r]; try done.
  cbn in Heq, Hh. injection Heq as Hxy _. congruence.
Qed.

Definition is_collision (x y : list Z) : Prop := x <> y /\ sha256_Sum256 x = sha256_Sum256 y.

Lemma calculateEntryHash_ne e : calculateEntryHash e <> "".
Proof.
  intros Heq. apply (f_equal (fun s => length (bytes_of s))) in Heq. unfold calculateEntryHash in Heq.
  by rewrite EncodeToString_length, sha256_length in Heq.
Qed.

Lemma store_entry_shape repo e now :
  AuditEntry_NodeID e <> "" -> AuditEntry_Timestamp e = now ->
  let e1 := with_hashes e (AuditRepository_GetLastHash repo) "" in
  let e2 := with_hashes e1 (AuditEntry_PrevHash e1) (calculateEntryHash e1) in
  ar_rows (store_entry repo e now).1 = ar_rows repo \/
  ar_rows (store_entry repo e now).1 = (ar_rows repo ++ [with_id e2 (Z.of_nat (S (length (ar_rows repo))))])%list.
Proof.
  intros Hn Ht e1 e2. unfold store_entry. fold e1. cbv zeta. fold e2. unfold AuditRepository_Log. cbv zeta.
  assert (with_origin e2 (if IsZero (AuditEntry_Timestamp e2) then now else AuditEntry_Timestamp e2)
    (if AuditEntry_NodeID e2 =?= "" then ar_nodeID repo else AuditEntry_NodeID e2) (AuditEntry_OperationID e2) = e2) as ->.
  { destruct e. cbn in *. subst. rewrite bool_decide_false by done. by destruct (IsZero now). }
  assert ((AuditEntry_EntryHash e2 =?= "") = false) as -> by apply bool_decide_false, calculateEntryHash_ne.
  rewrite andb_false_r. destruct (audit_row_ok _ _); [by right|by left].
Qed.

(** Every action of the table begins with a capital letter, the role does not. *)
Lemma mutation_actions method action :
  mutationMethods !! method = Some action -> action ∈ ["CREATE"; "UPDATE"; "DELETE"; "DDL"].
Proof.
  intros Hm. apply elem_of_list_to_map_2 in Hm.
  assert (forallb (fun p => mem p.2 ["CREATE"; "UPDATE"; "DELETE"; "DDL"]) service_mutations = true) as Hall
    by reflexivity.
  apply list_elem_of_In, in_map_iff in Hm as (p & [= _ <-] & Hp).
  rewrite forallb_forall in Hall. by apply mem_true, Hall.
Qed.

(** Once the middleware has stored an entry, the log no longer verifies, unless
    SHA-256 has a collision: the middleware hashes another text than the check. *)
Theorem grpc_entry_breaks_chain cfg repo ctx method action rt err rd :
  AC_NodeID cfg <> "" -> mutationMethods !! method = Some action ->
  ar_rows (logAuditEntry cfg repo ctx method action rt err rd) <> ar_rows repo ->
  verify_rows "" (ar_rows (logAuditEntry cfg repo ctx method action rt err rd)) = true ->
  exists x y, is_collision x y.
Proof.
  intros Hn Hm. set (e := grpc_entry cfg ctx method action rt err rd). unfold logAuditEntry. fold e.
  assert (AuditEntry_NodeID e = AC_NodeID cfg /\ AuditEntry_Timestamp e = rd_entry rd) as [He Ht] by (split; reflexivity).
  rewrite <- He in Hn. generalize (store_entry_shape repo e (rd_entry rd) Hn Ht). cbv zeta.
  intros [Hr|Hr]; rewrite Hr; clear Hr; [intros Hne; by destruct Hne|]. intros _ Hv%verify_rows_last.
  set (e1 := with_hashes e _ "") in *. rewrite CalculateHash_with_id in Hv.
  change (calculateEntryHash e1 = CalculateHash (with_hashes e1 (AuditEntry_PrevHash e1) (calculateEntryHash e1))) in Hv.
  exists (map byte_of (entry_text e1)), (map byte_of (hash_input e1)). split.
  - intros Heq. apply (inj (map byte_of)) in Heq. revert Heq. apply mutation_actions in Hm.
    apply texts_differ; cbn; [|intros ->|done]; set_solver.
  - apply EncodeToString_inj in Hv; [done|apply sha256_is_bytes..].
Qed.
End log.

(** ** What the handlers of the services share

    A handler of a service on its state [S] as a handler of the chain. *)
Definition answer_of {S A} (a : S * result Status A) : S * Outcome A :=
  (a.1, match a.2 with Ok v => Reply v | Err e => Failed e end).
Definition on_db `{RateLib} {S A} (f : S -> Ctx -> S * result Status A) : Handler (D := S) (R := A) :=
  fun ctx w => let '(s, answer) := answer_of (f (w_db w) ctx) in (mkWorld (w_limiter w) (w_audit w) s, answer).

(** The entry of a service that has a logger; its error is ignored. *)
Definition log_service `{UnicodeTables} `{Crypto} (logger : option AuditConfig) (repo : AuditRepository) (ctx : Ctx)
    (action resource id : string) (details : list (string * GoAny)) (rd : Readings) : AuditRepository :=
  match logger with None => repo | Some a => (LogServiceAction a repo ctx action resource id details rd).1 end.

Record PageRequest := mkPageRequest { Page_Limit : Z; Page_Offset : Z }.
Record PageInfo := mkPageInfo { TotalCount : Z; HasMore : bool; PageSize : Z }.

Definition page_limit (page : option PageRequest) : Z :=
  let l := match page with Some p => Page_Limit p | None => 0 end in
  let l := if l <=? 0 then 50 else l in
  if 1000 <? l then 1000 else l.
Definition page_offset (page : option PageRequest) : Z := match page with Some p => Page_Offset p | None => 0 end.

Definition page_info (page : option PageRequest) (n total : Z) : PageInfo :=
  mkPageInfo total (page_offset page + n <? total) (int32 n).

(** A page with a limit in range is a piece of the rows; more is announced exactly if
    rows come after it. *)
Lemma page_pieces {A} (rows : list A) limit offset :
  1 <= limit <= 1000 -> 0 <= offset ->
  let page := Some (mkPageRequest limit offset) in
  let piece := take (Z.to_nat limit) (drop (Z.to_nat offset) rows) in
  limited (page_limit page) (page_offset page) rows = Some piece /\
  page_info page (Z.of_nat (length piece)) (Z.of_nat (length rows)) =
  mkPageInfo (Z.of_nat (length rows)) (offset + limit <? Z.of_nat (length rows)) (Z.of_nat (length piece)).
Proof.
  intros Hl Ho page piece.
  assert (page_limit page = limit) as ->.
  { unfold page_limit. cbn. rewrite (proj2 (Z.leb_gt _ _)), (proj2 (Z.ltb_ge _ _)) by lia. done. }
  split; [by rewrite limited_take by lia|]. unfold page_info. cbn [page_offset Page_Offset page].
  assert (length piece = min (Z.to_nat limit) (length rows - Z.to_nat offset))%nat as Hlen
    by (unfold piece; by rewrite length_take, length_drop).
  rewrite int32_id by (unfold is_i32; lia). f_equal. apply Bool.eq_true_iff_eq. rewrite !Z.ltb_lt. lia.
Qed.

(** ** The services of a server *)

(** A service object, and whether it has what it needs to answer. *)
Record ServiceServers := mkServiceServers {
  ss_next : nat;
  ss_object : gmap string nat;
  ss_ready : gmap nat bool;
}.

Definition service_names : list string :=
  ["Health"; "Auth"; "User"; "Node"; "Topic"; "Dataset"; "Admin"; "Query"; "Job"; "BreakGlass"].

(** [ss.name = ...]: a new object. *)
Definition put_service (ss : ServiceServers) (name : string) (ready : bool) : ServiceServers :=
  mkServiceServers (S (ss_next ss)) (<[name := ss_next ss]> (ss_object ss)) (<[ss_next ss := ready]> (ss_ready ss)).

Definition NewServiceServers : ServiceServers :=
  fold_left (fun ss name => put_service ss name false) service_names (mkServiceServers 0 ∅ ∅).

(** The health service keeps its object and gets the provider. *)
Definition SetHealthProvider (ss : ServiceServers) : ServiceServers :=
  match ss_object ss !! "Health" with
  | Some o => mkServiceServers (ss_next ss) (ss_object ss) (<[o := true]> (ss_ready ss))
  | None => ss
  end.

Record ServiceDependencies := mkServiceDependencies {
  Has_AuthService : bool;
  Has_Store : bool;
  Has_NodeManager : bool;
  Has_BreakGlassMgr : bool;
}.

Definition put_if (b : bool) (name : string) (ready : bool) (ss : ServiceServers) : ServiceServers :=
  if b then put_service ss name ready else ss.

Definition ConfigureServices (deps : ServiceDependencies) (ss : ServiceServers) : ServiceServers :=
  let ss := put_if (Has_AuthService deps) "Auth" true ss in
  let ss := put_if (Has_Store deps) "User" true ss in
  let ss := put_if (Has_NodeManager deps) "Node" true ss in
  let ss := put_if (Has_Store deps) "Topic" true ss in
  let ss := put_if (Has_Store deps) "Dataset" true ss in
  let ss := put_service ss "Admin" true in
  let ss := put_if (Has_Store deps) "Query" true ss in
  let ss := put_service ss "Job" false in
  put_if (Has_BreakGlassMgr deps) "BreakGlass" true ss.

(** The server: its services and what its two listeners were registered with. *)
Record GServer := mkGServer {
  gs_services : ServiceServers;
  gs_tcp : gmap string nat;
  gs_local : gmap string nat;
}.

Definition registerServices (ss : ServiceServers) : gmap string nat := ss_object ss.

Definition NewServer (health_provider : bool) : GServer :=
  let ss := NewServiceServers in
  let ss := if health_provider then SetHealthProvider ss else ss in
  mkGServer ss (registerServices ss) ∅.

Definition configure (deps : ServiceDependencies) (s : GServer) : GServer :=
  mkGServer (ConfigureServices deps (gs_services s)) (gs_tcp s) (gs_local s).

(** [createLocalServer], when the socket is opened. *)
Definition createLocalServer (s : GServer) : GServer :=
  mkGServer (gs_services s) (gs_tcp s) (registerServices (gs_services s)).

(** Whether a call of a listener reaches a service that can answer. *)
Definition answers (s : GServer) (table : gmap string nat) (name : string) : bool :=
  match table !! name with
  | Some o => default false (ss_ready (gs_services s) !! o)
  | None => false
  end.

(** Configuring the services of a server does not reach the objects its network
    listener calls: each of them but the health service answers nobody, while the
    listener of the local socket, opened later, has the new ones. *)
Theorem configured_services_unreachable provider deps name :
  name ∈ service_names ->
  let s := createLocalServer (configure deps (NewServer provider)) in
  answers s (gs_tcp s) name = (name =?= "Health") && provider /\
  answers s (gs_local s) name =
    ((name =?= "Health") && provider || (name =?= "Auth") && Has_AuthService deps ||
     mem name ["User"; "Topic"; "Dataset"; "Query"] && Has_Store deps || (name =?= "Node") && Has_NodeManager deps ||
     (name =?= "Admin") || (name =?= "BreakGlass") && Has_BreakGlassMgr deps).
Proof.
  intros Hin s. assert (forallb (fun n =>
    bool_decide (answers s (gs_tcp s) n = (n =?= "Health") && provider) &&
    bool_decide (answers s (gs_local s) n =
      ((n =?= "Health") && provider || (n =?= "Auth") && Has_AuthService deps ||
       mem n ["User"; "Topic"; "Dataset"; "Query"] && Has_Store deps || (n =?= "Node") && Has_NodeManager deps ||
       (n =?= "Admin") || (n =?= "BreakGlass") && Has_BreakGlassMgr deps))) service_names = true) as Hall.
  { subst s. destruct provider, deps as [[] [] [] []]; vm_compute; reflexivity. }
  rewrite forallb_forall in Hall. apply list_elem_of_In, Hall in Hin.
  apply andb_true_iff in Hin as [H1 H2]. by apply bool_decide_eq_true in H1, H2.
Qed.

(** ** Witnesses *)

Section witnesses.
Existing Instance identity_tables.
#[local] Instance constant_hash : Crypto.
Proof.
  refine {| sha256_Sum256 _ := replicate 32 0; ed25519_Verify _ _ _ := false |}.
  - intros _. apply length_replicate.
  - intros _. apply Forall_replicate. by vm_compute.
Defined.

(** Buckets that never empty. *)
#[local] Instance no_limit : RateLib :=
  {| Limiter := unit; NewLimiter _ _ := tt; Limiter_Allow l _ := (l, true); first_allowed _ _ _ _ := eq_refl |}.

Definition caller : Ctx := mkCtx (Some {[ "x-session-token" := ["s1"] ]}) (Some "10.0.0.9:4242") None "".
Definition call_readings : Readings := mkReadings "u-1" 5 7 5 7 99.
Definition audited : AuditConfig := mkAuditConfig true true "n1".
Definition guarded_server : ServerConfig := mkServerConfig true (Some audited) (Rbac.mkRBACConfig true false).
Definition empty_world : World (D := unit) := mkWorld (Some (NewRateLimiter (float_of_int 10) 5 0)) (open_audit "n1" []) tt.

(** A handler that tells who calls. *)
Definition who : Handler (D := unit) (R := string) := fun ctx w => (w, Reply (actor_of ctx)).

Lemma handlers_run_anonymously_witness :
  (serve guarded_server "/bib.v1.services.UserService/SetUserRole" None call_readings who caller empty_world).2 =
  Reply "anonymous".
Proof.
  rewrite (handlers_run_anonymously guarded_server _ None call_readings who caller empty_world eq_refl).
  vm_compute. reflexivity.
Defined.

Lemma creations_unaudited_witness :
  w_audit (serve guarded_server "/bib.v1.services.UserService/CreateUser" None call_readings who caller empty_world).1 =
  open_audit "n1" [].
Proof.
  refine (proj1 (creations_unaudited guarded_server "/bib.v1.services.UserService/CreateUser" None call_readings
                   who caller empty_world _ _)); [reflexivity|done].
Defined.

Lemma grpc_entry_breaks_chain_witness : exists x y, is_collision x y.
Proof.
  apply (grpc_entry_breaks_chain audited (open_audit "n1" []) caller "/bib.v1.services.UserService/DeleteUser" "DELETE"
           None None call_readings); [done|reflexivity|by vm_compute|vm_compute; reflexivity].
Defined.

Lemma reconnect_evades_limit_witness :
  exists rl', RateLimitUnaryInterceptor call_readings who caller empty_world = who caller (set_limiter empty_world rl').
Proof.
  apply (reconnect_evades_limit call_readings who caller empty_world (NewRateLimiter (float_of_int 10) 5 0)
           "10.0.0.9:4242"); reflexivity.
Defined.

Lemma serve_answers_witness :
  let panics : Handler (D := unit) (R := unit) := fun _ w => (w, Panicked) in
  (serve (mkServerConfig false None (Rbac.mkRBACConfig true false)) "m" None call_readings panics caller empty_world).2 =
  Failed (status_Error Internal "internal server error (request_id: )").
Proof. intros panics. by apply (proj2 (serve_answers (mkServerConfig false None _) "m" None call_readings panics caller empty_world)). Defined.

Lemma configured_services_unreachable_witness :
  answers (createLocalServer (configure (mkServiceDependencies true true true true) (NewServer true)))
    (gs_tcp (createLocalServer (configure (mkServiceDependencies true true true true) (NewServer true)))) "User" = false.
Proof.
  refine (proj1 (configured_services_unreachable true (mkServiceDependencies true true true true) "User" _)).
  unfold service_names. set_solver.
Defined.
End witnesses.
