(* ===== verification/UserService.v ===== *)
(** * The user service ([internal/grpc/services/user], [internal/storage/sqlite/user_preferences.go])

    The handlers over the tables of users and sessions ([Accounts]), the table of
    preferences and the log of the audit middleware ([GrpcServer]).  A handler takes
    the context it finds, its request and the readings of the clock; it returns the
    state after it and an answer or a status.  A service whose store was never set
    answers nothing else than that. *)
From stdpp Require Import base gmap strings list.
From Stdlib Require Import ZArith Lia.
From S2P Require Import Prelude GoStrings GoTime Sql Domain GrpcErrors AuditLog Accounts GrpcServer.
From S2P Require Rbac.
Local Open Scope string_scope.
Local Open Scope Z_scope.
Local Open Scope bool_scope.

(** ** Messages ([converters.go]) *)

Definition domainUserStatusToProto (s : UserStatus) : Z :=
  if s =?= UserStatusActive then 1 else if s =?= UserStatusPending then 2
  else if s =?= UserStatusSuspended then 3 else if s =?= UserStatusDeleted then 4 else 0.
Definition protoUserStatusToDomain (n : Z) : UserStatus :=
  if n =? 1 then UserStatusActive else if n =? 2 then UserStatusPending
  else if n =? 3 then UserStatusSuspended else if n =? 4 then UserStatusDeleted else "".
Definition domainUserRoleToProto (r : UserRole) : Z :=
  if r =?= UserRoleAdmin then 1 else if r =?= UserRoleUser then 2 else if r =?= UserRoleReadonly then 3 else 0.
Definition protoUserRoleToDomain (n : Z) : UserRole :=
  if n =? 1 then UserRoleAdmin else if n =? 2 then UserRoleUser else if n =? 3 then UserRoleReadonly else "".
Definition sessionTypeToProto (t : string) : Z :=
  if t =?= SessionTypeSSH then 1 else if t =?= SessionTypeGRPC then 2 else if t =?= SessionTypeAPI then 3 else 0.

Record PbUser := mkPbUser {
  PbUser_Id : string;
  PbUser_PublicKey : list Z;
  PbUser_KeyType : string;
  PbUser_PublicKeyFingerprint : string;
  PbUser_Name : string;
  PbUser_Email : string;
  PbUser_Status : Z;
  PbUser_Role : Z;
  PbUser_Locale : string;
  PbUser_CreatedAt : Time;
  PbUser_UpdatedAt : Time;
  PbUser_LastLoginAt : option Time;
  PbUser_Metadata : gmap string string;
}.
Definition userToProto (u : User) : PbUser :=
  mkPbUser (User_ID u) (User_PublicKey u) (User_KeyType u) (User_PublicKeyFingerprint u) (User_Name u) (User_Email u)
    (domainUserStatusToProto (User_Status u)) (domainUserRoleToProto (User_Role u)) (User_Locale u)
    (User_CreatedAt u) (User_UpdatedAt u) (User_LastLoginAt u) (User_Metadata u).

Record PbSession := mkPbSession {
  PbSession_Id : string;
  PbSession_UserId : string;
  PbSession_Type : Z;
  PbSession_ClientIp : string;
  PbSession_ClientAgent : string;
  PbSession_PublicKeyFingerprint : string;
  PbSession_NodeId : string;
  PbSession_StartedAt : Time;
  PbSession_LastActivityAt : Time;
  PbSession_EndedAt : option Time;
  PbSession_Metadata : gmap string string;
}.
Definition sessionToProto (s : Session) : PbSession :=
  mkPbSession (Session_ID s) (Session_UserID s) (sessionTypeToProto (Session_Type s)) (Session_ClientIP s)
    (Session_ClientAgent s) (Session_PublicKeyFingerprint s) (Session_NodeID s) (Session_StartedAt s)
    (Session_LastActivityAt s) (Session_EndedAt s) (Session_Metadata s).

(** ** Preferences *)

Record UserPreferences := mkUserPreferences {
  UP_UserID : UserID;
  UP_Theme : string;
  UP_Locale : string;
  UP_Timezone : string;
  UP_DateFormat : string;
  UP_NotificationsEnabled : bool;
  UP_EmailNotifications : bool;
  UP_Custom : option (gmap string string);
  UP_CreatedAt : Time;
  UP_UpdatedAt : Time;
}.

Definition default_prefs (user : UserID) (created updated : Time) : UserPreferences :=
  mkUserPreferences user "system" "en" "UTC" "YYYY-MM-DD" true false None created updated.

(** The zone of the row's times is UTC and their text ends with the second. *)
Definition whole_second (t : Time) : Time := t / Second * Second.

Definition Prefs_Get (rows : list UserPreferences) (user : UserID) (created updated : Time) : UserPreferences :=
  match row_of UP_UserID user rows with Some p => p | None => default_prefs user created updated end.

(** The CHECK and the foreign key of the table. *)
Definition prefs_row_ok (users : list User) (p : UserPreferences) : bool :=
  mem (UP_Theme p) ["light"; "dark"; "system"] && mem (UP_UserID p) (map User_ID users).

Definition prefs_row (p : UserPreferences) (created updated : Time) : UserPreferences :=
  mkUserPreferences (UP_UserID p) (UP_Theme p) (UP_Locale p) (UP_Timezone p) (UP_DateFormat p)
    (UP_NotificationsEnabled p) (UP_EmailNotifications p) (UP_Custom p) created updated.

(** After an update the trigger of the table sets [updated_at] again, in milliseconds. *)
Definition Prefs_Upsert (users : list User) (rows : list UserPreferences) (p : UserPreferences) (now trigger : Time)
    : list UserPreferences * option StoreError :=
  if negb (prefs_row_ok users p) then (rows, Some EFailed)
  else (upsert UP_UserID (UP_UserID p)
          (fun old => prefs_row p (UP_CreatedAt old) (trigger / Millisecond * Millisecond))
          (prefs_row p (whole_second now) (whole_second now)) rows, None).

Definition Prefs_Delete (rows : list UserPreferences) (user : UserID) : list UserPreferences :=
  delete_row UP_UserID user rows.

(** ** The server *)

Record UserServer := mkUserServer {
  us_ready : bool;
  us_logger : option AuditConfig;
  us_store : Service;
  us_prefs : list UserPreferences;
  us_audit : AuditRepository;
}.

Definition set_store (s : UserServer) (v : Service) : UserServer :=
  mkUserServer (us_ready s) (us_logger s) v (us_prefs s) (us_audit s).
Definition set_prefs (s : UserServer) (l : list UserPreferences) : UserServer :=
  mkUserServer (us_ready s) (us_logger s) (us_store s) l (us_audit s).
Definition set_log (s : UserServer) (r : AuditRepository) : UserServer :=
  mkUserServer (us_ready s) (us_logger s) (us_store s) (us_prefs s) r.

(** The readings of the clock of one call: a new user, an update, the end of
    sessions; those of the log are [rd].  [ck_ends] tells whether the statement
    that ends all sessions of a user succeeds. *)
Record Clock := mkClock { ck_new : Time; ck_update : Time; ck_end : Time; ck_ends : bool; ck_log : Readings }.

Definition Answer (A : Type) : Type := UserServer * result Status A.

Definition account_err (e : AccountError) : GoErr :=
  match e with
  | EDomain e => GDomain e
  | EEmailRequired => GOther "email is required"
  | EConstraint => GStore EFailed
  end.

Section service.
Context `{UnicodeTables} `{Crypto} `{DriverErrors} `{SessionOrder} `{OrderClause User}.

Definition log_action (s : UserServer) (ctx : Ctx) (action resource id : string) (details : list (string * GoAny))
    (ck : Clock) : UserServer :=
  match us_logger s with
  | None => s
  | Some a => set_log s (LogServiceAction a (us_audit s) ctx action resource id details (ck_log ck)).1
  end.

Definition map_err {A} (s : UserServer) (e : AccountError) : Answer A := (s, Err (MapDomainError (account_err e))).

(** [Get], changes, [Update]: the user that was read is the one written and sent. *)
Definition get_user (s : UserServer) (id : UserID) : result AccountError User := Users_Get (sv_users (us_store s)) id.
Definition update_user (s : UserServer) (u : User) (now : Time) : UserServer * option AccountError :=
  let '(sv, err) := UpdateUser (us_store s) u now in (set_store s sv, err).
Definition sent (u : User) (now : Time) : PbUser := userToProto (set_updated u now).

Definition guarded {A} (s : UserServer) (k : Answer A) : Answer A :=
  if us_ready s then k else (s, Err not_initialized).
Definition with_id {A} (s : UserServer) (id field : string) (k : Answer A) : Answer A :=
  if id =?= "" then (s, Err (required field)) else k.

Definition GetUser (s : UserServer) (id : UserID) : Answer PbUser :=
  guarded s (with_id s id "user_id"
    match get_user s id with Err e => map_err s e | Ok u => (s, Ok (userToProto u)) end).

Definition GetUserByPublicKey (s : UserServer) (key : list Z) : Answer PbUser :=
  guarded s
    (if (length key =? 0)%nat then (s, Err (required "public_key"))
     else match Users_GetByPublicKey (sv_users (us_store s)) key with
          | Err e => map_err s e
          | Ok u => (s, Ok (userToProto u))
          end).

(** *** Listings *)

(** [Users().List] and [Users().Count] with the same filter. *)
Definition Users_List (rows : list User) (f : UserFilter) (field : string) (desc : bool) (limit offset : Z)
    : option (list User) :=
  match order_clause (sort_clause "name" field desc) (List.filter (user_matches f) rows) with
  | None => None
  | Some rows => limited limit offset rows
  end.

Definition list_users (s : UserServer) (f : UserFilter) (field : string) (desc : bool) (page : option PageRequest)
    : Answer (list PbUser * PageInfo) :=
  match Users_List (sv_users (us_store s)) f field desc (page_limit page) (page_offset page) with
  | None => map_err s EConstraint
  | Some users =>
      (s, Ok (map userToProto users, page_info page (Z.of_nat (length users)) (Users_Count (sv_users (us_store s)) f)))
  end.

Definition ListUsers (s : UserServer) (status role : Z) (page : option PageRequest) (sort : option (string * bool))
    : Answer (list PbUser * PageInfo) :=
  guarded s (list_users s (mkUserFilter (protoUserStatusToDomain status) (protoUserRoleToDomain role) "")
               (match sort with Some (f, _) => f | None => "" end) (match sort with Some (_, d) => d | None => false end) page).

Definition SearchUsers (s : UserServer) (query : string) (status role : Z) (page : option PageRequest)
    : Answer (list PbUser * PageInfo) :=
  guarded s
    match ValidateSearchQuery query with
    | Some e => (s, Err e)
    | None => list_users s (mkUserFilter (protoUserStatusToDomain status) (protoUserRoleToDomain role) query) "" false page
    end.

(** *** Accounts *)

Record CreateUserRequest := mkCreateUserRequest {
  CU_PublicKey : list Z;
  CU_KeyType : string;
  CU_Name : string;
  CU_Email : string;
  CU_Role : Z;
}.

Definition violations (req : CreateUserRequest) : gmap string string :=
  let add (b : bool) f m := if b then <[f := "must not be empty"]> m else m in
  add (length (CU_PublicKey req) =? 0)%nat "public_key"
    (add (CU_KeyType req =?= "") "key_type" (add (CU_Name req =?= "") "name" ∅)).

Definition requested_user (req : CreateUserRequest) (now : Time) : User :=
  let u := NewUser now (CU_PublicKey req) (CU_KeyType req) (CU_Name req) (CU_Email req) false in
  if CU_Role req =? 0 then u else set_role u (protoUserRoleToDomain (CU_Role req)).

Definition CreateUser (s : UserServer) (ctx : Ctx) (req : CreateUserRequest) (ck : Clock) : Answer PbUser :=
  guarded s
    (if bool_decide (violations req <> ∅)
     then (s, Err (NewValidationError "invalid create user request" (violations req)))
     else if Users_Exists (sv_users (us_store s)) (CU_PublicKey req)
     then (s, Err (MapDomainError (GDomain ErrUserExists)))
     else
       let u := requested_user req (ck_new ck) in
       match Users_Create (sv_users (us_store s)) u with
       | (_, Some e) => map_err s e
       | (users, None) =>
           (log_action (set_store s (set_users (us_store s) users)) ctx "CREATE" "user" (User_ID u)
              [("name", AnyString (User_Name u))] ck, Ok (userToProto u))
       end).

Record UserEdit := mkUserEdit {
  UE_Name : option string;
  UE_Email : option string;
  UE_Locale : option string;
  UE_Metadata : option (gmap string string);
}.
Definition edit_user (u : User) (e : UserEdit) : User :=
  mkUser (User_ID u) (User_PublicKey u) (User_KeyType u) (User_PublicKeyFingerprint u)
    (default (User_Name u) (UE_Name e)) (default (User_Email u) (UE_Email e)) (User_Status u) (User_Role u)
    (default (User_Locale u) (UE_Locale e)) (User_CreatedAt u) (User_UpdatedAt u) (User_LastLoginAt u)
    (default (User_Metadata u) (UE_Metadata e)).

(** The rest of a handler that read a user: an edit that validates, an update. *)
Definition validated_update (s : UserServer) (u : User) (ck : Clock) (k : UserServer -> UserServer) : Answer PbUser :=
  match User_Validate u with
  | Some e => (s, Err (MapDomainError (GDomain e)))
  | None =>
      match update_user s u (ck_update ck) with
      | (s, Some e) => map_err s e
      | (s, None) => (k s, Ok (sent u (ck_update ck)))
      end
  end.

(** [UE_Metadata] is the map of a request that asks to update it and has one. *)
Definition UserService_UpdateUser (s : UserServer) (ctx : Ctx) (id : UserID) (e : UserEdit) (ck : Clock) : Answer PbUser :=
  guarded s (with_id s id "user_id"
    match get_user s id with
    | Err err => map_err s err
    | Ok u => validated_update s (edit_user u e) ck (fun s => log_action s ctx "UPDATE" "user" (User_ID u) [] ck)
    end).

(** [EndAllForUser]; when it fails the sessions stay as they are. *)
Definition end_sessions (s : UserServer) (id : UserID) (ck : Clock) : UserServer * option AccountError :=
  if ck_ends ck then (set_store s (EndAllSessions (us_store s) id (ck_end ck)), None) else (s, Some EConstraint).

Definition UserService_DeleteUser (s : UserServer) (ctx : Ctx) (id : UserID) (ck : Clock) : Answer unit :=
  guarded s (with_id s id "user_id"
    match Users_Delete (sv_users (us_store s)) id (ck_update ck) with
    | (_, Some e) => map_err s e
    | (users, None) =>
        let '(s, _) := end_sessions (set_store s (set_users (us_store s) users)) id ck in
        (log_action s ctx "DELETE" "user" id [] ck, Ok tt)
    end).

(** The three handlers that read a user, set one field and write it back. *)
Definition set_field (s : UserServer) (id : UserID) (f : User -> User) (ck : Clock) (k : UserServer -> User -> UserServer)
    : Answer PbUser :=
  match get_user s id with
  | Err e => map_err s e
  | Ok u =>
      match update_user s (f u) (ck_update ck) with
      | (s, Some e) => map_err s e
      | (s, None) => (k s u, Ok (sent (f u) (ck_update ck)))
      end
  end.

Definition UserService_SuspendUser (s : UserServer) (ctx : Ctx) (id : UserID) (reason : string) (ck : Clock) : Answer PbUser :=
  guarded s (with_id s id "user_id"
    (set_field s id (fun u => set_user_status u UserStatusSuspended) ck (fun s _ =>
       log_action (end_sessions s id ck).1 ctx "UPDATE" "user" id
         [("action", AnyString "suspend"); ("reason", AnyString reason)] ck))).

Definition UserService_ActivateUser (s : UserServer) (ctx : Ctx) (id : UserID) (ck : Clock) : Answer PbUser :=
  guarded s (with_id s id "user_id"
    (set_field s id (fun u => set_user_status u UserStatusActive) ck (fun s _ =>
       log_action s ctx "UPDATE" "user" id [("action", AnyString "activate")] ck))).

Definition UserService_SetUserRole (s : UserServer) (ctx : Ctx) (id : UserID) (role : Z) (ck : Clock) : Answer PbUser :=
  guarded s (with_id s id "user_id"
    (if role =? 0 then (s, Err (NewValidationError "role is required" {[ "role" := "must be specified" ]}))
     else
       let new := protoUserRoleToDomain role in
       set_field s id (fun u => set_role u new) ck (fun s u =>
         log_action s ctx "UPDATE" "user" id
           [("action", AnyString "set_role"); ("old_role", AnyString (User_Role u)); ("new_role", AnyString new)] ck))).

(** *** The caller's own account *)

Definition GetCurrentUser (s : UserServer) (ctx : Ctx) : Answer PbUser :=
  guarded s match UserFromContext ctx with None => (s, Err not_authenticated) | Some u => (s, Ok (userToProto u)) end.

Definition UpdateCurrentUser (s : UserServer) (ctx : Ctx) (name email locale : option string) (ck : Clock) : Answer PbUser :=
  guarded s
    match UserFromContext ctx with
    | None => (s, Err not_authenticated)
    | Some me =>
        match get_user s (User_ID me) with
        | Err e => map_err s e
        | Ok u => validated_update s (edit_user u (mkUserEdit name email locale None)) ck (fun s => s)
        end
    end.

(** The user a request is about: the one it names, or the caller. *)
Definition subject (ctx : Ctx) (id : UserID) : option UserID :=
  if id =?= "" then User_ID <$> UserFromContext ctx else Some id.

Definition GetUserPreferences (s : UserServer) (ctx : Ctx) (id : UserID) (now now' : Time) : Answer UserPreferences :=
  guarded s
    match subject ctx id with
    | None => (s, Err not_authenticated)
    | Some user => (s, Ok (Prefs_Get (us_prefs s) user now now'))
    end.

(** Empty texts and an absent map of the message leave the stored value. *)
Definition merge_prefs (p : UserPreferences) (req : UserPreferences) : UserPreferences :=
  let pick old new := if new =?= "" then old else new in
  mkUserPreferences (UP_UserID p) (pick (UP_Theme p) (UP_Theme req)) (pick (UP_Locale p) (UP_Locale req))
    (pick (UP_Timezone p) (UP_Timezone req)) (pick (UP_DateFormat p) (UP_DateFormat req))
    (UP_NotificationsEnabled req) (UP_EmailNotifications req)
    (match UP_Custom req with Some c => Some c | None => UP_Custom p end) (UP_CreatedAt p) (UP_UpdatedAt p).

Definition UpdateUserPreferences (s : UserServer) (ctx : Ctx) (req : option UserPreferences) (now now' : Time)
    (written trigger : Time) : Answer UserPreferences :=
  guarded s
    match UserFromContext ctx with
    | None => (s, Err not_authenticated)
    | Some me =>
        let p := Prefs_Get (us_prefs s) (User_ID me) now now' in
        let p := match req with Some r => merge_prefs p r | None => p end in
        match Prefs_Upsert (sv_users (us_store s)) (us_prefs s) p written trigger with
        | (_, Some e) => (s, Err (MapDomainError (GStore e)))
        | (rows, None) => (set_prefs s rows, Ok p)
        end
    end.

(** *** Sessions *)

Definition UserService_ListUserSessions (s : UserServer) (ctx : Ctx) (id : UserID) : Answer (list PbSession) :=
  guarded s
    match subject ctx id with
    | None => (s, Err not_authenticated)
    | Some user => (s, Ok (map sessionToProto (ListUserSessions (us_store s) user)))
    end.

Definition EndUserSession (s : UserServer) (ctx : Ctx) (id : string) (ck : Clock) : Answer unit :=
  guarded s (with_id s id "session_id"
    match EndSession (us_store s) id (ck_end ck) with
    | (_, Some e) => map_err s e
    | (sv, None) => (log_action (set_store s sv) ctx "DELETE" "session" id [] ck, Ok tt)
    end).

(** The number it answers with is always zero. *)
Definition EndAllUserSessions (s : UserServer) (ctx : Ctx) (id : UserID) (ck : Clock) : Answer Z :=
  guarded s (with_id s id "user_id"
    match end_sessions s id ck with
    | (_, Some e) => map_err s e
    | (s, None) => (log_action s ctx "DELETE" "session" id [("action", AnyString "end_all")] ck, Ok 0)
    end).
End service.

(** ** Theorems *)

Section theorems.
Context `{UnicodeTables} `{Crypto} `{DriverErrors} `{SessionOrder} `{OrderClause User}.

(** *** The tables of the authentication service *)

Lemma log_action_store s ctx action resource id details ck :
  us_store (log_action s ctx action resource id details ck) = us_store s.
Proof. unfold log_action. by destruct (us_logger s). Qed.

(** What a handler that reads a user, changes it and writes it does to the tables
    is what the authentication service does. *)
Lemma set_field_store s id f ck k :
  (forall s u, us_store (k s u) = us_store s) ->
  us_store (set_field s id f ck k).1 = (change_user (us_store s) id f (ck_update ck)).1.
Proof.
  intros Hk. unfold set_field, change_user, get_user. destruct (Users_Get _ id) as [u|e]; [|done].
  unfold update_user. destruct (UpdateUser _ _ _) as [sv [e|]]; [done|]. cbn. by rewrite Hk.
Qed.

Lemma validated_update_store s u ck k :
  (forall s, us_store (k s) = us_store s) ->
  us_store (validated_update s u ck k).1 = us_store s \/
  us_store (validated_update s u ck k).1 = (UpdateUser (us_store s) u (ck_update ck)).1.
Proof.
  intros Hk. unfold validated_update. destruct (User_Validate u); [by left|]. right. unfold update_user.
  destruct (UpdateUser _ _ _) as [sv [e|]]; [done|]. cbn. by rewrite Hk.
Qed.

Lemma end_sessions_store s id ck :
  us_store (end_sessions s id ck).1 = if ck_ends ck then EndAllSessions (us_store s) id (ck_end ck) else us_store s.
Proof. unfold end_sessions. by destruct (ck_ends ck). Qed.

Lemma suspend_store s ctx id reason ck :
  us_ready s = true -> id <> "" ->
  us_store (UserService_SuspendUser s ctx id reason ck).1 =
  (SuspendUser (us_store s) id (ck_update ck) (ck_end ck) (ck_ends ck)).1.
Proof.
  intros Hr Hid. unfold UserService_SuspendUser, guarded, with_id. rewrite Hr, bool_decide_false by done.
  unfold set_field, SuspendUser, change_user, get_user. destruct (Users_Get _ id) as [u|e]; [|done].
  unfold update_user. destruct (UpdateUser _ _ _) as [sv [e|]]; [done|]. cbn.
  rewrite log_action_store, end_sessions_store. by destruct (ck_ends ck).
Qed.

Lemma delete_store s ctx id ck :
  us_ready s = true -> id <> "" ->
  us_store (UserService_DeleteUser s ctx id ck).1 = us_store s \/
  us_store (UserService_DeleteUser s ctx id ck).1 =
    if ck_ends ck then (DeleteUser (us_store s) id (ck_end ck) (ck_update ck)).1
    else set_users (us_store s) (Users_Delete (sv_users (us_store s)) id (ck_update ck)).1.
Proof.
  intros Hr Hid. unfold UserService_DeleteUser, guarded, with_id. rewrite Hr, bool_decide_false by done.
  unfold DeleteUser, end_sessions. cbn [EndAllSessions set_sessions sv_users].
  destruct (Users_Delete _ _ _) as [users [e|]]; [by left|]. right. cbv zeta.
  destruct (ck_ends ck); cbn [fst]; by rewrite log_action_store.
Qed.

Inductive user_op :=
| UCreate (req : CreateUserRequest)
| UUpdate (id : UserID) (e : UserEdit)
| UDelete (id : UserID)
| USuspend (id : UserID) (reason : string)
| UActivate (id : UserID)
| URole (id : UserID) (role : Z)
| UProfile (name email locale : option string)
| UPrefs (req : option UserPreferences)
| UEndSession (id : string)
| UEndAll (id : UserID).

Definition user_step (s : UserServer) (ctx : Ctx) (ck : Clock) (op : user_op) : UserServer :=
  match op with
  | UCreate req => (CreateUser s ctx req ck).1
  | UUpdate id e => (UserService_UpdateUser s ctx id e ck).1
  | UDelete id => (UserService_DeleteUser s ctx id ck).1
  | USuspend id reason => (UserService_SuspendUser s ctx id reason ck).1
  | UActivate id => (UserService_ActivateUser s ctx id ck).1
  | URole id role => (UserService_SetUserRole s ctx id role ck).1
  | UProfile n e l => (UpdateCurrentUser s ctx n e l ck).1
  | UPrefs req => (UpdateUserPreferences s ctx req (ck_new ck) (ck_new ck) (ck_update ck) (ck_update ck)).1
  | UEndSession id => (EndUserSession s ctx id ck).1
  | UEndAll id => (EndAllUserSessions s ctx id ck).1
  end.

(** The user a call leaves with sessions it meant to end. *)
Definition user_left (ck : Clock) (op : user_op) : list UserID :=
  match op with
  | UDelete id | USuspend id _ => if ck_ends ck then [] else [id]
  | _ => []
  end.

Section invariant.
Context {left : list UserID}.

Lemma edit_inv s u id e ck k :
  accounts_inv_but left (us_store s) -> get_user s id = Ok u -> (forall s, us_store (k s) = us_store s) ->
  accounts_inv_but left (us_store (validated_update s (edit_user u e) ck k).1).
Proof.
  intros Hi Hg Hk. destruct (validated_update_store s (edit_user u e) ck k Hk) as [->| ->]; [done|].
  apply Users_Get_Ok in Hg as (Hin & _ & _). apply UpdateUser_inv; [done|]. cbn. intros (v & Hv & Heq & Hact).
  by rewrite <- (same_key User_ID _ v u (proj1 (ai_users _ Hi)) Hv Hin Heq).
Qed.

Lemma create_user_inv s ctx req ck :
  accounts_inv_but left (us_store s) -> accounts_inv_but left (us_store (CreateUser s ctx req ck).1).
Proof.
  intros Hi. unfold CreateUser, guarded. destruct (us_ready s); [|done]. case_bool_decide; [done|].
  destruct (Users_Exists _ _); [done|]. set (u := requested_user req _).
  pose proof (Users_Create_unique (sv_users (us_store s)) u (ai_users _ Hi)) as Huniq.
  pose proof (row_at_Create (sv_users (us_store s)) u) as Hkeep.
  destruct (Users_Create _ _) as [users [e|]]; [done|]. cbn [fst]. rewrite log_action_store.
  apply set_users_inv; eauto.
Qed.

Lemma user_step_keeps s ctx ck op :
  accounts_inv_but left (us_store s) -> user_left ck op = [] ->
  accounts_inv_but left (us_store (user_step s ctx ck op)).
Proof.
  intros Hi Hl. destruct (us_ready s) eqn:Hr; [|destruct op; cbn; unfold CreateUser, UserService_UpdateUser,
    UserService_DeleteUser, UserService_SuspendUser, UserService_ActivateUser, UserService_SetUserRole,
    UpdateCurrentUser, UpdateUserPreferences, EndUserSession, EndAllUserSessions, guarded; rewrite Hr; done].
  destruct op as [req|id e|id|id reason|id|id role|n e l|req|id|id]; cbn [user_step].
  - by apply create_user_inv.
  - unfold UserService_UpdateUser, guarded, with_id. rewrite Hr. case_bool_decide; [done|].
    destruct (get_user s id) eqn:Hg; [|done]. eapply edit_inv; [done|done|intros; apply log_action_store].
  - destruct (decide (id = "")) as [->|Hid]; [unfold UserService_DeleteUser, guarded; by rewrite Hr|].
    cbn in Hl. destruct (delete_store s ctx id ck Hr Hid) as [->| ->]; [done|].
    destruct (ck_ends ck); [by apply DeleteUser_inv|done].
  - destruct (decide (id = "")) as [->|Hid]; [unfold UserService_SuspendUser, guarded; by rewrite Hr|].
    cbn in Hl. rewrite suspend_store by done. destruct (ck_ends ck); [|done].
    by apply (SuspendUser_inv (us_store s) id (ck_update ck) (ck_end ck) true).
  - unfold UserService_ActivateUser, guarded, with_id. rewrite Hr. case_bool_decide; [done|].
    rewrite set_field_store by (intros; apply log_action_store). by apply change_user_inv.
  - unfold UserService_SetUserRole, guarded, with_id. rewrite Hr. case_bool_decide; [done|].
    destruct (role =? 0); [done|]. cbv zeta. rewrite set_field_store by (intros; apply log_action_store). by apply change_user_inv.
  - unfold UpdateCurrentUser, guarded. rewrite Hr. destruct (UserFromContext ctx) as [me|]; [|done].
    destruct (get_user s _) eqn:Hg; [|done]. by eapply edit_inv.
  - unfold UpdateUserPreferences, guarded. rewrite Hr. destruct (UserFromContext ctx) as [me|]; [|done]. cbv zeta.
    by destruct (Prefs_Upsert _ _ _ _ _) as [rows [e|]].
  - unfold EndUserSession, guarded, with_id. rewrite Hr. case_bool_decide; [done|].
    pose proof (EndSession_inv (us_store s) id (ck_end ck) Hi) as He.
    destruct (EndSession _ _ _) as [sv [e|]]; [done|]. cbn [fst]. by rewrite log_action_store.
  - unfold EndAllUserSessions, guarded, with_id, end_sessions. rewrite Hr. case_bool_decide; [done|].
    destruct (ck_ends ck); [|done]. cbn [fst]. rewrite log_action_store. by apply EndAllSessions_inv.
Qed.

Lemma user_step_inv s ctx ck op :
  accounts_inv_but left (us_store s) ->
  accounts_inv_but (user_left ck op ++ left)%list (us_store (user_step s ctx ck op)).
Proof.
  intros Hi. destruct (user_left ck op) as [|i l] eqn:Hl; [by apply user_step_keeps|].
  destruct op as [req|id e|id|id reason|id|id role|n e l0|req|id|id]; try done; cbn in Hl;
    destruct (ck_ends ck) eqn:He; try done; injection Hl as <- <-; cbn [user_step app];
    (destruct (us_ready s) eqn:Hr; [|unfold UserService_DeleteUser, UserService_SuspendUser, guarded; rewrite Hr;
       by apply inv_but_more]);
    (destruct (decide (id = "")) as [->|Hid];
       [unfold UserService_DeleteUser, UserService_SuspendUser, guarded; rewrite Hr; by apply inv_but_more|]).
  - destruct (delete_store s ctx id ck Hr Hid) as [->| ->]; [by apply inv_but_more|]. rewrite He.
    apply set_users_left_inv; [done|apply Users_Delete_unique, Hi|intros; by apply Users_Delete_keeps].
  - rewrite suspend_store, He by done. by apply (SuspendUser_inv (us_store s) id (ck_update ck) (ck_end ck) false).
Qed.
End invariant.

(** Calls of the two services on one database, in any order. *)
Inductive call :=
| ByAuth (op : account_op)
| ByUserService (ctx : Ctx) (ck : Clock) (op : user_op).
Definition call_step (s : UserServer) (c : call) : UserServer :=
  match c with
  | ByAuth op => set_store s (account_step (us_store s) op)
  | ByUserService ctx ck op => user_step s ctx ck op
  end.

(** The users of whom the call should have ended the sessions, and did not. *)
Definition call_left (c : call) : list UserID :=
  match c with
  | ByAuth op => account_left op
  | ByUserService _ ck op => user_left ck op
  end.

Lemma calls_inv calls : forall left s,
  accounts_inv_but left (us_store s) ->
  exists left', accounts_inv_but left' (us_store (fold_left call_step calls s)) /\
    (forall id, id ∈ left' -> id ∈ left \/ exists c, c ∈ calls /\ id ∈ call_left c).
Proof.
  induction calls as [|c calls IH]; intros left s Hi; [exists left; auto|].
  assert (accounts_inv_but (call_left c ++ left)%list (us_store (call_step s c))) as Hi1.
  { destruct c as [op|ctx ck op]; cbn; [by apply account_step_inv|by apply user_step_inv]. }
  destruct (IH _ _ Hi1) as (left' & Hi' & Hleft). exists left'. split; [done|].
  intros id Hid. destruct (Hleft id Hid) as [[Hop|?]%elem_of_app|(c' & Hin & ?)]; [right|by left|right].
  - exists c. split; [left|done].
  - exists c'. split; [by right|done].
Qed.


(** *** Who may do what *)

Lemma Users_Get_unique rows u :
  unique_users rows -> u ∈ rows -> User_Status u <> UserStatusDeleted -> Users_Get rows (User_ID u) = Ok u.
Proof.
  intros [Hnd _] Hin Hd. unfold Users_Get, first_user. destruct (List.find _ rows) as [v|] eqn:Hf.
  - apply find_some in Hf as [Hv%list_elem_of_In Hp]. apply andb_true_iff in Hp as [Hid _].
    apply bool_decide_eq_true in Hid. by rewrite (same_key User_ID _ v u Hnd Hv Hin Hid).
  - apply find_none with (x := u) in Hf; [|by apply list_elem_of_In]. unfold not_deleted in Hf.
    by rewrite bool_decide_true, bool_decide_false in Hf by done.
Qed.

Lemma update_role rows u now :
  unique_users rows -> u ∈ rows -> User_Status u <> UserStatusDeleted -> User_Validate u = None ->
  email_taken rows (User_ID u) (User_Email u) = false ->
  exists rows', Users_Update rows (set_role u UserRoleAdmin) now = (rows', None) /\
    Users_Get rows' (User_ID u) = Ok (updated_row (set_role u UserRoleAdmin) u now).
Proof.
  intros Hnd Hin Hd Hv He. set (u' := set_role u UserRoleAdmin).
  assert (User_Validate u' = None) as Hv'.
  { revert Hv. unfold u', User_Validate. cbn [User_ID User_PublicKey User_KeyType User_Name User_Status User_Role set_role].
    change (UserRole_IsValid UserRoleAdmin) with true.
    repeat match goal with |- context [if ?b then _ else _] => destruct b; try done end. }
  unfold Users_Update. rewrite Hv'. change (User_ID u') with (User_ID u). change (User_Email u') with (User_Email u).
  rewrite He, (proj2 (mem_true _ _)) by (apply list_elem_of_In, in_map, list_elem_of_In; done). cbn [negb].
  eexists. split; [done|]. set (f := fun row : User => _).
  assert (f u = updated_row u' u now) as Hf by (unfold f; by rewrite bool_decide_true).
  rewrite <- Hf. replace (User_ID u) with (User_ID (f u)) by (by rewrite Hf). apply Users_Get_unique.
  - pose proof (Users_Update_unique rows u' now Hnd) as Hu. unfold Users_Update in Hu. rewrite Hv' in Hu.
    change (User_ID u') with (User_ID u) in Hu. change (User_Email u') with (User_Email u) in Hu.
    by rewrite He, (proj2 (mem_true _ _)) in Hu by (apply list_elem_of_In, in_map, list_elem_of_In; done).
  - apply list_elem_of_In, in_map, list_elem_of_In, Hin.
  - by rewrite Hf.
Qed.

Definition SetUserRole_method : string := "/bib.v1.services.UserService/SetUserRole".
(** Whatever access control the server is configured with, a caller without any
    token makes any account an administrator's. *)
Theorem anyone_makes_admin `{RateLib} cfg rd ctx (w : World (D := UserServer)) u ck :
  let s := w_db w in
  let handler := on_db (fun s ctx => UserService_SetUserRole s ctx (User_ID u) 1 ck) in
  Config_RateLimit cfg = false -> us_ready s = true ->
  unique_users (sv_users (us_store s)) -> u ∈ sv_users (us_store s) -> User_Status u <> UserStatusDeleted ->
  User_Validate u = None -> email_taken (sv_users (us_store s)) (User_ID u) (User_Email u) = false ->
  exists v, (serve cfg SetUserRole_method None rd handler ctx w).2 = Reply v /\ PbUser_Role v = 1 /\
    exists u', Users_Get (sv_users (us_store (w_db (serve cfg SetUserRole_method None rd handler ctx w).1))) (User_ID u) = Ok u' /\
      User_Role u' = UserRoleAdmin.
Proof.
  intros s handler Hl Hr Hnd Hin Hd Hv He. set (ctx' := WithRequestID ctx (extractOrGenerateRequestID ctx rd)).
  destruct (update_role _ u (ck_update ck) Hnd Hin Hd Hv He) as (rows' & Hup & Hget).
  assert (User_ID u <> "") as Hid.
  { intros Hid. revert Hv. unfold User_Validate. by rewrite Hid, bool_decide_true. }
  assert (exists s', UserService_SetUserRole s ctx' (User_ID u) 1 ck = (s', Ok (sent (set_role u UserRoleAdmin) (ck_update ck))) /\
            us_store s' = set_users (us_store s) rows') as (s' & Hs' & Hst).
  { unfold UserService_SetUserRole, guarded, with_id. rewrite Hr, bool_decide_false by done. cbn [Z.eqb].
    unfold set_field, get_user. rewrite (Users_Get_unique _ u Hnd Hin Hd). unfold update_user, UpdateUser.
    change (protoUserRoleToDomain 1) with UserRoleAdmin. rewrite Hup. eexists. split; [reflexivity|].
    by rewrite log_action_store. }
  assert (handler ctx' w = (mkWorld (w_limiter w) (w_audit w) s', Reply (sent (set_role u UserRoleAdmin) (ck_update ck)))) as Hh.
  { unfold handler, on_db, answer_of. fold s. by rewrite Hs'. }
  destruct (serve_unlimited cfg SetUserRole_method None rd handler ctx w Hl) as [-> Hdb];
    [fold ctx'; by rewrite Hh|].
  fold ctx' in Hdb |- *. rewrite Hdb, Hh. eexists. split; [done|]. split; [done|].
  exists (updated_row (set_role u UserRoleAdmin) u (ck_update ck)). cbn [fst w_db]. rewrite Hst. done.
Qed.

(** Every session a listing shows, whoever asks for whomever, is a token: the
    service takes it for its user until it is ended or runs out. *)
Theorem listed_sessions_are_tokens s ctx caller id l p now end_now :
  UserFromContext ctx = Some caller -> id <> "" -> NoDup (map Session_ID (sv_sessions (us_store s))) ->
  (UserService_ListUserSessions s ctx id).2 = Ok l -> p ∈ l ->
  (SessionTimeout (sv_cfg (us_store s)) <= 0 \/ now - PbSession_LastActivityAt p <= SessionTimeout (sv_cfg (us_store s))) ->
  exists x, (GetSession (us_store s) (PbSession_Id p) now end_now).2 = Ok x /\ Session_UserID x = id.
Proof.
  intros Hc Hid Hnd Hl Hp Ht. unfold UserService_ListUserSessions, guarded, subject in Hl.
  destruct (us_ready s); [|done]. rewrite bool_decide_false in Hl by done. injection Hl as <-.
  apply list_elem_of_In, in_map_iff in Hp as (x & <- & Hx%list_elem_of_In).
  unfold ListUserSessions, Sessions_GetByUser in Hx. rewrite order_started_perm in Hx.
  apply list_elem_of_In, filter_In in Hx as [Hx%list_elem_of_In Ha]. apply andb_true_iff in Ha as [Hu Ha].
  apply bool_decide_eq_true in Hu. exists x. split; [|done]. unfold GetSession, Sessions_Get. cbn [PbSession_Id sessionToProto].
  rewrite (find_session _ x Hnd Hx), Ha. cbn in Ht |- *.
  destruct Ht as [Ht|Ht]; [rewrite (proj2 (Z.ltb_ge _ _)) by done; done|].
  by rewrite (proj2 (Z.ltb_ge (SessionTimeout _) _)), andb_false_r by done.
Qed.

(** *** Listings *)

(** The pages of a listing by name are a list of the accounts that match, each
    once and none deleted, cut into pieces: a page asked for with a limit between
    one and a thousand and no negative offset is that piece, the total is the number
    of accounts, and more is announced exactly if accounts come after the piece. *)
Theorem list_users_pages s f desc :
  "name" ∈ order_columns ->
  exists rows, rows ≡ₚ List.filter (user_matches f) (sv_users (us_store s)) /\
    forall limit offset, 1 <= limit <= 1000 -> 0 <= offset ->
      let piece := take (Z.to_nat limit) (drop (Z.to_nat offset) rows) in
      (list_users s f "" desc (Some (mkPageRequest limit offset))).2 =
      Ok (map userToProto piece,
          mkPageInfo (Z.of_nat (length rows)) (offset + limit <? Z.of_nat (length rows)) (Z.of_nat (length piece))).
Proof.
  intros Hname. destruct (order_clause_plain "name" (if desc then "DESC" else "ASC")
    (List.filter (user_matches f) (sv_users (us_store s))) Hname ltac:(destruct desc; set_solver)) as (rows & Hc & Hp).
  exists rows. split; [done|]. intros limit offset Hl Ho piece. unfold list_users, Users_List, sort_clause.
  rewrite bool_decide_true, Hc by done. unfold Users_Count. rewrite <- (Permutation_length Hp).
  destruct (page_pieces rows limit offset Hl Ho) as [-> Hi]. cbn [snd]. fold piece in Hi |- *. rewrite <- Hi. done.
Qed.

(** *** Preferences and conversions *)

Definition prefs_complete (p : UserPreferences) : Prop :=
  UP_Theme p <> "" /\ UP_Locale p <> "" /\ UP_Timezone p <> "" /\ UP_DateFormat p <> "" /\ UP_Custom p <> None.

(** Preferences that were set are the preferences that are read, whatever the
    stored ones were; an unknown theme is refused and nothing changes. *)
Theorem preferences_stored s ctx me p now now' written trigger :
  us_ready s = true -> UserFromContext ctx = Some me ->
  User_ID me ∈ map User_ID (sv_users (us_store s)) -> prefs_complete p ->
  let '(s', answer) := UpdateUserPreferences s ctx (Some p) now now' written trigger in
  if mem (UP_Theme p) ["light"; "dark"; "system"]
  then exists q created updated, (GetUserPreferences s' ctx "" now now').2 = Ok q /\
         q = prefs_row (mkUserPreferences (User_ID me) (UP_Theme p) (UP_Locale p) (UP_Timezone p) (UP_DateFormat p)
                         (UP_NotificationsEnabled p) (UP_EmailNotifications p) (UP_Custom p) 0 0) created updated
  else s' = s /\ answer = Err (MapDomainError (GStore EFailed)).
Proof.
  intros Hr Hc Hme (Ht & Hl & Hz & Hd & Hcu). unfold UpdateUserPreferences, guarded. rewrite Hr, Hc. cbv zeta.
  set (old := Prefs_Get _ _ _ _).
  assert (UP_UserID old = User_ID me) as Hold.
  { unfold old, Prefs_Get. destruct (row_of _ _ _) as [q|] eqn:Hq; [|done]. by apply row_of_Some in Hq as [_ ?]. }
  assert (merge_prefs old p = mkUserPreferences (User_ID me) (UP_Theme p) (UP_Locale p) (UP_Timezone p) (UP_DateFormat p)
            (UP_NotificationsEnabled p) (UP_EmailNotifications p) (UP_Custom p) (UP_CreatedAt old) (UP_UpdatedAt old)) as ->.
  { unfold merge_prefs. rewrite !bool_decide_false, Hold by done. by destruct (UP_Custom p). }
  unfold Prefs_Upsert, prefs_row_ok. cbn [UP_Theme UP_UserID]. rewrite (proj2 (mem_true (User_ID me) _)) by done.
  rewrite andb_true_r. destruct (mem (UP_Theme p) _); [|done]. cbn [negb].
  unfold GetUserPreferences, guarded, subject. cbn [set_prefs us_ready us_prefs us_store]. rewrite Hr, bool_decide_true, Hc by done.
  cbn [fmap option_fmap option_map]. unfold Prefs_Get. rewrite row_of_upsert by (intros; done). rewrite bool_decide_true by done.
  destruct (row_of _ _ _) as [q|]; eexists _, _, _; split; reflexivity.
Qed.

(** What the messages can say of a user is what the domain knows. *)
Theorem user_conversions s r :
  (UserStatus_IsValid s = true -> protoUserStatusToDomain (domainUserStatusToProto s) = s) /\
  (UserRole_IsValid r = true -> protoUserRoleToDomain (domainUserRoleToProto r) = r).
Proof.
  unfold UserStatus_IsValid, UserRole_IsValid. split; intros Hv%mem_true;
    repeat (apply elem_of_cons in Hv as [->|Hv]; [done|]); by apply elem_of_nil in Hv.
Qed.
End theorems.

(** ** Witnesses *)

Section witnesses.
#[local] Existing Instance toy_crypto.
#[local] Existing Instance merge_order.
#[local] Existing Instance identity_tables.
#[local] Instance some_text : DriverErrors := {| driver_text := "disk I/O error" |}.

(** Rows in the order of the table, whatever they are to be ordered by. *)
#[local] Instance table_order : OrderClause User.
Proof. refine {| order_columns := ["name"]; order_clause _ l := Some l |}. intros c dir l _ _. by exists l. Defined.

#[local] Instance open_limit : RateLib :=
  {| Limiter := unit; NewLimiter _ _ := tt; Limiter_Allow l _ := (l, true); first_allowed _ _ _ _ := eq_refl |}.

Definition carl_request : AuthenticateRequest :=
  mkAuthenticateRequest (replicate 32 9) KeyTypeEd25519 "carl" "" "" SessionTypeAPI "10.0.0.2" "" ∅.
Definition two_users : Service := Eval vm_compute in
  (Authenticate bob_service carl_request (mkAuthReadings 11 12 13 14 "s2")).1.
Definition carl : User := Eval vm_compute in
  match Users_GetByPublicKey (sv_users two_users) (replicate 32 9) with
  | Ok u => u
  | Err _ => NewUser 0 [] "" "" "" false
  end.
Definition bob : User := Eval vm_compute in
  match Users_GetByPublicKey (sv_users two_users) (replicate 32 7) with
  | Ok u => u
  | Err _ => NewUser 0 [] "" "" "" false
  end.
Definition two_user_server : UserServer := mkUserServer true None two_users [] (open_audit "n1" []).
Definition one_clock : Clock := mkClock 20 21 22 true (mkReadings "u" 20 21 20 21 5).

Lemma two_users_inv : accounts_inv two_users.
Proof.
  change two_users with (account_step bob_service (OpAuthenticate carl_request (mkAuthReadings 11 12 13 14 "s2"))).
  apply (account_step_inv (left := []) bob_service (OpAuthenticate carl_request (mkAuthReadings 11 12 13 14 "s2"))), bob_inv.
Qed.

(** The suspension is reported as done, and the session of the suspended user is
    still accepted. *)
Example suspended_with_session :
  let ck := mkClock 20 21 22 false (mkReadings "u" 20 21 20 21 5) in
  let '(s, answer) := UserService_SuspendUser two_user_server (mkCtx None None None "") (User_ID bob) "left" ck in
  match answer, Users_Get (sv_users (us_store s)) (User_ID bob), GetSession (us_store s) "s1" 30 31 with
  | Ok _, Ok u, (_, Ok x) => User_Status u = UserStatusSuspended /\ Session_UserID x = User_ID bob
  | _, _, _ => False
  end.
Proof. vm_compute. by split. Qed.

Lemma anyone_makes_admin_witness :
  User_Role carl = UserRoleUser /\
  exists v, (serve (mkServerConfig false None (Rbac.mkRBACConfig true false)) SetUserRole_method None
    (mkReadings "u" 1 2 1 2 5) (on_db (fun s ctx => UserService_SetUserRole s ctx (User_ID carl) 1 one_clock))
    (mkCtx None (Some "10.0.0.9:4242") None "") (mkWorld None (open_audit "n1" []) two_user_server)).2 = Reply v /\
    PbUser_Role v = 1.
Proof.
  split; [reflexivity|].
  destruct (anyone_makes_admin (mkServerConfig false None (Rbac.mkRBACConfig true false)) (mkReadings "u" 1 2 1 2 5)
    (mkCtx None (Some "10.0.0.9:4242") None "") (mkWorld None (open_audit "n1" []) two_user_server) carl one_clock)
    as (v & Hv & Hrole & _); [reflexivity|reflexivity|apply two_users_inv|right; left|discriminate|vm_compute; reflexivity|
    vm_compute; reflexivity|]. by exists v.
Defined.

Lemma list_users_pages_witness :
  exists rows, length rows = 2%nat /\
    (list_users two_user_server (mkUserFilter "" "" "") "" false (Some (mkPageRequest 1 1))).2 =
    Ok (map userToProto (take 1 (drop 1 rows)), mkPageInfo 2 false 1).
Proof.
  destruct (list_users_pages two_user_server (mkUserFilter "" "" "") false) as (rows & Hp & Hpage);
    [by left|]. exists rows. apply Permutation_length in Hp. change (length rows = 2%nat) in Hp. split; [done|].
  rewrite (Hpage 1 1) by lia. by rewrite length_take, length_drop, Hp.
Defined.

Lemma listed_sessions_are_tokens_witness :
  exists x, (GetSession two_users "s1" 30 31).2 = Ok x /\ Session_UserID x = User_ID bob.
Proof.
  set (l := map sessionToProto (ListUserSessions two_users (User_ID bob))).
  apply (listed_sessions_are_tokens two_user_server (mkCtx None None (Some carl) "") carl (User_ID bob) l
           (default (sessionToProto (new_session two_users bob_request bob (mkAuthReadings 1 2 3 4 "s1"))) (head l))
           30 31); [reflexivity|discriminate|apply two_users_inv|reflexivity|left|right; vm_compute; discriminate].
Defined.

Definition dark : UserPreferences := mkUserPreferences "" "dark" "de" "UTC" "DD.MM." false true (Some ∅) 0 0.
Lemma preferences_stored_witness :
  exists q, (GetUserPreferences (UpdateUserPreferences two_user_server (mkCtx None None (Some carl) "") (Some dark) 1 2 3 4).1
    (mkCtx None None (Some carl) "") "" 1 2).2 = Ok q /\ UP_Theme q = "dark".
Proof.
  pose proof (preferences_stored two_user_server (mkCtx None None (Some carl) "") carl dark 1 2 3 4 eq_refl eq_refl) as Hs.
  destruct (UpdateUserPreferences _ _ _ _ _ _ _) as [s' answer].
  destruct Hs as (q & c & u & Hq & ->); [right; left|done|]. eexists. by split.
Defined.

Lemma user_conversions_witness : protoUserRoleToDomain (domainUserRoleToProto UserRoleReadonly) = UserRoleReadonly.
Proof. apply (proj2 (user_conversions UserStatusActive UserRoleReadonly)). reflexivity. Defined.
End witnesses.
