(* ===== verification/AuthServer.v ===== *)
(** * The authentication service on the wire ([internal/grpc/services/auth/server.go])

    Handlers over the store of challenges ([Challenge]), the accounts ([Accounts]) and
    the keys ([Keys]).  The token of a session is its identifier.  Metadata of a call
    and the readings of the clock and of the random source are arguments; what a status
    adds about the error below it is left out.  A handler
    returns the state after it and an answer or a status. *)
From stdpp Require Import base gmap strings list.
From Stdlib Require Import ZArith Lia Ascii SpecFloat.
From S2P Require Import Prelude GoStrings GoTime GoFloat Domain GrpcErrors Accounts Challenge Keys.
From S2P Require Rbac.
Local Open Scope string_scope.
Local Open Scope Z_scope.
Local Open Scope bool_scope.

Record Server := mkServer {
  as_service : option Service;
  as_store : option ChallengeStore;
  as_timeout : Duration;
}.

Definition set_service (s : Server) (v : Service) : Server := mkServer (Some v) (as_store s) (as_timeout s).
Definition set_store (s : Server) (c : ChallengeStore) : Server := mkServer (as_service s) (Some c) (as_timeout s).

Definition challengeTTL : Duration := 30 * Second.
Definition NewServer : Server := mkServer None (Some (NewChallengeStore challengeTTL)) 0.
(** The configuration of the accounts and the one of the service are read apart. *)
Definition NewServerWithConfig (service : Service) (timeout : Duration) : Server :=
  mkServer (Some service) (Some (NewChallengeStore challengeTTL)) timeout.

Definition Answer (A : Type) : Type := Server * result Status A.
Definition refuse {A} (s : Server) (c : Code) (message : string) : Answer A := (s, Err (status_Error c message)).

Definition uninitialized : string := "auth service not initialized".

(** The session token; [strings] of other cases of the prefix stay in it. *)
Definition ExtractSessionToken (md : Rbac.Metadata) : result Status string :=
  match md with
  | None => Err (status_Error Unauthenticated "missing metadata")
  | Some md =>
      match Rbac.md_get md "x-session-token" with
      | t :: _ => Ok t
      | [] =>
          match Rbac.md_get md "authorization" with
          | [] => Err (status_Error Unauthenticated "missing session token")
          | token :: _ =>
              let b := bytes_of token in
              Ok (if (7 <? length b)%nat && (str_of (take 7 b) =?= "Bearer ") then str_of (drop 7 b) else token)
          end
      end
  end.

(** The comparison is with [==]. *)
Definition authErrorToGRPC (e : AccountError) (text : string) : Status :=
  match e with
  | EDomain ErrUserNotFound => status_Error NotFound "user not found"
  | EDomain ErrUserPending => status_Error PermissionDenied "user account is pending approval"
  | EDomain ErrUserSuspended => status_Error PermissionDenied "user account is suspended"
  | EDomain ErrAutoRegDisabled => status_Error PermissionDenied "auto-registration is disabled"
  | EDomain ErrUnauthorized => status_Error Unauthenticated "unauthorized"
  | EDomain ErrSessionExpired => status_Error Unauthenticated "session expired"
  | _ => status_Error Internal ("authentication failed: " ++ text)
  end.

Record SessionInfo := mkSessionInfo {
  SI_Id : string;
  SI_Type : string;
  SI_ClientIp : string;
  SI_ClientAgent : string;
  SI_NodeId : string;
  SI_StartedAt : Time;
  SI_IsCurrent : bool;
  SI_LastActivityAt : option Time;
  SI_ExpiresAt : option Time;
}.
Definition storageSessionToProto (s : Session) (current : bool) : SessionInfo :=
  mkSessionInfo (Session_ID s) (Session_Type s) (Session_ClientIP s) (Session_ClientAgent s) (Session_NodeID s)
    (Session_StartedAt s) current
    (if IsZero (Session_LastActivityAt s) then None else Some (Session_LastActivityAt s)) (Session_EndedAt s).

Record UserInfo := mkUserInfo {
  UI_Id : string;
  UI_Name : string;
  UI_Email : string;
  UI_Role : string;
  UI_Status : string;
  UI_PublicKeyFingerprint : string;
  UI_Locale : string;
}.
Definition domainUserToProto (u : User) : UserInfo :=
  mkUserInfo (User_ID u) (User_Name u) (User_Email u) (User_Role u) (User_Status u) (User_PublicKeyFingerprint u) (User_Locale u).

Definition DefaultSession : Duration := 24 * Hour.
Definition expiry (s : Server) (from : Time) : Time := from + (if as_timeout s =? 0 then DefaultSession else as_timeout s).

Section server.
Context `{Crypto} `{SessionOrder} `{KeyLib} `{DriverErrors}.

Definition account_text (e : AccountError) : string :=
  match e with
  | EDomain e => DomainError_Error e
  | EEmailRequired => "email is required"
  | EConstraint => driver_text
  end.

(** ** Signing in *)

Definition Server_Challenge (s : Server) (publicKey : list Z) (idBytes nonce : option (list Z)) (now : Time) : Answer Challenge :=
  match as_store s with
  | None => refuse s Unavailable uninitialized
  | Some store =>
      if (length publicKey =? 0)%nat then refuse s InvalidArgument "public_key is required"
      else match GetPublicKeyInfo publicKey with
           | None => refuse s InvalidArgument "invalid public key"
           | Some info =>
               match ChallengeStore_Create store idBytes nonce (PKI_KeyBytes info) (PKI_KeyType info) now with
               | Err _ => refuse s Internal "failed to create challenge"
               | Ok (c, store) => (set_store s store, Ok c)
               end
           end
  end.

Record ClientInfo := mkClientInfo {
  CI_IpAddress : string;
  CI_UserAgent : string;
  CI_Version : string;
  CI_Metadata : gmap string string;
}.
Definition client_metadata (c : option ClientInfo) : gmap string string :=
  match c with
  | None => ∅
  | Some c => CI_Metadata c ∪ (if CI_Version c =?= "" then ∅ else {[ "client_version" := CI_Version c ]})
  end.

Record VerifyChallengeRequest := mkVerifyChallengeRequest {
  VC_ChallengeId : string;
  VC_Signature : list Z;
  VC_Name : string;
  VC_Email : string;
  VC_ClientInfo : option ClientInfo;
}.
Record VerifyChallengeResponse := mkVerifyChallengeResponse {
  VR_SessionToken : string;
  VR_ExpiresAt : Time;
  VR_User : UserInfo;
  VR_IsNewUser : bool;
  VR_Session : SessionInfo;
}.

Definition authenticate_request (c : Challenge) (req : VerifyChallengeRequest) : AuthenticateRequest :=
  mkAuthenticateRequest (Challenge_PublicKey c) (Challenge_KeyType c) (VC_Name req) (VC_Email req) ""
    SessionTypeGRPC (default "" (CI_IpAddress <$> VC_ClientInfo req)) (default "" (CI_UserAgent <$> VC_ClientInfo req))
    (client_metadata (VC_ClientInfo req)).

(** The challenge is taken out before the signature is looked at. *)
Definition VerifyChallenge (s : Server) (req : VerifyChallengeRequest) (now : Time) (rd : AuthReadings) (after : Time)
    : Answer VerifyChallengeResponse :=
  match as_store s, as_service s with
  | Some store, Some service =>
      if VC_ChallengeId req =?= "" then refuse s InvalidArgument "challenge_id is required"
      else if (length (VC_Signature req) =? 0)%nat then refuse s InvalidArgument "signature is required"
      else
        let '(found, store) := ChallengeStore_Get store (VC_ChallengeId req) now in
        let s := set_store s store in
        match found with
        | None => refuse s NotFound "challenge not found or expired"
        | Some c =>
            if negb (VerifySSHSignature (Challenge_PublicKey c) (Challenge_KeyType c) (Challenge_Nonce c) (VC_Signature req))
            then refuse s Unauthenticated "signature verification failed"
            else
              let '(service, answer) := Authenticate service (authenticate_request c req) rd in
              let s := set_service s service in
              match answer with
              | Err e => (s, Err (authErrorToGRPC e (account_text e)))
              | Ok r =>
                  (s, Ok (mkVerifyChallengeResponse (Session_ID (res_Session r)) (expiry s after)
                            (domainUserToProto (res_User r)) (res_IsNew r) (storageSessionToProto (res_Session r) true)))
              end
        end
  | _, _ => refuse s Unavailable uninitialized
  end.

(** ** Sessions *)

Definition with_service {A} (s : Server) (k : Service -> Answer A) : Answer A :=
  match as_service s with Some service => k service | None => refuse s Unavailable uninitialized end.
Definition with_token {A} (s : Server) (md : Rbac.Metadata) (k : string -> Answer A) : Answer A :=
  match ExtractSessionToken md with Ok token => k token | Err e => (s, Err e) end.
(** [GetSession] on the token; a session that ran out is ended by it. *)
Definition with_session {A} (s : Server) (id : string) (c : Code) (message : string) (now end_now : Time)
    (k : Server -> Session -> Answer A) : Answer A :=
  with_service s (fun service =>
    let '(service, found) := GetSession service id now end_now in
    let s := set_service s service in
    match found with Ok x => k s x | Err _ => refuse s c message end).

Definition end_one {A} (s : Server) (id : string) (now : Time) (message : string) (answer : A) : Answer A :=
  with_service s (fun service =>
    match EndSession service id now with
    | (service, None) => (set_service s service, Ok answer)
    | (service, Some _) => refuse (set_service s service) Internal message
    end).

(** A request may name any session. *)
Definition Logout (s : Server) (md : Rbac.Metadata) (id : string) (now : Time) : Answer bool :=
  with_service s (fun _ =>
    if id =?= "" then with_token s md (fun token => end_one s token now "failed to end session" true)
    else end_one s id now "failed to end session" true).

Definition RefreshSession (s : Server) (md : Rbac.Metadata) (now after : Time) : Answer (string * Time) :=
  with_service s (fun service =>
    with_token s md (fun token =>
      match UpdateSessionActivity service token now with
      | (service, None) => (set_service s service, Ok (token, expiry s after))
      | (service, Some _) => refuse (set_service s service) Internal "failed to refresh session"
      end)).

Inductive Validity :=
| Valid (user : UserInfo) (session : SessionInfo) (expires : Time)
| Invalid (reason : string).

Definition ValidateSession (s : Server) (token : string) (now end_now : Time) : Answer Validity :=
  with_service s (fun service =>
    if token =?= "" then (s, Ok (Invalid "session_token is required"))
    else
      let '(service, found) := GetSession service token now end_now in
      let s := set_service s service in
      match found with
      | Err (EDomain ErrSessionExpired) => (s, Ok (Invalid "session expired"))
      | Err _ => (s, Ok (Invalid "session not found"))
      | Ok x =>
          match Users_Get (sv_users service) (Session_UserID x) with
          | Err _ => (s, Ok (Invalid "user not found"))
          | Ok u =>
              if User_Status u <>? UserStatusActive then (s, Ok (Invalid ("user status: " ++ User_Status u)))
              else (s, Ok (Valid (domainUserToProto u) (storageSessionToProto x true) (expiry s (Session_LastActivityAt x))))
          end
      end).

(** The listing holds active sessions only, so that what a request asks to include
    makes no difference. *)
Definition ListMySessions (s : Server) (md : Rbac.Metadata) (includeExpired : bool) (limit : Z) (now end_now : Time)
    : Answer (list SessionInfo) :=
  with_service s (fun _ =>
    with_token s md (fun token =>
      with_session s token Unauthenticated "invalid session" now end_now (fun s x =>
        with_service s (fun service =>
          let shown := List.filter (fun y => is_active y || includeExpired) (ListUserSessions service (Session_UserID x)) in
          let l := map (fun y => storageSessionToProto y (Session_ID y =?= token)) shown in
          (s, Ok (if (0 <? limit) && (limit <? Z.of_nat (length l)) then take (Z.to_nat limit) l else l)))))).

Definition RevokeSession (s : Server) (md : Rbac.Metadata) (id : string) (now end_now : Time) : Answer bool :=
  with_service s (fun _ =>
    if id =?= "" then refuse s InvalidArgument "session_id is required"
    else with_token s md (fun token =>
      with_session s token Unauthenticated "invalid session" now end_now (fun s mine =>
        with_session s id NotFound "session not found" now end_now (fun s target =>
          if Session_UserID target <>? Session_UserID mine
          then refuse s PermissionDenied "cannot revoke another user's session"
          else end_one s id end_now "failed to revoke session" true)))).

(** The loop over the listed sessions; the number counts those that were ended. *)
Definition revoke_one (token : string) (includeCurrent : bool) (now : Time) (acc : Service * Z) (x : Session) : Service * Z :=
  if negb (is_active x) then acc
  else if (Session_ID x =?= token) && negb includeCurrent then acc
  else match EndSession acc.1 (Session_ID x) now with
       | (service, None) => (service, acc.2 + 1)
       | (service, Some _) => (service, acc.2)
       end.

Definition RevokeAllSessions (s : Server) (md : Rbac.Metadata) (includeCurrent : bool) (now end_now : Time) : Answer Z :=
  with_service s (fun _ =>
    with_token s md (fun token =>
      with_session s token Unauthenticated "invalid session" now end_now (fun s mine =>
        with_service s (fun service =>
          let '(service, n) := fold_left (revoke_one token includeCurrent end_now)
                                 (ListUserSessions service (Session_UserID mine)) (service, 0) in
          (set_service s service, Ok (int32 n)))))).

(** ** Information *)

Record AuthConfigResponse := mkAuthConfigResponse {
  AR_AllowAutoRegistration : bool;
  AR_RequireEmail : bool;
  AR_DefaultRole : string;
  AR_SessionTimeoutSeconds : Z;
  AR_MaxSessionLifetimeSeconds : Z;
  AR_SupportedKeyTypes : list string;
}.
Definition GetAuthConfig (oor : float64 -> Z) (cfg : AuthConfig) : AuthConfigResponse :=
  let seconds := float_to_int64 oor (Seconds (SessionTimeout cfg)) in
  let seconds := if seconds =? 0 then 86400 else seconds in
  mkAuthConfigResponse (AllowAutoRegistration cfg) (RequireEmail cfg) (DefaultRole cfg) seconds (i64 (seconds * 7))
    ["ed25519"; "rsa"].

Record KeyInfoResponse := mkKeyInfoResponse {
  KR_Info : PublicKeyInfo;
  KR_HasUser : bool;
  KR_UserId : UserID;
}.
Definition Server_GetPublicKeyInfo (s : Server) (publicKey : list Z) : Answer KeyInfoResponse :=
  if (length publicKey =? 0)%nat then refuse s InvalidArgument "public_key is required"
  else match GetPublicKeyInfo publicKey with
       | None => refuse s InvalidArgument "failed to parse public key"
       | Some info =>
           match as_service s with
           | Some service =>
               match Users_GetByPublicKey (sv_users service) (PKI_KeyBytes info) with
               | Ok u => (s, Ok (mkKeyInfoResponse info true (User_ID u)))
               | Err _ => (s, Ok (mkKeyInfoResponse info false ""))
               end
           | None => (s, Ok (mkKeyInfoResponse info false ""))
           end
       end.
End server.

(** ** Theorems *)

Section theorems.
Context `{Crypto} `{SessionOrder} `{KeyLib} `{DriverErrors}.

Lemma ChallengeStore_Get_spec store id now :
  match ChallengeStore_Get store id now with
  | (Some c, store') => cs_challenges store !! id = Some c /\ Challenge_IsExpired c now = false /\
      cs_challenges store' = delete id (cs_challenges store)
  | (None, store') => cs_challenges store' = delete id (cs_challenges store)
  end.
Proof.
  unfold ChallengeStore_Get. destruct (cs_challenges store !! id) as [c|] eqn:Hc; [|by rewrite delete_id].
  by destruct (Challenge_IsExpired c now) eqn:He.
Qed.

Lemma VerifyChallenge_store s req now rd after store :
  as_store s = Some store -> is_Some (as_service s) -> VC_ChallengeId req <> "" -> VC_Signature req <> [] ->
  exists store', as_store (VerifyChallenge s req now rd after).1 = Some store' /\
    is_Some (as_service (VerifyChallenge s req now rd after).1) /\
    cs_challenges store' = delete (VC_ChallengeId req) (cs_challenges store).
Proof.
  intros Hst [service Hsv] Hid Hsig. unfold VerifyChallenge. rewrite Hst, Hsv, bool_decide_false by done.
  destruct (VC_Signature req) as [|b bs] eqn:Hs; [done|]. cbn [length Nat.eqb].
  pose proof (ChallengeStore_Get_spec store (VC_ChallengeId req) now) as Hg.
  destruct (ChallengeStore_Get _ _ _) as [[c|] store']; [|by exists store'; cbn; rewrite Hsv].
  destruct Hg as (_ & _ & Hg). destruct (negb _); [by exists store'; cbn; rewrite Hsv|].
  destruct (Authenticate _ _ _) as [service' [r|e]]; exists store'; cbn; eauto.
Qed.

Lemma make_room_ids max rows user now :
  map Session_ID (make_room max rows user now) = map Session_ID rows.
Proof.
  unfold make_room. destruct (0 <? max); [|done]. destruct (max <=? _); [|done]. destruct (last _) as [y|]; [|done].
  rewrite Sessions_End_map. apply ids_kept. intros x. by destruct (_ && _).
Qed.

(** A session that is opened is the last row, under an identifier no session had. *)
Lemma Authenticate_opens service req rd service' r :
  Authenticate service req rd = (service', Ok r) ->
  exists rows, sv_sessions service' = (rows ++ [res_Session r])%list /\
    map Session_ID rows = map Session_ID (sv_sessions service) /\
    Session_ID (res_Session r) ∉ map Session_ID (sv_sessions service).
Proof.
  unfold Authenticate. destruct (find_or_register _ _ _) as [users [[u b]|e]]; [|done].
  destruct (checkUserStatus u); [done|]. destruct (Users_Update _ _ _) as [users2 err]. unfold Sessions_Create.
  destruct (_ && _ && _) eqn:Hok; [|done]. intros [= <- <-]. cbn in *. eexists. split; [done|].
  rewrite make_room_ids in *. split; [done|]. apply andb_true_iff in Hok as [Hok _].
  apply andb_true_iff in Hok as [Hok _]. by apply negb_true_iff, mem_false in Hok.
Qed.

(** C23: a token is given out only for a challenge that was open, had not run out
    and is signed with the key it was made for.  It is the identifier of a session
    the call adds, which no session had before, of an active account with that key.
    A call that names a challenge and has a signature uses the challenge up,
    whatever comes of it: no later call with that challenge gets a token.  Without
    an identifier or a signature the call is refused and changes nothing. *)
Theorem token_for_key s req now rd after :
  (forall r, (VerifyChallenge s req now rd after).2 = Ok r ->
     exists store c u service' x, as_store s = Some store /\ cs_challenges store !! VC_ChallengeId req = Some c /\
       now <= Challenge_ExpiresAt c /\
       VerifySSHSignature (Challenge_PublicKey c) (Challenge_KeyType c) (Challenge_Nonce c) (VC_Signature req) = true /\
       VR_User r = domainUserToProto u /\ User_PublicKey u = Challenge_PublicKey c /\ User_Status u = UserStatusActive /\
       as_service (VerifyChallenge s req now rd after).1 = Some service' /\
       (exists service rows, as_service s = Some service /\ sv_sessions service' = (rows ++ [x])%list /\
          map Session_ID rows = map Session_ID (sv_sessions service) /\
          Session_ID x ∉ map Session_ID (sv_sessions service)) /\
       Session_ID x = VR_SessionToken r /\ is_active x = true /\ Session_UserID x = User_ID u) /\
  (VC_ChallengeId req = "" \/ VC_Signature req = [] ->
     (VerifyChallenge s req now rd after).1 = s /\ exists e, (VerifyChallenge s req now rd after).2 = Err e) /\
  (VC_Signature req <> [] -> forall req' now' rd' after', VC_ChallengeId req' = VC_ChallengeId req ->
     exists e, (VerifyChallenge (VerifyChallenge s req now rd after).1 req' now' rd' after').2 = Err e).
Proof.
  split_and!.
  - intros r. unfold VerifyChallenge. destruct (as_store s) as [store|] eqn:Hst; [|done].
    destruct (as_service s) as [service|] eqn:Hsv; [|done]. case_bool_decide; [done|].
    destruct (length _ =? 0)%nat; [done|]. pose proof (ChallengeStore_Get_spec store (VC_ChallengeId req) now) as Hg.
    destruct (ChallengeStore_Get _ _ _) as [[c|] store']; [|done]. destruct Hg as (Hc & He & _).
    destruct (negb _) eqn:Hsig; [done|]. apply negb_false_iff in Hsig.
    pose proof (Authenticate_spec service (authenticate_request c req) rd) as Ha.
    destruct (Authenticate _ _ _) as [service' [a|e]] eqn:Hauth; [|done]. intros [= <-].
    destruct Ha as (Hk & Hact & Hin & Hia & Hu & _). exists store, c, (res_User a), service', (res_Session a).
    apply Authenticate_opens in Hauth as (rows & Hrows).
    unfold Challenge_IsExpired, After in He. split_and!; try done; [lia|]. by exists service, rows.
  - unfold VerifyChallenge. destruct (as_store s), (as_service s); try (intros _; split; [done|by eexists]).
    case_bool_decide; [intros _; split; [done|by eexists]|]. intros [?| ->]; [done|]. split; [done|by eexists].
  - intros Hsig req' now' rd' after' Hid. destruct (decide (VC_ChallengeId req = "")) as [He|Hne].
    { generalize (VerifyChallenge s req now rd after).1. intros s1. unfold VerifyChallenge. rewrite Hid, He.
      destruct (as_store s1), (as_service s1); cbn; eauto. }
    destruct (as_store s) as [store|] eqn:Hst.
    2: { assert ((VerifyChallenge s req now rd after).1 = s) as -> by (unfold VerifyChallenge; by rewrite Hst).
         unfold VerifyChallenge. rewrite Hst. eexists. done. }
    destruct (as_service s) as [service|] eqn:Hsv.
    2: { assert ((VerifyChallenge s req now rd after).1 = s) as -> by (unfold VerifyChallenge; by rewrite Hst, Hsv).
         unfold VerifyChallenge. rewrite Hst, Hsv. eexists. done. }
    destruct (VerifyChallenge_store s req now rd after store Hst) as (store' & Hs' & [sv' Hsv'] & Hdel); [eauto|done..|].
    generalize dependent (VerifyChallenge s req now rd after). intros [s1 a1]. cbn [fst]. intros Hs' Hsv'.
    unfold VerifyChallenge. rewrite Hs', Hsv'. case_bool_decide; [eauto|]. destruct (length _ =? 0)%nat; [eauto|].
    unfold ChallengeStore_Get. rewrite Hid, Hdel, lookup_delete_eq. eauto.
Qed.

(** *** Ending sessions *)

Lemma EndSession_sessions service id now :
  sv_sessions (EndSession service id now).1 =
  map (fun x => if (Session_ID x =?= id) && is_active x then ended_at now x else x) (sv_sessions service).
Proof. unfold EndSession. rewrite <- Sessions_End_map. by destruct (Sessions_End _ _ _). Qed.

Lemma revoke_one_active token inc now acc x z :
  z ∈ sv_sessions (revoke_one token inc now acc x).1 -> is_active z = true ->
  z ∈ sv_sessions acc.1 /\ (is_active x = true -> (Session_ID x = token /\ inc = false) \/ Session_ID x <> Session_ID z).
Proof.
  unfold revoke_one. destruct (is_active x); [|done]. cbn [negb].
  destruct ((Session_ID x =?= token) && negb inc) eqn:Hskip.
  { apply andb_true_iff in Hskip as [Ht%bool_decide_eq_true Hi%negb_true_iff]. auto. }
  pose proof (EndSession_sessions acc.1 (Session_ID x) now) as He.
  assert (sv_sessions (match EndSession acc.1 (Session_ID x) now with
    | (service, None) => (service, acc.2 + 1) | (service, Some _) => (service, acc.2) end).1 =
    sv_sessions (EndSession acc.1 (Session_ID x) now).1) as -> by (by destruct (EndSession _ _ _) as [? []]).
  rewrite He. intros Hz Ha. apply list_elem_of_In, in_map_iff in Hz as (y & <- & Hy%list_elem_of_In).
  destruct ((Session_ID y =?= Session_ID x) && is_active y) eqn:Hb; [done|]. split; [done|]. intros _. right.
  rewrite Ha, andb_true_r in Hb. apply bool_decide_eq_false in Hb. congruence.
Qed.

Lemma revoke_all_active token inc now l acc z :
  z ∈ sv_sessions (fold_left (revoke_one token inc now) l acc).1 -> is_active z = true ->
  z ∈ sv_sessions acc.1 /\
  forall x, x ∈ l -> is_active x = true -> (Session_ID x = token /\ inc = false) \/ Session_ID x <> Session_ID z.
Proof.
  revert acc. induction l as [|x l IH]; intros acc Hz Ha; cbn in Hz; [split; [done|set_solver]|].
  destruct (IH _ Hz Ha) as [Hin Hl]. destruct (revoke_one_active token inc now acc x z Hin Ha) as [Hin' Hx].
  split; [done|]. intros y [->|Hy]%elem_of_cons; auto.
Qed.

(** After all sessions were revoked, no session of the caller is open but the
    one it calls with, and not even that one if asked for. *)
Theorem RevokeAllSessions_leaves_current s md inc now end_now n :
  (RevokeAllSessions s md inc now end_now).2 = Ok n ->
  exists token service mine service', ExtractSessionToken md = Ok token /\ as_service s = Some service /\
    (GetSession service token now end_now).2 = Ok mine /\
    as_service (RevokeAllSessions s md inc now end_now).1 = Some service' /\
    forall z, z ∈ sv_sessions service' -> Session_UserID z = Session_UserID mine -> is_active z = true ->
      inc = false /\ Session_ID z = token.
Proof.
  unfold RevokeAllSessions, with_service, with_token. destruct (as_service s) as [service|] eqn:Hsv; [|done].
  destruct (ExtractSessionToken md) as [token|] eqn:Ht; [|done]. unfold with_session, with_service. rewrite Hsv.
  destruct (GetSession service token now end_now) as [service1 [mine|]] eqn:Hg; [|done]. cbn [set_service as_service].
  pose proof (revoke_all_active token inc end_now (ListUserSessions service1 (Session_UserID mine)) (service1, 0)) as Hr.
  destruct (fold_left _ _ _) as [service' k]. intros _. exists token, service, mine, service'.
  split; [done|split; [done|split; [by rewrite Hg|split; [done|]]]]. intros z Hz Hu Ha. destruct (Hr z Hz Ha) as [Hin Hl]. cbn in Hin.
  destruct (Hl z) as [[Hid Hinc]|]; [|done|by split|done].
  unfold ListUserSessions, Sessions_GetByUser. rewrite order_started_perm. apply list_elem_of_In, filter_In.
  split; [by apply list_elem_of_In|]. by rewrite Ha, bool_decide_true.
Qed.

(** *** What the handlers let through *)

(** Any session can be logged out by anybody who names it: no token is needed. *)
Theorem logout_anyone s service md x now :
  as_service s = Some service -> x ∈ sv_sessions service -> is_active x = true -> Session_ID x <> "" ->
  (Logout s md (Session_ID x) now).2 = Ok true.
Proof.
  intros Hsv Hx Ha Hid. unfold Logout, end_one, with_service. rewrite Hsv, bool_decide_false by done.
  unfold EndSession, Sessions_End.
  assert (existsb (fun s => (Session_ID s =?= Session_ID x) && is_active s) (sv_sessions service) = true) as ->; [|done].
  apply existsb_exists. exists x. by rewrite Ha, bool_decide_true, <- list_elem_of_In.
Qed.

(** A session that ran out is accepted again after a refresh, if nobody looked it up
    in between. *)
Theorem refresh_revives_expired s service md token x now after :
  as_service s = Some service -> NoDup (map Session_ID (sv_sessions service)) ->
  ExtractSessionToken md = Ok token -> x ∈ sv_sessions service -> Session_ID x = token -> is_active x = true ->
  0 < SessionTimeout (sv_cfg service) < now - Session_LastActivityAt x ->
  (GetSession service token now now).2 = Err (EDomain ErrSessionExpired) /\
  exists service' y, as_service (RefreshSession s md now after).1 = Some service' /\
    (GetSession service' token now now).2 = Ok y /\ Session_UserID y = Session_UserID x.
Proof.
  intros Hsv Hnd Ht Hx Hid Ha Hexp.
  pose proof (find_session (sv_sessions service) x Hnd Hx) as Hf. rewrite Hid in Hf.
  split.
  - unfold GetSession, Sessions_Get. rewrite Hf, Ha. cbn [negb].
    rewrite (proj2 (Z.ltb_lt 0 _)), (proj2 (Z.ltb_lt _ _)) by lia. done.
  - unfold RefreshSession, with_service, with_token. rewrite Hsv, Ht. unfold UpdateSessionActivity, Sessions_Get. rewrite Hf.
    unfold Sessions_Update. rewrite (proj2 (mem_true _ _)).
    2: { apply list_elem_of_In, in_map_iff. exists x. by rewrite <- list_elem_of_In. }
    cbn [fst set_service as_service]. eexists _, _. split; [done|].
    unfold GetSession, Sessions_Get. cbn [sv_sessions set_sessions sv_cfg].
    rewrite find_session_map, Hf by (intros; by case_bool_decide). cbn [fmap option_fmap option_map touched Session_ID set_activity].
    rewrite bool_decide_true by done. change (is_active (set_activity x _ _ _)) with (is_active x). rewrite Ha.
    cbn [negb Session_LastActivityAt set_activity]. rewrite Z.sub_diag, (proj2 (Z.ltb_ge _ 0)), andb_false_r by lia. done.
Qed.

End theorems.

(** ** Witnesses *)

Section witnesses.
#[local] Existing Instance toy_crypto.
#[local] Existing Instance merge_order.
#[local] Existing Instance toy_keys.
#[local] Existing Instance identity_tables.
#[local] Instance some_text : DriverErrors := {| driver_text := "disk I/O error" |}.

(** The service and the access control read different tokens from one header. *)
Example tokens_differ :
  ExtractSessionToken (Some {[ "authorization" := ["bearer s1"] ]}) = Ok "bearer s1" /\
  Rbac.ExtractToken (Some {[ "authorization" := ["bearer s1"] ]}) = "s1".
Proof. by vm_compute. Qed.

Definition toy_challenge : Challenge := mkChallenge "c1" (replicate 32 9) KeyTypeEd25519 [1; 2] 0 (30 * Second) "ssh-ed25519".
Definition toy_server : Server :=
  mkServer (Some bob_service) (Some (mkChallengeStore {[ "c1" := toy_challenge ]} challengeTTL)) 0.
Definition toy_request : VerifyChallengeRequest :=
  mkVerifyChallengeRequest "c1" [1; 2] "carl" "" None.
Definition toy_readings : AuthReadings := mkAuthReadings 11 12 13 14 "s2".
Definition bob_session : Session := Eval vm_compute in
  default (new_session bob_service bob_request (registered (sv_cfg bob_service) bob_request true 1)
    (mkAuthReadings 1 2 3 4 "s1")) (head (sv_sessions bob_service)).
Definition bob_metadata : Rbac.Metadata := Some {[ "x-session-token" := ["s1"] ]}.

Lemma token_for_key_witness :
  exists r c, (VerifyChallenge toy_server toy_request 10 toy_readings 20).2 = Ok r /\ c = toy_challenge /\
  VerifySSHSignature (Challenge_PublicKey c) (Challenge_KeyType c) (Challenge_Nonce c) (VC_Signature toy_request) = true.
Proof.
  destruct (proj1 (token_for_key toy_server toy_request 10 toy_readings 20)
    (default (mkVerifyChallengeResponse "" 0 (domainUserToProto (registered (sv_cfg bob_service) bob_request true 1)) false
       (storageSessionToProto bob_session true))
       (match (VerifyChallenge toy_server toy_request 10 toy_readings 20).2 with Ok r => Some r | Err _ => None end)))
    as (store & c & u & service' & x & Hst & Hc & _ & Hv & _); [vm_compute; reflexivity|].
  eexists _, c. split; [vm_compute; reflexivity|]. split; [|done].
  injection Hst as <-. cbn in Hc. by injection Hc as <-.
Defined.

Lemma RevokeAllSessions_leaves_current_witness :
  (RevokeAllSessions toy_server bob_metadata true 20 21).2 = Ok 1 /\
  forall service' z, as_service (RevokeAllSessions toy_server bob_metadata true 20 21).1 = Some service' ->
    z ∈ sv_sessions service' -> Session_UserID z = bob_id -> is_active z = false.
Proof.
  assert ((RevokeAllSessions toy_server bob_metadata true 20 21).2 = Ok 1) as H1 by (vm_compute; reflexivity).
  split; [done|]. intros service' z Hs Hz Hu.
  destruct (RevokeAllSessions_leaves_current toy_server bob_metadata true 20 21 1 H1)
    as (token & service & mine & service2 & Ht & Hsv & Hm & Hs2 & Hall).
  rewrite Hs in Hs2. injection Hs2 as <-. injection Hsv as <-. injection Ht as <-.
  destruct (is_active z) eqn:Ha; [|done]. destruct (Hall z Hz) as [[=] _]; [|done].
  rewrite Hu. change (Session_UserID mine) with (Session_UserID (default mine (Some mine))).
  assert (mine = bob_session) as -> by (cbn in Hm; vm_compute in Hm; by injection Hm as <-). reflexivity.
Defined.

Lemma logout_anyone_witness : (Logout toy_server None "s1" 20).2 = Ok true.
Proof.
  apply (logout_anyone toy_server bob_service None bob_session 20); [reflexivity|left|reflexivity|discriminate].
Defined.

Lemma refresh_revives_expired_witness :
  (GetSession bob_service "s1" (2 * Hour) (2 * Hour)).2 = Err (EDomain ErrSessionExpired).
Proof.
  refine (proj1 (refresh_revives_expired toy_server bob_service bob_metadata "s1" bob_session (2 * Hour) (2 * Hour + 1)
    _ _ _ _ _ _ _)); [reflexivity| |reflexivity|left|reflexivity|reflexivity|split; vm_compute; reflexivity].
  apply NoDup_singleton.
Defined.
End witnesses.
