(* ===== verification/Datasets.v ===== *)
(** * Datasets ([internal/storage/sqlite/datasets.go], [internal/grpc/services/dataset/server.go])

    The tables of datasets and versions with the constraints of
    [migrate/migrations/sqlite/000001_initial_schema.up.sql], the statements of the
    repository, and the service on top of them.  A row keeps the lists, maps and
    contents as JSON text, which is the class [FieldJSON]; chunks are in [BlobIngest].
    Times are those of the years 1 to 9999, which their text keeps. *)
From stdpp Require Import base gmap strings list sorting.
From Stdlib Require Import ZArith Lia Ascii.
From S2P Require Import Prelude GoStrings GoTime Domain Sql GrpcErrors AuditLog GrpcServer.
From S2P Require Topics.
Local Open Scope string_scope.
Local Open Scope Z_scope.
Local Open Scope bool_scope.

(** ** Rows *)

Record DatasetRow := mkDatasetRow {
  dr_data : Dataset;
  dr_owners : string;
  dr_tags : string;
  dr_metadata : string;
}.
Definition dr_id (r : DatasetRow) : string := Dataset_ID (dr_data r).
(** The key of the constraint UNIQUE. *)
Definition dr_name (r : DatasetRow) : TopicID * string := (Dataset_TopicID (dr_data r), Dataset_Name (dr_data r)).

Record VersionRow := mkVersionRow {
  vr_data : DatasetVersion;
  vr_content : string;
  vr_instructions : string;
  vr_metadata : string;
}.
Definition vr_id (r : VersionRow) : string := DatasetVersion_ID (vr_data r).
Definition vr_dataset (r : VersionRow) : DatasetID := DatasetVersion_DatasetID (vr_data r).
Definition vr_version (r : VersionRow) : DatasetID * string := (vr_dataset r, DatasetVersion_Version (vr_data r)).

Record DatasetDB := mkDatasetDB {
  dd_topics : Topics.TopicDB;
  dd_datasets : list DatasetRow;
  dd_versions : list VersionRow;
}.
Definition set_datasets (db : DatasetDB) (l : list DatasetRow) : DatasetDB := mkDatasetDB (dd_topics db) l (dd_versions db).
Definition topic_ids (db : DatasetDB) : list TopicID := map Topic_ID (Topics.td_topics (dd_topics db)).

(** The CHECKs of the table of datasets; its flags are 0 or 1. *)
Definition dataset_row_ok (d : Dataset) : bool :=
  mem (Dataset_Status d) [DatasetStatusDraft; DatasetStatusActive; DatasetStatusArchived; DatasetStatusDeleted;
                          DatasetStatusIngesting; DatasetStatusFailed] && (0 <=? Dataset_VersionCount d).

(** The columns an UPDATE of the whole dataset leaves alone, and the one it sets. *)
Definition as_updated (old d : Dataset) (now : Time) : Dataset :=
  mkDataset (Dataset_ID d) (Dataset_TopicID d) (Dataset_Name d) (Dataset_Description d) (Dataset_Status d)
    (Dataset_LatestVersionID d) (Dataset_VersionCount d) (Dataset_HasContent d) (Dataset_HasInstructions d)
    (Dataset_Owners d) (Dataset_CreatedBy old) (Dataset_CreatedAt old) now (Dataset_Tags d) (Dataset_Metadata d).
Definition set_status (d : Dataset) (status : DatasetStatus) (now : Time) : Dataset :=
  mkDataset (Dataset_ID d) (Dataset_TopicID d) (Dataset_Name d) (Dataset_Description d) status
    (Dataset_LatestVersionID d) (Dataset_VersionCount d) (Dataset_HasContent d) (Dataset_HasInstructions d)
    (Dataset_Owners d) (Dataset_CreatedBy d) (Dataset_CreatedAt d) now (Dataset_Tags d) (Dataset_Metadata d).

(** The tags of a filter are not read. *)
Record DatasetFilter := mkDatasetFilter {
  DF_TopicID : option TopicID;
  DF_Status : DatasetStatus;
  DF_OwnerID : option UserID;
  DF_HasContent : option bool;
  DF_HasInstructions : option bool;
  DF_Tags : list string;
  DF_Search : string;
  DF_Limit : Z;
  DF_Offset : Z;
  DF_OrderBy : string;
  DF_OrderDesc : bool;
}.
Definition given {A} (o : option A) (p : A -> bool) : bool := match o with None => true | Some a => p a end.
Definition contains (w text : string) : bool := like (containing w) (bytes_of text).
Definition dataset_counted (f : DatasetFilter) (r : DatasetRow) : bool :=
  given (DF_TopicID f) (fun t => Dataset_TopicID (dr_data r) =?= t) &&
  ((DF_Status f =?= "") || (Dataset_Status (dr_data r) =?= DF_Status f)).
(** The owner is looked for in the text of the list. *)
Definition dataset_matches (f : DatasetFilter) (r : DatasetRow) : bool :=
  dataset_counted f r &&
  given (DF_OwnerID f) (fun o => contains o (dr_owners r)) &&
  given (DF_HasContent f) (fun b => Dataset_HasContent (dr_data r) =?= b) &&
  given (DF_HasInstructions f) (fun b => Dataset_HasInstructions (dr_data r) =?= b) &&
  ((DF_Search f =?= "") || contains (DF_Search f) (Dataset_Name (dr_data r)) ||
   contains (DF_Search f) (Dataset_Description (dr_data r))).

(** [created_at DESC] *)
Definition created_later (a b : VersionRow) : Prop :=
  text_leb (RFC3339Nano (DatasetVersion_CreatedAt (vr_data b))) (RFC3339Nano (DatasetVersion_CreatedAt (vr_data a))) = true.

Section repository.
Context `{FieldJSON (list string)} `{FieldJSON (gmap string string)} `{FieldJSON (option DatasetContent)}
  `{FieldJSON (option DatasetInstructions)}.

Definition dataset_row (d : Dataset) : DatasetRow :=
  mkDatasetRow d (column (Dataset_Owners d)) (column (Dataset_Tags d)) (column (Dataset_Metadata d)).
Definition scanDataset (r : DatasetRow) : Dataset :=
  let d := dr_data r in
  mkDataset (Dataset_ID d) (Dataset_TopicID d) (Dataset_Name d) (Dataset_Description d) (Dataset_Status d)
    (Dataset_LatestVersionID d) (Dataset_VersionCount d) (Dataset_HasContent d) (Dataset_HasInstructions d)
    (field (dr_owners r)) (Dataset_CreatedBy d) (Dataset_CreatedAt d) (Dataset_UpdatedAt d) (field (dr_tags r))
    (field (dr_metadata r)).

Definition version_row (v : DatasetVersion) : VersionRow :=
  mkVersionRow v (column (DatasetVersion_Content v)) (column (DatasetVersion_Instructions v)) (column (DatasetVersion_Metadata v)).
Definition scanVersion (r : VersionRow) : DatasetVersion :=
  let v := vr_data r in
  mkDatasetVersion (DatasetVersion_ID v) (DatasetVersion_DatasetID v) (DatasetVersion_Version v)
    (DatasetVersion_PreviousVersionID v) (field (vr_content r)) (field (vr_instructions r)) (DatasetVersion_TableSchema v)
    (DatasetVersion_CreatedBy v) (DatasetVersion_CreatedAt v) (DatasetVersion_Message v) (field (vr_metadata r)).

(** ** Statements *)

(** A failed key of any kind is reported as a duplicate. *)
Definition Datasets_Create (db : DatasetDB) (d : Dataset) : DatasetDB * option StoreError :=
  match Dataset_Validate d with
  | Some e => (db, Some (EInvalid e))
  | None =>
      if negb (dataset_row_ok d) then (db, Some EFailed)
      else if mem (Dataset_ID d) (map dr_id (dd_datasets db)) ||
              mem (Dataset_TopicID d, Dataset_Name d) (map dr_name (dd_datasets db)) ||
              negb (mem (Dataset_TopicID d) (topic_ids db))
      then (db, Some ErrAlreadyExists)
      else (set_datasets db (dd_datasets db ++ [dataset_row d])%list, None)
  end.

Definition Datasets_Get (db : DatasetDB) (id : DatasetID) : result StoreError Dataset :=
  match row_of dr_id id (dd_datasets db) with Some r => Ok (scanDataset r) | None => Err ErrNotFound end.

Definition Datasets_List `{OrderClause DatasetRow} (db : DatasetDB) (f : DatasetFilter) : result StoreError (list Dataset) :=
  match order_clause (sort_clause "name" (DF_OrderBy f) (DF_OrderDesc f))
          (List.filter (dataset_matches f) (dd_datasets db)) with
  | None => Err EFailed
  | Some rows =>
      match limited (DF_Limit f) (DF_Offset f) rows with None => Err EFailed | Some rows => Ok (map scanDataset rows) end
  end.

Definition Datasets_Update (db : DatasetDB) (d : Dataset) (now : Time) : DatasetDB * option StoreError :=
  match Dataset_Validate d with
  | Some e => (db, Some (EInvalid e))
  | None =>
      match row_of dr_id (Dataset_ID d) (dd_datasets db) with
      | None => (db, Some ErrNotFound)
      | Some old =>
          if negb (dataset_row_ok d) ||
             existsb (fun r => negb (has_key dr_id (Dataset_ID d) r) && bool_decide (dr_name r = (Dataset_TopicID d, Dataset_Name d)))
               (dd_datasets db) ||
             negb (mem (Dataset_TopicID d) (topic_ids db))
          then (db, Some EFailed)
          else (set_datasets db (update_row dr_id (Dataset_ID d) (fun _ => dataset_row (as_updated (dr_data old) d now))
                  (dd_datasets db)), None)
      end
  end.

Definition set_row_status (status : DatasetStatus) (now : Time) (r : DatasetRow) : DatasetRow :=
  mkDatasetRow (set_status (dr_data r) status now) (dr_owners r) (dr_tags r) (dr_metadata r).
Definition Datasets_Delete (db : DatasetDB) (id : DatasetID) (now : Time) : DatasetDB * option StoreError :=
  match row_of dr_id id (dd_datasets db) with
  | None => (db, Some ErrNotFound)
  | Some _ => (set_datasets db (update_row dr_id id (set_row_status DatasetStatusDeleted now) (dd_datasets db)), None)
  end.

Definition Datasets_Count (db : DatasetDB) (f : DatasetFilter) : Z :=
  Z.of_nat (length (List.filter (dataset_counted f) (dd_datasets db))).

(** A row may refer to itself as its previous version. *)
Definition Datasets_CreateVersion (db : DatasetDB) (v : DatasetVersion) : DatasetDB * option StoreError :=
  match DatasetVersion_Validate v with
  | Some e => (db, Some (EInvalid e))
  | None =>
      let prev := DatasetVersion_PreviousVersionID v in
      if mem (DatasetVersion_ID v) (map vr_id (dd_versions db)) ||
         mem (DatasetVersion_DatasetID v, DatasetVersion_Version v) (map vr_version (dd_versions db)) ||
         negb (mem (DatasetVersion_DatasetID v) (map dr_id (dd_datasets db))) ||
         negb ((prev =?= "") || mem prev (DatasetVersion_ID v :: map vr_id (dd_versions db)))
      then (db, Some ErrAlreadyExists)
      else (mkDatasetDB (dd_topics db) (dd_datasets db) (dd_versions db ++ [version_row v])%list, None)
  end.

Definition Datasets_GetVersion (db : DatasetDB) (dataset : DatasetID) (id : DatasetVersionID) : result StoreError DatasetVersion :=
  match List.find (fun r => (vr_dataset r =?= dataset) && (vr_id r =?= id)) (dd_versions db) with
  | Some r => Ok (scanVersion r)
  | None => Err ErrNotFound
  end.

Definition version_rows `{!OrderBy created_later} (db : DatasetDB) (dataset : DatasetID) : list VersionRow :=
  order_by created_later (List.filter (fun r => vr_dataset r =?= dataset) (dd_versions db)).
Definition Datasets_GetLatestVersion `{!OrderBy created_later} (db : DatasetDB) (dataset : DatasetID)
    : result StoreError DatasetVersion :=
  match sql_limit 1 (version_rows db dataset) with r :: _ => Ok (scanVersion r) | [] => Err ErrNotFound end.
Definition Datasets_ListVersions `{!OrderBy created_later} (db : DatasetDB) (dataset : DatasetID) : list DatasetVersion :=
  map scanVersion (version_rows db dataset).
End repository.

(** ** The service *)

Record DatasetServer := mkDatasetServer {
  dv_ready : bool;
  dv_logger : option AuditConfig;
  dv_db : DatasetDB;
  dv_audit : AuditRepository;
}.
Definition DAnswer (A : Type) : Type := DatasetServer * result Status A.
Definition set_db (s : DatasetServer) (db : DatasetDB) : DatasetServer := mkDatasetServer (dv_ready s) (dv_logger s) db (dv_audit s).
Definition set_log (s : DatasetServer) (r : AuditRepository) : DatasetServer := mkDatasetServer (dv_ready s) (dv_logger s) (dv_db s) r.

Record PbDataset := mkPbDataset {
  PD_Id : string;
  PD_TopicId : string;
  PD_Name : string;
  PD_Description : string;
  PD_Status : string;
  PD_OwnerId : string;
  PD_CreatedAt : Time;
  PD_UpdatedAt : Time;
  PD_Tags : list string;
  PD_Metadata : gmap string string;
}.
(** The first owner stands for all of them. *)
Definition datasetToProto (d : Dataset) : PbDataset :=
  mkPbDataset (Dataset_ID d) (Dataset_TopicID d) (Dataset_Name d) (Dataset_Description d) (Dataset_Status d)
    (match Dataset_Owners d with o :: _ => o | [] => "" end) (Dataset_CreatedAt d) (Dataset_UpdatedAt d) (Dataset_Tags d)
    (Dataset_Metadata d).

Record CreateDatasetRequest := mkCreateDatasetRequest {
  CD_TopicId : string;
  CD_Name : string;
  CD_Description : string;
  CD_Tags : list string;
  CD_Metadata : gmap string string;
}.
(** Tags and metadata are those of a request that asks to update them. *)
Record UpdateDatasetRequest := mkUpdateDatasetRequest {
  UD_Name : option string;
  UD_Description : option string;
  UD_Tags : option (list string);
  UD_Metadata : option (gmap string string);
}.
Definition edit_dataset (d : Dataset) (e : UpdateDatasetRequest) (now : Time) : Dataset :=
  mkDataset (Dataset_ID d) (Dataset_TopicID d) (default (Dataset_Name d) (UD_Name e))
    (default (Dataset_Description d) (UD_Description e)) (Dataset_Status d) (Dataset_LatestVersionID d)
    (Dataset_VersionCount d) (Dataset_HasContent d) (Dataset_HasInstructions d) (Dataset_Owners d) (Dataset_CreatedBy d)
    (Dataset_CreatedAt d) now (default (Dataset_Tags d) (UD_Tags e)) (default (Dataset_Metadata d) (UD_Metadata e)).

Definition dataset_violations (req : CreateDatasetRequest) : gmap string string :=
  let m : gmap string string := if CD_TopicId req =?= "" then {[ "topic_id" := "must not be empty" ]} else ∅ in
  if CD_Name req =?= "" then <["name" := "must not be empty"]> m else m.

(** The identifier and the two times of a new dataset. *)
Definition new_dataset (req : CreateDatasetRequest) (u : User) (id : DatasetID) (created updated : Time) : Dataset :=
  mkDataset id (CD_TopicId req) (CD_Name req) (CD_Description req) DatasetStatusActive "" 0 false false [User_ID u]
    (User_ID u) created updated (CD_Tags req) (CD_Metadata req).

Section service.
Context `{UnicodeTables} `{Crypto} `{DriverErrors} `{OrderClause DatasetRow}.
Context `{FieldJSON (list string)} `{FieldJSON (gmap string string)}.

Definition serving {A} (s : DatasetServer) (k : DAnswer A) : DAnswer A := if dv_ready s then k else (s, Err not_initialized).
Definition store_error {A} (s : DatasetServer) (e : StoreError) : DAnswer A := (s, Err (MapDomainError (GStore e))).
Definition log_dataset (s : DatasetServer) (ctx : Ctx) (action id : string) (details : list (string * GoAny)) (rd : Readings)
    : DatasetServer := set_log s (log_service (dv_logger s) (dv_audit s) ctx action "dataset" id details rd).

Definition may_contribute (role : option string) : bool :=
  match role with
  | Some r => (r =?= Topics.TopicMemberRoleOwner) || (r =?= Topics.TopicMemberRoleEditor)
  | None => false
  end.

Definition CreateDataset (s : DatasetServer) (ctx : Ctx) (req : CreateDatasetRequest) (id : DatasetID)
    (created updated : Time) (rd : Readings) : DAnswer PbDataset :=
  serving s
    (if bool_decide (dataset_violations req <> ∅)
     then (s, Err (NewValidationError "invalid create dataset request" (dataset_violations req)))
     else match UserFromContext ctx with
          | None => (s, Err not_authenticated)
          | Some u =>
              match Topics.Topics_Get (dd_topics (dv_db s)) (CD_TopicId req) with
              | None => store_error s ErrNotFound
              | Some t =>
                  if negb (may_contribute (Topics.Members_GetRole (dd_topics (dv_db s)) (Topic_ID t) (User_ID u)))
                  then (s, Err (NewPermissionDeniedError "create" "dataset" "contributor"))
                  else
                    let d := new_dataset req u id created updated in
                    match Datasets_Create (dv_db s) d with
                    | (_, Some e) => store_error s e
                    | (db, None) =>
                        (log_dataset (set_db s db) ctx "CREATE" id
                           [("name", AnyString (Dataset_Name d)); ("topic_id", AnyString (Topic_ID t))] rd,
                         Ok (datasetToProto d))
                    end
              end
          end).

Definition with_dataset {A} (s : DatasetServer) (id : DatasetID) (k : Dataset -> DAnswer A) : DAnswer A :=
  serving s
    (if id =?= "" then (s, Err (required "id"))
     else match Datasets_Get (dv_db s) id with Err e => store_error s e | Ok d => k d end).

Definition GetDataset (s : DatasetServer) (id : DatasetID) : DAnswer PbDataset :=
  with_dataset s id (fun d => (s, Ok (datasetToProto d))).

(** An error of the count is ignored. *)
Definition ListDatasets (s : DatasetServer) (topic : TopicID) (tags : list string) (page : option PageRequest)
    (sort : option (string * bool)) : DAnswer (list PbDataset * PageInfo) :=
  serving s
    (let f := mkDatasetFilter (if topic =?= "" then None else Some topic) "" None None None tags ""
                (page_limit page) (page_offset page) (match sort with Some (c, _) => c | None => "" end)
                (match sort with Some (_, d) => d | None => false end) in
     match Datasets_List (dv_db s) f with
     | Err e => store_error s e
     | Ok l => (s, Ok (map datasetToProto l, page_info page (Z.of_nat (length l)) (Datasets_Count (dv_db s) f)))
     end).

Definition may_change (d : Dataset) (u : User) : bool := Dataset_IsOwner d (User_ID u) || (User_Role u =?= UserRoleAdmin).
Definition as_owner {A} (s : DatasetServer) (ctx : Ctx) (action : string) (d : Dataset) (k : DAnswer A) : DAnswer A :=
  match UserFromContext ctx with
  | None => (s, Err not_authenticated)
  | Some u => if may_change d u then k else (s, Err (NewPermissionDeniedError action "dataset" "owner"))
  end.

Definition UpdateDataset (s : DatasetServer) (ctx : Ctx) (id : DatasetID) (e : UpdateDatasetRequest) (now written : Time)
    (rd : Readings) : DAnswer PbDataset :=
  with_dataset s id (fun d => as_owner s ctx "update" d
    (let d := edit_dataset d e now in
     match Datasets_Update (dv_db s) d written with
     | (_, Some e) => store_error s e
     | (db, None) => (log_dataset (set_db s db) ctx "UPDATE" (Dataset_ID d) [] rd, Ok (datasetToProto d))
     end)).

Definition DeleteDataset (s : DatasetServer) (ctx : Ctx) (id : DatasetID) (now : Time) (rd : Readings) : DAnswer unit :=
  with_dataset s id (fun d => as_owner s ctx "delete" d
    match Datasets_Delete (dv_db s) (Dataset_ID d) now with
    | (_, Some e) => store_error s e
    | (db, None) => (log_dataset (set_db s db) ctx "DELETE" (Dataset_ID d) [] rd, Ok tt)
    end).
End service.

(** ** Theorems on the tables *)

Section tables.
Context `{FieldJSON (list string)} `{FieldJSON (gmap string string)} `{FieldJSON (option DatasetContent)}
  `{FieldJSON (option DatasetInstructions)}.

Inductive dataset_op :=
| DSCreate (d : Dataset)
| DSUpdate (d : Dataset) (now : Time)
| DSDelete (id : DatasetID) (now : Time)
| DSVersion (v : DatasetVersion).

Definition dataset_step (db : DatasetDB) (o : dataset_op) : DatasetDB * option StoreError :=
  match o with
  | DSCreate d => Datasets_Create db d
  | DSUpdate d now => Datasets_Update db d now
  | DSDelete id now => Datasets_Delete db id now
  | DSVersion v => Datasets_CreateVersion db v
  end.

(** A row of the table: checked, in a topic that exists, with an owner. *)
Definition row_ok (db : DatasetDB) (d : Dataset) : Prop :=
  dataset_row_ok d = true /\ Dataset_TopicID d ∈ topic_ids db /\ Dataset_Owners d <> [].

Record datasets_ok (db : DatasetDB) : Prop := {
  do_ids : NoDup (map dr_id (dd_datasets db));
  do_names : NoDup (map dr_name (dd_datasets db));
  do_rows r : r ∈ dd_datasets db -> row_ok db (dr_data r);
  do_version_ids : NoDup (map vr_id (dd_versions db));
  do_version_names : NoDup (map vr_version (dd_versions db));
  do_versions r : r ∈ dd_versions db -> vr_dataset r ∈ map dr_id (dd_datasets db) /\
    (DatasetVersion_PreviousVersionID (vr_data r) = "" \/ DatasetVersion_PreviousVersionID (vr_data r) ∈ map vr_id (dd_versions db));
}.

Lemma Dataset_Validate_owners d : Dataset_Validate d = None -> Dataset_Owners d <> [].
Proof. intros Hv Ho. revert Hv. unfold Dataset_Validate. rewrite Ho. by repeat case_match. Qed.

Lemma NoDup_snoc {A} (l : list A) x : NoDup l -> (x ∉ l) -> NoDup (l ++ [x])%list.
Proof.
  intros Hl Hx. apply NoDup_app. split; [done|]. split; [|apply NoDup_singleton]. by intros y Hy ->%list_elem_of_singleton.
Qed.

(** Changing the row of one key keeps a second key unique, if no other row has the
    new one. *)
Lemma update_row_names id (f : DatasetRow -> DatasetRow) rows :
  NoDup (map dr_id rows) -> NoDup (map dr_name rows) -> (forall r, dr_id r = id -> dr_id (f r) = id) ->
  (forall r r', r ∈ rows -> dr_id r = id -> r' ∈ rows -> dr_id r' <> id -> dr_name r' <> dr_name (f r)) ->
  NoDup (map dr_name (update_row dr_id id f rows)).
Proof.
  intros Hi Hn Hf Hne. unfold update_row. rewrite map_map.
  assert (forall l, l ⊆ rows -> NoDup (map dr_id l) -> NoDup (map dr_name l) ->
    NoDup (map (fun r => dr_name (if has_key dr_id id r then f r else r)) l)) as Hgen; [|by apply Hgen].
  intros l. induction l as [|r l IH]; intros Hsub Hli Hln; [constructor|]. cbn in Hli, Hln |- *.
  apply NoDup_cons in Hli as [Hri Hli], Hln as [Hrn Hln]. apply NoDup_cons. split; [|apply IH; set_solver].
  intros (r' & Heq & Hr')%list_elem_of_fmap. destruct (has_key dr_id id r) eqn:Hk, (has_key dr_id id r') eqn:Hk'.
  - apply has_key_true in Hk, Hk'. destruct Hri. apply list_elem_of_fmap. exists r'. split; [congruence|done].
  - apply has_key_true in Hk. unfold has_key in Hk'. apply bool_decide_eq_false in Hk'. eapply (Hne r r'); set_solver.
  - apply has_key_true in Hk'. unfold has_key in Hk. apply bool_decide_eq_false in Hk. eapply (Hne r' r); set_solver.
  - destruct Hrn. apply list_elem_of_fmap. eauto.
Qed.

Lemma update_row_ok db id f :
  datasets_ok db -> (forall r, dr_id r = id -> dr_id (f r) = id) ->
  (forall r, r ∈ dd_datasets db -> dr_id r = id -> row_ok db (dr_data (f r))) ->
  (forall r r', r ∈ dd_datasets db -> dr_id r = id -> r' ∈ dd_datasets db -> dr_id r' <> id -> dr_name r' <> dr_name (f r)) ->
  datasets_ok (set_datasets db (update_row dr_id id f (dd_datasets db))).
Proof.
  intros [Hi Hn Hr Hvi Hvn Hv] Hf Hok Hne.
  assert (map dr_id (update_row dr_id id f (dd_datasets db)) = map dr_id (dd_datasets db)) as Hids.
  { apply map_key. intros r. unfold has_key. case_bool_decide as Hk; [|done]. rewrite Hk. by apply Hf. }
  split; cbn; rewrite ?Hids; [done|by apply update_row_names| |done..].
  intros r (r0 & -> & Hin)%list_elem_of_fmap. destruct (has_key dr_id id r0) eqn:Hk; [|by apply (Hr r0)].
  apply has_key_true in Hk. by apply (Hok r0).
Qed.

Lemma dataset_step_ok db o : datasets_ok db -> datasets_ok (dataset_step db o).1.
Proof.
  intros Hok. pose proof Hok as [Hi Hn Hr Hvi Hvn Hv]. destruct o as [d|d now|id now|v]; cbn.
  - unfold Datasets_Create. destruct (Dataset_Validate d) eqn:Hd; [done|].
    destruct (dataset_row_ok d) eqn:Hc; cbn [negb]; [|done]. destruct (_ || _) eqn:Hk; [done|].
    apply orb_false_iff in Hk as [[Hk1%mem_false Hk2%mem_false]%orb_false_iff Hk3%negb_false_iff%mem_true].
    split; cbn; rewrite ?map_app; try done; try by apply NoDup_snoc.
    + intros r [Hin| ->%list_elem_of_singleton]%elem_of_app; [by apply Hr|]. split; [done|].
      split; [done|by apply Dataset_Validate_owners].
    + intros r Hin. destruct (Hv r Hin). split; [|done]. apply elem_of_app. by left.
  - unfold Datasets_Update. destruct (Dataset_Validate d) eqn:Hd; [done|].
    destruct (row_of dr_id (Dataset_ID d) (dd_datasets db)) as [old|]; [|done]. destruct (_ || _) eqn:Hk; [done|].
    apply orb_false_iff in Hk as [[Hk1%negb_false_iff Hk2]%orb_false_iff Hk3%negb_false_iff%mem_true].
    apply update_row_ok; [done|done| |].
    + intros _ _ _. split; [done|]. split; [done|by apply Dataset_Validate_owners].
    + intros _ r' _ _ Hr' Hne Heq. assert (existsb (fun r => negb (has_key dr_id (Dataset_ID d) r) &&
        bool_decide (dr_name r = (Dataset_TopicID d, Dataset_Name d))) (dd_datasets db) = true) as He; [|congruence].
      apply existsb_exists. exists r'. split; [by apply list_elem_of_In|]. unfold has_key.
      by rewrite bool_decide_false, bool_decide_true.
  - unfold Datasets_Delete. destruct (row_of dr_id id (dd_datasets db)) as [old|] eqn:Ho; [|done].
    apply update_row_ok; [done|done| |].
    + intros r Hin _. destruct (Hr r Hin) as (Hc & Ht & Ho'). split; [|done].
      unfold dataset_row_ok in *. cbn. by apply andb_true_iff in Hc as [_ ->].
    + intros r r' Hin Hid Hin' Hid' Heq. apply Hid'. rewrite <- Hid. f_equal. by eapply (same_key dr_name).
  - unfold Datasets_CreateVersion. destruct (DatasetVersion_Validate v); [done|]. destruct (_ || _) eqn:Hk; [done|].
    apply orb_false_iff in Hk as [[[Hk1%mem_false Hk2%mem_false]%orb_false_iff Hk3%negb_false_iff%mem_true]%orb_false_iff Hk4%negb_false_iff].
    split; cbn; rewrite ?map_app; try done; try by apply NoDup_snoc.
    intros r [Hin| ->%list_elem_of_singleton]%elem_of_app.
    + destruct (Hv r Hin) as [? [?|?]]; (split; [done|]); [by left|right]. apply elem_of_app. by left.
    + split; [done|]. apply orb_true_iff in Hk4 as [Hp%bool_decide_eq_true|Hp%mem_true]; [by left|right].
      apply elem_of_app. cbn. set_solver.
Qed.

(** Over any calls of the repository, whatever they are given and whichever fail,
    datasets keep distinct identifiers and, in a topic, distinct names, pass the
    checks of the table, have an owner and lie in a topic that exists, and versions
    are distinct and belong to a dataset that is there; a call that fails changes
    nothing. *)
Theorem dataset_tables_ok topics ops db o :
  db = fold_left (fun d o => (dataset_step d o).1) ops (mkDatasetDB topics [] []) ->
  datasets_ok db /\ ((dataset_step db o).2 <> None -> (dataset_step db o).1 = db).
Proof.
  intros ->. split.
  - assert (datasets_ok (mkDatasetDB topics [] [])) as Hok
      by (split; cbn; try apply NoDup_nil_2; intros r Hr; by apply elem_of_nil in Hr).
    revert Hok. generalize (mkDatasetDB topics [] []). induction ops as [|o' ops IH]; intros db Hok; [done|].
    cbn. by apply IH, dataset_step_ok.
  - generalize (fold_left (fun d o => (dataset_step d o).1) ops (mkDatasetDB topics [] [])). intros db.
    destruct o as [d|d now|id now|v]; cbn; unfold Datasets_Create, Datasets_Update, Datasets_Delete, Datasets_CreateVersion;
      by repeat case_match.
Qed.

Lemma scan_dataset_row d :
  json_text (Dataset_Owners d) <> None -> json_text (Dataset_Tags d) <> None -> json_text (Dataset_Metadata d) <> None ->
  scanDataset (dataset_row d) = d.
Proof.
  intros Ho Ht Hm. unfold scanDataset, dataset_row. cbn. rewrite !field_column.
  repeat (case_match; [|congruence]). by destruct d.
Qed.

(** A dataset that was created is read back as it was, and one that was updated but
    for its creator and its times, if their fields can be encoded. *)
Theorem dataset_round_trip db d db' now :
  json_text (Dataset_Owners d) <> None -> json_text (Dataset_Tags d) <> None -> json_text (Dataset_Metadata d) <> None ->
  (Datasets_Create db d = (db', None) -> Datasets_Get db' (Dataset_ID d) = Ok d) /\
  (Datasets_Update db d now = (db', None) -> exists old, Datasets_Get db (Dataset_ID d) = Ok old /\
     Datasets_Get db' (Dataset_ID d) = Ok (as_updated old d now)).
Proof.
  intros Ho Ht Hm. split.
  - unfold Datasets_Create. destruct (Dataset_Validate d); [done|]. destruct (negb _); [done|].
    destruct (_ || _) eqn:Hk; [done|]. intros [= <-]. apply orb_false_iff in Hk as [[Hk%mem_false _]%orb_false_iff _].
    unfold Datasets_Get. cbn [set_datasets dd_datasets]. unfold row_of. rewrite find_app.
    fold (row_of dr_id (Dataset_ID d) (dd_datasets db)). rewrite (proj2 (row_of_None dr_id _ _) Hk). cbn. unfold has_key.
    cbn. rewrite bool_decide_true by done. by rewrite scan_dataset_row.
  - unfold Datasets_Update. destruct (Dataset_Validate d); [done|].
    destruct (row_of dr_id (Dataset_ID d) (dd_datasets db)) as [old|] eqn:Hold; [|done].
    destruct (_ || _); [done|]. intros [= <-]. exists (scanDataset old). unfold Datasets_Get. rewrite Hold.
    split; [done|]. cbn [set_datasets dd_datasets]. rewrite row_of_update by done.
    rewrite bool_decide_true, Hold by done. cbn [fmap option_fmap option_map]. by rewrite scan_dataset_row.
Qed.

(** What counts as the latest version of a dataset is a version of it, and no other
    of its versions has a later text of its creation; without versions there is
    none. *)
Theorem latest_version `{!OrderBy created_later} db dataset :
  match Datasets_GetLatestVersion db dataset with
  | Ok v => exists r, v = scanVersion r /\ r ∈ dd_versions db /\ vr_dataset r = dataset /\
      forall r', r' ∈ dd_versions db -> vr_dataset r' = dataset -> r' = r \/ created_later r r'
  | Err e => e = ErrNotFound /\ forall r, r ∈ dd_versions db -> vr_dataset r <> dataset
  end.
Proof.
  assert (forall r, r ∈ version_rows db dataset <-> r ∈ dd_versions db /\ vr_dataset r = dataset) as Hall.
  { intros r. unfold version_rows. rewrite elem_of_order_by, list_elem_of_In, filter_In, <- list_elem_of_In.
    by rewrite bool_decide_eq_true. }
  unfold Datasets_GetLatestVersion, sql_limit. cbn [Z.ltb Z.compare].
  pose proof (order_by_sorted (before := created_later) (List.filter (fun r => vr_dataset r =?= dataset) (dd_versions db))) as Hs.
  fold (version_rows db dataset) in Hs. destruct (version_rows db dataset) as [|r l] eqn:Hv; cbn.
  - split; [done|]. intros r Hr Hd. assert (r ∈ @nil VersionRow) as Hn by (by apply Hall). by apply elem_of_nil in Hn.
  - exists r. split; [done|]. destruct (proj1 (Hall r)) as [Hr Hd]; [left|]. split; [done|]. split; [done|].
    intros r' Hr' Hd'. apply StronglySorted_inv in Hs as [_ Hs]. rewrite Forall_forall in Hs.
    assert (r' ∈ r :: l) as Hin by (by apply Hall). apply elem_of_cons in Hin as [|Hin]; [by left|right; by apply Hs].
Qed.

(** A deleted dataset is still there, and its name in its topic stays taken. *)
Theorem deleted_dataset_stays db id now db' d :
  Datasets_Delete db id now = (db', None) ->
  (exists d', Datasets_Get db' id = Ok d' /\ Dataset_Status d' = DatasetStatusDeleted) /\
  (Dataset_Validate d = None -> dataset_row_ok d = true ->
   (exists r, r ∈ dd_datasets db /\ dr_id r = id /\ dr_name r = (Dataset_TopicID d, Dataset_Name d)) ->
   Datasets_Create db' d = (db', Some ErrAlreadyExists)).
Proof.
  unfold Datasets_Delete. destruct (row_of dr_id id (dd_datasets db)) as [old|] eqn:Ho; [|done]. intros [= <-]. split.
  - unfold Datasets_Get. cbn [set_datasets dd_datasets]. rewrite row_of_update by done.
    rewrite bool_decide_true, Ho by done. cbn. eauto.
  - intros Hd Hc (r & Hr & Hid & Hn). unfold Datasets_Create. rewrite Hd, Hc. cbn [negb].
    assert (mem (Dataset_TopicID d, Dataset_Name d)
      (map dr_name (update_row dr_id id (set_row_status DatasetStatusDeleted now) (dd_datasets db))) = true) as Hm.
    { apply mem_true. unfold update_row. rewrite map_map. apply list_elem_of_fmap. exists r. split; [|done].
      by destruct (has_key dr_id id r). }
    cbn [set_datasets dd_datasets]. by rewrite Hm, orb_true_r.
Qed.

(** A dataset may leave its status empty, but such a dataset is never stored. *)
Theorem empty_status_not_stored db d :
  Dataset_Validate d = None -> Dataset_Status d = "" -> Datasets_Create db d = (db, Some EFailed).
Proof.
  intros Hv He. unfold Datasets_Create. rewrite Hv. assert (dataset_row_ok d = false) as ->; [|done].
  unfold dataset_row_ok. by rewrite He.
Qed.
End tables.

(** ** Theorems on the service *)

Section authority.
Context `{UnicodeTables} `{Crypto} `{DriverErrors} `{OrderClause DatasetRow}.
Context `{FieldJSON (list string)} `{FieldJSON (gmap string string)}.

Inductive dataset_call :=
| CallCreate (req : CreateDatasetRequest) (id : DatasetID) (created updated : Time)
| CallUpdate (id : DatasetID) (e : UpdateDatasetRequest) (now written : Time)
| CallDelete (id : DatasetID) (now : Time)
| CallGet (id : DatasetID)
| CallList (topic : TopicID) (tags : list string) (page : option PageRequest) (sort : option (string * bool)).

Definition run_call (s : DatasetServer) (ctx : Ctx) (rd : Readings) (c : dataset_call) : DatasetServer :=
  match c with
  | CallCreate req id created updated => (CreateDataset s ctx req id created updated rd).1
  | CallUpdate id e now written => (UpdateDataset s ctx id e now written rd).1
  | CallDelete id now => (DeleteDataset s ctx id now rd).1
  | CallGet id => (GetDataset s id).1
  | CallList topic tags page sort => (ListDatasets s topic tags page sort).1
  end.

(** The authority a call needs of its caller, and what it then does. *)
Definition authorized (s s' : DatasetServer) (u : User) (c : dataset_call) : Prop :=
  match c with
  | CallCreate req id created updated =>
      (exists role, Topics.Members_GetRole (dd_topics (dv_db s)) (CD_TopicId req) (User_ID u) = Some role /\
         (role = Topics.TopicMemberRoleOwner \/ role = Topics.TopicMemberRoleEditor)) /\
      dd_datasets (dv_db s') = (dd_datasets (dv_db s) ++ [dataset_row (new_dataset req u id created updated)])%list
  | CallUpdate id _ _ _ | CallDelete id _ =>
      (exists d, Datasets_Get (dv_db s) id = Ok d /\ (User_ID u ∈ Dataset_Owners d \/ User_Role u = UserRoleAdmin)) /\
      forall id', id' <> id -> Datasets_Get (dv_db s') id' = Datasets_Get (dv_db s) id'
  | CallGet _ | CallList _ _ _ _ => False
  end.

Lemma may_change_spec d u : may_change d u = true <-> User_ID u ∈ Dataset_Owners d \/ User_Role u = UserRoleAdmin.
Proof. unfold may_change, Dataset_IsOwner. by rewrite orb_true_iff, mem_true, bool_decide_eq_true. Qed.

Lemma may_contribute_spec r :
  may_contribute r = true ->
  exists role, r = Some role /\ (role = Topics.TopicMemberRoleOwner \/ role = Topics.TopicMemberRoleEditor).
Proof.
  destruct r as [role|]; [|done]. cbn. rewrite orb_true_iff, !bool_decide_eq_true. eauto.
Qed.

Lemma Topics_Get_id db id t : Topics.Topics_Get db id = Some t -> Topic_ID t = id.
Proof. intros [_ Hid]%find_some. by apply bool_decide_eq_true in Hid. Qed.

Lemma Get_id db id d : Datasets_Get db id = Ok d -> Dataset_ID d = id.
Proof.
  unfold Datasets_Get. destruct (row_of dr_id id (dd_datasets db)) as [r|] eqn:Hr; [|done]. intros [= <-].
  by apply row_of_Some in Hr as [_ Hr].
Qed.

Lemma Get_update db id f id' :
  (forall r, dr_id r = id -> dr_id (f r) = id) -> id' <> id ->
  Datasets_Get (set_datasets db (update_row dr_id id f (dd_datasets db))) id' = Datasets_Get db id'.
Proof.
  intros Hf Hne. unfold Datasets_Get. cbn [set_datasets dd_datasets]. rewrite row_of_update by done.
  by rewrite bool_decide_false.
Qed.

(** C28: the datasets change only for a caller who is known: a new one comes from an
    owner or editor of its topic and is theirs, and only an owner of a dataset or an
    administrator changes or deletes it, and no other with it. *)
Theorem dataset_authority s ctx rd c :
  dd_datasets (dv_db (run_call s ctx rd c)) <> dd_datasets (dv_db s) ->
  exists u, UserFromContext ctx = Some u /\ authorized s (run_call s ctx rd c) u c.
Proof.
  destruct c as [req id created updated|id e now written|id now|id|topic tags page sort]; cbn [run_call].
  - unfold CreateDataset, serving. destruct (dv_ready s); [|done]. case_bool_decide; [done|].
    destruct (UserFromContext ctx) as [u|]; [|done]. destruct (Topics.Topics_Get _ _) as [t|] eqn:Ht; [|done].
    apply Topics_Get_id in Ht. rewrite Ht.
    destruct (may_contribute (Topics.Members_GetRole _ _ _)) eqn:Hm; cbn [negb]; [|done].
    destruct (Datasets_Create _ _) as [db [err|]] eqn:Hc; [done|]. intros _. exists u. split; [done|].
    apply may_contribute_spec in Hm. split; [done|]. revert Hc. unfold Datasets_Create.
    repeat (case_match; try done). by intros [= <-].
  - unfold UpdateDataset, with_dataset, serving. destruct (dv_ready s); [|done]. case_bool_decide; [done|].
    destruct (Datasets_Get (dv_db s) id) as [d|] eqn:Hg; [|done]. unfold as_owner.
    destruct (UserFromContext ctx) as [u|]; [|done]. destruct (may_change d u) eqn:Hm; [|done].
    destruct (Datasets_Update _ _ _) as [db [err|]] eqn:Hu; [done|]. intros _. exists u. split; [done|].
    apply may_change_spec in Hm. split; [eauto|]. intros id' Hne. apply Get_id in Hg. revert Hu. unfold Datasets_Update.
    cbn [edit_dataset Dataset_ID]. rewrite Hg. repeat (case_match; try done). intros [= <-].
    cbn [log_dataset set_log set_db dv_db fst]. by apply Get_update.
  - unfold DeleteDataset, with_dataset, serving. destruct (dv_ready s); [|done]. case_bool_decide; [done|].
    destruct (Datasets_Get (dv_db s) id) as [d|] eqn:Hg; [|done]. unfold as_owner.
    destruct (UserFromContext ctx) as [u|]; [|done]. destruct (may_change d u) eqn:Hm; [|done].
    destruct (Datasets_Delete _ _ _) as [db [err|]] eqn:Hu; [done|]. intros _. exists u. split; [done|].
    apply may_change_spec in Hm. split; [eauto|]. intros id' Hne. apply Get_id in Hg. revert Hu. unfold Datasets_Delete.
    rewrite Hg. destruct (row_of _ _ _); [|done]. intros [= <-].
    cbn [log_dataset set_log set_db dv_db fst]. by apply Get_update.
  - unfold GetDataset, with_dataset, serving. repeat case_match; done.
  - unfold ListDatasets, serving. repeat case_match; done.
Qed.

(** Served as the daemon serves it, the service refuses every creation: its handler
    never learns who calls. *)
Theorem no_dataset_created `{RateLib} cfg method rt rd ctx (w : World (D := DatasetServer)) req id created updated rd' :
  ctx_user ctx = None ->
  dd_datasets (dv_db (w_db (serve cfg method rt rd
    (on_db (fun s ctx => CreateDataset s ctx req id created updated rd')) ctx w).1)) = dd_datasets (dv_db (w_db w)).
Proof.
  intros Hc. set (handler := on_db _).
  assert (forall ctx' w', ctx_user ctx' = None -> w_db (handler ctx' w').1 = w_db w') as Hh.
  { intros ctx' w' Hc'. unfold handler, on_db, answer_of, CreateDataset, serving. destruct (dv_ready _); [|done].
    case_bool_decide; [done|]. unfold UserFromContext. by rewrite Hc'. }
  rewrite (serve_keeps_db cfg method rt rd handler); done.
Qed.

(** The pages of a listing by name are a list of the datasets of the topic, deleted
    ones included, cut into pieces, whatever tags are asked for. *)
Theorem list_datasets_pages s topic tags desc :
  dv_ready s = true -> "name" ∈ order_columns ->
  exists rows, rows ≡ₚ List.filter (fun r => (topic =?= "") || (Dataset_TopicID (dr_data r) =?= topic)) (dd_datasets (dv_db s)) /\
    forall limit offset, 1 <= limit <= 1000 -> 0 <= offset ->
      let piece := take (Z.to_nat limit) (drop (Z.to_nat offset) rows) in
      (ListDatasets s topic tags (Some (mkPageRequest limit offset)) (Some ("name", desc))).2 =
      Ok (map (fun r => datasetToProto (scanDataset r)) piece,
          mkPageInfo (Z.of_nat (length rows)) (offset + limit <? Z.of_nat (length rows)) (Z.of_nat (length piece))).
Proof.
  intros Hready Hname. set (p := fun r => _ || _).
  destruct (order_clause_plain "name" (if desc then "DESC" else "ASC") (List.filter p (dd_datasets (dv_db s))) Hname
    ltac:(destruct desc; set_solver)) as (rows & Hc & Hp).
  exists rows. split; [done|]. intros limit offset Hl Ho piece. unfold ListDatasets, serving. rewrite Hready.
  destruct (page_pieces rows limit offset Hl Ho) as [Hpiece Hi]. fold piece in Hpiece, Hi.
  set (page := Some (mkPageRequest limit offset)) in *. set (f := mkDatasetFilter _ _ _ _ _ _ _ _ _ _ _).
  assert (forall r, dataset_counted f r = p r) as Hcount.
  { intros r. unfold dataset_counted, f, p. cbn. rewrite andb_true_r. by case_bool_decide. }
  assert (forall r, dataset_matches f r = p r) as Hmatch.
  { intros r. unfold dataset_matches. rewrite Hcount. cbn. by rewrite !andb_true_r. }
  unfold Datasets_List, Datasets_Count. rewrite (filter_ext _ _ Hmatch), (filter_ext _ _ Hcount).
  unfold sort_clause. cbn [f DF_OrderBy DF_OrderDesc DF_Limit DF_Offset]. rewrite bool_decide_false, Hc, Hpiece by done.
  cbn [snd]. rewrite length_map, map_map, <- (Permutation_length Hp), Hi. done.
Qed.
End authority.

(** ** Witnesses *)

Section witnesses.
#[local] Existing Instance toy_crypto.
#[local] Existing Instance identity_tables.
#[local] Instance some_text : DriverErrors := {| driver_text := "disk I/O error" |}.
#[local] Instance texts : FieldJSON (list string) := digit_codec [].
#[local] Instance labels : FieldJSON (gmap string string) := digit_codec ∅.
#[local] Instance contents : FieldJSON (option DatasetContent).
Proof. by refine (null_codec None (fun o => match o with None => true | _ => false end) _); intros []. Defined.
#[local] Instance instructions : FieldJSON (option DatasetInstructions).
Proof. by refine (null_codec None (fun o => match o with None => true | _ => false end) _); intros []. Defined.
#[local] Instance stored_order : OrderClause DatasetRow.
Proof.
  refine {| order_columns := ["name"]; order_clause _ l := Some l |}. intros c dir l _ _. by exists l.
Defined.
#[local] Instance no_limit : RateLib :=
  {| Limiter := unit; NewLimiter _ _ := tt; Limiter_Allow l _ := (l, true); first_allowed _ _ _ _ := eq_refl |}.

Definition rain : Dataset :=
  mkDataset "d1" "t1" "rain" "" DatasetStatusActive "" 0 false false ["ann"] "ann" 5 5 ["weather"] ∅.
Definition rain_db : DatasetDB := (Datasets_Create (mkDatasetDB Topics.created_topic [] []) rain).1.
Definition rain_server : DatasetServer := mkDatasetServer true None rain_db (open_audit "n1" []).
Definition ann_ctx : Ctx := mkCtx None None (Some Topics.ann) "".
Definition rd0 : Readings := mkReadings "u" 1 2 1 2 5.

Lemma dataset_tables_ok_witness : datasets_ok rain_db /\ Datasets_Get rain_db "d1" = Ok rain.
Proof.
  split; [|by vm_compute].
  exact (proj1 (dataset_tables_ok Topics.created_topic [DSCreate rain] rain_db (DSDelete "d9" 7) eq_refl)).
Defined.

Lemma dataset_round_trip_witness : Datasets_Get rain_db (Dataset_ID rain) = Ok rain.
Proof.
  apply (dataset_round_trip (mkDatasetDB Topics.created_topic [] []) rain rain_db 7); [done|done|done|].
  by vm_compute.
Defined.

Lemma deleted_dataset_stays_witness :
  Datasets_Create (Datasets_Delete rain_db "d1" 9).1 rain = ((Datasets_Delete rain_db "d1" 9).1, Some ErrAlreadyExists).
Proof.
  refine (proj2 (deleted_dataset_stays rain_db "d1" 9 (Datasets_Delete rain_db "d1" 9).1 rain _) _ _ _);
    [by vm_compute|by vm_compute|by vm_compute|]. eexists. split; [left|by vm_compute].
Defined.

Lemma empty_status_not_stored_witness :
  (Datasets_Create rain_db (mkDataset "d2" "t1" "snow" "" "" "" 0 false false ["ann"] "ann" 5 5 [] ∅)).2 = Some EFailed.
Proof. by rewrite empty_status_not_stored by done. Defined.

Definition snow : CreateDatasetRequest := mkCreateDatasetRequest "t1" "snow" "" [] ∅.
Lemma dataset_authority_witness :
  exists u, UserFromContext ann_ctx = Some u /\
    authorized rain_server (run_call rain_server ann_ctx rd0 (CallCreate snow "d2" 7 7)) u (CallCreate snow "d2" 7 7).
Proof. apply (dataset_authority rain_server ann_ctx rd0 (CallCreate snow "d2" 7 7)). by vm_compute. Defined.

Lemma no_dataset_created_witness :
  dd_datasets (dv_db (w_db (serve (mkServerConfig false None (Rbac.mkRBACConfig true false)) "m" None rd0
    (on_db (fun s ctx => CreateDataset s ctx snow "d2" 7 7 rd0)) (mkCtx None None None "")
    (mkWorld None (open_audit "n1" []) rain_server)).1)) = dd_datasets rain_db.
Proof.
  apply (no_dataset_created (mkServerConfig false None (Rbac.mkRBACConfig true false)) "m" None rd0 (mkCtx None None None "")
    (mkWorld None (open_audit "n1" []) rain_server) snow "d2" 7 7 rd0). done.
Defined.

Lemma list_datasets_pages_witness :
  exists rows, length rows = 1%nat /\
    (ListDatasets rain_server "t1" [] (Some (mkPageRequest 10 0)) (Some ("name", false))).2 =
    Ok (map (fun r => datasetToProto (scanDataset r)) (take 10 (drop 0 rows)),
        mkPageInfo 1 false (Z.of_nat (length (take 10 (drop 0 rows))))).
Proof.
  destruct (list_datasets_pages rain_server "t1" [] false) as (rows & Hp & Hpage); [done|left|].
  exists rows. apply Permutation_length in Hp. change (length rows = 1%nat) in Hp. split; [done|].
  rewrite (Hpage 10 0) by lia. by rewrite Hp.
Defined.
End witnesses.
