(* ===== verification/BreakGlassServer.v ===== *)
(** * Emergency access on the wire ([internal/grpc/services/breakglass/server.go])

    The handlers over the manager of [BreakGlass].  Challenges are made and sessions
    opened by calls that carry their own signature; ending and acknowledging a
    session needs nothing but a call.  Random bytes, identifiers and the readings of
    the clock are arguments. *)
From stdpp Require Import base gmap strings list.
From Stdlib Require Import ZArith Lia Ascii.
From S2P Require Import Prelude GoStrings Domain GrpcErrors AuditLog GrpcServer BreakGlass.
Local Open Scope string_scope.
Local Open Scope Z_scope.
Local Open Scope bool_scope.

Record BGServer := mkBGServer {
  bs_manager : option Manager;
  bs_logger : option AuditConfig;
  bs_audit : AuditRepository;
}.
Definition set_manager (s : BGServer) (m : Manager) : BGServer := mkBGServer (Some m) (bs_logger s) (bs_audit s).
Definition BGAnswer (A : Type) : Type := BGServer * result Status A.

(** ** Messages *)

Definition accessLevelToProto (l : AccessLevel) : Z :=
  if l =?= AccessReadOnly then 1 else if l =?= AccessReadWrite then 2 else 0.
Definition sessionStateToProto (s : SessionState) : Z :=
  if s =?= StateActive then 1 else if s =?= StateExpired then 2 else if s =?= StatePendingAck then 4
  else if s =?= StateInactive then 3 else 0.
Definition matchesSessionState (internal : SessionState) (proto : Z) : bool :=
  if proto =? 1 then internal =?= StateActive
  else if proto =? 2 then internal =?= StateExpired
  else if proto =? 4 then internal =?= StatePendingAck
  else false.

Record PbBGSession := mkPbBGSession {
  PS_Id : string;
  PS_Username : string;
  PS_Reason : string;
  PS_AccessLevel : Z;
  PS_State : Z;
  PS_StartedAt : Time;
  PS_ExpiresAt : Time;
  PS_NodeId : string;
  PS_RequestedBy : string;
}.
Definition sessionToProto (s : Session) : PbBGSession :=
  mkPbBGSession (Session_ID s) (BGUser_Name (Session_User s)) (Session_Reason s) (accessLevelToProto (Session_AccessLevel s))
    (sessionStateToProto (Session_State s)) (Session_StartedAt s) (Session_ExpiresAt s) (Session_NodeID s)
    (Session_RequestedBy s).

Record PbBGReport := mkPbBGReport {
  PR_Session : PbBGSession;
  PR_EndedAt : Time;
  PR_Duration : option Duration;
  PR_QueryCount : Z;
  PR_TablesAccessed : list string;
  PR_OperationCounts : gmap string Z;
  PR_Acknowledged : option (Time * string);
}.
Definition sessionReportToProto (r : SessionReport) : PbBGReport :=
  mkPbBGReport (sessionToProto (SessionReport_Session r)) (SessionReport_EndedAt r)
    (if 0 <? SessionReport_Duration r then Some (SessionReport_Duration r) else None) (SessionReport_QueryCount r)
    (SessionReport_TablesAccessed r) (SessionReport_OperationCounts r)
    ((fun t => (t, SessionReport_AcknowledgedBy r)) <$> SessionReport_AcknowledgedAt r).

(** ** Handlers *)

Definition bg_uninitialized : Status := status_Error Unavailable "break glass service not initialized".
Definition with_manager {A} (s : BGServer) (k : Manager -> BGAnswer A) : BGAnswer A :=
  match bs_manager s with None => (s, Err bg_uninitialized) | Some m => k m end.
Definition required_id {A} (s : BGServer) (id field : string) (k : BGAnswer A) : BGAnswer A :=
  if id =?= "" then (s, Err (required field)) else k.

(** The name sessions and reports give of the caller. *)
Definition caller_name (ctx : Ctx) : string := match UserFromContext ctx with Some u => User_Name u | None => "unknown" end.

(** The texts of the errors of [CreateChallenge]; [random] is that of the random source. *)
Definition challenge_error (username random : string) (e : BGError) : string :=
  match e with
  | ErrBreakGlassDisabled => "break glass is not enabled"
  | ErrBGUserNotFound => "user not found: " ++ username
  | ErrNonce => "failed to generate nonce: " ++ random
  | _ => ""
  end.

Record PbBGStatus := mkPbBGStatus { BS_Enabled : bool; BS_ActiveSession : option PbBGSession; BS_Pending : Z }.

Record EnableRequest := mkEnableRequest {
  ER_ChallengeId : string;
  ER_Signature : list Z;
  ER_Reason : string;
  ER_Duration : option Duration;
}.
Definition enable_violations (req : EnableRequest) : gmap string string :=
  let add (b : bool) f (m : gmap string string) := if b then <[f := "must not be empty"]> m else m in
  add (ER_ChallengeId req =?= "") "challenge_id"
    (add (length (ER_Signature req) =? 0)%nat "signature" (add (ER_Reason req =?= "") "reason" ∅)).

(** What an [EnableSession] reads: the identifier, the password of the database user,
    the clock when the challenge is looked at and the three times of [Enable]. *)
Record EnableReadings := mkEnableReadings {
  er_id : string;
  er_password : string;
  er_verify : Time;
  er_active : Time;
  er_started : Time;
  er_expires : Time;
  er_log : Readings;
}.

Section service.
Context `{UnicodeTables} `{Crypto}.

Definition log_bg (s : BGServer) (ctx : Ctx) (action id : string) (details : list (string * GoAny)) (rd : Readings) : BGServer :=
  mkBGServer (bs_manager s) (bs_logger s) (log_service (bs_logger s) (bs_audit s) ctx action "breakglass" id details rd).

Definition GetStatus (s : BGServer) (now : Time) : BGAnswer PbBGStatus :=
  with_manager s (fun m =>
    (s, Ok (mkPbBGStatus (BGConfig_Enabled (m_config m))
              (match m_session m with
               | Some x => if Session_IsActive x now then Some (sessionToProto x) else None
               | None => None
               end) (int32 (Z.of_nat (length (m_pendingReports m))))))).

Definition CreateChallenge (s : BGServer) (username uuid : string) (nonce : option (list Z)) (random : string)
    (now1 now2 now3 : Time) : BGAnswer BGChallenge :=
  with_manager s (fun m => required_id s username "username"
    match BG_CreateChallenge m username uuid nonce now1 now2 now3 with
    | Err e => (s, Err (status_Error InvalidArgument ("failed to create challenge: " ++ challenge_error username random e)))
    | Ok (c, m) => (set_manager s m, Ok c)
    end).

(** The statuses of the other handlers end with the text of the error, which is left
    out.  The answer holds the connection string, with the password. *)
Definition EnableSession (s : BGServer) (ctx : Ctx) (req : EnableRequest) (rd : EnableReadings)
    : BGAnswer (PbBGSession * string) :=
  with_manager s (fun m =>
    if bool_decide (enable_violations req <> ∅)
    then (s, Err (NewValidationError "invalid enable session request" (enable_violations req)))
    else
      let '(m, verified) := BG_VerifyChallenge m (ER_ChallengeId req) (ER_Signature req) (er_verify rd) in
      let s := set_manager s m in
      match verified with
      | Err _ => (s, Err (status_Error Unauthenticated "authentication failed"))
      | Ok user =>
          match Enable m user (ER_Reason req) (default 0 (ER_Duration req)) (caller_name ctx) (er_id rd) (er_password rd)
                  (er_active rd) (er_started rd) (er_expires rd) with
          | Err _ => (s, Err (status_Error FailedPrecondition "failed to enable session"))
          | Ok (x, m) =>
              (log_bg (set_manager s m) ctx "DDL" (Session_ID x) [("reason", AnyString (ER_Reason req))] (er_log rd),
               Ok (sessionToProto x, Session_ConnectionString x))
          end
      end).

Definition DisableSession (s : BGServer) (ctx : Ctx) (now : Time) (rd : Readings) : BGAnswer PbBGReport :=
  with_manager s (fun m =>
    match Disable m now with
    | Err _ => (s, Err (status_Error FailedPrecondition "failed to disable session"))
    | Ok (r, m) =>
        (log_bg (set_manager s m) ctx "DDL" (Session_ID (SessionReport_Session r)) [] rd, Ok (sessionReportToProto r))
    end).

Definition GetPendingAcknowledgments (s : BGServer) : BGAnswer (list PbBGReport) :=
  with_manager s (fun m => (s, Ok (map sessionReportToProto (m_pendingReports m)))).

Definition AcknowledgeSession (s : BGServer) (ctx : Ctx) (id : string) (now : Time) (rd : Readings) : BGAnswer bool :=
  with_manager s (fun m => required_id s id "session_id"
    match Acknowledge m id (caller_name ctx) now with
    | Err _ => (s, Err (status_Error NotFound "failed to acknowledge session"))
    | Ok (_, m) => (log_bg (set_manager s m) ctx "UPDATE" id [] rd, Ok true)
    end).

Definition GetSessionReport (s : BGServer) (id : string) : BGAnswer PbBGReport :=
  with_manager s (fun m => required_id s id "session_id"
    match GetReport m id with
    | Err _ => (s, Err (status_Error NotFound "session report not found"))
    | Ok r => (s, Ok (sessionReportToProto r))
    end).

(** The session that is held and those that wait for their acknowledgment. *)
Definition held_sessions (m : Manager) : list Session :=
  match m_session m with Some x => [x] | None => [] end ++ map SessionReport_Session (m_pendingReports m).
Definition ListSessions (s : BGServer) (state : Z) : BGAnswer (list PbBGSession * Z) :=
  with_manager s (fun m =>
    let l := map sessionToProto (List.filter (fun x => (state =? 0) || matchesSessionState (Session_State x) state) (held_sessions m)) in
    (s, Ok (l, int32 (Z.of_nat (length l))))).

(** ** Runs

    Calls of the service and the expiry timers of the sessions, in any order. *)
Inductive bg_call :=
| BCChallenge (username uuid : string) (nonce : option (list Z)) (random : string) (now1 now2 now3 : Time)
| BCEnable (ctx : Ctx) (req : EnableRequest) (rd : EnableReadings)
| BCDisable (ctx : Ctx) (now : Time) (rd : Readings)
| BCAcknowledge (ctx : Ctx) (id : string) (now : Time) (rd : Readings)
| BCExpiry (id : string) (now : Time).

Definition bg_serve (s : BGServer) (c : bg_call) : BGServer :=
  match c with
  | BCChallenge username uuid nonce random n1 n2 n3 => (CreateChallenge s username uuid nonce random n1 n2 n3).1
  | BCEnable ctx req rd => (EnableSession s ctx req rd).1
  | BCDisable ctx now rd => (DisableSession s ctx now rd).1
  | BCAcknowledge ctx id now rd => (AcknowledgeSession s ctx id now rd).1
  | BCExpiry id now => match bs_manager s with None => s | Some m => set_manager s (monitorExpiry m id now) end
  end.
End service.

(** ** Theorems *)

Section theorems.
Context `{UnicodeTables} `{Crypto}.

Lemma Enable_session m user reason d by_ id pw now0 now1 now2 x m' :
  Enable m user reason d by_ id pw now0 now1 now2 = Ok (x, m') ->
  Session_User x = user /\ Session_StartedAt x = now1 /\ Session_RequestedBy x = by_ /\ Session_Reason x = reason.
Proof. unfold Enable. intros He. destruct (negb _); [done|]. destruct (match m_session m with Some _ => _ | None => _ end); [done|]. destruct (_ <? _); [done|]. destruct (create_user _ _ _ _) as [[conn db]|]; [|done]. by simplify_eq/=. Qed.


(** A session of a configured user, with the access configured for it. *)
Definition allowed (config : BGConfig) (x : Session) : Prop :=
  Session_User x ∈ BGConfig_AllowedUsers config /\
  Session_AccessLevel x = (if AccessLevel_IsValid (BGUser_AccessLevel (Session_User x)) then BGUser_AccessLevel (Session_User x)
                           else BGConfig_DefaultAccessLevel config).

Record manager_ok (config : BGConfig) (m : Manager) : Prop := {
  mo_config : m_config m = config;
  mo_session x : m_session m = Some x -> allowed config x /\ Session_State x = StateActive;
  mo_pending r : r ∈ m_pendingReports m -> allowed config (SessionReport_Session r) /\
    Session_State (SessionReport_Session r) = StatePendingAck /\ SessionReport_AcknowledgedAt r = None;
  mo_disabled : BGConfig_Enabled config = false -> m_session m = None /\ m_pendingReports m = [] /\ m_challenges m = ∅;
}.

Lemma log_event_ok config m t x : manager_ok config m -> manager_ok config (log_event m t x).
Proof. intros [Hc Hs Hp Hd]. destruct (log_event_eq m t x) as [? ->]. by split. Qed.

Lemma endSession_ok config m expired now r m' :
  manager_ok config m -> endSession m expired now = Ok (r, m') -> manager_ok config m'.
Proof.
  intros [Hc Hs Hp Hd]. unfold endSession. destruct (m_session m) as [x|] eqn:Hx; [|done].
  destruct (query_stats m _) as [[q t] o]. intros Heq. injection Heq as <- <-. destruct (Hs x) as [Ha Hst]; [done|].
  apply log_event_ok. split; cbn; [done|done| |].
  - intros r. destruct (BGConfig_RequireAcknowledgment (m_config m)); [|apply Hp].
    intros [Hr| ->%list_elem_of_singleton]%elem_of_app; [by apply Hp|]. done.
  - intros Hen. by destruct (Hd Hen).
Qed.

Lemma remove_first_elem {A} (p : A -> bool) l l' x : remove_first p l = Some l' -> x ∈ l' -> x ∈ l.
Proof.
  revert l'. induction l as [|y l IH]; intros l'; cbn; [done|]. destruct (p y); [intros [= <-]; set_solver|].
  destruct (remove_first p l) as [l0|]; [|done]. intros [= <-]. rewrite !elem_of_cons. naive_solver.
Qed.

(** The guarantee of one call, on the manager it leaves. *)
Lemma bg_serve_ok config s c :
  (forall m, bs_manager s = Some m -> manager_ok config m) ->
  forall m, bs_manager (bg_serve s c) = Some m -> manager_ok config m.
Proof.
  intros Hall. destruct (bs_manager s) as [m|] eqn:Hm.
  2: { destruct c; cbn; unfold CreateChallenge, EnableSession, DisableSession, AcknowledgeSession, with_manager; rewrite Hm; cbn;
       by rewrite ?Hm. }
  specialize (Hall m eq_refl). pose proof Hall as [Hc Hs Hp Hd].
  destruct c as [username uuid nonce random n1 n2 n3|ctx req rd|ctx now rd|ctx id now rd|id now]; cbn [bg_serve].
  - unfold CreateChallenge, with_manager, required_id. rewrite Hm. case_bool_decide; [cbn; rewrite Hm; congruence|].
    destruct (BG_CreateChallenge _ _ _ _ _ _ _) as [[c m1]|] eqn:Hcc; cbn; [|rewrite Hm; congruence]. intros m2 [= <-].
    revert Hcc. unfold BG_CreateChallenge. destruct (BGConfig_Enabled (m_config m)) eqn:Hen; [|done]. cbn [negb].
    repeat (case_match; try done). intros [= <- <-]. split; cbn; [done..|]. intros Hdis. congruence.
  - unfold EnableSession, with_manager. rewrite Hm. case_bool_decide; [cbn; rewrite Hm; congruence|].
    destruct (BG_VerifyChallenge _ _ _ _) as [m1 v] eqn:Hv.
    assert (manager_ok config m1 /\ (forall u, v = Ok u -> u ∈ BGConfig_AllowedUsers config)) as [Hok Hin].
    { revert Hv. unfold BG_VerifyChallenge. destruct (m_challenges m !! _) as [ch|] eqn:Hch; [|by intros [= <- <-]].
      assert (BGConfig_Enabled config <> false) as Hen
        by (intros Hdis; destruct (Hd Hdis) as (_ & _ & He); by rewrite He, lookup_empty in Hch).
      assert (manager_ok config (set_challenges m (delete (ER_ChallengeId req) (m_challenges m)))) as Hdel by (by split).
      repeat case_match; intros [= <- <-]; (split; [done|]); try done. intros u [= ->].
      unfold findUser in *. match goal with E : List.find _ _ = Some _ |- _ => apply find_some in E as [Hin _] end.
      rewrite Hc in Hin. by apply list_elem_of_In. }
    destruct v as [user|e]; [|cbn; by intros m2 [= <-]].
    destruct (Enable m1 user _ _ _ _ _ _ _ _) as [[x m2]|] eqn:He; [|cbn; by intros ? [= <-]]. cbn. intros ? [= <-].
    destruct (Enable_session _ _ _ _ _ _ _ _ _ _ _ _ He) as (Hu & _).
    apply Enable_inv in He as (Hen & _ & _ & Hs2 & _ & Hst & _ & _ & Hal & _ & Hpe & Hcf & _). destruct Hok as [Hc1 _ Hp1 _].
    split; [congruence| | |].
    + intros y. rewrite Hs2. intros [= <-]. split; [|done]. unfold allowed. rewrite Hu. rewrite Hc1 in Hal. auto.
    + intros r. rewrite Hpe. apply Hp1.
    + rewrite Hc1 in Hen. congruence.
  - unfold DisableSession, with_manager. rewrite Hm. unfold Disable. destruct (m_session m); [|cbn; rewrite Hm; congruence].
    destruct (endSession m false now) as [[r m1]|] eqn:He; cbn; [|rewrite Hm; congruence]. intros ? [= <-]. by eapply endSession_ok.
  - unfold AcknowledgeSession, with_manager, required_id. rewrite Hm. case_bool_decide; [cbn; rewrite Hm; congruence|].
    unfold Acknowledge. destruct (List.find _ _) as [r|]; [|cbn; rewrite Hm; congruence].
    destruct (remove_first _ _) as [rest|] eqn:Hr; [|cbn; rewrite Hm; congruence]. cbn. intros ? [= <-].
    apply log_event_ok. split; cbn; [done|done| |].
    + intros r' Hr'. apply Hp. by eapply remove_first_elem.
    + intros Hdis. destruct (Hd Hdis) as (? & Hnil & ?). rewrite Hnil in Hr. done.
  - rewrite Hm. cbn. intros ? [= <-]. unfold monitorExpiry. destruct (m_session m); [|done]. destruct (_ && _); [|done].
    destruct (endSession m true now) as [[r m1]|] eqn:He; [|done]. by eapply endSession_ok.
Qed.


(** A filter by a state finds the sessions that are shown with it, for the three
    states the server compares; the others it offers find none. *)
Theorem list_by_state s m state :
  bs_manager s = Some m ->
  match (ListSessions s state).2, (ListSessions s 0).2 with
  | Ok (l, _), Ok (all, _) =>
      (state ∈ [1; 2; 4] -> l = List.filter (fun p => PS_State p =? state) all) /\ ((state ∉ [0; 1; 2; 4]) -> l = [])
  | _, _ => False
  end.
Proof.
  intros Hm. unfold ListSessions, with_manager. rewrite Hm. cbn [snd Z.eqb orb]. rewrite filter_true.
  generalize (held_sessions m). intros l. split.
  - intros Hst. induction l as [|x l IH]; [done|]. cbn [map List.filter].
    change (PS_State (sessionToProto x)) with (sessionStateToProto (Session_State x)). rewrite <- IH.
    assert ((state =? 0) || matchesSessionState (Session_State x) state = (sessionStateToProto (Session_State x) =? state)) as ->;
      [|by destruct (sessionStateToProto _ =? _)].
    assert (state = 1 \/ state = 2 \/ state = 4) as [->|[->| ->]] by set_solver; unfold matchesSessionState, sessionStateToProto;
      cbn [Z.eqb]; repeat case_bool_decide; try done;
      match goal with E : Session_State x = _, E' : Session_State x = _ |- _ => rewrite E in E'; discriminate E' end.
  - intros Hst. induction l as [|x l IH]; [done|]. cbn [map List.filter].
    assert ((state =? 0) || matchesSessionState (Session_State x) state = false) as ->; [|done].
    assert (state <> 0 /\ state <> 1 /\ state <> 2 /\ state <> 4) as (H0' & H1' & H2' & H4') by set_solver.
    unfold matchesSessionState. apply Z.eqb_neq in H0', H1', H2', H4'. by rewrite H0', H1', H2', H4'.
Qed.

(** ** What the handlers let through *)

(** Anybody can end the session and acknowledge it, without a name. *)
Theorem anyone_ends_session s ctx m x now rd :
  bs_manager s = Some m -> m_session m = Some x -> UserFromContext ctx = None ->
  BGConfig_RequireAcknowledgment (m_config m) = true -> Session_ID x <> "" ->
  (forall r, r ∈ m_pendingReports m -> Session_ID (SessionReport_Session r) <> Session_ID x) ->
  exists r, (DisableSession s ctx now rd).2 = Ok r /\ PS_Id (PR_Session r) = Session_ID x /\
    (AcknowledgeSession (DisableSession s ctx now rd).1 ctx (Session_ID x) now rd).2 = Ok true.
Proof.
  intros Hm Hx Hu Hack Hid Hnew. unfold DisableSession, with_manager. rewrite Hm. unfold Disable. rewrite Hx.
  destruct (endSession m false now) as [[r m']|e] eqn:He; [|unfold endSession in He; rewrite Hx in He; by repeat case_match].
  apply endSession_inv in He as (x' & Hx' & _ & Hrid & _ & _ & Hp & _). rewrite Hx in Hx'. injection Hx' as <-.
  rewrite Hack in Hp. cbn [snd fst]. exists (sessionReportToProto r). split; [done|]. split; [done|].
  unfold AcknowledgeSession, with_manager, required_id. cbn [bs_manager log_bg set_manager].
  rewrite bool_decide_false by done. unfold Acknowledge. rewrite Hp, find_app.
  assert (List.find (fun r => Session_ID (SessionReport_Session r) =?= Session_ID x) (m_pendingReports m) = None) as Hnone.
  { apply find_None. intros r' Hr'. apply bool_decide_false. by apply Hnew. }
  rewrite Hnone. cbn. rewrite bool_decide_true by done.
  assert (exists rest, remove_first (fun r => Session_ID (SessionReport_Session r) =?= Session_ID x)
            (m_pendingReports m ++ [r]) = Some rest) as [rest ->]; [|done].
  clear Hp Hnew. induction (m_pendingReports m) as [|r0 l IH]; cbn.
  - rewrite bool_decide_true by done. eauto.
  - case_bool_decide; [eauto|]. cbn in Hnone. rewrite bool_decide_false in Hnone by done. destruct (IH Hnone) as [rest ->]. eauto.
Qed.

(** The refusal of a challenge tells whether its user exists. *)
Theorem challenge_reveals_users s m username uuid nonce random n1 n2 n3 :
  bs_manager s = Some m -> BGConfig_Enabled (m_config m) = true -> username <> "" ->
  findUser m username = None <->
  (CreateChallenge s username uuid nonce random n1 n2 n3).2 =
  Err (status_Error InvalidArgument ("failed to create challenge: user not found: " ++ username)).
Proof.
  intros Hm Hen Hne. unfold CreateChallenge, with_manager, required_id. rewrite Hm, bool_decide_false by done.
  unfold BG_CreateChallenge. rewrite Hen. cbn [negb]. destruct (findUser m username); [|done].
  split; [done|]. intros Heq. destruct nonce; [done|]. cbn in Heq. discriminate Heq.
Qed.
End theorems.

(** ** Witnesses *)

Section witnesses.
#[local] Existing Instance toy_crypto.
#[local] Existing Instance identity_tables.

Definition bg_server : BGServer := mkBGServer (Some bg_start) None (open_audit "n1" []).
Definition nobody : Ctx := mkCtx None None None "".
Definition log_rd : Readings := mkReadings "u" 1 2 1 2 5.
Definition ask : bg_call := BCChallenge "alice" "c1" (Some [7; 8]) "" 0 0 0.
Definition answer : EnableRequest := mkEnableRequest "c1" [7; 8] "outage" (Some (5 * Minute)).
Definition enable_rd : EnableReadings := mkEnableReadings "11111111-2222" "pw" 10 10 10 10 log_rd.
Definition asked : BGServer := Eval vm_compute in bg_serve bg_server ask.
Definition opened : BGServer := Eval vm_compute in bg_serve asked (BCEnable nobody answer enable_rd).



Lemma list_by_state_witness :
  exists all, (ListSessions opened 0).2 = Ok (all, 1) /\ (ListSessions opened 1).2 = Ok (all, 1) /\
    List.filter (fun p => PS_State p =? 1) all = all.
Proof.
  eexists. split; [vm_compute; reflexivity|]. split; [vm_compute; reflexivity|].
  pose proof (list_by_state opened (default bg_start (bs_manager opened)) 1 eq_refl) as [Hl _].
  symmetry. apply Hl. left.
Defined.

Lemma anyone_ends_session_witness :
  exists r, (DisableSession opened nobody 900 log_rd).2 = Ok r /\
    (AcknowledgeSession (DisableSession opened nobody 900 log_rd).1 nobody "11111111-2222" 900 log_rd).2 = Ok true.
Proof.
  destruct (anyone_ends_session opened nobody (default bg_start (bs_manager opened))
    (mkSession "11111111-2222" bg_alice "outage" AccessReadOnly 10 (10 + 5 * Minute) "node" "unknown"
       "breakglass_11111111:pw" "breakglass_11111111" StateActive "") 900 log_rd)
    as (r & Hr & _ & Ha); [by vm_compute|by vm_compute|done|done|done|by intros r ?%elem_of_nil|]. by exists r.
Defined.

Lemma challenge_reveals_users_witness :
  (CreateChallenge bg_server "mallory" "c2" (Some [1]) "" 0 0 0).2 =
  Err (status_Error InvalidArgument "failed to create challenge: user not found: mallory").
Proof.
  apply (proj1 (challenge_reveals_users bg_server bg_start "mallory" "c2" (Some [1]) "" 0 0 0 eq_refl eq_refl ltac:(done))).
  by vm_compute.
Defined.
End witnesses.
