(* ===== verification/QueryServer.v ===== *)
(** * Queries on the wire ([internal/grpc/services/query/server.go], [job/server.go])

    The handlers check an expression of the common expression language and record that
    it was asked for; running it is announced for later, and so is all of the service of
    jobs.  Compilation is the class [CEL]: the text of its complaints, or the type of
    the result. *)
From stdpp Require Import base gmap strings list.
From Stdlib Require Import ZArith Lia Ascii.
From S2P Require Import Prelude GoStrings Domain GrpcErrors AuditLog GrpcServer.
Local Open Scope string_scope.
Local Open Scope bool_scope.

Class CEL := { Compile : string -> result string (option string) }.

Record QueryServer := mkQueryServer {
  qs_store : bool;
  qs_env : bool;
  qs_logger : option AuditConfig;
  qs_audit : AuditRepository;
}.
Definition QAnswer (A : Type) : Type := QueryServer * result Status A.

Record ExecuteQueryResponse := mkExecuteQueryResponse { EQ_Results : list unit; EQ_Warnings : list string }.
Record ValidateQueryResponse := mkValidateQueryResponse { VQ_Valid : bool; VQ_Warnings : list string; VQ_ResultType : string }.
Record SavedQuery := mkSavedQuery { SQ_Name : string; SQ_Expression : string }.
Record FunctionInfo := mkFunctionInfo { FI_Name : string; FI_Description : string; FI_ReturnType : string; FI_Category : string }.

Definition cel_functions : list FunctionInfo :=
  [mkFunctionInfo "size" "Returns the size of a string, bytes, list, or map" "int" "standard";
   mkFunctionInfo "contains" "Checks if a string contains a substring or a list contains an element" "bool" "standard";
   mkFunctionInfo "startsWith" "Checks if a string starts with a prefix" "bool" "standard";
   mkFunctionInfo "endsWith" "Checks if a string ends with a suffix" "bool" "standard";
   mkFunctionInfo "matches" "Checks if a string matches a regular expression" "bool" "standard";
   mkFunctionInfo "dataset" "Accesses dataset data by name or ID (Phase 3)" "Dataset" "bib";
   mkFunctionInfo "topic" "Accesses topic data by name or ID (Phase 3)" "Topic" "bib"].

Section service.
Context `{UnicodeTables} `{Crypto} `{CEL}.

(** [NewServer] and [NewServerWithConfig]; [env] tells whether the environment was made. *)
Definition NewQueryServer (env : bool) (log : AuditRepository) : QueryServer := mkQueryServer false env None log.
Definition NewQueryServerWithConfig (store env : bool) (logger : option AuditConfig) (log : AuditRepository) : QueryServer :=
  mkQueryServer store env logger log.

Definition log_query (s : QueryServer) (ctx : Ctx) (action resource id : string) (details : list (string * GoAny)) (rd : Readings)
    : QueryServer :=
  mkQueryServer (qs_store s) (qs_env s) (qs_logger s) (log_service (qs_logger s) (qs_audit s) ctx action resource id details rd).

Definition no_environment : Status := status_Error Unavailable "CEL environment not initialized".
Definition invalid_expression (issues : string) : Status := status_Error InvalidArgument ("invalid CEL expression: " ++ issues).

(** An expression that is there, an environment, and what it makes of it. *)
Definition compiled {A} (s : QueryServer) (expression : string) (k : result string (option string) -> QAnswer A) : QAnswer A :=
  if expression =?= "" then (s, Err (required "expression"))
  else if negb (qs_env s) then (s, Err no_environment)
  else k (Compile expression).

Definition Execute (s : QueryServer) (ctx : Ctx) (expression : string) (rd : Readings) : QAnswer ExecuteQueryResponse :=
  if negb (qs_store s) then (s, Err not_initialized)
  else compiled s expression (fun c =>
    match c with
    | Err issues => (s, Err (invalid_expression issues))
    | Ok _ => (log_query s ctx "EXECUTE" "query" "" [("expression", AnyString expression)] rd,
               Ok (mkExecuteQueryResponse [] ["Full query execution will be available in Phase 3"]))
    end).

(** The number of results sent; an error of the stream is [send]. *)
Definition ExecuteStream (s : QueryServer) (expression : string) (send : option Status) : QAnswer nat :=
  if negb (qs_store s) then (s, Err not_initialized)
  else compiled s expression (fun c =>
    match c with
    | Err issues => (s, Err (invalid_expression issues))
    | Ok _ => (s, match send with Some e => Err e | None => Ok 1%nat end)
    end).

Definition Validate (s : QueryServer) (expression : string) : QAnswer ValidateQueryResponse :=
  compiled s expression (fun c =>
    (s, Ok match c with
           | Err issues => mkValidateQueryResponse false [issues] ""
           | Ok t => mkValidateQueryResponse true [] (default "" t)
           end)).

Definition Explain (s : QueryServer) (expression : string) : QAnswer string :=
  compiled s expression (fun c =>
    (s, match c with
        | Err issues => Err (invalid_expression issues)
        | Ok _ => Ok "CEL expression parsed successfully. Full execution plan will be available in Phase 3."
        end)).

Definition ListFunctions (category : string) : list FunctionInfo :=
  if category =?= "" then cel_functions else List.filter (fun f => FI_Category f =?= category) cel_functions.
Definition GetHistory : list unit := [].
Definition ListSavedQueries : list SavedQuery := [].

Definition save_violations (name expression : string) : gmap string string :=
  let m : gmap string string := if name =?= "" then {[ "name" := "must not be empty" ]} else ∅ in
  if expression =?= "" then <["expression" := "must not be empty"]> m else m.

Definition SaveQuery (s : QueryServer) (ctx : Ctx) (name expression : string) (rd : Readings) : QAnswer SavedQuery :=
  if bool_decide (save_violations name expression <> ∅)
  then (s, Err (NewValidationError "invalid save query request" (save_violations name expression)))
  else match (if qs_env s then Compile expression else Ok None) with
       | Err issues => (s, Err (invalid_expression issues))
       | Ok _ => (log_query s ctx "CREATE" "saved_query" "" [("name", AnyString name)] rd, Ok (mkSavedQuery name expression))
       end.

Definition DeleteSavedQuery (s : QueryServer) (ctx : Ctx) (id : string) (rd : Readings) : QAnswer bool :=
  if id =?= "" then (s, Err (required "id")) else (log_query s ctx "DELETE" "saved_query" id [] rd, Ok true).

(** Every method of the service of jobs. *)
Definition job_method (name : string) : Status :=
  status_Error Unimplemented ("method " ++ name ++ " not implemented - awaiting Phase 3").

(** ** Theorems *)

(** An expression is executed, streamed, explained and saved exactly if it is found
    valid, and refused with what the validation warns of otherwise. *)
Theorem valid_expressions_execute s ctx expression rd r :
  qs_store s = true -> (Validate s expression).2 = Ok r ->
  if VQ_Valid r
  then (exists a, (Execute s ctx expression rd).2 = Ok a) /\ (ExecuteStream s expression None).2 = Ok 1%nat /\
       (exists a, (Explain s expression).2 = Ok a) /\
       forall name, name <> "" -> (SaveQuery s ctx name expression rd).2 = Ok (mkSavedQuery name expression)
  else exists issues, VQ_Warnings r = [issues] /\ (Execute s ctx expression rd).2 = Err (invalid_expression issues) /\
       (ExecuteStream s expression None).2 = Err (invalid_expression issues) /\
       (Explain s expression).2 = Err (invalid_expression issues) /\
       forall name, name <> "" -> (SaveQuery s ctx name expression rd).2 = Err (invalid_expression issues).
Proof.
  intros Hs. unfold Validate, Execute, ExecuteStream, Explain, SaveQuery, compiled. rewrite Hs. cbn [negb].
  case_bool_decide as He; [done|]. destruct (qs_env s); [|done]. cbn [negb].
  assert (forall name, name <> "" -> bool_decide (save_violations name expression <> ∅) = false) as Hv.
  { intros name Hn. apply bool_decide_false. unfold save_violations. rewrite !bool_decide_false by done. naive_solver. }
  destruct (Compile expression) as [t|issues]; intros [= <-]; cbn.
  - split; [eauto|]. split; [done|]. split; [eauto|]. intros name Hn. by rewrite Hv.
  - exists issues. do 4 (split; [done|]). intros name Hn. by rewrite Hv.
Qed.

(** No execution and no saved query is ever recorded: the log takes neither action. *)
Theorem queries_unaudited s ctx expression name rd :
  qs_audit (Execute s ctx expression rd).1 = qs_audit s /\ qs_audit (SaveQuery s ctx name expression rd).1 = qs_audit s.
Proof.
  assert (forall action resource id details, (action ∉ audit_actions) ->
    log_service (qs_logger s) (qs_audit s) ctx action resource id details rd = qs_audit s) as Hlog.
  { intros action resource id details Ha. unfold log_service. destruct (qs_logger s) as [a|]; [|done].
    unfold LogServiceAction. destruct (negb _); [done|]. by rewrite store_entry_refused. }
  split.
  - unfold Execute, compiled. repeat case_match; try done. cbn. apply Hlog. unfold audit_actions. set_solver.
  - unfold SaveQuery. repeat case_match; try done; cbn; apply Hlog, create_no_action.
Qed.
End service.

(** ** Witnesses *)

Section witnesses.
#[local] Existing Instance toy_crypto.
#[local] Existing Instance identity_tables.
#[local] Instance one_letter : CEL := {| Compile e := if e =?= "x" then Ok (Some "int") else Err "no such name" |}.

Lemma valid_expressions_execute_witness :
  (Execute (NewQueryServerWithConfig true true None (open_audit "n1" [])) (mkCtx None None None "") "y"
    (mkReadings "u" 1 2 1 2 5)).2 = Err (invalid_expression "no such name").
Proof.
  destruct (valid_expressions_execute (NewQueryServerWithConfig true true None (open_audit "n1" [])) (mkCtx None None None "")
    "y" (mkReadings "u" 1 2 1 2 5) (mkValidateQueryResponse false ["no such name"] ""))
    as (issues & Hw & He & _); [done|by vm_compute|]. by injection Hw as <-.
Defined.
End witnesses.
