(* ===== verification/Backup.v ===== *)
(** * Backups ([internal/storage/backup/manager.go], [types.go])

    Backups, restores and retention over the files of the node.  The files are a map
    from paths to contents, the directory [.metadata] of the backup directory a map
    from names; which file operations fail is an argument of each call, and a write
    that fails leaves what it had written.  SQLite runs with a write-ahead log
    ([sqlite/store.go]): the database is the main file and the file [-wal] beside it,
    of which a backup copies the main file, while the node may be writing to it.  The
    encoding of the metadata and the
    programs [pg_dump] and [pg_restore] are classes.  Paths are clean, identifiers of
    backups hold no slash, and the zone of the machine has no change of its offset. *)
From stdpp Require Import base gmap strings list sorting pretty.
From Stdlib Require Import ZArith Lia Ascii.
From S2P Require Import Prelude GoStrings GoTime Domain Sql.
Local Open Scope string_scope.
Local Open Scope Z_scope.
Local Open Scope bool_scope.

(** ** Data *)

Definition FormatPgDump : string := "pg_dump".
Definition FormatSQLite : string := "sqlite".
Definition LocationLocal : string := "local".
Definition LocationS3 : string := "s3".
Definition BackendSQLite : string := "sqlite".
Definition BackendPostgres : string := "postgres".

Record BackupMetadata := mkBackupMetadata {
  BM_ID : string;
  BM_Timestamp : Time;
  BM_Backend : string;
  BM_Format : string;
  BM_Size : Z;
  BM_Compressed : bool;
  BM_Encrypted : bool;
  BM_NodeID : string;
  BM_Version : string;
  BM_Location : string;
  BM_Path : string;
  BM_IntegrityHash : string;
  BM_Notes : string;
}.

Record BackupConfig := mkBackupConfig {
  BC_Location : string;
  BC_LocalPath : string;
  BC_Compression : bool;
  BC_Encryption : bool;
  BC_RetentionDays : Z;
  BC_MaxBackups : Z;
  BC_VerifyAfterBackup : bool;
}.
Definition DefaultBackupConfig : BackupConfig := mkBackupConfig LocationLocal "" true true 30 7 true.

Record BackupManager := mkBackupManager {
  bm_cfg : BackupConfig;
  bm_backend : string;
  bm_nodeID : string;
  bm_connStr : string;
  bm_dbPath : string;
}.

(** [pg] is what the database server holds; [dk_meta] is [None] while the directory
    does not exist. *)
Record Disk (Pg : Type) := mkDisk {
  dk_files : gmap string (list Z);
  dk_meta : option (gmap string (list Z));
  dk_pg : Pg;
}.
Arguments mkDisk {Pg} _ _ _.
Arguments dk_files {Pg} d.
Arguments dk_meta {Pg} d.
Arguments dk_pg {Pg} d.

Definition set_files {Pg} (d : Disk Pg) (f : gmap string (list Z)) : Disk Pg := mkDisk f (dk_meta d) (dk_pg d).
Definition set_meta {Pg} (d : Disk Pg) (m : gmap string (list Z)) : Disk Pg := mkDisk (dk_files d) (Some m) (dk_pg d).

(** Which operations fail: a copy or the write of metadata after so many bytes.
    [io_seen] is what the copy reads of the main file of a database that is in use. *)
Record BackupIO := mkBackupIO {
  io_seen : list Z -> list Z;
  io_create : bool;
  io_copy : option nat;
  io_mkdir : bool;
  io_write : option nat;
  io_remove : string -> bool;
}.
Definition all_well : BackupIO := mkBackupIO id true None true None (fun _ => true).

Inductive BackupError :=
| BUnsupported (backend : string)
| BNoConnection
| BNoDatabase
| BOpen
| BCreate
| BCopy
| BTool (output : string)
| BVerify
| BMismatch
| BEncode
| BMetadata
| BLoad
| BHasData
| BRemove.

Inductive Backed (A : Type) :=
| Done (a : A)
| Failed (e : BackupError)
| Crashed.
Arguments Done {A} a.
Arguments Failed {A} e.
Arguments Crashed {A}.

Class MetaJSON := {
  meta_text : BackupMetadata -> option (list Z);
  meta_value : list Z -> option BackupMetadata;
  meta_round m s : meta_text m = Some s -> meta_value s = Some m;
  meta_cut m s n : meta_text m = Some s -> (n < length s)%nat -> meta_value (take n s) = None;
}.

(** [pg_dump]: what it writes, or what it prints; [pg_restore]: the server after it. *)
Class PgTools := {
  Pg : Type;
  pg_dump : string -> Pg -> result string (list Z);
  pg_restore : string -> Pg -> list Z -> result string Pg;
  pg_version : string;
}.

(** The name of a file of metadata without its extension. *)
Definition cut_json (name : string) : option string :=
  let b := bytes_of name in
  let n := (length b - 5)%nat in
  if (5 <=? length b)%nat && bool_decide (drop n b = bytes_of ".json") then Some (str_of (take n b)) else None.

(** The newest first. *)
Definition newer (a b : BackupMetadata) : Prop := BM_Timestamp b <= BM_Timestamp a.

(** [20060102_150405] *)
Definition compact_stamp (t : Time) : list ascii :=
  let s := second_text (seconds_of t) in
  (take 4 s ++ take 2 (drop 5 s) ++ take 2 (drop 8 s) ++ "_"%char :: take 2 (drop 11 s) ++ take 2 (drop 14 s) ++
   take 2 (drop 17 s))%list.
Definition meta_name (id : string) : string := id ++ ".json".

(** [NewManager] puts the default path into the configuration. *)
Definition NewBackupManager (cfg : BackupConfig) (backend dataDir nodeID : string) : BackupManager :=
  mkBackupManager
    (mkBackupConfig (BC_Location cfg) (if BC_LocalPath cfg =?= "" then dataDir ++ "/backups" else BC_LocalPath cfg)
       (BC_Compression cfg) (BC_Encryption cfg) (BC_RetentionDays cfg) (BC_MaxBackups cfg) (BC_VerifyAfterBackup cfg))
    backend nodeID "" "".
Definition SetConnectionString (m : BackupManager) (c : string) : BackupManager :=
  mkBackupManager (bm_cfg m) (bm_backend m) (bm_nodeID m) c (bm_dbPath m).
Definition SetDatabasePath (m : BackupManager) (p : string) : BackupManager :=
  mkBackupManager (bm_cfg m) (bm_backend m) (bm_nodeID m) (bm_connStr m) p.

Definition generateBackupID (unixNano : Z) : string := pretty unixNano.

Definition backup_path (m : BackupManager) (ext id : string) (t : Time) : string :=
  BC_LocalPath (bm_cfg m) ++ "/" ++ bm_nodeID m ++ "_" ++ id ++ "_" ++ str_of (compact_stamp t) ++ ext ++
  (if BC_Compression (bm_cfg m) then ".gz" else "").

Section backup.
Context `{Crypto} `{MetaJSON} `{PgTools} `{!OrderBy newer}.

Abbreviation D := (Disk Pg).

(** ** Files *)

Definition file_hash (data : list Z) : string := EncodeToString (sha256_Sum256 data).
Definition calculateFileInfo (d : D) (path : string) : option (Z * string) :=
  (fun data => (Z.of_nat (length data), file_hash data)) <$> dk_files d !! path.

(** A copy into a file that is created: the disk after it and whether it succeeded. *)
Definition copy_file (d : D) (path : string) (data : list Z) (io : BackupIO) : D * option BackupError :=
  if negb (io_create io) then (d, Some BCreate)
  else match io_copy io with
       | Some n => (set_files d (<[path := take n data]> (dk_files d)), Some BCopy)
       | None => (set_files d (<[path := data]> (dk_files d)), None)
       end.

Definition verifyBackup (d : D) (m : BackupMetadata) : option BackupError :=
  match calculateFileInfo d (BM_Path m) with
  | None => Some BVerify
  | Some (_, hash) => if hash =?= BM_IntegrityHash m then None else Some BMismatch
  end.

Definition saveMetadata (d : D) (m : BackupMetadata) (io : BackupIO) : D * option BackupError :=
  if negb (io_mkdir io) then (d, Some BMetadata)
  else
    let dir := default ∅ (dk_meta d) in
    match meta_text m, io_write io with
    | None, _ => (set_meta d dir, Some BEncode)
    | Some s, Some n => (set_meta d (<[meta_name (BM_ID m) := take n s]> dir), Some BMetadata)
    | Some s, None => (set_meta d (<[meta_name (BM_ID m) := s]> dir), None)
    end.

Definition loadMetadata (d : D) (id : string) : option BackupMetadata :=
  dir ← dk_meta d; s ← dir !! meta_name id; meta_value s.

(** ** Listing and deletion *)

(** A directory entry, if it is metadata that can be read. *)
Definition listed_entry (d : D) (name : string) : option BackupMetadata :=
  match cut_json name with Some id => loadMetadata d id | None => None end.
Definition listed (d : D) : list BackupMetadata :=
  match dk_meta d with None => [] | Some dir => omap (fun p : string * list Z => listed_entry d p.1) (map_to_list dir) end.
Definition Backup_List (d : D) : list BackupMetadata := order_by newer (listed d).

(** A file that is not there is removed already. *)
Definition remove_file (d : D) (path : string) (io : BackupIO) : option D :=
  match dk_files d !! path with
  | None => Some d
  | Some _ => if io_remove io path then Some (set_files d (delete path (dk_files d))) else None
  end.
Definition Backup_Delete (d : D) (id : string) (io : BackupIO) : D * option BackupError :=
  match loadMetadata d id with
  | None => (d, Some BLoad)
  | Some m =>
      match remove_file d (BM_Path m) io with
      | None => (d, Some BRemove)
      | Some d =>
          if io_remove io (meta_name id) then (set_meta d (delete (meta_name id) (default ∅ (dk_meta d))), None)
          else (d, Some BRemove)
      end
  end.

(** Up to the first failure. *)
Fixpoint delete_all (d : D) (l : list BackupMetadata) (io : BackupIO) : D * option BackupError :=
  match l with
  | [] => (d, None)
  | m :: l => match Backup_Delete d (BM_ID m) io with
              | (d, Some e) => (d, Some e)
              | (d, None) => delete_all d l io
              end
  end.

Definition cutoff (m : BackupManager) (now : Time) : Time := now - BC_RetentionDays (bm_cfg m) * (24 * Hour).

(** [None] for an index out of range: a negative number of backups.  An error stops
    the clean-up and is no error of the backup. *)
Definition cleanupOldBackups (m : BackupManager) (d : D) (io : BackupIO) (now : Time) : option D :=
  let backups := Backup_List d in
  match delete_all d (List.filter (fun b => BM_Timestamp b <? cutoff m now) backups) io with
  | (d, Some _) => Some d
  | (d, None) =>
      if BC_MaxBackups (bm_cfg m) <? Z.of_nat (length backups) then
        if BC_MaxBackups (bm_cfg m) <? 0 then None
        else Some (delete_all d (drop (Z.to_nat (BC_MaxBackups (bm_cfg m))) backups) io).1
      else Some d
  end.

(** ** Backup *)

Definition metadata_of (m : BackupManager) (id : string) (t : Time) (format path version : string) (compressed : bool)
    (notes : string) (size : Z) (hash : string) : BackupMetadata :=
  mkBackupMetadata id t (bm_backend m) format size compressed (BC_Encryption (bm_cfg m)) (bm_nodeID m) version
    (BC_Location (bm_cfg m)) path hash notes.

Definition backupSQLite (m : BackupManager) (d : D) (id : string) (t : Time) (notes : string) (io : BackupIO)
    : D * result BackupError BackupMetadata :=
  if bm_dbPath m =?= "" then (d, Err BNoDatabase)
  else match dk_files d !! bm_dbPath m with
       | None => (d, Err BOpen)
       | Some data =>
           let path := backup_path m ".db" id t in
           match copy_file d path (io_seen io data) io with
           | (d, Some e) => (d, Err e)
           | (d, None) =>
               match calculateFileInfo d path with
               | None => (d, Err BOpen)
               | Some (size, hash) => (d, Ok (metadata_of m id t FormatSQLite path "" false notes size hash))
               end
           end
       end.

Definition backupPostgres (m : BackupManager) (d : D) (id : string) (t : Time) (notes : string)
    : D * result BackupError BackupMetadata :=
  if bm_connStr m =?= "" then (d, Err BNoConnection)
  else
    let path := backup_path m ".sql" id t in
    match pg_dump (bm_connStr m) (dk_pg d) with
    | Err output => (d, Err (BTool output))
    | Ok data =>
        let d := set_files d (<[path := data]> (dk_files d)) in
        match calculateFileInfo d path with
        | None => (d, Err BOpen)
        | Some (size, hash) =>
            (d, Ok (metadata_of m id t FormatPgDump path pg_version (BC_Compression (bm_cfg m)) notes size hash))
        end
    end.

Definition CreateBackup (m : BackupManager) (d : D) (id : string) (t : Time) (notes : string) (io : BackupIO) (now : Time)
    : D * Backed BackupMetadata :=
  let '(d, made) :=
    if bm_backend m =?= BackendPostgres then backupPostgres m d id t notes
    else if bm_backend m =?= BackendSQLite then backupSQLite m d id t notes io
    else (d, Err (BUnsupported (bm_backend m))) in
  match made with
  | Err e => (d, Failed e)
  | Ok meta =>
      match (if BC_VerifyAfterBackup (bm_cfg m) then verifyBackup d meta else None) with
      | Some e => (d, Failed e)
      | None =>
          match saveMetadata d meta io with
          | (d, Some e) => (d, Failed e)
          | (d, None) => match cleanupOldBackups m d io now with Some d => (d, Done meta) | None => (d, Crashed) end
          end
      end
  end.

(** ** Restore *)

Definition hasData (m : BackupManager) (d : D) : bool :=
  if bm_backend m =?= BackendPostgres then true
  else (bm_backend m =?= BackendSQLite) && match dk_files d !! bm_dbPath m with Some _ => true | None => false end.

Definition restoreSQLite (m : BackupManager) (d : D) (meta : BackupMetadata) (io : BackupIO) : D * option BackupError :=
  if bm_dbPath m =?= "" then (d, Some BNoDatabase)
  else match dk_files d !! BM_Path meta with
       | None => (d, Some BOpen)
       | Some data => copy_file d (bm_dbPath m) data io
       end.
Definition restorePostgres (m : BackupManager) (d : D) (meta : BackupMetadata) : D * option BackupError :=
  if bm_connStr m =?= "" then (d, Some BNoConnection)
  else match pg_restore (bm_connStr m) (dk_pg d) (default [] (dk_files d !! BM_Path meta)) with
       | Err output => (d, Some (BTool output))
       | Ok pg => (mkDisk (dk_files d) (dk_meta d) pg, None)
       end.

Definition RestoreWithOptions (m : BackupManager) (d : D) (id : string) (verify force : bool) (io : BackupIO)
    : D * option BackupError :=
  match loadMetadata d id with
  | None => (d, Some BLoad)
  | Some meta =>
      match (if verify then verifyBackup d meta else None) with
      | Some e => (d, Some e)
      | None =>
          if negb force && hasData m d then (d, Some BHasData)
          else if BM_Backend meta =?= BackendPostgres then restorePostgres m d meta
          else if BM_Backend meta =?= BackendSQLite then restoreSQLite m d meta io
          else (d, Some (BUnsupported (BM_Backend meta)))
      end
  end.
Definition Restore (m : BackupManager) (d : D) (id : string) (io : BackupIO) : D * option BackupError :=
  RestoreWithOptions m d id true false io.
End backup.

(** ** What the files hold *)

#[local] Instance BackupMetadata_dec : EqDecision BackupMetadata.
Proof. solve_decision. Defined.

Lemma NoDup_omap {A B} (f : A -> option B) l :
  NoDup l -> (forall x y z, x ∈ l -> y ∈ l -> f x = Some z -> f y = Some z -> x = y) -> NoDup (omap f l).
Proof.
  induction l as [|x l IH]; intros Hn Hf; [by apply NoDup_nil_2|]. apply NoDup_cons in Hn as [Hx Hn].
  assert (Hl : NoDup (omap f l)) by (apply IH; [done|]; intros; eapply Hf; set_solver).
  csimpl. destruct (f x) as [z|] eqn:E; [|done]. apply NoDup_cons. split; [|done].
  intros (y & Hy & Hz)%list_elem_of_omap. destruct Hx. by rewrite (Hf x y z) by set_solver.
Qed.

Section facts.
Context `{Crypto} `{MetaJSON} `{PgTools} `{!OrderBy newer}.

Abbreviation D := (Disk Pg).

Lemma bytes_of_meta_name id : bytes_of (meta_name id) = (bytes_of id ++ bytes_of ".json")%list.
Proof. apply bytes_of_append. Qed.

Lemma cut_json_meta_name id : cut_json (meta_name id) = Some id.
Proof.
  unfold cut_json. rewrite bytes_of_meta_name, length_app. change (length (bytes_of ".json")) with 5%nat.
  rewrite Nat.add_sub, drop_app_length, take_app_length, bool_decide_eq_true_2 by done.
  rewrite (proj2 (Nat.leb_le _ _)) by lia. cbn. by rewrite String.string_of_list_ascii_of_string.
Qed.

Lemma cut_json_Some name id : cut_json name = Some id -> name = meta_name id.
Proof.
  unfold cut_json. case_match eqn:E; [|done]. intros [= <-]. apply andb_prop in E as [_ E].
  apply bool_decide_eq_true_1 in E. apply bytes_of_inj.
  rewrite bytes_of_meta_name, String.list_ascii_of_string_of_list_ascii, <- E. by rewrite take_drop.
Qed.

#[local] Instance meta_name_inj : Inj (=) (=) meta_name.
Proof. intros id id' E. apply (inj Some). by rewrite <- !cut_json_meta_name, E. Qed.

(** Metadata is kept under its own identifier. *)
Definition named (d : D) : Prop := forall id b, loadMetadata d id = Some b -> BM_ID b = id.

Lemma elem_of_listed d b : named d -> b ∈ listed d <-> loadMetadata d (BM_ID b) = Some b.
Proof.
  intros Hn. unfold listed. destruct (dk_meta d) as [dir|] eqn:Ed.
  - rewrite list_elem_of_omap. split.
    + intros ([name s] & _ & Hl). unfold listed_entry in Hl. simpl in Hl.
      destruct (cut_json name) as [id|]; [|done]. by rewrite (Hn _ _ Hl).
    + intros Hl. assert (Hs := Hl). unfold loadMetadata in Hs. rewrite Ed in Hs. simpl in Hs.
      destruct (dir !! meta_name (BM_ID b)) as [s|] eqn:Es; [|done].
      exists (meta_name (BM_ID b), s). split; [by apply elem_of_map_to_list|].
      unfold listed_entry. simpl. by rewrite cut_json_meta_name.
  - unfold loadMetadata. rewrite Ed. simpl. split; [by intros ?%not_elem_of_nil|done].
Qed.

Lemma listed_names d : named d -> forall b b', b ∈ listed d -> b' ∈ listed d -> BM_ID b = BM_ID b' -> b = b'.
Proof.
  intros Hn b b' Hb Hb' E. rewrite elem_of_listed in Hb, Hb' by done. rewrite E, Hb' in Hb. by injection Hb.
Qed.

Lemma listed_NoDup d : named d -> NoDup (listed d).
Proof.
  intros Hn. unfold listed. destruct (dk_meta d) as [dir|] eqn:Ed; [|by apply NoDup_nil_2].
  apply NoDup_omap; [apply NoDup_map_to_list|].
  intros [name s] [name' s'] b Hx%elem_of_map_to_list Hy%elem_of_map_to_list. unfold listed_entry. simpl.
  destruct (cut_json name) as [id|] eqn:E; [|done]. destruct (cut_json name') as [id'|] eqn:E'; [|done].
  intros Hb Hb'. apply Hn in Hb as <-, Hb' as <-. apply cut_json_Some in E as ->, E' as ->. congruence.
Qed.

Lemma Backup_List_elem d b : b ∈ Backup_List d <-> b ∈ listed d.
Proof. apply elem_of_order_by. Qed.

(** ** Deletion *)

Definition without (d : D) (b : BackupMetadata) : D :=
  mkDisk (delete (BM_Path b) (dk_files d)) (delete (meta_name (BM_ID b)) <$> dk_meta d) (dk_pg d).

Lemma load_without d b id :
  loadMetadata (without d b) id = if decide (id = BM_ID b) then None else loadMetadata d id.
Proof.
  unfold loadMetadata, without. simpl. destruct (dk_meta d) as [dir|]; simpl; [|by case_decide].
  case_decide as E; [subst; by rewrite lookup_delete_eq|].
  by rewrite lookup_delete_ne by (intros X%(inj meta_name); congruence).
Qed.

Lemma load_without_all d l id :
  loadMetadata (foldl without d l) id = if decide (id ∈ BM_ID <$> l) then None else loadMetadata d id.
Proof.
  revert d. induction l as [|b l IH]; intros d; [done|]. cbn [foldl]. rewrite IH, load_without, fmap_cons.
  repeat case_decide; set_solver.
Qed.

Lemma files_without_all d l p :
  dk_files (foldl without d l) !! p = if decide (p ∈ BM_Path <$> l) then None else dk_files d !! p.
Proof.
  revert d. induction l as [|b l IH]; intros d; [done|]. cbn [foldl]. rewrite IH, fmap_cons. simpl.
  destruct (decide (p = BM_Path b)) as [->|]; [rewrite lookup_delete_eq|rewrite lookup_delete_ne by done];
    repeat case_decide; set_solver.
Qed.

Lemma named_without_all d l : named d -> named (foldl without d l).
Proof. intros Hn id b. rewrite load_without_all. case_decide; [done|apply Hn]. Qed.

Lemma Backup_Delete_done d b io :
  (forall p, io_remove io p = true) -> loadMetadata d (BM_ID b) = Some b ->
  Backup_Delete d (BM_ID b) io = (without d b, None).
Proof.
  intros Hio Hl. unfold Backup_Delete. rewrite Hl. unfold remove_file.
  assert (Hm : exists dir, dk_meta d = Some dir) by (unfold loadMetadata in Hl; destruct (dk_meta d); eauto; done).
  destruct Hm as [dir Hm]. unfold without, set_meta, set_files.
  destruct (dk_files d !! BM_Path b) eqn:E; rewrite !Hio; simpl; rewrite Hm; [done|]. by rewrite (delete_id (dk_files d)).
Qed.

Lemma delete_all_app d l l' io :
  delete_all d (l ++ l') io = match delete_all d l io with
                              | (d, None) => delete_all d l' io
                              | (d, Some e) => (d, Some e)
                              end.
Proof.
  revert d. induction l as [|b l IH]; intros d; [done|]. simpl. destruct (Backup_Delete d (BM_ID b) io) as [d' [e|]]; eauto.
Qed.

Lemma delete_all_listed d l io :
  (forall p, io_remove io p = true) -> NoDup (BM_ID <$> l) -> Forall (fun b => loadMetadata d (BM_ID b) = Some b) l ->
  delete_all d l io = (foldl without d l, None).
Proof.
  intros Hio. revert d. induction l as [|b l IH]; intros d Hn Hl; [done|]. simpl.
  apply Forall_cons in Hl as [Hb Hl]. rewrite fmap_cons, NoDup_cons in Hn. destruct Hn as [Hb' Hn].
  rewrite Backup_Delete_done by done. apply IH; [done|]. rewrite Forall_forall in Hl |- *. intros x Hx.
  rewrite load_without. case_decide as E; [|by apply Hl]. destruct Hb'. rewrite <- E. by apply list_elem_of_fmap_2.
Qed.

(** Only metadata that has gone stops it. *)
Lemma delete_all_gone d l io : Forall (fun b => loadMetadata d (BM_ID b) = None) l -> (delete_all d l io).1 = d.
Proof. destruct l as [|b l]; [done|]. intros [Hb _]%Forall_cons. simpl. unfold Backup_Delete. by rewrite Hb. Qed.

(** ** Retention *)

Lemma newer_split l (c : Z) :
  StronglySorted newer l ->
  l = (List.filter (fun b => c <=? BM_Timestamp b) l ++ List.filter (fun b => BM_Timestamp b <? c) l)%list.
Proof.
  induction l as [|b l IH]; [done|]. intros [Hs Hb]%StronglySorted_inv. simpl.
  destruct (Z.leb_spec c (BM_Timestamp b)), (Z.ltb_spec (BM_Timestamp b) c); try lia.
  - simpl. by rewrite <- IH.
  - rewrite (filter_none _ l); simpl.
    + f_equal. symmetry. apply forallb_filter_id, forallb_forall. intros x Hx%list_elem_of_In.
      rewrite Forall_forall in Hb. specialize (Hb x Hx). unfold newer in Hb. lia.
    + intros x Hx. rewrite Forall_forall in Hb. specialize (Hb x Hx). unfold newer in Hb. lia.
Qed.

Lemma Backup_List_NoDup d : named d -> NoDup (Backup_List d).
Proof. intros Hn. unfold Backup_List. rewrite order_by_perm. by apply listed_NoDup. Qed.

Lemma listed_ids d l : named d -> l `sublist_of` Backup_List d -> NoDup (BM_ID <$> l).
Proof.
  intros Hn Hl. assert (Hs : forall b, b ∈ l -> b ∈ listed d).
  { intros b Hb. apply Backup_List_elem. by eapply elem_of_sublist. }
  apply NoDup_fmap_2_strong; [intros; eapply listed_names; eauto|].
  eapply sublist_NoDup; [|exact Hl]. by apply Backup_List_NoDup.
Qed.

Lemma elem_of_dropped {A} n (l : list A) x : x ∈ drop n l -> x ∈ l.
Proof. intros Hx. eapply elem_of_sublist; [done|apply sublist_drop]. Qed.

Lemma StronglySorted_drop (l : list BackupMetadata) n : StronglySorted newer l -> StronglySorted newer (drop n l).
Proof.
  revert n. induction l as [|b l IH]; intros [|n] Hs; try done. apply IH. by apply StronglySorted_inv in Hs as [Hs _].
Qed.

(** The two rounds of the clean-up: by age, then by number. *)
Definition aged (m : BackupManager) (d : D) (now : Time) : list BackupMetadata :=
  List.filter (fun b => BM_Timestamp b <? cutoff m now) (Backup_List d).
Definition surplus (m : BackupManager) (d : D) (now : Time) : list BackupMetadata :=
  List.filter (fun b => cutoff m now <=? BM_Timestamp b) (drop (Z.to_nat (BC_MaxBackups (bm_cfg m))) (Backup_List d)).

Lemma list_filter_sublist {A} (p : A -> bool) (l : list A) : List.filter p l `sublist_of` l.
Proof. induction l as [|x l IH]; [constructor|]. simpl. destruct (p x); by constructor. Qed.

Lemma loaded d b : named d -> b ∈ Backup_List d -> loadMetadata d (BM_ID b) = Some b.
Proof. intros Hn Hb. by apply elem_of_listed, Backup_List_elem. Qed.

Lemma delete_aged m d io now :
  named d -> (forall p, io_remove io p = true) ->
  delete_all d (aged m d now) io = (foldl without d (aged m d now), None).
Proof.
  intros Hn Hio. apply delete_all_listed; [done|apply (listed_ids d), list_filter_sublist; done|].
  apply Forall_forall. intros b (Hb & _)%list_elem_of_In%filter_In. apply loaded; [done|by apply list_elem_of_In].
Qed.

Lemma aged_not_surplus m d now b :
  named d -> b ∈ surplus m d now -> BM_ID b ∉ BM_ID <$> aged m d now.
Proof.
  intros Hn Hb (b' & E & Hb')%list_elem_of_fmap. apply list_elem_of_In, filter_In in Hb as [Hb Ht], Hb' as [Hb' Ht'].
  apply list_elem_of_In in Hb, Hb'. apply elem_of_dropped in Hb. rewrite Backup_List_elem in Hb, Hb'.
  assert (b = b') as <- by (by eapply listed_names). lia.
Qed.

Lemma cleanup_rounds m d io now :
  named d -> 0 <= BC_MaxBackups (bm_cfg m) -> (forall p, io_remove io p = true) ->
  cleanupOldBackups m d io now = Some (foldl without d (aged m d now ++ surplus m d now)).
Proof.
  intros Hn Hm Hio. unfold cleanupOldBackups. fold (aged m d now). rewrite delete_aged by done.
  rewrite foldl_app. set (n := Z.to_nat (BC_MaxBackups (bm_cfg m))).
  destruct (Z.ltb_spec (BC_MaxBackups (bm_cfg m)) (Z.of_nat (length (Backup_List d)))) as [Hl|Hl].
  - rewrite (proj2 (Z.ltb_ge _ _)) by lia. f_equal. fold n.
    rewrite (newer_split (drop n (Backup_List d)) (cutoff m now)) by apply StronglySorted_drop, order_by_sorted.
    rewrite delete_all_app. change (List.filter _ (drop n (Backup_List d))) with (surplus m d now) at 1.
    rewrite delete_all_listed; [|done| |].
    + apply delete_all_gone, Forall_forall. intros b [Hb Ht]%list_elem_of_In%filter_In.
      rewrite !load_without_all. case_decide; [done|]. apply decide_True. apply list_elem_of_fmap_2, list_elem_of_In, filter_In.
      split; [|done]. rewrite <- list_elem_of_In in Hb |- *. by eapply elem_of_dropped.
    + apply (listed_ids d); [done|]. etransitivity; [apply list_filter_sublist|]. apply sublist_drop.
    + apply Forall_forall. intros b Hb. rewrite load_without_all, decide_False by (by apply aged_not_surplus).
      apply list_elem_of_In, filter_In in Hb as [Hb _]. apply loaded; [done|]. by eapply elem_of_dropped, list_elem_of_In.
  - unfold surplus. by rewrite drop_ge by lia.
Qed.

Lemma gone_listed m d now b : b ∈ (aged m d now ++ surplus m d now)%list -> b ∈ Backup_List d.
Proof.
  intros [Hb|Hb]%elem_of_app; apply list_elem_of_In, filter_In in Hb as [Hb _]; [by apply list_elem_of_In|].
  by eapply elem_of_dropped, list_elem_of_In.
Qed.

Lemma named_gone m d now b b' :
  named d -> loadMetadata d (BM_ID b) = Some b -> BM_ID b = BM_ID b' -> b' ∈ (aged m d now ++ surplus m d now)%list ->
  b = b'.
Proof. intros Hn Hb E Hb'%gone_listed. apply loaded in Hb'; [|done]. congruence. Qed.

(** What neither round takes. *)
Lemma kept_iff m d now b :
  named d ->
  b ∈ Backup_List d /\ (b ∉ (aged m d now ++ surplus m d now)%list) <->
  b ∈ List.filter (fun b => cutoff m now <=? BM_Timestamp b) (take (Z.to_nat (BC_MaxBackups (bm_cfg m))) (Backup_List d)).
Proof.
  intros Hn. assert (Hd := Backup_List_NoDup d Hn). set (n := Z.to_nat _).
  assert (Hl := take_drop n (Backup_List d)). rewrite <- Hl in Hd. apply NoDup_app in Hd as (_ & Hd & _).
  specialize (Hd b). assert (Hb : b ∈ Backup_List d <-> b ∈ take n (Backup_List d) \/ b ∈ drop n (Backup_List d))
    by (rewrite <- Hl at 1; apply elem_of_app).
  unfold aged, surplus. fold n. rewrite elem_of_app, !list_elem_of_In, !filter_In, <- !list_elem_of_In.
  rewrite Z.leb_le, Z.ltb_lt. destruct (Z.lt_ge_cases (BM_Timestamp b) (cutoff m now)); naive_solver lia.
Qed.

(** C26: with a maximum that is not negative and files that can be removed, the
    clean-up leaves exactly the newest backups up to the maximum, less those older than
    the retention; the files of the backups that leave the listing are removed, and no
    other file changes. *)
Theorem retention_exact m d io now :
  named d -> 0 <= BC_MaxBackups (bm_cfg m) -> (forall p, io_remove io p = true) ->
  exists d', cleanupOldBackups m d io now = Some d' /\
    Backup_List d' ≡ₚ List.filter (fun b => cutoff m now <=? BM_Timestamp b)
                       (take (Z.to_nat (BC_MaxBackups (bm_cfg m))) (Backup_List d)) /\
    (forall b, b ∈ Backup_List d -> (b ∉ Backup_List d') -> dk_files d' !! BM_Path b = None) /\
    (forall p, dk_files d' !! p <> dk_files d !! p ->
       exists b, b ∈ Backup_List d /\ (b ∉ Backup_List d') /\ BM_Path b = p).
Proof.
  intros Hn Hm Hio. eexists. split; [by apply cleanup_rounds|].
  set (gone := (aged m d now ++ surplus m d now)%list). assert (Hn' := named_without_all d gone Hn).
  assert (Hin : forall b, b ∈ Backup_List (foldl without d gone) <-> b ∈ Backup_List d /\ (b ∉ gone)).
  { intros b. rewrite !Backup_List_elem, !elem_of_listed, load_without_all by done.
    split; [case_decide as E; [done|]|]; intros Hb.
    - split; [done|]. intros Hg. by apply E, list_elem_of_fmap_2.
    - destruct Hb as [Hb Hg]. rewrite decide_False; [done|]. intros (b' & E & Hb')%list_elem_of_fmap. apply Hg.
      by rewrite (named_gone m d now b b'). }
  split; [|split].
  - apply NoDup_Permutation; [by apply Backup_List_NoDup| |intros b; rewrite Hin; by apply kept_iff].
    eapply sublist_NoDup; [by apply (Backup_List_NoDup d)|].
    etransitivity; [apply list_filter_sublist|apply sublist_take].
  - intros b Hb. rewrite Hin, files_without_all. intros Hg. apply decide_True, list_elem_of_fmap_2.
    apply dec_stable. naive_solver.
  - intros p. rewrite files_without_all. case_decide as E; [|done]. intros _.
    apply list_elem_of_fmap in E as (b & -> & Hb). exists b. split; [by eapply gone_listed|].
    split; [|done]. rewrite Hin. by intros [_ ?].
Qed.

(** ** Backups that last *)

Lemma compact_stamp_length t : length (compact_stamp t) = 15%nat.
Proof.
  unfold compact_stamp. rewrite !length_app. cbn [length]. rewrite !length_app, !length_take, !length_drop, second_text_length.
  done.
Qed.

Lemma backup_path_inj m ext id id' t t' : backup_path m ext id t = backup_path m ext id' t' -> id = id'.
Proof.
  unfold backup_path. set (tail := ext ++ _). intros E. apply (f_equal String.list_ascii_of_string) in E.
  rewrite !bytes_of_append in E. do 4 apply app_inv_head in E. apply app_inj_2 in E as [E _]; [by apply bytes_of_inj|].
  by rewrite !length_app, !String.list_ascii_of_string_of_list_ascii, !compact_stamp_length.
Qed.

(** The extension of the backups of a manager. *)
Definition ext_of (m : BackupManager) : string := if bm_backend m =?= BackendPostgres then ".sql" else ".db".

(** The metadata the manager wrote: under its identifier, with the path of its file. *)
Definition kept_by (m : BackupManager) (d : D) : Prop :=
  forall id b, loadMetadata d id = Some b -> BM_ID b = id /\ BM_Path b = backup_path m (ext_of m) id (BM_Timestamp b).

Lemma kept_by_named m d : kept_by m d -> named d.
Proof. intros Hk id b Hb. by apply Hk in Hb as [? _]. Qed.

(** The log beside the main file. *)
Definition wal_path (m : BackupManager) : string := bm_dbPath m ++ "-wal".

(** What happens while a backup is kept: other backups, deletions, restores, writes of
    the database and its log; files and metadata may fail to be written at any point. *)
Inductive backup_step (m : BackupManager) (id0 : string) (d : D) : D -> Prop :=
| step_backup id t notes io now :
    id <> id0 -> backup_step m id0 d (CreateBackup m d id t notes io now).1
| step_delete id io : backup_step m id0 d (Backup_Delete d id io).1
| step_restore id verify force io : backup_step m id0 d (RestoreWithOptions m d id verify force io).1
| step_write o : backup_step m id0 d (set_files d (partial_alter (fun _ => o) (bm_dbPath m) (dk_files d)))
| step_log o : backup_step m id0 d (set_files d (partial_alter (fun _ => o) (wal_path m) (dk_files d)))
| step_server pg : backup_step m id0 d (mkDisk (dk_files d) (dk_meta d) pg).

Section kept.
Variables (m : BackupManager) (id0 : string) (t0 : Time).
Hypothesis apart : forall id t, backup_path m (ext_of m) id t <> bm_dbPath m.
Hypothesis apart_log : forall id t, backup_path m (ext_of m) id t <> wal_path m.

(** The file and the metadata of the backup stay as they are, or go. *)
Definition spares (d d' : D) : Prop :=
  (kept_by m d -> kept_by m d') /\
  (dk_files d' !! backup_path m (ext_of m) id0 t0 = dk_files d !! backup_path m (ext_of m) id0 t0 \/
   dk_files d' !! backup_path m (ext_of m) id0 t0 = None) /\
  (loadMetadata d' id0 = loadMetadata d id0 \/ loadMetadata d' id0 = None).

#[local] Instance spares_preorder : PreOrder spares.
Proof. split; [intros d; unfold spares; auto|]. intros d d' d'' (?&?&?) (?&?&?). split_and!; intuition congruence. Qed.

Lemma spares_write d p data :
  p <> backup_path m (ext_of m) id0 t0 -> spares d (set_files d (<[p := data]> (dk_files d))).
Proof. intros Hp. split_and!; [auto|left|by left]. simpl. by rewrite lookup_insert_ne. Qed.

Lemma spares_copy d p data io : p <> backup_path m (ext_of m) id0 t0 -> spares d (copy_file d p data io).1.
Proof.
  intros Hp. unfold copy_file. destruct (io_create io); [|done]. destruct (io_copy io); simpl; by apply spares_write.
Qed.

Lemma spares_delete_file d p : spares d (set_files d (delete p (dk_files d))).
Proof.
  split_and!; [auto| |by left]. simpl. destruct (decide (p = backup_path m (ext_of m) id0 t0)) as [->|].
  - right. apply lookup_delete_eq.
  - left. by apply lookup_delete_ne.
Qed.

Lemma load_delete_meta d name id :
  loadMetadata (set_meta d (delete name (default ∅ (dk_meta d)))) id =
  if decide (name = meta_name id) then None else loadMetadata d id.
Proof.
  unfold loadMetadata. simpl. destruct (dk_meta d) as [dir|]; simpl.
  - case_decide as E; [subst; by rewrite lookup_delete_eq|by rewrite lookup_delete_ne].
  - rewrite delete_empty, lookup_empty. by case_decide.
Qed.

Lemma spares_delete_meta d name : spares d (set_meta d (delete name (default ∅ (dk_meta d)))).
Proof.
  split_and!; [|by left|rewrite load_delete_meta; case_decide; auto].
  intros Hk id b. rewrite load_delete_meta. case_decide; [done|apply Hk].
Qed.

Lemma spares_remove d p io d' : remove_file d p io = Some d' -> spares d d'.
Proof.
  unfold remove_file. destruct (dk_files d !! p); [destruct (io_remove io p); [|done]|]; intros [= <-]; [|done].
  apply spares_delete_file.
Qed.

Lemma spares_delete d id io : spares d (Backup_Delete d id io).1.
Proof.
  unfold Backup_Delete. destruct (loadMetadata d id) as [b|]; [|done].
  destruct (remove_file d (BM_Path b) io) as [d'|] eqn:E; [|done]. etransitivity; [by eapply spares_remove|].
  destruct (io_remove io _); [apply spares_delete_meta|done].
Qed.

Lemma spares_delete_all d l io : spares d (delete_all d l io).1.
Proof.
  revert d. induction l as [|b l IH]; intros d; [done|]. simpl. assert (Hd := spares_delete d (BM_ID b) io).
  destruct (Backup_Delete d (BM_ID b) io) as [d' [e|]]; [done|]. etransitivity; [exact Hd|apply IH].
Qed.

Lemma spares_cleanup d io now d' : cleanupOldBackups m d io now = Some d' -> spares d d'.
Proof.
  unfold cleanupOldBackups. set (l := List.filter _ _). assert (Hd := spares_delete_all d l io).
  destruct (delete_all d l io) as [d1 [e|]]; [by intros [= <-]|].
  destruct (_ <? _); [destruct (_ <? 0); [done|]|]; intros [= <-]; [|done].
  etransitivity; [exact Hd|apply spares_delete_all].
Qed.

Lemma load_insert_meta d name s id :
  loadMetadata (set_meta d (<[name := s]> (default ∅ (dk_meta d)))) id =
  if decide (name = meta_name id) then meta_value s else loadMetadata d id.
Proof.
  unfold loadMetadata. simpl. case_decide as E; [subst; by rewrite lookup_insert_eq|].
  rewrite lookup_insert_ne by done. by destruct (dk_meta d).
Qed.

(** Metadata that is cut off cannot be read. *)
Lemma meta_value_take b s n b' : meta_text b = Some s -> meta_value (take n s) = Some b' -> b' = b.
Proof.
  intros Hs. destruct (Nat.lt_ge_cases n (length s)); [by erewrite meta_cut|].
  rewrite take_ge by done. erewrite meta_round by done. congruence.
Qed.

Lemma spares_insert_meta d b s s' n :
  BM_ID b <> id0 -> BM_Path b = backup_path m (ext_of m) (BM_ID b) (BM_Timestamp b) ->
  meta_text b = Some s -> s' = take n s ->
  spares d (set_meta d (<[meta_name (BM_ID b) := s']> (default ∅ (dk_meta d)))).
Proof.
  intros Hid Hp Hs ->. split_and!; [|by left|].
  - intros Hk id b'. rewrite load_insert_meta. case_decide as E; [|apply Hk].
    intros Hb'. apply (meta_value_take b) in Hb' as ->; [|done]. apply (inj meta_name) in E as <-. done.
  - rewrite load_insert_meta. left. apply decide_False. by intros ?%(inj meta_name).
Qed.

Lemma spares_save d b io :
  BM_ID b <> id0 -> BM_Path b = backup_path m (ext_of m) (BM_ID b) (BM_Timestamp b) -> spares d (saveMetadata d b io).1.
Proof.
  intros Hid Hp. unfold saveMetadata. destruct (io_mkdir io); [|done]. simpl.
  destruct (meta_text b) as [s|] eqn:Es; [destruct (io_write io) as [n|]|]; simpl.
  - by eapply spares_insert_meta.
  - eapply (spares_insert_meta _ _ _ _ (length s)); try done. by rewrite take_ge.
  - assert (Hl : forall id, loadMetadata (set_meta d (default ∅ (dk_meta d))) id = loadMetadata d id).
    { intros id. unfold loadMetadata. simpl. by destruct (dk_meta d). }
    split_and!; [|by left|left; apply Hl]. intros Hk id b'. rewrite Hl. apply Hk.
Qed.

Lemma spares_made d id t notes io :
  id <> id0 ->
  let made := if bm_backend m =?= BackendPostgres then backupPostgres m d id t notes
              else if bm_backend m =?= BackendSQLite then backupSQLite m d id t notes io
              else (d, Err (BUnsupported (bm_backend m))) in
  spares d made.1 /\
  forall b, made.2 = Ok b -> BM_ID b = id /\ BM_Path b = backup_path m (ext_of m) id (BM_Timestamp b).
Proof.
  intros Hid. assert (Hp : backup_path m (ext_of m) id t <> backup_path m (ext_of m) id0 t0).
  { intros E. by apply backup_path_inj in E. }
  destruct (bm_backend m =?= BackendPostgres) eqn:E.
  - assert (Hx : ext_of m = ".sql") by (unfold ext_of; by rewrite E).
    unfold backupPostgres. rewrite <- Hx. destruct (bm_connStr m =?= ""); [done|].
    destruct (pg_dump _ _) as [data|output]; [|done]. unfold calculateFileInfo. simpl. rewrite lookup_insert_eq. simpl.
    split; [by apply spares_write|]. by intros b [= <-].
  - destruct (bm_backend m =?= BackendSQLite); [|done].
    assert (Hx : ext_of m = ".db") by (unfold ext_of; by rewrite E).
    unfold backupSQLite. rewrite <- Hx. destruct (bm_dbPath m =?= ""); [done|].
    destruct (dk_files d !! bm_dbPath m) as [data|]; [|done].
    assert (Hc := spares_copy d _ (io_seen io data) io Hp). destruct (copy_file _ _ _ _) as [d' [e|]]; [done|].
    destruct (calculateFileInfo d' _) as [[size hash]|]; [|done]. split; [done|]. by intros b [= <-].
Qed.

Lemma spares_create d id t notes io now :
  id <> id0 -> spares d (CreateBackup m d id t notes io now).1.
Proof.
  intros Hid. unfold CreateBackup. generalize (spares_made d id t notes io Hid). cbv zeta.
  destruct (if bm_backend m =?= BackendPostgres then _ else _) as [d' [b|e]]; intros [Hs Hb]; [|done]. simpl in Hs, Hb.
  destruct (Hb b eq_refl) as [Hid' Hp]. destruct (if BC_VerifyAfterBackup _ then _ else _); [done|].
  assert (Hm := spares_save d' b io). rewrite Hid' in Hm. specialize (Hm Hid Hp).
  destruct (saveMetadata d' b io) as [d'' [e|]]; [by etransitivity|].
  destruct (cleanupOldBackups m d'' io now) as [d3|] eqn:E; simpl.
  - apply spares_cleanup in E. by do 2 etransitivity.
  - by etransitivity.
Qed.

Lemma spares_restore d id verify force io : spares d (RestoreWithOptions m d id verify force io).1.
Proof.
  unfold RestoreWithOptions. destruct (loadMetadata d id) as [b|]; [|done].
  destruct (if verify then _ else _); [done|]. destruct (_ && _); [done|].
  destruct (_ =?= _).
  - unfold restorePostgres. destruct (_ =?= _); [done|]. destruct (pg_restore _ _ _); [|done].
    split_and!; [auto|by left|by left].
  - destruct (_ =?= _); [|done]. unfold restoreSQLite. destruct (_ =?= _); [done|].
    destruct (dk_files d !! _); [|done]. apply spares_copy. intros E. by eapply apart.
Qed.

Lemma spares_step d d' : backup_step m id0 d d' -> spares d d'.
Proof.
  destruct 1; [by apply spares_create|apply spares_delete|apply spares_restore| | |].
  - split_and!; [auto|left|by left]. simpl. apply lookup_partial_alter_ne. intros E. by eapply apart.
  - split_and!; [auto|left|by left]. simpl. apply lookup_partial_alter_ne. intros E. by eapply apart_log.
  - split_and!; [auto|by left|by left].
Qed.

Lemma spares_steps d d' : rtc (backup_step m id0) d d' -> spares d d'.
Proof. induction 1; [done|]. etransitivity; [by eapply spares_step|done]. Qed.
End kept.

(** What a backup that succeeds has written, before the clean-up. *)
Lemma CreateBackup_sqlite m d id t notes io now d1 b :
  bm_backend m = BackendSQLite -> CreateBackup m d id t notes io now = (d1, Done b) ->
  exists main data d0, bm_dbPath m <> "" /\ dk_files d !! bm_dbPath m = Some main /\ data = io_seen io main /\
    b = metadata_of m id t FormatSQLite (backup_path m ".db" id t) "" false notes (Z.of_nat (length data)) (file_hash data) /\
    dk_files d0 !! backup_path m ".db" id t = Some data /\ loadMetadata d0 id = Some b /\
    (kept_by m d -> kept_by m d0) /\ cleanupOldBackups m d0 io now = Some d1.
Proof.
  intros Hb. unfold CreateBackup. rewrite Hb. change (BackendSQLite =?= BackendPostgres) with false.
  change (BackendSQLite =?= BackendSQLite) with true. unfold backupSQLite.
  destruct (bm_dbPath m =?= "") eqn:Ep; [done|]. destruct (dk_files d !! bm_dbPath m) as [main|]; [|done].
  set (data := io_seen io main). assert (Hp : bm_dbPath m <> "") by (intros E; by rewrite E in Ep). clear Ep.
  unfold copy_file. destruct (io_create io); [|done]. destruct (io_copy io); [done|]. cbn [negb].
  set (dc := set_files d _). assert (Hf : dk_files dc !! backup_path m ".db" id t = Some data).
  { apply lookup_insert_eq. }
  assert (Hk : kept_by m d -> kept_by m dc) by done. clearbody dc. unfold calculateFileInfo at 1. rewrite Hf. cbn [fmap option_fmap option_map].
  destruct (if BC_VerifyAfterBackup _ then _ else _); [done|]. unfold saveMetadata.
  destruct (io_mkdir io); [|done]. cbn [negb]. set (b' := metadata_of _ _ _ _ _ _ _ _ _ _).
  destruct (meta_text b') as [s|] eqn:Es; [destruct (io_write io); [done|]|done].
  destruct (cleanupOldBackups m _ io now) as [d'|] eqn:Ec; [|done]. intros [= <- <-].
  exists main, data, (set_meta dc (<[meta_name (BM_ID b') := s]> (default ∅ (dk_meta dc)))).
  split_and!; [done|done|done|done|exact Hf| | |exact Ec].
  - rewrite load_insert_meta, decide_True by done. by apply meta_round.
  - intros Hd id' b. rewrite load_insert_meta. case_decide as E; [|by apply Hk].
    rewrite (meta_round b') by done. apply (inj meta_name) in E as <-. intros [= <-].
    unfold ext_of. by rewrite Hb.
Qed.

(** C34: a backup of an SQLite database keeps the bytes its copy read of the main file.
    After a backup that succeeded, and any course of other backups, deletions, restores
    and writes of the database and its log in which files and metadata fail to be
    written at any point, a forced restore whose writes succeed either puts these bytes
    back as the main file and changes no other file, or, when the metadata or the file
    has been deleted, is refused and changes nothing.  The write-ahead log is neither
    backed up nor restored: the database reads as it did at the time of the backup if
    nothing was written to the main file during the copy and the log is again the
    same.  No backup has the path of the database or of its log, the metadata that is
    there is that of backups of this manager, and identifiers are not used twice. *)
Theorem backup_restores m d d1 d2 id t notes io now b main :
  bm_backend m = BackendSQLite ->
  (forall id t, backup_path m ".db" id t <> bm_dbPath m) ->
  (forall id t, backup_path m ".db" id t <> bm_dbPath m ++ "-wal") -> kept_by m d ->
  dk_files d !! bm_dbPath m = Some main -> CreateBackup m d id t notes io now = (d1, Done b) ->
  rtc (backup_step m id) d1 d2 ->
  RestoreWithOptions m d2 id true true all_well =
  (if bool_decide (is_Some (loadMetadata d2 id) /\ is_Some (dk_files d2 !! BM_Path b))
   then (set_files d2 (<[bm_dbPath m := io_seen io main]> (dk_files d2)), None)
   else (d2, Some (match loadMetadata d2 id with Some _ => BVerify | None => BLoad end))).
Proof.
  intros Hb Hap Hap' Hk Hd Hc Hs. assert (Hx : ext_of m = ".db") by (unfold ext_of; by rewrite Hb).
  apply CreateBackup_sqlite in Hc as (main' & data & d0 & Hp & Hd' & Hdata & -> & Hf & Hl & Hk' & Hcl); [|done].
  rewrite Hd in Hd'. injection Hd' as <-. rewrite <- Hdata. clear Hdata. set (b := metadata_of _ _ _ _ _ _ _ _ _ _) in *.
  rewrite <- Hx in Hap, Hap'. assert (Hpre := spares_preorder m id t). assert (Hsp : spares m id t d0 d2).
  { etransitivity; [by eapply spares_cleanup|by apply spares_steps]. }
  destruct Hsp as (_ & Hf' & Hl'). rewrite Hx, Hf in Hf'. rewrite Hl in Hl'. change (BM_Path b) with (backup_path m ".db" id t).
  unfold RestoreWithOptions. destruct Hl' as [->| ->]; [|by rewrite bool_decide_eq_false_2 by (by intros [[? ?] _])].
  unfold verifyBackup, calculateFileInfo. change (BM_Path b) with (backup_path m ".db" id t).
  destruct Hf' as [E|E]; rewrite E; [|by rewrite (bool_decide_eq_false_2 (_ /\ _)) by (by intros [_ [? ?]])].
  rewrite (bool_decide_eq_true_2 (_ /\ _)) by eauto. cbn [fmap option_fmap option_map]. change (BM_IntegrityHash b) with (file_hash data).
  rewrite bool_decide_eq_true_2 by done. cbn [negb andb]. change (BM_Backend b) with (bm_backend m). rewrite Hb.
  change (BackendSQLite =?= BackendPostgres) with false. change (BackendSQLite =?= BackendSQLite) with true.
  unfold restoreSQLite. rewrite bool_decide_eq_false_2 by done. change (BM_Path b) with (backup_path m ".db" id t).
  by rewrite E.
Qed.

(** A negative maximum is an index out of range. *)
Theorem negative_maximum_crashes m d io now :
  named d -> BC_MaxBackups (bm_cfg m) < 0 -> (forall p, io_remove io p = true) ->
  cleanupOldBackups m d io now = None.
Proof.
  intros Hn Hm Hio. unfold cleanupOldBackups. fold (aged m d now). rewrite delete_aged by done.
  by rewrite !(proj2 (Z.ltb_lt _ _)) by lia.
Qed.

(** The file of a backup of SQLite is the plain database whatever the configuration
    says of encryption and compression, and the metadata says it is encrypted. *)
Theorem encrypted_in_name_only m d id t notes io now d1 b data :
  bm_backend m = BackendSQLite -> dk_files d !! bm_dbPath m = Some data ->
  CreateBackup m d id t notes io now = (d1, Done b) ->
  BM_Encrypted b = BC_Encryption (bm_cfg m) /\ BM_Path b = backup_path m ".db" id t /\
  (dk_files d1 !! BM_Path b = Some (io_seen io data) \/ dk_files d1 !! BM_Path b = None).
Proof.
  intros Hb Hd Hc. apply CreateBackup_sqlite in Hc as (main & data' & d0 & _ & Hd' & Hdata & -> & Hf & _ & _ & Hcl); [|done].
  rewrite Hd in Hd'. injection Hd' as <-. rewrite <- Hdata. split_and!; [done..|].
  destruct (spares_cleanup m id t d0 io now d1 Hcl) as (_ & Hs & _). unfold ext_of in Hs. rewrite Hb in Hs.
  rewrite <- Hf. exact Hs.
Qed.

(** Without force, a database that is there is never touched. *)
Theorem unforced_restore_refused m d id verify io :
  hasData m d = true ->
  (RestoreWithOptions m d id verify false io).1 = d /\ (RestoreWithOptions m d id verify false io).2 <> None.
Proof.
  intros Hd. unfold RestoreWithOptions. destruct (loadMetadata d id); [|done].
  destruct (if verify then _ else _); [done|]. by rewrite Hd.
Qed.
End facts.

(** ** Witnesses *)

(** A text of the metadata: the length of what follows, then each field after its
    length. *)
Definition put_fields (l : list (list Z)) : list Z := concat (map (fun f => Z.of_nat (length f) :: f) l).
Fixpoint get_fields (fuel : nat) (s : list Z) : list (list Z) :=
  match fuel, s with
  | S fuel, n :: s => take (Z.to_nat n) s :: get_fields fuel (drop (Z.to_nat n) s)
  | _, _ => []
  end.
Lemma get_put_fields l n : (length l <= n)%nat -> get_fields n (put_fields l) = l.
Proof.
  revert n. induction l as [|f l IH]; intros [|n] Hn; try done; [simpl in Hn; lia|].
  change (put_fields (f :: l)) with (Z.of_nat (length f) :: f ++ put_fields l)%list. cbn [get_fields].
  rewrite Nat2Z.id, take_app_length, drop_app_length, IH; [done|simpl in Hn; lia].
Qed.

Definition put_string (s : string) : list Z := map (fun c => Z.of_N (N_of_ascii c)) (bytes_of s).
Definition get_string (l : list Z) : string := str_of (map (fun z => ascii_of_N (Z.to_N z)) l).
Lemma get_put_string s : get_string (put_string s) = s.
Proof.
  unfold get_string, put_string. rewrite map_map, (map_ext _ id).
  - rewrite map_id. apply String.string_of_list_ascii_of_string.
  - intros c. by rewrite N2Z.id, ascii_N_embedding.
Qed.

Definition put_meta (b : BackupMetadata) : list Z :=
  put_fields [put_string (BM_ID b); [BM_Timestamp b]; put_string (BM_Backend b); put_string (BM_Format b); [BM_Size b];
    [Z.b2z (BM_Compressed b)]; [Z.b2z (BM_Encrypted b)]; put_string (BM_NodeID b); put_string (BM_Version b);
    put_string (BM_Location b); put_string (BM_Path b); put_string (BM_IntegrityHash b); put_string (BM_Notes b)].
Definition get_meta (s : list Z) : option BackupMetadata :=
  match get_fields 13 s with
  | [i; [t]; k; f; [z]; [c]; [e]; n; v; l; p; h; o] =>
      Some (mkBackupMetadata (get_string i) t (get_string k) (get_string f) z (0 <? c) (0 <? e) (get_string n) (get_string v)
              (get_string l) (get_string p) (get_string h) (get_string o))
  | _ => None
  end.

Definition field_text : MetaJSON.
Proof.
  refine {| meta_text b := Some (Z.of_nat (length (put_meta b)) :: put_meta b);
            meta_value s := match s with n :: s => if n =? Z.of_nat (length s) then get_meta s else None | [] => None end |}.
  - intros b s [= <-]. rewrite Z.eqb_refl. unfold get_meta, put_meta. rewrite get_put_fields by done.
    rewrite !get_put_string. by destruct b as [? ? ? ? ? [] []].
  - intros b s n. generalize (put_meta b) as l. intros l [= <-] Hn. destruct n as [|n]; [done|]. cbn [take]. cbn [length] in Hn.
    apply Nat.succ_lt_mono in Hn. rewrite length_take_le by lia. by rewrite (proj2 (Z.eqb_neq _ _)) by lia.
Defined.

Definition no_tools : PgTools := {|
  Pg := unit; pg_dump _ _ := Err "no server"; pg_restore _ _ _ := Err "no server"; pg_version := "16";
|}.

#[local] Instance newer_dec b b' : Decision (newer b b').
Proof. unfold newer. apply _. Defined.
#[local] Instance newer_trans : Transitive newer.
Proof. intros x y z. unfold newer. lia. Qed.
#[local] Instance newer_total : Total newer.
Proof. intros x y. unfold newer. lia. Qed.

Definition byte_sum : Crypto.
Proof.
  refine {| sha256_Sum256 bs := replicate 32 (foldr Z.add 0 bs mod 256); ed25519_Verify _ _ _ := true |}.
  - intros bs. apply length_replicate.
  - intros bs. apply Forall_replicate. apply Z.mod_pos_bound. lia.
Defined.

Section witnesses.
#[local] Existing Instances field_text no_tools byte_sum.
#[local] Instance by_time : OrderBy newer := sort_order newer.

Definition node_manager : BackupManager :=
  SetDatabasePath (NewBackupManager DefaultBackupConfig BackendSQLite "/bib" "node") "/cache.db".
Definition first_disk : Disk Pg := mkDisk {["/cache.db" := [1; 2; 3]]} None tt.
Definition day : Time := 24 * Hour.

Definition after_backup : Disk Pg := (CreateBackup node_manager first_disk "1" (100 * day) "" all_well (100 * day)).1.
Definition after_changes : Disk Pg :=
  set_files after_backup (partial_alter (fun _ => Some [9]) "/cache.db" (dk_files after_backup)).
Definition after_second : Disk Pg := (CreateBackup node_manager after_changes "2" (101 * day) "" all_well (101 * day)).1.

Lemma empty_directory : kept_by node_manager first_disk.
Proof. done. Qed.

Lemma backup_restores_witness :
  exists b, (CreateBackup node_manager first_disk "1" (100 * day) "" all_well (100 * day)).2 = Done b /\
    RestoreWithOptions node_manager after_second "1" true true all_well =
    (set_files after_second (<["/cache.db" := [1; 2; 3]]> (dk_files after_second)), None).
Proof.
  eexists. split; [vm_compute; reflexivity|].
  etransitivity.
  { eapply (backup_restores node_manager first_disk after_backup after_second "1" (100 * day) "" all_well (100 * day)).
    - done.
    - by intros id t [=].
    - by intros id t [=].
    - apply empty_directory.
    - vm_compute; reflexivity.
    - vm_compute; reflexivity.
    - eapply rtc_l; [apply (step_write _ _ _ (Some [9]))|]. apply rtc_once, step_backup. done. }
  vm_compute. reflexivity.
Defined.

(** A database whose last transaction is in the log; [content] is the text of the two
    files.  The restored database lacks the transaction, and with the log of a later
    time it is neither the database of then nor that of the backup. *)
Example log_is_not_backed_up :
  let content (d : Disk Pg) := (default [] (dk_files d !! "/cache.db") ++ default [] (dk_files d !! "/cache.db-wal"))%list in
  let d := mkDisk {["/cache.db" := [1; 2]; "/cache.db-wal" := [3]]} None tt in
  let made := (CreateBackup node_manager d "1" (100 * day) "" all_well (100 * day)).1 in
  let checkpointed := set_files made (delete "/cache.db-wal" (<["/cache.db" := [1; 2; 3]]> (dk_files made))) in
  let later := set_files made (<["/cache.db-wal" := [7; 8]]> (<["/cache.db" := [5]]> (dk_files made))) in
  content d = [1; 2; 3] /\
  content (RestoreWithOptions node_manager checkpointed "1" true true all_well).1 = [1; 2] /\
  content (RestoreWithOptions node_manager later "1" true true all_well).1 = [1; 2; 7; 8].
Proof. vm_compute. split_and!; reflexivity. Qed.

(** Three days of retention and at most two backups, of three: the one of the first day
    goes for both reasons. *)
Definition small_manager : BackupManager :=
  SetDatabasePath (NewBackupManager (mkBackupConfig LocationLocal "" false false 3 2 true) BackendSQLite "/bib" "node")
    "/cache.db".
Definition three_backups : Disk Pg :=
  foldl (fun d i => (CreateBackup node_manager d (pretty i) (i * day) "" all_well (i * day)).1) first_disk [100; 102; 104].

Lemma node_paths_apart id t : backup_path node_manager (ext_of node_manager) id t <> bm_dbPath node_manager.
Proof. by intros [=]. Qed.
Lemma node_log_apart id t : backup_path node_manager (ext_of node_manager) id t <> wal_path node_manager.
Proof. by intros [=]. Qed.

Lemma three_named : named three_backups.
Proof.
  apply (kept_by_named node_manager). eapply (spares_steps node_manager "0" 0 node_paths_apart node_log_apart first_disk); [|done].
  unfold three_backups. cbn [foldl]. do 3 (eapply rtc_r; [|apply step_backup; by vm_compute]). done.
Qed.

Lemma retention_exact_witness :
  exists d', cleanupOldBackups small_manager three_backups all_well (104 * day) = Some d' /\
    Backup_List d' ≡ₚ take 2 (Backup_List three_backups) /\ BM_ID <$> Backup_List d' = ["104"; "102"].
Proof.
  destruct (retention_exact small_manager three_backups all_well (104 * day)) as (d' & Hd & Hl & _);
    [apply three_named|done|done|]. exists d'. split_and!; [done|exact Hl|].
  vm_compute in Hd. injection Hd as <-. by vm_compute.
Defined.

Lemma negative_maximum_crashes_witness :
  cleanupOldBackups
    (SetDatabasePath (NewBackupManager (mkBackupConfig LocationLocal "" false false 3 (-1) true) BackendSQLite "/bib" "node")
       "/cache.db") three_backups all_well (104 * day) = None.
Proof. apply negative_maximum_crashes; [apply three_named|done|done]. Defined.

Lemma encrypted_in_name_only_witness :
  exists b, (CreateBackup node_manager first_disk "1" (100 * day) "" all_well (100 * day)).2 = Done b /\
    BM_Encrypted b = true /\ dk_files after_backup !! BM_Path b = Some [1; 2; 3].
Proof.
  eexists. split; [vm_compute; reflexivity|].
  destruct (encrypted_in_name_only node_manager first_disk "1" (100 * day) "" all_well (100 * day) after_backup
              (metadata_of node_manager "1" (100 * day) FormatSQLite (backup_path node_manager ".db" "1" (100 * day)) "" false
                 "" 3 (file_hash [1; 2; 3])) [1; 2; 3]) as (He & Hp & _); [done|by vm_compute|by vm_compute|].
  split; [exact He|by vm_compute].
Defined.

Lemma unforced_restore_refused_witness :
  (Restore node_manager after_changes "1" all_well).1 = after_changes.
Proof. apply unforced_restore_refused. by vm_compute. Defined.

(** A copy that fails in the middle leaves the database cut off. *)
Example restore_cuts_database :
  dk_files (RestoreWithOptions node_manager after_changes "1" true true (mkBackupIO id true (Some 1%nat) true None (fun _ => true))).1
    !! "/cache.db" = Some [1].
Proof. by vm_compute. Qed.

(** A retention of no days deletes the backup that was just reported. *)
Example no_days_no_backup :
  let m := SetDatabasePath (NewBackupManager (mkBackupConfig LocationLocal "" false false 0 7 true) BackendSQLite "/bib" "node")
             "/cache.db" in
  let '(d, r) := CreateBackup m first_disk "1" (100 * day) "" all_well (100 * day + 1) in
  (exists b, r = Done b) /\ Backup_List d = [].
Proof. vm_compute. eauto. Qed.
End witnesses.
