(* ===== verification/Credentials.v ===== *)
(** * Database credentials ([internal/storage/postgres/credentials])

    Encryption of the credential file, its storage, generation and the rotation.
    Sets of credentials are shared by pointers, so they live in a heap; the rotation is
    a function per phase, [rotate_step], between which other goroutines run, and
    [Rotate] is the run of its phases.  The cryptographic libraries and the encoding
    of a set are classes; random bytes, clocks, the answers of the callbacks and the
    failures of writes are arguments.  The directory of the file can be made. *)
From stdpp Require Import base gmap strings list.
From Stdlib Require Import ZArith Lia Ascii.
From S2P Require Import Prelude GoStrings GoTime Domain.
Local Open Scope string_scope.
Local Open Scope Z_scope.
Local Open Scope bool_scope.

(** ** Encryption ([encryption.go]) *)

Definition NonceSize : nat := 24.
Definition KeySize : nat := 32.
Definition GCMNonceSize : nat := 12.
Definition GCMTagSize : nat := 16.
Definition Overhead : nat := 16.

Class CredCrypto := {
  sha512_Sum512 : list Z -> list Z;
  hkdf_read : list Z -> list Z -> list Z -> nat -> list Z;
  secretbox_Seal : list Z -> list Z -> list Z -> list Z;
  secretbox_Open : list Z -> list Z -> list Z -> option (list Z);
  aes_gcm_Seal : list Z -> list Z -> list Z -> list Z;
  aes_gcm_Open : list Z -> list Z -> list Z -> option (list Z);
  curve25519_Base : list Z -> option (list Z);
  sha512_length d : length (sha512_Sum512 d) = 64%nat;
  secretbox_open_seal nonce key d : secretbox_Open nonce key (secretbox_Seal nonce key d) = Some d;
  secretbox_length nonce key d : length (secretbox_Seal nonce key d) = (Overhead + length d)%nat;
  aes_gcm_open_seal nonce key d : aes_gcm_Open nonce key (aes_gcm_Seal nonce key d) = Some d;
  aes_gcm_length nonce key d : length (aes_gcm_Seal nonce key d) = (GCMTagSize + length d)%nat;
}.

Inductive EncryptionMethod := EncryptionX25519 | EncryptionHKDF | EncryptionHybrid | OtherMethod (name : string).
#[export] Instance EncryptionMethod_dec : EqDecision EncryptionMethod.
Proof. solve_decision. Defined.
Definition EncryptionMethod_IsValid (e : EncryptionMethod) : bool :=
  match e with OtherMethod _ => false | _ => true end.

Inductive Encryptor :=
| x25519Encryptor (key : list Z)
| hkdfEncryptor (key : list Z)
| hybridEncryptor (kx kh : list Z).

Inductive CredError :=
| ErrInvalidKeyLength
| ErrUnsupportedMethod
| ErrDecryptionFailed
| CENonce
| CEPath
| ErrCredentialsNotFound
| ErrCorruptedCredentials
| CEUnmarshal
| CEMarshal
| CEWriteTemp
| CERename
| CERandom.

Section encryption.
Context `{CredCrypto}.

(** The first half of the hash, with the bits of an X25519 scalar set. *)
Definition clamp (h : list Z) : list Z :=
  <[31%nat := Z.lor (Z.land (nth 31 h 0) 127) 64]> (<[0%nat := Z.land (nth 0 h 0) 248]> (take KeySize h)).
Definition newX25519Encryptor (identityKey : list Z) : list Z := clamp (sha512_Sum512 (take 32 identityKey)).
Definition DeriveX25519Key (ed25519Seed : list Z) : result CredError (list Z) :=
  if (length ed25519Seed <? 32)%nat then Err ErrInvalidKeyLength else Ok (clamp (sha512_Sum512 (take 32 ed25519Seed))).
Definition DeriveX25519PublicKey (privateKey : list Z) : result CredError (list Z) :=
  if negb (length privateKey =? 32)%nat then Err ErrInvalidKeyLength
  else match curve25519_Base privateKey with Some k => Ok k | None => Err ErrInvalidKeyLength end.

Definition ascii_bytes (s : string) : list Z := map (fun c => Z.of_N (N_of_ascii c)) (bytes_of s).
Definition newHKDFEncryptor (identityKey : list Z) : list Z :=
  hkdf_read (take 32 identityKey) (ascii_bytes "bibd-static-salt-v1") (ascii_bytes "bibd-credential-encryption-v1") KeySize.

Definition NewEncryptor (method : EncryptionMethod) (identityKey : list Z) : result CredError Encryptor :=
  if (length identityKey <? 32)%nat then Err ErrInvalidKeyLength
  else match method with
       | EncryptionX25519 => Ok (x25519Encryptor (newX25519Encryptor identityKey))
       | EncryptionHKDF => Ok (hkdfEncryptor (newHKDFEncryptor identityKey))
       | EncryptionHybrid => Ok (hybridEncryptor (newX25519Encryptor identityKey) (newHKDFEncryptor identityKey))
       | OtherMethod _ => Err ErrUnsupportedMethod
       end.

Definition Encryptor_Method (e : Encryptor) : EncryptionMethod :=
  match e with
  | x25519Encryptor _ => EncryptionX25519
  | hkdfEncryptor _ => EncryptionHKDF
  | hybridEncryptor _ _ => EncryptionHybrid
  end.

Definition byte_x : Z := 120.
Definition byte_h : Z := 104.
Definition byte_H : Z := 72.

(** The nonces are what the random source gives, [None] when it fails. *)
Definition x25519_Encrypt (key : list Z) (nonce : option (list Z)) (plaintext : list Z) : result CredError (list Z) :=
  match nonce with
  | Some n => Ok (byte_x :: n ++ secretbox_Seal n key plaintext)%list
  | None => Err CENonce
  end.
Definition x25519_Decrypt (key ciphertext : list Z) : result CredError (list Z) :=
  if (length ciphertext <? 1 + NonceSize + Overhead)%nat then Err ErrDecryptionFailed
  else
    let data := drop 1 ciphertext in
    match secretbox_Open (take NonceSize data) key (drop NonceSize data) with
    | Some p => Ok p
    | None => Err ErrDecryptionFailed
    end.

Definition hkdf_Encrypt (key : list Z) (nonce : option (list Z)) (plaintext : list Z) : result CredError (list Z) :=
  match nonce with
  | Some n => Ok (byte_h :: n ++ aes_gcm_Seal n key plaintext)%list
  | None => Err CENonce
  end.
Definition hkdf_Decrypt (key ciphertext : list Z) : result CredError (list Z) :=
  if (length ciphertext <? 1 + GCMNonceSize + 16)%nat then Err ErrDecryptionFailed
  else
    let data := drop 1 ciphertext in
    match aes_gcm_Open (take GCMNonceSize data) key (drop GCMNonceSize data) with
    | Some p => Ok p
    | None => Err ErrDecryptionFailed
    end.

(** The nonce of AES-GCM is drawn first. *)
Definition hybrid_Encrypt (kx kh : list Z) (gcm_nonce box_nonce : option (list Z)) (plaintext : list Z)
    : result CredError (list Z) :=
  match hkdf_Encrypt kh gcm_nonce plaintext with
  | Err e => Err e
  | Ok h =>
      match x25519_Encrypt kx box_nonce plaintext with
      | Err e => Err e
      | Ok x => Ok (byte_H :: lenBuf (Z.of_nat (length h)) ++ h ++ x)%list
      end
  end.

Definition or_else {A} (a b : result CredError A) : result CredError A := match a with Ok x => Ok x | Err _ => b end.

Definition hybrid_Decrypt (kx kh ciphertext : list Z) : result CredError (list Z) :=
  if (length ciphertext <? 6)%nat then Err ErrDecryptionFailed
  else if nth 0 ciphertext 0 =? byte_H then
    let hkdfLen := length_of (take 4 (drop 1 ciphertext)) in
    if Z.of_nat (length ciphertext) <? 5 + hkdfLen then Err ErrDecryptionFailed
    else
      let n := Z.to_nat hkdfLen in
      or_else (hkdf_Decrypt kh (take n (drop 5 ciphertext))) (x25519_Decrypt kx (drop (5 + n) ciphertext))
  else if nth 0 ciphertext 0 =? byte_h then hkdf_Decrypt kh ciphertext
  else if nth 0 ciphertext 0 =? byte_x then x25519_Decrypt kx ciphertext
  else or_else (hkdf_Decrypt kh ciphertext) (x25519_Decrypt kx ciphertext).

Definition Encrypt (e : Encryptor) (gcm_nonce box_nonce : option (list Z)) (plaintext : list Z) : result CredError (list Z) :=
  match e with
  | x25519Encryptor key => x25519_Encrypt key box_nonce plaintext
  | hkdfEncryptor key => hkdf_Encrypt key gcm_nonce plaintext
  | hybridEncryptor kx kh => hybrid_Encrypt kx kh gcm_nonce box_nonce plaintext
  end.
Definition Decrypt (e : Encryptor) (ciphertext : list Z) : result CredError (list Z) :=
  match e with
  | x25519Encryptor key => x25519_Decrypt key ciphertext
  | hkdfEncryptor key => hkdf_Decrypt key ciphertext
  | hybridEncryptor kx kh => hybrid_Decrypt kx kh ciphertext
  end.
End encryption.

(** ** Sets of credentials ([credentials.go]) *)

Definition RoleAdmin : string := "bibd_admin".
Definition RoleScrape : string := "bibd_scrape".
Definition RoleQuery : string := "bibd_query".
Definition RoleTransform : string := "bibd_transform".
Definition RoleAudit : string := "bibd_audit".
Definition RoleReadOnly : string := "bibd_readonly".
Definition DBRole_IsValid (r : string) : bool :=
  bool_decide (r ∈ [RoleAdmin; RoleScrape; RoleQuery; RoleTransform; RoleAudit; RoleReadOnly]).

Inductive CredentialStatus := StatusActive | StatusRetiring | StatusExpired.
#[export] Instance CredentialStatus_dec : EqDecision CredentialStatus.
Proof. solve_decision. Defined.

Record RoleCredential := mkRoleCredential {
  RC_Username : string;
  RC_Password : string;
  RC_CreatedAt : Time;
  RC_ExpiresAt : Time;
  RC_Status : CredentialStatus;
}.
Definition RoleCredential_IsExpired (rc : RoleCredential) (now : Time) : bool := RC_ExpiresAt rc <? now.
Definition RoleCredential_IsRetiring (rc : RoleCredential) : bool := bool_decide (RC_Status rc = StatusRetiring).

(** [Creds_Previous] is a pointer into the heap. *)
Record Credentials := mkCredentials {
  Creds_Version : Z;
  Creds_GeneratedAt : Time;
  Creds_ExpiresAt : Time;
  Creds_Method : EncryptionMethod;
  Creds_Superuser : RoleCredential;
  Creds_Admin : RoleCredential;
  Creds_Roles : gmap string RoleCredential;
  Creds_Previous : option nat;
}.

Definition GetRoleCredential (c : Credentials) (role : string) : option RoleCredential :=
  if role =?= RoleAdmin then Some (Creds_Admin c) else Creds_Roles c !! role.
Definition AllRoles (c : Credentials) : gmap string RoleCredential := Creds_Roles c ∪ {[RoleAdmin := Creds_Admin c]}.

Record CredConfig := mkCredConfig {
  CC_EncryptionMethod : EncryptionMethod;
  CC_RotationInterval : Z;
  CC_RotationGracePeriod : Z;
  CC_EncryptedPath : string;
  CC_PasswordLength : Z;
}.
Definition DefaultCredConfig : CredConfig := mkCredConfig EncryptionHybrid (7 * 24 * Hour) (5 * Minute) "" 64.

(** [rotationCh] holds at most one signal; [None] where closing again panics. *)
Record CredManager := mkCredManager {
  cm_config : CredConfig;
  cm_encryptor : Encryptor;
  cm_nodeID : string;
  cm_current : option nat;
  cm_rotationCh : bool;
  cm_stopped : bool;
}.

(** The file, the one it is renamed from and its backup. *)
Record CredFiles := mkCredFiles {
  cf_main : option (list Z);
  cf_temp : option (list Z);
  cf_backup : option (list Z);
}.

Inductive RotationState :=
| RotationIdle
| RotationPreparing
| RotationTransitioning
| RotationFinalizing
| RotationComplete
| RotationFailed.
#[export] Instance RotationState_dec : EqDecision RotationState.
Proof. solve_decision. Defined.

Record RotationEvent := mkRotationEvent {
  RE_Timestamp : Time;
  RE_State : RotationState;
  RE_OldVersion : Z;
  RE_NewVersion : Z;
  RE_Message : string;
  RE_Error : string;
  RE_DurationMS : Z;
}.

Record Rotator := mkRotator {
  ro_callback : bool;
  ro_state : RotationState;
  ro_events : list RotationEvent;
}.
Definition NewRotator (callback : bool) : Rotator := mkRotator callback RotationIdle [].

Record World := mkWorld {
  w_heap : gmap nat Credentials;
  w_files : CredFiles;
  w_manager : CredManager;
  w_rotator : Rotator;
}.
Definition w_set_heap (w : World) (h : gmap nat Credentials) : World := mkWorld h (w_files w) (w_manager w) (w_rotator w).
Definition w_set_files (w : World) (f : CredFiles) : World := mkWorld (w_heap w) f (w_manager w) (w_rotator w).
Definition w_set_rotator (w : World) (r : Rotator) : World := mkWorld (w_heap w) (w_files w) (w_manager w) r.
Definition set_current (m : CredManager) (p : option nat) : CredManager :=
  mkCredManager (cm_config m) (cm_encryptor m) (cm_nodeID m) p (cm_rotationCh m) (cm_stopped m).
Definition w_set_current (w : World) (p : nat) : World :=
  mkWorld (w_heap w) (w_files w) (set_current (w_manager w) (Some p)) (w_rotator w).

(** The pointer of a set that was just made. *)
Definition new_pointer (h : gmap nat Credentials) : nat := fresh (dom h : gset nat).

(** How a save fares: the nonces, the bytes written before a write fails, the rename. *)
Record SaveIO := mkSaveIO {
  sv_gcm : option (list Z);
  sv_box : option (list Z);
  sv_write : option nat;
  sv_rename : bool;
}.

(** The encoding of a set.  A set with a previous one is never written. *)
Class CredJSON := {
  cred_text : Credentials -> option (list Z);
  cred_value : list Z -> option Credentials;
  cred_round c s : Creds_Previous c = None -> cred_text c = Some s -> cred_value s = Some c;
}.

(** ** Storage ([storage.go]) *)

Section storage.
Context `{CredCrypto} `{CredJSON}.

Definition Storage_Load (e : Encryptor) (f : CredFiles) : result CredError Credentials :=
  match cf_main f with
  | None => Err ErrCredentialsNotFound
  | Some [] => Err ErrCorruptedCredentials
  | Some encrypted =>
      match Decrypt e encrypted with
      | Err _ => Err ErrDecryptionFailed
      | Ok plaintext => match cred_value plaintext with Some c => Ok c | None => Err CEUnmarshal end
      end
  end.

Definition Storage_Save (e : Encryptor) (f : CredFiles) (c : Credentials) (io : SaveIO) : CredFiles * option CredError :=
  match cred_text c with
  | None => (f, Some CEMarshal)
  | Some plaintext =>
      match Encrypt e (sv_gcm io) (sv_box io) plaintext with
      | Err err => (f, Some err)
      | Ok encrypted =>
          match sv_write io with
          | Some n => (mkCredFiles (cf_main f) (Some (take n encrypted)) (cf_backup f), Some CEWriteTemp)
          | None =>
              if sv_rename io then (mkCredFiles (Some encrypted) None (cf_backup f), None)
              else (mkCredFiles (cf_main f) None (cf_backup f), Some CERename)
          end
      end
  end.

Definition Storage_Exists (f : CredFiles) : bool := match cf_main f with Some _ => true | None => false end.
Definition Storage_Delete (f : CredFiles) (removes : bool) : CredFiles * bool :=
  match cf_main f with
  | None => (f, true)
  | Some _ => if removes then (mkCredFiles None (cf_temp f) (cf_backup f), true) else (f, false)
  end.
Definition Storage_Backup (f : CredFiles) (write : option nat) : CredFiles * bool :=
  match cf_main f, write with
  | None, _ => (f, true)
  | Some d, None => (mkCredFiles (cf_main f) (cf_temp f) (Some d), true)
  | Some d, Some n => (mkCredFiles (cf_main f) (cf_temp f) (Some (take n d)), false)
  end.
Definition Storage_Restore (f : CredFiles) (write : option nat) : CredFiles * bool :=
  match cf_backup f, write with
  | None, _ => (f, false)
  | Some d, None => (mkCredFiles (Some d) (cf_temp f) (cf_backup f), true)
  | Some d, Some n => (mkCredFiles (Some (take n d)) (cf_temp f) (cf_backup f), false)
  end.
(** [write]: the zeros written before the write fails. *)
Definition Storage_SecureDelete (f : CredFiles) (opens : bool) (write : option nat) (syncs removes : bool) : CredFiles * bool :=
  match cf_main f with
  | None => (f, true)
  | Some d =>
      let over d := mkCredFiles (Some d) (cf_temp f) (cf_backup f) in
      if negb opens then (f, false)
      else match write with
           | Some n => (over (replicate (min n (length d)) 0 ++ drop n d)%list, false)
           | None =>
               if syncs && removes then (mkCredFiles None (cf_temp f) (cf_backup f), true)
               else (over (replicate (length d) 0), false)
           end
  end.

(** ** The manager *)

(** [draw i n] is what the random source gives for the [i]-th demand, of [n] bytes. *)
Definition generatePassword (length : Z) (random : nat -> option (list Z)) : option string :=
  EncodeToString <$> random (Z.to_nat (length `quot` 2)).

Definition job_roles : list string := [RoleScrape; RoleQuery; RoleTransform; RoleAudit; RoleReadOnly].

Definition new_credential (cfg : CredConfig) (now : Time) (username password : string) : RoleCredential :=
  mkRoleCredential username password now (now + CC_RotationInterval cfg) StatusActive.

(** The passwords of the job roles, drawn in their order from the [i]-th on. *)
Fixpoint role_credentials (cfg : CredConfig) (now : Time) (draw : nat -> nat -> option (list Z)) (i : nat) (roles : list string)
    (acc : gmap string RoleCredential) : option (gmap string RoleCredential) :=
  match roles with
  | [] => Some acc
  | role :: roles =>
      pass ← generatePassword (CC_PasswordLength cfg) (draw i);
      role_credentials cfg now draw (S i) roles (<[role := new_credential cfg now role pass]> acc)
  end.

Definition generate (cfg : CredConfig) (now : Time) (draw : nat -> nat -> option (list Z)) : option Credentials :=
  superPass ← generatePassword (CC_PasswordLength cfg) (draw 0%nat);
  adminPass ← generatePassword (CC_PasswordLength cfg) (draw 1%nat);
  roles ← role_credentials cfg now draw 2 job_roles ∅;
  Some (mkCredentials 1 now (now + CC_RotationInterval cfg) (CC_EncryptionMethod cfg)
          (new_credential cfg now "bibd_superuser" superPass) (new_credential cfg now RoleAdmin adminPass) roles None).

Definition with_defaults (cfg : CredConfig) : CredConfig :=
  mkCredConfig (if EncryptionMethod_IsValid (CC_EncryptionMethod cfg) then CC_EncryptionMethod cfg else EncryptionHybrid)
    (CC_RotationInterval cfg) (CC_RotationGracePeriod cfg) (CC_EncryptedPath cfg)
    (if CC_PasswordLength cfg <? 32 then 64 else CC_PasswordLength cfg).

Definition NewCredManager (cfg : CredConfig) (nodeID : string) (identityKey : list Z) : result CredError CredManager :=
  let cfg := with_defaults cfg in
  match NewEncryptor (CC_EncryptionMethod cfg) identityKey with
  | Err e => Err e
  | Ok e =>
      if CC_EncryptedPath cfg =?= "" then Err CEPath
      else Ok (mkCredManager cfg e nodeID None false false)
  end.

(** A set that is put into the heap and made the current one. *)
Definition adopt (w : World) (c : Credentials) : World :=
  let p := new_pointer (w_heap w) in w_set_current (w_set_heap w (<[p := c]> (w_heap w))) p.

Definition Initialize (w : World) (now : Time) (draw : nat -> nat -> option (list Z)) (io : SaveIO) : World * option CredError :=
  match Storage_Load (cm_encryptor (w_manager w)) (w_files w) with
  | Ok c => (adopt w c, None)
  | Err _ =>
      match generate (cm_config (w_manager w)) now draw with
      | None => (w, Some CERandom)
      | Some c =>
          match Storage_Save (cm_encryptor (w_manager w)) (w_files w) c io with
          | (f, Some e) => (w_set_files w f, Some e)
          | (f, None) => (adopt (w_set_files w f) c, None)
          end
      end
  end.

Definition Cred_Current (w : World) : option Credentials := p ← cm_current (w_manager w); w_heap w !! p.
Definition NeedsRotation (w : World) (now : Time) : bool :=
  match Cred_Current w with Some c => Creds_ExpiresAt c <? now | None => false end.
Definition TriggerRotation (m : CredManager) : CredManager :=
  mkCredManager (cm_config m) (cm_encryptor m) (cm_nodeID m) (cm_current m) true (cm_stopped m).
Definition Cred_Close (m : CredManager) : option CredManager :=
  if cm_stopped m then None
  else Some (mkCredManager (cm_config m) (cm_encryptor m) (cm_nodeID m) (cm_current m) (cm_rotationCh m) true).

(** ** The rotation ([rotation.go])

    The phases of one call of [Rotate]: between them the lock is free and callbacks
    run.  A phase that waits for a callback gets its error, [None] for success, when it
    goes on. *)
Inductive RotError :=
| REInProgress (s : RotationState)
| RENoCurrent
| REGenerate
| RECreateRoles (e : string)
| REUpdatePool (e : string)
| RECancelled (e : string)
| RESave (e : CredError).

Record Rotation := mkRotation {
  rt_start : Time;
  rt_old : nat;
  rt_new : nat;
  rt_oldVersion : Z;
  rt_newVersion : Z;
}.

Inductive Phase :=
| PStart
| PBegun (start : Time)
| PCreating (r : Rotation)
| PUpdating (r : Rotation)
| PWaiting (r : Rotation)
| PDropping (r : Rotation)
| PDone (result : option RotError).

(** What a phase reads: the clock, random bytes, the error of a callback, the reason of
    a cancelled context, the course of a save and the text of a library's error. *)
Record StepEnv := mkStepEnv {
  se_now : Time;
  se_draw : nat -> nat -> option (list Z);
  se_callback : option string;
  se_cancel : option string;
  se_save : SaveIO;
  se_text : string;
}.

Definition set_state (r : Rotator) (s : RotationState) : Rotator := mkRotator (ro_callback r) s (ro_events r).
Definition setState (w : World) (s : RotationState) : World := w_set_rotator w (set_state (w_rotator w) s).
Definition append_event (w : World) (e : RotationEvent) : World :=
  w_set_rotator w (mkRotator (ro_callback (w_rotator w)) (ro_state (w_rotator w)) (ro_events (w_rotator w) ++ [e])).
Definition recordEvent (w : World) (now : Time) (s : RotationState) (oldVersion newVersion : Z) (message errMsg : string)
    : World := append_event w (mkRotationEvent now s oldVersion newVersion message errMsg 0).
Definition failRotation (w : World) (now : Time) (oldVersion newVersion : Z) (message err : string) : World :=
  append_event (setState w RotationFailed) (mkRotationEvent now RotationFailed oldVersion newVersion message err 0).

Definition set_status (s : CredentialStatus) (rc : RoleCredential) : RoleCredential :=
  mkRoleCredential (RC_Username rc) (RC_Password rc) (RC_CreatedAt rc) (RC_ExpiresAt rc) s.
Definition mark (s : CredentialStatus) (c : Credentials) : Credentials :=
  mkCredentials (Creds_Version c) (Creds_GeneratedAt c) (Creds_ExpiresAt c) (Creds_Method c) (set_status s (Creds_Superuser c))
    (set_status s (Creds_Admin c)) (set_status s <$> Creds_Roles c) (Creds_Previous c).
Definition markRetiring (w : World) (p : nat) : World := w_set_heap w (alter (mark StatusRetiring) p (w_heap w)).
Definition markExpired (w : World) (p : nat) : World := w_set_heap w (alter (mark StatusExpired) p (w_heap w)).

Definition following (c : Credentials) (version : Z) (previous : option nat) : Credentials :=
  mkCredentials version (Creds_GeneratedAt c) (Creds_ExpiresAt c) (Creds_Method c) (Creds_Superuser c) (Creds_Admin c)
    (Creds_Roles c) previous.
Definition clear_previous (w : World) (p : nat) : World :=
  w_set_heap w (alter (fun c => following c (Creds_Version c) None) p (w_heap w)).

Definition busy (s : RotationState) : bool :=
  match s with RotationIdle | RotationComplete | RotationFailed => false | _ => true end.

(** Without callbacks a phase that would call one succeeds. *)
Definition callback_error (w : World) (env : StepEnv) : option string :=
  if ro_callback (w_rotator w) then se_callback env else None.

Definition rotate_generate (w : World) (start : Time) (env : StepEnv) : World * Phase :=
  match cm_current (w_manager w) with
  | None => (w, PDone (Some RENoCurrent))
  | Some old =>
      match w_heap w !! old with
      | None => (w, PDone (Some RENoCurrent))
      | Some oldCreds =>
          let v := Creds_Version oldCreds in
          let w := recordEvent w (se_now env) RotationPreparing v (v + 1) "Generating new credentials" "" in
          match generate (cm_config (w_manager w)) (se_now env) (se_draw env) with
          | None =>
              (failRotation w (se_now env) v (v + 1) "Failed to generate new credentials" (se_text env), PDone (Some REGenerate))
          | Some c =>
              let new := new_pointer (w_heap w) in
              let w := setState (w_set_heap w (<[new := following c (v + 1) (Some old)]> (w_heap w))) RotationTransitioning in
              (recordEvent w (se_now env) RotationTransitioning v (v + 1) "Creating new PostgreSQL roles" "",
               PCreating (mkRotation start old new v (v + 1)))
          end
      end
  end.

Definition rotate_fail (w : World) (r : Rotation) (env : StepEnv) (message err : string) (e : RotError) : World * Phase :=
  (failRotation w (se_now env) (rt_oldVersion r) (rt_newVersion r) message err, PDone (Some e)).

Definition rotate_finish (w : World) (r : Rotation) (env : StepEnv) : World * Phase :=
  let w := match callback_error w env with
           | Some e => recordEvent w (se_now env) RotationFinalizing (rt_oldVersion r) (rt_newVersion r)
                         "Warning: Failed to drop old roles (will retry later)" e
           | None => w
           end in
  let w := clear_previous (markExpired w (rt_old r)) (rt_new r) in
  match w_heap w !! rt_new r with
  | None => (w, PDone (Some RENoCurrent))
  | Some newCreds =>
      match Storage_Save (cm_encryptor (w_manager w)) (w_files w) newCreds (se_save env) with
      | (f, Some e) => rotate_fail (w_set_files w f) r env "Failed to save new credentials" (se_text env) (RESave e)
      | (f, None) =>
          let w := setState (w_set_current (w_set_files w f) (rt_new r)) RotationComplete in
          (append_event w (mkRotationEvent (se_now env) RotationComplete (rt_oldVersion r) (rt_newVersion r)
                             "Credential rotation completed successfully" "" ((se_now env - rt_start r) `quot` Millisecond)),
           PDone None)
      end
  end.

Definition rotate_step (w : World) (p : Phase) (env : StepEnv) : World * Phase :=
  match p with
  | PStart =>
      if busy (ro_state (w_rotator w)) then (w, PDone (Some (REInProgress (ro_state (w_rotator w)))))
      else (setState w RotationPreparing, PBegun (se_now env))
  | PBegun start => rotate_generate w start env
  | PCreating r =>
      match callback_error w env with
      | Some e => rotate_fail w r env "Failed to create new roles" e (RECreateRoles e)
      | None => (markRetiring w (rt_old r), PUpdating r)
      end
  | PUpdating r =>
      match callback_error w env with
      | Some e => rotate_fail w r env "Failed to update connection pool" e (REUpdatePool e)
      | None =>
          (recordEvent w (se_now env) RotationTransitioning (rt_oldVersion r) (rt_newVersion r)
             ("Waiting for grace period (" ++ Duration_String (CC_RotationGracePeriod (cm_config (w_manager w))) ++ ")") "",
           PWaiting r)
      end
  | PWaiting r =>
      match se_cancel env with
      | Some e => rotate_fail w r env "Context cancelled during grace period" e (RECancelled e)
      | None =>
          (recordEvent (setState w RotationFinalizing) (se_now env) RotationFinalizing (rt_oldVersion r) (rt_newVersion r)
             "Dropping old PostgreSQL roles" "", PDropping r)
      end
  | PDropping r => rotate_finish w r env
  | PDone _ => (w, p)
  end.

(** A call that nothing interrupts: six phases, with what each of them reads. *)
Fixpoint rotate_run (fuel : nat) (w : World) (p : Phase) (env : nat -> StepEnv) : World * Phase :=
  match fuel with
  | O => (w, p)
  | S fuel => let '(w, p) := rotate_step w p (env 0%nat) in rotate_run fuel w p (fun i => env (S i))
  end.
Definition Rotate (w : World) (env : nat -> StepEnv) : World * Phase := rotate_run 6 w PStart env.

(** [RotationScheduler.run]: a tick asks for a rotation when one is due, a signal
    whenever it is there. *)
Inductive Wakeup := WTick (now : Time) | WSignal.
Definition scheduler_turn (w : World) (k : Wakeup) (env : nat -> StepEnv) : World :=
  match k with
  | WTick now => if NeedsRotation w now then (Rotate w env).1 else w
  | WSignal =>
      let m := w_manager w in
      if cm_rotationCh m then
        (Rotate (mkWorld (w_heap w) (w_files w)
                   (mkCredManager (cm_config m) (cm_encryptor m) (cm_nodeID m) (cm_current m) false (cm_stopped m)) (w_rotator w))
           env).1
      else w
  end.

Record DualCredentialSet := mkDualCredentialSet { dc_Active : option nat; dc_Retiring : option nat }.
Definition usable (h : gmap nat Credentials) (p : option nat) (role : string) (s : CredentialStatus) : option string :=
  p ← p; c ← h !! p; rc ← GetRoleCredential c role;
  if bool_decide (RC_Status rc = s) then Some (RC_Password rc) else None.
Definition GetPassword (h : gmap nat Credentials) (d : DualCredentialSet) (role : string) : option string :=
  match usable h (dc_Active d) role StatusActive with
  | Some p => Some p
  | None => usable h (dc_Retiring d) role StatusRetiring
  end.
End storage.

(** ** Decryption *)

Section decryption.
Context `{CredCrypto}.

Lemma x25519_decrypts key nonce p c :
  length nonce = NonceSize -> x25519_Encrypt key (Some nonce) p = Ok c -> x25519_Decrypt key c = Ok p.
Proof.
  intros Hn [= <-]. unfold x25519_Decrypt. cbn [length drop]. rewrite drop_0, length_app, secretbox_length, Hn.
  rewrite (proj2 (Nat.ltb_ge _ _)) by lia. rewrite take_app_length', drop_app_length' by done.
  by rewrite secretbox_open_seal.
Qed.

Lemma hkdf_decrypts key nonce p c :
  length nonce = GCMNonceSize -> hkdf_Encrypt key (Some nonce) p = Ok c -> hkdf_Decrypt key c = Ok p.
Proof.
  intros Hn [= <-]. unfold hkdf_Decrypt. cbn [length drop]. rewrite drop_0, length_app, aes_gcm_length, Hn. unfold GCMTagSize.
  rewrite (proj2 (Nat.ltb_ge _ _)) by lia. rewrite take_app_length', drop_app_length' by done.
  by rewrite aes_gcm_open_seal.
Qed.

(** What a hybrid reader takes apart: any first part, and a second part under X25519. *)
Lemma hybrid_Decrypt_parts kx kh h x :
  (length h < Z.to_nat (2 ^ 32))%nat -> (0 < length x)%nat ->
  hybrid_Decrypt kx kh (byte_H :: lenBuf (Z.of_nat (length h)) ++ h ++ x) =
  or_else (hkdf_Decrypt kh h) (x25519_Decrypt kx x).
Proof.
  intros Hh Hx. set (l := lenBuf _). assert (Hl : length l = 4%nat) by done.
  assert (Hn : length_of l = Z.of_nat (length h)) by (apply length_of_lenBuf; lia). clearbody l.
  unfold hybrid_Decrypt. cbn [length nth]. rewrite !length_app, Hl, (proj2 (Nat.ltb_ge _ _)), Z.eqb_refl by lia.
  cbn [drop]. rewrite drop_0, take_app_length', Hn by done. rewrite (proj2 (Z.ltb_ge _ _)) by lia. rewrite Nat2Z.id.
  change (drop 5 (byte_H :: l ++ h ++ x)) with (drop 4 (l ++ h ++ x)).
  change (drop (5 + length h) (byte_H :: l ++ h ++ x)) with (drop (4 + length h) (l ++ h ++ x)).
  rewrite <- drop_drop, drop_app_length' by done. by rewrite take_app_length, drop_app_length.
Qed.

(** What was encrypted is decrypted, whichever method is configured, below 4 GiB. *)
Lemma Decrypt_Encrypt e ng nb p c :
  (forall n, ng = Some n -> length n = GCMNonceSize) -> (forall n, nb = Some n -> length n = NonceSize) ->
  (length p < Z.to_nat (2 ^ 32 - 29))%nat -> Encrypt e ng nb p = Ok c -> Decrypt e c = Ok p.
Proof.
  intros Hg Hb Hp. destruct e as [key|key|kx kh]; cbn [Encrypt Decrypt].
  - destruct nb as [n|]; [|done]. apply x25519_decrypts. by apply Hb.
  - destruct ng as [n|]; [|done]. apply hkdf_decrypts. by apply Hg.
  - unfold hybrid_Encrypt. destruct (hkdf_Encrypt kh ng p) as [h|] eqn:Eh; [|done].
    destruct (x25519_Encrypt kx nb p) as [x|] eqn:Ex; [|done]. intros [= <-].
    destruct ng as [n|]; [|done]. destruct nb as [n'|]; [|done]. specialize (Hg n eq_refl). specialize (Hb n' eq_refl).
    change (hybrid_Decrypt kx kh (byte_H :: lenBuf (Z.of_nat (length h)) ++ h ++ x) = Ok p). rewrite hybrid_Decrypt_parts.
    + by rewrite (hkdf_decrypts _ _ _ _ Hg Eh).
    + injection Eh as <-. cbn [length]. rewrite length_app, aes_gcm_length, Hg. unfold GCMNonceSize, GCMTagSize. lia.
    + injection Ex as <-. cbn [length]. lia.
Qed.

(** Every file the node has written under its key is read with the hybrid method: the
    files of the single methods, and hybrid files of which one half is damaged. *)
Theorem hybrid_reads kx kh ng nb p h x :
  length ng = GCMNonceSize -> length nb = NonceSize -> (length p < Z.to_nat (2 ^ 32 - 29))%nat ->
  hkdf_Encrypt kh (Some ng) p = Ok h -> x25519_Encrypt kx (Some nb) p = Ok x ->
  hybrid_Decrypt kx kh h = Ok p /\ hybrid_Decrypt kx kh x = Ok p /\
  (forall x', (0 < length x')%nat -> hybrid_Decrypt kx kh (byte_H :: lenBuf (Z.of_nat (length h)) ++ h ++ x') = Ok p) /\
  (forall h' e, (length h' < Z.to_nat (2 ^ 32))%nat -> hkdf_Decrypt kh h' = Err e ->
     hybrid_Decrypt kx kh (byte_H :: lenBuf (Z.of_nat (length h')) ++ h' ++ x) = Ok p).
Proof.
  intros Hg Hb Hp Eh Ex. assert (Dh := hkdf_decrypts _ _ _ _ Hg Eh). assert (Dx := x25519_decrypts _ _ _ _ Hb Ex).
  assert (Lh : length h = (29 + length p)%nat).
  { injection Eh as <-. cbn [length]. by rewrite length_app, aes_gcm_length, Hg. }
  assert (Lx : length x = (41 + length p)%nat).
  { injection Ex as <-. cbn [length]. by rewrite length_app, secretbox_length, Hb. }
  split_and!.
  - unfold hybrid_Decrypt. rewrite (proj2 (Nat.ltb_ge _ _)) by lia. by injection Eh as <-.
  - unfold hybrid_Decrypt. rewrite (proj2 (Nat.ltb_ge _ _)) by lia. by injection Ex as <-.
  - intros x' Hx'. rewrite hybrid_Decrypt_parts by lia. by rewrite Dh.
  - intros h' e Hh' He. rewrite hybrid_Decrypt_parts by lia. by rewrite He.
Qed.
End decryption.

(** ** Rotations and crashes *)

Section rotation.
Context `{CredCrypto} `{CredJSON}.
Hypothesis small_text : forall c s, cred_text c = Some s -> (length s < Z.to_nat (2 ^ 32 - 29))%nat.

Definition save_ok (io : SaveIO) : Prop :=
  (forall n, sv_gcm io = Some n -> length n = GCMNonceSize) /\ (forall n, sv_box io = Some n -> length n = NonceSize).

(** A set the way the file has it. *)
Definition saved_as (c : Credentials) : Credentials := following (mark StatusActive c) (Creds_Version c) None.

Lemma mark_mark s s' c : mark s (mark s' c) = mark s c.
Proof.
  unfold mark. cbn. f_equal. rewrite <- map_fmap_compose. by apply map_fmap_ext.
Qed.

Lemma saved_as_mark s c : saved_as (mark s c) = saved_as c.
Proof. unfold saved_as. by rewrite mark_mark. Qed.

Lemma saved_as_fresh c : mark StatusActive c = c -> Creds_Previous c = None -> saved_as c = c.
Proof. intros Hm Hp. unfold saved_as. rewrite Hm. destruct c. cbn in *. by rewrite Hp. Qed.

Lemma active_following c v p : mark StatusActive c = c -> mark StatusActive (following c v p) = following c v p.
Proof.
  intros Hm. change (mark StatusActive (following c v p)) with (following (mark StatusActive c) v p). by rewrite Hm.
Qed.

Lemma saved_as_saved c : saved_as (saved_as c) = saved_as c.
Proof. apply saved_as_fresh; [|done]. change (mark StatusActive (saved_as c)) with (saved_as (mark StatusActive c)). apply saved_as_mark. Qed.

Lemma Encrypt_not_nil e ng nb p : Encrypt e ng nb p <> Ok [].
Proof.
  destruct e; cbn; unfold x25519_Encrypt, hkdf_Encrypt, hybrid_Encrypt, hkdf_Encrypt, x25519_Encrypt;
    destruct ng, nb; done.
Qed.

(** A save that succeeds is what is loaded; one that fails leaves the file alone. *)
Lemma save_then_load e f c io f' :
  save_ok io -> Creds_Previous c = None -> Storage_Save e f c io = (f', None) -> Storage_Load e f' = Ok c.
Proof.
  intros [Hg Hb] Hp. unfold Storage_Save. destruct (cred_text c) as [t|] eqn:Et; [|done].
  destruct (Encrypt e _ _ t) as [d|] eqn:Ed; [|done]. destruct (sv_write io); [done|]. destruct (sv_rename io); [|done].
  intros [= <-]. unfold Storage_Load. cbn [cf_main]. destruct d as [|b d]; [by apply Encrypt_not_nil in Ed|].
  erewrite Decrypt_Encrypt; [|exact Hg|exact Hb|by eapply small_text|exact Ed]. by rewrite (cred_round c t).
Qed.

Lemma save_failed e f c io f' err : Storage_Save e f c io = (f', Some err) -> cf_main f' = cf_main f.
Proof.
  unfold Storage_Save. destruct (cred_text c); [|by intros [= <-]]. destruct (Encrypt _ _ _ _); [|by intros [= <-]].
  destruct (sv_write io); [by intros [= <-]|]. destruct (sv_rename io); [done|by intros [= <-]].
Qed.

Lemma load_main e f f' : cf_main f' = cf_main f -> Storage_Load e f' = Storage_Load e f.
Proof. intros E. unfold Storage_Load. by rewrite E. Qed.

Lemma role_credentials_active cfg now draw i roles acc m :
  set_status StatusActive <$> acc = acc -> role_credentials cfg now draw i roles acc = Some m ->
  set_status StatusActive <$> m = m.
Proof.
  revert i acc. induction roles as [|r roles IH]; intros i acc Ha; cbn; [by intros [= <-]|].
  destruct (generatePassword _ _); [|done]. cbn. apply IH. by rewrite fmap_insert, Ha.
Qed.

Lemma generate_active cfg now draw c : generate cfg now draw = Some c -> mark StatusActive c = c /\ Creds_Previous c = None.
Proof.
  unfold generate. intros (a & _ & (b & _ & (m & Em & [= <-])%bind_Some)%bind_Some)%bind_Some. unfold mark. cbn.
  by rewrite (role_credentials_active _ _ _ _ _ _ _ (fmap_empty _) Em).
Qed.

Definition active (p : Phase) : bool := match p with PStart | PDone _ => false | _ => true end.
Definition rotation_of (p : Phase) : option Rotation :=
  match p with PCreating r | PUpdating r | PWaiting r | PDropping r => Some r | _ => None end.

(** The file holds the passwords of the current set. *)
Definition current_saved (w : World) : Prop :=
  exists p c, cm_current (w_manager w) = Some p /\ w_heap w !! p = Some c /\
    Storage_Load (cm_encryptor (w_manager w)) (w_files w) = Ok (saved_as c).

(** What a rotation under way relies on. *)
Definition own (w : World) (p : Phase) : Prop :=
  active p = true ->
  busy (ro_state (w_rotator w)) = true /\
  forall r, rotation_of p = Some r ->
    cm_current (w_manager w) = Some (rt_old r) /\ rt_new r <> rt_old r /\
    exists n, w_heap w !! rt_new r = Some n /\ mark StatusActive n = n.

Lemma current_saved_mark w s p :
  current_saved w -> current_saved (w_set_heap w (alter (mark s) p (w_heap w))).
Proof.
  intros (q & c & Hq & Hc & Hl). destruct (decide (p = q)) as [->|Hpq].
  - exists q, (mark s c). cbn. rewrite lookup_alter_eq, Hc, saved_as_mark. done.
  - exists q, c. cbn. by rewrite lookup_alter_ne.
Qed.

Lemma current_saved_same w w' :
  cm_current (w_manager w') = cm_current (w_manager w) -> cm_encryptor (w_manager w') = cm_encryptor (w_manager w) ->
  cf_main (w_files w') = cf_main (w_files w) ->
  (forall p c, cm_current (w_manager w) = Some p -> w_heap w !! p = Some c -> w_heap w' !! p = Some c) ->
  current_saved w -> current_saved w'.
Proof.
  intros Hc He Hf Hh (p & c & Hp & Hpc & Hl). exists p, c. rewrite Hc, He, (load_main _ _ _ Hf). auto.
Qed.

Lemma new_pointer_None h : h !! new_pointer h = None.
Proof. unfold new_pointer. apply (not_elem_of_dom (D := gset nat)). apply is_fresh. Qed.

Lemma generate_step w start env w' p' :
  rotate_generate w start env = (w', p') -> current_saved w -> busy (ro_state (w_rotator w)) = true ->
  current_saved w' /\ own w' p'.
Proof.
  unfold rotate_generate. intros Hs (p & c & Hp & Hc & Hl) Hb. rewrite Hp, Hc in Hs. cbn zeta in Hs.
  destruct (generate _ _ _) as [g|] eqn:Hg.
  - injection Hs as <- <-. destruct (generate_active _ _ _ _ Hg) as [Ha _].
    set (n := new_pointer _). assert (Hn : w_heap w !! n = None) by apply new_pointer_None. split.
    + exists p, c. cbn. rewrite lookup_insert_ne by congruence. done.
    + intros _. split; [done|]. intros r [= <-]. cbn. split_and!; [done|congruence|].
      eexists. rewrite lookup_insert_eq. split; [done|]. by apply active_following.
  - injection Hs as <- <-. split; [by exists p, c|done].
Qed.

Lemma finish_step w r env w' p' :
  rotate_finish w r env = (w', p') -> current_saved w -> own w (PDropping r) -> save_ok (se_save env) ->
  current_saved w' /\ own w' p'.
Proof.
  intros Hs Hc Ho Hio. destruct (Ho eq_refl) as [_ Hr]. destruct (Hr r eq_refl) as (Hp & Hne & n & Hn & Ha). clear Ho Hr.
  revert Hs. unfold rotate_finish. set (w1 := match callback_error w env with Some _ => _ | None => _ end).
  assert (Hw1 : w_heap w1 = w_heap w /\ w_files w1 = w_files w /\ w_manager w1 = w_manager w)
    by (subst w1; by destruct (callback_error w env)).
  destruct Hw1 as (Hh & Hf & Hm). clearbody w1.
  assert (Hc1 : current_saved w1) by (eapply current_saved_same; [..|exact Hc]; by rewrite ?Hm, ?Hf, ?Hh).
  set (w2 := clear_previous _ _). set (n' := following n (Creds_Version n) None).
  assert (Hn2 : w_heap w2 !! rt_new r = Some n').
  { subst w2. cbn. by rewrite lookup_alter_eq, lookup_alter_ne, Hh, Hn by congruence. }
  assert (Hc2 : current_saved w2).
  { apply (current_saved_mark _ StatusExpired (rt_old r)) in Hc1. eapply current_saved_same; [..|exact Hc1]; try done.
    intros p c Hp' Hpc. subst w2. cbn in *. rewrite lookup_alter_ne; [done|]. rewrite Hm, Hp in Hp'. congruence. }
  rewrite Hn2. destruct (Storage_Save _ _ n' _) as [f [e|]] eqn:Hsv; intros [= <- <-].
  - split; [|done]. eapply current_saved_same; [..|exact Hc2]; try done. cbn. by eapply save_failed.
  - split; [|done]. exists (rt_new r), n'. cbn. split_and!; [done|exact Hn2|].
    rewrite saved_as_fresh; [by eapply save_then_load|by apply active_following|done].
Qed.

Lemma step_sound w p env w' p' :
  rotate_step w p env = (w', p') -> save_ok (se_save env) -> current_saved w -> own w p ->
  current_saved w' /\ own w' p'.
Proof.
  intros Hs Hio Hc Ho.
  assert (Hrot : forall w1, w_heap w1 = w_heap w -> w_files w1 = w_files w -> w_manager w1 = w_manager w -> current_saved w1).
  { intros w1 Eh Ef Em. eapply current_saved_same; [..|exact Hc]; by rewrite ?Eh, ?Ef, ?Em. }
  destruct p as [|start|r|r|r|r|res]; cbn in Hs.
  - destruct (busy _) eqn:Hb; injection Hs as <- <-; split; try done; by apply Hrot.
  - eapply generate_step; [exact Hs|done|]. by destruct (Ho eq_refl).
  - destruct (callback_error w env); injection Hs as <- <-; [split; [by apply Hrot|done]|].
    split; [by apply current_saved_mark|]. intros _. destruct (Ho eq_refl) as [Hb Hr]. split; [done|].
    intros r' [= <-]. destruct (Hr r eq_refl) as (Hp & Hne & n & Hn & Ha). split_and!; [done|done|].
    exists n. cbn. by rewrite lookup_alter_ne.
  - destruct (callback_error w env); injection Hs as <- <-; split; try done; by apply Hrot.
  - destruct (se_cancel env); injection Hs as <- <-; split; try (by apply Hrot); try done.
    intros _. destruct (Ho eq_refl) as [Hb Hr]. done.
  - by eapply finish_step.
  - injection Hs as <- <-. done.
Qed.

(** A phase that changes anything belongs to the call that holds the rotation. *)
Lemma step_quiet w p env w' p' :
  rotate_step w p env = (w', p') -> active p = false ->
  (w' = w /\ active p' = false) \/ busy (ro_state (w_rotator w)) = false.
Proof.
  intros Hs Ha. destruct p; try done; cbn in Hs.
  - destruct (busy _); [|auto]. injection Hs as <- <-. auto.
  - injection Hs as <- <-. auto.
Qed.

(** Calls of [Rotate] on several goroutines, signals, backups of the file, and crashes
    after which the node starts again on the files that are left. *)
Inductive rotation_system : World * list Phase -> World * list Phase -> Prop :=
| sys_call w ts : rotation_system (w, ts) (w, (ts ++ [PStart])%list)
| sys_phase w ts i p env w' p' :
    ts !! i = Some p -> save_ok (se_save env) -> rotate_step w p env = (w', p') ->
    rotation_system (w, ts) (w', <[i := p']> ts)
| sys_trigger w ts :
    rotation_system (w, ts) (mkWorld (w_heap w) (w_files w) (TriggerRotation (w_manager w)) (w_rotator w), ts)
| sys_backup w ts write : rotation_system (w, ts) (w_set_files w (Storage_Backup (w_files w) write).1, ts)
| sys_crash w ts callback now draw io :
    save_ok io ->
    rotation_system (w, ts)
      ((Initialize (mkWorld ∅ (w_files w) (set_current (w_manager w) None) (NewRotator callback)) now draw io).1, []).

Record sound (s : World * list Phase) : Prop := {
  so_saved : current_saved s.1;
  so_own : forall i p, s.2 !! i = Some p -> own s.1 p;
  so_one : forall i j p q, s.2 !! i = Some p -> s.2 !! j = Some q -> active p = true -> active q = true -> i = j;
}.

Lemma sound_phase w ts i p env w' p' :
  ts !! i = Some p -> save_ok (se_save env) -> rotate_step w p env = (w', p') -> sound (w, ts) ->
  sound (w', <[i := p']> ts).
Proof.
  intros Hi Hio Hs [Hc Ho H1]. cbn in *. destruct (step_sound _ _ _ _ _ Hs Hio Hc (Ho _ _ Hi)) as [Hc' Ho'].
  assert (Hidle : active p = false -> (w' = w /\ active p' = false) \/ forall j q, ts !! j = Some q -> active q = false).
  { intros Ha. destruct (step_quiet _ _ _ _ _ Hs Ha) as [?|Hb]; [by left|right]. intros j q Hq.
    destruct (active q) eqn:Hq'; [|done]. destruct (Ho _ _ Hq Hq'). congruence. }
  assert (Hothers : forall j q, j <> i -> ts !! j = Some q -> active q = true -> w' = w /\ active p' = false).
  { intros j q Hj Hq Hq'. destruct (active p) eqn:Ha; [destruct Hj; by eapply H1|].
    destruct (Hidle eq_refl) as [?|Hn]; [done|]. rewrite (Hn _ _ Hq) in Hq'. done. }
  split; cbn; [done| |].
  - intros j q. destruct (decide (j = i)) as [->|Hj].
    + rewrite list_lookup_insert_eq by (by eapply lookup_lt_Some). by intros [= <-].
    + rewrite list_lookup_insert_ne by done. intros Hq. destruct (active q) eqn:Hq'; [|intros Hx; congruence].
      destruct (Hothers _ _ Hj Hq Hq') as [-> _]. by eapply Ho.
  - intros j k q q' Hq Hq' Ha Ha'. destruct (decide (j = i)) as [->|Hj], (decide (k = i)) as [->|Hk]; [done| | |].
    + rewrite list_lookup_insert_eq in Hq by (by eapply lookup_lt_Some). injection Hq as <-.
      rewrite list_lookup_insert_ne in Hq' by done. destruct (Hothers _ _ Hk Hq' Ha'). congruence.
    + rewrite list_lookup_insert_eq in Hq' by (by eapply lookup_lt_Some). injection Hq' as <-.
      rewrite list_lookup_insert_ne in Hq by done. destruct (Hothers _ _ Hj Hq Ha). congruence.
    + rewrite list_lookup_insert_ne in Hq, Hq' by done. by eapply H1.
Qed.

Lemma initialize_saved w now draw io w' :
  save_ok io -> Initialize w now draw io = (w', None) ->
  (forall c, Storage_Load (cm_encryptor (w_manager w)) (w_files w) = Ok c -> saved_as c = c) -> current_saved w'.
Proof.
  intros Hio. unfold Initialize. destruct (Storage_Load _ _) as [c|err] eqn:El.
  - intros [= <-] Hc. eexists _, c. cbn. rewrite lookup_insert_eq, Hc by done. done.
  - destruct (generate _ _ _) as [c|] eqn:Hg; [|done]. destruct (generate_active _ _ _ _ Hg) as [Ha Hp].
    destruct (Storage_Save _ _ c io) as [f [e|]] eqn:Hs; [done|]. intros [= <-] _.
    eexists _, c. cbn. rewrite lookup_insert_eq, saved_as_fresh by done. split_and!; [done..|]. by eapply save_then_load.
Qed.

Lemma sound_nil w : current_saved w -> sound (w, []).
Proof. split; [done|intros i p Hp; cbn in Hp; by rewrite lookup_nil in Hp|intros i j p q Hp; cbn in Hp; by rewrite lookup_nil in Hp]. Qed.

Lemma system_sound s s' : rotation_system s s' -> sound s -> sound s'.
Proof.
  intros Hs Hs0. destruct Hs as [w ts|w ts i p env w' p' Hi Hio Hs|w ts|w ts write|w ts callback now draw io Hio].
  - destruct Hs0 as [Hc Ho H1]. split; cbn in *; [done| |].
    + intros i p [Hp|[_ Hp]]%lookup_app_Some; [by eapply Ho|]. by apply list_lookup_singleton_Some in Hp as [_ <-].
    + intros i j p q [Hp|[_ Hp]]%lookup_app_Some [Hq|[_ Hq]]%lookup_app_Some; [by eapply H1|..];
        try apply list_lookup_singleton_Some in Hp as [_ <-]; try apply list_lookup_singleton_Some in Hq as [_ <-]; done.
  - by eapply sound_phase.
  - destruct Hs0 as [Hc Ho H1]. split; done.
  - destruct Hs0 as [Hc Ho H1]. split; [|done..]. eapply current_saved_same; [..|exact Hc]; try done. cbn.
    unfold Storage_Backup. by destruct (cf_main (w_files w)) eqn:E, write; cbn; rewrite ?E.
  - destruct Hs0 as [(p & c & _ & _ & Hl) _ _]. cbn in Hl. set (w0 := mkWorld _ _ _ _).
    assert (Hi : Initialize w0 now draw io = (adopt w0 (saved_as c), None)).
    { unfold Initialize. cbn. by rewrite Hl. }
    apply sound_nil. rewrite Hi. cbn [fst]. eapply (initialize_saved w0); [done|exact Hi|].
    cbn. intros c' E. rewrite Hl in E. injection E as <-. apply saved_as_saved.
Qed.


(** What a rotation that failed leaves of the current set. *)
Definition left_as (e : RotError) (c : Credentials) : Credentials :=
  match e with
  | REUpdatePool _ | RECancelled _ => mark StatusRetiring c
  | RESave _ => mark StatusExpired c
  | _ => c
  end.

Lemma mark_expired_retiring c : mark StatusExpired (mark StatusRetiring c) = mark StatusExpired c.
Proof. apply mark_mark. Qed.

Lemma finish_outcome w r env p c n :
  cm_current (w_manager w) = Some p -> rt_old r = p -> rt_new r <> p -> w_heap w !! p = Some (mark StatusRetiring c) ->
  w_heap w !! rt_new r = Some n -> mark StatusActive n = n -> save_ok (se_save env) ->
  exists w' res, rotate_finish w r env = (w', PDone res) /\
    match res with
    | None =>
        ro_state (w_rotator w') = RotationComplete /\ cm_current (w_manager w') = Some (rt_new r) /\
        w_heap w' !! rt_new r = Some (following n (Creds_Version n) None) /\
        Storage_Load (cm_encryptor (w_manager w')) (w_files w') = Ok (following n (Creds_Version n) None) /\
        w_heap w' !! p = Some (mark StatusExpired c)
    | Some e =>
        ro_state (w_rotator w') = RotationFailed /\ cm_current (w_manager w') = Some p /\
        cf_main (w_files w') = cf_main (w_files w) /\ w_heap w' !! p = Some (left_as e c)
    end.
Proof.
  intros Hp Ho Hne Hc Hn Ha Hio. unfold rotate_finish. set (w1 := match callback_error w env with Some _ => _ | None => _ end).
  assert (Hw1 : w_heap w1 = w_heap w /\ w_files w1 = w_files w /\ w_manager w1 = w_manager w)
    by (subst w1; by destruct (callback_error w env)).
  destruct Hw1 as (Hh & Hf & Hm). clearbody w1. cbn [w_heap clear_previous markExpired w_set_heap w_manager w_files].
  rewrite Ho, Hh, lookup_alter_eq, lookup_alter_ne, Hn by congruence. cbn [fmap option_fmap option_map].
  destruct (Storage_Save _ _ _ _) as [f [e|]] eqn:Hs; eexists _, _; (split; [reflexivity|]); cbn; rewrite Hm, ?Hh in *.
  - split_and!; [done|done| |].
    + rewrite <- Hf. by eapply save_failed.
    + by rewrite lookup_alter_ne, lookup_alter_eq, Hc, <- (mark_expired_retiring c) by done.
  - split_and!; [done|done| | |].
    + by rewrite lookup_alter_eq, lookup_alter_ne, Hn by congruence.
    + by eapply save_then_load.
    + by rewrite lookup_alter_ne, lookup_alter_eq, Hc, <- (mark_expired_retiring c) by done.
Qed.

(** A rotation that nothing else interferes with comes to an end.  It succeeds with
    a new set of the next version, all active, that is current and that the file
    decrypts to, and the old set is expired; or it fails, the old set stays current,
    the file is as it was, and the statuses of the old set say how far it came. *)
Theorem Rotate_outcome w env p c :
  cm_current (w_manager w) = Some p -> w_heap w !! p = Some c -> busy (ro_state (w_rotator w)) = false ->
  (forall i, save_ok (se_save (env i))) ->
  exists w' res, Rotate w env = (w', PDone res) /\
    match res with
    | None =>
        ro_state (w_rotator w') = RotationComplete /\
        exists q c', cm_current (w_manager w') = Some q /\ q <> p /\ w_heap w' !! q = Some c' /\
          Creds_Version c' = Creds_Version c + 1 /\ mark StatusActive c' = c' /\
          Storage_Load (cm_encryptor (w_manager w')) (w_files w') = Ok c' /\ w_heap w' !! p = Some (mark StatusExpired c)
    | Some e =>
        ro_state (w_rotator w') = RotationFailed /\ cm_current (w_manager w') = Some p /\
        cf_main (w_files w') = cf_main (w_files w) /\ w_heap w' !! p = Some (left_as e c)
    end.
Proof.
  intros Hp Hc Hb Hio. unfold Rotate. cbn [rotate_run rotate_step]. rewrite Hb. cbn [rotate_run rotate_step].
  unfold rotate_generate. cbn [setState w_set_rotator w_manager w_heap]. rewrite Hp, Hc. cbn zeta.
  destruct (generate _ _ _) as [g|] eqn:Hg; [|eexists _, _; split; [reflexivity|done]].
  destruct (generate_active _ _ _ _ Hg) as [Ha _].
  set (n := new_pointer _). assert (Hn : w_heap w !! n = None) by apply new_pointer_None.
  assert (Hne : n <> p) by congruence. cbn [rotate_run rotate_step].
  destruct (callback_error _ (env 2%nat)) as [e|].
  { cbn [rotate_run rotate_step rotate_fail]. eexists _, _. split; [reflexivity|]. cbn.
    by rewrite lookup_insert_ne. }
  cbn [rotate_run rotate_step]. destruct (callback_error _ (env 3%nat)) as [e|].
  { cbn [rotate_run rotate_step rotate_fail]. eexists _, _. split; [reflexivity|]. cbn.
    by rewrite lookup_alter_eq, lookup_insert_ne, Hc. }
  cbn [rotate_run rotate_step]. destruct (se_cancel (env 4%nat)) as [e|].
  { cbn [rotate_run rotate_step rotate_fail]. eexists _, _. split; [reflexivity|]. cbn.
    by rewrite lookup_alter_eq, lookup_insert_ne, Hc. }
  cbn [rotate_run rotate_step]. set (w5 := recordEvent _ _ RotationFinalizing _ _ _ _). set (r := mkRotation _ _ _ _ _).
  destruct (finish_outcome w5 r (env 5%nat) p c (following g (Creds_Version c + 1) (Some p))) as (w' & res & -> & Hres); try done.
  - subst w5 r. cbn. by rewrite lookup_alter_eq, lookup_insert_ne, Hc.
  - subst w5 r. cbn. by rewrite lookup_alter_ne, lookup_insert_eq.
  - by apply active_following.
  - exists w', res. split; [done|]. destruct res as [e|]; [exact Hres|].
    destruct Hres as (Hst & Hcur & Hh & Hl & Hold). split; [done|]. eexists _, _.
    split_and!; [exact Hcur|exact Hne|exact Hh|done| |exact Hl|exact Hold]. by do 2 apply active_following.
Qed.

(** Without a current set the rotation stays in its first state, and every later call
    finds one in progress. *)
Theorem no_credentials_stuck w env env' :
  cm_current (w_manager w) = None -> busy (ro_state (w_rotator w)) = false ->
  (Rotate w env).2 = PDone (Some RENoCurrent) /\
  Rotate (Rotate w env).1 env' = ((Rotate w env).1, PDone (Some (REInProgress RotationPreparing))).
Proof.
  intros Hp Hb. assert (Hw : Rotate w env = (setState w RotationPreparing, PDone (Some RENoCurrent))).
  { unfold Rotate. cbn [rotate_run rotate_step]. rewrite Hb. cbn [rotate_run rotate_step].
    unfold rotate_generate. cbn [setState w_set_rotator w_manager]. by rewrite Hp. }
  rewrite Hw. done.
Qed.

Lemma role_credentials_spec cfg now draw i roles acc m r rc :
  (forall i n bs, draw i n = Some bs -> length bs = n) -> role_credentials cfg now draw i roles acc = Some m ->
  m !! r = Some rc -> acc !! r = Some rc \/
  exists p, rc = new_credential cfg now r p /\ length (bytes_of p) = (2 * Z.to_nat (CC_PasswordLength cfg `quot` 2))%nat.
Proof.
  intros Hd. revert i acc. induction roles as [|x roles IH]; intros i acc; cbn; [intros [= <-]; auto|].
  intros (p & Hpass & Hm)%bind_Some Hr. destruct (IH _ _ Hm Hr) as [Ha|?]; [|auto].
  destruct (decide (x = r)) as [->|Hx]; [|rewrite lookup_insert_ne in Ha by done; auto].
  rewrite lookup_insert_eq in Ha. injection Ha as <-. right. exists p. split; [done|].
  unfold generatePassword in Hpass. apply fmap_Some in Hpass as (bs & Hbs & ->). by rewrite EncodeToString_length, (Hd _ _ _ Hbs).
Qed.

Lemma role_credentials_dom cfg now draw i roles acc m :
  role_credentials cfg now draw i roles acc = Some m -> forall r, r ∈ roles \/ is_Some (acc !! r) -> is_Some (m !! r).
Proof.
  revert i acc. induction roles as [|x roles IH]; intros i acc; cbn; [intros [= <-] r [?%elem_of_nil|?]; done|].
  intros (p & _ & Hm)%bind_Some r Hr. apply (IH _ _ Hm). destruct (decide (x = r)) as [->|Hx].
  - right. by rewrite lookup_insert_eq.
  - rewrite lookup_insert_ne by done. destruct Hr as [[->|?]%elem_of_cons|?]; auto. done.
Qed.

(** The manager's configuration makes a password for every role of the database
    and for the administrator, of at least 32 characters (an odd length loses one),
    active and due after the interval. *)
Theorem generated_for_all cfg key nodeID m now draw c r :
  NewCredManager cfg nodeID key = Ok m -> (forall i n bs, draw i n = Some bs -> length bs = n) ->
  generate (cm_config m) now draw = Some c -> DBRole_IsValid r = true ->
  exists p, GetRoleCredential c r = Some (new_credential (cm_config m) now r p) /\
    Z.of_nat (length (bytes_of p)) = 2 * (CC_PasswordLength (cm_config m) / 2) /\
    32 <= Z.of_nat (length (bytes_of p)).
Proof.
  clear small_text. intros Hm Hd Hg Hr. unfold NewCredManager in Hm. destruct (NewEncryptor _ key); [|done].
  destruct (_ =?= _); [done|]. injection Hm as <-. cbn [cm_config] in *. set (cfg' := with_defaults cfg) in *.
  assert (Hlen : 32 <= CC_PasswordLength cfg').
  { subst cfg'. cbn. destruct (Z.ltb_spec (CC_PasswordLength cfg) 32); lia. }
  assert (Hdone : forall p, length (bytes_of p) = (2 * Z.to_nat (CC_PasswordLength cfg' `quot` 2))%nat ->
    Z.of_nat (length (bytes_of p)) = 2 * (CC_PasswordLength cfg' / 2) /\ 32 <= Z.of_nat (length (bytes_of p))).
  { intros p ->. rewrite Z.quot_div_nonneg by lia. rewrite Nat2Z.inj_mul, Z2Nat.id by (apply Z.div_pos; lia).
    split; [done|]. Z.div_mod_to_equations; lia. }
  clearbody cfg'. unfold generate in Hg.
  apply bind_Some in Hg as (sp & _ & (b & Hb & (roles & Hroles & [= <-])%bind_Some)%bind_Some).
  unfold GetRoleCredential. cbn [Creds_Admin Creds_Roles]. destruct (r =?= RoleAdmin) eqn:Er.
  - apply bool_decide_eq_true_1 in Er as ->. exists b. split; [done|]. apply Hdone.
    unfold generatePassword in Hb. apply fmap_Some in Hb as (bs & Hbs & ->). by rewrite EncodeToString_length, (Hd _ _ _ Hbs).
  - assert (Hin : r ∈ job_roles).
    { unfold DBRole_IsValid in Hr. apply bool_decide_eq_true_1 in Hr. apply bool_decide_eq_false_1 in Er.
      unfold job_roles. set_solver. }
    destruct (role_credentials_dom _ _ _ _ _ _ _ Hroles r (or_introl Hin)) as [rc Hrc].
    destruct (role_credentials_spec _ _ _ _ _ _ _ _ _ Hd Hroles Hrc) as [?|(p & -> & Hp)]; [done|].
    exists p. split; [done|]. by apply Hdone.
Qed.

(** A file that cannot be decrypted, because the method or the identity key changed, is
    replaced by a set that was just made. *)
Theorem unreadable_credentials_replaced w now draw io w' e :
  save_ok io -> Storage_Load (cm_encryptor (w_manager w)) (w_files w) = Err e -> Initialize w now draw io = (w', None) ->
  exists c, Storage_Load (cm_encryptor (w_manager w)) (w_files w') = Ok c /\ Creds_Version c = 1 /\
    generate (cm_config (w_manager w)) now draw = Some c.
Proof.
  intros Hio He. unfold Initialize. rewrite He. destruct (generate _ _ _) as [c|] eqn:Hg; [|done].
  destruct (generate_active _ _ _ _ Hg) as [_ Hp].
  destruct (Storage_Save _ _ _ _) as [f [err|]] eqn:Hs; [done|]. intros [= <-]. exists c. cbn.
  split_and!; [by eapply save_then_load| |done]. unfold generate in Hg.
  by apply bind_Some in Hg as (a & _ & (b & _ & (m & _ & [= <-])%bind_Some)%bind_Some).
Qed.
End rotation.

(** ** Witnesses *)

#[local] Instance RoleCredential_dec : EqDecision RoleCredential.
Proof. solve_decision. Defined.
#[local] Instance Credentials_dec : EqDecision Credentials.
Proof. solve_decision. Defined.

(** Boxes that show the sum of their key and the content. *)
Definition key_sum (k : list Z) : Z := foldr Z.add 0 k mod 256.
Definition seal (nonce key d : list Z) : list Z := (replicate 16 (key_sum key) ++ d)%list.
Definition unseal (nonce key c : list Z) : option (list Z) :=
  if bool_decide (take 16 c = replicate 16 (key_sum key)) then Some (drop 16 c) else None.

Lemma unseal_seal nonce key d : unseal nonce key (seal nonce key d) = Some d.
Proof.
  unfold unseal, seal. by rewrite take_app_length', drop_app_length', bool_decide_eq_true_2 by done.
Qed.

Definition open_boxes : CredCrypto.
Proof.
  refine {| sha512_Sum512 d := replicate 64 (key_sum d); hkdf_read ikm _ _ n := replicate n (key_sum ikm + 1);
            secretbox_Seal := seal; secretbox_Open := unseal; aes_gcm_Seal := seal; aes_gcm_Open := unseal;
            curve25519_Base k := Some k |}; [by intros; apply length_replicate|..];
    intros; solve [apply unseal_seal|unfold seal; by rewrite length_app, length_replicate].
Defined.

Definition toy_config : CredConfig := mkCredConfig EncryptionHybrid (7 * 24 * Hour) (5 * Minute) "/bib/credentials.enc" 32.
Definition toy_draw (k : Z) : nat -> nat -> option (list Z) := fun i n => Some (replicate n (k * 16 + Z.of_nat i)).
Definition toy_set (v : Z) : option Credentials :=
  (fun c => following c v None) <$> generate toy_config (v * 24 * Hour) (toy_draw v).

(** An encoding that knows the sets made by these draws. *)
Definition toy_json : CredJSON.
Proof.
  refine {| cred_text c := if bool_decide (toy_set (Creds_Version c) = Some c) then Some [Creds_Version c] else None;
            cred_value s := match s with [v] => toy_set v | _ => None end |}.
  intros c s _. case_bool_decide as E; [|done]. intros [= <-]. exact E.
Defined.

Section witnesses.
#[local] Existing Instances open_boxes toy_json.

Lemma toy_small c s : cred_text c = Some s -> (length s < Z.to_nat (2 ^ 32 - 29))%nat.
Proof. unfold cred_text, toy_json. case_bool_decide; [|done]. intros [= <-]. cbn [length]. lia. Qed.

Definition toy_save : SaveIO := mkSaveIO (Some (replicate 12 0)) (Some (replicate 24 0)) None true.
Lemma toy_save_ok : save_ok toy_save.
Proof. split; by intros n [= <-]. Qed.

Definition toy_key : list Z := replicate 64 7.
Definition toy_manager : CredManager :=
  match NewCredManager toy_config "node" toy_key with Ok m => m | Err _ => mkCredManager toy_config (hkdfEncryptor []) "" None false true end.
Definition first_world : World := mkWorld ∅ (mkCredFiles None None None) toy_manager (NewRotator true).
Definition started : World := (Initialize first_world (24 * Hour) (toy_draw 1) toy_save).1.
Definition toy_env (v : Z) : StepEnv := mkStepEnv (v * 24 * Hour) (toy_draw v) None None toy_save "".
Definition rotated : World := (Rotate started (fun _ => toy_env 2)).1.

Lemma phases_in_system n w p env :
  (forall i, save_ok (se_save (env i))) ->
  rtc rotation_system (w, [p]) ((rotate_run n w p env).1, [(rotate_run n w p env).2]).
Proof.
  revert w p env. induction n as [|n IH]; intros w p env Hio; [done|]. cbn. destruct (rotate_step w p (env 0%nat)) as [w' p'] eqn:Hs.
  eapply rtc_l; [by apply (sys_phase w [p] 0 p (env 0%nat) w' p')|]. apply IH. intros i. apply Hio.
Qed.


Lemma Rotate_outcome_witness :
  Creds_Version <$> Cred_Current started = Some 1 /\ Creds_Version <$> Cred_Current rotated = Some 2 /\
  exists w' res, Rotate started (fun _ => toy_env 2) = (w', PDone res) /\ ro_state (w_rotator w') = RotationComplete.
Proof.
  split_and!; [by vm_compute..|].
  destruct (Rotate_outcome toy_small started (fun _ => toy_env 2) 0
              (default (mkCredentials 0 0 0 EncryptionHybrid (new_credential toy_config 0 "" "")
                         (new_credential toy_config 0 "" "") ∅ None) (Cred_Current started)))
    as (w' & res & Hw & Hr); [by vm_compute|by vm_compute|by vm_compute|intros _; apply toy_save_ok|].
  exists w', res. split; [exact Hw|]. destruct res as [e|]; [|exact (proj1 Hr)]. exfalso.
  apply (f_equal snd) in Hw. revert Hw. by vm_compute.
Defined.

Lemma generated_for_all_witness :
  exists p, GetRoleCredential (default (mkCredentials 0 0 0 EncryptionHybrid (new_credential toy_config 0 "" "")
      (new_credential toy_config 0 "" "") ∅ None) (generate (cm_config toy_manager) 0 (toy_draw 1))) RoleAudit =
    Some (new_credential (cm_config toy_manager) 0 RoleAudit p) /\ Z.of_nat (length (bytes_of p)) = 32.
Proof.
  destruct (generated_for_all toy_config toy_key "node" toy_manager 0 (toy_draw 1)
              (default (mkCredentials 0 0 0 EncryptionHybrid (new_credential toy_config 0 "" "")
                (new_credential toy_config 0 "" "") ∅ None) (generate (cm_config toy_manager) 0 (toy_draw 1))) RoleAudit)
    as (p & Hp & Hl & _); [by vm_compute|intros i n bs [= <-]; apply length_replicate|by vm_compute|by vm_compute|].
  exists p. split; [exact Hp|]. rewrite Hl. by vm_compute.
Defined.

Lemma no_credentials_stuck_witness :
  (Rotate (Rotate first_world (fun _ => toy_env 1)).1 (fun _ => toy_env 2)).2 = PDone (Some (REInProgress RotationPreparing)).
Proof.
  destruct (no_credentials_stuck first_world (fun _ => toy_env 1) (fun _ => toy_env 2)) as [_ ->]; by vm_compute.
Defined.

(** The same identity, with the method of the configuration changed from the hybrid one:
    the file that was just written is not read. *)
Definition hkdf_manager : CredManager :=
  match NewCredManager (mkCredConfig EncryptionHKDF (7 * 24 * Hour) (5 * Minute) "/bib/credentials.enc" 32) "node" toy_key with
  | Ok m => m | Err _ => toy_manager end.
Definition switched : World := mkWorld ∅ (w_files rotated) hkdf_manager (NewRotator true).

Lemma hybrid_file_needs_hybrid : Storage_Load (cm_encryptor hkdf_manager) (w_files rotated) = Err ErrDecryptionFailed.
Proof. by vm_compute. Qed.

Lemma hybrid_reads_witness :
  hybrid_Decrypt [1] [2] (byte_h :: replicate 12 0 ++ seal [] [2] [5; 6])%list = Ok [5; 6].
Proof.
  destruct (hybrid_reads [1] [2] (replicate 12 0) (replicate 24 0) [5; 6]
    (byte_h :: replicate 12 0 ++ seal [] [2] [5; 6])%list (byte_x :: replicate 24 0 ++ seal [] [1] [5; 6])%list) as [Hh _]; 
    [done|done|cbn [length]; lia|done|done|exact Hh].
Defined.

(** A rotation that is cancelled while it waits leaves a current set no role has a
    usable password in. *)
Definition cancelled_env : StepEnv := mkStepEnv 5 (toy_draw 2) None (Some "context canceled") toy_save "".
Example cancelled_rotation :
  let w := (Rotate started (fun _ => cancelled_env)).1 in
  ro_state (w_rotator w) = RotationFailed /\
  GetPassword (w_heap w) (mkDualCredentialSet (cm_current (w_manager w)) None) RoleQuery = None.
Proof. by vm_compute. Qed.

Definition damaged : World := w_set_files first_world (mkCredFiles (Some [9; 9]) None None).
Lemma unreadable_credentials_replaced_witness :
  exists c, Storage_Load (cm_encryptor toy_manager) (w_files (Initialize damaged (24 * Hour) (toy_draw 1) toy_save).1) = Ok c /\
    Creds_Version c = 1.
Proof.
  destruct (unreadable_credentials_replaced toy_small damaged (24 * Hour) (toy_draw 1) toy_save
              (Initialize damaged (24 * Hour) (toy_draw 1) toy_save).1 ErrDecryptionFailed) as (c & Hl & Hv & _);
    [apply toy_save_ok|by vm_compute|by vm_compute|exists c; split; [exact Hl|exact Hv]].
Defined.
End witnesses.
