(* ===== verification/DbRoles.v ===== *)
(** * Roles of the database ([internal/storage/postgres/roles.go])

    The statements that create, grant to and drop the roles of the database, as the
    texts that are sent.  Go goes through a map in any order, so the orders of the roles
    and tables are arguments.  PostgreSQL is the interface [PgServer]: its laws say what
    each form of statement does to who can log in. *)
From stdpp Require Import base gmap strings list.
From Stdlib Require Import ZArith Lia Ascii.
From S2P Require Import Prelude GoStrings GoTime Domain Credentials.
Local Open Scope string_scope.
Local Open Scope bool_scope.

(** ** Definitions *)

Record RoleDefinition := mkRoleDefinition {
  RD_Name : string;
  RD_Description : string;
  RD_Tables : list (string * list string);
  RD_CanLogin : bool;
  RD_Inherit : bool;
}.

Definition GetRoleDefinitions : list RoleDefinition := [
  mkRoleDefinition RoleScrape "Role for scraping/ingestion jobs - can insert data"
    [("datasets", ["INSERT"]); ("chunks", ["INSERT"]); ("topics", ["SELECT"])] true false;
  mkRoleDefinition RoleQuery "Role for query operations - read-only access"
    [("datasets", ["SELECT"]); ("chunks", ["SELECT"]); ("topics", ["SELECT"]); ("jobs", ["SELECT"]); ("nodes", ["SELECT"])]
    true false;
  mkRoleDefinition RoleTransform "Role for transformation jobs - can read and write data"
    [("datasets", ["SELECT"; "INSERT"; "UPDATE"]); ("chunks", ["SELECT"; "INSERT"; "UPDATE"]); ("topics", ["SELECT"])] true false;
  mkRoleDefinition RoleAudit "Role for audit logging - can read and write audit log"
    [("audit_log", ["SELECT"; "INSERT"])] true false;
  mkRoleDefinition RoleReadOnly "Role for read-only cache/proxy operations"
    [("datasets", ["SELECT"]); ("chunks", ["SELECT"]); ("topics", ["SELECT"]); ("jobs", ["SELECT"]); ("nodes", ["SELECT"]);
     ("audit_log", ["SELECT"])] true false;
  mkRoleDefinition RoleAdmin "Admin role - can assume all other roles" [] true true
].
Definition getRoleDefinition (role : string) : option RoleDefinition :=
  List.find (fun d => RD_Name d =?= role) GetRoleDefinitions.

(** ** Texts *)

(** A line break. *)
Definition nl : string := String (ascii_of_nat 10) EmptyString.

Definition create_superuser (name password : string) : string :=
  "DO $$" ++ nl ++ "BEGIN" ++ nl ++ "    IF NOT EXISTS (SELECT FROM pg_roles WHERE rolname = '" ++ name ++ "') THEN" ++ nl ++
  "        CREATE ROLE " ++ name ++ " WITH LOGIN SUPERUSER PASSWORD '" ++ password ++ "';" ++ nl ++ "    END IF;" ++ nl ++
  "END" ++ nl ++ "$$;" ++ nl ++ nl.
Definition create_or_alter (name options password : string) : string :=
  "DO $$" ++ nl ++ "BEGIN" ++ nl ++ "    IF NOT EXISTS (SELECT FROM pg_roles WHERE rolname = '" ++ name ++ "') THEN" ++ nl ++
  "        CREATE ROLE " ++ name ++ " WITH LOGIN PASSWORD '" ++ password ++ "'" ++ options ++ ";" ++ nl ++ "    ELSE" ++ nl ++
  "        ALTER ROLE " ++ name ++ " WITH PASSWORD '" ++ password ++ "';" ++ nl ++ "    END IF;" ++ nl ++ "END" ++ nl ++
  "$$;" ++ nl ++ nl.
Definition job_options : string := " NOINHERIT NOCREATEDB NOCREATEROLE".
Definition grant_role (role member : string) : string := "GRANT " ++ role ++ " TO " ++ member ++ ";" ++ nl.
Definition revoke_all (objects role : string) : string :=
  "REVOKE ALL PRIVILEGES ON ALL " ++ objects ++ " IN SCHEMA public FROM " ++ role ++ ";" ++ nl.
Definition drop_role (role : string) : string := "DROP ROLE IF EXISTS " ++ role ++ ";" ++ nl.
Definition grant_table (perms : list string) (table role : string) : string :=
  "GRANT " ++ String.concat ", " perms ++ " ON " ++ table ++ " TO " ++ role ++ ";" ++ nl.

Inductive SqlStatement :=
| CreateSuperuser (name password : string)
| CreateOrAlter (name options password : string)
| GrantRole (role member : string)
| RevokeAll (objects role : string)
| DropRole (role : string).
#[export] Instance SqlStatement_dec : EqDecision SqlStatement.
Proof. solve_decision. Defined.
Definition statement_text (q : SqlStatement) : string :=
  match q with
  | CreateSuperuser name password => create_superuser name password
  | CreateOrAlter name options password => create_or_alter name options password
  | GrantRole role member => grant_role role member
  | RevokeAll objects role => revoke_all objects role
  | DropRole role => drop_role role
  end.

(** A text that is sent: remarks and statements. *)
Inductive Piece := Remark (s : string) | Statement (q : SqlStatement).
Definition piece_text (p : Piece) : string := match p with Remark s => s | Statement q => statement_text q end.
Definition script_text (l : list Piece) : string := foldr (fun p acc => piece_text p ++ acc) "" l.
Definition statements (l : list Piece) : list SqlStatement :=
  omap (fun p => match p with Statement q => Some q | Remark _ => None end) l.

(** [order], [granted]: the two passes over the map of roles. *)
Definition create_pieces (c : Credentials) (order granted : list string) : list Piece :=
  ([Remark ("-- bibd PostgreSQL Role Creation" ++ nl); Remark ("-- Generated by bibd - DO NOT EDIT MANUALLY" ++ nl ++ nl);
    Remark ("-- Superuser (internal use only)" ++ nl);
    Statement (CreateSuperuser (RC_Username (Creds_Superuser c)) (RC_Password (Creds_Superuser c)));
    Remark ("-- Admin role (can assume all other roles)" ++ nl);
    Statement (CreateOrAlter (RC_Username (Creds_Admin c)) "" (RC_Password (Creds_Admin c)))] ++
   concat (map (fun role =>
     match getRoleDefinition role, Creds_Roles c !! role with
     | Some def, Some cred =>
         [Remark ("-- " ++ RD_Description def ++ nl); Statement (CreateOrAlter (RC_Username cred) job_options (RC_Password cred))]
     | _, _ => []
     end) order) ++
   [Remark ("-- Grant role membership to admin for SET ROLE" ++ nl)] ++
   map (fun role => Statement (GrantRole role (RC_Username (Creds_Admin c)))) granted ++ [Remark nl])%list.
Definition GenerateCreateRolesSQL (c : Credentials) (order granted : list string) : string :=
  script_text (create_pieces c order granted).

(** [tables]: the order of the tables of each definition. *)
Definition GenerateGrantPermissionsSQL (tables : RoleDefinition -> list (string * list string)) : string :=
  "-- bibd Role Permissions" ++ nl ++ "-- Generated by bibd - DO NOT EDIT MANUALLY" ++ nl ++ nl ++
  foldr (fun def acc =>
    match RD_Tables def with
    | [] => acc
    | _ => "-- Permissions for " ++ RD_Name def ++ nl ++
           foldr (fun tp acc => grant_table tp.2 tp.1 (RD_Name def) ++ acc) "" (tables def) ++ nl ++ acc
    end) "" GetRoleDefinitions.

Definition drop_pieces (c : Credentials) (revoked dropped : list string) : list Piece :=
  ([Remark ("-- Drop old roles after rotation" ++ nl)] ++
   concat (map (fun role => [Statement (RevokeAll "TABLES" role); Statement (RevokeAll "SEQUENCES" role)]) revoked) ++
   [Remark nl] ++ map (fun role => Statement (DropRole role)) dropped ++
   [Statement (DropRole (RC_Username (Creds_Admin c)))])%list.
Definition GenerateDropRolesSQL (c : Credentials) (revoked dropped : list string) : string :=
  script_text (drop_pieces c revoked dropped).

(** ** The server *)

(** [login db r p]: whether [r] can log in with [p].  The names and passwords of a set
    that was generated need no quoting, so a text means its statements. *)
Class PgServer := {
  PgDb : Type;
  login : PgDb -> string -> string -> bool;
  has_role : PgDb -> string -> bool;
  exec_one : PgDb -> SqlStatement -> option PgDb;
  exec_superuser db r p db' : exec_one db (CreateSuperuser r p) = Some db' ->
    (forall x y, login db' x y = if (x =?= r) && negb (has_role db r) then y =?= p else login db x y) /\
    (forall x, has_role db' x = (x =?= r) || has_role db x);
  exec_create db r o p db' : exec_one db (CreateOrAlter r o p) = Some db' ->
    (forall x y, login db' x y = if x =?= r then y =?= p else login db x y) /\
    (forall x, has_role db' x = (x =?= r) || has_role db x);
  exec_grant db r m db' : exec_one db (GrantRole r m) = Some db' ->
    (forall x y, login db' x y = login db x y) /\ (forall x, has_role db' x = has_role db x);
  exec_revoke db o r db' : exec_one db (RevokeAll o r) = Some db' ->
    (forall x y, login db' x y = login db x y) /\ (forall x, has_role db' x = has_role db x);
  exec_drop db r db' : exec_one db (DropRole r) = Some db' ->
    (forall x y, login db' x y = if x =?= r then false else login db x y) /\
    (forall x, has_role db' x = if x =?= r then false else has_role db x);
}.

Section server.
Context `{PgServer}.

(** The statements of one text run in one transaction. *)
Fixpoint run_all (db : PgDb) (l : list SqlStatement) : option PgDb :=
  match l with [] => Some db | q :: l => db ← exec_one db q; run_all db l end.

Definition CreateRoles (db : PgDb) (c : Credentials) (order granted : list string) : option PgDb :=
  run_all db (statements (create_pieces c order granted)).
Definition DropRoles (db : PgDb) (c : Credentials) (revoked dropped : list string) : option PgDb :=
  run_all db (statements (drop_pieces c revoked dropped)).

(** ** Theorems *)

Lemma statements_app a b : statements (a ++ b) = (statements a ++ statements b)%list.
Proof. apply omap_app. Qed.

Lemma statements_each (f : string -> list Piece) l : statements (concat (map f l)) = concat (map (fun r => statements (f r)) l).
Proof. induction l as [|r l IH]; [done|]. cbn [map concat]. by rewrite statements_app, IH. Qed.

Lemma statements_map (f : string -> SqlStatement) l : statements (map (fun r => Statement (f r)) l) = map f l.
Proof. induction l as [|r l IH]; [done|]. cbn [map]. change (statements _) with (f r :: statements (map (fun r => Statement (f r)) l)). by rewrite IH. Qed.

Lemma run_all_app db a b db' : run_all db (a ++ b) = Some db' <-> exists db1, run_all db a = Some db1 /\ run_all db1 b = Some db'.
Proof.
  revert db. induction a as [|q a IH]; intros db; cbn.
  - split; [eauto|]. by intros (? & [= <-] & ?).
  - split.
    + intros (d & Hd & Hr)%bind_Some. apply IH in Hr as (d1 & Hd1 & Hb). exists d1. by rewrite Hd.
    + intros (d1 & (d & -> & Hd)%bind_Some & Hb). cbn. apply IH. eauto.
Qed.

(** Statements that leave a role as it is. *)
Definition spares_role (r : string) (q : SqlStatement) : Prop :=
  match q with
  | CreateSuperuser x _ => x <> r
  | CreateOrAlter x _ _ => x <> r
  | GrantRole _ _ | RevokeAll _ _ => True
  | DropRole x => x <> r
  end.

Lemma exec_spares db q db' r y :
  exec_one db q = Some db' -> spares_role r q -> login db' r y = login db r y /\ has_role db' r = has_role db r.
Proof.
  destruct q as [x p|x o p|x m|o x|x]; cbn; intros Hq Hs;
    [apply exec_superuser in Hq as [Hl Hh]|apply exec_create in Hq as [Hl Hh]|apply exec_grant in Hq as [Hl Hh]|
     apply exec_revoke in Hq as [Hl Hh]|apply exec_drop in Hq as [Hl Hh]]; rewrite Hl, Hh; try done;
    by rewrite bool_decide_eq_false_2 by congruence.
Qed.

Lemma run_spares db l db' r y :
  run_all db l = Some db' -> Forall (spares_role r) l -> login db' r y = login db r y /\ has_role db' r = has_role db r.
Proof.
  revert db. induction l as [|q l IH]; intros db; cbn; [by intros [= <-]|].
  intros (d & Hd & Hr)%bind_Some [Hq Hl]%Forall_cons. destruct (exec_spares _ _ _ r y Hd Hq) as [<- <-]. by apply IH.
Qed.

(** The names of the sets the manager makes. *)
Record standard (c : Credentials) : Prop := {
  st_superuser : RC_Username (Creds_Superuser c) = "bibd_superuser";
  st_admin : RC_Username (Creds_Admin c) = RoleAdmin;
  st_roles r rc : Creds_Roles c !! r = Some rc -> r ∈ job_roles /\ RC_Username rc = r;
  st_dom r : r ∈ job_roles -> is_Some (Creds_Roles c !! r);
}.

Lemma role_credentials_names cfg now draw i roles acc m r rc :
  role_credentials cfg now draw i roles acc = Some m -> m !! r = Some rc ->
  acc !! r = Some rc \/ r ∈ roles /\ RC_Username rc = r.
Proof.
  revert i acc. induction roles as [|x roles IH]; intros i acc; cbn; [intros [= <-]; auto|].
  intros (p & _ & Hm)%bind_Some Hr. destruct (IH _ _ Hm Hr) as [Ha|[? ?]]; [|right; split; [by right|done]].
  destruct (decide (x = r)) as [->|Hx]; [|rewrite lookup_insert_ne in Ha by done; auto].
  rewrite lookup_insert_eq in Ha. injection Ha as <-. right. split; [by left|done].
Qed.

Lemma generate_standard cfg now draw c : generate cfg now draw = Some c -> standard c.
Proof.
  unfold generate. intros (a & _ & (b & _ & (m & Hm & [= <-])%bind_Some)%bind_Some)%bind_Some. split; cbn; try done.
  - intros r rc Hr. destruct (role_credentials_names _ _ _ _ _ _ _ _ _ Hm Hr) as [?|?]; [done|auto].
  - intros r Hr. eapply role_credentials_dom; [exact Hm|auto].
Qed.

Definition no_creation (r : string) (q : SqlStatement) : Prop :=
  match q with CreateSuperuser x _ => x <> r | CreateOrAlter x _ _ => x <> r | _ => True end.

Lemma run_locked_out db l db' r y :
  run_all db l = Some db' -> Forall (no_creation r) l -> login db r y = false \/ DropRole r ∈ l -> login db' r y = false.
Proof.
  revert db. induction l as [|q l IH]; intros db; cbn; [by intros [= <-] _ [?|?%elem_of_nil]|].
  intros (d & Hd & Hr)%bind_Some [Hq Hl]%Forall_cons Ho. apply (IH d Hr Hl).
  destruct (decide (q = DropRole r)) as [->|Hne].
  - left. apply exec_drop in Hd as [-> _]. by rewrite bool_decide_eq_true_2.
  - destruct Ho as [Hf|[?|?]%elem_of_cons]; [|done|by right]. left.
    destruct q as [x p|x o p|x m|o x|x]; cbn in Hq;
      [apply exec_superuser in Hd as [-> _]|apply exec_create in Hd as [-> _]|apply exec_grant in Hd as [-> _]|
       apply exec_revoke in Hd as [-> _]|apply exec_drop in Hd as [-> _]];
      try case_bool_decide; cbn; congruence.
Qed.

Lemma drop_statements c revoked dropped :
  statements (drop_pieces c revoked dropped) =
  (concat (map (fun r => [RevokeAll "TABLES" r; RevokeAll "SEQUENCES" r]) revoked) ++ map DropRole dropped ++
   [DropRole (RC_Username (Creds_Admin c))])%list.
Proof.
  unfold drop_pieces. rewrite !statements_app, statements_each, (statements_map DropRole). done.
Qed.

(** Whatever the roles were before, after the clean-up of the old set of a rotation no
    role of the database is left that could log in: old and new roles have the same
    names. *)
Theorem cleanup_drops_new_roles db new old order granted revoked dropped d1 d2 r y :
  standard new -> standard old -> (forall x, x ∈ job_roles -> x ∈ dropped) ->
  CreateRoles db new order granted = Some d1 -> DropRoles d1 old revoked dropped = Some d2 -> DBRole_IsValid r = true ->
  login d2 r y = false.
Proof.
  intros _ Hold Hdrop _ Hd Hr. unfold DropRoles in Hd. rewrite drop_statements in Hd.
  eapply run_locked_out; [exact Hd| |right].
  - rewrite !Forall_app. split_and!; [|by apply Forall_map, Forall_true|by repeat constructor].
    clear. induction revoked; [constructor|]. by repeat constructor.
  - rewrite !elem_of_app, (st_admin _ Hold). right. unfold DBRole_IsValid in Hr. apply bool_decide_eq_true_1 in Hr.
    destruct (decide (r = RoleAdmin)) as [->|Hne]; [right; by left|left].
    apply list_elem_of_fmap_2, Hdrop. unfold job_roles. set_solver.
Qed.

Lemma run_created db l db' r p o y :
  run_all db l = Some db' -> CreateOrAlter r o p ∈ l ->
  Forall (fun q => spares_role r q \/ q = CreateOrAlter r o p) l -> login db' r y = (y =?= p).
Proof.
  assert (Hrun : forall l db, run_all db l = Some db' -> Forall (fun q => spares_role r q \/ q = CreateOrAlter r o p) l ->
    CreateOrAlter r o p ∈ l \/ login db r y = (y =?= p) -> login db' r y = (y =?= p)); [|eauto].
  clear. induction l as [|q l IH]; intros db; cbn; [by intros [= <-] _ [?%elem_of_nil|?]|].
  intros (d & Hd & Hr)%bind_Some [Hq Hl]%Forall_cons Ho. apply (IH d Hr Hl).
  destruct Hq as [Hs| ->].
  - destruct (exec_spares _ _ _ r y Hd Hs) as [-> _]. destruct Ho as [[<-|?]%elem_of_cons|?]; auto. by destruct Hs.
  - right. apply exec_create in Hd as [-> _]. by rewrite bool_decide_eq_true_2.
Qed.

Definition created (c : Credentials) (role : string) : list SqlStatement :=
  match getRoleDefinition role, Creds_Roles c !! role with
  | Some _, Some cred => [CreateOrAlter (RC_Username cred) job_options (RC_Password cred)]
  | _, _ => []
  end.

Lemma create_statements c order granted :
  statements (create_pieces c order granted) =
  ([CreateSuperuser (RC_Username (Creds_Superuser c)) (RC_Password (Creds_Superuser c));
    CreateOrAlter (RC_Username (Creds_Admin c)) "" (RC_Password (Creds_Admin c))] ++
   concat (map (created c) order) ++ map (fun r => GrantRole r (RC_Username (Creds_Admin c))) granted)%list.
Proof.
  unfold create_pieces. rewrite !statements_app, statements_each, (statements_map (fun r => GrantRole r _)). cbn [app statements omap list_omap].
  rewrite (app_nil_r (map _ granted)). do 4 f_equal. apply map_ext. intros r. unfold created.
  by destruct (getRoleDefinition r), (Creds_Roles c !! r).
Qed.

Lemma job_roles_names r : r ∈ job_roles -> r <> RoleAdmin /\ r <> "bibd_superuser".
Proof. intros Hr. repeat (apply elem_of_cons in Hr as [->|Hr]; [done|]). by apply elem_of_nil in Hr. Qed.

Lemma created_job c role : standard c -> role ∈ job_roles -> exists rc, Creds_Roles c !! role = Some rc /\
  created c role = [CreateOrAlter role job_options (RC_Password rc)].
Proof.
  intros Hc Hr. destruct (st_dom _ Hc role Hr) as [rc Hrc]. exists rc. split; [done|]. unfold created. rewrite Hrc.
  destruct (st_roles _ Hc _ _ Hrc) as [_ ->].
  repeat (apply elem_of_cons in Hr as [->|Hr]; [done|]). by apply elem_of_nil in Hr.
Qed.

Lemma created_elem c x q : standard c -> q ∈ created c x ->
  exists rc, x ∈ job_roles /\ Creds_Roles c !! x = Some rc /\ q = CreateOrAlter x job_options (RC_Password rc).
Proof.
  intros Hc. unfold created. destruct (getRoleDefinition x); [|by intros ?%elem_of_nil].
  destruct (Creds_Roles c !! x) as [rc|] eqn:E; [|by intros ?%elem_of_nil]. intros ->%list_elem_of_singleton.
  destruct (st_roles _ Hc _ _ E) as [? ->]. by exists rc.
Qed.

(** From the moment the roles of a new set are created, a role logs in with the new
    password and no other: the old one is refused before the grace period begins, not
    after it.  The password of a superuser that is there is never changed. *)
Theorem new_passwords_at_once db c order granted d1 :
  standard c -> (forall r, r ∈ job_roles -> r ∈ order) -> CreateRoles db c order granted = Some d1 ->
  (forall r rc y, DBRole_IsValid r = true -> GetRoleCredential c r = Some rc -> login d1 r y = (y =?= RC_Password rc)) /\
  (has_role db "bibd_superuser" = true -> forall y, login d1 "bibd_superuser" y = login db "bibd_superuser" y).
Proof.
  intros Hc Ho Hd. unfold CreateRoles in Hd. rewrite create_statements, (st_superuser _ Hc), (st_admin _ Hc) in Hd.
  set (rest := (concat (map (created c) order) ++ map (fun r => GrantRole r RoleAdmin) granted)%list).
  assert (Hall : forall (P : SqlStatement -> Prop), 
    (forall x rc, x ∈ job_roles -> Creds_Roles c !! x = Some rc -> P (CreateOrAlter x job_options (RC_Password rc))) ->
    (forall r m, P (GrantRole r m)) -> Forall P rest).
  { intros P H3 H4. apply Forall_app. split; apply Forall_forall.
    - intros q Hq. apply list_elem_of_In, in_concat in Hq as (l & Hl & Hq). apply in_map_iff in Hl as (x & <- & Hx).
      apply list_elem_of_In in Hq. apply (created_elem _ _ _ Hc) in Hq as (rc & Hx' & Hrc & ->). by apply H3.
    - intros q (r & -> & _)%list_elem_of_fmap. apply H4. }
  split.
  - intros r rc y Hr Hg. unfold GetRoleCredential in Hg. destruct (r =?= RoleAdmin) eqn:Er.
    + apply bool_decide_eq_true_1 in Er as ->. injection Hg as <-. eapply run_created; [exact Hd|by right; left|].
      constructor; [by left|]. constructor; [by right|]. apply Hall; [|by left].
      intros x rc Hx _. left. by apply job_roles_names.
    + apply bool_decide_eq_false_1 in Er. assert (Hj : r ∈ job_roles).
      { unfold DBRole_IsValid in Hr. apply bool_decide_eq_true_1 in Hr. unfold job_roles. set_solver. }
      eapply (run_created _ _ _ _ _ job_options); [exact Hd| |].
      * apply elem_of_app. right. apply elem_of_app. left. apply list_elem_of_In, in_concat.
        destruct (created_job c r Hc Hj) as (rc' & Hrc' & Hcr). rewrite Hg in Hrc'. injection Hrc' as <-.
        exists (created c r). split; [|rewrite Hcr; by left]. apply in_map, list_elem_of_In. by apply Ho.
      * destruct (job_roles_names r Hj). constructor; [by left; cbn|]. constructor; [by left; cbn|]. apply Hall; [|by left].
        intros x rc' Hx Hrc'. destruct (decide (x = r)) as [->|]; [right; congruence|by left].
  - intros Hs y. cbn [app run_all] in Hd. apply bind_Some in Hd as (d & Hd & Hr).
    apply exec_superuser in Hd as [Hl _]. specialize (Hl "bibd_superuser" y). rewrite Hs, andb_false_r in Hl.
    rewrite <- Hl. eapply (run_spares d (CreateOrAlter RoleAdmin "" _ :: rest)); [exact Hr|].
    constructor; [done|]. apply Hall; [|done].
    intros x rc Hx _. by apply job_roles_names.
Qed.
End server.

(** ** Privileges *)

Definition granted_on (table perm : string) (d : RoleDefinition) : bool :=
  existsb (fun tp => (tp.1 =?= table) && bool_decide (perm ∈ tp.2)) (RD_Tables d).

(** No role may change or delete a record of the audit log, only one may add to it, and
    none may delete anything. *)
Theorem audit_log_append_only d :
  In d GetRoleDefinitions ->
  granted_on "audit_log" "UPDATE" d = false /\ (forall t, granted_on t "DELETE" d = false) /\
  (granted_on "audit_log" "INSERT" d = true -> RD_Name d = RoleAudit).
Proof.
  intros Hd. assert (Hno : forall t, granted_on t "DELETE" d = false).
  { intros t. unfold granted_on. apply Bool.not_true_iff_false. intros (tp & Ht & Hp)%existsb_exists.
    apply andb_prop in Hp as [_ Hp]. revert Hp.
    by repeat (destruct Hd as [<-|Hd]; [cbn in Ht; repeat (destruct Ht as [<-|Ht]; [by vm_compute|]); done|]). }
  by repeat (destruct Hd as [<-|Hd]; [split_and!; [by vm_compute|exact Hno|by vm_compute]|]).
Qed.

(** ** Witnesses *)

Section table.
Implicit Types (db : gmap string string) (r p x y : string).
Definition knows (db : gmap string string) (r p : string) : bool := bool_decide (db !! r = Some p).
Definition holds (db : gmap string string) (r : string) : bool := bool_decide (is_Some (db !! r)).

Lemma knows_insert db r p x y : knows (<[r := p]> db) x y = if x =?= r then y =?= p else knows db x y.
Proof.
  unfold knows. destruct (decide (x = r)) as [->|Hx].
  - rewrite lookup_insert_eq, (bool_decide_eq_true_2 (r = r)) by done. apply bool_decide_ext. split; congruence.
  - by rewrite lookup_insert_ne, (bool_decide_eq_false_2 (x = r)) by done.
Qed.
Lemma holds_insert db r p x : holds (<[r := p]> db) x = (x =?= r) || holds db x.
Proof.
  unfold holds. destruct (decide (x = r)) as [->|Hx].
  - by rewrite lookup_insert_eq, !bool_decide_eq_true_2 by done.
  - by rewrite lookup_insert_ne, (bool_decide_eq_false_2 (x = r)) by done.
Qed.
Lemma knows_delete db r x y : knows (delete r db) x y = if x =?= r then false else knows db x y.
Proof.
  unfold knows. destruct (decide (x = r)) as [->|Hx].
  - by rewrite lookup_delete_eq, (bool_decide_eq_true_2 (r = r)) by done.
  - by rewrite lookup_delete_ne, (bool_decide_eq_false_2 (x = r)) by done.
Qed.
Lemma holds_delete db r x : holds (delete r db) x = if x =?= r then false else holds db x.
Proof.
  unfold holds. destruct (decide (x = r)) as [->|Hx].
  - by rewrite lookup_delete_eq, (bool_decide_eq_true_2 (r = r)) by done.
  - by rewrite lookup_delete_ne, (bool_decide_eq_false_2 (x = r)) by done.
Qed.
End table.

(** A server that knows the passwords of its roles. *)
Definition password_table : PgServer.
Proof.
  refine {| PgDb := gmap string string; login := knows; has_role := holds;
            exec_one db q := Some match q with
              | CreateSuperuser r p => if holds db r then db else <[r := p]> db
              | CreateOrAlter r _ p => <[r := p]> db
              | DropRole r => delete r db
              | _ => db
              end |}; [|intros db r o p db' [= <-]; split; intros; [apply knows_insert|apply holds_insert]|by intros db r m db' [= <-]|
    by intros db o r db' [= <-]|intros db r db' [= <-]; split; intros; [apply knows_delete|apply holds_delete]].
  intros db r p db' [= <-]. destruct (holds db r) eqn:Hr; split; intros.
  - by rewrite andb_false_r.
  - case_bool_decide; [by subst|done].
  - rewrite knows_insert. by rewrite andb_true_r.
  - apply holds_insert.
Defined.

Section witnesses.
#[local] Existing Instance password_table.

Definition set_of (k : Z) : Credentials :=
  default (mkCredentials 0 0 0 EncryptionHybrid (new_credential toy_config 0 "" "") (new_credential toy_config 0 "" "") ∅ None)
    (generate toy_config 0 (toy_draw k)).
Lemma set_of_standard k : standard (set_of k).
Proof.
  unfold set_of. destruct (generate toy_config 0 (toy_draw k)) as [c|] eqn:Hg; [by eapply generate_standard|done].
Qed.

Definition in_use : gmap string string := Eval vm_compute in default ∅ (CreateRoles (∅ : gmap string string) (set_of 1) job_roles job_roles).
Definition renewed : gmap string string := Eval vm_compute in default ∅ (CreateRoles in_use (set_of 2) job_roles job_roles).
Definition cleaned : gmap string string := Eval vm_compute in default ∅ (DropRoles renewed (set_of 1) job_roles job_roles).

Lemma cleanup_drops_new_roles_witness : forall y, login cleaned RoleQuery y = false.
Proof.
  intros y. apply (@cleanup_drops_new_roles password_table in_use (set_of 2) (set_of 1) job_roles job_roles job_roles job_roles renewed);
    [apply set_of_standard|apply set_of_standard|done|vm_compute; reflexivity|vm_compute; reflexivity|reflexivity].
Defined.

Lemma new_passwords_at_once_witness :
  (forall rc, GetRoleCredential (set_of 1) RoleQuery = Some rc -> login renewed RoleQuery (RC_Password rc) = false) /\
  forall y, login renewed "bibd_superuser" y = login in_use "bibd_superuser" y.
Proof.
  destruct (@new_passwords_at_once password_table in_use (set_of 2) job_roles job_roles renewed) as [Hl Hs];
    [apply set_of_standard|done|vm_compute; reflexivity|]. split; [|by apply Hs; vm_compute].
  intros rc Hrc. destruct (GetRoleCredential (set_of 2) RoleQuery) as [rc'|] eqn:E; [|by vm_compute in E].
  rewrite (Hl RoleQuery rc' _ eq_refl E). vm_compute in Hrc, E. injection Hrc as <-. injection E as <-. by vm_compute.
Defined.
End witnesses.
