(* ===== verification/StorageOpen.v ===== *)
(** * Opening storage ([internal/storage/mode.go], [open.go], [context.go])

    Which modes a backend allows, the opening of the database and of the blobs with
    what is undone when a step fails, the key the blobs are encrypted with, and the
    comment that tags statements.  An opening is the list of what it did and its
    result; whether each step succeeds is an argument. *)
From stdpp Require Import base gmap strings list.
From Stdlib Require Import ZArith Lia Ascii.
From S2P Require Import Prelude GoStrings GoTime Domain Backup.
Local Open Scope string_scope.
Local Open Scope bool_scope.

(** ** Modes ([mode.go]) *)

Definition NodeModeFull : string := "full".
Definition NodeModeSelective : string := "selective".
Definition NodeModeProxy : string := "proxy".
Definition NodeMode_IsValid (m : string) : bool := bool_decide (m ∈ [NodeModeFull; NodeModeSelective; NodeModeProxy]).

Record ModeEnforcement := mkModeEnforcement {
  ME_Valid : bool;
  ME_OriginalMode : string;
  ME_EffectiveMode : string;
  ME_Backend : string;
  ME_Downgraded : bool;
  ME_Warning : string;
  ME_Error : string;
  ME_IsTrustedStorage : bool;
}.

Definition full_warning : string :=
  "mode 'full' requires PostgreSQL backend; SQLite cannot be an authoritative data source. " ++
  "Downgrading to 'selective' mode. The node will operate in cache-only mode and cannot " ++
  "distribute data to other peers. To use full mode, configure PostgreSQL backend.".
Definition selective_warning : string :=
  "SQLite backend in selective mode operates as cache-only; " ++
  "data is not persisted authoritatively and cannot be distributed to peers".

Definition EnforceMode (mode backend : string) : ModeEnforcement :=
  if backend =?= BackendSQLite then
    if mode =?= NodeModeFull then mkModeEnforcement true mode NodeModeSelective backend true full_warning "" false
    else if mode =?= NodeModeSelective then mkModeEnforcement true mode mode backend false selective_warning "" false
    else mkModeEnforcement true mode mode backend false "" "" false
  else if backend =?= BackendPostgres then mkModeEnforcement true mode mode backend false "" "" true
  else mkModeEnforcement false mode mode backend false "" ("unknown storage backend: " ++ backend) false.

Inductive ModeChangeError := NotWithSQLite | ModeChangeRestartRequired (current requested : string).
Definition ValidateModeChange (current requested backend : string) : option ModeChangeError :=
  if current =?= requested then None
  else if (backend =?= BackendSQLite) && (requested =?= NodeModeFull) then Some NotWithSQLite
  else Some (ModeChangeRestartRequired current requested).
Definition IsModeChangeRestartRequired (e : ModeChangeError) : bool :=
  match e with ModeChangeRestartRequired _ _ => true | NotWithSQLite => false end.

Definition bool_text (b : bool) : string := if b then "true" else "false".
Definition PeerStorageMetadata (backend mode : string) : gmap string string :=
  let e := EnforceMode mode backend in
  {["storage_backend" := backend; "storage_mode" := ME_EffectiveMode e; "trusted_storage" := bool_text (ME_IsTrustedStorage e);
    "authoritative" := bool_text (ME_IsTrustedStorage e && (mode =?= NodeModeFull));
    "can_distribute" := bool_text (ME_IsTrustedStorage e); "cache_only" := bool_text (backend =?= BackendSQLite)]}.

(** ** Opening ([open.go], [Config.Validate]) *)

Record ModeBackendError := mkModeBackendError {
  MB_Mode : string;
  MB_Backend : string;
  MB_CanDowngrade : bool;
  MB_SuggestedMode : string;
}.
Definition ValidateModeBackend (mode backend : string) : option ModeBackendError :=
  if (mode =?= "full") && (backend =?= BackendSQLite) then Some (mkModeBackendError mode backend true "selective") else None.

Record MigrationsConfig := mkMigrationsConfig {
  MC_VerifyChecksums : bool;
  MC_OnChecksumMismatch : string;
  MC_LockTimeoutSeconds : Z;
}.
Definition DefaultMigrationsConfig : MigrationsConfig := mkMigrationsConfig true "fail" 15.

(** The fields of the configuration that are read. *)
Record StorageConfig := mkStorageConfig {
  SC_Backend : string;
  SC_Advanced : bool;
  SC_Managed : bool;
  SC_Migrations : MigrationsConfig;
  SC_LocalEncryption : bool;
  SC_S3Encryption : bool;
  SC_LogReads : bool;
  SC_LogWrites : bool;
  SC_LogDeletes : bool;
}.
Definition Config_Validate (c : StorageConfig) : bool :=
  if SC_Backend c =?= BackendSQLite then true
  else if SC_Backend c =?= BackendPostgres then negb (SC_Advanced c && SC_Managed c)
  else false.

(** What an opening does, in order. *)
Inductive OpenEvent :=
| StoreOpened (backend : string)
| MigrationsRun (cfg : MigrationsConfig)
| StoreClosed
| BlobsOpened (key : option (list Z)) (audited : bool)
| BlobsStarted
| BlobsClosed.

Inductive OpenError :=
| InvalidConfig
| ModeRefused (e : ModeBackendError)
| FactoryMissing
| StoreFailed
| MigrationsFailed
| BlobsMissing
| BlobsFailed
| StartFailed.

(** A factory may be missing; the others say whether a step succeeds and whether the
    manager of the blobs has the methods that are asked for. *)
Record OpenEnv := mkOpenEnv {
  oe_factory : string -> option bool;
  oe_migrates : MigrationsConfig -> bool;
  oe_blobs : option bool;
  oe_has_start : bool;
  oe_starts : bool;
  oe_has_close : bool;
  oe_random : option (list Z);
}.

Definition Open (env : OpenEnv) (cfg : StorageConfig) (nodeMode : string) : list OpenEvent * result OpenError string :=
  if negb (Config_Validate cfg) then ([], Err InvalidConfig)
  else match ValidateModeBackend nodeMode (SC_Backend cfg) with
       | Some e => ([], Err (ModeRefused e))
       | None =>
           match oe_factory env (SC_Backend cfg) with
           | None => ([], Err FactoryMissing)
           | Some false => ([], Err StoreFailed)
           | Some true =>
               let m := if (MC_LockTimeoutSeconds (SC_Migrations cfg) =? 0)%Z then DefaultMigrationsConfig else SC_Migrations cfg in
               if oe_migrates env m then ([StoreOpened (SC_Backend cfg); MigrationsRun m], Ok (SC_Backend cfg))
               else ([StoreOpened (SC_Backend cfg); MigrationsRun m; StoreClosed], Err MigrationsFailed)
           end
       end.

(** The identifier's bytes, filled up to 32 with random ones, or with zeros where the
    random source fails. *)
Definition deriveEncryptionKey (nodeID : string) (random : option (list Z)) : list Z :=
  let id := take 32 (map (fun c => Z.of_N (N_of_ascii c)) (bytes_of nodeID)) in
  if (String.length nodeID <? 32)%nat then (id ++ default (replicate (32 - length id) 0%Z) random)%list else id.

Definition OpenWithBlob (env : OpenEnv) (cfg : StorageConfig) (nodeID nodeMode : string)
    : list OpenEvent * result OpenError string :=
  match Open env cfg nodeMode with
  | (tr, Err e) => (tr, Err e)
  | (tr, Ok store) =>
      let key := if SC_LocalEncryption cfg || SC_S3Encryption cfg then Some (deriveEncryptionKey nodeID (oe_random env)) else None in
      let audited := SC_LogWrites cfg || SC_LogDeletes cfg || SC_LogReads cfg in
      match oe_blobs env with
      | None => ((tr ++ [StoreClosed])%list, Err BlobsMissing)
      | Some false => ((tr ++ [StoreClosed])%list, Err BlobsFailed)
      | Some true =>
          let tr := (tr ++ [BlobsOpened key audited])%list in
          if oe_has_start env then
            if oe_starts env then ((tr ++ [BlobsStarted])%list, Ok store)
            else ((tr ++ (if oe_has_close env then [BlobsClosed] else []) ++ [StoreClosed])%list, Err StartFailed)
          else (tr, Ok store)
      end
  end.

(** ** Tags of statements ([context.go]) *)

Record OperationContext := mkOperationContext {
  OC_OperationID : string;
  OC_JobID : string;
  OC_Role : string;
  OC_Source : string;
  OC_Actor : string;
  OC_StartTime : Time;
  OC_Metadata : gmap string string;
}.
Definition NewOperationContext (role source uuid : string) (now : Time) : OperationContext :=
  mkOperationContext uuid "" role source "" now ∅.
Definition WithJobID (oc : OperationContext) (job : string) : OperationContext :=
  mkOperationContext (OC_OperationID oc) job (OC_Role oc) (OC_Source oc) (OC_Actor oc) (OC_StartTime oc) (OC_Metadata oc).
Definition WithActor (oc : OperationContext) (actor : string) : OperationContext :=
  mkOperationContext (OC_OperationID oc) (OC_JobID oc) (OC_Role oc) (OC_Source oc) actor (OC_StartTime oc) (OC_Metadata oc).
Definition WithMetadata (oc : OperationContext) (key value : string) : OperationContext :=
  mkOperationContext (OC_OperationID oc) (OC_JobID oc) (OC_Role oc) (OC_Source oc) (OC_Actor oc) (OC_StartTime oc)
    (<[key := value]> (OC_Metadata oc)).
(** What a context carries, and the one that is made up where there is none. *)
Definition MustGetOperationContext (ctx : option OperationContext) (uuid : string) (now : Time) : OperationContext :=
  match ctx with Some oc => oc | None => NewOperationContext "bibd_readonly" "unknown" uuid now end.

Definition QueryComment (oc : OperationContext) : string :=
  "/* " ++ ("op_id:" ++ OC_OperationID oc) ++ (if OC_JobID oc =?= "" then "" else " job_id:" ++ OC_JobID oc) ++
  (" role:" ++ OC_Role oc) ++ (" source:" ++ OC_Source oc) ++ (if OC_Actor oc =?= "" then "" else " actor:" ++ OC_Actor oc) ++
  " */".

(** What follows the comment a statement opens with: PostgreSQL's comments nest. *)
Fixpoint after_comment (depth : nat) (s : list ascii) : option (list ascii) :=
  match s with
  | "*"%char :: ("/"%char :: r) => if (depth <=? 1)%nat then Some r else after_comment (depth - 1)%nat r
  | "/"%char :: ("*"%char :: r) => after_comment (S depth) r
  | _ :: r => after_comment depth r
  | [] => None
  end.
(** The statement that is run, of a tagged one. *)
Definition statement_run (s : string) : option string :=
  match bytes_of s with
  | "/"%char :: "*"%char :: r => str_of <$> after_comment 1 r
  | _ => Some s
  end.
Definition slashless (s : string) : bool := forallb (fun c => negb (c =?= "/"%char)) (bytes_of s).

(** ** Theorems *)

(** The two checks of a mode agree: opening refuses what the other one downgrades, and
    neither looks at whether the mode is one of the three. *)
Theorem mode_checks_agree mode backend :
  ME_Valid (EnforceMode mode backend) = true ->
  (ValidateModeBackend mode backend <> None <-> ME_Downgraded (EnforceMode mode backend) = true) /\
  (ME_IsTrustedStorage (EnforceMode mode backend) = true <-> backend = BackendPostgres) /\
  (ME_EffectiveMode (EnforceMode mode backend) = NodeModeFull -> backend = BackendPostgres).
Proof.
  unfold EnforceMode, ValidateModeBackend. change "full" with NodeModeFull.
  destruct (decide (backend = BackendSQLite)) as [->|Hs]; [rewrite (bool_decide_eq_true_2 (BackendSQLite = BackendSQLite)) by done|
    rewrite (bool_decide_eq_false_2 (backend = BackendSQLite)) by done].
  - intros _. destruct (decide (mode = NodeModeFull)) as [->|Hf]; [done|]. rewrite (bool_decide_eq_false_2 (mode = NodeModeFull)) by done.
    case_bool_decide; cbn; split_and!; done.
  - rewrite andb_false_r. destruct (decide (backend = BackendPostgres)) as [->|Hp]; [done|].
    by rewrite (bool_decide_eq_false_2 (backend = BackendPostgres)) by done.
Qed.

Definition opened (tr : list OpenEvent) : nat := length (List.filter (fun e => match e with StoreOpened _ => true | _ => false end) tr).
Definition closed (tr : list OpenEvent) : nat := length (List.filter (fun e => match e with StoreClosed => true | _ => false end) tr).
Definition blobs_opened (tr : list OpenEvent) : nat :=
  length (List.filter (fun e => match e with BlobsOpened _ _ => true | _ => false end) tr).
Definition blobs_closed (tr : list OpenEvent) : nat :=
  length (List.filter (fun e => match e with BlobsClosed => true | _ => false end) tr).


(** *** Keys of blobs *)

Lemma length_bytes_of s : length (bytes_of s) = String.length s.
Proof. induction s; cbn; congruence. Qed.

(** The key the blobs are encrypted with is the same at every start exactly where
    the identifier of the node has 32 bytes or more; it is then the first 32 bytes of
    that identifier, which the node announces to its peers. *)
Theorem blob_key_stable nodeID :
  ((String.length nodeID < 32)%nat <->
   exists r1 r2 : list Z, length r1 = (32 - String.length nodeID)%nat /\ length r2 = (32 - String.length nodeID)%nat /\
     deriveEncryptionKey nodeID (Some r1) <> deriveEncryptionKey nodeID (Some r2)) /\
  ((32 <= String.length nodeID)%nat -> forall random,
     deriveEncryptionKey nodeID random = map (fun c => Z.of_N (N_of_ascii c)) (take 32 (bytes_of nodeID))).
Proof.
  unfold deriveEncryptionKey. destruct (Nat.ltb_spec (String.length nodeID) 32) as [Hl|Hl]; (split; [split|]).
  - intros _. exists (replicate (32 - String.length nodeID)%nat 0%Z), (replicate (32 - String.length nodeID)%nat 1%Z).
    rewrite !length_replicate. split_and!; [done..|]. intros Heq. apply (inj (app _)) in Heq. cbn [default] in Heq.
    destruct (32 - String.length nodeID)%nat eqn:He; [lia|done].
  - done.
  - lia.
  - lia.
  - intros (r1 & r2 & _ & _ & Hne). done.
  - intros _ random. by rewrite firstn_map.
Qed.

(** *** Tags *)

Lemma after_comment_slashless l depth rest :
  forallb (fun c => negb (c =?= "/"%char)) l = true ->
  after_comment depth (l ++ " "%char :: rest) = after_comment depth (" "%char :: rest).
Proof.
  induction l as [|c l IH]; [done|]. cbn [forallb app]. intros [Hc Hl]%andb_true_iff. specialize (IH Hl).
  apply negb_true_iff, bool_decide_eq_false_1 in Hc.
  assert (Hnext : forall r, (l ++ " "%char :: rest)%list <> "/"%char :: r).
  { intros r. destruct l as [|d l]; [done|]. cbn in *. intros [= -> _]. by rewrite bool_decide_eq_true_2 in Hl. }
  rewrite <- IH. destruct (l ++ " "%char :: rest)%list as [|d r] eqn:E.
  - destruct l; done.
  - assert (d <> "/"%char) by (intros ->; by apply (Hnext r)).
    destruct c as [[] [] [] [] [] [] [] []]; try done; destruct d as [[] [] [] [] [] [] [] []]; done.
Qed.

Lemma slashless_append s t : slashless (s ++ t) = slashless s && slashless t.
Proof. unfold slashless. by rewrite bytes_of_append, forallb_app. Qed.

(** Where no field of the operation has a slash, the statement the database runs is
    the statement that was tagged. *)
Theorem tag_does_not_change_statement oc query :
  forallb slashless [OC_OperationID oc; OC_JobID oc; OC_Role oc; OC_Source oc; OC_Actor oc] = true ->
  statement_run (QueryComment oc ++ " " ++ query) = Some (" " ++ query).
Proof.
  cbn [forallb]. intros H. repeat (apply andb_true_iff in H as [? H]). unfold QueryComment.
  set (body := ("op_id:" ++ OC_OperationID oc) ++ (if OC_JobID oc =?= "" then "" else " job_id:" ++ OC_JobID oc) ++
    (" role:" ++ OC_Role oc) ++ (" source:" ++ OC_Source oc) ++ (if OC_Actor oc =?= "" then "" else " actor:" ++ OC_Actor oc)).
  assert (Hbody : slashless body = true).
  { subst body. rewrite !slashless_append. repeat case_bool_decide; rewrite ?slashless_append; cbn [slashless];
      repeat (apply andb_true_iff; split); done. }
  trans (statement_run ("/* " ++ (body ++ (" */ " ++ query)))).
  { f_equal. apply (inj String.list_ascii_of_string). subst body. rewrite !bytes_of_append. by rewrite <- !app_assoc. }
  unfold statement_run. rewrite !bytes_of_append. change (bytes_of "/* ") with ["/"%char; "*"%char; " "%char].
  change (bytes_of " */ ") with [" "%char; "*"%char; "/"%char; " "%char]. cbn [app].
  change (" "%char :: bytes_of body ++ ?r)%list with ((" "%char :: bytes_of body) ++ r)%list.
  rewrite after_comment_slashless by done. cbn. by rewrite String.string_of_list_ascii_of_string.
Qed.

(** *** Witnesses *)

Definition env0 : OpenEnv := mkOpenEnv (fun _ => Some true) (fun _ => true) (Some true) true false true None.
Definition cfg0 : StorageConfig :=
  mkStorageConfig BackendSQLite true false (mkMigrationsConfig false "ignore" 0) true false true false false.
Definition oc0 : OperationContext := WithActor (NewOperationContext "bibd_query" "grpc" "op-1" 0%Z) "alice".

Lemma mode_checks_agree_witness : ValidateModeBackend "full" BackendSQLite <> None.
Proof.
  assert (Hv : ME_Valid (EnforceMode "full" BackendSQLite) = true) by done.
  apply (proj1 (mode_checks_agree "full" BackendSQLite Hv)). reflexivity.
Defined.


Lemma tag_does_not_change_statement_witness : statement_run (QueryComment oc0 ++ " SELECT 1") = Some " SELECT 1".
Proof. exact (tag_does_not_change_statement oc0 "SELECT 1" eq_refl). Defined.

(** An actor that closes the comment has what follows it run. *)
Example actor_closes_comment :
  statement_run (QueryComment (WithActor oc0 "*/ DELETE FROM jobs; /*") ++ " SELECT 1") = Some " DELETE FROM jobs; /* */ SELECT 1".
Proof. vm_compute. reflexivity. Qed.

(** A zero lock timeout throws the other settings of the migrations away. *)
Example zero_timeout_resets_migrations :
  (Open env0 cfg0 NodeModeProxy).1 = [StoreOpened BackendSQLite; MigrationsRun DefaultMigrationsConfig].
Proof. reflexivity. Qed.

(** A mode that is none of the three is accepted by both checks. *)
Example unknown_mode_accepted :
  NodeMode_IsValid "fulll" = false /\ ValidateModeBackend "fulll" BackendSQLite = None /\ ME_Valid (EnforceMode "fulll" BackendSQLite) = true.
Proof. split_and!; reflexivity. Qed.
