(* ===== verification/AtRest.v ===== *)
(** * Encryption at rest ([internal/storage/postgres/encryption])

    The keys derived from the identity of the node, the encryption of fields, the
    encrypted volume and the manager that puts them together; the sharing of the master
    key is [Shamir].  The key derivation, the cipher and the encodings are a class; what
    the host answers to the commands that are run is a function of the commands run
    before.  Random bytes and clocks are arguments. *)
From stdpp Require Import base gmap strings list pretty.
From Stdlib Require Import ZArith Lia Ascii.
From S2P Require Import Prelude GoStrings GoTime Shamir.
Local Open Scope string_scope.
Local Open Scope Z_scope.
Local Open Scope bool_scope.

(** [golang.org/x/crypto/hkdf] with SHA-256, [crypto/cipher]'s GCM and [encoding/base64]:
    opening undoes sealing under the same key and nonce, a box has 16 bytes more than
    its text, decoding undoes encoding and the empty text is that of no bytes. *)
Class AtRestLib := {
  hkdf_sha256 : list Z -> list Z -> string -> nat -> list Z;
  gcm_Seal : list Z -> list Z -> list Z -> list Z;
  gcm_Open : list Z -> list Z -> list Z -> option (list Z);
  sha256_Sum : list Z -> list Z;
  b64_Encode : list Z -> string;
  b64_Decode : string -> option (list Z);
  hkdf_length secret salt info size : length (hkdf_sha256 secret salt info size) = size;
  gcm_open_seal key nonce d : gcm_Open key nonce (gcm_Seal key nonce d) = Some d;
  gcm_length key nonce d : length (gcm_Seal key nonce d) = (16 + length d)%nat;
  b64_round d : b64_Decode (b64_Encode d) = Some d;
  b64_empty : b64_Decode "" = Some [];
}.

Definition gcm_NonceSize : nat := 12.

Inductive AtRestError :=
| ErrInvalidKey
| ErrNotSupported
| ErrNotInitialized
| ErrAlreadyInitialized
| ErrDecryptFailed
| ErrNonce
| ErrBase64
| ErrJSON
| ErrChaChaNotImplemented
| ErrUnsupportedAlgorithm (alg : string)
| ErrAlgorithmMismatch (expected got : string)
| ErrShamirNotConfigured
| ErrShamir (e : ShamirError)
| ErrCommand (what : string).

(** ** Methods and configuration ([encryption.go]) *)

Definition MethodNone : string := "none".
Definition MethodLUKS : string := "luks".
Definition MethodTDE : string := "tde".
Definition MethodApplication : string := "application".
Definition MethodHybrid : string := "hybrid".
Definition Method_IsValid (m : string) : bool :=
  bool_decide (m ∈ [MethodNone; MethodLUKS; MethodTDE; MethodApplication; MethodHybrid]).

Record LUKSConfig := mkLUKSConfig {
  LK_VolumeSize : string;
  LK_Cipher : string;
  LK_KeySize : Z;
  LK_HashAlgorithm : string;
}.
Record TDEConfig := mkTDEConfig { TD_Algorithm : string; TD_EncryptWAL : bool }.
Record EncryptedField := mkEncryptedField { EF_Table : string; EF_Columns : list string }.
Record ApplicationConfig := mkApplicationConfig {
  AC_Algorithm : string;
  AC_EncryptedFields : list EncryptedField;
}.
Record RecoveryConfig := mkRecoveryConfig { RC_Method : string; RC_Shamir : ShamirConfig }.
Record AtRestConfig := mkAtRestConfig {
  EC_Enabled : bool;
  EC_Method : string;
  EC_LUKS : LUKSConfig;
  EC_TDE : TDEConfig;
  EC_Application : ApplicationConfig;
  EC_Recovery : RecoveryConfig;
}.
Definition DefaultConfig : AtRestConfig :=
  mkAtRestConfig false MethodApplication (mkLUKSConfig "50GB" "aes-xts-plain64" 512 "sha512") (mkTDEConfig "aes-256" true)
    (mkApplicationConfig "aes-256-gcm"
       [mkEncryptedField "datasets" ["content"; "metadata"]; mkEncryptedField "jobs" ["parameters"; "result"];
        mkEncryptedField "nodes" ["metadata"]])
    (mkRecoveryConfig "shamir" (mkShamirConfig 5 3 [])).
Definition SensitiveFields : gmap string (list string) :=
  {["datasets" := ["content"; "metadata"]; "jobs" := ["parameters"; "result"]; "nodes" := ["metadata"]]}.

(** [ShouldEncrypt], and the manager's own copy of it. *)
Definition ShouldEncrypt (table column : string) (cfg : ApplicationConfig) : bool :=
  existsb (fun f => (EF_Table f =?= table) && existsb (fun c => c =?= column) (EF_Columns f)) (AC_EncryptedFields cfg).

(** ** Keys ([keys.go]) *)

Section keys.
Context `{AtRestLib}.

Definition hkdf_salt : list Z := map (fun c => Z.of_N (N_of_ascii c)) (bytes_of "bibd-encryption-v1").
Definition deriveKey (secret : list Z) (info : string) (size : nat) : list Z := hkdf_sha256 secret hkdf_salt info size.

Record KeyManager := mkKeyManager {
  KM_masterKey : list Z;
  KM_config : RecoveryConfig;
  KM_shamir : option ShamirConfig;
}.
Definition NewKeyManager (identityKey : list Z) (cfg : RecoveryConfig) : result AtRestError KeyManager :=
  if (length identityKey <? 32)%nat then Err ErrInvalidKey
  else Ok (mkKeyManager (deriveKey identityKey "bibd-master-encryption-key" 32) cfg
             (if RC_Method cfg =?= "shamir" then Some (RC_Shamir cfg) else None)).
Definition DeriveKey (km : KeyManager) (purpose : string) : list Z := deriveKey (KM_masterKey km) purpose 32.
Definition DeriveKeyWithSize (km : KeyManager) (purpose : string) (size : nat) : list Z := deriveKey (KM_masterKey km) purpose size.
Definition setMasterKey (km : KeyManager) (key : list Z) : KeyManager := mkKeyManager key (KM_config km) (KM_shamir km).

Definition KM_GenerateRecoveryShares `{RandSource} (km : KeyManager) (now : Time) : result AtRestError (list Share) :=
  match KM_shamir km with
  | None => Err ErrShamirNotConfigured
  | Some cfg => match SplitKey cfg now (KM_masterKey km) with Ok s => Ok s | Err e => Err (ErrShamir e) end
  end.
Definition KM_RecoverFromShares (km : KeyManager) (shares : list Share) : KeyManager * option AtRestError :=
  match KM_shamir km with
  | None => (km, Some ErrShamirNotConfigured)
  | Some cfg =>
      match RecoverKey cfg shares with
      | Ok key => (setMasterKey km key, None)
      | Err e => (km, Some (ErrShamir e))
      end
  end.
Definition RotateMasterKey (km : KeyManager) (newIdentityKey : list Z) : KeyManager * list Z :=
  (setMasterKey km (deriveKey newIdentityKey "bibd-master-encryption-key" 32), KM_masterKey km).
Definition KeyHash (km : KeyManager) : list Z := sha256_Sum (KM_masterKey km).
Definition VerifyKey (km : KeyManager) (knownHash : list Z) : bool :=
  let h := sha256_Sum (KM_masterKey km) in
  if negb (length knownHash =? length h)%nat then false
  else forallb (fun p => p.1 =? p.2) (combine h knownHash).

(** ** Fields ([application.go]) *)

Record ApplicationEncryption := mkApplicationEncryption {
  AE_key : list Z;
  AE_algorithm : string;
}.
Definition NewApplicationEncryption (cfg : ApplicationConfig) (key : list Z) : result AtRestError ApplicationEncryption :=
  if (length key <? 32)%nat then Err ErrInvalidKey
  else if (AC_Algorithm cfg =?= "aes-256-gcm") || (AC_Algorithm cfg =?= "") then
    Ok (mkApplicationEncryption (take 32 key) (AC_Algorithm cfg))
  else if AC_Algorithm cfg =?= "chacha20-poly1305" then Err ErrChaChaNotImplemented
  else Err (ErrUnsupportedAlgorithm (AC_Algorithm cfg)).

(** [nonce]: the bytes the random source gives, or [None] when it fails. *)
Definition Encrypt (e : ApplicationEncryption) (plaintext : list Z) (nonce : option (list Z)) : result AtRestError (list Z) :=
  if (length plaintext =? 0)%nat then Ok plaintext
  else match nonce with
       | None => Err ErrNonce
       | Some n => Ok (n ++ gcm_Seal (AE_key e) n plaintext)%list
       end.
Definition Decrypt (e : ApplicationEncryption) (ciphertext : list Z) : result AtRestError (list Z) :=
  if (length ciphertext =? 0)%nat then Ok ciphertext
  else if (length ciphertext <? gcm_NonceSize)%nat then Err ErrDecryptFailed
  else match gcm_Open (AE_key e) (take gcm_NonceSize ciphertext) (drop gcm_NonceSize ciphertext) with
       | None => Err ErrDecryptFailed
       | Some p => Ok p
       end.

Definition EncryptString (e : ApplicationEncryption) (plaintext : string) (nonce : option (list Z)) : result AtRestError string :=
  if plaintext =?= "" then Ok ""
  else let! c := Encrypt e (string_bytes plaintext) nonce in Ok (b64_Encode c).
Definition DecryptString (e : ApplicationEncryption) (ciphertext : string) : result AtRestError string :=
  if ciphertext =?= "" then Ok ""
  else match b64_Decode ciphertext with
       | None => Err ErrBase64
       | Some data => let! p := Decrypt e data in Ok (bytes_string p)
       end.

(** [V]: the Go values, [None] the nil one. *)
Definition EncryptJSON {V} (marshal : V -> option (list Z)) (e : ApplicationEncryption) (value : option V) (nonce : option (list Z))
    : result AtRestError (list Z) :=
  match value with
  | None => Ok []
  | Some v => match marshal v with None => Err ErrJSON | Some data => Encrypt e data nonce end
  end.
Definition DecryptJSON {V} (unmarshal : list Z -> option V) (e : ApplicationEncryption) (ciphertext : list Z) (target : V)
    : result AtRestError V :=
  if (length ciphertext =? 0)%nat then Ok target
  else let! p := Decrypt e ciphertext in
       match unmarshal p with None => Err ErrJSON | Some v => Ok v end.

Record EncryptedValue := mkEncryptedValue {
  EV_Algorithm : string;
  EV_Version : Z;
  EV_Data : string;
}.
Definition EncryptWithMetadata (e : ApplicationEncryption) (plaintext : list Z) (nonce : option (list Z))
    : result AtRestError EncryptedValue :=
  let! c := Encrypt e plaintext nonce in Ok (mkEncryptedValue (AE_algorithm e) 1 (b64_Encode c)).
Definition DecryptWithMetadata (e : ApplicationEncryption) (value : option EncryptedValue) : result AtRestError (list Z) :=
  match value with
  | None => Ok []
  | Some v =>
      if negb (EV_Algorithm v =?= AE_algorithm e) then Err (ErrAlgorithmMismatch (AE_algorithm e) (EV_Algorithm v))
      else match b64_Decode (EV_Data v) with None => Err ErrBase64 | Some c => Decrypt e c end
  end.

Record FieldEncryptor := mkFieldEncryptor { FE_encryption : ApplicationEncryption; FE_config : ApplicationConfig }.
Definition FE_EncryptField (fe : FieldEncryptor) (table column : string) (value : list Z) (nonce : option (list Z)) :=
  if negb (ShouldEncrypt table column (FE_config fe)) then Ok value else Encrypt (FE_encryption fe) value nonce.
Definition FE_DecryptField (fe : FieldEncryptor) (table column : string) (value : list Z) :=
  if negb (ShouldEncrypt table column (FE_config fe)) then Ok value else Decrypt (FE_encryption fe) value.
End keys.

(** ** The volume ([luks.go]) *)

Inductive Cmd :=
| LookCryptsetup
| StatMapper
| StatFile (path : string)
| Truncate (size : Z) (path : string)
| CreateKeyFile
| WriteKeyFile (key : list Z)
| RemoveKeyFile
| LuksFormat (cipher : string) (keySize : Z) (hash : string) (volume : string)
| RemoveFile (path : string)
| Mountpoint (path : string)
| LuksOpen (volume device : string)
| MkdirAll (path : string)
| Blkid (device : string)
| MkfsExt4 (device : string)
| MountDevice (device path : string)
| Umount (path : string)
| LuksClose (device : string)
| StatDevice (device : string).

(** The commands run so far, with how they ended, say how the next one ends. *)
Record Host := mkHost {
  ho_linux : bool;
  ho_pid : Z;
  ho_run : list (Cmd * bool) -> Cmd -> bool;
}.
Definition IO (A : Type) : Type := list (Cmd * bool) -> list (Cmd * bool) * A.
Definition io_ret {A} (a : A) : IO A := fun tr => (tr, a).
Definition io_bind {A B} (m : IO A) (k : A -> IO B) : IO B := fun tr => let '(tr', a) := m tr in k a tr'.
Notation "'io!' x ':=' c 'in' k" := (io_bind c (fun x => k)) (at level 10, x name, c at level 100, k at level 200).
Definition run (h : Host) (c : Cmd) : IO bool := fun tr => ((tr ++ [(c, ho_run h tr c)])%list, ho_run h tr c).

Record LUKSEncryption := mkLUKSEncryption {
  LE_config : LUKSConfig;
  LE_dataDir : string;
  LE_deviceName : string;
  LE_volumePath : string;
  LE_mountPoint : string;
  LE_initialized : bool;
}.
Definition NewLUKSEncryption (c : LUKSConfig) : LUKSEncryption :=
  mkLUKSEncryption
    (mkLUKSConfig (LK_VolumeSize c) (if LK_Cipher c =?= "" then "aes-xts-plain64" else LK_Cipher c)
       (if LK_KeySize c =? 0 then 512 else LK_KeySize c) (if LK_HashAlgorithm c =?= "" then "sha512" else LK_HashAlgorithm c))
    "" "" "" "" false.

Definition joined (a b : string) : string := str_of (path_Join [bytes_of a; bytes_of b]).
Definition mapper (device : string) : string := "/dev/mapper/" ++ device.

Definition suffix_multiplier (suffix : list ascii) : option Z :=
  let s := str_of suffix in
  if (s =?= "GB") || (s =?= "Gi") then Some (1024 * 1024 * 1024)
  else if (s =?= "MB") || (s =?= "Mi") then Some (1024 * 1024)
  else if (s =?= "KB") || (s =?= "Ki") then Some 1024
  else None.
Definition parseVolumeSize (size : string) : Z :=
  if size =?= "" then 50 * 1024 * 1024 * 1024
  else
    let s := bytes_of size in
    let n := length s in
    let '(multiplier, s) :=
      if (2 <=? n)%nat then
        match suffix_multiplier (drop (n - 2) s) with Some m => (m, take (n - 2) s) | None => (1, s) end
      else (1, s) in
    let value := Sscanf_d s in
    let value := if value =? 0 then 50 else value in
    i64 (value * multiplier).

Section luks.
Context (h : Host).

Definition IsSupported : IO bool :=
  if negb (ho_linux h) then io_ret false
  else io! found := run h LookCryptsetup in
       if negb found then io_ret false else run h StatMapper.

Definition createVolumeFile (l : LUKSEncryption) : IO bool := run h (Truncate (parseVolumeSize (LK_VolumeSize (LE_config l))) (LE_volumePath l)).

(** The key is in a file while the command [c] runs; the file is removed in every case
    in which it was made. *)
Definition with_key_file {A} (failed : A) (key : list Z) (c : IO A) : IO A :=
  io! made := run h CreateKeyFile in
  if negb made then io_ret failed
  else io! written := run h (WriteKeyFile key) in
       io! r := (if written then c else io_ret failed) in
       io! _ := run h RemoveKeyFile in io_ret r.

Definition formatLUKS (l : LUKSEncryption) (key : list Z) : IO bool :=
  let c := LE_config l in
  with_key_file false key (run h (LuksFormat (LK_Cipher c) (LK_KeySize c) (LK_HashAlgorithm c) (LE_volumePath l))).

Definition luks_Initialize (l : LUKSEncryption) (dataDir : string) (key : list Z) : IO (LUKSEncryption * option AtRestError) :=
  io! sup := IsSupported in
  if negb sup then io_ret (l, Some ErrNotSupported)
  else if (length key <? 32)%nat then io_ret (l, Some ErrInvalidKey)
  else
    let l := mkLUKSEncryption (LE_config l) dataDir ("bibd-encrypted-" ++ pretty (ho_pid h)) (joined dataDir "encrypted.img")
               (joined dataDir "data") (LE_initialized l) in
    let ready := mkLUKSEncryption (LE_config l) (LE_dataDir l) (LE_deviceName l) (LE_volumePath l) (LE_mountPoint l) true in
    io! exists_ := run h (StatFile (LE_volumePath l)) in
    if exists_ : bool then io_ret (ready, None)
    else
      io! created := createVolumeFile l in
      if negb created then io_ret (l, Some (ErrCommand "create volume file"))
      else
        io! formatted := formatLUKS l key in
        if negb formatted then io! _ := run h (RemoveFile (LE_volumePath l)) in io_ret (l, Some (ErrCommand "format LUKS"))
        else io_ret (ready, None).

Definition isMounted (l : LUKSEncryption) : IO bool := run h (Mountpoint (LE_mountPoint l)).
(** A device that is not there is closed. *)
Definition closeLUKS (l : LUKSEncryption) : IO (option AtRestError) :=
  io! ok := run h (LuksClose (LE_deviceName l)) in
  if ok : bool then io_ret None
  else io! there := run h (StatDevice (mapper (LE_deviceName l))) in
       io_ret (if there : bool then Some (ErrCommand "luksClose") else None).
Definition ensureFilesystem (l : LUKSEncryption) : IO bool :=
  io! has := run h (Blkid (mapper (LE_deviceName l))) in
  if has : bool then io_ret true else run h (MkfsExt4 (mapper (LE_deviceName l))).

Definition mount_opened (l : LUKSEncryption) : IO (option AtRestError) :=
  io! dir := run h (MkdirAll (LE_mountPoint l)) in
  if negb dir then io! _ := closeLUKS l in io_ret (Some (ErrCommand "mount point"))
  else
    io! fs := ensureFilesystem l in
    if negb fs then io! _ := closeLUKS l in io_ret (Some (ErrCommand "filesystem"))
    else
      io! mounted := run h (MountDevice (mapper (LE_deviceName l)) (LE_mountPoint l)) in
      if negb mounted then io! _ := closeLUKS l in io_ret (Some (ErrCommand "mount")) else io_ret None.

Definition luks_Mount (l : LUKSEncryption) (key : list Z) : IO (option AtRestError) :=
  io! sup := IsSupported in
  if negb sup then io_ret (Some ErrNotSupported)
  else if negb (LE_initialized l) then io_ret (Some ErrNotInitialized)
  else
    io! already := isMounted l in
    if already : bool then io_ret None
    else with_key_file (Some (ErrCommand "key file")) key
           (io! opened := run h (LuksOpen (LE_volumePath l) (LE_deviceName l)) in
            if negb opened then io_ret (Some (ErrCommand "luksOpen")) else mount_opened l).

Definition luks_Unmount (l : LUKSEncryption) : IO (option AtRestError) :=
  io! sup := IsSupported in
  if negb sup then io_ret None
  else
    io! mounted := isMounted l in
    io! _ := (if mounted : bool then run h (Umount (LE_mountPoint l)) else io_ret false) in
    closeLUKS l.
End luks.

Record EncryptionStatus := mkEncryptionStatus {
  ES_Method : string;
  ES_Initialized : bool;
  ES_Active : bool;
  ES_KeyCreatedAt : option Time;
  ES_LastVerifiedAt : option Time;
  ES_VolumeSize : Z;
  ES_UsedSpace : Z;
  ES_Warnings : list string;
}.

(** [info]: the size and the time of the volume's file.  The scan of the used space asks
    for the verb [%*s], which [fmt] refuses for an integer: it stays 0. *)
Definition luks_Status (h : Host) (l : LUKSEncryption) (info : option (Z * Time)) : IO EncryptionStatus :=
  io! active := isMounted h l in
  let info := if LE_initialized l then info else None in
  io! sup := IsSupported h in
  io_ret (mkEncryptionStatus MethodLUKS (LE_initialized l) active (snd <$> info) None (default 0 (fst <$> info)) 0
            (if sup : bool then [] else ["LUKS not supported on this platform"])).

(** The three kinds of volumes; PostgreSQL's own encryption is a placeholder. *)
Inductive Volume := VLuks (l : LUKSEncryption) | VTde (c : TDEConfig) | VNull.
Definition volume_Method (v : Volume) : string :=
  match v with VLuks _ => MethodLUKS | VTde _ => MethodTDE | VNull => MethodNone end.
Definition volume_IsSupported (h : Host) (v : Volume) : IO bool :=
  match v with VLuks _ => IsSupported h | VTde _ => io_ret false | VNull => io_ret true end.
Definition volume_Initialize (h : Host) (v : Volume) (dataDir : string) (key : list Z) : IO (Volume * option AtRestError) :=
  match v with
  | VLuks l => io! r := luks_Initialize h l dataDir key in io_ret (VLuks r.1, r.2)
  | VTde c => io_ret (VTde c, Some ErrNotSupported)
  | VNull => io_ret (VNull, None)
  end.
Definition volume_Mount (h : Host) (v : Volume) (key : list Z) : IO (option AtRestError) :=
  match v with VLuks l => luks_Mount h l key | VTde _ | VNull => io_ret None end.
Definition volume_Unmount (h : Host) (v : Volume) : IO (option AtRestError) :=
  match v with VLuks l => luks_Unmount h l | VTde _ | VNull => io_ret None end.
Definition volume_Status (h : Host) (v : Volume) (info : option (Z * Time)) (now : Time) : IO EncryptionStatus :=
  match v with
  | VLuks l => luks_Status h l info
  | VTde _ => io_ret (mkEncryptionStatus MethodTDE false false None None 0 0 ["TDE not currently supported"])
  | VNull => io_ret (mkEncryptionStatus MethodNone true true None (Some now) 0 0 [])
  end.

(** ** The manager ([encryption.go]) *)

Section manager.
Context `{AtRestLib}.

Record Manager := mkManager {
  EM_config : AtRestConfig;
  EM_volume : option Volume;
  EM_column : option ApplicationEncryption;
  EM_keys : option KeyManager;
  EM_initialized : bool;
}.

Definition column_for (cfg : AtRestConfig) (km : KeyManager) : result AtRestError ApplicationEncryption :=
  NewApplicationEncryption (EC_Application cfg) (DeriveKey km "application-encryption").
Definition NewManager (linux : bool) (cfg : AtRestConfig) (identityKey : list Z) : result AtRestError Manager :=
  if negb (EC_Enabled cfg) then Ok (mkManager cfg None None None false)
  else
    let! km := NewKeyManager identityKey (EC_Recovery cfg) in
    let m volume column := mkManager cfg volume column (Some km) false in
    if EC_Method cfg =?= MethodLUKS then
      if negb linux then Err ErrNotSupported else Ok (m (Some (VLuks (NewLUKSEncryption (EC_LUKS cfg)))) None)
    else if EC_Method cfg =?= MethodTDE then Ok (m (Some (VTde (EC_TDE cfg))) None)
    else if EC_Method cfg =?= MethodApplication then
      let! col := column_for cfg km in Ok (m None (Some col))
    else if EC_Method cfg =?= MethodHybrid then
      let! col := column_for cfg km in
      Ok (m (if linux then Some (VLuks (NewLUKSEncryption (EC_LUKS cfg))) else None) (Some col))
    else Ok (m None None).

(** The key a volume is opened with. *)
Definition volume_key (m : Manager) : list Z :=
  match EM_keys m with Some km => DeriveKey km "volume-encryption" | None => [] end.

Definition M_Initialize (h : Host) (m : Manager) (dataDir : string) : IO (Manager * option AtRestError) :=
  if negb (EC_Enabled (EM_config m)) then io_ret (m, None)
  else if EM_initialized m then io_ret (m, Some ErrAlreadyInitialized)
  else
    let done v := mkManager (EM_config m) v (EM_column m) (EM_keys m) true in
    match EM_volume m with
    | None => io_ret (done None, None)
    | Some v =>
        io! sup := volume_IsSupported h v in
        if negb sup then io_ret (done (Some v), None)
        else
          io! r := volume_Initialize h v dataDir (volume_key m) in
          match r.2 with
          | Some e => io_ret (mkManager (EM_config m) (Some r.1) (EM_column m) (EM_keys m) false, Some e)
          | None => io_ret (done (Some r.1), None)
          end
    end.

Definition when_mountable {A} (h : Host) (m : Manager) (otherwise : A) (k : Volume -> IO A) : IO A :=
  if negb (EC_Enabled (EM_config m)) then io_ret otherwise
  else match EM_volume m with
       | None => io_ret otherwise
       | Some v => io! sup := volume_IsSupported h v in if negb sup then io_ret otherwise else k v
       end.
Definition M_Mount (h : Host) (m : Manager) : IO (option AtRestError) :=
  when_mountable h m None (fun v => volume_Mount h v (volume_key m)).
Definition M_Unmount (h : Host) (m : Manager) : IO (option AtRestError) :=
  when_mountable h m None (fun v => volume_Unmount h v).
Definition M_Close (h : Host) (m : Manager) : IO (option AtRestError) := M_Unmount h m.

(** A field that is to be encrypted, and the cipher. *)
Definition field_cipher (m : Manager) (table column : string) : option ApplicationEncryption :=
  if negb (EC_Enabled (EM_config m)) then None
  else match EM_column m with
       | None => None
       | Some e => if ShouldEncrypt table column (EC_Application (EM_config m)) then Some e else None
       end.
Definition M_EncryptField (m : Manager) (table column : string) (value : list Z) (nonce : option (list Z)) : result AtRestError (list Z) :=
  match field_cipher m table column with None => Ok value | Some e => Encrypt e value nonce end.
Definition M_DecryptField (m : Manager) (table column : string) (value : list Z) : result AtRestError (list Z) :=
  match field_cipher m table column with None => Ok value | Some e => Decrypt e value end.

Definition M_Status (h : Host) (m : Manager) (info : option (Z * Time)) (now : Time) : IO EncryptionStatus :=
  let status size used created :=
    mkEncryptionStatus (EC_Method (EM_config m)) (EM_initialized m) (EC_Enabled (EM_config m)) created None size used [] in
  match EM_volume m with
  | None => io_ret (status 0 0 None)
  | Some v =>
      io! sup := volume_IsSupported h v in
      if negb sup then io_ret (status 0 0 None)
      else io! s := volume_Status h v info now in io_ret (status (ES_VolumeSize s) (ES_UsedSpace s) (ES_KeyCreatedAt s))
  end.

Definition M_GenerateRecoveryShares `{RandSource} (m : Manager) (now : Time) : result AtRestError (list Share) :=
  match EM_keys m with None => Err ErrNotInitialized | Some km => KM_GenerateRecoveryShares km now end.
Definition M_RecoverFromShares (m : Manager) (shares : list Share) : Manager * option AtRestError :=
  match EM_keys m with
  | None => (m, Some ErrNotInitialized)
  | Some km =>
      let '(km', e) := KM_RecoverFromShares km shares in
      (mkManager (EM_config m) (EM_volume m) (EM_column m) (Some km') (EM_initialized m), e)
  end.
End manager.

(** ** Theorems *)

(** *** Fields *)

Section field_theorems.
Context `{AtRestLib}.

Lemma cipher_Decrypt_Encrypt e plaintext nonce c :
  match nonce with Some n => length n = gcm_NonceSize | None => True end ->
  Encrypt e plaintext nonce = Ok c ->
  Decrypt e c = Ok plaintext /\ length c = (if (length plaintext =? 0)%nat then 0 else 28 + length plaintext)%nat.
Proof.
  unfold Encrypt, Decrypt. intros Hn. destruct plaintext as [|x p]; [by intros [= <-]|]. cbn [length Nat.eqb].
  destruct nonce as [n|]; [|done]. intros [= <-].
  rewrite length_app, gcm_length, Hn. cbn [length gcm_NonceSize Nat.add Nat.eqb].
  rewrite take_app_length', drop_app_length' by done. rewrite gcm_open_seal. done.
Qed.

Lemma string_bytes_length s : s <> "" -> (length (string_bytes s) =? 0)%nat = false.
Proof. by destruct s. Qed.

(** Strings, values and values with their metadata come back from the encryption
    that made their text, whatever the nonces were. *)
Theorem encryption_roundtrips {V} marshal unmarshal (e : ApplicationEncryption) n
    (Hn : length n = gcm_NonceSize) (Hjson : forall (v : V) bs, marshal v = Some bs -> unmarshal bs = Some v /\ bs <> []) :
  (forall s c, EncryptString e s (Some n) = Ok c -> DecryptString e c = Ok s) /\
  (forall v c target, EncryptJSON marshal e (Some v) (Some n) = Ok c -> DecryptJSON unmarshal e c target = Ok v) /\
  (forall p w, EncryptWithMetadata e p (Some n) = Ok w -> DecryptWithMetadata e (Some w) = Ok p).
Proof.
  split_and!.
  - intros s c. unfold EncryptString, DecryptString. case_bool_decide; [by intros [= <-]; subst|].
    destruct (Encrypt e (string_bytes s) (Some n)) as [ct|] eqn:He; [|done]. intros [= <-].
    apply cipher_Decrypt_Encrypt in He as [Hd Hl]; [|done]. rewrite string_bytes_length in Hl by done.
    rewrite bool_decide_eq_false_2, b64_round, Hd, bytes_string_bytes; [done|]. intros Hempty.
    assert (Hct : b64_Decode (b64_Encode ct) = b64_Decode "") by (by rewrite Hempty).
    rewrite b64_round, b64_empty in Hct. injection Hct as ->. done.
  - intros v c target. unfold EncryptJSON, DecryptJSON. destruct (marshal v) as [bs|] eqn:Hm; [|done].
    destruct (Hjson _ _ Hm) as [Hu Hbs]. intros He. apply cipher_Decrypt_Encrypt in He as [Hd Hl]; [|done].
    rewrite Hl. destruct bs; [done|]. cbn. by rewrite Hd, Hu.
  - intros p w. unfold EncryptWithMetadata, DecryptWithMetadata. destruct (Encrypt e p (Some n)) as [c|] eqn:He; [|done].
    intros [= <-]. cbn. rewrite bool_decide_eq_true_2 by done. cbn. rewrite b64_round. by apply cipher_Decrypt_Encrypt in He as [-> _].
Qed.

(** *** The manager *)

(** What may be done with a manager. *)
Inductive ManagerOp := OpInitialize (dataDir : string) | OpRecover (shares : list Share).
Definition manager_op (h : Host) (m : Manager) (o : ManagerOp) : Manager :=
  match o with
  | OpInitialize dir => (M_Initialize h m dir []).2.1
  | OpRecover shares => (M_RecoverFromShares m shares).1
  end.
Definition manager_ops (h : Host) (m : Manager) (os : list ManagerOp) : Manager := fold_left (manager_op h) os m.

Lemma manager_op_keeps h m o : EM_config (manager_op h m o) = EM_config m /\ EM_column (manager_op h m o) = EM_column m.
Proof.
  destruct o as [dir|shares]; cbn.
  - unfold M_Initialize, io_ret, io_bind. destruct (negb _); [done|]. destruct (EM_initialized m); [done|].
    destruct (EM_volume m) as [v|]; [|done]. destruct (volume_IsSupported h v []) as [tr sup]. destruct (negb sup); [done|].
    destruct (volume_Initialize _ _ _ _ _) as [tr' [v' [e|]]]; done.
  - unfold M_RecoverFromShares. destruct (EM_keys m) as [km|]; [|done]. by destruct (KM_RecoverFromShares km shares).
Qed.

Lemma manager_ops_keep h os m :
  EM_config (manager_ops h m os) = EM_config m /\ EM_column (manager_ops h m os) = EM_column m.
Proof.
  revert m. induction os as [|o os IH]; [done|]. intros m. change (manager_ops h m (o :: os)) with (manager_ops h (manager_op h m o) os). destruct (IH (manager_op h m o)) as [-> ->]. apply manager_op_keeps.
Qed.

(** A field that was encrypted comes back from the manager that encrypted it,
    whatever was done with it before and since; what is stored is 28 bytes longer where the field is one of those to be
    encrypted and has a value, and is the value itself where not. *)
Theorem fields_come_back h m os os' table column value n c :
  length n = gcm_NonceSize ->
  M_EncryptField (manager_ops h m os) table column value (Some n) = Ok c ->
  M_DecryptField (manager_ops h m os') table column c = Ok value /\
  (field_cipher m table column = None -> c = value) /\
  (field_cipher m table column <> None -> value <> [] -> length c = (28 + length value)%nat).
Proof.
  intros Hn. unfold M_EncryptField, M_DecryptField.
  assert (Hc : forall os, field_cipher (manager_ops h m os) table column = field_cipher m table column).
  { intros o. unfold field_cipher. by destruct (manager_ops_keep h o m) as [-> ->]. }
  rewrite !Hc. destruct (field_cipher m table column) as [e|]; [|by intros [= <-]].
  intros He. apply cipher_Decrypt_Encrypt in He as [Hd Hl]; [|done]. split_and!; [done|done|]. intros _ Hv. by destruct value.
Qed.

(** No recovery of the master key reaches the fields: a manager made with another
    identity decrypts with the key of that identity, whatever shares it was given. *)
Theorem recovery_does_not_reach_fields linux h cfg identity m os e table column value :
  NewManager linux cfg identity = Ok m -> field_cipher (manager_ops h m os) table column = Some e ->
  AE_key e = DeriveKey (mkKeyManager (deriveKey identity "bibd-master-encryption-key" 32) (EC_Recovery cfg) None) "application-encryption" /\
  M_DecryptField (manager_ops h m os) table column value = Decrypt e value.
Proof.
  intros Hm He. split; [|by unfold M_DecryptField; rewrite He].
  unfold field_cipher in He. destruct (manager_ops_keep h os m) as [Hcfg Hcol]. rewrite Hcfg, Hcol in He.
  destruct (negb _) eqn:?; [done|]. destruct (EM_column m) as [e'|] eqn:Hcm; [|done]. destruct (ShouldEncrypt _ _ _); [|done]. injection He as ->.
  unfold NewManager, NewKeyManager, column_for, NewApplicationEncryption in Hm. destruct (negb (EC_Enabled cfg)); [by injection Hm as <-|].
  destruct (length identity <? 32)%nat; [done|]. cbn [DeriveKey KM_masterKey] in Hm. unfold DeriveKey in Hm. cbn [KM_masterKey] in Hm.
  assert (Hk : forall a i, take 32 (deriveKey a i 32) = deriveKey a i 32).
  { intros a i. apply firstn_all2. unfold deriveKey. by rewrite hkdf_length. }
  rewrite Hk in Hm. unfold DeriveKey. cbn [KM_masterKey].
  repeat case_match; simplify_eq/=; done.
Qed.

(** Where the method encrypts neither the volume nor the fields, as [none], an unknown
    name and PostgreSQL's own encryption do, the manager says that the encryption is
    active, runs no command and stores the values as they are. *)
Theorem active_without_encryption linux h cfg identity m os dir table column value nonce info now :
  NewManager linux cfg identity = Ok m -> EC_Enabled cfg = true ->
  ~ (EC_Method cfg ∈ [MethodLUKS; MethodApplication; MethodHybrid]) ->
  let m' := manager_ops h m os in
  ES_Active (M_Status h m info now []).2 = true /\
  (M_Initialize h m dir []).1 = [] /\ (M_Initialize h m dir []).2.2 = None /\ M_Mount h m [] = ([], None) /\
  M_EncryptField m' table column value nonce = Ok value.
Proof.
  intros Hm Hen Hmeth. cbn. unfold M_EncryptField, field_cipher. destruct (manager_ops_keep h os m) as [-> ->].
  unfold NewManager in Hm. rewrite Hen in Hm. cbn [negb] in Hm. destruct (NewKeyManager identity (EC_Recovery cfg)) as [km|]; [|done].
  rewrite (bool_decide_eq_false_2 (EC_Method cfg = MethodLUKS)), (bool_decide_eq_false_2 (EC_Method cfg = MethodApplication)),
    (bool_decide_eq_false_2 (EC_Method cfg = MethodHybrid)) in Hm by set_solver.
  unfold M_Status, M_Initialize, M_Mount, when_mountable, io_bind, io_ret.
  case_bool_decide; injection Hm as <-; cbn; rewrite Hen; done.
Qed.
End field_theorems.

(** *** The volume *)

(** What a list of commands leaves behind: a file with the key, an open device, a mount. *)
Record Leftover := mkLeftover { lo_key : bool; lo_open : bool; lo_mounted : bool }.
Definition leftover_step (s : Leftover) (e : Cmd * bool) : Leftover :=
  match e with
  | (CreateKeyFile, true) => mkLeftover true (lo_open s) (lo_mounted s)
  | (RemoveKeyFile, _) => mkLeftover false (lo_open s) (lo_mounted s)
  | (LuksOpen _ _, true) => mkLeftover (lo_key s) true (lo_mounted s)
  | (LuksClose _, _) => mkLeftover (lo_key s) false (lo_mounted s)
  | (MountDevice _ _, true) => mkLeftover (lo_key s) (lo_open s) true
  | (Umount _, _) => mkLeftover (lo_key s) (lo_open s) false
  | _ => s
  end.
Definition leftover (s : Leftover) (tr : list (Cmd * bool)) : Leftover := fold_left leftover_step tr s.
Definition clean : Leftover := mkLeftover false false false.

(** Runs through the commands of an operation. *)
Ltac run_commands :=
  unfold io_bind, io_ret, run;
  repeat match goal with |- context [ho_run ?h ?tr ?c] => destruct (ho_run h tr c); cbn [negb app fst snd] end.

(** A mounting leaves no file with the key behind, and where it fails no device open
    and nothing mounted; where it succeeds the volume was mounted before, or the device is
    open and mounted. *)
Theorem mount_leaves_no_key h l key :
  let '(tr, r) := luks_Mount h l key [] in
  match r with
  | Some _ => leftover clean tr = clean
  | None => leftover clean tr = clean /\ In (Mountpoint (LE_mountPoint l), true) tr \/ leftover clean tr = mkLeftover false true true
  end.
Proof.
  unfold luks_Mount, IsSupported, isMounted, with_key_file, mount_opened, ensureFilesystem, closeLUKS, io_bind, io_ret, run.
  destruct (ho_linux h); cbn [negb]; [|done]. run_commands; try done.
  all: destruct (LE_initialized l); cbn [negb]; [|done].
  all: run_commands; try (left; split; [done|cbn; tauto]); try (by right); done.
Qed.

(** Setting a volume up leaves no file with the key behind; it formats the volume with
    the key just where there was no file, and where the formatting fails the file is
    removed, so that the next start does it again. *)
Theorem initialize_formats_once h l dir key :
  let '(tr, (l', r)) := luks_Initialize h l dir key [] in
  leftover clean tr = clean /\
  (r = None -> LE_initialized l' = true /\
     (In (StatFile (joined dir "encrypted.img"), true) tr \/
      exists k c hs, In (LuksFormat c k hs (joined dir "encrypted.img"), true) tr)) /\
  (forall c k hs v, In (LuksFormat c k hs v, false) tr -> r <> None /\ exists ok, last tr = Some (RemoveFile v, ok)).
Proof.
  unfold luks_Initialize, IsSupported, createVolumeFile, formatLUKS, with_key_file, io_bind, io_ret, run.
  destruct (ho_linux h); cbn [negb]; [|by split_and!].
  run_commands; try by (split_and!; [done..|]; cbn; intros; intuition congruence).
  destruct (length key <? 32)%nat; [split_and!; [done..|]; cbn; intros; intuition congruence|].
  cbn [LE_config LE_volumePath LE_initialized LE_mountPoint LE_deviceName LE_dataDir].
  run_commands.
  all: split_and!; [done| |].
  all: lazymatch goal with
       | |- _ = None -> _ => intros Hr; first [discriminate Hr | split; [done|]; cbn; eauto 20]
       | |- forall _ : string, _ => intros c k' hs v Hin; cbn in Hin; repeat (destruct Hin as [[=]|Hin]; subst; eauto); try done
       | _ => try done
       end.
Qed.

(** *** Witnesses *)

(** A cipher that appends sixteen copies of the first byte of its key. *)
Definition toy_open (key d : list Z) : option (list Z) :=
  let n := (length d - 16)%nat in
  if bool_decide (drop n d = replicate 16 (hd 0 key)) then Some (take n d) else None.
Definition toy_encode (d : list Z) : string := match d with [] => "" | _ => String "x" (pos_text (encode d)) end.
Definition toy_decode (s : string) : option (list Z) := match s with "" => Some [] | String _ s' => decode (text_pos s') end.
#[local] Instance toy_lib : AtRestLib.
Proof.
  refine {| hkdf_sha256 := fun secret _ _ size => replicate size (fold_right Z.add 0 secret);
    gcm_Seal := fun key _ d => (d ++ replicate 16 (hd 0 key))%list; gcm_Open := fun key _ d => toy_open key d;
    sha256_Sum := fun d => d; b64_Encode := toy_encode; b64_Decode := toy_decode |}.
  - intros. apply length_replicate.
  - intros key _ d. unfold toy_open. rewrite length_app, length_replicate, Nat.add_sub.
    rewrite drop_app_length, take_app_length. by rewrite bool_decide_eq_true_2.
  - intros. rewrite length_app, length_replicate. lia.
  - intros [|x d]; [done|]. unfold toy_decode, toy_encode. rewrite text_pos_text. apply decode_encode.
  - done.
Defined.

Definition no_host : Host := mkHost false 7 (fun _ _ => false).
Definition enabled_config (method : string) : AtRestConfig :=
  mkAtRestConfig true method (EC_LUKS DefaultConfig) (EC_TDE DefaultConfig) (EC_Application DefaultConfig) (EC_Recovery DefaultConfig).
Definition key_a : list Z := replicate 32 1.
Definition key_b : list Z := replicate 32 2.
Definition nonce0 : list Z := replicate 12 9.
Definition a_manager : Manager := Eval vm_compute in
  match NewManager true (enabled_config MethodApplication) key_a with Ok m => m | Err _ => mkManager DefaultConfig None None None false end.
Definition b_manager : Manager := Eval vm_compute in
  match NewManager true (enabled_config MethodApplication) key_b with Ok m => m | Err _ => mkManager DefaultConfig None None None false end.
Definition tde_manager : Manager := Eval vm_compute in
  match NewManager true (enabled_config MethodTDE) key_a with Ok m => m | Err _ => mkManager DefaultConfig None None None false end.
Definition three_shares : list Share := map (fun i => share_of i (replicate 32 i)) [1; 2; 3].

Lemma encryption_roundtrips_witness :
  DecryptString (mkApplicationEncryption key_a "") (match EncryptString (mkApplicationEncryption key_a "") "secret" (Some nonce0) with Ok c => c | Err _ => "" end)
  = Ok "secret".
Proof.
  assert (Hj : forall (v : nat) bs, Some [Z.of_nat v] = Some bs -> Some (Z.to_nat (hd 0 bs)) = Some v /\ bs <> []).
  { intros v bs [= <-]. cbn. by rewrite Nat2Z.id. }
  destruct (encryption_roundtrips (fun v => Some [Z.of_nat v]) (fun bs => Some (Z.to_nat (hd 0 bs)))
              (mkApplicationEncryption key_a "") nonce0 eq_refl Hj) as [Hs _].
  apply Hs. vm_compute. reflexivity.
Defined.

Lemma fields_come_back_witness :
  M_DecryptField (manager_ops no_host a_manager [OpInitialize "/data"; OpRecover three_shares]) "jobs" "result"
    (match M_EncryptField a_manager "jobs" "result" [1; 2; 3] (Some nonce0) with Ok c => c | Err _ => [] end) = Ok [1; 2; 3].
Proof.
  apply (fields_come_back no_host a_manager [] [OpInitialize "/data"; OpRecover three_shares] "jobs" "result" [1; 2; 3] nonce0).
  - reflexivity.
  - vm_compute. reflexivity.
Defined.

(** The shares are accepted, and what the first manager wrote stays unreadable. *)
Lemma recovery_does_not_reach_fields_witness :
  (M_RecoverFromShares b_manager three_shares).2 = None /\
  M_DecryptField (manager_ops no_host b_manager [OpRecover three_shares]) "jobs" "result"
    (match M_EncryptField a_manager "jobs" "result" [1; 2; 3] (Some nonce0) with Ok c => c | Err _ => [] end) = Err ErrDecryptFailed.
Proof.
  split; [vm_compute; reflexivity|].
  assert (Hm : NewManager true (enabled_config MethodApplication) key_b = Ok b_manager) by (vm_compute; reflexivity).
  assert (He : field_cipher (manager_ops no_host b_manager [OpRecover three_shares]) "jobs" "result" =
               Some (mkApplicationEncryption (replicate 32 2048) "aes-256-gcm")) by (vm_compute; reflexivity).
  rewrite (proj2 (recovery_does_not_reach_fields true no_host (enabled_config MethodApplication) key_b b_manager
    [OpRecover three_shares] _ "jobs" "result" _ Hm He)).
  vm_compute. reflexivity.
Defined.

Lemma active_without_encryption_witness :
  ES_Active (M_Status no_host tde_manager None 0 []).2 = true /\
  M_EncryptField tde_manager "jobs" "result" [1; 2; 3] (Some nonce0) = Ok [1; 2; 3].
Proof.
  assert (Hm : NewManager true (enabled_config MethodTDE) key_a = Ok tde_manager) by (vm_compute; reflexivity).
  assert (Hn : ~ (EC_Method (enabled_config MethodTDE) ∈ [MethodLUKS; MethodApplication; MethodHybrid])).
  { apply (bool_decide_unpack _). exact I. }
  destruct (active_without_encryption true no_host (enabled_config MethodTDE) key_a tde_manager [] "/data" "jobs" "result"
    [1; 2; 3] (Some nonce0) None 0 Hm eq_refl Hn) as (Ha & _ & _ & _ & He).
  split; [exact Ha|exact He].
Defined.

(** A volume that was made but not formatted, as a crash leaves it, is never formatted. *)
Example interrupted_setup_never_formatted :
  luks_Initialize (mkHost true 7 (fun _ _ => true)) (NewLUKSEncryption (EC_LUKS DefaultConfig)) "/data" key_a [] =
  ([(LookCryptsetup, true); (StatMapper, true); (StatFile "/data/encrypted.img", true)],
   (mkLUKSEncryption (EC_LUKS DefaultConfig) "/data" "bibd-encrypted-7" "/data/encrypted.img" "/data/data" true, None)).
Proof. vm_compute. reflexivity. Qed.

(** A size in terabytes or with the suffix [GiB] is a number of bytes. *)
Example volume_sizes :
  map parseVolumeSize ["50GB"; "50 GB"; "10Gi"; "1TB"; "10GiB"; "GB"; "9000000000GB"; ""] =
  [53687091200; 53687091200; 10737418240; 1; 10; 53687091200; -8783067657709551616; 53687091200].
Proof. vm_compute. reflexivity. Qed.
