(* ===== verification/Migrations.v ===== *)
(** * Migrations ([internal/storage/migrate], [internal/storage/migrations.go])

    The checksums of the embedded files, the listing, and the runs of the migrations at
    a start and of a rollback.  The library that runs the files, golang-migrate, is a
    class with its documented behaviour: the row of its table holds the version and
    whether it is dirty, [Up] refuses a dirty database, runs the files after the version
    in order and stops at one that fails, which leaves its version dirty. *)
From stdpp Require Import base gmap strings list sorting.
From Stdlib Require Import ZArith Lia Ascii.
From S2P Require Import Prelude GoStrings GoTime Domain Redact Backup StorageOpen.
Local Open Scope string_scope.
Local Open Scope bool_scope.

(** ** Checksums and the listing ([migrate.go]) *)

Record MigrateConfig := mkMigrateConfig {
  MG_VerifyChecksums : bool;
  MG_OnChecksumMismatch : string;
  MG_LockTimeout : Z;
}.
Definition DefaultConfig : MigrateConfig := mkMigrateConfig true "fail" (15 * Second).

(** [strings.SplitN(s, sep, 2)] for a single byte. *)
Fixpoint cut_at (sep : ascii) (s : list ascii) : option (list ascii * list ascii) :=
  match s with
  | [] => None
  | c :: s' => if c =?= sep then Some ([], s') else (fun p => (c :: p.1, p.2)) <$> cut_at sep s'
  end.
Definition has_suffix (s suffix : list ascii) : bool :=
  (length suffix <=? length s)%nat && bool_decide (drop (length s - length suffix) s = suffix).
Definition TrimLeft_zeros (s : list ascii) : list ascii := (fix go s := match s with "0"%char :: s' => go s' | _ => s end) s.

(** The key of a file, where its name has a version. *)
Definition checksum_key (name : string) : option string :=
  match cut_at "_"%char (bytes_of name) with
  | None => None
  | Some (v, _) =>
      let version := TrimLeft_zeros v in
      let version := if version =?= [] then ["0"%char] else version in
      Some (str_of version ++ "/" ++ name)
  end.

(** A directory: names, whether they are directories, and the contents or a failure. *)
Definition Entry : Type := string * bool * option (list Z).
Definition add_checksum (sha : list Z -> string) (acc : option (gmap string string)) (e : Entry) : option (gmap string string) :=
  let '(name, isDir, content) := e in
  match acc with
  | None => None
  | Some sums =>
      if isDir || negb (has_suffix (bytes_of name) (bytes_of ".sql")) then Some sums
      else match content with
           | None => None
           | Some c => match checksum_key name with None => Some sums | Some k => Some (<[k := sha c]> sums) end
           end
  end.
Definition calculateChecksums (sha : list Z -> string) (entries : list Entry) : option (gmap string string) :=
  fold_left (add_checksum sha) entries (Some ∅).

Record MigrationInfo := mkMigrationInfo {
  MI_Version : Z;
  MI_Description : string;
  MI_Applied : bool;
  MI_Checksum : string;
}.
Definition TrimSuffix (s suffix : list ascii) : list ascii := if has_suffix s suffix then take (length s - length suffix) s else s.
Definition TrimPrefix (s pre : list ascii) : list ascii := if is_prefix_of pre s then drop (length pre) s else s.
Definition describe (version filename : list ascii) : list ascii :=
  let desc := TrimPrefix (TrimSuffix filename (bytes_of ".up.sql")) (version ++ ["_"%char]) in
  map (fun c => if c =?= "_"%char then " "%char else c) desc.

(** The row of the version table: [None] where there is no version yet. *)
Definition SchemaRow : Type := option (Z * bool).
Definition current_version (row : SchemaRow) : Z := match row with Some (v, _) => v | None => 0%Z end.
Definition is_dirty (row : SchemaRow) : bool := match row with Some (_, d) => d | None => false end.

Definition list_entry (row : SchemaRow) (kv : string * string) : option MigrationInfo :=
  match cut_at "/"%char (bytes_of kv.1) with
  | None => None
  | Some (version, filename) =>
      if negb (Contains filename (bytes_of ".up.sql")) then None
      else
        let v := Sscanf_uint version in
        Some (mkMigrationInfo v (str_of (describe version filename)) (negb (is_dirty row) && (v <=? current_version row)%Z) kv.2)
  end.
Definition earlier (a b : MigrationInfo) : Prop := (MI_Version a <= MI_Version b)%Z.
#[export] Instance earlier_dec a b : Decision (earlier a b).
Proof. unfold earlier. apply _. Defined.
Definition List_ (row : SchemaRow) (checksums : gmap string string) : list MigrationInfo :=
  merge_sort earlier (omap (list_entry row) (map_to_list checksums)).

(** ** The library *)

Inductive UpResult := UpOk | UpNoChange | UpDirty (v : Z) | UpFailed.

(** [mg_completed]: every statement of the file of that version has run.  Another process
    may hold the lock, and then nothing is run. *)
Class Migrator := {
  mg_DB : Type;
  mg_row : mg_DB -> SchemaRow;
  mg_completed : mg_DB -> Z -> bool;
  mg_files : list Z;
  mg_Up : mg_DB -> mg_DB * UpResult;
  mg_Back : mg_DB -> mg_DB * bool;
  mg_set_clean : mg_DB -> mg_DB;
  mg_files_positive : Forall (fun v => 0 < v)%Z mg_files;
  mg_up_dirty db v : mg_row db = Some (v, true) -> mg_Up db = (db, UpDirty v);
  mg_up_runs db : is_dirty (mg_row db) = false ->
    mg_Up db = (db, UpFailed) \/
    exists ran rest, List.filter (fun v => current_version (mg_row db) <? v)%Z mg_files = (ran ++ rest)%list /\
      (forall v, mg_completed (mg_Up db).1 v = mg_completed db v || bool_decide (v ∈ ran)) /\
      match rest with
      | [] => (mg_Up db).2 = (if ran =?= [] then UpNoChange else UpOk) /\
              mg_row (mg_Up db).1 = match last ran with Some w => Some (w, false) | None => mg_row db end
      | w :: _ => (mg_Up db).2 = UpFailed /\ mg_row (mg_Up db).1 = Some (w, true)
      end;
  mg_back_dirty db v : mg_row db = Some (v, true) -> mg_Back db = (db, false);
  mg_clean_row db : mg_row (mg_set_clean db) = (fun r => (r.1, false)) <$> mg_row db;
  mg_clean_completed db v : mg_completed (mg_set_clean db) v = mg_completed db v;
}.

(** ** Runs ([migrations.go]) *)

Inductive MigrationError :=
| MEUnsupported (backend : string)
| MENoHandle
| MEOpen
| MEClean
| MEManager
| MEChecksum
| MEFailed
| MERollback.

(** The store, and whether the connection, the update of the dirty flag and the making of
    the manager succeed. *)
Record MigrateEnv := mkMigrateEnv {
  mv_backend : string;
  mv_exposes : bool;
  mv_open : bool;
  mv_clean : bool;
  mv_manager : bool;
}.

Section runs.
Context `{Migrator}.

(** The checksums of the files are neither stored nor compared. *)
Definition verifyChecksums : option MigrationError := None.
Definition storeChecksums : option MigrationError := None.

Definition Manager_Up (cfg : MigrateConfig) (db : mg_DB) : mg_DB * option MigrationError :=
  let refused :=
    if MG_VerifyChecksums cfg then
      match verifyChecksums with
      | None => None
      | Some e => if (MG_OnChecksumMismatch cfg =?= "warn") || (MG_OnChecksumMismatch cfg =?= "ignore") then None else Some MEChecksum
      end
    else None in
  match refused with
  | Some e => (db, Some e)
  | None =>
      match mg_Up db with
      | (db', UpOk) | (db', UpNoChange) => (db', None)
      | (db', _) => (db', Some MEFailed)
      end
  end.
Definition Manager_Down (db : mg_DB) : mg_DB * option MigrationError :=
  match mg_Back db with (db', true) => (db', None) | (db', false) => (db', Some MERollback) end.

Definition migrate_config (c : MigrationsConfig) : MigrateConfig :=
  mkMigrateConfig (MC_VerifyChecksums c) (if MC_OnChecksumMismatch c =?= "" then "fail" else MC_OnChecksumMismatch c)
    (i64 ((if (MC_LockTimeoutSeconds c =? 0)%Z then 15 else MC_LockTimeoutSeconds c) * Second)).

(** A dirty version is declared clean, on either backend, before the files are run. *)
Definition run_on (env : MigrateEnv) (cfg : MigrateConfig) (db : mg_DB) : mg_DB * option MigrationError :=
  if is_dirty (mg_row db) && negb (mv_clean env) then (db, Some MEClean)
  else
    let db := if is_dirty (mg_row db) then mg_set_clean db else db in
    if mv_manager env then Manager_Up cfg db else (db, Some MEManager).
Definition runPostgresMigrations (env : MigrateEnv) (cfg : MigrateConfig) (db : mg_DB) : mg_DB * option MigrationError :=
  if negb (mv_exposes env) then (db, Some MENoHandle)
  else if negb (mv_open env) then (db, Some MEOpen)
  else run_on env cfg db.
Definition runSQLiteMigrations (env : MigrateEnv) (cfg : MigrateConfig) (db : mg_DB) : mg_DB * option MigrationError :=
  if negb (mv_exposes env) then (db, Some MENoHandle) else run_on env cfg db.
Definition RunMigrations (env : MigrateEnv) (c : MigrationsConfig) (db : mg_DB) : mg_DB * option MigrationError :=
  let cfg := migrate_config c in
  if mv_backend env =?= BackendPostgres then runPostgresMigrations env cfg db
  else if mv_backend env =?= BackendSQLite then runSQLiteMigrations env cfg db
  else (db, Some (MEUnsupported (mv_backend env))).

(** The manager the other operations work on. *)
Definition with_migrations {A} (env : MigrateEnv) (failed : MigrationError -> A) (k : A) : A :=
  if mv_backend env =?= BackendPostgres then
    if negb (mv_exposes env) then failed MENoHandle
    else if negb (mv_open env) then failed MEOpen
    else if mv_manager env then k else failed MEManager
  else if mv_backend env =?= BackendSQLite then
    if negb (mv_exposes env) then failed MENoHandle else if mv_manager env then k else failed MEManager
  else failed (MEUnsupported (mv_backend env)).
Definition RollbackMigration (env : MigrateEnv) (db : mg_DB) : mg_DB * option MigrationError :=
  with_migrations env (fun e => (db, Some e)) (Manager_Down db).
(** [None] inside the result: the error of a database without a version. *)
Definition GetMigrationStatus (env : MigrateEnv) (db : mg_DB) : result MigrationError SchemaRow :=
  with_migrations env (fun e => Err e) (Ok (mg_row db)).
Definition ListMigrations (env : MigrateEnv) (checksums : gmap string string) (db : mg_DB) : result MigrationError (list MigrationInfo) :=
  with_migrations env (fun e => Err e) (Ok (List_ (mg_row db) checksums)).

(** The starts of a node, whatever fails in each. *)
Definition starts (db : mg_DB) (envs : list (MigrateEnv * MigrationsConfig)) : mg_DB :=
  fold_left (fun db e => (RunMigrations e.1 e.2 db).1) envs db.
End runs.

(** ** Theorems *)

Section theorems.
Context `{Migrator}.

(** What a run does to the database. *)
Lemma RunMigrations_cases env c db db' r :
  RunMigrations env c db = (db', r) ->
  (r <> None /\ (db' = db \/ db' = mg_set_clean db /\ is_dirty (mg_row db) = true)) \/
  exists db0, db0 = (if is_dirty (mg_row db) then mg_set_clean db else db) /\ db' = (mg_Up db0).1 /\
    (r = None <-> (mg_Up db0).2 = UpOk \/ (mg_Up db0).2 = UpNoChange).
Proof.
  assert (Hrun : run_on env (migrate_config c) db = (db', r) ->
    (r <> None /\ (db' = db \/ db' = mg_set_clean db /\ is_dirty (mg_row db) = true)) \/
    exists db0, db0 = (if is_dirty (mg_row db) then mg_set_clean db else db) /\ db' = (mg_Up db0).1 /\
      (r = None <-> (mg_Up db0).2 = UpOk \/ (mg_Up db0).2 = UpNoChange)).
  { unfold run_on, Manager_Up. destruct (is_dirty (mg_row db) && negb (mv_clean env)); [intros [= <- <-]; left; by split; [|left]|].
    destruct (mv_manager env).
    - intros Hu. right. eexists; split; [done|]. revert Hu. destruct (MG_VerifyChecksums _); cbn [verifyChecksums];
        destruct (mg_Up _) as [d [| | |]]; intros [= <- <-]; (split; [done|]); cbn; intuition (discriminate || eauto).
    - intros [= <- <-]. left. split; [done|]. destruct (is_dirty (mg_row db)); eauto. }
  unfold RunMigrations, runPostgresMigrations, runSQLiteMigrations. repeat case_bool_decide; destruct (mv_exposes env), (mv_open env); cbn [negb]; try exact Hrun;
    intros [= <- <-]; left; by split; [|left].
Qed.

Lemma pending_above c v : v ∈ List.filter (fun v => c <? v)%Z mg_files -> (c < v)%Z /\ v ∈ mg_files.
Proof. rewrite !list_elem_of_In, filter_In. intros [Hin Hlt%Z.ltb_lt]. done. Qed.

(** The files up to the current version are not run. *)
Lemma up_keeps db v :
  is_dirty (mg_row db) = false -> (v <= current_version (mg_row db))%Z ->
  mg_completed (mg_Up db).1 v = mg_completed db v /\ (v <= current_version (mg_row (mg_Up db).1))%Z.
Proof.
  intros Hd Hv. destruct (mg_up_runs db Hd) as [->|(ran & rest & Hp & Hc & Hrow)]; [done|].
  assert (Habove : forall w, w ∈ (ran ++ rest)%list -> (current_version (mg_row db) < w)%Z).
  { intros w. rewrite <- Hp. by intros [? _]%pending_above. }
  split.
  - rewrite Hc, bool_decide_eq_false_2, orb_false_r; [done|]. intros Hin. specialize (Habove v ltac:(set_solver)). lia.
  - destruct rest as [|w rest]; destruct Hrow as [_ ->].
    + destruct (last ran) as [w|] eqn:Hl; [|done]. apply last_Some_elem_of in Hl. specialize (Habove w ltac:(set_solver)). cbn. lia.
    + specialize (Habove w ltac:(set_solver)). cbn. lia.
Qed.

Lemma RunMigrations_keeps env c db v :
  (v <= current_version (mg_row db))%Z ->
  mg_completed (RunMigrations env c db).1 v = mg_completed db v /\
  (v <= current_version (mg_row (RunMigrations env c db).1))%Z.
Proof.
  intros Hv. destruct (RunMigrations env c db) as [db' r] eqn:Hr. cbn.
  assert (Hclean : mg_completed (mg_set_clean db) v = mg_completed db v /\ (v <= current_version (mg_row (mg_set_clean db)))%Z).
  { rewrite mg_clean_completed, mg_clean_row. split; [done|]. by destruct (mg_row db) as [[w d]|]. }
  apply RunMigrations_cases in Hr as [[_ [->|[-> _]]]|(db0 & -> & -> & _)]; [done|done|].
  destruct (is_dirty (mg_row db)) eqn:Hd.
  - destruct Hclean as [<- Hv']. apply up_keeps; [|done]. rewrite mg_clean_row. by destruct (mg_row db) as [[w d]|].
  - by apply up_keeps.
Qed.

(** A migration that failed halfway is not run again: its version counts as reached
    once its flag is reset, at whichever start, and the files that remain run after it;
    it is then listed as applied. *)
Theorem failed_migration_skipped db v envs
    (Hdirty : mg_row db = Some (v, true)) (Hfailed : mg_completed db v = false) :
  let db' := starts db envs in
  mg_completed db' v = false /\
  forall sums info, is_dirty (mg_row db') = false -> In info (List_ (mg_row db') sums) -> MI_Version info = v ->
    MI_Applied info = true.
Proof.
  cbn. assert (Hv : (v <= current_version (mg_row db))%Z) by (rewrite Hdirty; cbn; lia). clear Hdirty.
  assert (Hk : mg_completed (starts db envs) v = false /\ (v <= current_version (mg_row (starts db envs)))%Z).
  { revert db Hfailed Hv. induction envs as [|[env c] envs IH]; [done|]. intros db Hfailed Hv.
    destruct (RunMigrations_keeps env c db v Hv) as [Hc Hv']. apply (IH (RunMigrations env c db).1); [by rewrite Hc|done]. }
  split; [apply Hk|]. intros sums info Hd Hin <-.
  assert (Hin' : info ∈ omap (list_entry (mg_row (starts db envs))) (map_to_list sums)).
  { rewrite <- (merge_sort_Permutation earlier). by apply list_elem_of_In. }
  apply list_elem_of_omap in Hin' as (kv & _ & He). unfold list_entry in He.
  destruct (cut_at _ _) as [[version filename]|]; [|done]. destruct (negb (Contains _ _)); [done|].
  injection He as <-. cbn in *. rewrite Hd. apply Z.leb_le, Hk.
Qed.

(** Where nothing failed before, a start that reports success has run every file to
    its end and leaves the database clean. *)
Theorem clean_start_completes env c db db' :
  is_dirty (mg_row db) = false ->
  (forall v, v ∈ mg_files -> (v <= current_version (mg_row db))%Z -> mg_completed db v = true) ->
  RunMigrations env c db = (db', None) ->
  (forall v, v ∈ mg_files -> mg_completed db' v = true) /\ is_dirty (mg_row db') = false.
Proof.
  intros Hd Hdone Hr. apply RunMigrations_cases in Hr as [[Hne _]|(db0 & -> & -> & Hok)]; [done|]. rewrite Hd in *.
  destruct (proj1 Hok eq_refl) as [Hu|Hu];
    (destruct (mg_up_runs db Hd) as [He|(ran & rest & Hp & Hc & Hrow)]; [by rewrite He in Hu|]);
    (destruct rest as [|w rest]; destruct Hrow as [Hres Hrow]; [|congruence]); rewrite Hrow; clear Hres.
  all: split; [|by destruct (last ran)].
  all: intros v Hv; rewrite Hc; destruct (Z.ltb_spec (current_version (mg_row db)) v) as [Hlt|Hle]; [|by rewrite Hdone].
  all: rewrite bool_decide_eq_true_2; [apply orb_true_r|]; rewrite app_nil_r in Hp; rewrite <- Hp;
    apply list_elem_of_In, filter_In; split; [by apply list_elem_of_In|by apply Z.ltb_lt].
Qed.
End theorems.

(** *** Witnesses *)

(** Two files, of which the second fails where [bad]; a database is its row and the files
    that have run. *)
Definition toy_up (bad : bool) (db : SchemaRow * list Z) : (SchemaRow * list Z) * UpResult :=
  match db.1 with
  | Some (v, true) => (db, UpDirty v)
  | _ =>
      let v := current_version db.1 in
      if (v <? 1)%Z then
        if bad then ((Some (2%Z, true), 1%Z :: db.2), UpFailed) else ((Some (2%Z, false), 1%Z :: 2%Z :: db.2), UpOk)
      else if (v <? 2)%Z then
        if bad then ((Some (2%Z, true), db.2), UpFailed) else ((Some (2%Z, false), 2%Z :: db.2), UpOk)
      else (db, UpNoChange)
  end.
Definition toy_migrator (bad : bool) : Migrator.
Proof.
  refine {| mg_DB := SchemaRow * list Z; mg_row := fst; mg_completed := fun db v => bool_decide (v ∈ db.2); mg_files := [1; 2]%Z;
    mg_Up := toy_up bad; mg_Back := fun db => (db, false); mg_set_clean := fun db => ((fun r => (r.1, false)) <$> db.1, db.2) |}.
  - repeat constructor; lia.
  - intros [row ran] v. cbn. by intros ->.
  - intros [row ran]. cbn. intros Hd. right. unfold toy_up. cbn.
    assert (Hc : forall l1 v, bool_decide (v ∈ (l1 ++ ran)%list) = bool_decide (v ∈ ran) || bool_decide (v ∈ l1)).
    { intros l1 v. rewrite orb_comm. do 3 case_bool_decide; set_solver. }
    assert (Hrow : match row with Some (v, true) => ((row, ran), UpDirty v) | _ => toy_up bad (row, ran) end = toy_up bad (row, ran)) by (by destruct row as [[? []]|]).
    destruct row as [[v []]|]; [done| |]; cbn [current_version].
    + destruct (Z.ltb_spec v 1), (Z.ltb_spec v 2); try lia; destruct bad; cbn;
        [exists [1%Z], [2%Z]|exists [1; 2]%Z, []|exists [], [2%Z]|exists [2%Z], []|exists [], []|exists [], []]; cbn; split_and!; try done;
        intros w; (apply (Hc [1%Z]) || apply (Hc [1; 2]%Z) || apply (Hc [2%Z]) || apply (Hc [])).
    + destruct bad; [exists [1%Z], [2%Z]|exists [1; 2]%Z, []]; cbn; split_and!; try done; intros w; (apply (Hc [1%Z]) || apply (Hc [1; 2]%Z)).
  - intros [row ran] v _. done.
  - done.
  - done.
Defined.

Definition pg_env : MigrateEnv := mkMigrateEnv BackendPostgres true true true true.
Definition embedded (names : list string) : list Entry := map (fun n => (n, false, Some [])) names.
Definition two_sums : gmap string string := Eval vm_compute in
  default ∅ (calculateChecksums (fun _ => "sum") (embedded ["000001_a_table.up.sql"; "000001_a_table.down.sql"; "000002_index.up.sql"; "cleanup.sql"])).

(** The second start reports success; the file that failed never ran. *)
Lemma failed_migration_skipped_witness :
  let db : @mg_DB (toy_migrator true) := (Some (2%Z, true), [1%Z]) in
  (@RunMigrations (toy_migrator true) pg_env DefaultMigrationsConfig db).2 = None /\
  @mg_completed (toy_migrator true) (@starts (toy_migrator true) db [(pg_env, DefaultMigrationsConfig)]) 2 = false.
Proof.
  split; [vm_compute; reflexivity|].
  apply (@failed_migration_skipped (toy_migrator true) (Some (2%Z, true), [1%Z]) 2 [(pg_env, DefaultMigrationsConfig)]);
    [reflexivity|vm_compute; reflexivity].
Defined.

Lemma clean_start_completes_witness :
  @mg_completed (toy_migrator false) (@RunMigrations (toy_migrator false) pg_env DefaultMigrationsConfig (None, [])).1 2 = true.
Proof.
  apply (@clean_start_completes (toy_migrator false) pg_env DefaultMigrationsConfig (None, []) (Some (2%Z, false), [1; 2]%Z)).
  - reflexivity.
  - intros v Hv Hle. exfalso. cbn in *. apply list_elem_of_In in Hv as [<-|[<-|[]]]; lia.
  - vm_compute. reflexivity.
  - apply list_elem_of_In. cbn. tauto.
Defined.

(** The zeros of a version stay in the description of its migration. *)
Example listed_migrations :
  List_ (Some (1%Z, false)) two_sums =
  [mkMigrationInfo 1 "000001 a table" true "sum"; mkMigrationInfo 2 "000002 index" false "sum"].
Proof. vm_compute. reflexivity. Qed.

(** A dirty database lists no migration as applied. *)
Example dirty_lists_none : map MI_Applied (List_ (Some (2%Z, true)) two_sums) = [false; false].
Proof. vm_compute. reflexivity. Qed.
