(* ===== verification/Discovery.v ===== *)
(** * Discovery of nodes ([internal/discovery])

    The merging and the order of what the methods of discovery find, the probes of local
    ports, sockets and bootstrap peers, addresses of peers, the tests of connections and
    of authentication, and the health of a network.  What the network answers is an
    argument; goroutines hand their findings over in an order that is an argument too,
    as is the order in which a map is read. *)
From stdpp Require Import base gmap strings list pretty.
From Stdlib Require Import ZArith Lia Ascii Sorted.
From S2P Require Import Prelude GoStrings GoTime GoFloat Redact.
Local Open Scope string_scope.
Local Open Scope Z_scope.
Local Open Scope bool_scope.

(** ** Nodes and results ([discovery.go]) *)

Definition MethodLocal : string := "local".
Definition MethodMDNS : string := "mdns".
Definition MethodP2P : string := "p2p".
Definition MethodManual : string := "manual".
Definition MethodPublic : string := "public".

Record NodeInfo := mkNodeInfo {
  NI_Name : string;
  NI_Version : string;
  NI_PeerID : string;
  NI_Mode : string;
}.
Record DiscoveredNode := mkNode {
  DN_Address : string;
  DN_Method : string;
  DN_Latency : Z;
  DN_NodeInfo : option NodeInfo;
  DN_DiscoveredAt : Time;
}.
Record DiscoveryResult := mkDiscoveryResult {
  DR_Nodes : list DiscoveredNode;
  DR_Errors : list string;
  DR_Duration : Z;
  DR_MethodCounts : gmap string Z;
}.
Definition HasNodes (r : DiscoveryResult) : bool := (0 <? length (DR_Nodes r))%nat.
Definition HasErrors (r : DiscoveryResult) : bool := (0 <? length (DR_Errors r))%nat.

Definition FilterNodesByMethod (nodes : list DiscoveredNode) (method : string) : list DiscoveredNode :=
  List.filter (fun n => DN_Method n =?= method) nodes.
Definition filterByMethod (r : DiscoveryResult) (method : string) : list DiscoveredNode := FilterNodesByMethod (DR_Nodes r) method.
Definition FilterNodesByLatency (nodes : list DiscoveredNode) (maxLatency : Z) : list DiscoveredNode :=
  List.filter (fun n => (0 <? DN_Latency n) && (DN_Latency n <=? maxLatency)) nodes.
Definition GroupNodesByMethod (nodes : list DiscoveredNode) : gmap string (list DiscoveredNode) :=
  fold_left (fun g n => <[DN_Method n := (default [] (g !! DN_Method n) ++ [n])%list]> g) nodes ∅.

Definition faster (best : option DiscoveredNode) (n : DiscoveredNode) : option DiscoveredNode :=
  if 0 <? DN_Latency n then
    match best with
    | None => Some n
    | Some b => if DN_Latency n <? DN_Latency b then Some n else Some b
    end
  else best.
Definition GetFastestNode (r : DiscoveryResult) : option DiscoveredNode := fold_left faster (DR_Nodes r) None.

(** [time.Duration.Round(time.Millisecond)]: halves away from zero. *)
Definition Round_ms (d : Z) : Z :=
  let r := Z.rem d Millisecond in
  if d <? 0 then (if - r + - r <? Millisecond then d - r else d - r - Millisecond)
  else (if r + r <? Millisecond then d - r else d - r + Millisecond).

(** *** The order *)

(** Two neighbours change places. *)
Definition out_of_order (a b : DiscoveredNode) : bool :=
  ((DN_Latency a =? 0) && (0 <? DN_Latency b)) ||
  ((0 <? DN_Latency a) && (0 <? DN_Latency b) && (DN_Latency b <? DN_Latency a)).
(** The inner loop: [k] comparisons from the front. *)
Fixpoint bubble_pass (k : nat) (l : list DiscoveredNode) : list DiscoveredNode :=
  match k, l with
  | S k', a :: ((b :: l') as t) =>
      if out_of_order a b then b :: bubble_pass k' (a :: l') else a :: bubble_pass k' t
  | _, _ => l
  end.
Definition sortNodesByLatency (nodes : list DiscoveredNode) : list DiscoveredNode :=
  let n := length nodes in
  fold_left (fun l i => bubble_pass (n - i - 1)%nat l) (seq 0 (n - 1)%nat) nodes.

(** *** Merging *)

Definition keep_faster (m : gmap string DiscoveredNode) (n : DiscoveredNode) : gmap string DiscoveredNode :=
  match m !! DN_Address n with
  | Some existing =>
      if (0 <? DN_Latency n) && ((DN_Latency existing =? 0) || (DN_Latency n <? DN_Latency existing))
      then <[DN_Address n := n]> m else m
  | None => <[DN_Address n := n]> m
  end.
Definition node_map (nodes : list DiscoveredNode) : gmap string DiscoveredNode := fold_left keep_faster nodes ∅.
Definition count_method (c : gmap string Z) (n : DiscoveredNode) : gmap string Z :=
  <[DN_Method n := default 0 (c !! DN_Method n) + 1]> c.

Section order.
(** The order in which the values of a map are read. *)
Context (read : gmap string DiscoveredNode -> list DiscoveredNode).

Definition DeduplicateNodes (nodes : list DiscoveredNode) : list DiscoveredNode := sortNodesByLatency (read (node_map nodes)).

Definition result_of (nodes : list DiscoveredNode) (errors : list string) (duration : Z) : DiscoveryResult :=
  let found := read (node_map nodes) in
  mkDiscoveryResult (sortNodesByLatency found) errors duration (fold_left count_method found ∅).

Definition MergeResults (results : list (option DiscoveryResult)) : DiscoveryResult :=
  let rs := omap id results in
  result_of (concat (map DR_Nodes rs)) (concat (map DR_Errors rs))
    (fold_left (fun d r => if d <? DR_Duration r then DR_Duration r else d) rs 0).

Record DiscoveryOptions := mkOptions {
  DO_Timeout : Z;
  DO_LocalPorts : list Z;
  DO_EnableMDNS : bool;
  DO_MDNSTimeout : Z;
  DO_EnableP2P : bool;
  DO_P2PTimeout : Z;
  DO_MeasureLatency : bool;
  DO_LatencyTimeout : Z;
}.
Definition DefaultOptions : DiscoveryOptions :=
  mkOptions (10 * Second) [4000; 8080] true (3 * Second) false (5 * Second) true (2 * Second).

(** The methods that run. *)
Definition enabled_methods (o : DiscoveryOptions) : list string :=
  (["localhost"] ++ (if DO_EnableMDNS o then ["mDNS"] else []) ++ (if DO_EnableP2P o then ["P2P"] else []))%list.
(** [nodes_in], [errors_in]: the methods in the order in which their nodes and their
    errors arrive. *)
Definition Discover (answer : string -> list DiscoveredNode * option string) (nodes_in errors_in : list string) (duration : Z)
    : DiscoveryResult :=
  result_of (concat (map (fun m => (answer m).1) nodes_in))
    (omap (fun m => (fun e => (m ++ " discovery: ") ++ e) <$> (answer m).2) errors_in) duration.
End order.

(** ** Local nodes ([localhost.go]) *)

Section local.
(** [tcp], [unix]: the time a connection takes, where it is made; [stat]: whether a file is
    there; [clock]: when an address is recorded. *)
Context (tcp unix : string -> option Z) (stat : string -> bool) (clock : string -> Time).

Definition port_address (host : string) (port : Z) : string := (host ++ ":") ++ pretty port.
Definition checkLocalPort (address : string) : option DiscoveredNode :=
  (fun l => mkNode address MethodLocal l None (clock address)) <$> tcp address.
Definition checkUnixSocket (path : string) : option DiscoveredNode :=
  if negb (stat path) then None
  else (fun l => mkNode ("unix://" ++ path) MethodLocal l None (clock path)) <$> unix path.
Definition socketPaths (home : string) : list string := ["/var/run/bibd.sock"; home ++ "/.config/bibd/bibd.sock"].
Definition first_socket (home : string) : list DiscoveredNode :=
  match omap checkUnixSocket (socketPaths home) with [] => [] | n :: _ => [n] end.
(** [arrive]: the order in which the goroutines add what they find. *)
Definition discoverLocalhost (arrive : list DiscoveredNode -> list DiscoveredNode) (windows : bool) (home : string) (o : DiscoveryOptions)
    : list DiscoveredNode :=
  arrive (omap checkLocalPort (map (port_address "localhost") (DO_LocalPorts o)) ++ (if windows then [] else first_socket home))%list.
Definition CheckAddress (address : string) : option DiscoveredNode :=
  (fun l => mkNode address MethodManual l None (clock address)) <$> tcp address.
Definition ScanPorts (arrive : list Z -> list Z) (host : string) (ports : list Z) : list Z :=
  arrive (List.filter (fun p => bool_decide (is_Some (tcp (port_address host p)))) ports).
End local.

(** ** Bootstrap peers and addresses ([p2p.go]) *)

(** [net.SplitHostPort]. *)
Fixpoint last_index (c : ascii) (s : list ascii) : option nat :=
  match s with
  | [] => None
  | d :: s' => match last_index c s' with Some i => Some (S i) | None => if d =?= c then Some 0%nat else None end
  end.
Fixpoint first_index (c : ascii) (s : list ascii) : option nat :=
  match s with
  | [] => None
  | d :: s' => if d =?= c then Some 0%nat else S <$> first_index c s'
  end.
Definition has_byte (c : ascii) (s : list ascii) : bool := existsb (fun d => d =?= c) s.
Definition SplitHostPort (hostport : string) : option (string * string) :=
  let s := bytes_of hostport in
  match last_index ":"%char s with
  | None => None
  | Some i =>
      let done host j k :=
        if has_byte "["%char (drop j s) || has_byte "]"%char (drop k s) then None
        else Some (str_of host, str_of (drop (S i) s)) in
      if head s =?= Some "["%char then
        match first_index "]"%char s with
        | None => None
        | Some e => if (S e =? i)%nat then done (take (e - 1) (drop 1 s)) 1%nat (S e) else None
        end
      else if has_byte ":"%char (take i s) then None else done (take i s) 0%nat 0%nat
  end.

(** [lookup]: the addresses of a host; [measure]: the time a connection takes. *)
Definition probeP2PPeer (lookup : string -> option (list string)) (measure : string -> option Z) (clock : string -> Time)
    (measureLatency : bool) (address : string) : option DiscoveredNode :=
  match SplitHostPort address with
  | None => None
  | Some (host, port) =>
      match lookup host with
      | None | Some [] => None
      | Some (ip :: _) =>
          let node l := mkNode address MethodP2P l None (clock address) in
          if measureLatency then node <$> measure ((ip ++ ":") ++ port) else Some (node 0)
      end
  end.
Record P2PDiscoveryConfig := mkP2PConfig {
  PD_BootstrapPeers : list string;
  PD_Timeout : Z;
  PD_MaxPeers : Z;
  PD_MeasureLatency : bool;
  PD_LatencyTimeout : Z;
}.
Definition DefaultP2PDiscoveryConfig : P2PDiscoveryConfig :=
  mkP2PConfig ["bootstrap.bib.dev:4001"] (10 * Second) 50 true (2 * Second).
(** The peers are fixed. *)
Definition discoverP2P lookup measure clock (arrive : list DiscoveredNode -> list DiscoveredNode) (measureLatency : bool) : list DiscoveredNode :=
  arrive (omap (probeP2PPeer lookup measure clock measureLatency) ["bootstrap.bib.dev:4001"]).
Definition DiscoverP2P lookup measure clock arrive (c : P2PDiscoveryConfig) : list DiscoveredNode :=
  discoverP2P lookup measure clock arrive (PD_MeasureLatency c).
Definition DiscoverFromBootstrapPeers lookup measure clock (arrive : list DiscoveredNode -> list DiscoveredNode) (peers : list string)
    : list DiscoveredNode :=
  sortNodesByLatency (arrive (omap (probeP2PPeer lookup measure clock true) peers)).

(** [fmt.Sscanf(s, "%d", &port)] leaves [port] where there is no number. *)
Definition scan_into (port : Z) (s : list ascii) : Z :=
  let s := drop_blanks s in
  let '(neg, t) := match s with "-"%char :: t => (true, t) | "+"%char :: t => (false, t) | _ => (false, s) end in
  match t with
  | c :: _ =>
      let n := if neg then - scan_digits 0 t else scan_digits 0 t in
      if is_digit c && (- 2 ^ 63 <=? n) && (n <? 2 ^ 63) then n else port
  | [] => port
  end.
Definition multiaddr_step (acc : string * Z) (p : list ascii * list ascii) : string * Z :=
  let name := str_of p.1 in
  if mem name ["ip4"; "ip6"; "dns4"; "dns6"] then (str_of p.2, acc.2)
  else if mem name ["tcp"; "udp"] then (acc.1, scan_into acc.2 p.2)
  else acc.
Definition ParseMultiaddr (multiaddr : string) : option (string * Z) :=
  let parts := split_on (fun c => c =?= "/"%char) (bytes_of multiaddr) in
  if (length parts <? 5)%nat then None
  else
    let '(host, port) := fold_left multiaddr_step (combine parts (tail parts)) ("", 0) in
    if (host =?= "") || (port =? 0) then None else Some (host, port).
Definition MultiaddrsToAddresses (multiaddrs : list string) : list string :=
  fold_left (fun acc ma =>
    match ParseMultiaddr ma with
    | None => acc
    | Some (host, port) => let addr := port_address host port in if mem addr acc then acc else (acc ++ [addr])%list
    end) multiaddrs [].
Definition ends_with (s suffix : string) : bool :=
  let b := bytes_of s in let e := bytes_of suffix in
  (length e <=? length b)%nat && bool_decide (drop (length b - length e) b = e).
Definition IsPublicBootstrapPeer (address : string) : bool :=
  let host := match SplitHostPort address with Some (h, _) => h | None => address end in
  existsb (fun peer => (host =?= peer) || ends_with host ("." ++ peer)) ["bootstrap.bib.dev"; "bib.dev"].

(** ** Tests of connections ([connection.go]) *)

Inductive ConnectionStatus :=
| StatusConnected | StatusDisconnected | StatusTimeout | StatusRefused | StatusUnreachable | StatusAuthFailed | StatusTLSError | StatusUnknown.
#[export] Instance ConnectionStatus_dec : EqDecision ConnectionStatus.
Proof. solve_decision. Defined.

Record TLSInfo := mkTLSInfo {
  TI_Enabled : bool;
  TI_Fingerprint : string;
  TI_Subject : string;
  TI_Issuer : string;
  TI_NotAfter : Time;
  TI_Trusted : bool;
}.
Record ConnectionTestResult := mkConnectionTestResult {
  CT_Address : string;
  CT_Status : ConnectionStatus;
  CT_Latency : Z;
  CT_NodeInfo : option NodeInfo;
  CT_TLSInfo : option TLSInfo;
  CT_Error : string;
}.
Record ConnectionTester := mkConnectionTester {
  TE_Timeout : Z;
  TE_UseTLS : bool;
  TE_SkipTLSVerify : bool;
}.
Definition NewConnectionTester : ConnectionTester := mkConnectionTester (10 * Second) false true.

(** An error of the network: its text, and whether it is one that ran out of time. *)
Record NetError := mkNetError { NE_text : string; NE_timeout : bool }.

Section tests.
Context `{UnicodeTables}.

Definition contains_fold (s substr : string) : bool := Contains (bytes_of (ToLower s)) (bytes_of (ToLower substr)).
Definition classifyError (err : option NetError) : ConnectionStatus :=
  match err with
  | None => StatusConnected
  | Some e =>
      let has := contains_fold (NE_text e) in
      if NE_timeout e then StatusTimeout
      else if has "connection refused" then StatusRefused
      else if has "network is unreachable" || has "no route to host" then StatusUnreachable
      else if has "tls" || has "certificate" || has "x509" then StatusTLSError
      else if has "authentication" || has "unauthorized" || has "unauthenticated" then StatusAuthFailed
      else StatusDisconnected
  end.

(** What the node answers: the plain connection, a handshake that is not verified with the
    certificate that is shown, the connection of gRPC with and without TLS, verified or
    not, and the two calls. *)
Record Peer := mkPeer {
  pe_tcp : option NetError;
  pe_handshake : option (option TLSInfo);
  pe_dial : bool -> bool -> option NetError;
  pe_GetNodeInfo : option NodeInfo;
  pe_Check : option string;
  pe_serving : bool;
  pe_tcp_time : Z;
  pe_grpc_time : Z;
}.
Definition probeTLS (p : Peer) : TLSInfo :=
  match pe_handshake p with
  | None => mkTLSInfo false "" "" "" 0 false
  | Some None => mkTLSInfo true "" "" "" 0 false
  | Some (Some i) => mkTLSInfo true (TI_Fingerprint i) (TI_Subject i) (TI_Issuer i) (TI_NotAfter i) false
  end.
Definition dialGRPC (t : ConnectionTester) (p : Peer) : option NetError * TLSInfo :=
  let info := if TE_UseTLS t then mkTLSInfo true "" "" "" 0 false else probeTLS p in
  (pe_dial p (TI_Enabled info) (negb (TE_SkipTLSVerify t)), info).
(** The status of the health check is not looked at. *)
Definition getNodeInfo (p : Peer) : result string NodeInfo :=
  match pe_GetNodeInfo p with
  | Some i => Ok (mkNodeInfo "" (NI_Version i) (NI_PeerID i) (NI_Mode i))
  | None => match pe_Check p with Some e => Err e | None => Ok (mkNodeInfo "" "" "" "") end
  end.
Definition TestConnection (t : ConnectionTester) (address : string) (p : Peer) : ConnectionTestResult :=
  match pe_tcp p with
  | Some e => mkConnectionTestResult address (classifyError (Some e)) (pe_tcp_time p) None None (NE_text e)
  | None =>
      let '(err, tls) := dialGRPC t p in
      match err with
      | Some e => mkConnectionTestResult address (classifyError (Some e)) (pe_tcp_time p) None (Some tls) (NE_text e)
      | None =>
          match getNodeInfo p with
          | Err e =>
              mkConnectionTestResult address StatusConnected (pe_grpc_time p) None (Some tls) ("connected but health check failed: " ++ e)
          | Ok i => mkConnectionTestResult address StatusConnected (pe_grpc_time p) (Some i) (Some tls) ""
          end
      end
  end.
Definition TestConnections (t : ConnectionTester) (peers : string -> Peer) (addresses : list string) : list ConnectionTestResult :=
  map (fun a => TestConnection t a (peers a)) addresses.
Definition TestNodes (t : ConnectionTester) (peers : string -> Peer) (nodes : list DiscoveredNode) : list ConnectionTestResult :=
  TestConnections t peers (map DN_Address nodes).

(** ** Tests of authentication ([auth.go]) *)

Inductive AuthStatus :=
| AuthStatusSuccess | AuthStatusFailed | AuthStatusNoKey | AuthStatusKeyRejected | AuthStatusNotRegistered
| AuthStatusAutoRegistered | AuthStatusConnectionError | AuthStatusUnknown.
#[export] Instance AuthStatus_dec : EqDecision AuthStatus.
Proof. solve_decision. Defined.

Record AuthSessionInfo := mkAuthSessionInfo {
  SN_UserID : string;
  SN_Username : string;
  SN_Role : string;
  SN_ExpiresAt : Time;
  SN_IsNewUser : bool;
}.
Record AuthTestResult := mkAuthTestResult {
  AT_Address : string;
  AT_Status : AuthStatus;
  AT_SessionToken : string;
  AT_SessionInfo : option AuthSessionInfo;
  AT_Error : string;
}.
Definition classifyAuthError (err : option string) : AuthStatus :=
  match err with
  | None => AuthStatusSuccess
  | Some e =>
      let has := contains_fold e in
      if has "not registered" || has "user not found" || has "unknown user" then AuthStatusNotRegistered
      else if has "key rejected" || has "invalid signature" || has "signature verification failed" then AuthStatusKeyRejected
      else if has "connection" || has "unavailable" || has "deadline exceeded" then AuthStatusConnectionError
      else AuthStatusFailed
  end.

(** The answers of the authentication service; an error is its text. *)
Record AuthCalls := mkAuthCalls {
  ac_dial : option string;
  ac_sign : option (list Z -> option (list Z));
  ac_Challenge : result string (string * list Z);
  ac_Verify : string -> list Z -> result string (string * AuthSessionInfo);
}.
Definition authenticate (c : AuthCalls) : result string (string * AuthSessionInfo) :=
  match ac_sign c with
  | None => Err "failed to create signer"
  | Some sign =>
      match ac_Challenge c with
      | Err e => Err ("failed to get challenge: " ++ e)
      | Ok (id, challenge) =>
          match sign challenge with
          | None => Err "failed to sign challenge"
          | Some blob =>
              match ac_Verify c id blob with
              | Err e => Err ("challenge verification failed: " ++ e)
              | Ok r => Ok r
              end
          end
      end
  end.
Definition TestAuth (hasKey : bool) (address : string) (c : AuthCalls) : AuthTestResult :=
  if negb hasKey then mkAuthTestResult address AuthStatusNoKey "" None "no identity key available"
  else match ac_dial c with
       | Some e => mkAuthTestResult address AuthStatusConnectionError "" None ("connection failed: " ++ e)
       | None =>
           match authenticate c with
           | Err e => mkAuthTestResult address (classifyAuthError (Some e)) "" None e
           | Ok (token, info) =>
               mkAuthTestResult address (if SN_IsNewUser info then AuthStatusAutoRegistered else AuthStatusSuccess) token (Some info) ""
           end
       end.
Definition TestAuths (hasKey : bool) (calls : string -> AuthCalls) (addresses : list string) : list AuthTestResult :=
  map (fun a => TestAuth hasKey a (calls a)) addresses.
Definition authenticated (r : AuthTestResult) : bool :=
  (AT_Status r =?= AuthStatusSuccess) || (AT_Status r =?= AuthStatusAutoRegistered).
Definition AuthSummary (results : list AuthTestResult) : string :=
  (pretty (Z.of_nat (length (List.filter authenticated results))) ++ " authenticated, ") ++
  (pretty (Z.of_nat (length (List.filter (fun r => negb (authenticated r)) results))) ++ " failed").
End tests.

(** ** Health of a network ([network_health.go]) *)

Inductive NetworkHealthStatus := NetworkHealthGood | NetworkHealthDegraded | NetworkHealthPoor | NetworkHealthOffline.
#[export] Instance NetworkHealthStatus_dec : EqDecision NetworkHealthStatus.
Proof. solve_decision. Defined.

Record HealthNetworkStats := mkNetworkStats {
  NS_ConnectedPeers : Z;
  NS_KnownPeers : Z;
  NS_BootstrapConnected : bool;
  NS_DHTRoutingTableSize : Z;
  NS_ActiveStreams : Z;
  NS_BytesSent : Z;
  NS_BytesReceived : Z;
}.
Record NetworkHealthResult := mkHealthResult {
  NH_Address : string;
  NH_Status : NetworkHealthStatus;
  NH_NodeInfo : option NodeInfo;
  NH_Network : option HealthNetworkStats;
  NH_Error : string;
  NH_Duration : Z;
}.
Record NetworkHealthSummary := mkHealthSummary {
  HS_TotalNodes : Z;
  HS_HealthyNodes : Z;
  HS_DegradedNodes : Z;
  HS_OfflineNodes : Z;
  HS_TotalConnectedPeers : Z;
  HS_AverageConnectedPeers : float64;
  HS_BootstrapConnected : bool;
  HS_OverallStatus : NetworkHealthStatus;
}.

Definition determineHealthStatus (stats : option HealthNetworkStats) : NetworkHealthStatus :=
  match stats with
  | None => NetworkHealthOffline
  | Some s =>
      if (0 <? NS_ConnectedPeers s) && NS_BootstrapConnected s then NetworkHealthGood
      else if 0 <? NS_ConnectedPeers s then NetworkHealthDegraded
      else if NS_BootstrapConnected s then NetworkHealthDegraded
      else NetworkHealthPoor
  end.

(** [dial] and [answer]: the connection and the answer, or the texts of their errors. *)
Definition CheckHealth (address : string) (dial : option string) (answer : result string (NodeInfo * option HealthNetworkStats)) (duration : Z)
    : NetworkHealthResult :=
  match dial with
  | Some e => mkHealthResult address NetworkHealthOffline None None ("connection failed: " ++ e) duration
  | None =>
      match answer with
      | Err e => mkHealthResult address NetworkHealthOffline None None ("failed to get node info: " ++ e) duration
      | Ok (info, network) =>
          mkHealthResult address (match network with Some _ => determineHealthStatus network | None => NetworkHealthGood end)
            (Some (mkNodeInfo "" (NI_Version info) (NI_PeerID info) (NI_Mode info))) network "" duration
      end
  end.

Definition has_status (s : NetworkHealthStatus) (r : NetworkHealthResult) : bool := NH_Status r =?= s.
Definition count_status (s : NetworkHealthStatus) (rs : list NetworkHealthResult) : Z := Z.of_nat (length (List.filter (has_status s) rs)).
Definition add_peers (total : Z) (r : NetworkHealthResult) : Z :=
  match NH_Network r with Some n => int32 (total + NS_ConnectedPeers n) | None => total end.
Definition GetSummary (rs : list NetworkHealthResult) : NetworkHealthSummary :=
  let total := Z.of_nat (length rs) in
  let good := count_status NetworkHealthGood rs in
  let degraded := count_status NetworkHealthDegraded rs + count_status NetworkHealthPoor rs in
  let offline := count_status NetworkHealthOffline rs in
  let healthyCount := good + count_status NetworkHealthDegraded rs in
  let peers := fold_left add_peers rs 0 in
  let bootstrap := existsb (fun r => match NH_Network r with Some n => NS_BootstrapConnected n | None => false end) rs in
  mkHealthSummary total good degraded offline peers
    (if 0 <? healthyCount then fdiv (float_of_int peers) (float_of_int healthyCount) else fzero) bootstrap
    (if offline =? total then NetworkHealthOffline
     else if (0 <? offline) || (good <? degraded) then NetworkHealthDegraded
     else if negb bootstrap && (peers =? 0) then NetworkHealthPoor
     else NetworkHealthGood).

Definition NetworkHealthBrief (rs : list NetworkHealthResult) : string :=
  let good := count_status NetworkHealthGood rs + count_status NetworkHealthDegraded rs in
  ((((pretty good ++ "/") ++ pretty (Z.of_nat (length rs))) ++ " nodes healthy, ") ++ pretty (fold_left add_peers rs 0)) ++ " peers connected".

(** ** Texts *)

Definition check_mark : string := "✓".
Definition cross_mark : string := "✗".
Definition FormatNode (i : nat) (n : DiscoveredNode) : string :=
  (pretty (Z.of_nat (S i)) ++ ". ") ++ DN_Address n ++
  (if 0 <? DN_Latency n then (" (" ++ Duration_String (Round_ms (DN_Latency n))) ++ ")" else "") ++
  (" [" ++ DN_Method n) ++ "]" ++
  match DN_NodeInfo n with Some i => if NI_Name i =?= "" then "" else " - " ++ NI_Name i | None => "" end.
Definition line_end : string := String (ascii_of_nat 10) "".
Definition FormatNodeList (nodes : list DiscoveredNode) : string :=
  if (length nodes =? 0)%nat then "No nodes found"
  else foldr (fun s acc => s ++ line_end ++ acc) "" (imap FormatNode nodes).

Definition ConnectionStatus_text (s : ConnectionStatus) : string :=
  match s with
  | StatusConnected => "connected" | StatusDisconnected => "disconnected" | StatusTimeout => "timeout" | StatusRefused => "refused"
  | StatusUnreachable => "unreachable" | StatusAuthFailed => "auth_failed" | StatusTLSError => "tls_error" | StatusUnknown => "unknown"
  end.
Definition ConnectionStatus_icon (s : ConnectionStatus) : string :=
  match s with
  | StatusConnected => check_mark
  | StatusDisconnected | StatusRefused | StatusUnreachable => cross_mark
  | StatusTimeout => "⏱"
  | StatusTLSError => "🔒"
  | StatusAuthFailed => "🔑"
  | StatusUnknown => "?"
  end.
Definition FormatConnectionResult (r : ConnectionTestResult) : string :=
  (ConnectionStatus_icon (CT_Status r) ++ " ") ++ CT_Address r ++
  (if CT_Status r =?= StatusConnected then
     ((" (" ++ Duration_String (Round_ms (CT_Latency r))) ++ ")") ++
     match CT_NodeInfo r with
     | Some i =>
         (if NI_Version i =?= "" then "" else " v" ++ NI_Version i) ++ (if NI_Mode i =?= "" then "" else (" [" ++ NI_Mode i) ++ "]")
     | None => ""
     end ++
     match CT_TLSInfo r with Some t => if TI_Enabled t then " 🔒" else "" | None => "" end
   else (" - " ++ ConnectionStatus_text (CT_Status r)) ++ (if CT_Error r =?= "" then "" else ": " ++ CT_Error r)).

Definition NetworkHealthStatusIcon (s : NetworkHealthStatus) : string :=
  match s with
  | NetworkHealthGood => check_mark | NetworkHealthDegraded => "⚠" | NetworkHealthPoor => cross_mark | NetworkHealthOffline => "⊘"
  end.
Definition FormatNetworkHealthResult (r : NetworkHealthResult) : string :=
  ((NetworkHealthStatusIcon (NH_Status r) ++ " ") ++ NH_Address r) ++
  (if NH_Status r =?= NetworkHealthOffline then " - offline" ++ (if NH_Error r =?= "" then "" else ": " ++ NH_Error r)
   else
     ((" (" ++ Duration_String (Round_ms (NH_Duration r))) ++ ")") ++
     match NH_Network r with
     | Some n =>
         ((" - " ++ pretty (NS_ConnectedPeers n)) ++ " peers") ++
         (if NS_BootstrapConnected n then " 🔗bootstrap" else " ⚡no-bootstrap") ++
         (if 0 <? NS_DHTRoutingTableSize n then " DHT:" ++ pretty (NS_DHTRoutingTableSize n) else "")
     | None => ""
     end ++
     match NH_NodeInfo r with Some i => if NI_Mode i =?= "" then "" else (" [" ++ NI_Mode i) ++ "]" | None => "" end).
Definition health_parts (rs : list NetworkHealthResult) : list string :=
  omap (fun p : NetworkHealthStatus * string => let n := count_status p.1 rs in if 0 <? n then Some ((pretty n ++ " ") ++ p.2) else None)
    [(NetworkHealthGood, "healthy"); (NetworkHealthDegraded, "degraded"); (NetworkHealthPoor, "poor"); (NetworkHealthOffline, "offline")].
Definition FormatNetworkHealthResults (rs : list NetworkHealthResult) : string :=
  (("Network Health Check Results: " ++ String.concat ", " (health_parts rs)) ++ line_end ++ line_end) ++
  foldr (fun r acc => FormatNetworkHealthResult r ++ line_end ++ acc) "" rs.

(** ** Theorems about merging *)

(** Measured nodes first, by their latencies. *)
Definition no_later (a b : DiscoveredNode) : Prop := DN_Latency b = 0 \/ (0 < DN_Latency a /\ DN_Latency a <= DN_Latency b).
Definition measured_ok (n : DiscoveredNode) : Prop := 0 <= DN_Latency n.

Lemma out_of_order_true a b : measured_ok a -> measured_ok b -> out_of_order a b = true -> no_later b a.
Proof. unfold out_of_order, no_later, measured_ok. intros. lia. Qed.
Lemma out_of_order_false a b : measured_ok a -> measured_ok b -> out_of_order a b = false -> no_later a b.
Proof. unfold out_of_order, no_later, measured_ok. intros. lia. Qed.
Lemma no_later_trans a b c : no_later a b -> no_later b c -> no_later a c.
Proof. unfold no_later. lia. Qed.

Lemma bubble_pass_permutation k l : bubble_pass k l ≡ₚ l.
Proof.
  revert l. induction k as [|k IH]; intros [|a [|b l]]; try done. cbn [bubble_pass].
  destruct (out_of_order a b); rewrite IH; [apply Permutation_swap|done].
Qed.

(** A pass over a front leaves what comes after it, and puts the last of the front to its
    end. *)
Lemma bubble_pass_front a l rest :
  Forall measured_ok (a :: l) ->
  exists l' w, bubble_pass (length l) (a :: l ++ rest) = (l' ++ w :: rest)%list /\ (l' ++ [w])%list ≡ₚ a :: l /\
    Forall (fun x => no_later x w) l'.
Proof.
  revert a. induction l as [|b l IH]; intros a Hok; [by exists [], a|]. cbn [length app bubble_pass].
  apply Forall_cons in Hok as [Ha Hok]. pose proof (proj1 (proj1 (Forall_cons _ _ _) Hok)) as Hb. pose proof (proj2 (proj1 (Forall_cons _ _ _) Hok)) as Hl.
  destruct (out_of_order a b) eqn:Ho.
  - destruct (IH a (Forall_cons_2 _ _ _ Ha Hl)) as (l' & w & Heq & Hperm & Hmax). rewrite Heq. exists (b :: l'), w. split_and!; [done| |].
    + cbn. rewrite Hperm. apply Permutation_swap.
    + apply Forall_cons. split; [|done]. apply out_of_order_true in Ho; [|done..].
      assert (Hin : a ∈ (l' ++ [w])%list) by (rewrite Hperm; set_solver).
      apply elem_of_app in Hin as [Hin|Hin]; [|by apply list_elem_of_singleton in Hin as <-].
      eapply no_later_trans; [exact Ho|]. by eapply Forall_forall in Hmax.
  - destruct (IH b (Forall_cons_2 _ _ _ Hb Hl)) as (l' & w & Heq & Hperm & Hmax). rewrite Heq. exists (a :: l'), w. split_and!; [done| |].
    + cbn. by rewrite Hperm.
    + apply Forall_cons. split; [|done]. apply out_of_order_false in Ho; [|done..].
      assert (Hin : b ∈ (l' ++ [w])%list) by (rewrite Hperm; set_solver).
      apply elem_of_app in Hin as [Hin|Hin]; [|by apply list_elem_of_singleton in Hin as <-].
      eapply no_later_trans; [exact Ho|]. by eapply Forall_forall in Hmax.
Qed.

(** After [i] passes the last [i] nodes are in order and none of the others comes later. *)
Definition passed (i : nat) (nodes l : list DiscoveredNode) : Prop :=
  exists front back, l = (front ++ back)%list /\ length back = i /\ l ≡ₚ nodes /\ StronglySorted no_later back /\
    Forall (fun x => Forall (no_later x) back) front.

Lemma passed_step i nodes l :
  Forall measured_ok nodes -> (i < length nodes)%nat -> passed i nodes l -> passed (S i) nodes (bubble_pass (length nodes - i - 1) l).
Proof.
  intros Hok Hi (front & back & -> & Hlen & Hperm & Hs & Hf).
  pose proof (Permutation_length Hperm) as Hn. rewrite length_app in Hn.
  destruct front as [|a front]; [cbn in Hn; lia|].
  assert (Hfront : Forall measured_ok (a :: front)).
  { apply (Forall_Permutation measured_ok _ (fun x => iff_refl _) _ _ (symmetry Hperm)) in Hok. by apply Forall_app in Hok as [? _]. }
  destruct (bubble_pass_front a front back Hfront) as (l' & w & Heq & Hp & Hmax).
  assert (Hk : (length nodes - i - 1 = length front)%nat) by (cbn in Hn; lia). rewrite Hk. cbn [app]. rewrite Heq.
  exists l', (w :: back). split_and!; [done|cbn; lia| | |].
  - rewrite <- Hperm. change (w :: back) with ([w] ++ back)%list. by rewrite app_assoc, Hp.
  - constructor; [done|]. assert (Hw : w ∈ a :: front) by (rewrite <- Hp; set_solver). by eapply Forall_forall in Hf.
  - apply Forall_forall. intros x Hx. apply Forall_cons. split; [by eapply Forall_forall in Hmax|].
    assert (Hx' : x ∈ a :: front) by (rewrite <- Hp; set_solver). by eapply Forall_forall in Hf.
Qed.

Lemma sortNodesByLatency_sorts nodes :
  Forall measured_ok nodes ->
  StronglySorted no_later (sortNodesByLatency nodes) /\ sortNodesByLatency nodes ≡ₚ nodes.
Proof.
  intros Hok. unfold sortNodesByLatency.
  assert (Hp : forall k i l, passed i nodes l -> (i + k <= length nodes)%nat ->
    passed (i + k) nodes (fold_left (fun l i => bubble_pass (length nodes - i - 1) l) (seq i k) l)).
  { induction k as [|k IH]; intros i l Hl Hk; cbn; [by rewrite Nat.add_0_r|]. rewrite Nat.add_succ_r. apply (IH (S i)); [|lia].
    apply passed_step; [done|lia|done]. }
  specialize (Hp (length nodes - 1)%nat 0%nat nodes). destruct Hp as (front & back & -> & Hlen & Hperm & Hs & Hf); [|lia|].
  - exists nodes, []. rewrite app_nil_r. split_and!; [done..|constructor|by apply Forall_true].
  - split; [|done]. pose proof (Permutation_length Hperm) as Hn. rewrite length_app in Hn.
    destruct front as [|a [|b front]]; [done| |cbn in Hn; lia]. cbn. constructor; [done|]. by apply Forall_cons in Hf as [? _].
Qed.

(** What a map that was merged has: the fastest node of every address. *)
Definition merged_of (nodes : list DiscoveredNode) (m : gmap string DiscoveredNode) : Prop :=
  (forall a n, m !! a = Some n -> DN_Address n = a /\ n ∈ nodes /\
     forall x, x ∈ nodes -> DN_Address x = a -> no_later n x) /\
  (forall x, x ∈ nodes -> is_Some (m !! DN_Address x)).

(** One more node, where [w] is the fastest of its address. *)
Lemma merged_more nodes x m m' w :
  merged_of nodes m -> (forall a, a <> DN_Address x -> m' !! a = m !! a) ->
  m' !! DN_Address x = Some w -> DN_Address w = DN_Address x -> w ∈ (nodes ++ [x])%list -> no_later w x ->
  (forall e, m !! DN_Address x = Some e -> no_later w e) ->
  merged_of (nodes ++ [x])%list m'.
Proof.
  intros [Hm Hall] Hother Hw Haw Hin Hx He. split.
  - intros a n Hn. destruct (decide (a = DN_Address x)) as [->|Hne].
    + rewrite Hw in Hn. injection Hn as <-. split_and!; [done..|]. intros y Hy Hay.
      apply elem_of_app in Hy as [Hy|Hy]; [|by apply list_elem_of_singleton in Hy as ->].
      destruct (Hall y Hy) as [e Hy']. rewrite Hay in Hy'. apply (no_later_trans w e y); [by apply He|].
      by apply (Hm _ _ Hy').
    + rewrite Hother in Hn by done. destruct (Hm _ _ Hn) as (<- & ? & Hb). split_and!; [done|set_solver|]. intros y Hy Hay.
      apply elem_of_app in Hy as [Hy|Hy]; [by apply Hb|]. apply list_elem_of_singleton in Hy as ->. congruence.
  - intros y Hy. destruct (decide (DN_Address y = DN_Address x)) as [->|Hne]; [by rewrite Hw|]. rewrite Hother by done.
    apply elem_of_app in Hy as [Hy|Hy]; [by apply Hall|]. by apply list_elem_of_singleton in Hy as ->.
Qed.

Lemma keep_faster_merged nodes m x :
  measured_ok x -> Forall measured_ok nodes -> merged_of nodes m -> merged_of (nodes ++ [x])%list (keep_faster m x).
Proof.
  intros Hx Hok Hm. unfold keep_faster. destruct (m !! DN_Address x) as [e|] eqn:He.
  - destruct (proj1 Hm _ _ He) as (Ha & Hin & _). assert (Hep : measured_ok e) by (by eapply Forall_forall in Hok).
    destruct ((0 <? DN_Latency x) && ((DN_Latency e =? 0) || (DN_Latency x <? DN_Latency e))) eqn:Hc.
    + apply (merged_more _ _ m _ x); [done|by intros; apply lookup_insert_ne|apply lookup_insert_eq|done|set_solver|..].
      * unfold no_later, measured_ok in *. lia.
      * intros e' [= <-]%(eq_trans (eq_sym He)). unfold no_later, measured_ok in *. lia.
    + apply (merged_more _ _ m _ e); [done..|set_solver| |].
      * unfold no_later, measured_ok in *. lia.
      * intros e' [= <-]%(eq_trans (eq_sym He)). unfold no_later, measured_ok in *. lia.
  - apply (merged_more _ _ m _ x); [done|by intros; apply lookup_insert_ne|apply lookup_insert_eq|done|set_solver|..].
    + unfold no_later, measured_ok in *. lia.
    + intros e' Hc. congruence.
Qed.

Lemma node_map_merged nodes : Forall measured_ok nodes -> merged_of nodes (node_map nodes).
Proof.
  induction nodes as [|x nodes IH] using rev_ind; intros Hok; [split; set_solver|].
  apply Forall_app in Hok as [Hok Hx]. unfold node_map. rewrite fold_left_app. cbn.
  apply keep_faster_merged; [by inversion Hx|done|by apply IH].
Qed.

(** Reading a map gives its values, in some order. *)
Definition reads_all (read : gmap string DiscoveredNode -> list DiscoveredNode) : Prop :=
  forall m, read m ≡ₚ map snd (map_to_list m).

Lemma read_merged read nodes :
  reads_all read -> Forall measured_ok nodes ->
  (forall n, n ∈ read (node_map nodes) <-> node_map nodes !! DN_Address n = Some n) /\
  NoDup (map DN_Address (read (node_map nodes))).
Proof.
  intros Hr Hok. destruct (node_map_merged nodes Hok) as [Hm Hall]. split.
  - intros n. rewrite (Hr _). split.
    + intros Hin. apply list_elem_of_fmap in Hin as ([a n'] & -> & Hin). apply elem_of_map_to_list in Hin. cbn.
      by destruct (Hm _ _ Hin) as [-> _].
    + intros Hn. apply list_elem_of_fmap. exists (DN_Address n, n). split; [done|]. by apply elem_of_map_to_list.
  - assert (Hp : map DN_Address (read (node_map nodes)) ≡ₚ map fst (map_to_list (node_map nodes))).
    { rewrite (Hr _), map_map. erewrite map_ext_in; [done|]. intros [a n] Hin%list_elem_of_In%elem_of_map_to_list.
      cbn. by apply Hm in Hin as [? _]. }
    rewrite Hp. apply NoDup_fst_map_to_list.
Qed.

(** What is found is sorted, one for every address, and the fastest of its address. *)
Lemma result_fastest read nodes errors duration :
  reads_all read -> Forall measured_ok nodes ->
  let found := DR_Nodes (result_of read nodes errors duration) in
  StronglySorted no_later found /\ NoDup (map DN_Address found) /\
  (forall x, x ∈ nodes -> exists n, n ∈ found /\ DN_Address n = DN_Address x) /\
  (forall n, n ∈ found -> n ∈ nodes /\ forall x, x ∈ nodes -> DN_Address x = DN_Address n -> no_later n x).
Proof.
  intros Hr Hok. cbn. destruct (read_merged read nodes Hr Hok) as [Hin Hnd]. destruct (node_map_merged nodes Hok) as [Hm Hall].
  assert (Hmeas : Forall measured_ok (read (node_map nodes))).
  { apply Forall_forall. intros n Hn%Hin. destruct (Hm _ _ Hn) as (_ & Hn' & _). by eapply Forall_forall in Hok. }
  destruct (sortNodesByLatency_sorts _ Hmeas) as [Hs Hp]. split_and!; [done| | |].
  - by rewrite Hp.
  - intros x Hx. destruct (Hall x Hx) as [n Hn]. destruct (Hm _ _ Hn) as (Ha & _ & _). exists n. split; [|done].
    rewrite Hp. apply Hin. by rewrite Ha.
  - intros n Hn. rewrite Hp in Hn. apply Hin in Hn. destruct (Hm _ _ Hn) as (_ & ? & ?). done.
Qed.

Lemma string_concat (a b c : string) : a ++ b ++ c = (a ++ b) ++ c.
Proof. induction a as [|x a IH]; [done|]. exact (f_equal (String.String x) IH). Qed.

(** C39: whatever order the methods that are turned on finish in and a map is read in, if they
    find nodes with latencies that are not negative, discovery returns one node for every
    address that one of them found: one that was found there, and none that was found
    there is faster.  They are in the order of their latencies, and those that were not
    measured, whose latency is zero, come last.  The errors are those of the methods that
    failed, each with the name of its method. *)
Theorem discovery_fastest_first o read answer nodes_in errors_in d :
  reads_all read -> nodes_in ≡ₚ enabled_methods o -> errors_in ≡ₚ enabled_methods o ->
  (forall m, m ∈ enabled_methods o -> Forall measured_ok (answer m).1) ->
  let r := Discover read answer nodes_in errors_in d in
  let on x := exists m, m ∈ enabled_methods o /\ x ∈ (answer m).1 in
  StronglySorted no_later (DR_Nodes r) /\ NoDup (map DN_Address (DR_Nodes r)) /\
  (forall x, on x -> exists n, n ∈ DR_Nodes r /\ DN_Address n = DN_Address x) /\
  (forall n, n ∈ DR_Nodes r -> on n /\ forall x, on x -> DN_Address x = DN_Address n -> no_later n x) /\
  (forall e, e ∈ DR_Errors r <->
     exists m text, m ∈ enabled_methods o /\ (answer m).2 = Some text /\ e = m ++ " discovery: " ++ text).
Proof.
  intros Hr Hn He Hok r on. set (nodes := concat (map (fun m => (answer m).1) nodes_in)).
  assert (Hon : forall x, x ∈ nodes <-> on x).
  { intros x. subst nodes on. cbn. rewrite list_elem_of_In, in_concat. setoid_rewrite in_map_iff.
    setoid_rewrite <- list_elem_of_In. setoid_rewrite <- Hn. naive_solver. }
  assert (Hm : Forall measured_ok nodes).
  { apply Forall_forall. intros x (m & Hm & Hx)%Hon. specialize (Hok m Hm). by eapply Forall_forall in Hok. }
  destruct (result_fastest read nodes (DR_Errors r) d Hr Hm) as (Hs & Hnd & Hall & Hb). split_and!; [done|done|..].
  - intros x Hx%Hon. by apply Hall.
  - intros n Hin. destruct (Hb n Hin) as [Hno Hbest]. split; [by apply Hon|]. intros x Hx%Hon. by apply Hbest.
  - intros e. subst r. unfold Discover, result_of. cbn [DR_Errors]. rewrite list_elem_of_omap. split.
    + intros (m & Hme & (text & Ht & ->)%fmap_Some). exists m, text. split_and!; [by rewrite <- He|done|]. by rewrite <- string_concat.
    + intros (m & text & Hme & Ht & ->). exists m. split; [by rewrite He|]. cbv beta. rewrite Ht. cbn. f_equal. by rewrite <- string_concat.
Qed.

Definition address_latency (n : DiscoveredNode) : string * Z := (DN_Address n, DN_Latency n).

(** The order in which nodes are found decides nothing but which of two equally fast ones
    an address gets. *)
Lemma result_order_irrelevant read read' nodes nodes' errors errors' d d' :
  reads_all read -> reads_all read' -> Forall measured_ok nodes -> nodes ≡ₚ nodes' ->
  map address_latency (DR_Nodes (result_of read nodes errors d)) ≡ₚ map address_latency (DR_Nodes (result_of read' nodes' errors' d')).
Proof.
  intros Hr Hr' Hok Hp. assert (Hok' : Forall measured_ok nodes') by (by rewrite <- Hp).
  assert (Hnd : forall l, NoDup (map DN_Address l) -> NoDup (map address_latency l)).
  { intros l Hl. apply (NoDup_fmap_1 fst). rewrite <- list_fmap_compose. exact Hl. }
  assert (Hsub : forall read read' nodes nodes' errors errors' d d', reads_all read -> reads_all read' ->
    Forall measured_ok nodes -> Forall measured_ok nodes' -> nodes ≡ₚ nodes' -> forall x,
    x ∈ map address_latency (DR_Nodes (result_of read nodes errors d)) ->
    x ∈ map address_latency (DR_Nodes (result_of read' nodes' errors' d'))).
  { clear. intros read read' nodes nodes' errors errors' d d' Hr Hr' Hok Hok' Hp x.
    destruct (result_fastest read nodes errors d Hr Hok) as (_ & _ & _ & Hb).
    destruct (result_fastest read' nodes' errors' d' Hr' Hok') as (_ & _ & Hall & Hb').
    intros (n & -> & Hn)%list_elem_of_fmap. destruct (Hb n Hn) as [Hin Hbest].
    destruct (Hall n ltac:(by rewrite <- Hp)) as (n' & Hn' & Ha). destruct (Hb' n' Hn') as [Hin' Hbest'].
    apply list_elem_of_fmap. exists n'. split; [|done]. unfold address_latency. rewrite Ha. f_equal.
    assert (Hmn : measured_ok n) by (by eapply Forall_forall in Hok). assert (Hmn' : measured_ok n') by (by eapply Forall_forall in Hok').
    specialize (Hbest n' ltac:(by rewrite Hp) Ha). specialize (Hbest' n ltac:(by rewrite <- Hp) (eq_sym Ha)).
    unfold no_later, measured_ok in *. lia. }
  apply NoDup_Permutation.
  - apply Hnd. by apply result_fastest.
  - apply Hnd. by apply result_fastest.
  - intros x. split; apply Hsub; done.
Qed.

(** Two discoveries in which the methods that run find the same nodes, all with
    latencies that are not negative, find the same addresses with the same latencies,
    whatever order the methods finish in and the map is read in. *)
Theorem discovery_order_irrelevant o read read' answer nodes_in nodes_in' errors_in errors_in' d d' :
  reads_all read -> reads_all read' -> nodes_in ≡ₚ enabled_methods o -> nodes_in' ≡ₚ enabled_methods o ->
  (forall m, m ∈ enabled_methods o -> Forall measured_ok (answer m).1) ->
  map address_latency (DR_Nodes (Discover read answer nodes_in errors_in d)) ≡ₚ
  map address_latency (DR_Nodes (Discover read' answer nodes_in' errors_in' d')).
Proof.
  intros Hr Hr' Hp Hp' Hok. apply result_order_irrelevant; [done..| |].
  - apply Forall_concat, Forall_map, Forall_forall. intros m Hm. apply Hok. by rewrite <- Hp.
  - rewrite Hp, Hp'. done.
Qed.

(** *** Health and tests *)

Lemma count_status_sum rs :
  count_status NetworkHealthGood rs + count_status NetworkHealthDegraded rs + count_status NetworkHealthPoor rs +
  count_status NetworkHealthOffline rs = Z.of_nat (length rs).
Proof.
  unfold count_status, has_status. induction rs as [|r rs IH]; [done|]. cbn [List.filter].
  destruct (NH_Status r); repeat (case_bool_decide; try done); cbn [length]; lia.
Qed.
Lemma count_status_range s rs : 0 <= count_status s rs <= Z.of_nat (length rs).
Proof. unfold count_status. pose proof (List.filter_length_le (has_status s) rs). lia. Qed.

(** The classes of a summary add up to the nodes that were checked; the network is called
    offline just where no node was reached, so where none was asked, and good only where
    all were. *)
Lemma summary_adds_up rs :
  let s := GetSummary rs in
  HS_HealthyNodes s + HS_DegradedNodes s + HS_OfflineNodes s = HS_TotalNodes s /\
  (HS_OverallStatus s = NetworkHealthOffline <-> Forall (fun r => NH_Status r = NetworkHealthOffline) rs) /\
  (HS_OverallStatus s = NetworkHealthGood -> HS_OfflineNodes s = 0 /\ rs <> []).
Proof.
  cbn. pose proof (count_status_sum rs) as Hsum.
  pose proof (count_status_range NetworkHealthGood rs). pose proof (count_status_range NetworkHealthDegraded rs).
  pose proof (count_status_range NetworkHealthPoor rs). pose proof (count_status_range NetworkHealthOffline rs).
  split; [lia|].
  assert (Hoff : count_status NetworkHealthOffline rs = Z.of_nat (length rs) <-> Forall (fun r => NH_Status r = NetworkHealthOffline) rs).
  { clear. unfold count_status, has_status. induction rs as [|r rs IH]; [done|]. cbn [List.filter length]. rewrite Forall_cons.
    pose proof (List.filter_length_le (fun r => NH_Status r =?= NetworkHealthOffline) rs). case_bool_decide; cbn [length]; [|split; [lia|naive_solver]].
    rewrite <- IH. split; [split; [done|lia]|intros [_ ?]; lia]. }
  split.
  - rewrite <- Hoff. destruct (Z.eqb_spec (count_status NetworkHealthOffline rs) (Z.of_nat (length rs))); [done|].
    match goal with |- (if ?b then _ else if ?c then _ else _) = _ <-> _ => destruct b, c end; (split; [done|lia]).
  - destruct (Z.eqb_spec (count_status NetworkHealthOffline rs) (Z.of_nat (length rs))) as [|Hne]; [done|].
    match goal with |- (if ?b then _ else _) = _ -> _ => destruct b eqn:Hb end; [done|]. intros _. apply orb_false_iff in Hb as [Hb _]. split; [lia|]. intros ->. by apply Hne.
Qed.

(** The tester of the commands never has a certificate verified, and calls a node connected
    exactly where both connections are made, whatever its health check says. *)
Lemma test_connected `{UnicodeTables} t address p :
  CT_Status (TestConnection t address p) = StatusConnected <->
  pe_tcp p = None /\ pe_dial p (TE_UseTLS t || TI_Enabled (probeTLS p)) (negb (TE_SkipTLSVerify t)) = None.
Proof.
  assert (Hc : forall e, classifyError (Some e) <> StatusConnected).
  { intros e. cbn. repeat (match goal with |- context [if ?b then _ else _] => destruct b end; try done). }
  unfold TestConnection, dialGRPC. destruct (pe_tcp p) as [e|]; [split; [by intros ?%Hc|naive_solver]|].
  assert (Hen : TI_Enabled (if TE_UseTLS t then mkTLSInfo true "" "" "" 0 false else probeTLS p) = TE_UseTLS t || TI_Enabled (probeTLS p)) by (by destruct (TE_UseTLS t)).
  rewrite Hen. destruct (pe_dial p _ _) as [e|]; [split; [by intros ?%Hc|naive_solver]|]. by destruct (getNodeInfo p).
Qed.

(** No address is listed twice. *)
Lemma MultiaddrsToAddresses_NoDup mas : NoDup (MultiaddrsToAddresses mas).
Proof.
  unfold MultiaddrsToAddresses. assert (Hg : forall acc, NoDup acc -> NoDup (fold_left (fun acc ma =>
    match ParseMultiaddr ma with
    | None => acc
    | Some (host, port) => let addr := port_address host port in if mem addr acc then acc else (acc ++ [addr])%list
    end) mas acc)); [|by apply Hg; constructor].
  induction mas as [|ma mas IH]; intros acc Hacc; [done|]. cbn. apply IH. destruct (ParseMultiaddr ma) as [[host port]|]; [|done]. cbn.
  destruct (mem (port_address host port) acc) eqn:Hm; [done|]. apply NoDup_app. split_and!; [done| |apply NoDup_singleton].
  intros x Hx ->%list_elem_of_singleton. by apply mem_false in Hm.
Qed.

(** *** Witnesses *)

Definition node0 (address : string) (method : string) (latency : Z) : DiscoveredNode := mkNode address method latency None 0.
Definition read_values (m : gmap string DiscoveredNode) : list DiscoveredNode := map snd (map_to_list m).
Definition some_nodes : list DiscoveredNode :=
  [node0 "a:1" MethodLocal 30; node0 "b:1" MethodMDNS 0; node0 "a:1" MethodMDNS 20; node0 "c:1" MethodP2P 25].
Definition some_answers (m : string) : list DiscoveredNode * option string :=
  if m =?= "localhost" then ([node0 "a:1" MethodLocal 30], None) else ([node0 "a:1" MethodMDNS 20; node0 "c:1" MethodMDNS 0], Some "timeout").

Lemma read_values_all : reads_all read_values.
Proof. intros m. unfold read_values. reflexivity. Qed.

Lemma discovery_fastest_first_witness :
  let r := Discover read_values some_answers ["mDNS"; "localhost"] ["localhost"; "mDNS"] 0 in
  DR_Nodes r = [node0 "a:1" MethodMDNS 20; node0 "c:1" MethodMDNS 0] /\ NoDup (map DN_Address (DR_Nodes r)) /\
  ("mDNS discovery: timeout" ∈ DR_Errors r).
Proof.
  cbv zeta. split; [vm_compute; reflexivity|].
  destruct (discovery_fastest_first DefaultOptions read_values some_answers ["mDNS"; "localhost"] ["localhost"; "mDNS"] 0)
    as (_ & Hnd & _ & _ & He); [exact read_values_all|apply Permutation_swap|done| |].
  - intros m _. unfold some_answers. case_bool_decide; repeat constructor; unfold measured_ok; cbn; lia.
  - split; [exact Hnd|]. apply He. exists "mDNS", "timeout". split_and!; [set_solver|reflexivity|reflexivity].
Defined.

Lemma discovery_order_irrelevant_witness :
  map address_latency (DR_Nodes (Discover read_values some_answers ["localhost"; "mDNS"] ["mDNS"; "localhost"] 0)) ≡ₚ
  map address_latency (DR_Nodes (Discover read_values some_answers ["mDNS"; "localhost"] ["mDNS"; "localhost"] 1)).
Proof.
  apply (discovery_order_irrelevant DefaultOptions); [exact read_values_all|exact read_values_all|done|apply Permutation_swap|].
  intros m _. unfold some_answers. case_bool_decide; repeat constructor; unfold measured_ok; cbn; lia.
Defined.

Lemma test_connected_witness `{UnicodeTables} :
  CT_Status (TestConnection NewConnectionTester "n:1"
    (mkPeer None None (fun _ verify => if verify then Some (mkNetError "x509" false) else None) None (Some "not serving") false 1 2)) = StatusConnected.
Proof. apply test_connected. split; reflexivity. Defined.

(** A bootstrap peer that nobody reached is found when no latency is measured. *)
Example unreached_peer_found :
  DiscoverP2P (fun _ => Some ["10.0.0.1"]) (fun _ => None) (fun _ => 0) id (mkP2PConfig [] 0 0 false 0) =
  [node0 "bootstrap.bib.dev:4001" MethodP2P 0].
Proof. vm_compute. reflexivity. Qed.

(** The address made of an IPv6 multiaddress is not one that can be split again. *)
Example ip6_address_broken :
  MultiaddrsToAddresses ["/ip6/::1/tcp/4001/p2p/Qm"; "/dns4/n.bib.dev/tcp/99999/p2p/Qm"] = ["::1:4001"; "n.bib.dev:99999"] /\
  SplitHostPort "::1:4001" = None /\ SplitHostPort "[::1]:4001" = Some ("::1", "4001").
Proof. vm_compute. done. Qed.

(** The text of an error has the address in it, and is searched as a whole. *)
Example host_name_decides_class `{UnicodeTables} :
  classifyError (Some (mkNetError "dial tcp: lookup tls.example.com: no such host" false)) = StatusTLSError /\
  classifyError (Some (mkNetError "dial tcp: lookup www.example.com: no such host" false)) = StatusDisconnected.
Proof. vm_compute. done. Qed.

(** What a server that does not register users says is not taken for a missing registration. *)
Example unregistered_user_class `{UnicodeTables} :
  classifyAuthError (Some "challenge verification failed: rpc error: code = PermissionDenied desc = auto-registration is disabled") = AuthStatusFailed.
Proof. vm_compute. done. Qed.

Example peers_overflow :
  HS_TotalConnectedPeers (GetSummary (replicate 2 (mkHealthResult "n" NetworkHealthGood None (Some (mkNetworkStats (2 ^ 31 - 1) 0 true 0 0 0 0)) "" 0))) = -2.
Proof. vm_compute. reflexivity. Qed.

Example listed_nodes :
  FormatNodeList [node0 "a:1" MethodLocal 1500000; node0 "b:1" MethodMDNS 0] =
  "1. a:1 (2ms) [local]" ++ line_end ++ "2. b:1 [mdns]" ++ line_end.
Proof. vm_compute. reflexivity. Qed.
