(* ===== verification/GrpcClient.v ===== *)
(** * The client of the gRPC interface ([internal/grpc/client])

    Options, the choice of a target and the attempts to reach it, the pool of
    connections, the metadata of calls, signing in with the keys of SSH, the file of the
    session token, and the errors.  What the network answers depends on what was done
    before, so an attempt is a function of the list of events so far; connections are
    numbers.  The server is a state with three calls; [auth_api] is the one of
    [AuthServer]. *)
From stdpp Require Import base gmap strings list.
From Stdlib Require Import ZArith Lia Ascii.
From S2P Require Import Prelude GoStrings GoTime GoFloat Domain Challenge Rbac Keys Accounts GrpcErrors AuthServer.
Local Open Scope string_scope.
Local Open Scope Z_scope.
Local Open Scope bool_scope.

(** ** Options ([options.go]) *)

Definition ConnectionModeSequential : string := "sequential".
Definition ConnectionModeParallel : string := "parallel".

Record TLSOptions := mkTLSOptions {
  TO_Enabled : bool;
  TO_InsecureSkipVerify : bool;
  TO_CAFile : string;
  TO_CertFile : string;
  TO_KeyFile : string;
  TO_ServerName : string;
}.
Record AuthOptions := mkAuthOptions {
  AO_SessionTokenPath : string;
  AO_SSHKeyPath : string;
  AO_SSHKeyPassphrase : string;
  AO_UseSSHAgent : bool;
  AO_AutoAuth : bool;
}.
Record ClientOptions := mkClientOptions {
  OP_UnixSocket : string;
  OP_TCPAddress : string;
  OP_P2PPeerID : string;
  OP_Mode : string;
  OP_Timeout : Z;
  OP_RetryAttempts : Z;
  OP_RetryBackoff : Z;
  OP_PoolSize : Z;
  OP_TLS : TLSOptions;
  OP_Auth : AuthOptions;
  OP_RequestIDEnabled : bool;
  OP_LoggingEnabled : bool;
}.
Definition DefaultClientOptions : ClientOptions :=
  mkClientOptions "" "" "" ConnectionModeSequential (30 * Second) 3 (1 * Second) 5 (mkTLSOptions true false "" "" "" "")
    (mkAuthOptions "" "" "" true true) true false.

Inductive CallError :=
| CENoTarget
| CETimeout
| CERetries
| CEPoolSize
| CETLSConfig
| CEP2P
| CEDial
| CECancelled
| CEAllFailed
| CENotConnected
| CENoConnection
| CEClose
| CENoKeys
| CEChallenge (s : Status)
| CESign
| CEVerify (s : Status)
| CEAllKeysFailed (last : CallError)
| CENoTokenPath
| CEReadToken
| CEDecryptToken
| CENonce
| CEWriteToken
| CENoCachedToken
| CEAutoAuthOff.

Definition Options_Validate (o : ClientOptions) : option CallError :=
  if (OP_UnixSocket o =?= "") && (OP_TCPAddress o =?= "") && (OP_P2PPeerID o =?= "") then Some CENoTarget
  else if OP_Timeout o <=? 0 then Some CETimeout
  else if OP_RetryAttempts o <? 0 then Some CERetries
  else if OP_PoolSize o <? 0 then Some CEPoolSize
  else None.

(** The files that are read, and whether they parse. *)
Record TLSFiles := mkTLSFiles { tf_ca : bool; tf_pair : bool }.
Record TLSConfig := mkTLSConfig { tc_skip_verify : bool; tc_server_name : string; tc_root_cas : bool; tc_client_cert : bool }.
Definition BuildTLSConfig (o : TLSOptions) (f : TLSFiles) : result CallError (option TLSConfig) :=
  if negb (TO_Enabled o) then Ok None
  else if (TO_CAFile o <>? "") && negb (tf_ca f) then Err CETLSConfig
  else
    let pair := (TO_CertFile o <>? "") && (TO_KeyFile o <>? "") in
    if pair && negb (tf_pair f) then Err CETLSConfig
    else Ok (Some (mkTLSConfig (TO_InsecureSkipVerify o) (TO_ServerName o) (TO_CAFile o <>? "") pair)).

(** ** Connections ([client.go]) *)

Definition Conn : Type := Z.
Inductive NetEvent :=
| Dialed (target : string) (tls : option TLSConfig) (answer : option Conn)
| Waited (d : Z).
(** What the network and the caller do, given what was done before. *)
Record NetEnv := mkNetEnv {
  ne_dial : list NetEvent -> string -> option Conn;
  ne_cancelled : list NetEvent -> bool;
  ne_files : TLSFiles;
  ne_windows : bool;
}.

Definition buildTargetList (windows : bool) (o : ClientOptions) : list string :=
  ((if OP_UnixSocket o =?= "" then [] else [((if windows then "pipe:" else "unix:") ++ OP_UnixSocket o)%string]) ++
   (if OP_TCPAddress o =?= "" then [] else [OP_TCPAddress o]) ++
   (if OP_P2PPeerID o =?= "" then [] else [("p2p:" ++ OP_P2PPeerID o)%string]))%list.

Definition longer_prefix (target pre : string) : bool :=
  (String.length pre <? String.length target)%nat && (str_of (take (String.length pre) (bytes_of target)) =?= pre).
Definition isLocalTarget (target : string) : bool := longer_prefix target "unix:" || longer_prefix target "pipe:".

Definition dialTarget (env : NetEnv) (o : ClientOptions) (target : string) (tr : list NetEvent) : list NetEvent * result CallError Conn :=
  match (if TO_Enabled (OP_TLS o) && negb (isLocalTarget target) then BuildTLSConfig (OP_TLS o) (ne_files env) else Ok None) with
  | Err e => (tr, Err e)
  | Ok tls =>
      if negb (isLocalTarget target) && longer_prefix target "p2p:" then (tr, Err CEP2P)
      else
        let answer := ne_dial env tr target in
        ((tr ++ [Dialed target tls answer])%list, match answer with Some c => Ok c | None => Err CEDial end)
  end.

(** The attempts that are left after a failed one: a wait that may be cut short, and the
    next with twice the pause. *)
Fixpoint retry_loop (env : NetEnv) (o : ClientOptions) (target : string) (attempts : nat) (backoff : Z) (lastErr : CallError)
    (tr : list NetEvent) : list NetEvent * result CallError Conn :=
  match attempts with
  | O => (tr, Err lastErr)
  | S attempts' =>
      if ne_cancelled env tr then (tr, Err CECancelled)
      else
        let '(tr, r) := dialTarget env o target (tr ++ [Waited backoff])%list in
        match r with
        | Ok c => (tr, Ok c)
        | Err e => retry_loop env o target attempts' (i64 (backoff * 2)) e tr
        end
  end.
Definition dialWithRetry (env : NetEnv) (o : ClientOptions) (target : string) (tr : list NetEvent) : list NetEvent * result CallError Conn :=
  let '(tr, r) := dialTarget env o target tr in
  match r with
  | Ok c => (tr, Ok c)
  | Err e => retry_loop env o target (Z.to_nat (OP_RetryAttempts o)) (OP_RetryBackoff o) e tr
  end.

Fixpoint try_targets (env : NetEnv) (o : ClientOptions) (targets : list string) (tr : list NetEvent)
    : list NetEvent * result CallError (Conn * string) :=
  match targets with
  | [] => (tr, Err CEAllFailed)
  | target :: rest =>
      let '(tr, r) := dialWithRetry env o target tr in
      match r with
      | Ok c => (tr, Ok (c, target))
      | Err _ => try_targets env o rest tr
      end
  end.
Definition connectSequential (env : NetEnv) (o : ClientOptions) (tr : list NetEvent) : list NetEvent * result CallError (Conn * string) :=
  try_targets env o (buildTargetList (ne_windows env) o) tr.

(** The goroutines of the targets, in the order in which their results arrive, with what
    each got; the result, and the connections that nobody holds afterwards. *)
Fixpoint first_result (arrived : list (string * result CallError Conn))
    : result CallError (Conn * string) * list Conn :=
  match arrived with
  | [] => (Err CEAllFailed, [])
  | (target, Ok c) :: rest => (Ok (c, target), omap (fun p => match p.2 with Ok c => Some c | Err _ => None end) rest)
  | (_, Err _) :: rest => first_result rest
  end.
Definition connectParallel (o : ClientOptions) (windows : bool) (arrived : list (string * result CallError Conn))
    : result CallError (Conn * string) * list Conn :=
  if (length (buildTargetList windows o) =? 0)%nat then (Err CENoTarget, []) else first_result arrived.

Record Client := mkClient {
  cl_opts : ClientOptions;
  cl_pool : list (option Conn);
  cl_poolIdx : nat;
  cl_services : gmap string Conn;
  cl_connected : bool;
  cl_connectedTo : string;
}.
Definition NewClient (o : ClientOptions) : result CallError Client :=
  match Options_Validate o with Some e => Err e | None => Ok (mkClient o [] 0 ∅ false "") end.

(** The further connections of the pool, until one fails; the rest of it stays empty. *)
Fixpoint fill_pool (env : NetEnv) (o : ClientOptions) (target : string) (n : nat) (tr : list NetEvent) : list NetEvent * list (option Conn) :=
  match n with
  | O => (tr, [])
  | S n' =>
      let '(tr, r) := dialTarget env o target tr in
      match r with
      | Err _ => (tr, replicate n None)
      | Ok c => let '(tr, rest) := fill_pool env o target n' tr in (tr, Some c :: rest)
      end
  end.
Definition connected_client (env : NetEnv) (c : Client) (conn : Conn) (target : string) (tr : list NetEvent) : list NetEvent * Client :=
  let size := if OP_PoolSize (cl_opts c) <=? 0 then 1 else OP_PoolSize (cl_opts c) in
  let '(tr, rest) := fill_pool env (cl_opts c) target (Z.to_nat size - 1) tr in
  (tr, mkClient (cl_opts c) (Some conn :: rest) (cl_poolIdx c) (cl_services c) true target).
(** [arrived]: what the targets got when they were tried in parallel. *)
Definition Client_Connect (env : NetEnv) (arrived : list (string * result CallError Conn)) (c : Client) (tr : list NetEvent)
    : list NetEvent * Client * option CallError :=
  if cl_connected c then (tr, c, None)
  else
    let '(tr, r) :=
      if OP_Mode (cl_opts c) =?= ConnectionModeParallel then (tr, (connectParallel (cl_opts c) (ne_windows env) arrived).1)
      else connectSequential env (cl_opts c) tr in
    match r with
    | Err e => (tr, c, Some e)
    | Ok (conn, target) => let '(tr, c) := connected_client env c conn target tr in (tr, c, None)
    end.

Definition set_poolIdx (c : Client) (i : nat) : Client :=
  mkClient (cl_opts c) (cl_pool c) i (cl_services c) (cl_connected c) (cl_connectedTo c).
(** The next connection of the pool that is ready, beginning at the index. *)
Fixpoint next_ready (ready : Conn -> bool) (pool : list (option Conn)) (idx : nat) (tries : nat) : option (nat * Conn) :=
  match tries with
  | O => None
  | S tries' =>
      let i := (idx mod length pool)%nat in
      match pool !! i with
      | Some (Some c) => if ready c then Some (i, c) else next_ready ready pool (S idx) tries'
      | _ => next_ready ready pool (S idx) tries'
      end
  end.
Definition getConn (ready : Conn -> bool) (c : Client) : Client * result CallError Conn :=
  if negb (cl_connected c) || (length (cl_pool c) =? 0)%nat then (c, Err CENotConnected)
  else match next_ready ready (cl_pool c) (cl_poolIdx c) (length (cl_pool c)) with
       | Some (i, conn) => (set_poolIdx c (S i mod length (cl_pool c)), Ok conn)
       | None =>
           match omap id (cl_pool c) with
           | conn :: _ => (c, Ok conn)
           | [] => (c, Err CENoConnection)
           end
       end.

(** [Health], [Auth], [User] and the other accessors: the client of a service is made once,
    on the connection that is next then. *)
Definition service_conn (name : string) (ready : Conn -> bool) (c : Client) : Client * result CallError Conn :=
  let '(c, r) := getConn ready c in
  match r with
  | Err e => (c, Err e)
  | Ok conn =>
      match cl_services c !! name with
      | Some bound => (c, Ok bound)
      | None =>
          (mkClient (cl_opts c) (cl_pool c) (cl_poolIdx c) (<[name := conn]> (cl_services c)) (cl_connected c) (cl_connectedTo c), Ok conn)
      end
  end.

(** [closes]: whether closing a connection succeeds. *)
Definition Client_Close (closes : Conn -> bool) (c : Client) : Client * option CallError :=
  (mkClient (cl_opts c) [] (cl_poolIdx c) ∅ false "",
   if forallb closes (omap id (cl_pool c)) then None else Some CEClose).

(** ** Metadata ([interceptors.go]) *)

Definition md_set (md : Metadata) (key : string) (values : list string) : Metadata := Some (<[key := values]> (default ∅ md)).
Definition ensureRequestID (uuid : string) (md : Metadata) : Metadata :=
  let m := default ∅ md in
  if (length (md_get m "x-request-id") =? 0)%nat then md_set md "x-request-id" [uuid] else Some m.
Definition addAuthMetadata (token : string) (md : Metadata) : Metadata :=
  if token =?= "" then md else md_set md "x-session-token" [token].
Definition Client_WithRequestID (md : Metadata) (id : string) : Metadata := md_set md "x-request-id" [id].
Definition Client_WithSessionToken (md : Metadata) (token : string) : Metadata := md_set md "x-session-token" [token].
(** The interceptors in their order; the one that logs changes nothing. *)
Definition call_metadata (o : ClientOptions) (token uuid : string) (md : Metadata) : Metadata :=
  addAuthMetadata token (if OP_RequestIDEnabled o then ensureRequestID uuid md else md).

(** ** Signing in ([auth.go]) *)

(** XChaCha20-Poly1305. *)
Class ClientCrypto := {
  xchacha_Seal : list Z -> list Z -> list Z -> list Z;
  xchacha_Open : list Z -> list Z -> list Z -> option (list Z);
  xchacha_open_seal key nonce d : xchacha_Open key nonce (xchacha_Seal key nonce d) = Some d;
}.
Definition xchacha_NonceSize : nat := 24.

(** A key: its line of [authorized_keys], its encoding, and signing. *)
Record Signer := mkSigner {
  sg_authorized : list Z;
  sg_marshal : list Z;
  sg_sign : list Z -> option (list Z);
}.
(** What is found at a moment: the keys of the agent, the key of the configured file, the
    keys of the default files, and the machine. *)
Record KeySources := mkKeySources {
  ks_agent : option (list Signer);
  ks_file : option Signer;
  ks_defaults : list Signer;
  ks_hostname : string;
  ks_user : string;
}.
Record Authenticator := mkAuthenticator {
  au_opts : AuthOptions;
  au_signers : list Signer;
}.
Definition NewAuthenticator (o : AuthOptions) : Authenticator := mkAuthenticator o [].

Definition found_signers (o : AuthOptions) (ks : KeySources) : list Signer :=
  let agent := if AO_UseSSHAgent o then default [] (ks_agent ks) else [] in
  let file := if AO_SSHKeyPath o <>? "" then option_list (ks_file ks) else [] in
  let signers := (agent ++ file)%list in
  if (AO_SSHKeyPath o =?= "") && (length signers =? 0)%nat then ks_defaults ks else signers.
Definition getSigners (a : Authenticator) (ks : KeySources) : Authenticator * list Signer :=
  match au_signers a with
  | _ :: _ => (a, au_signers a)
  | [] => let s := found_signers (au_opts a) ks in (mkAuthenticator (au_opts a) s, s)
  end.

(** The calls of a server that signing in makes. *)
Record AuthAPI := mkAuthAPI {
  api_state : Type;
  api_Challenge : api_state -> list Z -> api_state * result Status (string * list Z);
  api_Verify : api_state -> string -> list Z -> api_state * result Status string;
  api_Refresh : api_state -> Metadata -> api_state * result Status string;
}.

Section auth.
Context `{Crypto} `{ClientCrypto} (api : AuthAPI).

Definition authenticateWithSigner (s : api_state api) (signer : Signer) : api_state api * result CallError string :=
  let '(s, r) := api_Challenge api s (sg_authorized signer) in
  match r with
  | Err e => (s, Err (CEChallenge e))
  | Ok (id, challenge) =>
      match sg_sign signer challenge with
      | None => (s, Err CESign)
      | Some blob =>
          let '(s, r) := api_Verify api s id blob in
          (s, match r with Ok token => Ok token | Err e => Err (CEVerify e) end)
      end
  end.
Fixpoint try_signers (s : api_state api) (signers : list Signer) (lastErr : CallError) : api_state api * result CallError string :=
  match signers with
  | [] => (s, Err (CEAllKeysFailed lastErr))
  | signer :: rest =>
      let '(s, r) := authenticateWithSigner s signer in
      match r with Ok token => (s, Ok token) | Err e => try_signers s rest e end
  end.
Definition Authenticator_Authenticate (a : Authenticator) (ks : KeySources) (s : api_state api) : Authenticator * api_state api * result CallError string :=
  let '(a, signers) := getSigners a ks in
  match signers with
  | [] => (a, s, Err CENoKeys)
  | _ => let '(s, r) := try_signers s signers CENoKeys in (a, s, r)
  end.

(** *** The file of the token *)

Definition deriveFallbackKey (ks : KeySources) : list Z :=
  sha256_Sum256 (string_bytes ((("bib-fallback-" ++ ks_hostname ks) ++ "-") ++ ks_user ks)).
(** The key is a hash of the public key. *)
Definition Authenticator_deriveEncryptionKey (a : Authenticator) (ks : KeySources) : Authenticator * list Z :=
  let '(a, signers) := getSigners a ks in
  (a, match signers with
      | [] => deriveFallbackKey ks
      | signer :: _ => sha256_Sum256 (string_bytes "bib-session-token" ++ sg_marshal signer)%list
      end).

(** [file]: the contents, if it is there; reading, making the directory, random bytes and
    writing may fail, and a writing that fails leaves [ti_broken]. *)
Record TokenIO := mkTokenIO {
  ti_path : bool;
  ti_reads : bool;
  ti_mkdir : bool;
  ti_nonce : option (list Z);
  ti_writes : bool;
  ti_broken : option (list Z);
  ti_removes : bool;
}.
Definition LoadSessionToken (io : TokenIO) (a : Authenticator) (ks : KeySources) (file : option (list Z))
    : Authenticator * result CallError string :=
  if negb (ti_path io) then (a, Err CENoTokenPath)
  else match file with
       | None => (a, Ok "")
       | Some data =>
           if negb (ti_reads io) then (a, Err CEReadToken)
           else
             let '(a, key) := Authenticator_deriveEncryptionKey a ks in
             if (length data <? xchacha_NonceSize)%nat then (a, Err CEDecryptToken)
             else match xchacha_Open key (take xchacha_NonceSize data) (drop xchacha_NonceSize data) with
                  | None => (a, Err CEDecryptToken)
                  | Some p => (a, Ok (bytes_string p))
                  end
       end.
Definition SaveSessionToken (io : TokenIO) (a : Authenticator) (ks : KeySources) (file : option (list Z)) (token : string)
    : Authenticator * option (list Z) * option CallError :=
  if negb (ti_path io) then (a, file, Some CENoTokenPath)
  else if negb (ti_mkdir io) then (a, file, Some CEWriteToken)
  else
    let '(a, key) := Authenticator_deriveEncryptionKey a ks in
    match ti_nonce io with
    | None => (a, file, Some CENonce)
    | Some nonce =>
        if negb (ti_writes io) then (a, ti_broken io, Some CEWriteToken)
        else (a, Some (nonce ++ xchacha_Seal key nonce (string_bytes token))%list, None)
    end.
Definition ClearSessionToken (io : TokenIO) (file : option (list Z)) : option (list Z) * option CallError :=
  if negb (ti_path io) then (file, None)
  else match file with
       | None => (None, None)
       | Some _ => if ti_removes io then (None, None) else (file, Some CEWriteToken)
       end.

(** *** The session of a client *)

Record ClientSession := mkClientSession {
  cn_auth : Authenticator;
  cn_token : string;
  cn_file : option (list Z);
}.
Definition LoadSession (io : TokenIO) (ks : KeySources) (c : ClientSession) : ClientSession * option CallError :=
  let '(a, r) := LoadSessionToken io (cn_auth c) ks (cn_file c) in
  match r with
  | Err e => (mkClientSession a (cn_token c) (cn_file c), Some e)
  | Ok "" => (mkClientSession a (cn_token c) (cn_file c), Some CENoCachedToken)
  | Ok token => (mkClientSession a token (cn_file c), None)
  end.
Definition ClearSession (io : TokenIO) (c : ClientSession) : ClientSession * option CallError :=
  let '(file, e) := ClearSessionToken io (cn_file c) in (mkClientSession (cn_auth c) "" file, e).
(** A token that cannot be saved is used all the same. *)
Definition Client_Authenticate (io : TokenIO) (ks : KeySources) (c : ClientSession) (s : api_state api)
    : ClientSession * api_state api * option CallError :=
  let '(a, s, r) := Authenticator_Authenticate (cn_auth c) ks s in
  match r with
  | Err e => (mkClientSession a (cn_token c) (cn_file c), s, Some e)
  | Ok token => let '(a, file, _) := SaveSessionToken io a ks (cn_file c) token in (mkClientSession a token file, s, None)
  end.
Definition verifySession (o : ClientOptions) (uuid : string) (c : ClientSession) (s : api_state api) : api_state api * bool :=
  let '(s, r) := api_Refresh api s (call_metadata o (cn_token c) uuid None) in
  (s, match r with Ok _ => true | Err _ => false end).
Definition EnsureAuthenticated (o : ClientOptions) (io : TokenIO) (ks : KeySources) (uuid : string) (c : ClientSession) (s : api_state api)
    : ClientSession * api_state api * option CallError :=
  let '(c, e) := LoadSession io ks c in
  let '(s, valid) :=
    if (match e with None => true | Some _ => false end) && (cn_token c <>? "") then verifySession o uuid c s else (s, false) in
  if valid : bool then (c, s, None)
  else if negb (AO_AutoAuth (OP_Auth o)) then (c, s, Some CEAutoAuthOff)
  else Client_Authenticate io ks c s.
Definition Client_GetPublicKey (a : Authenticator) (ks : KeySources) : Authenticator * option (list Z) :=
  let '(a, signers) := getSigners a ks in (a, sg_authorized <$> head signers).
End auth.

(** *** The server of [AuthServer] *)

Record CallReadings := mkCallReadings {
  cr_id : option (list Z);
  cr_nonce : option (list Z);
  cr_now : Time;
  cr_auth : AuthReadings;
  cr_after : Time;
}.
Definition bare_request (id : string) (signature : list Z) : VerifyChallengeRequest := mkVerifyChallengeRequest id signature "" "" None.

Section server.
Context `{Crypto} `{SessionOrder} `{KeyLib} `{DriverErrors}.

(** The state counts the calls, and [env] has what each of them reads. *)
Definition auth_api (env : nat -> CallReadings) : AuthAPI := {|
  api_state := Server * nat;
  api_Challenge := fun '(s, n) publicKey =>
    let '(s, r) := Server_Challenge s publicKey (cr_id (env n)) (cr_nonce (env n)) (cr_now (env n)) in
    ((s, S n), match r with Ok c => Ok (Challenge_ID c, Challenge_Nonce c) | Err e => Err e end);
  api_Verify := fun '(s, n) id signature =>
    let '(s, r) := VerifyChallenge s (bare_request id signature) (cr_now (env n)) (cr_auth (env n)) (cr_after (env n)) in
    ((s, S n), match r with Ok v => Ok (VR_SessionToken v) | Err e => Err e end);
  api_Refresh := fun '(s, n) md =>
    let '(s, r) := RefreshSession s md (cr_now (env n)) (cr_after (env n)) in
    ((s, S n), match r with Ok v => Ok v.1 | Err e => Err e end);
|}.
End server.

(** ** Errors ([errors.go]) *)

Inductive Sentinel :=
| SNotConnected | SNotAuthenticated | SConnectionFailed | SAuthenticationFailed | SSessionExpired | SNoSSHKeys
| SPermissionDenied | SNotFound | SAlreadyExists | SInvalidArgument | SInternal | SUnavailable.
#[export] Instance Sentinel_dec : EqDecision Sentinel.
Proof. solve_decision. Defined.

(** An error of Go: one of the package's, a status, an error wrapped with a text, the
    package's own error with or without a cause, or any other. *)
Inductive GoError :=
| ESentinel (s : Sentinel)
| EStatus (s : Status)
| EWrapped (message : string) (e : GoError)
| EClient (code : Code) (message : string)
| ECaused (code : Code) (message : string) (cause : GoError)
| EOther (message : string).

(** [errors.Is] against one of the package's errors. *)
Fixpoint errors_Is (s : Sentinel) (e : GoError) : bool :=
  match e with
  | ESentinel s' => s' =?= s
  | EWrapped _ e' | ECaused _ _ e' => errors_Is s e'
  | _ => false
  end.
(** [status.FromError]: the status of the error or of one it wraps. *)
Fixpoint status_FromError (e : GoError) : option Status :=
  match e with
  | EStatus s => Some s
  | EWrapped _ e' | ECaused _ _ e' => status_FromError e'
  | _ => None
  end.
Definition own_code (e : GoError) : option Code :=
  match e with EClient c _ | ECaused c _ _ => Some c | _ => None end.

Definition is_error (sentinels : list Sentinel) (code : Code) (e : option GoError) : bool :=
  match e with
  | None => false
  | Some e =>
      if existsb (fun s => errors_Is s e) sentinels then true
      else match own_code e with
           | Some c => c =?= code
           | None => match status_FromError e with Some s => St_Code s =?= code | None => false end
           end
  end.
Definition IsNotFound : option GoError -> bool := is_error [SNotFound] NotFound.
Definition IsPermissionDenied : option GoError -> bool := is_error [SPermissionDenied] PermissionDenied.
Definition IsUnauthenticated : option GoError -> bool := is_error [SNotAuthenticated; SSessionExpired] Unauthenticated.
Definition IsUnavailable : option GoError -> bool := is_error [SUnavailable; SConnectionFailed] Unavailable.
Definition IsInvalidArgument : option GoError -> bool := is_error [SInvalidArgument] InvalidArgument.

Definition retryable (c : Code) : bool := mem c [Unavailable; ResourceExhausted; Aborted; DeadlineExceeded].
Definition IsRetryable (e : option GoError) : bool :=
  match e with
  | None => false
  | Some e =>
      match own_code e with
      | Some c => retryable c
      | None => match status_FromError e with Some s => retryable (St_Code s) | None => false end
      end
  end.
Definition WrapError (e : option GoError) (message : string) : option GoError := EWrapped message <$> e.
(** [text]: the text of an error. *)
Definition FromGRPCError (text : GoError -> string) (e : option GoError) : option GoError :=
  match e with
  | None => None
  | Some e =>
      match status_FromError e with
      | None => Some (ECaused Unknown (text e) e)
      | Some s => Some (ECaused (St_Code s) (St_Message s) e)
      end
  end.

(** ** Theorems *)

(** *** Reaching a target *)

Definition dials (tr : list NetEvent) : nat := length (List.filter (fun e => match e with Dialed _ _ _ => true | Waited _ => false end) tr).
Definition waits (tr : list NetEvent) : list Z := omap (fun e => match e with Waited d => Some d | Dialed _ _ _ => None end) tr.
(** The pauses: every one is twice the one before, at 64 bits. *)
Fixpoint pauses (n : nat) (backoff : Z) : list Z :=
  match n with O => [] | S n' => backoff :: pauses n' (i64 (backoff * 2)) end.

Lemma dials_app a b : dials (a ++ b) = (dials a + dials b)%nat.
Proof. unfold dials. by rewrite List.filter_app, length_app. Qed.
Lemma waits_app a b : waits (a ++ b) = (waits a ++ waits b)%list.
Proof. unfold waits. apply omap_app. Qed.

Lemma dialTarget_trace env o target tr :
  exists more, (dialTarget env o target tr).1 = (tr ++ more)%list /\ (dials more <= 1)%nat /\ waits more = [] /\
    (forall c, (dialTarget env o target tr).2 = Ok c -> exists tls, more = [Dialed target tls (Some c)]) /\
    (forall e, (dialTarget env o target tr).2 = Err e -> Forall (fun x => match x with Dialed t _ a => t = target /\ a = None | Waited _ => False end) more).
Proof.
  unfold dialTarget. destruct (if _ : bool then _ else _) as [tls|e]; [|exists []; rewrite app_nil_r; split_and!; [done|cbn; lia|done|done|by constructor]].
  destruct (negb _ && _); [exists []; rewrite app_nil_r; split_and!; [done|cbn; lia|done|done|by constructor]|].
  eexists. split; [done|]. cbn. split_and!; [lia|done| |].
  - intros c. destruct (ne_dial env tr target); [|done]. intros [= <-]. eauto.
  - intros e. destruct (ne_dial env tr target); [done|]. intros _. repeat constructor.
Qed.

Lemma retry_loop_trace env o target n backoff lastErr tr :
  exists more, (retry_loop env o target n backoff lastErr tr).1 = (tr ++ more)%list /\ (dials more <= n)%nat /\
    (exists k, (k <= n)%nat /\ waits more = pauses k backoff) /\
    (forall e, (retry_loop env o target n backoff lastErr tr).2 = Err e ->
       Forall (fun x => match x with Dialed t _ a => t = target /\ a = None | Waited _ => True end) more).
Proof.
  revert backoff lastErr tr. induction n as [|n IH]; intros backoff lastErr tr; cbn.
  { exists []. rewrite app_nil_r. split_and!; [done|cbn; lia|by exists 0%nat|by constructor]. }
  destruct (ne_cancelled env tr); [exists []; rewrite app_nil_r; split_and!; [done|cbn; lia|exists 0%nat; split; [lia|done]|by constructor]|].
  destruct (dialTarget_trace env o target (tr ++ [Waited backoff])%list) as (m1 & Ht & Hd & Hw & _ & Herr).
  destruct (dialTarget env o target _) as [tr1 [c|e]]; cbn in *; subst tr1.
  - exists ([Waited backoff] ++ m1)%list. rewrite dials_app, waits_app, Hw, <- app_assoc. split_and!; [done|cbn; lia| |done].
    exists 1%nat. split; [lia|done].
  - destruct (IH (i64 (backoff * 2)) e ((tr ++ [Waited backoff]) ++ m1)%list) as (m2 & Ht2 & Hd2 & (k & Hk & Hw2) & Herr2).
    exists ([Waited backoff] ++ m1 ++ m2)%list. rewrite !dials_app, !waits_app, Hw, Hw2, Ht2, <- !app_assoc. split_and!; [done|cbn; lia| |].
    + exists (S k). split; [lia|done].
    + intros e' He'. apply Forall_app. split; [by repeat constructor|]. apply Forall_app.
      split; [|eapply Herr2; by rewrite <- app_assoc].
      eapply Forall_impl; [by eapply Herr|]. by intros [].
Qed.

(** A target is dialed at most once more than retries are configured, with pauses that
    double from the configured one; where it is given up, every dialing of it failed. *)
Theorem retries_bounded env o target tr (Hn : 0 <= OP_RetryAttempts o) :
  exists more, (dialWithRetry env o target tr).1 = (tr ++ more)%list /\ Z.of_nat (dials more) <= 1 + OP_RetryAttempts o /\
    (exists k, Z.of_nat k <= OP_RetryAttempts o /\ waits more = pauses k (OP_RetryBackoff o)) /\
    (forall e, (dialWithRetry env o target tr).2 = Err e ->
       Forall (fun x => match x with Dialed t _ a => t = target /\ a = None | Waited _ => True end) more).
Proof.
  unfold dialWithRetry. destruct (dialTarget_trace env o target tr) as (m1 & Ht & Hd & Hw & _ & Herr).
  destruct (dialTarget env o target tr) as [tr1 [c|e]]; cbn in *; subst tr1.
  - exists m1. split_and!; [done|lia|exists 0%nat; split; [lia|done]|done].
  - destruct (retry_loop_trace env o target (Z.to_nat (OP_RetryAttempts o)) (OP_RetryBackoff o) e (tr ++ m1)%list)
      as (m2 & Ht2 & Hd2 & (k & Hk & Hw2) & Herr2).
    exists (m1 ++ m2)%list. rewrite dials_app, waits_app, Hw, Hw2, Ht2, <- app_assoc. split_and!; [done|lia| |].
    + exists k. split; [lia|done].
    + intros e' He'. apply Forall_app. split; [|by eapply Herr2]. eapply Forall_impl; [by eapply Herr|]. by intros [].
Qed.

Lemma try_targets_first env o targets tr c target :
  (try_targets env o targets tr).2 = Ok (c, target) ->
  exists before after tr', targets = (before ++ target :: after)%list /\ (dialWithRetry env o target tr').2 = Ok c /\
    Forall (fun t => exists tr e, (dialWithRetry env o t tr).2 = Err e) before.
Proof.
  revert tr. induction targets as [|t targets IH]; intros tr; [done|]. cbn.
  destruct (dialWithRetry env o t tr) as [tr1 [c'|e]] eqn:Hd; cbn.
  - intros [= -> ->]. exists [], targets, tr. by rewrite Hd.
  - intros Hr. destruct (IH _ Hr) as (before & after & tr' & -> & Hok & Hall). exists (t :: before), after, tr'.
    split_and!; [done..|]. constructor; [|done]. exists tr, e. by rewrite Hd.
Qed.

(** Nothing but the first two kinds of target is ever connected to. *)
Lemma p2p_never_connects env o id tr : id <> "" -> exists e, (dialTarget env o ("p2p:" ++ id) tr).2 = Err e.
Proof.
  intros Hid. unfold dialTarget. destruct (if _ : bool then _ else _) as [tls|e]; [|eauto].
  assert (Hl : negb (isLocalTarget ("p2p:" ++ id)) && longer_prefix ("p2p:" ++ id) "p2p:" = true); [|rewrite Hl; eauto].
  destruct id as [|c id]; [done|]. unfold isLocalTarget, longer_prefix.
  change ("p2p:" ++ String c id) with (String "p" (String "2" (String "p" (String ":" (String c id))))). cbn.
  repeat (case_bool_decide; simplify_eq/=). by destruct (String.length id).
Qed.

(** *** The pool *)

Lemma next_ready_here ready pool idx n c :
  (0 < n)%nat -> pool !! (idx mod length pool)%nat = Some (Some c) -> ready c = true ->
  next_ready ready pool idx n = Some ((idx mod length pool)%nat, c).
Proof. destruct n; [lia|]. intros _ Hp Hr. cbn. by rewrite Hp, Hr. Qed.

(** The connections that so many calls are given. *)
Fixpoint conns (ready : Conn -> bool) (n : nat) (c : Client) : list (option Conn) :=
  match n with
  | O => []
  | S n' => let '(c', r) := getConn ready c in (match r with Ok x => Some x | Err _ => None end) :: conns ready n' c'
  end.

(** With every connection of the pool open and ready, calls are given the connections
    in turn: as many of them as there are connections get every one once. *)
Theorem pool_round_robin ready pool n c :
  cl_connected c = true -> cl_pool c = map Some pool -> pool <> [] -> (cl_poolIdx c < length pool)%nat ->
  Forall (fun x => ready x = true) pool ->
  conns ready n c = map (fun i => pool !! ((cl_poolIdx c + i) mod length pool)%nat) (seq 0 n).
Proof.
  intros Hc Hp Hne Hi Hr. revert c Hc Hp Hi. induction n as [|n IH]; [done|]. intros c Hc Hp Hi. cbn [conns].
  assert (Hlen : length pool <> 0%nat) by (by destruct pool). assert (Hl : length (cl_pool c) = length pool) by (by rewrite Hp, length_map).
  destruct (lookup_lt_is_Some_2 pool (cl_poolIdx c) Hi) as [x Hx].
  unfold getConn. rewrite Hc, Hl. cbn [negb orb]. rewrite (proj2 (Nat.eqb_neq _ _)) by done.
  rewrite (next_ready_here _ _ _ _ x); [|lia| |].
  2: { rewrite Hl, Nat.mod_small by done. rewrite Hp, list_lookup_fmap, Hx. done. }
  2: { eapply Forall_lookup in Hr; [|exact Hx]. done. }
  cbn [seq map]. rewrite Hl, Nat.add_0_r, !(Nat.mod_small (cl_poolIdx c)), Hx by done. f_equal.
  rewrite IH; [|done|done|cbn; apply Nat.mod_upper_bound; done]. cbn [set_poolIdx cl_poolIdx].
  rewrite <- seq_shift, map_map. apply map_ext. intros i. f_equal.
  rewrite Nat.Div0.add_mod_idemp_l. f_equal. lia.
Qed.

(** The accessors of the services between two uses of one. *)
Fixpoint use_services (names : list (string * (Conn -> bool))) (c : Client) : Client :=
  match names with [] => c | (name, ready) :: rest => use_services rest (service_conn name ready c).1 end.

Lemma getConn_keeps ready c : cl_services (getConn ready c).1 = cl_services c.
Proof.
  unfold getConn. destruct (negb _ || _); [done|]. destruct (next_ready _ _ _ _) as [[i x]|]; [done|]. by destruct (omap id _).
Qed.
Lemma service_conn_bound name ready c conn c' :
  service_conn name ready c = (c', Ok conn) -> cl_services c' !! name = Some conn.
Proof.
  unfold service_conn. pose proof (getConn_keeps ready c) as Hk. destruct (getConn ready c) as [c1 [x|e]]; [|done]. cbn in Hk.
  destruct (cl_services c1 !! name) as [b|] eqn:Hb; intros [= <- <-]; [done|]. cbn. apply lookup_insert_eq.
Qed.
Lemma service_conn_keeps name other ready c conn :
  cl_services c !! name = Some conn -> cl_services (service_conn other ready c).1 !! name = Some conn.
Proof.
  intros Hb. unfold service_conn. pose proof (getConn_keeps ready c) as Hk. destruct (getConn ready c) as [c1 [x|e]]; cbn in *; [|by rewrite Hk].
  destruct (cl_services c1 !! other) as [b|] eqn:Ho; cbn; [by rewrite Hk|].
  destruct (decide (other = name)) as [->|Hne]; [rewrite Hk in Ho; congruence|]. by rewrite lookup_insert_ne, Hk.
Qed.

(** A service keeps the connection it was first used on until the client is closed:
    the others of the pool never carry its calls, and it is given that connection also
    when it is not ready any more. *)
Theorem services_pinned name ready c conn c' names ready' c'' conn' :
  service_conn name ready c = (c', Ok conn) -> service_conn name ready' (use_services names c') = (c'', Ok conn') -> conn' = conn.
Proof.
  intros Hfirst%service_conn_bound.
  assert (Hk : cl_services (use_services names c') !! name = Some conn).
  { revert c' Hfirst. induction names as [|[other r] names IH]; [done|]. intros c' Hb. cbn. apply IH. by apply service_conn_keeps. }
  unfold service_conn. pose proof (getConn_keeps ready' (use_services names c')) as Hg.
  destruct (getConn ready' _) as [c1 [x|e]]; [|done]. cbn in Hg. rewrite Hg, Hk. by intros [= _ <-].
Qed.

(** *** Sessions *)

Section session_theorems.
Context `{Crypto} `{ClientCrypto}.


(** A token that was saved is loaded by every client whose first key is the same. *)
Lemma saved_token_loads io io' a ks a' ks' file token nonce :
  ti_path io = true -> ti_mkdir io = true -> ti_writes io = true -> ti_nonce io = Some nonce -> length nonce = xchacha_NonceSize ->
  ti_path io' = true -> ti_reads io' = true ->
  (Authenticator_deriveEncryptionKey a ks).2 = (Authenticator_deriveEncryptionKey a' ks').2 ->
  exists saved, SaveSessionToken io a ks file token = ((Authenticator_deriveEncryptionKey a ks).1, Some saved, None) /\
    LoadSessionToken io' a' ks' (Some saved) = ((Authenticator_deriveEncryptionKey a' ks').1, Ok token).
Proof.
  intros Hp Hm Hw Hn Hlen Hp' Hr' Hk. unfold SaveSessionToken, LoadSessionToken. rewrite Hp, Hm, Hw, Hn, Hp', Hr'. cbn [negb].
  destruct (Authenticator_deriveEncryptionKey a ks) as [a1 key], (Authenticator_deriveEncryptionKey a' ks') as [a2 key']. cbn in *. subst key'.
  eexists. split; [done|]. rewrite length_app, Hlen. cbn [Nat.add xchacha_NonceSize Nat.ltb Nat.leb].
  rewrite take_app_length', drop_app_length', xchacha_open_seal, bytes_string_bytes by done. done.
Qed.
End session_theorems.

Section server_theorems.
Context `{Crypto} `{ClientCrypto} `{SessionOrder} `{KeyLib} `{DriverErrors}.

Lemma EncodeToString_nonempty bs : bs <> [] -> EncodeToString bs <> "".
Proof. intros Hne He. pose proof (EncodeToString_length bs) as Hl. rewrite He in Hl. by destruct bs. Qed.

(** A client and a server put together: where the server can read the client's key, the
    client signs what the server asks for in time and the account may sign in, the
    client gets the identifier of the new session as its token, the server has that
    session, and the challenge is gone. *)
Theorem client_signs_in env s n signer store service info idBytes nonce blob service' r :
  as_store s = Some store -> as_service s = Some service ->
  sg_authorized signer <> [] -> GetPublicKeyInfo (sg_authorized signer) = Some info ->
  cr_id (env n) = Some idBytes -> idBytes <> [] -> cr_nonce (env n) = Some nonce ->
  sg_sign signer nonce = Some blob -> blob <> [] ->
  VerifySSHSignature (PKI_KeyBytes info) (PKI_KeyType info) nonce blob = true ->
  cr_now (env (S n)) <= cr_now (env n) + cs_ttl store ->
  Authenticate service (mkAuthenticateRequest (PKI_KeyBytes info) (PKI_KeyType info) "" "" "" SessionTypeGRPC "" "" ∅) (cr_auth (env (S n)))
    = (service', Ok r) ->
  authenticateWithSigner (auth_api env) (s, n) signer =
    ((mkServer (Some service') (Some (mkChallengeStore (delete (EncodeToString idBytes) (cs_challenges store)) (cs_ttl store))) (as_timeout s), S (S n)),
     Ok (Session_ID (res_Session r))).
Proof.
  intros Hst Hsv Hkey Hinfo Hid Hidne Hnonce Hsign Hblob Hver Htime Hauth.
  unfold authenticateWithSigner. cbn [auth_api api_Challenge api_Verify api_state]. unfold Server_Challenge.
  rewrite Hst, Hid, Hnonce, Hinfo. rewrite (proj2 (Nat.eqb_neq (length (sg_authorized signer)) 0)) by (by destruct (sg_authorized signer)).
  unfold ChallengeStore_Create. cbn [Challenge_ID Challenge_Nonce]. rewrite Hsign.
  unfold VerifyChallenge. cbn [set_store as_store as_service bare_request VC_ChallengeId VC_Signature]. rewrite Hsv.
  rewrite bool_decide_eq_false_2 by (by apply EncodeToString_nonempty).
  rewrite (proj2 (Nat.eqb_neq (length blob) 0)) by (by destruct blob).
  unfold ChallengeStore_Get. cbn [cs_challenges cs_ttl]. rewrite lookup_insert_eq.
  unfold Challenge_IsExpired, After, Add. cbn [Challenge_ExpiresAt].
  rewrite (proj2 (Z.ltb_ge _ _)) by lia. cbn [Challenge_PublicKey Challenge_KeyType Challenge_Nonce]. rewrite Hver. cbn [negb].
  unfold authenticate_request. cbn [bare_request Challenge_PublicKey Challenge_KeyType VC_Name VC_Email VC_ClientInfo option_map fmap option_fmap default client_metadata].
  cbn. rewrite Hauth. cbn [set_service as_store as_timeout VR_SessionToken]. by rewrite delete_insert_eq.
Qed.

Lemma call_metadata_token o token uuid : token <> "" -> ExtractSessionToken (call_metadata o token uuid None) = Ok token.
Proof.
  intros Ht. unfold call_metadata, addAuthMetadata. rewrite bool_decide_eq_false_2 by done. unfold md_set, ExtractSessionToken, md_get.
  by rewrite lookup_insert_eq.
Qed.

(** A refresh takes any session that has a row, ended or not. *)
Lemma refresh_accepts env s n service x o uuid :
  as_service s = Some service -> NoDup (map Session_ID (sv_sessions service)) -> x ∈ sv_sessions service -> Session_ID x <> "" ->
  exists s', api_Refresh (auth_api env) (s, n) (call_metadata o (Session_ID x) uuid None) = ((s', S n), Ok (Session_ID x)).
Proof.
  intros Hsv Hnd Hx Hid. cbn. unfold RefreshSession, with_service, with_token. rewrite Hsv, call_metadata_token by done.
  unfold UpdateSessionActivity, Sessions_Get. rewrite (find_session _ x Hnd Hx). unfold Sessions_Update.
  rewrite (proj2 (mem_true _ _)); [eexists; done|]. apply list_elem_of_fmap. by exists x.
Qed.

(** A client whose session was ended, by a logout elsewhere, a suspension or for its
    age, takes itself for authenticated for as long as the row of the session is there:
    it keeps the token, signs no challenge and reports no error, while the server finds
    no such session. *)
Theorem ended_session_kept env s n service x o io ks uuid c c1 :
  as_service s = Some service -> NoDup (map Session_ID (sv_sessions service)) ->
  x ∈ sv_sessions service -> Session_ID x <> "" -> is_active x = false ->
  LoadSession io ks c = (c1, None) -> cn_token c1 = Session_ID x ->
  (exists s', EnsureAuthenticated (auth_api env) o io ks uuid c (s, n) = (c1, (s', S n), None)) /\
  forall now end_now, (ValidateSession s (cn_token c1) now end_now).2 = Ok (Invalid "session not found").
Proof.
  intros Hsv Hnd Hx Hid Hend Hload Htok. split.
  - destruct (refresh_accepts env s n service x o uuid Hsv Hnd Hx Hid) as [s' Hr]. exists s'.
    unfold EnsureAuthenticated. rewrite Hload, Htok. rewrite bool_decide_eq_false_2 by done. cbn [andb negb].
    unfold verifySession. rewrite Htok, Hr. done.
  - intros now end_now. unfold ValidateSession, with_service. rewrite Hsv, Htok, bool_decide_eq_false_2 by done.
    unfold GetSession, Sessions_Get. rewrite (find_session _ x Hnd Hx), Hend. done.
Qed.
End server_theorems.

Section restart_theorems.
Context `{Crypto} `{ClientCrypto}.

(** A client that signed in and saved its token is authenticated at its next start
    without signing anything, with the same token, if its first key is the same and the
    server still refreshes the session. *)
Theorem restart_keeps_session api o io io' ks ks' uuid c s c1 s1 s2 s3 answer nonce opts' :
  Client_Authenticate api io ks c s = (c1, s1, None) -> cn_token c1 <> "" ->
  ti_path io = true -> ti_mkdir io = true -> ti_writes io = true -> ti_nonce io = Some nonce -> length nonce = xchacha_NonceSize ->
  ti_path io' = true -> ti_reads io' = true ->
  (Authenticator_deriveEncryptionKey (cn_auth c1) ks).2 = (Authenticator_deriveEncryptionKey (NewAuthenticator opts') ks').2 ->
  api_Refresh api s2 (call_metadata o (cn_token c1) uuid None) = (s3, Ok answer) ->
  exists c2, EnsureAuthenticated api o io' ks' uuid (mkClientSession (NewAuthenticator opts') "" (cn_file c1)) s2 = (c2, s3, None) /\
    cn_token c2 = cn_token c1.
Proof.
  intros Hauth Htok Hp Hm Hw Hn Hlen Hp' Hr' Hk Href. unfold Client_Authenticate in Hauth.
  destruct (Authenticator_Authenticate api (cn_auth c) ks s) as [[a sx] [token|e]]; [|done].
  assert (Hkey : (Authenticator_deriveEncryptionKey a ks).2 = (Authenticator_deriveEncryptionKey (NewAuthenticator opts') ks').2).
  { rewrite <- Hk. destruct (SaveSessionToken io a ks (cn_file c) token) as [[a' f] e] eqn:Hs. injection Hauth as <- <-. cbn.
    unfold SaveSessionToken in Hs. rewrite Hp, Hm, Hw, Hn in Hs. cbn [negb] in Hs. revert Hs.
    unfold Authenticator_deriveEncryptionKey, getSigners. destruct (au_signers a) as [|sg sgs] eqn:Ha.
    - intros [= <- <- <-]. cbn. destruct (found_signers (au_opts a) ks); [|done]. done.
    - intros [= <- <- <-]. by rewrite Ha. }
  destruct (saved_token_loads io io' a ks (NewAuthenticator opts') ks' (cn_file c) token nonce) as (saved & Hsave & Hload); [done..|].
  rewrite Hsave in Hauth. injection Hauth as <- <-. cbn in *. unfold EnsureAuthenticated, LoadSession. cbn [cn_auth cn_file].
  rewrite Hload. destruct token as [|ch token]; [done|]. cbn [cn_token]. rewrite bool_decide_eq_false_2 by done. cbn [andb negb].
  unfold verifySession. cbn [cn_token]. rewrite Href. eexists. split; [done|done].
Qed.
End restart_theorems.

(** *** Errors *)

(** An error that has a status keeps its kind when it is converted, unless it was converted
    before under another code. *)
Lemma FromGRPCError_keeps text e s :
  own_code e = None -> status_FromError e = Some s ->
  let e' := FromGRPCError text (Some e) in
  IsNotFound e' = IsNotFound (Some e) /\ IsPermissionDenied e' = IsPermissionDenied (Some e) /\
  IsUnauthenticated e' = IsUnauthenticated (Some e) /\ IsUnavailable e' = IsUnavailable (Some e) /\
  IsInvalidArgument e' = IsInvalidArgument (Some e) /\ IsRetryable e' = IsRetryable (Some e).
Proof.
  intros Ho Hs. unfold FromGRPCError. rewrite Hs. cbn zeta.
  unfold IsNotFound, IsPermissionDenied, IsUnauthenticated, IsUnavailable, IsInvalidArgument, IsRetryable, is_error.
  rewrite Ho, Hs. cbn. done.
Qed.

(** *** Witnesses *)

Section witnesses.
#[local] Existing Instance toy_crypto.
#[local] Existing Instance merge_order.
#[local] Existing Instance toy_keys.
#[local] Existing Instance identity_tables.
#[local] Existing Instance some_text.
#[local] Instance toy_xchacha : ClientCrypto := {| xchacha_Seal _ _ d := d; xchacha_Open _ _ d := Some d; xchacha_open_seal _ _ _ := eq_refl |}.

Definition bob_signer : Signer := mkSigner (toy_marshal (WithKey (EdKey (replicate 32 7)))) [7; 7] Some.
Definition bob_sources : KeySources := mkKeySources (Some [bob_signer]) None [] "host" "bob".
Definition call_reads (n : nat) : CallReadings :=
  mkCallReadings (Some [1; Z.of_nat n]) (Some [5; 6]) (Z.of_nat n) (mkAuthReadings 11 12 13 14 "s2") 20.
Definition bob_server : Server := mkServer (Some bob_service) (Some (NewChallengeStore challengeTTL)) 0.
Definition good_io : TokenIO := mkTokenIO true true true (Some (replicate 24 3)) true None true.
Definition tcp_options : ClientOptions :=
  mkClientOptions "" "n:4000" "12D3KooW" ConnectionModeSequential Second 2 Second 2 (mkTLSOptions false false "" "" "" "") (mkAuthOptions "" "" "" true true) true false.
Definition dead_net : NetEnv := mkNetEnv (fun _ _ => None) (fun _ => false) (mkTLSFiles true true) false.
Definition new_session_state : ClientSession := mkClientSession (NewAuthenticator (OP_Auth tcp_options)) "" None.
Definition bob_signed_in : ClientSession * (Server * nat) := Eval vm_compute in
  (Client_Authenticate (auth_api call_reads) good_io bob_sources new_session_state (bob_server, 0%nat)).1.

Lemma retries_bounded_witness :
  Z.of_nat (dials (dialWithRetry dead_net tcp_options "n:4000" []).1) <= 3 /\
  waits (dialWithRetry dead_net tcp_options "n:4000" []).1 = [Second; 2 * Second].
Proof.
  split; [|vm_compute; reflexivity].
  destruct (retries_bounded dead_net tcp_options "n:4000" [] ltac:(by vm_compute)) as (more & -> & Hd & _ & _). exact Hd.
Defined.

Lemma pool_round_robin_witness :
  conns (fun _ => true) 3 (mkClient tcp_options [Some 10; Some 11] 1 ∅ true "n:4000") = [Some 11; Some 10; Some 11].
Proof.
  rewrite (pool_round_robin (fun _ => true) [10; 11]); [vm_compute; reflexivity|reflexivity|reflexivity|done|cbn; lia|repeat constructor].
Defined.

Lemma services_pinned_witness :
  let c := mkClient tcp_options [Some 10; Some 11] 0 ∅ true "n:4000" in
  let c' := (service_conn "auth" (fun _ => true) c).1 in
  (service_conn "auth" (fun x => x =? 11) (use_services [("topic", fun _ => true)] c')).2 = Ok 10.
Proof.
  cbn zeta. set (c := mkClient tcp_options [Some 10; Some 11] 0 ∅ true "n:4000").
  destruct (service_conn "auth" (fun x => x =? 11) (use_services [("topic", fun _ => true)] (service_conn "auth" (fun _ => true) c).1)) as [c'' [conn'|e]] eqn:Hs.
  - rewrite (services_pinned "auth" (fun _ => true) c 10 (service_conn "auth" (fun _ => true) c).1 _ _ _ conn' ltac:(vm_compute; reflexivity) Hs). reflexivity.
  - vm_compute in Hs. discriminate.
Defined.

Definition bob_key : PublicKeyInfo := Eval vm_compute in
  default (mkPublicKeyInfo KeyTypeEd25519 [] "" "" 0 []) (GetPublicKeyInfo (sg_authorized bob_signer)).
Definition bob_answer : Service * result AccountError AuthenticateResult := Eval vm_compute in
  Authenticate bob_service (mkAuthenticateRequest (PKI_KeyBytes bob_key) (PKI_KeyType bob_key) "" "" "" SessionTypeGRPC "" "" ∅) (cr_auth (call_reads 1)).

Lemma client_signs_in_witness :
  (authenticateWithSigner (auth_api call_reads) (bob_server, 0%nat) bob_signer).2 = Ok "s2".
Proof.
  destruct (bob_answer.2) as [r|e] eqn:Hr; [|vm_compute in Hr; discriminate].
  pose proof (client_signs_in call_reads bob_server 0 bob_signer (NewChallengeStore challengeTTL) bob_service bob_key [1; 0] [5; 6] [5; 6]
    bob_answer.1 r) as Hc.
  rewrite Hc; [| |reflexivity|done|vm_compute; reflexivity|reflexivity|done|reflexivity|reflexivity|done|vm_compute; reflexivity|vm_compute; discriminate|].
  - vm_compute in Hr. injection Hr as <-. reflexivity.
  - reflexivity.
  - rewrite <- Hr. vm_compute. reflexivity.
Defined.

Definition ended_service : Service := Eval vm_compute in
  match as_service bob_signed_in.2.1 with Some sv => (EndSession sv "s2" 30).1 | None => bob_service end.
Definition ended_server : Server := mkServer (Some ended_service) (Some (NewChallengeStore challengeTTL)) 0.
Definition ended_row : Session := Eval vm_compute in
  default bob_session (List.find (fun x => Session_ID x =?= "s2") (sv_sessions ended_service)).
Definition restarted : ClientSession := mkClientSession (NewAuthenticator (OP_Auth tcp_options)) "" (cn_file bob_signed_in.1).
Definition loaded : ClientSession := Eval vm_compute in (LoadSession good_io bob_sources restarted).1.

Lemma ended_session_kept_witness :
  (exists s', EnsureAuthenticated (auth_api call_reads) tcp_options good_io bob_sources "u" restarted (ended_server, 5%nat) = (loaded, s', None)) /\
  (ValidateSession ended_server "s2" 40 40).2 = Ok (Invalid "session not found").
Proof.
  destruct (ended_session_kept call_reads ended_server 5 ended_service ended_row tcp_options good_io bob_sources "u" restarted loaded) as [[s' Hk] Hv].
  - reflexivity.
  - vm_compute. repeat constructor; set_solver.
  - vm_compute. set_solver.
  - done.
  - reflexivity.
  - vm_compute. reflexivity.
  - reflexivity.
  - split; [eauto|]. apply (Hv 40 40).
Defined.

Lemma restart_keeps_session_witness :
  exists c2 s, EnsureAuthenticated (auth_api call_reads) tcp_options good_io bob_sources "u" restarted bob_signed_in.2 = (c2, s, None) /\ cn_token c2 = "s2".
Proof.
  destruct (api_Refresh (auth_api call_reads) bob_signed_in.2 (call_metadata tcp_options "s2" "u" None)) as [s3 [answer|e]] eqn:Hr;
    [|vm_compute in Hr; discriminate].
  destruct (restart_keeps_session (auth_api call_reads) tcp_options good_io good_io bob_sources bob_sources "u" new_session_state (bob_server, 0%nat)
    bob_signed_in.1 bob_signed_in.2 bob_signed_in.2 s3 answer (replicate 24 3) (OP_Auth tcp_options)) as (c2 & He & Ht);
    first [exact Hr | reflexivity | done | vm_compute; reflexivity | idtac].
  exists c2, s3. split; [exact He|exact Ht].
Defined.

(** An identifier of a peer is dialed, with pauses, although nothing dials it. *)
Example p2p_target_waits :
  waits (connectSequential dead_net (mkClientOptions "" "" "12D3KooW" ConnectionModeSequential Second 3 Second 1 (OP_TLS tcp_options) (OP_Auth tcp_options) true false) []).1
  = [Second; 2 * Second; 4 * Second] /\
  dials (connectSequential dead_net (mkClientOptions "" "" "12D3KooW" ConnectionModeSequential Second 3 Second 1 (OP_TLS tcp_options) (OP_Auth tcp_options) true false) []).1 = 0%nat.
Proof. vm_compute. done. Qed.

(** Of two targets that answer the second connection is left open. *)
Example parallel_leaks : connectParallel tcp_options false [("n:4000", Ok 10); ("p2p:12D3KooW", Ok 11)] = (Ok (10, "n:4000"), [11]).
Proof. reflexivity. Qed.

(** An error of the package without a cause loses its kind when it is converted. *)
Example converted_twice_loses : IsNotFound (Some (EClient NotFound "x")) = true /\ IsNotFound (FromGRPCError (fun _ => "") (Some (EClient NotFound "x"))) = false.
Proof. done. Qed.
End witnesses.
