(* ===== verification/Config.v ===== *)
(** * The configuration ([internal/config])

    The structures of the configuration with their defaults, the settings that are
    written to a file and those that have a default, what a load makes of files,
    environment and defaults, and references to secrets.

    A file is a flat list of keys and values, as the viper library sees it.  The library
    is the class [ViperLib]: how it converts values to the types of the fields, and its
    file formats, in which a value that was written is read as it was.  A value of the
    environment is a text and comes before the file, which comes before a default. *)
From stdpp Require Import base gmap strings list.
From Stdlib Require Import ZArith Lia Ascii SpecFloat.
From S2P Require Import Prelude GoStrings GoTime GoFloat Domain.
Local Open Scope string_scope.
Local Open Scope Z_scope.
Local Open Scope bool_scope.

Local Notation "'let?' x ':=' c 'in' k" :=
  (match c with Some x => k | None => None end) (at level 10, x pattern, c at level 100, k at level 200).

(** ** Structures ([types.go]) *)

Record LogConfig := mkLogConfig {
  LogC_Level : string;
  LogC_Format : string;
  LogC_Output : string;
  LogC_FilePath : string;
  LogC_MaxSizeMB : Z;
  LogC_MaxBackups : Z;
  LogC_MaxAgeDays : Z;
  LogC_EnableCaller : bool;
  LogC_NoColor : bool;
  LogC_AuditPath : string;
  LogC_AuditMaxAgeDays : Z;
  LogC_RedactFields : list string
}.

Record IdentityConfig := mkIdentityConfig {
  Ident_Name : string;
  Ident_Email : string;
  Ident_Key : string
}.

Record OutputConfig := mkOutputConfig {
  Output_Format : string;
  Output_Color : bool
}.

Record TLSSection := mkTLSSection {
  TLS_Enabled : bool;
  TLS_AutoGenerate : bool;
  TLS_CertFile : string;
  TLS_KeyFile : string;
  TLS_CAFile : string;
  TLS_ClientAuth : string;
  TLS_CAValidityYears : Z;
  TLS_ServerCertValidityDays : Z;
  TLS_ClientCertValidityDays : Z;
  TLS_RenewalThresholdDays : Z
}.

Record GRPCKeepaliveConfig := mkGRPCKeepaliveConfig {
  GRPCKeepalive_Time : Duration;
  GRPCKeepalive_Timeout : Duration;
  GRPCKeepalive_MinTime : Duration;
  GRPCKeepalive_PermitWithoutStream : bool
}.

Record GRPCRateLimitConfig := mkGRPCRateLimitConfig {
  GRPCRateLimit_Enabled : bool;
  GRPCRateLimit_RequestsPerSecond : float64;
  GRPCRateLimit_Burst : Z
}.

Record GRPCMetricsConfig := mkGRPCMetricsConfig {
  GRPCMetrics_Enabled : bool;
  GRPCMetrics_HTTPPort : Z;
  GRPCMetrics_HTTPHost : string;
  GRPCMetrics_Path : string;
  GRPCMetrics_EnableLatencyHistograms : bool
}.

Record GRPCConfig := mkGRPCConfig {
  GRPC_Enabled : bool;
  GRPC_Host : string;
  GRPC_Port : Z;
  GRPC_UnixSocket : string;
  GRPC_MaxRecvMsgSize : Z;
  GRPC_MaxSendMsgSize : Z;
  GRPC_MaxConcurrentStreams : Z;
  GRPC_Keepalive : GRPCKeepaliveConfig;
  GRPC_Reflection : bool;
  GRPC_RateLimit : GRPCRateLimitConfig;
  GRPC_Metrics : GRPCMetricsConfig;
  GRPC_ShutdownGracePeriod : Duration
}.

Record ServerSection := mkServerSection {
  Server_Host : string;
  Server_Port : Z;
  Server_TLS : TLSSection;
  Server_GRPC : GRPCConfig;
  Server_PIDFile : string;
  Server_DataDir : string
}.

Record SSHConfig := mkSSHConfig {
  SSH_Enabled : bool;
  SSH_Host : string;
  SSH_Port : Z;
  SSH_HostKeyPath : string;
  SSH_IdleTimeout : Duration;
  SSH_MaxConnections : Z
}.

Record P2PIdentityConfig := mkP2PIdentityConfig {
  P2PIdentity_KeyPath : string
}.

Record ConnManagerConfig := mkConnManagerConfig {
  ConnManager_LowWatermark : Z;
  ConnManager_HighWatermark : Z;
  ConnManager_GracePeriod : Duration
}.

Record BootstrapSection := mkBootstrapSection {
  Bootstrap_Peers : list string;
  Bootstrap_MinPeers : Z;
  Bootstrap_RetryInterval : Duration;
  Bootstrap_MaxRetryInterval : Duration
}.

Record MDNSConfig := mkMDNSConfig {
  MDNS_Enabled : bool;
  MDNS_ServiceName : string
}.

Record DHTConfig := mkDHTConfig {
  DHT_Enabled : bool;
  DHT_Mode : string
}.

Record PeerStoreConfig := mkPeerStoreConfig {
  PeerStore_Path : string
}.

Record FullReplicaConfig := mkFullReplicaConfig {
  FullReplica_SyncInterval : Duration
}.

Record SelectiveConfig := mkSelectiveConfig {
  Selective_Subscriptions : list string;
  Selective_SubscriptionStorePath : string
}.

Record ProxyConfig := mkProxyConfig {
  Proxy_CacheTTL : Duration;
  Proxy_MaxCacheSize : Z;
  Proxy_FavoritePeers : list string
}.

Record TCPFallbackConfig := mkTCPFallbackConfig {
  TCPFallback_Enabled : bool;
  TCPFallback_Timeout : Duration
}.

Record RateLimitSection := mkRateLimitSection {
  RateLimit_Enabled : bool;
  RateLimit_RequestsPerSecond : float64;
  RateLimit_BurstSize : Z
}.

Record P2PGRPCConfig := mkP2PGRPCConfig {
  P2PGRPC_Enabled : bool;
  P2PGRPC_DialTimeout : Duration;
  P2PGRPC_MaxConnsPerPeer : Z;
  P2PGRPC_IdleTimeout : Duration;
  P2PGRPC_TCPFallback : TCPFallbackConfig;
  P2PGRPC_RateLimit : RateLimitSection;
  P2PGRPC_AllowedPeers : list string
}.

Record P2PMetricsConfig := mkP2PMetricsConfig {
  P2PMetrics_BandwidthMetering : bool
}.

Record P2PSection := mkP2PSection {
  P2P_Enabled : bool;
  P2P_Mode : string;
  P2P_Identity : P2PIdentityConfig;
  P2P_ListenAddresses : list string;
  P2P_ConnManager : ConnManagerConfig;
  P2P_Bootstrap : BootstrapSection;
  P2P_MDNS : MDNSConfig;
  P2P_DHT : DHTConfig;
  P2P_PeerStore : PeerStoreConfig;
  P2P_FullReplica : FullReplicaConfig;
  P2P_Selective : SelectiveConfig;
  P2P_Proxy : ProxyConfig;
  P2P_GRPC : P2PGRPCConfig;
  P2P_Metrics : P2PMetricsConfig
}.

Record RaftConfig := mkRaftConfig {
  Raft_HeartbeatTimeout : Duration;
  Raft_ElectionTimeout : Duration;
  Raft_CommitTimeout : Duration;
  Raft_MaxAppendEntries : Z;
  Raft_TrailingLogs : Z;
  Raft_MaxInflight : Z
}.

Record SnapshotConfig := mkSnapshotConfig {
  Snapshot_Interval : Duration;
  Snapshot_Threshold : Z;
  Snapshot_RetainCount : Z
}.

Record ClusterSection := mkClusterSection {
  Cluster_Enabled : bool;
  Cluster_NodeID : string;
  Cluster_ClusterName : string;
  Cluster_DataDir : string;
  Cluster_ListenAddr : string;
  Cluster_AdvertiseAddr : string;
  Cluster_IsVoter : bool;
  Cluster_Bootstrap : bool;
  Cluster_JoinToken : string;
  Cluster_JoinAddrs : list string;
  Cluster_EnableDHTDiscovery : bool;
  Cluster_Raft : RaftConfig;
  Cluster_Snapshot : SnapshotConfig
}.

Record FavoriteNode := mkFavoriteNode {
  FN_ID : string;
  FN_Alias : string;
  FN_Priority : Z;
  FN_Address : string;
  FN_UnixSocket : string;
  FN_Default : bool;
  FN_DiscoveryMethod : string
}.

Record ConnectionTLSConfig := mkConnectionTLSConfig {
  ConnectionTLS_SkipVerify : bool;
  ConnectionTLS_CAFile : string;
  ConnectionTLS_CertFile : string;
  ConnectionTLS_KeyFile : string
}.

Record ConnectionConfig := mkConnectionConfig {
  Connection_DefaultNode : string;
  Connection_FavoriteNodes : list FavoriteNode;
  Connection_BibDevConfirmed : bool;
  Connection_Mode : string;
  Connection_AutoDetect : bool;
  Connection_Timeout : string;
  Connection_RetryAttempts : Z;
  Connection_PoolSize : Z;
  Connection_TLS : ConnectionTLSConfig
}.

Record BibConfig := mkBibConfig {
  Bib_Log : LogConfig;
  Bib_Identity : IdentityConfig;
  Bib_Output : OutputConfig;
  Bib_Locale : string;
  Bib_Connection : ConnectionConfig
}.

Record AuthSection := mkAuthSection {
  Auth_AllowAutoRegistration : bool;
  Auth_RequireEmail : bool;
  Auth_DefaultRole : string;
  Auth_SessionTimeout : Duration;
  Auth_MaxSessionsPerUser : Z
}.

Record SQLiteDatabaseConfig := mkSQLiteDatabaseConfig {
  SQLiteDatabase_Path : string;
  SQLiteDatabase_MaxOpenConns : Z
}.

Record PostgresNetworkConfig := mkPostgresNetworkConfig {
  PostgresNetwork_UseBridgeNetwork : bool;
  PostgresNetwork_BridgeNetworkName : string;
  PostgresNetwork_UseUnixSocket : bool;
  PostgresNetwork_BindAddress : string
}.

Record PostgresHealthConfig := mkPostgresHealthConfig {
  PostgresHealth_Interval : Duration;
  PostgresHealth_Timeout : Duration;
  PostgresHealth_StartupTimeout : Duration;
  PostgresHealth_Action : string;
  PostgresHealth_MaxRetries : Z;
  PostgresHealth_RetryBackoff : Duration
}.

Record PostgresTLSConfig := mkPostgresTLSConfig {
  PostgresTLS_Enabled : bool;
  PostgresTLS_CertDir : string;
  PostgresTLS_AutoGenerate : bool
}.

Record PostgresAdvancedConfig := mkPostgresAdvancedConfig {
  PostgresAdvanced_Host : string;
  PostgresAdvanced_Port : Z;
  PostgresAdvanced_Database : string;
  PostgresAdvanced_User : string;
  PostgresAdvanced_Password : string;
  PostgresAdvanced_SSLMode : string
}.

Record PostgresDatabaseConfig := mkPostgresDatabaseConfig {
  PostgresDatabase_Managed : bool;
  PostgresDatabase_ContainerRuntime : string;
  PostgresDatabase_SocketPath : string;
  PostgresDatabase_KubeconfigPath : string;
  PostgresDatabase_Image : string;
  PostgresDatabase_DataDir : string;
  PostgresDatabase_Port : Z;
  PostgresDatabase_MaxConnections : Z;
  PostgresDatabase_MemoryMB : Z;
  PostgresDatabase_CPUCores : float64;
  PostgresDatabase_SSLMode : string;
  PostgresDatabase_CredentialRotationInterval : Duration;
  PostgresDatabase_Network : PostgresNetworkConfig;
  PostgresDatabase_Health : PostgresHealthConfig;
  PostgresDatabase_TLS : PostgresTLSConfig;
  PostgresDatabase_Advanced : option PostgresAdvancedConfig
}.

Record AuditDatabaseConfig := mkAuditDatabaseConfig {
  AuditDatabase_Enabled : bool;
  AuditDatabase_RetentionDays : Z;
  AuditDatabase_HashChain : bool
}.

Record BreakGlassUser := mkBreakGlassUser {
  BGU_Name : string;
  BGU_PublicKey : string;
  BGU_AccessLevel : string
}.

Record BreakGlassNotification := mkBreakGlassNotification {
  BGN_Webhook : string;
  BGN_Email : string
}.

Record BreakGlassConfig := mkBreakGlassConfig {
  BreakGlass_Enabled : bool;
  BreakGlass_RequireRestart : bool;
  BreakGlass_MaxDuration : Duration;
  BreakGlass_DefaultAccessLevel : string;
  BreakGlass_AllowedUsers : list BreakGlassUser;
  BreakGlass_AuditLevel : string;
  BreakGlass_Notification : BreakGlassNotification;
  BreakGlass_RequireAcknowledgment : bool;
  BreakGlass_SessionRecording : bool;
  BreakGlass_RecordingPath : string
}.

Record DatabaseConfig := mkDatabaseConfig {
  Database_Backend : string;
  Database_SQLite : SQLiteDatabaseConfig;
  Database_Postgres : PostgresDatabaseConfig;
  Database_Audit : AuditDatabaseConfig;
  Database_BreakGlass : BreakGlassConfig
}.

Record BibdConfig := mkBibdConfig {
  Bibd_Log : LogConfig;
  Bibd_Identity : IdentityConfig;
  Bibd_Server : ServerSection;
  Bibd_SSH : SSHConfig;
  Bibd_Auth : AuthSection;
  Bibd_P2P : P2PSection;
  Bibd_Cluster : ClusterSection;
  Bibd_Database : DatabaseConfig
}.

(** The zero values of the structures. *)
Definition zero_LogConfig : LogConfig := mkLogConfig "" "" "" "" 0 0 0 false false "" 0 [].
Definition zero_IdentityConfig : IdentityConfig := mkIdentityConfig "" "" "".
Definition zero_OutputConfig : OutputConfig := mkOutputConfig "" false.
Definition zero_TLSSection : TLSSection := mkTLSSection false false "" "" "" "" 0 0 0 0.
Definition zero_GRPCKeepaliveConfig : GRPCKeepaliveConfig := mkGRPCKeepaliveConfig 0 0 0 false.
Definition zero_GRPCRateLimitConfig : GRPCRateLimitConfig := mkGRPCRateLimitConfig false fzero 0.
Definition zero_GRPCMetricsConfig : GRPCMetricsConfig := mkGRPCMetricsConfig false 0 "" "" false.
Definition zero_GRPCConfig : GRPCConfig := mkGRPCConfig false "" 0 "" 0 0 0 zero_GRPCKeepaliveConfig false zero_GRPCRateLimitConfig zero_GRPCMetricsConfig 0.
Definition zero_ServerSection : ServerSection := mkServerSection "" 0 zero_TLSSection zero_GRPCConfig "" "".
Definition zero_SSHConfig : SSHConfig := mkSSHConfig false "" 0 "" 0 0.
Definition zero_P2PIdentityConfig : P2PIdentityConfig := mkP2PIdentityConfig "".
Definition zero_ConnManagerConfig : ConnManagerConfig := mkConnManagerConfig 0 0 0.
Definition zero_BootstrapSection : BootstrapSection := mkBootstrapSection [] 0 0 0.
Definition zero_MDNSConfig : MDNSConfig := mkMDNSConfig false "".
Definition zero_DHTConfig : DHTConfig := mkDHTConfig false "".
Definition zero_PeerStoreConfig : PeerStoreConfig := mkPeerStoreConfig "".
Definition zero_FullReplicaConfig : FullReplicaConfig := mkFullReplicaConfig 0.
Definition zero_SelectiveConfig : SelectiveConfig := mkSelectiveConfig [] "".
Definition zero_ProxyConfig : ProxyConfig := mkProxyConfig 0 0 [].
Definition zero_TCPFallbackConfig : TCPFallbackConfig := mkTCPFallbackConfig false 0.
Definition zero_RateLimitSection : RateLimitSection := mkRateLimitSection false fzero 0.
Definition zero_P2PGRPCConfig : P2PGRPCConfig := mkP2PGRPCConfig false 0 0 0 zero_TCPFallbackConfig zero_RateLimitSection [].
Definition zero_P2PMetricsConfig : P2PMetricsConfig := mkP2PMetricsConfig false.
Definition zero_P2PSection : P2PSection := mkP2PSection false "" zero_P2PIdentityConfig [] zero_ConnManagerConfig zero_BootstrapSection zero_MDNSConfig zero_DHTConfig zero_PeerStoreConfig zero_FullReplicaConfig zero_SelectiveConfig zero_ProxyConfig zero_P2PGRPCConfig zero_P2PMetricsConfig.
Definition zero_RaftConfig : RaftConfig := mkRaftConfig 0 0 0 0 0 0.
Definition zero_SnapshotConfig : SnapshotConfig := mkSnapshotConfig 0 0 0.
Definition zero_ClusterSection : ClusterSection := mkClusterSection false "" "" "" "" "" false false "" [] false zero_RaftConfig zero_SnapshotConfig.
Definition zero_FavoriteNode : FavoriteNode := mkFavoriteNode "" "" 0 "" "" false "".
Definition zero_ConnectionTLSConfig : ConnectionTLSConfig := mkConnectionTLSConfig false "" "" "".
Definition zero_ConnectionConfig : ConnectionConfig := mkConnectionConfig "" [] false "" false "" 0 0 zero_ConnectionTLSConfig.
Definition zero_BibConfig : BibConfig := mkBibConfig zero_LogConfig zero_IdentityConfig zero_OutputConfig "" zero_ConnectionConfig.
Definition zero_AuthSection : AuthSection := mkAuthSection false false "" 0 0.
Definition zero_SQLiteDatabaseConfig : SQLiteDatabaseConfig := mkSQLiteDatabaseConfig "" 0.
Definition zero_PostgresNetworkConfig : PostgresNetworkConfig := mkPostgresNetworkConfig false "" false "".
Definition zero_PostgresHealthConfig : PostgresHealthConfig := mkPostgresHealthConfig 0 0 0 "" 0 0.
Definition zero_PostgresTLSConfig : PostgresTLSConfig := mkPostgresTLSConfig false "" false.
Definition zero_PostgresAdvancedConfig : PostgresAdvancedConfig := mkPostgresAdvancedConfig "" 0 "" "" "" "".
Definition zero_PostgresDatabaseConfig : PostgresDatabaseConfig := mkPostgresDatabaseConfig false "" "" "" "" "" 0 0 0 fzero "" 0 zero_PostgresNetworkConfig zero_PostgresHealthConfig zero_PostgresTLSConfig None.
Definition zero_AuditDatabaseConfig : AuditDatabaseConfig := mkAuditDatabaseConfig false 0 false.
Definition zero_BreakGlassUser : BreakGlassUser := mkBreakGlassUser "" "" "".
Definition zero_BreakGlassNotification : BreakGlassNotification := mkBreakGlassNotification "" "".
Definition zero_BreakGlassConfig : BreakGlassConfig := mkBreakGlassConfig false false 0 "" [] "" zero_BreakGlassNotification false false "".
Definition zero_DatabaseConfig : DatabaseConfig := mkDatabaseConfig "" zero_SQLiteDatabaseConfig zero_PostgresDatabaseConfig zero_AuditDatabaseConfig zero_BreakGlassConfig.
Definition zero_BibdConfig : BibdConfig := mkBibdConfig zero_LogConfig zero_IdentityConfig zero_ServerSection zero_SSHConfig zero_AuthSection zero_P2PSection zero_ClusterSection zero_DatabaseConfig.

Definition getDefaultDataDir (goos : string) : string :=
  if goos =?= "windows" then "~/AppData/Local/bibd" else "~/.local/share/bibd".

Definition DefaultBibConfig : BibConfig :=
mkBibConfig (mkLogConfig "info" "text" "stderr" "" 100 3 28 false false "" 365 ["password"; "token"; "key"; "secret"; "credential"; "auth"])
    (mkIdentityConfig "" "" "") (mkOutputConfig "table" true) "" (mkConnectionConfig "" [] false "" true "30s" 3 0 zero_ConnectionTLSConfig).

Definition DefaultBibdConfig (goos : string) : BibdConfig :=
  let useUnixSocket := goos <>? "windows" in
mkBibdConfig (mkLogConfig "info" "pretty" "stdout" "" 100 3 28 true false "" 365 ["password"; "token"; "key"; "secret"; "credential"; "auth"])
    (mkIdentityConfig "" "" "") (mkServerSection "0.0.0.0" 8080 (mkTLSSection false false "" "" "" "" 0 0 0 0) (mkGRPCConfig true "" 4000 "" (16 *
    1024 * 1024) (16 * 1024 * 1024) 100 (mkGRPCKeepaliveConfig (2 * Hour) (20 * Second) (5 * Minute) false) false (mkGRPCRateLimitConfig true
    (float_of_int 100) 200) (mkGRPCMetricsConfig true 9090 "127.0.0.1" "/metrics" true) (30 * Second)) "~/bibd.pid" (getDefaultDataDir goos))
    (mkSSHConfig true "0.0.0.0" 2222 "" (30 * Minute) 100) zero_AuthSection (mkP2PSection true "proxy" (mkP2PIdentityConfig "")
    ["/ip4/0.0.0.0/tcp/4001"; "/ip4/0.0.0.0/udp/4001/quic-v1"] (mkConnManagerConfig 100 400 (30 * Second)) (mkBootstrapSection
    ["/dns4/bib.dev/tcp/4001"; "/dns4/bib.dev/udp/4001/quic-v1"] 1 (5 * Second) (1 * Hour)) (mkMDNSConfig true "bib.local") (mkDHTConfig true "auto")
    (mkPeerStoreConfig "") (mkFullReplicaConfig (5 * Minute)) (mkSelectiveConfig [] "") (mkProxyConfig (2 * Minute) 1000 []) zero_P2PGRPCConfig
    zero_P2PMetricsConfig) (mkClusterSection false "" "bib-cluster" "" "0.0.0.0:4002" "" true false "" [] false (mkRaftConfig (1 * Second) (5 *
    Second) (50 * Millisecond) 64 10000 256) (mkSnapshotConfig (30 * Minute) 8192 3)) (mkDatabaseConfig "sqlite" (mkSQLiteDatabaseConfig "" 10)
    (mkPostgresDatabaseConfig true "" "" "" "postgres:16-alpine" "" 5432 100 512 (float_of_int 1) "require" (7 * 24 * Hour) (mkPostgresNetworkConfig
    true "bibd-network" useUnixSocket "127.0.0.1") (mkPostgresHealthConfig (5 * Second) (5 * Second) (60 * Second) "retry_limit" 5 (10 * Second))
    (mkPostgresTLSConfig true "" true) None) (mkAuditDatabaseConfig true 90 true) (mkBreakGlassConfig false true (1 * Hour) "readonly" [] "paranoid"
    (mkBreakGlassNotification "" "") true true "")).

Definition GetDefaultServerAddress (c : BibConfig) : string :=
  let nodes := Connection_FavoriteNodes (Bib_Connection c) in
  if Connection_DefaultNode (Bib_Connection c) <>? "" then Connection_DefaultNode (Bib_Connection c)
  else match List.find (fun node => FN_Default node && (FN_Address node <>? "")) nodes with
  | Some node => FN_Address node
  | None =>
      match nodes with
      | node :: _ => if FN_Address node <>? "" then FN_Address node else ""
      | [] => ""
      end
  end.
Definition GetFavoriteNodes (c : BibConfig) : list FavoriteNode := Connection_FavoriteNodes (Bib_Connection c).
Definition HasBibDevNode (c : BibConfig) : bool :=
  existsb (fun node => (FN_Address node =?= "bib.dev:4000") || (FN_DiscoveryMethod node =?= "public")) (GetFavoriteNodes c).
Definition IsBibDevConfirmed (c : BibConfig) : bool := Connection_BibDevConfirmed (Bib_Connection c).

(** ** Settings ([loader.go]) *)

Inductive Value : Type :=
| VString (s : string)
| VBool (b : bool)
| VInt (n : Z)
| VFloat (f : float64)
| VDuration (d : Duration)
| VStrings (l : list string)
| VNodes (l : list FavoriteNode)
| VUsers (l : list BreakGlassUser).

Abbreviation Settings := (list (string * Value)) (only parsing).

Definition alist_get (m : Settings) (key : string) : option Value := snd <$> List.find (fun kv => kv.1 =?= key) m.

Definition bib_defaults (c : BibConfig) : Settings :=
  [("log.level", VString (LogC_Level (Bib_Log c)));
   ("log.format", VString (LogC_Format (Bib_Log c)));
   ("log.output", VString (LogC_Output (Bib_Log c)));
   ("identity.name", VString (Ident_Name (Bib_Identity c)));
   ("identity.email", VString (Ident_Email (Bib_Identity c)));
   ("identity.key", VString (Ident_Key (Bib_Identity c)));
   ("output.format", VString (Output_Format (Bib_Output c)));
   ("output.color", VBool (Output_Color (Bib_Output c)));
   ("connection.default_node", VString (Connection_DefaultNode (Bib_Connection c)));
   ("connection.auto_detect", VBool (Connection_AutoDetect (Bib_Connection c)))].

Definition bibd_defaults (c : BibdConfig) : Settings :=
  [("log.level", VString (LogC_Level (Bibd_Log c)));
   ("log.format", VString (LogC_Format (Bibd_Log c)));
   ("log.output", VString (LogC_Output (Bibd_Log c)));
   ("identity.name", VString (Ident_Name (Bibd_Identity c)));
   ("identity.email", VString (Ident_Email (Bibd_Identity c)));
   ("identity.key", VString (Ident_Key (Bibd_Identity c)));
   ("server.host", VString (Server_Host (Bibd_Server c)));
   ("server.port", VInt (Server_Port (Bibd_Server c)));
   ("server.tls.enabled", VBool (TLS_Enabled (Server_TLS (Bibd_Server c))));
   ("server.tls.cert_file", VString (TLS_CertFile (Server_TLS (Bibd_Server c))));
   ("server.tls.key_file", VString (TLS_KeyFile (Server_TLS (Bibd_Server c))));
   ("server.pid_file", VString (Server_PIDFile (Bibd_Server c)));
   ("server.data_dir", VString (Server_DataDir (Bibd_Server c)));
   ("server.grpc.enabled", VBool (GRPC_Enabled (Server_GRPC (Bibd_Server c))));
   ("server.grpc.host", VString (GRPC_Host (Server_GRPC (Bibd_Server c))));
   ("server.grpc.port", VInt (GRPC_Port (Server_GRPC (Bibd_Server c))));
   ("server.grpc.unix_socket", VString (GRPC_UnixSocket (Server_GRPC (Bibd_Server c))));
   ("server.grpc.max_recv_msg_size", VInt (GRPC_MaxRecvMsgSize (Server_GRPC (Bibd_Server c))));
   ("server.grpc.max_send_msg_size", VInt (GRPC_MaxSendMsgSize (Server_GRPC (Bibd_Server c))));
   ("server.grpc.max_concurrent_streams", VInt (GRPC_MaxConcurrentStreams (Server_GRPC (Bibd_Server c))));
   ("server.grpc.keepalive.time", VDuration (GRPCKeepalive_Time (GRPC_Keepalive (Server_GRPC (Bibd_Server c)))));
   ("server.grpc.keepalive.timeout", VDuration (GRPCKeepalive_Timeout (GRPC_Keepalive (Server_GRPC (Bibd_Server c)))));
   ("server.grpc.keepalive.min_time", VDuration (GRPCKeepalive_MinTime (GRPC_Keepalive (Server_GRPC (Bibd_Server c)))));
   ("server.grpc.keepalive.permit_without_stream", VBool (GRPCKeepalive_PermitWithoutStream (GRPC_Keepalive (Server_GRPC (Bibd_Server c)))));
   ("server.grpc.reflection", VBool (GRPC_Reflection (Server_GRPC (Bibd_Server c))));
   ("server.grpc.rate_limit.enabled", VBool (GRPCRateLimit_Enabled (GRPC_RateLimit (Server_GRPC (Bibd_Server c)))));
   ("server.grpc.rate_limit.requests_per_second", VFloat (GRPCRateLimit_RequestsPerSecond (GRPC_RateLimit (Server_GRPC (Bibd_Server c)))));
   ("server.grpc.rate_limit.burst", VInt (GRPCRateLimit_Burst (GRPC_RateLimit (Server_GRPC (Bibd_Server c)))));
   ("server.grpc.metrics.enabled", VBool (GRPCMetrics_Enabled (GRPC_Metrics (Server_GRPC (Bibd_Server c)))));
   ("server.grpc.metrics.http_port", VInt (GRPCMetrics_HTTPPort (GRPC_Metrics (Server_GRPC (Bibd_Server c)))));
   ("server.grpc.metrics.http_host", VString (GRPCMetrics_HTTPHost (GRPC_Metrics (Server_GRPC (Bibd_Server c)))));
   ("server.grpc.metrics.path", VString (GRPCMetrics_Path (GRPC_Metrics (Server_GRPC (Bibd_Server c)))));
   ("server.grpc.metrics.enable_latency_histograms", VBool (GRPCMetrics_EnableLatencyHistograms (GRPC_Metrics (Server_GRPC (Bibd_Server c)))));
   ("server.grpc.shutdown_grace_period", VDuration (GRPC_ShutdownGracePeriod (Server_GRPC (Bibd_Server c))));
   ("p2p.enabled", VBool (P2P_Enabled (Bibd_P2P c)));
   ("p2p.mode", VString (P2P_Mode (Bibd_P2P c)));
   ("p2p.identity.key_path", VString (P2PIdentity_KeyPath (P2P_Identity (Bibd_P2P c))));
   ("p2p.listen_addresses", VStrings (P2P_ListenAddresses (Bibd_P2P c)));
   ("p2p.connection_manager.low_watermark", VInt (ConnManager_LowWatermark (P2P_ConnManager (Bibd_P2P c))));
   ("p2p.connection_manager.high_watermark", VInt (ConnManager_HighWatermark (P2P_ConnManager (Bibd_P2P c))));
   ("p2p.connection_manager.grace_period", VDuration (ConnManager_GracePeriod (P2P_ConnManager (Bibd_P2P c))));
   ("p2p.bootstrap.peers", VStrings (Bootstrap_Peers (P2P_Bootstrap (Bibd_P2P c))));
   ("p2p.bootstrap.min_peers", VInt (Bootstrap_MinPeers (P2P_Bootstrap (Bibd_P2P c))));
   ("p2p.bootstrap.retry_interval", VDuration (Bootstrap_RetryInterval (P2P_Bootstrap (Bibd_P2P c))));
   ("p2p.bootstrap.max_retry_interval", VDuration (Bootstrap_MaxRetryInterval (P2P_Bootstrap (Bibd_P2P c))));
   ("p2p.mdns.enabled", VBool (MDNS_Enabled (P2P_MDNS (Bibd_P2P c))));
   ("p2p.mdns.service_name", VString (MDNS_ServiceName (P2P_MDNS (Bibd_P2P c))));
   ("p2p.dht.enabled", VBool (DHT_Enabled (P2P_DHT (Bibd_P2P c))));
   ("p2p.dht.mode", VString (DHT_Mode (P2P_DHT (Bibd_P2P c))));
   ("p2p.peer_store.path", VString (PeerStore_Path (P2P_PeerStore (Bibd_P2P c))));
   ("p2p.full_replica.sync_interval", VDuration (FullReplica_SyncInterval (P2P_FullReplica (Bibd_P2P c))));
   ("p2p.selective.subscriptions", VStrings (Selective_Subscriptions (P2P_Selective (Bibd_P2P c))));
   ("p2p.selective.subscription_store_path", VString (Selective_SubscriptionStorePath (P2P_Selective (Bibd_P2P c))));
   ("p2p.proxy.cache_ttl", VDuration (Proxy_CacheTTL (P2P_Proxy (Bibd_P2P c))));
   ("p2p.proxy.max_cache_size", VInt (Proxy_MaxCacheSize (P2P_Proxy (Bibd_P2P c))));
   ("p2p.proxy.favorite_peers", VStrings (Proxy_FavoritePeers (P2P_Proxy (Bibd_P2P c))));
   ("cluster.enabled", VBool (Cluster_Enabled (Bibd_Cluster c)));
   ("cluster.node_id", VString (Cluster_NodeID (Bibd_Cluster c)));
   ("cluster.cluster_name", VString (Cluster_ClusterName (Bibd_Cluster c)));
   ("cluster.data_dir", VString (Cluster_DataDir (Bibd_Cluster c)));
   ("cluster.listen_addr", VString (Cluster_ListenAddr (Bibd_Cluster c)));
   ("cluster.advertise_addr", VString (Cluster_AdvertiseAddr (Bibd_Cluster c)));
   ("cluster.is_voter", VBool (Cluster_IsVoter (Bibd_Cluster c)));
   ("cluster.bootstrap", VBool (Cluster_Bootstrap (Bibd_Cluster c)));
   ("cluster.join_token", VString (Cluster_JoinToken (Bibd_Cluster c)));
   ("cluster.join_addrs", VStrings (Cluster_JoinAddrs (Bibd_Cluster c)));
   ("cluster.enable_dht_discovery", VBool (Cluster_EnableDHTDiscovery (Bibd_Cluster c)));
   ("cluster.raft.heartbeat_timeout", VDuration (Raft_HeartbeatTimeout (Cluster_Raft (Bibd_Cluster c))));
   ("cluster.raft.election_timeout", VDuration (Raft_ElectionTimeout (Cluster_Raft (Bibd_Cluster c))));
   ("cluster.raft.commit_timeout", VDuration (Raft_CommitTimeout (Cluster_Raft (Bibd_Cluster c))));
   ("cluster.raft.max_append_entries", VInt (Raft_MaxAppendEntries (Cluster_Raft (Bibd_Cluster c))));
   ("cluster.raft.trailing_logs", VInt (Raft_TrailingLogs (Cluster_Raft (Bibd_Cluster c))));
   ("cluster.raft.max_inflight", VInt (Raft_MaxInflight (Cluster_Raft (Bibd_Cluster c))));
   ("cluster.snapshot.interval", VDuration (Snapshot_Interval (Cluster_Snapshot (Bibd_Cluster c))));
   ("cluster.snapshot.threshold", VInt (Snapshot_Threshold (Cluster_Snapshot (Bibd_Cluster c))));
   ("cluster.snapshot.retain_count", VInt (Snapshot_RetainCount (Cluster_Snapshot (Bibd_Cluster c))));
   ("database.backend", VString (Database_Backend (Bibd_Database c)));
   ("database.sqlite.path", VString (SQLiteDatabase_Path (Database_SQLite (Bibd_Database c))));
   ("database.sqlite.max_open_conns", VInt (SQLiteDatabase_MaxOpenConns (Database_SQLite (Bibd_Database c))));
   ("database.postgres.managed", VBool (PostgresDatabase_Managed (Database_Postgres (Bibd_Database c))));
   ("database.postgres.container_runtime", VString (PostgresDatabase_ContainerRuntime (Database_Postgres (Bibd_Database c))));
   ("database.postgres.socket_path", VString (PostgresDatabase_SocketPath (Database_Postgres (Bibd_Database c))));
   ("database.postgres.kubeconfig_path", VString (PostgresDatabase_KubeconfigPath (Database_Postgres (Bibd_Database c))));
   ("database.postgres.image", VString (PostgresDatabase_Image (Database_Postgres (Bibd_Database c))));
   ("database.postgres.data_dir", VString (PostgresDatabase_DataDir (Database_Postgres (Bibd_Database c))));
   ("database.postgres.port", VInt (PostgresDatabase_Port (Database_Postgres (Bibd_Database c))));
   ("database.postgres.max_connections", VInt (PostgresDatabase_MaxConnections (Database_Postgres (Bibd_Database c))));
   ("database.postgres.memory_mb", VInt (PostgresDatabase_MemoryMB (Database_Postgres (Bibd_Database c))));
   ("database.postgres.cpu_cores", VFloat (PostgresDatabase_CPUCores (Database_Postgres (Bibd_Database c))));
   ("database.postgres.ssl_mode", VString (PostgresDatabase_SSLMode (Database_Postgres (Bibd_Database c))));
   ("database.postgres.credential_rotation_interval", VDuration (PostgresDatabase_CredentialRotationInterval (Database_Postgres (Bibd_Database c))));
   ("database.postgres.network.use_bridge_network", VBool (PostgresNetwork_UseBridgeNetwork (PostgresDatabase_Network (Database_Postgres (Bibd_Database c)))));
   ("database.postgres.network.bridge_network_name", VString (PostgresNetwork_BridgeNetworkName (PostgresDatabase_Network (Database_Postgres (Bibd_Database c)))));
   ("database.postgres.network.use_unix_socket", VBool (PostgresNetwork_UseUnixSocket (PostgresDatabase_Network (Database_Postgres (Bibd_Database c)))));
   ("database.postgres.network.bind_address", VString (PostgresNetwork_BindAddress (PostgresDatabase_Network (Database_Postgres (Bibd_Database c)))));
   ("database.postgres.health.interval", VDuration (PostgresHealth_Interval (PostgresDatabase_Health (Database_Postgres (Bibd_Database c)))));
   ("database.postgres.health.timeout", VDuration (PostgresHealth_Timeout (PostgresDatabase_Health (Database_Postgres (Bibd_Database c)))));
   ("database.postgres.health.startup_timeout", VDuration (PostgresHealth_StartupTimeout (PostgresDatabase_Health (Database_Postgres (Bibd_Database c)))));
   ("database.postgres.health.action", VString (PostgresHealth_Action (PostgresDatabase_Health (Database_Postgres (Bibd_Database c)))));
   ("database.postgres.health.max_retries", VInt (PostgresHealth_MaxRetries (PostgresDatabase_Health (Database_Postgres (Bibd_Database c)))));
   ("database.postgres.health.retry_backoff", VDuration (PostgresHealth_RetryBackoff (PostgresDatabase_Health (Database_Postgres (Bibd_Database c)))));
   ("database.postgres.tls.enabled", VBool (PostgresTLS_Enabled (PostgresDatabase_TLS (Database_Postgres (Bibd_Database c)))));
   ("database.postgres.tls.cert_dir", VString (PostgresTLS_CertDir (PostgresDatabase_TLS (Database_Postgres (Bibd_Database c)))));
   ("database.postgres.tls.auto_generate", VBool (PostgresTLS_AutoGenerate (PostgresDatabase_TLS (Database_Postgres (Bibd_Database c)))));
   ("database.audit.enabled", VBool (AuditDatabase_Enabled (Database_Audit (Bibd_Database c))));
   ("database.audit.retention_days", VInt (AuditDatabase_RetentionDays (Database_Audit (Bibd_Database c))));
   ("database.audit.hash_chain", VBool (AuditDatabase_HashChain (Database_Audit (Bibd_Database c))))].

Definition bib_settings (c : BibConfig) : Settings :=
  [("log.level", VString (LogC_Level (Bib_Log c)));
   ("log.format", VString (LogC_Format (Bib_Log c)));
   ("log.output", VString (LogC_Output (Bib_Log c)));
   ("identity.name", VString (Ident_Name (Bib_Identity c)));
   ("identity.email", VString (Ident_Email (Bib_Identity c)));
   ("identity.key", VString (Ident_Key (Bib_Identity c)));
   ("output.format", VString (Output_Format (Bib_Output c)));
   ("output.color", VBool (Output_Color (Bib_Output c)));
   ("connection.default_node", VString (Connection_DefaultNode (Bib_Connection c)));
   ("connection.auto_detect", VBool (Connection_AutoDetect (Bib_Connection c)))].

Definition bibd_settings (c : BibdConfig) : Settings :=
  [("log.level", VString (LogC_Level (Bibd_Log c)));
   ("log.format", VString (LogC_Format (Bibd_Log c)));
   ("log.output", VString (LogC_Output (Bibd_Log c)));
   ("identity.name", VString (Ident_Name (Bibd_Identity c)));
   ("identity.email", VString (Ident_Email (Bibd_Identity c)));
   ("identity.key", VString (Ident_Key (Bibd_Identity c)));
   ("server.host", VString (Server_Host (Bibd_Server c)));
   ("server.port", VInt (Server_Port (Bibd_Server c)));
   ("server.tls.enabled", VBool (TLS_Enabled (Server_TLS (Bibd_Server c))));
   ("server.tls.cert_file", VString (TLS_CertFile (Server_TLS (Bibd_Server c))));
   ("server.tls.key_file", VString (TLS_KeyFile (Server_TLS (Bibd_Server c))));
   ("server.pid_file", VString (Server_PIDFile (Bibd_Server c)));
   ("server.data_dir", VString (Server_DataDir (Bibd_Server c)));
   ("server.grpc.enabled", VBool (GRPC_Enabled (Server_GRPC (Bibd_Server c))));
   ("server.grpc.host", VString (GRPC_Host (Server_GRPC (Bibd_Server c))));
   ("server.grpc.port", VInt (GRPC_Port (Server_GRPC (Bibd_Server c))));
   ("server.grpc.unix_socket", VString (GRPC_UnixSocket (Server_GRPC (Bibd_Server c))));
   ("server.grpc.max_recv_msg_size", VInt (GRPC_MaxRecvMsgSize (Server_GRPC (Bibd_Server c))));
   ("server.grpc.max_send_msg_size", VInt (GRPC_MaxSendMsgSize (Server_GRPC (Bibd_Server c))));
   ("server.grpc.max_concurrent_streams", VInt (GRPC_MaxConcurrentStreams (Server_GRPC (Bibd_Server c))));
   ("server.grpc.keepalive.time", VDuration (GRPCKeepalive_Time (GRPC_Keepalive (Server_GRPC (Bibd_Server c)))));
   ("server.grpc.keepalive.timeout", VDuration (GRPCKeepalive_Timeout (GRPC_Keepalive (Server_GRPC (Bibd_Server c)))));
   ("server.grpc.keepalive.min_time", VDuration (GRPCKeepalive_MinTime (GRPC_Keepalive (Server_GRPC (Bibd_Server c)))));
   ("server.grpc.keepalive.permit_without_stream", VBool (GRPCKeepalive_PermitWithoutStream (GRPC_Keepalive (Server_GRPC (Bibd_Server c)))));
   ("server.grpc.reflection", VBool (GRPC_Reflection (Server_GRPC (Bibd_Server c))));
   ("server.grpc.rate_limit.enabled", VBool (GRPCRateLimit_Enabled (GRPC_RateLimit (Server_GRPC (Bibd_Server c)))));
   ("server.grpc.rate_limit.requests_per_second", VFloat (GRPCRateLimit_RequestsPerSecond (GRPC_RateLimit (Server_GRPC (Bibd_Server c)))));
   ("server.grpc.rate_limit.burst", VInt (GRPCRateLimit_Burst (GRPC_RateLimit (Server_GRPC (Bibd_Server c)))));
   ("server.grpc.metrics.enabled", VBool (GRPCMetrics_Enabled (GRPC_Metrics (Server_GRPC (Bibd_Server c)))));
   ("server.grpc.metrics.http_port", VInt (GRPCMetrics_HTTPPort (GRPC_Metrics (Server_GRPC (Bibd_Server c)))));
   ("server.grpc.metrics.http_host", VString (GRPCMetrics_HTTPHost (GRPC_Metrics (Server_GRPC (Bibd_Server c)))));
   ("server.grpc.metrics.path", VString (GRPCMetrics_Path (GRPC_Metrics (Server_GRPC (Bibd_Server c)))));
   ("server.grpc.metrics.enable_latency_histograms", VBool (GRPCMetrics_EnableLatencyHistograms (GRPC_Metrics (Server_GRPC (Bibd_Server c)))));
   ("server.grpc.shutdown_grace_period", VDuration (GRPC_ShutdownGracePeriod (Server_GRPC (Bibd_Server c))));
   ("p2p.enabled", VBool (P2P_Enabled (Bibd_P2P c)));
   ("p2p.mode", VString (P2P_Mode (Bibd_P2P c)));
   ("p2p.identity.key_path", VString (P2PIdentity_KeyPath (P2P_Identity (Bibd_P2P c))));
   ("p2p.listen_addresses", VStrings (P2P_ListenAddresses (Bibd_P2P c)));
   ("p2p.connection_manager.low_watermark", VInt (ConnManager_LowWatermark (P2P_ConnManager (Bibd_P2P c))));
   ("p2p.connection_manager.high_watermark", VInt (ConnManager_HighWatermark (P2P_ConnManager (Bibd_P2P c))));
   ("p2p.connection_manager.grace_period", VDuration (ConnManager_GracePeriod (P2P_ConnManager (Bibd_P2P c))));
   ("p2p.bootstrap.peers", VStrings (Bootstrap_Peers (P2P_Bootstrap (Bibd_P2P c))));
   ("p2p.bootstrap.min_peers", VInt (Bootstrap_MinPeers (P2P_Bootstrap (Bibd_P2P c))));
   ("p2p.bootstrap.retry_interval", VDuration (Bootstrap_RetryInterval (P2P_Bootstrap (Bibd_P2P c))));
   ("p2p.bootstrap.max_retry_interval", VDuration (Bootstrap_MaxRetryInterval (P2P_Bootstrap (Bibd_P2P c))));
   ("p2p.mdns.enabled", VBool (MDNS_Enabled (P2P_MDNS (Bibd_P2P c))));
   ("p2p.mdns.service_name", VString (MDNS_ServiceName (P2P_MDNS (Bibd_P2P c))));
   ("p2p.dht.enabled", VBool (DHT_Enabled (P2P_DHT (Bibd_P2P c))));
   ("p2p.dht.mode", VString (DHT_Mode (P2P_DHT (Bibd_P2P c))));
   ("p2p.peer_store.path", VString (PeerStore_Path (P2P_PeerStore (Bibd_P2P c))));
   ("p2p.full_replica.sync_interval", VDuration (FullReplica_SyncInterval (P2P_FullReplica (Bibd_P2P c))));
   ("p2p.selective.subscriptions", VStrings (Selective_Subscriptions (P2P_Selective (Bibd_P2P c))));
   ("p2p.selective.subscription_store_path", VString (Selective_SubscriptionStorePath (P2P_Selective (Bibd_P2P c))));
   ("p2p.proxy.cache_ttl", VDuration (Proxy_CacheTTL (P2P_Proxy (Bibd_P2P c))));
   ("p2p.proxy.max_cache_size", VInt (Proxy_MaxCacheSize (P2P_Proxy (Bibd_P2P c))));
   ("p2p.proxy.favorite_peers", VStrings (Proxy_FavoritePeers (P2P_Proxy (Bibd_P2P c))));
   ("cluster.enabled", VBool (Cluster_Enabled (Bibd_Cluster c)));
   ("cluster.node_id", VString (Cluster_NodeID (Bibd_Cluster c)));
   ("cluster.cluster_name", VString (Cluster_ClusterName (Bibd_Cluster c)));
   ("cluster.data_dir", VString (Cluster_DataDir (Bibd_Cluster c)));
   ("cluster.listen_addr", VString (Cluster_ListenAddr (Bibd_Cluster c)));
   ("cluster.advertise_addr", VString (Cluster_AdvertiseAddr (Bibd_Cluster c)));
   ("cluster.is_voter", VBool (Cluster_IsVoter (Bibd_Cluster c)));
   ("cluster.bootstrap", VBool (Cluster_Bootstrap (Bibd_Cluster c)));
   ("cluster.join_token", VString (Cluster_JoinToken (Bibd_Cluster c)));
   ("cluster.join_addrs", VStrings (Cluster_JoinAddrs (Bibd_Cluster c)));
   ("cluster.enable_dht_discovery", VBool (Cluster_EnableDHTDiscovery (Bibd_Cluster c)));
   ("cluster.raft.heartbeat_timeout", VDuration (Raft_HeartbeatTimeout (Cluster_Raft (Bibd_Cluster c))));
   ("cluster.raft.election_timeout", VDuration (Raft_ElectionTimeout (Cluster_Raft (Bibd_Cluster c))));
   ("cluster.raft.commit_timeout", VDuration (Raft_CommitTimeout (Cluster_Raft (Bibd_Cluster c))));
   ("cluster.raft.max_append_entries", VInt (Raft_MaxAppendEntries (Cluster_Raft (Bibd_Cluster c))));
   ("cluster.raft.trailing_logs", VInt (Raft_TrailingLogs (Cluster_Raft (Bibd_Cluster c))));
   ("cluster.raft.max_inflight", VInt (Raft_MaxInflight (Cluster_Raft (Bibd_Cluster c))));
   ("cluster.snapshot.interval", VDuration (Snapshot_Interval (Cluster_Snapshot (Bibd_Cluster c))));
   ("cluster.snapshot.threshold", VInt (Snapshot_Threshold (Cluster_Snapshot (Bibd_Cluster c))));
   ("cluster.snapshot.retain_count", VInt (Snapshot_RetainCount (Cluster_Snapshot (Bibd_Cluster c))));
   ("database.backend", VString (Database_Backend (Bibd_Database c)));
   ("database.sqlite.path", VString (SQLiteDatabase_Path (Database_SQLite (Bibd_Database c))));
   ("database.sqlite.max_open_conns", VInt (SQLiteDatabase_MaxOpenConns (Database_SQLite (Bibd_Database c))));
   ("database.postgres.managed", VBool (PostgresDatabase_Managed (Database_Postgres (Bibd_Database c))));
   ("database.postgres.container_runtime", VString (PostgresDatabase_ContainerRuntime (Database_Postgres (Bibd_Database c))));
   ("database.postgres.socket_path", VString (PostgresDatabase_SocketPath (Database_Postgres (Bibd_Database c))));
   ("database.postgres.kubeconfig_path", VString (PostgresDatabase_KubeconfigPath (Database_Postgres (Bibd_Database c))));
   ("database.postgres.image", VString (PostgresDatabase_Image (Database_Postgres (Bibd_Database c))));
   ("database.postgres.data_dir", VString (PostgresDatabase_DataDir (Database_Postgres (Bibd_Database c))));
   ("database.postgres.port", VInt (PostgresDatabase_Port (Database_Postgres (Bibd_Database c))));
   ("database.postgres.max_connections", VInt (PostgresDatabase_MaxConnections (Database_Postgres (Bibd_Database c))));
   ("database.postgres.memory_mb", VInt (PostgresDatabase_MemoryMB (Database_Postgres (Bibd_Database c))));
   ("database.postgres.cpu_cores", VFloat (PostgresDatabase_CPUCores (Database_Postgres (Bibd_Database c))));
   ("database.postgres.ssl_mode", VString (PostgresDatabase_SSLMode (Database_Postgres (Bibd_Database c))));
   ("database.postgres.credential_rotation_interval", VDuration (PostgresDatabase_CredentialRotationInterval (Database_Postgres (Bibd_Database c))));
   ("database.postgres.network.use_bridge_network", VBool (PostgresNetwork_UseBridgeNetwork (PostgresDatabase_Network (Database_Postgres (Bibd_Database c)))));
   ("database.postgres.network.bridge_network_name", VString (PostgresNetwork_BridgeNetworkName (PostgresDatabase_Network (Database_Postgres (Bibd_Database c)))));
   ("database.postgres.network.use_unix_socket", VBool (PostgresNetwork_UseUnixSocket (PostgresDatabase_Network (Database_Postgres (Bibd_Database c)))));
   ("database.postgres.network.bind_address", VString (PostgresNetwork_BindAddress (PostgresDatabase_Network (Database_Postgres (Bibd_Database c)))));
   ("database.postgres.health.interval", VDuration (PostgresHealth_Interval (PostgresDatabase_Health (Database_Postgres (Bibd_Database c)))));
   ("database.postgres.health.timeout", VDuration (PostgresHealth_Timeout (PostgresDatabase_Health (Database_Postgres (Bibd_Database c)))));
   ("database.postgres.health.startup_timeout", VDuration (PostgresHealth_StartupTimeout (PostgresDatabase_Health (Database_Postgres (Bibd_Database c)))));
   ("database.postgres.health.action", VString (PostgresHealth_Action (PostgresDatabase_Health (Database_Postgres (Bibd_Database c)))));
   ("database.postgres.health.max_retries", VInt (PostgresHealth_MaxRetries (PostgresDatabase_Health (Database_Postgres (Bibd_Database c)))));
   ("database.postgres.health.retry_backoff", VDuration (PostgresHealth_RetryBackoff (PostgresDatabase_Health (Database_Postgres (Bibd_Database c)))));
   ("database.postgres.tls.enabled", VBool (PostgresTLS_Enabled (PostgresDatabase_TLS (Database_Postgres (Bibd_Database c)))));
   ("database.postgres.tls.cert_dir", VString (PostgresTLS_CertDir (PostgresDatabase_TLS (Database_Postgres (Bibd_Database c)))));
   ("database.postgres.tls.auto_generate", VBool (PostgresTLS_AutoGenerate (PostgresDatabase_TLS (Database_Postgres (Bibd_Database c)))));
   ("database.audit.enabled", VBool (AuditDatabase_Enabled (Database_Audit (Bibd_Database c))));
   ("database.audit.retention_days", VInt (AuditDatabase_RetentionDays (Database_Audit (Bibd_Database c))));
   ("database.audit.hash_chain", VBool (AuditDatabase_HashChain (Database_Audit (Bibd_Database c))))].

Definition saved_settings (c : BibConfig) : Settings :=
  [("log.level", VString (LogC_Level (Bib_Log c)));
   ("log.format", VString (LogC_Format (Bib_Log c)));
   ("log.output", VString (LogC_Output (Bib_Log c)));
   ("identity.name", VString (Ident_Name (Bib_Identity c)));
   ("identity.email", VString (Ident_Email (Bib_Identity c)));
   ("identity.key", VString (Ident_Key (Bib_Identity c)));
   ("output.format", VString (Output_Format (Bib_Output c)));
   ("output.color", VBool (Output_Color (Bib_Output c)));
   ("locale", VString (Bib_Locale c));
   ("connection.default_node", VString (Connection_DefaultNode (Bib_Connection c)));
   ("connection.mode", VString (Connection_Mode (Bib_Connection c)));
   ("connection.auto_detect", VBool (Connection_AutoDetect (Bib_Connection c)));
   ("connection.timeout", VString (Connection_Timeout (Bib_Connection c)));
   ("connection.retry_attempts", VInt (Connection_RetryAttempts (Bib_Connection c)));
   ("connection.pool_size", VInt (Connection_PoolSize (Bib_Connection c)));
   ("connection.bib_dev_confirmed", VBool (Connection_BibDevConfirmed (Bib_Connection c)));
   ("connection.tls.skip_verify", VBool (ConnectionTLS_SkipVerify (Connection_TLS (Bib_Connection c))));
   ("connection.tls.ca_file", VString (ConnectionTLS_CAFile (Connection_TLS (Bib_Connection c))));
   ("connection.tls.cert_file", VString (ConnectionTLS_CertFile (Connection_TLS (Bib_Connection c))));
   ("connection.tls.key_file", VString (ConnectionTLS_KeyFile (Connection_TLS (Bib_Connection c))))].

(** [SaveBib] adds the nodes when there are some. *)
Definition save_settings (c : BibConfig) : Settings :=
  let nodes := Connection_FavoriteNodes (Bib_Connection c) in
  (saved_settings c ++ if (0 <? Z.of_nat (length nodes)) then [("connection.favorite_nodes", VNodes nodes)] else [])%list.

(** Text that every format gives back. *)
Definition plain_node (n : FavoriteNode) : bool :=
  is_ascii (FN_ID n) && is_ascii (FN_Alias n) && is_ascii (FN_Address n) && is_ascii (FN_UnixSocket n) && is_ascii (FN_DiscoveryMethod n).
Definition plain_value (v : Value) : bool :=
  match v with
  | VString s => is_ascii s
  | VFloat f => negb (is_nan f)
  | VStrings l => forallb is_ascii l
  | VNodes l => forallb plain_node l
  | VUsers _ => false
  | _ => true
  end.

(** Conversions to the types of fields, and the formats of files. *)
Class ViperLib := {
  to_string : Value -> option string;
  to_bool : Value -> option bool;
  to_int : Value -> option Z;
  to_float : Value -> option float64;
  to_duration : Value -> option Duration;
  to_strings : Value -> option (list string);
  to_nodes : Value -> option (list FavoriteNode);
  to_users : Value -> option (list BreakGlassUser);
  reads_as (v v' : Value) : Prop :=
    match v with
    | VString s => to_string v' = Some s
    | VBool b => to_bool v' = Some b
    | VInt n => to_int v' = Some n
    | VFloat f => to_float v' = Some f
    | VDuration d => to_duration v' = Some d
    | VStrings l => to_strings v' = Some l
    | VNodes l => to_nodes v' = Some l
    | VUsers l => to_users v' = Some l
    end;
  reads_self v : reads_as v v;
  encode_settings : string -> Settings -> option (list Z);
  decode_settings : string -> list Z -> option Settings;
  settings_round format m b : format ∈ ["yaml"; "toml"; "json"] -> NoDup (map fst m) -> forallb (fun kv => plain_value kv.2) m = true ->
    encode_settings format m = Some b ->
    exists m', decode_settings format b = Some m' /\
      forall key, match alist_get m key with
                  | Some v => exists v', alist_get m' key = Some v' /\ reads_as v v'
                  | None => alist_get m' key = None
                  end
}.

Section library.
Context `{ViperLib}.

Definition rd_string (get : string -> option Value) (key : string) : option string := match get key with Some v => to_string v | None => Some "" end.
Definition rd_bool (get : string -> option Value) (key : string) : option bool := match get key with Some v => to_bool v | None => Some false end.
Definition rd_int (get : string -> option Value) (key : string) : option Z := match get key with Some v => to_int v | None => Some 0 end.
Definition rd_float (get : string -> option Value) (key : string) : option float64 := match get key with Some v => to_float v | None => Some fzero end.
Definition rd_duration (get : string -> option Value) (key : string) : option Duration := match get key with Some v => to_duration v | None => Some 0 end.
Definition rd_strings (get : string -> option Value) (key : string) : option (list string) := match get key with Some v => to_strings v | None => Some [] end.
Definition rd_nodes (get : string -> option Value) (key : string) : option (list FavoriteNode) := match get key with Some v => to_nodes v | None => Some [] end.
Definition rd_users (get : string -> option Value) (key : string) : option (list BreakGlassUser) := match get key with Some v => to_users v | None => Some [] end.

(** A pointer is set when one of its fields is. *)
Definition rd_pointer {A} (get : string -> option Value) (pre : string) (keys : list string) (read : string -> option A) : option (option A) :=
  if existsb (fun k => match get (pre ++ k) with Some _ => true | None => false end) keys
  then let? a := read pre in Some (Some a) else Some None.

(** [Unmarshal], by the tags of the fields. *)
Definition read_LogConfig (get : string -> option Value) (pre : string) : option LogConfig :=
  let? level_ := rd_string get (pre ++ "level") in
  let? format_ := rd_string get (pre ++ "format") in
  let? output_ := rd_string get (pre ++ "output") in
  let? filePath_ := rd_string get (pre ++ "file_path") in
  let? maxSizeMB_ := rd_int get (pre ++ "max_size_mb") in
  let? maxBackups_ := rd_int get (pre ++ "max_backups") in
  let? maxAgeDays_ := rd_int get (pre ++ "max_age_days") in
  let? enableCaller_ := rd_bool get (pre ++ "enable_caller") in
  let? noColor_ := rd_bool get (pre ++ "no_color") in
  let? auditPath_ := rd_string get (pre ++ "audit_path") in
  let? auditMaxAgeDays_ := rd_int get (pre ++ "audit_max_age_days") in
  let? redactFields_ := rd_strings get (pre ++ "redact_fields") in
  Some (mkLogConfig level_ format_ output_ filePath_ maxSizeMB_ maxBackups_ maxAgeDays_ enableCaller_ noColor_ auditPath_ auditMaxAgeDays_ redactFields_).

Definition read_IdentityConfig (get : string -> option Value) (pre : string) : option IdentityConfig :=
  let? name_ := rd_string get (pre ++ "name") in
  let? email_ := rd_string get (pre ++ "email") in
  let? key_ := rd_string get (pre ++ "key") in
  Some (mkIdentityConfig name_ email_ key_).

Definition read_OutputConfig (get : string -> option Value) (pre : string) : option OutputConfig :=
  let? format_ := rd_string get (pre ++ "format") in
  let? color_ := rd_bool get (pre ++ "color") in
  Some (mkOutputConfig format_ color_).

Definition read_TLSSection (get : string -> option Value) (pre : string) : option TLSSection :=
  let? enabled_ := rd_bool get (pre ++ "enabled") in
  let? autoGenerate_ := rd_bool get (pre ++ "auto_generate") in
  let? certFile_ := rd_string get (pre ++ "cert_file") in
  let? keyFile_ := rd_string get (pre ++ "key_file") in
  let? cAFile_ := rd_string get (pre ++ "ca_file") in
  let? clientAuth_ := rd_string get (pre ++ "client_auth") in
  let? cAValidityYears_ := rd_int get (pre ++ "ca_validity_years") in
  let? serverCertValidityDays_ := rd_int get (pre ++ "server_cert_validity_days") in
  let? clientCertValidityDays_ := rd_int get (pre ++ "client_cert_validity_days") in
  let? renewalThresholdDays_ := rd_int get (pre ++ "renewal_threshold_days") in
  Some (mkTLSSection enabled_ autoGenerate_ certFile_ keyFile_ cAFile_ clientAuth_ cAValidityYears_ serverCertValidityDays_ clientCertValidityDays_ renewalThresholdDays_).

Definition read_GRPCKeepaliveConfig (get : string -> option Value) (pre : string) : option GRPCKeepaliveConfig :=
  let? time_ := rd_duration get (pre ++ "time") in
  let? timeout_ := rd_duration get (pre ++ "timeout") in
  let? minTime_ := rd_duration get (pre ++ "min_time") in
  let? permitWithoutStream_ := rd_bool get (pre ++ "permit_without_stream") in
  Some (mkGRPCKeepaliveConfig time_ timeout_ minTime_ permitWithoutStream_).

Definition read_GRPCRateLimitConfig (get : string -> option Value) (pre : string) : option GRPCRateLimitConfig :=
  let? enabled_ := rd_bool get (pre ++ "enabled") in
  let? requestsPerSecond_ := rd_float get (pre ++ "requests_per_second") in
  let? burst_ := rd_int get (pre ++ "burst") in
  Some (mkGRPCRateLimitConfig enabled_ requestsPerSecond_ burst_).

Definition read_GRPCMetricsConfig (get : string -> option Value) (pre : string) : option GRPCMetricsConfig :=
  let? enabled_ := rd_bool get (pre ++ "enabled") in
  let? hTTPPort_ := rd_int get (pre ++ "http_port") in
  let? hTTPHost_ := rd_string get (pre ++ "http_host") in
  let? path_ := rd_string get (pre ++ "path") in
  let? enableLatencyHistograms_ := rd_bool get (pre ++ "enable_latency_histograms") in
  Some (mkGRPCMetricsConfig enabled_ hTTPPort_ hTTPHost_ path_ enableLatencyHistograms_).

Definition read_GRPCConfig (get : string -> option Value) (pre : string) : option GRPCConfig :=
  let? enabled_ := rd_bool get (pre ++ "enabled") in
  let? host_ := rd_string get (pre ++ "host") in
  let? port_ := rd_int get (pre ++ "port") in
  let? unixSocket_ := rd_string get (pre ++ "unix_socket") in
  let? maxRecvMsgSize_ := rd_int get (pre ++ "max_recv_msg_size") in
  let? maxSendMsgSize_ := rd_int get (pre ++ "max_send_msg_size") in
  let? maxConcurrentStreams_ := rd_int get (pre ++ "max_concurrent_streams") in
  let? keepalive_ := read_GRPCKeepaliveConfig get (pre ++ "keepalive.") in
  let? reflection_ := rd_bool get (pre ++ "reflection") in
  let? rateLimit_ := read_GRPCRateLimitConfig get (pre ++ "rate_limit.") in
  let? metrics_ := read_GRPCMetricsConfig get (pre ++ "metrics.") in
  let? shutdownGracePeriod_ := rd_duration get (pre ++ "shutdown_grace_period") in
  Some (mkGRPCConfig enabled_ host_ port_ unixSocket_ maxRecvMsgSize_ maxSendMsgSize_ maxConcurrentStreams_ keepalive_ reflection_ rateLimit_ metrics_ shutdownGracePeriod_).

Definition read_ServerSection (get : string -> option Value) (pre : string) : option ServerSection :=
  let? host_ := rd_string get (pre ++ "host") in
  let? port_ := rd_int get (pre ++ "port") in
  let? tLS_ := read_TLSSection get (pre ++ "tls.") in
  let? gRPC_ := read_GRPCConfig get (pre ++ "grpc.") in
  let? pIDFile_ := rd_string get (pre ++ "pid_file") in
  let? dataDir_ := rd_string get (pre ++ "data_dir") in
  Some (mkServerSection host_ port_ tLS_ gRPC_ pIDFile_ dataDir_).

Definition read_SSHConfig (get : string -> option Value) (pre : string) : option SSHConfig :=
  let? enabled_ := rd_bool get (pre ++ "enabled") in
  let? host_ := rd_string get (pre ++ "host") in
  let? port_ := rd_int get (pre ++ "port") in
  let? hostKeyPath_ := rd_string get (pre ++ "host_key_path") in
  let? idleTimeout_ := rd_duration get (pre ++ "idle_timeout") in
  let? maxConnections_ := rd_int get (pre ++ "max_connections") in
  Some (mkSSHConfig enabled_ host_ port_ hostKeyPath_ idleTimeout_ maxConnections_).

Definition read_P2PIdentityConfig (get : string -> option Value) (pre : string) : option P2PIdentityConfig :=
  let? keyPath_ := rd_string get (pre ++ "key_path") in
  Some (mkP2PIdentityConfig keyPath_).

Definition read_ConnManagerConfig (get : string -> option Value) (pre : string) : option ConnManagerConfig :=
  let? lowWatermark_ := rd_int get (pre ++ "low_watermark") in
  let? highWatermark_ := rd_int get (pre ++ "high_watermark") in
  let? gracePeriod_ := rd_duration get (pre ++ "grace_period") in
  Some (mkConnManagerConfig lowWatermark_ highWatermark_ gracePeriod_).

Definition read_BootstrapSection (get : string -> option Value) (pre : string) : option BootstrapSection :=
  let? peers_ := rd_strings get (pre ++ "peers") in
  let? minPeers_ := rd_int get (pre ++ "min_peers") in
  let? retryInterval_ := rd_duration get (pre ++ "retry_interval") in
  let? maxRetryInterval_ := rd_duration get (pre ++ "max_retry_interval") in
  Some (mkBootstrapSection peers_ minPeers_ retryInterval_ maxRetryInterval_).

Definition read_MDNSConfig (get : string -> option Value) (pre : string) : option MDNSConfig :=
  let? enabled_ := rd_bool get (pre ++ "enabled") in
  let? serviceName_ := rd_string get (pre ++ "service_name") in
  Some (mkMDNSConfig enabled_ serviceName_).

Definition read_DHTConfig (get : string -> option Value) (pre : string) : option DHTConfig :=
  let? enabled_ := rd_bool get (pre ++ "enabled") in
  let? mode_ := rd_string get (pre ++ "mode") in
  Some (mkDHTConfig enabled_ mode_).

Definition read_PeerStoreConfig (get : string -> option Value) (pre : string) : option PeerStoreConfig :=
  let? path_ := rd_string get (pre ++ "path") in
  Some (mkPeerStoreConfig path_).

Definition read_FullReplicaConfig (get : string -> option Value) (pre : string) : option FullReplicaConfig :=
  let? syncInterval_ := rd_duration get (pre ++ "sync_interval") in
  Some (mkFullReplicaConfig syncInterval_).

Definition read_SelectiveConfig (get : string -> option Value) (pre : string) : option SelectiveConfig :=
  let? subscriptions_ := rd_strings get (pre ++ "subscriptions") in
  let? subscriptionStorePath_ := rd_string get (pre ++ "subscription_store_path") in
  Some (mkSelectiveConfig subscriptions_ subscriptionStorePath_).

Definition read_ProxyConfig (get : string -> option Value) (pre : string) : option ProxyConfig :=
  let? cacheTTL_ := rd_duration get (pre ++ "cache_ttl") in
  let? maxCacheSize_ := rd_int get (pre ++ "max_cache_size") in
  let? favoritePeers_ := rd_strings get (pre ++ "favorite_peers") in
  Some (mkProxyConfig cacheTTL_ maxCacheSize_ favoritePeers_).

Definition read_TCPFallbackConfig (get : string -> option Value) (pre : string) : option TCPFallbackConfig :=
  let? enabled_ := rd_bool get (pre ++ "enabled") in
  let? timeout_ := rd_duration get (pre ++ "timeout") in
  Some (mkTCPFallbackConfig enabled_ timeout_).

Definition read_RateLimitSection (get : string -> option Value) (pre : string) : option RateLimitSection :=
  let? enabled_ := rd_bool get (pre ++ "enabled") in
  let? requestsPerSecond_ := rd_float get (pre ++ "requests_per_second") in
  let? burstSize_ := rd_int get (pre ++ "burst_size") in
  Some (mkRateLimitSection enabled_ requestsPerSecond_ burstSize_).

Definition read_P2PGRPCConfig (get : string -> option Value) (pre : string) : option P2PGRPCConfig :=
  let? enabled_ := rd_bool get (pre ++ "enabled") in
  let? dialTimeout_ := rd_duration get (pre ++ "dial_timeout") in
  let? maxConnsPerPeer_ := rd_int get (pre ++ "max_conns_per_peer") in
  let? idleTimeout_ := rd_duration get (pre ++ "idle_timeout") in
  let? tCPFallback_ := read_TCPFallbackConfig get (pre ++ "tcp_fallback.") in
  let? rateLimit_ := read_RateLimitSection get (pre ++ "rate_limit.") in
  let? allowedPeers_ := rd_strings get (pre ++ "allowed_peers") in
  Some (mkP2PGRPCConfig enabled_ dialTimeout_ maxConnsPerPeer_ idleTimeout_ tCPFallback_ rateLimit_ allowedPeers_).

Definition read_P2PMetricsConfig (get : string -> option Value) (pre : string) : option P2PMetricsConfig :=
  let? bandwidthMetering_ := rd_bool get (pre ++ "bandwidth_metering") in
  Some (mkP2PMetricsConfig bandwidthMetering_).

Definition read_P2PSection (get : string -> option Value) (pre : string) : option P2PSection :=
  let? enabled_ := rd_bool get (pre ++ "enabled") in
  let? mode_ := rd_string get (pre ++ "mode") in
  let? identity_ := read_P2PIdentityConfig get (pre ++ "identity.") in
  let? listenAddresses_ := rd_strings get (pre ++ "listen_addresses") in
  let? connManager_ := read_ConnManagerConfig get (pre ++ "connection_manager.") in
  let? bootstrap_ := read_BootstrapSection get (pre ++ "bootstrap.") in
  let? mDNS_ := read_MDNSConfig get (pre ++ "mdns.") in
  let? dHT_ := read_DHTConfig get (pre ++ "dht.") in
  let? peerStore_ := read_PeerStoreConfig get (pre ++ "peer_store.") in
  let? fullReplica_ := read_FullReplicaConfig get (pre ++ "full_replica.") in
  let? selective_ := read_SelectiveConfig get (pre ++ "selective.") in
  let? proxy_ := read_ProxyConfig get (pre ++ "proxy.") in
  let? gRPC_ := read_P2PGRPCConfig get (pre ++ "grpc.") in
  let? metrics_ := read_P2PMetricsConfig get (pre ++ "metrics.") in
  Some (mkP2PSection enabled_ mode_ identity_ listenAddresses_ connManager_ bootstrap_ mDNS_ dHT_ peerStore_ fullReplica_ selective_ proxy_ gRPC_ metrics_).

Definition read_RaftConfig (get : string -> option Value) (pre : string) : option RaftConfig :=
  let? heartbeatTimeout_ := rd_duration get (pre ++ "heartbeat_timeout") in
  let? electionTimeout_ := rd_duration get (pre ++ "election_timeout") in
  let? commitTimeout_ := rd_duration get (pre ++ "commit_timeout") in
  let? maxAppendEntries_ := rd_int get (pre ++ "max_append_entries") in
  let? trailingLogs_ := rd_int get (pre ++ "trailing_logs") in
  let? maxInflight_ := rd_int get (pre ++ "max_inflight") in
  Some (mkRaftConfig heartbeatTimeout_ electionTimeout_ commitTimeout_ maxAppendEntries_ trailingLogs_ maxInflight_).

Definition read_SnapshotConfig (get : string -> option Value) (pre : string) : option SnapshotConfig :=
  let? interval_ := rd_duration get (pre ++ "interval") in
  let? threshold_ := rd_int get (pre ++ "threshold") in
  let? retainCount_ := rd_int get (pre ++ "retain_count") in
  Some (mkSnapshotConfig interval_ threshold_ retainCount_).

Definition read_ClusterSection (get : string -> option Value) (pre : string) : option ClusterSection :=
  let? enabled_ := rd_bool get (pre ++ "enabled") in
  let? nodeID_ := rd_string get (pre ++ "node_id") in
  let? clusterName_ := rd_string get (pre ++ "cluster_name") in
  let? dataDir_ := rd_string get (pre ++ "data_dir") in
  let? listenAddr_ := rd_string get (pre ++ "listen_addr") in
  let? advertiseAddr_ := rd_string get (pre ++ "advertise_addr") in
  let? isVoter_ := rd_bool get (pre ++ "is_voter") in
  let? bootstrap_ := rd_bool get (pre ++ "bootstrap") in
  let? joinToken_ := rd_string get (pre ++ "join_token") in
  let? joinAddrs_ := rd_strings get (pre ++ "join_addrs") in
  let? enableDHTDiscovery_ := rd_bool get (pre ++ "enable_dht_discovery") in
  let? raft_ := read_RaftConfig get (pre ++ "raft.") in
  let? snapshot_ := read_SnapshotConfig get (pre ++ "snapshot.") in
  Some (mkClusterSection enabled_ nodeID_ clusterName_ dataDir_ listenAddr_ advertiseAddr_ isVoter_ bootstrap_ joinToken_ joinAddrs_ enableDHTDiscovery_ raft_ snapshot_).

Definition read_ConnectionTLSConfig (get : string -> option Value) (pre : string) : option ConnectionTLSConfig :=
  let? skipVerify_ := rd_bool get (pre ++ "skip_verify") in
  let? cAFile_ := rd_string get (pre ++ "ca_file") in
  let? certFile_ := rd_string get (pre ++ "cert_file") in
  let? keyFile_ := rd_string get (pre ++ "key_file") in
  Some (mkConnectionTLSConfig skipVerify_ cAFile_ certFile_ keyFile_).

Definition read_ConnectionConfig (get : string -> option Value) (pre : string) : option ConnectionConfig :=
  let? defaultNode_ := rd_string get (pre ++ "default_node") in
  let? favoriteNodes_ := rd_nodes get (pre ++ "favorite_nodes") in
  let? bibDevConfirmed_ := rd_bool get (pre ++ "bib_dev_confirmed") in
  let? mode_ := rd_string get (pre ++ "mode") in
  let? autoDetect_ := rd_bool get (pre ++ "auto_detect") in
  let? timeout_ := rd_string get (pre ++ "timeout") in
  let? retryAttempts_ := rd_int get (pre ++ "retry_attempts") in
  let? poolSize_ := rd_int get (pre ++ "pool_size") in
  let? tLS_ := read_ConnectionTLSConfig get (pre ++ "tls.") in
  Some (mkConnectionConfig defaultNode_ favoriteNodes_ bibDevConfirmed_ mode_ autoDetect_ timeout_ retryAttempts_ poolSize_ tLS_).

Definition read_BibConfig (get : string -> option Value) (pre : string) : option BibConfig :=
  let? log_ := read_LogConfig get (pre ++ "log.") in
  let? identity_ := read_IdentityConfig get (pre ++ "identity.") in
  let? output_ := read_OutputConfig get (pre ++ "output.") in
  let? locale_ := rd_string get (pre ++ "locale") in
  let? connection_ := read_ConnectionConfig get (pre ++ "connection.") in
  Some (mkBibConfig log_ identity_ output_ locale_ connection_).

Definition read_AuthSection (get : string -> option Value) (pre : string) : option AuthSection :=
  let? allowAutoRegistration_ := rd_bool get (pre ++ "allow_auto_registration") in
  let? requireEmail_ := rd_bool get (pre ++ "require_email") in
  let? defaultRole_ := rd_string get (pre ++ "default_role") in
  let? sessionTimeout_ := rd_duration get (pre ++ "session_timeout") in
  let? maxSessionsPerUser_ := rd_int get (pre ++ "max_sessions_per_user") in
  Some (mkAuthSection allowAutoRegistration_ requireEmail_ defaultRole_ sessionTimeout_ maxSessionsPerUser_).

Definition read_SQLiteDatabaseConfig (get : string -> option Value) (pre : string) : option SQLiteDatabaseConfig :=
  let? path_ := rd_string get (pre ++ "path") in
  let? maxOpenConns_ := rd_int get (pre ++ "max_open_conns") in
  Some (mkSQLiteDatabaseConfig path_ maxOpenConns_).

Definition read_PostgresNetworkConfig (get : string -> option Value) (pre : string) : option PostgresNetworkConfig :=
  let? useBridgeNetwork_ := rd_bool get (pre ++ "use_bridge_network") in
  let? bridgeNetworkName_ := rd_string get (pre ++ "bridge_network_name") in
  let? useUnixSocket_ := rd_bool get (pre ++ "use_unix_socket") in
  let? bindAddress_ := rd_string get (pre ++ "bind_address") in
  Some (mkPostgresNetworkConfig useBridgeNetwork_ bridgeNetworkName_ useUnixSocket_ bindAddress_).

Definition read_PostgresHealthConfig (get : string -> option Value) (pre : string) : option PostgresHealthConfig :=
  let? interval_ := rd_duration get (pre ++ "interval") in
  let? timeout_ := rd_duration get (pre ++ "timeout") in
  let? startupTimeout_ := rd_duration get (pre ++ "startup_timeout") in
  let? action_ := rd_string get (pre ++ "action") in
  let? maxRetries_ := rd_int get (pre ++ "max_retries") in
  let? retryBackoff_ := rd_duration get (pre ++ "retry_backoff") in
  Some (mkPostgresHealthConfig interval_ timeout_ startupTimeout_ action_ maxRetries_ retryBackoff_).

Definition read_PostgresTLSConfig (get : string -> option Value) (pre : string) : option PostgresTLSConfig :=
  let? enabled_ := rd_bool get (pre ++ "enabled") in
  let? certDir_ := rd_string get (pre ++ "cert_dir") in
  let? autoGenerate_ := rd_bool get (pre ++ "auto_generate") in
  Some (mkPostgresTLSConfig enabled_ certDir_ autoGenerate_).

Definition read_PostgresAdvancedConfig (get : string -> option Value) (pre : string) : option PostgresAdvancedConfig :=
  let? host_ := rd_string get (pre ++ "host") in
  let? port_ := rd_int get (pre ++ "port") in
  let? database_ := rd_string get (pre ++ "database") in
  let? user_ := rd_string get (pre ++ "user") in
  let? password_ := rd_string get (pre ++ "password") in
  let? sSLMode_ := rd_string get (pre ++ "ssl_mode") in
  Some (mkPostgresAdvancedConfig host_ port_ database_ user_ password_ sSLMode_).

Definition read_PostgresDatabaseConfig (get : string -> option Value) (pre : string) : option PostgresDatabaseConfig :=
  let? managed_ := rd_bool get (pre ++ "managed") in
  let? containerRuntime_ := rd_string get (pre ++ "container_runtime") in
  let? socketPath_ := rd_string get (pre ++ "socket_path") in
  let? kubeconfigPath_ := rd_string get (pre ++ "kubeconfig_path") in
  let? image_ := rd_string get (pre ++ "image") in
  let? dataDir_ := rd_string get (pre ++ "data_dir") in
  let? port_ := rd_int get (pre ++ "port") in
  let? maxConnections_ := rd_int get (pre ++ "max_connections") in
  let? memoryMB_ := rd_int get (pre ++ "memory_mb") in
  let? cPUCores_ := rd_float get (pre ++ "cpu_cores") in
  let? sSLMode_ := rd_string get (pre ++ "ssl_mode") in
  let? credentialRotationInterval_ := rd_duration get (pre ++ "credential_rotation_interval") in
  let? network_ := read_PostgresNetworkConfig get (pre ++ "network.") in
  let? health_ := read_PostgresHealthConfig get (pre ++ "health.") in
  let? tLS_ := read_PostgresTLSConfig get (pre ++ "tls.") in
  let? advanced_ := rd_pointer get (pre ++ "advanced.") ["host"; "port"; "database"; "user"; "password"; "ssl_mode"] (read_PostgresAdvancedConfig get) in
  Some (mkPostgresDatabaseConfig managed_ containerRuntime_ socketPath_ kubeconfigPath_ image_ dataDir_ port_ maxConnections_ memoryMB_ cPUCores_ sSLMode_ credentialRotationInterval_ network_ health_ tLS_ advanced_).

Definition read_AuditDatabaseConfig (get : string -> option Value) (pre : string) : option AuditDatabaseConfig :=
  let? enabled_ := rd_bool get (pre ++ "enabled") in
  let? retentionDays_ := rd_int get (pre ++ "retention_days") in
  let? hashChain_ := rd_bool get (pre ++ "hash_chain") in
  Some (mkAuditDatabaseConfig enabled_ retentionDays_ hashChain_).

Definition read_BreakGlassNotification (get : string -> option Value) (pre : string) : option BreakGlassNotification :=
  let? webhook_ := rd_string get (pre ++ "webhook") in
  let? email_ := rd_string get (pre ++ "email") in
  Some (mkBreakGlassNotification webhook_ email_).

Definition read_BreakGlassConfig (get : string -> option Value) (pre : string) : option BreakGlassConfig :=
  let? enabled_ := rd_bool get (pre ++ "enabled") in
  let? requireRestart_ := rd_bool get (pre ++ "require_restart") in
  let? maxDuration_ := rd_duration get (pre ++ "max_duration") in
  let? defaultAccessLevel_ := rd_string get (pre ++ "default_access_level") in
  let? allowedUsers_ := rd_users get (pre ++ "allowed_users") in
  let? auditLevel_ := rd_string get (pre ++ "audit_level") in
  let? notification_ := read_BreakGlassNotification get (pre ++ "notification.") in
  let? requireAcknowledgment_ := rd_bool get (pre ++ "require_acknowledgment") in
  let? sessionRecording_ := rd_bool get (pre ++ "session_recording") in
  let? recordingPath_ := rd_string get (pre ++ "recording_path") in
  Some (mkBreakGlassConfig enabled_ requireRestart_ maxDuration_ defaultAccessLevel_ allowedUsers_ auditLevel_ notification_ requireAcknowledgment_ sessionRecording_ recordingPath_).

Definition read_DatabaseConfig (get : string -> option Value) (pre : string) : option DatabaseConfig :=
  let? backend_ := rd_string get (pre ++ "backend") in
  let? sQLite_ := read_SQLiteDatabaseConfig get (pre ++ "sqlite.") in
  let? postgres_ := read_PostgresDatabaseConfig get (pre ++ "postgres.") in
  let? audit_ := read_AuditDatabaseConfig get (pre ++ "audit.") in
  let? breakGlass_ := read_BreakGlassConfig get (pre ++ "break_glass.") in
  Some (mkDatabaseConfig backend_ sQLite_ postgres_ audit_ breakGlass_).

Definition read_BibdConfig (get : string -> option Value) (pre : string) : option BibdConfig :=
  let? log_ := read_LogConfig get (pre ++ "log.") in
  let? identity_ := read_IdentityConfig get (pre ++ "identity.") in
  let? server_ := read_ServerSection get (pre ++ "server.") in
  let? sSH_ := read_SSHConfig get (pre ++ "ssh.") in
  let? auth_ := read_AuthSection get (pre ++ "auth.") in
  let? p2P_ := read_P2PSection get (pre ++ "p2p.") in
  let? cluster_ := read_ClusterSection get (pre ++ "cluster.") in
  let? database_ := read_DatabaseConfig get (pre ++ "database.") in
  Some (mkBibdConfig log_ identity_ server_ sSH_ auth_ p2P_ cluster_ database_).

(** ** The environment of a load *)

Record Environment := mkEnvironment {
  en_getenv : string -> string;
  en_home : option string;
  en_cwd : option string;
  en_goos : string;
  en_files : Files
}.

Definition AppBib : string := "bib".
Definition AppBibd : string := "bibd".

Definition path_of (elems : list string) : string := str_of (path_Join (map bytes_of elems)).

Definition configSearchPaths (e : Environment) (appName : string) : list string :=
  (path_of ["/etc"; appName] ::
   match en_home e with Some home => [path_of [home; ".config"; appName]] | None => [] end ++
   match en_cwd e with Some cwd => [cwd] | None => [] end)%list.

Definition UserConfigDir (e : Environment) (appName : string) : option string :=
  match en_home e with Some home => Some (path_of [home; ".config"; appName]) | None => None end.

(** The key of the environment: upper case, with underscores for dots. *)
Definition env_byte (c : ascii) : ascii := if c =?= "."%char then "_"%char else upper_byte c.
Definition env_name (appName key : string) : string := str_of (map env_byte (bytes_of (appName ++ "_" ++ key))).

Record Viper := mkViper {
  vi_app : string;
  vi_config : Settings;
  vi_defaults : Settings
}.

(** A key counts when the file or the defaults have it; the environment comes first. *)
Definition viper_get (e : Environment) (v : Viper) (key : string) : option Value :=
  match alist_get (vi_config v), alist_get (vi_defaults v) key with
  | config, default =>
      match config key, default with
      | None, None => None
      | c, d =>
          if en_getenv e (env_name (vi_app v) key) <>? "" then Some (VString (en_getenv e (env_name (vi_app v) key)))
          else match c with Some x => Some x | None => d end
      end
  end.

(** The extensions the library looks for, in its order. *)
Definition SupportedExts : list string :=
  ["json"; "toml"; "yaml"; "yml"; "properties"; "props"; "prop"; "hcl"; "tfvars"; "dotenv"; "env"; "ini"].

(** The first file in the first directory that has one. *)
Definition find_config (e : Environment) (appName : string) : option string :=
  List.find (fun path => match en_files e !! path with Some _ => true | None => false end)
    (concat (map (fun dir => map (fun ext => path_of [dir; ("config." ++ ext)%string]) SupportedExts ++ [path_of [dir; "config"]])%list
               (configSearchPaths e appName))).

(** [filepath.Ext] *)
Definition Ext (path : string) : string :=
  let l := rev (bytes_of path) in
  let tail := (fix go (l : list ascii) (acc : list ascii) : list ascii :=
    match l with
    | [] => []
    | c :: l' => if c =?= "/"%char then [] else if c =?= "."%char then c :: acc else go l' (c :: acc)
    end) l [] in
  str_of tail.
(** Without its dot. *)
Definition ext_type (path : string) : string := str_of (drop 1 (bytes_of (Ext path))).

Inductive ConfigError := CERead | CEUnmarshal | CESecret.

(** The format of a file that was searched for is the one that was set; that of a file
    that was named is its extension. *)
Definition ReadInConfig (e : Environment) (appName cfgFile : string) : option Settings :=
  if cfgFile =?= "" then
    match find_config e appName with
    | None => Some []
    | Some path => decode_settings "yaml" (default [] (en_files e !! path))
    end
  else
    match en_files e !! cfgFile with
    | None => None
    | Some b => decode_settings (if Ext cfgFile <>? "" then ext_type cfgFile else "yaml") b
    end.

(** ** Secrets ([secrets.go]) *)

Definition secretPrefixEnv : string := "env://".
Definition secretPrefixFile : string := "file://".

Inductive SecretError := SecretEnv (name : string) | SecretFile (path : string).

Section secrets.
Context `{UnicodeTables} (e : Environment).

Definition strip_prefix (s pre : string) : string :=
  if HasPrefix s pre then str_of (drop (length (bytes_of pre)) (bytes_of s)) else s.

Definition resolveSecretValue (value : string) : result SecretError string :=
  if HasPrefix value secretPrefixEnv then
    let envVar := strip_prefix value secretPrefixEnv in
    let envValue := en_getenv e envVar in
    if envValue =?= "" then Err (SecretEnv envVar) else Ok envValue
  else if HasPrefix value secretPrefixFile then
    let filePath := strip_prefix value secretPrefixFile in
    match en_files e !! filePath with
    | None => Err (SecretFile filePath)
    | Some data => Ok (TrimSpace (bytes_string data))
    end
  else Ok value.

Definition resolve_pointer {A} (resolve : A -> result SecretError A) (p : option A) : result SecretError (option A) :=
  match p with
  | None => Ok None
  | Some a => let! a := resolve a in Ok (Some a)
  end.

(** [resolveSecretsRecursive] goes through the fields of a structure in their order,
    into structures and pointers, and not into slices. *)
Definition resolve_LogConfig (c : LogConfig) : result SecretError LogConfig :=
  let! level_ := resolveSecretValue (LogC_Level c) in
  let! format_ := resolveSecretValue (LogC_Format c) in
  let! output_ := resolveSecretValue (LogC_Output c) in
  let! filePath_ := resolveSecretValue (LogC_FilePath c) in
  let! auditPath_ := resolveSecretValue (LogC_AuditPath c) in
  Ok (mkLogConfig level_ format_ output_ filePath_ (LogC_MaxSizeMB c) (LogC_MaxBackups c) (LogC_MaxAgeDays c) (LogC_EnableCaller c) (LogC_NoColor c) auditPath_ (LogC_AuditMaxAgeDays c) (LogC_RedactFields c)).

Definition resolve_IdentityConfig (c : IdentityConfig) : result SecretError IdentityConfig :=
  let! name_ := resolveSecretValue (Ident_Name c) in
  let! email_ := resolveSecretValue (Ident_Email c) in
  let! key_ := resolveSecretValue (Ident_Key c) in
  Ok (mkIdentityConfig name_ email_ key_).

Definition resolve_OutputConfig (c : OutputConfig) : result SecretError OutputConfig :=
  let! format_ := resolveSecretValue (Output_Format c) in
  Ok (mkOutputConfig format_ (Output_Color c)).

Definition resolve_TLSSection (c : TLSSection) : result SecretError TLSSection :=
  let! certFile_ := resolveSecretValue (TLS_CertFile c) in
  let! keyFile_ := resolveSecretValue (TLS_KeyFile c) in
  let! cAFile_ := resolveSecretValue (TLS_CAFile c) in
  let! clientAuth_ := resolveSecretValue (TLS_ClientAuth c) in
  Ok (mkTLSSection (TLS_Enabled c) (TLS_AutoGenerate c) certFile_ keyFile_ cAFile_ clientAuth_ (TLS_CAValidityYears c) (TLS_ServerCertValidityDays c) (TLS_ClientCertValidityDays c) (TLS_RenewalThresholdDays c)).

Definition resolve_GRPCMetricsConfig (c : GRPCMetricsConfig) : result SecretError GRPCMetricsConfig :=
  let! hTTPHost_ := resolveSecretValue (GRPCMetrics_HTTPHost c) in
  let! path_ := resolveSecretValue (GRPCMetrics_Path c) in
  Ok (mkGRPCMetricsConfig (GRPCMetrics_Enabled c) (GRPCMetrics_HTTPPort c) hTTPHost_ path_ (GRPCMetrics_EnableLatencyHistograms c)).

Definition resolve_GRPCConfig (c : GRPCConfig) : result SecretError GRPCConfig :=
  let! host_ := resolveSecretValue (GRPC_Host c) in
  let! unixSocket_ := resolveSecretValue (GRPC_UnixSocket c) in
  let! metrics_ := resolve_GRPCMetricsConfig (GRPC_Metrics c) in
  Ok (mkGRPCConfig (GRPC_Enabled c) host_ (GRPC_Port c) unixSocket_ (GRPC_MaxRecvMsgSize c) (GRPC_MaxSendMsgSize c) (GRPC_MaxConcurrentStreams c) (GRPC_Keepalive c) (GRPC_Reflection c) (GRPC_RateLimit c) metrics_ (GRPC_ShutdownGracePeriod c)).

Definition resolve_ServerSection (c : ServerSection) : result SecretError ServerSection :=
  let! host_ := resolveSecretValue (Server_Host c) in
  let! tLS_ := resolve_TLSSection (Server_TLS c) in
  let! gRPC_ := resolve_GRPCConfig (Server_GRPC c) in
  let! pIDFile_ := resolveSecretValue (Server_PIDFile c) in
  let! dataDir_ := resolveSecretValue (Server_DataDir c) in
  Ok (mkServerSection host_ (Server_Port c) tLS_ gRPC_ pIDFile_ dataDir_).

Definition resolve_SSHConfig (c : SSHConfig) : result SecretError SSHConfig :=
  let! host_ := resolveSecretValue (SSH_Host c) in
  let! hostKeyPath_ := resolveSecretValue (SSH_HostKeyPath c) in
  Ok (mkSSHConfig (SSH_Enabled c) host_ (SSH_Port c) hostKeyPath_ (SSH_IdleTimeout c) (SSH_MaxConnections c)).

Definition resolve_P2PIdentityConfig (c : P2PIdentityConfig) : result SecretError P2PIdentityConfig :=
  let! keyPath_ := resolveSecretValue (P2PIdentity_KeyPath c) in
  Ok (mkP2PIdentityConfig keyPath_).

Definition resolve_MDNSConfig (c : MDNSConfig) : result SecretError MDNSConfig :=
  let! serviceName_ := resolveSecretValue (MDNS_ServiceName c) in
  Ok (mkMDNSConfig (MDNS_Enabled c) serviceName_).

Definition resolve_DHTConfig (c : DHTConfig) : result SecretError DHTConfig :=
  let! mode_ := resolveSecretValue (DHT_Mode c) in
  Ok (mkDHTConfig (DHT_Enabled c) mode_).

Definition resolve_PeerStoreConfig (c : PeerStoreConfig) : result SecretError PeerStoreConfig :=
  let! path_ := resolveSecretValue (PeerStore_Path c) in
  Ok (mkPeerStoreConfig path_).

Definition resolve_SelectiveConfig (c : SelectiveConfig) : result SecretError SelectiveConfig :=
  let! subscriptionStorePath_ := resolveSecretValue (Selective_SubscriptionStorePath c) in
  Ok (mkSelectiveConfig (Selective_Subscriptions c) subscriptionStorePath_).

Definition resolve_P2PSection (c : P2PSection) : result SecretError P2PSection :=
  let! mode_ := resolveSecretValue (P2P_Mode c) in
  let! identity_ := resolve_P2PIdentityConfig (P2P_Identity c) in
  let! mDNS_ := resolve_MDNSConfig (P2P_MDNS c) in
  let! dHT_ := resolve_DHTConfig (P2P_DHT c) in
  let! peerStore_ := resolve_PeerStoreConfig (P2P_PeerStore c) in
  let! selective_ := resolve_SelectiveConfig (P2P_Selective c) in
  Ok (mkP2PSection (P2P_Enabled c) mode_ identity_ (P2P_ListenAddresses c) (P2P_ConnManager c) (P2P_Bootstrap c) mDNS_ dHT_ peerStore_ (P2P_FullReplica c) selective_ (P2P_Proxy c) (P2P_GRPC c) (P2P_Metrics c)).

Definition resolve_ClusterSection (c : ClusterSection) : result SecretError ClusterSection :=
  let! nodeID_ := resolveSecretValue (Cluster_NodeID c) in
  let! clusterName_ := resolveSecretValue (Cluster_ClusterName c) in
  let! dataDir_ := resolveSecretValue (Cluster_DataDir c) in
  let! listenAddr_ := resolveSecretValue (Cluster_ListenAddr c) in
  let! advertiseAddr_ := resolveSecretValue (Cluster_AdvertiseAddr c) in
  let! joinToken_ := resolveSecretValue (Cluster_JoinToken c) in
  Ok (mkClusterSection (Cluster_Enabled c) nodeID_ clusterName_ dataDir_ listenAddr_ advertiseAddr_ (Cluster_IsVoter c) (Cluster_Bootstrap c) joinToken_ (Cluster_JoinAddrs c) (Cluster_EnableDHTDiscovery c) (Cluster_Raft c) (Cluster_Snapshot c)).

Definition resolve_ConnectionTLSConfig (c : ConnectionTLSConfig) : result SecretError ConnectionTLSConfig :=
  let! cAFile_ := resolveSecretValue (ConnectionTLS_CAFile c) in
  let! certFile_ := resolveSecretValue (ConnectionTLS_CertFile c) in
  let! keyFile_ := resolveSecretValue (ConnectionTLS_KeyFile c) in
  Ok (mkConnectionTLSConfig (ConnectionTLS_SkipVerify c) cAFile_ certFile_ keyFile_).

Definition resolve_ConnectionConfig (c : ConnectionConfig) : result SecretError ConnectionConfig :=
  let! defaultNode_ := resolveSecretValue (Connection_DefaultNode c) in
  let! mode_ := resolveSecretValue (Connection_Mode c) in
  let! timeout_ := resolveSecretValue (Connection_Timeout c) in
  let! tLS_ := resolve_ConnectionTLSConfig (Connection_TLS c) in
  Ok (mkConnectionConfig defaultNode_ (Connection_FavoriteNodes c) (Connection_BibDevConfirmed c) mode_ (Connection_AutoDetect c) timeout_ (Connection_RetryAttempts c) (Connection_PoolSize c) tLS_).

Definition resolve_BibConfig (c : BibConfig) : result SecretError BibConfig :=
  let! log_ := resolve_LogConfig (Bib_Log c) in
  let! identity_ := resolve_IdentityConfig (Bib_Identity c) in
  let! output_ := resolve_OutputConfig (Bib_Output c) in
  let! locale_ := resolveSecretValue (Bib_Locale c) in
  let! connection_ := resolve_ConnectionConfig (Bib_Connection c) in
  Ok (mkBibConfig log_ identity_ output_ locale_ connection_).

Definition resolve_AuthSection (c : AuthSection) : result SecretError AuthSection :=
  let! defaultRole_ := resolveSecretValue (Auth_DefaultRole c) in
  Ok (mkAuthSection (Auth_AllowAutoRegistration c) (Auth_RequireEmail c) defaultRole_ (Auth_SessionTimeout c) (Auth_MaxSessionsPerUser c)).

Definition resolve_SQLiteDatabaseConfig (c : SQLiteDatabaseConfig) : result SecretError SQLiteDatabaseConfig :=
  let! path_ := resolveSecretValue (SQLiteDatabase_Path c) in
  Ok (mkSQLiteDatabaseConfig path_ (SQLiteDatabase_MaxOpenConns c)).

Definition resolve_PostgresNetworkConfig (c : PostgresNetworkConfig) : result SecretError PostgresNetworkConfig :=
  let! bridgeNetworkName_ := resolveSecretValue (PostgresNetwork_BridgeNetworkName c) in
  let! bindAddress_ := resolveSecretValue (PostgresNetwork_BindAddress c) in
  Ok (mkPostgresNetworkConfig (PostgresNetwork_UseBridgeNetwork c) bridgeNetworkName_ (PostgresNetwork_UseUnixSocket c) bindAddress_).

Definition resolve_PostgresHealthConfig (c : PostgresHealthConfig) : result SecretError PostgresHealthConfig :=
  let! action_ := resolveSecretValue (PostgresHealth_Action c) in
  Ok (mkPostgresHealthConfig (PostgresHealth_Interval c) (PostgresHealth_Timeout c) (PostgresHealth_StartupTimeout c) action_ (PostgresHealth_MaxRetries c) (PostgresHealth_RetryBackoff c)).

Definition resolve_PostgresTLSConfig (c : PostgresTLSConfig) : result SecretError PostgresTLSConfig :=
  let! certDir_ := resolveSecretValue (PostgresTLS_CertDir c) in
  Ok (mkPostgresTLSConfig (PostgresTLS_Enabled c) certDir_ (PostgresTLS_AutoGenerate c)).

Definition resolve_PostgresAdvancedConfig (c : PostgresAdvancedConfig) : result SecretError PostgresAdvancedConfig :=
  let! host_ := resolveSecretValue (PostgresAdvanced_Host c) in
  let! database_ := resolveSecretValue (PostgresAdvanced_Database c) in
  let! user_ := resolveSecretValue (PostgresAdvanced_User c) in
  let! password_ := resolveSecretValue (PostgresAdvanced_Password c) in
  let! sSLMode_ := resolveSecretValue (PostgresAdvanced_SSLMode c) in
  Ok (mkPostgresAdvancedConfig host_ (PostgresAdvanced_Port c) database_ user_ password_ sSLMode_).

Definition resolve_PostgresDatabaseConfig (c : PostgresDatabaseConfig) : result SecretError PostgresDatabaseConfig :=
  let! containerRuntime_ := resolveSecretValue (PostgresDatabase_ContainerRuntime c) in
  let! socketPath_ := resolveSecretValue (PostgresDatabase_SocketPath c) in
  let! kubeconfigPath_ := resolveSecretValue (PostgresDatabase_KubeconfigPath c) in
  let! image_ := resolveSecretValue (PostgresDatabase_Image c) in
  let! dataDir_ := resolveSecretValue (PostgresDatabase_DataDir c) in
  let! sSLMode_ := resolveSecretValue (PostgresDatabase_SSLMode c) in
  let! network_ := resolve_PostgresNetworkConfig (PostgresDatabase_Network c) in
  let! health_ := resolve_PostgresHealthConfig (PostgresDatabase_Health c) in
  let! tLS_ := resolve_PostgresTLSConfig (PostgresDatabase_TLS c) in
  let! advanced_ := resolve_pointer resolve_PostgresAdvancedConfig (PostgresDatabase_Advanced c) in
  Ok (mkPostgresDatabaseConfig (PostgresDatabase_Managed c) containerRuntime_ socketPath_ kubeconfigPath_ image_ dataDir_ (PostgresDatabase_Port c) (PostgresDatabase_MaxConnections c) (PostgresDatabase_MemoryMB c) (PostgresDatabase_CPUCores c) sSLMode_ (PostgresDatabase_CredentialRotationInterval c) network_ health_ tLS_ advanced_).

Definition resolve_BreakGlassNotification (c : BreakGlassNotification) : result SecretError BreakGlassNotification :=
  let! webhook_ := resolveSecretValue (BGN_Webhook c) in
  let! email_ := resolveSecretValue (BGN_Email c) in
  Ok (mkBreakGlassNotification webhook_ email_).

Definition resolve_BreakGlassConfig (c : BreakGlassConfig) : result SecretError BreakGlassConfig :=
  let! defaultAccessLevel_ := resolveSecretValue (BreakGlass_DefaultAccessLevel c) in
  let! auditLevel_ := resolveSecretValue (BreakGlass_AuditLevel c) in
  let! notification_ := resolve_BreakGlassNotification (BreakGlass_Notification c) in
  let! recordingPath_ := resolveSecretValue (BreakGlass_RecordingPath c) in
  Ok (mkBreakGlassConfig (BreakGlass_Enabled c) (BreakGlass_RequireRestart c) (BreakGlass_MaxDuration c) defaultAccessLevel_ (BreakGlass_AllowedUsers c) auditLevel_ notification_ (BreakGlass_RequireAcknowledgment c) (BreakGlass_SessionRecording c) recordingPath_).

Definition resolve_DatabaseConfig (c : DatabaseConfig) : result SecretError DatabaseConfig :=
  let! backend_ := resolveSecretValue (Database_Backend c) in
  let! sQLite_ := resolve_SQLiteDatabaseConfig (Database_SQLite c) in
  let! postgres_ := resolve_PostgresDatabaseConfig (Database_Postgres c) in
  let! breakGlass_ := resolve_BreakGlassConfig (Database_BreakGlass c) in
  Ok (mkDatabaseConfig backend_ sQLite_ postgres_ (Database_Audit c) breakGlass_).

Definition resolve_BibdConfig (c : BibdConfig) : result SecretError BibdConfig :=
  let! log_ := resolve_LogConfig (Bibd_Log c) in
  let! identity_ := resolve_IdentityConfig (Bibd_Identity c) in
  let! server_ := resolve_ServerSection (Bibd_Server c) in
  let! sSH_ := resolve_SSHConfig (Bibd_SSH c) in
  let! auth_ := resolve_AuthSection (Bibd_Auth c) in
  let! p2P_ := resolve_P2PSection (Bibd_P2P c) in
  let! cluster_ := resolve_ClusterSection (Bibd_Cluster c) in
  let! database_ := resolve_DatabaseConfig (Bibd_Database c) in
  Ok (mkBibdConfig log_ identity_ server_ sSH_ auth_ p2P_ cluster_ database_).

(** ** Loading *)

Definition default_node (nodes : list FavoriteNode) : string :=
  let node := match List.find FN_Default nodes with Some node => FN_Address node | None => "" end in
  if node =?= "" then match nodes with n :: _ => FN_Address n | [] => "" end else node.

Definition with_default_node (c : BibConfig) (address : string) : BibConfig :=
  let n := Bib_Connection c in
  mkBibConfig (Bib_Log c) (Bib_Identity c) (Bib_Output c) (Bib_Locale c)
    (mkConnectionConfig address (Connection_FavoriteNodes n) (Connection_BibDevConfirmed n) (Connection_Mode n) (Connection_AutoDetect n)
       (Connection_Timeout n) (Connection_RetryAttempts n) (Connection_PoolSize n) (Connection_TLS n)).

Definition LoadBib (cfgFile : string) : result ConfigError BibConfig :=
  match ReadInConfig e AppBib cfgFile with
  | None => Err CERead
  | Some config =>
      let v := mkViper AppBib config (bib_defaults DefaultBibConfig) in
      match read_BibConfig (viper_get e v) "" with
      | None => Err CEUnmarshal
      | Some cfg =>
          match resolve_BibConfig cfg with
          | Err _ => Err CESecret
          | Ok cfg =>
              let nodes := Connection_FavoriteNodes (Bib_Connection cfg) in
              if (Connection_DefaultNode (Bib_Connection cfg) =?= "") && (0 <? Z.of_nat (length nodes))
              then Ok (with_default_node cfg (default_node nodes)) else Ok cfg
          end
      end
  end.

Definition LoadBibd (cfgFile : string) : result ConfigError BibdConfig :=
  match ReadInConfig e AppBibd cfgFile with
  | None => Err CERead
  | Some config =>
      let v := mkViper AppBibd config (bibd_defaults (DefaultBibdConfig (en_goos e))) in
      match read_BibdConfig (viper_get e v) "" with
      | None => Err CEUnmarshal
      | Some cfg => match resolve_BibdConfig cfg with Err _ => Err CESecret | Ok cfg => Ok cfg end
      end
  end.

Definition ConfigFileUsed (appName : string) : string := default "" (find_config e appName).
End secrets.

(** ** Writing *)

(** [WriteConfigAs]: the extension decides, then the type that was set; formats that the
    library does not know are errors. *)
Definition WriteConfigAs (fs : Files) (path configType : string) (settings : Settings) (o : WriteOutcome) : Files * bool :=
  let format := if Ext path <>? "" then ext_type path else configType in
  if negb (mem format SupportedExts) then (fs, false)
  else match encode_settings format settings with
  | None => (fs, false)
  | Some b => WriteFile fs path b o
  end.

Definition SaveBib (fs : Files) (cfg : BibConfig) (path : string) (mkdir : bool) (o : WriteOutcome) : Files * bool :=
  if negb mkdir then (fs, false) else WriteConfigAs fs path "yaml" (save_settings cfg) o.

(** What is handed to [NewViperFromConfig]; anything but a pointer to a configuration
    matches no case. *)
Inductive any_config := CfgBib (c : BibConfig) | CfgBibd (c : BibdConfig) | CfgOther.
Definition NewViperFromConfig (cfg : any_config) : Settings :=
  match cfg with CfgBib c => bib_settings c | CfgBibd c => bibd_settings c | CfgOther => [] end.

(** ** Generated files ([generator.go]) *)

Definition SupportedFormats : list string := ["yaml"; "toml"; "json"].
Definition isValidFormat (format : string) : bool := mem format SupportedFormats.

(** The default of the CLI is a pointer already, and its address is no case of
    [NewViperFromConfig]. *)
Definition generated_config (goos appName : string) : option any_config :=
  if appName =?= AppBib then Some CfgOther
  else if appName =?= AppBibd then Some (CfgBibd (DefaultBibdConfig goos)) else None.

Inductive GenerateError := GEFormat | GEHome | GEMkdir | GEExists | GEUnknown | GEWrite.

Definition GenerateConfig (e : Environment) (appName format : string) (mkdir : bool) (o : WriteOutcome) : Files * (string * option GenerateError) :=
  let fs := en_files e in
  if negb (isValidFormat format) then (fs, ("", Some GEFormat))
  else match UserConfigDir e appName with
  | None => (fs, ("", Some GEHome))
  | Some configDir =>
      if negb mkdir then (fs, ("", Some GEMkdir))
      else
        let configPath := path_of [configDir; "config." ++ format] in
        match fs !! configPath with
        | Some _ => (fs, (configPath, Some GEExists))
        | None =>
            match generated_config (en_goos e) appName with
            | None => (fs, ("", Some GEUnknown))
            | Some cfg =>
                let '(fs, ok) := WriteConfigAs fs configPath format (NewViperFromConfig cfg) o in
                if ok then (fs, (configPath, None)) else (fs, ("", Some GEWrite))
            end
        end
  end.

Definition GenerateConfigIfNotExists (e : Environment) (appName format : string) (mkdir : bool) (o : WriteOutcome)
    : Files * (string * bool * option GenerateError) :=
  match UserConfigDir e appName with
  | None => (en_files e, ("", false, Some GEHome))
  | Some configDir =>
      match List.find (fun path => match en_files e !! path with Some _ => true | None => false end)
              (map (fun ext => path_of [configDir; "config." ++ ext]) SupportedFormats) with
      | Some path => (en_files e, (path, false, None))
      | None =>
          let '(fs, (path, err)) := GenerateConfig e appName format mkdir o in
          match err with
          | Some err => (fs, ("", false, Some err))
          | None => (fs, (path, true, None))
          end
      end
  end.
End library.

(** ** What a file keeps

    The fields that are written; all others are zero when the file is read. *)
Definition written_bib (c : BibConfig) : BibConfig :=
mkBibConfig (mkLogConfig (LogC_Level (Bib_Log c)) (LogC_Format (Bib_Log c)) (LogC_Output (Bib_Log c)) "" 0 0 0 false false "" 0 []) (mkIdentityConfig
    (Ident_Name (Bib_Identity c)) (Ident_Email (Bib_Identity c)) (Ident_Key (Bib_Identity c))) (mkOutputConfig (Output_Format (Bib_Output c))
    (Output_Color (Bib_Output c))) "" (mkConnectionConfig (Connection_DefaultNode (Bib_Connection c)) [] false "" (Connection_AutoDetect
    (Bib_Connection c)) "" 0 0 zero_ConnectionTLSConfig).

Definition written_bibd (c : BibdConfig) : BibdConfig :=
mkBibdConfig (mkLogConfig (LogC_Level (Bibd_Log c)) (LogC_Format (Bibd_Log c)) (LogC_Output (Bibd_Log c)) "" 0 0 0 false false "" 0 [])
    (mkIdentityConfig (Ident_Name (Bibd_Identity c)) (Ident_Email (Bibd_Identity c)) (Ident_Key (Bibd_Identity c))) (mkServerSection (Server_Host
    (Bibd_Server c)) (Server_Port (Bibd_Server c)) (mkTLSSection (TLS_Enabled (Server_TLS (Bibd_Server c))) false (TLS_CertFile (Server_TLS
    (Bibd_Server c))) (TLS_KeyFile (Server_TLS (Bibd_Server c))) "" "" 0 0 0 0) (mkGRPCConfig (GRPC_Enabled (Server_GRPC (Bibd_Server c))) (GRPC_Host
    (Server_GRPC (Bibd_Server c))) (GRPC_Port (Server_GRPC (Bibd_Server c))) (GRPC_UnixSocket (Server_GRPC (Bibd_Server c))) (GRPC_MaxRecvMsgSize
    (Server_GRPC (Bibd_Server c))) (GRPC_MaxSendMsgSize (Server_GRPC (Bibd_Server c))) (GRPC_MaxConcurrentStreams (Server_GRPC (Bibd_Server c)))
    (mkGRPCKeepaliveConfig (GRPCKeepalive_Time (GRPC_Keepalive (Server_GRPC (Bibd_Server c)))) (GRPCKeepalive_Timeout (GRPC_Keepalive (Server_GRPC
    (Bibd_Server c)))) (GRPCKeepalive_MinTime (GRPC_Keepalive (Server_GRPC (Bibd_Server c)))) (GRPCKeepalive_PermitWithoutStream (GRPC_Keepalive
    (Server_GRPC (Bibd_Server c))))) (GRPC_Reflection (Server_GRPC (Bibd_Server c))) (mkGRPCRateLimitConfig (GRPCRateLimit_Enabled (GRPC_RateLimit
    (Server_GRPC (Bibd_Server c)))) (GRPCRateLimit_RequestsPerSecond (GRPC_RateLimit (Server_GRPC (Bibd_Server c)))) (GRPCRateLimit_Burst
    (GRPC_RateLimit (Server_GRPC (Bibd_Server c))))) (mkGRPCMetricsConfig (GRPCMetrics_Enabled (GRPC_Metrics (Server_GRPC (Bibd_Server c))))
    (GRPCMetrics_HTTPPort (GRPC_Metrics (Server_GRPC (Bibd_Server c)))) (GRPCMetrics_HTTPHost (GRPC_Metrics (Server_GRPC (Bibd_Server c))))
    (GRPCMetrics_Path (GRPC_Metrics (Server_GRPC (Bibd_Server c)))) (GRPCMetrics_EnableLatencyHistograms (GRPC_Metrics (Server_GRPC (Bibd_Server
    c))))) (GRPC_ShutdownGracePeriod (Server_GRPC (Bibd_Server c)))) (Server_PIDFile (Bibd_Server c)) (Server_DataDir (Bibd_Server c))) zero_SSHConfig
    zero_AuthSection (mkP2PSection (P2P_Enabled (Bibd_P2P c)) (P2P_Mode (Bibd_P2P c)) (mkP2PIdentityConfig (P2PIdentity_KeyPath (P2P_Identity
    (Bibd_P2P c)))) (P2P_ListenAddresses (Bibd_P2P c)) (mkConnManagerConfig (ConnManager_LowWatermark (P2P_ConnManager (Bibd_P2P c)))
    (ConnManager_HighWatermark (P2P_ConnManager (Bibd_P2P c))) (ConnManager_GracePeriod (P2P_ConnManager (Bibd_P2P c)))) (mkBootstrapSection
    (Bootstrap_Peers (P2P_Bootstrap (Bibd_P2P c))) (Bootstrap_MinPeers (P2P_Bootstrap (Bibd_P2P c))) (Bootstrap_RetryInterval (P2P_Bootstrap (Bibd_P2P
    c))) (Bootstrap_MaxRetryInterval (P2P_Bootstrap (Bibd_P2P c)))) (mkMDNSConfig (MDNS_Enabled (P2P_MDNS (Bibd_P2P c))) (MDNS_ServiceName (P2P_MDNS
    (Bibd_P2P c)))) (mkDHTConfig (DHT_Enabled (P2P_DHT (Bibd_P2P c))) (DHT_Mode (P2P_DHT (Bibd_P2P c)))) (mkPeerStoreConfig (PeerStore_Path
    (P2P_PeerStore (Bibd_P2P c)))) (mkFullReplicaConfig (FullReplica_SyncInterval (P2P_FullReplica (Bibd_P2P c)))) (mkSelectiveConfig
    (Selective_Subscriptions (P2P_Selective (Bibd_P2P c))) (Selective_SubscriptionStorePath (P2P_Selective (Bibd_P2P c)))) (mkProxyConfig
    (Proxy_CacheTTL (P2P_Proxy (Bibd_P2P c))) (Proxy_MaxCacheSize (P2P_Proxy (Bibd_P2P c))) (Proxy_FavoritePeers (P2P_Proxy (Bibd_P2P c))))
    zero_P2PGRPCConfig zero_P2PMetricsConfig) (mkClusterSection (Cluster_Enabled (Bibd_Cluster c)) (Cluster_NodeID (Bibd_Cluster c))
    (Cluster_ClusterName (Bibd_Cluster c)) (Cluster_DataDir (Bibd_Cluster c)) (Cluster_ListenAddr (Bibd_Cluster c)) (Cluster_AdvertiseAddr
    (Bibd_Cluster c)) (Cluster_IsVoter (Bibd_Cluster c)) (Cluster_Bootstrap (Bibd_Cluster c)) (Cluster_JoinToken (Bibd_Cluster c)) (Cluster_JoinAddrs
    (Bibd_Cluster c)) (Cluster_EnableDHTDiscovery (Bibd_Cluster c)) (mkRaftConfig (Raft_HeartbeatTimeout (Cluster_Raft (Bibd_Cluster c)))
    (Raft_ElectionTimeout (Cluster_Raft (Bibd_Cluster c))) (Raft_CommitTimeout (Cluster_Raft (Bibd_Cluster c))) (Raft_MaxAppendEntries (Cluster_Raft
    (Bibd_Cluster c))) (Raft_TrailingLogs (Cluster_Raft (Bibd_Cluster c))) (Raft_MaxInflight (Cluster_Raft (Bibd_Cluster c)))) (mkSnapshotConfig
    (Snapshot_Interval (Cluster_Snapshot (Bibd_Cluster c))) (Snapshot_Threshold (Cluster_Snapshot (Bibd_Cluster c))) (Snapshot_RetainCount
    (Cluster_Snapshot (Bibd_Cluster c))))) (mkDatabaseConfig (Database_Backend (Bibd_Database c)) (mkSQLiteDatabaseConfig (SQLiteDatabase_Path
    (Database_SQLite (Bibd_Database c))) (SQLiteDatabase_MaxOpenConns (Database_SQLite (Bibd_Database c)))) (mkPostgresDatabaseConfig
    (PostgresDatabase_Managed (Database_Postgres (Bibd_Database c))) (PostgresDatabase_ContainerRuntime (Database_Postgres (Bibd_Database c)))
    (PostgresDatabase_SocketPath (Database_Postgres (Bibd_Database c))) (PostgresDatabase_KubeconfigPath (Database_Postgres (Bibd_Database c)))
    (PostgresDatabase_Image (Database_Postgres (Bibd_Database c))) (PostgresDatabase_DataDir (Database_Postgres (Bibd_Database c)))
    (PostgresDatabase_Port (Database_Postgres (Bibd_Database c))) (PostgresDatabase_MaxConnections (Database_Postgres (Bibd_Database c)))
    (PostgresDatabase_MemoryMB (Database_Postgres (Bibd_Database c))) (PostgresDatabase_CPUCores (Database_Postgres (Bibd_Database c)))
    (PostgresDatabase_SSLMode (Database_Postgres (Bibd_Database c))) (PostgresDatabase_CredentialRotationInterval (Database_Postgres (Bibd_Database
    c))) (mkPostgresNetworkConfig (PostgresNetwork_UseBridgeNetwork (PostgresDatabase_Network (Database_Postgres (Bibd_Database c))))
    (PostgresNetwork_BridgeNetworkName (PostgresDatabase_Network (Database_Postgres (Bibd_Database c)))) (PostgresNetwork_UseUnixSocket
    (PostgresDatabase_Network (Database_Postgres (Bibd_Database c)))) (PostgresNetwork_BindAddress (PostgresDatabase_Network (Database_Postgres
    (Bibd_Database c))))) (mkPostgresHealthConfig (PostgresHealth_Interval (PostgresDatabase_Health (Database_Postgres (Bibd_Database c))))
    (PostgresHealth_Timeout (PostgresDatabase_Health (Database_Postgres (Bibd_Database c)))) (PostgresHealth_StartupTimeout (PostgresDatabase_Health
    (Database_Postgres (Bibd_Database c)))) (PostgresHealth_Action (PostgresDatabase_Health (Database_Postgres (Bibd_Database c))))
    (PostgresHealth_MaxRetries (PostgresDatabase_Health (Database_Postgres (Bibd_Database c)))) (PostgresHealth_RetryBackoff (PostgresDatabase_Health
    (Database_Postgres (Bibd_Database c))))) (mkPostgresTLSConfig (PostgresTLS_Enabled (PostgresDatabase_TLS (Database_Postgres (Bibd_Database c))))
    (PostgresTLS_CertDir (PostgresDatabase_TLS (Database_Postgres (Bibd_Database c)))) (PostgresTLS_AutoGenerate (PostgresDatabase_TLS
    (Database_Postgres (Bibd_Database c))))) None) (mkAuditDatabaseConfig (AuditDatabase_Enabled (Database_Audit (Bibd_Database c)))
    (AuditDatabase_RetentionDays (Database_Audit (Bibd_Database c))) (AuditDatabase_HashChain (Database_Audit (Bibd_Database c))))
    zero_BreakGlassConfig).

Definition saved_bib (c : BibConfig) : BibConfig :=
mkBibConfig (mkLogConfig (LogC_Level (Bib_Log c)) (LogC_Format (Bib_Log c)) (LogC_Output (Bib_Log c)) "" 0 0 0 false false "" 0 []) (mkIdentityConfig
    (Ident_Name (Bib_Identity c)) (Ident_Email (Bib_Identity c)) (Ident_Key (Bib_Identity c))) (mkOutputConfig (Output_Format (Bib_Output c))
    (Output_Color (Bib_Output c))) (Bib_Locale c) (mkConnectionConfig (Connection_DefaultNode (Bib_Connection c)) (Connection_FavoriteNodes
    (Bib_Connection c)) (Connection_BibDevConfirmed (Bib_Connection c)) (Connection_Mode (Bib_Connection c)) (Connection_AutoDetect (Bib_Connection
    c)) (Connection_Timeout (Bib_Connection c)) (Connection_RetryAttempts (Bib_Connection c)) (Connection_PoolSize (Bib_Connection c))
    (mkConnectionTLSConfig (ConnectionTLS_SkipVerify (Connection_TLS (Bib_Connection c))) (ConnectionTLS_CAFile (Connection_TLS (Bib_Connection c)))
    (ConnectionTLS_CertFile (Connection_TLS (Bib_Connection c))) (ConnectionTLS_KeyFile (Connection_TLS (Bib_Connection c))))).

(** ** Theorems *)

Lemma alist_get_app a b key : alist_get (a ++ b) key = match alist_get a key with Some v => Some v | None => alist_get b key end.
Proof. unfold alist_get. rewrite find_app. by destruct (List.find _ a). Qed.

Lemma alist_get_None m key : alist_get m key = None <-> key ∉ map fst m.
Proof.
  unfold alist_get. rewrite fmap_None, find_None. split.
  - intros Hn (kv & -> & Hin)%list_elem_of_fmap. specialize (Hn kv Hin). cbn in Hn. by rewrite bool_decide_eq_true_2 in Hn.
  - intros Hn kv Hin. apply bool_decide_eq_false_2. intros <-. apply Hn, list_elem_of_fmap. by exists kv.
Qed.

Section loading.
Context `{ViperLib}.

(** The values that a load finds are those of some settings, as the library reads them. *)
Definition agrees (m : Settings) (get : string -> option Value) : Prop :=
  forall key, match alist_get m key with Some v => exists v', get key = Some v' /\ reads_as v v' | None => get key = None end.

Lemma agrees_self m : agrees m (alist_get m).
Proof. intros key. destruct (alist_get m key) as [v|]; [|done]. exists v. split; [done|apply reads_self]. Qed.

Section steps.
Context {A : Type} (m : Settings) (get : string -> option Value) (Hag : agrees m get).
Implicit Types (r : option A).

Lemma step_some {B} (x : option B) b (k : B -> option A) r : x = Some b -> k b = r -> (let? y := x in k y) = r.
Proof. by intros -> ->. Qed.

Lemma agrees_hit key v : alist_get m key = Some v -> exists v', get key = Some v' /\ reads_as v v'.
Proof. intros Hk. specialize (Hag key). by rewrite Hk in Hag. Qed.
Lemma agrees_miss key : alist_get m key = None -> get key = None.
Proof. intros Hk. specialize (Hag key). by rewrite Hk in Hag. Qed.

Lemma rd_string_hit key s : alist_get m key = Some (VString s) -> rd_string get key = Some s.
Proof. intros (v & Hv & Hr)%agrees_hit. unfold rd_string. by rewrite Hv. Qed.
Lemma rd_bool_hit key b : alist_get m key = Some (VBool b) -> rd_bool get key = Some b.
Proof. intros (v & Hv & Hr)%agrees_hit. unfold rd_bool. by rewrite Hv. Qed.
Lemma rd_int_hit key n : alist_get m key = Some (VInt n) -> rd_int get key = Some n.
Proof. intros (v & Hv & Hr)%agrees_hit. unfold rd_int. by rewrite Hv. Qed.
Lemma rd_float_hit key f : alist_get m key = Some (VFloat f) -> rd_float get key = Some f.
Proof. intros (v & Hv & Hr)%agrees_hit. unfold rd_float. by rewrite Hv. Qed.
Lemma rd_duration_hit key d : alist_get m key = Some (VDuration d) -> rd_duration get key = Some d.
Proof. intros (v & Hv & Hr)%agrees_hit. unfold rd_duration. by rewrite Hv. Qed.
Lemma rd_strings_hit key l : alist_get m key = Some (VStrings l) -> rd_strings get key = Some l.
Proof. intros (v & Hv & Hr)%agrees_hit. unfold rd_strings. by rewrite Hv. Qed.
Lemma rd_nodes_hit key l : alist_get m key = Some (VNodes l) -> rd_nodes get key = Some l.
Proof. intros (v & Hv & Hr)%agrees_hit. unfold rd_nodes. by rewrite Hv. Qed.

Lemma rd_miss key : alist_get m key = None ->
  rd_string get key = Some "" /\ rd_bool get key = Some false /\ rd_int get key = Some 0 /\ rd_float get key = Some fzero /\
  rd_duration get key = Some 0 /\ rd_strings get key = Some [] /\ rd_nodes get key = Some [] /\ rd_users get key = Some [].
Proof. intros Hk%agrees_miss. unfold rd_string, rd_bool, rd_int, rd_float, rd_duration, rd_strings, rd_nodes, rd_users. by rewrite Hk. Qed.

Lemma rd_pointer_miss {B} pre keys (read : string -> option B) :
  forallb (fun k => match alist_get m (pre ++ k) with Some _ => false | None => true end) keys = true -> rd_pointer get pre keys read = Some None.
Proof.
  intros Hk. unfold rd_pointer. replace (existsb _ keys) with false; [done|]. symmetry. apply not_true_iff_false.
  intros (k & Hin & Hg)%existsb_exists. rewrite forallb_forall in Hk. specialize (Hk k Hin).
  destruct (alist_get m (pre ++ k)) eqn:Hm; [done|]. by rewrite (agrees_miss _ Hm) in Hg.
Qed.
End steps.
End loading.

(** Reads the fields of a structure one after the other. *)
Ltac field_hit Hag m key :=
  let v := eval vm_compute in (alist_get m key) in
  lazymatch v with
  | Some (VString ?s) => apply (rd_string_hit _ _ Hag key s)
  | Some (VBool ?s) => apply (rd_bool_hit _ _ Hag key s)
  | Some (VInt ?s) => apply (rd_int_hit _ _ Hag key s)
  | Some (VFloat ?s) => apply (rd_float_hit _ _ Hag key s)
  | Some (VDuration ?s) => apply (rd_duration_hit _ _ Hag key s)
  | Some (VStrings ?s) => apply (rd_strings_hit _ _ Hag key s)
  | Some (VNodes ?s) => apply (rd_nodes_hit _ _ Hag key s)
  | None => apply (rd_miss _ _ Hag key)
  end; vm_compute; reflexivity.
Ltac head_of t := lazymatch t with ?f _ => head_of f | _ => t end.
Ltac read_struct Hag m :=
  lazymatch goal with |- ?lhs = _ => let h := head_of lhs in unfold h end;
  repeat (eapply step_some; [read_field Hag m | cbv beta]); reflexivity
with read_field Hag m :=
  lazymatch goal with
  | |- rd_pointer _ _ _ _ = _ => apply (rd_pointer_miss _ _ Hag); vm_compute; reflexivity
  | |- rd_string _ ?key = _ => field_hit Hag m key
  | |- rd_bool _ ?key = _ => field_hit Hag m key
  | |- rd_int _ ?key = _ => field_hit Hag m key
  | |- rd_float _ ?key = _ => field_hit Hag m key
  | |- rd_duration _ ?key = _ => field_hit Hag m key
  | |- rd_strings _ ?key = _ => field_hit Hag m key
  | |- rd_nodes _ ?key = _ => field_hit Hag m key
  | |- rd_users _ ?key = _ => field_hit Hag m key
  | _ => read_struct Hag m
  end.

Section round_trips.
Context `{ViperLib}.

Lemma read_written_bib c get : agrees (bib_settings c) get -> read_BibConfig get "" = Some (written_bib c).
Proof. intros Hag. read_struct Hag (bib_settings c). Qed.

Lemma read_written_bibd c get : agrees (bibd_settings c) get -> read_BibdConfig get "" = Some (written_bibd c).
Proof. intros Hag. read_struct Hag (bibd_settings c). Qed.

Lemma read_saved_bib c get : agrees (save_settings c) get -> read_BibConfig get "" = Some (saved_bib c).
Proof.
  intros Hag. unfold save_settings in Hag. destruct c as [lg id out loc [dn nodes bd md au ti re po tl]]. cbn [Bib_Connection Connection_FavoriteNodes] in Hag.
  destruct nodes as [|n nodes]; cbn [length] in Hag.
  - set (c := mkBibConfig _ _ _ _ _) in *. rewrite app_nil_r in Hag. read_struct Hag (saved_settings c).
  - set (c := mkBibConfig _ _ _ _ _) in *. rewrite (proj2 (Z.ltb_lt _ _)) in Hag by lia.
    set (m := (saved_settings c ++ _)%list) in *. read_struct Hag m.
Qed.

(** Without variables of the environment a load finds the values of its file, if the
    file has every key that has a default. *)
Lemma viper_agrees e app config defaults m :
  (forall key, en_getenv e (env_name app key) = "") ->
  (forall key, match alist_get m key with Some v => exists v', alist_get config key = Some v' /\ reads_as v v' | None => alist_get config key = None end) ->
  forallb (fun k => mem k (map fst m)) (map fst defaults) = true ->
  agrees m (viper_get e (mkViper app config defaults)).
Proof.
  intros He Hc Hk key. specialize (Hc key). unfold viper_get. cbn [vi_config vi_defaults vi_app]. rewrite He.
  rewrite bool_decide_eq_true_2 by done. cbn [negb]. destruct (alist_get m key) as [v|] eqn:Hm.
  - destruct Hc as (v' & Hv & Hr). rewrite Hv. by exists v'.
  - rewrite Hc. destruct (alist_get defaults key) eqn:Hd; [|done]. exfalso.
    apply alist_get_None in Hm. apply Hm. rewrite forallb_forall in Hk. apply mem_true, Hk, list_elem_of_In.
    destruct (decide (key ∈ map fst defaults)) as [|Hn]; [done|]. apply alist_get_None in Hn. congruence.
Qed.

(** A file without settings leaves the defaults. *)
Lemma viper_agrees_defaults e app defaults :
  (forall key, en_getenv e (env_name app key) = "") -> agrees defaults (viper_get e (mkViper app [] defaults)).
Proof.
  intros He key. unfold viper_get. cbn [vi_config vi_defaults vi_app]. rewrite He. rewrite bool_decide_eq_true_2 by done. cbn [negb].
  change (alist_get [] key) with (@None Value). destruct (alist_get defaults key) as [v|]; [|done]. exists v. split; [done|apply reads_self].
Qed.

Definition quiet (e : Environment) (app : string) : Prop := forall key, en_getenv e (env_name app key) = "".

(** The settings of a file that was written are those a load of it finds. *)
Lemma written_file_read e app fs path m fs' :
  WriteConfigAs fs path "yaml" m Written = (fs', true) -> ext_type path ∈ ["yaml"; "toml"; "json"] ->
  NoDup (map fst m) -> forallb (fun kv => plain_value kv.2) m = true -> en_files e = fs' ->
  exists config, ReadInConfig e app path = Some config /\
    forall key, match alist_get m key with Some v => exists v', alist_get config key = Some v' /\ reads_as v v' | None => alist_get config key = None end.
Proof.
  intros Hw Hx Hnd Hp He. unfold WriteConfigAs in Hw. assert (Hext : Ext path <> "").
  { intros Hn. unfold ext_type in Hx. rewrite Hn in Hx. cbn in Hx. set_solver. }
  rewrite bool_decide_eq_false_2 in Hw by done. cbn [negb] in Hw.
  destruct (negb (mem (ext_type path) SupportedExts)); [discriminate|].
  destruct (encode_settings (ext_type path) m) as [b|] eqn:Hb; [|discriminate]. injection Hw as <-.
  destruct (settings_round _ _ _ Hx Hnd Hp Hb) as (config & Hd & Hc). exists config. split; [|done].
  unfold ReadInConfig. assert (Hne : path <> "") by (intros ->; done). rewrite bool_decide_eq_false_2 by done.
  rewrite He, lookup_insert_eq, bool_decide_eq_false_2 by done. done.
Qed.

Context `{UnicodeTables}.

(** The configuration of the daemon as it is written by a setup or by the generator, in
    any of the formats, is loaded with the fields that are written; all others are
    zero, whatever their defaults. *)
Theorem written_bibd_loads e fs path c fs' :
  WriteConfigAs fs path "yaml" (NewViperFromConfig (CfgBibd c)) Written = (fs', true) -> ext_type path ∈ ["yaml"; "toml"; "json"] ->
  forallb (fun kv => plain_value kv.2) (bibd_settings c) = true -> en_files e = fs' -> quiet e AppBibd ->
  resolve_BibdConfig e (written_bibd c) = Ok (written_bibd c) ->
  LoadBibd e path = Ok (written_bibd c).
Proof.
  intros Hw Hx Hp He Hq Hs.
  destruct (written_file_read e AppBibd fs path (bibd_settings c) fs' Hw Hx) as (config & Hr & Hc); [|done|done|].
  { apply (bool_decide_unpack _). vm_compute. done. }
  unfold LoadBibd. rewrite Hr. rewrite (read_written_bibd c); [by rewrite Hs|]. apply viper_agrees; [done|done|]. vm_compute. reflexivity.
Qed.

(** Likewise for the client: of its connection only the default node and the detection
    are kept, and the nodes that were selected are not. *)
Theorem written_bib_loads e fs path c fs' :
  WriteConfigAs fs path "yaml" (NewViperFromConfig (CfgBib c)) Written = (fs', true) -> ext_type path ∈ ["yaml"; "toml"; "json"] ->
  forallb (fun kv => plain_value kv.2) (bib_settings c) = true -> en_files e = fs' -> quiet e AppBib ->
  resolve_BibConfig e (written_bib c) = Ok (written_bib c) ->
  LoadBib e path = Ok (written_bib c) /\ GetFavoriteNodes (written_bib c) = [].
Proof.
  intros Hw Hx Hp He Hq Hs. split; [|done].
  destruct (written_file_read e AppBib fs path (bib_settings c) fs' Hw Hx) as (config & Hr & Hc); [|done|done|].
  { apply (bool_decide_unpack _). vm_compute. done. }
  unfold LoadBib. rewrite Hr. rewrite (read_written_bib c); [rewrite Hs|].
  - change (Connection_FavoriteNodes (Bib_Connection (written_bib c))) with (@nil FavoriteNode). by rewrite andb_false_r.
  - apply viper_agrees; [done|done|]. vm_compute. reflexivity.
Qed.

(** What [SaveBib] saves is loaded again: the identity, the output and the connection
    with its nodes; a default node is filled in when there is none. *)
Theorem saved_bib_loads e fs path c fs' :
  SaveBib fs c path true Written = (fs', true) -> ext_type path ∈ ["yaml"; "toml"; "json"] ->
  forallb (fun kv => plain_value kv.2) (save_settings c) = true -> en_files e = fs' -> quiet e AppBib ->
  resolve_BibConfig e (saved_bib c) = Ok (saved_bib c) ->
  exists c', LoadBib e path = Ok c' /\ GetFavoriteNodes c' = GetFavoriteNodes c /\ Bib_Identity c' = Bib_Identity c /\ Bib_Output c' = Bib_Output c /\
    (Connection_DefaultNode (Bib_Connection c) <> "" -> c' = saved_bib c).
Proof.
  intros Hw Hx Hp He Hq Hs. unfold SaveBib in Hw. cbn [negb] in Hw.
  destruct (written_file_read e AppBib fs path (save_settings c) fs' Hw Hx) as (config & Hr & Hc); [|done|done|].
  { unfold save_settings. case_match; apply (bool_decide_unpack _); vm_compute; done. }
  unfold LoadBib. rewrite Hr. rewrite (read_saved_bib c); [rewrite Hs|].
  - assert (Hd : Connection_DefaultNode (Bib_Connection (saved_bib c)) = Connection_DefaultNode (Bib_Connection c)) by done.
    assert (Hi : Bib_Identity (saved_bib c) = Bib_Identity c) by (unfold saved_bib; by destruct c as [? [] ? ? ?]).
    assert (Ho : Bib_Output (saved_bib c) = Bib_Output c) by (unfold saved_bib; by destruct c as [? ? [] ? ?]).
    rewrite Hd. destruct (_ && _) eqn:Hb; eexists; (split; [reflexivity|]); repeat split; try done.
    intros Hne. rewrite bool_decide_eq_false_2 in Hb by done. done.
  - apply viper_agrees; [done|done|]. unfold save_settings. case_match; vm_compute; reflexivity.
Qed.

(** With no file the defaults that were set are loaded and no others: the SSH server,
    which is on by default, is off. *)
Theorem defaults_partly_loaded e :
  find_config e AppBibd = None -> quiet e AppBibd ->
  LoadBibd e "" = Ok (written_bibd (DefaultBibdConfig (en_goos e))) /\
  SSH_Enabled (Bibd_SSH (written_bibd (DefaultBibdConfig (en_goos e)))) = false /\
  SSH_Enabled (Bibd_SSH (DefaultBibdConfig (en_goos e))) = true.
Proof.
  intros Hf Hq. split; [|done]. unfold LoadBibd, ReadInConfig. rewrite bool_decide_eq_true_2 by done. rewrite Hf.
  rewrite (read_written_bibd (DefaultBibdConfig (en_goos e))) by (apply viper_agrees_defaults; done).
  assert (Hs : resolve_BibdConfig e (written_bibd (DefaultBibdConfig (en_goos e))) = Ok (written_bibd (DefaultBibdConfig (en_goos e)))); [|by rewrite Hs].
  unfold DefaultBibdConfig, getDefaultDataDir. destruct (en_goos e =?= "windows"); vm_compute; reflexivity.
Qed.

Lemma resolve_key e c r : resolve_BibConfig e c = Ok r ->
  resolveSecretValue e (Ident_Key (Bib_Identity c)) = Ok (Ident_Key (Bib_Identity r)).
Proof.
  intros Hr. unfold resolve_BibConfig in Hr.
  destruct (resolve_LogConfig e (Bib_Log c)) as [l|]; [|discriminate]. destruct (resolve_IdentityConfig e (Bib_Identity c)) as [i|] eqn:Hi; [|discriminate].
  destruct (resolve_OutputConfig e (Bib_Output c)) as [o|]; [|discriminate]. destruct (resolveSecretValue e (Bib_Locale c)) as [lo|]; [|discriminate].
  destruct (resolve_ConnectionConfig e (Bib_Connection c)) as [co|]; [|discriminate]. injection Hr as <-. cbn [Bib_Identity].
  unfold resolve_IdentityConfig in Hi. destruct (resolveSecretValue e (Ident_Name (Bib_Identity c))) as [n|]; [|discriminate].
  destruct (resolveSecretValue e (Ident_Email (Bib_Identity c))) as [m|]; [|discriminate].
  destruct (resolveSecretValue e (Ident_Key (Bib_Identity c))) as [k|]; [|discriminate]. by injection Hi as <-.
Qed.

(** A configuration that is loaded and saved again has its secrets in clear: the key
    that was a reference to a file is what the file held. *)
Theorem saved_again_in_clear e fs path c fs' c' secret data :
  SaveBib fs c path true Written = (fs', true) -> ext_type path ∈ ["yaml"; "toml"; "json"] ->
  forallb (fun kv => plain_value kv.2) (save_settings c) = true -> en_files e = fs' -> quiet e AppBib ->
  Ident_Key (Bib_Identity c) = "file://" ++ secret -> en_files e !! secret = Some data ->
  LoadBib e path = Ok c' ->
  alist_get (save_settings c') "identity.key" = Some (VString (TrimSpace (bytes_string data))).
Proof.
  intros Hw Hx Hp He Hq Hk Hd Hl. unfold SaveBib in Hw. cbn [negb] in Hw.
  destruct (written_file_read e AppBib fs path (save_settings c) fs' Hw Hx) as (config & Hr & Hc); [|done|done|].
  { unfold save_settings. case_match; apply (bool_decide_unpack _); vm_compute; done. }
  unfold LoadBib in Hl. rewrite Hr in Hl. rewrite (read_saved_bib c) in Hl
    by (apply viper_agrees; [done|done|]; unfold save_settings; case_match; vm_compute; reflexivity).
  destruct (resolve_BibConfig e (saved_bib c)) as [r|] eqn:Hres; [|discriminate]. apply resolve_key in Hres.
  change (Ident_Key (Bib_Identity (saved_bib c))) with (Ident_Key (Bib_Identity c)) in Hres. rewrite Hk in Hres.
  unfold resolveSecretValue in Hres. change (HasPrefix ("file://" ++ secret) secretPrefixEnv) with false in Hres.
  assert (Hpre : HasPrefix ("file://" ++ secret) secretPrefixFile = true) by (apply HasPrefix_spec; exists (bytes_of secret); by rewrite bytes_of_append).
  rewrite Hpre in Hres. cbv iota zeta in Hres. assert (Ht : strip_prefix ("file://" ++ secret) secretPrefixFile = secret).
  { unfold strip_prefix. rewrite Hpre, bytes_of_append, drop_app_length. apply str_bytes. }
  rewrite Ht, Hd in Hres. injection Hres as Hres. unfold save_settings. rewrite alist_get_app.
  assert (Hkey : forall x : BibConfig, alist_get (saved_settings x) "identity.key" = Some (VString (Ident_Key (Bib_Identity x)))) by (intros x; vm_compute; reflexivity).
  rewrite Hkey. rewrite Hres. case_match; injection Hl as <-; done.
Qed.

(** A system-wide file comes before that of the user and that of the working directory,
    and is the only one that is read. *)
Theorem system_file_wins e app ext :
  ext ∈ SupportedExts -> is_Some (en_files e !! path_of [path_of ["/etc"; app]; "config." ++ ext]) ->
  exists ext', (ext' ∈ SupportedExts) /\ find_config e app = Some (path_of [path_of ["/etc"; app]; "config." ++ ext']).
Proof.
  intros Hext [b Hb]. unfold find_config, configSearchPaths. rewrite map_cons, concat_cons, find_app, find_app.
  set (ps := map _ SupportedExts). match goal with |- context [List.find ?f ps] => set (there := f) end.
  destruct (List.find there ps) as [p|] eqn:Hf.
  - apply find_some in Hf as [Hin Hp]. apply in_map_iff in Hin as (ext' & <- & Hin). exists ext'. split; [by apply list_elem_of_In|done].
  - exfalso. rewrite find_None in Hf. specialize (Hf (path_of [path_of ["/etc"; app]; "config." ++ ext])).
    unfold there in Hf. rewrite Hb in Hf. assert (true = false) by (apply Hf, list_elem_of_In, in_map_iff; exists ext; split; [done|by apply list_elem_of_In]).
    discriminate.
Qed.

(** The file that is generated for the client has no settings at all. *)
Theorem generated_bib_is_empty e format mkdir o fs path :
  GenerateConfig e AppBib format mkdir o = (fs, (path, None)) ->
  exists b, encode_settings (if Ext path <>? "" then ext_type path else format) [] = Some b /\ fs = <[path := b]> (en_files e).
Proof.
  unfold GenerateConfig. intros Hg. destruct (negb (isValidFormat format)); [discriminate|].
  destruct (UserConfigDir e AppBib) as [dir|]; [|discriminate]. destruct (negb mkdir); [discriminate|].
  destruct (en_files e !! _); [discriminate|]. cbn [generated_config NewViperFromConfig] in Hg.
  change (generated_config (en_goos e) AppBib) with (Some CfgOther) in Hg. cbv iota in Hg. unfold WriteConfigAs in Hg. cbn [NewViperFromConfig] in Hg.
  set (p := path_of _) in *. destruct (negb (mem _ _)); [discriminate|].
  destruct (encode_settings _ []) as [b|] eqn:Hb; [|discriminate]. unfold WriteFile in Hg. destruct o as [|[d|]]; try discriminate.
  injection Hg as <- <-. exists b. done.
Qed.
End round_trips.

(** ** Witnesses

    A library whose files are one number. *)
Abbreviation float_code := (bool + (bool + (unit + (bool * (positive * Z)))))%type (only parsing).
Definition code_of_float (f : float64) : float_code :=
  match f with
  | S754_zero s => inl s | S754_infinity s => inr (inl s) | S754_nan => inr (inr (inl tt)) | S754_finite s m e => inr (inr (inr (s, (m, e))))
  end.
Definition float_of_code (c : float_code) : float64 :=
  match c with
  | inl s => S754_zero s | inr (inl s) => S754_infinity s | inr (inr (inl _)) => S754_nan | inr (inr (inr (s, (m, e)))) => S754_finite s m e
  end.
Abbreviation node_code := (string * string * Z * string * string * bool * string)%type (only parsing).
Definition code_of_node (n : FavoriteNode) : node_code :=
  (FN_ID n, FN_Alias n, FN_Priority n, FN_Address n, FN_UnixSocket n, FN_Default n, FN_DiscoveryMethod n).
Definition node_of_code (c : node_code) : FavoriteNode := let '(i, a, p, ad, u, d, m) := c in mkFavoriteNode i a p ad u d m.
Abbreviation value_text := (string + (bool + (Z + (float_code + (Z + (list string + (list node_code + list (string * string * string))))))))%type (only parsing).
Definition code_of_value (v : Value) : value_text :=
  match v with
  | VString s => inl s | VBool b => inr (inl b) | VInt n => inr (inr (inl n)) | VFloat f => inr (inr (inr (inl (code_of_float f))))
  | VDuration d => inr (inr (inr (inr (inl d)))) | VStrings l => inr (inr (inr (inr (inr (inl l)))))
  | VNodes l => inr (inr (inr (inr (inr (inr (inl (map code_of_node l)))))))
  | VUsers l => inr (inr (inr (inr (inr (inr (inr (map (fun u => (BGU_Name u, BGU_PublicKey u, BGU_AccessLevel u)) l)))))))
  end.
Definition value_of_code (c : value_text) : Value :=
  match c with
  | inl s => VString s | inr (inl b) => VBool b | inr (inr (inl n)) => VInt n | inr (inr (inr (inl f))) => VFloat (float_of_code f)
  | inr (inr (inr (inr (inl d)))) => VDuration d | inr (inr (inr (inr (inr (inl l))))) => VStrings l
  | inr (inr (inr (inr (inr (inr (inl l)))))) => VNodes (map node_of_code l)
  | inr (inr (inr (inr (inr (inr (inr l)))))) => VUsers (map (fun '(n, k, a) => mkBreakGlassUser n k a) l)
  end.
Lemma value_code_round v : value_of_code (code_of_value v) = v.
Proof.
  destruct v as [| | |f| | |l|l]; try done; cbn.
  - by destruct f.
  - f_equal. induction l as [|[] l IH]; [done|]. cbn in *. by rewrite IH.
  - f_equal. induction l as [|[] l IH]; [done|]. cbn in *. by rewrite IH.
Qed.

Definition number_encode (_ : string) (m : Settings) : option (list Z) :=
  Some [Zpos (encode (map (fun kv => (kv.1, code_of_value kv.2)) m))].
Definition number_decode (_ : string) (b : list Z) : option Settings :=
  match b with
  | [Zpos p] => map (fun kv => (kv.1, value_of_code kv.2)) <$> decode (A := list (string * value_text)) p
  | _ => None
  end.
#[refine] Instance number_viper : ViperLib := {|
  to_string v := match v with VString s => Some s | _ => None end;
  to_bool v := match v with VBool b => Some b | _ => None end;
  to_int v := match v with VInt n => Some n | _ => None end;
  to_float v := match v with VFloat f => Some f | _ => None end;
  to_duration v := match v with VDuration d => Some d | _ => None end;
  to_strings v := match v with VStrings l => Some l | _ => None end;
  to_nodes v := match v with VNodes l => Some l | _ => None end;
  to_users v := match v with VUsers l => Some l | _ => None end;
  encode_settings := number_encode;
  decode_settings := number_decode
|}.
Proof.
  - by intros [].
  - intros format m b _ _ _ [= <-]. exists m. split.
    + unfold number_decode. rewrite decode_encode. cbn [fmap option_fmap option_map]. f_equal. rewrite map_map.
      induction m as [|[k v] m IH]; [done|]. cbn [map fst snd]. rewrite value_code_round. f_equal. exact IH.
    + intros key. destruct (alist_get m key) as [v|]; [|done]. exists v. split; [done|by destruct v].
Defined.
#[local] Instance plain_tables : UnicodeTables := identity_tables.

Definition config_path : string := "/home/a/.config/bib/config.yaml".
Definition quiet_env (fs : Files) : Environment := mkEnvironment (fun _ => "") (Some "/home/a") None "linux" fs.
Definition sample_nodes : list FavoriteNode := [mkFavoriteNode "" "lab" 0 "10.0.0.5:4000" "" true "manual"; mkFavoriteNode "" "hall" 1 "10.0.0.6:4000" "" false "mdns"].
Definition sample_bib (key : string) : BibConfig :=
  mkBibConfig (Bib_Log DefaultBibConfig) (mkIdentityConfig "ann" "a@b.c" key) (mkOutputConfig "json" true) "en"
    (mkConnectionConfig "10.0.0.5:4000" sample_nodes true "sequential" true "10s" 3 0 zero_ConnectionTLSConfig).
Definition saved_files (key : string) : Files := (SaveBib {["/run/key" := string_bytes " k1 "]} (sample_bib key) config_path true Written).1.
Definition written_files : Files := (WriteConfigAs ∅ config_path "yaml" (NewViperFromConfig (CfgBib (sample_bib "/k"))) Written).1.
Definition written_daemon_files : Files := (WriteConfigAs ∅ config_path "yaml" (NewViperFromConfig (CfgBibd (DefaultBibdConfig "linux"))) Written).1.

Lemma yaml_path : ext_type config_path ∈ ["yaml"; "toml"; "json"].
Proof. vm_compute. set_solver. Qed.

Lemma written_bibd_loads_witness :
  LoadBibd (quiet_env written_daemon_files) config_path = Ok (written_bibd (DefaultBibdConfig "linux")).
Proof.
  apply (written_bibd_loads (quiet_env written_daemon_files) ∅ config_path (DefaultBibdConfig "linux") written_daemon_files).
  - reflexivity.
  - apply yaml_path.
  - vm_compute. reflexivity.
  - reflexivity.
  - intros key. reflexivity.
  - vm_compute. reflexivity.
Defined.

Lemma written_bib_loads_witness : exists c, LoadBib (quiet_env written_files) config_path = Ok c /\ GetFavoriteNodes c = [].
Proof.
  exists (written_bib (sample_bib "/k")). apply (written_bib_loads (quiet_env written_files) ∅ config_path (sample_bib "/k") written_files).
  - reflexivity.
  - apply yaml_path.
  - vm_compute. reflexivity.
  - reflexivity.
  - intros key. reflexivity.
  - vm_compute. reflexivity.
Defined.

Lemma saved_bib_loads_witness :
  exists c, LoadBib (quiet_env (saved_files "/k")) config_path = Ok c /\ GetFavoriteNodes c = sample_nodes.
Proof.
  destruct (saved_bib_loads (quiet_env (saved_files "/k")) {["/run/key" := string_bytes " k1 "]} config_path (sample_bib "/k") (saved_files "/k")) as (c & Hl & Hn & _).
  - reflexivity.
  - apply yaml_path.
  - vm_compute. reflexivity.
  - reflexivity.
  - intros key. reflexivity.
  - vm_compute. reflexivity.
  - exists c. split; [exact Hl|exact Hn].
Defined.

Lemma defaults_partly_loaded_witness : LoadBibd (quiet_env ∅) "" = Ok (written_bibd (DefaultBibdConfig "linux")).
Proof. apply (defaults_partly_loaded (quiet_env ∅)); [vm_compute; reflexivity|intros key; reflexivity]. Defined.

Definition clear_files : Files := saved_files "file:///run/key".
Lemma saved_again_in_clear_witness :
  exists c, LoadBib (quiet_env clear_files) config_path = Ok c /\ alist_get (save_settings c) "identity.key" = Some (VString "k1").
Proof.
  destruct (LoadBib (quiet_env clear_files) config_path) as [c|] eqn:Hl; [|vm_compute in Hl; discriminate].
  exists c. split; [reflexivity|].
  rewrite (saved_again_in_clear (quiet_env clear_files) {["/run/key" := string_bytes " k1 "]} config_path (sample_bib "file:///run/key") clear_files c "/run/key" (string_bytes " k1 ")).
  - vm_compute. reflexivity.
  - apply injective_projections; [reflexivity|vm_compute; reflexivity].
  - apply yaml_path.
  - vm_compute. reflexivity.
  - reflexivity.
  - intros key. reflexivity.
  - reflexivity.
  - vm_compute. reflexivity.
  - exact Hl.
Defined.

Definition two_files : Environment := quiet_env {["/etc/bib/config.yaml" := [1]; "/home/a/.config/bib/config.json" := [2]]}.
Lemma system_file_wins_witness : exists ext, (ext ∈ SupportedExts) /\ find_config two_files AppBib = Some (path_of [path_of ["/etc"; AppBib]; "config." ++ ext]).
Proof. apply (system_file_wins two_files AppBib "yaml"); [vm_compute; set_solver|vm_compute; by eexists]. Defined.

Definition generated_files : Files := Eval vm_compute in (GenerateConfig (quiet_env ∅) AppBib "yaml" true Written).1.
Lemma generated_bib_is_empty_witness : exists b, number_encode "yaml" [] = Some b /\ generated_files = <[config_path := b]> ∅.
Proof.
  destruct (generated_bib_is_empty (quiet_env ∅) "yaml" true Written generated_files config_path) as (b & Hb & Hfs);
    [vm_compute; reflexivity|exists b; split; [exact Hb|exact Hfs]].
Defined.

(** A reference to a secret that is not set is an error. *)
Example unset_secret : resolveSecretValue (quiet_env ∅) "env://TOKEN" = Err (SecretEnv "TOKEN").
Proof. reflexivity. Qed.
