(* ===== verification/SetupState.v ===== *)
(** * What an interrupted setup leaves behind ([internal/setup/partial], [internal/setup/recovery])

    The record of a setup that was not finished, with its steps and its data; the files
    it is kept in; retries and the errors of a setup; and the handler of interrupts with
    its goroutine as a step relation.

    A value of the data is one the program stored or one that came out of JSON, where
    every number is a [float64].  JSON is the class [PartialJSON].  Files are keyed by
    their paths; which of them can be read or removed, and what a write does, are
    arguments. *)
From stdpp Require Import base gmap strings list pretty.
From Stdlib Require Import ZArith Lia Ascii SpecFloat.
From S2P Require Import Prelude GoStrings GoTime GoFloat Domain.
Local Open Scope string_scope.
Local Open Scope Z_scope.
Local Open Scope bool_scope.

(** ** Steps *)

Definition StepIdentity : string := "identity".
Definition StepNetwork : string := "network".
Definition StepStorage : string := "storage".
Definition StepDatabase : string := "database".
Definition StepDeployment : string := "deployment".
Definition StepService : string := "service".
Definition StepNodes : string := "nodes".
Definition StepConfig : string := "config".
Definition StepComplete : string := "complete".

Definition AllSteps : list string :=
  [StepIdentity; StepNetwork; StepStorage; StepDatabase; StepDeployment; StepService; StepNodes; StepConfig; StepComplete].

Definition StepDescription (step : string) : string :=
  if step =?= StepIdentity then "Identity (name, email, key)"
  else if step =?= StepNetwork then "Network (public/private)"
  else if step =?= StepStorage then "Storage (SQLite/PostgreSQL)"
  else if step =?= StepDatabase then "Database configuration"
  else if step =?= StepDeployment then "Deployment target"
  else if step =?= StepService then "Service installation"
  else if step =?= StepNodes then "Node selection"
  else if step =?= StepConfig then "Configuration saving"
  else if step =?= StepComplete then "Setup complete"
  else step.

(** ** The partial configuration *)

Inductive DataValue : Type :=
| DInt (n : Z)
| DAny (v : GoAny).

(** [Data] is [None] for the nil map, which a file can bring about. *)
Record PartialConfig := mkPartialConfig {
  PC_Version : Z;
  PC_SetupType : string;
  PC_DeployTarget : string;
  PC_CurrentStep : string;
  PC_CompletedSteps : list string;
  PC_Data : option (gmap string DataValue);
  PC_StartedAt : Time;
  PC_UpdatedAt : Time;
  PC_Error : string
}.

Definition NewPartialConfig (setupType : string) (now now' : Time) : PartialConfig :=
  mkPartialConfig 1 setupType "" "" [] (Some ∅) now now' "".

Definition IsStepCompleted (p : PartialConfig) (step : string) : bool := mem step (PC_CompletedSteps p).

Definition CompleteStep (p : PartialConfig) (step : string) (now : Time) : PartialConfig :=
  if mem step (PC_CompletedSteps p) then p
  else mkPartialConfig (PC_Version p) (PC_SetupType p) (PC_DeployTarget p) step (PC_CompletedSteps p ++ [step])
         (PC_Data p) (PC_StartedAt p) now (PC_Error p).

Definition GetNextStep (p : PartialConfig) : string :=
  default StepComplete (List.find (fun step => negb (IsStepCompleted p step)) AllSteps).

Definition with_data (p : PartialConfig) (data : option (gmap string DataValue)) (now : Time) : PartialConfig :=
  mkPartialConfig (PC_Version p) (PC_SetupType p) (PC_DeployTarget p) (PC_CurrentStep p) (PC_CompletedSteps p)
    data (PC_StartedAt p) now (PC_Error p).
Definition with_step (p : PartialConfig) (step : string) : PartialConfig :=
  mkPartialConfig (PC_Version p) (PC_SetupType p) (PC_DeployTarget p) step (PC_CompletedSteps p)
    (PC_Data p) (PC_StartedAt p) (PC_UpdatedAt p) (PC_Error p).

(** [None]: a write to a nil map panics. *)
Definition SetData (p : PartialConfig) (key : string) (value : DataValue) (now : Time) : option PartialConfig :=
  match PC_Data p with
  | None => None
  | Some data => Some (with_data p (Some (<[key := value]> data)) now)
  end.

Definition GetData (p : PartialConfig) (key : string) : option DataValue :=
  match PC_Data p with Some data => data !! key | None => None end.

Definition GetString (p : PartialConfig) (key : string) : string :=
  match GetData p key with Some (DAny (AnyString s)) => s | _ => "" end.

Definition GetBool (p : PartialConfig) (key : string) : bool :=
  match GetData p key with Some (DAny (AnyBool b)) => b | _ => false end.

Definition GetInt (out_of_range : float64 -> Z) (p : PartialConfig) (key : string) : Z :=
  match GetData p key with
  | Some (DInt n) => n
  | Some (DAny (AnyFloat f)) => float_to_int64 out_of_range f
  | _ => 0
  end.

Definition SetError (p : PartialConfig) (err : option string) (now : Time) : PartialConfig :=
  mkPartialConfig (PC_Version p) (PC_SetupType p) (PC_DeployTarget p) (PC_CurrentStep p) (PC_CompletedSteps p)
    (PC_Data p) (PC_StartedAt p) now (match err with Some text => text | None => "" end).

(** ** Files *)

(** A value as JSON gives it back. *)
Definition as_read (v : DataValue) : DataValue :=
  match v with DInt n => DAny (AnyFloat (float_of_int n)) | DAny v => DAny v end.
Definition config_as_read (p : PartialConfig) : PartialConfig :=
  with_data p (fmap (M := gmap string) as_read <$> PC_Data p) (PC_UpdatedAt p).

(** Text that JSON gives back as it was: ASCII here, though all valid UTF-8 is. *)
Definition json_scalar (v : DataValue) : bool :=
  match v with DInt _ | DAny (AnyBool _) => true | DAny (AnyString s) => is_ascii s | DAny _ => false end.
Definition json_config (p : PartialConfig) : bool :=
  is_ascii (PC_SetupType p) && is_ascii (PC_DeployTarget p) && is_ascii (PC_CurrentStep p) &&
  forallb is_ascii (PC_CompletedSteps p) && is_ascii (PC_Error p) && json_time (PC_StartedAt p) && json_time (PC_UpdatedAt p) &&
  match PC_Data p with
  | Some data => forallb (fun kv => is_ascii kv.1 && json_scalar kv.2) (map_to_list data)
  | None => true
  end.

(** [json.MarshalIndent] and [json.Unmarshal]. *)
Class PartialJSON := {
  partial_text : PartialConfig -> option (list Z);
  partial_value : list Z -> option PartialConfig;
  partial_round p : json_config p = true -> exists b, partial_text p = Some b /\ partial_value b = Some (config_as_read p)
}.

Section manager.
Context `{PartialJSON}.

Definition GetPartialPath (dir setupType : string) : string :=
  str_of (path_Join [bytes_of dir; bytes_of (setupType ++ ".partial.json")]).

Definition HasPartial (dir : string) (fs : Files) (setupType : string) : bool :=
  match fs !! GetPartialPath dir setupType with Some _ => true | None => false end.

Inductive PartialError := PERead | PEParse | PEMkdir | PEMarshal | PEWrite | PEDelete | PEReadDir.

Definition Manager_Load (dir : string) (readable : bool) (fs : Files) (setupType : string) : result PartialError (option PartialConfig) :=
  match fs !! GetPartialPath dir setupType with
  | None => Ok None
  | Some data =>
      if negb readable then Err PERead
      else match partial_value data with None => Err PEParse | Some config => Ok (Some config) end
  end.

Definition Manager_Save (dir : string) (mkdir : bool) (o : WriteOutcome) (fs : Files) (config : PartialConfig) : Files * option PartialError :=
  if negb mkdir then (fs, Some PEMkdir)
  else
    let path := GetPartialPath dir (PC_SetupType config) in
    match partial_text config with
    | None => (fs, Some PEMarshal)
    | Some data => let '(fs, ok) := WriteFile fs path data o in (fs, if ok then None else Some PEWrite)
    end.

Definition Manager_Delete (dir : string) (removable : bool) (fs : Files) (setupType : string) : Files * option PartialError :=
  let path := GetPartialPath dir setupType in
  match fs !! path with
  | None => (fs, None)
  | Some _ => if removable then (delete path fs, None) else (fs, Some PEDelete)
  end.

Definition isPartialFile (name : string) : bool :=
  (13 <? Z.of_nat (length (bytes_of name))) && (drop (length (bytes_of name) - 13) (bytes_of name) =?= bytes_of ".partial.json").

(** What [os.ReadDir] gives: the names in the directory in their order, and which are
    directories; [None] when it is not there. *)
Definition Manager_List (dir : string) (entries : result unit (option (list (string * bool)))) (readable : string -> bool) (fs : Files)
    : result PartialError (list PartialConfig) :=
  match entries with
  | Err _ => Err PEReadDir
  | Ok None => Ok []
  | Ok (Some entries) =>
      Ok (omap (fun entry : string * bool =>
            if entry.2 then None
            else if negb (isPartialFile entry.1) then None
            else
              let path := str_of (path_Join [bytes_of dir; bytes_of entry.1]) in
              match fs !! path with
              | Some data => if readable path then partial_value data else None
              | None => None
              end) entries)
  end.
End manager.

(** [time.Duration.Round(time.Minute)]: halves away from zero; the limits of [int64] are
    far from the age of a setup. *)
Definition Round_minute (d : Z) : Z :=
  let r := Z.rem d Minute in
  if d <? 0 then (if - r + - r <? Minute then d - r else d - r - Minute)
  else (if r + r <? Minute then d - r else d - r + Minute).

Definition newline_text : string := String (ascii_of_N 10) "".

Definition FormatPartialSummary (config : option PartialConfig) (now : Time) : string :=
  match config with
  | None => "No partial config"
  | Some config =>
      let elapsed := Round_minute (Sub now (PC_StartedAt config)) in
      let summary := "Type: " ++ PC_SetupType config ++ newline_text in
      let summary := if PC_DeployTarget config <>? "" then summary ++ "Target: " ++ PC_DeployTarget config ++ newline_text else summary in
      let summary := summary ++ "Started: " ++ Duration_String elapsed ++ " ago" ++ newline_text in
      let summary := summary ++ "Progress: " ++ pretty (Z.of_nat (length (PC_CompletedSteps config))) ++ "/"
                       ++ pretty (Z.of_nat (length AllSteps) - 1) ++ " steps" ++ newline_text in
      let summary := summary ++ "Last Step: " ++ StepDescription (PC_CurrentStep config) ++ newline_text in
      if PC_Error config <>? "" then summary ++ "Error: " ++ PC_Error config ++ newline_text else summary
  end.

Definition ResumeOptionContinue : string := "continue".
Definition ResumeOptionRestart : string := "restart".
Definition ResumeOptionCancel : string := "cancel".

(** ** Errors of a setup ([recovery.go]) *)

Inductive ErrorAction := ErrorActionRetry | ErrorActionReconfigure | ErrorActionSkip | ErrorActionAbort.

Record ErrorHandler := mkErrorHandler {
  EH_OnError : option (string -> string -> ErrorAction);
  EH_MaxRetries : Z;
  EH_retryCount : gmap string Z
}.
Definition NewErrorHandler : ErrorHandler := mkErrorHandler None 3 ∅.

Definition GetRetryCount (h : ErrorHandler) (step : string) : Z := default 0 (EH_retryCount h !! step).

Definition HandleError (h : ErrorHandler) (step err : string) : ErrorHandler * ErrorAction :=
  match EH_OnError h with
  | Some f => (h, f step err)
  | None =>
      let n := i64 (GetRetryCount h step + 1) in
      let h := mkErrorHandler (EH_OnError h) (EH_MaxRetries h) (<[step := n]> (EH_retryCount h)) in
      (h, if n <=? EH_MaxRetries h then ErrorActionRetry else ErrorActionAbort)
  end.

Definition ResetRetries (h : ErrorHandler) (step : string) : ErrorHandler :=
  mkErrorHandler (EH_OnError h) (EH_MaxRetries h) (delete step (EH_retryCount h)).

Record SetupError := mkSetupError {
  SErr_Step : string;
  SErr_Message : string;
  SErr_Cause : option string;
  SErr_Recoverable : bool;
  SErr_Suggestions : list string
}.

Definition SetupError_Error (e : SetupError) : string :=
  match SErr_Cause e with
  | Some cause => SErr_Step e ++ ": " ++ SErr_Message e ++ ": " ++ cause
  | None => SErr_Step e ++ ": " ++ SErr_Message e
  end.
Definition SetupError_Unwrap (e : SetupError) : option string := SErr_Cause e.

Definition NewSetupError (step message : string) (cause : option string) : SetupError := mkSetupError step message cause true [].
Definition WithRecoverable (e : SetupError) (recoverable : bool) : SetupError :=
  mkSetupError (SErr_Step e) (SErr_Message e) (SErr_Cause e) recoverable (SErr_Suggestions e).
Definition WithSuggestions (e : SetupError) (suggestions : list string) : SetupError :=
  mkSetupError (SErr_Step e) (SErr_Message e) (SErr_Cause e) (SErr_Recoverable e) (SErr_Suggestions e ++ suggestions).

Definition FormatSetupError (err : SetupError) : string :=
  let line s := s ++ newline_text in
  let text := line ("❌ Error in " ++ SErr_Step err ++ " step:") ++ line ("   " ++ SErr_Message err) in
  let text := match SErr_Cause err with Some cause => text ++ line ("   Cause: " ++ cause) | None => text end in
  let text :=
    if (0 <? Z.of_nat (length (SErr_Suggestions err))) then
      fold_left (fun text s => text ++ line ("   • " ++ s)) (SErr_Suggestions err)
        (text ++ newline_text ++ line "   Suggestions:")
    else text in
  if SErr_Recoverable err then
    text ++ newline_text ++ line "   This error may be recoverable. You can:" ++ line "   • Retry the step"
      ++ line "   • Skip this step" ++ line "   • Reconfigure settings"
  else text.

(** The common errors. *)
Definition NetworkUnavailable : SetupError :=
  WithSuggestions (NewSetupError "network" "Network is unavailable" None)
    ["Check your internet connection"; "Try again later"; "Use private network mode"].
Definition DatabaseConnection (err : option string) : SetupError :=
  WithSuggestions (NewSetupError "database" "Failed to connect to database" err)
    ["Verify database is running"; "Check connection settings"; "Ensure database user has correct permissions"].
Definition DockerNotRunning : SetupError :=
  WithSuggestions (WithRecoverable (NewSetupError "deployment" "Docker is not running" None) true)
    ["Start Docker Desktop or docker daemon"; "Run: sudo systemctl start docker"; "Choose a different deployment target"].
Definition KubectlNotFound : SetupError :=
  WithSuggestions (NewSetupError "deployment" "kubectl not found" None)
    ["Install kubectl: https://kubernetes.io/docs/tasks/tools/"; "Ensure kubectl is in your PATH"; "Choose a different deployment target"].
Definition PermissionDenied (path : string) : SetupError :=
  WithSuggestions (NewSetupError "filesystem" ("Permission denied: " ++ path) None)
    ["Run with elevated privileges (sudo)"; "Check file/directory permissions"; "Choose a different output directory"].
Definition ConfigExists (path : string) : SetupError :=
  WithSuggestions (WithRecoverable (NewSetupError "config" ("Configuration already exists: " ++ path) None) true)
    ["Use --fresh to start fresh"; "Back up and delete existing config"; "Use --reconfigure to modify existing config"].
Definition InvalidConfiguration (field reason : string) : SetupError :=
  WithSuggestions (NewSetupError "config" ("Invalid " ++ field ++ ": " ++ reason) None)
    ["Check the configuration value"; "Reconfigure this setting"].
Definition SQLiteWithFullMode : SetupError :=
  WithSuggestions (WithRecoverable (NewSetupError "storage" "SQLite is not supported with full replication mode" None) true)
    ["Switch to PostgreSQL for full replication"; "Use proxy or selective mode with SQLite"].
Definition ServiceInstallFailed (err : option string) : SetupError :=
  WithSuggestions (NewSetupError "service" "Failed to install service" err)
    ["Run with administrator/root privileges"; "Skip service installation and run manually"; "Check system logs for details"].
Definition ConnectionFailed (address : string) (err : option string) : SetupError :=
  WithSuggestions (NewSetupError "connection" ("Failed to connect to " ++ address) err)
    ["Verify the address is correct"; "Check that the node is running"; "Check firewall settings"].

(** ** Interrupts ([InterruptHandler]) *)

(** The goroutine: not started, waiting for a signal, in the callback, or ended. *)
Inductive loop_state := NotStarted | Waiting | Asking | Ended.

(** [IH_queue] is the number of signals in the channel, whose capacity is one; [IH_notify]
    tells whether the runtime delivers signals to it. *)
Record InterruptHandler := mkInterruptHandler {
  IH_OnInterrupt : bool;
  IH_cancelled : bool;
  IH_interrupted : bool;
  IH_queue : nat;
  IH_notify : bool;
  IH_closed : bool;
  IH_loop : loop_state
}.
Definition NewInterruptHandler (callback : bool) : InterruptHandler := mkInterruptHandler callback false false 0 false false NotStarted.

Definition IsInterrupted (h : InterruptHandler) : bool := IH_interrupted h.
(** The channel [done] is closed when the goroutine ends. *)
Definition is_done (h : InterruptHandler) : bool := match IH_loop h with Ended => true | _ => false end.

Inductive handler_step : InterruptHandler -> InterruptHandler -> Prop :=
| StartLoop cb c i q n cl :
    handler_step (mkInterruptHandler cb c i q n cl NotStarted) (mkInterruptHandler cb c i q true cl Waiting)
| SignalArrives cb c i q l :
    handler_step (mkInterruptHandler cb c i q true false l) (mkInterruptHandler cb c i 1 true false l)
| TakeSignal cb c i q n cl :
    handler_step (mkInterruptHandler cb c i (S q) n cl Waiting)
      (if cb then mkInterruptHandler cb c true q n cl Asking else mkInterruptHandler cb true true q n cl Ended)
| CallbackAnswers cb c i q n cl (exit : bool) :
    handler_step (mkInterruptHandler cb c i q n cl Asking)
      (if exit then mkInterruptHandler cb true i q n cl Ended else mkInterruptHandler cb c i q n cl Waiting)
| SeesClosed cb c i n :
    handler_step (mkInterruptHandler cb c i 0 n true Waiting) (mkInterruptHandler cb c i 0 n true Ended)
| SeesCancelled cb i q n cl :
    handler_step (mkInterruptHandler cb true i q n cl Waiting) (mkInterruptHandler cb true i q n cl Ended)
| StopBegins cb c i q n l :
    handler_step (mkInterruptHandler cb c i q n false l) (mkInterruptHandler cb true i q false true l)
| CancelCalled cb c i q n cl l :
    handler_step (mkInterruptHandler cb c i q n cl l) (mkInterruptHandler cb true i q n cl l).

(** The steps of the goroutine itself. *)
Inductive loop_step : InterruptHandler -> InterruptHandler -> Prop :=
| loop_take cb c i q n cl :
    loop_step (mkInterruptHandler cb c i (S q) n cl Waiting)
      (if cb then mkInterruptHandler cb c true q n cl Asking else mkInterruptHandler cb true true q n cl Ended)
| loop_answer cb c i q n cl (exit : bool) :
    loop_step (mkInterruptHandler cb c i q n cl Asking)
      (if exit then mkInterruptHandler cb true i q n cl Ended else mkInterruptHandler cb c i q n cl Waiting)
| loop_closed cb c i n :
    loop_step (mkInterruptHandler cb c i 0 n true Waiting) (mkInterruptHandler cb c i 0 n true Ended)
| loop_cancelled cb i q n cl :
    loop_step (mkInterruptHandler cb true i q n cl Waiting) (mkInterruptHandler cb true i q n cl Ended).

(** ** Theorems *)

(** *** Steps *)

Definition missing (p : PartialConfig) : nat := length (List.filter (fun s => negb (IsStepCompleted p s)) AllSteps).

Lemma completed_after p step now s :
  IsStepCompleted (CompleteStep p step now) s = IsStepCompleted p s || (s =?= step).
Proof.
  unfold IsStepCompleted, CompleteStep. apply eq_true_iff_eq. rewrite orb_true_iff, bool_decide_eq_true.
  destruct (mem step (PC_CompletedSteps p)) eqn:Hm; cbn; rewrite !mem_true.
  - apply mem_true in Hm. split; [by left|]. by intros [?| ->].
  - rewrite elem_of_app, list_elem_of_singleton. done.
Qed.

Lemma filter_fewer {A} (p q : A -> bool) l : (forall x, q x = true -> p x = true) -> (length (List.filter q l) <= length (List.filter p l))%nat.
Proof.
  intros Hqp. induction l as [|x l IH]; [done|]. cbn. destruct (q x) eqn:Hq; [rewrite (Hqp x Hq); cbn; lia|].
  destruct (p x); cbn; lia.
Qed.
Lemma filter_length_lt {A} (p q : A -> bool) l x : (forall x, q x = true -> p x = true) -> x ∈ l -> p x = true -> q x = false ->
  (length (List.filter q l) < length (List.filter p l))%nat.
Proof.
  intros Hqp Hin Hp Hq. induction l as [|y l IH]; [by apply elem_of_nil in Hin|]. cbn.
  pose proof (filter_fewer p q l Hqp). apply elem_of_cons in Hin as [<-|Hin]; [rewrite Hp, Hq; cbn; lia|].
  specialize (IH Hin). destruct (q y) eqn:Hqy; [rewrite (Hqp y Hqy); cbn; lia|]. destruct (p y); cbn; lia.
Qed.

(** Completing the next step leaves fewer steps missing. *)
Lemma next_step_progress p now : missing p <> 0%nat -> (missing (CompleteStep p (GetNextStep p) now) < missing p)%nat.
Proof.
  intros Hm. unfold GetNextStep. destruct (List.find _ AllSteps) as [s|] eqn:Hf.
  - apply find_some in Hf as [Hin Hs]. cbn [default]. apply (filter_length_lt _ _ _ s); [|by apply list_elem_of_In|done|].
    + intros x. rewrite completed_after, negb_orb. by intros [? _]%andb_true_iff.
    + rewrite completed_after. rewrite (bool_decide_eq_true_2 (s = s)) by done. by rewrite orb_true_r.
  - destruct Hm. unfold missing. rewrite filter_none; [done|]. by apply find_None.
Qed.

(** [n] times: the next step is completed. *)
Fixpoint complete_next (n : nat) (p : PartialConfig) (now : Time) : PartialConfig :=
  match n with O => p | S n' => complete_next n' (CompleteStep p (GetNextStep p) now) now end.

Lemma complete_next_missing n p now : (missing (complete_next n p now) <= missing p - n)%nat.
Proof.
  revert p. induction n as [|n IH]; intros p; cbn [complete_next]; [lia|]. specialize (IH (CompleteStep p (GetNextStep p) now)).
  destruct (decide (missing p = 0%nat)) as [H0|H0].
  - assert (missing (CompleteStep p (GetNextStep p) now) <= missing p)%nat; [|lia].
    apply filter_fewer. intros x. rewrite completed_after, negb_orb. by intros [? _]%andb_true_iff.
  - pose proof (next_step_progress p now H0). lia.
Qed.

Lemma none_missing q : missing q = 0%nat -> forallb (IsStepCompleted q) AllSteps = true /\ GetNextStep q = StepComplete.
Proof.
  intros Hm. assert (Hall : forall s, s ∈ AllSteps -> IsStepCompleted q s = true).
  { intros s Hs. destruct (IsStepCompleted q s) eqn:Hc; [done|]. exfalso.
    apply nil_length_inv in Hm. assert (Hin : s ∈ ([] : list string)); [|by apply elem_of_nil in Hin].
    rewrite <- Hm. apply list_elem_of_In, filter_In. split; [by apply list_elem_of_In|by rewrite Hc]. }
  split; [apply forallb_forall; intros s Hs; by apply Hall, list_elem_of_In|].
  unfold GetNextStep. rewrite (proj2 (find_None _ _)); [done|]. intros s Hs. by rewrite Hall.
Qed.

(** Whatever steps a setup has completed, completing the next one at most nine times
    completes them all, and then the next step is the last. *)
Theorem setup_completes p now n : (length AllSteps <= n)%nat ->
  forallb (IsStepCompleted (complete_next n p now)) AllSteps = true /\ GetNextStep (complete_next n p now) = StepComplete.
Proof.
  intros Hn. apply none_missing. pose proof (complete_next_missing n p now).
  pose proof (List.filter_length_le (fun s => negb (IsStepCompleted p s)) AllSteps) as Hle. fold (missing p) in Hle. lia.
Qed.

(** *** Files *)

(** [p] holds of the [2 ^ k] numbers from [lo] on. *)
Fixpoint holds_below (k : nat) (p : Z -> bool) (lo : Z) : bool :=
  match k with O => p lo | S k' => holds_below k' p lo && holds_below k' p (lo + 2 ^ Z.of_nat k') end.
Lemma holds_below_spec k p lo : holds_below k p lo = true -> forall n, lo <= n < lo + 2 ^ Z.of_nat k -> p n = true.
Proof.
  revert lo. induction k as [|k IH]; intros lo Hk n Hn; cbn [holds_below] in Hk.
  - cbn in Hn. by replace n with lo by lia.
  - apply andb_true_iff in Hk as [H1 H2]. rewrite Nat2Z.inj_succ, Z.pow_succ_r in Hn by lia.
    destruct (Z.lt_ge_cases n (lo + 2 ^ Z.of_nat k)); [apply (IH lo); [done|lia]|apply (IH _ H2); lia].
Qed.

Lemma port_read_back n oor : 0 <= n < 65536 -> float_to_int64 oor (float_of_int n) = n.
Proof.
  intros Hn. unfold float_to_int64.
  assert (H : holds_below 16 (fun n => bool_decide (trunc (float_of_int n) = Some n)) 0 = true) by (vm_compute; reflexivity).
  apply holds_below_spec with (n := n) in H; [|done]. apply bool_decide_eq_true in H. rewrite H.
  rewrite (proj2 (andb_true_iff _ _)); [done|]. split; [apply Z.leb_le|apply Z.ltb_lt]; lia.
Qed.

Lemma GetData_as_read p key : GetData (config_as_read p) key = as_read <$> GetData p key.
Proof. unfold GetData, config_as_read. cbn. destruct (PC_Data p) as [data|]; [|done]. cbn. by rewrite lookup_fmap. Qed.

Section files.
Context `{PartialJSON}.

(** What is saved comes back: the type, the steps and the error as they were, texts and
    flags by their keys, and numbers up to the largest port although they are read as
    floating-point numbers. *)
Theorem saved_setup_loads dir fs p fs' :
  json_config p = true -> Manager_Save dir true Written fs p = (fs', None) ->
  exists q, Manager_Load dir true fs' (PC_SetupType p) = Ok (Some q) /\
    PC_SetupType q = PC_SetupType p /\ PC_CompletedSteps q = PC_CompletedSteps p /\ PC_CurrentStep q = PC_CurrentStep p /\
    PC_Error q = PC_Error p /\ GetNextStep q = GetNextStep p /\
    (forall key, GetString q key = GetString p key /\ GetBool q key = GetBool p key) /\
    forall key n oor, GetData p key = Some (DInt n) -> 0 <= n < 65536 -> GetInt oor q key = n.
Proof.
  intros Hj Hs. destruct (partial_round p Hj) as (b & Hb & Hv). unfold Manager_Save in Hs. cbn in Hs. rewrite Hb in Hs.
  injection Hs as <-. exists (config_as_read p). unfold Manager_Load. rewrite lookup_insert_eq, Hv. cbn [negb].
  repeat split.
  - unfold GetString. rewrite GetData_as_read. destruct (GetData p key) as [[|]|]; done.
  - unfold GetBool. rewrite GetData_as_read. destruct (GetData p key) as [[|]|]; done.
  - intros key n oor Hk Hn. unfold GetInt. rewrite GetData_as_read, Hk. cbn. by apply port_read_back.
Qed.
End files.

(** The names of the files of partial configurations are those that end like one and
    have something before that. *)
Theorem isPartialFile_spec name : isPartialFile name = true <-> exists t, t <> "" /\ name = t ++ ".partial.json".
Proof.
  unfold isPartialFile. rewrite andb_true_iff, Z.ltb_lt, bool_decide_eq_true. split.
  - intros [Hl Hd]. exists (str_of (take (length (bytes_of name) - 13) (bytes_of name))). split.
    + intros Ht. apply (f_equal bytes_of) in Ht. rewrite bytes_str in Ht. apply (f_equal length) in Ht. cbn in Ht.
      rewrite length_take in Ht. lia.
    + rewrite <- (str_bytes name) at 1. rewrite <- (take_drop (length (bytes_of name) - 13) (bytes_of name)) at 1. rewrite Hd.
      rewrite <- (str_bytes (_ ++ ".partial.json")). rewrite bytes_of_append, bytes_str. done.
  - intros (t & Ht & ->). rewrite bytes_of_append, length_app. change (length (bytes_of ".partial.json")) with 13%nat. split.
    + destruct t; [done|]. cbn. lia.
    + replace (length (bytes_of t) + 13 - 13)%nat with (length (bytes_of t)) by lia. by rewrite drop_app_length.
Qed.

(** *** Retries *)

(** What a handler without a callback answers to errors of some steps. *)
Fixpoint handle_errors (h : ErrorHandler) (errors : list (string * string)) : ErrorHandler * list ErrorAction :=
  match errors with
  | [] => (h, [])
  | (step, err) :: errors' =>
      let '(h, a) := HandleError h step err in
      let '(h, l) := handle_errors h errors' in (h, a :: l)
  end.

Definition count_step (step : string) (errors : list (string * string)) : Z :=
  Z.of_nat (length (List.filter (fun e => e.1 =?= step) errors)).

Lemma count_step_bound step errors : 0 <= count_step step errors <= Z.of_nat (length errors).
Proof. unfold count_step. pose proof (List.filter_length_le (fun e : string * string => e.1 =?= step) errors). lia. Qed.

Lemma handle_errors_app h a b :
  handle_errors h (a ++ b) = let '(h', l) := handle_errors h a in let '(h'', l') := handle_errors h' b in (h'', (l ++ l')%list).
Proof.
  revert h. induction a as [|[s e] a IH]; intros h; cbn [app handle_errors].
  - by destruct (handle_errors h b).
  - destruct (HandleError h s e) as [h1 x]. rewrite IH. destruct (handle_errors h1 a) as [h2 l]. by destruct (handle_errors h2 b).
Qed.

Lemma handle_errors_counts h errors : EH_OnError h = None -> Z.of_nat (length errors) < 2 ^ 62 ->
  (forall s, 0 <= GetRetryCount h s < 2 ^ 62) ->
  let h' := (handle_errors h errors).1 in
  EH_OnError h' = None /\ EH_MaxRetries h' = EH_MaxRetries h /\
  forall s, GetRetryCount h' s = GetRetryCount h s + count_step s errors.
Proof.
  intros Hn. induction errors as [|[s e] errors IH] using rev_ind; intros Hl Hr; cbn zeta.
  { repeat split; [done|]. intros s. change (count_step s []) with 0. cbn [handle_errors fst]. lia. }
  rewrite handle_errors_app. rewrite length_app in Hl. cbn in Hl. specialize (IH ltac:(lia) Hr). cbn zeta in IH.
  destruct (handle_errors h errors) as [h1 l]. cbn [fst] in IH. destruct IH as (Hn1 & Hm1 & Hc1).
  cbn [handle_errors]. unfold HandleError. rewrite Hn1. cbn. repeat split; [done|]. intros s'.
  pose proof (fun x => count_step_bound x errors) as Hcs.
  unfold count_step. rewrite List.filter_app, length_app. unfold GetRetryCount at 1. cbn. destruct (decide (s = s')) as [->|Hne].
  - rewrite lookup_insert_eq, bool_decide_eq_true_2 by done. cbn. rewrite Hc1. rewrite i64_id.
    + unfold count_step. lia.
    + specialize (Hr s'). specialize (Hcs s'). unfold is_i64, count_step in *. lia.
  - rewrite lookup_insert_ne, bool_decide_eq_false_2 by done. cbn. unfold GetRetryCount in Hc1 |- *. rewrite Hc1. unfold count_step. lia.
Qed.

(** A new handler has every step tried again as often as the maximum says, whatever
    errors other steps have in between, and then gives up. *)
Theorem retries_then_abort max errors step err :
  Z.of_nat (length errors) < 2 ^ 62 ->
  let h := (handle_errors (mkErrorHandler None max ∅) errors).1 in
  (HandleError h step err).2 = if count_step step errors <? max then ErrorActionRetry else ErrorActionAbort.
Proof.
  intros Hl h. destruct (handle_errors_counts (mkErrorHandler None max ∅) errors) as (Hn & Hm & Hc); [done|done|intros s; by change (GetRetryCount (mkErrorHandler None max ∅) s) with 0|].
  fold h in Hn, Hm, Hc. unfold HandleError. rewrite Hn. cbn [snd]. rewrite Hm, Hc. cbn [EH_MaxRetries].
  change (GetRetryCount (mkErrorHandler None max ∅) step) with 0.
  pose proof (count_step_bound step errors). rewrite i64_id by (unfold is_i64; lia).
  destruct (Z.ltb_spec (count_step step errors) max); [by rewrite (proj2 (Z.leb_le _ _)) by lia|by rewrite (proj2 (Z.leb_gt _ _)) by lia].
Qed.

(** *** Interrupts *)

(** What the goroutine has left to do. *)
Definition loop_work (h : InterruptHandler) : nat :=
  match IH_loop h with NotStarted => 0 | Waiting => 2 * IH_queue h + 1 | Asking => 2 * IH_queue h + 2 | Ended => 0 end.

Lemma loop_step_works h h' : loop_step h h' -> (loop_work h' < loop_work h)%nat /\ handler_step h h'.
Proof.
  intros Hs. destruct Hs as [cb c i q n cl|cb c i q n cl ex|cb c i n|cb i q n cl].
  - split; [destruct cb; cbn; lia|apply TakeSignal].
  - split; [destruct ex; cbn; lia|apply CallbackAnswers].
  - split; [cbn; lia|apply SeesClosed].
  - split; [cbn; lia|apply SeesCancelled].
Qed.

(** [Stop] comes back: once it has closed the channel of a handler that was started,
    signals change nothing, every step of the goroutine brings it nearer to its end, and
    it has a step until it has ended, if the callback answers. *)
Theorem stop_returns h :
  IH_closed h = true -> IH_loop h <> NotStarted ->
  (is_done h = true \/ exists h', loop_step h h') /\
  forall h', handler_step h h' -> IH_closed h' = true /\ IH_loop h' <> NotStarted /\ (loop_work h' <= loop_work h)%nat /\
    (loop_step h h' -> (loop_work h' < loop_work h)%nat).
Proof.
  intros Hc Hl. split.
  - destruct h as [cb c i q n cl l]. cbn in Hc, Hl. subst cl. destruct l; [done| | |by left]; right.
    + destruct q; eexists; [apply loop_closed|apply loop_take].
    + eexists. apply (loop_answer cb c i q n true true).
  - intros h' Hs. split; [|split; [|split; [|intros Hs'; by apply loop_step_works]]].
    + destruct Hs as [| |[]|cb c i q n cl []| | | |]; cbn in *; congruence.
    + destruct Hs as [| |[]|cb c i q n cl []| | | |]; cbn in *; congruence.
    + destruct Hs as [| |[]|cb c i q n cl []| | | |]; cbn in *; (congruence || lia || done).
Qed.

(** Without a callback the first signal that is taken cancels the setup and ends the
    goroutine; the handler counts as interrupted only after a signal. *)
Definition handler_ok (h : InterruptHandler) : Prop :=
  (IH_interrupted h = true -> IH_OnInterrupt h = false -> IH_cancelled h = true /\ is_done h = true) /\
  (IH_loop h = Asking -> IH_interrupted h = true /\ IH_OnInterrupt h = true).

Theorem interrupts_cancel callback h :
  rtc handler_step (NewInterruptHandler callback) h -> handler_ok h.
Proof.
  intros Hr. remember (NewInterruptHandler callback) as h0 eqn:Hh0.
  assert (H0 : handler_ok h0) by (subst; split; done). clear Hh0.
  induction Hr as [|h1 h2 h3 Hs _ IH]; [done|]. apply IH. clear IH. destruct H0 as [H1 H2].
  unfold handler_ok. destruct Hs as [| |[]|[] c i q n cl []|[]|[]|[]|[]]; cbn in *; naive_solver.
Qed.

(** ** Witnesses and examples *)

(** An encoding by one number. *)
Definition value_code (v : DataValue) : Z + (bool + string) :=
  match v with DInt n => inl n | DAny (AnyBool b) => inr (inl b) | DAny (AnyString s) => inr (inr s) | DAny _ => inl 0 end.
Definition code_value (c : Z + (bool + string)) : DataValue :=
  match c with inl n => DAny (AnyFloat (float_of_int n)) | inr (inl b) => DAny (AnyBool b) | inr (inr s) => DAny (AnyString s) end.
Abbreviation config_code := ((Z * string * string * string) * list string * option (list (string * (Z + (bool + string)))) * (Z * Z * string))%type (only parsing).
Definition config_view (p : PartialConfig) : config_code :=
  ((PC_Version p, PC_SetupType p, PC_DeployTarget p, PC_CurrentStep p), PC_CompletedSteps p,
   map_to_list <$> (fmap (M := gmap string) value_code <$> PC_Data p), (PC_StartedAt p, PC_UpdatedAt p, PC_Error p)).
Definition config_unview (c : config_code) : PartialConfig :=
  let '((v, t, d, s), steps, data, (st, up, e)) := c in
  mkPartialConfig v t d s steps (fmap (M := gmap string) code_value <$> (list_to_map <$> data)) st up e.

Lemma code_value_code v : json_scalar v = true -> code_value (value_code v) = as_read v.
Proof. destruct v as [n|[]]; done. Qed.

Lemma config_unview_view p : json_config p = true -> config_unview (config_view p) = config_as_read p.
Proof.
  intros [_ Hj]%andb_true_iff. unfold config_view, config_unview, config_as_read, with_data. f_equal.
  destruct (PC_Data p) as [data|]; [|done]. cbn. f_equal. rewrite list_to_map_to_list.
  apply map_eq. intros k. rewrite !lookup_fmap. destruct (data !! k) as [v|] eqn:Hk; [|done]. cbn. f_equal. apply code_value_code.
  rewrite forallb_forall in Hj. specialize (Hj (k, v)). cbn in Hj.
  apply andb_true_iff with (b1 := is_ascii k), Hj, list_elem_of_In, elem_of_map_to_list, Hk.
Qed.

Definition number_text (p : PartialConfig) : option (list Z) := if json_config p then Some [Zpos (encode (config_view p))] else None.
Definition number_value (b : list Z) : option PartialConfig :=
  match b with [Zpos q] => config_unview <$> decode q | _ => None end.
Lemma number_round p : json_config p = true -> exists b, number_text p = Some b /\ number_value b = Some (config_as_read p).
Proof.
  intros Hj. unfold number_text. rewrite Hj. eexists. split; [reflexivity|]. unfold number_value. rewrite decode_encode. cbn [fmap option_fmap option_map]. by rewrite config_unview_view.
Qed.
#[export] Instance partial_number_json : PartialJSON := {| partial_text := number_text; partial_value := number_value; partial_round := number_round |}.

Definition sample_config : PartialConfig :=
  mkPartialConfig 1 "cli" "" "identity" ["welcome"; "identity"]
    (Some {["name" := DAny (AnyString "ann"); "port" := DInt 4000; "use_public_bootstrap" := DAny (AnyBool true)]}) 5 6 "".

Lemma saved_setup_loads_witness :
  exists q fs', Manager_Load "/home/a/.config/bib" true fs' "cli" = Ok (Some q) /\ GetString q "name" = "ann" /\ GetInt (fun _ => 0) q "port" = 4000.
Proof.
  destruct (saved_setup_loads "/home/a/.config/bib" ∅ sample_config (Manager_Save "/home/a/.config/bib" true Written ∅ sample_config).1)
    as (q & Hl & _ & _ & _ & _ & _ & Hk & Hi).
  - vm_compute. reflexivity.
  - vm_compute. reflexivity.
  - exists q, (Manager_Save "/home/a/.config/bib" true Written ∅ sample_config).1. split; [exact Hl|]. split.
    + rewrite (proj1 (Hk "name")). reflexivity.
    + apply Hi; [reflexivity|lia].
Defined.

Lemma setup_completes_witness : forallb (IsStepCompleted (complete_next 9 sample_config 7)) AllSteps = true.
Proof. apply (setup_completes sample_config 7 9). cbn. lia. Defined.

Lemma retries_then_abort_witness :
  (HandleError (handle_errors NewErrorHandler [("network", "down"); ("storage", "full"); ("network", "down"); ("network", "down")]).1 "network" "down").2 = ErrorActionAbort.
Proof.
  apply (retries_then_abort 3 [("network", "down"); ("storage", "full"); ("network", "down"); ("network", "down")] "network" "down"). reflexivity.
Defined.

Definition stopping : InterruptHandler := mkInterruptHandler false true false 1 false true Waiting.
Lemma stop_returns_witness : is_done stopping = true \/ exists h', loop_step stopping h'.
Proof. apply (stop_returns stopping); [reflexivity|discriminate]. Defined.

Lemma interrupts_cancel_witness : handler_ok (mkInterruptHandler false true true 0 true false Ended).
Proof.
  apply (interrupts_cancel false). eapply rtc_l; [apply StartLoop|]. eapply rtc_l; [apply SignalArrives|].
  eapply rtc_l; [apply TakeSignal|]. apply rtc_refl.
Defined.

(** A handler that was never started cannot be stopped: nothing closes [done]. *)
Example stop_without_start h : rtc loop_step (mkInterruptHandler false true false 0 false true NotStarted) h -> is_done h = false.
Proof. intros Hr. inversion Hr as [|? ? ? Hs]; subst; [done|]. inversion Hs. Qed.

Example partial_names : isPartialFile "cli.partial.json" = true /\ isPartialFile ".partial.json" = false /\ isPartialFile "config.yaml.partial" = false.
Proof. vm_compute. done. Qed.

(** A file whose data is null leaves a nil map, and setting a value panics. *)
Example nil_data_panics now : SetData (mkPartialConfig 1 "cli" "" "" [] None 0 0 "") "name" (DInt 1) now = None.
Proof. reflexivity. Qed.
