(* ===== verification/Wizard.v ===== *)
(** * The wizard ([internal/tui/wizard.go])

    Steps that may be skipped, the way forward and back, and the widths and lines of its
    view.  What a step checks and whether it is skipped depends on data outside the
    wizard, of type [S]; the commands of the terminal library are [TeaCmd]. *)
From stdpp Require Import base list strings.
From Stdlib Require Import ZArith Lia Ascii.
From S2P Require Import Prelude GoStrings Domain.
Local Open Scope Z_scope.
Local Open Scope bool_scope.

(** ** Data *)

Inductive TeaCmd := NoCmd | EnterStep (id : string) | QuitProgram.

Record WizardStep {S E : Type} := mkWizardStep {
  WS_ID : string;
  WS_Title : string;
  WS_Description : string;
  WS_HelpText : string;
  WS_Validate : option (S -> option E);
  WS_OnEnter : bool;
  WS_OnExit : option (S -> option E);
  WS_ShouldSkip : option (S -> bool)
}.
Arguments WizardStep : clear implicits.
Arguments mkWizardStep {S E}.

(** Title, theme and the model of the current step are left out.  A callback looks at the
    data and answers an error or none, and changes nothing. *)
Record Wizard {S E : Type} := mkWizard {
  W_steps : list (WizardStep S E);
  W_currentStep : nat;
  W_width : Z;
  W_height : Z;
  W_err : option E;
  W_done : bool;
  W_cancelled : bool;
  W_cardWidth : Z;
  W_helpWidth : Z;
  W_showHelp : bool;
  W_centerContent : bool;
  W_onComplete : option (S -> option E)
}.
Arguments Wizard : clear implicits.
Arguments mkWizard {S E}.

Section wizard.
Context {S E : Type}.
Implicit Types (w : Wizard S E) (d : S).

Definition with_current w (i : nat) : Wizard S E :=
  mkWizard (W_steps w) i (W_width w) (W_height w) (W_err w) (W_done w) (W_cancelled w) (W_cardWidth w) (W_helpWidth w)
    (W_showHelp w) (W_centerContent w) (W_onComplete w).
Definition with_err w (e : option E) : Wizard S E :=
  mkWizard (W_steps w) (W_currentStep w) (W_width w) (W_height w) e (W_done w) (W_cancelled w) (W_cardWidth w) (W_helpWidth w)
    (W_showHelp w) (W_centerContent w) (W_onComplete w).
Definition with_done w (done cancelled : bool) : Wizard S E :=
  mkWizard (W_steps w) (W_currentStep w) (W_width w) (W_height w) (W_err w) done cancelled (W_cardWidth w) (W_helpWidth w)
    (W_showHelp w) (W_centerContent w) (W_onComplete w).
Definition SetSize w (width height : Z) : Wizard S E :=
  mkWizard (W_steps w) (W_currentStep w) width height (W_err w) (W_done w) (W_cancelled w) (W_cardWidth w) (W_helpWidth w)
    (W_showHelp w) (W_centerContent w) (W_onComplete w).

Definition WithCardWidth (width : Z) w : Wizard S E :=
  mkWizard (W_steps w) (W_currentStep w) (W_width w) (W_height w) (W_err w) (W_done w) (W_cancelled w) width (W_helpWidth w)
    (W_showHelp w) (W_centerContent w) (W_onComplete w).
Definition WithHelpPanel (width : Z) w : Wizard S E :=
  mkWizard (W_steps w) (W_currentStep w) (W_width w) (W_height w) (W_err w) (W_done w) (W_cancelled w) (W_cardWidth w) width
    true (W_centerContent w) (W_onComplete w).
Definition WithCentering (center : bool) w : Wizard S E :=
  mkWizard (W_steps w) (W_currentStep w) (W_width w) (W_height w) (W_err w) (W_done w) (W_cancelled w) (W_cardWidth w) (W_helpWidth w)
    (W_showHelp w) center (W_onComplete w).

Definition CurrentStep w : option (WizardStep S E) := W_steps w !! W_currentStep w.
Definition StepCount w : nat := length (W_steps w).
Definition skipped d (s : WizardStep S E) : bool := match WS_ShouldSkip s with Some f => f d | None => false end.
Definition VisibleStepCount w d : nat := length (List.filter (fun s => negb (skipped d s)) (W_steps w)).

(** ** Moving *)

(** The loop goes one step per round; [n] rounds are left.  The number of steps is
    enough. *)
Fixpoint skip_loop (n : nat) (forward : bool) w d : Wizard S E * bool :=
  match n with
  | O => (w, false)
  | Datatypes.S n' =>
      match CurrentStep w with
      | None => (w, false)
      | Some step =>
          if negb (skipped d step) then (w, true)
          else if forward then
            if (Z.of_nat (length (W_steps w)) - 1 <=? Z.of_nat (W_currentStep w)) then (w, false)
            else skip_loop n' forward (with_current w (W_currentStep w + 1)) d
          else
            if (Z.of_nat (W_currentStep w) <=? 0) then (w, false)
            else skip_loop n' forward (with_current w (W_currentStep w - 1)) d
      end
  end.
Definition skipToNextValidStep (forward : bool) w d : Wizard S E * bool := skip_loop (length (W_steps w) + 1) forward w d.

Definition NewWizard (steps : list (WizardStep S E)) (onComplete : option (S -> option E)) (opts : list (Wizard S E -> Wizard S E)) d : Wizard S E :=
  let w := mkWizard steps 0 0 0 None false false 60 30 true true onComplete in
  let w := fold_left (fun w opt => opt w) opts w in
  (skipToNextValidStep true w d).1.

Definition complete w d : Wizard S E * TeaCmd :=
  match match W_onComplete w with Some f => f d | None => None end with
  | Some err => (with_err w (Some err), NoCmd)
  | None => (with_done w true (W_cancelled w), QuitProgram)
  end.

Definition enter w : TeaCmd :=
  match CurrentStep w with
  | Some step => if WS_OnEnter step then EnterStep (WS_ID step) else NoCmd
  | None => NoCmd
  end.

(** What a callback of the current step returns; none is [nil]. *)
Definition step_call (callback : WizardStep S E -> option (S -> option E)) w d : option E :=
  match CurrentStep w with
  | Some step => match callback step with Some f => f d | None => None end
  | None => None
  end.

Definition nextStep w d : Wizard S E * TeaCmd :=
  match step_call WS_Validate w d with
  | Some err => (with_err w (Some err), NoCmd)
  | None =>
      let w := with_err w None in
      match step_call WS_OnExit w d with
      | Some err => (with_err w (Some err), NoCmd)
      | None =>
          if Z.of_nat (W_currentStep w) <? Z.of_nat (length (W_steps w)) - 1 then
            let '(w, valid) := skipToNextValidStep true (with_current w (W_currentStep w + 1)) d in
            if negb valid then complete w d else (w, enter w)
          else complete w d
      end
  end.

Definition prevStep w d : Wizard S E * TeaCmd :=
  if 0 <? Z.of_nat (W_currentStep w) then
    let w := with_err (with_current w (W_currentStep w - 1)) None in
    let w := (skipToNextValidStep false w d).1 in
    (w, enter w)
  else (w, NoCmd).

Inductive Msg := Key (name : string) | WindowSize (width height : Z) | OtherMsg.

(** The model of the current step gets the messages that are not handled here. *)
Definition Wizard_Update w d (msg : Msg) : Wizard S E * TeaCmd :=
  match msg with
  | Key k =>
      if (k =?= "ctrl+c"%string) || (k =?= "q"%string) then (with_done w true true, QuitProgram)
      else if k =?= "esc"%string then
        if 0 <? Z.of_nat (W_currentStep w) then prevStep w d else (with_done w true true, QuitProgram)
      else (w, NoCmd)
  | WindowSize width height => (SetSize w width height, NoCmd)
  | OtherMsg => (w, NoCmd)
  end.

(** ** The view *)

Inductive progress_mark := MarkComplete | MarkCurrent | MarkPending.

Fixpoint marks_from (i : nat) (steps : list (WizardStep S E)) (current : nat) d : list (progress_mark * string) :=
  match steps with
  | [] => []
  | step :: steps' =>
      if skipped d step then marks_from (i + 1) steps' current d
      else
        ((if Z.of_nat i <? Z.of_nat current then MarkComplete else if Z.of_nat i =? Z.of_nat current then MarkCurrent else MarkPending), WS_Title step)
        :: marks_from (i + 1) steps' current d
  end.
Definition renderProgress w d : list (progress_mark * string) := marks_from 0 (W_steps w) (W_currentStep w) d.

Definition card_width w (availableWidth : Z) : Z :=
  let cardWidth := W_cardWidth w in
  let cardWidth := if availableWidth - 4 <? cardWidth then availableWidth - 4 else cardWidth in
  if cardWidth <? 40 then 40 else cardWidth.
(** The width of the panel, when it is shown. *)
Definition help_width w (availableWidth : Z) : option Z :=
  match CurrentStep w with
  | Some step =>
      if W_showHelp w && (WS_HelpText step <>? ""%string) then
        let cardWidth := card_width w availableWidth in
        let helpWidth := if availableWidth <? cardWidth + W_helpWidth w + 4 then availableWidth - cardWidth - 4 else W_helpWidth w in
        if 10 <? helpWidth then Some helpWidth else None
      else None
  | None => None
  end.

Definition help_keys w d : list string :=
  let back := if 0 <? Z.of_nat (W_currentStep w) then ["back"%string] else [] in
  let visibleRemaining := length (List.filter (fun s => negb (skipped d s)) (drop (W_currentStep w + 1) (W_steps w))) in
  back ++ [if 0 <? Z.of_nat visibleRemaining then "next"%string else "finish"%string] ++ ["quit"%string].
End wizard.

(** *** Lines *)

(** [strings.Fields] of ASCII text. *)
Definition Fields (text : list ascii) : list (list ascii) := List.filter (fun w => negb (w =?= [])) (split_on is_space text).

Fixpoint wrap_words (width : Z) (currentLine : list ascii) (words : list (list ascii)) : list (list ascii) :=
  match words with
  | [] => [currentLine]
  | word :: words' =>
      if Z.of_nat (length currentLine) + 1 + Z.of_nat (length word) <=? width
      then wrap_words width (currentLine ++ " "%char :: word) words'
      else currentLine :: wrap_words width word words'
  end.
Definition wrapText (text : list ascii) (width : Z) : list (list ascii) :=
  if width <=? 0 then [text]
  else match Fields text with
  | [] => []
  | word :: words => wrap_words width word words
  end.

(** ** Theorems *)

Section theorems.
Context {S E : Type}.
Implicit Types (w : Wizard S E) (d : S).

Definition skipped_at w d (i : nat) : Prop := exists s, W_steps w !! i = Some s /\ skipped d s = true.
Definition visible_at w d (i : nat) : Prop := exists s, W_steps w !! i = Some s /\ skipped d s = false.

Lemma visible_not_skipped w d i : visible_at w d i -> ~ skipped_at w d i.
Proof. intros (s & Hs & Hv) (t & Ht & Hk). congruence. Qed.

Lemma skip_forward n w d : (W_currentStep w < length (W_steps w))%nat -> (length (W_steps w) - W_currentStep w <= n)%nat ->
  exists j, let '(w', ok) := skip_loop n true w d in
    w' = with_current w j /\ (W_currentStep w <= j < length (W_steps w))%nat /\
    (forall k, (W_currentStep w <= k < j)%nat -> skipped_at w d k) /\
    (if ok : bool then visible_at w d j else j = (length (W_steps w) - 1)%nat /\ skipped_at w d j).
Proof.
  revert w. induction n as [|n IH]; intros w Hc Hn; [lia|]. cbn [skip_loop]. unfold CurrentStep.
  destruct (W_steps w !! W_currentStep w) as [s|] eqn:Hs; [|apply lookup_ge_None in Hs; lia].
  destruct (skipped d s) eqn:Hk; cbn [negb].
  - destruct (Z.leb_spec (Z.of_nat (length (W_steps w)) - 1) (Z.of_nat (W_currentStep w))).
    + exists (W_currentStep w). repeat split; [by destruct w|lia|lia|intros; lia|lia|by exists s].
    + destruct (IH (with_current w (W_currentStep w + 1))) as (j & Hj); [cbn; lia|cbn; lia|]. exists j.
      destruct (skip_loop n true _ d) as [w' ok]. destruct Hj as (-> & Hr & Hb & Hok). cbn [with_current W_currentStep W_steps] in *.
      repeat split; [lia|lia| |destruct ok; [exact Hok|exact Hok]].
      intros k Hk'. destruct (decide (k = W_currentStep w)) as [->|]; [by exists s|]. apply Hb. lia.
  - exists (W_currentStep w). repeat split; [by destruct w|lia|lia|intros; lia|by exists s].
Qed.

Lemma skip_back n w d : (W_currentStep w < length (W_steps w))%nat -> (W_currentStep w < n)%nat ->
  exists j, let '(w', ok) := skip_loop n false w d in
    w' = with_current w j /\ (j <= W_currentStep w)%nat /\
    (forall k, (j < k <= W_currentStep w)%nat -> skipped_at w d k) /\
    (if ok : bool then visible_at w d j else j = 0%nat /\ skipped_at w d j).
Proof.
  revert w. induction n as [|n IH]; intros w Hc Hn; [lia|]. cbn [skip_loop]. unfold CurrentStep.
  destruct (W_steps w !! W_currentStep w) as [s|] eqn:Hs; [|apply lookup_ge_None in Hs; lia].
  destruct (skipped d s) eqn:Hk; cbn [negb].
  - destruct (Z.leb_spec (Z.of_nat (W_currentStep w)) 0).
    + exists (W_currentStep w). repeat split; [by destruct w|lia|intros; lia|lia|by exists s].
    + destruct (IH (with_current w (W_currentStep w - 1))) as (j & Hj); [cbn; lia|cbn; lia|]. exists j.
      destruct (skip_loop n false _ d) as [w' ok]. destruct Hj as (-> & Hr & Hb & Hok). cbn [with_current W_currentStep W_steps] in *.
      repeat split; [lia| |destruct ok; [exact Hok|exact Hok]].
      intros k Hk'. destruct (decide (k = W_currentStep w)) as [->|]; [by exists s|]. apply Hb. lia.
  - exists (W_currentStep w). repeat split; [by destruct w|lia|intros; lia|by exists s].
Qed.

(** No step refuses to be left, and the end succeeds. *)
Definition unchecked w d : Prop :=
  (forall s, s ∈ W_steps w -> (WS_Validate s = None \/ exists f, WS_Validate s = Some f /\ f d = None) /\
                              (WS_OnExit s = None \/ exists f, WS_OnExit s = Some f /\ f d = None)) /\
  (match W_onComplete w with Some f => f d | None => None end = None).

Lemma unchecked_calls w d : unchecked w d -> step_call WS_Validate w d = None /\ step_call WS_OnExit w d = None.
Proof.
  intros [Hs _]. unfold step_call, CurrentStep. destruct (W_steps w !! W_currentStep w) as [s|] eqn:Hc; [|done].
  destruct (Hs s) as [Hv He]; [by eapply list_elem_of_lookup_2|].
  destruct Hv as [-> |(f & -> & Hf)], He as [-> |(g & -> & Hg)]; done.
Qed.

(** The way forward goes to the next step that is not skipped, and ends the wizard when
    there is none. *)
Theorem next_step_lands w d :
  (W_currentStep w < length (W_steps w))%nat -> unchecked w d -> W_done w = false ->
  let w' := (nextStep w d).1 in
  (W_done w' = false /\ (W_currentStep w < W_currentStep w')%nat /\ visible_at w d (W_currentStep w') /\
   forall k, (W_currentStep w < k < W_currentStep w')%nat -> skipped_at w d k) \/
  (W_done w' = true /\ forall k, (W_currentStep w < k < length (W_steps w))%nat -> skipped_at w d k).
Proof.
  intros Hc Hu Hd. destruct (unchecked_calls w d Hu) as [Hv He]. destruct Hu as [_ Hcomp].
  unfold nextStep. rewrite Hv. change (step_call WS_OnExit (with_err w None) d) with (step_call WS_OnExit w d).
  rewrite He. cbn [with_err W_currentStep W_steps].
  destruct (Z.ltb_spec (Z.of_nat (W_currentStep w)) (Z.of_nat (length (W_steps w)) - 1)).
  - unfold skipToNextValidStep. set (v := with_current _ _).
    destruct (skip_forward (length (W_steps v) + 1) v d) as (j & Hj); [cbn; lia|cbn; lia|].
    destruct (skip_loop _ true v d) as [w' ok]. destruct Hj as (-> & Hr & Hb & Hok). destruct ok; cbn [negb].
    + left. cbn in *. repeat split; [done|lia|exact Hok|]. intros k Hk. apply Hb. lia.
    + right. unfold complete. cbn [with_current W_onComplete v with_err]. rewrite Hcomp. split; [done|].
      intros k Hk. destruct Hok as [-> Hs]. destruct (decide (k = length (W_steps w) - 1)%nat) as [->|]; [exact Hs|].
      apply Hb. cbn in *. lia.
  - right. unfold complete. cbn [W_onComplete with_err]. rewrite Hcomp. split; [done|intros; lia].
Qed.

(** Enter is pressed until the wizard is done. *)
Fixpoint press_enter (n : nat) w d : Wizard S E :=
  match n with
  | O => w
  | Datatypes.S n' => if W_done w then w else press_enter n' (nextStep w d).1 d
  end.

Lemma next_keeps w d : W_steps (nextStep w d).1 = W_steps w /\ W_onComplete (nextStep w d).1 = W_onComplete w.
Proof.
  assert (Hskip : forall n f (v : Wizard S E), W_steps (skip_loop n f v d).1 = W_steps v /\ W_onComplete (skip_loop n f v d).1 = W_onComplete v).
  { induction n as [|n IH]; intros f v; cbn [skip_loop]; [done|]. destruct (CurrentStep v); [|done].
    destruct (negb _); [done|].
    destruct f; case_match; try done; match goal with |- context [skip_loop n ?f ?u d] => by destruct (IH f u) as [-> ->] end. }
  unfold nextStep, complete. destruct (step_call WS_Validate w d); [done|].
  change (step_call WS_OnExit (with_err w None) d) with (step_call WS_OnExit w d). destruct (step_call WS_OnExit w d); [done|].
  cbn [with_err W_currentStep W_steps]. case_match; [|cbn; case_match; done].
  unfold skipToNextValidStep. match goal with |- context [skip_loop ?n ?f ?v d] => pose proof (Hskip n f v) as Hs; destruct (skip_loop n f v d) as [w' ok] end.
  cbn in Hs. destruct ok; cbn [negb]; [done|]. destruct Hs as [Hs Ho]. rewrite Ho. cbn. case_match; done.
Qed.

(** A wizard whose steps let it pass is finished after as many steps as it has. *)
Theorem wizard_finishes n w d :
  (W_currentStep w < length (W_steps w))%nat -> unchecked w d -> (length (W_steps w) - W_currentStep w <= n)%nat ->
  W_done (press_enter n w d) = true.
Proof.
  revert w. induction n as [|n IH]; intros w Hc Hu Hn; [lia|]. cbn [press_enter]. destruct (W_done w) eqn:Hd; [done|].
  destruct (next_keeps w d) as [Hs Ho].
  destruct (next_step_lands w d Hc Hu Hd) as [(Hd' & Hlt & (s & Hv & _) & _)|[Hd' _]].
  - apply IH; rewrite ?Hs.
    + by eapply lookup_lt_Some.
    + unfold unchecked. rewrite Hs, Ho. exact Hu.
    + lia.
  - destruct n; cbn [press_enter]; [done|]. by rewrite Hd'.
Qed.

(** Back from where the way forward led is where it started, if that is not skipped. *)
Theorem back_undoes_next w d :
  (W_currentStep w < length (W_steps w))%nat -> unchecked w d -> W_done w = false -> visible_at w d (W_currentStep w) ->
  W_done (nextStep w d).1 = false -> W_currentStep (prevStep (nextStep w d).1 d).1 = W_currentStep w.
Proof.
  intros Hc Hu Hd Hvis Hnd. destruct (next_keeps w d) as [Hs Ho].
  destruct (next_step_lands w d Hc Hu Hd) as [(_ & Hlt & (s & Hv & _) & Hb)|[Hd' _]]; [|congruence].
  set (v := (nextStep w d).1) in *. unfold prevStep. destruct (Z.ltb_spec 0 (Z.of_nat (W_currentStep v))); [|lia].
  unfold skipToNextValidStep. set (u := with_err _ _).
  assert (Hl : (W_currentStep v < length (W_steps w))%nat) by (by eapply lookup_lt_Some).
  destruct (skip_back (length (W_steps u) + 1) u d) as (j & Hj); [cbn; rewrite Hs; lia|cbn; rewrite Hs; lia|].
  destruct (skip_loop _ false u d) as [u' ok]. destruct Hj as (-> & Hr & Hsk & Hok). cbn in Hr, Hsk, Hok |- *.
  assert (Heq : forall k, skipped_at u d k <-> skipped_at w d k) by (intros k; unfold skipped_at; cbn; by rewrite Hs).
  assert (Hge : (W_currentStep w <= j)%nat).
  { destruct (decide (W_currentStep w <= j)%nat); [done|]. exfalso. apply (visible_not_skipped w d _ Hvis), Heq, Hsk. lia. }
  destruct (decide (j = W_currentStep w)) as [|Hne]; [done|]. exfalso.
  assert (Hskj : skipped_at w d j) by (apply Hb; lia). destruct ok.
  - destruct Hok as (s' & Hs' & Hvs). destruct Hskj as (s'' & Hs'' & Hks). cbn in Hs'. rewrite Hs in Hs'. congruence.
  - lia.
Qed.

(** The card fits a terminal of 44 columns or more, and the panel is shown only where both
    do. *)
Theorem card_fits w available : 44 <= available -> card_width w available + 4 <= available.
Proof.
  unfold card_width. intros Ha. destruct (Z.ltb_spec (available - 4) (W_cardWidth w)).
  - destruct (Z.ltb_spec (available - 4) 40); lia.
  - destruct (Z.ltb_spec (W_cardWidth w) 40); lia.
Qed.

Theorem panel_fits w available h : help_width w available = Some h -> 10 < h /\ card_width w available + h + 4 <= available.
Proof.
  unfold help_width. destruct (CurrentStep w); [|done]. destruct (_ && _); [|done]. cbv zeta.
  destruct (Z.ltb_spec available (card_width w available + W_helpWidth w + 4)).
  - destruct (Z.ltb_spec 10 (available - card_width w available - 4)); [intros [= <-]; lia|done].
  - destruct (Z.ltb_spec 10 (W_helpWidth w)); [intros [= <-]; lia|done].
Qed.
End theorems.

(** *** Lines *)

Lemma join_cons (sep : list ascii) a l : l <> [] -> join_with sep (a :: l) = (a ++ sep ++ join_with sep l)%list.
Proof. by destruct l. Qed.
Lemma wrap_words_ne width cur words : wrap_words width cur words <> [].
Proof. revert cur. induction words as [|x words IH]; intros cur; cbn; [done|]. case_match; [apply IH|done]. Qed.

Lemma wrap_words_joined width cur words :
  join_with [" "%char] (wrap_words width cur words) = join_with [" "%char] (cur :: words).
Proof.
  revert cur. induction words as [|x words IH]; intros cur; cbn [wrap_words]; [done|]. case_match.
  - rewrite IH. destruct words as [|y words]; [done|]. rewrite !join_cons by done. cbn. by rewrite <- !app_assoc.
  - rewrite join_cons by apply wrap_words_ne. rewrite IH. by rewrite (join_cons _ cur) by done.
Qed.

Lemma wrap_words_width width cur words line :
  line ∈ wrap_words width cur words -> line = cur \/ line ∈ words \/ Z.of_nat (length line) <= width.
Proof.
  revert cur. induction words as [|x words IH]; intros cur; cbn [wrap_words].
  - intros ->%list_elem_of_singleton. by left.
  - destruct (Z.leb_spec (Z.of_nat (length cur) + 1 + Z.of_nat (length x)) width).
    + intros [-> |[Hin|Hl]]%IH; [|by right; left; right|by right; right].
      right. right. rewrite length_app. cbn. lia.
    + intros [-> |Hin]%elem_of_cons; [by left|]. apply IH in Hin as [-> |[Hin|Hl]]; [right; left; left|right; left; by right|by right; right].
Qed.

(** Wrapping loses no word, and a line that is too long is a single word. *)
Theorem wrapped_text text width : 0 < width ->
  join_with [" "%char] (wrapText text width) = join_with [" "%char] (Fields text) /\
  forall line, line ∈ wrapText text width -> line ∈ Fields text \/ Z.of_nat (length line) <= width.
Proof.
  intros Hw. unfold wrapText. rewrite (proj2 (Z.leb_gt _ _)) by lia. destruct (Fields text) as [|x words]; [split; [done|by intros ? ?%elem_of_nil]|].
  split; [apply wrap_words_joined|]. intros line [-> |[Hin|Hl]]%wrap_words_width; [left; left|left; by right|by right].
Qed.

(** *** Witnesses *)

(** Three steps, the second skipped unless [true]. *)
Definition step0 (id : string) (skip : option (bool -> bool)) : WizardStep bool string :=
  mkWizardStep id id "" "Some help" None false None skip.
Definition wizard0 : Wizard bool string :=
  NewWizard [step0 "a" None; step0 "b" (Some negb); step0 "c" None] (Some (fun _ => None)) [WithCardWidth 60; WithHelpPanel 30] false.

Lemma wizard0_unchecked : unchecked wizard0 false.
Proof.
  split; [|done]. intros s Hs. assert (Hl : Forall (fun s : WizardStep bool string => WS_Validate s = None /\ WS_OnExit s = None) (W_steps wizard0))
    by by repeat constructor.
  rewrite Forall_forall in Hl. destruct (Hl s Hs) as [-> ->]. by split; left.
Qed.

Lemma next_step_lands_witness : (W_currentStep wizard0 < W_currentStep (nextStep wizard0 false).1)%nat.
Proof.
  assert (Hc : (W_currentStep wizard0 < length (W_steps wizard0))%nat) by (vm_compute; lia).
  destruct (next_step_lands wizard0 false Hc wizard0_unchecked eq_refl) as [(_ & H & _)|[H _]]; [exact H|discriminate H].
Defined.
Lemma wizard_finishes_witness : W_done (press_enter 3 wizard0 false) = true.
Proof.
  apply (wizard_finishes 3 wizard0 false); [vm_compute; lia|exact wizard0_unchecked|vm_compute; lia].
Defined.
Lemma back_undoes_next_witness : W_currentStep (prevStep (nextStep wizard0 false).1 false).1 = 0%nat.
Proof.
  apply (back_undoes_next wizard0 false); [vm_compute; lia|exact wizard0_unchecked|reflexivity| |reflexivity].
  exists (step0 "a" None). split; reflexivity.
Defined.
Lemma card_fits_witness : card_width wizard0 50 + 4 <= 50.
Proof. apply (card_fits wizard0 50). lia. Defined.
Lemma panel_fits_witness : 10 < 26 /\ card_width wizard0 90 + 26 + 4 <= 90.
Proof. apply (panel_fits wizard0 90 26). reflexivity. Defined.
Lemma wrapped_text_witness :
  join_with [" "%char] (wrapText (bytes_of "one two  three") 7) = join_with [" "%char] (Fields (bytes_of "one two  three")).
Proof. apply (wrapped_text (bytes_of "one two  three") 7). lia. Defined.

(** The letter q ends the wizard: a text field of a step never gets it. *)
Example q_quits : W_cancelled (Wizard_Update wizard0 false (Key "q")).1 = true.
Proof. reflexivity. Qed.

(** Where every step before the current one is skipped, the way back stops at the first
    step although it is to be skipped. *)
Example back_lands_on_skipped :
  let w := NewWizard [step0 "a" (Some negb); step0 "b" None] None [] false in
  W_currentStep w = 1%nat /\ W_currentStep (prevStep w false).1 = 0%nat /\
  option_map (skipped false) (CurrentStep (prevStep w false).1) = Some true.
Proof. split_and!; reflexivity. Qed.

(** Where only skipped steps follow, the end is reached with a skipped step as the current
    one; if the callback of the end fails there, that step is shown. *)
Example failed_end_shows_skipped :
  let w := NewWizard [step0 "a" None; step0 "b" (Some negb)] (Some (fun _ => Some "disk full"%string)) [] false in
  let w' := (nextStep w false).1 in
  W_done w' = false /\ W_err w' = Some "disk full"%string /\ option_map (skipped false) (CurrentStep w') = Some true.
Proof. split_and!; reflexivity. Qed.
