(* ===== verification/GoNumbers.v ===== *)
(** * Numbers in decimal

    [strconv.Atoi], and what it makes of a number that was printed. *)
From stdpp Require Import base strings list pretty.
From Stdlib Require Import ZArith Lia Ascii.
From S2P Require Import Prelude GoStrings.
Local Open Scope string_scope.
Local Open Scope Z_scope.
Local Open Scope bool_scope.

(** [strconv.Atoi]. *)
Definition digits_only (l : list ascii) : bool := negb (l =?= []) && forallb is_digit l.
Definition Atoi (s : string) : option Z :=
  let number (sign : Z) (l : list ascii) :=
    if digits_only l then let n := sign * scan_digits 0 l in if bool_decide (is_i64 n) then Some n else None else None in
  match bytes_of s with
  | "-"%char :: l => number (-1) l
  | "+"%char :: l => number 1 l
  | l => number 1 l
  end.

Lemma pretty_N_char_value d : (d < 10)%N -> is_digit (pretty_N_char d) = true /\ Z.of_N (N_of_ascii (pretty_N_char d)) - 48 = Z.of_N d.
Proof.
  intros Hd. assert (H : (d = 0 \/ d = 1 \/ d = 2 \/ d = 3 \/ d = 4 \/ d = 5 \/ d = 6 \/ d = 7 \/ d = 8 \/ d = 9)%N) by lia.
  destruct_or! H; subst d; split; reflexivity.
Qed.

Lemma scan_pretty_go n s : scan_digits 0 (bytes_of (pretty_N_go n s)) = scan_digits (Z.of_N n) (bytes_of s).
Proof.
  revert s. induction (N.lt_wf_0 n) as [n _ IH]; intros s. destruct (decide (n = 0)%N) as [->|Hn]; [by rewrite pretty_N_go_0|].
  rewrite pretty_N_go_step by lia. rewrite IH by (apply N.div_lt; lia).
  destruct (pretty_N_char_value (n `mod` 10)%N (N.mod_lt n 10 ltac:(done))) as [Hd Hv].
  cbn [String.list_ascii_of_string scan_digits]. rewrite Hd, Hv. f_equal. pose proof (N.div_mod n 10 ltac:(done)). lia.
Qed.

Lemma digits_pretty_go n s : forallb is_digit (bytes_of s) = true -> forallb is_digit (bytes_of (pretty_N_go n s)) = true.
Proof.
  revert s. induction (N.lt_wf_0 n) as [n _ IH]; intros s Hs. destruct (decide (n = 0)%N) as [->|Hn]; [by rewrite pretty_N_go_0|].
  rewrite pretty_N_go_step by lia. apply IH; [apply N.div_lt; lia|].
  cbn [String.list_ascii_of_string forallb]. by rewrite (proj1 (pretty_N_char_value (n `mod` 10)%N (N.mod_lt n 10 ltac:(done)))).
Qed.

Lemma pretty_digits n : 0 <= n -> scan_digits 0 (bytes_of (pretty n)) = n /\ digits_only (bytes_of (pretty n)) = true.
Proof.
  intros Hn. assert (Hp : exists k : N, n = Z.of_N k) by (exists (Z.to_N n); lia). destruct Hp as [k ->].
  assert (Hpr : pretty (Z.of_N k) = pretty k) by (by destruct k). rewrite Hpr. clear Hpr Hn.
  assert (Hval : scan_digits 0 (bytes_of (pretty k)) = Z.of_N k /\ forallb is_digit (bytes_of (pretty k)) = true).
  { unfold pretty, pretty_N. case_decide; [subst k; done|]. rewrite scan_pretty_go. split; [done|by apply digits_pretty_go]. }
  destruct Hval as [Hv Hd]. split; [done|]. unfold digits_only. rewrite Hd, andb_true_r. apply negb_true_iff, bool_decide_eq_false_2.
  intros Hb. revert Hb. unfold pretty, pretty_N in *. case_decide; [done|]. intros Hb. rewrite Hb in Hv. cbn in Hv. lia.
Qed.

(** The digits are those of ASCII. *)
Lemma is_digit_range c : is_digit c = true <-> 48 <= Z.of_N (N_of_ascii c) <= 57.
Proof. unfold is_digit, in_range. rewrite andb_true_iff, !N.leb_le. lia. Qed.
Lemma pretty_is_digits n : 0 <= n -> Forall (fun c => 48 <= Z.of_N (N_of_ascii c) <= 57) (bytes_of (pretty n)).
Proof.
  intros [_ H]%pretty_digits. unfold digits_only in H. apply andb_true_iff in H as [_ H]. rewrite forallb_forall in H.
  apply Forall_forall. intros c Hc%list_elem_of_In%H. by apply is_digit_range.
Qed.
Lemma pretty_inj n m : 0 <= n -> 0 <= m -> pretty n = pretty m -> n = m.
Proof. intros [Hn _]%pretty_digits [Hm _]%pretty_digits H. congruence. Qed.

(** A number that was printed is read back. *)
Lemma Atoi_pretty n : 0 <= n < 2 ^ 63 -> Atoi (pretty n) = Some n.
Proof.
  intros Hn. destruct (pretty_digits n) as [Hv Hd]; [lia|].
  assert (Hmain : (if digits_only (bytes_of (pretty n)) then let m := 1 * scan_digits 0 (bytes_of (pretty n)) in
    if bool_decide (is_i64 m) then Some m else None else None) = Some n).
  { rewrite Hd. cbv zeta. rewrite Hv, Z.mul_1_l. rewrite bool_decide_eq_true_2; [done|]. unfold is_i64. lia. }
  unfold Atoi. destruct (bytes_of (pretty n)) as [|c l] eqn:Hb; [discriminate Hd|].
  assert (Hc : is_digit c = true) by (revert Hd; unfold digits_only; cbn; by intros [? _]%andb_true_iff).
  destruct c as [[] [] [] [] [] [] [] []]; first [exact Hmain|discriminate Hc].
Qed.
