(* ===== verification/PgLifecycle.v ===== *)
(** * The managed PostgreSQL instance ([internal/storage/postgres/lifecycle/manager.go])

    Which container runtime runs the database, the passwords and the file they are kept
    in, the start of the container with what happens to data that is already there, the
    wait for it, the checks of its health, its end and the connection string.

    Commands, probes, random bytes and file operations that can fail have their outcomes
    as arguments; the files are a map from paths to contents.  JSON is the class
    [PgCredJSON].  The manager of the Kubernetes resources is a parameter: whether its
    steps succeed, and the address it reports. *)
From stdpp Require Import base gmap strings list pretty.
From Stdlib Require Import ZArith Lia Ascii SpecFloat.
From S2P Require Import Prelude GoStrings GoTime GoFloat Domain Trust Config.
Local Open Scope string_scope.
Local Open Scope Z_scope.
Local Open Scope bool_scope.

(** ** Data *)

Definition RuntimeDocker : string := "docker".
Definition RuntimePodman : string := "podman".
Definition RuntimeKubernetes : string := "kubernetes".
Definition RuntimeManual : string := "manual".

Definition HealthActionShutdown : string := "shutdown".
Definition HealthActionRetryAlways : string := "retry_always".
Definition HealthActionRetryLimit : string := "retry_limit".

Record NetworkConfig := mkNetworkConfig {
  NC_UseBridgeNetwork : bool;
  NC_BridgeNetworkName : string;
  NC_UseUnixSocket : bool;
  NC_BindAddress : string
}.
Record ResourceConfig := mkResourceConfig { RC_MemoryMB : Z; RC_CPUCores : float64 }.
Record HealthConfig := mkHealthConfig {
  HC_Interval : Duration;
  HC_Timeout : Duration;
  HC_StartupTimeout : Duration;
  HC_Action : string;
  HC_MaxRetries : Z;
  HC_RetryBackoff : Duration
}.
Record PgTLSConfig := mkPgTLSConfig { TC_Enabled : bool; TC_CertDir : string; TC_AutoGenerate : bool }.
(** The fields that have a default here. *)
Record KubernetesConfig := mkKubernetesConfig {
  KC_Namespace : string;
  KC_StorageSize : string;
  KC_BackupEnabled : bool;
  KC_NetworkPolicyEnabled : bool;
  KC_PodAntiAffinity : bool;
  KC_UpdateStrategy : string;
  KC_DeleteOnCleanup : bool
}.
Record CredentialsConfig := mkCredentialsConfig { CC_EncryptedPath : string; CC_RotationInterval : Duration }.
Record LifecycleConfig := mkLifecycleConfig {
  LC_Runtime : string;
  LC_SocketPath : string;
  LC_KubeconfigPath : string;
  LC_ContainerName : string;
  LC_Image : string;
  LC_DataDir : string;
  LC_Port : Z;
  LC_Network : NetworkConfig;
  LC_Resources : ResourceConfig;
  LC_Health : HealthConfig;
  LC_TLS : PgTLSConfig;
  LC_Kubernetes : KubernetesConfig;
  LC_Credentials : CredentialsConfig
}.

Definition DefaultLifecycleConfig (goos : string) : LifecycleConfig :=
  let useUnixSocket := goos =?= "linux" in
  mkLifecycleConfig "" "" "" "" "postgres:16-alpine" "" 5432
    (mkNetworkConfig true "bibd-network" useUnixSocket "127.0.0.1")
    (mkResourceConfig 512 (float_of_int 1))
    (mkHealthConfig (5 * Second) (5 * Second) (60 * Second) HealthActionRetryLimit 5 (10 * Second))
    (mkPgTLSConfig true "" true)
    (mkKubernetesConfig "" "10Gi" false false false "RollingUpdate" true)
    (mkCredentialsConfig "" (7 * 24 * Hour)).

Record PgCredentials := mkPgCredentials {
  Cr_SuperuserPassword : string;
  Cr_AdminPassword : string;
  Cr_ScrapePassword : string;
  Cr_QueryPassword : string;
  Cr_TransformPassword : string;
  Cr_AuditPassword : string;
  Cr_ReadOnlyPassword : string;
  Cr_GeneratedAt : Time
}.
Definition creds_texts (c : PgCredentials) : list string :=
  [Cr_SuperuserPassword c; Cr_AdminPassword c; Cr_ScrapePassword c; Cr_QueryPassword c; Cr_TransformPassword c; Cr_AuditPassword c;
   Cr_ReadOnlyPassword c].

(** [json.Marshal] and [json.Unmarshal] at [PgCredentials]: text in ASCII and a time with a
    four-digit year come back as they were. *)
Class PgCredJSON := {
  cred_marshal : PgCredentials -> option (list Z);
  cred_unmarshal : list Z -> option PgCredentials;
  cred_marshals c : json_time (Cr_GeneratedAt c) = true -> exists d, cred_marshal c = Some d /\ d <> [];
  cred_round_trip c d : forallb is_ascii (creds_texts c) = true -> cred_marshal c = Some d -> cred_unmarshal d = Some c
}.

Record PgManager := mkPgManager {
  M_cfg : LifecycleConfig;
  M_nodeID : string;
  M_dataDir : string;
  M_runtime : string;
  M_containerID : string;
  M_ready : bool;
  M_healthErrors : Z;
  M_closed : bool;
  M_credentials : option PgCredentials;
  M_k8s : bool
}.
Definition with_credentials (m : PgManager) (c : PgCredentials) : PgManager :=
  mkPgManager (M_cfg m) (M_nodeID m) (M_dataDir m) (M_runtime m) (M_containerID m) (M_ready m) (M_healthErrors m) (M_closed m) (Some c) (M_k8s m).
Definition with_container (m : PgManager) (id : string) : PgManager :=
  mkPgManager (M_cfg m) (M_nodeID m) (M_dataDir m) (M_runtime m) id (M_ready m) (M_healthErrors m) (M_closed m) (M_credentials m) (M_k8s m).
Definition with_k8s (m : PgManager) : PgManager :=
  mkPgManager (M_cfg m) (M_nodeID m) (M_dataDir m) (M_runtime m) (M_containerID m) (M_ready m) (M_healthErrors m) (M_closed m) (M_credentials m) true.
Definition with_ready (m : PgManager) (ready closed : bool) : PgManager :=
  mkPgManager (M_cfg m) (M_nodeID m) (M_dataDir m) (M_runtime m) (M_containerID m) ready (M_healthErrors m) closed (M_credentials m) (M_k8s m).
Definition with_errors (m : PgManager) (n : Z) : PgManager :=
  mkPgManager (M_cfg m) (M_nodeID m) (M_dataDir m) (M_runtime m) (M_containerID m) (M_ready m) n (M_closed m) (M_credentials m) (M_k8s m).

(** ** Construction *)

(** What the probes of the runtimes find.  The commands answer the same each time. *)
Record Probes := mkProbes {
  pr_docker_info : bool;
  pr_podman_info : bool;
  pr_exists : string -> bool;
  pr_in_cluster : bool;
  pr_home : string
}.

Definition isKubernetes (pr : Probes) (cfg : LifecycleConfig) : bool :=
  if pr_in_cluster pr then true
  else (LC_KubeconfigPath cfg <>? "") && pr_exists pr (LC_KubeconfigPath cfg).

Definition isDockerAvailable (pr : Probes) (cfg : LifecycleConfig) : bool :=
  if pr_docker_info pr then true
  else
    let socketPath := if LC_SocketPath cfg =?= "" then "/var/run/docker.sock" else LC_SocketPath cfg in
    if pr_exists pr socketPath then pr_docker_info pr else false.

Definition isPodmanAvailable (pr : Probes) (cfg : LifecycleConfig) : bool :=
  if pr_podman_info pr then true
  else
    let candidates := [path_of [pr_home pr; ".local/share/containers/podman/machine/podman.sock"]; "/run/podman/podman.sock"; "/var/run/podman/podman.sock"] in
    let socketPath := if LC_SocketPath cfg =?= "" then default "" (List.find (pr_exists pr) candidates) else LC_SocketPath cfg in
    if socketPath <>? "" then pr_podman_info pr else false.

Inductive PgError :=
| UnknownRuntime
| NoRuntime
| DirectoriesFailed
| RandomFailed
| CertificatesFailed
| StaleDataNotRemoved
| ContainerNotRemoved
| PathFailed
| ContainerNotStarted
| KubernetesFailed
| NotReady
| Cancelled
| StopFailed
| Panicked.

Definition detectRuntime (pr : Probes) (cfg : LifecycleConfig) : result PgError string :=
  if LC_Runtime cfg <>? "" then
    if bool_decide (LC_Runtime cfg ∈ [RuntimeDocker; RuntimePodman; RuntimeKubernetes; RuntimeManual]) then Ok (LC_Runtime cfg) else Err UnknownRuntime
  else if isKubernetes pr cfg then
    if isDockerAvailable pr cfg || isPodmanAvailable pr cfg then
      if isDockerAvailable pr cfg then Ok RuntimeDocker else Ok RuntimePodman
    else Ok RuntimeKubernetes
  else if isDockerAvailable pr cfg then Ok RuntimeDocker
  else if isPodmanAvailable pr cfg then Ok RuntimePodman
  else Err NoRuntime.

Definition with_network (c : LifecycleConfig) (n : NetworkConfig) : LifecycleConfig :=
  mkLifecycleConfig (LC_Runtime c) (LC_SocketPath c) (LC_KubeconfigPath c) (LC_ContainerName c) (LC_Image c) (LC_DataDir c) (LC_Port c) n
    (LC_Resources c) (LC_Health c) (LC_TLS c) (LC_Kubernetes c) (LC_Credentials c).
Definition text_or (s d : string) : string := if s =?= "" then d else s.
Definition pg_with_defaults (c : LifecycleConfig) (nodeID dataDir : string) : LifecycleConfig :=
  let dir := text_or (LC_DataDir c) (path_of [dataDir; "postgres"]) in
  mkLifecycleConfig (LC_Runtime c) (LC_SocketPath c) (LC_KubeconfigPath c) (text_or (LC_ContainerName c) ("bibd-postgres-" ++ nodeID)) (LC_Image c)
    dir (LC_Port c) (LC_Network c) (LC_Resources c) (LC_Health c)
    (mkPgTLSConfig (TC_Enabled (LC_TLS c)) (text_or (TC_CertDir (LC_TLS c)) (path_of [dir; "certs"])) (TC_AutoGenerate (LC_TLS c)))
    (LC_Kubernetes c)
    (mkCredentialsConfig (text_or (CC_EncryptedPath (LC_Credentials c)) (path_of [dataDir; "secrets"; "db.enc"])) (CC_RotationInterval (LC_Credentials c))).

Definition NewPgManager (goos : string) (pr : Probes) (cfg : LifecycleConfig) (nodeID dataDir : string) : result PgError PgManager :=
  let cfg := if goos <>? "linux"
             then with_network cfg (mkNetworkConfig (NC_UseBridgeNetwork (LC_Network cfg)) (NC_BridgeNetworkName (LC_Network cfg)) false (NC_BindAddress (LC_Network cfg)))
             else cfg in
  match detectRuntime pr cfg with
  | Err e => Err e
  | Ok rt => Ok (mkPgManager (pg_with_defaults cfg nodeID dataDir) nodeID dataDir rt "" false 0 false None false)
  end.

(** ** Starting *)

(** The files, and whether a container of the manager's name runs. *)
Record PgHost := mkPgHost { ph_files : Files; ph_container : bool }.

Inductive RemoveOutcome := Removed | RemoveFailed (rest : Files).
Inductive Poll := PollCancelled | PollHealth (commandWorks : bool).

(** The outcomes of a start, in the order they are used. *)
Record StartEnv := mkStartEnv {
  se_directories : bool;
  se_random : nat -> option (list Z);
  se_now : Time;
  se_secret_dir : bool;
  se_secret_write : WriteOutcome;
  se_certificates : bool;
  se_container_exists : bool;
  se_remove_data : RemoveOutcome;
  se_recreate_data : bool;
  se_remove_container : bool;
  se_absolute : bool;
  se_run : option string;
  se_k8s_new : bool;
  se_k8s_valid : bool;
  se_k8s_deploy : bool;
  se_polls : list Poll;
  se_marker_write : WriteOutcome
}.

Definition generatePgPassword (random : option (list Z)) : option string := EncodeToString <$> random.

Local Notation "'let?' x ':=' c 'in' k" :=
  (match c with Some x => k | None => None end) (at level 10, x pattern, c at level 100, k at level 200).

Definition generate_credentials (random : nat -> option (list Z)) (now : Time) : option PgCredentials :=
  let? superuser := generatePgPassword (random 0%nat) in
  let? admin := generatePgPassword (random 1%nat) in
  let? scrape := generatePgPassword (random 2%nat) in
  let? query := generatePgPassword (random 3%nat) in
  let? transform := generatePgPassword (random 4%nat) in
  let? audit := generatePgPassword (random 5%nat) in
  let? readonly := generatePgPassword (random 6%nat) in
  Some (mkPgCredentials superuser admin scrape query transform audit readonly now).

(** [s[:16]]: a panic on a shorter string. *)
Definition slice16 (s : string) : option string :=
  if (String.length s <? 16)%nat then None else Some (str_of (take 16 (bytes_of s))).

Definition data_path (m : PgManager) : string := path_of [LC_DataDir (M_cfg m); "data"].
Definition marker_path (m : PgManager) : string := path_of [data_path m; ".bibd-creds-version"].
Definition version_path (m : PgManager) : string := path_of [data_path m; "PG_VERSION"].
Definition secrets_path (m : PgManager) : string := CC_EncryptedPath (LC_Credentials (M_cfg m)).

Definition inside (dir path : string) : bool := (path =?= dir) || HasPrefix path (dir ++ "/").
Definition RemoveAll (fs : Files) (dir : string) : Files := filter (fun kv => inside dir kv.1 = false) fs.

Section start.
Context {JC : PgCredJSON}.

(** What the file of the passwords holds, if it can be used. *)
Definition stored_credentials (fs : Files) (m : PgManager) : option PgCredentials :=
  match fs !! secrets_path m with
  | Some data => if data =?= [] then None else cred_unmarshal data
  | None => None
  end.

Definition initCredentials (env : StartEnv) (fs : Files) (m : PgManager) : Files * result PgError PgManager :=
  match stored_credentials fs m with
  | Some c => (fs, Ok (with_credentials m c))
  | None =>
      match generate_credentials (se_random env) (se_now env) with
      | None => (fs, Err RandomFailed)
      | Some c =>
          let fs := match cred_marshal c with
                    | Some data => if se_secret_dir env then (WriteFile fs (secrets_path m) data (se_secret_write env)).1 else fs
                    | None => fs
                    end in
          (fs, Ok (with_credentials m c))
      end
  end.

(** Whether data that is there was made with these passwords; [None] is a panic. *)
Definition creds_existed (fs : Files) (m : PgManager) : option bool :=
  match fs !! secrets_path m, fs !! marker_path m with
  | Some _, Some marker =>
      match M_credentials m with
      | Some c => let? p := slice16 (Cr_SuperuserPassword c) in Some (bytes_string marker =?= p)
      | None => None
      end
  | _, _ => Some false
  end.

(** The removal of data the passwords do not fit. *)
Definition remove_stale (env : StartEnv) (fs : Files) (m : PgManager) : Files * option PgError :=
  match fs !! version_path m with
  | None => (fs, None)
  | Some _ =>
      match creds_existed fs m with
      | None => (fs, Some Panicked)
      | Some true => (fs, None)
      | Some false =>
          match se_remove_data env with
          | RemoveFailed rest => (rest, Some StaleDataNotRemoved)
          | Removed => (RemoveAll fs (data_path m), if se_recreate_data env then None else Some StaleDataNotRemoved)
          end
      end
  end.

Definition startContainer (env : StartEnv) (h : PgHost) (m : PgManager) : PgHost * result PgError PgManager :=
  let '(fs, err) := remove_stale env (ph_files h) m in
  match err with
  | Some e => (mkPgHost fs (ph_container h), Err e)
  | None =>
      if se_container_exists env && negb (se_remove_container env) then (mkPgHost fs (ph_container h), Err ContainerNotRemoved)
      else
        let running := ph_container h && negb (se_container_exists env) in
        if negb (se_absolute env) then (mkPgHost fs running, Err PathFailed)
        else match se_run env with
             | None => (mkPgHost fs running, Err ContainerNotStarted)
             | Some output => (mkPgHost fs true, Ok (with_container m (TrimSpace (H := identity_tables) output)))
             end
  end.

Definition startKubernetes (env : StartEnv) (m : PgManager) : result PgError PgManager :=
  if se_k8s_new env && se_k8s_valid env && se_k8s_deploy env then Ok (with_k8s m) else Err KubernetesFailed.

Definition checkHealth (m : PgManager) (commandWorks : bool) : bool :=
  if M_runtime m =?= RuntimeDocker then commandWorks
  else if M_runtime m =?= RuntimePodman then commandWorks
  else true.

(** The polls are the ones made before the deadline. *)
Fixpoint waitForReady (env : StartEnv) (polls : list Poll) (fs : Files) (m : PgManager) : Files * option PgError :=
  match polls with
  | [] => (fs, Some NotReady)
  | PollCancelled :: _ => (fs, Some Cancelled)
  | PollHealth works :: polls' =>
      if checkHealth m works then
        match M_credentials m with
        | None => (fs, Some Panicked)
        | Some c =>
            match slice16 (Cr_SuperuserPassword c) with
            | None => (fs, Some Panicked)
            | Some p => ((WriteFile fs (marker_path m) (string_bytes p) (se_marker_write env)).1, None)
            end
        end
      else waitForReady env polls' fs m
  end.

Definition PgManager_Start (env : StartEnv) (h : PgHost) (m : PgManager) : PgHost * PgManager * option PgError :=
  if negb (se_directories env) then (h, m, Some DirectoriesFailed)
  else
    let '(fs, r) := initCredentials env (ph_files h) m in
    match r with
    | Err e => (mkPgHost fs (ph_container h), m, Some e)
    | Ok m =>
        let h := mkPgHost fs (ph_container h) in
        if TC_Enabled (LC_TLS (M_cfg m)) && TC_AutoGenerate (LC_TLS (M_cfg m)) && negb (se_certificates env) then (h, m, Some CertificatesFailed)
        else
          let '(h, r) :=
            if (M_runtime m =?= RuntimeDocker) || (M_runtime m =?= RuntimePodman) then startContainer env h m
            else if M_runtime m =?= RuntimeKubernetes then (h, startKubernetes env m)
            else if M_runtime m =?= RuntimeManual then (h, Ok m)
            else (h, Err UnknownRuntime) in
          match r with
          | Err e => (h, m, Some e)
          | Ok m =>
              let '(fs, err) := waitForReady env (se_polls env) (ph_files h) m in
              let h := mkPgHost fs (ph_container h) in
              match err with
              | Some e => (h, m, Some e)
              | None => (h, with_ready m true (M_closed m), None)
              end
          end
    end.
End start.

(** The command that runs the container; [cpus] prints a number with two decimals. *)
Section arguments.
Variable abs : string -> string.
Variable cpus : float64 -> string.

Definition publish_args (m : PgManager) : list string :=
  if negb (NC_UseUnixSocket (LC_Network (M_cfg m))) then
    ["-p"; "127.0.0.1:" ++ pretty (LC_Port (M_cfg m)) ++ ":" ++ pretty (LC_Port (M_cfg m))]
  else [].

Definition container_args (m : PgManager) (c : PgCredentials) : list string :=
  let cfg := M_cfg m in
  (["run"; "-d"; "--name"; LC_ContainerName cfg] ++
   (if NC_UseBridgeNetwork (LC_Network cfg) then ["--network"; NC_BridgeNetworkName (LC_Network cfg)] else []) ++
   publish_args m ++
   ["-v"; (abs (data_path m) ++ ":/var/lib/postgresql/data")%string] ++
   (if TC_Enabled (LC_TLS cfg) then ["-v"; (abs (TC_CertDir (LC_TLS cfg)) ++ ":/var/lib/postgresql/certs:ro")%string] else []) ++
   (if NC_UseUnixSocket (LC_Network cfg) then ["-v"; (abs (path_of [LC_DataDir cfg; "run"]) ++ ":/var/run/postgresql")%string] else []) ++
   (if 0 <? RC_MemoryMB (LC_Resources cfg) then ["--memory"; (pretty (RC_MemoryMB (LC_Resources cfg)) ++ "m")%string] else []) ++
   (if flt fzero (RC_CPUCores (LC_Resources cfg)) then ["--cpus"; cpus (RC_CPUCores (LC_Resources cfg))] else []) ++
   ["-e"; ("POSTGRES_PASSWORD=" ++ Cr_SuperuserPassword c)%string; "-e"; "POSTGRES_DB=bibd"; "--health-cmd"; "pg_isready -U postgres";
    "--health-interval"; Duration_String (HC_Interval (LC_Health cfg)); "--health-timeout"; Duration_String (HC_Timeout (LC_Health cfg));
    "--restart"; "unless-stopped"; LC_Image cfg])%list.
End arguments.

(** ** Health *)

(** What a failed check makes the manager do. *)
Inductive HealthReaction := NoReaction | Restarted.

Definition restartContainer (m : PgManager) : HealthReaction :=
  if (M_runtime m =?= RuntimeDocker) || (M_runtime m =?= RuntimePodman) then Restarted else NoReaction.

Definition handleHealthFailure (m : PgManager) : HealthReaction :=
  let h := LC_Health (M_cfg m) in
  if HC_Action h =?= HealthActionShutdown then NoReaction
  else if HC_Action h =?= HealthActionRetryLimit then
    if HC_MaxRetries h <=? M_healthErrors m then NoReaction else restartContainer m
  else if HC_Action h =?= HealthActionRetryAlways then restartContainer m
  else NoReaction.

(** A turn of the loop; the loop ends when the manager is stopped. *)
Definition health_tick (m : PgManager) (commandWorks : bool) : PgManager * HealthReaction :=
  if checkHealth m commandWorks then (with_errors m 0, NoReaction)
  else let m := with_errors m (M_healthErrors m + 1) in (m, handleHealthFailure m).

Fixpoint healthCheckLoop (m : PgManager) (ticks : list bool) : PgManager * list HealthReaction :=
  match ticks with
  | [] => (m, [])
  | works :: ticks' => let '(m, r) := health_tick m works in let '(m, rs) := healthCheckLoop m ticks' in (m, r :: rs)
  end.

(** ** Stopping *)

(** Whether the commands work: the stop, the kill after it. *)
Definition PgManager_Stop (stops kills : bool) (h : PgHost) (m : PgManager) : PgHost * PgManager * option PgError :=
  if M_closed m then (h, m, Some Panicked)
  else
    let m := with_ready m false true in
    if (M_runtime m =?= RuntimeDocker) || (M_runtime m =?= RuntimePodman) then
      if stops then (mkPgHost (ph_files h) false, m, None)
      else if kills then (mkPgHost (ph_files h) false, m, None)
      else (h, m, Some StopFailed)
    else (h, m, None).

(** ** Connecting *)

(** [s[:8]]: a panic on a shorter string. *)
Definition slice8 (s : string) : option string :=
  if (String.length s <? 8)%nat then None else Some (str_of (take 8 (bytes_of s))).

Definition conn_text (host : string) (port : Z) (password sslmode : string) : string :=
  "host=" ++ host ++ " port=" ++ pretty port ++ " user=postgres password=" ++ password ++ " dbname=bibd sslmode=" ++ sslmode.

(** [info] is the address the Kubernetes manager reports, [namespace] the one it works
    in.  No credentials and a short node identifier are panics. *)
Definition ConnectionString (info : option (string * Z)) (namespace : string) (m : PgManager) : option string :=
  let cfg := M_cfg m in
  let? c := M_credentials m in
  if (M_runtime m =?= RuntimeKubernetes) && M_k8s m then
    let sslmode := if TC_Enabled (LC_TLS cfg) then "require" else "disable" in
    match info with
    | Some (host, port) => Some (conn_text host port (Cr_SuperuserPassword c) sslmode)
    | None =>
        let? short := slice8 (M_nodeID m) in
        Some (conn_text ("bibd-postgres-" ++ short ++ "." ++ namespace ++ ".svc.cluster.local") 5432 (Cr_SuperuserPassword c) sslmode)
    end
  else if NC_UseUnixSocket (LC_Network cfg) then
    Some (conn_text (path_of [LC_DataDir cfg; "run"]) (LC_Port cfg) (Cr_SuperuserPassword c) "disable")
  else Some (conn_text (NC_BindAddress (LC_Network cfg)) (LC_Port cfg) (Cr_SuperuserPassword c) "disable").

(** ** Theorems *)

(** A manager that was made has one of the four runtimes: the configured one, or one whose
    command works, or Kubernetes where neither container runtime does.  Outside Linux it
    does not use the socket. *)
Theorem made_manager_runtime goos pr cfg nodeID dataDir m :
  NewPgManager goos pr cfg nodeID dataDir = Ok m ->
  M_runtime m ∈ [RuntimeDocker; RuntimePodman; RuntimeKubernetes; RuntimeManual] /\
  (LC_Runtime cfg <> "" -> M_runtime m = LC_Runtime cfg) /\
  (LC_Runtime cfg = "" -> match pr_docker_info pr, pr_podman_info pr with
                          | true, _ => M_runtime m = RuntimeDocker
                          | false, true => M_runtime m <> RuntimeDocker
                          | false, false => M_runtime m = RuntimeKubernetes /\ isKubernetes pr cfg = true
                          end) /\
  (goos <> "linux" -> NC_UseUnixSocket (LC_Network (M_cfg m)) = false).
Proof.
  unfold NewPgManager. set (c := if goos <>? "linux" then _ else cfg).
  assert (Hr : LC_Runtime c = LC_Runtime cfg) by (subst c; by destruct (goos <>? "linux")).
  assert (Hk : isKubernetes pr c = isKubernetes pr cfg) by (subst c; by destruct (goos <>? "linux")).
  assert (Hs : goos <> "linux" -> NC_UseUnixSocket (LC_Network c) = false) by (intros Hg; subst c; by rewrite bool_decide_eq_false_2).
  destruct (detectRuntime pr c) as [rt|e] eqn:Hd; [|done]. intros [= <-]. cbn. clearbody c.
  split; [|split; [|split; [|exact Hs]]].
  - revert Hd. unfold detectRuntime. repeat case_match; intros [= <-]; try set_solver. by bool_props.
  - intros Hne. revert Hd. unfold detectRuntime. rewrite Hr, bool_decide_eq_false_2 by done. cbn. by case_match; intros [= <-].
  - intros He. revert Hd. unfold detectRuntime. rewrite Hr, He, Hk. cbn [negb]. unfold isDockerAvailable, isPodmanAvailable.
    destruct (pr_docker_info pr), (pr_podman_info pr); cbn; repeat case_match; intros [= <-]; done.
Qed.

Section start_theorems.
Context {JC : PgCredJSON}.

Lemma written_elsewhere fs path data o q : q <> path -> (WriteFile fs path data o).1 !! q = fs !! q.
Proof. intros Hq. unfold WriteFile. repeat case_match; cbn; rewrite ?lookup_insert_ne by congruence; done. Qed.

(** The files other than the ones that are written here. *)
Lemma remove_stale_spec env fs m fs' e : remove_stale env fs m = (fs', e) ->
  fs' = fs \/ (fs' = RemoveAll fs (data_path m) /\ se_remove_data env = Removed) \/ e = Some StaleDataNotRemoved.
Proof.
  unfold remove_stale. repeat case_match; intros [= <- <-]; auto.
Qed.

Lemma startContainer_ok env h m h' m' : startContainer env h m = (h', Ok m') ->
  remove_stale env (ph_files h) m = (ph_files h', None) /\ ph_container h' = true /\
  M_cfg m' = M_cfg m /\ M_runtime m' = M_runtime m /\ M_credentials m' = M_credentials m.
Proof.
  unfold startContainer. destruct (remove_stale env (ph_files h) m) as [fs err]. destruct err; [done|].
  destruct (_ && _); [done|]. destruct (negb _); [done|]. destruct (se_run env); [|done]. by intros [= <- <-].
Qed.

Lemma remove_all_outside fs dir path : inside dir path = false -> RemoveAll fs dir !! path = fs !! path.
Proof.
  intros Hi. unfold RemoveAll. destruct (fs !! path) as [d|] eqn:Hp.
  - by apply map_lookup_filter_Some.
  - apply map_lookup_filter_None. by left.
Qed.
Lemma remove_all_inside fs dir path : inside dir path = true -> RemoveAll fs dir !! path = None.
Proof. intros Hi. unfold RemoveAll. apply map_lookup_filter_None. right. intros d _. cbn. congruence. Qed.

Lemma slice16_length s p : slice16 s = Some p -> p = str_of (take 16 (bytes_of s)).
Proof. unfold slice16. destruct (_ <? _)%nat; [done|]. by intros [= <-]. Qed.

(** What a wait that ends well leaves. *)
Lemma wait_ok env polls fs m fs' : waitForReady env polls fs m = (fs', None) ->
  exists c p, M_credentials m = Some c /\ slice16 (Cr_SuperuserPassword c) = Some p /\
  fs' = (WriteFile fs (marker_path m) (string_bytes p) (se_marker_write env)).1.
Proof.
  induction polls as [|poll polls IH]; [done|]. cbn. destruct poll; [done|]. destruct (checkHealth m commandWorks); [|exact IH].
  destruct (M_credentials m) as [c|]; [|done]. destruct (slice16 (Cr_SuperuserPassword c)) as [p|] eqn:Hp; [|done].
  intros [= <-]. by exists c, p.
Qed.

(** The passwords a start uses: those of the file, or new ones. *)
Lemma init_spec env fs m fs' m' : initCredentials env fs m = (fs', Ok m') ->
  exists c, m' = with_credentials m c /\
  (stored_credentials fs m = Some c /\ fs' = fs \/
   stored_credentials fs m = None /\ generate_credentials (se_random env) (se_now env) = Some c /\
   fs' = match cred_marshal c with
         | Some data => if se_secret_dir env then (WriteFile fs (secrets_path m) data (se_secret_write env)).1 else fs
         | None => fs
         end).
Proof.
  unfold initCredentials. destruct (stored_credentials fs m) as [c|] eqn:Hs; [intros [= <- <-]; exists c; auto|].
  destruct (generate_credentials _ _) as [c|] eqn:Hg; [|done]. intros [= <- <-]. exists c. auto.
Qed.

Lemma generated_ascii env c : (forall n bs, se_random env n = Some bs -> Forall is_u8 bs) ->
  generate_credentials (se_random env) (se_now env) = Some c ->
  forallb is_ascii (creds_texts c) = true /\ Cr_GeneratedAt c = se_now env.
Proof.
  intros Hr. unfold generate_credentials, generatePgPassword.
  destruct (se_random env 0%nat) as [b0|] eqn:E0; [|done]. destruct (se_random env 1%nat) as [b1|] eqn:E1; [|done].
  destruct (se_random env 2%nat) as [b2|] eqn:E2; [|done]. destruct (se_random env 3%nat) as [b3|] eqn:E3; [|done].
  destruct (se_random env 4%nat) as [b4|] eqn:E4; [|done]. destruct (se_random env 5%nat) as [b5|] eqn:E5; [|done].
  destruct (se_random env 6%nat) as [b6|] eqn:E6; [|done]. cbn. intros [= <-]. cbn [creds_texts Cr_SuperuserPassword Cr_AdminPassword
    Cr_ScrapePassword Cr_QueryPassword Cr_TransformPassword Cr_AuditPassword Cr_ReadOnlyPassword Cr_GeneratedAt forallb].
  split; [|done]. by rewrite !hex_is_ascii by (by eapply Hr).
Qed.

(** What a start that succeeds leaves: the manager is ready with its passwords, their mark
    is written if it can be, and what runs in a container runs. *)
Theorem started_instance env h m h' m' :
  PgManager_Start env h m = (h', m', None) ->
  M_ready m' = true /\
  ((M_runtime m = RuntimeDocker \/ M_runtime m = RuntimePodman) -> ph_container h' = true) /\
  exists c p, M_credentials m' = Some c /\ slice16 (Cr_SuperuserPassword c) = Some p /\
    (se_marker_write env = Written -> ph_files h' !! marker_path m = Some (string_bytes p)).
Proof.
  unfold PgManager_Start. destruct (negb _); [done|]. destruct (initCredentials env (ph_files h) m) as [fs r] eqn:Hi. destruct r as [m1|e]; [|done].
  apply init_spec in Hi as (c & -> & _). destruct (_ && _ && _); [done|].
  match goal with |- context [let '(h, r) := ?x in _] => destruct x as [h1 r1] eqn:H1 end. destruct r1 as [m2|e]; [|done].
  assert (Hm2 : M_cfg m2 = M_cfg m /\ M_credentials m2 = Some c /\
                ((M_runtime m = RuntimeDocker \/ M_runtime m = RuntimePodman) -> ph_container h1 = true)).
  { cbn in H1. destruct (bool_decide (M_runtime m = RuntimeDocker) || bool_decide (M_runtime m = RuntimePodman)) eqn:Hrt.
    - apply startContainer_ok in H1 as (_ & Hc & -> & _ & ->). by cbn.
    - apply orb_false_iff in Hrt as [?%bool_decide_eq_false ?%bool_decide_eq_false].
      unfold startKubernetes in H1. repeat case_match; simplify_eq/=; split_and!; tauto. }
  destruct Hm2 as (Hcfg & Hcr & Hcont). destruct (waitForReady env (se_polls env) (ph_files h1) m2) as [fs' err] eqn:Hw. destruct err; [done|].
  apply wait_ok in Hw as (c' & p & Hc' & Hp & ->). intros [= <- <-]. cbn. split; [done|]. split; [exact Hcont|].
  exists c', p. split; [done|]. split; [done|]. intros ->. cbn.
  unfold marker_path, data_path. rewrite Hcfg. apply lookup_insert_eq.
Qed.

(** The start of the runtime: what it does to the files and to the manager. *)
Definition start_runtime (env : StartEnv) (h : PgHost) (m : PgManager) : PgHost * result PgError PgManager :=
  if (M_runtime m =?= RuntimeDocker) || (M_runtime m =?= RuntimePodman) then startContainer env h m
  else if M_runtime m =?= RuntimeKubernetes then (h, startKubernetes env m)
  else if M_runtime m =?= RuntimeManual then (h, Ok m)
  else (h, Err UnknownRuntime).

Lemma start_runtime_cfg env h m h' m' : start_runtime env h m = (h', Ok m') -> M_cfg m' = M_cfg m /\ M_credentials m' = M_credentials m.
Proof.
  unfold start_runtime. case_match.
  - intros (_ & _ & ? & _ & ?)%startContainer_ok. done.
  - unfold startKubernetes. repeat case_match; intros [= <- <-]; done.
Qed.

(** A start in two parts: the passwords, and what follows. *)
Definition start_rest (env : StartEnv) (h : PgHost) (m : PgManager) : PgHost * PgManager * option PgError :=
  if TC_Enabled (LC_TLS (M_cfg m)) && TC_AutoGenerate (LC_TLS (M_cfg m)) && negb (se_certificates env) then (h, m, Some CertificatesFailed)
  else
    let '(h, r) := start_runtime env h m in
    match r with
    | Err e => (h, m, Some e)
    | Ok m =>
        let '(fs, err) := waitForReady env (se_polls env) (ph_files h) m in
        let h := mkPgHost fs (ph_container h) in
        match err with Some e => (h, m, Some e) | None => (h, with_ready m true (M_closed m), None) end
    end.

Lemma start_parts env h m : se_directories env = true ->
  PgManager_Start env h m =
  match initCredentials env (ph_files h) m with
  | (fs, Err e) => (mkPgHost fs (ph_container h), m, Some e)
  | (fs, Ok m) => start_rest env (mkPgHost fs (ph_container h)) m
  end.
Proof. intros Hd. unfold PgManager_Start. rewrite Hd. cbn [negb]. by destruct (initCredentials env (ph_files h) m) as [fs [m1|e]]. Qed.

Lemma wait_frame env polls fs m path : path <> marker_path m -> (waitForReady env polls fs m).1 !! path = fs !! path.
Proof.
  intros Hne. induction polls as [|poll polls IH]; [done|]. cbn. destruct poll; [done|]. destruct (checkHealth m commandWorks); [|exact IH].
  destruct (M_credentials m) as [c|]; [|done]. destruct (slice16 _); [|done]. by apply written_elsewhere.
Qed.

(** Where the mark fits the passwords, nothing but the mark is written. *)
Lemma kept_data env h m c p :
  M_credentials m = Some c -> slice16 (Cr_SuperuserPassword c) = Some p ->
  ph_files h !! secrets_path m <> None -> ph_files h !! marker_path m = Some (string_bytes p) ->
  let '(h', m', e) := start_rest env h m in
  e <> Some Panicked /\ M_credentials m' = Some c /\ forall path, path <> marker_path m -> ph_files h' !! path = ph_files h !! path.
Proof.
  intros Hc Hp Hs Hm. unfold start_rest. destruct (_ && _ && _); [done|].
  assert (Hst : remove_stale env (ph_files h) m = (ph_files h, None)).
  { unfold remove_stale. destruct (ph_files h !! version_path m); [|done]. unfold creds_existed.
    destruct (ph_files h !! secrets_path m); [|done]. by rewrite Hm, Hc, Hp, bytes_string_bytes, bool_decide_eq_true_2. }
  assert (Hfiles : ph_files (start_runtime env h m).1 = ph_files h).
  { unfold start_runtime, startContainer. rewrite Hst. repeat case_match; done. }
  destruct (start_runtime env h m) as [h1 r] eqn:H1. cbn in Hfiles. destruct r as [m1|e].
  - apply start_runtime_cfg in H1 as [Hcfg Hcr].
    assert (Hmp : marker_path m1 = marker_path m) by (unfold marker_path, data_path; by rewrite Hcfg).
    destruct (waitForReady env (se_polls env) (ph_files h1) m1) as [fs err] eqn:Hw.
    assert (Hfr : forall path, path <> marker_path m -> fs !! path = ph_files h !! path).
    { intros path Hne. rewrite <- Hfiles. change fs with ((fs, err).1). rewrite <- Hw. apply wait_frame. by rewrite Hmp. }
    destruct err as [e|]; (split; [|split; [cbn; congruence|exact Hfr]]); [|done].
    intros [= ->]. revert Hw. rewrite <- Hcr in Hc. clear -Hc Hp. induction (se_polls env) as [|poll polls IH]; [done|].
    cbn. destruct poll; [done|]. destruct (checkHealth m1 commandWorks); [|exact IH]. by rewrite Hc, Hp.
  - split; [|split; [done|by rewrite Hfiles]]. intros [= ->]. revert H1. unfold start_runtime, startContainer, startKubernetes. rewrite Hst.
    repeat case_match; done.
Qed.

(** A start with no file of passwords makes new ones and takes data that is there for stale:
    all of it is removed. *)
Theorem lost_passwords_lose_data env fs cont m c v :
  M_runtime m = RuntimeDocker \/ M_runtime m = RuntimePodman ->
  se_directories env = true -> se_certificates env = true -> se_remove_data env = Removed ->
  stored_credentials fs m = None -> generate_credentials (se_random env) (se_now env) = Some c ->
  (16 <= String.length (Cr_SuperuserPassword c))%nat ->
  (forall mark, fs !! marker_path m = Some mark -> Some (bytes_string mark) <> slice16 (Cr_SuperuserPassword c)) ->
  fs !! version_path m = Some v -> inside (data_path m) (secrets_path m) = false ->
  secrets_path m <> version_path m -> secrets_path m <> marker_path m ->
  forall path, inside (data_path m) path = true -> path <> marker_path m ->
  ph_files (PgManager_Start env (mkPgHost fs cont) m).1.1 !! path = None.
Proof.
  intros Hrt Hdir Hcert Hrm Hst Hgen Hlen Hmark Hv Hout Hsv Hsm path Hin Hne. rewrite start_parts by done.
  unfold initCredentials. cbn [ph_files]. rewrite Hst, Hgen. set (fs1 := match cred_marshal c with Some _ => _ | None => fs end).
  assert (Hframe : forall q, q <> secrets_path m -> fs1 !! q = fs !! q).
  { intros q Hq. subst fs1. destruct (cred_marshal c) as [data|]; [|done]. destruct (se_secret_dir env); [|done].
    by apply written_elsewhere. }
  unfold start_rest. rewrite Hcert, andb_false_r. set (m1 := with_credentials m c).
  assert (Hstale : exists e, remove_stale env fs1 m1 = (RemoveAll fs1 (data_path m), e)).
  { unfold remove_stale. change (version_path m1) with (version_path m). rewrite Hframe, Hv by done. unfold creds_existed.
    change (secrets_path m1) with (secrets_path m). change (marker_path m1) with (marker_path m). change (data_path m1) with (data_path m).
    rewrite (Hframe (marker_path m)) by done. cbn [M_credentials m1 with_credentials].
    assert (Hsl : exists p, slice16 (Cr_SuperuserPassword c) = Some p).
    { unfold slice16. rewrite (proj2 (Nat.ltb_ge _ _)) by done. eauto. }
    destruct Hsl as [p Hp]. rewrite Hrm. destruct (fs1 !! secrets_path m), (fs !! marker_path m) as [mark|] eqn:Hmk; eauto.
    rewrite Hp. specialize (Hmark mark eq_refl). rewrite Hp in Hmark. rewrite bool_decide_eq_false_2 by congruence. eauto. }
  destruct Hstale as [e He].
  assert (Hfiles : ph_files (start_runtime env (mkPgHost fs1 cont) m1).1 = RemoveAll fs1 (data_path m)).
  { unfold start_runtime. replace (_ || _) with true by (cbn; destruct Hrt as [-> | ->]; done).
    unfold startContainer. cbn [ph_files]. rewrite He. repeat case_match; done. }
  cbn [ph_container]. destruct (start_runtime env (mkPgHost fs1 cont) m1) as [h1 r] eqn:H1. cbn in Hfiles. destruct r as [m2|e'].
  - apply start_runtime_cfg in H1 as [Hcfg _]. destruct (waitForReady env (se_polls env) (ph_files h1) m2) as [fs2 err] eqn:Hw.
    assert (fs2 !! path = None).
    { change fs2 with ((fs2, err).1). rewrite <- Hw, wait_frame.
      - rewrite Hfiles. by apply remove_all_inside.
      - unfold marker_path, data_path. by rewrite Hcfg. }
    by destruct err.
  - cbn. rewrite Hfiles. by apply remove_all_inside.
Qed.

(** What the files hold after a start that succeeded, where the passwords could be stored:
    the next start finds the same passwords, and the mark that fits them. *)
Lemma started_files env h m h1 m1 :
  PgManager_Start env h m = (h1, m1, None) ->
  (forall n bs, se_random env n = Some bs -> Forall is_u8 bs) ->
  (stored_credentials (ph_files h) m = None ->
   se_secret_dir env = true /\ se_secret_write env = Written /\ json_time (se_now env) = true) ->
  se_marker_write env = Written -> inside (data_path m) (secrets_path m) = false -> secrets_path m <> marker_path m ->
  exists c p, M_credentials m1 = Some c /\ slice16 (Cr_SuperuserPassword c) = Some p /\
    stored_credentials (ph_files h1) m = Some c /\ ph_files h1 !! marker_path m = Some (string_bytes p).
Proof.
  intros Hst Hrnd Hsave Hmw Hout Hsm. pose proof (started_instance _ _ _ _ _ Hst) as (_ & _ & c & p & Hc & Hp & Hm).
  exists c, p. split; [done|]. split; [done|]. split; [|by apply Hm].
  assert (Hd : se_directories env = true) by (revert Hst; unfold PgManager_Start; by destruct (se_directories env)).
  rewrite start_parts in Hst by done. destruct (initCredentials env (ph_files h) m) as [fs r] eqn:Hi. destruct r as [m2|e]; [|done].
  apply init_spec in Hi as (c' & -> & Hi). unfold start_rest in Hst. destruct (_ && _ && _); [done|].
  destruct (start_runtime env _ (with_credentials m c')) as [h2 r] eqn:Hr. destruct r as [m3|e]; [|done].
  destruct (waitForReady env (se_polls env) (ph_files h2) m3) as [fs' err] eqn:Hw. destruct err; [done|].
  assert (Hcc : c' = c).
  { pose proof Hr as [_ Hcr]%start_runtime_cfg. injection Hst as _ Hst. subst m1. cbn in Hc, Hcr. congruence. } subst c'.
  assert (Hkeep : ph_files h1 !! secrets_path m = fs !! secrets_path m).
  { injection Hst as <- <-. cbn [ph_files]. change fs' with ((fs', @None PgError).1). rewrite <- Hw.
    pose proof Hr as [Hcfg _]%start_runtime_cfg. rewrite wait_frame by (unfold marker_path, data_path; by rewrite Hcfg).
    revert Hr. unfold start_runtime. destruct (_ || _).
    - intros (Hrs & _)%startContainer_ok. apply remove_stale_spec in Hrs as [-> |[[-> _]|?]]; [done| |done].
      by apply remove_all_outside.
    - unfold startKubernetes. repeat case_match; by intros [= <- _]. }
  unfold stored_credentials. rewrite Hkeep. destruct Hi as [[Hs ->]|(Hs & Hg & ->)]; [exact Hs|].
  destruct (Hsave Hs) as (-> & -> & Ht). destruct (generated_ascii env c Hrnd Hg) as [Ha Hgt].
  destruct (cred_marshals c) as (data & Hdata & Hne); [by rewrite Hgt|]. rewrite Hdata. cbn. rewrite lookup_insert_eq.
  rewrite bool_decide_eq_false_2 by done. by eapply cred_round_trip.
Qed.

(** After a start that succeeded and stored its passwords, whatever the database has
    written since, the next start uses the same passwords and leaves every file but the
    mark as it is. *)
Theorem restart_keeps_data env h m h1 m1 env2 fs cont :
  PgManager_Start env h m = (h1, m1, None) ->
  (forall n bs, se_random env n = Some bs -> Forall is_u8 bs) ->
  (stored_credentials (ph_files h) m = None ->
   se_secret_dir env = true /\ se_secret_write env = Written /\ json_time (se_now env) = true) ->
  se_marker_write env = Written -> inside (data_path m) (secrets_path m) = false -> secrets_path m <> marker_path m ->
  fs !! secrets_path m = ph_files h1 !! secrets_path m -> fs !! marker_path m = ph_files h1 !! marker_path m ->
  let '(h2, m2, e) := PgManager_Start env2 (mkPgHost fs cont) m in
  e <> Some Panicked /\ (se_directories env2 = true -> M_credentials m2 = M_credentials m1) /\
  forall path, path <> marker_path m -> ph_files h2 !! path = fs !! path.
Proof.
  intros Hst Hrnd Hsave Hmw Hout Hsm Hfs Hfm.
  destruct (started_files env h m h1 m1 Hst Hrnd Hsave Hmw Hout Hsm) as (c & p & Hc & Hp & Hs & Hm).
  destruct (se_directories env2) eqn:Hd; [|unfold PgManager_Start; by rewrite Hd].
  rewrite start_parts by done. assert (Hs2 : stored_credentials fs m = Some c) by (revert Hs; unfold stored_credentials; by rewrite Hfs).
  unfold initCredentials. cbn [ph_files]. rewrite Hs2.
  pose proof (kept_data env2 (mkPgHost fs cont) (with_credentials m c) c p eq_refl Hp) as Hkeep. cbn [ph_files] in Hkeep.
  change (secrets_path (with_credentials m c)) with (secrets_path m) in Hkeep.
  change (marker_path (with_credentials m c)) with (marker_path m) in Hkeep. cbn [ph_container].
  destruct (start_rest env2 (mkPgHost fs cont) (with_credentials m c)) as [[h2 m2] e]. destruct Hkeep as (He & Hcr & Hk).
  - revert Hs2. unfold stored_credentials. by destruct (fs !! secrets_path m).
  - by rewrite Hfm.
  - split; [exact He|]. split; [by rewrite Hcr, Hc|exact Hk].
Qed.

(** A database that is not ready in time is left running, by a manager that is not
    ready. *)
Theorem unready_database_left_running env h m h' m' e :
  PgManager_Start env h m = (h', m', Some e) -> e = NotReady \/ e = Cancelled ->
  M_runtime m = RuntimeDocker \/ M_runtime m = RuntimePodman ->
  ph_container h' = true /\ M_ready m' = M_ready m.
Proof.
  intros Hst He Hrt. assert (Hd : se_directories env = true).
  { revert Hst. unfold PgManager_Start. destruct (se_directories env); [done|]. intros [= _ _ <-]. destruct He; done. }
  rewrite start_parts in Hst by done. destruct (initCredentials env (ph_files h) m) as [fs r] eqn:Hi. destruct r as [m2|e2].
  2: { injection Hst as _ _ ->. revert Hi. unfold initCredentials. repeat case_match; intros [= _ <-]; destruct He; done. }
  apply init_spec in Hi as (c & -> & _). revert Hst. unfold start_rest.
  destruct (_ && _ && _); [intros [= _ _ <-]; destruct He; done|].
  unfold start_runtime. replace (_ || _) with true by (cbn; destruct Hrt as [-> | ->]; done). unfold startContainer.
  destruct (remove_stale env _ _) as [fs1 err] eqn:Hrs. destruct err as [e1|].
  { intros [= _ _ ->]. revert Hrs. unfold remove_stale. repeat case_match; intros [= _ <-]; destruct He; done. }
  destruct (_ && _); [intros [= _ _ <-]; destruct He; done|]. destruct (negb _); [intros [= _ _ <-]; destruct He; done|].
  destruct (se_run env); [|intros [= _ _ <-]; destruct He; done].
  destruct (waitForReady env _ _ _) as [fs2 err]. destruct err; intros [= <- <- _]; done.
Qed.
End start_theorems.

(** *** Health *)

Definition restarts (l : list HealthReaction) : Z :=
  Z.of_nat (length (List.filter (fun r => match r with Restarted => true | NoReaction => false end) l)).

Lemma loop_ready m ticks : M_ready (healthCheckLoop m ticks).1 = M_ready m /\ M_cfg (healthCheckLoop m ticks).1 = M_cfg m /\
  M_runtime (healthCheckLoop m ticks).1 = M_runtime m.
Proof.
  revert m. induction ticks as [|b ticks IH]; intros m; [done|]. cbn. unfold health_tick.
  destruct (checkHealth m b); destruct (healthCheckLoop _ ticks) as [m' rs] eqn:E.
  - specialize (IH (with_errors m 0)). by rewrite E in IH.
  - specialize (IH (with_errors m (M_healthErrors m + 1))). by rewrite E in IH.
Qed.

Lemma restarts_cons r l : restarts (r :: l) = (match r with Restarted => 1 | NoReaction => 0 end) + restarts l.
Proof. unfold restarts. destruct r; cbn [List.filter length]; lia. Qed.

(** In an outage a container is restarted at the checks before the limit, and at none
    after; however long it lasts, the manager goes on saying that the database is
    ready. *)
Theorem outage_restarts n m :
  M_runtime m = RuntimeDocker \/ M_runtime m = RuntimePodman -> HC_Action (LC_Health (M_cfg m)) = HealthActionRetryLimit ->
  let '(m', rs) := healthCheckLoop m (replicate n false) in
  restarts rs = Z.min (Z.of_nat n) (Z.max 0 (HC_MaxRetries (LC_Health (M_cfg m)) - 1 - M_healthErrors m)) /\
  M_healthErrors m' = M_healthErrors m + Z.of_nat n /\ M_ready m' = M_ready m.
Proof.
  revert m. induction n as [|n IH]; intros m Hrt Ha.
  - cbn [replicate healthCheckLoop]. change (restarts []) with 0. repeat split; lia.
  - cbn [replicate healthCheckLoop]. unfold health_tick.
    assert (Hch : checkHealth m false = false) by (unfold checkHealth; by destruct Hrt as [-> | ->]). rewrite Hch.
    specialize (IH (with_errors m (M_healthErrors m + 1)) Hrt Ha). cbn [with_errors M_cfg M_healthErrors M_ready] in IH.
    destruct (healthCheckLoop _ (replicate n false)) as [m' rs]. destruct IH as (IHr & IHe & IHd). split; [|split; [lia|done]].
    rewrite restarts_cons, IHr. unfold handleHealthFailure, restartContainer. cbn [with_errors M_cfg M_healthErrors M_runtime].
    rewrite Ha. change (HealthActionRetryLimit =?= HealthActionShutdown) with false. change (HealthActionRetryLimit =?= HealthActionRetryLimit) with true.
    cbn [orb]. replace (_ || _) with true by (destruct Hrt as [-> | ->]; done).
    destruct (Z.leb_spec (HC_MaxRetries (LC_Health (M_cfg m))) (M_healthErrors m + 1)); lia.
Qed.

(** The action [shutdown] does nothing at all. *)
Theorem shutdown_action_does_nothing m ticks :
  HC_Action (LC_Health (M_cfg m)) = HealthActionShutdown -> restarts (healthCheckLoop m ticks).2 = 0.
Proof.
  revert m. induction ticks as [|b ticks IH]; intros m Ha; [done|]. cbn. unfold health_tick. destruct (checkHealth m b).
  - specialize (IH (with_errors m 0) Ha). destruct (healthCheckLoop _ ticks). cbn in *. by rewrite restarts_cons, IH.
  - specialize (IH (with_errors m (M_healthErrors m + 1)) Ha). destruct (healthCheckLoop _ ticks). cbn [fst snd] in *.
    rewrite restarts_cons, IH. unfold handleHealthFailure. cbn [with_errors M_cfg]. by rewrite Ha.
Qed.

(** *** Stopping *)

(** A stop can be done once; if it succeeds, no container is left. *)
Theorem stopped_once stops kills h m :
  let '(h', m', e) := PgManager_Stop stops kills h m in
  (M_closed m = false -> e <> Some Panicked /\ M_closed m' = true /\ M_ready m' = false) /\
  (forall stops2 kills2, (PgManager_Stop stops2 kills2 h' m').2 = Some Panicked) /\
  (e = None -> M_runtime m = RuntimeDocker \/ M_runtime m = RuntimePodman -> ph_container h' = false).
Proof.
  unfold PgManager_Stop. destruct (M_closed m) eqn:Hc.
  - split_and!; [done|by rewrite Hc|done].
  - destruct (_ || _) eqn:Hrt; [destruct stops; [|destruct kills]|].
    + split_and!; done.
    + split_and!; done.
    + split_and!; done.
    + split_and!; [done|done|]. intros _ H. cbn in Hrt. destruct H as [H|H]; rewrite H in Hrt; done.
Qed.

(** *** Witnesses *)

(** A JSON of sorts: a number. *)
Definition creds_of (l : list string) (at_ : Z) : option PgCredentials :=
  match l with [a; b; c; d; e; f; g] => Some (mkPgCredentials a b c d e f g at_) | _ => None end.
Definition number_creds (l : list Z) : option PgCredentials :=
  match l with
  | [Zpos p] => let? v := (decode p : option (list string * Z)) in creds_of v.1 v.2
  | _ => None
  end.
#[local] Instance number_cred_json : PgCredJSON.
Proof.
  refine {| cred_marshal := fun c => Some [Zpos (encode (creds_texts c, Cr_GeneratedAt c))]; cred_unmarshal := number_creds |}.
  - intros c _. by eexists.
  - intros c d _ [= <-]. unfold number_creds. rewrite decode_encode. by destruct c.
Defined.

Definition random0 (seed : Z) (n : nat) : option (list Z) := Some (replicate 32 (u8 (seed + Z.of_nat n))).
Definition env_of (seed : Z) (polls : list Poll) (saved : WriteOutcome) : StartEnv :=
  mkStartEnv true (random0 seed) (700 * 365 * 24 * Hour) true saved true false Removed true true true (Some "c0ffee") true true true polls Written.
Definition manager0 : PgManager :=
  match NewPgManager "linux" (mkProbes true false (fun _ => false) false "/home/bib") (DefaultLifecycleConfig "linux") "node-1" "/var/lib/bibd" with
  | Ok m => m
  | Err _ => mkPgManager (DefaultLifecycleConfig "linux") "" "" "" "" false 0 false None false
  end.
Definition started0 : PgHost * PgManager * option PgError :=
  Eval vm_compute in PgManager_Start (env_of 1 [PollHealth false; PollHealth true] Written) (mkPgHost ∅ false) manager0.
(** What the database writes. *)
Definition initialised (h : PgHost) : Files :=
  Eval vm_compute in <["/var/lib/bibd/postgres/data/PG_VERSION" := [49; 54]]> (<["/var/lib/bibd/postgres/data/base/1" := [7]]> (ph_files h)).

Lemma random0_bytes seed n bs : random0 seed n = Some bs -> Forall is_u8 bs.
Proof.
  unfold random0. intros H. injection H as H. rewrite <- H. change (Forall is_u8 (replicate 32 (u8 (seed + Z.of_nat n)))).
  apply Forall_replicate, u8_range.
Qed.

Lemma made_manager_runtime_witness : M_runtime manager0 = RuntimeDocker.
Proof.
  assert (H : NewPgManager "linux" (mkProbes true false (fun _ => false) false "/home/bib") (DefaultLifecycleConfig "linux") "node-1" "/var/lib/bibd" = Ok manager0)
    by (vm_compute; reflexivity).
  destruct (made_manager_runtime _ _ _ _ _ _ H) as (_ & _ & Hr & _). exact (Hr eq_refl).
Defined.
Lemma started_instance_witness : ph_container started0.1.1 = true.
Proof.
  assert (H : PgManager_Start (env_of 1 [PollHealth false; PollHealth true] Written) (mkPgHost ∅ false) manager0 = (started0.1.1, started0.1.2, None))
    by (vm_compute; reflexivity).
  destruct (started_instance _ _ _ _ _ H) as (_ & Hc & _). apply Hc. left. reflexivity.
Defined.

Lemma restart_keeps_data_witness :
  (PgManager_Start (env_of 50 [PollHealth true] Written) (mkPgHost (initialised started0.1.1) false) manager0).1.1.(ph_files)
    !! "/var/lib/bibd/postgres/data/base/1" = Some [7].
Proof.
  assert (H : PgManager_Start (env_of 1 [PollHealth false; PollHealth true] Written) (mkPgHost ∅ false) manager0 = (started0.1.1, started0.1.2, None))
    by (vm_compute; reflexivity).
  pose proof (restart_keeps_data _ _ _ _ _ (env_of 50 [PollHealth true] Written) (initialised started0.1.1) false H (random0_bytes 1)
    (fun _ => conj eq_refl (conj eq_refl eq_refl)) eq_refl) as Hk.
  destruct (PgManager_Start (env_of 50 _ _) _ manager0) as [[h2 m2] e]. destruct Hk as (_ & _ & Hk).
  - vm_compute. reflexivity.
  - vm_compute. discriminate.
  - vm_compute. reflexivity.
  - vm_compute. reflexivity.
  - cbn [fst]. rewrite Hk; [vm_compute; reflexivity|vm_compute; discriminate].
Defined.

Lemma lost_passwords_lose_data_witness :
  (PgManager_Start (env_of 50 [PollHealth true] Written) (mkPgHost (initialised (PgManager_Start (env_of 1 [PollHealth true] (WriteFailed None)) (mkPgHost ∅ false) manager0).1.1) false)
     manager0).1.1.(ph_files) !! "/var/lib/bibd/postgres/data/base/1" = None.
Proof.
  set (fs := initialised _).
  assert (Hg : exists c, generate_credentials (random0 50) (700 * 365 * 24 * Hour) = Some c) by (eexists; vm_compute; reflexivity).
  destruct Hg as [c Hg].
  eapply (lost_passwords_lose_data (env_of 50 [PollHealth true] Written) fs false manager0); try (vm_compute; reflexivity).
  - left. vm_compute. reflexivity.
  - vm_compute. lia.
  - intros mark. vm_compute. intros [= <-]. discriminate.
  - vm_compute. discriminate.
  - vm_compute. discriminate.
  - vm_compute. discriminate.
Defined.

Lemma unready_database_left_running_witness :
  ph_container (PgManager_Start (env_of 1 [PollHealth false] Written) (mkPgHost ∅ false) manager0).1.1 = true.
Proof.
  assert (H : PgManager_Start (env_of 1 [PollHealth false] Written) (mkPgHost ∅ false) manager0 =
    ((PgManager_Start (env_of 1 [PollHealth false] Written) (mkPgHost ∅ false) manager0).1.1,
     (PgManager_Start (env_of 1 [PollHealth false] Written) (mkPgHost ∅ false) manager0).1.2, Some NotReady)) by (vm_compute; reflexivity).
  destruct (unready_database_left_running _ _ _ _ _ _ H) as [Hc _]; [by left|left; vm_compute; reflexivity|exact Hc].
Defined.

Lemma outage_restarts_witness : restarts (healthCheckLoop manager0 (replicate 20 false)).2 = 4.
Proof.
  pose proof (outage_restarts 20 manager0) as H. destruct (healthCheckLoop manager0 (replicate 20 false)) as [m' rs].
  destruct H as [H _]; [left; vm_compute; reflexivity|vm_compute; reflexivity|exact H].
Defined.
Definition shutdown_manager : PgManager :=
  mkPgManager (mkLifecycleConfig "" "" "" "" "" "" 0 (mkNetworkConfig false "" false "") (mkResourceConfig 0 fzero)
    (mkHealthConfig 0 0 0 HealthActionShutdown 1 0) (mkPgTLSConfig false "" false) (mkKubernetesConfig "" "" false false false "" false)
    (mkCredentialsConfig "" 0)) "n" "" RuntimeDocker "" true 0 false None false.
Lemma shutdown_action_does_nothing_witness : restarts (healthCheckLoop shutdown_manager [false; false; true; false]).2 = 0.
Proof. apply (shutdown_action_does_nothing shutdown_manager). reflexivity. Defined.

(** A file of passwords that holds an empty object makes the start panic. *)
Example empty_passwords_panic :
  forall (JC : PgCredJSON), cred_unmarshal [123; 125] = Some (mkPgCredentials "" "" "" "" "" "" "" 0) ->
  (PgManager_Start (JC := JC) (env_of 1 [PollHealth true] Written) (mkPgHost {["/var/lib/bibd/secrets/db.enc" := [123; 125]]} false) manager0).2
  = Some Panicked.
Proof.
  intros JC H. rewrite start_parts by reflexivity. unfold initCredentials.
  assert (Hs : stored_credentials (JC := JC) (ph_files (mkPgHost {["/var/lib/bibd/secrets/db.enc" := [123; 125]]} false)) manager0 =
    Some (mkPgCredentials "" "" "" "" "" "" "" 0)) by (unfold stored_credentials; exact H).
  rewrite Hs. vm_compute. reflexivity.
Qed.
