(* ===== verification/Daemon.v ===== *)
(** * The daemon ([cmd/bibd/daemon.go])

    The configuration of the storage and of the managed database, the connection to it,
    and the start and the stop of the components in their order.  A start calls the
    constructors of the components; whether a call fails is an argument.  The state has
    the fields that are not [nil] and the log of what was opened and closed.  The lock
    of the daemon, which health checks take, is a step relation. *)
From stdpp Require Import base gmap sets strings list pretty relations.
From Stdlib Require Import ZArith Lia Ascii SpecFloat.
From S2P Require Import Prelude GoStrings GoTime GoFloat GoNumbers Domain Backup StorageOpen Config PgLifecycle.
Local Open Scope string_scope.
Local Open Scope Z_scope.
Local Open Scope bool_scope.

(** ** The configuration of the storage *)

(** [storage.PostgresConfig]; its parts have the fields of those of the life cycle. *)
Record PostgresConfig := mkPostgresConfig {
  PG_Managed : bool;
  PG_ContainerRuntime : string;
  PG_SocketPath : string;
  PG_KubeconfigPath : string;
  PG_Image : string;
  PG_DataDir : string;
  PG_Port : Z;
  PG_MaxConnections : Z;
  PG_CredentialRotationInterval : Duration;
  PG_SSLMode : string;
  PG_Resources : ResourceConfig;
  PG_Network : NetworkConfig;
  PG_Health : HealthConfig;
  PG_TLS : PgTLSConfig;
  PG_Kubernetes : KubernetesConfig;
  PG_Advanced : option PostgresAdvancedConfig
}.
(** The parts of [storage.Config] that are set; the others are zero. *)
Record StorageSettings := mkStorageSettings {
  ST_Backend : string;
  ST_SQLitePath : string;
  ST_SQLiteMaxOpenConns : Z;
  ST_Postgres : PostgresConfig;
  ST_AuditEnabled : bool;
  ST_AuditRetentionDays : Z;
  ST_AuditHashChain : bool
}.

Definition zero_KubernetesConfig : KubernetesConfig := mkKubernetesConfig "" "" false false false "" false.

Definition convertStorageConfig (cfg : BibdConfig) : StorageSettings :=
  let db := Bibd_Database cfg in
  let pg := Database_Postgres db in
  let net := PostgresDatabase_Network pg in
  let health := PostgresDatabase_Health pg in
  let tls := PostgresDatabase_TLS pg in
  mkStorageSettings (Database_Backend db) (SQLiteDatabase_Path (Database_SQLite db)) (SQLiteDatabase_MaxOpenConns (Database_SQLite db))
    (mkPostgresConfig (PostgresDatabase_Managed pg) (PostgresDatabase_ContainerRuntime pg) (PostgresDatabase_SocketPath pg)
       (PostgresDatabase_KubeconfigPath pg) (PostgresDatabase_Image pg) (PostgresDatabase_DataDir pg) (PostgresDatabase_Port pg)
       (PostgresDatabase_MaxConnections pg) (PostgresDatabase_CredentialRotationInterval pg) (PostgresDatabase_SSLMode pg)
       (mkResourceConfig (PostgresDatabase_MemoryMB pg) (PostgresDatabase_CPUCores pg))
       (mkNetworkConfig (PostgresNetwork_UseBridgeNetwork net) (PostgresNetwork_BridgeNetworkName net) (PostgresNetwork_UseUnixSocket net)
          (PostgresNetwork_BindAddress net))
       (mkHealthConfig (PostgresHealth_Interval health) (PostgresHealth_Timeout health) (PostgresHealth_StartupTimeout health)
          (PostgresHealth_Action health) (PostgresHealth_MaxRetries health) (PostgresHealth_RetryBackoff health))
       (mkPgTLSConfig (PostgresTLS_Enabled tls) (PostgresTLS_CertDir tls) (PostgresTLS_AutoGenerate tls))
       zero_KubernetesConfig (PostgresDatabase_Advanced pg))
    (AuditDatabase_Enabled (Database_Audit db)) (AuditDatabase_RetentionDays (Database_Audit db)) (AuditDatabase_HashChain (Database_Audit db)).

(** What opening the storage reads of it. *)
Definition open_config (s : StorageSettings) : StorageConfig :=
  mkStorageConfig (ST_Backend s) (match PG_Advanced (ST_Postgres s) with Some _ => true | None => false end) (PG_Managed (ST_Postgres s))
    (mkMigrationsConfig false "" 0) false false false false false.

Definition pos_or (n d : Z) : Z := if 0 <? n then n else d.

Definition convertToLifecycleConfig (goos : string) (pg : PostgresConfig) : LifecycleConfig :=
  let d := DefaultLifecycleConfig goos in
  mkLifecycleConfig (text_or (PG_ContainerRuntime pg) (LC_Runtime d)) (text_or (PG_SocketPath pg) (LC_SocketPath d))
    (text_or (PG_KubeconfigPath pg) (LC_KubeconfigPath d)) (LC_ContainerName d) (text_or (PG_Image pg) (LC_Image d))
    (text_or (PG_DataDir pg) (LC_DataDir d)) (if PG_Port pg =? 0 then LC_Port d else PG_Port pg)
    (PG_Network pg) (PG_Resources pg)
    (mkHealthConfig (pos_or (HC_Interval (PG_Health pg)) (HC_Interval (LC_Health d))) (pos_or (HC_Timeout (PG_Health pg)) (HC_Timeout (LC_Health d)))
       (pos_or (HC_StartupTimeout (PG_Health pg)) (HC_StartupTimeout (LC_Health d))) (text_or (HC_Action (PG_Health pg)) (HC_Action (LC_Health d)))
       (pos_or (HC_MaxRetries (PG_Health pg)) (HC_MaxRetries (LC_Health d))) (pos_or (HC_RetryBackoff (PG_Health pg)) (HC_RetryBackoff (LC_Health d))))
    (PG_TLS pg) (PG_Kubernetes pg)
    (mkCredentialsConfig (CC_EncryptedPath (LC_Credentials d)) (pos_or (PG_CredentialRotationInterval pg) (CC_RotationInterval (LC_Credentials d)))).

(** ** The connection to the managed database *)

(** ASCII text. *)
Fixpoint split_conn (inQuote : bool) (current : list ascii) (l : list ascii) : list (list ascii) :=
  match l with
  | [] => if current =?= [] then [] else [current]
  | c :: l' =>
      if c =?= "'"%char then split_conn (negb inQuote) (current ++ [c]) l'
      else if c =?= " "%char then
        if inQuote then split_conn inQuote (current ++ [c]) l'
        else if current =?= [] then split_conn inQuote current l'
        else current :: split_conn inQuote [] l'
      else split_conn inQuote (current ++ [c]) l'
  end.
Definition splitConnectionString (connStr : string) : list string := map str_of (split_conn false [] (bytes_of connStr)).

(** [strings.SplitN(part, "=", 2)], where it has two parts. *)
Fixpoint cut_equals (l : list ascii) : option (list ascii * list ascii) :=
  match l with
  | [] => None
  | c :: l' =>
      if c =?= "="%char then Some ([], l')
      else match cut_equals l' with Some (k, v) => Some (c :: k, v) | None => None end
  end.
Definition conn_parts (connStr : string) : gmap string string :=
  fold_left (fun parts part => match cut_equals (bytes_of part) with Some (k, v) => <[str_of k := str_of v]> parts | None => parts end)
    (splitConnectionString connStr) ∅.

Definition managed_advanced (connStr : string) (a : PostgresAdvancedConfig) : PostgresAdvancedConfig :=
  let parts := conn_parts connStr in
  mkPostgresAdvancedConfig (default (PostgresAdvanced_Host a) (parts !! "host"))
    (match parts !! "port" with Some port => default (PostgresAdvanced_Port a) (Atoi port) | None => PostgresAdvanced_Port a end)
    (default (PostgresAdvanced_Database a) (parts !! "dbname")) (default (PostgresAdvanced_User a) (parts !! "user"))
    (default (PostgresAdvanced_Password a) (parts !! "password")) (default (PostgresAdvanced_SSLMode a) (parts !! "sslmode")).

(** The configuration the managed database is opened with: both branches of the code,
    for Kubernetes and for containers, are this. *)
Definition managed_store_config (pg : PostgresConfig) (connStr : string) : StorageSettings :=
  mkStorageSettings BackendPostgres "" 0
    (mkPostgresConfig false (PG_ContainerRuntime pg) (PG_SocketPath pg) (PG_KubeconfigPath pg) (PG_Image pg) (PG_DataDir pg) (PG_Port pg)
       (PG_MaxConnections pg) (PG_CredentialRotationInterval pg) (PG_SSLMode pg) (PG_Resources pg) (PG_Network pg) (PG_Health pg) (PG_TLS pg)
       (PG_Kubernetes pg) (Some (managed_advanced connStr (default zero_PostgresAdvancedConfig (PG_Advanced pg)))))
    false 0 false.

(** ** The components *)

(** What is opened and closed.  The cluster is one field of the daemon and three parts. *)
Inductive Component :=
| PidFile | CertManager_ | Store | Postgres | Host | Discovery_ | ModeManager_ | ClusterStorage | ClusterTransport | ClusterRaft | GrpcServer_ | SshServer.
#[export] Instance Component_dec : EqDecision Component.
Proof. solve_decision. Defined.

Inductive DaemonEvent := Opened (c : Component) | Closed (c : Component).
#[export] Instance DaemonEvent_dec : EqDecision DaemonEvent.
Proof. solve_decision. Defined.

(** The fields that are not [nil]: the cluster's is [ClusterRaft]. *)
Record Daemon := mkDaemon {
  D_running : bool;
  D_identity : bool;
  D_auth : bool;
  D_held : list Component;
  D_log : list DaemonEvent
}.
Definition NewDaemon : Daemon := mkDaemon false false false [] [].

Definition has_field (d : Daemon) (c : Component) : bool := mem c (D_held d).
Definition hold (c : Component) (d : Daemon) : Daemon :=
  mkDaemon (D_running d) (D_identity d) (D_auth d) (add_new c (D_held d)) (D_log d).
Definition drop_field (c : Component) (d : Daemon) : Daemon :=
  mkDaemon (D_running d) (D_identity d) (D_auth d) (filter (fun x => x <> c) (D_held d)) (D_log d).
Definition note_event (e : DaemonEvent) (d : Daemon) : Daemon :=
  mkDaemon (D_running d) (D_identity d) (D_auth d) (D_held d) (D_log d ++ [e])%list.
Definition with_running (r : bool) (d : Daemon) : Daemon :=
  mkDaemon r (D_identity d) (D_auth d) (D_held d) (D_log d).
Definition with_identity (d : Daemon) : Daemon := mkDaemon (D_running d) true (D_auth d) (D_held d) (D_log d).
Definition with_auth (d : Daemon) : Daemon := mkDaemon (D_running d) (D_identity d) true (D_held d) (D_log d).

(** What a log leaves open. *)
Definition log_step (live : list Component) (e : DaemonEvent) : list Component :=
  match e with Opened c => add_new c live | Closed c => filter (fun x => x <> c) live end.
Definition live (d : Daemon) : list Component := fold_left log_step (D_log d) [].

(** The calls that can fail. *)
Inductive Call :=
| WritePID | LoadIdentity | RawPrivateKey | NewCertManager | InitializeCerts
| NewPgManagerCall | StartPgManager | NewFallback | StartFallback | OpenStore | FirstPing
| NewHost | NewDiscovery | StartDiscovery | NewModes | StartModes
| NewCluster | OpenClusterStorage | OpenTransport | NewRaft | BootstrapCluster | JoinCluster
| PgReady | OpenManagedStore | LastPing | NewGrpc | StartGrpc | NewSsh | StartSsh
| Close (c : Component).

Inductive DaemonError :=
| AlreadyRunning
| StorageConfigInvalid
| ModeIncompatible (e : ModeBackendError)
| StorageNotOpened (e : OpenError)
| NoStore
| CallFailed (c : Call).

Section daemon.
(** Which calls fail, the runtimes the first manager of the database and the second one
    find, whether a database that was not ready was left running, and how the opening of a
    storage fares. *)
Variable fails : Call -> bool.
Variable pgRuntime fallbackRuntime : string.
Variable pgLeftRunning : bool.
Variable env : OpenEnv.
Variable cfg : BibdConfig.

Definition close (c : Component) (d : Daemon) : Daemon * list Call :=
  if fails (Close c) then (d, [Close c]) else (note_event (Closed c) d, []).

(** *** Certificates *)

Definition initCertificates (d : Daemon) : Daemon * option DaemonError :=
  if fails RawPrivateKey then (d, Some (CallFailed RawPrivateKey))
  else if fails NewCertManager then (d, Some (CallFailed NewCertManager))
  else if fails InitializeCerts then (d, Some (CallFailed InitializeCerts))
  else (hold CertManager_ (note_event (Opened CertManager_) d), None).

Definition stopCertificates (d : Daemon) : Daemon * list Call :=
  if has_field d CertManager_ then
    match close CertManager_ d with
    | (d, []) => (drop_field CertManager_ d, [])
    | (d, errs) => (d, errs)
    end
  else (d, []).

(** *** Storage *)

Definition startManagedPostgres (d : Daemon) : Daemon * option DaemonError :=
  if fails NewPgManagerCall then (d, Some (CallFailed NewPgManagerCall))
  else if fails StartPgManager then
    let d := if pgLeftRunning then note_event (Opened Postgres) d else d in
    if (pgRuntime =?= RuntimeKubernetes) && negb (fails NewFallback) &&
       ((fallbackRuntime =?= RuntimeDocker) || (fallbackRuntime =?= RuntimePodman)) && negb (fails StartFallback)
    then (hold Postgres (note_event (Opened Postgres) d), None)
    else (d, Some (CallFailed StartPgManager))
  else (hold Postgres (note_event (Opened Postgres) d), None).

Definition startStorage (d : Daemon) : Daemon * option DaemonError :=
  let s := convertStorageConfig cfg in
  if negb (Config_Validate (open_config s)) then (d, Some StorageConfigInvalid)
  else match ValidateModeBackend (P2P_Mode (Bibd_P2P cfg)) (ST_Backend s) with
  | Some e => (d, Some (ModeIncompatible e))
  | None =>
      if (ST_Backend s =?= BackendPostgres) && PG_Managed (ST_Postgres s) then startManagedPostgres d
      else match (Open env (open_config s) (P2P_Mode (Bibd_P2P cfg))).2 with
      | Err e => (d, Some (StorageNotOpened e))
      | Ok _ =>
          let d := note_event (Opened Store) d in
          if fails FirstPing then ((close Store d).1, Some (CallFailed FirstPing))
          else (hold Store d, None)
      end
  end.

Definition waitForStorageReady (connStr : string) (d : Daemon) : Daemon * option DaemonError :=
  let '(d, err) :=
    if has_field d Postgres then
      if fails PgReady then (d, Some (CallFailed PgReady))
      else match (Open env (open_config (managed_store_config (ST_Postgres (convertStorageConfig cfg)) connStr)) (P2P_Mode (Bibd_P2P cfg))).2 with
           | Err e => (d, Some (StorageNotOpened e))
           | Ok _ => (hold Store (note_event (Opened Store) d), None)
           end
    else (d, None) in
  match err with
  | Some e => (d, Some e)
  | None =>
      if negb (has_field d Store) then (d, Some NoStore)
      else if fails LastPing then (d, Some (CallFailed LastPing))
      else (d, None)
  end.

Definition stop_field (c : Component) (d : Daemon) : Daemon * list Call :=
  if has_field d c then let '(d, errs) := close c d in (drop_field c d, errs) else (d, []).

Definition stopStorage (d : Daemon) : Daemon * list Call :=
  let '(d, e1) := stop_field Store d in
  let '(d, e2) := stop_field Postgres d in
  (d, (e1 ++ e2)%list).

(** *** Peers *)

Definition startP2P (d : Daemon) : Daemon * option DaemonError :=
  if fails NewHost then (d, Some (CallFailed NewHost))
  else
    let d := hold Host (note_event (Opened Host) d) in
    if fails NewDiscovery then ((close Host d).1, Some (CallFailed NewDiscovery))
    else
      let d := hold Discovery_ (note_event (Opened Discovery_) d) in
      let undo (d : Daemon) := (close Host (close Discovery_ d).1).1 in
      if fails StartDiscovery then (undo d, Some (CallFailed StartDiscovery))
      else if fails NewModes then (undo d, Some (CallFailed NewModes))
      else
        let d := hold ModeManager_ d in
        if fails StartModes then (undo d, Some (CallFailed StartModes))
        else (note_event (Opened ModeManager_) d, None).

Definition stopP2P (d : Daemon) : Daemon * list Call :=
  let '(d, e1) := stop_field ModeManager_ d in
  let '(d, e2) := stop_field Discovery_ d in
  let '(d, e3) := stop_field Host d in
  (d, (e1 ++ e2 ++ e3)%list).

(** *** Cluster *)

(** [Cluster.Start]. *)
Definition openCluster (d : Daemon) : Daemon * option DaemonError :=
  if fails OpenClusterStorage then (d, Some (CallFailed OpenClusterStorage))
  else
    let d := note_event (Opened ClusterStorage) d in
    if fails OpenTransport then ((close ClusterStorage d).1, Some (CallFailed OpenTransport))
    else
      let d := note_event (Opened ClusterTransport) d in
      if fails NewRaft then ((close ClusterStorage (close ClusterTransport d).1).1, Some (CallFailed NewRaft))
      else
        let d := note_event (Opened ClusterRaft) d in
        let c := Bibd_Cluster cfg in
        if Cluster_Bootstrap c && fails BootstrapCluster then (d, Some (CallFailed BootstrapCluster))
        else if ((Cluster_JoinToken c <>? "") || (0 <? Z.of_nat (length (Cluster_JoinAddrs c)))) && fails JoinCluster
             then (d, Some (CallFailed JoinCluster))
        else (d, None).

Definition startCluster (d : Daemon) : Daemon * option DaemonError :=
  if fails NewCluster then (d, Some (CallFailed NewCluster))
  else match openCluster d with
  | (d, Some e) => (d, Some e)
  | (d, None) => (hold ClusterRaft d, None)
  end.

(** [Cluster.Stop] closes its parts whatever happens; the field stays where one failed. *)
Definition stopCluster (d : Daemon) : Daemon * list Call :=
  if has_field d ClusterRaft then
    let '(d, e1) := close ClusterRaft d in
    let '(d, e2) := close ClusterTransport d in
    let '(d, e3) := close ClusterStorage d in
    match (e1 ++ e2 ++ e3)%list with
    | [] => (drop_field ClusterRaft d, [])
    | errs => (d, errs)
    end
  else (d, []).

(** *** Servers *)

Definition startGRPCServer (d : Daemon) : Daemon * option DaemonError :=
  if fails NewGrpc then (d, Some (CallFailed NewGrpc))
  else if fails StartGrpc then (d, Some (CallFailed StartGrpc))
  else (hold GrpcServer_ (note_event (Opened GrpcServer_) d), None).

(** A stop of the server that runs out of time closes the listeners all the same. *)
Definition stopGRPCServer (d : Daemon) : Daemon * list Call :=
  if has_field d GrpcServer_ then
    let d := note_event (Closed GrpcServer_) d in
    if fails (Close GrpcServer_) then (d, [Close GrpcServer_]) else (drop_field GrpcServer_ d, [])
  else (d, []).

(** The server's listener is opened later: that it cannot be opened is not an error of
    the start. *)
Definition startSSHServer (d : Daemon) : Daemon * option DaemonError :=
  if fails NewSsh then (d, Some (CallFailed NewSsh))
  else if fails StartSsh then (d, Some (CallFailed StartSsh))
  else (hold SshServer (note_event (Opened SshServer) d), None).

Definition stopSSHServer (d : Daemon) : Daemon * list Call :=
  if has_field d SshServer then
    match close SshServer d with
    | (d, []) => (drop_field SshServer d, [])
    | (d, errs) => (d, errs)
    end
  else (d, []).

(** ** Start and stop *)

(** The removal of a file that is not there is no error. *)
Definition writePIDFile (d : Daemon) : Daemon :=
  if Server_PIDFile (Bibd_Server cfg) =?= "" then d else if fails WritePID then d else note_event (Opened PidFile) d.
Definition removePIDFile (d : Daemon) : Daemon :=
  if Server_PIDFile (Bibd_Server cfg) =?= "" then d else if mem PidFile (live d) then (close PidFile d).1 else d.

Definition stop_all (l : list (Daemon -> Daemon * list Call)) (d : Daemon) : Daemon * list Call :=
  fold_left (fun '(d, errs) stop => let '(d, e) := stop d in (d, (errs ++ e)%list)) l (d, []).

(** A step of the start, with what is stopped where it fails. *)
Definition step (enabled : bool) (start : Daemon -> Daemon * option DaemonError) (undo : list (Daemon -> Daemon * list Call))
    (rest : Daemon -> Daemon * option DaemonError) (d : Daemon) : Daemon * option DaemonError :=
  if enabled then
    match start d with
    | (d, Some e) => ((stop_all undo d).1, Some e)
    | (d, None) => rest d
    end
  else rest d.

Definition Daemon_Start (connStr : string) (d : Daemon) : Daemon * option DaemonError :=
  if D_running d then (d, Some AlreadyRunning)
  else
    let d := writePIDFile d in
    if fails LoadIdentity then (d, Some (CallFailed LoadIdentity))
    else
      let server := Bibd_Server cfg in
      (step (TLS_Enabled (Server_TLS server) || TLS_AutoGenerate (Server_TLS server)) initCertificates [] $
       step true startStorage [stopCertificates] $
       step (P2P_Enabled (Bibd_P2P cfg)) startP2P [stopStorage; stopCertificates] $
       step (Cluster_Enabled (Bibd_Cluster cfg)) startCluster [stopP2P; stopStorage; stopCertificates] $
       step true (waitForStorageReady connStr) [stopCluster; stopP2P; stopStorage; stopCertificates] $
       step (GRPC_Enabled (Server_GRPC server)) startGRPCServer [stopCluster; stopP2P; stopStorage; stopCertificates] $
       fun d =>
       step (SSH_Enabled (Bibd_SSH cfg)) startSSHServer [stopGRPCServer; stopCluster; stopP2P; stopStorage; stopCertificates]
         (fun d => (with_running true d, None)) (with_auth d)) (with_identity d).

Definition Daemon_Stop (d : Daemon) : Daemon * list Call :=
  if negb (D_running d) then (d, [])
  else
    let '(d, errs) := stop_all [stopSSHServer; stopGRPCServer; stopCluster; stopP2P; stopStorage; stopCertificates] d in
    (with_running false (removePIDFile d), errs).
End daemon.

(** [NodeID]: the configured one, else that of the host, where there is one. *)
Definition Daemon_NodeID (cfg : BibdConfig) (peerID : string) (d : Daemon) : string :=
  if Cluster_NodeID (Bibd_Cluster cfg) <>? "" then Cluster_NodeID (Bibd_Cluster cfg)
  else if has_field d Host then peerID else "standalone".

(** The identifier the storage is opened with. *)
Definition storage_node_id (cfg : BibdConfig) : string :=
  if Cluster_NodeID (Bibd_Cluster cfg) =?= "" then "standalone" else Cluster_NodeID (Bibd_Cluster cfg).

(** The addresses the health service reports, and the one the gRPC server listens on. *)
Definition ListenAddresses (cfg : BibdConfig) : list string :=
  [Server_Host (Bibd_Server cfg) ++ ":" ++ pretty (Server_Port (Bibd_Server cfg))].
Definition grpc_listen_address (cfg : BibdConfig) : string :=
  text_or (GRPC_Host (Server_GRPC (Bibd_Server cfg))) (Server_Host (Bibd_Server cfg)) ++ ":" ++ pretty (GRPC_Port (Server_GRPC (Bibd_Server cfg))).

Definition expandPath (home : option string) (path : string) : string :=
  match bytes_of path, home with
  | "~"%char :: rest, Some h => h ++ str_of rest
  | _, _ => path
  end.

(** ** The lock of the daemon while it stops

    [Stop] holds the lock of the daemon while it waits for the calls of the gRPC server to
    end; a health check asks the daemon whether it is running, which takes that lock. *)

Inductive StopPhase := Serving | Locked | Draining | Drained | TimedOut.
(** The health checks that were accepted and have not passed the lock. *)
Record LockState := mkLockState { ls_phase : StopPhase; ls_waiting : nat }.

Inductive lock_step : LockState -> LockState -> Prop :=
| ls_arrive ph n : ph = Serving \/ ph = Locked -> lock_step (mkLockState ph n) (mkLockState ph (S n))
| ls_pass n : lock_step (mkLockState Serving (S n)) (mkLockState Serving n)
| ls_lock n : lock_step (mkLockState Serving n) (mkLockState Locked n)
| ls_drain n : lock_step (mkLockState Locked n) (mkLockState Draining n)
| ls_drained : lock_step (mkLockState Draining 0) (mkLockState Drained 0)
| ls_timeout n : lock_step (mkLockState Draining n) (mkLockState TimedOut n).

(** ** Theorems *)

(** *** Configuration *)

(** What bibd's defaults make of the managed database on Linux: the defaults of the life
    cycle but for Kubernetes, whose settings are all zero, whatever is configured. *)
Theorem lifecycle_of_defaults :
  let pg := ST_Postgres (convertStorageConfig (DefaultBibdConfig "linux")) in
  let d := DefaultLifecycleConfig "linux" in
  convertToLifecycleConfig "linux" pg =
  mkLifecycleConfig (LC_Runtime d) (LC_SocketPath d) (LC_KubeconfigPath d) (LC_ContainerName d) (LC_Image d) (LC_DataDir d) (LC_Port d)
    (LC_Network d) (LC_Resources d) (LC_Health d) (LC_TLS d) zero_KubernetesConfig (LC_Credentials d) /\
  forall goos cfg, KC_StorageSize (LC_Kubernetes (convertToLifecycleConfig goos (ST_Postgres (convertStorageConfig cfg)))) = "".
Proof. split; [vm_compute; reflexivity|reflexivity]. Qed.

(** *** Connection strings *)

Definition unquoted (l : list ascii) : Prop := Forall (fun c => c <> " "%char /\ c <> "'"%char) l.

Lemma split_plain_part cur part rest : unquoted part ->
  split_conn false cur (part ++ rest) = split_conn false (cur ++ part) rest.
Proof.
  revert cur. induction part as [|c part IH]; intros cur Hp; [by rewrite app_nil_r|]. inversion_clear Hp as [|?? [Hs Hq] Hp'].
  cbn [app split_conn]. rewrite (bool_decide_eq_false_2 (c = "'"%char)), (bool_decide_eq_false_2 (c = " "%char)) by done.
  rewrite IH by done. by rewrite <- app_assoc.
Qed.

Lemma split_plain_parts parts : Forall (fun p => unquoted p /\ p <> []) parts -> split_conn false [] (join_with [" "%char] parts) = parts.
Proof.
  induction parts as [|p parts IH]; [done|]. intros [[Hp Hne] Hps]%Forall_cons. destruct parts as [|q parts].
  - cbn [join_with]. rewrite <- (app_nil_r p) at 1. rewrite split_plain_part by done. cbn. by rewrite bool_decide_eq_false_2.
  - change (join_with [" "%char] (p :: q :: parts)) with (p ++ " "%char :: join_with [" "%char] (q :: parts))%list.
    rewrite split_plain_part by done. cbn [app split_conn]. change (" "%char =?= "'"%char) with false. change (" "%char =?= " "%char) with true.
    cbn iota. rewrite bool_decide_eq_false_2 by done. f_equal. by apply IH.
Qed.

Lemma cut_equals_app k v : Forall (fun c => c <> "="%char) k -> cut_equals (k ++ "="%char :: v) = Some (k, v).
Proof.
  induction k as [|c k IH]; [done|]. intros [Hc Hk]%Forall_cons. cbn [app cut_equals]. rewrite bool_decide_eq_false_2 by done. by rewrite IH.
Qed.

Lemma digits_plain l : digits_only l = true -> unquoted l.
Proof.
  unfold digits_only. intros [_ H]%andb_true_iff. rewrite forallb_forall in H. apply Forall_forall. intros c Hc.
  apply list_elem_of_In, H in Hc. by split; intros ->.
Qed.

Lemma conn_text_joined host port password sslmode :
  bytes_of (conn_text host port password sslmode) =
  join_with [" "%char] (map bytes_of ["host=" ++ host; "port=" ++ pretty port; "user=postgres"; "password=" ++ password; "dbname=bibd"; "sslmode=" ++ sslmode]).
Proof. unfold conn_text. rewrite !bytes_of_append. cbn. rewrite !bytes_of_append. cbn. by repeat (rewrite <- ?app_assoc; cbn). Qed.

Lemma plain_text (s : string) : forallb (fun c => negb (c =?= " "%char) && negb (c =?= "'"%char)) (bytes_of s) = true -> unquoted (bytes_of s).
Proof.
  intros H. rewrite forallb_forall in H. apply Forall_forall. intros c Hc%list_elem_of_In%H.
  apply andb_true_iff in Hc as [H1%negb_true_iff%bool_decide_eq_false H2%negb_true_iff%bool_decide_eq_false]. by split.
Qed.

Lemma conn_parts_text host port password : 0 <= port -> unquoted (bytes_of host) -> unquoted (bytes_of password) ->
  conn_parts (conn_text host port password "disable") =
  <["sslmode" := "disable"]> (<["dbname" := "bibd"]> (<["password" := password]> (<["user" := "postgres"]>
    (<["port" := pretty port]> (<["host" := host]> ∅))))).
Proof.
  intros Hport Hh Hp. unfold conn_parts, splitConnectionString. rewrite conn_text_joined, split_plain_parts.
  2: { pose proof (digits_plain _ (proj2 (pretty_digits port Hport))) as Hpp.
       repeat constructor; try (intros H; discriminate H).
       all: first [exact Hpp|exact Hh|exact Hp]. }
  rewrite map_map, (map_ext _ (fun s => s)) by apply String.string_of_list_ascii_of_string. rewrite map_id. cbn [fold_left].
  assert (Hcut : forall k v, Forall (fun c => c <> "="%char) (bytes_of k) ->
    cut_equals (bytes_of (k ++ "=" ++ v)) = Some (bytes_of k, bytes_of v)).
  { intros k v Hk. rewrite !bytes_of_append. by apply cut_equals_app. }
  change ("host=" ++ host) with ("host" ++ "=" ++ host). change ("port=" ++ pretty port) with ("port" ++ "=" ++ pretty port).
  change ("password=" ++ password) with ("password" ++ "=" ++ password). change "user=postgres" with ("user" ++ "=" ++ "postgres").
  change "dbname=bibd" with ("dbname" ++ "=" ++ "bibd"). change ("sslmode=" ++ "disable") with ("sslmode" ++ "=" ++ "disable").
  rewrite !Hcut by (repeat constructor; discriminate). by rewrite !String.string_of_list_ascii_of_string.
Qed.

(** The daemon connects to the managed database with the address, the port and the
    password the manager's connection string has, if neither has a blank or a quote. *)
Theorem managed_connection_round_trip m info namespace text pg c :
  ConnectionString info namespace m = Some text -> M_credentials m = Some c -> PG_Advanced pg = None ->
  M_runtime m <> RuntimeKubernetes -> 0 <= LC_Port (M_cfg m) < 2 ^ 63 ->
  let host := if NC_UseUnixSocket (LC_Network (M_cfg m)) then path_of [LC_DataDir (M_cfg m); "run"] else NC_BindAddress (LC_Network (M_cfg m)) in
  unquoted (bytes_of host) -> unquoted (bytes_of (Cr_SuperuserPassword c)) ->
  PG_Advanced (ST_Postgres (managed_store_config pg text)) =
    Some (mkPostgresAdvancedConfig host (LC_Port (M_cfg m)) "bibd" "postgres" (Cr_SuperuserPassword c) "disable") /\
  Config_Validate (open_config (managed_store_config pg text)) = true.
Proof.
  intros Ht Hc Ha Hrt Hport host Hh Hp. split; [|reflexivity].
  assert (Htext : text = conn_text host (LC_Port (M_cfg m)) (Cr_SuperuserPassword c) "disable").
  { revert Ht. unfold ConnectionString. rewrite Hc, bool_decide_eq_false_2 by done. subst host. by case_match; intros [= <-]. }
  clear Ht. cbn [managed_store_config ST_Postgres PG_Advanced]. rewrite Ha. cbn [default]. unfold managed_advanced.
  rewrite Htext, conn_parts_text by (done || lia). repeat (rewrite ?lookup_insert_eq, ?lookup_insert_ne by done). cbn [default].
  by rewrite Atoi_pretty.
Qed.

(** *** Starting and stopping *)

Lemma live_open c d x : x ∈ live (note_event (Opened c) d) <-> x = c \/ x ∈ live d.
Proof. unfold live. cbn [note_event D_log]. rewrite fold_left_app. cbn. rewrite elem_of_add_new. tauto. Qed.
Lemma live_close c d x : x ∈ live (note_event (Closed c) d) <-> x <> c /\ x ∈ live d.
Proof. unfold live. cbn [note_event D_log]. rewrite fold_left_app. cbn. by rewrite list_elem_of_filter. Qed.
Lemma held_hold c d x : x ∈ D_held (hold c d) <-> x = c \/ x ∈ D_held d.
Proof. cbn [hold D_held]. rewrite elem_of_add_new. tauto. Qed.
Lemma held_drop c d x : x ∈ D_held (drop_field c d) <-> x <> c /\ x ∈ D_held d.
Proof. cbn [drop_field D_held]. by rewrite list_elem_of_filter. Qed.
Lemma has_field_true d c : has_field d c = true <-> c ∈ D_held d.
Proof. apply mem_true. Qed.
Lemma has_field_false d c : has_field d c = false <-> c ∉ D_held d.
Proof. apply mem_false. Qed.

(** The field that answers for a component. *)
Definition field_of (c : Component) : Component := match c with ClusterStorage | ClusterTransport => ClusterRaft | _ => c end.

(** What is open is the PID file or one of [P], and the daemon has a field for it. *)
Definition covered (P : Component -> Prop) (d : Daemon) : Prop :=
  forall c, c ∈ live d -> c = PidFile \/ (P c /\ field_of c ∈ D_held d).

Lemma covered_weaken (P Q : Component -> Prop) d : (forall c, P c -> Q c) -> covered P d -> covered Q d.
Proof. intros H Hc c Hl. destruct (Hc c Hl) as [?|[? ?]]; auto. Qed.
Lemma covered_open P d c : covered P d -> covered (fun x => x = c \/ P x) (hold (field_of c) (note_event (Opened c) d)).
Proof.
  intros H x Hx. apply live_open in Hx as [-> |Hx]; [right; split; [by left|]; apply held_hold; by left|].
  destruct (H x Hx) as [?|[? ?]]; [by left|]. right. split; [by right|]. apply held_hold. by right.
Qed.
Lemma covered_hold P d c : covered P d -> covered P (hold c d).
Proof. intros H x Hx. destruct (H x Hx) as [?|[? ?]]; [by left|]. right. split; [done|]. apply held_hold. by right. Qed.
Lemma covered_close P d c : covered P d -> covered (fun x => x <> c /\ P x) (note_event (Closed c) d).
Proof. intros H x [Hne Hx]%live_close. destruct (H x Hx) as [?|[? ?]]; [by left|]. right. by split. Qed.
Lemma covered_drop P d c : (forall x, P x -> field_of x <> c) -> covered P d -> covered P (drop_field c d).
Proof. intros Hf H x Hx. destruct (H x Hx) as [?|[? ?]]; [by left|]. right. split; [done|]. apply held_drop. auto. Qed.
(** Without the field, nothing it answers for is open. *)
Lemma covered_absent P d c : c ∉ D_held d -> covered P d -> covered (fun x => field_of x <> c /\ P x) d.
Proof. intros Hn H x Hx. destruct (H x Hx) as [?|[? ?]]; [by left|]. right. split; [|done]. split; [congruence|done]. Qed.

Section start_stop.
Variable fails : Call -> bool.
Variable pgRuntime fallbackRuntime : string.
Variable env : OpenEnv.
Variable cfg : BibdConfig.
Hypothesis closes : forall c, fails (Close c) = false.

Lemma stop_field_covered P d c : field_of c = c -> c <> ClusterRaft -> covered P d ->
  covered (fun x => field_of x <> c /\ P x) (stop_field fails c d).1 /\ (stop_field fails c d).2 = [].
Proof.
  intros Hf Hr H. unfold stop_field, close. rewrite closes. destruct (has_field d c) eqn:Hh.
  - split; [|done]. cbn [fst]. apply covered_drop; [by intros x [? _]|]. eapply covered_weaken; [|by apply covered_close].
    intros x [Hne HP]. split; [|done]. destruct x; cbn in *; congruence.
  - split; [|done]. by apply covered_absent; [apply has_field_false|].
Qed.

Definition of_storage (x : Component) : Prop := x = Store \/ x = Postgres.
Definition of_p2p (x : Component) : Prop := x = ModeManager_ \/ x = Discovery_ \/ x = Host.
Definition of_cluster (x : Component) : Prop := field_of x = ClusterRaft.

Lemma stopStorage_covered P d : covered P d ->
  covered (fun x => ~ of_storage x /\ P x) (stopStorage fails d).1 /\ (stopStorage fails d).2 = [].
Proof.
  intros H. unfold stopStorage. destruct (stop_field_covered P d Store eq_refl ltac:(done) H) as [H1 E1].
  destruct (stop_field fails Store d) as [d1 e1]. cbn in H1, E1.
  destruct (stop_field_covered _ d1 Postgres eq_refl ltac:(done) H1) as [H2 E2].
  destruct (stop_field fails Postgres d1) as [d2 e2]. cbn in *. subst. split; [|done].
  eapply covered_weaken; [|exact H2]. intros x (? & ? & ?). split; [|done]. intros [-> | ->]; done.
Qed.

Lemma stopP2P_covered P d : covered P d -> covered (fun x => ~ of_p2p x /\ P x) (stopP2P fails d).1 /\ (stopP2P fails d).2 = [].
Proof.
  intros H. unfold stopP2P. destruct (stop_field_covered P d ModeManager_ eq_refl ltac:(done) H) as [H1 E1].
  destruct (stop_field fails ModeManager_ d) as [d1 e1]. cbn in H1, E1.
  destruct (stop_field_covered _ d1 Discovery_ eq_refl ltac:(done) H1) as [H2 E2].
  destruct (stop_field fails Discovery_ d1) as [d2 e2]. cbn in H2, E2.
  destruct (stop_field_covered _ d2 Host eq_refl ltac:(done) H2) as [H3 E3].
  destruct (stop_field fails Host d2) as [d3 e3]. cbn in *. subst. split; [|done].
  eapply covered_weaken; [|exact H3]. intros x (? & ? & ? & ?). split; [|done]. intros [-> |[-> | ->]]; done.
Qed.

Lemma stopCluster_covered P d : covered P d -> covered (fun x => ~ of_cluster x /\ P x) (stopCluster fails d).1 /\ (stopCluster fails d).2 = [].
Proof.
  intros H. unfold stopCluster, close. rewrite !closes. destruct (has_field d ClusterRaft) eqn:Hh; cbn.
  - split; [|done]. apply covered_drop; [by intros x [? _]|].
    eapply covered_weaken; [|do 3 apply covered_close; exact H]. intros x (? & ? & ? & ?). split; [|done]. by destruct x.
  - split; [|done]. by apply covered_absent; [apply has_field_false|].
Qed.

Lemma stop_single_covered P d c (stop : Daemon -> Daemon * list Call) : field_of c = c -> c <> ClusterRaft ->
  (forall d, stop d = if has_field d c then (drop_field c (note_event (Closed c) d), []) else (d, [])) ->
  covered P d -> covered (fun x => field_of x <> c /\ P x) (stop d).1 /\ (stop d).2 = [].
Proof.
  intros Hf Hr Hs H. rewrite Hs. destruct (has_field d c) eqn:Hh.
  - split; [|done]. cbn [fst]. apply covered_drop; [by intros x [? _]|]. eapply covered_weaken; [|by apply covered_close].
    intros x [Hne HP]. split; [|done]. destruct x; cbn in *; congruence.
  - split; [|done]. by apply covered_absent; [apply has_field_false|].
Qed.

Lemma stopCertificates_is d : stopCertificates fails d = if has_field d CertManager_ then (drop_field CertManager_ (note_event (Closed CertManager_) d), []) else (d, []).
Proof. unfold stopCertificates, close. by rewrite closes. Qed.
Lemma stopGRPC_is d : stopGRPCServer fails d = if has_field d GrpcServer_ then (drop_field GrpcServer_ (note_event (Closed GrpcServer_) d), []) else (d, []).
Proof. unfold stopGRPCServer. by rewrite closes. Qed.
Lemma stopSSH_is d : stopSSHServer fails d = if has_field d SshServer then (drop_field SshServer (note_event (Closed SshServer) d), []) else (d, []).
Proof. unfold stopSSHServer, close. by rewrite closes. Qed.

Lemma stop_all_cons stop l d : stop_all (stop :: l) d = ((stop_all l (stop d).1).1, ((stop d).2 ++ (stop_all l (stop d).1).2)%list).
Proof.
  unfold stop_all at 1. cbn [fold_left]. destruct (stop d) as [d1 e1]. cbn [fst snd app].
  assert (Hg : forall l d e, fold_left (fun '(d, errs) (s : Daemon -> Daemon * list Call) => let '(d', e) := s d in (d', (errs ++ e)%list)) l (d, e) =
    ((stop_all l d).1, (e ++ (stop_all l d).2)%list)).
  { clear. induction l as [|s l IH]; intros d e; [cbn; by rewrite app_nil_r|]. cbn [fold_left]. unfold stop_all. cbn [fold_left].
    destruct (s d) as [d1 e1]. cbn [app]. rewrite (IH d1 (e ++ e1)%list), (IH d1 e1). cbn. by rewrite app_assoc. }
  apply Hg.
Qed.

(** A stop that takes care of [X], and a start that opens [X], or no more than [Y]
    where it fails. *)
Definition stops (stop : Daemon -> Daemon * list Call) (X : Component -> Prop) : Prop :=
  forall P d, covered P d -> covered (fun x => ~ X x /\ P x) (stop d).1 /\ (stop d).2 = [].
Definition start_adds (start : Daemon -> Daemon * option DaemonError) (Y X : Component -> Prop) : Prop :=
  forall P d, covered P d ->
  match start d with
  | (d', None) => covered (fun x => X x \/ P x) d'
  | (d', Some _) => covered (fun x => Y x \/ P x) d'
  end.
Definition nothing (c : Component) : Prop := False.

Lemma stop_all_covered l Xs : Forall2 stops l Xs -> forall P d, covered P d ->
  covered (fun x => Forall (fun X : Component -> Prop => ~ X x) Xs /\ P x) (stop_all l d).1 /\ (stop_all l d).2 = [].
Proof.
  induction 1 as [|stop X l Xs Hs _ IH]; intros P d Hc; [split; [|done]; cbn; eapply covered_weaken; [|exact Hc]; by split|].
  rewrite stop_all_cons. cbn [fst snd]. destruct (Hs P d Hc) as [H1 ->]. destruct (IH _ _ H1) as [H2 ->].
  split; [|done]. eapply covered_weaken; [|exact H2]. intros x (Hf & Hx & HP). split; [|done]. by constructor.
Qed.

Lemma stops_certs : stops (stopCertificates fails) (fun x => x = CertManager_).
Proof.
  intros P d H. destruct (stop_single_covered P d CertManager_ (stopCertificates fails) eq_refl ltac:(done) stopCertificates_is H) as [H1 ->].
  split; [|done]. eapply covered_weaken; [|exact H1]. intros x [Hx HP]. split; [|done]. intros ->. done.
Qed.
Lemma stops_storage : stops (stopStorage fails) of_storage.
Proof. intros P d H. by apply stopStorage_covered. Qed.
Lemma stops_p2p : stops (stopP2P fails) of_p2p.
Proof. intros P d H. by apply stopP2P_covered. Qed.
Lemma stops_cluster : stops (stopCluster fails) of_cluster.
Proof. intros P d H. by apply stopCluster_covered. Qed.
Lemma stops_grpc : stops (stopGRPCServer fails) (fun x => x = GrpcServer_).
Proof.
  intros P d H. destruct (stop_single_covered P d GrpcServer_ (stopGRPCServer fails) eq_refl ltac:(done) stopGRPC_is H) as [H1 ->].
  split; [|done]. eapply covered_weaken; [|exact H1]. intros x [Hx HP]. split; [|done]. intros ->. done.
Qed.
Lemma stops_ssh : stops (stopSSHServer fails) (fun x => x = SshServer).
Proof.
  intros P d H. destruct (stop_single_covered P d SshServer (stopSSHServer fails) eq_refl ltac:(done) stopSSH_is H) as [H1 ->].
  split; [|done]. eapply covered_weaken; [|exact H1]. intros x [Hx HP]. split; [|done]. intros ->. done.
Qed.

Lemma covered_nothing P d : covered P d -> covered (fun x => nothing x \/ P x) d.
Proof. apply covered_weaken. by right. Qed.

Lemma starts_certs : start_adds (initCertificates fails) nothing (fun x => x = CertManager_).
Proof.
  intros P d H. pose proof (covered_nothing P d H). unfold initCertificates.
  destruct (fails RawPrivateKey); [done|]. destruct (fails NewCertManager); [done|]. destruct (fails InitializeCerts); [done|].
  by apply (covered_open P d CertManager_).
Qed.

Lemma starts_postgres : start_adds (startManagedPostgres fails pgRuntime fallbackRuntime false) nothing of_storage.
Proof.
  intros P d H. pose proof (covered_nothing P d H). assert (Ho : covered (fun x => of_storage x \/ P x) (hold Postgres (note_event (Opened Postgres) d))).
  { eapply covered_weaken; [|by apply (covered_open P d Postgres)]. intros x [-> |?]; [left; by right|by right]. }
  unfold startManagedPostgres. destruct (fails NewPgManagerCall); [done|]. destruct (fails StartPgManager); [|done].
  by destruct (_ && _ && _ && _).
Qed.

Lemma open_close P d c : covered P d -> covered P (note_event (Closed c) (note_event (Opened c) d)).
Proof. intros H x [Hne Hx]%live_close. apply live_open in Hx as [-> |Hx]; [done|]. exact (H x Hx). Qed.

Lemma starts_storage : start_adds (startStorage fails pgRuntime fallbackRuntime false env cfg) nothing of_storage.
Proof.
  intros P d H. pose proof (covered_nothing P d H). unfold startStorage. cbv zeta. destruct (negb _); [done|].
  destruct (ValidateModeBackend _ _); [done|]. destruct (_ && _); [by apply starts_postgres|].
  destruct (Open _ _ _).2; [|done]. unfold close. rewrite closes. destruct (fails FirstPing).
  - by apply open_close.
  - eapply covered_weaken; [|by apply (covered_open P d Store)]. intros x [-> |?]; [left; by left|by right].
Qed.

Lemma starts_wait connStr : start_adds (waitForStorageReady fails env cfg connStr) (fun x => x = Store) (fun x => x = Store).
Proof.
  intros P d H. assert (Hw : covered (fun x => x = Store \/ P x) d) by (eapply covered_weaken; [|exact H]; by right).
  pose proof (covered_open P d Store H) as Ho. cbn [field_of] in Ho. unfold waitForStorageReady. destruct (has_field d Postgres).
  - destruct (fails PgReady); [done|]. destruct (Open _ _ _).2; [|done].
    destruct (negb _); [done|]. by destruct (fails LastPing).
  - destruct (negb _); [done|]. by destruct (fails LastPing).
Qed.

Lemma starts_p2p : start_adds (startP2P fails) nothing of_p2p.
Proof.
  intros P d H. unfold startP2P. destruct (fails NewHost); [by apply covered_nothing|]. set (d1 := hold Host _).
  assert (H1 : covered (fun x => x = Host \/ P x) d1) by (by apply (covered_open P d Host)). unfold close. rewrite !closes. cbn [fst].
  destruct (fails NewDiscovery).
  { eapply covered_weaken; [|apply covered_close; exact H1]. intros x [? [?|?]]; [done|by right]. }
  set (d2 := hold Discovery_ _).
  assert (H2 : covered (fun x => x = Discovery_ \/ x = Host \/ P x) d2) by (by apply (covered_open _ d1 Discovery_)).
  assert (Hundo : forall d, covered (fun x => x = Discovery_ \/ x = Host \/ P x) d ->
    covered (fun x => nothing x \/ P x) (note_event (Closed Host) (note_event (Closed Discovery_) d))).
  { intros d' Hd. eapply covered_weaken; [|apply covered_close, covered_close; exact Hd]. intros x (? & ? & [?|[?|?]]); [done|done|by right]. }
  destruct (fails StartDiscovery); [by apply Hundo|]. destruct (fails NewModes); [by apply Hundo|].
  destruct (fails StartModes); [by apply Hundo, covered_hold|].
  assert (H3 : covered (fun x => x = ModeManager_ \/ x = Discovery_ \/ x = Host \/ P x) (note_event (Opened ModeManager_) (hold ModeManager_ d2)))
    by (by apply (covered_open _ d2 ModeManager_)).
  eapply covered_weaken; [|exact H3]. unfold of_p2p. tauto.
Qed.

(** The last steps of the start of the cluster do not fail. *)
Definition joins : Prop := fails BootstrapCluster = false /\ fails JoinCluster = false.

Lemma starts_cluster : joins -> start_adds (startCluster fails cfg) nothing of_cluster.
Proof.
  intros [Hb Hj] P d H. pose proof (covered_nothing P d H). unfold startCluster, openCluster, close. rewrite !closes, Hb, Hj, !andb_false_r. cbn [fst].
  destruct (fails NewCluster); [done|]. destruct (fails OpenClusterStorage); [done|]. destruct (fails OpenTransport); [by apply open_close|].
  destruct (fails NewRaft).
  { intros x Hx. rewrite !live_close, !live_open in Hx. destruct Hx as (? & ? & [?|[?|Hx]]); [done|done|].
    by destruct (H x Hx) as [?|[? ?]]; [left|right; split; [right|]]. }
  intros x Hx. change (live (hold ClusterRaft ?d)) with (live d) in Hx. rewrite !live_open in Hx.
  destruct (decide (of_cluster x)) as [Hc|Hc].
  - right. split; [by left|]. apply held_hold. left. exact Hc.
  - destruct Hx as [-> |[-> |[-> |Hx]]]; [by destruct Hc..|].
    destruct (H x Hx) as [?|[? ?]]; [by left|]. right. split; [by right|]. apply held_hold. by right.
Qed.

Lemma starts_grpc : start_adds (startGRPCServer fails) nothing (fun x => x = GrpcServer_).
Proof.
  intros P d H. pose proof (covered_nothing P d H). unfold startGRPCServer. destruct (fails NewGrpc); [done|]. destruct (fails StartGrpc); [done|].
  by apply (covered_open P d GrpcServer_).
Qed.
Lemma starts_ssh : start_adds (startSSHServer fails) nothing (fun x => x = SshServer).
Proof.
  intros P d H. pose proof (covered_nothing P d H). unfold startSSHServer. destruct (fails NewSsh); [done|]. destruct (fails StartSsh); [done|].
  by apply (covered_open P d SshServer).
Qed.

(** None of the steps but the last makes the daemon run. *)
Definition keeps_running {A} (f : Daemon -> Daemon * A) : Prop := forall d, D_running (f d).1 = D_running d.

Lemma keeps_stop_field c : keeps_running (stop_field fails c).
Proof. intros d. unfold stop_field, close. by destruct (has_field d c), (fails (Close c)). Qed.
Lemma keeps_certs : keeps_running (stopCertificates fails).
Proof. intros d. rewrite stopCertificates_is. by case_match. Qed.
Lemma keeps_storage : keeps_running (stopStorage fails).
Proof.
  intros d. unfold stopStorage. pose proof (keeps_stop_field Store d) as H1. destruct (stop_field fails Store d) as [d1 e1].
  pose proof (keeps_stop_field Postgres d1) as H2. destruct (stop_field fails Postgres d1). cbn in *. congruence.
Qed.
Lemma keeps_p2p : keeps_running (stopP2P fails).
Proof.
  intros d. unfold stopP2P. pose proof (keeps_stop_field ModeManager_ d) as H1. destruct (stop_field fails ModeManager_ d) as [d1 e1].
  pose proof (keeps_stop_field Discovery_ d1) as H2. destruct (stop_field fails Discovery_ d1) as [d2 e2].
  pose proof (keeps_stop_field Host d2) as H3. destruct (stop_field fails Host d2). cbn in *. congruence.
Qed.
Lemma keeps_cluster : keeps_running (stopCluster fails).
Proof. intros d. unfold stopCluster, close. rewrite !closes. by destruct (has_field d ClusterRaft). Qed.
Lemma keeps_grpc : keeps_running (stopGRPCServer fails).
Proof. intros d. rewrite stopGRPC_is. by case_match. Qed.

Lemma keeps_stop_all l : Forall keeps_running l -> keeps_running (stop_all l).
Proof. induction 1 as [|stop l Hs _ IH]; intros d; [done|]. rewrite stop_all_cons. cbn [fst]. by rewrite IH, Hs. Qed.

Lemma runs_certs : keeps_running (initCertificates fails).
Proof. intros d. unfold initCertificates. by destruct (fails RawPrivateKey), (fails NewCertManager), (fails InitializeCerts). Qed.
Lemma runs_storage : keeps_running (startStorage fails pgRuntime fallbackRuntime false env cfg).
Proof.
  intros d. unfold startStorage, startManagedPostgres, close. cbv zeta. rewrite closes. destruct (negb _); [done|].
  destruct (ValidateModeBackend _ _); [done|]. destruct (_ && _).
  - destruct (fails NewPgManagerCall); [done|]. destruct (fails StartPgManager); [|done]. by destruct (_ && _ && _ && _).
  - destruct (Open _ _ _).2; [|done]. by destruct (fails FirstPing).
Qed.
Lemma runs_p2p : keeps_running (startP2P fails).
Proof.
  intros d. unfold startP2P, close. rewrite !closes.
  by destruct (fails NewHost), (fails NewDiscovery), (fails StartDiscovery), (fails NewModes), (fails StartModes).
Qed.
Lemma runs_cluster : keeps_running (startCluster fails cfg).
Proof.
  intros d. unfold startCluster, openCluster, close. rewrite !closes.
  destruct (fails NewCluster), (fails OpenClusterStorage), (fails OpenTransport), (fails NewRaft); try done.
  destruct (_ && _); [done|]. by destruct (_ && _).
Qed.
Lemma runs_wait connStr : keeps_running (waitForStorageReady fails env cfg connStr).
Proof.
  intros d. unfold waitForStorageReady. destruct (has_field d Postgres).
  - destruct (fails PgReady); [done|]. destruct (Open _ _ _).2; [|done]. destruct (negb _); [done|]. by destruct (fails LastPing).
  - destruct (negb _); [done|]. by destruct (fails LastPing).
Qed.
Lemma runs_grpc : keeps_running (startGRPCServer fails).
Proof. intros d. unfold startGRPCServer. by destruct (fails NewGrpc), (fails StartGrpc). Qed.
Lemma runs_ssh : keeps_running (startSSHServer fails).
Proof. intros d. unfold startSSHServer. by destruct (fails NewSsh), (fails StartSsh). Qed.

(** What a start that fails has to leave. *)
Definition undone (r : Daemon * option DaemonError) : Prop :=
  match r with
  | (d, Some _) => D_running d = false /\ covered nothing d
  | (_, None) => True
  end.

Lemma step_undone enabled start undo rest Y X P d (Xs : list (Component -> Prop)) :
  covered P d -> D_running d = false -> start_adds start Y X -> keeps_running start ->
  Forall2 stops undo Xs -> Forall keeps_running undo ->
  (forall x, Y x \/ P x -> Exists (fun X : Component -> Prop => X x) Xs) ->
  (forall d, covered (fun x => X x \/ P x) d -> D_running d = false -> undone (rest d)) ->
  undone (step enabled start undo rest d).
Proof.
  intros Hc Hr Hs Hk Hu Hku Hcov Hrest. unfold step. destruct enabled.
  - pose proof (Hs P d Hc) as H. pose proof (Hk d) as Hk'. destruct (start d) as [d1 [e|]].
    + cbn [undone]. split; [rewrite (keeps_stop_all undo Hku); cbn in Hk'; congruence|].
      destruct (stop_all_covered undo Xs Hu _ d1 H) as [H1 _]. eapply covered_weaken; [|exact H1].
      intros x [Hf HP]. specialize (Hcov x HP). unfold nothing. apply Exists_exists in Hcov as (Z & HZ & Hx). rewrite Forall_forall in Hf. by apply (Hf Z).
    + apply Hrest; [exact H|cbn in Hk'; congruence].
  - apply Hrest; [|done]. eapply covered_weaken; [|exact Hc]. by right.
Qed.

Lemma new_covered d : live d = [] \/ live d = [PidFile] -> covered nothing d.
Proof. intros H c Hc. left. destruct H as [H|H]; rewrite H in Hc; [by apply elem_of_nil in Hc|by apply list_elem_of_singleton in Hc]. Qed.

Ltac stops_tac := repeat match goal with
  | |- Forall2 _ [] [] => constructor
  | |- Forall2 _ (_ :: _) _ => constructor; [first [apply stops_certs|apply stops_storage|apply stops_p2p|apply stops_cluster|apply stops_grpc]|]
  end.
Ltac keeps_tac := repeat match goal with
  | |- Forall _ [] => constructor
  | |- Forall _ (_ :: _) => constructor; [first [apply keeps_certs|apply keeps_storage|apply keeps_p2p|apply keeps_cluster|apply keeps_grpc]|]
  end.
Ltac exists_tac := intros x; rewrite ?Exists_cons, ?Exists_nil; unfold nothing, of_storage in *; tauto.

(** A start that fails is undone: the property is at the end of the section. *)
Lemma start_undone connStr d e :
  joins -> Daemon_Start fails pgRuntime fallbackRuntime false env cfg connStr NewDaemon = (d, Some e) ->
  D_running d = false /\ forall c, c ∈ live d -> c = PidFile.
Proof.
  intros Hj Hst. set (C := fun x => x = CertManager_). set (G := fun x => x = GrpcServer_).
  assert (Hu : undone (Daemon_Start fails pgRuntime fallbackRuntime false env cfg connStr NewDaemon)).
  2: { rewrite Hst in Hu. destruct Hu as [Hr Hc]. split; [done|]. intros c Hl. by destruct (Hc c Hl) as [?|[[] _]]. }
  clear Hst. unfold Daemon_Start. change (D_running NewDaemon) with false. cbn iota. set (d0 := writePIDFile fails cfg NewDaemon).
  assert (H0 : covered nothing d0 /\ D_running d0 = false).
  { subst d0. unfold writePIDFile. case_match; [|case_match]; (split; [apply new_covered|done]); [by left|by left|by right]. }
  destruct H0 as [Hc0 Hr0]. destruct (fails LoadIdentity); [by split|].
  eapply (step_undone _ _ [] _ nothing C nothing _ []); [exact Hc0|exact Hr0|apply starts_certs|apply runs_certs|constructor|constructor|exists_tac|].
  intros d1 Hc1 Hr1. eapply (step_undone _ _ _ _ nothing of_storage _ d1 [C]);
    [exact Hc1|exact Hr1|apply starts_storage|apply runs_storage|stops_tac|keeps_tac|exists_tac|].
  intros d2 Hc2 Hr2. eapply (step_undone _ _ _ _ nothing of_p2p _ d2 [of_storage; C]);
    [exact Hc2|exact Hr2|apply starts_p2p|apply runs_p2p|stops_tac|keeps_tac|exists_tac|].
  intros d3 Hc3 Hr3. eapply (step_undone _ _ _ _ nothing of_cluster _ d3 [of_p2p; of_storage; C]);
    [exact Hc3|exact Hr3|by apply starts_cluster|apply runs_cluster|stops_tac|keeps_tac|exists_tac|].
  intros d4 Hc4 Hr4. eapply (step_undone _ _ _ _ _ _ _ d4 [of_cluster; of_p2p; of_storage; C]);
    [exact Hc4|exact Hr4|apply starts_wait|apply runs_wait|stops_tac|keeps_tac|exists_tac|].
  intros d5 Hc5 Hr5. eapply (step_undone _ _ _ _ nothing G _ d5 [of_cluster; of_p2p; of_storage; C]);
    [exact Hc5|exact Hr5|apply starts_grpc|apply runs_grpc|stops_tac|keeps_tac|exists_tac|].
  intros d6 Hc6 Hr6. eapply (step_undone _ _ _ _ nothing (fun x => x = SshServer) _ (with_auth d6) [G; of_cluster; of_p2p; of_storage; C]);
    [exact Hc6|exact Hr6|apply starts_ssh|apply runs_ssh|stops_tac|keeps_tac|exists_tac|done].
Qed.

(** *** A start that succeeds *)

Lemma step_done enabled start undo rest d d' : step enabled start undo rest d = (d', None) ->
  exists d1, (if enabled then start d = (d1, None) else d1 = d) /\ rest d1 = (d', None).
Proof.
  unfold step. destruct enabled; [|intros H; by exists d]. destruct (start d) as [d1 [e|]]; [done|]. intros H. by exists d1.
Qed.

Definition managed : bool :=
  (ST_Backend (convertStorageConfig cfg) =?= BackendPostgres) && PG_Managed (ST_Postgres (convertStorageConfig cfg)).

Lemma certs_done d d' : initCertificates fails d = (d', None) -> d' = hold CertManager_ (note_event (Opened CertManager_) d).
Proof.
  unfold initCertificates. destruct (fails RawPrivateKey); [done|]. destruct (fails NewCertManager); [done|].
  destruct (fails InitializeCerts); [done|]. by intros [= <-].
Qed.
Lemma storage_done d d' : startStorage fails pgRuntime fallbackRuntime false env cfg d = (d', None) ->
  d' = let c := if managed then Postgres else Store in
       hold c (note_event (Opened c) d).
Proof.
  unfold startStorage, managed. cbv zeta. destruct (negb _); [done|]. destruct (ValidateModeBackend _ _); [done|].
  destruct (_ && _).
  - unfold startManagedPostgres. destruct (fails NewPgManagerCall); [done|]. destruct (fails StartPgManager); [|by intros [= <-]].
    destruct (_ && _ && _ && _); [by intros [= <-]|done].
  - destruct (Open _ _ _).2; [|done]. destruct (fails FirstPing); [done|]. by intros [= <-].
Qed.
Lemma p2p_done d d' : startP2P fails d = (d', None) ->
  d' = note_event (Opened ModeManager_) (hold ModeManager_ (hold Discovery_ (note_event (Opened Discovery_) (hold Host (note_event (Opened Host) d))))).
Proof.
  unfold startP2P. destruct (fails NewHost); [done|]. destruct (fails NewDiscovery); [done|]. destruct (fails StartDiscovery); [done|].
  destruct (fails NewModes); [done|]. destruct (fails StartModes); [done|]. by intros [= <-].
Qed.
Lemma cluster_done d d' : startCluster fails cfg d = (d', None) ->
  d' = hold ClusterRaft (note_event (Opened ClusterRaft) (note_event (Opened ClusterTransport) (note_event (Opened ClusterStorage) d))).
Proof.
  unfold startCluster, openCluster. destruct (fails NewCluster); [done|]. destruct (fails OpenClusterStorage); [done|].
  destruct (fails OpenTransport); [done|]. destruct (fails NewRaft); [done|]. destruct (_ && _); [done|]. destruct (_ && _); [done|].
  by intros [= <-].
Qed.
Lemma wait_done connStr d d' : waitForStorageReady fails env cfg connStr d = (d', None) ->
  (d' = if has_field d Postgres then hold Store (note_event (Opened Store) d) else d) /\ has_field d' Store = true.
Proof.
  unfold waitForStorageReady. destruct (has_field d Postgres).
  - destruct (fails PgReady); [done|]. destruct (Open _ _ _).2; [|done]. destruct (has_field _ Store) eqn:Hs; [|done]. cbn [negb].
    destruct (fails LastPing); [done|]. by intros [= <-].
  - destruct (has_field d Store) eqn:Hs; [|done]. cbn [negb]. destruct (fails LastPing); [done|]. by intros [= <-].
Qed.
Lemma grpc_done d d' : startGRPCServer fails d = (d', None) -> d' = hold GrpcServer_ (note_event (Opened GrpcServer_) d).
Proof. unfold startGRPCServer. destruct (fails NewGrpc); [done|]. destruct (fails StartGrpc); [done|]. by intros [= <-]. Qed.
Lemma ssh_done d d' : startSSHServer fails d = (d', None) -> d' = hold SshServer (note_event (Opened SshServer) d).
Proof. unfold startSSHServer. destruct (fails NewSsh); [done|]. destruct (fails StartSsh); [done|]. by intros [= <-]. Qed.

(** The components of a configuration, in the order they are started. *)
Definition wanted_components : list Component :=
  ((if (Server_PIDFile (Bibd_Server cfg) =?= "") || fails WritePID then [] else [PidFile]) ++
   (if TLS_Enabled (Server_TLS (Bibd_Server cfg)) || TLS_AutoGenerate (Server_TLS (Bibd_Server cfg)) then [CertManager_] else []) ++
   [if managed then Postgres else Store] ++
   (if P2P_Enabled (Bibd_P2P cfg) then [Host; Discovery_; ModeManager_] else []) ++
   (if Cluster_Enabled (Bibd_Cluster cfg) then [ClusterStorage; ClusterTransport; ClusterRaft] else []) ++
   (if managed then [Store] else []) ++
   (if GRPC_Enabled (Server_GRPC (Bibd_Server cfg)) then [GrpcServer_] else []) ++
   (if SSH_Enabled (Bibd_SSH cfg) then [SshServer] else []))%list.

(** The fields of the daemon. *)
Definition fields (l : list Component) : list Component := filter (fun c => c ∉ [PidFile; ClusterStorage; ClusterTransport]) l.

Lemma start_done connStr d :
  Daemon_Start fails pgRuntime fallbackRuntime false env cfg connStr NewDaemon = (d, None) ->
  d = mkDaemon true true true (fields wanted_components) (map Opened wanted_components).
Proof.
  unfold Daemon_Start. change (D_running NewDaemon) with false. cbn iota. destruct (fails LoadIdentity); [done|].
  intros H. apply step_done in H as (d1 & H1 & H). apply step_done in H as (d2 & H2 & H). apply step_done in H as (d3 & H3 & H).
  apply step_done in H as (d4 & H4 & H). apply step_done in H as (d5 & H5 & H). apply step_done in H as (d6 & H6 & H).
  apply step_done in H as (d7 & H7 & [= <-]). apply storage_done in H2. cbv zeta in H2. apply wait_done in H5 as [H5 Hs].
  unfold writePIDFile in H1. unfold wanted_components.
  destruct (Server_PIDFile (Bibd_Server cfg) =?= ""), (fails WritePID); cbn [orb];
  (destruct (TLS_Enabled (Server_TLS (Bibd_Server cfg)) || TLS_AutoGenerate (Server_TLS (Bibd_Server cfg)));
   [apply certs_done in H1|]; subst d1);
  (destruct (P2P_Enabled (Bibd_P2P cfg)); [apply p2p_done in H3|]; subst d3);
  (destruct (Cluster_Enabled (Bibd_Cluster cfg)); [apply cluster_done in H4|]; subst d4);
  (destruct (GRPC_Enabled (Server_GRPC (Bibd_Server cfg))); [apply grpc_done in H6|]; subst d6);
  (destruct (SSH_Enabled (Bibd_SSH cfg)); [apply ssh_done in H7|]; subst d7);
  subst d5; clear Hs; destruct managed; subst d2; vm_compute; reflexivity.
Qed.

Lemma wanted_live : NoDup wanted_components /\ fold_left log_step (map Opened wanted_components) [] = wanted_components.
Proof.
  unfold wanted_components. destruct (_ || _), (_ || _), managed, (P2P_Enabled _), (Cluster_Enabled _), (GRPC_Enabled _), (SSH_Enabled _);
    (split; [apply (bool_decide_unpack _)|]; vm_compute; exact I || reflexivity).
Qed.

(** A start that succeeds has started the components of the configuration, each once and in
    their order, and has closed none. *)
Theorem started_components connStr d :
  Daemon_Start fails pgRuntime fallbackRuntime false env cfg connStr NewDaemon = (d, None) ->
  D_running d = true /\ D_log d = map Opened wanted_components /\ live d = wanted_components /\ NoDup wanted_components.
Proof. intros ->%start_done. destruct wanted_live as [Hd Hl]. by split_and!. Qed.

End start_stop.

(** C32: a start that fails, at whichever step, leaves the daemon not running and every
    component it had started closed again; only the PID file may stay.  This is so as long as
    no call to close a component fails, the bootstrap or join of the cluster is not what
    fails, and a managed database that did not become ready was not left running. *)
Theorem failed_start_undone fails pgRuntime fallbackRuntime env cfg connStr d e
    (Hcloses : forall c, fails (Close c) = false)
    (Hboot : fails BootstrapCluster = false) (Hjoin : fails JoinCluster = false)
    (Hstart : Daemon_Start fails pgRuntime fallbackRuntime false env cfg connStr NewDaemon = (d, Some e)) :
  D_running d = false /\ forall c, c ∈ live d -> c = PidFile.
Proof. exact (start_undone fails pgRuntime fallbackRuntime env cfg Hcloses connStr d e (conj Hboot Hjoin) Hstart). Qed.

(** *** The stop *)

Definition stop_order : list Component :=
  [SshServer; GrpcServer_; ClusterRaft; ClusterTransport; ClusterStorage; ModeManager_; Discovery_; Host; Store; Postgres; CertManager_; PidFile].

Section stop.
Variable fails : Call -> bool.
Variable cfg : BibdConfig.

(** The components a stop closes: those whose closing does not fail, and the gRPC server
    always. *)
Definition closing (c : Component) : bool := negb (fails (Close c)) || bool_decide (c = GrpcServer_).

Definition present (d : Daemon) (c : Component) : bool := has_field d (field_of c).

(** [stop] tries to close each component of [cs] that is there, in this order. *)
Definition stops_as (stop : Daemon -> Daemon * list Call) (cs : list Component) : Prop :=
  forall d,
    D_log (stop d).1 = (D_log d ++ map Closed (List.filter (fun c => present d c && closing c) cs))%list /\
    (stop d).2 = map Close (List.filter (fun c => present d c && fails (Close c)) cs) /\
    forall x, (x ∉ map field_of cs) -> has_field (stop d).1 x = has_field d x.

Lemma has_drop d c x : x <> c -> has_field (drop_field c d) x = has_field d x.
Proof.
  intros Hne. unfold has_field. apply eq_iff_eq_true. rewrite !mem_true. cbn. rewrite list_elem_of_filter. tauto.
Qed.

Lemma stop_field_as c : field_of c = c -> c <> GrpcServer_ -> stops_as (stop_field fails c) [c].
Proof.
  intros Hf Hg d. unfold stop_field, present, closing, close. cbn. rewrite Hf, (bool_decide_eq_false_2 (c = GrpcServer_)), orb_false_r by done.
  destruct (has_field d c), (fails (Close c)) eqn:He; cbn; rewrite ?app_nil_r; (split_and!; [done|done|]); intros x Hx;
    try done; apply has_drop; set_solver.
Qed.

Lemma stops_then f g cs1 cs2 : stops_as f cs1 -> stops_as g cs2 ->
  Forall (fun c => field_of c ∉ map field_of cs1) cs2 ->
  stops_as (fun d => ((g (f d).1).1, ((f d).2 ++ (g (f d).1).2)%list)) (cs1 ++ cs2).
Proof.
  intros Hf Hg Hdis d. destruct (Hf d) as (Hl1 & He1 & Hk1), (Hg (f d).1) as (Hl2 & He2 & Hk2).
  assert (forall p : Component -> bool, List.filter (fun c => present (f d).1 c && p c) cs2 = List.filter (fun c => present d c && p c) cs2) as Hp.
  { intros p. apply List.filter_ext_in. intros c Hc. unfold present. rewrite Hk1; [done|].
    rewrite Forall_forall in Hdis. by apply Hdis, list_elem_of_In. }
  cbn [fst snd]. rewrite !List.filter_app, !map_app, Hl2, Hl1, He2, He1, !Hp, <- app_assoc. split_and!; [done|done|].
  intros x Hx. rewrite elem_of_app in Hx. rewrite Hk2, Hk1; tauto.
Qed.

Lemma stops_ext f g cs : (forall d, f d = g d) -> stops_as g cs -> stops_as f cs.
Proof. intros He Hg d. rewrite He. apply Hg. Qed.

(** A stop that keeps the field when the closing fails. *)
Lemma stop_keeping_as c (stop : Daemon -> Daemon * list Call) : field_of c = c -> c <> GrpcServer_ ->
  (forall d, stop d = if has_field d c then
                        if fails (Close c) then (d, [Close c]) else (drop_field c (note_event (Closed c) d), [])
                      else (d, [])) ->
  stops_as stop [c].
Proof.
  intros Hf Hg Hs d. rewrite Hs. unfold present, closing. cbn. rewrite Hf, (bool_decide_eq_false_2 (c = GrpcServer_)), orb_false_r by done.
  destruct (has_field d c), (fails (Close c)) eqn:He; cbn; rewrite ?app_nil_r; (split_and!; [done|done|]); intros x Hx;
    try done; apply has_drop; set_solver.
Qed.

Lemma stopSSH_as : stops_as (stopSSHServer fails) [SshServer].
Proof.
  apply stop_keeping_as; [done|done|]. intros d. unfold stopSSHServer, close. destruct (has_field d SshServer); [|done].
  by destruct (fails (Close SshServer)).
Qed.

Lemma stopCertificates_as : stops_as (stopCertificates fails) [CertManager_].
Proof.
  apply stop_keeping_as; [done|done|]. intros d. unfold stopCertificates, close. destruct (has_field d CertManager_); [|done].
  by destruct (fails (Close CertManager_)).
Qed.

Lemma stopGRPC_as : stops_as (stopGRPCServer fails) [GrpcServer_].
Proof.
  intros d. unfold stopGRPCServer, present, closing. cbn. rewrite orb_true_r, andb_true_r.
  destruct (has_field d GrpcServer_), (fails (Close GrpcServer_)); cbn; rewrite ?app_nil_r; (split_and!; [done|done|]);
    intros x Hx; try done; (etransitivity; [apply has_drop; set_solver|done]).
Qed.

Lemma stopStorage_as : stops_as (stopStorage fails) [Store; Postgres].
Proof.
  apply (stops_ext _ (fun d => ((stop_field fails Postgres (stop_field fails Store d).1).1,
    ((stop_field fails Store d).2 ++ (stop_field fails Postgres (stop_field fails Store d).1).2)%list))).
  { intros d. unfold stopStorage. destruct (stop_field fails Store d) as [d1 e1]. cbn. by destruct (stop_field fails Postgres d1). }
  apply (stops_then _ _ [Store] [Postgres]); [by apply stop_field_as|by apply stop_field_as|].
  repeat constructor. apply (bool_decide_unpack _). exact I.
Qed.

Lemma stopP2P_as : stops_as (stopP2P fails) [ModeManager_; Discovery_; Host].
Proof.
  set (f := stop_field fails ModeManager_). set (g := stop_field fails Discovery_). set (h := stop_field fails Host).
  apply (stops_ext _ (fun d => ((h (g (f d).1).1).1, (((f d).2 ++ (g (f d).1).2) ++ (h (g (f d).1).1).2)%list))).
  { intros d. unfold stopP2P. fold f. destruct (f d) as [d1 e1]. cbn. fold g. destruct (g d1) as [d2 e2]. cbn. fold h.
    destruct (h d2) as [d3 e3]. cbn. by rewrite app_assoc. }
  apply (stops_then (fun d => ((g (f d).1).1, ((f d).2 ++ (g (f d).1).2)%list)) _ [ModeManager_; Discovery_] [Host]);
    [apply (stops_then _ _ [ModeManager_] [Discovery_])| |]; try (by apply stop_field_as);
    repeat constructor; apply (bool_decide_unpack _); exact I.
Qed.

Lemma stopCluster_as : stops_as (stopCluster fails) [ClusterRaft; ClusterTransport; ClusterStorage].
Proof.
  intros d. unfold stopCluster, close, present, closing. cbn. destruct (has_field d ClusterRaft) eqn:Hh; [|cbn; by rewrite app_nil_r].
  destruct (fails (Close ClusterRaft)), (fails (Close ClusterTransport)), (fails (Close ClusterStorage)); cbn;
    rewrite <- ?app_assoc, ?app_nil_r; (split_and!; [done|done|]); intros x Hx; try done.
  etransitivity; [apply has_drop; set_solver|done].
Qed.

Lemma stops_cons f l cs1 cs2 : stops_as f cs1 -> stops_as (stop_all l) cs2 ->
  Forall (fun c => field_of c ∉ map field_of cs1) cs2 -> stops_as (stop_all (f :: l)) (cs1 ++ cs2).
Proof.
  intros Hf Hl Hdis. apply (stops_ext _ (fun d => ((stop_all l (f d).1).1, ((f d).2 ++ (stop_all l (f d).1).2)%list))).
  - intros d. apply stop_all_cons.
  - by apply stops_then.
Qed.

Lemma all_stops_as : stops_as (stop_all [stopSSHServer fails; stopGRPCServer fails; stopCluster fails; stopP2P fails;
  stopStorage fails; stopCertificates fails]) (take 11 stop_order).
Proof.
  apply (stops_cons _ _ [SshServer]); [apply stopSSH_as| |repeat constructor; apply (bool_decide_unpack _); exact I].
  apply (stops_cons _ _ [GrpcServer_]); [apply stopGRPC_as| |repeat constructor; apply (bool_decide_unpack _); exact I].
  apply (stops_cons _ _ [ClusterRaft; ClusterTransport; ClusterStorage]);
    [apply stopCluster_as| |repeat constructor; apply (bool_decide_unpack _); exact I].
  apply (stops_cons _ _ [ModeManager_; Discovery_; Host]);
    [apply stopP2P_as| |repeat constructor; apply (bool_decide_unpack _); exact I].
  apply (stops_cons _ _ [Store; Postgres]); [apply stopStorage_as| |repeat constructor; apply (bool_decide_unpack _); exact I].
  apply (stops_cons _ _ [CertManager_] []); [apply stopCertificates_as| |constructor].
  intros d. cbn. by rewrite app_nil_r.
Qed.

(** The fields of a started daemon are those of its components. *)
Lemma present_wanted starting c : c <> PidFile ->
  present (mkDaemon true true true (fields (wanted_components starting cfg)) (map Opened (wanted_components starting cfg))) c =
  mem c (wanted_components starting cfg).
Proof.
  intros Hc. unfold wanted_components, present.
  destruct ((Server_PIDFile (Bibd_Server cfg) =?= "") || starting WritePID),
    (TLS_Enabled (Server_TLS (Bibd_Server cfg)) || TLS_AutoGenerate (Server_TLS (Bibd_Server cfg))), (managed cfg),
    (P2P_Enabled _), (Cluster_Enabled _), (GRPC_Enabled _), (SSH_Enabled _), c; done.
Qed.

Lemma closed_live l cs : fold_left log_step (map Closed cs) l = List.filter (fun c => negb (mem c cs)) l.
Proof.
  revert l. induction cs as [|c cs IH]; intros l; cbn.
  - symmetry. by apply forallb_filter_id, forallb_forall.
  - rewrite IH. induction l as [|x l IHl]; [done|]. rewrite filter_cons. cbn.
    destruct (decide (x = c)) as [->|Hne].
    + rewrite decide_False by tauto. rewrite IHl. cbn. by rewrite bool_decide_true.
    + rewrite decide_True by done. cbn. rewrite bool_decide_false, IHl by done. done.
Qed.

Lemma elem_of_kept {A} (p : A -> bool) l c : c ∈ List.filter p l <-> c ∈ l /\ p c = true.
Proof. by rewrite !list_elem_of_In, filter_In. Qed.

Lemma elem_of_stop_order c : c ∈ stop_order.
Proof. apply (bool_decide_unpack _). by destruct c. Qed.

Lemma removePIDFile_as starting cs d :
  (PidFile ∉ cs) -> live d = List.filter (fun c => negb (mem c cs)) (wanted_components starting cfg) ->
  D_log (removePIDFile fails cfg d) =
    (D_log d ++ map Closed (List.filter (fun c => mem c (wanted_components starting cfg) && closing c) [PidFile]))%list /\
  D_running (with_running false (removePIDFile fails cfg d)) = false.
Proof.
  intros Hcs Hlive. split; [|done].
  assert (mem PidFile (live d) = mem PidFile (wanted_components starting cfg)) as Hm.
  { rewrite Hlive. apply eq_iff_eq_true. rewrite !mem_true, list_elem_of_In, filter_In, <- list_elem_of_In.
    rewrite negb_true_iff, mem_false. tauto. }
  unfold removePIDFile. destruct (Server_PIDFile (Bibd_Server cfg) =?= "") eqn:Hp.
  - assert (mem PidFile (wanted_components starting cfg) = false) as Hn.
    { apply mem_false. unfold wanted_components. rewrite Hp. cbn [orb app].
      destruct (_ || _), (managed cfg), (P2P_Enabled _), (Cluster_Enabled _), (GRPC_Enabled _), (SSH_Enabled _);
        apply (bool_decide_unpack _); exact I. }
    cbn [List.filter]. rewrite Hn. cbn. by rewrite app_nil_r.
  - rewrite Hm. cbn [List.filter]. destruct (mem PidFile (wanted_components starting cfg)); cbn; [|by rewrite app_nil_r].
    unfold close, closing. destruct (fails (Close PidFile)); cbn; by rewrite ?app_nil_r.
Qed.

(** C36: stopping a daemon that was started, whatever fails to close, tries to close everything
    that was started, once and in the order of the stop, and leaves it not running.  The
    errors are those of the components that did not close, the PID file apart; what stays
    open is what did not close, the gRPC server apart, whose listeners close in any case.
    Without a managed database the order of the stop is that of the start reversed. *)
Theorem stop_closes_everything starting pgRuntime fallbackRuntime env connStr d :
  Daemon_Start starting pgRuntime fallbackRuntime false env cfg connStr NewDaemon = (d, None) ->
  let started := wanted_components starting cfg in
  let '(d', errs) := Daemon_Stop fails cfg d in
  D_running d' = false /\
  D_log d' = (map Opened started ++
    map Closed (List.filter (fun c => mem c started && (negb (fails (Close c)) || bool_decide (c = GrpcServer_))) stop_order))%list /\
  errs = map Close (List.filter (fun c => mem c started && fails (Close c))
           [SshServer; GrpcServer_; ClusterRaft; ClusterTransport; ClusterStorage; ModeManager_; Discovery_; Host; Store;
            Postgres; CertManager_]) /\
  (forall c, c ∈ live d' <-> c ∈ started /\ fails (Close c) = true /\ c <> GrpcServer_) /\
  (managed cfg = false -> filter (fun c => c ∈ started) stop_order = reverse started).
Proof.
  intros ->%start_done started. set (d0 := mkDaemon _ _ _ _ _). destruct (all_stops_as d0) as (Hl & He & _).
  unfold Daemon_Stop. change (negb (D_running d0)) with false. cbn iota.
  destruct (stop_all _ d0) as [d1 errs]. cbn [fst snd] in *.
  assert (forall p : Component -> bool, List.filter (fun c => present d0 c && p c) (take 11 stop_order) =
            List.filter (fun c => mem c started && p c) (take 11 stop_order)) as Hp.
  { intros p. apply List.filter_ext_in. intros c Hc. unfold d0. rewrite present_wanted; [done|]. intros ->.
    apply list_elem_of_In in Hc. revert Hc. apply (bool_decide_unpack _). exact I. }
  rewrite Hp in Hl, He. set (cs := List.filter _ _) in Hl.
  destruct (wanted_live starting cfg) as [_ Hw].
  assert (live d1 = List.filter (fun c => negb (mem c cs)) started) as Hlive.
  { unfold live. rewrite Hl, fold_left_app. cbn [d0 D_log]. rewrite Hw. apply closed_live. }
  assert (PidFile ∉ cs) as Hpid.
  { intros [Hin _]%list_elem_of_In%filter_In. apply list_elem_of_In in Hin. revert Hin. apply (bool_decide_unpack _). exact I. }
  destruct (removePIDFile_as starting cs d1 Hpid Hlive) as [Hlog Hrun]. rewrite Hl, <- app_assoc, <- map_app in Hlog.
  unfold cs in Hlog. rewrite <- List.filter_app in Hlog. split_and!; [done|exact Hlog|exact He|..].
  - intros c. unfold live. change (D_log (with_running false ?d)) with (D_log d). rewrite Hlog, fold_left_app.
    cbn [d0 D_log]. rewrite Hw, closed_live, elem_of_kept, negb_true_iff, mem_false. fold started.
    rewrite elem_of_kept, andb_true_iff, mem_true. unfold closing.
    rewrite orb_true_iff, negb_true_iff, bool_decide_eq_true. pose proof (elem_of_stop_order c) as Ho.
    change (take 11 stop_order ++ [PidFile])%list with stop_order. destruct (fails (Close c)); intuition congruence.
  - intros Hm. unfold started, wanted_components. rewrite Hm.
    destruct (_ || _), (_ || _), (P2P_Enabled _), (Cluster_Enabled _), (GRPC_Enabled _), (SSH_Enabled _); by vm_compute.
Qed.
End stop.

(** *** What a failed start or stop leaves *)

Section left_open.
Variable fails : Call -> bool.
Variable pgRuntime fallbackRuntime : string.
Variable env : OpenEnv.
Variable cfg : BibdConfig.
Hypothesis closes : forall c, fails (Close c) = false.

Definition cluster_end (e : DaemonError) : Prop := e = CallFailed BootstrapCluster \/ e = CallFailed JoinCluster.
Definition no_cluster_end (start : Daemon -> Daemon * option DaemonError) : Prop :=
  forall d d' e, start d = (d', Some e) -> ~ cluster_end e.

Ltac other_error := let H := fresh in let E := fresh in intros H E; injection H as _ <-; destruct E; discriminate.

Lemma other_certs : no_cluster_end (initCertificates fails).
Proof.
  intros d d' e. unfold initCertificates. destruct (fails RawPrivateKey); [other_error|]. destruct (fails NewCertManager); [other_error|].
  destruct (fails InitializeCerts); [other_error|done].
Qed.
Lemma other_storage : no_cluster_end (startStorage fails pgRuntime fallbackRuntime false env cfg).
Proof.
  intros d d' e. unfold startStorage. cbv zeta. destruct (negb _); [other_error|]. destruct (ValidateModeBackend _ _); [other_error|].
  destruct (_ && _).
  - unfold startManagedPostgres. destruct (fails NewPgManagerCall); [other_error|]. destruct (fails StartPgManager); [|done].
    destruct (_ && _ && _ && _); [done|other_error].
  - destruct (Open _ _ _).2; [|other_error]. destruct (fails FirstPing); [other_error|done].
Qed.
Lemma other_p2p : no_cluster_end (startP2P fails).
Proof.
  intros d d' e. unfold startP2P. destruct (fails NewHost); [other_error|]. destruct (fails NewDiscovery); [other_error|].
  destruct (fails StartDiscovery); [other_error|]. destruct (fails NewModes); [other_error|]. destruct (fails StartModes); [other_error|done].
Qed.
Lemma other_wait connStr : no_cluster_end (waitForStorageReady fails env cfg connStr).
Proof.
  intros d d' e. unfold waitForStorageReady. destruct (has_field d Postgres).
  - destruct (fails PgReady); [other_error|]. destruct (Open _ _ _).2; [|other_error]. destruct (negb _); [other_error|].
    destruct (fails LastPing); [other_error|done].
  - destruct (negb _); [other_error|]. destruct (fails LastPing); [other_error|done].
Qed.
Lemma other_grpc : no_cluster_end (startGRPCServer fails).
Proof. intros d d' e. unfold startGRPCServer. destruct (fails NewGrpc); [other_error|]. destruct (fails StartGrpc); [other_error|done]. Qed.
Lemma other_ssh : no_cluster_end (startSSHServer fails).
Proof. intros d d' e. unfold startSSHServer. destruct (fails NewSsh); [other_error|]. destruct (fails StartSsh); [other_error|done]. Qed.

Lemma step_other enabled start undo rest d d' e : no_cluster_end start -> keeps_running start -> cluster_end e ->
  step enabled start undo rest d = (d', Some e) -> exists d1, rest d1 = (d', Some e) /\ D_running d1 = D_running d.
Proof.
  intros Hs Hk He. unfold step. destruct enabled; [|by exists d]. pose proof (Hk d) as Hr. destruct (start d) as [d1 [e1|]] eqn:E; [|by exists d1].
  intros [= _ ->]. by destruct (Hs _ _ _ E).
Qed.

(** The stops of the others do not touch the cluster. *)
Lemma cluster_untouched d c : field_of c = ClusterRaft -> c ∈ live d -> c ∈ live (stop_all [stopP2P fails; stopStorage fails; stopCertificates fails] d).1.
Proof.
  intros Hf. assert (Hs : forall x d, field_of x <> ClusterRaft -> c ∈ live d -> c ∈ live (stop_field fails x d).1).
  { intros x d' Hx Hl. unfold stop_field, close. rewrite closes. destruct (has_field d' x); [|done]. cbn [fst].
    change (live (drop_field x ?d)) with (live d). apply live_close. split; [intros ->; done|done]. }
  intros Hl. rewrite !stop_all_cons. cbn [fst snd stop_all fold_left].
  assert (H1 : c ∈ live (stopP2P fails d).1).
  { unfold stopP2P. pose proof (Hs ModeManager_ d ltac:(done) Hl) as H1. destruct (stop_field fails ModeManager_ d) as [d1 ?].
    pose proof (Hs Discovery_ d1 ltac:(done) H1) as H2. destruct (stop_field fails Discovery_ d1) as [d2 ?].
    pose proof (Hs Host d2 ltac:(done) H2) as H3. by destruct (stop_field fails Host d2). }
  assert (H2 : c ∈ live (stopStorage fails (stopP2P fails d).1).1).
  { unfold stopStorage. pose proof (Hs Store _ ltac:(done) H1) as H2. destruct (stop_field fails Store _) as [d1 ?].
    pose proof (Hs Postgres d1 ltac:(done) H2) as H3. by destruct (stop_field fails Postgres d1). }
  rewrite (stopCertificates_is fails closes). destruct (has_field _ CertManager_); [|done]. cbn [fst].
  change (live (drop_field CertManager_ ?d)) with (live d). apply live_close. split; [by intros ->|done].
Qed.

Lemma cluster_failed connStr d e :
  Daemon_Start fails pgRuntime fallbackRuntime false env cfg connStr NewDaemon = (d, Some e) -> cluster_end e ->
  exists d1, D_running d1 = false /\ (startCluster fails cfg d1).2 = Some e /\
    d = (stop_all [stopP2P fails; stopStorage fails; stopCertificates fails] (startCluster fails cfg d1).1).1.
Proof.
  intros H He. revert H. unfold Daemon_Start. change (D_running NewDaemon) with false. cbn iota.
  destruct (fails LoadIdentity); [intros [= _ <-]; by destruct He|].
  intros (d1 & H & R1)%(step_other _ _ _ _ _ _ _ other_certs (runs_certs fails) He).
  apply (step_other _ _ _ _ _ _ _ other_storage (runs_storage fails pgRuntime fallbackRuntime env cfg closes) He) in H as (d2 & H & R2).
  apply (step_other _ _ _ _ _ _ _ other_p2p (runs_p2p fails closes) He) in H as (d3 & H & R3).
  assert (Hr3 : D_running d3 = false).
  { rewrite R3, R2, R1. unfold writePIDFile. by destruct (_ =?= _), (fails WritePID). }
  assert (Hlater : forall d4, ~ step true (waitForStorageReady fails env cfg connStr) [stopCluster fails; stopP2P fails; stopStorage fails; stopCertificates fails]
    (step (GRPC_Enabled (Server_GRPC (Bibd_Server cfg))) (startGRPCServer fails) [stopCluster fails; stopP2P fails; stopStorage fails; stopCertificates fails]
       (fun d => step (SSH_Enabled (Bibd_SSH cfg)) (startSSHServer fails)
          [stopGRPCServer fails; stopCluster fails; stopP2P fails; stopStorage fails; stopCertificates fails]
          (fun d => (with_running true d, None)) (with_auth d))) d4 = (d, Some e)).
  { intros d4 (d5 & H5 & _)%(step_other _ _ _ _ _ _ _ (other_wait connStr) (runs_wait fails env cfg connStr) He).
    apply (step_other _ _ _ _ _ _ _ other_grpc (runs_grpc fails) He) in H5 as (d6 & H6 & _).
    by apply (step_other _ _ _ _ _ _ _ other_ssh (runs_ssh fails) He) in H6 as (d7 & H7 & _). }
  revert H. unfold step at 1. destruct (Cluster_Enabled (Bibd_Cluster cfg)); [|by intros ?%Hlater].
  destruct (startCluster fails cfg d3) as [d4 [e4|]] eqn:E; [|by intros ?%Hlater].
  intros [= <- ->]. exists d3. by rewrite E.
Qed.

(** A start that fails while the cluster is bootstrapped or joined leaves its storage, its
    transport and its node open, with no field of the daemon for them: a stop does
    nothing. *)
Theorem failed_bootstrap_leaves_cluster connStr d e :
  Daemon_Start fails pgRuntime fallbackRuntime false env cfg connStr NewDaemon = (d, Some e) -> cluster_end e ->
  (ClusterStorage ∈ live d /\ ClusterTransport ∈ live d /\ ClusterRaft ∈ live d) /\ Daemon_Stop fails cfg d = (d, []).
Proof.
  intros H He. destruct (cluster_failed connStr d e H He) as (d1 & Hr & Hc & ->).
  assert (Hl : forall c, field_of c = ClusterRaft -> c ∈ live (startCluster fails cfg d1).1).
  { intros c Hf. revert Hc. unfold startCluster, openCluster. destruct (fails NewCluster); [intros [= <-]; by destruct He|].
    destruct (fails OpenClusterStorage); [intros [= <-]; by destruct He|]. destruct (fails OpenTransport); [intros [= <-]; by destruct He|].
    destruct (fails NewRaft); [intros [= <-]; by destruct He|].
    assert (Hin : c ∈ live (note_event (Opened ClusterRaft) (note_event (Opened ClusterTransport) (note_event (Opened ClusterStorage) d1)))).
    { rewrite !live_open. destruct c; try discriminate Hf; tauto. }
    destruct (_ && _); [by intros _|]. destruct (_ && _); [by intros _|done]. }
  split; [split_and!; by apply cluster_untouched, Hl|]. unfold Daemon_Stop.
  rewrite (keeps_stop_all [stopP2P fails; stopStorage fails; stopCertificates fails]).
  - rewrite (runs_cluster fails cfg closes d1), Hr. done.
  - constructor; [by apply keeps_p2p|constructor; [by apply keeps_storage|constructor; [by apply keeps_certs|constructor]]].
Qed.
End left_open.

(** A stop, whatever fails to close, ends the daemon for good: a second one does nothing. *)
Theorem stop_is_final fails fails2 cfg d :
  let '(d', _) := Daemon_Stop fails cfg d in D_running d' = false /\ Daemon_Stop fails2 cfg d' = (d', []).
Proof.
  unfold Daemon_Stop at 1. destruct (D_running d) eqn:Hr; cbn [negb].
  - destruct (stop_all _ d) as [d1 errs]. split; [done|]. reflexivity.
  - split; [done|]. unfold Daemon_Stop. by rewrite Hr.
Qed.

(** The container runtime is fallen back to only if the runtime was not configured and one
    appears between the two managers. *)
Theorem fallback_needs_new_runtime goos pr1 pr2 cfg nodeID dataDir m1 m2 :
  NewPgManager goos pr1 cfg nodeID dataDir = Ok m1 -> M_runtime m1 = RuntimeKubernetes ->
  NewPgManager goos pr2 cfg nodeID dataDir = Ok m2 -> M_runtime m2 = RuntimeDocker \/ M_runtime m2 = RuntimePodman ->
  LC_Runtime cfg = "" /\ pr_docker_info pr1 = false /\ pr_docker_info pr2 || pr_podman_info pr2 = true.
Proof.
  intros H1 Hk H2 Hc. destruct (made_manager_runtime _ _ _ _ _ _ H1) as (_ & Hset & Hauto & _).
  destruct (made_manager_runtime _ _ _ _ _ _ H2) as (_ & Hset2 & Hauto2 & _).
  destruct (decide (LC_Runtime cfg = "")) as [He|He].
  - split; [done|]. specialize (Hauto He). specialize (Hauto2 He). destruct (pr_docker_info pr1); [by rewrite Hauto in Hk|]. split; [done|].
    destruct (pr_docker_info pr2), (pr_podman_info pr2); try done. destruct Hauto2 as [Hr _]. rewrite Hr in Hc. by destruct Hc.
  - specialize (Hset2 He). rewrite Hset2, <- (Hset He), Hk in Hc. by destruct Hc.
Qed.

(** *** The lock *)

Definition lock_inv (s : LockState) : Prop :=
  match ls_phase s with Locked | Draining => (1 <= ls_waiting s)%nat | TimedOut => True | Serving | Drained => False end.
Lemma lock_inv_step s s' : lock_step s s' -> lock_inv s -> lock_inv s'.
Proof. destruct 1; cbn; try lia; try done. by destruct H as [-> | ->]; cbn; [|lia]. Qed.

(** A health check that is waiting for the lock while the daemon stops keeps the server's
    calls from draining: the stop of the server runs into its timeout. *)
Theorem waiting_check_forces_timeout n s :
  rtc lock_step (mkLockState Locked (S n)) s ->
  ls_phase s <> Drained /\ (ls_phase s = Draining -> forall s', lock_step s s' -> ls_phase s' = TimedOut).
Proof.
  intros Hr. assert (Hi : lock_inv s).
  { apply (rtc_ind_r (R := lock_step) lock_inv (mkLockState Locked (S n))); [cbn; lia| |exact Hr].
    intros y z _ Hs Hy. by eapply lock_inv_step. }
  destruct s as [ph k]. split; [intros Hd; cbn in Hd; subst; done|]. cbn. intros -> s' Hs. inversion Hs; subst; cbn in *; try done.
  - match goal with H : _ \/ _ |- _ => destruct H; discriminate end.
  - lia.
Qed.

(** *** Witnesses *)

Definition no_failure (c : Call) : bool := false.
Definition one_failure (c : Call) : Call -> bool :=
  match c with
  | StartGrpc => fun x => match x with StartGrpc => true | _ => false end
  | BootstrapCluster => fun x => match x with BootstrapCluster => true | _ => false end
  | _ => fun _ => false
  end.
Definition default_cfg : BibdConfig := DefaultBibdConfig "linux".
(** The defaults with a cluster that is bootstrapped. *)
Definition cluster_cfg : BibdConfig :=
  let c := default_cfg in
  mkBibdConfig (Bibd_Log c) (Bibd_Identity c) (Bibd_Server c) (Bibd_SSH c) (Bibd_Auth c) (Bibd_P2P c)
    (mkClusterSection true "" "bib-cluster" "" "0.0.0.0:4002" "" true true "" [] false (Cluster_Raft (Bibd_Cluster c)) (Cluster_Snapshot (Bibd_Cluster c)))
    (Bibd_Database c).

Lemma failed_start_undone_witness :
  live (Daemon_Start (one_failure StartGrpc) "" "" false env0 default_cfg "" NewDaemon).1 = [PidFile] /\
  D_running (Daemon_Start (one_failure StartGrpc) "" "" false env0 default_cfg "" NewDaemon).1 = false.
Proof.
  split; [vm_compute; reflexivity|].
  assert (H : Daemon_Start (one_failure StartGrpc) "" "" false env0 default_cfg "" NewDaemon =
    ((Daemon_Start (one_failure StartGrpc) "" "" false env0 default_cfg "" NewDaemon).1, Some (CallFailed StartGrpc))) by (vm_compute; reflexivity).
  destruct (failed_start_undone (one_failure StartGrpc) "" "" env0 default_cfg "" _ _ (fun _ => eq_refl) eq_refl eq_refl H) as [Hr _].
  exact Hr.
Defined.

Lemma default_starts : Daemon_Start no_failure "" "" false env0 default_cfg "" NewDaemon =
  ((Daemon_Start no_failure "" "" false env0 default_cfg "" NewDaemon).1, None).
Proof. vm_compute. reflexivity. Qed.
Lemma started_components_witness :
  live (Daemon_Start no_failure "" "" false env0 default_cfg "" NewDaemon).1 =
  [PidFile; Store; Host; Discovery_; ModeManager_; GrpcServer_; SshServer].
Proof.
  destruct (started_components no_failure "" "" env0 default_cfg "" _ default_starts) as (_ & _ & Hl & _). rewrite Hl. vm_compute. reflexivity.
Defined.
Definition store_stays (c : Call) : bool := match c with Close Store => true | _ => false end.
Lemma stop_closes_everything_witness :
  D_log (Daemon_Stop store_stays default_cfg (Daemon_Start no_failure "" "" false env0 default_cfg "" NewDaemon).1).1 =
  (map Opened [PidFile; Store; Host; Discovery_; ModeManager_; GrpcServer_; SshServer] ++
   map Closed [SshServer; GrpcServer_; ModeManager_; Discovery_; Host; PidFile])%list.
Proof.
  pose proof (stop_closes_everything store_stays default_cfg no_failure "" "" env0 "" _ default_starts) as H.
  destruct (Daemon_Stop store_stays default_cfg _) as [d' errs]. destruct H as (_ & Hlog & _). cbn [fst]. rewrite Hlog. reflexivity.
Defined.
Lemma failed_bootstrap_leaves_cluster_witness :
  ClusterRaft ∈ live (Daemon_Start (one_failure BootstrapCluster) "" "" false env0 cluster_cfg "" NewDaemon).1.
Proof.
  assert (H : Daemon_Start (one_failure BootstrapCluster) "" "" false env0 cluster_cfg "" NewDaemon =
    ((Daemon_Start (one_failure BootstrapCluster) "" "" false env0 cluster_cfg "" NewDaemon).1, Some (CallFailed BootstrapCluster))) by (vm_compute; reflexivity).
  destruct (failed_bootstrap_leaves_cluster (one_failure BootstrapCluster) "" "" env0 cluster_cfg (fun _ => eq_refl) "" _ _ H) as [(_ & _ & Hl) _];
    [by left|exact Hl].
Defined.
Lemma waiting_check_forces_timeout_witness : ls_phase (mkLockState TimedOut 1) <> Drained.
Proof.
  assert (Hr : rtc lock_step (mkLockState Locked 1) (mkLockState TimedOut 1))
    by (eapply rtc_l; [apply ls_drain|eapply rtc_l; [apply ls_timeout|reflexivity]]).
  exact (proj1 (waiting_check_forces_timeout 0 _ Hr)).
Defined.

Definition probes_without : Probes := mkProbes false false (fun _ => false) true "/root".
Definition probes_with : Probes := mkProbes true false (fun _ => false) true "/root".
Lemma fallback_needs_new_runtime_witness : LC_Runtime (DefaultLifecycleConfig "linux") = "".
Proof.
  destruct (NewPgManager "linux" probes_without (DefaultLifecycleConfig "linux") "n" "/d") as [m1|] eqn:H1; [|discriminate H1].
  destruct (NewPgManager "linux" probes_with (DefaultLifecycleConfig "linux") "n" "/d") as [m2|] eqn:H2; [|discriminate H2].
  apply (fallback_needs_new_runtime "linux" probes_without probes_with (DefaultLifecycleConfig "linux") "n" "/d" m1 m2 H1); [|exact H2|].
  - injection H1 as <-. reflexivity.
  - injection H2 as <-. left. reflexivity.
Defined.

Lemma managed_connection_round_trip_witness :
  PG_Advanced (ST_Postgres (managed_store_config (ST_Postgres (convertStorageConfig default_cfg))
    (conn_text "/var/lib/bibd/postgres/run" 5432 "c0ffee00c0ffee00" "disable"))) =
  Some (mkPostgresAdvancedConfig "/var/lib/bibd/postgres/run" 5432 "bibd" "postgres" "c0ffee00c0ffee00" "disable").
Proof.
  set (m := with_credentials manager0 (mkPgCredentials "c0ffee00c0ffee00" "" "" "" "" "" "" 0)).
  apply (managed_connection_round_trip m None "" _ _ (mkPgCredentials "c0ffee00c0ffee00" "" "" "" "" "" "" 0)); try (vm_compute; reflexivity).
  - vm_compute. discriminate.
  - vm_compute. split; [intros ?; discriminate|reflexivity].
  - apply plain_text. vm_compute. reflexivity.
  - apply plain_text. vm_compute. reflexivity.
Defined.

(** A data directory with a blank in its name is cut off. *)
Example blank_in_data_directory :
  PG_Advanced (ST_Postgres (managed_store_config (ST_Postgres (convertStorageConfig default_cfg))
    (conn_text "/home/a b/run" 5432 "c0ffee" "disable"))) =
  Some (mkPostgresAdvancedConfig "/home/a" 5432 "bibd" "postgres" "c0ffee" "disable").
Proof. vm_compute. reflexivity. Qed.

(** The storage and the audit trail know the node by two names. *)
Example two_node_ids :
  let d := (Daemon_Start no_failure "" "" false env0 default_cfg "" NewDaemon).1 in
  Daemon_NodeID default_cfg "12D3KooW" d = "12D3KooW" /\ storage_node_id default_cfg = "standalone".
Proof. vm_compute. split; reflexivity. Qed.

(** Where the cluster does not stop, its field stays, and the daemon says it has stopped. *)
Example cluster_left_by_stop :
  let fails c := match c with Close ClusterTransport => true | _ => false end in
  let d := (Daemon_Start fails "" "" false env0 cluster_cfg "" NewDaemon).1 in
  let '(d', errs) := Daemon_Stop fails cluster_cfg d in
  errs = [Close ClusterTransport] /\ live d' = [ClusterTransport] /\ has_field d' ClusterRaft = true /\ D_running d' = false.
Proof. vm_compute. split_and!; reflexivity. Qed.

(** The reported address is not the one that is listened on. *)
Example reported_address : ListenAddresses default_cfg = ["0.0.0.0:8080"] /\ grpc_listen_address default_cfg = "0.0.0.0:4000".
Proof. vm_compute. split; reflexivity. Qed.
