(* ===== verification/Health.v ===== *)
(** * The health service ([internal/grpc/services/health/server.go])

    Checks of the components the daemon has, the stream of changes, and the description
    of the node.  The daemon is a record of what it answers; the time is an argument. *)
From stdpp Require Import base gmap strings list pretty.
From Stdlib Require Import ZArith Lia.
From S2P Require Import Prelude GoStrings GoTime Domain RaftStorage Fsm Cluster.
Local Open Scope string_scope.
Local Open Scope Z_scope.
Local Open Scope bool_scope.

(** ** What the daemon answers *)

Record StoreStats := mkStoreStats {
  SS_Healthy : bool;
  SS_DatasetCount : Z;
  SS_TopicCount : Z;
  SS_BytesUsed : Z;
  SS_BytesAvailable : Z
}.
Record StoreView := mkStoreView {
  SV_Ping : option string;
  SV_Backend : string;
  SV_Authoritative : bool;
  SV_Stats : option StoreStats
}.
Record HostView := mkHostView {
  HV_PeerID : string;
  HV_FullAddrs : list string;
  HV_Peers : Z;
  HV_Streams : Z;
  HV_Bandwidth : option (Z * Z)
}.
(** [p2p.DiscoveryHealth]. *)
Record DiscoveryHealth := mkDiscoveryHealth {
  DH_BootstrapConnected : bool;
  DH_BootstrapHealthy : bool;
  DH_MDNSEnabled : bool;
  DH_MDNSHealthy : bool;
  DH_DHTEnabled : bool;
  DH_DHTHealthy : bool;
  DH_DHTRoutingSize : Z;
  DH_KnownPeers : Z;
  DH_ConnectedPeers : Z
}.
Record HealthProvider := mkHealthProvider {
  HP_Running : bool;
  HP_StartedAt : Time;
  HP_NodeID : string;
  HP_NodeMode : string;
  HP_ListenAddresses : list string;
  HP_P2PEnabled : bool;
  HP_ClusterEnabled : bool;
  HP_Store : option StoreView;
  HP_Host : option HostView;
  HP_Discovery : option DiscoveryHealth;
  HP_Cluster : option ClusterStatus
}.

(** [Discovery.GetHealth]: of the bootstrapper, of mDNS and of the table of the DHT, where
    there are any, and of the store of peers. *)
Definition GetHealth (mdnsEnabled dhtEnabled : bool) (bootstrap mdns : option bool) (dht : option Z) (peers : Z) (known : option Z) : DiscoveryHealth :=
  let connected := default false bootstrap in
  mkDiscoveryHealth connected connected mdnsEnabled (if mdnsEnabled then default false mdns else false)
    dhtEnabled (match dht with Some _ => true | None => false end) (default 0 dht) (default 0 known) peers.

(** ** Checks *)

Inductive ServingStatus := StatusUnknown | StatusServing | StatusNotServing.
#[export] Instance ServingStatus_dec : EqDecision ServingStatus.
Proof. solve_decision. Defined.

Record SubHealth := mkSubHealth { SH_Name : string; SH_Healthy : bool; SH_Message : string; SH_LastCheck : Time }.
Record ComponentHealthStatus := mkComponentHealthStatus {
  CH_Status : SubHealth;
  CH_SubComponents : list (string * SubHealth)
}.
Record ComponentHealth := mkComponentHealth { CP_Name : string; CP_Status : ServingStatus; CP_Message : string; CP_LastCheck : Time }.
Record HealthCheckResponse := mkHealthCheckResponse {
  HR_Status : ServingStatus;
  HR_Components : gmap string ComponentHealth;
  HR_Timestamp : Time
}.

Definition componentStatusToProto (s : SubHealth) : ComponentHealth :=
  mkComponentHealth (SH_Name s) (if negb (SH_Healthy s) then StatusNotServing else StatusServing) (SH_Message s) (SH_LastCheck s).
Definition boolToStatus (b : bool) (trueVal falseVal : string) : string := if b then trueVal else falseVal.

Definition checkStorageHealth (p : HealthProvider) (now : Time) : ComponentHealthStatus :=
  match HP_Store p with
  | None => mkComponentHealthStatus (mkSubHealth "storage" false "storage not initialized" now) []
  | Some store =>
      match SV_Ping store with
      | Some err => mkComponentHealthStatus (mkSubHealth "storage" false ("database ping failed: " ++ err) now) [("database", mkSubHealth "database" false err now)]
      | None => mkComponentHealthStatus (mkSubHealth "storage" true "storage operational" now) [("database", mkSubHealth "database" true "connected" now)]
      end
  end.

Definition discovery_subs (h : DiscoveryHealth) (now : Time) : list (string * SubHealth) :=
  ([("bootstrap", mkSubHealth "bootstrap" (DH_BootstrapHealthy h) (boolToStatus (DH_BootstrapConnected h) "connected" "disconnected") now)] ++
   (if DH_MDNSEnabled h then [("mdns", mkSubHealth "mdns" (DH_MDNSHealthy h) (boolToStatus (DH_MDNSHealthy h) "running" "not running") now)] else []) ++
   (if DH_DHTEnabled h then [("dht", mkSubHealth "dht" (DH_DHTHealthy h) ("routing_table_size=" ++ pretty (DH_DHTRoutingSize h))%string now)] else []))%list.

Definition checkP2PHealth (p : HealthProvider) (now : Time) : ComponentHealthStatus :=
  match HP_Host p with
  | None => mkComponentHealthStatus (mkSubHealth "p2p" false "P2P host not initialized" now) []
  | Some host =>
      mkComponentHealthStatus (mkSubHealth "p2p" true "P2P operational" now)
        (("host", mkSubHealth "host" true ("peer_id=" ++ HV_PeerID host) now) ::
         match HP_Discovery p with Some h => discovery_subs h now | None => [] end)
  end.

Definition healthy_members (s : ClusterStatus) : Z :=
  Z.of_nat (length (List.filter ClusterMember_IsHealthy (ClusterStatus_Members s))).

Definition checkClusterHealth (p : HealthProvider) (now : Time) : ComponentHealthStatus :=
  match HP_Cluster p with
  | None => mkComponentHealthStatus (mkSubHealth "cluster" false "cluster not initialized" now) []
  | Some s =>
      let members := Z.of_nat (length (ClusterStatus_Members s)) in
      mkComponentHealthStatus (mkSubHealth "cluster" (ClusterStatus_HasQuorum s) (if ClusterStatus_HasQuorum s then "cluster healthy" else "no quorum") now)
        [("raft", mkSubHealth "raft" (ClusterStatus_HasQuorum s) ("state=" ++ ClusterStatus_State s ++ " term=" ++ pretty (ClusterStatus_Term s)) now);
         ("leadership", mkSubHealth "leadership" (ClusterStatus_Leader s <>? "") ("leader=" ++ ClusterStatus_Leader s) now);
         ("membership", mkSubHealth "membership" (members `quot` 2 + 1 <=? healthy_members s)
            (pretty (healthy_members s) ++ "/" ++ pretty members ++ " healthy") now)]
  end.

(** A component and its parts in the map of the answer. *)
Definition put_component (prefix : string) (s : ComponentHealthStatus) (m : gmap string ComponentHealth) : gmap string ComponentHealth :=
  fold_left (fun m sub => <[prefix ++ "." ++ sub.1 := componentStatusToProto sub.2]> m) (CH_SubComponents s)
    (<[prefix := componentStatusToProto (CH_Status s)]> m).

Definition Check (provider : option HealthProvider) (now : Time) : HealthCheckResponse :=
  match provider with
  | None => mkHealthCheckResponse StatusUnknown ∅ now
  | Some p =>
      if negb (HP_Running p) then mkHealthCheckResponse StatusNotServing ∅ now
      else
        let storage := checkStorageHealth p now in
        let allHealthy := SH_Healthy (CH_Status storage) in
        let m := put_component "storage" storage ∅ in
        let '(allHealthy, m) :=
          if HP_P2PEnabled p then
            let p2p := checkP2PHealth p now in (allHealthy && SH_Healthy (CH_Status p2p), put_component "p2p" p2p m)
          else (allHealthy, m) in
        let '(allHealthy, m) :=
          if HP_ClusterEnabled p then
            let cluster := checkClusterHealth p now in (allHealthy && SH_Healthy (CH_Status cluster), put_component "cluster" cluster m)
          else (allHealthy, m) in
        mkHealthCheckResponse (if negb allHealthy then StatusNotServing else StatusServing) m now
  end.

(** [Watch]: the first check and those of the ticks, until the stream ends or an answer
    cannot be sent. [sends] says whether the [n]th answer is sent. *)
Fixpoint watch_loop (sends : nat -> bool) (n : nat) (last : ServingStatus) (checks : list HealthCheckResponse) : list HealthCheckResponse * bool :=
  match checks with
  | [] => ([], true)
  | resp :: checks' =>
      if HR_Status resp =?= last then watch_loop sends n last checks'
      else if sends n then
        let '(sent, ok) := watch_loop sends (n + 1) (HR_Status resp) checks' in (resp :: sent, ok)
      else ([], false)
  end.
Definition Watch (sends : nat -> bool) (first : HealthCheckResponse) (checks : list HealthCheckResponse) : list HealthCheckResponse * bool :=
  if sends O then let '(sent, ok) := watch_loop sends 1 (HR_Status first) checks in (first :: sent, ok) else ([], false).

(** ** The description of the node *)

Record NetworkInfo := mkNetworkInfo {
  NI_ConnectedPeers : Z; NI_ActiveStreams : Z; NI_BytesSent : Z; NI_BytesReceived : Z; NI_KnownPeers : Z; NI_BootstrapConnected : bool;
  NI_DhtRoutingTableSize : Z
}.
Definition getNetworkInfo (p : HealthProvider) : NetworkInfo :=
  match HP_Host p with
  | None => mkNetworkInfo 0 0 0 0 0 false 0
  | Some h =>
      let '(sent, received) := default (0, 0) (HV_Bandwidth h) in
      match HP_Discovery p with
      | None => mkNetworkInfo (int32 (HV_Peers h)) (int32 (HV_Streams h)) sent received 0 false 0
      | Some d => mkNetworkInfo (int32 (HV_Peers h)) (int32 (HV_Streams h)) sent received (int32 (DH_KnownPeers d)) (DH_BootstrapConnected d)
                    (int32 (DH_DHTRoutingSize d))
      end
  end.

Record StorageInfo := mkStorageInfo {
  SI_Backend : string; SI_IsAuthoritative : bool; SI_Healthy : bool; SI_DatasetCount : Z; SI_TopicCount : Z; SI_BytesUsed : Z; SI_BytesAvailable : Z
}.
Definition getStorageInfo (p : HealthProvider) : StorageInfo :=
  match HP_Store p with
  | None => mkStorageInfo "" false false 0 0 0 0
  | Some s =>
      match SV_Stats s with
      | None => mkStorageInfo (SV_Backend s) (SV_Authoritative s) false 0 0 0 0
      | Some st => mkStorageInfo (SV_Backend s) (SV_Authoritative s) (SS_Healthy st) (SS_DatasetCount st) (SS_TopicCount st) (SS_BytesUsed st)
                     (SS_BytesAvailable st)
      end
  end.

Record ClusterInfo := mkClusterInfo {
  CI_Enabled : bool; CI_Role : string; CI_LeaderId : string; CI_Term : Z; CI_MemberCount : Z; CI_HealthyMembers : Z; CI_State : string
}.
Definition getClusterInfo (p : HealthProvider) : ClusterInfo :=
  match HP_Cluster p with
  | None => mkClusterInfo false "" "" 0 0 0 ""
  | Some s =>
      mkClusterInfo true (ClusterStatus_State s) (ClusterStatus_Leader s) (ClusterStatus_Term s)
        (int32 (Z.of_nat (length (ClusterStatus_Members s)))) (int32 (healthy_members s)) (if ClusterStatus_HasQuorum s then "healthy" else "no_quorum")
  end.

Record GetNodeInfoResponse := mkGetNodeInfoResponse {
  GN_NodeId : string; GN_Mode : string; GN_ListenAddresses : list string; GN_PublicAddresses : list string; GN_StartedAt : Time; GN_Uptime : Duration;
  GN_Components : option (gmap string ComponentHealth); GN_Network : option NetworkInfo; GN_Storage : option StorageInfo; GN_Cluster : option ClusterInfo
}.
Definition GetNodeInfo (provider : option HealthProvider) (started : Time) (components network storage : bool) (now : Time) : GetNodeInfoResponse :=
  match provider with
  | None => mkGetNodeInfoResponse "" "" [] [] started (Sub now started) None None None None
  | Some p =>
      mkGetNodeInfoResponse (HP_NodeID p) (HP_NodeMode p) (HP_ListenAddresses p) (match HP_Host p with Some h => HV_FullAddrs h | None => [] end)
        (HP_StartedAt p) (Sub now (HP_StartedAt p)) (if components then Some (HR_Components (Check provider now)) else None)
        (if network then Some (getNetworkInfo p) else None) (if storage then Some (getStorageInfo p) else None)
        (if HP_ClusterEnabled p then Some (getClusterInfo p) else None)
  end.

(** ** Theorems *)

(** The node serves exactly where the daemon runs, its database answers, and the host and
    a quorum of the cluster are there where the configuration asks for them.  Peers and
    discovery do not count. *)
Theorem serving_iff p now :
  HR_Status (Check (Some p) now) = StatusServing <->
  HP_Running p = true /\ (exists s, HP_Store p = Some s /\ SV_Ping s = None) /\
  (HP_P2PEnabled p = true -> HP_Host p <> None) /\
  (HP_ClusterEnabled p = true -> exists s, HP_Cluster p = Some s /\ ClusterStatus_HasQuorum s = true).
Proof.
  unfold Check. destruct (HP_Running p); cbn [negb]; [|by split; [|intros (? & _)]].
  assert (Hs : SH_Healthy (CH_Status (checkStorageHealth p now)) = true <-> exists s, HP_Store p = Some s /\ SV_Ping s = None).
  { unfold checkStorageHealth. destruct (HP_Store p) as [s|]; [|by split; [|intros (? & ? & _)]].
    destruct (SV_Ping s) eqn:Hp; cbn; split; try done; [intros (s' & [= <-] & ?); congruence|eauto]. }
  assert (Hp : SH_Healthy (CH_Status (checkP2PHealth p now)) = true <-> HP_Host p <> None) by (unfold checkP2PHealth; by destruct (HP_Host p)).
  assert (Hc : SH_Healthy (CH_Status (checkClusterHealth p now)) = true <-> exists s, HP_Cluster p = Some s /\ ClusterStatus_HasQuorum s = true).
  { unfold checkClusterHealth. destruct (HP_Cluster p) as [s|]; [|by split; [|intros (? & ? & _)]]. cbn. split; [eauto|by intros (? & [= <-] & ?)]. }
  destruct (SH_Healthy (CH_Status (checkStorageHealth p now))), (HP_P2PEnabled p), (SH_Healthy (CH_Status (checkP2PHealth p now))),
    (HP_ClusterEnabled p), (SH_Healthy (CH_Status (checkClusterHealth p now))); cbn; intuition congruence.
Qed.

(** The health of a component is the one in the answer, unless a part has its name. *)
Lemma put_component_self prefix s m : put_component prefix s m !! prefix = Some (componentStatusToProto (CH_Status s)).
Proof.
  unfold put_component. assert (Hne : forall n, prefix ++ "." ++ n <> prefix).
  { intros n Hn. apply (f_equal (fun s => length (bytes_of s))) in Hn. rewrite !bytes_of_append, !length_app in Hn. cbn in Hn. lia. }
  set (m' := <[prefix := _]> m). assert (Hm : m' !! prefix = Some (componentStatusToProto (CH_Status s))) by apply lookup_insert_eq.
  clearbody m'. revert m' Hm. induction (CH_SubComponents s) as [|sub l IH]; intros m' Hm; [done|]. cbn [fold_left]. apply IH.
  rewrite lookup_insert_ne; [done|apply Hne].
Qed.

Lemma put_component_other prefix s m k : HasPrefix k prefix = false -> put_component prefix s m !! k = m !! k.
Proof.
  intros Hk. assert (Hne : forall n, prefix ++ n <> k).
  { intros n <-. revert Hk. unfold HasPrefix. rewrite bytes_of_append. intros Hf.
    assert (Ht : is_prefix_of (bytes_of prefix) (bytes_of prefix ++ bytes_of n) = true) by (apply is_prefix_of_spec; eauto). congruence. }
  unfold put_component. set (m' := <[prefix := _]> m).
  assert (Hm : m' !! k = m !! k). { apply lookup_insert_ne. intros Hpk. apply (Hne ""). assert (He : forall t : string, t ++ "" = t) by (intros t; induction t as [|c t IHt]; [done|change (String c (t ++ "") = String c t); by rewrite IHt]). by rewrite He. }
  clearbody m'. revert m' Hm. induction (CH_SubComponents s) as [|sub l IH]; intros m' Hm; [done|]. cbn [fold_left]. apply IH.
  rewrite lookup_insert_ne; [done|]. apply (Hne ("." ++ sub.1)).
Qed.

(** The answer of a node that runs has its three components where the configuration has
    them, and under their own health. *)
Theorem components_reported p now :
  HP_Running p = true ->
  let m := HR_Components (Check (Some p) now) in
  m !! "storage" = Some (componentStatusToProto (CH_Status (checkStorageHealth p now))) /\
  m !! "p2p" = (if HP_P2PEnabled p then Some (componentStatusToProto (CH_Status (checkP2PHealth p now))) else None) /\
  m !! "cluster" = (if HP_ClusterEnabled p then Some (componentStatusToProto (CH_Status (checkClusterHealth p now))) else None).
Proof.
  intros Hr. unfold Check. rewrite Hr. cbn [negb]. set (m0 := put_component "storage" _ ∅).
  assert (H0 : m0 !! "storage" = Some (componentStatusToProto (CH_Status (checkStorageHealth p now))) /\ m0 !! "p2p" = None /\ m0 !! "cluster" = None).
  { split; [apply put_component_self|]. split; unfold m0; by rewrite put_component_other. } clearbody m0. destruct H0 as (Hs & Hp & Hc).
  destruct (HP_P2PEnabled p), (HP_ClusterEnabled p); cbn [HR_Components];
    rewrite ?(put_component_other "cluster"), ?put_component_self, ?(put_component_other "p2p"), ?put_component_self by reflexivity; done.
Qed.

(** The stream sends a status when it changes, and nothing else: what was sent last is
    the status of the last check, and no two answers after each other are the same. *)
Lemma watch_loop_changes checks status n : let '(sent, ok) := watch_loop (fun _ => true) n status checks in
  ok = true /\ (forall r, r ∈ sent -> r ∈ checks) /\
  default status (last (map HR_Status sent)) = default status (last (map HR_Status checks)) /\
  forall i a b, (status :: map HR_Status sent) !! i = Some a -> (status :: map HR_Status sent) !! S i = Some b -> a <> b.
Proof.
  revert status n. induction checks as [|r checks IH]; intros status n.
  - cbn. split_and!; done.
  - cbn [watch_loop map]. rewrite last_cons. destruct (decide (HR_Status r = status)) as [<-|Hne].
    + rewrite bool_decide_eq_true_2 by done. specialize (IH (HR_Status r) n). destruct (watch_loop _ n _ checks) as [sent ok].
      destruct IH as (Hok & Hin & Hl & Ha). split_and!; [done|intros x Hx; right; by apply Hin| |done].
      rewrite Hl. by destruct (last (map HR_Status checks)).
    + rewrite bool_decide_eq_false_2 by done. specialize (IH (HR_Status r) (n + 1)%nat). destruct (watch_loop _ (n + 1) _ checks) as [sent ok].
      destruct IH as (Hok & Hin & Hl & Ha). split_and!; [done|intros x [-> |Hx]%elem_of_cons; [left|right; by apply Hin]| |].
      * cbn [map]. rewrite last_cons. destruct (last (map HR_Status sent)), (last (map HR_Status checks)); cbn in *; congruence.
      * intros [|i] a b; cbn; [intros [= <-] [= <-]; congruence|apply Ha].
Qed.

Theorem watch_sends_changes first checks :
  let '(sent, ok) := Watch (fun _ => true) first checks in
  ok = true /\ head sent = Some first /\ (forall r, r ∈ sent -> r ∈ first :: checks) /\
  last (map HR_Status sent) = last (map HR_Status (first :: checks)) /\
  forall i a b, map HR_Status sent !! i = Some a -> map HR_Status sent !! S i = Some b -> a <> b.
Proof.
  unfold Watch. pose proof (watch_loop_changes checks (HR_Status first) 1) as H. destruct (watch_loop _ 1 _ checks) as [sent ok].
  destruct H as (Hok & Hin & Hl & Ha). split_and!; [done|done| | |exact Ha].
  - intros r [-> |Hr]%elem_of_cons; [left|right; by apply Hin].
  - cbn [map]. rewrite !last_cons. destruct (last (map HR_Status sent)), (last (map HR_Status checks)); cbn in *; congruence.
Qed.

(** Counts that do not fit 32 bits wrap around. *)
Theorem network_counts p h d : HP_Host p = Some h -> HP_Discovery p = Some d ->
  is_i32 (HV_Peers h) -> is_i32 (HV_Streams h) -> is_i32 (DH_KnownPeers d) -> is_i32 (DH_DHTRoutingSize d) ->
  let n := getNetworkInfo p in
  NI_ConnectedPeers n = HV_Peers h /\ NI_ActiveStreams n = HV_Streams h /\ NI_KnownPeers n = DH_KnownPeers d /\
  NI_DhtRoutingTableSize n = DH_DHTRoutingSize d.
Proof.
  intros Hh Hd ? ? ? ?. unfold getNetworkInfo. rewrite Hh, Hd. destruct (default (0, 0) (HV_Bandwidth h)). cbn. by rewrite !int32_id.
Qed.

(** *** Witnesses *)

Definition host0 : HostView := mkHostView "12D3KooW" ["/ip4/10.0.0.1/tcp/4001/p2p/12D3KooW"] 4 9 None.
Definition lonely : DiscoveryHealth := GetHealth true true (Some false) (Some true) None 0 None.
(** Three voters of which two are well, and three others that are not. *)
Definition member_of (id : string) (role : string) (healthy : bool) : ClusterMember :=
  mkClusterMember id "" role StateFollower 0 healthy 0 "".
Definition status0 : ClusterStatus :=
  mkClusterStatus "bib" StateFollower "a" 3 0 0
    [member_of "a" RoleVoter true; member_of "b" RoleVoter true; member_of "c" RoleVoter false;
     member_of "d" RoleNonVoter false; member_of "e" RoleNonVoter false; member_of "f" RoleNonVoter false] 3 3 true.
Definition provider0 (running : bool) : HealthProvider :=
  mkHealthProvider running 0 "n" "full" ["0.0.0.0:8080"] true true (Some (mkStoreView None "postgres" true None)) (Some host0) (Some lonely) (Some status0).

(** A node without a peer, and with half of the members of its cluster ill, serves. *)
Lemma serving_iff_witness : HR_Status (Check (Some (provider0 true)) 0) = StatusServing.
Proof. apply (serving_iff (provider0 true) 0). split_and!; [done|by eexists|done|by eexists]. Defined.
Lemma components_reported_witness : is_Some (HR_Components (Check (Some (provider0 true)) 0) !! "p2p").
Proof. destruct (components_reported (provider0 true) 0 eq_refl) as (_ & Hp & _). cbv zeta in Hp. rewrite Hp. by eexists. Defined.
Lemma network_counts_witness : NI_ConnectedPeers (getNetworkInfo (provider0 true)) = 4.
Proof. apply (network_counts (provider0 true) host0 lonely); done. Defined.

(** The part of the membership is ill while the cluster is well: it counts the members
    that do not vote. *)
Example membership_counts_all :
  let m := HR_Components (Check (Some (provider0 true)) 0) in
  option_map CP_Status (m !! "cluster") = Some StatusServing /\ option_map CP_Status (m !! "cluster.membership") = Some StatusNotServing /\
  option_map CP_Message (m !! "cluster.membership") = Some "2/6 healthy".
Proof. vm_compute. split_and!; reflexivity. Qed.

Example watch_example :
  let r b := Check (Some (provider0 b)) 0 in
  map HR_Status (Watch (fun _ => true) (r false) [r false; r true; r true; r false]).1 = [StatusNotServing; StatusServing; StatusNotServing].
Proof. vm_compute. reflexivity. Qed.
