(* ===== verification/PubSub.v ===== *)
(** * Announcements to all peers ([internal/p2p/pubsub.go])

    The topics a node has joined and subscribed to, the publication of a signed message,
    and the loop that receives, checks and hands over messages.

    GossipSub is the class [GossipLib], of which the code relies on a topic being joined
    once; the keys of libp2p are the class [SignLib], its identifiers [PeerLib].  JSON is
    [JSON PubSubMessage]; payloads come as the bytes they are marshalled to. *)
From stdpp Require Import base gmap sets strings list pretty.
From Stdlib Require Import ZArith Lia Ascii.
From S2P Require Import Prelude GoStrings GoTime GoNumbers Domain Bootstrap Wire.
Local Open Scope string_scope.
Local Open Scope Z_scope.
Local Open Scope bool_scope.

(** ** Data *)

Definition TopicGlobal : string := "/bib/global".
Definition TopicNodes : string := "/bib/nodes".
Definition data_topic (topicID : string) : string := "/bib/topics/" ++ topicID.

Definition PubSubNodeJoin : string := "node_join".
Definition PubSubNodeLeave : string := "node_leave".
Definition PubSubNodeStatus : string := "node_status".
Definition PubSubNewDataset : string := "new_dataset".
Definition PubSubTopicUpdate : string := "topic_update".

Record PubSubMessage := mkPubSubMessage {
  PM_Type : string;
  PM_SenderPeerID : string;
  PM_Timestamp : Time;
  PM_Signature : list Z;
  PM_Payload : list Z
}.
Record PubSubConfig := mkPubSubConfig {
  PSC_MessageSignature : bool;
  PSC_StrictSignature : bool;
  PSC_MaxMessageSize : Z;
  PSC_MessageTTL : Duration
}.
Definition DefaultPubSubConfig : PubSubConfig := mkPubSubConfig true true (1024 * 1024) (5 * Minute).

Class GossipLib := {
  Gossip : Type;
  joined : Gossip -> string -> bool;
  Join : Gossip -> string -> option Gossip;
  Topic_Subscribe : Gossip -> string -> option Gossip;
  Topic_Close : Gossip -> string -> Gossip;
  Join_once g t : joined g t = true -> Join g t = None;
  Join_joins g t g' : Join g t = Some g' -> forall u, joined g' u = (u =?= t) || joined g u;
  Subscribe_keeps g t g' : Topic_Subscribe g t = Some g' -> forall u, joined g' u = joined g u;
  Close_leaves g t u : joined (Topic_Close g t) u = joined g u && (u <>? t)
}.

Class SignLib := {
  PrivKey : Type;
  PubKey : Type;
  GetPublic : PrivKey -> PubKey;
  Priv_Sign : PrivKey -> list Z -> option (list Z);
  Pub_Verify : PubKey -> list Z -> list Z -> option bool;
  ExtractPublicKey : PeerID -> option PubKey;
  Sign_verifies k h s : Priv_Sign k h = Some s -> s <> [] /\ Pub_Verify (GetPublic k) h s = Some true
}.

Section pubsub.
Context {GL : GossipLib} {SL : SignLib} {PL : PeerLib} {CR : Crypto} {JM : JSON PubSubMessage} {Handler : Type}.

Record PubSub := mkPubSub {
  PS_host : PeerID;
  PS_cfg : PubSubConfig;
  PS_identity : option PrivKey;
  PS_lib : Gossip;
  PS_topics : gset string;
  PS_subs : gset string;
  PS_handlers : gmap string (list Handler)
}.
Definition with_lib (p : PubSub) (g : Gossip) (topics subs : gset string) : PubSub :=
  mkPubSub (PS_host p) (PS_cfg p) (PS_identity p) g topics subs (PS_handlers p).

Definition NewPubSub (host : PeerID) (identity : option PrivKey) (g : Gossip) : PubSub :=
  mkPubSub host DefaultPubSubConfig identity g ∅ ∅ ∅.

Inductive PubSubError := JoinFailed | SubscribeFailed | PayloadFailed | SignFailed | MarshalFailed | PublishFailed.

(** ** Subscribing *)

Definition PubSub_Subscribe (topicName : string) (p : PubSub) : PubSub * option PubSubError :=
  if bool_decide (topicName ∈ PS_subs p) then (p, None)
  else match Join (PS_lib p) topicName with
  | None => (p, Some JoinFailed)
  | Some g =>
      match Topic_Subscribe g topicName with
      | None => (with_lib p (Topic_Close g topicName) (PS_topics p ∖ {[topicName]}) (PS_subs p), Some SubscribeFailed)
      | Some g => (with_lib p g (PS_topics p ∪ {[topicName]}) (PS_subs p ∪ {[topicName]}), None)
      end
  end.

Definition PubSub_Unsubscribe (topicName : string) (p : PubSub) : PubSub :=
  let subs := PS_subs p ∖ {[topicName]} in
  if bool_decide (topicName ∈ PS_topics p) then with_lib p (Topic_Close (PS_lib p) topicName) (PS_topics p ∖ {[topicName]}) subs
  else with_lib p (PS_lib p) (PS_topics p) subs.

Definition PubSub_Start (p : PubSub) : PubSub * option PubSubError :=
  match PubSub_Subscribe TopicGlobal p with
  | (p, Some e) => (p, Some e)
  | (p, None) => PubSub_Subscribe TopicNodes p
  end.

Definition OnMessage (topicName : string) (h : Handler) (p : PubSub) : PubSub :=
  mkPubSub (PS_host p) (PS_cfg p) (PS_identity p) (PS_lib p) (PS_topics p) (PS_subs p)
    (<[topicName := (default [] (PS_handlers p !! topicName) ++ [h])%list]> (PS_handlers p)).

(** ** Signing *)

(** [time.Time.UnixNano]: since 1970, in 64 bits. *)
Definition UnixNano (t : Time) : Z := i64 (t - 62135596800 * Second).
Definition signed_content (m : PubSubMessage) : list Z :=
  (string_bytes (PM_Type m ++ ":" ++ PM_SenderPeerID m ++ ":" ++ pretty (UnixNano (PM_Timestamp m))) ++ PM_Payload m)%list.

Definition signMessage (k : PrivKey) (m : PubSubMessage) : option (list Z) := Priv_Sign k (sha256_Sum256 (signed_content m)).

Definition verifyMessage (cfg : PubSubConfig) (m : PubSubMessage) : option bool :=
  if PM_Signature m =?= [] then Some (negb (PSC_StrictSignature cfg))
  else match peer_Decode (PM_SenderPeerID m) with
  | None => None
  | Some sender =>
      match ExtractPublicKey sender with
      | None => None
      | Some pub => Pub_Verify pub (sha256_Sum256 (signed_content m)) (PM_Signature m)
      end
  end.

(** ** Publishing *)

Definition with_signature (m : PubSubMessage) (s : list Z) : PubSubMessage :=
  mkPubSubMessage (PM_Type m) (PM_SenderPeerID m) (PM_Timestamp m) s (PM_Payload m).

(** [sent] says whether the library sends the bytes; they are the answer. *)
Definition PubSub_Publish (topicName msgType : string) (payload : option (list Z)) (now : Time) (sent : bool) (p : PubSub)
    : PubSub * result PubSubError (list Z) :=
  match (if bool_decide (topicName ∈ PS_topics p) then Some p
         else match Join (PS_lib p) topicName with
              | None => None
              | Some g => Some (with_lib p g (PS_topics p ∪ {[topicName]}) (PS_subs p))
              end) with
  | None => (p, Err JoinFailed)
  | Some p =>
      match payload with
      | None => (p, Err PayloadFailed)
      | Some payload =>
          let msg := mkPubSubMessage msgType (ID_String (PS_host p)) now [] payload in
          match (if PSC_MessageSignature (PS_cfg p)
                 then match PS_identity p with Some k => option_map (with_signature msg) (signMessage k msg) | None => Some msg end
                 else Some msg) with
          | None => (p, Err SignFailed)
          | Some msg =>
              if negb (sendable msg) then (p, Err MarshalFailed)
              else (p, if sent then Ok (Marshal msg) else Err PublishFailed)
          end
      end
  end.

(** ** Receiving *)

(** What [sub.Next] answers. *)
Inductive SubEvent := NextFailed | NextMessage (receivedFrom : PeerID) (data : list Z).

(** A message that is handed over to the handlers of its topic. *)
Definition accepted (p : PubSub) (now : Time) (from : PeerID) (data : list Z) : option PubSubMessage :=
  if from =?= PS_host p then None
  else match Unmarshal data with
  | None => None
  | Some m =>
      let ttl := PSC_MessageTTL (PS_cfg p) in
      let age := Sub now (PM_Timestamp m) in
      if (0 <? ttl) && ((ttl <? age) || (age <? - ttl)) then None
      else if PSC_MessageSignature (PS_cfg p) && negb (default false (verifyMessage (PS_cfg p) m)) then None
      else Some m
  end.

(** A turn of the loop: [None] when it ends. *)
Definition handle_turn (topicName : string) (p : PubSub) (alive : bool) (now : Time) (e : SubEvent) : option (list (Handler * PubSubMessage)) :=
  match e with
  | NextFailed => if alive then Some [] else None
  | NextMessage from data =>
      match accepted p now from data with
      | None => Some []
      | Some m => Some (map (fun h => (h, m)) (default [] (PS_handlers p !! topicName)))
      end
  end.
Fixpoint handleMessages (topicName : string) (p : PubSub) (events : list (bool * Time * SubEvent)) : list (Handler * PubSubMessage) * bool :=
  match events with
  | [] => ([], true)
  | (alive, now, e) :: events' =>
      match handle_turn topicName p alive now e with
      | None => ([], false)
      | Some calls => let '(rest, on) := handleMessages topicName p events' in ((calls ++ rest)%list, on)
      end
  end.

Definition AnnounceNodeJoin := PubSub_Publish TopicGlobal PubSubNodeJoin.
Definition AnnounceNodeLeave := PubSub_Publish TopicGlobal PubSubNodeLeave.
Definition AnnounceNewDataset := PubSub_Publish TopicGlobal PubSubNewDataset.
Definition PublishTopicUpdate (topicID : string) := PubSub_Publish (data_topic topicID) PubSubTopicUpdate.
Definition broadcast_status := PubSub_Publish TopicNodes PubSubNodeStatus.

(** ** Theorems *)

(** *** Topics *)

(** What is subscribed to is a topic, and the library has joined the topics. *)
Record pubsub_wf (p : PubSub) : Prop := {
  wf_subs : PS_subs p ⊆ PS_topics p;
  wf_joined t : joined (PS_lib p) t = bool_decide (t ∈ PS_topics p)
}.

Lemma joined_insert g t g' (X : gset string) : Join g t = Some g' -> (forall u, joined g u = bool_decide (u ∈ X)) ->
  forall u, joined g' u = bool_decide (u ∈ X ∪ {[t]}).
Proof.
  intros Hj Hg u. rewrite (Join_joins g t g' Hj), Hg. apply eq_true_iff_eq. rewrite orb_true_iff, !bool_decide_eq_true. set_solver.
Qed.

Lemma Subscribe_wf t p : pubsub_wf p -> pubsub_wf (PubSub_Subscribe t p).1.
Proof.
  intros [Hs Hj]. unfold PubSub_Subscribe. case_bool_decide as Hin; [by split|]. destruct (Join (PS_lib p) t) as [g|] eqn:Eg; [|by split].
  pose proof (joined_insert _ _ _ _ Eg Hj) as Hg. destruct (Topic_Subscribe g t) as [g'|] eqn:Es; cbn.
  - split; cbn; [set_solver|]. intros u. by rewrite (Subscribe_keeps g t g' Es).
  - split; cbn; [set_solver|]. intros u. rewrite Close_leaves, Hg. apply eq_true_iff_eq.
    rewrite andb_true_iff, negb_true_iff, !bool_decide_eq_true, bool_decide_eq_false. set_solver.
Qed.
Lemma Start_wf p : pubsub_wf p -> pubsub_wf (PubSub_Start p).1.
Proof.
  intros Hp. unfold PubSub_Start. pose proof (Subscribe_wf TopicGlobal p Hp). destruct (PubSub_Subscribe TopicGlobal p) as [q [e|]]; [done|].
  by apply Subscribe_wf.
Qed.
Lemma Unsubscribe_wf t p : pubsub_wf p -> pubsub_wf (PubSub_Unsubscribe t p).
Proof.
  intros [Hs Hj]. unfold PubSub_Unsubscribe. case_bool_decide as Hin; split; cbn; [set_solver| |set_solver|exact Hj].
  intros u. rewrite Close_leaves, Hj. apply eq_true_iff_eq. rewrite andb_true_iff, negb_true_iff, !bool_decide_eq_true, bool_decide_eq_false. set_solver.
Qed.
Lemma Publish_wf t ty payload now sent p : pubsub_wf p -> pubsub_wf (PubSub_Publish t ty payload now sent p).1.
Proof.
  intros [Hs Hj]. unfold PubSub_Publish. case_bool_decide as Hin.
  - repeat case_match; by split.
  - destruct (Join (PS_lib p) t) as [g|] eqn:Eg; [|by split]. pose proof (joined_insert _ _ _ _ Eg Hj) as Hg.
    repeat case_match; (split; cbn; [set_solver|exact Hg]).
Qed.

Inductive pubsub_step : PubSub -> PubSub -> Prop :=
| pst_subscribe t p : pubsub_step p (PubSub_Subscribe t p).1
| pst_unsubscribe t p : pubsub_step p (PubSub_Unsubscribe t p)
| pst_publish t ty payload now sent p : pubsub_step p (PubSub_Publish t ty payload now sent p).1
| pst_on_message t h p : pubsub_step p (OnMessage t h p).

(** The three sets agree from the start on. *)
Theorem reachable_wf host identity g p :
  (forall t, joined g t = false) -> rtc pubsub_step (NewPubSub host identity g) p -> pubsub_wf p.
Proof.
  intros Hg Hr. refine (rtc_ind_r (R:=pubsub_step) pubsub_wf (NewPubSub host identity g) _ _ p Hr).
  - split; cbn; [set_solver|]. intros t. by rewrite Hg, bool_decide_eq_false_2 by set_solver.
  - intros y z _ [t q|t q|t ty payload now sent q|t h q] Hy; [by apply Subscribe_wf|by apply Unsubscribe_wf|by apply Publish_wf|].
    destruct Hy as [? ?]. by split.
Qed.

(** A topic that was published to before it was subscribed to cannot be subscribed to any
    more, until it is left. *)
Theorem published_topic_not_subscribable t p :
  pubsub_wf p -> t ∈ PS_topics p -> t ∉ PS_subs p -> PubSub_Subscribe t p = (p, Some JoinFailed).
Proof.
  intros [_ Hj] Ht Hs. unfold PubSub_Subscribe. rewrite bool_decide_eq_false_2 by done. rewrite Join_once; [done|].
  by rewrite Hj, bool_decide_eq_true_2.
Qed.

(** A topic that was left is neither subscribed to nor joined. *)
Theorem unsubscribed_topic t p : pubsub_wf p -> (t ∉ PS_subs (PubSub_Unsubscribe t p)) /\ joined (PS_lib (PubSub_Unsubscribe t p)) t = false.
Proof.
  intros Hwf. pose proof (Unsubscribe_wf t p Hwf) as [_ Hj]. rewrite Hj. destruct Hwf as [Hs _]. unfold PubSub_Unsubscribe.
  case_bool_decide; cbn; (split; [set_solver|]); apply bool_decide_eq_false_2; set_solver.
Qed.

(** The loop of a subscription that was cancelled goes round with nothing to do as long
    as the node lives: [Next] fails at once, each time. *)
Theorem cancelled_subscription_spins t p n now :
  handleMessages t p (replicate n (true, now, NextFailed)) = ([], true).
Proof. induction n as [|n IH]; [done|]. cbn [replicate handleMessages handle_turn]. by rewrite IH. Qed.

(** *** Messages *)

(** Two messages whose fields hold no colon and whose payloads do not begin with a digit
    have the same signed content only if they are the same but for the signature. *)
Definition colonless (s : string) : Prop := Forall (fun c => c <> ":"%char) (bytes_of s).
Definition no_leading_digit (l : list Z) : Prop := match l with b :: _ => ~ (48 <= b <= 57) | [] => True end.

Lemma digits_cut (a b : list ascii) (p q : list Z) :
  Forall (fun c => 48 <= Z.of_N (N_of_ascii c) <= 57) a -> Forall (fun c => 48 <= Z.of_N (N_of_ascii c) <= 57) b ->
  no_leading_digit p -> no_leading_digit q ->
  (map (fun c => Z.of_N (N_of_ascii c)) a ++ p)%list = (map (fun c => Z.of_N (N_of_ascii c)) b ++ q)%list -> a = b /\ p = q.
Proof.
  revert b. induction a as [|x a IH]; intros [|y b] Ha Hb Hp Hq H; cbn in H.
  - by subst.
  - subst p. inversion_clear Hb as [|?? Hy ?]. by destruct (Hp Hy).
  - subst q. inversion_clear Ha as [|?? Hx ?]. by destruct (Hq Hx).
  - injection H as Hxy H. inversion_clear Ha. inversion_clear Hb. destruct (IH b) as [-> ->]; try done. split; [|done]. f_equal.
    apply N2Z.inj in Hxy. rewrite <- (ascii_N_embedding x), <- (ascii_N_embedding y). by rewrite Hxy.
Qed.

Theorem signed_content_injective m m' :
  colonless (PM_Type m) -> colonless (PM_Type m') -> colonless (PM_SenderPeerID m) -> colonless (PM_SenderPeerID m') ->
  0 <= UnixNano (PM_Timestamp m) -> 0 <= UnixNano (PM_Timestamp m') ->
  no_leading_digit (PM_Payload m) -> no_leading_digit (PM_Payload m') ->
  signed_content m = signed_content m' ->
  PM_Type m = PM_Type m' /\ PM_SenderPeerID m = PM_SenderPeerID m' /\ UnixNano (PM_Timestamp m) = UnixNano (PM_Timestamp m') /\
  PM_Payload m = PM_Payload m'.
Proof.
  intros Ht Ht' Hs Hs' Hn Hn' Hp Hp'. unfold signed_content, string_bytes. rewrite !bytes_of_append.
  change (bytes_of ":") with [":"%char]. cbn [app]. intros H.
  set (d := bytes_of (pretty (UnixNano (PM_Timestamp m)))) in *. set (d' := bytes_of (pretty (UnixNano (PM_Timestamp m')))) in *.
  set (f := fun c => Z.of_N (N_of_ascii c)) in *.
  assert (Hf : forall a b (p q : list Z), Forall (fun c => c <> ":"%char) a -> Forall (fun c => c <> ":"%char) b ->
    (map f a ++ f ":"%char :: p = map f b ++ f ":"%char :: q)%list -> a = b /\ p = q).
  { clear. induction a as [|x a IH]; intros [|y b] p q Ha Hb H; cbn [map app] in H.
    - by injection H as ->.
    - injection H as Hxy _. apply N2Z.inj, (f_equal ascii_of_N) in Hxy. rewrite !ascii_N_embedding in Hxy. inversion_clear Hb. congruence.
    - injection H as Hxy _. apply N2Z.inj, (f_equal ascii_of_N) in Hxy. rewrite !ascii_N_embedding in Hxy. inversion_clear Ha. congruence.
    - injection H as Hxy H. apply N2Z.inj, (f_equal ascii_of_N) in Hxy. rewrite !ascii_N_embedding in Hxy. inversion_clear Ha. inversion_clear Hb.
      by destruct (IH b p q) as [-> ->]; [..|subst]. }
  rewrite !map_app in H. cbn [map] in H. rewrite <- !app_assoc in H. cbn [app] in H. apply Hf in H as [Hty H]; [|done..].
  rewrite !map_app in H. cbn [map] in H. rewrite <- !app_assoc in H. cbn [app] in H. apply Hf in H as [Hse H]; [|done..].
  apply digits_cut in H as [Hd Hpay]; [|by apply pretty_is_digits..|done|done].
  split_and!; [by apply (inj String.list_ascii_of_string)|by apply (inj String.list_ascii_of_string)| |done].
  apply pretty_inj; [done|done|]. by apply (inj String.list_ascii_of_string).
Qed.

(** A message that reaches the handlers of a node with the usual settings is not older or
    newer than the limit, and is signed by the key its sender's identifier has. *)
Theorem handled_message_checked p now from data m :
  PS_cfg p = DefaultPubSubConfig -> accepted p now from data = Some m ->
  Unmarshal data = Some m /\ from <> PS_host p /\ - (5 * Minute) <= Sub now (PM_Timestamp m) <= 5 * Minute /\
  PM_Signature m <> [] /\
  exists sender pub, peer_Decode (PM_SenderPeerID m) = Some sender /\ ExtractPublicKey sender = Some pub /\
    Pub_Verify pub (sha256_Sum256 (signed_content m)) (PM_Signature m) = Some true.
Proof.
  intros Hcfg. unfold accepted. rewrite Hcfg. case_bool_decide as Hfrom; [done|]. destruct (Unmarshal data) as [m'|]; [|done].
  cbn [PSC_MessageTTL PSC_MessageSignature DefaultPubSubConfig andb]. change (0 <? 5 * Minute) with true. cbn [andb].
  destruct (Z.ltb_spec (5 * Minute) (Sub now (PM_Timestamp m'))); [done|]. destruct (Z.ltb_spec (Sub now (PM_Timestamp m')) (- (5 * Minute))); [done|].
  cbn [orb]. destruct (negb (default false (verifyMessage DefaultPubSubConfig m'))) eqn:Hv; [done|]. intros [= <-].
  split; [done|]. split; [done|]. split; [lia|]. apply negb_false_iff in Hv. unfold verifyMessage in Hv.
  case_bool_decide as Hs; [done|]. split; [done|]. destruct (peer_Decode _) as [sender|]; [|done].
  destruct (ExtractPublicKey sender) as [pub|] eqn:Hp; [|done]. exists sender, pub. split; [done|]. split; [done|].
  destruct (Pub_Verify _ _ _) as [[|]|]; done.
Qed.

(** What a node publishes, another node that gets it in time hands to the handlers of
    whichever topic it came in on: the signature does not cover the topic. *)
Theorem published_message_accepted t ty payload now p p' data k q later from :
  PubSub_Publish t ty (Some payload) now true p = (p', Ok data) ->
  PS_cfg p = DefaultPubSubConfig -> PS_identity p = Some k -> PS_cfg q = DefaultPubSubConfig ->
  (forall m, sendable m = true -> shown m = m) ->
  peer_Decode (ID_String (PS_host p)) = Some (PS_host p) -> ExtractPublicKey (PS_host p) = Some (GetPublic k) ->
  from <> PS_host q -> now <= later <= now + 5 * Minute ->
  exists m, PM_Payload m = payload /\ PM_Type m = ty /\
    forall topic, handle_turn topic q true later (NextMessage from data) = Some (map (fun h => (h, m)) (default [] (PS_handlers q !! topic))).
Proof.
  intros Hpub Hcp Hid Hcq Hshown Hdec Hkey Hfrom Hlater. revert Hpub. unfold PubSub_Publish.
  assert (Hjoin : forall p1, (if bool_decide (t ∈ PS_topics p) then Some p
     else match Join (PS_lib p) t with None => None | Some g => Some (with_lib p g (PS_topics p ∪ {[t]}) (PS_subs p)) end) = Some p1 ->
     PS_cfg p1 = PS_cfg p /\ PS_identity p1 = PS_identity p /\ PS_host p1 = PS_host p).
  { intros p1. case_bool_decide; [by intros [= <-]|]. destruct (Join (PS_lib p) t); [|done]. by intros [= <-]. }
  destruct (if bool_decide (t ∈ PS_topics p) then _ else _) as [p1|]; [|done]. destruct (Hjoin p1 eq_refl) as (-> & -> & ->).
  rewrite Hcp, Hid. cbn [PSC_MessageSignature DefaultPubSubConfig]. set (m0 := mkPubSubMessage ty (ID_String (PS_host p)) now [] payload).
  destruct (signMessage k m0) as [s|] eqn:Hsig; [|done]. cbn [option_map]. set (m := with_signature m0 s).
  destruct (sendable m) eqn:Hsend; [|done]. cbn [negb]. intros [= _ <-]. exists m. split; [done|]. split; [done|]. intros topic.
  cbn [handle_turn]. apply Sign_verifies in Hsig as [Hne Hver]. unfold accepted. rewrite bool_decide_eq_false_2 by done.
  rewrite Unmarshal_Marshal, Hshown by done. rewrite Hcq. cbn [PSC_MessageTTL PSC_MessageSignature DefaultPubSubConfig andb].
  assert (Hage : Sub later (PM_Timestamp m) = later - now).
  { change (PM_Timestamp m) with now. unfold Sub. unfold Minute, Second, Millisecond in Hlater. lia. }
  rewrite Hage. change (0 <? 5 * Minute) with true. cbn [andb]. rewrite (proj2 (Z.ltb_ge (5 * Minute) _)) by lia.
  rewrite (proj2 (Z.ltb_ge _ (- (5 * Minute)))) by lia. cbn [orb].
  unfold verifyMessage. change (PM_Signature m) with s. rewrite bool_decide_eq_false_2 by done.
  change (PM_SenderPeerID m) with (ID_String (PS_host p)). rewrite Hdec, Hkey.
  change (signed_content m) with (signed_content m0). rewrite Hver. done.
Qed.
End pubsub.


(** ** Witnesses *)

Section witnesses.
#[local] Existing Instance text_peers.

(** The topics joined, each once. *)
#[local] Instance set_gossip : GossipLib.
Proof.
  refine {| Gossip := gset string; joined g t := bool_decide (t ∈ g);
            Join g t := if bool_decide (t ∈ g) then None else Some (g ∪ {[t]});
            Topic_Subscribe g _ := Some g; Topic_Close g t := g ∖ {[t]} |}.
  - intros g t Ht. by rewrite Ht.
  - intros g t g' Hj u. case_bool_decide as Hin; [done|]. injection Hj as <-.
    apply eq_true_iff_eq. rewrite orb_true_iff, !bool_decide_eq_true. set_solver.
  - by intros g t g' [= <-].
  - intros g t u. apply eq_true_iff_eq. rewrite andb_true_iff, negb_true_iff, !bool_decide_eq_true, bool_decide_eq_false. set_solver.
Defined.

(** A key is its holder's identifier; a signature repeats it, and then what is signed. *)
Definition name_signature (k : string) (h : list Z) : list Z := (Zpos (encode k) :: h).
#[local] Instance name_keys : SignLib.
Proof.
  refine {| PrivKey := string; PubKey := string; GetPublic k := k; Priv_Sign k h := Some (name_signature k h);
            Pub_Verify k h s := Some (bool_decide (s = name_signature k h)); ExtractPublicKey id := Some id |}.
  intros k h s [= <-]. split; [done|]. by rewrite bool_decide_eq_true_2.
Defined.
#[local] Instance constant_sum : Crypto.
Proof.
  refine {| sha256_Sum256 _ := replicate 32 0; ed25519_Verify _ _ _ := false |}.
  - intros _. apply length_replicate.
  - intros _. apply Forall_replicate. by vm_compute.
Defined.

#[local] Instance PubSubMessage_eqdec : EqDecision PubSubMessage.
Proof. solve_decision. Defined.
#[local] Instance PubSubMessage_countable : Countable PubSubMessage.
Proof.
  refine (inj_countable' (fun m => (PM_Type m, PM_SenderPeerID m, PM_Timestamp m, PM_Signature m, PM_Payload m))
    (fun '(a, b, c, d, e) => mkPubSubMessage a b c d e) _).
  by intros [].
Defined.
#[local] Instance pubsub_json : JSON PubSubMessage := number_json.

Definition midday_t : Time := 63900000000 * Second.
Definition node_a : PubSub (Handler := nat) := (PubSub_Start (NewPubSub "a" (Some "a") ∅)).1.
Definition node_b : PubSub (Handler := nat) := OnMessage TopicNodes 2%nat (OnMessage TopicGlobal 1%nat (PubSub_Start (NewPubSub "b" (Some "b") ∅)).1).
Definition joined_news : PubSub (Handler := nat) := (PublishTopicUpdate "news" (Some [123; 125]) midday_t true node_a).1.

Lemma node_a_wf : pubsub_wf node_a.
Proof. apply Start_wf. split; cbn; [set_solver|]. intros t. done. Defined.

Lemma reachable_wf_witness : pubsub_wf node_a.
Proof.
  apply (reachable_wf (SL := name_keys) (GL := set_gossip) "a" (Some "a") ∅ node_a).
  - intros t. by vm_compute.
  - unfold node_a. eapply rtc_l; [apply (pst_subscribe TopicGlobal)|]. eapply rtc_l; [apply (pst_subscribe TopicNodes)|]. apply rtc_refl.
Defined.

Lemma published_topic_not_subscribable_witness :
  PubSub_Subscribe (data_topic "news") joined_news = (joined_news, Some JoinFailed).
Proof.
  apply (published_topic_not_subscribable (data_topic "news") joined_news).
  - apply Publish_wf, node_a_wf.
  - by apply (bool_decide_unpack (data_topic "news" ∈ PS_topics joined_news)); vm_compute.
  - by apply (bool_decide_unpack (data_topic "news" ∉ PS_subs joined_news)); vm_compute.
Defined.

Lemma unsubscribed_topic_witness : (TopicNodes ∉ PS_subs (PubSub_Unsubscribe TopicNodes node_a)) /\
  joined (PS_lib (PubSub_Unsubscribe TopicNodes node_a)) TopicNodes = false.
Proof. apply (unsubscribed_topic TopicNodes node_a node_a_wf). Defined.

Definition greeting (s : list Z) : PubSubMessage := mkPubSubMessage PubSubNodeJoin "a" midday_t s [123; 125].

Lemma signed_content_injective_witness :
  PM_Type (greeting []) = PM_Type (greeting [1]) /\ PM_SenderPeerID (greeting []) = PM_SenderPeerID (greeting [1]) /\
  UnixNano (PM_Timestamp (greeting [])) = UnixNano (PM_Timestamp (greeting [1])) /\ PM_Payload (greeting []) = PM_Payload (greeting [1]).
Proof.
  apply (signed_content_injective (greeting []) (greeting [1])); try (by vm_compute); try (repeat constructor; done); cbn; lia.
Defined.

Definition greeting_data : list Z := match (PubSub_Publish TopicGlobal PubSubNodeJoin (Some [123; 125]) midday_t true node_a).2 with Ok d => d | Err _ => [] end.

Lemma handled_message_checked_witness :
  let m := greeting (name_signature "a" (replicate 32 0)) in
  Unmarshal greeting_data = Some m /\ "a" <> PS_host node_b /\ - (5 * Minute) <= Sub (midday_t + Second) (PM_Timestamp m) <= 5 * Minute /\
  PM_Signature m <> [] /\
  exists sender pub, peer_Decode (PM_SenderPeerID m) = Some sender /\ ExtractPublicKey sender = Some pub /\
    Pub_Verify pub (sha256_Sum256 (signed_content m)) (PM_Signature m) = Some true.
Proof.
  apply (handled_message_checked node_b (midday_t + Second) "a" greeting_data).
  - by vm_compute.
  - by vm_compute.
Defined.

Lemma published_message_accepted_witness :
  exists m, PM_Payload m = [123; 125] /\ PM_Type m = PubSubNodeJoin /\
    forall topic, handle_turn topic node_b true (midday_t + Second) (NextMessage "c" greeting_data) =
                  Some (map (fun h => (h, m)) (default [] (PS_handlers node_b !! topic))).
Proof.
  apply (published_message_accepted (SL := name_keys) TopicGlobal PubSubNodeJoin [123; 125] midday_t node_a node_a greeting_data "a" node_b (midday_t + Second) "c").
  - reflexivity.
  - by vm_compute.
  - by vm_compute.
  - by vm_compute.
  - done.
  - done.
  - done.
  - by vm_compute.
  - vm_compute; split; congruence.
Defined.

(** Each node hands what it gets to the handlers of the topic the message came in on. *)
Example two_handlers :
  handleMessages TopicGlobal node_b [(true, midday_t, NextMessage "a" greeting_data)] =
    ([(1%nat, greeting (name_signature "a" (replicate 32 0)))], true) /\
  handleMessages TopicNodes node_b [(true, midday_t, NextMessage "a" greeting_data)] =
    ([(2%nat, greeting (name_signature "a" (replicate 32 0)))], true) /\
  (handleMessages TopicGlobal node_b [(true, midday_t + 6 * Minute, NextMessage "a" greeting_data); (false, midday_t, NextFailed)]).2 = false.
Proof. by vm_compute. Qed.
End witnesses.
